(* ===== verification/_CoqProject ===== *)
-Q . S2P
Prelude.v
Chksum.v
Memp.v
Pbuf.v
PbufSpec.v
PbufData.v
SatSolver.v
TcpApi.v
SatTcp.v
SysArch.v
Timeouts.v
EchoTcp.v
Ethernetif.v
EchoUdp.v
Mem.v
MemSpec.v
MemHeap.v
Ip4Addr.v
PbufRefs.v
Ethernet.v
Etharp.v
EtharpSpec.v
Ip4.v
Ip4Spec.v
Icmp.v
IcmpSpec.v
IpInput.v
IpInputSpec.v
Stack.v
StackEx.v
Netif.v
NetifSpec.v
Boot.v
BootEx.v
Tcp.v
TcpOptSpec.v
TcpWndSpec.v
TcpSpec.v
TcpSeg.v
TcpSegSpec.v
TcpAckSpec.v
TcpTypes.v
TcpOut.v
TcpOutSpec.v
TcpEnqSpec.v
TcpEx.v
