(* ===== verification/Prelude.v ===== *)
(** * Verification of the ecp5-ethernet-soc firmware

    The repository holds a small network node for an FPGA: a RISC-V soft core with an
    Ethernet MAC, two Wishbone peripherals written in Amaranth (soc/), a UDP echo
    firmware (firmware/) and two TCP servers on the lwIP stack (firmware-tcp/). This
    library models the code that is part of the node and proves it correct.

    ** Parts and files

    - [Prelude] (this file): machine integers, the outcome monad of C code, byte memory.
    - [Chksum]: core/inet_chksum.c and the byte order functions of core/def.c.
    - [Memp]: core/memp.c, the fixed-size pools; state: the free list of each pool.
    - [Mem], [MemSpec]: core/mem.c, the first-fit heap; state: the block headers keyed by
      offset, [ram], [lfree] and [ram_end]. [MemHeap]: the heap implements the interface
      [Pbuf.Heap] with the laws [PbufSpec.HeapLaws].
    - [Pbuf], [PbufSpec], [PbufData], [PbufRefs]: core/pbuf.c. The structs live in a store
      keyed by address, the payload bytes in the byte memory, so aliasing and use after
      free are visible. [PbufSpec] has chains and ownership, [PbufData] the bytes of a
      chain, [PbufRefs] the exactness of the reference counts.
    - [Ethernetif]: firmware-tcp/ethernetif.c, the driver of the MAC.
    - [Ip4Addr]: core/ipv4/ip4_addr.c. [Ethernet]: netif/ethernet.c and the interface
      [LinkLaws] to the function behind [netif->linkoutput], which the driver implements.
    - [Etharp], [EtharpSpec]: core/ipv4/etharp.c.
    - [Ip4], [Ip4Spec]: routing and output of core/ipv4/ip4.c, over an interface
      [OutputLaws] to [netif->output], which ARP implements. [Icmp], [IcmpSpec]:
      core/ipv4/icmp.c. [IpInput], [IpInputSpec]: [ip4_input] and [ethernet_input], over
      an interface [TransportLaws] to TCP.
    - [Stack]: driver, ARP, IP and ICMP composed, with the main loop, arriving frames and
      timer ticks as steps of a state machine. [StackEx]: concrete states of it.
    - [Netif], [NetifSpec]: core/netif.c, the list of interfaces; interfaces [AddrChange]
      to TCP and [InitLaws] to a driver's callback. [Boot]: [lwip_init] of core/init.c
      and the calls of [main] that bring up the interface, on the real heap; [BootEx]:
      concrete states of both.
    - [SysArch]: firmware-tcp/sys_arch.c. [Timeouts]: core/timeouts.c.
    - [Tcp]: the control blocks of core/tcp.c in a store keyed by address with the four
      lists that link them, ports, binding and listening, the receive window, and the
      options of core/tcp_in.c. [TcpOptSpec], [TcpWndSpec], [TcpSpec]: their theorems.
      [TcpSeg]: the queues of segments, their release, retransmission (core/tcp_out.c)
      and what [tcp_receive] does with an acknowledgement. [TcpSegSpec], [TcpAckSpec]:
      their theorems. [TcpTypes]: the C types of the members. [TcpOut]: the rest of
      core/tcp_out.c but [tcp_write]: segments without data (empty ACK, RST, keepalive,
      window probe), the SYN and FIN segments that are queued, and [tcp_output].
      [TcpOutSpec], [TcpEnqSpec]: their theorems. [TcpEx]: concrete states.
    - [TcpApi]: the interface to TCP that the servers use.
      [EchoTcp]: firmware-tcp/echo_tcp.c and soc/echo_slave.py. [SatSolver], [SatTcp]:
      soc/sat_solver.py, soc/sat_slave.py, firmware-tcp/sat_tcp.c, host/sat_host.py.
      [EchoUdp]: firmware/echo.c over an interface to libliteeth.

    Frames go from the driver to Ethernet, ARP, IP and TCP, and from the callbacks of the
    servers back; all layers share the packet buffers, which use the pools and the heap;
    the main loop polls the driver and the timeouts.

    ** How code is modelled

    A C function is a function [M S A]: from the state of type [S] it works on to an
    [outcome], which is a result with the new state, a failed [LWIP_ASSERT], an access
    outside live memory, or the end of a loop's fuel. A theorem that an operation is
    [Ok] therefore excludes all three. Integers are [Z]s; casts and arithmetic that can
    wrap are written with [u8], [u16] and [u32]. The configuration is lwipopts.h with
    the defaults of opt.h. Hardware is modelled as one function per clock cycle.

    Fuel: loops over pbuf chains get the number of live structs plus two; a chain visits
    each struct once; loops over control blocks and segments likewise. Heap loops get the
    number of block headers; the timeout loops the length of the list, or the number of
    timers that can be due; waiting for the DMA or the solver the number of cycles the
    device takes. The theorems show that it suffices.

    ** What the theorems show

    Allocation: pools, heap and packet buffers never hand out memory twice, the heap's
    list stays well formed, freeing what was allocated restores the free memory, and
    reference counts are exact. Data: chains copy, truncate, concatenate and search as
    the byte strings they hold; the three checksum routines agree with RFC 1071 on every
    buffer and chain. Time: the timeout list is ordered and every expired timer runs, as
    long as the clock does not wrap as [sys_now] does. Link: the driver transmits and
    receives exactly the bytes of a frame and leaks nothing; the ARP table has at most
    one entry per address, expires entries, resolves what it was told, and keeps every
    queued packet until it is sent or dropped. Network: datagrams are sent with the
    header of RFC 791 on the interface that the routing rule names, exactly the valid
    ones are accepted, echo requests are answered; no sequence of frames, whatever they
    contain, makes the stack below TCP fault, hang or lose a packet. Interfaces: every
    operation keeps the list and the numbers of the interfaces apart, and start-up from
    reset ends in a state to which all of this applies. TCP: the lists of control blocks
    stay well formed, ports do not conflict, a bound block becomes a listener, options
    are parsed as a parser on the byte list would, and the receive window follows an
    unbounded description of the stream, so that no space is announced that the buffer
    does not have and none is withdrawn; acknowledgements free exactly the acknowledged
    segments, timeouts requeue all others in order, purging a connection leaks nothing,
    the congestion window and the round-trip estimate never wrap, and every member keeps
    a value of its C type; empty acknowledgements, keepalives and resets are sent with
    the header of RFC 793 and a valid checksum and leak nothing, and a SYN or FIN is
    queued behind all other segments with the next sequence number, or the queues stay
    as they are and [ERR_MEM] is returned when memory is short. Servers: the echo servers return what they were
    sent; the SAT server answers every well-formed formula correctly and no packet makes
    it fault or hang. Findings are proved or noted where the code departs
    from what it means to do: [Timeouts.timers_stall], [EchoTcp.echo_recv_refused],
    [EchoUdp.echo_udp_overwritten], [MemSpec.mem_trim_end_asserts],
    [NetifSpec.netif_add_full], [TcpSpec.tcp_bind_twice], [TcpSpec.tcp_new_port_wraps],
    [TcpOptSpec.tcp_parseopt_overread], [TcpOutSpec.tcp_rst_spec], and the header reads before the length checks
    that the assumptions of [IpInputSpec] show.

    ** Not modelled

    Of TCP, [tcp_input], the state machine of [tcp_process], the data part of
    [tcp_receive], [tcp_write] and the timers are not modelled; the parts around them
    are proved against interfaces to them. [TcpOut.tcp_output], with
    [TcpOut.tcp_output_segment], [TcpOut.tcp_zero_window_probe] and
    [TcpOut.tcp_send_fin], is modelled and has no theorem. Of core/netif.c the names of
    interfaces are left out. Forwarding, fragments and IP options are switched off by
    the configuration. lwIP's other protocols, its APIs, applications and tests are not
    part of the firmware. The endless loops of the [main] functions, the build scripts,
    start-up code and the measurement scripts are set-up and I/O. The code that the SoC
    build generates and libliteeth are parameters. *)

From Stdlib Require Import ZArith Lia Bool List.
From stdpp Require Import base numbers list gmap option.

Global Set Default Goal Selector "!".

(** [lia] decides divisions and remainders by constants. *)
Ltac Zify.zify_post_hook ::= Z.to_euclidean_division_equations.

(** ** Notation scope of the development

    C integers are [Z]s kept in the range of their type; a cast to an
    unsigned type is written with one of the three wrap functions. *)

Declare Scope c_scope.
Delimit Scope c_scope with c.

Open Scope Z_scope.

Definition u8 (x : Z) : Z := x mod 256.
Definition u16 (x : Z) : Z := x mod 65536.
Definition u32 (x : Z) : Z := x mod 4294967296.

(** The value of a 32-bit word read as a two's-complement [int]. *)
Definition s32 (x : Z) : Z :=
  if u32 x <? 2147483648 then u32 x else u32 x - 4294967296.

(** Bitwise complement at 32 bits, C's [~x] on an [unsigned int]. *)
Definition not32 (x : Z) : Z := Z.lxor (u32 x) 4294967295.

Notation "x '&c' y" := (Z.land x y) (at level 40, left associativity) : c_scope.
Notation "x '|c' y" := (Z.lor x y) (at level 50, left associativity) : c_scope.
Notation "x '>>c' y" := (Z.shiftr x y) (at level 38, left associativity) : c_scope.
Notation "x '<<c' y" := (Z.shiftl x y) (at level 38, left associativity) : c_scope.
Open Scope c_scope.

Definition is_u8 (x : Z) : Prop := 0 <= x < 256.
Definition is_u16 (x : Z) : Prop := 0 <= x < 65536.
Definition is_u32 (x : Z) : Prop := 0 <= x < 4294967296.

Global Instance is_u8_dec x : Decision (is_u8 x).
Proof. unfold is_u8. apply _. Defined.
Global Instance is_u16_dec x : Decision (is_u16 x).
Proof. unfold is_u16. apply _. Defined.
Global Instance is_u32_dec x : Decision (is_u32 x).
Proof. unfold is_u32. apply _. Defined.

(** Byte strings: lists of integers that are bytes. *)
Definition bytes_ok (l : list Z) : Prop := Forall is_u8 l.

Global Instance bytes_ok_dec l : Decision (bytes_ok l).
Proof. unfold bytes_ok. apply _. Defined.

(** ** Range and bit lemmas *)

Create HintDb cint.
Create Rewrite HintDb cint.
Create Rewrite HintDb cbits.

Lemma u8_range x : is_u8 (u8 x).
Proof. unfold is_u8, u8. lia. Qed.
Lemma u16_range x : is_u16 (u16 x).
Proof. unfold is_u16, u16. lia. Qed.
Lemma u32_range x : is_u32 (u32 x).
Proof. unfold is_u32, u32. lia. Qed.
Lemma u8_small x : is_u8 x -> u8 x = x.
Proof. unfold is_u8, u8. lia. Qed.
Lemma u16_small x : is_u16 x -> u16 x = x.
Proof. unfold is_u16, u16. lia. Qed.
Lemma u32_small x : is_u32 x -> u32 x = x.
Proof. unfold is_u32, u32. lia. Qed.

#[export] Hint Resolve u8_range u16_range u32_range : cint.
#[export] Hint Rewrite u8_small u16_small u32_small using (unfold is_u8, is_u16, is_u32; lia) : cint.

Lemma land_ones_mod x n : 0 <= n -> Z.land x (2 ^ n - 1) = x mod 2 ^ n.
Proof.
  intros Hn. rewrite <- Z.land_ones by lia. f_equal.
  rewrite Z.ones_equiv. lia.
Qed.

Lemma land_1 x : Z.land x 1 = x mod 2.
Proof. exact (land_ones_mod x 1 ltac:(lia)). Qed.
Lemma land_3 x : Z.land x 3 = x mod 4.
Proof. exact (land_ones_mod x 2 ltac:(lia)). Qed.
Lemma land_127 x : Z.land x 127 = x mod 128.
Proof. exact (land_ones_mod x 7 ltac:(lia)). Qed.
Lemma land_255 x : Z.land x 255 = x mod 256.
Proof. exact (land_ones_mod x 8 ltac:(lia)). Qed.
Lemma land_32767 x : Z.land x 32767 = x mod 32768.
Proof. exact (land_ones_mod x 15 ltac:(lia)). Qed.
Lemma land_65535 x : Z.land x 65535 = x mod 65536.
Proof. exact (land_ones_mod x 16 ltac:(lia)). Qed.

Lemma shiftr_div x n : 0 <= n -> Z.shiftr x n = x / 2 ^ n.
Proof. apply Z.shiftr_div_pow2. Qed.
Lemma shiftl_mul x n : 0 <= n -> Z.shiftl x n = x * 2 ^ n.
Proof. apply Z.shiftl_mul_pow2. Qed.

(** Masking out a field that does not start at bit 0. *)
Lemma land_field x k n :
  0 <= k -> 0 <= n -> Z.land x ((2 ^ n - 1) * 2 ^ k) = (x / 2 ^ k) mod 2 ^ n * 2 ^ k.
Proof.
  intros Hk Hn. rewrite <- !shiftl_mul, <- shiftr_div, <- land_ones_mod by lia.
  apply Z.bits_inj'. intros i Hi. rewrite Z.land_spec, !Z.shiftl_spec by lia.
  destruct (Z.le_gt_cases k i).
  - rewrite Z.land_spec, Z.shiftr_spec by lia. do 2 f_equal. lia.
  - rewrite !(Z.testbit_neg_r _ (i - k)) by lia. apply andb_false_r.
Qed.

Lemma land_ff00 x : Z.land x 65280 = (x / 256) mod 256 * 256.
Proof. exact (land_field x 8 8 ltac:(lia) ltac:(lia)). Qed.
Lemma land_ff0000 x : Z.land x 16711680 = (x / 65536) mod 256 * 65536.
Proof. exact (land_field x 16 8 ltac:(lia) ltac:(lia)). Qed.
Lemma land_ff000000 x : Z.land x 4278190080 = (x / 16777216) mod 256 * 16777216.
Proof. exact (land_field x 24 8 ltac:(lia) ltac:(lia)). Qed.
Lemma land_ffff0000 x : Z.land x 4294901760 = (x / 65536) mod 65536 * 65536.
Proof. exact (land_field x 16 16 ltac:(lia) ltac:(lia)). Qed.

(** [|] of two values whose bits do not overlap is their sum. *)
Lemma lor_add a b n : 0 <= n -> 0 <= b < 2 ^ n -> a mod 2 ^ n = 0 -> Z.lor a b = a + b.
Proof.
  intros Hn Hb Ha. symmetry. rewrite <- Z.lxor_lor.
  - apply Z.add_nocarry_lxor. apply Z.bits_inj'. intros i Hi.
    rewrite Z.land_spec, Z.bits_0. destruct (Z.lt_ge_cases i n).
    + rewrite <- (Z.mod_pow2_bits_low a n i) by lia. by rewrite Ha, Z.bits_0.
    + rewrite <- (Z.mod_small b (2 ^ n)) by lia.
      rewrite Z.mod_pow2_bits_high by lia. apply andb_false_r.
  - apply Z.bits_inj'. intros i Hi.
    rewrite Z.land_spec, Z.bits_0. destruct (Z.lt_ge_cases i n).
    + rewrite <- (Z.mod_pow2_bits_low a n i) by lia. by rewrite Ha, Z.bits_0.
    + rewrite <- (Z.mod_small b (2 ^ n)) by lia.
      rewrite Z.mod_pow2_bits_high by lia. apply andb_false_r.
Qed.

Lemma lor_add' a b n : 0 <= n -> 0 <= a < 2 ^ n -> b mod 2 ^ n = 0 -> Z.lor a b = a + b.
Proof. intros. rewrite Z.lor_comm, (lor_add b a n) by lia. lia. Qed.

#[export] Hint Rewrite land_1 land_3 land_127 land_255 land_32767 land_65535 land_ff00 land_ff0000
  land_ff000000 land_ffff0000 : cbits.
#[export] Hint Rewrite shiftr_div shiftl_mul using lia : cbits.

(** Turn masks and shifts into arithmetic that [lia] decides. *)
Ltac bits_to_arith :=
  autorewrite with cbits in *;
  change (2 ^ 1) with 2 in *; change (2 ^ 2) with 4 in *; change (2 ^ 4) with 16 in *;
  change (2 ^ 5) with 32 in *; change (2 ^ 7) with 128 in *; change (2 ^ 8) with 256 in *;
  change (2 ^ 16) with 65536 in *; change (2 ^ 24) with 16777216 in *;
  change (2 ^ 31) with 2147483648 in *.

Ltac unfold_widths :=
  unfold is_u8, is_u16, is_u32, u8, u16, u32 in *.

Lemma log2_lt_32 y : 0 <= y < 2 ^ 32 -> Z.log2 y < 32.
Proof.
  intros Hy. destruct (Z.eq_dec y 0) as [->|]; [done|]. apply Z.log2_lt_pow2; lia.
Qed.

Lemma not32_arith x : not32 x = 4294967295 - u32 x.
Proof.
  unfold not32. pose proof (u32_range x) as Hr. unfold is_u32 in Hr.
  change 4294967295 with (Z.ones 32). generalize dependent (u32 x). intros y Hy.
  pose proof (log2_lt_32 y Hy).
  rewrite <- Z.ldiff_ones_l_low by lia. rewrite Z.sub_nocarry_ldiff; [done|].
  apply Z.ldiff_ones_r_low; lia.
Qed.

(** ** Outcomes of C code and the state monad

    A C function is modelled as a function from the state it works on to an
    [outcome]: it returns a value and the new state; or it fails an
    [LWIP_ASSERT], whose platform hook in arch/cc.h spins forever; or it
    accesses memory outside every live object; or a loop uses up the bound the
    model gives it. Only the first outcome is a return. *)
Inductive outcome (A : Type) : Type :=
| Ok (a : A)
| AssertFail
| Fault
| NoFuel.
Arguments Ok {A} a.
Arguments AssertFail {A}.
Arguments Fault {A}.
Arguments NoFuel {A}.

Definition M (S A : Type) : Type := S -> outcome (A * S).

Global Instance M_ret S : MRet (M S) := fun A a s => Ok (a, s).
Global Instance M_bind S : MBind (M S) := fun A B f m s =>
  match m s with
  | Ok (a, s') => f a s'
  | AssertFail => AssertFail
  | Fault => Fault
  | NoFuel => NoFuel
  end.

Section Monad.
Context {S : Type}.

Definition get : M S S := fun s => Ok (s, s).
Definition put (s : S) : M S unit := fun _ => Ok (tt, s).
Definition modify (f : S -> S) : M S unit := fun s => Ok (tt, f s).
Definition gets {A} (f : S -> A) : M S A := fun s => Ok (f s, s).
(** [LWIP_ASSERT(message, b)] *)
Definition assert (b : bool) : M S unit := fun s => if b then Ok (tt, s) else AssertFail.
Definition fault {A} : M S A := fun _ => Fault.
Definition nofuel {A} : M S A := fun _ => NoFuel.
(** A pointer dereference: the object is there, or the access faults. *)
Definition deref {A} (o : option A) : M S A :=
  fun s => match o with Some a => Ok (a, s) | None => Fault end.
Definition run {A} (m : M S A) (s : S) : outcome (A * S) := m s.
End Monad.

Section MonadLemmas.
Context {S : Type}.

Lemma bind_ok {A B} (m : M S A) (f : A -> M S B) s a s' :
  m s = Ok (a, s') -> (m ≫= f) s = f a s'.
Proof. intros H. unfold mbind, M_bind. by rewrite H. Qed.

Lemma bind_inv {A B} (m : M S A) (f : A -> M S B) s r :
  (m ≫= f) s = Ok r -> exists a s', m s = Ok (a, s') /\ f a s' = Ok r.
Proof.
  unfold mbind, M_bind. destruct (m s) as [[a s']| | |]; [|done..]. eauto.
Qed.

Lemma bind_assoc {A B C} (m : M S A) (f : A -> M S B) (g : B -> M S C) s :
  ((m ≫= f) ≫= g) s = (m ≫= (fun a => f a ≫= g)) s.
Proof. unfold mbind, M_bind. by destruct (m s) as [[a s']| | |]. Qed.

Lemma bind_eq {A B} (m m' : M S A) (k : A -> M S B) s s' : m s = m' s' -> (m ≫= k) s = (m' ≫= k) s'.
Proof. intros E. unfold mbind, M_bind. by rewrite E. Qed.
End MonadLemmas.

(** ** Total correctness: the code returns, and what it returns satisfies [Q] *)

Section Runs.
Context {S : Type}.

Definition runs {A} (m : M S A) (s : S) (Q : A -> S -> Prop) : Prop := exists a s', m s = Ok (a, s') /\ Q a s'.

Lemma runs_ok {A} (m : M S A) s a s' (Q : A -> S -> Prop) : m s = Ok (a, s') -> Q a s' -> runs m s Q.
Proof. intros E Hq. exists a, s'. done. Qed.

Lemma runs_ret {A} (a : A) s (Q : A -> S -> Prop) : Q a s -> runs (mret a) s Q.
Proof. by apply runs_ok. Qed.

Lemma runs_bind {A B} (m : M S A) (k : A -> M S B) s Q Q' :
  runs m s Q' -> (forall a s', Q' a s' -> runs (k a) s' Q) -> runs (m ≫= k) s Q.
Proof. intros (a & s' & E & Hq) Hk. destruct (Hk a s' Hq) as (r & t & Et & Ht). exists r, t. by rewrite (bind_ok _ _ _ _ _ E). Qed.

Lemma runs_step {A B} (m : M S A) (k : A -> M S B) s a s' Q :
  m s = Ok (a, s') -> runs (k a) s' Q -> runs (m ≫= k) s Q.
Proof. intros E (r & t & Et & Ht). exists r, t. by rewrite (bind_ok _ _ _ _ _ E). Qed.

Lemma runs_weaken {A} (m : M S A) s (Q Q' : A -> S -> Prop) :
  runs m s Q -> (forall a s', Q a s' -> Q' a s') -> runs m s Q'.
Proof. intros (a & s' & E & Hq) Hw. exists a, s'. auto. Qed.

Lemma runs_gets {A B} (f : S -> A) (k : A -> M S B) s Q : runs (k (f s)) s Q -> runs (gets f ≫= k) s Q.
Proof. by apply runs_step. Qed.

Lemma runs_assert {A} (b : bool) (k : unit -> M S A) s Q : b = true -> runs (k tt) s Q -> runs (assert b ≫= k) s Q.
Proof. intros ->. by apply runs_step. Qed.
End Runs.

(** Run a monadic expression whose first step's result is known. *)
Ltac step_ok H := rewrite (bind_ok _ _ _ _ _ H).
Ltac mrun := cbv [mret mbind M_ret M_bind get put modify gets assert deref fault nofuel] in *.

(** ** Byte memory

    Memory is a finite map from addresses to bytes; an address outside the map
    is not part of a live object and an access to it faults. *)
Abbreviation memory := (gmap Z Z).

Fixpoint load (m : memory) (a : Z) (n : nat) : option (list Z) :=
  match n with
  | O => Some []
  | S k => b ← m !! a; l ← load m (a + 1) k; Some (b :: l)
  end.

Fixpoint store (m : memory) (a : Z) (l : list Z) : option memory :=
  match l with
  | [] => Some m
  | b :: l' =>
      match m !! a with
      | Some _ => store (<[a := b]> m) (a + 1) l'
      | None => None
      end
  end.

(** The [n] bytes from [a] on are all in live memory. *)
Definition valid_range (m : memory) (a : Z) (n : Z) : Prop :=
  forall i, a <= i < a + n -> is_Some (m !! i).

Lemma load_length m a n l : load m a n = Some l -> length l = n.
Proof.
  revert a l. induction n as [|n IH]; intros a l; simpl; [naive_solver|].
  intros (b & Hb & (l' & Hl & [= <-])%bind_Some)%bind_Some. simpl. f_equal. eauto.
Qed.

Lemma load_lookup m a n l i :
  load m a n = Some l -> (i < n)%nat -> m !! (a + Z.of_nat i) = l !! i.
Proof.
  revert a l i. induction n as [|n IH]; intros a l i; simpl; [lia|].
  intros (b & Hb & (l' & Hl & [= <-])%bind_Some)%bind_Some Hi.
  destruct i as [|i]; simpl; [by rewrite Z.add_0_r|].
  rewrite <- (IH (a + 1) l' i) by (done || lia). f_equal. lia.
Qed.

Lemma load_is_Some m a n : valid_range m a (Z.of_nat n) -> is_Some (load m a n).
Proof.
  revert a. induction n as [|n IH]; intros a Hv; simpl; [eauto|].
  destruct (Hv a) as [b Hb]; [lia|]. rewrite Hb. simpl.
  destruct (IH (a + 1)) as [l Hl]; [intros i Hi; apply Hv; lia|]. rewrite Hl. simpl. eauto.
Qed.

Lemma load_ext m1 m2 a n :
  (forall i, a <= i < a + Z.of_nat n -> m1 !! i = m2 !! i) -> load m1 a n = load m2 a n.
Proof.
  revert a. induction n as [|n IH]; intros a H; simpl; [done|].
  rewrite (H a) by lia. destruct (m2 !! a); simpl; [|done].
  rewrite (IH (a + 1)); [done|]. intros i Hi. apply H. lia.
Qed.

Lemma store_is_Some m a l : valid_range m a (Z.of_nat (length l)) -> is_Some (store m a l).
Proof.
  revert m a. induction l as [|b l IH]; intros m a Hv; simpl in *; [eauto|].
  destruct (Hv a) as [c ->]; [lia|]. apply IH. intros i Hi.
  rewrite lookup_insert. case_decide; [eauto|]. apply Hv. lia.
Qed.

Lemma store_outside m a l m' i :
  store m a l = Some m' -> ~ (a <= i < a + Z.of_nat (length l)) -> m' !! i = m !! i.
Proof.
  revert m a. induction l as [|b l IH]; intros m a; simpl; [naive_solver|].
  destruct (m !! a) as [c|]; [|done]. intros H Hi.
  rewrite (IH _ _ H) by lia. apply lookup_insert_ne. lia.
Qed.

Lemma store_inside m a l m' i :
  store m a l = Some m' -> (i < length l)%nat -> m' !! (a + Z.of_nat i) = l !! i.
Proof.
  revert m a i. induction l as [|b l IH]; intros m a i; simpl; [lia|].
  destruct (m !! a) as [c|]; [|done]. intros H Hi. destruct i as [|i]; simpl.
  - rewrite Z.add_0_r. rewrite (store_outside _ _ _ _ _ H) by lia. apply lookup_insert_eq.
  - rewrite <- (IH _ _ i H) by lia. f_equal. lia.
Qed.

Lemma load_eq_list m a l :
  (forall i : nat, (i < length l)%nat -> m !! (a + Z.of_nat i) = l !! i) ->
  load m a (length l) = Some l.
Proof.
  revert a. induction l as [|b l IH]; intros a H; simpl; [done|].
  specialize (H O) as H0. simpl in H0. rewrite Z.add_0_r in H0. rewrite H0 by lia. simpl.
  rewrite IH; [done|]. intros i Hi. specialize (H (S i)). simpl in H.
  rewrite <- H by lia. f_equal. lia.
Qed.

(** Reading back what was just written. *)
Lemma load_store m a l m' : store m a l = Some m' -> load m' a (length l) = Some l.
Proof. intros H. apply load_eq_list. intros i Hi. by apply (store_inside m). Qed.

(** A write elsewhere does not change what a range holds. *)
Lemma load_store_disjoint m a l m' b n :
  store m a l = Some m' ->
  b + Z.of_nat n <= a \/ a + Z.of_nat (length l) <= b -> load m' b n = load m b n.
Proof.
  intros H Hd. apply load_ext. intros i Hi. apply (store_outside m a l); [done|lia].
Qed.

Lemma store_dom m a l m' i : store m a l = Some m' -> is_Some (m' !! i) <-> is_Some (m !! i).
Proof.
  revert m a. induction l as [|b l IH]; intros m a; simpl; [naive_solver|].
  destruct (m !! a) as [c|] eqn:E; [|done]. intros H. rewrite (IH _ _ H), lookup_insert.
  case_decide; [subst; rewrite E; split; eauto|done].
Qed.

Lemma valid_range_store m a l m' b n :
  store m a l = Some m' -> valid_range m b n -> valid_range m' b n.
Proof. intros H Hv i Hi. rewrite store_dom by done. by apply Hv. Qed.

#[export] Hint Resolve load_is_Some store_is_Some load_store valid_range_store : cint.

(** Set bits of a literal mask: used to read status bits out of registers. *)
Lemma testbit_land_pow2 x n : 0 <= n -> negb (Z.land x (2 ^ n) =? 0) = Z.testbit x n.
Proof.
  intros Hn. destruct (Z.testbit x n) eqn:E.
  - apply negb_true_iff, Z.eqb_neq. intros H.
    assert (Z.testbit (Z.land x (2 ^ n)) n = false) as H1 by (rewrite H; apply Z.bits_0).
    rewrite Z.land_spec, E, Z.pow2_bits_true in H1 by lia. done.
  - apply negb_false_iff, Z.eqb_eq, Z.bits_inj'. intros i Hi.
    rewrite Z.land_spec, Z.bits_0. destruct (Z.eq_dec i n) as [->|].
    + by rewrite E.
    + rewrite Z.pow2_bits_false by lia. apply andb_false_r.
Qed.

(** Induction that takes the elements of a list two at a time. *)
Lemma list_pair_ind {A} (P : list A -> Prop) :
  P [] -> (forall a, P [a]) -> (forall a b l, P l -> P (a :: b :: l)) -> forall l, P l.
Proof.
  intros H0 H1 H2. fix IH 1. intros [|a [|b l]]; [done|done|]. apply H2, IH.
Qed.

(** Among as many consecutive values modulo [m] as there are taken ones, and one more,
    one is free; the first such is [i] steps away. *)
Lemma free_slot (m c : Z) (ns : list Z) : Z.of_nat (length ns) < m ->
  exists i, (i <= length ns)%nat /\ (c + Z.of_nat i) mod m ∉ ns /\ forall j, (j < i)%nat -> (c + Z.of_nat j) mod m ∈ ns.
Proof.
  intros Hl. set (f := fun i => (c + Z.of_nat i) mod m).
  assert (forall k, (exists i, (i < k)%nat /\ f i ∉ ns /\ forall j, (j < i)%nat -> f j ∈ ns) \/ forall j, (j < k)%nat -> f j ∈ ns) as Hk.
  { induction k as [|k [(i & Hi & Hx)|Hall]]; [right; lia|left; exists i; split; [lia|done]|].
    destruct (decide (f k ∈ ns)); [right|left; exists k; split; [lia|done]]. intros j Hj. destruct (decide (j = k)) as [->|]; [done|]. apply Hall. lia. }
  destruct (Hk (S (length ns))) as [(i & Hi & Hx)|Hall]; [exists i; split; [lia|done]|exfalso].
  assert (f <$> seq 0 (S (length ns)) ⊆+ ns) as Hsub.
  { apply NoDup_submseteq.
    - apply NoDup_fmap_2_strong; [|apply NoDup_seq]. intros i j Hi%elem_of_seq Hj%elem_of_seq Hij. unfold f in Hij.
      pose proof (Z.div_mod (c + Z.of_nat i) m ltac:(lia)) as E1. pose proof (Z.div_mod (c + Z.of_nat j) m ltac:(lia)) as E2.
      rewrite Hij in E1. assert ((c + Z.of_nat i) / m = (c + Z.of_nat j) / m) by nia. nia.
    - intros x (i & -> & Hi%elem_of_seq)%list_elem_of_fmap. apply Hall. lia. }
  apply submseteq_length in Hsub. rewrite length_fmap, length_seq in Hsub. lia.
Qed.
