(* ===== verification/Chksum.v ===== *)
(** * The Internet checksum: core/inet_chksum.c and byte order: core/def.c

    The three implementations of [lwip_standard_chksum] (the build selects
    number 2), the checksum over a pbuf chain and the TCP/IPv4 pseudo-header
    checksum, each proved equal to the one's complement sum of RFC 1071 over
    the concatenated bytes. A buffer is its address (whose alignment the code
    tests) and the bytes it holds; a pbuf chain is the list of its buffers. *)

From S2P Require Import Prelude.
From stdpp Require Import base numbers list.
Open Scope Z_scope.
Open Scope c_scope.

(** ** Byte order (core/def.c, include/lwip/def.h) *)

Definition PP_HTONS (x : Z) : Z := u16 (((x &c 255) <<c 8) |c ((x &c 65280) >>c 8)).

Definition PP_HTONL (x : Z) : Z :=
  u32 (((x &c 255) <<c 24) |c ((x &c 65280) <<c 8) |c
       ((x &c 16711680) >>c 8) |c ((x &c 4278190080) >>c 24)).

Definition lwip_htons (n : Z) : Z := PP_HTONS n.
Definition lwip_htonl (n : Z) : Z := PP_HTONL n.

(** ** Macros of include/lwip/inet_chksum.h *)

Definition SWAP_BYTES_IN_WORD (w : Z) : Z := ((w &c 255) <<c 8) |c ((w &c 65280) >>c 8).

Definition FOLD_U32T (u : Z) : Z := u32 ((u >>c 16) + (u &c 65535)).

(** ** The three versions of [lwip_standard_chksum] *)

(** [while (len > 1) { sum += *ps++; len -= 2; }] over 16-bit little-endian
    words: the sum and the unread tail of at most one byte. *)
Fixpoint add_words (data : list Z) (sum : Z) : Z * list Z :=
  match data with
  | b0 :: b1 :: rest => add_words rest (u32 (sum + (b0 + 256 * b1)))
  | _ => (sum, data)
  end.

(** The loop of version 1 reads each pair in network order. *)
Fixpoint add_words_be (data : list Z) (acc : Z) : Z * list Z :=
  match data with
  | b0 :: b1 :: rest => add_words_be rest (u32 (acc + ((b0 <<c 8) |c b1)))
  | _ => (acc, data)
  end.

Definition lwip_standard_chksum_1 (data : list Z) : Z :=
  let '(acc, tail) := add_words_be data 0 in
  let acc := match tail with b :: _ => u32 (acc + (b <<c 8)) | [] => acc end in
  let acc := u32 ((acc >>c 16) + (acc &c 65535)) in
  let acc := if (acc &c 4294901760) =? 0 then acc
             else u32 ((acc >>c 16) + (acc &c 65535)) in
  lwip_htons (u16 acc).

(** [if (odd && len > 0) { ((u8_t * )&t)[1] = *pb++; len--; }] *)
Definition align16 (odd : bool) (data : list Z) : Z * list Z :=
  match odd, data with
  | true, b :: rest => (b, rest)
  | _, _ => (0, data)
  end.

(** Version 2, the one the build uses ([LWIP_CHKSUM_ALGORITHM] is 2). *)
Definition lwip_standard_chksum (dataptr : Z) (data : list Z) : Z :=
  let odd := negb ((dataptr &c 1) =? 0) in
  let '(t1, data) := align16 odd data in
  let '(sum, tail) := add_words data 0 in
  let t0 := match tail with b :: _ => b | [] => 0 end in
  let t := t0 + 256 * t1 in
  let sum := u32 (sum + t) in
  let sum := FOLD_U32T sum in
  let sum := FOLD_U32T sum in
  let sum := if odd then SWAP_BYTES_IN_WORD sum else sum in
  u16 sum.

Definition le32 (b0 b1 b2 b3 : Z) : Z := b0 + 256 * b1 + 65536 * b2 + 16777216 * b3.

(** One half of version 3's unrolled loop: a 32-bit add with its carry added
    back. *)
Definition add_carry (sum w : Z) : Z :=
  let tmp := u32 (sum + w) in if tmp <? sum then u32 (tmp + 1) else tmp.

(** [while (len > 7) { ... ping ... pong ... len -= 8; }] *)
Fixpoint add_dwords (data : list Z) (sum : Z) : Z * list Z :=
  match data with
  | a0 :: a1 :: a2 :: a3 :: b0 :: b1 :: b2 :: b3 :: rest =>
      add_dwords rest (add_carry (add_carry sum (le32 a0 a1 a2 a3)) (le32 b0 b1 b2 b3))
  | _ => (sum, data)
  end.

Definition lwip_standard_chksum_3 (dataptr : Z) (data : list Z) : Z :=
  let odd := negb ((dataptr &c 1) =? 0) in
  let pb := if odd && negb (length data =? 0)%nat then dataptr + 1 else dataptr in
  let '(t1, data) := align16 odd data in
  let '(sum, data) :=
    if negb ((pb &c 3) =? 0)
    then match data with
         | b0 :: b1 :: rest => (u32 (0 + (b0 + 256 * b1)), rest)
         | _ => (0, data)
         end
    else (0, data) in
  let '(sum, data) := add_dwords data sum in
  let sum := FOLD_U32T sum in
  let '(sum, tail) := add_words data sum in
  let t0 := match tail with b :: _ => b | [] => 0 end in
  let t := t0 + 256 * t1 in
  let sum := u32 (sum + t) in
  let sum := FOLD_U32T sum in
  let sum := FOLD_U32T sum in
  let sum := if odd then SWAP_BYTES_IN_WORD sum else sum in
  u16 sum.

(** ** Checksums over buffers and pbuf chains *)

Definition inet_chksum (dataptr : Z) (data : list Z) : Z :=
  u16 (not32 (lwip_standard_chksum dataptr data)).

(** A pbuf chain as the checksum code walks it: payload address and bytes of
    each pbuf. *)
Abbreviation chain := (list (Z * list Z)).

(** The loop over the chain shared by [inet_cksum_pseudo_base] and
    [inet_chksum_pbuf]: the accumulator and the [swapped] flag. *)
Fixpoint chain_acc (q : chain) (acc : Z) (swapped : bool) : Z * bool :=
  match q with
  | [] => (acc, swapped)
  | (payload, data) :: next =>
      let acc := u32 (acc + lwip_standard_chksum payload data) in
      let acc := FOLD_U32T acc in
      if negb (Z.of_nat (length data) mod 2 =? 0)
      then chain_acc next (SWAP_BYTES_IN_WORD acc) (negb swapped)
      else chain_acc next acc swapped
  end.

Definition inet_chksum_pbuf (p : chain) : Z :=
  let '(acc, swapped) := chain_acc p 0 false in
  let acc := if swapped then SWAP_BYTES_IN_WORD acc else acc in
  u16 (not32 (acc &c 65535)).

Definition inet_cksum_pseudo_base (p : chain) (proto proto_len acc : Z) : Z :=
  let '(acc, swapped) := chain_acc p acc false in
  let acc := if swapped then SWAP_BYTES_IN_WORD acc else acc in
  let acc := u32 (acc + lwip_htons (u16 proto)) in
  let acc := u32 (acc + lwip_htons proto_len) in
  let acc := FOLD_U32T acc in
  let acc := FOLD_U32T acc in
  u16 (not32 (acc &c 65535)).

(** The two halves of both addresses, as stored in network byte order. *)
Definition pseudo_addr_acc (src dest : Z) : Z :=
  let acc := src &c 65535 in
  let acc := u32 (acc + ((src >>c 16) &c 65535)) in
  let acc := u32 (acc + (dest &c 65535)) in
  let acc := u32 (acc + ((dest >>c 16) &c 65535)) in
  FOLD_U32T (FOLD_U32T acc).

Definition inet_chksum_pseudo (p : chain) (proto proto_len src dest : Z) : Z :=
  inet_cksum_pseudo_base p proto proto_len (pseudo_addr_acc src dest).

(** Only IPv4 is configured, so the dispatcher has one case. *)
Definition ip_chksum_pseudo (p : chain) (proto proto_len src dest : Z) : Z :=
  inet_chksum_pseudo p proto proto_len src dest.

(** [inet_cksum_pseudo_partial_base]'s loop: at most [chksum_len] bytes are
    summed; the assertion on the remaining length is kept. *)
Fixpoint chain_acc_partial (q : chain) (chksum_len acc : Z) (swapped : bool)
  : outcome (Z * bool) :=
  match q with
  | [] => Ok (acc, swapped)
  | (payload, data) :: next =>
      if chksum_len >? 0 then
        let len := Z.of_nat (length data) in
        let chklen := if len >? chksum_len then chksum_len else len in
        let acc := u32 (acc + lwip_standard_chksum payload (take (Z.to_nat chklen) data)) in
        let chksum_len := u16 (chksum_len - chklen) in
        if chksum_len <? 32767 then
          let acc := FOLD_U32T acc in
          if negb (len mod 2 =? 0)
          then chain_acc_partial next chksum_len (SWAP_BYTES_IN_WORD acc) (negb swapped)
          else chain_acc_partial next chksum_len acc swapped
        else AssertFail
      else Ok (acc, swapped)
  end.

Definition inet_cksum_pseudo_partial_base (p : chain) (proto proto_len chksum_len acc : Z)
  : outcome Z :=
  match chain_acc_partial p chksum_len acc false with
  | Ok (acc, swapped) =>
      let acc := if swapped then SWAP_BYTES_IN_WORD acc else acc in
      let acc := u32 (acc + lwip_htons (u16 proto)) in
      let acc := u32 (acc + lwip_htons proto_len) in
      let acc := FOLD_U32T acc in
      let acc := FOLD_U32T acc in
      Ok (u16 (not32 (acc &c 65535)))
  | AssertFail => AssertFail
  | Fault => Fault
  | NoFuel => NoFuel
  end.

Definition inet_chksum_pseudo_partial (p : chain) (proto proto_len chksum_len src dest : Z)
  : outcome Z :=
  inet_cksum_pseudo_partial_base p proto proto_len chksum_len (pseudo_addr_acc src dest).

(** Only IPv4 is configured, so the dispatcher has one case. *)
Definition ip_chksum_pseudo_partial (p : chain) (proto proto_len chksum_len src dest : Z)
  : outcome Z :=
  inet_chksum_pseudo_partial p proto proto_len chksum_len src dest.

(** ** One's complement arithmetic

    Congruence modulo 65535, with the operations it is compatible with, so that
    sums can be rewritten up to it. *)

Definition ceq (a b : Z) : Prop := a mod 65535 = b mod 65535.
Infix "≡c" := ceq (at level 70).

Global Instance ceq_equiv : Equivalence ceq.
Proof. unfold ceq. split; red; intros; congruence. Qed.

Global Instance ceq_add : Proper (ceq ==> ceq ==> ceq) Z.add.
Proof. intros a b H c d H'. unfold ceq in *. by rewrite Z.add_mod, H, H', <- Z.add_mod. Qed.

Global Instance ceq_mul : Proper (ceq ==> ceq ==> ceq) Z.mul.
Proof. intros a b H c d H'. unfold ceq in *. by rewrite Z.mul_mod, H, H', <- Z.mul_mod. Qed.

(** The sum of the 16-bit words of a byte string, an odd last byte padded with
    a zero byte (RFC 1071), as a little-endian machine reads them. *)
Fixpoint sum16 (data : list Z) : Z :=
  match data with
  | [] => 0
  | [b] => b
  | b0 :: b1 :: rest => b0 + 256 * b1 + sum16 rest
  end.

(** The one's complement sum: the representative of [s] modulo 65535 in
    1..65535, and 0 only for 0. *)
Definition ocnorm (s : Z) : Z := if s =? 0 then 0 else (s - 1) mod 65535 + 1.
Definition ocsum (data : list Z) : Z := ocnorm (sum16 data).

(** [x] represents the sum [s]: the same class, and zero exactly when [s] is. *)
Definition ocrep (x s : Z) : Prop := 0 <= x /\ 0 <= s /\ x ≡c s /\ (x = 0 <-> s = 0).

Lemma ocrep_norm x s : is_u16 x -> ocrep x s -> x = ocnorm s.
Proof.
  unfold is_u16, ocrep, ocnorm, ceq. intros Hx (H1 & H2 & H3 & H4).
  destruct (Z.eqb_spec s 0); lia.
Qed.

Lemma ocrep_refl x : 0 <= x -> ocrep x x.
Proof. unfold ocrep, ceq. lia. Qed.

Lemma ocrep_trans x y z : ocrep x y -> ocrep y z -> ocrep x z.
Proof. unfold ocrep, ceq. intuition congruence. Qed.

Lemma ocrep_add x s y t : ocrep x s -> ocrep y t -> ocrep (x + y) (s + t).
Proof.
  intros (? & ? & E1 & ?) (? & ? & E2 & ?). repeat split; [lia..| | lia | lia].
  by rewrite E1, E2.
Qed.

Lemma fold_spec u : is_u32 u -> FOLD_U32T u = u / 65536 + u mod 65536.
Proof. unfold FOLD_U32T. intros. bits_to_arith. unfold_widths. lia. Qed.

Lemma fold_rep u s : is_u32 u -> ocrep u s -> ocrep (FOLD_U32T u) s.
Proof.
  intros Hu Hr. rewrite fold_spec by done. apply ocrep_trans with u; [|done].
  unfold ocrep, ceq, is_u32 in *. lia.
Qed.

Lemma fold_small u : 0 <= u <= 131070 -> is_u16 (FOLD_U32T u).
Proof. intros. rewrite fold_spec by (unfold is_u32; lia). unfold is_u16. lia. Qed.

Lemma fold_bound u : is_u32 u -> 0 <= FOLD_U32T u <= 131070.
Proof. intros. rewrite fold_spec by done. unfold is_u32 in *. lia. Qed.

Lemma fold2_u16 u : is_u32 u -> is_u16 (FOLD_U32T (FOLD_U32T u)).
Proof. intros. by apply fold_small, fold_bound. Qed.

Lemma fold2_rep u s : is_u32 u -> ocrep u s -> ocrep (FOLD_U32T (FOLD_U32T u)) s.
Proof.
  intros Hu Hr. apply fold_rep, fold_rep; [|done..].
  pose proof (fold_bound u Hu). unfold is_u32. lia.
Qed.

Lemma swap_spec w : is_u16 w -> SWAP_BYTES_IN_WORD w = w mod 256 * 256 + w / 256.
Proof.
  unfold SWAP_BYTES_IN_WORD, is_u16. intros. bits_to_arith.
  rewrite (lor_add _ _ 8) by (change (2 ^ 8) with 256; lia). lia.
Qed.

Lemma swap_u16 w : is_u16 w -> is_u16 (SWAP_BYTES_IN_WORD w).
Proof. intros. rewrite swap_spec by done. unfold is_u16 in *. lia. Qed.

(** Swapping the bytes multiplies by 256 in one's complement arithmetic. *)
Lemma swap_rep w s : is_u16 w -> ocrep w s -> ocrep (SWAP_BYTES_IN_WORD w) (256 * s).
Proof.
  intros Hw (H1 & H2 & H3 & H4). rewrite swap_spec by done. unfold is_u16 in Hw.
  repeat split; [lia..| |lia|lia].
  rewrite <- H3. unfold ceq. lia.
Qed.

Lemma htons_swap x : is_u16 x -> lwip_htons x = SWAP_BYTES_IN_WORD x.
Proof. intros. unfold lwip_htons, PP_HTONS. by apply u16_small, swap_u16. Qed.

Lemma u16_not32 x : is_u16 x -> u16 (not32 x) = 65535 - x.
Proof. intros. rewrite not32_arith. unfold_widths. lia. Qed.

#[export] Hint Resolve fold2_u16 swap_u16 u32_range ocrep_refl : cint.

(** ** Sums of byte strings *)

Lemma sum16_bound l :
  bytes_ok l -> 0 <= sum16 l <= 65535 * ((Z.of_nat (length l) + 1) / 2).
Proof.
  unfold bytes_ok, is_u8. induction l as [|b|b0 b1 l IH] using list_pair_ind; intros H.
  - simpl. lia.
  - apply Forall_cons in H as [? _]. simpl. lia.
  - rewrite !Forall_cons in H. destruct H as (? & ? & ?). specialize (IH H1). simpl length. simpl sum16.
    lia.
Qed.

Lemma sum16_cons b l : sum16 (b :: l) ≡c b + 256 * sum16 l.
Proof.
  revert b. induction l as [|b1|b1 b2 l IH] using list_pair_ind; intros b.
  - simpl. unfold ceq. f_equal. lia.
  - simpl. unfold ceq. f_equal. lia.
  - change (sum16 (b :: b1 :: b2 :: l)) with (b + 256 * b1 + sum16 (b2 :: l)). rewrite IH.
    change (sum16 (b1 :: b2 :: l)) with (b1 + 256 * b2 + sum16 l). unfold ceq. lia.
Qed.

(** Zero exactly when every byte is zero. *)
Lemma sum16_zero l : bytes_ok l -> sum16 l = 0 <-> Forall (eq 0) l.
Proof.
  unfold bytes_ok, is_u8. induction l as [|b|b0 b1 l IH] using list_pair_ind; intros H.
  - done.
  - simpl. rewrite Forall_singleton. lia.
  - rewrite !Forall_cons in *. destruct H as (? & ? & Hl). specialize (IH Hl).
    pose proof (sum16_bound l Hl). simpl sum16. rewrite <- IH. lia.
Qed.

(** The weight of what follows a string in a concatenation. *)
Definition parity_weight (l : list Z) : Z := if Z.of_nat (length l) mod 2 =? 0 then 1 else 256.

Lemma sum16_app a b : sum16 (a ++ b) ≡c sum16 a + parity_weight a * sum16 b.
Proof.
  unfold parity_weight. induction a as [|x|x y a IH] using list_pair_ind.
  - simpl. unfold ceq. f_equal. lia.
  - simpl app. rewrite sum16_cons. simpl sum16. simpl length.
    replace (Z.of_nat 1 mod 2 =? 0) with false by done. done.
  - change (sum16 ((x :: y :: a) ++ b)) with (x + 256 * y + sum16 (a ++ b)). rewrite IH.
    change (sum16 (x :: y :: a)) with (x + 256 * y + sum16 a).
    replace (Z.of_nat (length (x :: y :: a)) mod 2) with (Z.of_nat (length a) mod 2)
      by (simpl length; lia).
    unfold ceq. f_equal. lia.
Qed.

Lemma ocsum_u16 l : bytes_ok l -> is_u16 (ocsum l).
Proof.
  intros H%sum16_bound. unfold ocsum, ocnorm, is_u16. destruct (Z.eqb_spec (sum16 l) 0); lia.
Qed.

Lemma ocsum_rep l : bytes_ok l -> ocrep (ocsum l) (sum16 l).
Proof.
  intros H%sum16_bound. unfold ocsum, ocnorm, ocrep, ceq. destruct (Z.eqb_spec (sum16 l) 0); lia.
Qed.

Lemma bytes_ok_app a b : bytes_ok (a ++ b) <-> bytes_ok a /\ bytes_ok b.
Proof. apply Forall_app. Qed.

(** After an even number of bytes the sums just add. *)
Lemma sum16_app_even a b :
  Z.of_nat (length a) mod 2 = 0 -> sum16 (a ++ b) = sum16 a + sum16 b.
Proof.
  induction a as [|x|x y a IH] using list_pair_ind; [done|simpl length; lia|].
  simpl length. intros. change (sum16 ((x :: y :: a) ++ b)) with (x + 256 * y + sum16 (a ++ b)).
  rewrite IH by lia. simpl. lia.
Qed.

(** The concatenation's sum from the parts' sums. *)
Lemma sum16_app_rep a b x y :
  bytes_ok a -> bytes_ok b -> ocrep x (sum16 a) -> ocrep y (sum16 b) ->
  ocrep (x + parity_weight a * y) (sum16 (a ++ b)).
Proof.
  intros Ha Hb (? & ? & E1 & ?) (? & ? & E2 & ?).
  assert (0 <= sum16 (a ++ b)) by (apply sum16_bound, bytes_ok_app; done).
  assert (parity_weight a = 1 \/ parity_weight a = 256) as Hw
    by (unfold parity_weight; destruct (_ =? _); auto).
  repeat split; [lia..| | |].
  - by rewrite E1, E2, sum16_app.
  - intros. assert (sum16 a = 0 /\ sum16 b = 0) as [Hza Hzb] by lia.
    apply sum16_zero; [by apply bytes_ok_app|]. apply Forall_app.
    split; by apply sum16_zero.
  - intros Hz%sum16_zero; [|by apply bytes_ok_app]. apply Forall_app in Hz as [Hza Hzb].
    apply sum16_zero in Hza, Hzb; [lia|done..].
Qed.

(** ** The word loops *)

Lemma add_words_spec l sum :
  bytes_ok l -> 0 <= sum -> sum + sum16 l < 4294967296 ->
  exists tail, add_words l sum = (sum + sum16 l - sum16 tail, tail) /\
    (length tail <= 1)%nat /\ bytes_ok tail /\ 0 <= sum16 tail <= sum16 l /\
    (sum16 tail = match tail with b :: _ => b | [] => 0 end).
Proof.
  revert sum. unfold bytes_ok, is_u8.
  induction l as [|b|b0 b1 l IH] using list_pair_ind; intros sum Hl Hs Hb.
  - exists []. simpl. repeat split; try lia; [f_equal; lia|constructor].
  - exists [b]. apply Forall_cons in Hl as Hl'. simpl. repeat split; try lia; [f_equal; lia|done].
  - rewrite !Forall_cons in Hl. destruct Hl as (? & ? & Hl).
    simpl sum16 in *. pose proof (sum16_bound l Hl) as Hbd. simpl add_words.
    rewrite u32_small by (unfold is_u32; lia).
    destruct (IH (sum + (b0 + 256 * b1)) Hl) as (tail & -> & ? & ? & ? & ?); [lia..|].
    exists tail. repeat split; try lia; [f_equal; lia|done].
Qed.

(** Version 1 sums in network order. *)
Fixpoint sum16be (data : list Z) : Z :=
  match data with
  | [] => 0
  | [b] => 256 * b
  | b0 :: b1 :: rest => 256 * b0 + b1 + sum16be rest
  end.

Lemma sum16be_bound l :
  bytes_ok l -> 0 <= sum16be l <= 65535 * ((Z.of_nat (length l) + 1) / 2).
Proof.
  unfold bytes_ok, is_u8. induction l as [|b|b0 b1 l IH] using list_pair_ind; intros H.
  - simpl. lia.
  - apply Forall_cons in H as [? _]. simpl. lia.
  - rewrite !Forall_cons in H. destruct H as (? & ? & H). specialize (IH H).
    simpl length. simpl sum16be. lia.
Qed.

Lemma sum16be_rep l : bytes_ok l -> ocrep (sum16be l) (256 * sum16 l).
Proof.
  intros Hl. pose proof (sum16be_bound l Hl). pose proof (sum16_bound l Hl).
  unfold bytes_ok, is_u8 in Hl. repeat split; [lia..| | |].
  - induction l as [|b|b0 b1 l IH] using list_pair_ind; [done..|].
    rewrite !Forall_cons in Hl. destruct Hl as (? & ? & Hl).
    simpl. rewrite IH by (done || apply sum16be_bound || apply sum16_bound; done).
    unfold ceq. lia.
  - clear H H0. induction l as [|b|b0 b1 l IH] using list_pair_ind; [done|simpl; lia|].
    rewrite !Forall_cons in Hl. destruct Hl as (? & ? & Hl).
    pose proof (sum16be_bound l Hl). simpl. intros. rewrite Z.mul_add_distr_l, IH; [lia|done|lia].
  - clear H H0. induction l as [|b|b0 b1 l IH] using list_pair_ind; [done|simpl; lia|].
    rewrite !Forall_cons in Hl. destruct Hl as (? & ? & Hl).
    pose proof (sum16_bound l Hl). simpl. intros. rewrite IH; [lia|done|lia].
Qed.

Lemma add_words_be_spec l acc :
  bytes_ok l -> 0 <= acc -> acc + sum16be l < 4294967296 ->
  exists tail, add_words_be l acc = (acc + sum16be l - sum16be tail, tail) /\
    (length tail <= 1)%nat /\ bytes_ok tail /\ 0 <= sum16be tail <= sum16be l.
Proof.
  revert acc. unfold bytes_ok, is_u8.
  induction l as [|b|b0 b1 l IH] using list_pair_ind; intros acc Hl Hs Hb.
  - exists []. simpl. repeat split; try lia; [f_equal; lia|constructor].
  - exists [b]. apply Forall_cons in Hl as Hl'. simpl. repeat split; try lia; [f_equal; lia|done].
  - rewrite !Forall_cons in Hl. destruct Hl as (? & ? & Hl).
    simpl sum16be in *. pose proof (sum16be_bound l Hl) as Hbd. simpl add_words_be.
    bits_to_arith. rewrite (lor_add _ _ 8) by (change (2 ^ 8) with 256; lia).
    rewrite u32_small by (unfold is_u32; lia).
    destruct (IH (acc + (b0 * 256 + b1)) Hl) as (tail & -> & ? & ? & ?); [lia..|].
    exists tail. repeat split; try lia; [f_equal; lia|done].
Qed.

Lemma add_carry_rep sum w s :
  is_u32 sum -> is_u32 w -> ocrep sum s ->
  is_u32 (add_carry sum w) /\ ocrep (add_carry sum w) (s + w).
Proof.
  intros Hs Hw Hr.
  enough (is_u32 (add_carry sum w) /\ ocrep (add_carry sum w) (sum + w)) as [? H'].
  { split; [done|]. eapply ocrep_trans; [exact H'|]. apply ocrep_add; [done|].
    apply ocrep_refl. unfold is_u32 in *. lia. }
  clear Hr. unfold add_carry, is_u32, u32, ocrep, ceq in *.
  destruct (Z.ltb_spec ((sum + w) mod 4294967296) sum); lia.
Qed.

(** Eight bytes at a time. *)
Lemma add_dwords_spec n l sum s :
  (length l <= n)%nat -> bytes_ok l -> is_u32 sum -> ocrep sum s ->
  exists sum' tail, add_dwords l sum = (sum', tail) /\ is_u32 sum' /\
    (length tail <= 7)%nat /\ bytes_ok tail /\ 0 <= sum16 tail <= sum16 l /\
    ocrep sum' (s + (sum16 l - sum16 tail)).
Proof.
  revert l sum s. induction n as [n IH] using lt_wf_ind. intros l sum s Hn Hl Hu Hr.
  destruct l as [|a0 [|a1 [|a2 [|a3 [|b0 [|b1 [|b2 [|b3 l]]]]]]]].
  1-8: eexists sum, _; split; [reflexivity|]; rewrite Z.sub_diag, Z.add_0_r;
    pose proof (sum16_bound _ Hl); split_and!; (done || lia || (simpl; lia)).
  simpl length in Hn. pose proof Hl as Hl0. unfold bytes_ok, is_u8 in Hl.
  rewrite !Forall_cons in Hl. destruct Hl as (? & ? & ? & ? & ? & ? & ? & ? & Hl).
  destruct (add_carry_rep sum (le32 a0 a1 a2 a3) s) as [Hu1 Hr1];
    [done|unfold is_u32, le32; lia|done|].
  assert (is_u32 (le32 b0 b1 b2 b3)) as Hw by (unfold is_u32, le32; lia).
  destruct (add_carry_rep _ _ _ Hu1 Hw Hr1) as [Hu2 Hr2].
  destruct (IH (length l) ltac:(lia) l _ _ ltac:(lia) Hl Hu2 Hr2)
    as (sum' & tail & E & ? & ? & ? & ? & Hr3).
  pose proof (sum16_bound l Hl). exists sum', tail. simpl add_dwords. rewrite E.
  split_and!; [done..|lia|simpl sum16; lia|].
  eapply ocrep_trans; [exact Hr3|]. destruct Hr as (_ & ? & _). simpl sum16.
  unfold ocrep, ceq, le32. lia.
Qed.

(** ** Every version computes the RFC 1071 sum *)

Lemma align16_spec odd l t1 l' :
  bytes_ok l -> align16 odd l = (t1, l') ->
  is_u8 t1 /\ bytes_ok l' /\ (length l' <= length l)%nat /\
  ocrep (256 * t1 + sum16 l') ((if odd then 256 else 1) * sum16 l).
Proof.
  unfold bytes_ok. intros Hl E. destruct odd, l as [|b l]; simpl in E; injection E as <- <-.
  - split_and!; [unfold is_u8; lia|done|done|by apply ocrep_refl].
  - apply Forall_cons in Hl as [Hb Hl]. split_and!; [done|done|simpl; lia|].
    pose proof (sum16_bound l Hl). pose proof (sum16_bound (b :: l) (Forall_cons_2 _ _ _ Hb Hl)).
    unfold is_u8 in Hb. repeat split; [lia..| | |].
    + rewrite sum16_cons. unfold ceq. lia.
    + intros. assert (b = 0 /\ sum16 l = 0) as [-> Hz] by lia.
      enough (sum16 (0 :: l) = 0) by lia. apply sum16_zero in Hz; [|done].
      apply sum16_zero; [by apply Forall_cons|by apply Forall_cons].
    + intros Hz. assert (sum16 (b :: l) = 0) as Hz' by lia.
      apply sum16_zero in Hz'; [|by apply Forall_cons]. apply Forall_cons in Hz' as [<- Hz'].
      apply sum16_zero in Hz'; [lia|done].
  - split_and!; [unfold is_u8; lia|done|done|by apply ocrep_refl].
  - pose proof (sum16_bound _ Hl). split_and!; [unfold is_u8; lia|done|done|].
    rewrite Z.mul_1_l. apply ocrep_refl. lia.
Qed.

(** The common end of versions 2 and 3: fold twice, then undo the rotation. *)
Lemma finish_rep (odd : bool) u l :
  bytes_ok l -> is_u32 u -> ocrep u ((if odd then 256 else 1) * sum16 l) ->
  u16 (if odd then SWAP_BYTES_IN_WORD (FOLD_U32T (FOLD_U32T u)) else FOLD_U32T (FOLD_U32T u))
  = ocsum l.
Proof.
  intros Hl Hu Hr. pose proof (fold2_u16 u Hu) as H16. pose proof (fold2_rep u _ Hu Hr) as Hr2.
  destruct odd.
  - rewrite u16_small by auto with cint. apply ocrep_norm; [auto with cint|].
    eapply ocrep_trans; [by apply swap_rep, Hr2|]. pose proof (sum16_bound l Hl).
    unfold ocrep, ceq. lia.
  - rewrite u16_small by done. rewrite Z.mul_1_l in Hr2. by apply ocrep_norm.
Qed.

Lemma chksum2_correct p l :
  bytes_ok l -> Z.of_nat (length l) <= 131072 -> lwip_standard_chksum p l = ocsum l.
Proof.
  intros Hl Hlen. unfold lwip_standard_chksum.
  destruct (align16 _ l) as [t1 l'] eqn:Ea.
  destruct (align16_spec _ _ _ _ Hl Ea) as (Ht & Hl' & Hlen' & Hr).
  pose proof (sum16_bound l' Hl') as Hb. unfold is_u8 in Ht.
  destruct (add_words_spec l' 0 Hl') as (tail & -> & _ & _ & Htl & <-); [lia..|].
  replace (0 + sum16 l' - sum16 tail + (sum16 tail + 256 * t1)) with (256 * t1 + sum16 l') by lia.
  assert (is_u32 (256 * t1 + sum16 l')) as Hu.
  { unfold is_u32. destruct l as [|b l]; [by destruct (negb _); injection Ea as <- <-|].
    destruct (negb _); injection Ea as <- <-; [simpl length in Hlen|]; lia. }
  rewrite (u32_small _ Hu). by apply finish_rep.
Qed.

Lemma chksum3_correct p l : bytes_ok l -> lwip_standard_chksum_3 p l = ocsum l.
Proof.
  intros Hl. unfold lwip_standard_chksum_3.
  set (odd := negb ((p &c 1) =? 0)). 
  set (pb := if odd && negb (length l =? 0)%nat then p + 1 else p). clearbody odd pb.
  destruct (align16 odd l) as [t1 l1] eqn:Ea.
  destruct (align16_spec _ _ _ _ Hl Ea) as (Ht & Hl1 & Hlen' & Hr). unfold is_u8 in Ht.
  assert (exists sum2 l2, (if negb ((pb &c 3) =? 0)
    then match l1 with b0 :: b1 :: rest => (u32 (0 + (b0 + 256 * b1)), rest) | _ => (0, l1) end
    else (0, l1)) = (sum2, l2) /\ is_u16 sum2 /\ bytes_ok l2 /\ sum2 + sum16 l2 = sum16 l1)
    as (sum2 & l2 & -> & Hs2 & Hl2 & Esum).
  { unfold bytes_ok in *. destruct (negb _), l1 as [|b0 [|b1 l2]]; eexists _, _;
      (split; [reflexivity|]); unfold is_u16; simpl sum16; try (split_and!; (done || lia)).
    rewrite !Forall_cons in Hl1. unfold is_u8 in Hl1. destruct Hl1 as (? & ? & ?).
    rewrite u32_small by (unfold is_u32; lia). split_and!; (done || lia). }
  pose proof (sum16_bound l2 Hl2). unfold is_u16 in Hs2.
  destruct (add_dwords_spec (length l2) l2 sum2 sum2) as (s3 & l3 & -> & Hu3 & Hlen3 & Hl3 & Hb3 & Hr3);
    [lia|done|unfold is_u32; lia|apply ocrep_refl; lia|].
  pose proof (fold_bound s3 Hu3) as Hf3. pose proof (sum16_bound l3 Hl3).
  destruct (add_words_spec l3 (FOLD_U32T s3) Hl3) as (tail & -> & _ & _ & Htl & <-); [lia..|].
  replace (FOLD_U32T s3 + sum16 l3 - sum16 tail + (sum16 tail + 256 * t1))
    with (FOLD_U32T s3 + (256 * t1 + sum16 l3)) by lia.
  assert (is_u32 (FOLD_U32T s3 + (256 * t1 + sum16 l3))) as Hu by (unfold is_u32; lia).
  rewrite (u32_small _ Hu). apply finish_rep; [done|done|].
  eapply ocrep_trans; [|exact Hr].
  replace (256 * t1 + sum16 l1) with (sum2 + (sum16 l2 - sum16 l3) + (256 * t1 + sum16 l3)) by lia.
  apply ocrep_add; [by apply fold_rep|apply ocrep_refl; lia].
Qed.

Lemma chksum1_correct l :
  bytes_ok l -> Z.of_nat (length l) <= 131072 -> lwip_standard_chksum_1 l = ocsum l.
Proof.
  intros Hl Hlen. unfold lwip_standard_chksum_1.
  pose proof (sum16be_bound l Hl).
  destruct (add_words_be_spec l 0 Hl) as (tail & -> & Htl & Hok & Hb); [lia..|].
  set (acc := match tail with
              | [] => 0 + sum16be l - sum16be tail
              | b :: _ => u32 (0 + sum16be l - sum16be tail + (b <<c 8))
              end).
  assert (acc = sum16be l) as ->.
  { subst acc. unfold bytes_ok in Hok. destruct tail as [|b [|]]; simpl in *; [lia| |lia].
    apply Forall_cons in Hok as [? _]. bits_to_arith. rewrite u32_small; unfold is_u32; lia. }
  fold (FOLD_U32T (sum16be l)).
  assert (is_u32 (sum16be l)) as Hu by (unfold is_u32; lia).
  set (f := FOLD_U32T (sum16be l)). fold (FOLD_U32T f).
  assert (0 <= f <= 131070) as Hf by (by apply fold_bound).
  assert ((if (f &c 4294901760) =? 0 then f else FOLD_U32T f) = FOLD_U32T f) as ->.
  { bits_to_arith. destruct (Z.eqb_spec ((f / 65536) mod 65536 * 65536) 0); [|done].
    rewrite fold_spec by (unfold is_u32; lia). lia. }
  assert (is_u16 (FOLD_U32T f)) as H16 by (by apply fold_small).
  rewrite u16_small by done. rewrite htons_swap by done.
  apply ocrep_norm; [auto with cint|].
  eapply ocrep_trans.
  - apply swap_rep; [done|]. apply fold2_rep; [done|]. by apply sum16be_rep.
  - pose proof (sum16_bound l Hl). unfold ocrep, ceq. lia.
Qed.

(** ** Pbuf chains and the pseudo header *)

(** The packet a chain carries, and that every buffer of it is a byte string of
    a 16-bit length. *)
Definition chain_bytes (q : chain) : list Z := concat (map snd q).
Definition chain_ok (q : chain) : Prop :=
  Forall (fun b => bytes_ok (snd b) /\ Z.of_nat (length (snd b)) < 65536) q.

Global Instance chain_ok_dec q : Decision (chain_ok q).
Proof. unfold chain_ok. apply _. Defined.

Definition swap_weight (swapped : bool) : Z := if swapped then 256 else 1.

Lemma ocrep_congr x s s' :
  ocrep x s -> 0 <= s' -> s ≡c s' -> (s = 0 <-> s' = 0) -> ocrep x s'.
Proof. unfold ocrep, ceq. intros (? & ? & ? & ?) ? ? ?. split_and!; [lia|lia|congruence|lia]. Qed.

Lemma chain_bytes_ok q : chain_ok q -> bytes_ok (chain_bytes q).
Proof.
  unfold chain_ok, chain_bytes, bytes_ok. induction 1 as [|[a d] q [Hd _] _ IH]; simpl; [done|].
  by apply Forall_app.
Qed.

(** One buffer added to the accumulator. *)
Lemma chain_step_rep acc (swapped : bool) s payload data :
  is_u16 acc -> ocrep acc (swap_weight swapped * s) -> 0 <= s ->
  bytes_ok data -> Z.of_nat (length data) < 65536 ->
  let acc' := FOLD_U32T (u32 (acc + lwip_standard_chksum payload data)) in
  is_u16 acc' /\ ocrep acc' (swap_weight swapped * (s + swap_weight swapped * sum16 data)).
Proof.
  intros Ha Hr Hs Hd Hlen. simpl. rewrite chksum2_correct by (done || lia).
  pose proof (ocsum_u16 data Hd) as Hc. unfold is_u16 in Ha, Hc.
  rewrite u32_small by (unfold is_u32; lia). split; [apply fold_small; lia|].
  apply fold_rep; [unfold is_u32; lia|].
  apply ocrep_congr with (swap_weight swapped * s + sum16 data).
  - apply ocrep_add; [done|by apply ocsum_rep].
  - pose proof (sum16_bound data Hd). unfold swap_weight. destruct swapped; lia.
  - unfold swap_weight, ceq. destruct swapped; lia.
  - pose proof (sum16_bound data Hd). unfold swap_weight. destruct swapped; lia.
Qed.

Lemma sum16_app_zero a b :
  bytes_ok a -> bytes_ok b -> sum16 (a ++ b) = 0 <-> sum16 a = 0 /\ sum16 b = 0.
Proof. intros. rewrite !sum16_zero, Forall_app; by try apply bytes_ok_app. Qed.

Lemma chain_acc_spec q : forall acc swapped s,
  chain_ok q -> is_u16 acc -> 0 <= s -> ocrep acc (swap_weight swapped * s) ->
  exists acc' swapped', chain_acc q acc swapped = (acc', swapped') /\ is_u16 acc' /\
    ocrep acc' (swap_weight swapped' * (s + swap_weight swapped * sum16 (chain_bytes q))).
Proof.
  induction q as [|[payload data] q IH]; intros acc swapped s Hq Ha Hs Hr.
  { exists acc, swapped. split_and!; [done..|]. simpl. by rewrite Z.mul_0_r, Z.add_0_r. }
  apply Forall_cons in Hq as [[Hd Hlen] Hq]. simpl in Hd, Hlen.
  destruct (chain_step_rep acc swapped s payload data) as [H16 Hrep]; [done..|].
  pose proof (chain_bytes_ok q Hq) as Hqb. pose proof (sum16_bound _ Hd) as Hbd.
  pose proof (sum16_bound _ Hqb) as Hbq.
  assert (bytes_ok (data ++ chain_bytes q)) as Hall by (by apply bytes_ok_app).
  pose proof (sum16_bound _ Hall) as Hba. pose proof (sum16_app_zero _ _ Hd Hqb) as Hz.
  pose proof (sum16_app data (chain_bytes q)) as Happ.
  change (chain_bytes ((payload, data) :: q)) with (data ++ chain_bytes q).
  unfold parity_weight in Happ. cbn [chain_acc].
  set (acc1 := FOLD_U32T _) in *. clearbody acc1.
  destruct (Z.of_nat (length data) mod 2 =? 0) eqn:Epar; cbn [negb].
  - destruct (IH acc1 swapped (s + swap_weight swapped * sum16 data))
      as (acc' & sw' & -> & ? & Hfin); [done|done|unfold swap_weight; destruct swapped; lia|done|].
    exists acc', sw'. split_and!; [done..|]. eapply ocrep_congr; [exact Hfin|..].
    + unfold swap_weight. destruct swapped, sw'; lia.
    + rewrite Happ. unfold swap_weight, ceq. destruct swapped, sw'; lia.
    + unfold swap_weight. destruct swapped, sw'; lia.
  - destruct (IH (SWAP_BYTES_IN_WORD acc1) (negb swapped) (s + swap_weight swapped * sum16 data))
      as (acc' & sw' & -> & ? & Hfin);
      [done|auto with cint|unfold swap_weight; destruct swapped; lia|..].
    { eapply ocrep_congr; [by apply swap_rep|..]; unfold swap_weight, ceq; destruct swapped;
        cbn [negb]; lia. }
    exists acc', sw'. split_and!; [done..|]. eapply ocrep_congr; [exact Hfin|..].
    + unfold swap_weight. destruct swapped, sw'; lia.
    + rewrite Happ. unfold swap_weight, ceq. destruct swapped, sw'; cbn [negb]; lia.
    + unfold swap_weight. destruct swapped, sw'; cbn [negb]; lia.
Qed.

(** The accumulator after the loop and the final swap. *)
Lemma chain_total_rep q acc s :
  chain_ok q -> is_u16 acc -> ocrep acc s ->
  exists acc' swapped', chain_acc q acc false = (acc', swapped') /\
    let r := if swapped' then SWAP_BYTES_IN_WORD acc' else acc' in
    is_u16 r /\ ocrep r (s + sum16 (chain_bytes q)).
Proof.
  intros Hq Ha Hr. destruct (chain_acc_spec q acc false s) as (acc' & sw & -> & H16 & Hrep);
    [done|done|apply Hr|unfold swap_weight; by rewrite Z.mul_1_l|].
  exists acc', sw. split; [done|]. cbv zeta. unfold swap_weight in Hrep.
  pose proof (sum16_bound _ (chain_bytes_ok q Hq)) as Hb. destruct Hr as (_ & Hs & _).
  destruct sw; [split; [auto with cint|]|split; [done|]].
  - eapply ocrep_congr; [by apply swap_rep|..]; unfold ceq; lia.
  - by rewrite !Z.mul_1_l in Hrep.
Qed.

Lemma inet_chksum_pbuf_ocsum q :
  chain_ok q -> inet_chksum_pbuf q = 65535 - ocsum (chain_bytes q).
Proof.
  intros Hq. unfold inet_chksum_pbuf.
  destruct (chain_total_rep q 0 0 Hq) as (acc & sw & -> & H16 & Hr);
    [unfold is_u16; lia|by apply ocrep_refl|]. cbv zeta in H16, Hr. rewrite Z.add_0_l in Hr.
  set (r := if sw then _ else _) in *. rewrite (ocrep_norm _ _ H16 Hr).
  fold (ocsum (chain_bytes q)). pose proof (ocsum_u16 _ (chain_bytes_ok q Hq)) as Ho.
  rewrite land_65535. fold (u16 (ocsum (chain_bytes q))). rewrite (u16_small _ Ho).
  by apply u16_not32.
Qed.

Lemma inet_chksum_ocsum p l :
  bytes_ok l -> Z.of_nat (length l) <= 131072 -> inet_chksum p l = 65535 - ocsum l.
Proof.
  intros Hl Hn. unfold inet_chksum. rewrite chksum2_correct by done.
  by apply u16_not32, ocsum_u16.
Qed.

(** The bytes of a 32-bit word in memory, and the TCP/IPv4 pseudo header of RFC
    793: both addresses (kept in network order by lwIP), a zero byte, the
    protocol and the segment length in network order. *)
Definition bytes_of_u32 (x : Z) : list Z :=
  [x mod 256; (x / 256) mod 256; (x / 65536) mod 256; (x / 16777216) mod 256].

Definition pseudo_header (proto proto_len src dest : Z) : list Z :=
  bytes_of_u32 src ++ bytes_of_u32 dest ++ [0; proto; proto_len / 256; proto_len mod 256].

Lemma pseudo_header_sum proto proto_len src dest :
  is_u8 proto -> is_u16 proto_len ->
  sum16 (pseudo_header proto proto_len src dest) =
  (src mod 65536 + (src / 65536) mod 65536 + (dest mod 65536 + (dest / 65536) mod 65536))
  + (lwip_htons proto + lwip_htons proto_len).
Proof.
  intros Hp Hl. rewrite !htons_swap, !swap_spec by (unfold is_u8, is_u16 in *; lia).
  unfold pseudo_header, bytes_of_u32, is_u8, is_u16 in *. simpl. lia.
Qed.

Lemma pseudo_header_ok proto proto_len src dest :
  is_u8 proto -> is_u16 proto_len -> bytes_ok (pseudo_header proto proto_len src dest).
Proof.
  intros. unfold_widths. unfold bytes_ok, pseudo_header, bytes_of_u32. simpl.
  repeat constructor; unfold is_u8; lia.
Qed.

Lemma pseudo_addr_acc_rep src dest :
  is_u32 src -> is_u32 dest -> is_u16 (pseudo_addr_acc src dest) /\
  ocrep (pseudo_addr_acc src dest)
    (src mod 65536 + (src / 65536) mod 65536 + (dest mod 65536 + (dest / 65536) mod 65536)).
Proof.
  intros Hs Hd. unfold pseudo_addr_acc. bits_to_arith.
  set (a := u32 (u32 (u32 _ + _) + _)).
  assert (a = src mod 65536 + (src / 65536) mod 65536 + (dest mod 65536 + (dest / 65536) mod 65536))
    as -> by (subst a; unfold_widths; lia).
  assert (is_u32 (src mod 65536 + (src / 65536) mod 65536 +
                  (dest mod 65536 + (dest / 65536) mod 65536))) by (unfold is_u32; lia).
  split; [by apply fold2_u16|]. apply fold2_rep; [done|]. apply ocrep_refl. lia.
Qed.

Lemma pseudo_base_ocsum q proto proto_len src dest :
  chain_ok q -> is_u8 proto -> is_u16 proto_len -> is_u32 src -> is_u32 dest ->
  inet_chksum_pseudo q proto proto_len src dest
  = 65535 - ocsum (pseudo_header proto proto_len src dest ++ chain_bytes q).
Proof.
  intros Hq Hp Hl Hs Hd. unfold inet_chksum_pseudo, inet_cksum_pseudo_base.
  destruct (pseudo_addr_acc_rep src dest Hs Hd) as [H16 Hr].
  destruct (chain_total_rep q _ _ Hq H16 Hr) as (acc & sw & -> & H16' & Hr'). cbv zeta in H16', Hr'.
  set (r := if sw then SWAP_BYTES_IN_WORD acc else acc) in *. clearbody r.
  assert (is_u16 proto) as Hp16 by (unfold is_u8, is_u16 in *; lia).
  rewrite (u16_small proto Hp16).
  assert (is_u16 (lwip_htons proto)) as Hh1 by (rewrite htons_swap by done; auto with cint).
  assert (is_u16 (lwip_htons proto_len)) as Hh2 by (rewrite htons_swap by done; auto with cint).
  unfold is_u16 in H16', Hh1, Hh2.
  rewrite (u32_small (r + _)), (u32_small (r + _ + _)) by (unfold is_u32; lia).
  set (u := r + lwip_htons proto + lwip_htons proto_len).
  assert (is_u32 u) as Hu by (subst u; unfold is_u32; lia).
  assert (bytes_ok (pseudo_header proto proto_len src dest ++ chain_bytes q)) as Hall.
  { apply bytes_ok_app. split; [by apply pseudo_header_ok|by apply chain_bytes_ok]. }
  assert (ocrep u (sum16 (pseudo_header proto proto_len src dest ++ chain_bytes q))) as Hru.
  { rewrite sum16_app_even by done. rewrite pseudo_header_sum by done.
    eapply ocrep_trans; [apply ocrep_add; [apply ocrep_add; [exact Hr'|]|];
      apply ocrep_refl; lia|].
    pose proof (sum16_bound _ (chain_bytes_ok q Hq)). unfold ocrep, ceq. lia. }
  rewrite (ocrep_norm _ _ (fold2_u16 u Hu) (fold2_rep u _ Hu Hru)).
  fold (ocsum (pseudo_header proto proto_len src dest ++ chain_bytes q)).
  pose proof (ocsum_u16 _ Hall) as Ho. rewrite land_65535.
  fold (u16 (ocsum (pseudo_header proto proto_len src dest ++ chain_bytes q))).
  rewrite (u16_small _ Ho). by apply u16_not32.
Qed.

(** ** Partial coverage (UDP-Lite style) *)

(** Below the assertion's limit, summing the whole chain through the partial
    routine is the full checksum. *)
Lemma chain_acc_partial_full q : forall chksum_len acc swapped,
  chain_ok q -> Z.of_nat (length (chain_bytes q)) = chksum_len -> chksum_len < 32767 ->
  Forall (fun b => snd b <> []) q ->
  chain_acc_partial q chksum_len acc swapped = Ok (chain_acc q acc swapped).
Proof.
  induction q as [|[payload data] q IH]; intros cl acc sw Hq Hlen Hlim Hne; [done|].
  apply Forall_cons in Hq as [[_ Hl] Hq]. apply Forall_cons in Hne as [Hd Hne]. simpl in Hl, Hd.
  change (chain_bytes ((payload, data) :: q)) with (data ++ chain_bytes q) in Hlen.
  rewrite length_app in Hlen. cbn [chain_acc_partial chain_acc].
  assert (0 < length data)%nat by (destruct data; [done|simpl; lia]).
  destruct (Z.gtb_spec cl 0); [|lia].
  destruct (Z.gtb_spec (Z.of_nat (length data)) cl); [lia|].
  rewrite firstn_all2 by lia. rewrite u16_small by (unfold is_u16; lia).
  destruct (Z.ltb_spec (cl - Z.of_nat (length data)) 32767); [|lia].
  destruct (negb _); apply IH; (done || lia).
Qed.

(** ** Properties *)

(** C25: all three implementations of [lwip_standard_chksum] return the RFC 1071
    one's complement sum of the buffer, at any alignment of the buffer
    (versions 1 and 2 up to the documented 0x20000 bytes). *)
Theorem chksum_versions_agree (p : Z) (l : list Z)
  (Hl : bytes_ok l) (Hlen : Z.of_nat (length l) <= 131072) :
  lwip_standard_chksum p l = ocsum l /\
  lwip_standard_chksum_1 l = lwip_standard_chksum p l /\
  lwip_standard_chksum_3 p l = lwip_standard_chksum p l.
Proof. rewrite chksum2_correct, chksum1_correct, chksum3_correct by done. done. Qed.

Lemma chksum_versions_agree_witness :
  lwip_standard_chksum 3 [69; 0; 255; 17; 4] = ocsum [69; 0; 255; 17; 4] /\
  lwip_standard_chksum_1 [69; 0; 255; 17; 4] = lwip_standard_chksum 3 [69; 0; 255; 17; 4] /\
  lwip_standard_chksum_3 3 [69; 0; 255; 17; 4] = lwip_standard_chksum 3 [69; 0; 255; 17; 4].
Proof.
  apply (chksum_versions_agree 3 [69; 0; 255; 17; 4]);
    [apply (bool_decide_unpack _); vm_compute; exact I | vm_compute; discriminate].
Defined.

(** The checksum of a pbuf chain is the checksum of the packet it carries,
    however the packet is split over the chain and however each piece is
    aligned: the byte swapping after odd-length pbufs is right. *)
Theorem inet_chksum_pbuf_flat (q : chain) (Hq : chain_ok q)
  (Hlen : Z.of_nat (length (chain_bytes q)) <= 131072) (p : Z) :
  inet_chksum_pbuf q = inet_chksum p (chain_bytes q).
Proof.
  rewrite inet_chksum_pbuf_ocsum, inet_chksum_ocsum by auto using chain_bytes_ok. done.
Qed.

Lemma inet_chksum_pbuf_flat_witness :
  inet_chksum_pbuf [(1001, [1; 2; 3]); (2000, [4]); (3003, [5; 6])]
  = inet_chksum 0 [1; 2; 3; 4; 5; 6].
Proof.
  apply (inet_chksum_pbuf_flat [(1001, [1; 2; 3]); (2000, [4]); (3003, [5; 6])]);
    [apply (bool_decide_unpack _); vm_compute; exact I | vm_compute; discriminate].
Defined.

(** The TCP checksum of a segment carried by a pbuf chain is the Internet
    checksum of the RFC 793 pseudo header followed by the segment's bytes. *)
Theorem ip_chksum_pseudo_spec (q : chain) (proto proto_len src dest : Z)
  (Hq : chain_ok q) (Hp : is_u8 proto) (Hl : is_u16 proto_len)
  (Hs : is_u32 src) (Hd : is_u32 dest) :
  ip_chksum_pseudo q proto proto_len src dest
  = 65535 - ocsum (pseudo_header proto proto_len src dest ++ chain_bytes q).
Proof. by apply pseudo_base_ocsum. Qed.

Lemma ip_chksum_pseudo_spec_witness :
  ip_chksum_pseudo [(1001, [1; 2; 3]); (2000, [4])] 6 4 1694607552 16885952
  = 65535 - ocsum (pseudo_header 6 4 1694607552 16885952 ++ [1; 2; 3; 4]).
Proof.
  apply (ip_chksum_pseudo_spec [(1001, [1; 2; 3]); (2000, [4])] 6 4 1694607552 16885952);
    apply (bool_decide_unpack _); vm_compute; exact I.
Defined.

(** Filling in the checksum field. *)
Lemma inet_chksum_fill p q (pre post : list Z) :
  bytes_ok pre -> bytes_ok post -> Z.of_nat (length pre) mod 2 = 0 ->
  Z.of_nat (length (pre ++ [0; 0] ++ post)) <= 131072 ->
  let c := inet_chksum p (pre ++ [0; 0] ++ post) in
  inet_chksum q (pre ++ [c mod 256; c / 256] ++ post) = 0.
Proof.
  intros Hpre Hpost Heven Hlen.
  assert (bytes_ok (pre ++ [0; 0] ++ post)) as H0.
  { rewrite !bytes_ok_app. split_and!; [done| |done]. repeat constructor; unfold is_u8; lia. }
  simpl. rewrite (inet_chksum_ocsum p (pre ++ 0 :: 0 :: post)) by done.
  pose proof (ocsum_u16 _ H0) as Hu. simpl in Hu.
  assert (sum16 (pre ++ 0 :: 0 :: post) = sum16 pre + sum16 post) as Esum
    by (rewrite sum16_app_even by done; simpl; lia).
  set (c := 65535 - _). assert (is_u16 c) as Hc by (unfold is_u16 in *; lia). unfold is_u16 in Hc.
  rewrite inet_chksum_ocsum.
  - unfold ocsum at 1. rewrite sum16_app_even by done. cbn [sum16].
    pose proof (sum16_bound _ Hpre). pose proof (sum16_bound _ Hpost).
    subst c. unfold ocsum in *. rewrite Esum in *. unfold ocnorm in *.
    destruct (Z.eqb_spec (sum16 pre + sum16 post) 0);
      match goal with |- context [?x =? 0] => destruct (Z.eqb_spec x 0) end; lia.
  - apply bytes_ok_app. split; [done|]. apply Forall_cons. split; [unfold is_u8; lia|].
    apply Forall_cons. split; [unfold is_u8; lia|done].
  - simpl in Hlen. rewrite length_app in *. simpl in *. lia.
Qed.

(** Storing [inet_chksum] of a header whose checksum field is zero into
    that field makes the receiver's [inet_chksum] over the whole header 0, the
    value ip4_input and icmp_input test for. *)
Theorem inet_chksum_verify (p : Z) (pre post : list Z)
  (Hpre : bytes_ok pre) (Hpost : bytes_ok post) (Heven : Z.of_nat (length pre) mod 2 = 0)
  (Hlen : Z.of_nat (length (pre ++ [0; 0] ++ post)) <= 131072) :
  let c := inet_chksum p (pre ++ [0; 0] ++ post) in
  inet_chksum p (pre ++ [c mod 256; c / 256] ++ post) = 0.
Proof. by apply inet_chksum_fill. Qed.

Lemma inet_chksum_verify_witness :
  inet_chksum 0 ([69; 0; 0; 40] ++ [inet_chksum 0 ([69; 0; 0; 40] ++ [0; 0] ++ [192; 168; 1]) mod 256;
                 inet_chksum 0 ([69; 0; 0; 40] ++ [0; 0] ++ [192; 168; 1]) / 256] ++ [192; 168; 1]) = 0.
Proof.
  apply (inet_chksum_verify 0 [69; 0; 0; 40] [192; 168; 1]);
    [apply (bool_decide_unpack _); vm_compute; exact I | apply (bool_decide_unpack _); vm_compute; exact I
    | reflexivity | vm_compute; discriminate].
Defined.

(** Corrupting one 16-bit word of a packet changes its checksum, except
    when one of the all-zero and all-one words is replaced by the other. *)
Theorem inet_chksum_detects (p : Z) (pre post : list Z) (a0 a1 b0 b1 : Z)
  (Hpre : bytes_ok pre) (Hpost : bytes_ok post) (Heven : Z.of_nat (length pre) mod 2 = 0)
  (Ha : bytes_ok [a0; a1]) (Hb : bytes_ok [b0; b1])
  (Hlen : Z.of_nat (length (pre ++ [0; 0] ++ post)) <= 131072)
  (Hne : a0 + 256 * a1 <> b0 + 256 * b1)
  (Hmod : (a0 + 256 * a1) mod 65535 <> 0 \/ (b0 + 256 * b1) mod 65535 <> 0) :
  inet_chksum p (pre ++ [a0; a1] ++ post) <> inet_chksum p (pre ++ [b0; b1] ++ post).
Proof.
  assert (forall x0 x1, bytes_ok [x0; x1] -> bytes_ok (pre ++ [x0; x1] ++ post)) as Hok
    by (intros; rewrite !bytes_ok_app; done).
  rewrite !inet_chksum_ocsum by (auto || (rewrite !length_app in *; simpl in *; lia)).
  unfold ocsum. rewrite !(sum16_app_even pre) by done. cbn [app sum16].
  pose proof (sum16_bound _ Hpre). pose proof (sum16_bound _ Hpost).
  unfold bytes_ok, is_u8 in Ha, Hb. rewrite !Forall_cons in Ha, Hb.
  destruct Ha as (? & ? & _), Hb as (? & ? & _). unfold ocnorm.
  destruct (Z.eqb_spec (sum16 pre + (a0 + 256 * a1 + sum16 post)) 0),
           (Z.eqb_spec (sum16 pre + (b0 + 256 * b1 + sum16 post)) 0); lia.
Qed.

Lemma inet_chksum_detects_witness :
  inet_chksum 0 ([69; 0] ++ [0; 40] ++ [6]) <> inet_chksum 0 ([69; 0] ++ [0; 41] ++ [6]).
Proof.
  apply (inet_chksum_detects 0 [69; 0] [6] 0 40 0 41);
    [apply (bool_decide_unpack _); vm_compute; exact I | apply (bool_decide_unpack _); vm_compute; exact I
    | reflexivity | apply (bool_decide_unpack _); vm_compute; exact I
    | apply (bool_decide_unpack _); vm_compute; exact I
    | vm_compute; discriminate | lia | lia].
Defined.
