(* ===== verification/Memp.v ===== *)
(** * Fixed-size memory pools: core/memp.c

    Every pool is a free list threaded through its own unused elements. The
    addresses of the pools are chosen by the linker and the element sizes by the
    compiler, so the descriptors are a parameter; [PoolsOk] states what the
    declarations of include/lwip/memp.h give. The link words live in [links],
    keyed by element address: an element's word is meaningful only while the
    element is on a free list, and nothing below relies on it otherwise, so user
    data may overwrite it while the element is allocated. *)

From S2P Require Import Prelude.
From stdpp Require Import base numbers list gmap functions sorting.
Open Scope Z_scope.
Open Scope c_scope.

(** ** Alignment (include/lwip/arch.h, [MEM_ALIGNMENT] is 4 in lwipopts.h) *)

Definition MEM_ALIGNMENT : Z := 4.
Definition LWIP_MEM_ALIGN_SIZE (size : Z) : Z :=
  (u32 (size + MEM_ALIGNMENT - 1)) &c (not32 (MEM_ALIGNMENT - 1)).
Definition LWIP_MEM_ALIGN (addr : Z) : Z :=
  (u32 (addr + MEM_ALIGNMENT - 1)) &c (not32 (MEM_ALIGNMENT - 1)).

(** ** Pools of the configuration (include/lwip/priv/memp_std.h) *)

Inductive memp_t :=
| MEMP_TCP_PCB | MEMP_TCP_PCB_LISTEN | MEMP_TCP_SEG
| MEMP_SYS_TIMEOUT | MEMP_PBUF | MEMP_PBUF_POOL
| MEMP_MAX.

Global Instance memp_t_eq_dec : EqDecision memp_t.
Proof. solve_decision. Defined.

Definition MEMP_SIZE : Z := 0.
Definition NULL : Z := 0.

(** [struct memp_desc]; the [tab] it points to is part of the state. *)
Record memp_desc := { size : Z; num : nat; base : Z }.

(** The [memp_tab_*] variables and the [next] words. *)
Record memp_state := { tab : memp_t -> Z; links : gmap Z Z }.

Definition set_tab (t : memp_t) (p : Z) (s : memp_state) : memp_state :=
  {| tab := <[t := p]> (tab s); links := links s |}.
Definition set_link (p q : Z) (s : memp_state) : memp_state :=
  {| tab := tab s; links := <[p := q]> (links s) |}.

Section Ops.
Context (pools : memp_t -> memp_desc).

(** The list-building loop of [memp_init_pool]. *)
Fixpoint memp_init_loop (t : memp_t) (i : nat) (memp : Z) : M memp_state unit :=
  match i with
  | O => mret tt
  | S i' =>
      first ← gets (fun s => tab s t);
      modify (set_link memp first);;
      modify (set_tab t memp);;
      memp_init_loop t i' (memp + MEMP_SIZE + size (pools t))
  end.

Definition memp_init_pool (t : memp_t) : M memp_state unit :=
  modify (set_tab t NULL);;
  memp_init_loop t (num (pools t)) (LWIP_MEM_ALIGN (base (pools t))).

Definition memp_pools : list memp_t :=
  [MEMP_TCP_PCB; MEMP_TCP_PCB_LISTEN; MEMP_TCP_SEG; MEMP_SYS_TIMEOUT; MEMP_PBUF; MEMP_PBUF_POOL].

Fixpoint memp_init_all (ts : list memp_t) : M memp_state unit :=
  match ts with
  | [] => mret tt
  | t :: ts' => memp_init_pool t;; memp_init_all ts'
  end.

Definition memp_init : M memp_state unit := memp_init_all memp_pools.

Definition do_memp_malloc_pool (t : memp_t) : M memp_state Z :=
  memp ← gets (fun s => tab s t);
  if negb (memp =? NULL) then
    next ← (fun s => deref (links s !! memp) s);
    modify (set_tab t next);;
    assert (memp mod MEM_ALIGNMENT =? 0);;
    mret (memp + MEMP_SIZE)
  else mret NULL.

Definition memp_malloc (t : memp_t) : M memp_state Z :=
  match t with
  | MEMP_MAX => mret NULL
  | _ => do_memp_malloc_pool t
  end.

Definition do_memp_free_pool (t : memp_t) (mem : Z) : M memp_state unit :=
  assert (mem mod MEM_ALIGNMENT =? 0);;
  let memp := mem - MEMP_SIZE in
  first ← gets (fun s => tab s t);
  modify (set_link memp first);;
  modify (set_tab t memp).

Definition memp_free (t : memp_t) (mem : Z) : M memp_state unit :=
  match t with
  | MEMP_MAX => mret tt
  | _ => if mem =? NULL then mret tt else do_memp_free_pool t mem
  end.
End Ops.

#[global] Arguments memp_malloc : simpl never.
#[global] Arguments memp_free : simpl never.

(** ** The elements of a pool *)

Lemma align_spec a : 0 <= a < 4294967292 -> LWIP_MEM_ALIGN a = (a + 3) / 4 * 4.
Proof.
  intros Ha. unfold LWIP_MEM_ALIGN, MEM_ALIGNMENT. rewrite u32_small by (unfold is_u32; lia).
  rewrite not32_arith. change (4294967295 - u32 (4 - 1)) with ((2 ^ 30 - 1) * 2 ^ 2).
  rewrite land_field by lia. change (2 ^ 2) with 4. change (2 ^ 30) with 1073741824. lia.
Qed.

Lemma align_size_spec n : 0 <= n < 4294967292 -> LWIP_MEM_ALIGN_SIZE n = (n + 3) / 4 * 4.
Proof. exact (align_spec n). Qed.

Definition elems (d : memp_desc) : list Z :=
  (fun i : nat => LWIP_MEM_ALIGN (base d) + Z.of_nat i * size d) <$> seq 0 (num d).

(** What the declarations of memp.h and the linker give: a pool is a non-null
    array of aligned, non-empty elements within the address space, and different
    pools do not overlap. *)
Class PoolsOk (pools : memp_t -> memp_desc) : Prop := {
  pool_size : forall t, 0 < size (pools t) /\ size (pools t) mod 4 = 0;
  pool_base : forall t, 0 < base (pools t) /\
    base (pools t) + 4 + Z.of_nat (num (pools t)) * size (pools t) < 4294967292;
  pool_disjoint : forall t u a, a ∈ elems (pools t) -> a ∈ elems (pools u) -> t = u
}.

(** Following the links from [p] visits exactly the elements [l] and ends. *)
Fixpoint linked (m : gmap Z Z) (p : Z) (l : list Z) : Prop :=
  match l with
  | [] => p = NULL
  | a :: l' => p = a /\ a <> NULL /\ exists q, m !! a = Some q /\ linked m q l'
  end.

(** The concrete free lists represent the abstract stacks [fl]. *)
Definition pool_rep (pools : memp_t -> memp_desc) (s : memp_state) (fl : memp_t -> list Z) : Prop :=
  forall t, t <> MEMP_MAX ->
    linked (links s) (tab s t) (fl t) /\ NoDup (fl t) /\ Forall (.∈ elems (pools t)) (fl t).

Lemma linked_insert m p l a q : a ∉ l -> linked m p l -> linked (<[a := q]> m) p l.
Proof.
  revert p. induction l as [|b l IH]; intros p Hni; simpl; [done|].
  rewrite not_elem_of_cons in Hni. destruct Hni as [Hab Hni].
  intros (-> & ? & r & ? & ?). split_and!; [done..|]. exists r.
  rewrite lookup_insert_ne by done. auto.
Qed.

Section Facts.
Context (pools : memp_t -> memp_desc) `{HP : !PoolsOk pools}.

Lemma elem_props t a :
  a ∈ elems (pools t) -> a <> NULL /\ a mod 4 = 0 /\ 0 < a < 4294967292.
Proof.
  unfold elems. intros (i & -> & Hi)%list_elem_of_fmap. apply elem_of_seq in Hi.
  pose proof (pool_size t). pose proof (pool_base t). unfold NULL.
  rewrite align_spec by nia. nia.
Qed.

Lemma elems_NoDup t : NoDup (elems (pools t)).
Proof.
  unfold elems. apply NoDup_fmap_2_strong; [|apply NoDup_seq].
  intros i j _ _ E. pose proof (pool_size t). nia.
Qed.

Lemma elems_length t : length (elems (pools t)) = num (pools t).
Proof. unfold elems. by rewrite length_fmap, length_seq. Qed.

Lemma pool_rep_set s fl t p q l :
  pool_rep pools s fl -> t <> MEMP_MAX ->
  (forall u, u <> MEMP_MAX -> u <> t -> linked (links s) (tab s u) (fl u) -> linked q (tab s u) (fl u)) ->
  linked q p l -> NoDup l -> Forall (.∈ elems (pools t)) l ->
  pool_rep pools {| tab := <[t := p]> (tab s); links := q |} (<[t := l]> fl).
Proof.
  intros Hr Ht Ho Hl Hn He u Hu. simpl. destruct (decide (u = t)) as [->|Hne].
  - by rewrite !fn_lookup_insert.
  - rewrite !fn_lookup_insert_ne by done. destruct (Hr u Hu) as (? & ? & ?). auto.
Qed.

(** Allocation pops the stack. *)
Lemma memp_malloc_spec s fl t :
  pool_rep pools s fl -> t <> MEMP_MAX ->
  exists s', memp_malloc t s = Ok (match fl t with [] => NULL | a :: _ => a end, s') /\
    pool_rep pools s' (<[t := tail (fl t)]> fl).
Proof.
  intros Hr Ht. assert (memp_malloc t s = do_memp_malloc_pool t s) as -> by (by destruct t).
  unfold do_memp_malloc_pool. mrun. destruct (Hr t Ht) as (Hl & Hn & He).
  destruct (fl t) as [|a l] eqn:Efl; simpl in Hl.
  - rewrite Hl. simpl. exists s. split; [done|].
    intros u Hu. destruct (decide (u = t)) as [->|].
    + by rewrite fn_lookup_insert, Hl.
    + rewrite fn_lookup_insert_ne by done. by apply Hr.
  - destruct Hl as (-> & Hnz & q & Hq & Hl).
    apply Forall_cons in He as [Ha He]. destruct (elem_props t a Ha) as (_ & Hal & _).
    apply Z.eqb_neq in Hnz. rewrite Hnz. simpl. rewrite Hq.
    unfold MEM_ALIGNMENT. rewrite Hal. simpl. unfold MEMP_SIZE. rewrite Z.add_0_r.
    eexists. split; [reflexivity|]. apply pool_rep_set; [done|done|auto|done| |done].
    by apply NoDup_cons in Hn as [_ ?].
Qed.

(** Freeing an element that is not on the free list pushes it. *)
Lemma memp_free_spec s fl t a :
  pool_rep pools s fl -> t <> MEMP_MAX -> a ∈ elems (pools t) -> a ∉ fl t ->
  exists s', memp_free t a s = Ok (tt, s') /\ pool_rep pools s' (<[t := a :: fl t]> fl).
Proof.
  intros Hr Ht Ha Hni. destruct (elem_props t a Ha) as (Hnz & Hal & _).
  assert (memp_free t a s = do_memp_free_pool t a s) as ->.
  { apply Z.eqb_neq in Hnz. unfold memp_free. destruct t; by try rewrite Hnz. }
  unfold do_memp_free_pool. mrun. unfold MEM_ALIGNMENT. rewrite Hal. simpl.
  unfold MEMP_SIZE. rewrite Z.sub_0_r.
  eexists. split; [reflexivity|]. destruct (Hr t Ht) as (Hl & Hn & He).
  apply (pool_rep_set s fl t a (<[a := tab s t]> (links s))); [done|done|..].
  - intros u Hu Hne Hlu. apply linked_insert; [|done]. intros Hin.
    destruct (Hr u Hu) as (_ & _ & Heu). rewrite Forall_forall in Heu.
    apply Hne. eapply pool_disjoint; eauto.
  - simpl. split_and!; [done..|]. exists (tab s t). split; [apply lookup_insert_eq|].
    by apply linked_insert.
  - by constructor.
  - by constructor.
Qed.

(** The initialisation loop pushes the elements in address order. *)
Lemma memp_init_loop_spec t n k s fl :
  t <> MEMP_MAX -> pool_rep pools s fl -> (k + n)%nat = num (pools t) ->
  fl t = rev ((fun i : nat => LWIP_MEM_ALIGN (base (pools t)) + Z.of_nat i * size (pools t)) <$> seq 0 k) ->
  exists s', memp_init_loop pools t n
      (LWIP_MEM_ALIGN (base (pools t)) + Z.of_nat k * size (pools t)) s = Ok (tt, s') /\
    pool_rep pools s' (<[t := rev (elems (pools t))]> fl).
Proof.
  intros Ht. revert k s fl. induction n as [|n IH]; intros k s fl Hr Hk Hfl.
  - exists s. split; [done|]. intros u Hu. destruct (decide (u = t)) as [->|].
    + assert (fl t = rev (elems (pools t))) as E.
      { rewrite Hfl. unfold elems. by replace (num (pools t)) with k by lia. }
      rewrite fn_lookup_insert, <- E. by apply Hr.
    + rewrite fn_lookup_insert_ne by done. by apply Hr.
  - set (a := LWIP_MEM_ALIGN (base (pools t)) + Z.of_nat k * size (pools t)).
    assert (a ∈ elems (pools t)) as Ha.
    { apply list_elem_of_fmap. exists k. split; [done|]. apply elem_of_seq. lia. }
    assert (a ∉ fl t) as Hni.
    { rewrite Hfl, list_elem_of_In, <- in_rev, <- list_elem_of_In. intros (i & E & Hi)%list_elem_of_fmap. apply elem_of_seq in Hi.
      pose proof (pool_size t). subst a. nia. }
    destruct (memp_free_spec s fl t a Hr Ht Ha Hni) as (s' & E & Hr').
    destruct (elem_props t a Ha) as (Hnz & Hal & _).
    assert (E' : (first ← gets (fun s => tab s t); modify (set_link a first);; modify (set_tab t a)) s
                 = Ok (tt, s')).
    { rewrite <- E. apply Z.eqb_neq in Hnz. unfold memp_free, do_memp_free_pool.
      destruct t; mrun; rewrite ?Hnz; unfold MEM_ALIGNMENT, MEMP_SIZE; rewrite ?Hal, ?Z.sub_0_r; done. }
    destruct (IH (S k) s' (<[t := a :: fl t]> fl) Hr') as (s'' & E'' & Hr''); [lia| |].
    { rewrite fn_lookup_insert. replace (S k) with (k + 1)%nat by lia.
      rewrite seq_app, fmap_app, rev_app_distr. simpl. by rewrite Hfl. }
    exists s''. split.
    + simpl. mrun. injection E' as ->. unfold MEMP_SIZE. rewrite <- E''. f_equal. subst a. lia.
    + intros u Hu. specialize (Hr'' u Hu). destruct (decide (u = t)) as [->|].
      * by rewrite !fn_lookup_insert in *.
      * by rewrite !fn_lookup_insert_ne in * by done.
Qed.

Lemma pool_rep_ext s fl fl' :
  (forall t, t <> MEMP_MAX -> fl t = fl' t) -> pool_rep pools s fl -> pool_rep pools s fl'.
Proof. intros He Hr t Ht. rewrite <- He by done. by apply Hr. Qed.

Lemma memp_init_pool_spec s fl t :
  pool_rep pools s fl -> t <> MEMP_MAX ->
  exists s', memp_init_pool pools t s = Ok (tt, s') /\
    pool_rep pools s' (<[t := rev (elems (pools t))]> fl).
Proof.
  intros Hr Ht. unfold memp_init_pool.
  assert (pool_rep pools (set_tab t NULL s) (<[t := []]> fl)) as Hr0.
  { apply (pool_rep_set s fl t NULL (links s)); [done|done|auto|done|constructor|constructor]. }
  destruct (memp_init_loop_spec t (num (pools t)) 0 _ _ Ht Hr0) as (s' & E & Hr');
    [done|by rewrite fn_lookup_insert|].
  exists s'. split.
  - mrun. rewrite <- E. f_equal. lia.
  - eapply pool_rep_ext; [|exact Hr']. intros u Hu. simpl. destruct (decide (u = t)) as [->|].
    + by rewrite !fn_lookup_insert.
    + by rewrite !fn_lookup_insert_ne by done.
Qed.

Lemma memp_init_all_spec ts s fl :
  pool_rep pools s fl -> Forall (fun t => t <> MEMP_MAX) ts ->
  exists s', memp_init_all pools ts s = Ok (tt, s') /\
    pool_rep pools s' (fun t => if decide (t ∈ ts) then rev (elems (pools t)) else fl t).
Proof.
  revert s fl. induction ts as [|t ts IH]; intros s fl Hr Hts.
  - exists s. split; [done|]. eapply pool_rep_ext; [|exact Hr]. intros u _. cbv beta.
    by rewrite decide_False by set_solver.
  - apply Forall_cons in Hts as [Ht Hts].
    destruct (memp_init_pool_spec s fl t Hr Ht) as (s1 & E1 & Hr1).
    destruct (IH s1 _ Hr1 Hts) as (s2 & E2 & Hr2). exists s2. split.
    + simpl. unfold mbind, M_bind. by rewrite E1.
    + eapply pool_rep_ext; [|exact Hr2]. intros u _. cbv beta.
      destruct (decide (u ∈ ts)) as [Hin|Hni].
      { by rewrite decide_True by set_solver. }
      destruct (decide (u = t)) as [->|Hne].
      * rewrite fn_lookup_insert. by rewrite decide_True by set_solver.
      * rewrite fn_lookup_insert_ne by done. by rewrite decide_False by set_solver.
Qed.

Lemma memp_init_spec s :
  (forall t, tab s t = NULL) ->
  exists s', memp_init pools s = Ok (tt, s') /\ pool_rep pools s' (fun t => rev (elems (pools t))).
Proof.
  intros Hz. destruct (memp_init_all_spec memp_pools s (fun _ => [])) as (s' & E & Hr).
  - intros t _. split_and!; [apply Hz|constructor|constructor].
  - repeat constructor; done.
  - exists s'. split; [exact E|]. eapply pool_rep_ext; [|exact Hr]. intros t Ht. cbv beta.
    rewrite decide_True; [done|]. unfold memp_pools. destruct t; set_solver.
Qed.
End Facts.

(** ** Every run of the allocator

    The states reachable from [memp_init] by allocations and by frees of
    elements that are currently allocated; [live] records, per pool, the
    elements handed out and not given back. *)
Inductive memp_reach (pools : memp_t -> memp_desc) : memp_state -> (memp_t -> list Z) -> Prop :=
| reach_init s s' :
    (forall t, tab s t = NULL) -> memp_init pools s = Ok (tt, s') ->
    memp_reach pools s' (fun _ => [])
| reach_malloc s live t a s' :
    memp_reach pools s live -> t <> MEMP_MAX -> memp_malloc t s = Ok (a, s') -> a <> NULL ->
    memp_reach pools s' (<[t := a :: live t]> live)
| reach_malloc_null s live t s' :
    memp_reach pools s live -> t <> MEMP_MAX -> memp_malloc t s = Ok (NULL, s') ->
    memp_reach pools s' live
| reach_free s live t pre a post s' :
    memp_reach pools s live -> t <> MEMP_MAX -> live t = pre ++ a :: post ->
    memp_free t a s = Ok (tt, s') ->
    memp_reach pools s' (<[t := pre ++ post]> live).

(** The invariant: free and live elements of a pool are together exactly its
    elements. *)
Definition memp_inv (pools : memp_t -> memp_desc) (s : memp_state) (live : memp_t -> list Z) : Prop :=
  exists fl, pool_rep pools s fl /\
    forall t, t <> MEMP_MAX -> fl t ++ live t ≡ₚ elems (pools t).

Section Reach.
Context (pools : memp_t -> memp_desc) `{HP : !PoolsOk pools}.

Lemma memp_inv_live (live fl : memp_t -> list Z) t :
  fl t ++ live t ≡ₚ elems (pools t) ->
  NoDup (fl t ++ live t) /\ (forall a, a ∈ fl t \/ a ∈ live t <-> a ∈ elems (pools t)).
Proof.
  intros Hp. split; [rewrite Hp; by apply elems_NoDup|]. intros a.
  rewrite <- elem_of_app. by rewrite Hp.
Qed.

Lemma memp_reach_inv s live : memp_reach pools s live -> memp_inv pools s live.
Proof.
  induction 1 as [s s' Hz E|s live t a s' _ [fl [Hr Hp]] Ht E Hnz
                 |s live t s' _ [fl [Hr Hp]] Ht E|s live t pre a post s' _ [fl [Hr Hp]] Ht El E].
  - destruct (memp_init_spec pools s Hz) as (s'' & E' & Hr). rewrite E in E'.
    injection E' as <-. eexists. split; [exact Hr|]. intros t _. rewrite app_nil_r.
    symmetry. apply Permutation_rev.
  - destruct (memp_malloc_spec pools s fl t Hr Ht) as (s'' & E' & Hr').
    rewrite E in E'. injection E' as Ea <-. eexists. split; [exact Hr'|]. intros u Hu.
    destruct (decide (u = t)) as [->|]; [|by rewrite !fn_lookup_insert_ne by done; auto].
    rewrite !fn_lookup_insert. rewrite <- (Hp t Ht).
    destruct (fl t) as [|b l]; [done|]. subst b. simpl. by rewrite Permutation_middle.
  - destruct (memp_malloc_spec pools s fl t Hr Ht) as (s'' & E' & Hr').
    rewrite E in E'. injection E' as Ea <-. eexists. split; [exact Hr'|]. intros u Hu.
    destruct (decide (u = t)) as [->|]; [|by rewrite !fn_lookup_insert_ne by done; auto].
    rewrite fn_lookup_insert. rewrite <- (Hp t Ht).
    destruct (fl t) as [|b l] eqn:Efl; [done|]. destruct (Hr t Ht) as (Hl & _).
    rewrite Efl in Hl. simpl in Hl. naive_solver.
  - destruct (memp_inv_live live fl t (Hp t Ht)) as [Hnd Hel]. rewrite El in Hnd, Hel.
    apply NoDup_app in Hnd as (_ & Hdis & _).
    destruct (memp_free_spec pools s fl t a Hr Ht) as (s'' & E' & Hr');
      [apply Hel; set_solver|intros Hin; by apply (Hdis a Hin); set_solver|].
    rewrite E in E'. injection E' as <-. eexists. split; [exact Hr'|]. intros u Hu.
    destruct (decide (u = t)) as [->|]; [|by rewrite !fn_lookup_insert_ne by done; auto].
    rewrite !fn_lookup_insert. rewrite <- (Hp t Ht), El. simpl.
    by rewrite <- Permutation_middle, <- Permutation_middle.
Qed.

(** C26: in every state the pool allocator can reach, [memp_malloc] returns
    without assertion failure or fault; it returns an element of the pool that
    is not currently handed out as long as fewer than [num] elements are, and
    NULL, changing nothing, exactly when all are. *)
Theorem memp_malloc_reach (s : memp_state) (live : memp_t -> list Z) (t : memp_t)
  (Hs : memp_reach pools s live) (Ht : t <> MEMP_MAX) :
  NoDup (live t) /\ (length (live t) <= num (pools t))%nat /\
  (exists r s', memp_malloc t s = Ok (r, s') /\
    ((length (live t) < num (pools t))%nat -> r ∈ elems (pools t) /\ r ∉ live t /\ r <> NULL) /\
    (length (live t) = num (pools t) -> r = NULL /\ s' = s)).
Proof.
  destruct (memp_reach_inv s live Hs) as (fl & Hr & Hp). specialize (Hp t Ht).
  destruct (memp_inv_live live fl t Hp) as [Hnd Hel].
  pose proof (Permutation_length Hp) as Hlen. rewrite length_app, (elems_length pools t) in Hlen.
  apply NoDup_app in Hnd as (_ & Hdis & Hnl). split_and!; [done|lia|].
  destruct (memp_malloc_spec pools s fl t Hr Ht) as (s' & E & _).
  eexists _, s'. split; [exact E|]. destruct (fl t) as [|a l] eqn:Efl; simpl in *.
  - split; [lia|]. intros _. split; [done|]. destruct (Hr t Ht) as (Hl & _). rewrite Efl in Hl.
    simpl in Hl. unfold memp_malloc, do_memp_malloc_pool in E.
    destruct t; try done; mrun; rewrite Hl in E; simpl in E; congruence.
  - split; [|lia]. intros _. assert (a ∈ elems (pools t)) as Ha by (apply Hel; set_solver).
    split_and!; [done| |by apply (elem_props pools t)]. apply Hdis. set_solver.
Qed.

(** Giving back an element that is currently handed out never fails, and
    the element is the next one [memp_malloc] returns: pools are LIFO. *)
Theorem memp_free_malloc (s : memp_state) (live : memp_t -> list Z) (t : memp_t) (a : Z)
  (Hs : memp_reach pools s live) (Ht : t <> MEMP_MAX) (Ha : a ∈ live t) :
  exists s' s'', memp_free t a s = Ok (tt, s') /\ memp_malloc t s' = Ok (a, s'').
Proof.
  destruct (memp_reach_inv s live Hs) as (fl & Hr & Hp). specialize (Hp t Ht).
  destruct (memp_inv_live live fl t Hp) as [Hnd Hel].
  apply NoDup_app in Hnd as (_ & Hdis & _).
  destruct (memp_free_spec pools s fl t a Hr Ht) as (s' & E & Hr');
    [apply Hel; auto|intros Hin; by apply (Hdis a Hin)|].
  destruct (memp_malloc_spec pools s' _ t Hr' Ht) as (s'' & E' & _).
  rewrite fn_lookup_insert in E'. eauto.
Qed.
End Reach.

(** ** A concrete layout

    The element counts of lwipopts.h, with element sizes and addresses such as a
    32-bit build gives them. *)
Definition example_pools (t : memp_t) : memp_desc :=
  match t with
  | MEMP_TCP_PCB => {| size := 164; num := 2; base := 268435456 |}
  | MEMP_TCP_PCB_LISTEN => {| size := 32; num := 1; base := 268436456 |}
  | MEMP_TCP_SEG => {| size := 20; num := 16; base := 268437456 |}
  | MEMP_SYS_TIMEOUT => {| size := 16; num := 2; base := 268438456 |}
  | MEMP_PBUF => {| size := 16; num := 8; base := 268439456 |}
  | MEMP_PBUF_POOL => {| size := 1540; num := 4; base := 268440456 |}
  | MEMP_MAX => {| size := 4; num := 0; base := 4 |}
  end.

Lemma elems_range d a :
  0 <= base d < 4294967292 -> 0 < size d -> a ∈ elems d ->
  base d <= a <= base d + 3 + Z.of_nat (num d) * size d - size d.
Proof.
  unfold elems. intros Hb Hs (i & -> & Hi)%list_elem_of_fmap. apply elem_of_seq in Hi.
  rewrite align_spec by done. nia.
Qed.

Global Instance example_pools_ok : PoolsOk example_pools.
Proof.
  split.
  - intros []; simpl; lia.
  - intros []; simpl; lia.
  - intros t u a Ht Hu.
    apply elems_range in Ht; [|destruct t; simpl; lia..].
    apply elems_range in Hu; [|destruct u; simpl; lia..].
    destruct t, u; simpl in *; done || lia.
Qed.

Definition example_memp0 : memp_state := {| tab := fun _ => NULL; links := ∅ |}.

(** Run a command and keep the state. *)
Definition exec {S A} (m : M S A) (s : S) : S :=
  match m s with Ok (_, s') => s' | _ => s end.

Definition example_memp1 : memp_state := exec (memp_init example_pools) example_memp0.
Definition example_memp2 : memp_state := exec (memp_malloc MEMP_SYS_TIMEOUT) example_memp1.

Lemma example_reach1 : memp_reach example_pools example_memp1 (fun _ => []).
Proof. eapply reach_init with (s := example_memp0); [done|vm_compute; reflexivity]. Qed.

Lemma example_reach2 :
  memp_reach example_pools example_memp2 (<[MEMP_SYS_TIMEOUT := [268438472]]> (fun _ => [])).
Proof.
  apply (reach_malloc _ example_memp1 (fun _ => []) MEMP_SYS_TIMEOUT);
    [apply example_reach1|done|vm_compute; reflexivity|done].
Qed.

Lemma memp_malloc_reach_witness :
  exists r s', memp_malloc MEMP_SYS_TIMEOUT example_memp2 = Ok (r, s') /\ r <> NULL.
Proof.
  destruct (memp_malloc_reach example_pools example_memp2
    (<[MEMP_SYS_TIMEOUT := [268438472]]> (fun _ => [])) MEMP_SYS_TIMEOUT example_reach2)
    as (_ & _ & r & s' & E & H & _); [done|].
  exists r, s'. split; [exact E|]. apply H. apply Nat.ltb_lt. reflexivity.
Defined.

Lemma memp_free_malloc_witness :
  exists s' s'', memp_free MEMP_SYS_TIMEOUT 268438472 example_memp2 = Ok (tt, s') /\
    memp_malloc MEMP_SYS_TIMEOUT s' = Ok (268438472, s'').
Proof.
  apply (memp_free_malloc example_pools example_memp2
    (<[MEMP_SYS_TIMEOUT := [268438472]]> (fun _ => [])) MEMP_SYS_TIMEOUT 268438472 example_reach2);
    [done|]. rewrite fn_lookup_insert. constructor.
Defined.
