(* ===== verification/Pbuf.v ===== *)
(** * Packet buffers: core/pbuf.c

    Every operation of pbuf.c that the configuration compiles. The structs are
    objects in a store keyed by address, the payload bytes live in the byte
    memory, and freeing a pbuf removes its struct from the store, so a use after
    free faults. The pools are those of [Memp]; the heap behind [PBUF_RAM] is
    used through the interface [Heap]. *)

From S2P Require Import Prelude Memp.
From stdpp Require Import base numbers list gmap functions.
Open Scope Z_scope.
Open Scope c_scope.

(** ** Constants (include/lwip/pbuf.h, include/lwip/err.h, include/lwip/opt.h) *)

Definition ERR_OK : Z := 0.
Definition ERR_MEM : Z := -1.
Definition ERR_BUF : Z := -2.
Definition ERR_VAL : Z := -6.
Definition ERR_ARG : Z := -16.

(** [pbuf_layer] *)
Definition PBUF_RAW : Z := 0.
Definition PBUF_LINK : Z := 14.
Definition PBUF_IP : Z := 34.
Definition PBUF_TRANSPORT : Z := 54.

Definition PBUF_TYPE_FLAG_STRUCT_DATA_CONTIGUOUS : Z := 128.
Definition PBUF_TYPE_ALLOC_SRC_MASK : Z := 15.

(** [pbuf_type] *)
Definition PBUF_RAM : Z := 640.
Definition PBUF_ROM : Z := 1.
Definition PBUF_REF : Z := 65.
Definition PBUF_POOL : Z := 386.

Definition PBUF_POOL_BUFSIZE : Z := 1524.
Definition PBUF_POOL_BUFSIZE_ALIGNED : Z := LWIP_MEM_ALIGN_SIZE PBUF_POOL_BUFSIZE.
(** [sizeof(struct pbuf)]: two pointers, two 16-bit and four 8-bit fields. *)
Definition SIZEOF_STRUCT_PBUF : Z := LWIP_MEM_ALIGN_SIZE 16.

(** ** State *)

Record pbuf := {
  next : Z; payload : Z; tot_len : Z; len : Z;
  type_internal : Z; flags : Z; ref : Z; if_idx : Z }.

Definition with_next (x : Z) (b : pbuf) : pbuf :=
  {| next := x; payload := payload b; tot_len := tot_len b; len := len b;
     type_internal := type_internal b; flags := flags b; ref := ref b; if_idx := if_idx b |}.
Definition with_payload (x : Z) (b : pbuf) : pbuf :=
  {| next := next b; payload := x; tot_len := tot_len b; len := len b;
     type_internal := type_internal b; flags := flags b; ref := ref b; if_idx := if_idx b |}.
Definition with_tot_len (x : Z) (b : pbuf) : pbuf :=
  {| next := next b; payload := payload b; tot_len := x; len := len b;
     type_internal := type_internal b; flags := flags b; ref := ref b; if_idx := if_idx b |}.
Definition with_len (x : Z) (b : pbuf) : pbuf :=
  {| next := next b; payload := payload b; tot_len := tot_len b; len := x;
     type_internal := type_internal b; flags := flags b; ref := ref b; if_idx := if_idx b |}.
Definition with_ref (x : Z) (b : pbuf) : pbuf :=
  {| next := next b; payload := payload b; tot_len := tot_len b; len := len b;
     type_internal := type_internal b; flags := flags b; ref := x; if_idx := if_idx b |}.

(** What pbuf.c uses of core/mem.c. *)
Class Heap (H : Type) := {
  mem_malloc : Z -> M H Z;
  mem_free : Z -> M H unit;
  mem_trim : Z -> Z -> M H Z
}.

Record net (H : Type) := mk_net {
  n_memp : memp_state;
  n_heap : H;
  n_pbufs : gmap Z pbuf;
  n_mem : memory;
  n_ooseq : Z (* pbuf_free_ooseq_pending *) }.
Arguments mk_net {H}.
Arguments n_memp {H}.
Arguments n_heap {H}.
Arguments n_pbufs {H}.
Arguments n_mem {H}.
Arguments n_ooseq {H}.

Section Ops.
Context (pools : memp_t -> memp_desc) {H : Type} `{HH : !Heap H}.

Definition set_pbufs (ps : gmap Z pbuf) (s : net H) : net H :=
  mk_net (n_memp s) (n_heap s) ps (n_mem s) (n_ooseq s).
Definition set_mem (m : memory) (s : net H) : net H :=
  mk_net (n_memp s) (n_heap s) (n_pbufs s) m (n_ooseq s).

(** Run a component's operation on its part of the state. *)
Definition lift_memp {A} (m : M memp_state A) : M (net H) A := fun s =>
  match m (n_memp s) with
  | Ok (a, x) => Ok (a, mk_net x (n_heap s) (n_pbufs s) (n_mem s) (n_ooseq s))
  | AssertFail => AssertFail | Fault => Fault | NoFuel => NoFuel
  end.
Definition lift_heap {A} (m : M H A) : M (net H) A := fun s =>
  match m (n_heap s) with
  | Ok (a, x) => Ok (a, mk_net (n_memp s) x (n_pbufs s) (n_mem s) (n_ooseq s))
  | AssertFail => AssertFail | Fault => Fault | NoFuel => NoFuel
  end.

(** [*p], a field assignment through [p], and the end of a struct's life. *)
Definition rd (p : Z) : M (net H) pbuf := fun s => deref (n_pbufs s !! p) s.
Definition upd (p : Z) (f : pbuf -> pbuf) : M (net H) unit := fun s =>
  match n_pbufs s !! p with
  | Some b => Ok (tt, set_pbufs (<[p := f b]> (n_pbufs s)) s)
  | None => Fault
  end.
Definition drop_struct (p : Z) : M (net H) unit :=
  modify (fun s => set_pbufs (delete p (n_pbufs s)) s).

(** [MEMCPY(dst, src, n)] *)
Definition MEMCPY (dst src n : Z) : M (net H) unit := fun s =>
  match load (n_mem s) src (Z.to_nat n) with
  | Some l => match store (n_mem s) dst l with
              | Some m => Ok (tt, set_mem m s)
              | None => Fault
              end
  | None => Fault
  end.
Definition read_byte (a : Z) : M (net H) Z := fun s => deref (n_mem s !! a) s.
Definition write_byte (a b : Z) : M (net H) unit := fun s =>
  match store (n_mem s) a [b] with Some m => Ok (tt, set_mem m s) | None => Fault end.

(** Loops over a chain visit each live struct at most once. *)
Definition chain_fuel : M (net H) nat := gets (fun s => S (S (size (n_pbufs s)))).

Definition when (b : bool) (m : M (net H) unit) : M (net H) unit := if b then m else mret tt.

(** ** Allocation *)

Definition pbuf_pool_is_empty : M (net H) unit :=
  modify (fun s => mk_net (n_memp s) (n_heap s) (n_pbufs s) (n_mem s) 1).

Definition pbuf_init_alloced_pbuf (p pay tl l type fl : Z) : M (net H) unit :=
  modify (fun s => set_pbufs (<[p := {| next := NULL; payload := pay; tot_len := tl; len := l;
    type_internal := u8 type; flags := fl; ref := 1; if_idx := 0 |}]> (n_pbufs s)) s).

Definition pbuf_get_allocsrc (b : pbuf) : Z := type_internal b &c PBUF_TYPE_ALLOC_SRC_MASK.

Fixpoint pbuf_free_loop (fuel : nat) (p count : Z) : M (net H) Z :=
  match fuel with
  | O => nofuel
  | S fuel' =>
      if p =? NULL then mret count else
      b ← rd p;
      assert (0 <? ref b);;
      let r := u8 (ref b - 1) in
      upd p (with_ref r);;
      if r =? 0 then
        let q := next b in
        let alloc_src := pbuf_get_allocsrc b in
        (if alloc_src =? 2 then lift_memp (memp_free MEMP_PBUF_POOL p)
         else if alloc_src =? 1 then lift_memp (memp_free MEMP_PBUF p)
         else if alloc_src =? 0 then lift_heap (mem_free p)
         else assert false);;
        drop_struct p;;
        pbuf_free_loop fuel' q (u8 (count + 1))
      else mret count
  end.

Definition pbuf_free (p : Z) : M (net H) Z :=
  if p =? NULL then assert false;; mret 0
  else fuel ← chain_fuel; pbuf_free_loop fuel p 0.

Definition pbuf_alloc_reference (pay length type : Z) : M (net H) Z :=
  assert ((type =? PBUF_REF) || (type =? PBUF_ROM));;
  p ← lift_memp (memp_malloc MEMP_PBUF);
  if p =? NULL then mret NULL
  else pbuf_init_alloced_pbuf p pay length length type 0;; mret p.

(** The [do ... while (rem_len > 0)] loop of the [PBUF_POOL] case. *)
Fixpoint pbuf_alloc_pool_loop (fuel : nat) (p last rem_len offset : Z) : M (net H) Z :=
  match fuel with
  | O => nofuel
  | S fuel' =>
      q ← lift_memp (memp_malloc MEMP_PBUF_POOL);
      if q =? NULL then
        pbuf_pool_is_empty;;
        (if p =? NULL then mret 0 else pbuf_free p);;
        mret NULL
      else
        let room := u16 (PBUF_POOL_BUFSIZE_ALIGNED - LWIP_MEM_ALIGN_SIZE offset) in
        let qlen := if rem_len <? room then rem_len else room in
        let pay := LWIP_MEM_ALIGN (q + SIZEOF_STRUCT_PBUF + offset) in
        pbuf_init_alloced_pbuf q pay rem_len qlen PBUF_POOL 0;;
        assert (pay mod MEM_ALIGNMENT =? 0);;
        assert (0 <? u32 (PBUF_POOL_BUFSIZE_ALIGNED - LWIP_MEM_ALIGN_SIZE offset));;
        p' ← (if p =? NULL then mret q else upd last (with_next q);; mret p);
        let rem_len := u16 (rem_len - qlen) in
        if 0 <? rem_len then pbuf_alloc_pool_loop fuel' p' q rem_len 0
        else mret p'
  end.

Definition pbuf_alloc (layer length type : Z) : M (net H) Z :=
  let offset := u16 layer in
  if (type =? PBUF_REF) || (type =? PBUF_ROM) then pbuf_alloc_reference NULL length type
  else if type =? PBUF_POOL then
    pbuf_alloc_pool_loop (S (num (pools MEMP_PBUF_POOL))) NULL NULL length offset
  else if type =? PBUF_RAM then
    let payload_len := u16 (LWIP_MEM_ALIGN_SIZE offset + LWIP_MEM_ALIGN_SIZE length) in
    let alloc_len := u16 (LWIP_MEM_ALIGN_SIZE SIZEOF_STRUCT_PBUF + payload_len) in
    if (payload_len <? LWIP_MEM_ALIGN_SIZE length) || (alloc_len <? LWIP_MEM_ALIGN_SIZE length)
    then mret NULL
    else
      p ← lift_heap (mem_malloc alloc_len);
      if p =? NULL then mret NULL
      else
        let pay := LWIP_MEM_ALIGN (p + SIZEOF_STRUCT_PBUF + offset) in
        pbuf_init_alloced_pbuf p pay length length type 0;;
        assert (pay mod MEM_ALIGNMENT =? 0);;
        mret p
  else assert false;; mret NULL.

(** ** Reshaping a chain *)

Fixpoint pbuf_realloc_loop (fuel : nat) (q rem_len shrink : Z) : M (net H) (Z * Z) :=
  match fuel with
  | O => nofuel
  | S fuel' =>
      b ← rd q;
      if len b <? rem_len then
        let rem_len := u16 (rem_len - len b) in
        upd q (with_tot_len (u16 (tot_len b - shrink)));;
        let q := next b in
        assert (negb (q =? NULL));;
        pbuf_realloc_loop fuel' q rem_len shrink
      else mret (q, rem_len)
  end.

Definition pbuf_realloc (p new_len : Z) : M (net H) unit :=
  assert (negb (p =? NULL));;
  b ← rd p;
  if tot_len b <=? new_len then mret tt
  else
    let shrink := u16 (tot_len b - new_len) in
    fuel ← chain_fuel;
    '(q, rem_len) ← pbuf_realloc_loop fuel p new_len shrink;
    b ← rd q;
    q ← (if (pbuf_get_allocsrc b =? 0) && negb (rem_len =? len b)
         then
           q' ← lift_heap (mem_trim q (u16 (payload b - q + rem_len)));
           assert (negb (q' =? NULL));; mret q'
         else mret q);
    upd q (with_len rem_len);;
    upd q (with_tot_len rem_len);;
    b ← rd q;
    (if negb (next b =? NULL) then pbuf_free (next b) else mret 0);;
    upd q (with_next NULL).

(** [size_t header_size_increment] is 32 bits wide. *)
Definition pbuf_add_header_impl (p header_size_increment : Z) (force : bool) : M (net H) Z :=
  assert (negb (p =? NULL));;
  if (p =? NULL) || (65535 <? header_size_increment) then mret 1
  else if header_size_increment =? 0 then mret 0
  else
    let increment_magnitude := u16 header_size_increment in
    b ← rd p;
    if u16 (increment_magnitude + tot_len b) <? increment_magnitude then mret 1
    else
      let pay := payload b - header_size_increment in
      let commit :=
        upd p (with_payload pay);;
        upd p (with_len (u16 (len b + increment_magnitude)));;
        upd p (with_tot_len (u16 (tot_len b + increment_magnitude)));;
        mret 0 in
      if negb ((type_internal b &c PBUF_TYPE_FLAG_STRUCT_DATA_CONTIGUOUS) =? 0) then
        if pay <? p + SIZEOF_STRUCT_PBUF then mret 1 else commit
      else if force then commit else mret 1.

Definition pbuf_add_header (p header_size_increment : Z) : M (net H) Z :=
  pbuf_add_header_impl p header_size_increment false.
Definition pbuf_add_header_force (p header_size_increment : Z) : M (net H) Z :=
  pbuf_add_header_impl p header_size_increment true.

Definition pbuf_remove_header (p header_size_decrement : Z) : M (net H) Z :=
  assert (negb (p =? NULL));;
  if (p =? NULL) || (65535 <? header_size_decrement) then mret 1
  else if header_size_decrement =? 0 then mret 0
  else
    let increment_magnitude := u16 header_size_decrement in
    b ← rd p;
    if len b <? increment_magnitude then mret 1
    else
      upd p (with_payload (payload b + header_size_decrement));;
      upd p (with_len (u16 (len b - increment_magnitude)));;
      upd p (with_tot_len (u16 (tot_len b - increment_magnitude)));;
      mret 0.

Definition pbuf_header_impl (p header_size_increment : Z) (force : bool) : M (net H) Z :=
  if header_size_increment <? 0 then pbuf_remove_header p (- header_size_increment)
  else pbuf_add_header_impl p header_size_increment force.

Definition pbuf_header (p header_size_increment : Z) : M (net H) Z :=
  pbuf_header_impl p header_size_increment false.
Definition pbuf_header_force (p header_size_increment : Z) : M (net H) Z :=
  pbuf_header_impl p header_size_increment true.

Fixpoint pbuf_free_header_loop (fuel : nat) (p free_left : Z) : M (net H) Z :=
  match fuel with
  | O => nofuel
  | S fuel' =>
      if negb (free_left =? 0) && negb (p =? NULL) then
        b ← rd p;
        if len b <=? free_left then
          let free_left := u16 (free_left - len b) in
          upd p (with_next NULL);;
          pbuf_free p;;
          pbuf_free_header_loop fuel' (next b) free_left
        else
          pbuf_remove_header p free_left;;
          mret p
      else mret p
  end.

Definition pbuf_free_header (q size : Z) : M (net H) Z :=
  fuel ← chain_fuel; pbuf_free_header_loop fuel q size.

Fixpoint pbuf_clen_loop (fuel : nat) (p len : Z) : M (net H) Z :=
  match fuel with
  | O => nofuel
  | S fuel' =>
      if p =? NULL then mret len else
      b ← rd p; pbuf_clen_loop fuel' (next b) (u16 (len + 1))
  end.

Definition pbuf_clen (p : Z) : M (net H) Z := fuel ← chain_fuel; pbuf_clen_loop fuel p 0.

Definition pbuf_ref (p : Z) : M (net H) unit :=
  if p =? NULL then mret tt
  else
    b ← rd p;
    upd p (with_ref (u8 (ref b + 1)));;
    assert (0 <? u8 (ref b + 1)).

(** [for (p = h; p->next != NULL; p = p->next)]: the last pbuf of the chain. *)
Fixpoint pbuf_cat_loop (fuel : nat) (p t : Z) : M (net H) Z :=
  match fuel with
  | O => nofuel
  | S fuel' =>
      b ← rd p;
      if next b =? NULL then mret p
      else
        bt ← rd t;
        upd p (with_tot_len (u16 (tot_len b + tot_len bt)));;
        pbuf_cat_loop fuel' (next b) t
  end.

Definition pbuf_cat (h t : Z) : M (net H) unit :=
  if (h =? NULL) || (t =? NULL) then mret tt
  else
    fuel ← chain_fuel;
    p ← pbuf_cat_loop fuel h t;
    b ← rd p;
    assert (tot_len b =? len b);;
    assert (next b =? NULL);;
    bt ← rd t;
    upd p (with_tot_len (u16 (tot_len b + tot_len bt)));;
    upd p (with_next t).

Definition pbuf_chain (h t : Z) : M (net H) unit := pbuf_cat h t;; pbuf_ref t.

Definition pbuf_dechain (p : Z) : M (net H) Z :=
  b ← rd p;
  let q := next b in
  tail_gone ← (if negb (q =? NULL) then
      bq ← rd q;
      assert (tot_len bq =? tot_len b - len b);;
      upd q (with_tot_len (u16 (tot_len b - len b)));;
      upd p (with_next NULL);;
      upd p (with_tot_len (len b));;
      pbuf_free q
    else mret 1);
  b' ← rd p;
  assert (tot_len b' =? len b');;
  mret (if 0 <? tail_gone then NULL else q).

(** ** Copying *)

(** [pbuf_copy_partial]'s loop over the chain. *)
Fixpoint pbuf_copy_partial_loop (fuel : nat) (p dataptr len0 offset left copied : Z)
  : M (net H) Z :=
  match fuel with
  | O => nofuel
  | S fuel' =>
      if negb (len0 =? 0) && negb (p =? NULL) then
        b ← rd p;
        if negb (offset =? 0) && (len b <=? offset) then
          pbuf_copy_partial_loop fuel' (next b) dataptr len0 (u16 (offset - len b)) left copied
        else
          let n := u16 (len b - offset) in
          let n := if len0 <? n then len0 else n in
          MEMCPY (dataptr + left) (payload b + offset) n;;
          pbuf_copy_partial_loop fuel' (next b) dataptr (u16 (len0 - n)) 0
            (u16 (left + n)) (u16 (copied + n))
      else mret copied
  end.

Definition pbuf_copy_partial (buf dataptr len0 offset : Z) : M (net H) Z :=
  if buf =? NULL then mret 0
  else if dataptr =? NULL then mret 0
  else fuel ← chain_fuel; pbuf_copy_partial_loop fuel buf dataptr len0 offset 0 0.

(** The pbuf and the offset within it, as [pbuf_skip_const] returns them. *)
Fixpoint pbuf_skip_loop (fuel : nat) (q offset_left : Z) : M (net H) (Z * Z) :=
  match fuel with
  | O => nofuel
  | S fuel' =>
      if q =? NULL then mret (q, offset_left)
      else
        b ← rd q;
        if len b <=? offset_left
        then pbuf_skip_loop fuel' (next b) (u16 (offset_left - len b))
        else mret (q, offset_left)
  end.

Definition pbuf_skip_const (inp in_offset : Z) : M (net H) (Z * Z) :=
  fuel ← chain_fuel; pbuf_skip_loop fuel inp in_offset.
Definition pbuf_skip (inp in_offset : Z) : M (net H) (Z * Z) := pbuf_skip_const inp in_offset.

Definition pbuf_get_contiguous (p buffer bufsize len0 offset : Z) : M (net H) Z :=
  if p =? NULL then mret NULL
  else if buffer =? NULL then mret NULL
  else if bufsize <? len0 then mret NULL
  else
    '(q, out_offset) ← pbuf_skip_const p offset;
    if negb (q =? NULL) then
      b ← rd q;
      if out_offset + len0 <=? len b then mret (payload b + out_offset)
      else
        n ← pbuf_copy_partial q buffer len0 out_offset;
        if negb (n =? len0) then mret NULL else mret buffer
    else mret NULL.

Fixpoint pbuf_take_loop (fuel : nat) (p dataptr total_copy_len copied_total : Z)
  : M (net H) (Z * Z) :=
  match fuel with
  | O => nofuel
  | S fuel' =>
      if total_copy_len =? 0 then mret (total_copy_len, copied_total)
      else
        assert (negb (p =? NULL));;
        b ← rd p;
        let n := if len b <? total_copy_len then len b else total_copy_len in
        MEMCPY (payload b) (dataptr + copied_total) n;;
        pbuf_take_loop fuel' (next b) dataptr (total_copy_len - n) (copied_total + n)
  end.

Definition pbuf_take (buf dataptr len0 : Z) : M (net H) Z :=
  if buf =? NULL then mret ERR_ARG
  else if dataptr =? NULL then mret ERR_ARG
  else
    b ← rd buf;
    if tot_len b <? len0 then mret ERR_MEM
    else
      fuel ← chain_fuel;
      '(total_copy_len, copied_total) ← pbuf_take_loop fuel buf dataptr len0 0;
      assert ((total_copy_len =? 0) && (copied_total =? len0));;
      mret ERR_OK.

Definition pbuf_take_at (buf dataptr len0 offset : Z) : M (net H) Z :=
  '(q, target_offset) ← pbuf_skip buf offset;
  if negb (q =? NULL) then
    b ← rd q;
    if target_offset + len0 <=? tot_len b then
      assert (target_offset <? len b);;
      let first := if len b - target_offset <? len0 then len b - target_offset else len0 in
      MEMCPY (payload b + target_offset) dataptr first;;
      let remaining_len := u16 (len0 - first) in
      if 0 <? remaining_len then pbuf_take (next b) (dataptr + first) remaining_len
      else mret ERR_OK
    else mret ERR_MEM
  else mret ERR_MEM.

(** [pbuf_copy_partial_pbuf]'s loop; [size_t] differences are taken at 32 bits. *)
Fixpoint pbuf_copy_pbuf_loop (fuel : nat) (p_to p_from copy_len offset_to offset_from : Z)
  : M (net H) Z :=
  match fuel with
  | O => nofuel
  | S fuel' =>
      bt ← rd p_to;
      bf ← rd p_from;
      let room_to := u32 (len bt - offset_to) in
      let left_from := u32 (len bf - offset_from) in
      let len_calc := if left_from <=? room_to then left_from else room_to in
      let n := u16 (if copy_len <? len_calc then copy_len else len_calc) in
      MEMCPY (payload bt + offset_to) (payload bf + offset_from) n;;
      let offset_to := u32 (offset_to + n) in
      let offset_from := u32 (offset_from + n) in
      let copy_len := u16 (copy_len - n) in
      assert (offset_to <=? len bt);;
      assert (offset_from <=? len bf);;
      let from_done := len bf <=? offset_from in
      let p_from' := if from_done then next bf else p_from in
      let offset_from := if from_done then 0 else offset_from in
      if from_done && (p_from' =? NULL) && negb (copy_len =? 0) then mret ERR_ARG else
      let to_done := offset_to =? len bt in
      let p_to' := if to_done then next bt else p_to in
      let offset_to := if to_done then 0 else offset_to in
      if to_done && (p_to' =? NULL) && negb (copy_len =? 0) then mret ERR_ARG else
      queue_from ← (if p_from' =? NULL then mret false else
        b ← rd p_from'; mret ((len b =? tot_len b) && negb (next b =? NULL)));
      if (queue_from : bool) then mret ERR_VAL else
      queue_to ← (if p_to' =? NULL then mret false else
        b ← rd p_to'; mret ((len b =? tot_len b) && negb (next b =? NULL)));
      if (queue_to : bool) then mret ERR_VAL else
      if negb (copy_len =? 0)
      then pbuf_copy_pbuf_loop fuel' p_to' p_from' copy_len offset_to offset_from
      else mret ERR_OK
  end.

Definition pbuf_copy_partial_pbuf (p_to p_from copy_len offset : Z) : M (net H) Z :=
  if p_from =? NULL then mret ERR_ARG else
  bf ← rd p_from;
  if tot_len bf <? copy_len then mret ERR_ARG else
  if p_to =? NULL then mret ERR_ARG else
  bt ← rd p_to;
  if tot_len bt <? offset + copy_len then mret ERR_ARG else
  n ← gets (fun s => S (S (2 * size (n_pbufs s))));
  pbuf_copy_pbuf_loop n p_to p_from copy_len offset 0.

Definition pbuf_copy (p_to p_from : Z) : M (net H) Z :=
  if p_from =? NULL then mret ERR_ARG
  else bf ← rd p_from; pbuf_copy_partial_pbuf p_to p_from (tot_len bf) 0.

Definition pbuf_clone (layer type p : Z) : M (net H) Z :=
  b ← rd p;
  q ← pbuf_alloc layer (tot_len b) type;
  if q =? NULL then mret NULL
  else
    err ← pbuf_copy q p;
    assert (err =? ERR_OK);;
    mret q.

Definition pbuf_coalesce (p layer : Z) : M (net H) Z :=
  b ← rd p;
  if next b =? NULL then mret p
  else
    q ← pbuf_clone layer PBUF_RAM p;
    if q =? NULL then mret p
    else pbuf_free p;; mret q.

(** ** Byte access and search *)

Definition pbuf_try_get_at (p offset : Z) : M (net H) Z :=
  '(q, q_idx) ← pbuf_skip_const p offset;
  if negb (q =? NULL) then
    b ← rd q;
    if q_idx <? len b then read_byte (payload b + q_idx) else mret (-1)
  else mret (-1).

Definition pbuf_get_at (p offset : Z) : M (net H) Z :=
  r ← pbuf_try_get_at p offset;
  mret (if 0 <=? r then u8 r else 0).

Definition pbuf_put_at (p offset data : Z) : M (net H) unit :=
  '(q, q_idx) ← pbuf_skip p offset;
  if negb (q =? NULL) then
    b ← rd q;
    if q_idx <? len b then write_byte (payload b + q_idx) data else mret tt
  else mret tt.

(** The comparison loop: [k] bytes from index [i] on. *)
Fixpoint pbuf_memcmp_loop (k : nat) (q start s2 i : Z) : M (net H) Z :=
  match k with
  | O => mret 0
  | S k' =>
      a ← pbuf_get_at q (u16 (start + i));
      b ← read_byte (s2 + i);
      if negb (a =? b) then mret (u16 (if i + 1 <? 65535 then i + 1 else 65535))
      else pbuf_memcmp_loop k' q start s2 (u16 (i + 1))
  end.

Definition pbuf_memcmp (p offset s2 n : Z) : M (net H) Z :=
  b ← rd p;
  if tot_len b <? offset + n then mret 65535
  else
    fuel ← chain_fuel;
    '(q, start) ← pbuf_skip_loop fuel p offset;
    pbuf_memcmp_loop (Z.to_nat n) q start s2 0.

(** [for (i = start_offset; i <= max_cmp_start; i++)]: [k] candidates from [i]. *)
Fixpoint pbuf_memfind_loop (k : nat) (p mem mem_len i : Z) : M (net H) Z :=
  match k with
  | O => mret 65535
  | S k' =>
      plus ← pbuf_memcmp p i mem mem_len;
      if plus =? 0 then mret i
      else pbuf_memfind_loop k' p mem mem_len (u16 (i + 1))
  end.

Definition pbuf_memfind (p mem mem_len start_offset : Z) : M (net H) Z :=
  b ← rd p;
  let max_cmp_start := u16 (tot_len b - mem_len) in
  if mem_len + start_offset <=? tot_len b
  then pbuf_memfind_loop (Z.to_nat (max_cmp_start - start_offset + 1)) p mem mem_len start_offset
  else mret 65535.
End Ops.
