(* ===== verification/PbufSpec.v ===== *)
(** * Properties of the packet buffers

    The invariant that ties every live struct to the allocator it came from, the
    shape of well-formed chains, and what the operations of [Pbuf] do to them. *)

From S2P Require Import Prelude Memp Pbuf.
From stdpp Require Import base numbers list gmap functions sorting.
Open Scope Z_scope.
Open Scope c_scope.

(** ** Chains *)

(** The structs reached from [p] by following [next]: addresses and contents. *)
Fixpoint is_chain (ps : gmap Z pbuf) (p : Z) (l : list (Z * pbuf)) : Prop :=
  match l with
  | [] => p = NULL
  | (a, b) :: l' => p = a /\ a <> NULL /\ ps !! a = Some b /\ is_chain ps (next b) l'
  end.

Definition sum_len (l : list (Z * pbuf)) : Z := foldr (fun ab n => len (ab.2) + n) 0 l.

(** The invariant documented in include/lwip/pbuf.h:
    [p->tot_len == p->len + (p->next ? p->next->tot_len : 0)]. *)
Fixpoint totals (l : list (Z * pbuf)) : Prop :=
  match l with
  | [] => True
  | (a, b) :: l' => 0 <= len b /\ tot_len b = len b + sum_len l' /\ tot_len b < 65536 /\ totals l'
  end.

Lemma sum_len_nonneg l : totals l -> 0 <= sum_len l.
Proof.
  induction l as [|[a b] l IH]; [done|]. cbn [totals]. intros (? & ? & ? & Ht).
  specialize (IH Ht). unfold sum_len in *. cbn [foldr fst snd]. lia.
Qed.

Lemma sum_len_cons a b l : sum_len ((a, b) :: l) = len b + sum_len l.
Proof. done. Qed.

Lemma is_chain_det ps p l1 l2 : is_chain ps p l1 -> is_chain ps p l2 -> l1 = l2.
Proof.
  revert p l2. induction l1 as [|[a b] l1 IH]; intros p [|[a' b'] l2]; simpl; [done|..].
  - intros -> (-> & ? & _). done.
  - intros (-> & ? & _) ->. done.
  - intros (-> & _ & E1 & H1) (-> & _ & E2 & H2). rewrite E1 in E2. injection E2 as <-.
    f_equal. eauto.
Qed.

Lemma is_chain_lookup ps p l a b : is_chain ps p l -> (a, b) ∈ l -> ps !! a = Some b.
Proof.
  revert p. induction l as [|[a' b'] l IH]; intros p; simpl; [set_solver|].
  intros (_ & _ & E & Hc) [[= -> ->]|Hin]%elem_of_cons; eauto.
Qed.

(** The chain from an element of a chain is the corresponding suffix. *)
Lemma is_chain_suffix ps p pre a b l :
  is_chain ps p (pre ++ (a, b) :: l) -> is_chain ps a ((a, b) :: l).
Proof.
  revert p. induction pre as [|[a' b'] pre IH]; intros p; simpl.
  - intros (-> & ? & ? & ?). auto.
  - intros (_ & _ & _ & Hc). exact (IH _ Hc).
Qed.

(** A NULL-terminated chain has no cycle. *)
Lemma is_chain_NoDup ps p l : is_chain ps p l -> NoDup l.*1.
Proof.
  revert p. induction l as [|[a b] l IH]; intros p Hc; simpl; [constructor|].
  constructor; [|destruct Hc as (_ & _ & _ & Hc); eauto].
  intros ([a' b'] & Ea & Hin)%list_elem_of_fmap. simpl in Ea. subst a'.
  apply list_elem_of_split in Hin as (l1 & l2 & ->).
  assert (is_chain ps a ((a, b) :: l1 ++ (a, b') :: l2)) as H1 by (destruct Hc as (<- & Hc); done).
  assert (is_chain ps a ((a, b') :: l2)) as H2
    by (eapply (is_chain_suffix ps p ((a, b) :: l1)), Hc).
  pose proof (is_chain_det _ _ _ _ H1 H2) as E. apply (f_equal length) in E.
  simpl in E. rewrite length_app in E. simpl in E. lia.
Qed.

Lemma is_chain_size ps p l : is_chain ps p l -> (length l <= base.size ps)%nat.
Proof.
  intros Hc. pose proof (is_chain_NoDup _ _ _ Hc) as Hnd.
  assert (list_to_set (C := gset Z) l.*1 ⊆ dom ps) as Hsub.
  { intros a. rewrite elem_of_list_to_set. intros ([a' b] & -> & Hin)%list_elem_of_fmap.
    apply elem_of_dom. exists b. eapply is_chain_lookup; eauto. }
  apply subseteq_size in Hsub. rewrite size_list_to_set in Hsub by done.
  rewrite length_fmap, size_dom in Hsub. done.
Qed.

(** Changes to structs outside the chain do not affect it. *)
Lemma is_chain_ext ps ps' p l :
  (forall a, a ∈ l.*1 -> ps' !! a = ps !! a) -> is_chain ps p l -> is_chain ps' p l.
Proof.
  revert p. induction l as [|[a b] l IH]; intros p He; simpl; [done|].
  intros (-> & ? & E & Hc). split_and!; [done|done| |].
  - rewrite He; [done|]. simpl. set_solver.
  - apply IH; [|done]. intros a' Hin. apply He. simpl. set_solver.
Qed.

Lemma is_chain_insert ps p l a b :
  a ∉ l.*1 -> is_chain ps p l -> is_chain (<[a := b]> ps) p l.
Proof.
  intros Hni. apply is_chain_ext. intros a' Hin. apply lookup_insert_ne. set_solver.
Qed.

Lemma is_chain_delete ps p l a : a ∉ l.*1 -> is_chain ps p l -> is_chain (delete a ps) p l.
Proof.
  intros Hni. apply is_chain_ext. intros a' Hin. apply lookup_delete_ne. set_solver.
Qed.

(** Appending a struct behind the last one. *)
Lemma is_chain_snoc ps p l a b q bq :
  is_chain ps p (l ++ [(a, b)]) -> q ∉ a :: l.*1 -> q <> NULL -> next bq = NULL ->
  is_chain (<[a := with_next q b]> (<[q := bq]> ps)) p (l ++ [(a, with_next q b); (q, bq)]).
Proof.
  revert p. induction l as [|[a' b'] l IH]; intros p; simpl.
  - intros (-> & ? & E & _) Hni Hq Hn. apply not_elem_of_cons in Hni as [Hne _].
    split_and!; [done|done|apply lookup_insert_eq|done|done| |done].
    rewrite lookup_insert_ne by done. apply lookup_insert_eq.
  - intros (-> & ? & E & Hc) Hni Hq Hn.
    assert (a' <> a) as Haa.
    { intros ->. pose proof (is_chain_NoDup _ _ _ (conj eq_refl (conj H (conj E Hc)) :
        is_chain ps a ((a, b') :: l ++ [(a, b)]))) as Hnd.
      simpl in Hnd. apply NoDup_cons in Hnd as [Hnd _]. apply Hnd. rewrite fmap_app. set_solver. }
    split_and!; [done|done| |].
    + rewrite !lookup_insert_ne by (done || set_solver). done.
    + apply IH; [done|set_solver|done|done].
Qed.

Lemma align_mod x : LWIP_MEM_ALIGN x mod MEM_ALIGNMENT = 0.
Proof.
  unfold LWIP_MEM_ALIGN, MEM_ALIGNMENT. rewrite not32_arith.
  change (4294967295 - u32 (4 - 1)) with ((2 ^ 30 - 1) * 2 ^ 2).
  rewrite land_field by lia. change (2 ^ 2) with 4. apply Z.mod_mul. lia.
Qed.

(** Replacing an entry of a function twice. *)
Lemma fn_insert_twice {B} (f : memp_t -> B) t x y u :
  (<[t := x]> (<[t := y]> f)) u = (<[t := x]> f) u.
Proof.
  destruct (decide (u = t)) as [->|]; [by rewrite !fn_lookup_insert|by rewrite !fn_lookup_insert_ne].
Qed.

(** ** Ownership: every live struct belongs to its allocator *)

(** What pbuf.c relies on of core/mem.c: [heap_rep h live] says that the blocks
    at the addresses [live] are allocated; all blocks lie in [heap_lo, heap_hi). *)
Class HeapLaws (pools : memp_t -> memp_desc) (H : Type) `{!Heap H} := {
  heap_rep : H -> gset Z -> Prop;
  heap_lo : Z;
  heap_hi : Z;
  heap_lo_pos : 0 < heap_lo;
  heap_hi_u32 : heap_hi < 4294967292;
  heap_apart : forall h live a t, heap_rep h live -> a ∈ live -> a ∉ elems (pools t);
  mem_malloc_law : forall h live n, heap_rep h live -> 0 <= n < 65536 ->
    exists p h', mem_malloc n h = Ok (p, h') /\
    (p = NULL /\ heap_rep h' live \/
     p <> NULL /\ p ∉ live /\ p mod 4 = 0 /\ heap_lo <= p /\ p + n <= heap_hi /\
       heap_rep h' ({[p]} ∪ live));
  mem_free_law : forall h live p, heap_rep h live -> p ∈ live ->
    exists h', mem_free p h = Ok (tt, h') /\ heap_rep h' (live ∖ {[p]})
}.

Section Inv.
Context (pools : memp_t -> memp_desc) `{HP : !PoolsOk pools} {H : Type} `{HH : !Heap H}
  `{HL : !HeapLaws pools H}.

(** The struct at [a] is a block its allocator handed out: not on the free list
    of its pool, or live in the heap. *)
Definition owned (fl : memp_t -> list Z) (hl : gset Z) (a : Z) (b : pbuf) : Prop :=
  0 < ref b < 256 /\
  (pbuf_get_allocsrc b = 2 /\ a ∈ elems (pools MEMP_PBUF_POOL) /\ a ∉ fl MEMP_PBUF_POOL \/
   pbuf_get_allocsrc b = 1 /\ a ∈ elems (pools MEMP_PBUF) /\ a ∉ fl MEMP_PBUF \/
   pbuf_get_allocsrc b = 0 /\ a ∈ hl).

Definition net_inv (s : net H) (fl : memp_t -> list Z) (hl : gset Z) : Prop :=
  pool_rep pools (n_memp s) fl /\ heap_rep (n_heap s) hl /\
  (forall a b, n_pbufs s !! a = Some b -> owned fl hl a b).

(** Giving a block back to where its struct says it came from. *)
Definition give (x : (memp_t -> list Z) * gset Z) (ab : Z * pbuf) : (memp_t -> list Z) * gset Z :=
  let '(fl, hl) := x in let '(a, b) := ab in
  if pbuf_get_allocsrc b =? 2 then (<[MEMP_PBUF_POOL := a :: fl MEMP_PBUF_POOL]> fl, hl)
  else if pbuf_get_allocsrc b =? 1 then (<[MEMP_PBUF := a :: fl MEMP_PBUF]> fl, hl)
  else (fl, hl ∖ {[a]}).

(** The structs [pbuf_free] deallocates: the longest prefix with no other
    reference; and the store it leaves. *)
Fixpoint freed (l : list (Z * pbuf)) : list (Z * pbuf) :=
  match l with
  | [] => []
  | (a, b) :: l' => if ref b =? 1 then (a, b) :: freed l' else []
  end.

Fixpoint free_store (ps : gmap Z pbuf) (l : list (Z * pbuf)) : gmap Z pbuf :=
  match l with
  | [] => ps
  | (a, b) :: l' =>
      if ref b =? 1 then free_store (delete a ps) l'
      else <[a := with_ref (ref b - 1) b]> ps
  end.

(** [owned] of the other structs survives giving one block back. *)
Lemma owned_give fl hl a b c d fl' hl' :
  give (fl, hl) (a, b) = (fl', hl') -> c <> a -> owned fl hl c d -> owned fl' hl' c d.
Proof.
  unfold give, owned. intros Hg Hne (Hr & Ho). split; [done|].
  repeat case_match; injection Hg as <- <-; rewrite ?fn_lookup_insert;
    rewrite ?(fn_lookup_insert_ne _ MEMP_PBUF_POOL MEMP_PBUF) by done;
    rewrite ?(fn_lookup_insert_ne _ MEMP_PBUF MEMP_PBUF_POOL) by done;
    rewrite ?not_elem_of_cons; destruct Ho as [(?&?&?)|[(?&?&?)|(?&?)]]; auto 8.
  right; right. split; [done|]. set_solver.
Qed.

(** Releasing one struct: the allocator takes its block back. *)
Lemma release_spec (s : net H) fl hl a b ps :
  pool_rep pools (n_memp s) fl -> heap_rep (n_heap s) hl -> owned fl hl a b ->
  exists s',
    (if pbuf_get_allocsrc b =? 2 then lift_memp (memp_free MEMP_PBUF_POOL a)
     else if pbuf_get_allocsrc b =? 1 then lift_memp (memp_free MEMP_PBUF a)
     else if pbuf_get_allocsrc b =? 0 then lift_heap (mem_free a)
     else assert false) (set_pbufs ps s) = Ok (tt, set_pbufs ps s') /\
    n_mem s' = n_mem s /\ n_ooseq s' = n_ooseq s /\
    pool_rep pools (n_memp s') (give (fl, hl) (a, b)).1 /\
    heap_rep (n_heap s') (give (fl, hl) (a, b)).2.
Proof.
  intros Hp Hh (_ & [(Ea & Hin & Hni)|[(Ea & Hin & Hni)|(Ea & Hin)]]); unfold give; rewrite Ea; simpl.
  - destruct (memp_free_spec pools _ _ MEMP_PBUF_POOL a Hp ltac:(done) Hin Hni) as (m & E & Hm).
    exists (mk_net m (n_heap s) ps (n_mem s) (n_ooseq s)).
    unfold lift_memp. simpl. rewrite E. split_and!; [reflexivity..|exact Hm|exact Hh].
  - destruct (memp_free_spec pools _ _ MEMP_PBUF a Hp ltac:(done) Hin Hni) as (m & E & Hm).
    exists (mk_net m (n_heap s) ps (n_mem s) (n_ooseq s)).
    unfold lift_memp. simpl. rewrite E. split_and!; [reflexivity..|exact Hm|exact Hh].
  - destruct (mem_free_law _ _ _ Hh Hin) as (h & E & Hh').
    exists (mk_net (n_memp s) h ps (n_mem s) (n_ooseq s)).
    unfold lift_heap. simpl. rewrite E. split_and!; [reflexivity..|exact Hp|exact Hh'].
Qed.

Lemma set_pbufs_twice ps ps' (s : net H) : set_pbufs ps (set_pbufs ps' s) = set_pbufs ps s.
Proof. done. Qed.

Lemma set_pbufs_id (s : net H) : set_pbufs (n_pbufs s) s = s.
Proof. by destruct s. Qed.

Lemma upd_ok p f b (s : net H) :
  n_pbufs s !! p = Some b -> upd p f s = Ok (tt, set_pbufs (<[p := f b]> (n_pbufs s)) s).
Proof. intros E. unfold upd. by rewrite E. Qed.

Lemma rd_ok p b (s : net H) : n_pbufs s !! p = Some b -> rd p s = Ok (b, s).
Proof. intros E. unfold rd, deref. by rewrite E. Qed.

Lemma pbuf_free_loop_spec l : forall fuel (s : net H) fl hl p count,
  net_inv s fl hl -> is_chain (n_pbufs s) p l -> (length l < fuel)%nat ->
  exists s', pbuf_free_loop fuel p count s = Ok (foldl (fun n _ => u8 (n + 1)) count (freed l), s') /\
    n_pbufs s' = free_store (n_pbufs s) l /\ n_mem s' = n_mem s /\ n_ooseq s' = n_ooseq s /\
    net_inv s' (foldl give (fl, hl) (freed l)).1 (foldl give (fl, hl) (freed l)).2.
Proof.
  induction l as [|[a b] l IH]; intros [|fuel] s fl hl p count Hi Hc Hf; simpl in Hf; try lia.
  { simpl in Hc. subst p. exists s. done. }
  pose proof (is_chain_NoDup _ _ _ Hc) as Hnd. simpl in Hnd. apply NoDup_cons in Hnd as [Hni _].
  destruct Hc as (-> & Hnz & Ea & Hc). destruct Hi as (Hp & Hh & Ho).
  pose proof (Ho a b Ea) as Hown. pose proof Hown as ((Hr & Hr2) & _).
  cbn [pbuf_free_loop]. apply Z.eqb_neq in Hnz. rewrite Hnz.
  rewrite (bind_ok _ _ _ _ _ (rd_ok a b s Ea)).
  rewrite (bind_ok (assert _) _ _ tt s) by (unfold assert; by destruct (Z.ltb_spec 0 (ref b)); [|lia]).
  rewrite (bind_ok _ _ _ _ _ (upd_ok a _ b s Ea)).
  rewrite u8_small by (unfold is_u8; lia). simpl freed. simpl free_store.
  destruct (Z.eqb_spec (ref b) 1) as [Er|Er].
  - replace (ref b - 1 =? 0) with true by lia.
    set (ps := <[a := _]> (n_pbufs s)).
    destruct (release_spec s fl hl a b ps Hp Hh Hown) as (s1 & E1 & Em & Eo & Hp1 & Hh1).
    rewrite (bind_ok _ _ _ _ _ E1).
    rewrite (bind_ok (drop_struct a) _ _ tt (set_pbufs (delete a ps) s1)) by done.
    assert (delete a ps = delete a (n_pbufs s)) as -> by apply delete_insert_eq.
    destruct (give (fl, hl) (a, b)) as [fl1 hl1] eqn:Eg. simpl in Hp1, Hh1.
    destruct (IH fuel (set_pbufs (delete a (n_pbufs s)) s1) fl1 hl1 (next b) (u8 (count + 1)))
      as (s2 & E2 & Es2 & Em2 & Eo2 & Hi2); [|by apply is_chain_delete|lia|].
    + split_and!; [done|done|]. intros c d Hcd. simpl in Hcd.
      apply lookup_delete_Some in Hcd as [Hne Hcd].
      eapply owned_give; [exact Eg|done|]. by apply Ho.
    + exists s2. cbn [foldl]. rewrite Eg. simpl in Em2, Eo2.
      split_and!; [exact E2|exact Es2|congruence|congruence|exact Hi2].
  - replace (ref b - 1 =? 0) with false by lia. eexists. split; [reflexivity|]. simpl.
    split_and!; [done|done|done|]. split_and!; [done|done|]. simpl.
    intros c d. rewrite lookup_insert. case_decide.
    + intros [= <-]. subst c. destruct Hown as [_ Hown]. split; [simpl; lia|exact Hown].
    + apply Ho.
Qed.

Lemma pbuf_free_spec l (s : net H) fl hl p :
  net_inv s fl hl -> is_chain (n_pbufs s) p l -> p <> NULL ->
  exists s', pbuf_free p s = Ok (foldl (fun n _ => u8 (n + 1)) 0 (freed l), s') /\
    n_pbufs s' = free_store (n_pbufs s) l /\ n_mem s' = n_mem s /\ n_ooseq s' = n_ooseq s /\
    net_inv s' (foldl give (fl, hl) (freed l)).1 (foldl give (fl, hl) (freed l)).2.
Proof.
  intros Hi Hc Hp. unfold pbuf_free. apply Z.eqb_neq in Hp. rewrite Hp.
  rewrite (bind_ok chain_fuel _ _ (S (S (base.size (n_pbufs s)))) s) by done.
  apply pbuf_free_loop_spec; [done|done|]. pose proof (is_chain_size _ _ _ Hc). lia.
Qed.

Lemma net_inv_ext (s : net H) fl fl' hl :
  (forall t, t <> MEMP_MAX -> fl t = fl' t) -> net_inv s fl hl -> net_inv s fl' hl.
Proof.
  intros He (Hp & Hh & Ho). split_and!; [by eapply pool_rep_ext|done|].
  intros a b Hab. specialize (Ho a b Hab). unfold owned in *. by rewrite <- !He by done.
Qed.

(** A chain only the caller refers to, all of it from the pool. *)
Definition sole_pool (l : list (Z * pbuf)) : Prop :=
  Forall (fun ab => ref ab.2 = 1 /\ pbuf_get_allocsrc ab.2 = 2) l.

Lemma freed_sole l : sole_pool l -> freed l = l.
Proof.
  unfold sole_pool. induction 1 as [|[a b] l [Hr _] _ IH]; simpl in *; [done|].
  rewrite Hr. simpl. by rewrite IH.
Qed.

Lemma give_sole l : forall fl hl, sole_pool l ->
  (foldl give (fl, hl) l).2 = hl /\
  forall t, (foldl give (fl, hl) l).1 t = (<[MEMP_PBUF_POOL := rev l.*1 ++ fl MEMP_PBUF_POOL]> fl) t.
Proof.
  unfold sole_pool. induction l as [|[a b] l IH]; intros fl hl Hl; cbn [foldl].
  - split; [done|]. intros t. simpl. destruct (decide (t = MEMP_PBUF_POOL)) as [->|].
    + by rewrite fn_lookup_insert.
    + by rewrite fn_lookup_insert_ne.
  - apply Forall_cons in Hl as [[_ Ha] Hl]. simpl in Ha.
    assert (give (fl, hl) (a, b) = (<[MEMP_PBUF_POOL := a :: fl MEMP_PBUF_POOL]> fl, hl)) as ->
      by (unfold give; by rewrite Ha).
    destruct (IH (<[MEMP_PBUF_POOL := a :: fl MEMP_PBUF_POOL]> fl) hl Hl) as [E1 E2].
    split; [done|]. intros t. rewrite E2. destruct (decide (t = MEMP_PBUF_POOL)) as [->|].
    + rewrite !fn_lookup_insert. simpl. by rewrite <- app_assoc.
    + by rewrite !fn_lookup_insert_ne.
Qed.

Lemma free_store_lookup l : forall ps c, sole_pool l ->
  free_store ps l !! c = if decide (c ∈ l.*1) then None else ps !! c.
Proof.
  unfold sole_pool. induction l as [|[a b] l IH]; intros ps c Hl.
  - cbn [free_store]. rewrite decide_False; [done|]. apply not_elem_of_nil.
  - apply Forall_cons in Hl as [[Hr _] Hl]. simpl in Hr. cbn [free_store]. rewrite Hr. simpl.
    rewrite IH by done. destruct (decide (c ∈ l.*1)); [by rewrite decide_True by set_solver|].
    destruct (decide (c = a)) as [->|].
    + rewrite lookup_delete_eq, decide_True by set_solver. done.
    + rewrite lookup_delete_ne, decide_False by set_solver. done.
Qed.

(** Freeing such a chain puts every element of it back on the pool. *)
Lemma pbuf_free_sole l (s : net H) fl hl p :
  net_inv s fl hl -> is_chain (n_pbufs s) p l -> p <> NULL -> sole_pool l ->
  exists n s', pbuf_free p s = Ok (n, s') /\
    (forall c, n_pbufs s' !! c = if decide (c ∈ l.*1) then None else n_pbufs s !! c) /\
    n_mem s' = n_mem s /\ n_ooseq s' = n_ooseq s /\
    net_inv s' (<[MEMP_PBUF_POOL := rev l.*1 ++ fl MEMP_PBUF_POOL]> fl) hl.
Proof.
  intros Hi Hc Hp Hl. destruct (pbuf_free_spec l s fl hl p Hi Hc Hp) as (s' & E & Es & Em & Eo & Hi').
  rewrite (freed_sole l Hl) in *. destruct (give_sole l fl hl Hl) as [E1 E2]. rewrite E1 in Hi'.
  eexists _, s'. split_and!; [exact E| |exact Em|exact Eo|].
  - intros c. rewrite Es. by apply free_store_lookup.
  - eapply net_inv_ext; [|exact Hi']. intros t _. apply E2.
Qed.

(** ** Allocation from the pool *)

Definition pool_room (offset : Z) : Z := 1524 - LWIP_MEM_ALIGN_SIZE offset.

Definition new_pbuf (q rem_len offset nx : Z) : pbuf :=
  {| next := nx; payload := LWIP_MEM_ALIGN (q + SIZEOF_STRUCT_PBUF + offset);
     tot_len := rem_len; len := Z.min rem_len (pool_room offset);
     type_internal := 130; flags := 0; ref := 1; if_idx := 0 |}.

(** The chain [pbuf_alloc] builds from the free elements [stack]: full pbufs
    until [rem_len] bytes are covered; [None] if the elements do not suffice. *)
Fixpoint pool_chain (stack : list Z) (rem_len offset : Z) : option (list (Z * pbuf)) :=
  match stack with
  | [] => None
  | q :: stack' =>
      if rem_len <=? pool_room offset then Some [(q, new_pbuf q rem_len offset NULL)]
      else l ← pool_chain stack' (rem_len - pool_room offset) 0;
           Some ((q, new_pbuf q rem_len offset (hd NULL stack')) :: l)
  end.

Lemma pool_room_0 : pool_room 0 = 1524.
Proof. reflexivity. Qed.

Lemma pool_room_range offset : 0 <= offset <= 1000 -> 524 <= pool_room offset <= 1524.
Proof. intros. unfold pool_room. rewrite align_size_spec by lia. lia. Qed.

Lemma u16_room offset : 0 <= offset <= 1000 ->
  u16 (PBUF_POOL_BUFSIZE_ALIGNED - LWIP_MEM_ALIGN_SIZE offset) = pool_room offset.
Proof.
  intros Ho. pose proof (pool_room_range offset Ho). unfold pool_room in *.
  change PBUF_POOL_BUFSIZE_ALIGNED with 1524. apply u16_small. unfold is_u16. lia.
Qed.

(** The loop started with an empty free list reclaims what it took. *)
Lemma alloc_fail_spec fuel (s : net H) fl hl p last rem_len offset l0 :
  net_inv s fl hl -> fl MEMP_PBUF_POOL = [] -> is_chain (n_pbufs s) p l0 -> sole_pool l0 ->
  exists s', pbuf_alloc_pool_loop (S fuel) p last rem_len offset s = Ok (NULL, s') /\
    (forall c, n_pbufs s' !! c = if decide (c ∈ l0.*1) then None else n_pbufs s !! c) /\
    n_mem s' = n_mem s /\ n_ooseq s' = 1 /\
    net_inv s' (<[MEMP_PBUF_POOL := rev l0.*1]> fl) hl.
Proof.
  intros (Hp & Hh & Ho) Hfl Hc Hl0. cbn [pbuf_alloc_pool_loop].
  destruct (memp_malloc_spec pools (n_memp s) fl MEMP_PBUF_POOL Hp) as (m & Em & Hm); [done|].
  rewrite Hfl in Em, Hm.
  rewrite (bind_ok _ _ _ NULL (mk_net m (n_heap s) (n_pbufs s) (n_mem s) (n_ooseq s)))
    by (unfold lift_memp; by rewrite Em).
  rewrite Z.eqb_refl.
  set (s1 := mk_net m (n_heap s) (n_pbufs s) (n_mem s) 1).
  rewrite (bind_ok pbuf_pool_is_empty _ _ tt s1) by done.
  assert (net_inv s1 fl hl) as Hi1.
  { eapply net_inv_ext; [|split_and!; [exact Hm|exact Hh|]].
    - intros t _. simpl. destruct (decide (t = MEMP_PBUF_POOL)) as [->|].
      + by rewrite fn_lookup_insert.
      + by rewrite fn_lookup_insert_ne.
    - intros a b Hab. specialize (Ho a b Hab). unfold owned in *. simpl.
      rewrite fn_lookup_insert, fn_lookup_insert_ne by done. by rewrite Hfl in Ho. }
  destruct (Z.eqb_spec p NULL) as [->|Hne].
  - assert (l0 = []) as -> by (destruct l0 as [|[]]; simpl in Hc; naive_solver).
    exists s1. split_and!; [done| |done|done|].
    + intros c. rewrite decide_False; [done|]. apply not_elem_of_nil.
    + eapply net_inv_ext; [|exact Hi1]. intros t _. simpl.
      destruct (decide (t = MEMP_PBUF_POOL)) as [->|].
      * by rewrite fn_lookup_insert.
      * by rewrite fn_lookup_insert_ne.
  - destruct (pbuf_free_sole l0 s1 fl hl p Hi1 Hc Hne Hl0) as (n & s2 & E2 & Es & Em2 & Eo2 & Hi2).
    rewrite (bind_ok _ _ _ _ _ E2). exists s2. split_and!; [done|exact Es|done|done|].
    rewrite Hfl, app_nil_r in Hi2. exact Hi2.
Qed.

(** The free elements of a pool hold no live struct. *)
Lemma free_elem_fresh (s : net H) fl hl q :
  net_inv s fl hl -> q ∈ fl MEMP_PBUF_POOL -> n_pbufs s !! q = None.
Proof.
  intros (Hp & Hh & Ho) Hq. destruct (n_pbufs s !! q) as [b|] eqn:E; [|done]. exfalso.
  destruct (Hp MEMP_PBUF_POOL) as (_ & _ & He); [done|].
  rewrite Forall_forall in He. specialize (He q Hq).
  destruct (Ho q b E) as (_ & [(_ & _ & ?)|[(_ & Hin & _)|(_ & Hin)]]); [done| |].
  - pose proof (pool_disjoint _ _ _ He Hin) as ?. done.
  - by apply (heap_apart _ _ q MEMP_PBUF_POOL Hh Hin).
Qed.

(** Setting the [next] field of the last struct. *)
Fixpoint link_last (l : list (Z * pbuf)) (q : Z) : list (Z * pbuf) :=
  match l with
  | [] => []
  | [(a, b)] => [(a, with_next q b)]
  | x :: l' => x :: link_last l' q
  end.

Lemma link_last_snoc l a b q : link_last (l ++ [(a, b)]) q = l ++ [(a, with_next q b)].
Proof.
  induction l as [|[a' b'] l IH]; [done|]. rewrite <- !app_comm_cons, <- IH.
  by destruct l.
Qed.

Lemma link_last_fst l q : (link_last l q).*1 = l.*1.
Proof.
  induction l as [|[a b] [|x l] IH]; [done..|]. cbn [link_last fmap list_fmap fst] in *. by f_equal.
Qed.

Lemma sole_pool_link_last l q : sole_pool l -> sole_pool (link_last l q).
Proof.
  unfold sole_pool. destruct l as [|[a b] l _] using rev_ind; [done|].
  rewrite link_last_snoc, !Forall_app. intros [? Hx]. split; [done|].
  rewrite Forall_singleton in Hx |- *. exact Hx.
Qed.

(** [tl] is the last struct of the chain built so far. *)
Definition built (p tl : Z) (l0 : list (Z * pbuf)) : Prop :=
  l0 = [] /\ p = NULL \/ exists l1 bl, l0 = l1 ++ [(tl, bl)].

Lemma is_chain_nonnull ps p l : is_chain ps p l -> l <> [] -> p <> NULL.
Proof. destruct l as [|[a b] l]; [done|]. intros (-> & ? & _) _. done. Qed.

Lemma new_pbuf_sole q r o nx : ref (new_pbuf q r o nx) = 1 /\ pbuf_get_allocsrc (new_pbuf q r o nx) = 2.
Proof. done. Qed.

(** Linking a fresh struct behind the chain built so far. *)
Lemma link_step (s : net H) p tl l0 q bq :
  is_chain (n_pbufs s) p l0 -> built p tl l0 -> n_pbufs s !! q = None -> q <> NULL ->
  next bq = NULL ->
  exists p1 ps1,
    (if p =? NULL then mret q else upd tl (with_next q);; mret p)
      (set_pbufs (<[q := bq]> (n_pbufs s)) s) = Ok (p1, set_pbufs ps1 s) /\
    p1 = hd NULL (l0.*1 ++ [q]) /\ is_chain ps1 p1 (link_last l0 q ++ [(q, bq)]) /\
    (forall c, c ∉ q :: l0.*1 -> ps1 !! c = n_pbufs s !! c) /\
    (forall c b, ps1 !! c = Some b -> c = q /\ b = bq \/
       exists b', n_pbufs s !! c = Some b' /\ ref b' = ref b /\ type_internal b' = type_internal b).
Proof.
  intros Hc Hb Hq Hqz Hn.
  assert (q ∉ l0.*1) as Hql.
  { intros ([a b] & -> & Hin)%list_elem_of_fmap. simpl in Hq.
    rewrite (is_chain_lookup _ _ _ _ _ Hc Hin) in Hq. done. }
  destruct Hb as [[-> ->]|(l1 & bl & ->)].
  - exists q, (<[q := bq]> (n_pbufs s)). split_and!; [done|done|..].
    + split_and!; [done|done|apply lookup_insert_eq|done].
    + intros c Hcq. apply lookup_insert_ne. set_solver.
    + intros c b. rewrite lookup_insert. case_decide; [naive_solver|eauto 6].
  - assert (p <> NULL) as Hpz by (eapply is_chain_nonnull; [done|]; by destruct l1).
    assert (n_pbufs s !! tl = Some bl) as Htl by (eapply is_chain_lookup; [done|]; set_solver).
    assert (tl <> q) as Htq by congruence.
    exists p, (<[tl := with_next q bl]> (<[q := bq]> (n_pbufs s))).
    rewrite fmap_app in *. simpl in Hql |- *. rewrite link_last_snoc.
    apply Z.eqb_neq in Hpz as Hpz'. rewrite Hpz'. split_and!.
    + rewrite (bind_ok _ _ _ _ _ (upd_ok tl (with_next q) bl (set_pbufs (<[q := bq]> (n_pbufs s)) s)
        ltac:(simpl; by rewrite lookup_insert_ne))). done.
    + destruct l1 as [|[a b] l1]; simpl in Hc; naive_solver.
    + rewrite <- app_assoc. simpl. apply is_chain_snoc; [done| |done|done]. set_solver.
    + intros c Hcq. rewrite !lookup_insert_ne by set_solver. done.
    + intros c b. rewrite !lookup_insert. repeat case_decide; [|naive_solver|eauto 6].
      intros [= <-]. subst c. right. exists bl. done.
Qed.

(** One turn of the loop with an element [q] left. *)
Lemma alloc_step fuel (s : net H) fl hl p tl rem_len offset l0 q stack :
  net_inv s fl hl -> fl MEMP_PBUF_POOL = q :: stack -> is_chain (n_pbufs s) p l0 ->
  built p tl l0 -> 0 <= rem_len < 65536 -> 0 <= offset <= 1000 ->
  exists s1 p1,
    pbuf_alloc_pool_loop (S fuel) p tl rem_len offset s =
      (if rem_len <=? pool_room offset then Ok (p1, s1)
       else pbuf_alloc_pool_loop fuel p1 q (rem_len - pool_room offset) 0 s1) /\
    p1 = hd NULL (l0.*1 ++ [q]) /\
    is_chain (n_pbufs s1) p1 (link_last l0 q ++ [(q, new_pbuf q rem_len offset NULL)]) /\
    (forall c, c ∉ q :: l0.*1 -> n_pbufs s1 !! c = n_pbufs s !! c) /\
    n_mem s1 = n_mem s /\ n_ooseq s1 = n_ooseq s /\
    net_inv s1 (<[MEMP_PBUF_POOL := stack]> fl) hl.
Proof.
  intros Hi Hfl Hc Hb Hr Ho. pose proof (pool_room_range offset Ho) as Hroom.
  assert (n_pbufs s !! q = None) as Hfresh by (eapply free_elem_fresh; [done|]; rewrite Hfl; set_solver).
  destruct Hi as (Hp & Hh & Hown).
  destruct (Hp MEMP_PBUF_POOL) as (_ & Hnd & He); [done|]. rewrite Hfl in Hnd, He.
  apply NoDup_cons in Hnd as [Hqs _]. apply Forall_cons in He as [Hqe _].
  destruct (elem_props pools _ q Hqe) as (Hqz & _ & _).
  destruct (memp_malloc_spec pools (n_memp s) fl MEMP_PBUF_POOL Hp) as (m & Em & Hm); [done|].
  rewrite Hfl in Em, Hm. simpl in Hm.
  set (s0 := mk_net m (n_heap s) (n_pbufs s) (n_mem s) (n_ooseq s)).
  destruct (link_step s0 p tl l0 q (new_pbuf q rem_len offset NULL) Hc Hb Hfresh Hqz eq_refl)
    as (p1 & ps1 & E1 & Ep1 & Hc1 & Hout & Hin).
  exists (set_pbufs ps1 s0), p1. split_and!; [|done|done|exact Hout|done|done|].
  - cbn [pbuf_alloc_pool_loop].
    rewrite (bind_ok _ _ _ q s0) by (unfold lift_memp; by rewrite Em).
    apply Z.eqb_neq in Hqz. rewrite Hqz, u16_room by done.
    assert ((if rem_len <? pool_room offset then rem_len else pool_room offset)
            = Z.min rem_len (pool_room offset)) as -> by (destruct (Z.ltb_spec rem_len (pool_room offset)); lia).
    rewrite (bind_ok _ _ _ tt (set_pbufs (<[q := new_pbuf q rem_len offset NULL]> (n_pbufs s0)) s0)) by done.
    rewrite (bind_ok (assert _) _ _ tt (set_pbufs (<[q := new_pbuf q rem_len offset NULL]> (n_pbufs s0)) s0))
      by (unfold assert; by rewrite align_mod).
    rewrite (bind_ok (assert _) _ _ tt (set_pbufs (<[q := new_pbuf q rem_len offset NULL]> (n_pbufs s0)) s0)).
    2: { unfold assert, pool_room in *. change PBUF_POOL_BUFSIZE_ALIGNED with 1524.
         rewrite u32_small by (unfold is_u32; lia). by destruct (Z.ltb_spec 0 (1524 - LWIP_MEM_ALIGN_SIZE offset)); [|lia]. }
    rewrite (bind_ok _ _ _ _ _ E1). rewrite u16_small by (unfold is_u16; lia).
    destruct (Z.leb_spec rem_len (pool_room offset)).
    + by rewrite Z.min_l, Z.sub_diag by lia.
    + rewrite Z.min_r by lia. by destruct (Z.ltb_spec 0 (rem_len - pool_room offset)); [|lia].
  - split_and!; [exact Hm|exact Hh|]. intros c b Hcb. simpl in Hcb.
    destruct (Hin c b Hcb) as [[-> ->]|(b' & Hb' & Er & Et)].
    + split; [simpl; lia|]. left. rewrite fn_lookup_insert. done.
    + specialize (Hown c b' Hb'). unfold owned, pbuf_get_allocsrc in *. rewrite Er, Et in Hown.
      rewrite fn_lookup_insert, fn_lookup_insert_ne by done. rewrite Hfl in Hown.
      set_solver.
Qed.

(** The whole loop: the chain is [pool_chain] of the free elements; if they do
    not suffice everything taken goes back. *)
Lemma alloc_loop_spec stack : forall fuel (s : net H) fl hl p tl rem_len offset l0,
  net_inv s fl hl -> fl MEMP_PBUF_POOL = stack -> is_chain (n_pbufs s) p l0 ->
  built p tl l0 -> sole_pool l0 -> 0 <= rem_len < 65536 -> 0 <= offset <= 1000 ->
  (length stack < fuel)%nat ->
  exists s', n_mem s' = n_mem s /\
    match pool_chain stack rem_len offset with
    | Some l =>
        pbuf_alloc_pool_loop fuel p tl rem_len offset s = Ok (hd NULL (l0.*1 ++ stack), s') /\
        is_chain (n_pbufs s') (hd NULL (l0.*1 ++ stack)) (link_last l0 (hd NULL stack) ++ l) /\
        (forall c, c ∉ l0.*1 ++ l.*1 -> n_pbufs s' !! c = n_pbufs s !! c) /\
        n_ooseq s' = n_ooseq s /\
        net_inv s' (<[MEMP_PBUF_POOL := drop (length l) stack]> fl) hl
    | None =>
        pbuf_alloc_pool_loop fuel p tl rem_len offset s = Ok (NULL, s') /\
        (forall c, n_pbufs s' !! c = if decide (c ∈ l0.*1) then None else n_pbufs s !! c) /\
        n_ooseq s' = 1 /\
        net_inv s' (<[MEMP_PBUF_POOL := rev (l0.*1 ++ stack)]> fl) hl
    end.
Proof.
  induction stack as [|q stack IH]; intros [|fuel] s fl hl p tl rem_len offset l0 Hi Hfl Hc Hb Hl0 Hr Ho Hf;
    simpl in Hf; try lia.
  { destruct (alloc_fail_spec fuel s fl hl p tl rem_len offset l0 Hi Hfl Hc Hl0)
      as (s' & E & Es & Em & Eo & Hi'). exists s'. rewrite app_nil_r. split_and!; done. }
  destruct (alloc_step fuel s fl hl p tl rem_len offset l0 q stack Hi Hfl Hc Hb Hr Ho)
    as (s1 & p1 & E1 & Ep1 & Hc1 & Hout1 & Em1 & Eo1 & Hi1).
  pose proof (pool_room_range offset Ho) as Hroom. cbn [pool_chain].
  destruct (Z.leb_spec rem_len (pool_room offset)) as [Hle|Hgt].
  - exists s1. split; [done|]. cbn [fmap list_fmap fst hd].
    assert (hd NULL (l0.*1 ++ q :: stack) = p1) as -> by (rewrite Ep1; by destruct l0).
    split_and!; [exact E1|exact Hc1| |done|exact Hi1].
    intros c Hni. apply Hout1. set_solver.
  - set (l0' := link_last l0 q ++ [(q, new_pbuf q rem_len offset NULL)]) in *.
    assert (l0'.*1 = l0.*1 ++ [q]) as El0' by (unfold l0'; by rewrite fmap_app, link_last_fst).
    assert (sole_pool l0') as Hl0'.
    { unfold sole_pool. apply Forall_app. split; [by apply sole_pool_link_last|].
      apply Forall_singleton. done. }
    destruct (IH fuel s1 (<[MEMP_PBUF_POOL := stack]> fl) hl p1 q (rem_len - pool_room offset) 0 l0')
      as (s2 & Em2 & H2); [done|by rewrite fn_lookup_insert|done|right; unfold l0'; eauto|done|lia..|].
    exists s2. split; [congruence|]. rewrite El0', <- app_assoc in H2.
    destruct (pool_chain stack (rem_len - pool_room offset) 0) as [l|];
      cbn [mbind option_bind fmap list_fmap fst hd length drop].
    + destruct H2 as (E2 & Hc2 & Hout2 & Eo2 & Hi2). rewrite E1. split_and!; [exact E2| | |congruence|].
      * unfold l0' in Hc2. rewrite link_last_snoc, <- app_assoc in Hc2. exact Hc2.
      * intros c Hni. rewrite Hout2 by set_solver. apply Hout1. set_solver.
      * eapply net_inv_ext; [|exact Hi2]. intros t _. apply fn_insert_twice.
    + destruct H2 as (E2 & Hs2 & Eo2 & Hi2). rewrite E1. split_and!; [exact E2| |done|].
      * intros c. rewrite Hs2. destruct (decide (c ∈ l0.*1)) as [Hin|Hni].
        { rewrite decide_True by set_solver. done. }
        destruct (decide (c = q)) as [->|].
        { rewrite decide_True by set_solver. symmetry. eapply free_elem_fresh; [done|].
          rewrite Hfl. set_solver. }
        rewrite decide_False by set_solver. apply Hout1. set_solver.
      * eapply net_inv_ext; [|exact Hi2]. intros t _. apply fn_insert_twice.
Qed.

(** What the chain built from the free elements is like. *)
Lemma pool_chain_spec stack : forall rem_len offset l,
  pool_chain stack rem_len offset = Some l -> 0 <= rem_len < 65536 -> 0 <= offset <= 1000 ->
  totals l /\ sum_len l = rem_len /\ sole_pool l /\ l.*1 = take (length l) stack /\ l <> [] /\
  Forall (fun ab => exists o, 0 <= o <= 1000 /\ len ab.2 <= pool_room o /\
    payload ab.2 = LWIP_MEM_ALIGN (ab.1 + SIZEOF_STRUCT_PBUF + o)) l.
Proof.
  induction stack as [|q stack IH]; intros rem_len offset l E Hr Ho; [done|].
  cbn [pool_chain] in E. pose proof (pool_room_range offset Ho) as Hroom.
  destruct (Z.leb_spec rem_len (pool_room offset)).
  - injection E as <-. unfold sole_pool, sum_len. cbn. rewrite Z.min_l by lia.
    split_and!; [lia|lia|lia|done|lia|by apply Forall_singleton|done|done|].
    apply Forall_singleton. exists offset. split_and!; [lia..|simpl; lia|done].
  - apply bind_Some in E as (l' & E & [= <-]).
    destruct (IH _ _ _ E) as (Ht & Hs & Hsp & Hf & _ & Hpl); [lia..|].
    rewrite sum_len_cons. unfold sole_pool in *. cbn [totals length].
    rewrite fmap_cons. cbn [fst snd len tot_len new_pbuf take]. rewrite Hs, Hf, Z.min_r by lia.
    split_and!; [lia..|done|lia|by constructor|done|done|]. constructor; [|done].
    exists offset. cbn [fst snd len payload new_pbuf]. split_and!; [lia..|done].
Qed.

(** The elements suffice exactly when their rooms add up to the length. *)
Definition pool_capacity (stack : list Z) (offset : Z) : Z :=
  pool_room offset + 1524 * (Z.of_nat (length stack) - 1).

Lemma pool_chain_capacity stack : forall rem_len offset,
  0 <= rem_len < 65536 -> 0 <= offset <= 1000 ->
  is_Some (pool_chain stack rem_len offset) <-> stack <> [] /\ rem_len <= pool_capacity stack offset.
Proof.
  induction stack as [|q stack IH]; intros rem_len offset Hr Ho.
  { split; [intros [? ?]; done|naive_solver]. }
  pose proof (pool_room_range offset Ho) as Hroom. cbn [pool_chain].
  unfold pool_capacity in *. cbn [length].
  destruct (Z.leb_spec rem_len (pool_room offset)); [split; [|eauto]; intros _; split; [done|lia]|].
  assert (is_Some (l ← pool_chain stack (rem_len - pool_room offset) 0;
    Some ((q, new_pbuf q rem_len offset (hd NULL stack)) :: l)) <->
    is_Some (pool_chain stack (rem_len - pool_room offset) 0)) as ->.
  { destruct (pool_chain stack (rem_len - pool_room offset) 0); simpl; split; intros [? ?]; eauto; done. }
  rewrite IH by lia. rewrite pool_room_0.
  destruct stack; cbn [length] in *; naive_solver lia.
Qed.

Lemma stack_fuel (s : net H) fl hl :
  net_inv s fl hl -> (length (fl MEMP_PBUF_POOL) < S (num (pools MEMP_PBUF_POOL)))%nat.
Proof.
  intros (Hp & _). destruct (Hp MEMP_PBUF_POOL) as (_ & Hnd & He); [done|].
  rewrite Forall_forall in He. rewrite <- (elems_length pools MEMP_PBUF_POOL).
  apply Nat.lt_succ_r. by apply submseteq_length, NoDup_submseteq.
Qed.

(** The two outcomes of an allocation from the pool. *)
Lemma pbuf_alloc_pool_cases (s : net H) fl hl layer length :
  net_inv s fl hl -> 0 <= layer <= 1000 -> 0 <= length < 65536 ->
  exists s', n_mem s' = n_mem s /\
  match pool_chain (fl MEMP_PBUF_POOL) length layer with
  | Some l =>
      pbuf_alloc pools layer length PBUF_POOL s = Ok (hd NULL (fl MEMP_PBUF_POOL), s') /\
      is_chain (n_pbufs s') (hd NULL (fl MEMP_PBUF_POOL)) l /\
      (forall c, c ∉ l.*1 -> n_pbufs s' !! c = n_pbufs s !! c) /\ n_ooseq s' = n_ooseq s /\
      net_inv s' (<[MEMP_PBUF_POOL := drop (base.length l) (fl MEMP_PBUF_POOL)]> fl) hl
  | None =>
      pbuf_alloc pools layer length PBUF_POOL s = Ok (NULL, s') /\ n_pbufs s' = n_pbufs s /\
      n_ooseq s' = 1 /\ net_inv s' (<[MEMP_PBUF_POOL := rev (fl MEMP_PBUF_POOL)]> fl) hl
  end.
Proof.
  intros Hi Hl Hlen.
  assert (pbuf_alloc pools layer length PBUF_POOL s =
    pbuf_alloc_pool_loop (S (num (pools MEMP_PBUF_POOL))) NULL NULL length layer s) as ->.
  { unfold pbuf_alloc. rewrite u16_small by (unfold is_u16; lia). reflexivity. }
  destruct (alloc_loop_spec (fl MEMP_PBUF_POOL) (S (num (pools MEMP_PBUF_POOL))) s fl hl NULL NULL length layer [])
    as (s' & Em & H'); [done|done|done|by left|constructor|done|done|by eapply stack_fuel|].
  exists s'. split; [done|]. destruct (pool_chain _ _ _) as [l|].
  - exact H'.
  - destruct H' as (E & Es & Eo & Hi'). split_and!; [exact E| |done|exact Hi'].
    apply map_eq. intros c. rewrite Es. rewrite decide_False; [done|]. apply not_elem_of_nil.
Qed.

(** The payload of a pool pbuf lies inside its element. *)
Definition in_element (ab : Z * pbuf) : Prop :=
  ab.1 + SIZEOF_STRUCT_PBUF <= payload ab.2 /\ payload ab.2 mod 4 = 0 /\
  payload ab.2 + len ab.2 <= ab.1 + Memp.size (pools MEMP_PBUF_POOL).

Lemma payload_in_element a o n :
  Memp.size (pools MEMP_PBUF_POOL) = SIZEOF_STRUCT_PBUF + PBUF_POOL_BUFSIZE_ALIGNED ->
  a ∈ elems (pools MEMP_PBUF_POOL) -> 0 <= o <= 1000 -> n <= pool_room o ->
  let pay := LWIP_MEM_ALIGN (a + SIZEOF_STRUCT_PBUF + o) in
  a + SIZEOF_STRUCT_PBUF <= pay /\ pay mod 4 = 0 /\ pay + n <= a + Memp.size (pools MEMP_PBUF_POOL).
Proof.
  intros Hsz Ha Ho Hn pay. destruct (elem_props pools _ a Ha) as (_ & Hal & ?).
  unfold elems in Ha. apply list_elem_of_fmap in Ha as (i & Ea & Hi). apply elem_of_seq in Hi.
  pose proof (pool_base MEMP_PBUF_POOL) as [Hb1 Hb2]. pose proof (pool_size MEMP_PBUF_POOL) as [Hs1 _]. rewrite align_spec in Ea by nia.
  change SIZEOF_STRUCT_PBUF with 16 in *. change PBUF_POOL_BUFSIZE_ALIGNED with 1524 in *.
  assert (a + 1540 <= Memp.base (pools MEMP_PBUF_POOL) + 4 +
    Z.of_nat (num (pools MEMP_PBUF_POOL)) * Memp.size (pools MEMP_PBUF_POOL)) by nia.
  unfold pay, pool_room in *. rewrite align_size_spec in Hn by lia.
  rewrite align_spec by lia. lia.
Qed.

(** The addresses of a chain cut from the pool are distinct elements, and the
    payloads lie inside them. *)
Lemma pool_chain_elems (s : net H) fl hl length layer l :
  net_inv s fl hl -> pool_chain (fl MEMP_PBUF_POOL) length layer = Some l ->
  0 <= layer <= 1000 -> 0 <= length < 65536 -> Forall (fun ab => ab.1 ∈ elems (pools MEMP_PBUF_POOL)) l /\ NoDup l.*1.
Proof.
  intros (Hp & _) El Hl Hlen. destruct (Hp MEMP_PBUF_POOL) as (_ & Hn & He); [done|].
  destruct (pool_chain_spec _ _ _ _ El Hlen Hl) as (_ & _ & _ & Hf & _).
  rewrite <- (take_drop (base.length l) (fl MEMP_PBUF_POOL)), <- Hf in Hn, He.
  apply Forall_app in He as [He _]. apply NoDup_app in Hn as [Hn _]. split; [|done].
  by apply Forall_fmap in He.
Qed.

Lemma pool_chain_in_element (s : net H) fl hl length layer l :
  Memp.size (pools MEMP_PBUF_POOL) = SIZEOF_STRUCT_PBUF + PBUF_POOL_BUFSIZE_ALIGNED ->
  net_inv s fl hl -> pool_chain (fl MEMP_PBUF_POOL) length layer = Some l ->
  0 <= layer <= 1000 -> 0 <= length < 65536 -> Forall in_element l.
Proof.
  intros Hsz Hi El Hl Hlen. destruct (pool_chain_elems s fl hl _ _ _ Hi El Hl Hlen) as [He _].
  destruct (pool_chain_spec _ _ _ _ El Hlen Hl) as (_ & _ & _ & _ & _ & Hpl).
  rewrite Forall_forall in Hpl, He |- *. intros ab Hab. destruct (Hpl ab Hab) as (o & Ho & Hr & Hp).
  unfold in_element. rewrite Hp. apply payload_in_element; [done|by apply He|done|done].
Qed.


(** Allocating a chain from the pool and freeing it again gives back exactly
    the elements taken: the pbufs and the memory are as before the allocation and
    the pool holds the same elements. *)
Theorem pbuf_alloc_free (s : net H) (fl : memp_t -> list Z) (hl : gset Z) (layer length p : Z) (s' : net H)
  (Hi : net_inv s fl hl) (Hl : 0 <= layer <= 1000) (Hlen : 0 <= length < 65536)
  (Ha : pbuf_alloc pools layer length PBUF_POOL s = Ok (p, s')) (Hp : p <> NULL) :
  exists n s'' fl', pbuf_free p s' = Ok (n, s'') /\ n_pbufs s'' = n_pbufs s /\ n_mem s'' = n_mem s /\
    n_ooseq s'' = n_ooseq s /\ net_inv s'' fl' hl /\ fl' MEMP_PBUF_POOL ≡ₚ fl MEMP_PBUF_POOL /\
    (forall t, t <> MEMP_PBUF_POOL -> fl' t = fl t).
Proof.
  destruct (pbuf_alloc_pool_cases s fl hl layer length Hi Hl Hlen) as (s1 & Em & Hc).
  destruct (pool_chain _ _ _) as [l|] eqn:El.
  2: { destruct Hc as (E & _). rewrite E in Ha. by injection Ha as <- <-. }
  destruct Hc as (E & Hc & Hout & Eo & Hi1). rewrite E in Ha. injection Ha as <- <-.
  destruct (pool_chain_spec _ _ _ _ El Hlen Hl) as (_ & _ & Hsp & Hf & _ & _).
  destruct (pbuf_free_sole l s1 _ hl _ Hi1 Hc Hp Hsp) as (n & s2 & E2 & Es & Em2 & Eo2 & Hi2).
  rewrite fn_lookup_insert in Hi2.
  exists n, s2. eexists. split_and!; [exact E2| |congruence|congruence|exact Hi2| |].
  - apply map_eq. intros c. rewrite Es. case_decide as Hin; [|by apply Hout].
    symmetry. eapply free_elem_fresh; [exact Hi|].
    rewrite <- (take_drop (base.length l) (fl MEMP_PBUF_POOL)), <- Hf. set_solver.
  - rewrite fn_lookup_insert, Hf, <- Permutation_rev. by rewrite take_drop.
  - intros t Ht. by rewrite !fn_lookup_insert_ne by done.
Qed.

(** ** Allocation from the heap *)

Lemma ram_sizes layer length :
  0 <= layer <= 1000 -> 0 <= length < 65536 ->
  let payload_len := u16 (LWIP_MEM_ALIGN_SIZE layer + LWIP_MEM_ALIGN_SIZE length) in
  let alloc_len := u16 (LWIP_MEM_ALIGN_SIZE SIZEOF_STRUCT_PBUF + payload_len) in
  (payload_len <? LWIP_MEM_ALIGN_SIZE length) || (alloc_len <? LWIP_MEM_ALIGN_SIZE length) = false ->
  alloc_len = 16 + LWIP_MEM_ALIGN_SIZE layer + LWIP_MEM_ALIGN_SIZE length /\ alloc_len < 65536.
Proof.
  intros Hl Hn. cbv zeta. change (LWIP_MEM_ALIGN_SIZE SIZEOF_STRUCT_PBUF) with 16.
  rewrite !align_size_spec by lia. intros [H1%Z.ltb_ge H2%Z.ltb_ge]%orb_false_iff. unfold u16 in *. lia.
Qed.

(** The pbuf a successful allocation from the heap makes. *)
Definition ram_pbuf (p layer length : Z) : pbuf :=
  {| next := NULL; payload := (p + 16 + layer + 3) / 4 * 4; tot_len := length; len := length;
     type_internal := u8 PBUF_RAM; flags := 0; ref := 1; if_idx := 0 |}.

Lemma alloc_ram_spec (s : net H) (fl : memp_t -> list Z) (hl : gset Z) (layer length : Z) :
  net_inv s fl hl -> 0 <= layer <= 1000 -> 0 <= length < 65536 ->
  exists p s', pbuf_alloc pools layer length PBUF_RAM s = Ok (p, s') /\ n_mem s' = n_mem s /\
  ((p = NULL /\ n_pbufs s' = n_pbufs s /\ net_inv s' fl hl) \/
   (p <> NULL /\ n_pbufs s' = <[p := ram_pbuf p layer length]> (n_pbufs s) /\ n_pbufs s !! p = None /\
      heap_lo <= p /\ (p + 16 + layer + 3) / 4 * 4 + length <= heap_hi /\ net_inv s' fl ({[p]} ∪ hl))).
Proof.
  intros Hi Hl Hlen. unfold pbuf_alloc. rewrite (u16_small layer) by (unfold is_u16; lia).
  change ((PBUF_RAM =? PBUF_REF) || (PBUF_RAM =? PBUF_ROM)) with false.
  change (PBUF_RAM =? PBUF_POOL) with false. change (PBUF_RAM =? PBUF_RAM) with true. cbv beta iota zeta.
  destruct ((u16 _ <? _) || (_ <? _)) eqn:Eo; [exists NULL, s; split_and!; try done; by left|].
  apply ram_sizes in Eo as [Eo Hn]; [|done|done]. rewrite Eo in Hn |- *. clear Eo.
  pose proof Hi as (Hp & Hh & Ho). rewrite !align_size_spec in * by lia.
  set (n := 16 + (layer + 3) / 4 * 4 + (length + 3) / 4 * 4).
  destruct (mem_malloc_law (n_heap s) hl n Hh ltac:(subst n; lia)) as (p & h' & E & Hc).
  rewrite (bind_ok (lift_heap _) _ _ p (mk_net (n_memp s) h' (n_pbufs s) (n_mem s) (n_ooseq s)))
    by (unfold lift_heap; by rewrite E).
  destruct Hc as [[-> Hh']|(Hnz & Hni & H4 & H0 & Hhi & Hh')].
  - exists NULL, (mk_net (n_memp s) h' (n_pbufs s) (n_mem s) (n_ooseq s)). split_and!; [done|done|left].
    split_and!; [done|done|]. exact (conj Hp (conj Hh' Ho)).
  - rewrite (proj2 (Z.eqb_neq _ _) Hnz). change SIZEOF_STRUCT_PBUF with 16 in *.
    pose proof heap_hi_u32 as Hu. pose proof heap_lo_pos as Hlo. rewrite align_spec by (subst n; lia).
    set (pay := (p + 16 + layer + 3) / 4 * 4). unfold pbuf_init_alloced_pbuf.
    set (b := ram_pbuf p layer length).
    set (s' := set_pbufs (<[p := b]> (n_pbufs s)) (mk_net (n_memp s) h' (n_pbufs s) (n_mem s) (n_ooseq s))).
    rewrite (bind_ok (modify _) _ _ tt s') by done.
    change MEM_ALIGNMENT with 4. rewrite (proj2 (Z.eqb_eq _ 0)) by (subst pay; lia).
    exists p, s'. split_and!; [reflexivity|done|right]. split; [done|].
    split_and!; try done; try (subst n; lia).
    + destruct (n_pbufs s !! p) as [b0|] eqn:E0; [|done]. exfalso.
      assert (forall t, p ∉ elems (pools t)) as Hout by (intros t; apply (heap_apart _ _ _ _ Hh'); set_solver).
      destruct (Ho p b0 E0) as (_ & [(_ & Hin & _)|[(_ & Hin & _)|(_ & Hin)]]); [by eapply Hout..|done].
    + refine (conj Hp (conj Hh' _)). intros a c. cbn [n_pbufs s' set_pbufs]. rewrite lookup_insert.
      case_decide as Ha; [intros [= <-]; subst a|].
      * split; [cbn [ref b ram_pbuf]; lia|]. right; right. split; [vm_compute; reflexivity|set_solver].
      * intros (Hr & Hown)%Ho. split; [done|]. destruct Hown as [?|[?|[? ?]]]; [by left|by right; left|].
        right; right. split; [done|set_solver].
Qed.

(** Allocating a PBUF_RAM pbuf. [pbuf_alloc] returns NULL and changes nothing but the
    heap's bookkeeping, or one fresh pbuf that only the caller refers to, whose aligned
    payload has the layer's headers in front of it and [length] bytes inside the heap;
    an overflow of the 16-bit block size is not possible. *)
Theorem pbuf_alloc_ram (s : net H) (fl : memp_t -> list Z) (hl : gset Z) (layer length : Z)
  (Hi : net_inv s fl hl) (Hl : 0 <= layer <= 1000) (Hlen : 0 <= length < 65536) :
  exists p s', pbuf_alloc pools layer length PBUF_RAM s = Ok (p, s') /\ n_mem s' = n_mem s /\
  ((p = NULL /\ n_pbufs s' = n_pbufs s /\ net_inv s' fl hl) \/
   (p <> NULL /\ exists b, n_pbufs s' = <[p := b]> (n_pbufs s) /\ n_pbufs s !! p = None /\
      next b = NULL /\ len b = length /\ tot_len b = length /\ ref b = 1 /\ payload b mod 4 = 0 /\
      heap_lo <= p /\ p + SIZEOF_STRUCT_PBUF + layer <= payload b /\ payload b + length <= heap_hi /\ net_inv s' fl ({[p]} ∪ hl))).
Proof.
  destruct (alloc_ram_spec s fl hl layer length Hi Hl Hlen) as (p & s' & E & Em & [Hn|(Hp & Es & Ef & Hlo & Hhi & Hi')]);
    exists p, s'; split_and!; try done; [by left|right]. split; [done|]. exists (ram_pbuf p layer length).
  unfold ram_pbuf at 2 3 4 5 6 7 8. cbn [next len tot_len ref payload]. change SIZEOF_STRUCT_PBUF with 16.
  split_and!; try done; lia.
Qed.

(** Taking a reference. *)
Lemma pbuf_ref_spec (s : net H) fl hl p b :
  net_inv s fl hl -> p <> NULL -> n_pbufs s !! p = Some b -> ref b < 255 ->
  pbuf_ref p s = Ok (tt, set_pbufs (<[p := with_ref (ref b + 1) b]> (n_pbufs s)) s) /\
  net_inv (set_pbufs (<[p := with_ref (ref b + 1) b]> (n_pbufs s)) s) fl hl.
Proof.
  intros (Hp & Hh & Ho) Hz E Hr. pose proof (Ho p b E) as ((Hr1 & _) & Hsrc). unfold pbuf_ref.
  apply Z.eqb_neq in Hz. rewrite Hz, (bind_ok _ _ _ _ _ (rd_ok p b s E)).
  rewrite (bind_ok _ _ _ _ _ (upd_ok p _ b s E)), u8_small by (unfold is_u8; lia). split.
  - unfold assert. by destruct (Z.ltb_spec 0 (ref b + 1)); [|lia].
  - split_and!; [done|done|]. intros c d. simpl. rewrite lookup_insert. case_decide; [|apply Ho].
    intros [= <-]. subst c. split; [simpl; lia|exact Hsrc].
Qed.

Lemma freed_count (l : list (Z * pbuf)) : forall n, foldl (fun n _ => u8 (n + 1)) (u8 n) l = u8 (n + Z.of_nat (length l)).
Proof.
  induction l as [|x l IH]; intros n; simpl; [f_equal; lia|].
  replace (u8 (u8 n + 1)) with (u8 (n + 1)) by (unfold u8; lia). rewrite IH. f_equal. lia.
Qed.

Lemma freed_prefix dead rest :
  Forall (fun ab => ref ab.2 = 1) dead ->
  match rest with [] => True | (_, b) :: _ => ref b <> 1 end -> freed (dead ++ rest) = dead.
Proof.
  induction 1 as [|[a b] dead Hr _ IH]; intros Hx; simpl in *.
  - destruct rest as [|[a b] rest]; simpl; [done|]. apply Z.eqb_neq in Hx. by rewrite Hx.
  - rewrite Hr. simpl. by rewrite IH.
Qed.

Lemma free_store_prefix dead rest : forall ps c,
  Forall (fun ab => ref ab.2 = 1) dead -> NoDup (dead ++ rest).*1 ->
  match rest with [] => True | (_, b) :: _ => ref b <> 1 end ->
  free_store ps (dead ++ rest) !! c =
    if decide (c ∈ dead.*1) then None
    else match rest with
         | (a, b) :: _ => if decide (c = a) then Some (with_ref (ref b - 1) b) else ps !! c
         | [] => ps !! c
         end.
Proof.
  induction dead as [|[a b] dead IH]; intros ps c Hd Hnd Hx.
  - rewrite decide_False by apply not_elem_of_nil. destruct rest as [|[a b] rest]; [done|].
    apply Z.eqb_neq in Hx. cbn [app free_store]. rewrite Hx, lookup_insert.
    by repeat case_decide; subst.
  - apply Forall_cons in Hd as [Hr Hd]. simpl in Hr. cbn [app free_store]. rewrite Hr. simpl.
    rewrite <- app_comm_cons, fmap_cons in Hnd. apply NoDup_cons in Hnd as [Hni Hnd]. simpl in Hni.
    rewrite IH by done. destruct (decide (c ∈ dead.*1)); [by rewrite decide_True by set_solver|].
    destruct (decide (c = a)) as [->|].
    + rewrite decide_True by set_solver. rewrite lookup_delete_eq. destruct rest as [|[a' b'] rest]; [done|].
      rewrite decide_False; [done|]. rewrite fmap_app in Hni. set_solver.
    + rewrite lookup_delete_ne, decide_False by set_solver. done.
Qed.

(** Reference counting. [pbuf_free] on a chain deallocates exactly its
    longest prefix of pbufs with no other reference, returns their number (as a
    [u8_t]), takes one reference from the first pbuf that has others, and changes
    no other pbuf and no memory; every block freed is back in the allocator it came
    from. It terminates without assertion failure or fault. *)
Theorem pbuf_free_refcount (s : net H) (fl : memp_t -> list Z) (hl : gset Z) (p : Z)
  (dead rest : list (Z * pbuf))
  (Hi : net_inv s fl hl) (Hc : is_chain (n_pbufs s) p (dead ++ rest)) (Hp : p <> NULL)
  (Hdead : Forall (fun ab => ref ab.2 = 1) dead)
  (Hrest : match rest with [] => True | (_, b) :: _ => ref b <> 1 end) :
  exists s', pbuf_free p s = Ok (u8 (Z.of_nat (length dead)), s') /\ n_mem s' = n_mem s /\
    (forall c, n_pbufs s' !! c =
      if decide (c ∈ dead.*1) then None
      else match rest with
           | (a, b) :: _ => if decide (c = a) then Some (with_ref (ref b - 1) b) else n_pbufs s !! c
           | [] => n_pbufs s !! c
           end) /\
    net_inv s' (foldl give (fl, hl) dead).1 (foldl give (fl, hl) dead).2.
Proof.
  destruct (pbuf_free_spec (dead ++ rest) s fl hl p Hi Hc Hp) as (s' & E & Es & Em & _ & Hi').
  rewrite freed_prefix in E, Hi' by done. change 0 with (u8 0) in E.
  rewrite (freed_count dead 0) in E.
  exists s'. split_and!; [exact E|done| |exact Hi'].
  intros c. rewrite Es. apply free_store_prefix; [done| |done]. by eapply is_chain_NoDup.
Qed.
End Inv.

(** ** A concrete state

    The pools of [example_pools] after [memp_init], and a heap that hands out its
    blocks in address order. *)

Definition bump_malloc (n : Z) : M Z Z := fun h =>
  if (0 <=? n) && (h + n + 4 <? 536936448) then Ok (h, (h + n + 7) / 4 * 4) else Ok (NULL, h).

Global Instance bump_heap : Heap Z := {
  mem_malloc := bump_malloc;
  mem_free := fun _ => mret tt;
  mem_trim := fun p _ => mret p }.

Global Program Instance bump_laws : HeapLaws example_pools Z := {
  heap_lo := 536870912;
  heap_hi := 536936448;
  heap_rep := fun h live => 536870912 <= h <= 536936448 /\ h mod 4 = 0 /\
    forall a, a ∈ live -> 536870912 <= a < h }.
Next Obligation. done. Qed.
Next Obligation. done. Qed.
Next Obligation.
  intros h live a t (Hh & _ & Hl) Ha Hel. apply Hl in Ha.
  apply elems_range in Hel; destruct t; simpl in *; lia.
Qed.
Next Obligation.
  intros h live n (Hh & Hm & Hl) _. simpl. unfold bump_malloc.
  destruct ((0 <=? n) && (h + n + 4 <? 536936448)) eqn:E.
  - apply andb_true_iff in E as [E1%Z.leb_le E2%Z.ltb_lt]. eexists _, _. split; [reflexivity|].
    right. unfold NULL. split_and!; try lia.
    + intros Hin. specialize (Hl h Hin). lia.
    + intros a Ha. apply elem_of_union in Ha as [->%elem_of_singleton|Ha]; [lia|].
      specialize (Hl a Ha). lia.
  - eexists _, _. split; [reflexivity|]. left. done.
Qed.
Next Obligation.
  intros h live p (Hh & Hm & Hl) Hp. exists h. split; [done|]. split_and!; [lia..|].
  intros a Ha. apply Hl. set_solver.
Qed.

Definition example_net : net Z := mk_net example_memp1 536870912 ∅ ∅ 0.

Lemma example_net_inv : net_inv example_pools example_net (fun t => rev (elems (example_pools t))) ∅.
Proof.
  split_and!.
  - destruct (memp_init_spec example_pools example_memp0) as (s' & E & Hr); [done|].
    unfold example_net, example_memp1, exec. cbn [n_memp]. rewrite E. exact Hr.
  - split_and!; [done|done|done|]. intros a Ha. exfalso. set_solver.
  - intros a b. simpl. by rewrite lookup_empty.
Qed.

Definition get_ok {A} (d : A) (o : outcome A) : A := match o with Ok a => a | _ => d end.
Definition example_alloc : Z * net Z := get_ok (0, example_net) (pbuf_alloc example_pools 14 2000 PBUF_POOL example_net).


Lemma pbuf_alloc_free_witness :
  exists n s'', pbuf_free (example_alloc.1) (example_alloc.2) = Ok (n, s'') /\ n_pbufs s'' = ∅.
Proof.
  destruct (pbuf_alloc_free example_pools example_net _ _ 14 2000 example_alloc.1 example_alloc.2 example_net_inv)
    as (n & s'' & fl' & E & Es & _); [lia|lia|vm_compute; reflexivity|vm_compute; discriminate|].
  exists n, s''. exact (conj E Es).
Defined.

(** The second pbuf of that chain has another reference. *)
Definition example_second : Z := next (default (new_pbuf 0 0 0 0) (n_pbufs example_alloc.2 !! example_alloc.1)).
Definition example_ref : net Z := exec (pbuf_ref example_second) example_alloc.2.
Definition chain_of (s : net Z) (l : list Z) : list (Z * pbuf) :=
  omap (fun a => b ← n_pbufs s !! a; Some (a, b)) l.

Lemma example_ref_inv : exists fl, net_inv example_pools example_ref fl ∅.
Proof.
  destruct (pbuf_alloc_pool_cases example_pools example_net _ _ 14 2000 example_net_inv)
    as (s' & _ & Hc); [lia|lia|].
  destruct (pool_chain _ _ _) as [l|] eqn:E; [|vm_compute in E; discriminate].
  destruct Hc as (Ea & _ & _ & _ & Hi).
  assert (example_alloc.2 = s') as <- by (unfold example_alloc; by rewrite Ea).
  destruct (n_pbufs example_alloc.2 !! example_second) as [b|] eqn:Eb; [|vm_compute in Eb; discriminate].
  assert (ref b < 255) as Hr by (vm_compute in Eb; injection Eb as <-; reflexivity).
  assert (example_second <> NULL) as Hz by (vm_compute; discriminate).
  destruct (pbuf_ref_spec example_pools _ _ _ _ b Hi Hz Eb Hr) as [Er Hi'].
  eexists. unfold example_ref, exec. rewrite Er. exact Hi'.
Qed.

Lemma pbuf_free_refcount_witness :
  exists s', pbuf_free example_alloc.1 example_ref = Ok (1, s') /\
    ref <$> (n_pbufs s' !! example_second) = Some 1.
Proof.
  destruct example_ref_inv as [fl Hi].
  destruct (pbuf_free_refcount example_pools example_ref fl ∅ example_alloc.1
    (chain_of example_ref [example_alloc.1]) (chain_of example_ref [example_second]) Hi)
    as (s' & E & _ & Es & _).
  - vm_compute. split_and!; (reflexivity || discriminate).
  - vm_compute. discriminate.
  - vm_compute. repeat constructor.
  - vm_compute. discriminate.
  - exists s'. split; [vm_compute in E |- *; exact E|]. rewrite Es. vm_compute. reflexivity.
Defined.

Lemma pbuf_alloc_ram_witness :
  exists p s' b, pbuf_alloc example_pools PBUF_TRANSPORT 100 PBUF_RAM example_net = Ok (p, s') /\
    n_pbufs s' !! p = Some b /\ len b = 100 /\ payload b + 100 <= 536936448.
Proof.
  destruct (pbuf_alloc_ram example_pools example_net _ _ PBUF_TRANSPORT 100 example_net_inv)
    as (p & s' & E & _ & [[-> _]|(_ & b & Es & _ & _ & Hl & _ & _ & _ & _ & _ & Hh & _)]);
    [unfold PBUF_TRANSPORT; lia|lia|vm_compute in E; discriminate|].
  exists p, s', b. rewrite Es, lookup_insert_eq. exact (conj E (conj eq_refl (conj Hl Hh))).
Defined.
