(* ===== verification/PbufData.v ===== *)
(** * What the packet buffers carry

    The bytes of a chain, and the operations of [Pbuf] that read and write them
    or move the boundary of a header: each is related to the plain operation on
    the byte string ([take], [drop], [++], lookup). *)

From S2P Require Import Prelude Memp Pbuf PbufSpec.
From stdpp Require Import base numbers list gmap functions sorting.
Open Scope Z_scope.
Open Scope c_scope.

(** ** The byte string of a chain *)

Fixpoint chain_data (m : memory) (l : list (Z * pbuf)) : option (list Z) :=
  match l with
  | [] => Some []
  | (_, b) :: l' =>
      d ← load m (payload b) (Z.to_nat (len b)); d' ← chain_data m l'; Some (d ++ d')
  end.

Lemma chain_data_cons m a b l d :
  chain_data m ((a, b) :: l) = Some d ->
  exists d1 d2, d = d1 ++ d2 /\ load m (payload b) (Z.to_nat (len b)) = Some d1 /\
    chain_data m l = Some d2 /\ length d1 = Z.to_nat (len b).
Proof.
  simpl. intros (d1 & E1 & (d2 & E2 & [= <-])%bind_Some)%bind_Some.
  exists d1, d2. split_and!; try done. by eapply load_length.
Qed.

Lemma chain_data_length m l d : totals l -> chain_data m l = Some d -> Z.of_nat (length d) = sum_len l.
Proof.
  revert d. induction l as [|[a b] l IH]; intros d Ht Hd; [by injection Hd as <-|].
  apply chain_data_cons in Hd as (d1 & d2 & -> & _ & E2 & E1). cbn [totals] in Ht.
  rewrite length_app, sum_len_cons, E1. rewrite <- (IH d2) by naive_solver. lia.
Qed.

(** A range apart from every payload of the chain. *)
Definition apart (a n : Z) (l : list (Z * pbuf)) : Prop :=
  Forall (fun ab => a + n <= payload ab.2 \/ payload ab.2 + len ab.2 <= a) l.

Lemma chain_data_store m a x m' l :
  store m a x = Some m' -> totals l -> apart a (Z.of_nat (length x)) l -> chain_data m' l = chain_data m l.
Proof.
  intros Hs Ht Ha. induction l as [|[b c] l IH]; [done|]. cbn [totals] in Ht.
  apply Forall_cons in Ha as [Hx Ha]. simpl in Hx |- *.
  rewrite (load_store_disjoint m a x m') by (done || lia). rewrite IH by naive_solver. done.
Qed.

Lemma apart_mono a n b k l : a <= b -> b + k <= a + n -> apart a n l -> apart b k l.
Proof.
  intros H1 H2 Ha. eapply Forall_impl; [exact Ha|]. intros ab ?. simpl in *. lia.
Qed.

Lemma store_app m a l1 l2 :
  store m a (l1 ++ l2) = m' ← store m a l1; store m' (a + Z.of_nat (length l1)) l2.
Proof.
  revert m a. induction l1 as [|b l1 IH]; intros m a; simpl.
  - f_equal. lia.
  - destruct (m !! a); [|done]. rewrite IH. simpl.
    destruct (store _ _ l1); simpl; [|done]. f_equal. lia.
Qed.

Lemma load_app m a n1 n2 :
  load m a (n1 + n2) = l1 ← load m a n1; l2 ← load m (a + Z.of_nat n1) n2; Some (l1 ++ l2).
Proof.
  revert a. induction n1 as [|n1 IH]; intros a; cbn [Nat.add load mbind option_bind app].
  - rewrite Z.add_0_r. by destruct (load m a n2).
  - destruct (m !! a); simpl; [|done]. rewrite IH.
    replace (a + 1 + Z.of_nat n1) with (a + Z.of_nat (S n1)) by lia.
    destruct (load m (a + 1) n1); simpl; [|done]. by destruct (load m _ n2).
Qed.

(** A part of a range that can be read. *)
Lemma load_sub m a n l o k :
  load m a n = Some l -> (o + k <= n)%nat -> load m (a + Z.of_nat o) k = Some (take k (drop o l)).
Proof.
  intros E Hk. replace n with (o + (k + (n - o - k)))%nat in E by lia.
  rewrite load_app in E. apply bind_Some in E as (l1 & E1 & (l2 & E2 & [= <-])%bind_Some).
  rewrite load_app in E2. apply bind_Some in E2 as (l3 & E3 & (l4 & E4 & [= <-])%bind_Some).
  rewrite E3. apply load_length in E1, E3. rewrite drop_app_length' by done.
  by rewrite take_app_length' by done.
Qed.

Lemma load_valid m a n l : load m a n = Some l -> valid_range m a (Z.of_nat n).
Proof.
  intros E i Hi. pose proof (load_lookup _ _ _ _ (Z.to_nat (i - a)) E ltac:(lia)) as Hlk.
  replace (a + Z.of_nat (Z.to_nat (i - a))) with i in Hlk by lia.
  rewrite Hlk. apply lookup_lt_is_Some. rewrite (load_length _ _ _ _ E). lia.
Qed.

(** Overwriting the start of a range. *)
Lemma load_overwrite m a x m1 n d :
  store m a x = Some m1 -> load m a n = Some d -> (length x <= n)%nat ->
  load m1 a n = Some (x ++ drop (length x) d).
Proof.
  intros Em Ed Hx. pose proof (load_length _ _ _ _ Ed) as El.
  replace n with (length (x ++ drop (length x) d)) by (rewrite length_app, length_drop; lia).
  apply load_eq_list. intros i Hi. rewrite length_app, length_drop in Hi.
  destruct (decide (i < length x)%nat).
  - rewrite lookup_app_l by done. by apply (store_inside _ _ _ _ _ Em).
  - rewrite lookup_app_r, lookup_drop, (store_outside _ _ _ _ _ Em) by lia.
    rewrite (load_lookup _ _ _ _ _ Ed) by lia. f_equal. lia.
Qed.

Section Data.
Context {H : Type} `{HH : !Heap H}.
Implicit Types s : net H.

Lemma memcpy_ok s dst src n l m :
  load (n_mem s) src (Z.to_nat n) = Some l -> store (n_mem s) dst l = Some m ->
  MEMCPY dst src n s = Ok (tt, set_mem m s).
Proof. intros E1 E2. unfold MEMCPY. by rewrite E1, E2. Qed.

(** ** [pbuf_copy_partial] *)

Lemma copy_partial_loop_spec l : forall fuel s p dataptr len0 offset left copied d,
  is_chain (n_pbufs s) p l -> totals l -> chain_data (n_mem s) l = Some d ->
  (length l < fuel)%nat -> 0 <= len0 -> 0 <= offset < 65536 -> 0 <= left -> 0 <= copied ->
  left + len0 < 65536 -> copied + len0 < 65536 ->
  valid_range (n_mem s) (dataptr + left) len0 -> apart (dataptr + left) len0 l ->
  exists m', store (n_mem s) (dataptr + left) (take (Z.to_nat len0) (drop (Z.to_nat offset) d)) = Some m' /\
    pbuf_copy_partial_loop fuel p dataptr len0 offset left copied s =
      Ok (copied + Z.min len0 (Z.max 0 (sum_len l - offset)), set_mem m' s).
Proof.
  induction l as [|[a b] l IH];
    intros [|fuel] s p dataptr len0 offset left copied d Hc Ht Hd Hf H0 Ho Hl Hcp Hb1 Hb2 Hv Ha;
    simpl in Hf; try lia.
  { simpl in Hc, Hd. subst p. injection Hd as <-. exists (n_mem s). rewrite drop_nil, take_nil.
    split; [done|]. simpl. rewrite andb_false_r. unfold mret, M_ret. destruct s. do 2 f_equal.
    unfold sum_len. simpl. lia. }
  destruct Hc as (-> & Hnz & Ea & Hc). pose proof Ht as (Hlb & Htb & Htu & Ht').
  pose proof (sum_len_nonneg l Ht') as Hsn.
  destruct (chain_data_cons _ _ _ _ _ Hd) as (d1 & d2 & -> & E1 & E2 & El1).
  rewrite sum_len_cons. cbn [pbuf_copy_partial_loop].
  destruct (Z.eqb_spec len0 0) as [->|Hlen0]; simpl.
  { exists (n_mem s). split; [done|]. unfold mret, M_ret. destruct s. do 2 f_equal. lia. }
  apply Z.eqb_neq in Hnz. rewrite Hnz. simpl. rewrite (bind_ok _ _ _ _ _ (rd_ok a b s Ea)).
  apply Forall_cons in Ha as [Hab Ha].
  destruct (negb (offset =? 0) && (len b <=? offset)) eqn:Esk.
  - apply andb_true_iff in Esk as [Ez%negb_true_iff%Z.eqb_neq Ele%Z.leb_le].
    rewrite u16_small by (unfold is_u16; lia).
    destruct (IH fuel s (next b) dataptr len0 (offset - len b) left copied d2) as (m' & Es & E);
      try done; try lia.
    exists m'. rewrite E. split.
    + rewrite drop_app_ge by lia. replace (Z.to_nat offset - length d1)%nat with (Z.to_nat (offset - len b)) by lia.
      done.
    + do 2 f_equal. lia.
  - assert (offset <= len b) as Hob.
    { apply andb_false_iff in Esk as [Ez%negb_false_iff%Z.eqb_eq|Ele%Z.leb_gt]; lia. }
    rewrite (u16_small (len b - offset)) by (unfold is_u16; lia).
    set (n := if len0 <? len b - offset then len0 else len b - offset).
    assert (n = Z.min len0 (len b - offset)) as En by (subst n; destruct (Z.ltb_spec len0 (len b - offset)); lia).
    clearbody n. pose proof (load_sub _ _ _ _ (Z.to_nat offset) (Z.to_nat n) E1 ltac:(lia)) as Eld.
    rewrite Z2Nat.id in Eld by lia. set (x := take (Z.to_nat n) (drop (Z.to_nat offset) d1)) in *.
    assert (length x = Z.to_nat n) as Ex by (subst x; rewrite length_take, length_drop; lia).
    destruct (store_is_Some (n_mem s) (dataptr + left) x) as [m1 Em1];
      [intros i Hi; apply Hv; lia|].
    rewrite (bind_ok _ _ _ _ _ (memcpy_ok s _ _ _ _ _ Eld Em1)).
    rewrite !(u16_small (_ + n)), (u16_small (len0 - n)) by (unfold is_u16; lia).
    destruct (IH fuel (set_mem m1 s) (next b) dataptr (len0 - n) 0 (left + n) (copied + n) d2)
      as (m' & Es & E); try done; try lia.
    + simpl. rewrite <- E2. eapply chain_data_store; [done|done|].
      rewrite Ex. eapply apart_mono; [| |exact Ha]; lia.
    + simpl. eapply valid_range_store; [done|]. intros i Hi. apply Hv. lia.
    + eapply apart_mono; [| |exact Ha]; lia.
    + exists m'. simpl in Es. split.
      * rewrite drop_app_le by lia. rewrite take_app.
        replace (take (Z.to_nat len0) (drop (Z.to_nat offset) d1)) with x.
        2: { subst x. destruct (Z.le_gt_cases len0 (len b - offset)).
             - by replace n with len0 by lia.
             - rewrite !take_ge by (rewrite length_drop; lia). done. }
        rewrite store_app, Em1. simpl. rewrite <- Es. rewrite Ex, length_drop.
        rewrite drop_0. f_equal; [lia|]. destruct (Z.le_gt_cases len0 (len b - offset)).
        -- replace (Z.to_nat (len0 - n)) with 0%nat by lia.
           by replace (Z.to_nat len0 - (length d1 - Z.to_nat offset))%nat with 0%nat by lia.
        -- f_equal. lia.
      * rewrite E. change (set_mem m' (set_mem m1 s)) with (set_mem m' s). do 2 f_equal. lia.
Qed.

Lemma run_chain_fuel {A} (k : nat -> M (net H) A) s :
  (chain_fuel ≫= k) s = k (S (S (base.size (n_pbufs s)))) s.
Proof. done. Qed.

(** [pbuf_copy_partial] copies, from a well-formed chain to a buffer that
    does not overlap it, exactly the bytes [offset .. offset + len0) of the chain's
    byte string (those that exist), returns their number, and changes nothing
    else. *)
Theorem pbuf_copy_partial_bytes s (p dataptr len0 offset : Z) (l : list (Z * pbuf)) (d : list Z)
  (Hc : is_chain (n_pbufs s) p l) (Ht : totals l) (Hp : p <> NULL) (Hz : dataptr <> NULL)
  (Hd : chain_data (n_mem s) l = Some d)
  (Hl : 0 <= len0 < 65536) (Ho : 0 <= offset < 65536)
  (Hv : valid_range (n_mem s) dataptr len0) (Ha : apart dataptr len0 l) :
  let x := take (Z.to_nat len0) (drop (Z.to_nat offset) d) in
  exists m', store (n_mem s) dataptr x = Some m' /\
    pbuf_copy_partial p dataptr len0 offset s = Ok (Z.of_nat (length x), set_mem m' s).
Proof.
  intros x. destruct (copy_partial_loop_spec l (S (S (base.size (n_pbufs s)))) s p dataptr len0 offset 0 0 d)
    as (m' & Es & E); rewrite ?Z.add_0_r; try done; try lia.
  { pose proof (is_chain_size _ _ _ Hc). lia. }
  rewrite Z.add_0_r in Es. exists m'. split; [exact Es|]. unfold pbuf_copy_partial.
  apply Z.eqb_neq in Hp, Hz. rewrite Hp, Hz, run_chain_fuel, E. do 2 f_equal.
  subst x. rewrite length_take, length_drop. pose proof (chain_data_length _ _ _ Ht Hd). lia.
Qed.

(** ** [pbuf_take] *)

(** The payloads of the chain do not overlap one another. *)
Fixpoint payloads_apart (l : list (Z * pbuf)) : Prop :=
  match l with
  | [] => True
  | (_, b) :: l' => apart (payload b) (len b) l' /\ payloads_apart l'
  end.

Lemma take_loop_spec l : forall fuel s p dataptr n copied d x,
  is_chain (n_pbufs s) p l -> totals l -> payloads_apart l -> chain_data (n_mem s) l = Some d ->
  (length l < fuel)%nat -> 0 <= n <= sum_len l -> load (n_mem s) (dataptr + copied) (Z.to_nat n) = Some x ->
  apart (dataptr + copied) n l ->
  exists m', pbuf_take_loop fuel p dataptr n copied s = Ok ((0, copied + n), set_mem m' s) /\
    chain_data m' l = Some (x ++ drop (Z.to_nat n) d) /\
    (forall i, is_Some (m' !! i) <-> is_Some (n_mem s !! i)) /\
    (forall i, Forall (fun ab => ~ (payload ab.2 <= i < payload ab.2 + len ab.2)) l -> m' !! i = n_mem s !! i).
Proof.
  induction l as [|[a b] l IH];
    intros [|fuel] s p dataptr n copied d x Hc Ht Hpa Hd Hf Hn Hx Ha; simpl in Hf; try lia.
  - unfold sum_len in Hn. simpl in Hn. assert (n = 0) as -> by lia. injection Hx as <-.
    exists (n_mem s). simpl. unfold mret, M_ret. rewrite Z.add_0_r. destruct s. done.
  - cbn [pbuf_take_loop]. destruct (Z.eqb_spec n 0) as [->|Hnz].
    { injection Hx as <-. exists (n_mem s). unfold mret, M_ret. rewrite Z.add_0_r. destruct s. done. }
    destruct Hc as (-> & Hz & Ea & Hc). pose proof Ht as (Hlb & Htb & Htu & Ht').
    destruct Hpa as [Hpa Hpa']. apply Forall_cons in Ha as [Hab Ha]. simpl in Hab.
    destruct (chain_data_cons _ _ _ _ _ Hd) as (d1 & d2 & -> & E1 & E2 & El1).
    rewrite sum_len_cons in Hn. pose proof (sum_len_nonneg l Ht') as Hsn. apply Z.eqb_neq in Hz. rewrite Hz.
    rewrite (bind_ok (assert _) _ _ tt s) by done. rewrite (bind_ok _ _ _ _ _ (rd_ok a b s Ea)).
    set (k := if len b <? n then len b else n).
    assert (k = Z.min (len b) n) as Ek by (subst k; destruct (Z.ltb_spec (len b) n); lia). clearbody k.
    replace (Z.to_nat n) with (Z.to_nat k + Z.to_nat (n - k))%nat in Hx by lia.
    rewrite load_app in Hx. apply bind_Some in Hx as (x1 & Hx1 & (x2 & Hx2 & [= <-])%bind_Some).
    pose proof (load_length _ _ _ _ Hx1) as Ex1.
    rewrite Z2Nat.id in Hx2 by lia.
    destruct (store_is_Some (n_mem s) (payload b) x1) as [m1 Em1].
    { intros i Hi. apply (load_valid _ _ _ _ E1). lia. }
    rewrite (bind_ok _ _ _ _ _ (memcpy_ok s _ _ _ _ _ Hx1 Em1)).
    destruct (IH fuel (set_mem m1 s) (next b) dataptr (n - k) (copied + k) d2 x2)
      as (m' & E & Hcd & Hdom & Hout); try done; try lia.
    + simpl. rewrite <- E2. eapply chain_data_store; [done|done|].
      eapply apart_mono; [| |exact Hpa]; lia.
    + simpl. rewrite (load_store_disjoint _ _ _ _ _ _ Em1) by lia. rewrite <- Hx2. f_equal. lia.
    + eapply apart_mono; [| |exact Ha]; lia.
    + exists m'. split_and!.
      * rewrite E. change (set_mem m' (set_mem m1 s)) with (set_mem m' s).
        replace (copied + k + (n - k)) with (copied + n) by lia. done.
      * simpl. rewrite Hcd. simpl.
        assert (load m' (payload b) (Z.to_nat (len b)) = Some (x1 ++ drop (length x1) d1)) as ->.
        { rewrite <- (load_overwrite _ _ _ _ _ _ Em1 E1) by lia. apply load_ext. intros i Hi. apply Hout.
          eapply Forall_impl; [exact Hpa|]. intros ab ?. simpl in *. lia. }
        simpl. f_equal. rewrite <- !app_assoc, Ex1. f_equal.
        destruct (Z.le_gt_cases n (len b)).
        -- replace (n - k) with 0 in * by lia. injection Hx2 as <-. replace k with n by lia.
           rewrite drop_app_le by lia. by rewrite drop_0.
        -- rewrite (drop_ge d1) by lia. rewrite drop_app_ge by lia. simpl. do 2 f_equal. lia.
      * intros i. rewrite Hdom. simpl. by apply (store_dom _ _ _ _ _ Em1).
      * intros i Hi. apply Forall_cons in Hi as [Hi1 Hi2]. simpl in Hi1. rewrite Hout by done. simpl.
        apply (store_outside _ _ _ _ _ Em1). lia.
Qed.

(** [pbuf_take] refuses, changing nothing, a source longer than the chain;
    otherwise it overwrites the first [n] bytes of the chain's byte string with the
    source's bytes, leaves the rest of the string and all memory outside the
    payloads as they were, and returns [ERR_OK]. *)
Theorem pbuf_take_bytes s (p dataptr n : Z) (l : list (Z * pbuf)) (d x : list Z)
  (Hc : is_chain (n_pbufs s) p l) (Ht : totals l) (Hpa : payloads_apart l)
  (Hp : p <> NULL) (Hz : dataptr <> NULL) (Hd : chain_data (n_mem s) l = Some d)
  (Hn : 0 <= n) (Hx : load (n_mem s) dataptr (Z.to_nat n) = Some x) (Ha : apart dataptr n l) :
  (sum_len l < n -> pbuf_take p dataptr n s = Ok (ERR_MEM, s)) /\
  (n <= sum_len l -> exists m', pbuf_take p dataptr n s = Ok (ERR_OK, set_mem m' s) /\
    chain_data m' l = Some (x ++ drop (Z.to_nat n) d) /\
    (forall i, Forall (fun ab => ~ (payload ab.2 <= i < payload ab.2 + len ab.2)) l -> m' !! i = n_mem s !! i)).
Proof.
  destruct l as [|[a b] l]; [done|]. pose proof Hc as (-> & _ & Ea & _).
  pose proof Ht as (_ & Htb & _). rewrite <- sum_len_cons with (a := a) in Htb.
  unfold pbuf_take. apply Z.eqb_neq in Hp, Hz. rewrite Hp, Hz.
  rewrite (bind_ok _ _ _ _ _ (rd_ok a b s Ea)). split; intros Hle.
  - by destruct (Z.ltb_spec (tot_len b) n); [|lia].
  - destruct (Z.ltb_spec (tot_len b) n); [lia|]. rewrite run_chain_fuel.
    destruct (take_loop_spec ((a, b) :: l) (S (S (base.size (n_pbufs s)))) s a dataptr n 0 d x)
      as (m' & E & Hcd & _ & Hout); rewrite ?Z.add_0_r; try done; try lia.
    { pose proof (is_chain_size _ _ _ Hc). lia. }
    exists m'. rewrite (bind_ok _ _ _ _ _ E). simpl.
    rewrite (bind_ok (assert _) _ _ tt (set_mem m' s)) by (unfold assert; by rewrite Z.eqb_refl).
    split_and!; [done|exact Hcd|exact Hout].
Qed.

(** ** Headers *)

Lemma set_pbufs_same s p b : n_pbufs s !! p = Some b -> set_pbufs (<[p := b]> (n_pbufs s)) s = s.
Proof. intros E. rewrite insert_id by done. by destruct s. Qed.

(** Three field assignments in a row. *)
Lemma upd3_ok {A} p f1 f2 f3 b s (k : M (net H) A) :
  n_pbufs s !! p = Some b ->
  (upd p f1;; upd p f2;; upd p f3;; k) s = k (set_pbufs (<[p := f3 (f2 (f1 b))]> (n_pbufs s)) s).
Proof.
  intros E. rewrite (bind_ok _ _ _ _ _ (upd_ok p f1 b s E)).
  erewrite bind_ok by (apply upd_ok; simpl; apply lookup_insert_eq).
  erewrite bind_ok by (apply upd_ok; simpl; apply lookup_insert_eq).
  rewrite !set_pbufs_twice. simpl. by rewrite !insert_insert_eq.
Qed.

(** C24: [pbuf_add_header] reveals [n] bytes in front of the payload exactly when
    the pbuf's data is contiguous with its struct, the new payload does not reach
    into the struct and [tot_len] stays below 2^16; it then grows [len] and
    [tot_len] by [n], and [pbuf_remove_header] restores the state exactly.
    Otherwise it returns 1 and changes nothing. *)
Theorem pbuf_add_header_roundtrip s (p n : Z) (b : pbuf)
  (Hp : p <> NULL) (Hb : n_pbufs s !! p = Some b) (Hn : 0 < n < 4294967296)
  (Hlen : 0 <= len b <= tot_len b) (Htot : tot_len b < 65536) :
  let ok := n + tot_len b < 65536 /\ Z.testbit (type_internal b) 7 = true /\
            p + SIZEOF_STRUCT_PBUF <= payload b - n in
  (~ ok -> pbuf_add_header p n s = Ok (1, s)) /\
  (ok -> exists s' b', pbuf_add_header p n s = Ok (0, s') /\ n_pbufs s' = <[p := b']> (n_pbufs s) /\
    payload b' = payload b - n /\ len b' = len b + n /\ tot_len b' = tot_len b + n /\
    pbuf_remove_header p n s' = Ok (0, s)).
Proof.
  intros ok. unfold ok. clear ok. pose proof (testbit_land_pow2 (type_internal b) 7 ltac:(lia)) as Htb.
  change (2 ^ 7) with PBUF_TYPE_FLAG_STRUCT_DATA_CONTIGUOUS in Htb.
  unfold pbuf_add_header, pbuf_add_header_impl. apply Z.eqb_neq in Hp as Hp'. rewrite Hp'.
  rewrite (bind_ok (assert _) _ _ tt s) by done. cbn [orb].
  destruct (Z.ltb_spec 65535 n) as [Hbig|Hsm]; [split; [done|lia]|].
  destruct (Z.eqb_spec n 0); [lia|]. rewrite (bind_ok _ _ _ _ _ (rd_ok p b s Hb)).
  rewrite (u16_small n) by (unfold is_u16; lia).
  destruct (Z.ltb_spec (u16 (n + tot_len b)) n) as [Hov|Hov].
  { split; [done|]. intros (Hs & _). rewrite u16_small in Hov by (unfold is_u16; lia). lia. }
  assert (n + tot_len b < 65536) as Hsum by (unfold u16 in Hov; lia). rewrite Htb.
  destruct (Z.testbit (type_internal b) 7) eqn:Eb; [|split; [done|intros (_ & ? & _); done]].
  destruct (Z.ltb_spec (payload b - n) (p + SIZEOF_STRUCT_PBUF)); [split; [done|lia]|].
  split; [intros Hnok; destruct Hnok; done|]. intros _. rewrite (upd3_ok p _ _ _ b s) by done.
  rewrite !u16_small by (unfold is_u16; lia). eexists _, _. split; [reflexivity|].
  split_and!; [reflexivity|done|done|done|]. unfold pbuf_remove_header. rewrite Hp'.
  rewrite (bind_ok (assert _) _ _ tt _) by done. simpl.
  destruct (Z.ltb_spec 65535 n); [lia|]. destruct (Z.eqb_spec n 0); [lia|].
  erewrite bind_ok by (apply rd_ok; simpl; apply lookup_insert_eq). simpl.
  rewrite (u16_small n) by (unfold is_u16; lia). destruct (Z.ltb_spec (len b + n) n); [lia|].
  erewrite upd3_ok by (simpl; apply lookup_insert_eq). simpl.
  rewrite !u16_small, insert_insert_eq by (unfold is_u16; lia).
  unfold mret, M_ret. do 2 f_equal. rewrite set_pbufs_twice. etrans; [|exact (set_pbufs_same s p b Hb)].
  do 2 f_equal. destruct b. unfold with_tot_len, with_len, with_payload. simpl. f_equal; lia.
Qed.

(** ** Byte access and search *)

Lemma skip_loop_spec l : forall fuel s p off,
  is_chain (n_pbufs s) p l -> totals l -> (length l < fuel)%nat -> 0 <= off < 65536 ->
  exists q o, pbuf_skip_loop fuel p off s = Ok ((q, o), s) /\
    (sum_len l <= off /\ q = NULL \/
     exists pre b post, l = pre ++ (q, b) :: post /\ o = off - sum_len pre /\ 0 <= o < len b).
Proof.
  induction l as [|[a b] l IH]; intros [|fuel] s p off Hc Ht Hf Ho; simpl in Hf; try lia.
  - simpl in Hc. subst p. eexists _, _. split; [reflexivity|]. left. split; [|done].
    unfold sum_len. simpl. lia.
  - destruct Hc as (-> & Hz & Ea & Hc). pose proof Ht as (Hlb & Htb & Htu & Ht').
    cbn [pbuf_skip_loop]. apply Z.eqb_neq in Hz as Hz'. rewrite Hz'.
    rewrite (bind_ok _ _ _ _ _ (rd_ok a b s Ea)). destruct (Z.leb_spec (len b) off).
    + rewrite u16_small by (unfold is_u16; lia).
      destruct (IH fuel s (next b) (off - len b) Hc Ht') as (q & o & E & Hq); [lia..|].
      eexists _, _. split; [exact E|]. rewrite sum_len_cons.
      destruct Hq as [[? ->]|(pre & b' & post & -> & -> & ?)]; [left; split; [lia|done]|].
      right. exists ((a, b) :: pre), b', post. rewrite sum_len_cons. split_and!; [done|lia..].
    + eexists _, _. split; [reflexivity|]. right. exists [], b, l.
      split_and!; [done|unfold sum_len; simpl; lia|lia|lia].
Qed.

Lemma totals_app l1 l2 : totals (l1 ++ l2) -> totals l2.
Proof. induction l1 as [|[a b] l1 IH]; simpl; [done|]. intros (_ & _ & _ & ?). auto. Qed.

Lemma sum_len_app l1 l2 : sum_len (l1 ++ l2) = sum_len l1 + sum_len l2.
Proof.
  induction l1 as [|[a b] l1 IH]; [done|]. rewrite <- app_comm_cons, !sum_len_cons, IH. lia.
Qed.

Lemma sum_len_pre l1 l2 : totals (l1 ++ l2) -> 0 <= sum_len l1 /\ 0 <= sum_len l2.
Proof.
  intros Ht. split; [|by eapply sum_len_nonneg, totals_app].
  induction l1 as [|[a b] l1 IH]; [done|]. destruct Ht as (? & _ & _ & Ht).
  rewrite sum_len_cons. specialize (IH Ht). lia.
Qed.

(** The data from an element of the chain on. *)
Lemma chain_data_suffix m pre l d :
  totals (pre ++ l) -> chain_data m (pre ++ l) = Some d ->
  0 <= sum_len pre /\ chain_data m l = Some (drop (Z.to_nat (sum_len pre)) d).
Proof.
  revert d. induction pre as [|[a b] pre IH]; intros d Ht Hd; [done|].
  destruct (chain_data_cons _ _ _ _ _ Hd) as (d1 & d2 & -> & E1 & E2 & El1).
  pose proof Ht as (Hlb & _ & _ & Ht'). destruct (IH d2 Ht' E2) as [Hs E].
  rewrite sum_len_cons. split; [lia|]. rewrite E. f_equal. rewrite drop_app_ge by lia. f_equal. lia.
Qed.

Lemma try_get_at_spec s p off l d :
  is_chain (n_pbufs s) p l -> totals l -> chain_data (n_mem s) l = Some d -> 0 <= off < 65536 ->
  pbuf_try_get_at p off s = Ok (default (-1) (d !! Z.to_nat off), s).
Proof.
  intros Hc Ht Hd Ho. unfold pbuf_try_get_at, pbuf_skip_const.
  destruct (skip_loop_spec l (S (S (base.size (n_pbufs s)))) s p off Hc Ht) as (q & o & E & Hq);
    [pose proof (is_chain_size _ _ _ Hc); lia|done|].
  rewrite (bind_ok _ _ _ (q, o) s) by (rewrite run_chain_fuel; exact E).
  pose proof (chain_data_length _ _ _ Ht Hd) as Hlen.
  destruct Hq as [[Hs ->]|(pre & b & post & -> & -> & Ho')].
  - simpl. rewrite lookup_ge_None_2 by lia. done.
  - assert (n_pbufs s !! q = Some b) as Eb by (eapply is_chain_lookup; [done|]; set_solver).
    apply is_chain_suffix in Hc as (_ & Hz & _). apply Z.eqb_neq in Hz. rewrite Hz. simpl.
    destruct (chain_data_suffix _ _ _ _ Ht Hd) as [Hs Hsuf].
    destruct (chain_data_cons _ _ _ _ _ Hsuf) as (d1 & d2 & Ed & E1 & _ & El1).
    rewrite (bind_ok _ _ _ _ _ (rd_ok q b s Eb)). destruct (Z.ltb_spec (off - sum_len pre) (len b)); [|lia].
    unfold read_byte, deref. pose proof (load_lookup _ _ _ _ (Z.to_nat (off - sum_len pre)) E1 ltac:(lia)) as Hlk.
    rewrite Z2Nat.id in Hlk by lia. rewrite Hlk.
    assert (d !! Z.to_nat off = d1 !! Z.to_nat (off - sum_len pre)) as ->.
    { replace (Z.to_nat off) with (Z.to_nat (sum_len pre) + Z.to_nat (off - sum_len pre))%nat by lia.
      rewrite <- lookup_drop, Ed. apply lookup_app_l. lia. }
    destruct (d1 !! Z.to_nat (off - sum_len pre)) as [x|] eqn:Ex; [done|].
    apply lookup_ge_None_1 in Ex. lia.
Qed.

Lemma bytes_ok_lookup d i x : bytes_ok d -> d !! i = Some x -> is_u8 x.
Proof. intros Hd Hx. unfold bytes_ok in Hd. rewrite Forall_lookup in Hd. eauto. Qed.

Lemma get_at_spec s p off l d :
  is_chain (n_pbufs s) p l -> totals l -> chain_data (n_mem s) l = Some d -> bytes_ok d ->
  0 <= off < 65536 -> pbuf_get_at p off s = Ok (default 0 (d !! Z.to_nat off), s).
Proof.
  intros Hc Ht Hd Hok Ho. unfold pbuf_get_at.
  rewrite (bind_ok _ _ _ _ _ (try_get_at_spec s p off l d Hc Ht Hd Ho)).
  destruct (d !! Z.to_nat off) as [x|] eqn:Ex; simpl; [|done].
  pose proof (bytes_ok_lookup _ _ _ Hok Ex) as [Hx1 Hx2].
  destruct (Z.leb_spec 0 x); [|lia]. by rewrite u8_small.
Qed.

(** The first struct of a chain knows its total length. *)
Lemma chain_head s p l :
  is_chain (n_pbufs s) p l -> totals l -> l <> [] ->
  sum_len l < 65536 /\ exists b, n_pbufs s !! p = Some b /\ tot_len b = sum_len l.
Proof.
  destruct l as [|[a b] l]; [done|]. intros (-> & _ & E & _) (? & ? & ? & _) _.
  rewrite sum_len_cons. split; [lia|]. exists b. split; [done|lia].
Qed.

(** The bytes [o .. o + n) of a string. *)
Definition slice (d : list Z) (o n : Z) : list Z := take (Z.to_nat n) (drop (Z.to_nat o) d).

Lemma memcmp_loop_spec k : forall s q start str i l d x,
  is_chain (n_pbufs s) q l -> totals l -> chain_data (n_mem s) l = Some d -> bytes_ok d ->
  0 <= start -> 0 <= i -> start + i + Z.of_nat k <= Z.of_nat (length d) -> Z.of_nat (length d) < 65536 ->
  load (n_mem s) (str + i) k = Some x ->
  exists r, pbuf_memcmp_loop k q start str i s = Ok (r, s) /\ 0 <= r < 65536 /\
    (r = 0 <-> take k (drop (Z.to_nat (start + i)) d) = x).
Proof.
  induction k as [|k IH]; intros s q start str i l d x Hc Ht Hd Hok Hst Hi Hb Hu Hx.
  - injection Hx as <-. exists 0. split_and!; [done|lia|lia|by rewrite take_0].
  - cbn [load] in Hx. apply bind_Some in Hx as (y & Ey & (x' & Ex & [= <-])%bind_Some).
    cbn [pbuf_memcmp_loop]. rewrite (u16_small (start + i)) by (unfold is_u16; lia).
    rewrite (bind_ok _ _ _ _ _ (get_at_spec s q (start + i) l d Hc Ht Hd Hok ltac:(lia))).
    rewrite (bind_ok _ _ _ y s) by (unfold read_byte; by rewrite Ey).
    destruct (lookup_lt_is_Some_2 d (Z.to_nat (start + i))) as [c Ec]; [lia|].
    rewrite Ec. simpl. rewrite (drop_S _ _ _ Ec). simpl.
    destruct (Z.eqb_spec c y) as [->|Hne]; simpl.
    + rewrite u16_small by (unfold is_u16; lia).
      destruct (IH s q start str (i + 1) l d x' Hc Ht Hd Hok) as (r & E & Hr & Hr0); try lia.
      { by rewrite Z.add_assoc. }
      exists r. split_and!; [exact E|lia..|]. rewrite Hr0.
      replace (Z.to_nat (start + (i + 1))) with (S (Z.to_nat (start + i))) by lia. split; congruence.
    + eexists. split; [reflexivity|]. destruct (Z.ltb_spec (i + 1) 65535);
        rewrite u16_small by (unfold is_u16; lia); (split; [lia|]; split; [lia|congruence]).
Qed.

Lemma memcmp_spec s p offset str n l d x :
  is_chain (n_pbufs s) p l -> totals l -> l <> [] -> chain_data (n_mem s) l = Some d -> bytes_ok d ->
  0 <= offset < 65536 -> 0 <= n -> offset + n <= sum_len l ->
  load (n_mem s) str (Z.to_nat n) = Some x ->
  exists r, pbuf_memcmp p offset str n s = Ok (r, s) /\ 0 <= r < 65536 /\ (r = 0 <-> slice d offset n = x).
Proof.
  intros Hc Ht Hne Hd Hok Ho Hn Hle Hx. pose proof (chain_data_length _ _ _ Ht Hd) as Hlen.
  destruct (chain_head s p l Hc Ht Hne) as (Hu & b & Eb & Etb).
  unfold pbuf_memcmp. rewrite (bind_ok _ _ _ _ _ (rd_ok p b s Eb)).
  destruct (Z.ltb_spec (tot_len b) (offset + n)); [lia|]. rewrite run_chain_fuel.
  destruct (skip_loop_spec l (S (S (base.size (n_pbufs s)))) s p offset Hc Ht) as (q & o & E & Hq);
    [pose proof (is_chain_size _ _ _ Hc); lia|done|]. rewrite (bind_ok _ _ _ _ _ E). cbv beta iota.
  unfold slice. destruct Hq as [[Hs ->]|(pre & b' & post & -> & -> & Ho')].
  - assert (n = 0) as -> by lia. injection Hx as <-. exists 0. split_and!; [done|lia..|done].
  - pose proof (is_chain_suffix _ _ _ _ _ _ Hc) as Hc'.
    destruct (chain_data_suffix _ _ _ _ Ht Hd) as [Hsp Hd'].
    destruct (memcmp_loop_spec (Z.to_nat n) s q (offset - sum_len pre) str 0 ((q, b') :: post)
      (drop (Z.to_nat (sum_len pre)) d) x Hc') as (r & Er & Hr & Hr0); try done.
    + by eapply totals_app.
    + by apply Forall_drop.
    + lia.
    + rewrite length_drop. lia.
    + rewrite length_drop. lia.
    + by rewrite Z.add_0_r.
    + exists r. split_and!; [exact Er|lia..|]. rewrite Hr0, drop_drop.
      replace (Z.to_nat (sum_len pre) + Z.to_nat (offset - sum_len pre + 0))%nat with (Z.to_nat offset) by lia.
      done.
Qed.

Lemma memfind_loop_spec k : forall s p mem n i l d x,
  is_chain (n_pbufs s) p l -> totals l -> l <> [] -> chain_data (n_mem s) l = Some d -> bytes_ok d ->
  0 < n -> 0 <= i -> i + Z.of_nat k + n <= sum_len l + 1 -> sum_len l < 65536 ->
  load (n_mem s) mem (Z.to_nat n) = Some x ->
  exists r, pbuf_memfind_loop k p mem n i s = Ok (r, s) /\
    (r = 65535 /\ (forall j, i <= j < i + Z.of_nat k -> slice d j n <> x) \/
     i <= r < i + Z.of_nat k /\ slice d r n = x /\ (forall j, i <= j < r -> slice d j n <> x)).
Proof.
  induction k as [|k IH]; intros s p mem n i l d x Hc Ht Hne Hd Hok Hn Hi Hb Hu Hx.
  - exists 65535. split; [done|]. left. split; [done|lia].
  - cbn [pbuf_memfind_loop].
    destruct (memcmp_spec s p i mem n l d x Hc Ht Hne Hd Hok) as (r & Er & Hr & Hr0); try done; try lia.
    rewrite (bind_ok _ _ _ _ _ Er). destruct (Z.eqb_spec r 0) as [->|Hrn].
    + exists i. split; [done|]. right. split_and!; [lia..|by apply Hr0|lia].
    + rewrite u16_small by (unfold is_u16; lia).
      assert (slice d i n <> x) as Hni by (intros E; by apply Hrn, Hr0).
      destruct (IH s p mem n (i + 1) l d x) as (r' & E' & Hr'); try done; try lia.
      exists r'. split; [exact E'|].
      destruct Hr' as [[-> Hno]|(Hr1 & Hr2 & Hr3)]; [left|right].
      * split; [done|]. intros j Hj. destruct (decide (j = i)) as [->|]; [done|]. apply Hno. lia.
      * split_and!; [lia..|done|]. intros j Hj. destruct (decide (j = i)) as [->|]; [done|]. apply Hr3. lia.
Qed.

(** [pbuf_memfind] searches the chain's byte string: it returns the least
    offset from [start] on at which the searched bytes occur, and 0xFFFF exactly
    when they occur nowhere; it terminates and changes nothing. *)
Theorem pbuf_memfind_first s (p mem n start : Z) (l : list (Z * pbuf)) (d x : list Z)
  (Hc : is_chain (n_pbufs s) p l) (Ht : totals l) (Hne : l <> []) (Hd : chain_data (n_mem s) l = Some d)
  (Hok : bytes_ok d) (Hn : 0 < n < 65536) (Hs : 0 <= start < 65536)
  (Hx : load (n_mem s) mem (Z.to_nat n) = Some x) :
  exists r, pbuf_memfind p mem n start s = Ok (r, s) /\
    (r = 65535 /\ (forall j, start <= j -> j + n <= sum_len l -> slice d j n <> x) \/
     start <= r /\ r + n <= sum_len l /\ slice d r n = x /\
       (forall j, start <= j < r -> slice d j n <> x)).
Proof.
  destruct (chain_head s p l Hc Ht Hne) as (Hu & b & Eb & Etb).
  unfold pbuf_memfind. rewrite (bind_ok _ _ _ _ _ (rd_ok p b s Eb)).
  destruct (Z.leb_spec (n + start) (tot_len b)) as [Hle|Hgt].
  - rewrite u16_small by (unfold is_u16; lia).
    destruct (memfind_loop_spec (Z.to_nat (tot_len b - n - start + 1)) s p mem n start l d x)
      as (r & E & Hr); try done; try lia.
    exists r. split; [exact E|]. destruct Hr as [[-> Hno]|(Hr1 & Hr2 & Hr3)]; [left|right].
    + split; [done|]. intros j Hj1 Hj2. apply Hno. lia.
    + split_and!; [lia..|done|done].
  - exists 65535. split; [done|]. left. split; [done|]. intros j ? ?. lia.
Qed.

(** ** Concatenation *)

(** All structs but the last get [t] more bytes behind them. *)
Fixpoint bump (t : Z) (l : list (Z * pbuf)) : list (Z * pbuf) :=
  match l with
  | (a, b) :: ((_ :: _) as l') => (a, with_tot_len (tot_len b + t) b) :: bump t l'
  | _ => l
  end.

Lemma bump_cons t a b x l :
  bump t ((a, b) :: x :: l) = (a, with_tot_len (tot_len b + t) b) :: bump t (x :: l).
Proof. done. Qed.

Lemma bump_fst t l : (bump t l).*1 = l.*1.
Proof.
  induction l as [|[a b] [|x l] IH]; [done..|]. rewrite bump_cons, !fmap_cons, IH. done.
Qed.

Lemma bump_nonnil t x l : bump t (x :: l) <> [].
Proof. intros E. apply (f_equal (fmap fst)) in E. by rewrite bump_fst in E. Qed.

Lemma cat_loop_spec l : forall fuel s p t bt,
  is_chain (n_pbufs s) p l -> l <> [] -> totals l -> t ∉ l.*1 -> n_pbufs s !! t = Some bt ->
  0 <= tot_len bt -> sum_len l + tot_len bt < 65536 -> (length l < fuel)%nat ->
  exists pe be ps', pbuf_cat_loop fuel p t s = Ok (pe, set_pbufs ps' s) /\
    is_chain ps' p (bump (tot_len bt) l) /\ (exists l1, bump (tot_len bt) l = l1 ++ [(pe, be)]) /\
    tot_len be = len be /\ (forall c, c ∉ l.*1 -> ps' !! c = n_pbufs s !! c).
Proof.
  induction l as [|[a b] l IH]; intros [|fuel] s p t bt Hc Hne Ht Hni Et Hp Hs Hf; simpl in Hf; try done; try lia.
  pose proof (is_chain_NoDup _ _ _ Hc) as Hnd. apply NoDup_cons in Hnd as [Hal _].
  pose proof Hc as Hc0. destruct Hc as (-> & Hz & Ea & Hc). pose proof Ht as (Hlb & Htb & Htu & Ht').
  cbn [pbuf_cat_loop]. rewrite (bind_ok _ _ _ _ _ (rd_ok a b s Ea)).
  rewrite sum_len_cons in Hs. destruct l as [|x l].
  - destruct (Z.eqb_spec (next b) NULL); [|done]. exists a, b, (n_pbufs s). rewrite set_pbufs_id.
    split_and!; [done|exact Hc0|by exists []|unfold sum_len in Htb; simpl in Htb; lia|done].
  - destruct (Z.eqb_spec (next b) NULL) as [Hn0|Hn0].
    { destruct x as [a' b']. destruct Hc as (Hx & Hx' & _). congruence. }
    rewrite (bind_ok _ _ _ _ _ (rd_ok t bt s Et)).
    rewrite (bind_ok _ _ _ _ _ (upd_ok a _ b s Ea)).
    pose proof (sum_len_nonneg _ Ht') as Hsn. rewrite u16_small by (unfold is_u16; lia).
    assert (t <> a) as Hta by (simpl in Hni; set_solver).
    destruct (IH fuel (set_pbufs (<[a := with_tot_len (tot_len b + tot_len bt) b]> (n_pbufs s)) s) (next b) t bt)
      as (pe & be & ps' & E & Hc' & (l1 & El1) & Ebe & Hout).
    + apply is_chain_insert; [exact Hal|done].
    + done.
    + done.
    + simpl in Hni. set_solver.
    + simpl. by rewrite lookup_insert_ne by done.
    + done.
    + lia.
    + simpl. simpl in Hf. lia.
    + exists pe, be, ps'. rewrite bump_cons. split_and!; [exact E| | |done|].
      * split_and!; [done|done| |exact Hc']. rewrite Hout by done. simpl. apply lookup_insert_eq.
      * exists ((a, with_tot_len (tot_len b + tot_len bt) b) :: l1). by rewrite El1.
      * intros c Hcn. rewrite fmap_cons in Hcn. apply not_elem_of_cons in Hcn as [Hca Hcn].
        rewrite Hout by done. simpl in Hca |- *. by rewrite lookup_insert_ne by done.
Qed.

Lemma bump_totals t l l1 pe be q lt :
  totals l -> bump t l = l1 ++ [(pe, be)] -> tot_len be = len be -> 0 <= t -> sum_len l + t < 65536 ->
  totals lt -> sum_len lt = t ->
  totals (l1 ++ (pe, with_next q (with_tot_len (tot_len be + t) be)) :: lt) /\
  sum_len (l1 ++ (pe, with_next q (with_tot_len (tot_len be + t) be)) :: lt) = sum_len l + t.
Proof.
  revert l1. induction l as [|[a b] l IH]; intros l1 Ht El Ebe Hp Hs Htt Et; [by destruct l1|].
  pose proof Ht as (Hlb & Htb & Htu & Ht'). rewrite sum_len_cons in Hs. destruct l as [|x l].
  - destruct l1 as [|y l1]; [|by destruct l1]. simpl in El. injection El as <- <-.
    cbn [app]. rewrite !sum_len_cons in *. change (sum_len []) with 0 in *.
    cbn [totals len tot_len with_next with_tot_len]. split; [|lia].
    split; [lia|]. split; [lia|]. split; [lia|done].
  - rewrite bump_cons in El. destruct l1 as [|y l1].
    { apply (f_equal tail) in El. cbn [tail app] in El. by apply bump_nonnil in El. }
    injection El as <- El. pose proof (sum_len_nonneg _ Ht') as Hsn.
    destruct (IH l1 Ht' El Ebe Hp) as [IH1 IH2]; [lia|done|done|].
    rewrite <- app_comm_cons, !sum_len_cons. cbn [totals len tot_len with_tot_len]. rewrite IH2.
    split; [|lia]. split; [lia|]. split; [lia|]. split; [lia|done].
Qed.

Lemma bump_data m t l l1 pe be q lt :
  bump t l = l1 ++ [(pe, be)] ->
  chain_data m (l1 ++ (pe, with_next q (with_tot_len (tot_len be + t) be)) :: lt) =
    d ← chain_data m l; d' ← chain_data m lt; Some (d ++ d').
Proof.
  revert l1. induction l as [|[a b] l IH]; intros l1 El; [by destruct l1|]. destruct l as [|x l].
  - destruct l1 as [|y l1]; [|by destruct l1]. simpl in El. injection El as <- <-. simpl.
    destruct (load m _ _); [|done]. simpl. rewrite app_nil_r. done.
  - rewrite bump_cons in El. destruct l1 as [|y l1].
    { apply (f_equal tail) in El. cbn [tail app] in El. by apply bump_nonnil in El. }
    injection El as <- El. rewrite <- app_comm_cons. cbn [chain_data payload len with_tot_len].
    rewrite (IH l1 El). destruct (load m (payload b) (Z.to_nat (len b))); simpl; [|done].
    destruct x as [a' b']. destruct (load m (payload b') (Z.to_nat (len b'))); simpl; [|done].
    destruct (chain_data m l); simpl; [|done]. destruct (chain_data m lt); simpl; [|done].
    by rewrite !app_assoc.
Qed.

(** Replacing the last struct by one that points to another chain. *)
Lemma is_chain_append ps p l1 a b b' t lt :
  is_chain ps p (l1 ++ [(a, b)]) -> is_chain ps t lt -> a ∉ lt.*1 -> next b' = t ->
  is_chain (<[a := b']> ps) p (l1 ++ (a, b') :: lt).
Proof.
  revert p. induction l1 as [|[c d] l1 IH]; intros p Hc Ht Ha Hn.
  - destruct Hc as (-> & Hz & Ea & _). split_and!; [done|done|apply lookup_insert_eq|].
    rewrite Hn. by apply is_chain_insert.
  - pose proof (is_chain_NoDup _ _ _ Hc) as Hnd. destruct Hc as (-> & Hz & Ec & Hc).
    assert (a <> c) as Hac.
    { rewrite <- app_comm_cons, fmap_cons, fmap_app in Hnd. apply NoDup_cons in Hnd as [Hni _].
      simpl in Hni. set_solver. }
    split_and!; [done|done|by rewrite lookup_insert_ne|]. by apply IH.
Qed.

(** [pbuf_cat] appends one well-formed chain to another: the result is a
    well-formed chain over the structs of both, in order, whose byte string is the
    concatenation and whose [tot_len]s are all correct again; other pbufs and the
    memory are unchanged. *)
Theorem pbuf_cat_concat s (h t : Z) (lh lt : list (Z * pbuf)) (dh dt : list Z)
  (Hh : is_chain (n_pbufs s) h lh) (Ht : is_chain (n_pbufs s) t lt) (Hhn : lh <> []) (Htn : lt <> [])
  (Hth : totals lh) (Htt : totals lt) (Hdis : forall a, a ∈ lh.*1 -> a ∉ lt.*1)
  (Hsum : sum_len lh + sum_len lt < 65536)
  (Hdh : chain_data (n_mem s) lh = Some dh) (Hdt : chain_data (n_mem s) lt = Some dt) :
  exists ps' l', pbuf_cat h t s = Ok (tt, set_pbufs ps' s) /\
    is_chain ps' h l' /\ totals l' /\ l'.*1 = lh.*1 ++ lt.*1 /\
    chain_data (n_mem s) l' = Some (dh ++ dt) /\ sum_len l' = sum_len lh + sum_len lt /\
    (forall c, c ∉ lh.*1 -> ps' !! c = n_pbufs s !! c).
Proof.
  destruct (chain_head s t lt Ht Htt Htn) as (_ & bt & Ebt & Etl).
  pose proof (is_chain_nonnull _ _ _ Hh Hhn) as Hhz. pose proof (is_chain_nonnull _ _ _ Ht Htn) as Htz.
  pose proof (sum_len_nonneg _ Htt) as Htp. pose proof (sum_len_nonneg _ Hth) as Hhp.
  assert (t ∈ lt.*1) as Htin by (destruct lt as [|[a b] lt]; [done|]; destruct Ht as (-> & _); simpl; set_solver).
  assert (t ∉ lh.*1) as Htni by (intros Hin; by apply (Hdis t Hin)).
  destruct (cat_loop_spec lh (S (S (base.size (n_pbufs s)))) s h t bt Hh Hhn Hth Htni Ebt)
    as (pe & be & ps1 & E & Hc1 & (l1 & El1) & Ebe & Hout); [lia|lia| |].
  { pose proof (is_chain_size _ _ _ Hh). lia. }
  assert (lh.*1 = l1.*1 ++ [pe]) as Elh by (by rewrite <- (bump_fst (tot_len bt)), El1, fmap_app).
  rewrite El1 in Hc1. pose proof (is_chain_lookup _ _ _ pe be Hc1 ltac:(set_solver)) as Epe.
  pose proof (is_chain_suffix _ _ _ _ _ _ Hc1) as (_ & _ & _ & Hnx). simpl in Hnx.
  assert (is_chain ps1 t lt) as Hc2.
  { eapply is_chain_ext; [|exact Ht]. intros a Ha. apply Hout. intros Hin. by apply (Hdis a Hin). }
  assert (ps1 !! t = Some bt) as Ebt1 by (by rewrite Hout).
  set (b2 := with_next t (with_tot_len (tot_len be + tot_len bt) be)).
  assert (len be <= sum_len lh /\ 0 <= len be) as [Hle1 Hle2].
  { destruct (bump_totals (tot_len bt) lh l1 pe be t lt Hth El1 Ebe) as [Ha Hb]; [lia|lia|done|lia|].
    apply (totals_app l1) in Ha as Ha'. pose proof Ha' as (H1 & _).
    rewrite sum_len_app, sum_len_cons in Hb. simpl in Hb, H1.
    assert (0 <= sum_len l1) by (destruct (sum_len_pre _ _ Ha); done). lia. }
  exists (<[pe := b2]> ps1), (l1 ++ (pe, b2) :: lt). split_and!.
  - unfold pbuf_cat. apply Z.eqb_neq in Hhz, Htz. rewrite Hhz, Htz. cbn [orb]. rewrite run_chain_fuel.
    rewrite (bind_ok _ _ _ _ _ E). rewrite (bind_ok _ _ _ _ _ (rd_ok pe be (set_pbufs ps1 s) Epe)).
    rewrite (bind_ok (assert _) _ _ tt (set_pbufs ps1 s)) by (unfold assert; by rewrite Ebe, Z.eqb_refl).
    rewrite (bind_ok (assert _) _ _ tt (set_pbufs ps1 s)) by (unfold assert; by rewrite Hnx).
    rewrite (bind_ok _ _ _ _ _ (rd_ok t bt (set_pbufs ps1 s) Ebt1)).
    rewrite (bind_ok _ _ _ _ _ (upd_ok pe _ be (set_pbufs ps1 s) Epe)).
    erewrite upd_ok by (simpl; apply lookup_insert_eq). simpl. rewrite insert_insert_eq.
    by rewrite u16_small by (unfold is_u16; lia).
  - eapply is_chain_append; [exact Hc1|exact Hc2| |done]. apply Hdis. rewrite Elh. set_solver.
  - by apply (bump_totals (tot_len bt) lh l1 pe be t lt Hth El1 Ebe); [lia|lia|done|lia].
  - rewrite fmap_app, fmap_cons, Elh, <- app_assoc. done.
  - unfold b2. rewrite (bump_data _ _ lh l1 pe be t lt El1), Hdh, Hdt. done.
  - destruct (bump_totals (tot_len bt) lh l1 pe be t lt Hth El1 Ebe) as [_ Hb]; [lia|lia|done|lia|].
    fold b2 in Hb. lia.
  - intros c Hni. rewrite lookup_insert_ne by (rewrite Elh in Hni; set_solver). by apply Hout.
Qed.
End Data.

(** ** Truncation *)

(** The structs before the cut have [shrink] bytes fewer behind them. *)
Definition shrunk (shrink : Z) (l : list (Z * pbuf)) : list (Z * pbuf) :=
  (fun ab => (ab.1, with_tot_len (tot_len ab.2 - shrink) ab.2)) <$> l.

Definition cut_at (r : Z) (b : pbuf) : pbuf := with_next NULL (with_tot_len r (with_len r b)).

Lemma shrunk_fst n l : (shrunk n l).*1 = l.*1.
Proof. unfold shrunk. rewrite <- list_fmap_compose. done. Qed.

Lemma shrunk_totals n pre q b post r :
  totals (pre ++ (q, b) :: post) -> 0 <= r <= len b -> n = sum_len ((q, b) :: post) - r ->
  totals (shrunk n pre ++ [(q, cut_at r b)]) /\
  sum_len (shrunk n pre ++ [(q, cut_at r b)]) = sum_len pre + r.
Proof.
  induction pre as [|[a c] pre IH]; intros Ht Hr ->.
  - cbn [shrunk fmap list_fmap app]. rewrite sum_len_cons. change (sum_len []) with 0.
    destruct Ht as (? & ? & ? & Ht). pose proof (sum_len_nonneg _ Ht).
    cbn [totals tot_len len cut_at with_next with_tot_len with_len]. change (sum_len []) with 0.
    split; [split_and!; lia || done|lia].
  - destruct Ht as (Hc0 & Htc & Hcu & Ht). destruct (IH Ht Hr eq_refl) as [IH1 IH2].
    destruct (sum_len_pre _ _ Ht) as [? ?]. rewrite sum_len_app in Htc.
    remember (sum_len ((q, b) :: post) - r) as n eqn:En.
    change (shrunk n ((a, c) :: pre)) with ((a, with_tot_len (tot_len c - n) c) :: shrunk n pre).
    rewrite <- app_comm_cons, !sum_len_cons.
    cbn [totals tot_len len with_tot_len]. rewrite IH2. rewrite sum_len_cons in Htc, En.
    pose proof (totals_app _ _ Ht) as (_ & _ & _ & Hpost). pose proof (sum_len_nonneg _ Hpost).
    split; [split_and!; lia || done|lia].
Qed.

Lemma shrunk_data m n pre q b post r d :
  totals (pre ++ (q, b) :: post) -> 0 <= r <= len b -> chain_data m (pre ++ (q, b) :: post) = Some d ->
  chain_data m (shrunk n pre ++ [(q, cut_at r b)]) = Some (take (Z.to_nat (sum_len pre + r)) d).
Proof.
  revert d. induction pre as [|[a c] pre IH]; intros d Ht Hr Hd.
  - destruct (chain_data_cons _ _ _ _ _ Hd) as (d1 & d2 & -> & E1 & _ & El1).
    cbn [shrunk fmap list_fmap app chain_data payload len cut_at with_next with_tot_len with_len].
    pose proof (load_sub _ _ _ _ 0 (Z.to_nat r) E1 ltac:(lia)) as E. rewrite Z.add_0_r in E.
    rewrite E. simpl. rewrite app_nil_r, drop_0. f_equal. change (sum_len []) with 0.
    by rewrite take_app_le by lia.
  - destruct (chain_data_cons _ _ _ _ _ Hd) as (d1 & d2 & -> & E1 & E2 & El1).
    destruct Ht as (? & ? & ? & Ht). destruct (sum_len_pre _ _ Ht) as [? _].
    change (shrunk n ((a, c) :: pre)) with ((a, with_tot_len (tot_len c - n) c) :: shrunk n pre).
    rewrite <- app_comm_cons. cbn [chain_data payload len with_tot_len].
    rewrite E1, (IH d2 Ht Hr E2). cbn [mbind option_bind]. f_equal. rewrite sum_len_cons, take_app_ge by lia.
    do 2 f_equal. lia.
Qed.

Section Realloc.
Context (pools : memp_t -> memp_desc) `{HP : !PoolsOk pools} {H : Type} `{HH : !Heap H}
  `{HL : !HeapLaws pools H}.

(** Rewriting structs without touching reference counts or types. *)
Lemma net_inv_same (s : net H) fl hl ps :
  net_inv pools s fl hl ->
  (forall c b, ps !! c = Some b -> exists b', n_pbufs s !! c = Some b' /\ ref b' = ref b /\
     type_internal b' = type_internal b) ->
  net_inv pools (set_pbufs ps s) fl hl.
Proof.
  intros (Hp & Hh & Ho) Hs. split_and!; [done|done|]. intros c b Hcb.
  destruct (Hs c b Hcb) as (b' & Hb' & Er & Et). specialize (Ho c b' Hb').
  unfold owned, pbuf_get_allocsrc in *. by rewrite <- Er, <- Et.
Qed.

(** The invariant is not about the bytes. *)
Lemma net_inv_mem (s : net H) fl hl m : net_inv pools s fl hl -> net_inv pools (set_mem m s) fl hl.
Proof. done. Qed.

Lemma realloc_loop_spec l : forall fuel (s : net H) p rem_len shrink,
  is_chain (n_pbufs s) p l -> totals l -> 0 <= rem_len < sum_len l -> shrink = sum_len l - rem_len ->
  (length l < fuel)%nat ->
  exists pre q b post ps' r, l = pre ++ (q, b) :: post /\
    pbuf_realloc_loop fuel p rem_len shrink s = Ok ((q, r), set_pbufs ps' s) /\
    r = rem_len - sum_len pre /\ 0 <= r <= len b /\ (pre <> [] -> 0 < r) /\
    is_chain ps' p (shrunk shrink pre ++ (q, b) :: post) /\
    (forall c, c ∉ pre.*1 -> ps' !! c = n_pbufs s !! c) /\
    (forall c b, ps' !! c = Some b -> exists b', n_pbufs s !! c = Some b' /\ ref b' = ref b /\
       type_internal b' = type_internal b) /\
    (forall c, (fun b => (ref b, next b)) <$> ps' !! c = (fun b => (ref b, next b)) <$> n_pbufs s !! c).
Proof.
  induction l as [|[a b] l IH]; intros [|fuel] s p rem_len shrink Hc Ht Hr Es Hf; simpl in Hf; try lia.
  { change (sum_len []) with 0 in Hr. lia. }
  pose proof Hc as Hc0. pose proof (is_chain_NoDup _ _ _ Hc) as Hnd. apply NoDup_cons in Hnd as [Hal _].
  destruct Hc as (-> & Hz & Ea & Hc). pose proof Ht as (Hlb & Htb & Htu & Ht').
  rewrite sum_len_cons in *. pose proof (sum_len_nonneg _ Ht').
  cbn [pbuf_realloc_loop]. rewrite (bind_ok _ _ _ _ _ (rd_ok a b s Ea)).
  destruct (Z.ltb_spec (len b) rem_len) as [Hlt|Hge].
  - rewrite !u16_small by (unfold is_u16; lia).
    rewrite (bind_ok _ _ _ _ _ (upd_ok a _ b s Ea)).
    set (s1 := set_pbufs _ s).
    assert (l <> []) as Hln by (intros ->; change (sum_len []) with 0 in *; lia).
    pose proof (is_chain_nonnull _ _ _ Hc Hln) as Hnz. apply Z.eqb_neq in Hnz. rewrite Hnz.
    rewrite (bind_ok (assert _) _ _ tt s1) by done.
    destruct (IH fuel s1 (next b) (rem_len - len b) shrink)
      as (pre & q & bq & post & ps' & r & El & E & Er & Hrr & Hr0 & Hc' & Hout & Hty & Hrn); [|done|lia|lia|lia|].
    { by apply is_chain_insert. }
    exists ((a, b) :: pre), q, bq, post, ps', r. rewrite sum_len_cons.
    split_and!; [by rewrite El|exact E|lia..| | | | |].
    + intros _. destruct pre as [|x pre]; [change (sum_len []) with 0 in *; lia|by apply Hr0].
    + change (shrunk shrink ((a, b) :: pre)) with ((a, with_tot_len (tot_len b - shrink) b) :: shrunk shrink pre).
      split_and!; [done|done| |exact Hc']. rewrite Hout.
      * apply lookup_insert_eq.
      * assert (a ∉ l.*1) as Hal' by exact Hal. rewrite El, fmap_app in Hal'. set_solver.
    + intros c Hcn. rewrite fmap_cons in Hcn. apply not_elem_of_cons in Hcn as [Hca Hcn]. simpl in Hca.
      rewrite Hout by done. simpl. by rewrite lookup_insert_ne by done.
    + intros c d Hcd. destruct (Hty c d Hcd) as (d' & Hd' & ? & ?). simpl in Hd'.
      rewrite lookup_insert in Hd'. case_decide; [|eauto]. subst c. injection Hd' as <-. exists b. done.
    + intros c. rewrite Hrn. simpl. rewrite lookup_insert. case_decide; [|done]. subst c. by rewrite Ea.
  - exists [], a, b, l, (n_pbufs s), rem_len. rewrite set_pbufs_id. change (sum_len []) with 0.
    split_and!; [done|done|lia|lia|lia|done|exact Hc0|done| |done]. intros c d Hcd. eauto.
Qed.

(** Releasing what follows the cut, if anything. *)
Lemma realloc_tail (s : net H) fl hl p l :
  net_inv pools s fl hl -> is_chain (n_pbufs s) p l -> sole_pool l ->
  exists n s', (if negb (p =? NULL) then pbuf_free p else mret 0) s = Ok (n, s') /\
    (forall c, n_pbufs s' !! c = if decide (c ∈ l.*1) then None else n_pbufs s !! c) /\
    n_mem s' = n_mem s /\ net_inv pools s' (<[MEMP_PBUF_POOL := rev l.*1 ++ fl MEMP_PBUF_POOL]> fl) hl.
Proof.
  intros Hi Hc Hsp. destruct (Z.eqb_spec p NULL) as [->|Hp]; simpl.
  - assert (l = []) as -> by (destruct l as [|[]]; [done|]; destruct Hc as (? & ? & _); congruence).
    exists 0, s. split_and!; [done| |done|].
    + intros c. rewrite decide_False; [done|]. apply not_elem_of_nil.
    + eapply net_inv_ext; [|exact Hi]. intros t _. simpl. destruct (decide (t = MEMP_PBUF_POOL)) as [->|].
      * by rewrite fn_lookup_insert.
      * by rewrite fn_lookup_insert_ne.
  - destruct (pbuf_free_sole pools l s fl hl p Hi Hc Hp Hsp) as (n & s' & ? & ? & ? & _ & ?). eauto 8.
Qed.

Lemma is_chain_cut ps ps' p pre q b b' post :
  is_chain ps p (pre ++ (q, b) :: post) -> next b' = NULL ->
  (forall c, c ∈ pre.*1 -> ps' !! c = ps !! c) -> ps' !! q = Some b' ->
  is_chain ps' p (pre ++ [(q, b')]).
Proof.
  revert p. induction pre as [|[a c] pre IH]; intros p Hc Hn He Hq.
  - destruct Hc as (-> & ? & _). split_and!; done.
  - destruct Hc as (-> & ? & Ea & Hc). split_and!; [done|done| |].
    + rewrite He; [done|]. rewrite fmap_cons. set_solver.
    + apply IH; [done|done| |done]. intros x Hx. apply He. rewrite fmap_cons. set_solver.
Qed.

(** What truncation does to the structs: [q] is where the cut is, [r] what it keeps. *)
Lemma realloc_cut (s : net H) fl hl p new_len l :
  net_inv pools s fl hl -> is_chain (n_pbufs s) p l -> totals l -> sole_pool l -> 0 <= new_len < sum_len l ->
  exists s' pre q b post r ps1, l = pre ++ (q, b) :: post /\ r = new_len - sum_len pre /\ 0 <= r <= len b /\
    (pre <> [] -> 0 < r) /\ pbuf_realloc p new_len s = Ok (tt, s') /\
    is_chain ps1 p (shrunk (sum_len l - new_len) pre ++ (q, b) :: post) /\
    (forall c, c ∉ pre.*1 -> ps1 !! c = n_pbufs s !! c) /\
    (forall c, (fun b => (ref b, next b)) <$> ps1 !! c = (fun b => (ref b, next b)) <$> n_pbufs s !! c) /\
    (forall c, n_pbufs s' !! c = if decide (c = q) then Some (cut_at r b) else if decide (c ∈ post.*1) then None else ps1 !! c) /\
    n_mem s' = n_mem s /\ net_inv pools s' (<[MEMP_PBUF_POOL := rev post.*1 ++ fl MEMP_PBUF_POOL]> fl) hl.
Proof.
  intros Hi Hc Ht Hsp Hn. assert (l <> []) as Hne by (intros ->; change (sum_len []) with 0 in Hn; lia).
  destruct (chain_head s p l Hc Ht Hne) as (Hu & b0 & Eb0 & Etl).
  pose proof (is_chain_nonnull _ _ _ Hc Hne) as Hz. apply Z.eqb_neq in Hz.
  unfold pbuf_realloc. rewrite Hz. rewrite (bind_ok (assert _) _ _ tt s) by done.
  rewrite (bind_ok _ _ _ _ _ (rd_ok p b0 s Eb0)). destruct (Z.leb_spec (tot_len b0) new_len); [lia|].
  rewrite u16_small by (unfold is_u16; lia). rewrite run_chain_fuel.
  destruct (realloc_loop_spec l (S (S (base.size (n_pbufs s)))) s p new_len (tot_len b0 - new_len))
    as (pre & q & b & post & ps1 & r & El & E & Er & Hr & Hr0 & Hc1 & Hout & Hty & Hrn);
    [done|done|lia|lia|pose proof (is_chain_size _ _ _ Hc); lia|].
  rewrite (bind_ok _ _ _ _ _ E). cbv beta iota.
  pose proof (is_chain_lookup _ _ _ q b Hc1 ltac:(set_solver)) as Eq1.
  rewrite El in Hsp. apply Forall_app in Hsp as [_ Hsp]. apply Forall_cons in Hsp as [[_ Hbt] Hsp]. simpl in Hbt.
  rewrite (bind_ok _ _ _ _ _ (rd_ok q b (set_pbufs ps1 s) Eq1)). rewrite Hbt. cbn [Z.eqb andb].
  rewrite (bind_ok _ _ _ q (set_pbufs ps1 s)) by done.
  rewrite (bind_ok _ _ _ _ _ (upd_ok q _ b (set_pbufs ps1 s) Eq1)).
  erewrite bind_ok by (apply upd_ok; simpl; apply lookup_insert_eq).
  erewrite bind_ok by (apply rd_ok; simpl; apply lookup_insert_eq).
  rewrite !set_pbufs_twice. cbn [n_pbufs set_pbufs]. rewrite insert_insert_eq.
  change (next (with_tot_len r (with_len r b))) with (next b).
  set (b1 := with_tot_len r (with_len r b)). set (s1 := set_pbufs (<[q := b1]> ps1) s).
  assert (net_inv pools s1 fl hl) as Hi1.
  { apply net_inv_same; [done|]. intros c x. rewrite lookup_insert. case_decide; [|apply Hty].
    intros [= <-]. subst c. destruct (Hty q b Eq1) as (b' & ? & ? & ?). eauto. }
  pose proof (is_chain_NoDup _ _ _ Hc1) as Hnd. rewrite fmap_app, fmap_cons, shrunk_fst in Hnd.
  apply NoDup_app in Hnd as (_ & Hdis & Hnd). apply NoDup_cons in Hnd as [Hqp _]. simpl in Hqp, Hdis.
  destruct (realloc_tail s1 fl hl (next b) post) as (n & s2 & E2 & Es2 & Em2 & Hi2); [done| |done|].
  { apply is_chain_suffix in Hc1 as (_ & _ & _ & Hsf). by apply is_chain_insert. }
  assert (n_pbufs s2 !! q = Some b1) as Eq2 by (rewrite Es2, decide_False by done; apply lookup_insert_eq).
  rewrite (bind_ok _ _ _ _ _ E2), (upd_ok q _ b1 s2 Eq2). change (with_next NULL b1) with (cut_at r b).
  eexists _, pre, q, b, post, r, ps1. rewrite Etl in Hc1. split_and!; try done; try lia.
  - intros c. destruct (decide (c = q)) as [->|Hcq]; [apply lookup_insert_eq|].
    cbn [n_pbufs set_pbufs]. rewrite lookup_insert_ne, Es2 by done. destruct (decide (c ∈ post.*1)); [done|].
    cbn [n_pbufs set_pbufs s1]. by rewrite lookup_insert_ne.
  - apply net_inv_same; [exact Hi2|]. intros c x. rewrite lookup_insert. case_decide; [|eauto].
    intros [= <-]. subst c. exists b1. done.
Qed.

(** The chain that is left. *)
Lemma realloc_cut_chain ps' ps1 p pre q b post n r l :
  is_chain ps1 p (shrunk n pre ++ (q, b) :: post) ->
  (forall c, ps' !! c = if decide (c = q) then Some (cut_at r b) else if decide (c ∈ post.*1) then None else ps1 !! c) ->
  l = pre ++ (q, b) :: post -> is_chain ps' p (shrunk n pre ++ [(q, cut_at r b)]).
Proof.
  intros Hc1 Hs El. pose proof (is_chain_NoDup _ _ _ Hc1) as Hnd. rewrite fmap_app, fmap_cons, shrunk_fst in Hnd.
  apply NoDup_app in Hnd as (_ & Hdis & _). simpl in Hdis. eapply is_chain_cut; [exact Hc1|done| |by rewrite Hs, decide_True].
  intros c Hcp. rewrite shrunk_fst in Hcp. specialize (Hdis c Hcp). rewrite Hs, !decide_False by set_solver. done.
Qed.

(** [pbuf_realloc] on a chain of pool pbufs that only the caller refers to
    truncates it: the chain keeps exactly the first [new_len] bytes, stays well
    formed, and every pbuf behind the cut goes back to the pool; a [new_len] not
    below the current length changes nothing. *)
Theorem pbuf_realloc_truncate (s : net H) (fl : memp_t -> list Z) (hl : gset Z) (p new_len : Z)
  (l : list (Z * pbuf)) (d : list Z)
  (Hi : net_inv pools s fl hl) (Hc : is_chain (n_pbufs s) p l) (Hne : l <> []) (Ht : totals l)
  (Hsp : sole_pool l) (Hd : chain_data (n_mem s) l = Some d) (Hn : 0 <= new_len) :
  (sum_len l <= new_len -> pbuf_realloc p new_len s = Ok (tt, s)) /\
  (new_len < sum_len l -> exists s' l' back, pbuf_realloc p new_len s = Ok (tt, s') /\
    is_chain (n_pbufs s') p l' /\ totals l' /\ sum_len l' = new_len /\
    chain_data (n_mem s') l' = Some (take (Z.to_nat new_len) d) /\
    n_mem s' = n_mem s /\ l.*1 = l'.*1 ++ back /\
    (forall c, c ∉ l.*1 -> n_pbufs s' !! c = n_pbufs s !! c) /\
    net_inv pools s' (<[MEMP_PBUF_POOL := rev back ++ fl MEMP_PBUF_POOL]> fl) hl).
Proof.
  split; intros Hle.
  { destruct (chain_head s p l Hc Ht Hne) as (Hu & b0 & Eb0 & Etl).
    pose proof (is_chain_nonnull _ _ _ Hc Hne) as Hz. apply Z.eqb_neq in Hz.
    unfold pbuf_realloc. rewrite Hz. rewrite (bind_ok (assert _) _ _ tt s) by done.
    rewrite (bind_ok _ _ _ _ _ (rd_ok p b0 s Eb0)). by destruct (Z.leb_spec (tot_len b0) new_len); [|lia]. }
  destruct (realloc_cut s fl hl p new_len l Hi Hc Ht Hsp) as
    (s' & pre & q & b & post & r & ps1 & El & Er & Hr & _ & E & Hc1 & Hout & _ & Hs & Em & Hi'); [lia|].
  assert (sum_len l - new_len = sum_len ((q, b) :: post) - r) as Esh by (rewrite El, sum_len_app; lia).
  rewrite El in Ht, Hd. destruct (shrunk_totals _ pre q b post r Ht Hr Esh) as [Ht' Hs'].
  exists s', (shrunk (sum_len l - new_len) pre ++ [(q, cut_at r b)]), post.*1.
  split_and!; [done|by eapply realloc_cut_chain|exact Ht'|lia| |exact Em| | |done].
  - rewrite Em, (shrunk_data _ _ pre q b post r d Ht Hr Hd). do 2 f_equal. lia.
  - by rewrite El, !fmap_app, shrunk_fst, fmap_cons, <- app_assoc.
  - intros c Hcn. rewrite El, fmap_app, fmap_cons in Hcn. simpl in Hcn.
    rewrite Hs, !decide_False by set_solver. apply Hout. set_solver.
Qed.
End Realloc.

(** ** Concrete chains *)

Definition mk_b (nx pay tl l : Z) : pbuf :=
  {| next := nx; payload := pay; tot_len := tl; len := l; type_internal := 128; flags := 0; ref := 1; if_idx := 0 |}.
Definition ex_a : list (Z * pbuf) := [(100, mk_b 200 1000 5 3); (200, mk_b 0 2000 2 2)].
Definition ex_b : list (Z * pbuf) := [(300, mk_b 0 2500 1 1)].
Definition ex_mem : memory :=
  list_to_map [(1000, 1); (1001, 2); (1002, 3); (2000, 4); (2001, 5); (2500, 9);
               (3000, 3); (3001, 4); (3002, 0); (3003, 0)].
Definition ex_net : net Z := mk_net example_memp1 536870912 (list_to_map (ex_a ++ ex_b)) ex_mem 0.

Lemma ex_chain_a : is_chain (n_pbufs ex_net) 100 ex_a.
Proof. vm_compute. split_and!; (reflexivity || discriminate). Qed.
Lemma ex_chain_b : is_chain (n_pbufs ex_net) 300 ex_b.
Proof. vm_compute. split_and!; (reflexivity || discriminate). Qed.
Lemma ex_totals_a : totals ex_a.
Proof. repeat split; simpl; unfold sum_len; simpl; lia. Qed.
Lemma ex_totals_b : totals ex_b.
Proof. repeat split; simpl; unfold sum_len; simpl; lia. Qed.
Lemma ex_data_a : chain_data (n_mem ex_net) ex_a = Some [1; 2; 3; 4; 5].
Proof. vm_compute. reflexivity. Qed.

Lemma pbuf_copy_partial_bytes_witness :
  exists m', store ex_mem 3000 [3; 4] = Some m' /\
    pbuf_copy_partial 100 3000 2 2 ex_net = Ok (2, set_mem m' ex_net).
Proof.
  apply (pbuf_copy_partial_bytes ex_net 100 3000 2 2 ex_a [1; 2; 3; 4; 5] ex_chain_a ex_totals_a);
    [discriminate|discriminate|exact ex_data_a|lia|lia| |].
  - intros i Hi. assert (i = 3000 \/ i = 3001) as [-> | ->] by lia; vm_compute; eauto.
  - repeat constructor; simpl; lia.
Defined.

Lemma pbuf_take_bytes_witness :
  exists m', pbuf_take 100 3000 4 ex_net = Ok (ERR_OK, set_mem m' ex_net) /\
    chain_data m' ex_a = Some [3; 4; 0; 0; 5].
Proof.
  destruct (pbuf_take_bytes ex_net 100 3000 4 ex_a [1; 2; 3; 4; 5] [3; 4; 0; 0] ex_chain_a ex_totals_a)
    as [_ Hok]; [repeat constructor; simpl; lia|discriminate|discriminate|exact ex_data_a|lia|
    vm_compute; reflexivity|repeat constructor; simpl; lia|].
  destruct Hok as (m' & E & Hcd & _); [vm_compute; discriminate|]. exists m'. exact (conj E Hcd).
Defined.

Lemma pbuf_add_header_roundtrip_witness :
  exists s', pbuf_add_header 100 14 ex_net = Ok (0, s') /\ pbuf_remove_header 100 14 s' = Ok (0, ex_net).
Proof.
  destruct (pbuf_add_header_roundtrip ex_net 100 14 (mk_b 200 1000 5 3)) as [_ Hok];
    [discriminate|vm_compute; reflexivity|lia|simpl; lia|simpl; lia|].
  destruct Hok as (s' & b' & E & _ & _ & _ & _ & Er);
    [split_and!; [simpl; lia|reflexivity|vm_compute; discriminate]|].
  exists s'. exact (conj E Er).
Defined.

Lemma pbuf_memfind_first_witness :
  exists r, pbuf_memfind 100 3000 2 0 ex_net = Ok (r, ex_net) /\ slice [1; 2; 3; 4; 5] 2 2 = [3; 4].
Proof.
  destruct (pbuf_memfind_first ex_net 100 3000 2 0 ex_a [1; 2; 3; 4; 5] [3; 4] ex_chain_a ex_totals_a)
    as (r & E & _); [discriminate|exact ex_data_a| |lia|lia|vm_compute; reflexivity|].
  - apply (bool_decide_unpack (bytes_ok [1; 2; 3; 4; 5])). reflexivity.
  - exists r. split; [exact E|reflexivity].
Defined.

Lemma pbuf_cat_concat_witness :
  exists ps' l', pbuf_cat 100 300 ex_net = Ok (tt, set_pbufs ps' ex_net) /\
    is_chain ps' 100 l' /\ chain_data ex_mem l' = Some [1; 2; 3; 4; 5; 9].
Proof.
  destruct (pbuf_cat_concat ex_net 100 300 ex_a ex_b [1; 2; 3; 4; 5] [9] ex_chain_a ex_chain_b)
    as (ps' & l' & E & Hc & _ & _ & Hd & _);
    [discriminate|discriminate|exact ex_totals_a|exact ex_totals_b| |vm_compute; reflexivity|
     exact ex_data_a|vm_compute; reflexivity|].
  - intros a Ha Hb. simpl in Ha, Hb. set_solver.
  - exists ps', l'. exact (conj E (conj Hc Hd)).
Defined.

(** A memory that holds [a mod 256] at each of the addresses [L]. *)
Definition mem_on (L : list Z) : memory := list_to_map ((fun a => (a, a mod 256)) <$> L).

Lemma mem_on_lookup L a : a ∈ L -> mem_on L !! a = Some (a mod 256).
Proof.
  unfold mem_on. induction L as [|b L IH]; [set_solver|]. intros Ha. cbn [fmap list_fmap list_to_map foldr uncurry].
  cbn. destruct (decide (b = a)) as [->|Hne]; [by rewrite lookup_insert_eq|].
  rewrite lookup_insert_ne by done. apply IH. set_solver.
Qed.

Lemma mem_on_valid L a n : (forall i, a <= i < a + n -> i ∈ L) -> valid_range (mem_on L) a n.
Proof. intros H i Hi. rewrite mem_on_lookup by auto. eauto. Qed.

Lemma mem_on_load L a n : (forall i, a <= i < a + Z.of_nat n -> i ∈ L) ->
  load (mem_on L) a n = Some ((fun i => i mod 256) <$> seqZ a (Z.of_nat n)).
Proof.
  intros H. rewrite <- (load_eq_list (mem_on L) a ((fun i => i mod 256) <$> seqZ a (Z.of_nat n))).
  - f_equal. rewrite length_fmap, length_seqZ. lia.
  - intros i Hi. rewrite length_fmap, length_seqZ in Hi. rewrite mem_on_lookup by (apply H; lia).
    rewrite list_lookup_fmap, lookup_seqZ_lt by lia. done.
Qed.

Lemma mem_on_data L l : Forall (fun ab => forall i, payload ab.2 <= i < payload ab.2 + len ab.2 -> i ∈ L) l ->
  chain_data (mem_on L) l = Some (l ≫= fun ab => (fun i => i mod 256) <$> seqZ (payload ab.2) (Z.of_nat (Z.to_nat (len ab.2)))).
Proof.
  induction l as [|[a b] l IH]; [done|]. intros [Hb Hl]%Forall_cons. cbn [chain_data]. simpl in Hb.
  rewrite mem_on_load by (intros i Hi; apply Hb; lia). rewrite IH by done. done.
Qed.

(** A chain of 2000 bytes allocated from the pool, with its memory. *)
Definition pool_mem : memory := mem_on (seqZ 268440456 6160).
Definition ex_pool : net Z := set_mem pool_mem example_alloc.2.
Definition ex_pool_chain : list (Z * pbuf) :=
  chain_of ex_pool [example_alloc.1; example_second].

Lemma ex_pool_inv : exists fl, net_inv example_pools ex_pool fl ∅.
Proof.
  destruct (pbuf_alloc_pool_cases example_pools example_net _ _ 14 2000 example_net_inv)
    as (s' & _ & Hc); [lia|lia|].
  destruct (pool_chain _ _ _) as [l|] eqn:E; [|vm_compute in E; discriminate].
  destruct Hc as (Ea & _ & _ & _ & Hi).
  assert (example_alloc.2 = s') as <- by (unfold example_alloc; by rewrite Ea).
  eexists. unfold ex_pool. eapply net_inv_mem. exact Hi.
Qed.

Lemma ex_pool_data : exists d, chain_data (n_mem ex_pool) ex_pool_chain = Some d.
Proof.
  eexists. apply mem_on_data. assert (ex_pool_chain = ltac:(let x := eval vm_compute in ex_pool_chain in exact x)) as ->
    by (vm_compute; reflexivity).
  repeat apply Forall_cons_2; [..|apply Forall_nil_2]; intros i Hi; cbn [snd payload len] in Hi; apply elem_of_seqZ; lia.
Qed.

Lemma pbuf_realloc_truncate_witness :
  exists s' l', pbuf_realloc example_alloc.1 60 ex_pool = Ok (tt, s') /\
    is_chain (n_pbufs s') example_alloc.1 l' /\ sum_len l' = 60.
Proof.
  destruct ex_pool_inv as [fl Hi]. destruct ex_pool_data as [d Hd].
  destruct (pbuf_realloc_truncate example_pools ex_pool fl ∅ example_alloc.1 60 ex_pool_chain d Hi) as [_ Hok].
  - vm_compute. split_and!; (reflexivity || discriminate).
  - vm_compute. discriminate.
  - vm_compute. split_and!; (reflexivity || discriminate).
  - vm_compute. repeat constructor.
  - exact Hd.
  - lia.
  - destruct Hok as (s' & l' & back & E & Hc & _ & Hs & _); [vm_compute; reflexivity|].
    exists s', l'. exact (conj E (conj Hc Hs)).
Defined.
