(* ===== verification/SatSolver.v ===== *)
(** * The SAT accelerator: soc/sat_solver.py and soc/sat_slave.py

    The two hardware modules at the level of clock cycles: one [step] function per
    module computes the registers after the next clock edge from the registers and
    the inputs of this cycle. Amaranth's rule that a later assignment of the same
    cycle wins, and its truncation of a value to the width of the signal assigned,
    are written out. *)

From S2P Require Import Prelude.
From stdpp Require Import base numbers list gmap.
Open Scope Z_scope.
Open Scope c_scope.

Definition MAX_VARS : Z := 10.
Definition MAX_CLAUSES : nat := 20.
Definition CLAUSE_LEN : nat := 10.

(** ** [BruteForceSAT] *)

(** The input ports other than [start]. *)
Record sat_in := {
  n_vars : Z; n_clauses : Z;
  lit_var : nat -> nat -> Z; lit_neg : nat -> nat -> bool; lit_used : nat -> nat -> bool }.

(** The registers. *)
Record solver := {
  assignment : Z; running : bool; done_r : bool; sat_r : bool; model_r : Z; cycles_r : Z }.

Definition lit_val (i : sat_in) (asg : Z) (c l : nat) : bool :=
  let var_val := Z.testbit asg (lit_var i c l) in
  (if lit_neg i c l then negb var_val else var_val) && lit_used i c l.

Definition clause_sat (i : sat_in) (asg : Z) (c : nat) : bool :=
  existsb (lit_val i asg c) (seq 0 CLAUSE_LEN).

Definition all_sat (i : sat_in) (asg : Z) : bool :=
  forallb (fun ci => clause_sat i asg ci || (n_clauses i <=? Z.of_nat ci)) (seq 0 MAX_CLAUSES).

Definition max_assign (i : sat_in) : Z := ((1 <<c n_vars i) - 1) mod 1024.

Definition solver_step (i : sat_in) (start : bool) (s : solver) : solver :=
  if start then
    {| assignment := 0; running := true; done_r := false; sat_r := false; model_r := 0; cycles_r := 0 |}
  else if running s then
    let cycles := (cycles_r s + 1) mod 1048576 in
    if all_sat i (assignment s) then
      {| assignment := assignment s; running := false; done_r := true; sat_r := true;
         model_r := assignment s; cycles_r := cycles |}
    else if assignment s =? max_assign i then
      {| assignment := assignment s; running := false; done_r := true; sat_r := false;
         model_r := model_r s; cycles_r := cycles |}
    else
      {| assignment := (assignment s + 1) mod 1024; running := running s; done_r := done_r s;
         sat_r := sat_r s; model_r := model_r s; cycles_r := cycles |}
  else s.

(** ** [SATSlave] *)

Record slave := {
  start_r : bool; n_vars_r : Z; n_clauses_r : Z; lit_regs : list Z; wb_ack : bool; sat : solver }.

(** What the bus master drives during a cycle. *)
Record wb := { wb_cyc : bool; wb_stb : bool; wb_we : bool; wb_adr : Z; wb_dat_w : Z }.

Definition LIT_COUNT : Z := 200.
Definition LIT_BASE : Z := 8.

(** The wiring of the registers to the solver. *)
Definition wire (s : slave) : sat_in :=
  let reg c l := nth (c * CLAUSE_LEN + l) (lit_regs s) 0 in
  {| n_vars := n_vars_r s; n_clauses := n_clauses_r s;
     lit_var := fun c l => (reg c l) &c 15;
     lit_neg := fun c l => Z.testbit (reg c l) 4;
     lit_used := fun c l => Z.testbit (reg c l) 5 |}.

Definition active_write (s : slave) (b : wb) : bool :=
  wb_cyc b && wb_stb b && wb_we b && negb (wb_ack s).

Definition is_lit_adr (a : Z) : bool := (LIT_BASE <=? a) && (a <? LIT_BASE + LIT_COUNT).

Definition slave_step (b : wb) (s : slave) : slave :=
  let w := active_write s b in
  {| start_r := if w && (wb_adr b =? 0) then Z.testbit (wb_dat_w b) 0
                else if start_r s then false else start_r s;
     n_vars_r := if w && (wb_adr b =? 1) then (wb_dat_w b) &c 15 else n_vars_r s;
     n_clauses_r := if w && (wb_adr b =? 2) then (wb_dat_w b) &c 31 else n_clauses_r s;
     lit_regs := if w && is_lit_adr (wb_adr b)
                 then <[Z.to_nat (wb_adr b - LIT_BASE) := (wb_dat_w b) &c 63]> (lit_regs s)
                 else lit_regs s;
     wb_ack := wb_cyc b && wb_stb b && negb (wb_ack s);
     sat := solver_step (wire s) (start_r s) (sat s) |}.

(** The combinational read data. *)
Definition wb_dat_r (s : slave) (adr : Z) : Z :=
  if adr =? 0 then Z.b2z (done_r (sat s)) + 2 * Z.b2z (sat_r (sat s))
  else if adr =? 3 then model_r (sat s)
  else if adr =? 4 then cycles_r (sat s)
  else 0.

(** ** The search *)

Fixpoint iter {A} (n : nat) (f : A -> A) (x : A) : A :=
  match n with O => x | S k => iter k f (f x) end.

Lemma iter_S {A} n (f : A -> A) x : iter (S n) f x = f (iter n f x).
Proof. revert x. induction n as [|n IH]; intros x; [done|]. simpl in *. by rewrite IH. Qed.

Lemma iter_add {A} m n (f : A -> A) x : iter (m + n) f x = iter n f (iter m f x).
Proof. revert x. induction m as [|m IH]; intros x; simpl; [done|]. apply IH. Qed.

(** The verdict registers are right about the formula on the input ports. *)
Definition verdict (i : sat_in) (s : solver) : Prop :=
  if sat_r s
  then all_sat i (model_r s) = true /\ 0 <= model_r s <= max_assign i /\
       (forall a, 0 <= a < model_r s -> all_sat i a = false)
  else forall a, 0 <= a <= max_assign i -> all_sat i a = false.

(** The state of the search [k] cycles after the start pulse. *)
Definition search_inv (i : sat_in) (k : Z) (s : solver) : Prop :=
  running s = true /\ done_r s = false /\ sat_r s = false /\ assignment s = k /\ k <= max_assign i /\
    (forall a, 0 <= a < k -> all_sat i a = false) \/
  running s = false /\ done_r s = true /\ verdict i s.

Lemma max_assign_range i : 0 <= max_assign i < 1024.
Proof. unfold max_assign. lia. Qed.

Lemma max_assign_spec i : 0 <= n_vars i <= 10 -> max_assign i = 2 ^ n_vars i - 1.
Proof.
  intros Hn. unfold max_assign. rewrite Z.shiftl_1_l.
  pose proof (Z.pow_le_mono_r 2 (n_vars i) 10 ltac:(lia) ltac:(lia)). change (2 ^ 10) with 1024 in *.
  pose proof (Z.pow_pos_nonneg 2 (n_vars i)). apply Z.mod_small. lia.
Qed.

Lemma search_start i s : search_inv i 0 (solver_step i true s).
Proof. left. simpl. pose proof (max_assign_range i). split_and!; try done; lia. Qed.

Lemma search_step i k s :
  0 <= k -> search_inv i k s -> search_inv i (k + 1) (solver_step i false s).
Proof.
  intros Hk [(Hr & Hd & Hs & Ha & Hm & Hno)|(Hr & Hd & Hv)]; unfold solver_step; rewrite Hr.
  - rewrite Ha. pose proof (max_assign_range i). destruct (all_sat i k) eqn:E.
    + right. simpl. split_and!; [done|done|]. unfold verdict. simpl. split_and!; done || lia.
    + assert (forall a, 0 <= a < k + 1 -> all_sat i a = false) as Hno'.
      { intros a Ha'. destruct (decide (a = k)) as [->|]; [done|]. apply Hno. lia. }
      destruct (Z.eqb_spec k (max_assign i)) as [->|Hne].
      * right. simpl. split_and!; [done|done|]. unfold verdict. simpl. intros a ?. apply Hno'. lia.
      * left. simpl. rewrite Z.mod_small by lia. split_and!; done || lia.
  - right. simpl. rewrite Hr. done.
Qed.

Lemma search_run i k s : search_inv i 0 s -> search_inv i (Z.of_nat k) (iter k (solver_step i false) s).
Proof.
  intros Hs. induction k as [|k IH]; [done|]. rewrite iter_S.
  replace (Z.of_nat (S k)) with (Z.of_nat k + 1) by lia. apply search_step; [lia|done].
Qed.

(** C18: the search. [n_vars] variables and any formula on the input ports: after
    a start pulse the solver is not done before it has an answer, is done after at
    most [2 ^ n_vars] cycles and stays so; [sat] then says whether some assignment
    of the variables satisfies every active clause, and [model] is the least such
    assignment. *)
Theorem solver_correct (i : sat_in) (s : solver) (Hn : 0 <= n_vars i <= MAX_VARS) :
  let at_ k := iter k (solver_step i false) (solver_step i true s) in
  (forall k, done_r (at_ k) = true -> verdict i (at_ k)) /\
  (forall k, 2 ^ n_vars i <= Z.of_nat k -> done_r (at_ k) = true) /\
  (forall k, done_r (at_ k) = true -> at_ (S k) = at_ k) /\
  (forall k, done_r (at_ k) = true ->
     sat_r (at_ k) = true <-> exists a, 0 <= a < 2 ^ n_vars i /\ all_sat i a = true).
Proof.
  intros at_. unfold MAX_VARS in Hn. pose proof (max_assign_spec i Hn) as Hmax.
  assert (forall k, search_inv i (Z.of_nat k) (at_ k)) as Hinv.
  { intros k. apply search_run, search_start. }
  assert (forall k, done_r (at_ k) = true -> running (at_ k) = false /\ verdict i (at_ k)) as Hd.
  { intros k Hk. destruct (Hinv k) as [(_ & Hf & _)|(? & _ & ?)]; [congruence|done]. }
  split_and!.
  - intros k Hk. by apply Hd.
  - intros k Hk. destruct (Hinv k) as [(_ & _ & _ & _ & ? & _)|(_ & ? & _)]; [lia|done].
  - intros k Hk. unfold at_. rewrite iter_S. fold (at_ k). destruct (Hd k Hk) as [Hr _].
    unfold solver_step. by rewrite Hr.
  - intros k Hk. destruct (Hd k Hk) as [_ Hv]. unfold verdict in Hv. destruct (sat_r (at_ k)).
    + split; [|done]. intros _. exists (model_r (at_ k)). split; [lia|]. apply Hv.
    + split; [done|]. intros (a & Ha & E). rewrite Hv in E by lia. done.
Qed.

Definition example_in : sat_in :=
  {| n_vars := 2; n_clauses := 2; lit_var := fun c l => Z.of_nat c; lit_neg := fun c l => Nat.eqb c 1;
     lit_used := fun c l => Nat.eqb l 0 |}.
Definition solver_reset : solver :=
  {| assignment := 0; running := false; done_r := false; sat_r := false; model_r := 0; cycles_r := 0 |}.

Lemma solver_correct_witness :
  exists a, 0 <= a < 2 ^ 2 /\ all_sat example_in a = true.
Proof.
  destruct (solver_correct example_in solver_reset ltac:(unfold MAX_VARS; simpl; lia)) as (_ & _ & _ & H).
  apply (H 4%nat); vm_compute; reflexivity.
Defined.

(** ** Bus transfers

    A Wishbone master holds its request until it sees the acknowledge, samples the
    read data in that cycle, and then releases the bus. The CPU leaves any number of
    idle cycles before a transfer. *)

Definition wb_idle : wb := {| wb_cyc := false; wb_stb := false; wb_we := false; wb_adr := 0; wb_dat_w := 0 |}.
Definition wb_req (we : bool) (adr d : Z) : wb :=
  {| wb_cyc := true; wb_stb := true; wb_we := we; wb_adr := adr; wb_dat_w := d |}.

Definition transfer (b : wb) (s : slave) : Z * slave :=
  let s1 := slave_step b s in
  if wb_ack s1 then (wb_dat_r s1 (wb_adr b), slave_step b s1)
  else let s2 := slave_step b s1 in (wb_dat_r s2 (wb_adr b), slave_step b s2).

Definition access (gap : nat) (b : wb) (s : slave) : Z * slave :=
  transfer b (iter gap (slave_step wb_idle) s).

(** A cycle that is not the writing cycle of a transfer and has no start pulse
    changes no register but lets the search go on. *)
Lemma quiet_step b s :
  active_write s b = false -> start_r s = false ->
  let s' := slave_step b s in
  wire s' = wire s /\ lit_regs s' = lit_regs s /\ start_r s' = false /\
  sat s' = solver_step (wire s) false (sat s).
Proof. intros Hw Hs. unfold slave_step, wire. rewrite Hw, Hs. done. Qed.

(** The search has gone on for [k] cycles on the formula [i] in the registers. *)
Definition searching (i : sat_in) (k : Z) (s : slave) : Prop :=
  wire s = i /\ start_r s = false /\ wb_ack s = false /\ length (lit_regs s) = Z.to_nat LIT_COUNT /\
  search_inv i k (sat s).

Lemma searching_idle i k s : 0 <= k -> searching i k s -> searching i (k + 1) (slave_step wb_idle s).
Proof.
  intros Hk (Hw & Hs & Ha & Hl & Hi). destruct (quiet_step wb_idle s) as (E1 & El & E2 & E3); [done|done|].
  split_and!; [congruence|done|done|congruence|]. rewrite E3, Hw. by apply search_step.
Qed.

Lemma searching_gap i k g s :
  0 <= k -> searching i k s -> searching i (k + Z.of_nat g) (iter g (slave_step wb_idle) s).
Proof.
  intros Hk Hs. induction g as [|g IH]; [by rewrite Z.add_0_r|]. rewrite iter_S.
  replace (k + Z.of_nat (S g)) with (k + Z.of_nat g + 1) by lia. apply searching_idle; [lia|done].
Qed.

(** A read while the search runs: the data is what the solver shows [g + 1] cycles
    later, and the search has gone on for [g + 2]. *)
Lemma searching_read i k g adr s :
  0 <= k -> searching i k s ->
  exists s1, search_inv i (k + Z.of_nat g + 1) (sat s1) /\
    (access g (wb_req false adr 0) s).1 = wb_dat_r s1 adr /\
    sat (access g (wb_req false adr 0) s).2 = solver_step i false (sat s1) /\
    searching i (k + Z.of_nat g + 2) (access g (wb_req false adr 0) s).2.
Proof.
  intros Hk Hs. unfold access. apply (searching_gap i k g) in Hs; [|done].
  set (s0 := iter g (slave_step wb_idle) s) in *. destruct Hs as (Hw & Hs & Ha & Hl & Hi).
  set (b := wb_req false adr 0).
  assert (forall x, active_write x b = false) as Hnw by done.
  destruct (quiet_step b s0 (Hnw s0) Hs) as (E1 & L1 & E2 & E3). unfold transfer.
  assert (wb_ack (slave_step b s0) = true) as Ea by (simpl; by rewrite Ha).
  rewrite Ea. exists (slave_step b s0).
  destruct (quiet_step b (slave_step b s0) (Hnw _) E2) as (F1 & L2 & F2 & F3). cbn [fst snd].
  assert (search_inv i (k + Z.of_nat g + 1) (sat (slave_step b s0))) as Hi1.
  { rewrite E3, Hw. apply search_step; [lia|done]. }
  split_and!; [done|done| |].
  - rewrite F3, E1, Hw. done.
  - split_and!; [congruence|done| |congruence|].
    + change (negb (wb_ack (slave_step b s0)) = false). by rewrite Ea.
    + rewrite F3, E1, Hw. replace (k + Z.of_nat g + 2) with (k + Z.of_nat g + 1 + 1) by lia.
      apply search_step; [lia|done].
Qed.

(** What a write does to the formula registers: nothing in the idle cycles and in
    the acknowledge cycle. *)
Lemma idle_regs g s :
  let s' := iter g (slave_step wb_idle) s in
  wb_ack s = false -> n_vars_r s' = n_vars_r s /\ n_clauses_r s' = n_clauses_r s /\
  lit_regs s' = lit_regs s /\ wb_ack s' = false.
Proof.
  intros s' Ha. subst s'. induction g as [|g IH]; [done|]. rewrite iter_S.
  destruct IH as (E1 & E2 & E3 & E4). by rewrite <- E1, <- E2, <- E3.
Qed.

Lemma write_regs g adr d s :
  wb_ack s = false ->
  let s' := (access g (wb_req true adr d) s).2 in
  wb_ack s' = false /\
  n_vars_r s' = (if adr =? 1 then d &c 15 else n_vars_r s) /\
  n_clauses_r s' = (if adr =? 2 then d &c 31 else n_clauses_r s) /\
  lit_regs s' = (if is_lit_adr adr then <[Z.to_nat (adr - LIT_BASE) := d &c 63]> (lit_regs s) else lit_regs s).
Proof.
  intros Ha. unfold access. destruct (idle_regs g s Ha) as (E1 & E2 & E3 & E4).
  set (s0 := iter g (slave_step wb_idle) s) in *. unfold transfer.
  assert (wb_ack (slave_step (wb_req true adr d) s0) = true) as Ea by (simpl; by rewrite E4).
  rewrite Ea. cbn [snd]. unfold slave_step at 1 3 5 7. cbn [wb_ack n_vars_r n_clauses_r lit_regs].
  assert (active_write (slave_step (wb_req true adr d) s0) (wb_req true adr d) = false) as ->
    by (unfold active_write; rewrite Ea; apply andb_false_r).
  cbn [andb]. rewrite Ea. simpl. unfold active_write. simpl. rewrite E4, E1, E2, E3. simpl. done.
Qed.

(** Writing 1 to the control register: the search has just been started on the
    formula in the registers, whatever the solver was doing before. *)
Lemma write_start g s :
  wb_ack s = false -> length (lit_regs s) = Z.to_nat LIT_COUNT ->
  let s' := (access g (wb_req true 0 1) s).2 in
  searching (wire s') 0 s' /\ n_vars_r s' = n_vars_r s /\ n_clauses_r s' = n_clauses_r s /\
  lit_regs s' = lit_regs s.
Proof.
  intros Ha Hlen s'. destruct (write_regs g 0 1 s Ha) as (Ea & En & Em & El). fold s' in Ea, En, Em, El.
  split_and!; [|done..]. subst s'. unfold access in *.
  destruct (idle_regs g s Ha) as (_ & _ & _ & E4).
  set (s0 := iter g (slave_step wb_idle) s) in *. unfold transfer in *.
  assert (wb_ack (slave_step (wb_req true 0 1) s0) = true) as Ea1 by (simpl; by rewrite E4).
  rewrite Ea1 in *. cbn [snd] in *. set (s1 := slave_step (wb_req true 0 1) s0) in *.
  assert (start_r s1 = true) as Hst by (unfold s1, slave_step, active_write; simpl; by rewrite E4).
  assert (active_write s1 (wb_req true 0 1) = false) as Hnw
    by (unfold active_write; rewrite Ea1; apply andb_false_r).
  assert (wire (slave_step (wb_req true 0 1) s1) = wire s1) as Ew
    by (unfold wire, slave_step; by rewrite Hnw).
  split_and!; [done| |done|by rewrite El|].
  - unfold slave_step. by rewrite Hnw, Hst.
  - rewrite Ew. change (sat (slave_step (wb_req true 0 1) s1)) with (solver_step (wire s1) (start_r s1) (sat s1)).
    rewrite Hst. apply search_start.
Qed.

(** Once done, the verdict registers stay as they are while the bus only reads. *)
Lemma done_frozen i k s : search_inv i k s -> done_r s = true -> solver_step i false s = s.
Proof.
  intros [(_ & Hd & _)|(Hr & _)] Hdone; [congruence|]. unfold solver_step. by rewrite Hr.
Qed.

Lemma frozen_gap i k g s :
  0 <= k -> searching i k s -> done_r (sat s) = true ->
  sat (iter g (slave_step wb_idle) s) = sat s.
Proof.
  intros Hk Hs Hd. induction g as [|g IH]; [done|]. rewrite iter_S.
  destruct (searching_gap i k g s Hk Hs) as (Hw & Hst & _ & _ & Hi).
  set (s0 := iter g (slave_step wb_idle) s) in *.
  destruct (quiet_step wb_idle s0) as (_ & _ & _ & ->); [done|done|]. rewrite Hw, IH in *.
  by eapply done_frozen.
Qed.

Lemma frozen_read i k g adr s :
  0 <= k -> searching i k s -> done_r (sat s) = true ->
  let r := access g (wb_req false adr 0) s in
  r.1 = wb_dat_r s adr /\ sat r.2 = sat s /\ searching i (k + Z.of_nat g + 2) r.2.
Proof.
  intros Hk Hs Hd r. destruct (searching_read i k g adr s Hk Hs) as (s1 & _ & _ & _ & Hr).
  pose proof (frozen_gap i k g s Hk Hs Hd) as E0. destruct (searching_gap i k g s Hk Hs) as (Hw & Hst & Ha & _ & Hi).
  subst r. unfold access in *. set (s0 := iter g (slave_step wb_idle) s) in *.
  unfold transfer in *. set (b := wb_req false adr 0) in *.
  assert (wb_ack (slave_step b s0) = true) as Ea by (simpl; by rewrite Ha). rewrite Ea in *. cbn [fst snd] in *.
  destruct (quiet_step b s0) as (E1 & _ & E2 & E3); [done|done|].
  destruct (quiet_step b (slave_step b s0)) as (_ & _ & _ & E4); [done|done|].
  rewrite E0 in Hi, E3. rewrite Hw, (done_frozen i _ (sat s) Hi Hd) in E3.
  rewrite E1, Hw, E3, (done_frozen i _ (sat s) Hi Hd) in E4.
  split_and!; [|done|done]. unfold wb_dat_r. by rewrite E3.
Qed.
