(* ===== verification/TcpApi.v ===== *)
(** * The TCP interface of the applications

    What sat_tcp.c and echo_tcp.c call of the TCP core (include/lwip/tcp.h): the
    operations work on the packet buffers and on a state [T] of the TCP core. The
    applications are proved against this interface; [TcpLaws] states what they rely
    on of it. *)

From S2P Require Import Prelude Memp Pbuf PbufSpec PbufData.
From stdpp Require Import base numbers list gmap.
Open Scope Z_scope.

Definition TCP_WRITE_FLAG_COPY : Z := 1.
Definition TCP_MSS : Z := 1460.

Class TcpApi (H T : Type) := {
  tcp_close : Z -> M (net H * T) Z;
  tcp_recved : Z -> Z -> M (net H * T) unit;
  tcp_write : Z -> list Z -> Z -> M (net H * T) Z;
  tcp_output : Z -> M (net H * T) Z
}.

(** The documented behaviour of the calls that the applications make while they
    still hold a received chain: the calls return, and what they do to other packet
    buffers leaves the caller's chain and its bytes alone. *)
Class TcpLaws (pools : memp_t -> memp_desc) (H T : Type) `{!Heap H, !HeapLaws pools H, !TcpApi H T} : Prop := {
  tcp_recved_law : forall pcb n s t fl hl p l d, net_inv pools s fl hl ->
    is_chain (n_pbufs s) p l -> chain_data (n_mem s) l = Some d ->
    exists s' t' fl' hl', tcp_recved pcb n (s, t) = Ok (tt, (s', t')) /\ net_inv pools s' fl' hl' /\
      is_chain (n_pbufs s') p l /\ chain_data (n_mem s') l = Some d;
  tcp_write_law : forall pcb x f s t fl hl p l d, net_inv pools s fl hl ->
    is_chain (n_pbufs s) p l -> chain_data (n_mem s) l = Some d ->
    exists e s' t' fl' hl', tcp_write pcb x f (s, t) = Ok (e, (s', t')) /\ net_inv pools s' fl' hl' /\
      is_chain (n_pbufs s') p l /\ chain_data (n_mem s') l = Some d
}.

(** An idle TCP core that accepts everything: the data written, in order. *)
Global Instance log_api H : TcpApi H (list (list Z)) := {
  tcp_close := fun _ => mret ERR_OK;
  tcp_recved := fun _ _ => mret tt;
  tcp_write := fun _ x _ '(s, t) => Ok (ERR_OK, (s, t ++ [x]));
  tcp_output := fun _ => mret ERR_OK }.

Global Instance log_laws pools H `{!Heap H, !HeapLaws pools H} : TcpLaws pools H (list (list Z)).
Proof. split; intros; simpl; eauto 10. Qed.

(** ** Application state

    The state an application's firmware works on: the packet buffers, the TCP core,
    the device [D] it drives, the number of bus transfers so far and the LED
    register. *)
Record fw (H T D : Type) := mk_app {
  a_net : net H; a_tcp : T; a_dev : D; a_bus : nat; a_leds : Z }.
Arguments mk_app {H T D}.
Arguments a_net {H T D}.
Arguments a_tcp {H T D}.
Arguments a_dev {H T D}.
Arguments a_bus {H T D}.
Arguments a_leds {H T D}.

Section App.
Context {H T D : Type} `{HH : !Heap H} `{HT : !TcpApi H T}.
Implicit Types w : fw H T D.

Definition set_dev (d : D) (n : nat) w : fw H T D := mk_app (a_net w) (a_tcp w) d n (a_leds w).

Definition lift_net {A} (m : M (net H) A) : M (fw H T D) A := fun w =>
  match m (a_net w) with
  | Ok (a, s) => Ok (a, mk_app s (a_tcp w) (a_dev w) (a_bus w) (a_leds w))
  | AssertFail => AssertFail | Fault => Fault | NoFuel => NoFuel
  end.
Definition lift_tcp {A} (m : M (net H * T) A) : M (fw H T D) A := fun w =>
  match m (a_net w, a_tcp w) with
  | Ok (a, (s, t)) => Ok (a, mk_app s t (a_dev w) (a_bus w) (a_leds w))
  | AssertFail => AssertFail | Fault => Fault | NoFuel => NoFuel
  end.

(** [debug_leds_out_write(debug_leds_out_read() | x)] and [... & ~x] *)
Definition leds_or (x : Z) : M (fw H T D) unit :=
  modify (fun w => mk_app (a_net w) (a_tcp w) (a_dev w) (a_bus w) (Z.lor (a_leds w) x)).
Definition leds_clear (x : Z) : M (fw H T D) unit :=
  modify (fun w => mk_app (a_net w) (a_tcp w) (a_dev w) (a_bus w) (Z.land (a_leds w) (not32 x))).

Lemma set_dev_twice d n d' n' w : set_dev d n (set_dev d' n' w) = set_dev d n w.
Proof. done. Qed.

Lemma lift_net_ok {A} (m : M (net H) A) w a s :
  m (a_net w) = Ok (a, s) ->
  lift_net m w = Ok (a, mk_app s (a_tcp w) (a_dev w) (a_bus w) (a_leds w)).
Proof. intros E. unfold lift_net. by rewrite E. Qed.

Lemma lift_net_pure {A} (m : M (net H) A) w a : m (a_net w) = Ok (a, a_net w) -> lift_net m w = Ok (a, w).
Proof. intros E. rewrite (lift_net_ok m w a (a_net w) E). by destruct w. Qed.

Lemma lift_tcp_ok {A} (m : M (net H * T) A) w a s t :
  m (a_net w, a_tcp w) = Ok (a, (s, t)) ->
  lift_tcp m w = Ok (a, mk_app s t (a_dev w) (a_bus w) (a_leds w)).
Proof. intros E. unfold lift_tcp. by rewrite E. Qed.
End App.
