(* ===== verification/SatTcp.v ===== *)
(** * The SAT server: firmware-tcp/sat_tcp.c, with the client's host/sat_host.py

    The receive callback as a program over the packet buffers, the TCP core and the
    accelerator, which it drives one bus transfer at a time with arbitrary idle
    cycles in between; the host's encoder and decoder; and the theorem that the
    answer the host decodes is the truth about the formula it encoded. *)

From S2P Require Import Prelude Memp Pbuf PbufSpec PbufData SatSolver TcpApi.
From stdpp Require Import base numbers list gmap.
Open Scope Z_scope.
Open Scope c_scope.

(** ** The host (host/sat_host.py) *)

Definition PROTO_START : Z := 170.
Definition PROTO_END : Z := 255.
Definition PROTO_TERM : Z := 0.
Definition RESP_SAT : Z := 1.
Definition RESP_UNSAT : Z := 0.

Definition lit_byte (lit : Z) : Z :=
  if 0 <? lit then lit &c 127 else ((- lit) &c 127) |c 128.

Definition encode_packet (n_vars : Z) (clauses : list (list Z)) : list Z :=
  [PROTO_START; n_vars &c 255; (Z.of_nat (length clauses)) &c 255] ++
  concat ((fun clause => (lit_byte <$> clause) ++ [PROTO_TERM]) <$> clauses) ++ [PROTO_END].

(** The result dictionary: the assignment maps variable numbers to values. *)
Inductive result := TIMEOUT | UNSAT | SAT (assignment : gmap Z bool) | ERROR (raw : list Z).

Fixpoint decode_assignment (data : list Z) (acc : gmap Z bool) : gmap Z bool :=
  match data with
  | [] => acc
  | b :: data' =>
      if b =? PROTO_END then acc
      else decode_assignment data' (<[b &c 127 := negb (((b >>c 7) &c 1) =? 0)]> acc)
  end.

Definition decode_response (data : list Z) : result :=
  match data with
  | [] => TIMEOUT
  | r :: rest =>
      if r =? RESP_UNSAT then UNSAT
      else if r =? RESP_SAT then SAT (decode_assignment rest ∅)
      else ERROR data
  end.

(** ** The firmware *)

Definition SAT_CTRL : Z := 0.
Definition SAT_NVARS : Z := 1.
Definition SAT_NCLAUSES : Z := 2.
Definition SAT_MODEL : Z := 3.
Definition SAT_LIT_BASE : Z := 8.

Section Firmware.
Context {H T : Type} `{HH : !Heap H} `{HT : !TcpApi H T}.
(** The idle cycles before the [n]-th bus transfer. *)
Context (gap : nat -> nat).

(** [sat_reg[off] = v] and [sat_reg[off]] *)
Definition sat_write (off v : Z) : M (fw H T slave) unit := fun w =>
  Ok (tt, set_dev (access (gap (a_bus w)) (wb_req true off v) (a_dev w)).2 (S (a_bus w)) w).
Definition sat_read (off : Z) : M (fw H T slave) Z := fun w =>
  let r := access (gap (a_bus w)) (wb_req false off 0) (a_dev w) in
  Ok (r.1, set_dev r.2 (S (a_bus w)) w).

(** [memcpy(buf + total, q->payload, copy)]: the bytes appended to [buf]. *)
Definition load_bytes (a n : Z) : M (net H) (list Z) := fun s =>
  deref (load (n_mem s) a (Z.to_nat n)) s.

(** The bytes of [buf] written so far; [total] is their number. *)
Fixpoint flatten (fuel : nat) (q : Z) (buf : list Z) : M (net H) (list Z) :=
  match fuel with
  | O => nofuel
  | S fuel' =>
      if q =? NULL then mret buf
      else
        b ← rd q;
        let total := Z.of_nat (length buf) in
        let copy := if 512 <? total + len b then 512 - total else len b in
        x ← load_bytes (payload b) copy;
        let buf := buf ++ x in
        if 512 <=? Z.of_nat (length buf) then mret buf else flatten fuel' (next b) buf
  end.

Fixpoint clear_lits (k : nat) (i : Z) : M (fw H T slave) unit :=
  match k with
  | O => mret tt
  | S k' => sat_write (SAT_LIT_BASE + i) 0;; clear_lits k' (i + 1)
  end.

Definition lit_word (b : Z) : Z :=
  let var := u8 ((b &c 127) - 1) in
  let neg := (b >>c 7) &c 1 in
  (1 <<c 5) |c (neg <<c 4) |c var.

Fixpoint parse (l : list Z) (n_clauses clause lit : Z) : M (fw H T slave) unit :=
  match l with
  | [] => mret tt
  | b :: l' =>
      if clause <? n_clauses then
        if b =? PROTO_END then mret tt
        else if b =? PROTO_TERM then parse l' n_clauses (clause + 1) 0
        else if lit <? Z.of_nat CLAUSE_LEN then
          sat_write (SAT_LIT_BASE + clause * Z.of_nat CLAUSE_LEN + lit) (lit_word b);;
          parse l' n_clauses clause (lit + 1)
        else parse l' n_clauses clause lit
      else mret tt
  end.

(** [while (!(sat_reg[SAT_CTRL] & 1));] *)
Fixpoint poll (fuel : nat) : M (fw H T slave) unit :=
  match fuel with
  | O => nofuel
  | S fuel' =>
      r ← sat_read SAT_CTRL;
      if (r &c 1) =? 0 then poll fuel' else mret tt
  end.

Definition response (is_sat : bool) (n_vars : nat) (model : Z) : list Z :=
  if is_sat then
    [RESP_SAT] ++
    ((fun i : nat => u8 ((((model >>c Z.of_nat i) &c 1) <<c 7) |c ((Z.of_nat i + 1) &c 127))) <$> seq 0 n_vars) ++
    [PROTO_END]
  else [RESP_UNSAT; PROTO_END].

(** The accelerator's part of [sat_recv]: the formula in, the answer out. *)
Definition solve (buf : list Z) (n_vars n_clauses : Z) : M (fw H T slave) (list Z) :=
  clear_lits (MAX_CLAUSES * CLAUSE_LEN) 0;;
  parse (drop 3 buf) n_clauses 0 0;;
  sat_write SAT_NVARS n_vars;;
  sat_write SAT_NCLAUSES n_clauses;;
  sat_write SAT_CTRL 1;;
  poll 1100;;
  ctrl ← sat_read SAT_CTRL;
  model ← sat_read SAT_MODEL;
  mret (response (negb (((ctrl >>c 1) &c 1) =? 0)) (Z.to_nat n_vars) model).

Definition sat_recv (pcb p err : Z) : M (fw H T slave) Z :=
  if negb (err =? ERR_OK) || (p =? NULL) then
    lift_tcp (tcp_close pcb);;
    (if negb (p =? NULL) then lift_net (pbuf_free p) else mret 0);;
    mret ERR_OK
  else
    leds_or 4;;
    fuel ← lift_net chain_fuel;
    buf ← lift_net (flatten fuel p []);
    b ← lift_net (rd p);
    lift_tcp (tcp_recved pcb (tot_len b));;
    lift_net (pbuf_free p);;
    if (Z.of_nat (length buf) <? 4) || negb (nth 0 buf 0 =? PROTO_START) then mret ERR_OK
    else
      let n_vars := nth 1 buf 0 in
      let n_clauses := nth 2 buf 0 in
      if (n_vars =? 0) || (MAX_VARS <? n_vars) || (n_clauses =? 0) || (Z.of_nat MAX_CLAUSES <? n_clauses)
      then mret ERR_OK
      else
        resp ← solve buf n_vars n_clauses;
        lift_tcp (tcp_write pcb resp TCP_WRITE_FLAG_COPY);;
        lift_tcp (tcp_output pcb);;
        leds_or 8;;
        mret ERR_OK.

(** [sat_accept]: the callback to install, if the connection is accepted. *)
Definition sat_accept (new_pcb err : Z) : M (fw H T slave) (Z * option Z) :=
  if negb (err =? ERR_OK) || (new_pcb =? NULL) then mret (ERR_VAL, None)
  else mret (ERR_OK, Some new_pcb).
End Firmware.

(** ** The accelerator, driven by the firmware *)

(** The bus is free and the register file is there. *)
Definition dev_idle (d : slave) : Prop := wb_ack d = false /\ length (lit_regs d) = 200%nat.

Lemma nth_insert (l : list Z) i j x :
  (i < length l)%nat -> nth j (<[i := x]> l) 0 = if decide (i = j) then x else nth j l 0.
Proof.
  intros Hi. rewrite !nth_lookup. destruct (decide (i = j)) as [->|Hne].
  - by rewrite list_lookup_insert_eq.
  - by rewrite list_lookup_insert_ne.
Qed.

Definition clause_word (x : Z) : Z := lit_word (lit_byte x) &c 63.

(** The literals the host can send for [n] variables. *)
Definition lit_ok (n x : Z) : Prop := 1 <= Z.abs x <= n.

Lemma lit_range x : lit_ok 10 x ->
  x ∈ [-10; -9; -8; -7; -6; -5; -4; -3; -2; -1; 1; 2; 3; 4; 5; 6; 7; 8; 9; 10].
Proof.
  unfold lit_ok. intros Hx. rewrite !elem_of_cons.
  assert (x = -10 \/ x = -9 \/ x = -8 \/ x = -7 \/ x = -6 \/ x = -5 \/ x = -4 \/ x = -3 \/ x = -2 \/
    x = -1 \/ x = 1 \/ x = 2 \/ x = 3 \/ x = 4 \/ x = 5 \/ x = 6 \/ x = 7 \/ x = 8 \/ x = 9 \/ x = 10) by lia.
  tauto.
Qed.

(** The byte of a literal is no marker, and its register holds the variable, the
    sign and the used bit. *)
Lemma lit_codec x : lit_ok 10 x ->
  lit_byte x <> PROTO_END /\ lit_byte x <> PROTO_TERM /\ is_u8 (lit_byte x) /\
  clause_word x &c 15 = Z.abs x - 1 /\ Z.testbit (clause_word x) 4 = (x <? 0) /\
  Z.testbit (clause_word x) 5 = true.
Proof.
  intros Hx%lit_range.
  assert (Forall (fun x => lit_byte x <> PROTO_END /\ lit_byte x <> PROTO_TERM /\ is_u8 (lit_byte x) /\
    clause_word x &c 15 = Z.abs x - 1 /\ Z.testbit (clause_word x) 4 = (x <? 0) /\
    Z.testbit (clause_word x) 5 = true)
    [-10; -9; -8; -7; -6; -5; -4; -3; -2; -1; 1; 2; 3; 4; 5; 6; 7; 8; 9; 10]) as Hall.
  { repeat (apply Forall_cons; split;
      [split_and!; vm_compute; (reflexivity || discriminate || (split; (reflexivity || discriminate)))|]).
    constructor. }
  rewrite Forall_forall in Hall. by apply Hall.
Qed.

Section Drive.
Context {H T : Type} `{HH : !Heap H} `{HT : !TcpApi H T} (gap : nat -> nat).
Implicit Types w : fw H T slave.

Lemma sat_write_spec off v w :
  dev_idle (a_dev w) ->
  exists d n, sat_write gap off v w = Ok (tt, set_dev d n w) /\ dev_idle d /\
    n_vars_r d = (if off =? 1 then v &c 15 else n_vars_r (a_dev w)) /\
    n_clauses_r d = (if off =? 2 then v &c 31 else n_clauses_r (a_dev w)) /\
    lit_regs d = (if is_lit_adr off then <[Z.to_nat (off - LIT_BASE) := v &c 63]> (lit_regs (a_dev w))
                  else lit_regs (a_dev w)).
Proof.
  intros (Ha & Hl). destruct (write_regs (gap (a_bus w)) off v (a_dev w) Ha) as (E1 & E2 & E3 & E4).
  eexists _, _. split; [reflexivity|]. split; [split; [exact E1|]|exact (conj E2 (conj E3 E4))].
  etrans; [apply (f_equal length E4)|]. destruct (is_lit_adr off); [by rewrite length_insert|done].
Qed.

(** A write to literal register [i]. *)
Lemma sat_write_lit i v w :
  dev_idle (a_dev w) -> 0 <= i < 200 ->
  exists d n, sat_write gap (SAT_LIT_BASE + i) v w = Ok (tt, set_dev d n w) /\ dev_idle d /\
    forall j, nth j (lit_regs d) 0 = if decide (Z.to_nat i = j) then v &c 63 else nth j (lit_regs (a_dev w)) 0.
Proof.
  intros Hd Hi. destruct (sat_write_spec (SAT_LIT_BASE + i) v w Hd) as (d & n & E & Hd' & _ & _ & El).
  exists d, n. split_and!; [done|exact Hd'|]. intros j. rewrite El.
  assert (is_lit_adr (SAT_LIT_BASE + i) = true) as ->.
  { unfold is_lit_adr, SAT_LIT_BASE, LIT_BASE, LIT_COUNT. lia. }
  unfold SAT_LIT_BASE, LIT_BASE. replace (8 + i - 8) with i by lia. apply nth_insert.
  destruct Hd as [_ ->]. lia.
Qed.

Lemma clear_lits_spec k : forall i w,
  dev_idle (a_dev w) -> 0 <= i -> i + Z.of_nat k <= 200 ->
  exists d n, clear_lits gap k i w = Ok (tt, set_dev d n w) /\ dev_idle d /\
    forall j, nth j (lit_regs d) 0 =
      if decide (i <= Z.of_nat j < i + Z.of_nat k) then 0 else nth j (lit_regs (a_dev w)) 0.
Proof.
  induction k as [|k IH]; intros i w Hd Hi Hk.
  - exists (a_dev w), (a_bus w). split_and!; [by destruct w|exact Hd|].
    intros j. by rewrite decide_False by lia.
  - destruct (sat_write_lit i 0 w Hd) as (d & n & E & Hd' & Hl); [lia|].
    destruct (IH (i + 1) (set_dev d n w) Hd') as (d' & n' & E' & Hd'' & Hl'); [lia|lia|].
    exists d', n'. cbn [clear_lits]. rewrite (bind_ok _ _ _ _ _ E). split_and!; [exact E'|exact Hd''|].
    intros j. rewrite Hl'. simpl a_dev. rewrite Hl. change (0 &c 63) with 0.
    repeat case_decide; lia || done.
Qed.

(** One clause: its literals go to consecutive registers. *)
Lemma parse_clause_spec cl : forall rest nc c lit w,
  dev_idle (a_dev w) -> Forall (lit_ok 10) cl -> 0 <= c < nc -> nc <= 20 ->
  0 <= lit -> lit + Z.of_nat (length cl) <= 10 ->
  exists d n, parse gap ((lit_byte <$> cl) ++ PROTO_TERM :: rest) nc c lit w =
      parse gap rest nc (c + 1) 0 (set_dev d n w) /\ dev_idle d /\
    forall j, nth j (lit_regs d) 0 =
      if decide (c * 10 + lit <= Z.of_nat j)
      then match cl !! (j - Z.to_nat (c * 10 + lit))%nat with
           | Some x => clause_word x
           | None => nth j (lit_regs (a_dev w)) 0
           end
      else nth j (lit_regs (a_dev w)) 0.
Proof.
  induction cl as [|x cl IH]; intros rest nc c lit w Hd Hok Hc Hnc Hl Hlen; cbn [fmap list_fmap Datatypes.app parse].
  - exists (a_dev w), (a_bus w). destruct (Z.ltb_spec c nc); [|lia].
    change (PROTO_TERM =? PROTO_END) with false. rewrite Z.eqb_refl.
    split_and!; [by destruct w|exact Hd|]. intros j. rewrite lookup_nil. by case_decide.
  - apply Forall_cons in Hok as [Hx Hok]. destruct (lit_codec x Hx) as (Hne & Hnt & _).
    apply Z.eqb_neq in Hne, Hnt. rewrite Hne, Hnt. destruct (Z.ltb_spec c nc); [|lia].
    change (Z.of_nat CLAUSE_LEN) with 10. simpl in Hlen. destruct (Z.ltb_spec lit 10); [|lia].
    destruct (sat_write_lit (c * 10 + lit) (lit_word (lit_byte x)) w Hd) as (d & n & E & Hd' & Hr); [lia|].
    rewrite <- Z.add_assoc, (bind_ok _ _ _ _ _ E).
    destruct (IH rest nc c (lit + 1) (set_dev d n w) Hd' Hok Hc Hnc) as (d' & n' & E' & Hd'' & Hr'); [lia|lia|].
    exists d', n'. split_and!; [exact E'|exact Hd''|]. intros j. rewrite Hr'. simpl a_dev. rewrite Hr.
    fold (clause_word x). destruct (decide (Z.to_nat (c * 10 + lit) = j)) as [<-|Hj].
    + rewrite decide_False by lia. rewrite decide_True by lia.
      by replace (Z.to_nat (c * 10 + lit) - Z.to_nat (c * 10 + lit))%nat with 0%nat by lia.
    + case_decide.
      * rewrite decide_True by lia.
        replace (j - Z.to_nat (c * 10 + lit))%nat with (S (j - Z.to_nat (c * 10 + (lit + 1))))%nat by lia. done.
      * by rewrite decide_False by lia.
Qed.

(** All clauses: register [c * 10 + l] holds literal [l] of clause [c]. *)
Lemma parse_clauses_spec cls : forall nc c w,
  dev_idle (a_dev w) -> Forall (fun cl => Forall (lit_ok 10) cl /\ (length cl <= 10)%nat) cls ->
  0 <= c -> c + Z.of_nat (length cls) = nc -> nc <= 20 ->
  exists d n, parse gap (concat ((fun cl => (lit_byte <$> cl) ++ [PROTO_TERM]) <$> cls) ++ [PROTO_END]) nc c 0 w =
      Ok (tt, set_dev d n w) /\ dev_idle d /\
    forall c' l, (l < 10)%nat -> nth (c' * 10 + l) (lit_regs d) 0 =
      if decide (c <= Z.of_nat c') then
        match cls !! (c' - Z.to_nat c)%nat ≫= (.!! l) with
        | Some x => clause_word x
        | None => nth (c' * 10 + l) (lit_regs (a_dev w)) 0
        end
      else nth (c' * 10 + l) (lit_regs (a_dev w)) 0.
Proof.
  induction cls as [|cl cls IH]; intros nc c w Hd Hok Hc Hlen Hnc.
  - exists (a_dev w), (a_bus w). simpl in Hlen. split_and!; [|exact Hd|].
    + cbn [fmap list_fmap concat Datatypes.app parse]. destruct (Z.ltb_spec c nc); [lia|by destruct w].
    + intros c' l Hl. rewrite lookup_nil. by case_decide.
  - apply Forall_cons in Hok as [[Hcl Hcl'] Hok]. simpl in Hlen.
    cbn [fmap list_fmap concat]. rewrite <- !app_assoc. cbn [Datatypes.app].
    destruct (parse_clause_spec cl (concat ((fun cl => (lit_byte <$> cl) ++ [PROTO_TERM]) <$> cls) ++ [PROTO_END])
      nc c 0 w Hd Hcl) as (d & n & E & Hd' & Hr); [lia..|].
    destruct (IH nc (c + 1) (set_dev d n w) Hd' Hok) as (d' & n' & E' & Hd'' & Hr'); [lia..|].
    exists d', n'. split_and!; [by rewrite E, E'|exact Hd''|]. intros c' l Hl. rewrite Hr' by done.
    simpl a_dev. rewrite !Hr, Z.add_0_r. destruct (decide (Z.to_nat c = c')) as [<-|Hne].
    + rewrite decide_False, decide_True by lia. rewrite decide_True by lia.
      replace (Z.to_nat c - Z.to_nat c)%nat with 0%nat by lia.
      replace (Z.to_nat c * 10 + l - Z.to_nat (c * 10))%nat with l by lia. done.
    + destruct (decide (c <= Z.of_nat c')).
      * rewrite !decide_True by lia.
        rewrite (lookup_ge_None_2 cl) by lia.
        replace (c' - Z.to_nat c)%nat with (S (c' - Z.to_nat (c + 1)))%nat by lia. done.
      * rewrite !decide_False by lia. done.
Qed.

Lemma ctrl_bits (x : solver) (s : slave) :
  sat s = x -> ((wb_dat_r s SAT_CTRL &c 1) =? 0) = negb (done_r x) /\
  negb ((wb_dat_r s SAT_CTRL >>c 1) &c 1 =? 0) = sat_r x.
Proof.
  intros <-. unfold wb_dat_r. change (SAT_CTRL =? 0) with true.
  destruct (done_r (sat s)), (sat_r (sat s)); done.
Qed.

(** The wait loop ends when the search does: every turn of it takes at least two
    cycles, so [max_assign] cycles bound the number of turns. *)
Lemma poll_spec i fuel : forall k w,
  0 <= k -> searching i k (a_dev w) -> max_assign i < k + 2 * Z.of_nat fuel + 1 ->
  exists d n k', poll gap (S fuel) w = Ok (tt, set_dev d n w) /\ 0 <= k' /\ searching i k' d /\
    done_r (sat d) = true.
Proof.
  induction fuel as [|fuel IH]; intros k w Hk Hs Hf;
    destruct (searching_read i k (gap (a_bus w)) SAT_CTRL (a_dev w) Hk Hs) as (s1 & Hi1 & Er & Esat & Hs');
    set (r := access (gap (a_bus w)) (wb_req false SAT_CTRL 0) (a_dev w)) in *;
    cbn [poll]; rewrite (bind_ok (sat_read gap SAT_CTRL) _ w r.1 (set_dev r.2 (S (a_bus w)) w)) by done;
    rewrite Er; rewrite (proj1 (ctrl_bits (sat s1) s1 eq_refl)); destruct (done_r (sat s1)) eqn:Ed; cbn [negb].
  1, 3: eexists _, _, _; split; [reflexivity|]; split_and!; [|exact Hs'|]; [lia|];
    by rewrite Esat, (done_frozen i _ _ Hi1 Ed).
  - destruct Hi1 as [(_ & _ & _ & _ & ? & _)|(_ & ? & _)]; [lia|congruence].
  - destruct (IH (k + Z.of_nat (gap (a_bus w)) + 2) (set_dev r.2 (S (a_bus w)) w) ltac:(lia) Hs') as (d & n & k' & E & Hk' & Hs'' & Hd); [lia|].
    exists d, n, k'. split_and!; [exact E|done|done|done].
Qed.
End Drive.

(** ** Formulas *)

(** [v] satisfies every clause: some literal of it has the value its sign asks for. *)
Definition models (v : Z -> bool) (clauses : list (list Z)) : Prop :=
  Forall (fun cl => Exists (fun x => v (Z.abs x) = (0 <? x)) cl) clauses.

Definition satisfiable (clauses : list (list Z)) : Prop := exists v, models v clauses.

(** What the protocol and the accelerator can express. *)
Definition formula_ok (n : Z) (clauses : list (list Z)) : Prop :=
  1 <= n <= MAX_VARS /\ (1 <= length clauses <= MAX_CLAUSES)%nat /\
  Forall (fun cl => Forall (lit_ok n) cl /\ (length cl <= CLAUSE_LEN)%nat) clauses.

(** The registers hold the formula. *)
Definition holds_formula (n : Z) (clauses : list (list Z)) (i : sat_in) : Prop :=
  n_vars i = n /\ n_clauses i = Z.of_nat (length clauses) /\
  forall c l, (l < 10)%nat ->
    match clauses !! c ≫= (.!! l) with
    | Some x => lit_var i c l = Z.abs x - 1 /\ lit_neg i c l = (x <? 0) /\ lit_used i c l = true
    | None => lit_used i c l = false
    end.

Lemma lit_val_spec n clauses i a c l :
  holds_formula n clauses i -> Forall (fun cl => Forall (lit_ok n) cl /\ (length cl <= 10)%nat) clauses ->
  (l < 10)%nat ->
  lit_val i a c l = match clauses !! c ≫= (.!! l) with
                    | Some x => bool_decide (Z.testbit a (Z.abs x - 1) = (0 <? x))
                    | None => false
                    end.
Proof.
  intros (_ & _ & Hr) Hok Hl. specialize (Hr c l Hl). unfold lit_val.
  destruct (clauses !! c ≫= (.!! l)) as [x|] eqn:Ex; [|by rewrite Hr, andb_false_r].
  destruct Hr as (-> & -> & ->). apply bind_Some in Ex as (cl & Ecl & Ex).
  rewrite Forall_lookup in Hok. destruct (Hok c cl Ecl) as [Hcl _]. rewrite Forall_lookup in Hcl.
  specialize (Hcl l x Ex). unfold lit_ok in Hcl. rewrite andb_true_r.
  destruct (Z.ltb_spec x 0), (Z.ltb_spec 0 x); try lia; by destruct (Z.testbit a (Z.abs x - 1)).
Qed.

(** The combinational check of the hardware is the truth of the formula. *)
Lemma all_sat_models n clauses i a :
  holds_formula n clauses i -> formula_ok n clauses ->
  all_sat i a = true <-> models (fun v => Z.testbit a (v - 1)) clauses.
Proof.
  intros Hi (Hn & Hc & Hok). unfold all_sat, models. rewrite forallb_forall, Forall_lookup.
  pose proof Hi as (_ & En & _). unfold MAX_CLAUSES, CLAUSE_LEN in *. split.
  - intros Hall c cl Ecl. pose proof (lookup_lt_Some _ _ _ Ecl) as Hlt.
    specialize (Hall c ltac:(apply in_seq; lia)).
    rewrite En, orb_true_iff in Hall. destruct Hall as [Hall|Hall%Z.leb_le]; [|lia].
    apply existsb_exists in Hall as (l & Hl%in_seq & Hv). simpl in Hl.
    rewrite (lit_val_spec n clauses i a c l Hi Hok) in Hv by (unfold CLAUSE_LEN in *; lia).
    rewrite Ecl in Hv. simpl in Hv. destruct (cl !! l) as [x|] eqn:Ex; [|done].
    apply bool_decide_eq_true in Hv. apply Exists_exists. exists x. split; [|done].
    by eapply list_elem_of_lookup_2.
  - intros Hall c Hc'%in_seq. rewrite En, orb_true_iff.
    destruct (clauses !! c) as [cl|] eqn:Ecl; [left|right; apply Z.leb_le; apply lookup_ge_None_1 in Ecl; lia].
    apply existsb_exists. specialize (Hall c cl Ecl). apply Exists_exists in Hall as (x & Hx & Hv).
    apply list_elem_of_lookup in Hx as (l & Ex). pose proof (lookup_lt_Some _ _ _ Ex).
    rewrite Forall_lookup in Hok. destruct (Hok c cl Ecl) as [_ Hlen].
    exists l. split; [apply in_seq; unfold CLAUSE_LEN; lia|].
    rewrite (lit_val_spec n clauses i a c l Hi); [|by apply Forall_lookup|lia].
    rewrite Ecl. simpl. rewrite Ex. by apply bool_decide_eq_true.
Qed.

(** The assignment register that stands for a valuation. *)
Fixpoint assignment_of (v : Z -> bool) (n : nat) : Z :=
  match n with
  | O => 0
  | S k => if v (Z.of_nat k + 1) then assignment_of v k + 2 ^ Z.of_nat k else assignment_of v k
  end.

Lemma assignment_of_range v n : 0 <= assignment_of v n < 2 ^ Z.of_nat n.
Proof.
  induction n as [|n IH]; [done|]. cbn [assignment_of]. rewrite Nat2Z.inj_succ, Z.pow_succ_r by lia.
  destruct (v (Z.of_nat n + 1)); lia.
Qed.

Lemma assignment_of_bit v n k :
  0 <= k < Z.of_nat n -> Z.testbit (assignment_of v n) k = v (k + 1).
Proof.
  induction n as [|n IH]; intros Hk; [lia|]. cbn [assignment_of].
  pose proof (assignment_of_range v n) as Hr. pose proof (Z.pow_pos_nonneg 2 (Z.of_nat n) ltac:(lia) ltac:(lia)).
  destruct (decide (k = Z.of_nat n)) as [->|Hne].
  - apply Z.b2z_inj. rewrite Z.testbit_spec' by lia. destruct (v (Z.of_nat n + 1)); simpl.
    + replace (assignment_of v n + 2 ^ Z.of_nat n) with (assignment_of v n + 1 * 2 ^ Z.of_nat n) by lia.
      rewrite Z.div_add, Z.div_small by lia. done.
    + rewrite Z.div_small by lia. done.
  - rewrite <- IH by lia. destruct (v (Z.of_nat n + 1)); [|done].
    rewrite <- (Z.mod_pow2_bits_low (_ + _) (Z.of_nat n)) by lia.
    rewrite <- (Z.mod_pow2_bits_low (assignment_of v n) (Z.of_nat n)) by lia. f_equal.
    replace (assignment_of v n + 2 ^ Z.of_nat n) with (assignment_of v n + 1 * 2 ^ Z.of_nat n) by lia.
    by rewrite Z.mod_add by lia.
Qed.

(** Valuations that agree on the variables of the formula satisfy it alike. *)
Lemma models_ext n clauses u v :
  Forall (fun cl => Forall (lit_ok n) cl /\ (length cl <= 10)%nat) clauses ->
  (forall k, 1 <= k <= n -> u k = v k) -> models u clauses -> models v clauses.
Proof.
  intros Hok He. unfold models. intros Hm. rewrite Forall_forall in Hok, Hm |- *. intros cl Hcl.
  destruct (Hok cl Hcl) as [Hx _]. specialize (Hm cl Hcl). rewrite Exists_exists in Hm |- *.
  destruct Hm as (x & Hin & E). exists x. split; [done|]. rewrite Forall_forall in Hx.
  rewrite <- He; [done|]. exact (Hx x Hin).
Qed.

(** ** The answer *)

(** The bytes of the response are read back as the bits of the model. *)
Lemma response_byte (bit : bool) (i : nat) : (i < 10)%nat ->
  let b := u8 ((Z.b2z bit <<c 7) |c ((Z.of_nat i + 1) &c 127)) in
  b <> PROTO_END /\ b &c 127 = Z.of_nat i + 1 /\ negb ((b >>c 7) &c 1 =? 0) = bit.
Proof.
  intros Hi. do 10 (destruct i as [|i]; [destruct bit; vm_compute; split_and!; (reflexivity || discriminate)|]).
  lia.
Qed.

Lemma model_bit model i : 0 <= i -> (model >>c i) &c 1 = Z.b2z (Z.testbit model i).
Proof. intros Hi. rewrite land_1, shiftr_div by done. symmetry. by apply Z.testbit_spec'. Qed.

Lemma decode_assignment_spec model k : forall j acc,
  (j + k <= 10)%nat ->
  decode_assignment (((fun i : nat => u8 ((((model >>c Z.of_nat i) &c 1) <<c 7) |c ((Z.of_nat i + 1) &c 127)))
     <$> seq j k) ++ [PROTO_END]) acc = foldl (fun m i => <[Z.of_nat i + 1 := Z.testbit model (Z.of_nat i)]> m) acc (seq j k).
Proof.
  induction k as [|k IH]; intros j acc Hk; [done|]. cbn [seq fmap list_fmap Datatypes.app decode_assignment foldl].
  rewrite model_bit by lia. destruct (response_byte (Z.testbit model (Z.of_nat j)) j) as (Hne & -> & ->); [lia|].
  apply Z.eqb_neq in Hne. rewrite Hne. apply IH. lia.
Qed.

Lemma foldl_assign_lookup model k : forall j (acc : gmap Z bool) v,
  foldl (fun m (i : nat) => <[Z.of_nat i + 1 := Z.testbit model (Z.of_nat i)]> m) acc (seq j k) !! v =
    if decide (Z.of_nat j < v <= Z.of_nat j + Z.of_nat k) then Some (Z.testbit model (v - 1)) else acc !! v.
Proof.
  induction k as [|k IH]; intros j acc v; cbn [seq foldl].
  - by rewrite decide_False by lia.
  - rewrite IH, lookup_insert. repeat case_decide; try lia; try done. subst v. do 2 f_equal. lia.
Qed.

Lemma decode_sat n model :
  1 <= n <= 10 -> exists m, decode_response (response true (Z.to_nat n) model) = SAT m /\
    forall v, m !! v = if decide (1 <= v <= n) then Some (Z.testbit model (v - 1)) else None.
Proof.
  intros Hn. eexists. split.
  - unfold response, decode_response. simpl. rewrite decode_assignment_spec by lia. reflexivity.
  - intros v. rewrite foldl_assign_lookup. simpl. repeat case_decide; lia || done.
Qed.

(** [resp] decodes to the truth about the formula. *)
Definition right_answer (n : Z) (clauses : list (list Z)) (resp : list Z) : Prop :=
  (length resp <= 13)%nat /\
  ((exists m, decode_response resp = SAT m /\ (forall k, 1 <= k <= n -> is_Some (m !! k)) /\
      models (fun k => default false (m !! k)) clauses) \/
   decode_response resp = UNSAT /\ ~ satisfiable clauses).

Lemma verdict_answer n clauses i s :
  holds_formula n clauses i -> formula_ok n clauses -> verdict i s ->
  right_answer n clauses (response (sat_r s) (Z.to_nat n) (model_r s)).
Proof.
  intros Hi Hf Hv. pose proof Hf as (Hn & _ & Hok). pose proof Hi as (En & _). unfold MAX_VARS in Hn. split.
  { unfold response. destruct (sat_r s); simpl; [|lia]. rewrite length_app, length_fmap, length_seq. simpl. lia. }
  unfold verdict in Hv. destruct (sat_r s); [left|right].
  - destruct (decode_sat n (model_r s) Hn) as (m & Em & Hm). exists m. split_and!; [done| |].
    + intros k Hk. rewrite Hm, decide_True by done. eauto.
    + apply (models_ext n _ (fun v => Z.testbit (model_r s) (v - 1))); [done| |].
      2: { apply (all_sat_models n clauses i _ Hi Hf), Hv. }
      intros k Hk. by rewrite Hm, decide_True.
  - split; [done|]. intros (v & Hm).
    assert (all_sat i (assignment_of v (Z.to_nat n)) = true) as Ha.
    { apply (all_sat_models n clauses i _ Hi Hf). apply (models_ext n _ v); [done| |done].
      intros k Hk. rewrite assignment_of_bit by lia. f_equal. lia. }
    pose proof (assignment_of_range v (Z.to_nat n)) as Hr. rewrite Z2Nat.id in Hr by lia.
    rewrite Hv in Ha; [done|]. rewrite max_assign_spec by lia. rewrite En. lia.
Qed.

Lemma encode_length n clauses : formula_ok n clauses -> (length (encode_packet n clauses) <= 512)%nat.
Proof.
  intros (_ & Hc & Hok). unfold encode_packet, MAX_CLAUSES, CLAUSE_LEN in *. rewrite !length_app. simpl.
  enough (length (concat ((fun cl => (lit_byte <$> cl) ++ [PROTO_TERM]) <$> clauses)) <= 11 * length clauses)%nat
    by lia.
  clear Hc. induction Hok as [|cl clauses [_ Hl] _ IH]; [simpl; lia|].
  cbn [fmap list_fmap concat]. rewrite !length_app, length_fmap. simpl in *. lia.
Qed.

Section Solve.
Context {H T : Type} `{HH : !Heap H} `{HT : !TcpApi H T} (gap : nat -> nat).
Implicit Types w : fw H T slave.

Lemma regs_hold_formula n clauses d :
  formula_ok n clauses -> n_vars_r d = n -> n_clauses_r d = Z.of_nat (length clauses) ->
  (forall c l, (l < 10)%nat -> nth (c * 10 + l) (lit_regs d) 0 =
     match clauses !! c ≫= (.!! l) with Some x => clause_word x | None => 0 end) ->
  holds_formula n clauses (wire d).
Proof.
  intros (Hn & _ & Hok) En Ec Hr. split_and!; [done|done|]. intros c l Hl. unfold wire, CLAUSE_LEN. simpl.
  rewrite Hr by done. destruct (clauses !! c ≫= (.!! l)) as [x|] eqn:Ex; [|done].
  apply bind_Some in Ex as (cl & Ecl & Ex). rewrite Forall_lookup in Hok.
  destruct (Hok c cl Ecl) as [Hcl _]. rewrite Forall_lookup in Hcl.
  assert (lit_ok 10 x) as Hx by (specialize (Hcl l x Ex); unfold lit_ok, MAX_VARS in *; lia).
  destruct (lit_codec x Hx) as (_ & _ & _ & ? & ? & ?). done.
Qed.

(** Start, wait, read: the verdict on the formula in the registers. *)
Lemma run_solver (nv : nat) w :
  dev_idle (a_dev w) ->
  exists d n x, (sat_write gap SAT_CTRL 1;; poll gap 1100;; ctrl ← sat_read gap SAT_CTRL;
      model ← sat_read gap SAT_MODEL;
      mret (response (negb (((ctrl >>c 1) &c 1) =? 0)) nv model)) w =
    Ok (response (sat_r x) nv (model_r x), set_dev d n w) /\ dev_idle d /\ verdict (wire (a_dev w)) x.
Proof.
  intros [Ha Hl]. set (k := a_bus w). destruct (write_start (gap k) (a_dev w) Ha Hl) as (Hs5 & Hn5 & Hc5 & Hl5).
  set (d5 := (access (gap k) (wb_req true 0 1) (a_dev w)).2) in *.
  assert (wire d5 = wire (a_dev w)) as Ew by (unfold wire; by rewrite Hn5, Hc5, Hl5). rewrite Ew in Hs5.
  rewrite (bind_ok (sat_write gap SAT_CTRL 1) _ _ tt (set_dev d5 (S k) w)) by done.
  destruct (poll_spec gap _ 1099 0 (set_dev d5 (S k) w) ltac:(lia) Hs5) as (d6 & k6 & t6 & E6 & Ht6 & Hs6 & Hd6);
    [pose proof (max_assign_range (wire (a_dev w))); lia|].
  rewrite (bind_ok _ _ _ _ _ E6), set_dev_twice.
  destruct (frozen_read _ t6 (gap k6) SAT_CTRL d6 Ht6 Hs6 Hd6) as (Er7 & Es7 & Hs7).
  set (r7 := access (gap k6) (wb_req false SAT_CTRL 0) d6) in *.
  rewrite (bind_ok (sat_read gap SAT_CTRL) _ _ r7.1 (set_dev r7.2 (S k6) w)) by done.
  destruct (frozen_read _ (t6 + Z.of_nat (gap k6) + 2) (gap (S k6)) SAT_MODEL r7.2 ltac:(lia) Hs7)
    as (Er8 & Es8 & (_ & _ & Ea8 & El8 & _)); [congruence|].
  set (r8 := access (gap (S k6)) (wb_req false SAT_MODEL 0) r7.2) in *.
  rewrite (bind_ok (sat_read gap SAT_MODEL) _ _ r8.1 (set_dev r8.2 (S (S k6)) w)) by done.
  exists r8.2, (S (S k6)), (sat d6). split_and!; [|exact (conj Ea8 El8)|].
  - rewrite Er7, (proj2 (ctrl_bits (sat d6) d6 eq_refl)), Er8. unfold wb_dat_r. simpl. by rewrite Es7.
  - destruct Hs6 as (_ & _ & _ & _ & [(_ & Hx & _)|(_ & _ & Hv)]); [congruence|done].
Qed.

Lemma solve_spec n clauses w :
  dev_idle (a_dev w) -> formula_ok n clauses ->
  exists d k resp, solve gap (encode_packet n clauses) n (Z.of_nat (length clauses)) w = Ok (resp, set_dev d k w) /\
    dev_idle d /\ right_answer n clauses resp.
Proof.
  intros Hd Hf. pose proof Hf as (Hn & Hc & Hok). unfold MAX_VARS, MAX_CLAUSES, CLAUSE_LEN in *.
  unfold solve, MAX_CLAUSES, CLAUSE_LEN.
  destruct (clear_lits_spec gap (20 * 10) 0 w Hd) as (d1 & k1 & E1 & Hd1 & Hr1); [lia|lia|].
  rewrite (bind_ok _ _ _ _ _ E1). change (drop 3 (encode_packet n clauses)) with
    (concat ((fun cl => (lit_byte <$> cl) ++ [PROTO_TERM]) <$> clauses) ++ [PROTO_END]).
  destruct (parse_clauses_spec gap clauses (Z.of_nat (length clauses)) 0 (set_dev d1 k1 w) Hd1)
    as (d2 & k2 & E2 & Hd2 & Hr2); [|lia..|].
  { eapply Forall_impl; [exact Hok|]. intros cl [Hcl ?]. split; [|done].
    eapply Forall_impl; [exact Hcl|]. unfold lit_ok. intros x ?. simpl in *. lia. }
  rewrite (bind_ok _ _ _ _ _ E2). rewrite set_dev_twice.
  destruct (sat_write_spec gap SAT_NVARS n (set_dev d2 k2 w) Hd2) as (d3 & k3 & E3 & Hd3 & Hn3 & Hc3 & Hl3).
  rewrite (bind_ok _ _ _ _ _ E3), set_dev_twice.
  destruct (sat_write_spec gap SAT_NCLAUSES (Z.of_nat (length clauses)) (set_dev d3 k3 w) Hd3)
    as (d4 & k4 & E4 & Hd4 & Hn4 & Hc4 & Hl4).
  rewrite (bind_ok _ _ _ _ _ E4), set_dev_twice.
  destruct (run_solver (Z.to_nat n) (set_dev d4 k4 w) Hd4) as (d & k & x & E & Hd' & Hv).
  exists d, k, (response (sat_r x) (Z.to_nat n) (model_r x)). split_and!; [exact E|exact Hd'|].
  apply (verdict_answer n clauses (wire d4)); [|done|exact Hv]. apply regs_hold_formula; [done|..].
  - etrans; [exact Hn4|]. etrans; [exact Hn3|].
    change (n &c 15 = n). change 15 with (2 ^ 4 - 1). rewrite land_ones_mod by lia. apply Z.mod_small. lia.
  - etrans; [exact Hc4|]. change (Z.of_nat (length clauses) &c 31 = Z.of_nat (length clauses)).
    change 31 with (2 ^ 5 - 1). rewrite land_ones_mod by lia. apply Z.mod_small. lia.
  - intros c l Hl. assert (lit_regs d4 = lit_regs d2) as -> by (etrans; [exact Hl4|]; exact Hl3).
    rewrite Hr2, decide_True by lia. simpl a_dev. rewrite Nat.sub_0_r, Hr1.
    destruct (clauses !! c ≫= (.!! l)) as [x'|]; [done|].
    case_decide; [done|]. apply nth_overflow. destruct Hd as [_ ->]. lia.
Qed.

(** ** Any packet *)

Lemma parse_total l : forall nc c lit w,
  dev_idle (a_dev w) -> exists d n, parse gap l nc c lit w = Ok (tt, set_dev d n w) /\ dev_idle d.
Proof.
  induction l as [|b l IH]; intros nc c lit w Hd; cbn [parse].
  - exists (a_dev w), (a_bus w). split; [by destruct w|done].
  - destruct (c <? nc); [|exists (a_dev w), (a_bus w); split; [by destruct w|done]].
    destruct (b =? PROTO_END); [exists (a_dev w), (a_bus w); split; [by destruct w|done]|].
    destruct (b =? PROTO_TERM); [by apply IH|].
    destruct (lit <? Z.of_nat CLAUSE_LEN); [|by apply IH].
    destruct (sat_write_spec gap (SAT_LIT_BASE + c * Z.of_nat CLAUSE_LEN + lit) (lit_word b) w Hd)
      as (d & n & E & Hd' & _). rewrite (bind_ok _ _ _ _ _ E).
    destruct (IH nc c (lit + 1) (set_dev d n w) Hd') as (d' & n' & E' & Hd''). exists d', n'. done.
Qed.

(** Whatever the formula bytes are, the accelerator is started on some formula,
    the wait loop ends, and the response fits its buffer. *)
Lemma solve_total buf nv nc w :
  dev_idle (a_dev w) -> 0 <= nv <= 10 ->
  exists d n resp, solve gap buf nv nc w = Ok (resp, set_dev d n w) /\ dev_idle d /\ (length resp <= 13)%nat.
Proof.
  intros Hd Hnv. unfold solve, MAX_CLAUSES, CLAUSE_LEN.
  destruct (clear_lits_spec gap (20 * 10) 0 w Hd) as (d1 & k1 & E1 & Hd1 & _); [lia|lia|].
  rewrite (bind_ok _ _ _ _ _ E1).
  destruct (parse_total (drop 3 buf) nc 0 0 (set_dev d1 k1 w) Hd1) as (d2 & k2 & E2 & Hd2).
  rewrite (bind_ok _ _ _ _ _ E2), set_dev_twice.
  destruct (sat_write_spec gap SAT_NVARS nv (set_dev d2 k2 w) Hd2) as (d3 & k3 & E3 & Hd3 & _).
  rewrite (bind_ok _ _ _ _ _ E3), set_dev_twice.
  destruct (sat_write_spec gap SAT_NCLAUSES nc (set_dev d3 k3 w) Hd3) as (d4 & k4 & E4 & Hd4 & _).
  rewrite (bind_ok _ _ _ _ _ E4), set_dev_twice.
  destruct (run_solver (Z.to_nat nv) (set_dev d4 k4 w) Hd4) as (d & k & x & E & Hd' & _).
  eexists _, _, _. split; [exact E|]. split; [exact Hd'|].
  unfold response. case_match; simpl; [|lia]. rewrite length_app, length_fmap, length_seq. simpl. lia.
Qed.

(** The receive buffer: the first 512 bytes of the chain. *)
Lemma flatten_spec l : forall fuel (s : net H) q buf d,
  is_chain (n_pbufs s) q l -> totals l -> chain_data (n_mem s) l = Some d -> (length l < fuel)%nat ->
  (length buf < 512)%nat -> flatten fuel q buf s = Ok (take 512 (buf ++ d), s).
Proof.
  induction l as [|[a b] l IH]; intros [|fuel] s q buf d Hc Ht Hd Hf Hb; simpl in Hf; try lia.
  - simpl in Hc, Hd. subst q. injection Hd as <-. cbn [flatten]. rewrite Z.eqb_refl, app_nil_r.
    by rewrite take_ge by lia.
  - destruct Hc as (-> & Hz & Ea & Hc). destruct Ht as (Hlb & _ & _ & Ht).
    destruct (chain_data_cons _ _ _ _ _ Hd) as (d1 & d2 & -> & E1 & E2 & El1).
    cbn [flatten]. apply Z.eqb_neq in Hz. rewrite Hz, (bind_ok _ _ _ _ _ (rd_ok a b s Ea)).
    set (copy := if 512 <? _ then _ else _).
    assert (copy = Z.min (len b) (512 - Z.of_nat (length buf))) as Ec.
    { subst copy. destruct (Z.ltb_spec 512 (Z.of_nat (length buf) + len b)); lia. }
    clearbody copy. pose proof (load_sub _ _ _ _ 0 (Z.to_nat copy) E1 ltac:(lia)) as El.
    rewrite Z.add_0_r, drop_0 in El.
    rewrite (bind_ok _ _ _ (take (Z.to_nat copy) d1) s) by (unfold load_bytes; by rewrite El).
    rewrite length_app, length_take, El1.
    destruct (Z.leb_spec 512 (Z.of_nat (length buf + Z.to_nat copy `min` Z.to_nat (len b)))).
    + unfold mret, M_ret. do 2 f_equal. rewrite take_app_ge by lia. f_equal.
      rewrite take_app_le by lia. f_equal. lia.
    + rewrite (IH fuel s (next b) _ d2) by (done || lia || (rewrite length_app, length_take; lia)).
      rewrite <- app_assoc, (take_ge d1) by lia. done.
Qed.

Section Recv.
Context (pools : memp_t -> memp_desc) `{HP : !PoolsOk pools} `{HL : !HeapLaws pools H} `{HTL : !TcpLaws pools H T}.

(** What [sat_recv] does with a received buffer, after the packet is released. *)
Definition handle (pcb : Z) (buf : list Z) : M (fw H T slave) Z :=
  if (Z.of_nat (length buf) <? 4) || negb (nth 0 buf 0 =? PROTO_START) then mret ERR_OK
  else
    let n_vars := nth 1 buf 0 in
    let n_clauses := nth 2 buf 0 in
    if (n_vars =? 0) || (MAX_VARS <? n_vars) || (n_clauses =? 0) || (Z.of_nat MAX_CLAUSES <? n_clauses)
    then mret ERR_OK
    else
      resp ← solve gap buf n_vars n_clauses;
      lift_tcp (tcp_write pcb resp TCP_WRITE_FLAG_COPY);;
      lift_tcp (tcp_output pcb);;
      leds_or 8;;
      mret ERR_OK.

(** The common start: the chain is copied, acknowledged and released. *)
Lemma sat_recv_prefix pcb p l d w fl hl :
  net_inv pools (a_net w) fl hl -> is_chain (n_pbufs (a_net w)) p l -> l <> [] -> totals l ->
  chain_data (n_mem (a_net w)) l = Some d ->
  exists s t fl' hl', net_inv pools s fl' hl' /\
    sat_recv gap pcb p ERR_OK w =
      handle pcb (take 512 d) (mk_app s t (a_dev w) (a_bus w) (a_leds w |c 4)).
Proof.
  intros Hi Hc Hne Ht Hd. pose proof (is_chain_nonnull _ _ _ Hc Hne) as Hz.
  destruct (chain_head (a_net w) p l Hc Ht Hne) as (_ & b & Eb & Etl).
  destruct (tcp_recved_law pcb (tot_len b) (a_net w) (a_tcp w) fl hl p l d Hi Hc Hd)
    as (s1 & t1 & fl1 & hl1 & E1 & Hi1 & Hc1 & _).
  destruct (pbuf_free_spec pools l s1 fl1 hl1 p Hi1 Hc1 Hz) as (s2 & E2 & _ & _ & _ & Hi2).
  eexists s2, t1, _, _. split; [exact Hi2|]. unfold sat_recv.
  apply Z.eqb_neq in Hz. rewrite Hz. change (negb (ERR_OK =? ERR_OK)) with false. cbn [orb].
  set (w1 := mk_app (a_net w) (a_tcp w) (a_dev w) (a_bus w) (a_leds w |c 4)).
  rewrite (bind_ok (leds_or 4) _ _ tt w1) by done.
  rewrite (bind_ok (lift_net chain_fuel) _ _ (S (S (base.size (n_pbufs (a_net w))))) w1) by done.
  rewrite (bind_ok (lift_net (flatten _ _ _)) _ _ (take 512 d) w1).
  2: { apply lift_net_pure. apply (flatten_spec l _ (a_net w) p [] d Hc Ht Hd); [|simpl; lia].
       pose proof (is_chain_size _ _ _ Hc). simpl. lia. }
  rewrite (bind_ok (lift_net (rd p)) _ _ b w1) by (by apply lift_net_pure, rd_ok).
  rewrite (bind_ok _ _ _ _ _ (lift_tcp_ok _ w1 _ _ _ E1)).
  rewrite (bind_ok _ _ _ _ _ (lift_net_ok (pbuf_free p)
    (mk_app s1 t1 (a_dev w) (a_bus w) (a_leds w |c 4)) _ _ E2)). done.
Qed.

(** C1: the SAT server is right. When a packet arrives that the host encoded
    from a formula within the protocol's limits, in whatever pbufs, [sat_recv]
    releases them, loads the accelerator, waits until it is done, whatever the
    accelerator did before and however many cycles pass between bus accesses, and
    writes to the connection a response that the host decodes to a satisfying
    assignment of all the variables if the formula has one, and to UNSAT if not. *)
Theorem sat_recv_correct (pcb p n : Z) (clauses : list (list Z)) (l : list (Z * pbuf)) (w : fw H T slave)
  (fl : memp_t -> list Z) (hl : gset Z)
  (Hi : net_inv pools (a_net w) fl hl) (Hc : is_chain (n_pbufs (a_net w)) p l) (Hne : l <> [])
  (Ht : totals l) (Hd : chain_data (n_mem (a_net w)) l = Some (encode_packet n clauses))
  (Hdev : dev_idle (a_dev w)) (Hf : formula_ok n clauses) :
  exists w1 resp fl' hl', right_answer n clauses resp /\ dev_idle (a_dev w1) /\
    net_inv pools (a_net w1) fl' hl' /\
    sat_recv gap pcb p ERR_OK w =
      (lift_tcp (tcp_write pcb resp TCP_WRITE_FLAG_COPY);; lift_tcp (tcp_output pcb);; leds_or 8;; mret ERR_OK) w1.
Proof.
  destruct (sat_recv_prefix pcb p l _ w fl hl Hi Hc Hne Ht Hd) as (s & t & fl' & hl' & Hi' & E).
  set (w0 := mk_app s t (a_dev w) (a_bus w) (a_leds w |c 4)) in *.
  destruct (solve_spec n clauses w0 Hdev Hf) as (d & k & resp & Es & Hd' & Ha).
  exists (set_dev d k w0), resp, fl', hl'. split_and!; [done|done|done|]. rewrite E.
  pose proof Hf as (Hn & Hcl & Hok). unfold MAX_VARS, MAX_CLAUSES in *.
  rewrite take_ge by (by apply encode_length).
  unfold handle. assert (Z.of_nat (length (encode_packet n clauses)) <? 4 = false) as ->.
  { apply Z.ltb_ge. unfold encode_packet. rewrite !length_app. cbn [length]. lia. }
  change (nth 0 (encode_packet n clauses) 0 =? PROTO_START) with true.
  change (nth 1 (encode_packet n clauses) 0) with (n &c 255).
  change (nth 2 (encode_packet n clauses) 0) with (Z.of_nat (length clauses) &c 255).
  rewrite !land_255, !Z.mod_small by lia. cbn [negb orb].
  assert ((n =? 0) || (MAX_VARS <? n) || (Z.of_nat (length clauses) =? 0) ||
    (Z.of_nat MAX_CLAUSES <? Z.of_nat (length clauses)) = false) as ->.
  { unfold MAX_VARS, MAX_CLAUSES. rewrite !orb_false_iff, !Z.eqb_neq, !Z.ltb_ge. lia. }
  by rewrite (bind_ok _ _ _ _ _ Es).
Qed.

End Recv.
End Solve.

(** ** A concrete request: the host's first built-in test *)

Definition ex_clauses : list (list Z) := [[1; 2]; [-1; 3]; [-2; -3]; [1; -2; 4]].
Definition ex_packet : list Z := encode_packet 4 ex_clauses.
Definition ex_rx : Z * net Z :=
  get_ok (0, example_net) (pbuf_alloc example_pools 0 (Z.of_nat (length ex_packet)) PBUF_POOL example_net).
Definition ex_rx_chain : list (Z * pbuf) := chain_of ex_rx.2 [ex_rx.1].
Definition ex_rx_mem : memory :=
  list_to_map (zip (seqZ (ex_rx.1 + SIZEOF_STRUCT_PBUF) (Z.of_nat (length ex_packet))) ex_packet).
Definition ex_dev : slave :=
  {| start_r := false; n_vars_r := 0; n_clauses_r := 0; lit_regs := repeat 0 200; wb_ack := false;
     sat := solver_reset |}.
Definition ex_app : fw Z (list (list Z)) slave := mk_app (set_mem ex_rx_mem ex_rx.2) [] ex_dev 0 3.
Definition ex_gap (n : nat) : nat := Nat.modulo n 3.

Lemma ex_app_inv : exists fl, net_inv example_pools (a_net ex_app) fl ∅.
Proof.
  destruct (pbuf_alloc_pool_cases example_pools example_net _ _ 0 (Z.of_nat (length ex_packet)) example_net_inv)
    as (s' & _ & Hc); [lia|vm_compute; split; (reflexivity || discriminate)|].
  destruct (pool_chain _ _ _) as [l|] eqn:E; [|vm_compute in E; discriminate].
  destruct Hc as (Ea & _ & _ & _ & Hi).
  assert (ex_rx.2 = s') as <- by (unfold ex_rx; by rewrite Ea).
  eexists. unfold ex_app. cbn [a_net]. eapply net_inv_mem. exact Hi.
Qed.

Lemma ex_formula_ok : formula_ok 4 ex_clauses.
Proof.
  split; [unfold MAX_VARS; lia|]. split; [unfold MAX_CLAUSES; simpl; lia|].
  repeat constructor; unfold lit_ok; simpl; lia.
Qed.

Lemma sat_recv_correct_witness :
  exists w2 t resp, right_answer 4 ex_clauses resp /\ sat_recv ex_gap 7 ex_rx.1 ERR_OK ex_app = Ok (ERR_OK, w2) /\
    a_tcp w2 = t ++ [resp].
Proof.
  destruct ex_app_inv as [fl Hi].
  destruct (sat_recv_correct ex_gap example_pools 7 ex_rx.1 4 ex_clauses ex_rx_chain ex_app fl ∅ Hi)
    as (w1 & resp & _ & _ & Ha & _ & _ & E).
  - vm_compute. split_and!; (reflexivity || discriminate).
  - vm_compute. discriminate.
  - vm_compute. split_and!; (reflexivity || discriminate).
  - vm_compute. reflexivity.
  - vm_compute. split; reflexivity.
  - exact ex_formula_ok.
  - eexists _, _, resp. split; [exact Ha|]. split; [rewrite E; destruct w1; reflexivity|]. reflexivity.
Defined.

