(* ===== verification/SysArch.v ===== *)
(** * Platform glue: firmware-tcp/sys_arch.c

    The millisecond clock, the pseudo-random generator and [memcmp]. The hardware
    timer is read through its register value; what its driver reads is a parameter
    of every theorem. *)

From S2P Require Import Prelude.
From stdpp Require Import base numbers list gmap.
Open Scope Z_scope.
Open Scope c_scope.

(** [SYS_CLK_FREQ] of soc/build_soc_tcp.py *)
Definition CONFIG_CLOCK_FREQUENCY : Z := 50000000.

(** [timer0_value_read()] returned [value]. *)
Definition sys_now (value : Z) : Z := not32 value / (CONFIG_CLOCK_FREQUENCY / 1000).

(** The state is [_rand_state]. *)
Definition rand (value : Z) : M Z Z :=
  r ← get;
  (if r =? 0 then put (Z.lxor (not32 value) 3735928559) else mret tt);;
  r ← get;
  put (u32 (r * 1664525 + 1013904223));;
  r ← get;
  mret ((r >>c 16) &c 32767).

(** [k] bytes from index [i] on are still to be compared. *)
Fixpoint memcmp_loop (m : memory) (a b i : Z) (k : nat) : option Z :=
  match k with
  | O => Some 0
  | S k' =>
      x ← m !! (a + i);
      y ← m !! (b + i);
      if negb (x =? y) then Some (x - y) else memcmp_loop m a b (i + 1) k'
  end.
Definition memcmp (m : memory) (s1 s2 : Z) (n : nat) : option Z := memcmp_loop m s1 s2 0 n.

(** ** The clock *)

Lemma sys_now_range value : 0 <= sys_now value <= 85899.
Proof.
  unfold sys_now. change (CONFIG_CLOCK_FREQUENCY / 1000) with 50000. rewrite not32_arith.
  pose proof (u32_range value) as [? ?]. lia.
Qed.

(** The counter [t] ticks after it was loaded with 0xFFFFFFFF. *)
Definition timer_value (t : Z) : Z := u32 (4294967295 - t).

Lemma sys_now_ticks t : sys_now (timer_value t) = u32 t / 50000.
Proof.
  unfold sys_now, timer_value. change (CONFIG_CLOCK_FREQUENCY / 1000) with 50000.
  rewrite not32_arith. f_equal. unfold u32. lia.
Qed.

(** The millisecond clock does not wrap at 2^32. Differences of readings
    are right as long as the tick counter does not wrap between them; across the
    wrap, every 85.9 s, the clock jumps back to 0, and the 32-bit difference of the
    two readings is more than 2^31 although one millisecond has passed. *)
Theorem sys_now_wrap (t d : Z) (Ht : 0 <= t) (Hd : 0 <= d) :
  (t / 4294967296 = (t + d) / 4294967296 ->
     d / 50000 <= u32 (sys_now (timer_value (t + d)) - sys_now (timer_value t)) <= d / 50000 + 1) /\
  (t mod 4294967296 >= 4294950000 -> d = 50000 ->
     2147483648 < u32 (sys_now (timer_value (t + d)) - sys_now (timer_value t))).
Proof.
  rewrite !sys_now_ticks. unfold u32. split; intros H; [|intros ->]; lia.
Qed.

Lemma sys_now_wrap_witness : 2147483648 < u32 (sys_now (timer_value 4295010000) - sys_now (timer_value 4294960000)).
Proof. apply (sys_now_wrap 4294960000 50000); [lia..|vm_compute; discriminate|reflexivity]. Defined.

(** ** Comparison *)

Lemma libc_memcmp_loop_spec m a b k : forall i x y,
  load m (a + i) k = Some x -> load m (b + i) k = Some y ->
  exists r, memcmp_loop m a b i k = Some r /\
    ((r = 0 /\ x = y) \/
     exists j u v, r = u - v /\ u <> v /\ x !! j = Some u /\ y !! j = Some v /\ take j x = take j y).
Proof.
  induction k as [|k IH]; intros i x y Hx Hy.
  - injection Hx as <-. injection Hy as <-. exists 0. auto.
  - cbn [load] in Hx, Hy. apply bind_Some in Hx as (u & Eu & (x' & Ex & [= <-])%bind_Some).
    apply bind_Some in Hy as (v & Ev & (y' & Ey & [= <-])%bind_Some).
    cbn [memcmp_loop]. rewrite Eu, Ev. simpl. destruct (Z.eqb_spec u v) as [->|Hne]; simpl.
    + rewrite <- Z.add_assoc in Ex, Ey. destruct (IH (i + 1) x' y' Ex Ey) as (r & Er & Hr).
      exists r. split; [done|]. destruct Hr as [[-> ->]|(j & p & q & -> & ? & ? & ? & Et)]; [auto|].
      right. exists (S j), p, q. split_and!; try done. simpl. by f_equal.
    + exists (u - v). split; [done|]. right. exists 0%nat, u, v. done.
Qed.

(** [memcmp] of two readable areas is 0 exactly when they hold the same
    bytes, and otherwise has the sign of the first difference. *)
Theorem memcmp_correct (m : memory) (s1 s2 : Z) (n : nat) (x y : list Z)
  (Hx : load m s1 n = Some x) (Hy : load m s2 n = Some y) :
  exists r, memcmp m s1 s2 n = Some r /\ (r = 0 <-> x = y) /\
    (r <> 0 -> exists j u v, r = u - v /\ x !! j = Some u /\ y !! j = Some v /\ take j x = take j y).
Proof.
  destruct (libc_memcmp_loop_spec m s1 s2 n 0 x y) as (r & Er & Hr); [by rewrite Z.add_0_r..|].
  exists r. split; [done|]. destruct Hr as [[-> ->]|(j & u & v & -> & Hne & Eu & Ev & Et)]; [done|].
  split; [|intros _; eauto 10]. split; [lia|]. intros ->. congruence.
Qed.

Lemma memcmp_correct_witness :
  exists r, memcmp (list_to_map [(10, 1); (11, 2); (20, 1); (21, 5)]) 10 20 2 = Some r /\ r <> 0.
Proof.
  destruct (memcmp_correct (list_to_map [(10, 1); (11, 2); (20, 1); (21, 5)]) 10 20 2 [1; 2] [1; 5])
    as (r & Er & H0 & _); [reflexivity|reflexivity|].
  exists r. split; [exact Er|]. intros E. apply H0 in E. discriminate.
Defined.
