(* ===== verification/Timeouts.v ===== *)
(** * Timeouts: core/timeouts.c

    The list of pending timeouts, linked through structs from the pool
    [MEMP_SYS_TIMEOUT], the cyclic timers of the configuration (TCP and ARP) and the
    poll function of the main loop. The clock, the timer handlers of TCP and ARP and
    the test whether TCP has connections are an environment [W]. *)

From S2P Require Import Prelude Memp SysArch.
From stdpp Require Import base numbers list gmap functions sorting.
Open Scope Z_scope.
Open Scope c_scope.

Definition LWIP_MAX_TIMEOUT : Z := 2147483647.
Definition TIME_LESS_THAN (t compare_to : Z) : bool := LWIP_MAX_TIMEOUT <? u32 (t - compare_to).

Definition TCP_TMR_INTERVAL : Z := 250.
Definition ARP_TMR_INTERVAL : Z := 1000.

(** The functions the configuration registers as timeout handlers. *)
Inductive sys_timeout_handler := H_lwip_cyclic_timer | H_tcpip_tcp_timer.
(** Their arguments: NULL, or the address of an entry of [lwip_cyclic_timers]. *)
Inductive timeout_arg := A_NULL | A_cyclic (i : nat).

Global Instance sys_timeout_handler_eq_dec : EqDecision sys_timeout_handler.
Proof. solve_decision. Defined.
Global Instance timeout_arg_eq_dec : EqDecision timeout_arg.
Proof. solve_decision. Defined.

Definition key : Type := option sys_timeout_handler * timeout_arg.

(** [struct sys_timeo]: [h] and [arg] together are the key. *)
Record sys_timeo := mk_timeo { t_next : Z; t_time : Z; t_key : key }.

Definition with_tnext (x : Z) (t : sys_timeo) : sys_timeo := mk_timeo x (t_time t) (t_key t).
Definition with_time (x : Z) (t : sys_timeo) : sys_timeo := mk_timeo (t_next t) x (t_key t).

(** What the timers use of the rest of the system. *)
Class Env (W : Type) := {
  env_now : W -> Z * W;          (* sys_now() *)
  tcp_tmr : W -> W;
  etharp_tmr : W -> W;
  tcp_has_pcbs : W -> bool;      (* tcp_active_pcbs || tcp_tw_pcbs *)
  check_free_ooseq : W -> W      (* PBUF_CHECK_FREE_OOSEQ() *)
}.

Record tmo (W : Type) := mk_tmo {
  t_memp : memp_state;
  t_store : gmap Z sys_timeo;
  next_timeout : Z;
  current_timeout_due_time : Z;
  tcpip_tcp_timer_active : Z;
  t_env : W }.
Arguments mk_tmo {W}.
Arguments t_memp {W}.
Arguments t_store {W}.
Arguments next_timeout {W}.
Arguments current_timeout_due_time {W}.
Arguments tcpip_tcp_timer_active {W}.
Arguments t_env {W}.

Section Ops.
Context {W : Type} `{HE : !Env W} (pools : memp_t -> memp_desc).

Definition set_next (p : Z) : M (tmo W) unit := modify (fun s =>
  mk_tmo (t_memp s) (t_store s) p (current_timeout_due_time s) (tcpip_tcp_timer_active s) (t_env s)).
Definition set_due (x : Z) : M (tmo W) unit := modify (fun s =>
  mk_tmo (t_memp s) (t_store s) (next_timeout s) x (tcpip_tcp_timer_active s) (t_env s)).
Definition set_active (x : Z) : M (tmo W) unit := modify (fun s =>
  mk_tmo (t_memp s) (t_store s) (next_timeout s) (current_timeout_due_time s) x (t_env s)).
Definition on_env (f : W -> W) : M (tmo W) unit := modify (fun s =>
  mk_tmo (t_memp s) (t_store s) (next_timeout s) (current_timeout_due_time s)
    (tcpip_tcp_timer_active s) (f (t_env s))).
Definition now : M (tmo W) Z := fun s =>
  let '(t, e) := env_now (t_env s) in
  Ok (t, mk_tmo (t_memp s) (t_store s) (next_timeout s) (current_timeout_due_time s)
    (tcpip_tcp_timer_active s) e).
Definition rdt (p : Z) : M (tmo W) sys_timeo := fun s => deref (t_store s !! p) s.
Definition set_store (st : gmap Z sys_timeo) (s : tmo W) : tmo W :=
  mk_tmo (t_memp s) st (next_timeout s) (current_timeout_due_time s) (tcpip_tcp_timer_active s) (t_env s).
Definition updt (p : Z) (f : sys_timeo -> sys_timeo) : M (tmo W) unit := fun s =>
  match t_store s !! p with
  | Some t => Ok (tt, set_store (<[p := f t]> (t_store s)) s)
  | None => Fault
  end.
Definition on_memp {A} (m : M memp_state A) : M (tmo W) A := fun s =>
  match m (t_memp s) with
  | Ok (a, x) => Ok (a, mk_tmo x (t_store s) (next_timeout s) (current_timeout_due_time s)
                          (tcpip_tcp_timer_active s) (t_env s))
  | AssertFail => AssertFail | Fault => Fault | NoFuel => NoFuel
  end.

(** Loops over the list visit each live struct at most once. *)
Definition list_fuel : M (tmo W) nat := gets (fun s => S (base.size (t_store s))).

(** [for (t = next_timeout; t != NULL; t = t->next)] of [sys_timeout_abs] *)
Fixpoint insert_loop (fuel : nat) (t timeout abs_time : Z) : M (tmo W) unit :=
  match fuel with
  | O => nofuel
  | S fuel' =>
      if t =? NULL then mret tt
      else
        b ← rdt t;
        here ← (if t_next b =? NULL then mret true
                else bn ← rdt (t_next b); mret (TIME_LESS_THAN abs_time (t_time bn)));
        if (here : bool) then
          updt timeout (with_tnext (t_next b));;
          updt t (with_tnext timeout)
        else insert_loop fuel' (t_next b) timeout abs_time
  end.

Definition sys_timeout_abs (abs_time : Z) (k : key) : M (tmo W) unit :=
  timeout ← on_memp (memp_malloc MEMP_SYS_TIMEOUT);
  if timeout =? NULL then assert false
  else
    modify (fun s => set_store (<[timeout := mk_timeo NULL abs_time k]> (t_store s)) s);;
    nt ← gets next_timeout;
    if nt =? NULL then set_next timeout
    else
      b ← rdt nt;
      if TIME_LESS_THAN abs_time (t_time b) then
        updt timeout (with_tnext nt);;
        set_next timeout
      else fuel ← list_fuel; insert_loop fuel nt timeout abs_time.

Definition sys_timeout (msecs : Z) (k : key) : M (tmo W) unit :=
  assert (msecs <=? 4294967295 / 4);;
  n ← now;
  sys_timeout_abs (u32 (n + msecs)) k.

(** [lwip_cyclic_timers[]]: interval and handler. *)
Definition lwip_cyclic_timers : list (Z * (W -> W)) :=
  [(TCP_TMR_INTERVAL, tcp_tmr); (ARP_TMR_INTERVAL, etharp_tmr)].

Definition lwip_cyclic_timer (arg : timeout_arg) : M (tmo W) unit :=
  match arg with
  | A_NULL => fault
  | A_cyclic i =>
      cyclic ← deref (lwip_cyclic_timers !! i);
      on_env (snd cyclic);;
      n ← now;
      due ← gets current_timeout_due_time;
      let next_timeout_time := u32 (due + fst cyclic) in
      if TIME_LESS_THAN next_timeout_time n
      then sys_timeout_abs (u32 (n + fst cyclic)) (Some H_lwip_cyclic_timer, arg)
      else sys_timeout_abs next_timeout_time (Some H_lwip_cyclic_timer, arg)
  end.

Definition tcpip_tcp_timer (arg : timeout_arg) : M (tmo W) unit :=
  on_env tcp_tmr;;
  e ← gets t_env;
  if tcp_has_pcbs e then sys_timeout TCP_TMR_INTERVAL (Some H_tcpip_tcp_timer, A_NULL)
  else set_active 0.

Definition tcp_timer_needed : M (tmo W) unit :=
  a ← gets tcpip_tcp_timer_active;
  e ← gets t_env;
  if (a =? 0) && tcp_has_pcbs e then
    set_active 1;;
    sys_timeout TCP_TMR_INTERVAL (Some H_tcpip_tcp_timer, A_NULL)
  else mret tt.

(** [for (i = 1; i < LWIP_ARRAYSIZE(lwip_cyclic_timers); i++)] *)
Fixpoint init_loop (i k : nat) : M (tmo W) unit :=
  match k with
  | O => mret tt
  | S k' =>
      cyclic ← deref (lwip_cyclic_timers !! i);
      sys_timeout (fst cyclic) (Some H_lwip_cyclic_timer, A_cyclic i);;
      init_loop (S i) k'
  end.
Definition sys_timeouts_init : M (tmo W) unit := init_loop 1 (length lwip_cyclic_timers - 1).

(** [handler(arg)] *)
Definition call (k : key) : M (tmo W) unit :=
  match fst k with
  | None => mret tt
  | Some H_lwip_cyclic_timer => lwip_cyclic_timer (snd k)
  | Some H_tcpip_tcp_timer => tcpip_tcp_timer (snd k)
  end.

(** [for (t = next_timeout, prev_t = NULL; t != NULL; prev_t = t, t = t->next)] *)
Fixpoint untimeout_loop (fuel : nat) (t prev_t : Z) (k : key) : M (tmo W) unit :=
  match fuel with
  | O => nofuel
  | S fuel' =>
      if t =? NULL then mret tt
      else
        b ← rdt t;
        if decide (t_key b = k) then
          (if prev_t =? NULL then set_next (t_next b) else updt prev_t (with_tnext (t_next b)));;
          on_memp (memp_free MEMP_SYS_TIMEOUT t);;
          modify (fun s => set_store (delete t (t_store s)) s)
        else untimeout_loop fuel' (t_next b) t k
  end.

Definition sys_untimeout (k : key) : M (tmo W) unit :=
  nt ← gets next_timeout;
  if nt =? NULL then mret tt
  else fuel ← list_fuel; untimeout_loop fuel nt NULL k.

(** The [do ... while (1)] loop of [sys_check_timeouts]. *)
Fixpoint check_loop (fuel : nat) (n : Z) : M (tmo W) unit :=
  match fuel with
  | O => nofuel
  | S fuel' =>
      on_env check_free_ooseq;;
      tmptimeout ← gets next_timeout;
      if tmptimeout =? NULL then mret tt
      else
        b ← rdt tmptimeout;
        if TIME_LESS_THAN n (t_time b) then mret tt
        else
          set_next (t_next b);;
          set_due (t_time b);;
          on_memp (memp_free MEMP_SYS_TIMEOUT tmptimeout);;
          modify (fun s => set_store (delete tmptimeout (t_store s)) s);;
          call (t_key b);;
          check_loop fuel' n
  end.

Definition sys_check_timeouts : M (tmo W) unit :=
  n ← now;
  check_loop (S (2 * num (pools MEMP_SYS_TIMEOUT))) n.

(** [for (t = next_timeout; t != NULL; t = t->next)] of [sys_restart_timeouts] *)
Fixpoint restart_loop (fuel : nat) (t base n : Z) : M (tmo W) unit :=
  match fuel with
  | O => nofuel
  | S fuel' =>
      if t =? NULL then mret tt
      else
        b ← rdt t;
        updt t (with_time (u32 (u32 (t_time b - base) + n)));;
        restart_loop fuel' (t_next b) base n
  end.

Definition sys_restart_timeouts : M (tmo W) unit :=
  nt ← gets next_timeout;
  if nt =? NULL then mret tt
  else
    n ← now;
    b ← rdt nt;
    fuel ← list_fuel;
    restart_loop fuel nt (t_time b) n.

Definition SYS_TIMEOUTS_SLEEPTIME_INFINITE : Z := 4294967295.

Definition sys_timeouts_sleeptime : M (tmo W) Z :=
  nt ← gets next_timeout;
  if nt =? NULL then mret SYS_TIMEOUTS_SLEEPTIME_INFINITE
  else
    n ← now;
    b ← rdt nt;
    if TIME_LESS_THAN (t_time b) n then mret 0
    else
      let ret := u32 (t_time b - n) in
      assert (ret <=? LWIP_MAX_TIMEOUT);;
      mret ret.
End Ops.

(** ** The pending timeouts as a list

    An entry is the address of its struct, its deadline on an unbounded
    millisecond scale, of which the struct holds the low 32 bits, and its key. *)
Abbreviation entry := (Z * (Z * key))%type.
Definition e_time (x : entry) : Z := fst (snd x).
Definition e_key (x : entry) : key := snd (snd x).
Arguments e_time !x /.
Arguments e_key !x /.

Fixpoint tchain (st : gmap Z sys_timeo) (p : Z) (l : list entry) : Prop :=
  match l with
  | [] => p = NULL
  | x :: l' => p = fst x /\ fst x <> NULL /\
      exists nx, st !! fst x = Some (mk_timeo nx (u32 (e_time x)) (e_key x)) /\ tchain st nx l'
  end.

Fixpoint ins (x : entry) (l : list entry) : list entry :=
  match l with
  | [] => [x]
  | y :: l' => if e_time x <? e_time y then x :: y :: l' else y :: ins x l'
  end.

Fixpoint by_deadline (l : list entry) : Prop :=
  match l with
  | [] => True
  | x :: l' => Forall (fun y => e_time x <= e_time y) l' /\ by_deadline l'
  end.

(** Deadlines close enough for their low 32 bits to be compared. *)
Definition near (a b : Z) : Prop := -2147483648 < a - b < 2147483648.

Lemma tlt_near a b : near a b -> TIME_LESS_THAN (u32 a) (u32 b) = (a <? b).
Proof.
  unfold near, TIME_LESS_THAN, LWIP_MAX_TIMEOUT, u32. intros Hn.
  destruct (Z.ltb_spec a b); [apply Z.ltb_lt|apply Z.ltb_ge]; lia.
Qed.

Lemma ins_perm x l : ins x l ≡ₚ x :: l.
Proof.
  induction l as [|y l IH]; simpl; [done|]. destruct (e_time x <? e_time y); [done|].
  rewrite IH. apply Permutation_swap.
Qed.

Lemma ins_sorted x l : by_deadline l -> by_deadline (ins x l).
Proof.
  induction l as [|y l IH]; simpl; [done|]. intros [Hy Hl]. destruct (Z.ltb_spec (e_time x) (e_time y)).
  - simpl. split; [|done]. constructor; [lia|]. eapply Forall_impl; [exact Hy|]. simpl. lia.
  - simpl. split; [|by apply IH]. rewrite ins_perm. constructor; [lia|done].
Qed.

Lemma tchain_ext st st' p l :
  (forall a, a ∈ l.*1 -> st' !! a = st !! a) -> tchain st p l -> tchain st' p l.
Proof.
  revert p. induction l as [|x l IH]; intros p He; [done|]. rewrite fmap_cons in He.
  intros (-> & Hz & nx & E & Hc). split_and!; [done|done|]. exists nx.
  split; [rewrite He by set_solver; done|]. apply IH; [|done]. intros a Ha. apply He. set_solver.
Qed.

Lemma tchain_insert st p l a t : a ∉ l.*1 -> tchain st p l -> tchain (<[a := t]> st) p l.
Proof. intros Hni. apply tchain_ext. intros b Hb. apply lookup_insert_ne. set_solver. Qed.

Lemma tchain_delete st p l a : a ∉ l.*1 -> tchain st p l -> tchain (delete a st) p l.
Proof. intros Hni. apply tchain_ext. intros b Hb. apply lookup_delete_ne. set_solver. Qed.

Lemma tchain_size st p l : NoDup l.*1 -> tchain st p l -> (length l <= base.size st)%nat.
Proof.
  intros Hnd Hc. assert (list_to_set (C := gset Z) l.*1 ⊆ dom st) as Hsub.
  { clear Hnd. revert p Hc. induction l as [|x l IH]; intros p; [set_solver|].
    intros (_ & _ & nx & E & Hc). specialize (IH nx Hc). rewrite fmap_cons, list_to_set_cons.
    apply union_subseteq. split; [|done]. apply singleton_subseteq_l, elem_of_dom. eauto. }
  apply subseteq_size in Hsub. rewrite size_list_to_set in Hsub by done.
  rewrite length_fmap, size_dom in Hsub. done.
Qed.

Section Lists.
Context {W : Type} `{HE : !Env W}.
Implicit Types s : tmo W.

Lemma rdt_ok p t s : t_store s !! p = Some t -> rdt p s = Ok (t, s).
Proof. intros E. unfold rdt, deref. by rewrite E. Qed.

Lemma updt_ok p f t s : t_store s !! p = Some t -> updt p f s = Ok (tt, set_store (<[p := f t]> (t_store s)) s).
Proof. intros E. unfold updt. by rewrite E. Qed.

(** The insertion loop, behind an entry that is not later. *)
Lemma insert_loop_spec l : forall fuel s y x nx,
  tchain (t_store s) (fst y) (y :: l) -> NoDup (y :: l).*1 -> fst x ∉ (y :: l).*1 ->
  t_store s !! fst x = Some (mk_timeo nx (u32 (e_time x)) (e_key x)) -> fst x <> NULL ->
  Forall (fun z => near (e_time x) (e_time z)) (y :: l) -> (length l < fuel)%nat ->
  exists st', insert_loop fuel (fst y) (fst x) (u32 (e_time x)) s = Ok (tt, set_store st' s) /\
    tchain st' (fst y) (y :: ins x l) /\
    (forall c, c ∉ fst x :: (y :: l).*1 -> st' !! c = t_store s !! c).
Proof.
  induction l as [|z l IH]; intros [|fuel] s y x nx Hc Hnd Hni Ex Hxz Hnear Hf; simpl in Hf; try lia;
    destruct Hc as (_ & Hyz & ny & Ey & Hc); rewrite !fmap_cons in Hnd, Hni;
    apply not_elem_of_cons in Hni as [Hxy Hni]; apply NoDup_cons in Hnd as [Hyl Hnd];
    apply Z.eqb_neq in Hyz as Hyz'; cbn [insert_loop]; rewrite Hyz', (bind_ok _ _ _ _ _ (rdt_ok _ _ s Ey));
    cbn [t_next].
  - simpl in Hc. subst ny. rewrite Z.eqb_refl. rewrite (bind_ok _ _ _ true s) by done.
    rewrite (bind_ok _ _ _ _ _ (updt_ok _ _ _ s Ex)).
    erewrite updt_ok by (simpl; rewrite lookup_insert_ne by done; exact Ey).
    eexists. split; [reflexivity|]. simpl. split.
    + split_and!; [done|done|]. exists (fst x). split; [apply lookup_insert_eq|].
      split_and!; [done|done|]. exists NULL. split; [|done].
      rewrite lookup_insert_ne by done. apply lookup_insert_eq.
    + intros c Hcn. rewrite !lookup_insert_ne by set_solver. done.
  - pose proof Hc as (-> & Hzz & nz & Ez & Hc'). apply Z.eqb_neq in Hzz as Hzz'. rewrite Hzz'.
    apply Forall_cons in Hnear as [_ Hnear]. pose proof Hnear as [Hnz _]%Forall_cons.
    rewrite (bind_ok _ _ _ (e_time x <? e_time z) s).
    2: { rewrite (bind_ok _ _ _ _ _ (rdt_ok _ _ s Ez)). simpl. rewrite tlt_near by done. done. }
    cbn [ins]. destruct (e_time x <? e_time z).
    + rewrite (bind_ok _ _ _ _ _ (updt_ok _ _ _ s Ex)).
      erewrite updt_ok by (simpl; rewrite lookup_insert_ne by done; exact Ey).
      eexists. split; [reflexivity|]. cbn [t_store set_store]. split.
      * split_and!; [done|done|]. exists (fst x). split; [apply lookup_insert_eq|].
        split_and!; [done|done|]. exists (fst z). split.
        { rewrite lookup_insert_ne by done. apply lookup_insert_eq. }
        apply tchain_insert; [done|]. apply tchain_insert; done.
      * intros c Hcn. rewrite !fmap_cons in Hcn. rewrite !lookup_insert_ne by set_solver. done.
    + destruct (IH fuel s z x nx) as (st' & E & Hc2 & Hout); try done; [lia|].
      exists st'. split_and!; [exact E| |].
      * split_and!; [done|done|]. exists (fst z). split; [|exact Hc2].
        rewrite Hout; [done|]. apply not_elem_of_cons. split; [congruence|exact Hyl].
      * intros c Hcn. rewrite !fmap_cons in Hcn. apply Hout. rewrite fmap_cons. set_solver.
Qed.
End Lists.

Section Timers.
Context {W : Type} `{HE : !Env W} (pools : memp_t -> memp_desc) `{HP : !PoolsOk pools}.
Implicit Types s : tmo W.

(** The state represents the pending entries [l]; the other elements of the pool
    are free. *)
Definition rep s (fl : memp_t -> list Z) (l : list entry) : Prop :=
  pool_rep pools (t_memp s) fl /\ tchain (t_store s) (next_timeout s) l /\
  l.*1 ++ fl MEMP_SYS_TIMEOUT ≡ₚ elems (pools MEMP_SYS_TIMEOUT).

Lemma rep_NoDup s fl l : rep s fl l -> NoDup (l.*1 ++ fl MEMP_SYS_TIMEOUT).
Proof. intros (_ & _ & Hp). rewrite Hp. by apply elems_NoDup. Qed.

Lemma rep_length s fl l :
  rep s fl l -> (length l + length (fl MEMP_SYS_TIMEOUT) = num (pools MEMP_SYS_TIMEOUT))%nat.
Proof.
  intros (_ & _ & Hp). apply Permutation_length in Hp.
  rewrite length_app, length_fmap, elems_length in Hp. lia.
Qed.

(** Scheduling: the entry goes behind all entries that are due no later; if the
    pool is exhausted the assertion fails. *)
Lemma sys_timeout_abs_spec s fl l D k :
  rep s fl l -> Forall (fun z => near D (e_time z)) l ->
  if decide (length l = num (pools MEMP_SYS_TIMEOUT)) then sys_timeout_abs (u32 D) k s = AssertFail
  else exists s' a fl', sys_timeout_abs (u32 D) k s = Ok (tt, s') /\ rep s' fl' (ins (a, (D, k)) l) /\
    t_env s' = t_env s /\ current_timeout_due_time s' = current_timeout_due_time s /\
    tcpip_tcp_timer_active s' = tcpip_tcp_timer_active s.
Proof.
  intros Hr Hnear. pose proof (rep_length _ _ _ Hr) as Hlen. pose proof (rep_NoDup _ _ _ Hr) as Hnd.
  pose proof Hr as (Hp & Hc & Hperm).
  destruct (memp_malloc_spec pools (t_memp s) fl MEMP_SYS_TIMEOUT Hp) as (m & Em & Hm); [done|].
  unfold sys_timeout_abs. set (s1 := mk_tmo m (t_store s) (next_timeout s) (current_timeout_due_time s)
    (tcpip_tcp_timer_active s) (t_env s)).
  rewrite (bind_ok (on_memp _) _ _ (match fl MEMP_SYS_TIMEOUT with [] => NULL | a :: _ => a end) s1)
    by (unfold on_memp; by rewrite Em).
  destruct (fl MEMP_SYS_TIMEOUT) as [|a stack] eqn:Efl; simpl in Hlen.
  { rewrite decide_True by lia. done. }
  rewrite decide_False by lia. simpl in Hm.
  assert (a ∈ elems (pools MEMP_SYS_TIMEOUT)) as Ha by (rewrite <- Hperm; set_solver).
  destruct (elem_props pools _ a Ha) as (Hz & _ & _). apply Z.eqb_neq in Hz as Hz'. rewrite Hz'.
  apply NoDup_app in Hnd as (Hndl & Hdis & Hnds). assert (a ∉ l.*1) as Hal by set_solver.
  set (x := (a, (D, k)) : entry). set (st1 := <[a := mk_timeo NULL (u32 D) k]> (t_store s)).
  rewrite (bind_ok (modify _) _ _ tt (set_store st1 s1)) by done.
  rewrite (bind_ok (gets _) _ _ (next_timeout s) (set_store st1 s1)) by done.
  assert (forall st' p', tchain st' p' (ins x l) ->
    rep (mk_tmo m st' p' (current_timeout_due_time s) (tcpip_tcp_timer_active s) (t_env s))
      (<[MEMP_SYS_TIMEOUT := stack]> fl) (ins x l)) as Hrep.
  { intros st' p' Hc'. split_and!; [exact Hm|exact Hc'|].
    rewrite fn_lookup_insert, (ins_perm x l). simpl. rewrite <- Hperm. apply Permutation_middle. }
  assert (st1 !! a = Some (mk_timeo NULL (u32 D) k)) as Ea by apply lookup_insert_eq.
  match goal with |- exists s' a fl', ?E = _ /\ _ =>
    enough (exists s', E = Ok (tt, s') /\ rep s' (<[MEMP_SYS_TIMEOUT := stack]> fl) (ins x l) /\
      t_env s' = t_env s /\ current_timeout_due_time s' = current_timeout_due_time s /\
      tcpip_tcp_timer_active s' = tcpip_tcp_timer_active s) as (s' & ?) by (exists s', a; eauto)
  end.
  destruct l as [|y l].
  { simpl in Hc. rewrite Hc, Z.eqb_refl. eexists. split; [reflexivity|].
    split_and!; [apply Hrep|done|done|done]. simpl. split_and!; [done|done|]. by exists NULL. }
  pose proof Hc as (En & Hyz & ny & Ey & Hc'). rewrite En. apply Z.eqb_neq in Hyz as Hyz'. rewrite Hyz'.
  rewrite fmap_cons in Hal. apply not_elem_of_cons in Hal as [Hay Hal].
  assert (st1 !! fst y = Some (mk_timeo ny (u32 (e_time y)) (e_key y))) as Ey1
    by (unfold st1; by rewrite lookup_insert_ne).
  rewrite (bind_ok _ _ _ _ _ (rdt_ok _ _ (set_store st1 s1) Ey1)). cbn [t_time].
  rewrite tlt_near by (by apply Forall_cons in Hnear as [? _]).
  assert (tchain st1 (fst y) (y :: l)) as Hc1.
  { rewrite <- En. apply tchain_insert; [|done]. rewrite fmap_cons. set_solver. }
  cbn [ins] in Hrep |- *. change (e_time x) with D in *. destruct (D <? e_time y).
  - rewrite (bind_ok _ _ _ _ _ (updt_ok a _ _ (set_store st1 s1) Ea)).
    eexists. split; [reflexivity|]. split_and!; [apply Hrep|done|done|done].
    split_and!; [done|done|]. exists (fst y). split; [apply lookup_insert_eq|].
    apply tchain_insert; [rewrite fmap_cons; set_solver|done].
  - rewrite (bind_ok list_fuel _ _ (S (base.size st1)) (set_store st1 s1)) by done.
    destruct (insert_loop_spec l (S (base.size st1)) (set_store st1 s1) y x NULL)
      as (st' & E & Hc2 & _); try done.
    + rewrite fmap_cons. set_solver.
    + pose proof (tchain_size st1 (fst y) (y :: l) Hndl Hc1) as Hsz. simpl in Hsz. lia.
    + eexists. split; [exact E|]. split_and!; [|done|done|done].
      apply Hrep. simpl. rewrite En. exact Hc2.
Qed.

(** Taking the first entry off the list and giving its struct back. *)
Lemma pop_spec s fl x l :
  rep s fl (x :: l) ->
  exists b m, t_store s !! next_timeout s = Some b /\ next_timeout s = fst x /\ fst x <> NULL /\
    t_time b = u32 (e_time x) /\ t_key b = e_key x /\
    memp_free MEMP_SYS_TIMEOUT (fst x) (t_memp s) = Ok (tt, m) /\
    forall due, rep (mk_tmo m (delete (fst x) (t_store s)) (t_next b) due (tcpip_tcp_timer_active s) (t_env s))
      (<[MEMP_SYS_TIMEOUT := fst x :: fl MEMP_SYS_TIMEOUT]> fl) l.
Proof.
  intros Hr. pose proof (rep_NoDup _ _ _ Hr) as Hnd. destruct Hr as (Hp & (En & Hz & nx & Ex & Hc) & Hperm).
  rewrite fmap_cons in Hnd, Hperm. rewrite <- app_comm_cons in Hnd, Hperm. apply NoDup_cons in Hnd as [Hni Hnd].
  destruct (memp_free_spec pools (t_memp s) fl MEMP_SYS_TIMEOUT (fst x) Hp) as (m & Em & Hm);
    [done|rewrite <- Hperm; set_solver|set_solver|].
  eexists _, m. rewrite En. split_and!; [exact Ex|done|done|done|done|exact Em|].
  intros due. split_and!; [exact Hm| |].
  - simpl. apply tchain_delete; [set_solver|done].
  - rewrite fn_lookup_insert, <- Hperm. symmetry. apply Permutation_middle.
Qed.
End Timers.

(** ** The poll function *)

(** A clock that counts milliseconds modulo 2^32, and operations that take less
    than a quarter of an hour. *)
Class Clock (W : Type) `{!Env W} := {
  elapsed : W -> Z;
  clock_now : forall e, fst (env_now e) = u32 (elapsed (snd (env_now e))) /\
    elapsed e <= elapsed (snd (env_now e)) <= elapsed e + 1048576;
  clock_tcp : forall e, elapsed e <= elapsed (tcp_tmr e) <= elapsed e + 1048576;
  clock_arp : forall e, elapsed e <= elapsed (etharp_tmr e) <= elapsed e + 1048576;
  clock_ooseq : forall e, elapsed e <= elapsed (check_free_ooseq e) <= elapsed e + 1048576
}.

Definition ARP_key : key := (Some H_lwip_cyclic_timer, A_cyclic 1).
Definition TCP_key : key := (Some H_tcpip_tcp_timer, A_NULL).

(** The timers that are pending: ARP always, TCP while its flag is set. *)
Definition pending (active : Z) : list key := ARP_key :: (if active =? 0 then [] else [TCP_key]).

(** How often a timer can still expire at time [N]. *)
Definition weight (N : Z) (x : entry) : nat :=
  if decide (e_key x = ARP_key) then (if e_time x <? N then 2 else if e_time x =? N then 1 else 0)
  else (if e_time x <=? N then 1 else 0).
Definition weights (N : Z) (l : list entry) : nat := sum_list_with (weight N) l.

Definition window (N E : Z) (l : list entry) : Prop :=
  Forall (fun z => N - 1073741824 <= e_time z <= E + 536870912) l.

Lemma weights_perm N l l' : l ≡ₚ l' -> weights N l = weights N l'.
Proof. intros Hp. unfold weights. by rewrite Hp. Qed.

Section Poll.
Context {W : Type} `{HE : !Env W} `{HK : !Clock W} (pools : memp_t -> memp_desc) `{HP : !PoolsOk pools}.
Context (Hnum : num (pools MEMP_SYS_TIMEOUT) = 2%nat).
Implicit Types s : tmo W.

Lemma now_spec s : exists e, now s = Ok (u32 (elapsed e),
    mk_tmo (t_memp s) (t_store s) (next_timeout s) (current_timeout_due_time s) (tcpip_tcp_timer_active s) e) /\
  elapsed (t_env s) <= elapsed e <= elapsed (t_env s) + 1048576.
Proof.
  destruct (clock_now (t_env s)) as [E1 E2]. exists (snd (env_now (t_env s))). split; [|done].
  unfold now. destruct (env_now (t_env s)) as [t e]. simpl in *. by rewrite E1.
Qed.

Lemma u32_add a b : u32 (u32 a + b) = u32 (a + b).
Proof. unfold u32. lia. Qed.

Lemma window_near N E E' D l :
  window N E l -> N <= D <= E' + 1000 -> N <= E -> E <= E' -> E' <= N + 67108864 ->
  Forall (fun z => near D (e_time z)) l.
Proof. intros Hw HD ? ? ?. eapply Forall_impl; [exact Hw|]. unfold near. simpl. intros z ?. lia. Qed.

Lemma weight_arp N x y :
  e_key x = ARP_key -> e_key y = ARP_key -> e_time x <= N -> N <= e_time y ->
  e_time x + 1000 <= e_time y -> (weight N y < weight N x)%nat.
Proof.
  intros Hx Hy H1 H2 H3. unfold weight. rewrite Hx, Hy, !decide_True by done.
  destruct (Z.ltb_spec (e_time x) N), (Z.ltb_spec (e_time y) N), (Z.eqb_spec (e_time x) N),
    (Z.eqb_spec (e_time y) N); lia.
Qed.

(** Rescheduling from a handler. *)
Lemma reschedule s fl l D k N E :
  rep pools s fl l -> (length l < 2)%nat -> window N E l -> N <= D <= elapsed (t_env s) + 1000 -> N <= E ->
  E <= elapsed (t_env s) <= N + 67108864 ->
  exists s' a fl', sys_timeout_abs (u32 D) k s = Ok (tt, s') /\ rep pools s' fl' (ins (a, (D, k)) l) /\
    t_env s' = t_env s /\ tcpip_tcp_timer_active s' = tcpip_tcp_timer_active s.
Proof.
  intros Hr Hlen Hw HD HN HE'.
  pose proof (sys_timeout_abs_spec pools s fl l D k Hr) as Hs. rewrite decide_False in Hs by lia.
  destruct Hs as (s' & a & fl' & E1 & Hr' & Ee & _ & Ea); [apply (window_near N E (elapsed (t_env s)) D l Hw); lia|].
  exists s', a, fl'. done.
Qed.

(** What a handler does to the list it was taken from. *)
Lemma call_spec s fl l x N E :
  rep pools s fl l -> (length l < 2)%nat -> window N E l -> e_key x = ARP_key \/ e_key x = TCP_key ->
  N - 1073741824 <= e_time x <= N -> current_timeout_due_time s = u32 (e_time x) ->
  E <= elapsed (t_env s) -> N <= E -> elapsed (t_env s) + 2097152 <= N + 67108864 ->
  exists s' fl' l', call (e_key x) s = Ok (tt, s') /\ rep pools s' fl' l' /\
    elapsed (t_env s) <= elapsed (t_env s') <= elapsed (t_env s) + 2097152 /\
    (l' = l /\ e_key x = TCP_key /\ tcpip_tcp_timer_active s' = 0 \/
     exists y, l' = ins y l /\ e_key y = e_key x /\ (weight N y < weight N x)%nat /\
       N <= e_time y <= elapsed (t_env s') + 1000 /\
       tcpip_tcp_timer_active s' = tcpip_tcp_timer_active s).
Proof.
  intros Hr Hlen Hw Hk HD Hdue HE1 HN HE2. unfold call. destruct Hk as [Hk|Hk]; rewrite Hk; simpl.
  - rewrite (bind_ok (deref _) _ _ (ARP_TMR_INTERVAL, etharp_tmr) s) by done. cbn [fst snd].
    pose proof (clock_arp (t_env s)) as Hca.
    set (s1 := mk_tmo (t_memp s) (t_store s) (next_timeout s) (current_timeout_due_time s)
      (tcpip_tcp_timer_active s) (etharp_tmr (t_env s))).
    rewrite (bind_ok (on_env _) _ _ tt s1) by done.
    destruct (now_spec s1) as (e & En & He). rewrite (bind_ok _ _ _ _ _ En).
    set (s2 := mk_tmo _ _ _ _ _ e). rewrite (bind_ok (gets _) _ _ (u32 (e_time x)) s2)
      by (unfold gets; simpl; by rewrite Hdue).
    simpl in He. rewrite !u32_add, tlt_near by (unfold near, ARP_TMR_INTERVAL; lia).
    unfold ARP_TMR_INTERVAL. destruct (Z.ltb_spec (e_time x + 1000) (elapsed e)).
    + destruct (reschedule s2 fl l (elapsed e + 1000) ARP_key N E) as (s' & a & fl' & E' & Hr' & Ee & Ea);
        try done; simpl; try lia.
      exists s', fl', (ins (a, (elapsed e + 1000, ARP_key)) l). rewrite Ee. simpl.
      split_and!; [exact E'|done|lia|lia|]. right. eexists. split_and!; [reflexivity|done| |simpl; lia|simpl; lia|done].
      apply weight_arp; [done|done|simpl; lia..].
    + destruct (reschedule s2 fl l (e_time x + 1000) ARP_key N E) as (s' & a & fl' & E' & Hr' & Ee & Ea);
        try done; simpl; try lia.
      exists s', fl', (ins (a, (e_time x + 1000, ARP_key)) l). rewrite Ee. simpl.
      split_and!; [exact E'|done|lia|lia|]. right. eexists. split_and!; [reflexivity|done| |simpl; lia|simpl; lia|done].
      apply weight_arp; [done|done|simpl; lia..].
  - unfold tcpip_tcp_timer. pose proof (clock_tcp (t_env s)) as Hct.
    set (s1 := mk_tmo (t_memp s) (t_store s) (next_timeout s) (current_timeout_due_time s)
      (tcpip_tcp_timer_active s) (tcp_tmr (t_env s))).
    rewrite (bind_ok (on_env _) _ _ tt s1) by done. rewrite (bind_ok (gets _) _ _ (t_env s1) s1) by done.
    destruct (tcp_has_pcbs (t_env s1)).
    + unfold sys_timeout. rewrite (bind_ok (assert _) _ _ tt s1) by done.
      destruct (now_spec s1) as (e & En & He). rewrite (bind_ok _ _ _ _ _ En).
      set (s2 := mk_tmo _ _ _ _ _ e). simpl in He. rewrite u32_add. unfold TCP_TMR_INTERVAL.
      destruct (reschedule s2 fl l (elapsed e + 250) TCP_key N E) as (s' & a & fl' & E' & Hr' & Ee & Ea);
        try done; simpl; try lia.
      exists s', fl', (ins (a, (elapsed e + 250, TCP_key)) l). rewrite Ee. simpl.
      split_and!; [exact E'|done|lia|lia|]. right. eexists. split_and!; [reflexivity|done| |simpl; lia|simpl; lia|done].
      unfold weight. rewrite Hk, !decide_False by done. unfold e_time at 1. simpl.
      destruct (Z.leb_spec (elapsed e + 250) N); [lia|]. destruct (Z.leb_spec (e_time x) N); lia.
    + eexists _, fl, l. split; [reflexivity|]. split_and!; [exact Hr|simpl; lia|simpl; lia|]. left. done.
Qed.

Lemma pending_cases active (x : entry) l :
  (e_key <$> x :: l) ≡ₚ pending active ->
  (e_key x = ARP_key /\ (e_key <$> l) ≡ₚ (if active =? 0 then [] else [TCP_key])) \/
  (e_key x = TCP_key /\ active <> 0 /\ (e_key <$> l) ≡ₚ [ARP_key]).
Proof.
  unfold pending. rewrite fmap_cons. intros Hp. destruct (Z.eqb_spec active 0) as [|Ha].
  - left. apply Permutation_singleton_r in Hp. injection Hp as Hx Hl. rewrite Hl. auto.
  - assert (e_key x ∈ [ARP_key; TCP_key]) as Hx by (rewrite <- Hp; set_solver).
    apply elem_of_cons in Hx as [Hx|Hx%list_elem_of_singleton]; rewrite Hx in Hp.
    + left. split; [done|]. by apply Permutation_cons_inv in Hp.
    + right. split_and!; [done|done|]. rewrite (Permutation_swap TCP_key ARP_key) in Hp.
      by apply Permutation_cons_inv in Hp.
Qed.

Lemma pending_length active l : (e_key <$> l) ≡ₚ pending active -> (length l <= 2)%nat.
Proof.
  intros Hp%Permutation_length. rewrite length_fmap in Hp. unfold pending in Hp.
  destruct (active =? 0); simpl in Hp; lia.
Qed.

Lemma ins_keys y l : (e_key <$> ins y l) ≡ₚ e_key y :: (e_key <$> l).
Proof. by rewrite (ins_perm y l). Qed.

(** After a handler has run, the pending timers are again the right ones. *)
Lemma pending_again active active' x l l' :
  (e_key <$> x :: l) ≡ₚ pending active ->
  (l' = l /\ e_key x = TCP_key /\ active' = 0 \/
   exists y, l' = ins y l /\ e_key y = e_key x /\ active' = active) ->
  (e_key <$> l') ≡ₚ pending active'.
Proof.
  intros Hp [(-> & Hx & ->)|(y & -> & Hy & ->)].
  - destruct (pending_cases active x l Hp) as [[Hx' _]|(_ & _ & Hl)]; [|exact Hl].
    rewrite Hx in Hx'. discriminate.
  - rewrite ins_keys, Hy. by rewrite fmap_cons in Hp.
Qed.

Lemma check_loop_spec fuel : forall s fl l N,
  rep pools s fl l -> by_deadline l -> (e_key <$> l) ≡ₚ pending (tcpip_tcp_timer_active s) ->
  window N (elapsed (t_env s)) l -> N <= elapsed (t_env s) ->
  elapsed (t_env s) + Z.of_nat fuel * 4194304 <= N + 67108864 -> (weights N l < fuel)%nat ->
  exists s' fl' l', check_loop fuel (u32 N) s = Ok (tt, s') /\ rep pools s' fl' l' /\ by_deadline l' /\
    (e_key <$> l') ≡ₚ pending (tcpip_tcp_timer_active s') /\ window N (elapsed (t_env s')) l' /\
    Forall (fun z => N < e_time z) l' /\
    elapsed (t_env s) <= elapsed (t_env s') <= elapsed (t_env s) + Z.of_nat fuel * 4194304.
Proof.
  induction fuel as [|fuel IH]; intros s fl l N Hr Hs Hk Hw HN HE1 Hwt; [lia|].
  cbn [check_loop]. pose proof (clock_ooseq (t_env s)) as Hco.
  set (s0 := mk_tmo (t_memp s) (t_store s) (next_timeout s) (current_timeout_due_time s)
    (tcpip_tcp_timer_active s) (check_free_ooseq (t_env s))).
  rewrite (bind_ok (on_env _) _ _ tt s0) by done. rewrite (bind_ok (gets _) _ _ (next_timeout s) s0) by done.
  assert (window N (elapsed (t_env s0)) l) as Hw0.
  { eapply Forall_impl; [exact Hw|]. simpl. intros z ?. lia. }
  destruct l as [|x l].
  { apply Permutation_nil_l in Hk. unfold pending in Hk. done. }
  destruct (pop_spec pools s0 fl x l Hr) as (b & m & Eb & En & Hz & Ht & Hkb & Em & Hr1).
  change (next_timeout s0) with (next_timeout s) in *. change (t_memp s0) with (t_memp s) in Em. rewrite En. apply Z.eqb_neq in Hz. rewrite Hz.
  rewrite En in Eb. rewrite (bind_ok _ _ _ _ _ (rdt_ok _ _ s0 Eb)), Ht.
  pose proof Hw0 as [Hwx Hwl]%Forall_cons. simpl in Hwx.
  rewrite tlt_near by (unfold near; lia). destruct (Z.ltb_spec N (e_time x)) as [Hlt|Hge].
  { exists s0, fl, (x :: l). split_and!; try done; try (simpl; lia).
    constructor; [done|]. destruct Hs as [Hs _]. eapply Forall_impl; [exact Hs|]. simpl. lia. }
  set (s1 := mk_tmo m (delete (fst x) (t_store s0)) (t_next b) (u32 (e_time x)) (tcpip_tcp_timer_active s0) (t_env s0)).
  rewrite (bind_ok (set_next _) _ _ tt (mk_tmo (t_memp s0) (t_store s0) (t_next b)
    (current_timeout_due_time s0) (tcpip_tcp_timer_active s0) (t_env s0))) by done.
  rewrite (bind_ok (set_due _) _ _ tt (mk_tmo (t_memp s0) (t_store s0) (t_next b)
    (u32 (e_time x)) (tcpip_tcp_timer_active s0) (t_env s0))) by done.
  rewrite (bind_ok (on_memp _) _ _ tt (mk_tmo m (t_store s0) (t_next b)
    (u32 (e_time x)) (tcpip_tcp_timer_active s0) (t_env s0))) by (unfold on_memp; simpl; by rewrite Em).
  rewrite (bind_ok (modify _) _ _ tt s1) by done. rewrite Hkb.
  pose proof (pending_length _ _ Hk) as Hlen. simpl in Hlen.
  destruct (call_spec s1 _ l x N (elapsed (t_env s0)) (Hr1 (u32 (e_time x)))) as
    (s2 & fl2 & l2 & E2 & Hr2 & He2 & Hl2); try done; try (simpl; lia).
  { destruct (pending_cases _ _ _ Hk) as [[? _]|[? _]]; auto. }
  rewrite (bind_ok _ _ _ _ _ E2). simpl in He2.
  destruct (IH s2 fl2 l2 N Hr2) as (s3 & fl3 & l3 & E3 & Hr3 & Hs3 & Hk3 & Hw3 & Hlt3 & He3).
  - destruct Hs as [_ Hs]. destruct Hl2 as [(-> & _)|(y & -> & _)]; [done|by apply ins_sorted].
  - eapply pending_again; [exact Hk|]. destruct Hl2 as [?|(y & ? & ? & _ & _ & ?)]; [by left|right; eauto].
  - assert (window N (elapsed (t_env s2)) l) as Hwl'.
    { eapply Forall_impl; [exact Hwl|]. simpl. intros z ?. lia. }
    destruct Hl2 as [(-> & _)|(y & -> & _ & _ & Hy & _)]; [done|]. unfold window. rewrite (ins_perm y l).
    constructor; [lia|done].
  - lia.
  - lia.
  - unfold weights in Hwt. cbn [sum_list_with] in Hwt. fold (weights N l) in Hwt.
    destruct Hl2 as [(-> & Hx & _)|(y & -> & _ & Hy & _)].
    + assert (weight N x = 1%nat) as Hx1.
      { unfold weight. rewrite Hx, decide_False by done. destruct (Z.leb_spec (e_time x) N); lia. }
      lia.
    + rewrite (weights_perm N _ _ (ins_perm y l)). unfold weights. cbn [sum_list_with]. fold (weights N l). lia.
  - exists s3, fl3, l3. split_and!; try done; lia.
Qed.

(** The state between two calls from the main loop: ARP is pending exactly once,
    TCP exactly once if its flag is set, in the order of their deadlines, all of
    which are later than [last], the time of the last poll. *)
Definition timers_ok s (last : Z) : Prop :=
  exists fl l, rep pools s fl l /\ by_deadline l /\ (e_key <$> l) ≡ₚ pending (tcpip_tcp_timer_active s) /\
    Forall (fun z => last < e_time z <= elapsed (t_env s) + 536870912) l /\
    last <= elapsed (t_env s) <= last + 268435456.

Definition with_env (e : W) s : tmo W :=
  mk_tmo (t_memp s) (t_store s) (next_timeout s) (current_timeout_due_time s) (tcpip_tcp_timer_active s) e.

(** Every run of the main loop: initialisation, then other code that lets time
    pass or changes the connections, requests for the TCP timer, and polls, with
    less than three days between two polls. *)
Inductive timer_reach : tmo W -> Z -> Prop :=
| tr_init s fl s' :
    pool_rep pools (t_memp s) fl -> fl MEMP_SYS_TIMEOUT ≡ₚ elems (pools MEMP_SYS_TIMEOUT) ->
    next_timeout s = NULL -> tcpip_tcp_timer_active s = 0 -> sys_timeouts_init s = Ok (tt, s') ->
    timer_reach s' (elapsed (t_env s))
| tr_env s last e :
    timer_reach s last -> elapsed (t_env s) <= elapsed e <= last + 268435456 -> timer_reach (with_env e s) last
| tr_needed s last s' :
    timer_reach s last -> tcp_timer_needed s = Ok (tt, s') -> elapsed (t_env s') <= last + 268435456 ->
    timer_reach s' last
| tr_check s last s' :
    timer_reach s last -> sys_check_timeouts pools s = Ok (tt, s') ->
    timer_reach s' (elapsed (snd (env_now (t_env s)))).

Lemma init_spec s fl :
  pool_rep pools (t_memp s) fl -> fl MEMP_SYS_TIMEOUT ≡ₚ elems (pools MEMP_SYS_TIMEOUT) ->
  next_timeout s = NULL -> tcpip_tcp_timer_active s = 0 ->
  exists s', sys_timeouts_init s = Ok (tt, s') /\ timers_ok s' (elapsed (t_env s)).
Proof.
  intros Hp Hf Hn Ha. unfold sys_timeouts_init. simpl.
  rewrite (bind_ok (deref _) _ _ (ARP_TMR_INTERVAL, etharp_tmr) s) by done. cbn [fst].
  assert (rep pools s fl []) as Hr by (split_and!; [done|done|]; simpl; done).
  destruct (now_spec s) as (e & En & He). set (s1 := mk_tmo _ _ _ _ _ e) in En.
  pose proof (sys_timeout_abs_spec pools s1 fl [] (elapsed e + 1000) ARP_key Hr) as Hs.
  rewrite decide_False in Hs by (simpl; lia).
  destruct Hs as (s' & a & fl' & E & Hr' & Ee & _ & Eact); [constructor|].
  rewrite (bind_ok (sys_timeout _ _) _ _ tt s').
  2: { unfold sys_timeout. rewrite (bind_ok (assert _) _ _ tt s) by done.
       rewrite (bind_ok _ _ _ _ _ En), u32_add. exact E. }
  eexists. split; [reflexivity|]. eexists _, _. split_and!; [exact Hr'|simpl; auto| | |rewrite Ee; simpl; lia|rewrite Ee; simpl; lia].
  - rewrite Eact. simpl. rewrite Ha. done.
  - rewrite Ee. apply Forall_singleton. simpl. lia.
Qed.

Lemma needed_spec s last :
  timers_ok s last ->
  exists s', tcp_timer_needed s = Ok (tt, s') /\ (elapsed (t_env s') <= last + 268435456 -> timers_ok s' last).
Proof.
  intros (fl & l & Hr & Hs & Hk & Hf & He). unfold tcp_timer_needed.
  rewrite (bind_ok (gets _) _ _ (tcpip_tcp_timer_active s) s) by done.
  rewrite (bind_ok (gets _) _ _ (t_env s) s) by done.
  destruct (Z.eqb_spec (tcpip_tcp_timer_active s) 0) as [Ha|Ha].
  2: { exists s. split; [done|]. intros _. exists fl, l. done. }
  destruct (tcp_has_pcbs (t_env s)); cbn [andb]; [|exists s; split; [done|]; intros _; exists fl, l; done].
  set (s1 := mk_tmo (t_memp s) (t_store s) (next_timeout s) (current_timeout_due_time s) 1 (t_env s)).
  rewrite (bind_ok (set_active 1) _ _ tt s1) by done.
  unfold sys_timeout. rewrite (bind_ok (assert _) _ _ tt s1) by done.
  destruct (now_spec s1) as (e & En & He1). rewrite (bind_ok _ _ _ _ _ En), u32_add.
  set (s2 := mk_tmo _ _ _ _ _ e). simpl in He1. unfold TCP_TMR_INTERVAL.
  rewrite Ha in Hk. pose proof (Permutation_length Hk) as Hlen. rewrite length_fmap in Hlen. simpl in Hlen.
  pose proof (sys_timeout_abs_spec pools s2 fl l (elapsed e + 250) TCP_key Hr) as Hx.
  rewrite decide_False in Hx by lia.
  destruct Hx as (s' & a & fl' & E & Hr' & Ee & _ & Eact).
  { eapply Forall_impl; [exact Hf|]. unfold near. simpl. intros z ?. lia. }
  exists s'. split; [exact E|]. rewrite Ee. simpl. intros He2. eexists fl', _.
  split_and!; [exact Hr'|by apply ins_sorted| | |rewrite Ee; simpl; lia|rewrite Ee; simpl; lia].
  - rewrite ins_keys, Hk, Eact. simpl. apply Permutation_swap.
  - rewrite Ee, ins_perm. simpl. constructor; [simpl; lia|]. eapply Forall_impl; [exact Hf|]. simpl. intros z ?. lia.
Qed.

(** At most three handler calls per poll. *)
Lemma weights_pending N l k : (e_key <$> l) ≡ₚ pending k -> (weights N l <= 3)%nat.
Proof.
  intros Hk. destruct l as [|x l]; [unfold weights; simpl; lia|].
  assert (forall z, (weight N z <= 2)%nat) as H2 by (intros; unfold weight; repeat case_match; lia).
  assert (forall z, e_key z = TCP_key -> (weight N z <= 1)%nat) as H1.
  { intros z Hz. unfold weight. rewrite Hz, decide_False by done. case_match; lia. }
  pose proof (pending_length _ _ Hk) as Hl. simpl in Hl. unfold weights.
  destruct (pending_cases k x l Hk) as [[Hx Hl']|(Hx & _ & Hl')]; destruct l as [|y [|? ?]]; simpl in *; try lia.
  - pose proof (H2 x). lia.
  - destruct (k =? 0); [apply Permutation_nil_r in Hl'; done|].
    apply Permutation_singleton_r in Hl'. injection Hl' as Hy.
    pose proof (H2 x). pose proof (H1 y Hy). lia.
  - apply Permutation_nil_l in Hl'. done.
  - pose proof (H2 y). pose proof (H1 x Hx). lia.
Qed.

Lemma check_spec s last :
  timers_ok s last ->
  exists s', sys_check_timeouts pools s = Ok (tt, s') /\ timers_ok s' (elapsed (snd (env_now (t_env s)))).
Proof.
  intros (fl & l & Hr & Hs & Hk & Hf & He). unfold sys_check_timeouts.
  destruct (clock_now (t_env s)) as [E1 E2]. set (e := snd (env_now (t_env s))) in *.
  rewrite (bind_ok now _ _ (u32 (elapsed e)) (with_env e s)).
  2: { unfold now, with_env, e in *. destruct (env_now (t_env s)) as [t e']. simpl in *. by rewrite E1. }
  destruct (check_loop_spec (S (2 * num (pools MEMP_SYS_TIMEOUT))) (with_env e s) fl l (elapsed e))
    as (s' & fl' & l' & E & Hr' & Hs' & Hk' & Hw' & Hlt & He'); try done.
  - eapply Forall_impl; [exact Hf|]. simpl. intros z ?. lia.
  - rewrite Hnum. simpl. lia.
  - rewrite Hnum. apply (Nat.le_lt_trans _ 3); [|lia].
    by eapply weights_pending.
  - rewrite Hnum in He'. simpl in He'. exists s'. split; [exact E|]. exists fl', l'. split_and!; try done; try lia.
    apply Forall_and. split; [done|]. eapply Forall_impl; [exact Hw'|]. simpl. lia.
Qed.

Lemma timer_reach_ok s last : timer_reach s last -> timers_ok s last.
Proof.
  induction 1 as [s fl s' Hp Hf Hn Ha E|s last e _ (fl & l & Hr & Hs & Hk & Hf & He) Hle
    |s last s' _ IH E He|s last s' _ IH E].
  - destruct (init_spec s fl Hp Hf Hn Ha) as (s1 & E1 & H1). rewrite E in E1. by injection E1 as <-.
  - exists fl, l. split_and!; [exact Hr|done|done| |simpl; lia|simpl; lia].
    eapply Forall_impl; [exact Hf|]. simpl. intros z ?. lia.
  - destruct (needed_spec s last IH) as (s1 & E1 & H1). rewrite E in E1. injection E1 as <-. auto.
  - destruct (check_spec s last IH) as (s1 & E1 & H1). rewrite E in E1. by injection E1 as <-.
Qed.

End Poll.

Section Single.
Context {W : Type} `{HE : !Env W} (pools : memp_t -> memp_desc) `{HP : !PoolsOk pools}.
Implicit Types s : tmo W.

(** Scheduling refines insertion into a list ordered by deadline: the new
    entry goes behind all entries due no later, whatever the 32-bit clock wraps
    around to, as long as the deadlines are less than 2^31 ms apart; with no struct
    left the assertion fails. *)
Theorem sys_timeout_abs_order (s : tmo W) (fl : memp_t -> list Z) (l : list entry) (D : Z) (k : key)
  (Hr : rep pools s fl l) (Hs : by_deadline l) (Hn : Forall (fun z => near D (e_time z)) l) :
  (length l = num (pools MEMP_SYS_TIMEOUT) -> sys_timeout_abs (u32 D) k s = AssertFail) /\
  ((length l < num (pools MEMP_SYS_TIMEOUT))%nat ->
    exists s' a fl', sys_timeout_abs (u32 D) k s = Ok (tt, s') /\
      rep pools s' fl' (ins (a, (D, k)) l) /\ by_deadline (ins (a, (D, k)) l)).
Proof.
  pose proof (sys_timeout_abs_spec pools s fl l D k Hr Hn) as Hx. split; intros Hl.
  - by rewrite decide_True in Hx.
  - rewrite decide_False in Hx by lia. destruct Hx as (s' & a & fl' & E & Hr' & _).
    exists s', a, fl'. split_and!; [done|done|by apply ins_sorted].
Qed.

(** Removing the first entry with a key. *)
Fixpoint remove_key (k : key) (l : list entry) : list entry :=
  match l with
  | [] => []
  | x :: l' => if decide (e_key x = k) then l' else x :: remove_key k l'
  end.

(** The loop behind entry [y], which does not match: the first match is unlinked
    and its struct goes back to the pool. *)
Lemma untimeout_loop_spec k l : forall fuel s fl y nx,
  pool_rep pools (t_memp s) fl -> NoDup (y :: l).*1 ->
  Forall (fun a => a ∈ elems (pools MEMP_SYS_TIMEOUT) /\ a ∉ fl MEMP_SYS_TIMEOUT) l.*1 ->
  t_store s !! fst y = Some (mk_timeo nx (u32 (e_time y)) (e_key y)) -> fst y <> NULL ->
  tchain (t_store s) nx l -> (length l < fuel)%nat ->
  exists st' m fl', untimeout_loop fuel nx (fst y) k s =
      Ok (tt, mk_tmo m st' (next_timeout s) (current_timeout_due_time s) (tcpip_tcp_timer_active s) (t_env s)) /\
    tchain st' (fst y) (y :: remove_key k l) /\ pool_rep pools m fl' /\
    (remove_key k l).*1 ++ fl' MEMP_SYS_TIMEOUT ≡ₚ l.*1 ++ fl MEMP_SYS_TIMEOUT /\
    (forall c, c ∉ (y :: l).*1 -> st' !! c = t_store s !! c).
Proof.
  induction l as [|x l IH]; intros [|fuel] s fl y nx Hp Hnd Hel Ey Hyz Hc Hf; simpl in Hf; try lia.
  - simpl in Hc. subst nx. exists (t_store s), (t_memp s), fl. cbn [untimeout_loop]. rewrite Z.eqb_refl.
    split_and!; [by destruct s| |done|done|done]. split_and!; [done|done|]. by exists NULL.
  - destruct Hc as (-> & Hxz & nx' & Ex & Hc). apply Forall_cons in Hel as [[Hxe Hxf] Hel].
    rewrite !fmap_cons in Hnd. apply NoDup_cons in Hnd as [Hyx Hnd]. pose proof Hnd as [Hxl _]%NoDup_cons.
    apply not_elem_of_cons in Hyx as [Hyx Hyl].
    cbn [untimeout_loop remove_key]. apply Z.eqb_neq in Hxz as Hxz'. rewrite Hxz'.
    rewrite (bind_ok _ _ _ _ _ (rdt_ok _ _ s Ex)). cbn [t_key t_next].
    destruct (decide (e_key x = k)) as [Hk|Hk].
    + apply Z.eqb_neq in Hyz as Hyz'. rewrite Hyz'. rewrite (bind_ok _ _ _ _ _ (updt_ok _ _ _ s Ey)).
      destruct (memp_free_spec pools (t_memp s) fl MEMP_SYS_TIMEOUT (fst x) Hp) as (m & Em & Hm); [done|done|done|].
      set (s1 := set_store _ s). set (s2 := mk_tmo m (t_store s1) (next_timeout s1) (current_timeout_due_time s1)
        (tcpip_tcp_timer_active s1) (t_env s1)).
      rewrite (bind_ok (on_memp _) _ _ tt s2) by (unfold on_memp; simpl; by rewrite Em).
      eexists _, m, _. split; [reflexivity|]. cbn [t_store s2 s1 set_store]. split_and!; [|exact Hm| |].
      * split_and!; [done|done|]. exists nx'. split.
        { rewrite lookup_delete_ne by done. apply lookup_insert_eq. }
        apply tchain_delete; [done|]. by apply tchain_insert.
      * rewrite fn_lookup_insert, fmap_cons. symmetry. apply Permutation_middle.
      * intros c Hcn. rewrite !fmap_cons in Hcn. rewrite lookup_delete_ne, lookup_insert_ne by set_solver. done.
    + destruct (IH fuel s fl x nx' Hp Hnd Hel Ex Hxz Hc) as (st' & m & fl' & E & Hc' & Hm & Hperm & Hout); [lia|].
      exists st', m, fl'. split_and!; [exact E| |done| |].
      * split_and!; [done|done|]. exists (fst x). split; [|exact Hc'].
        rewrite Hout; [done|]. apply not_elem_of_cons. done.
      * rewrite !fmap_cons, <- !app_comm_cons. by rewrite Hperm.
      * intros c Hcn. rewrite !fmap_cons in Hcn. apply Hout. rewrite fmap_cons. set_solver.
Qed.

(** Cancelling a timeout removes the first pending entry with that handler
    and argument, if there is one, keeps the others in order, and gives the struct
    back to the pool; it always returns. *)
Theorem sys_untimeout_removes (s : tmo W) (fl : memp_t -> list Z) (l : list entry) (k : key)
  (Hr : rep pools s fl l) :
  exists s' fl', sys_untimeout k s = Ok (tt, s') /\ rep pools s' fl' (remove_key k l) /\
    t_env s' = t_env s /\ tcpip_tcp_timer_active s' = tcpip_tcp_timer_active s.
Proof.
  pose proof (rep_NoDup pools _ _ _ Hr) as Hnd. pose proof Hr as (Hp & Hc & Hperm). unfold sys_untimeout.
  rewrite (bind_ok (gets _) _ _ (next_timeout s) s) by done. destruct l as [|x l].
  { simpl in Hc. rewrite Hc, Z.eqb_refl. exists s, fl. done. }
  pose proof Hc as (En & Hz & nx & Ex & Hc'). rewrite En. apply Z.eqb_neq in Hz as Hz'. rewrite Hz'.
  rewrite (bind_ok list_fuel _ _ (S (base.size (t_store s))) s) by done.
  apply NoDup_app in Hnd as (Hndl & Hdis & _).
  pose proof (tchain_size (t_store s) (next_timeout s) (x :: l) Hndl Hc) as Hsz. simpl in Hsz.
  cbn [untimeout_loop remove_key]. rewrite Hz'. rewrite (bind_ok _ _ _ _ _ (rdt_ok _ _ s Ex)). cbn [t_key t_next].
  destruct (decide (e_key x = k)) as [Hk|Hk].
  - destruct (pop_spec pools s fl x l Hr) as (b & m & Eb & _ & _ & _ & _ & Em & Hr').
    rewrite En, Ex in Eb. injection Eb as <-. rewrite Z.eqb_refl.
    set (s1 := mk_tmo (t_memp s) (t_store s) nx (current_timeout_due_time s) (tcpip_tcp_timer_active s) (t_env s)).
    rewrite (bind_ok (set_next _) _ _ tt s1) by done.
    rewrite (bind_ok (on_memp _) _ _ tt (mk_tmo m (t_store s) nx (current_timeout_due_time s)
      (tcpip_tcp_timer_active s) (t_env s))) by (unfold on_memp; simpl; by rewrite Em).
    eexists _, _. split; [reflexivity|]. split_and!; [exact (Hr' (current_timeout_due_time s))|done|done].
  - destruct (untimeout_loop_spec k l (base.size (t_store s)) s fl x nx Hp Hndl) as
      (st' & m & fl' & E & Hc2 & Hm & Hperm' & _); try done.
    { apply Forall_forall. intros a Ha. split; [rewrite <- Hperm; set_solver|].
      apply Hdis. rewrite fmap_cons. set_solver. }
    eexists _, fl'. split; [exact E|]. split_and!; [|done|done]. split_and!; [exact Hm| |].
    + simpl. rewrite En. exact Hc2.
    + rewrite fmap_cons, <- app_comm_cons, Hperm', <- Hperm. done.
Qed.
End Single.

(** ** The clock of this platform *)

Section Stall.
Context {W : Type} `{HE : !Env W} (pools : memp_t -> memp_desc) `{HP : !PoolsOk pools}.
(** Every reading comes from [SysArch.sys_now] of some timer value. *)
Context (Hclock : forall e, exists v, fst (env_now e) = sys_now v).

Definition polls (n : nat) (s : tmo W) : outcome (unit * tmo W) :=
  Nat.iter n (fun o => match o with Ok (_, s') => sys_check_timeouts pools s' | _ => o end) (Ok (tt, s)).

Lemma stalled_poll (s : tmo W) fl x l :
  rep pools s fl (x :: l) -> 85899 < e_time x < 2147483648 ->
  exists e, sys_check_timeouts pools s = Ok (tt, with_env e s).
Proof.
  intros (_ & (En & Hz & nx & Ex & _) & _) Hd. unfold sys_check_timeouts.
  destruct (Hclock (t_env s)) as [v Hv]. destruct (env_now (t_env s)) as [t e] eqn:Ee. simpl in Hv. subst t.
  exists (check_free_ooseq e). rewrite (bind_ok now _ _ (sys_now v) (with_env e s))
    by (unfold now; rewrite Ee; done).
  cbn [check_loop]. rewrite (bind_ok (on_env _) _ _ tt (with_env (check_free_ooseq e) s)) by done.
  rewrite (bind_ok (gets _) _ _ (fst x) (with_env (check_free_ooseq e) s)) by (unfold gets; simpl; by rewrite En).
  apply Z.eqb_neq in Hz. rewrite Hz, (bind_ok _ _ _ _ _ (rdt_ok _ _ (with_env (check_free_ooseq e) s) Ex)).
  cbn [t_time]. pose proof (sys_now_range v) as Hr.
  assert (TIME_LESS_THAN (sys_now v) (u32 (e_time x)) = true) as ->; [|done].
  unfold TIME_LESS_THAN, LWIP_MAX_TIMEOUT. apply Z.ltb_lt. unfold u32. lia.
Qed.

(** C28: with the clock of sys_arch.c the timers stop. A reading is never more
    than 85899 ms, so an entry with a later deadline is never due: no number of
    polls runs it or any entry behind it. The ARP timer gets there: due at 85000 ms
    and run in time, it is rescheduled for 86000 ms. *)
Theorem timers_stall (s : tmo W) (fl : memp_t -> list Z) (x : entry) (l : list entry) (n : nat)
  (Hr : rep pools s fl (x :: l)) (Hd : 85899 < e_time x < 2147483648) :
  (exists e, polls n s = Ok (tt, with_env e s)) /\
  (forall s0 : tmo W, current_timeout_due_time s0 = 85000 ->
     exists e, lwip_cyclic_timer (A_cyclic 1) s0 = sys_timeout_abs 86000 ARP_key (with_env e s0)).
Proof.
  split.
  - induction n as [|n [e IH]]; [exists (t_env s); by destruct s|].
    unfold polls in *. rewrite Nat.iter_succ, IH.
    destruct (stalled_poll (with_env e s) fl x l Hr Hd) as [e' E']. exists e'. exact E'.
  - intros s0 Hdue. unfold lwip_cyclic_timer.
    rewrite (bind_ok (deref _) _ _ (ARP_TMR_INTERVAL, etharp_tmr) s0) by done. cbn [fst snd].
    set (s1 := with_env (etharp_tmr (t_env s0)) s0). rewrite (bind_ok (on_env _) _ _ tt s1) by done.
    destruct (Hclock (t_env s1)) as [v Hv]. destruct (env_now (t_env s1)) as [t e] eqn:Ee. simpl in Hv. subst t.
    exists e. rewrite (bind_ok now _ _ (sys_now v) (with_env e s0)) by (unfold now; rewrite Ee; done).
    rewrite (bind_ok (gets _) _ _ 85000 (with_env e s0)) by (unfold gets; simpl; by rewrite Hdue).
    pose proof (sys_now_range v) as Hv. change (u32 (85000 + ARP_TMR_INTERVAL)) with 86000.
    assert (TIME_LESS_THAN 86000 (sys_now v) = false) as ->; [|done].
    unfold TIME_LESS_THAN, LWIP_MAX_TIMEOUT. apply Z.ltb_ge. unfold u32. lia.
Qed.
End Stall.

(** ** Concrete clocks and states *)

Inductive ideal := Ideal (ms : Z).
Definition ideal_ms (e : ideal) : Z := match e with Ideal t => t end.
Global Instance ideal_env : Env ideal := {
  env_now := fun e => (u32 (ideal_ms e), e);
  tcp_tmr := fun e => e;
  etharp_tmr := fun e => e;
  tcp_has_pcbs := fun _ => true;
  check_free_ooseq := fun e => e }.
Global Program Instance ideal_clock : Clock ideal := { elapsed := ideal_ms }.
Solve Obligations with (intros; simpl; lia).

Definition ex_boot {W} (e : W) : tmo W := mk_tmo example_memp1 ∅ NULL 0 0 e.

Lemma ex_memp_rep : pool_rep example_pools example_memp1 (fun t => rev (elems (example_pools t))).
Proof.
  destruct (memp_init_spec example_pools example_memp0) as (s' & E & Hr); [done|].
  unfold example_memp1, exec. rewrite E. exact Hr.
Qed.

Lemma ex_boot_rep {W} (e : W) : rep example_pools (ex_boot e) (fun t => rev (elems (example_pools t))) [].
Proof. split; [exact ex_memp_rep|]. split; [reflexivity|]. simpl. symmetry. apply Permutation_rev. Qed.


Lemma sys_timeout_abs_order_witness :
  exists s' a fl', sys_timeout_abs (u32 4294968000) ARP_key (ex_boot (Ideal 0)) = Ok (tt, s') /\
    rep example_pools s' fl' [(a, (4294968000, ARP_key))].
Proof.
  destruct (sys_timeout_abs_order example_pools (ex_boot (Ideal 0)) _ [] 4294968000 ARP_key (ex_boot_rep _))
    as [_ H]; [exact I|constructor|].
  destruct H as (s' & a & fl' & E & Hr & _); [apply Nat.ltb_lt; reflexivity|].
  exists s', a, fl'. exact (conj E Hr).
Defined.

Lemma sys_untimeout_removes_witness :
  exists s s' a fl', sys_timeout_abs 5 ARP_key (ex_boot (Ideal 0)) = Ok (tt, s) /\
    sys_untimeout ARP_key s = Ok (tt, s') /\ rep example_pools s' fl' (remove_key ARP_key [(a, (5, ARP_key))]).
Proof.
  pose proof (sys_timeout_abs_spec example_pools (ex_boot (Ideal 0)) _ [] 5 ARP_key (ex_boot_rep _)) as H.
  rewrite decide_False in H by (apply Nat.eqb_neq; reflexivity).
  destruct H as (s & a & fl & E & Hr & _); [constructor|].
  destruct (sys_untimeout_removes example_pools s fl _ ARP_key Hr) as (s' & fl' & E' & Hr' & _).
  exists s, s', a, fl'. exact (conj E (conj E' Hr')).
Defined.

(** The clock of sys_arch.c on a counter that runs on. *)
Inductive board := Board (ticks : Z).
Definition board_ticks (e : board) : Z := match e with Board t => t end.
Global Instance board_env : Env board := {
  env_now := fun e => (sys_now (timer_value (board_ticks e)), Board (board_ticks e + 100));
  tcp_tmr := fun e => e;
  etharp_tmr := fun e => e;
  tcp_has_pcbs := fun _ => true;
  check_free_ooseq := fun e => e }.

Lemma timers_stall_witness :
  exists s e, sys_timeout_abs 86000 ARP_key (ex_boot (Board 4294900000)) = Ok (tt, s) /\
    polls example_pools 1000 s = Ok (tt, with_env e s).
Proof.
  pose proof (sys_timeout_abs_spec example_pools (ex_boot (Board 4294900000)) _ [] 86000 ARP_key (ex_boot_rep _)) as H.
  rewrite decide_False in H by (apply Nat.eqb_neq; reflexivity).
  destruct H as (s & a & fl & E & Hr & _); [constructor|].
  assert (forall e : board, exists v, fst (env_now e) = sys_now v) as Hc
    by (intros e; exists (timer_value (board_ticks e)); reflexivity).
  destruct (timers_stall example_pools Hc s fl _ [] 1000 Hr) as [[e Hp] _]; [simpl; lia|].
  exists s, e. exact (conj E Hp).
Defined.
