(* ===== verification/EchoTcp.v ===== *)
(** * The TCP echo server: firmware-tcp/echo_tcp.c with soc/echo_slave.py

    The echo slave at the level of clock cycles, the copy through it, and the
    receive callback; the theorem that every byte received is written back in
    order. *)

From S2P Require Import Prelude Memp Pbuf PbufSpec PbufData SatSolver TcpApi.
From stdpp Require Import base numbers list gmap.
Open Scope Z_scope.
Open Scope c_scope.

(** ** [EchoSlave] *)

Definition DEPTH : nat := 512.

Record echo := { e_mem : list Z; rd_data : Z; e_ack : bool }.

Definition echo_step (b : wb) (s : echo) : echo :=
  let adr := Z.to_nat (wb_adr b mod 512) in
  let wr_en := wb_cyc b && wb_stb b && wb_we b && negb (e_ack s) in
  {| e_mem := if wr_en then <[adr := wb_dat_w b]> (e_mem s) else e_mem s;
     rd_data := nth adr (e_mem s) 0;
     e_ack := wb_cyc b && wb_stb b && negb (e_ack s) |}.

(** A transfer after [gap] idle cycles; see [SatSolver.transfer]. *)
Definition e_transfer (b : wb) (s : echo) : Z * echo :=
  let s1 := echo_step b s in
  if e_ack s1 then (rd_data s1, echo_step b s1)
  else let s2 := echo_step b s1 in (rd_data s2, echo_step b s2).
Definition e_access (gap : nat) (b : wb) (s : echo) : Z * echo :=
  e_transfer b (SatSolver.iter gap (echo_step wb_idle) s).

Definition echo_idle (s : echo) : Prop := e_ack s = false /\ length (e_mem s) = DEPTH.

Lemma echo_gap g s : e_ack s = false ->
  e_mem (SatSolver.iter g (echo_step wb_idle) s) = e_mem s /\ e_ack (SatSolver.iter g (echo_step wb_idle) s) = false.
Proof.
  intros Ha. induction g as [|g IH]; [done|]. rewrite iter_S. destruct IH as [IH1 IH2]. by rewrite <- IH1.
Qed.

Lemma echo_write g i v s :
  echo_idle s -> 0 <= i < 512 ->
  let s' := (e_access g (wb_req true i v) s).2 in
  echo_idle s' /\ e_mem s' = <[Z.to_nat i := v]> (e_mem s).
Proof.
  intros [Ha Hl] Hi. unfold e_access, e_transfer. destruct (echo_gap g s Ha) as [E1 E2].
  set (s0 := SatSolver.iter g (echo_step wb_idle) s) in *.
  assert (e_ack (echo_step (wb_req true i v) s0) = true) as Ea by (simpl; by rewrite E2).
  rewrite Ea. cbn [snd]. set (s1 := echo_step (wb_req true i v) s0) in *.
  assert (e_mem s1 = <[Z.to_nat i := v]> (e_mem s)) as Em.
  { unfold s1, echo_step. simpl. rewrite E2. simpl. by rewrite E1, Z.mod_small by lia. }
  clearbody s1. unfold echo_idle, echo_step. simpl. rewrite Ea, Em. simpl. rewrite length_insert. done.
Qed.

Lemma echo_read g i s :
  echo_idle s -> 0 <= i < 512 ->
  let r := e_access g (wb_req false i 0) s in
  r.1 = nth (Z.to_nat i) (e_mem s) 0 /\ echo_idle r.2 /\ e_mem r.2 = e_mem s.
Proof.
  intros [Ha Hl] Hi. unfold e_access, e_transfer. destruct (echo_gap g s Ha) as [E1 E2].
  set (s0 := SatSolver.iter g (echo_step wb_idle) s) in *.
  assert (e_ack (echo_step (wb_req false i 0) s0) = true) as Ea by (simpl; by rewrite E2).
  rewrite Ea. cbn [fst snd]. clearbody s0. set (s1 := echo_step (wb_req false i 0) s0) in *.
  assert (rd_data s1 = nth (Z.to_nat i) (e_mem s) 0 /\ e_mem s1 = e_mem s) as [Er Em].
  { unfold s1, echo_step. simpl. by rewrite E1, Z.mod_small by lia. }
  clearbody s1. unfold echo_idle, echo_step. simpl. rewrite Ea, Em. done.
Qed.

(** ** The firmware *)

(** Little-endian words, as [memcpy] into an [unsigned int] that starts as 0. *)
Definition le_word (l : list Z) : Z := foldr (fun b w => b + 256 * w) 0 l.
Definition word_bytes (w : Z) : list Z :=
  [w mod 256; (w / 256) mod 256; (w / 65536) mod 256; (w / 16777216) mod 256].

Section Firmware.
Context {H T : Type} `{HH : !Heap H} `{HT : !TcpApi H T} (gap : nat -> nat).

Definition slave_write (offset value : Z) : M (fw H T echo) unit := fun w =>
  Ok (tt, set_dev (e_access (gap (a_bus w)) (wb_req true offset value) (a_dev w)).2 (S (a_bus w)) w).
Definition slave_read (offset : Z) : M (fw H T echo) Z := fun w =>
  let r := e_access (gap (a_bus w)) (wb_req false offset 0) (a_dev w) in
  Ok (r.1, set_dev r.2 (S (a_bus w)) w).

Definition load_mem (a n : Z) : M (fw H T echo) (list Z) :=
  lift_net (fun s => deref (load (n_mem s) a (Z.to_nat n)) s).

(** [(len - i * 4 >= 4) ? 4 : len - i * 4] *)
Definition chunk (len i : Z) : Z := if 4 <=? len - i * 4 then 4 else len - i * 4.

Fixpoint write_words (k : nat) (i inp len : Z) : M (fw H T echo) unit :=
  match k with
  | O => mret tt
  | S k' =>
      x ← load_mem (inp + i * 4) (chunk len i);
      slave_write i (le_word x);;
      write_words k' (i + 1) inp len
  end.

(** The bytes stored to [out] from word [i] on. *)
Fixpoint read_words (k : nat) (i len : Z) : M (fw H T echo) (list Z) :=
  match k with
  | O => mret []
  | S k' =>
      w ← slave_read i;
      rest ← read_words k' (i + 1) len;
      mret (take (Z.to_nat (chunk len i)) (word_bytes w) ++ rest)
  end.

Definition echo_through_slave (inp len : Z) : M (fw H T echo) (list Z) :=
  let words := (len + 3) / 4 in
  write_words (Z.to_nat words) 0 inp len;;
  read_words (Z.to_nat words) 0 len.

(** [for (struct pbuf *q = p; q != NULL; q = q->next)]: the error, if the
    callback returns early. *)
Fixpoint echo_loop (fuel : nat) (pcb q : Z) : M (fw H T echo) Z :=
  match fuel with
  | O => nofuel
  | S fuel' =>
      if q =? NULL then mret ERR_OK
      else
        b ← lift_net (rd q);
        if TCP_MSS <? len b then mret ERR_MEM
        else
          out ← echo_through_slave (payload b) (len b);
          e ← lift_tcp (tcp_write pcb out TCP_WRITE_FLAG_COPY);
          if negb (e =? ERR_OK) then mret e
          else b ← lift_net (rd q); echo_loop fuel' pcb (next b)
  end.

Definition echo_recv (pcb p err : Z) : M (fw H T echo) Z :=
  if negb (err =? ERR_OK) || (p =? NULL) then
    lift_tcp (tcp_close pcb);;
    (if negb (p =? NULL) then lift_net (pbuf_free p) else mret 0);;
    leds_clear 8;;
    mret ERR_OK
  else
    leds_or 4;;
    fuel ← lift_net chain_fuel;
    e ← echo_loop fuel pcb p;
    if negb (e =? ERR_OK) then
      b ← lift_net (rd p);
      lift_tcp (tcp_recved pcb (tot_len b));;
      lift_net (pbuf_free p);;
      mret e
    else
      lift_tcp (tcp_output pcb);;
      b ← lift_net (rd p);
      lift_tcp (tcp_recved pcb (tot_len b));;
      lift_net (pbuf_free p);;
      leds_or 8;;
      mret ERR_OK.

(** [echo_accept]: the connection whose data callback becomes [echo_recv]. *)
Definition echo_accept (new_pcb err : Z) : M (fw H T echo) (Z * option Z) :=
  if negb (err =? ERR_OK) || (new_pcb =? NULL) then mret (ERR_VAL, None)
  else leds_or 4;; mret (ERR_OK, Some new_pcb).
End Firmware.

(** ** The copy through the slave *)

Lemma le_word_bytes l : bytes_ok l -> (length l <= 4)%nat -> take (length l) (word_bytes (le_word l)) = l.
Proof.
  intros Hok Hl. unfold bytes_ok in Hok. unfold word_bytes, le_word.
  destruct l as [|x1 [|x2 [|x3 [|x4 [|x5 l]]]]]; simpl in Hl; try lia; rewrite ?Forall_cons in Hok; destruct_and?;
    unfold is_u8 in *; cbn [foldr length take]; repeat (f_equal; [lia|]); try (f_equal; lia); try reflexivity.
Qed.

Section Copy.
Context {H T : Type} `{HH : !Heap H} `{HT : !TcpApi H T} (gap : nat -> nat).
Implicit Types w : fw H T echo.

(** Word [i] of the data. *)
Definition word_at (d : list Z) (i : nat) : Z := le_word (take 4 (drop (i * 4) d)).

Lemma slave_write_spec i v w :
  echo_idle (a_dev w) -> 0 <= i < 512 ->
  exists d n, slave_write gap i v w = Ok (tt, set_dev d n w) /\ echo_idle d /\
    e_mem d = <[Z.to_nat i := v]> (e_mem (a_dev w)).
Proof.
  intros Hd Hi. destruct (echo_write (gap (a_bus w)) i v (a_dev w) Hd Hi) as [H1 H2].
  eexists _, _. split; [reflexivity|]. done.
Qed.

Lemma slave_read_spec i w :
  echo_idle (a_dev w) -> 0 <= i < 512 ->
  exists d n, slave_read gap i w = Ok (nth (Z.to_nat i) (e_mem (a_dev w)) 0, set_dev d n w) /\ echo_idle d /\
    e_mem d = e_mem (a_dev w).
Proof.
  intros Hd Hi. destruct (echo_read (gap (a_bus w)) i (a_dev w) Hd Hi) as (H1 & H2 & H3).
  unfold slave_read. rewrite H1. eexists _, _. split; [reflexivity|]. done.
Qed.

Lemma write_words_spec k : forall i w inp len d,
  echo_idle (a_dev w) -> load (n_mem (a_net w)) inp (Z.to_nat len) = Some d -> 0 <= i -> 0 <= len ->
  i + Z.of_nat k = (len + 3) / 4 -> len <= 2048 ->
  exists dev n, write_words gap k i inp len w = Ok (tt, set_dev dev n w) /\ echo_idle dev /\
    forall j : nat, nth j (e_mem dev) 0 =
      if decide (i <= Z.of_nat j < i + Z.of_nat k) then word_at d j else nth j (e_mem (a_dev w)) 0.
Proof.
  induction k as [|k IH]; intros i w inp len d Hd Hld Hi Hl Hk Hm; cbn [write_words].
  - exists (a_dev w), (a_bus w). split_and!; [by destruct w|exact Hd|]. intros j. by rewrite decide_False by lia.
  - assert (chunk len i = Z.min 4 (len - i * 4)) as Ec.
    { unfold chunk. destruct (Z.leb_spec 4 (len - i * 4)); lia. }
    pose proof (load_length _ _ _ _ Hld) as Hdl.
    pose proof (load_sub _ _ _ _ (Z.to_nat (i * 4)) (Z.to_nat (chunk len i)) Hld ltac:(lia)) as El.
    rewrite Z2Nat.id in El by lia.
    rewrite (bind_ok (load_mem _ _) _ _ (take (Z.to_nat (chunk len i)) (drop (Z.to_nat (i * 4)) d)) w).
    2: { apply lift_net_pure. unfold deref. by rewrite El. }
    destruct (slave_write_spec i (le_word (take (Z.to_nat (chunk len i)) (drop (Z.to_nat (i * 4)) d))) w Hd)
      as (d1 & n1 & E1 & Hd1 & Hm1); [lia|]. rewrite (bind_ok _ _ _ _ _ E1).
    destruct (IH (i + 1) (set_dev d1 n1 w) inp len d Hd1 Hld) as (d2 & n2 & E2 & Hd2 & Hm2); try lia.
    exists d2, n2. split_and!; [exact E2|exact Hd2|]. intros j. rewrite Hm2. simpl a_dev. rewrite Hm1.
    destruct (decide (Z.of_nat j = i)) as [<-|Hj].
    + rewrite decide_False, decide_True by lia. rewrite nth_lookup, Nat2Z.id.
      rewrite list_lookup_insert_eq by (destruct Hd as [_ ->]; unfold DEPTH; lia). simpl. unfold word_at. f_equal.
      replace (Z.to_nat (Z.of_nat j * 4)) with (j * 4)%nat by lia.
      destruct (Z.le_gt_cases 4 (len - Z.of_nat j * 4)).
      * by replace (Z.to_nat (chunk len (Z.of_nat j))) with 4%nat by lia.
      * rewrite !take_ge by (rewrite length_drop; lia). done.
    + assert (nth j (<[Z.to_nat i:=le_word (take (Z.to_nat (chunk len i)) (drop (Z.to_nat (i * 4)) d))]>
        (e_mem (a_dev w))) 0 = nth j (e_mem (a_dev w)) 0) as ->.
      { rewrite !nth_lookup, list_lookup_insert_ne by lia. done. }
      repeat case_decide; lia || done.
Qed.

Lemma read_words_spec k : forall i w len d,
  echo_idle (a_dev w) -> bytes_ok d -> Z.of_nat (length d) = len -> 0 <= i ->
  i + Z.of_nat k = (len + 3) / 4 -> len <= 2048 ->
  (forall j : nat, i <= Z.of_nat j < (len + 3) / 4 -> nth j (e_mem (a_dev w)) 0 = word_at d j) ->
  exists dev n, read_words gap k i len w = Ok (drop (Z.to_nat (i * 4)) d, set_dev dev n w) /\ echo_idle dev.
Proof.
  induction k as [|k IH]; intros i w len d Hd Hok Hl Hi Hk Hm Hj; cbn [read_words].
  - exists (a_dev w), (a_bus w). split; [|exact Hd]. rewrite drop_ge by lia. by destruct w.
  - destruct (slave_read_spec i w Hd) as (d1 & n1 & E1 & Hd1 & Hm1); [lia|].
    rewrite (bind_ok _ _ _ _ _ E1), (Hj (Z.to_nat i)) by lia.
    destruct (IH (i + 1) (set_dev d1 n1 w) len d Hd1 Hok Hl) as (d2 & n2 & E2 & Hd2); try lia.
    { intros j Hj'. simpl. rewrite Hm1. apply Hj. lia. }
    rewrite (bind_ok _ _ _ _ _ E2). exists d2, n2. split; [|exact Hd2].
    unfold mret, M_ret. do 2 f_equal. unfold word_at.
    set (x := take 4 (drop (Z.to_nat i * 4) d)).
    assert (length x = Z.to_nat (chunk len i)) as Hx.
    { subst x. rewrite length_take, length_drop. unfold chunk. destruct (Z.leb_spec 4 (len - i * 4)); lia. }
    rewrite <- Hx, le_word_bytes.
    + subst x. replace (Z.to_nat (i * 4)) with (Z.to_nat i * 4)%nat by lia.
      rewrite <- (take_drop 4 (drop (Z.to_nat i * 4) d)) at 2. f_equal. rewrite drop_drop. f_equal. lia.
    + subst x. by apply Forall_take, Forall_drop.
    + subst x. rewrite length_take. lia.
Qed.

(** The bytes come back as they went in. *)
Lemma echo_through_spec w inp len d :
  echo_idle (a_dev w) -> load (n_mem (a_net w)) inp (Z.to_nat len) = Some d -> bytes_ok d ->
  0 <= len <= 2048 ->
  exists dev n, echo_through_slave gap inp len w = Ok (d, set_dev dev n w) /\ echo_idle dev.
Proof.
  intros Hd Hld Hok Hl. unfold echo_through_slave. pose proof (load_length _ _ _ _ Hld) as Hdl.
  destruct (write_words_spec (Z.to_nat ((len + 3) / 4)) 0 w inp len d Hd Hld) as (d1 & n1 & E1 & Hd1 & Hm1); try lia.
  rewrite (bind_ok _ _ _ _ _ E1).
  destruct (read_words_spec (Z.to_nat ((len + 3) / 4)) 0 (set_dev d1 n1 w) len d Hd1 Hok) as (d2 & n2 & E2 & Hd2);
    try lia.
  - intros j Hj. simpl. by rewrite Hm1, decide_True by lia.
  - exists d2, n2. split; [exact E2|exact Hd2].
Qed.
End Copy.

(** ** The echo *)

(** The byte string of a chain, pbuf by pbuf. *)
Fixpoint split_data (l : list (Z * pbuf)) (d : list Z) : list (list Z) :=
  match l with
  | [] => []
  | (_, b) :: l' => take (Z.to_nat (len b)) d :: split_data l' (drop (Z.to_nat (len b)) d)
  end.

Lemma split_data_concat m l : forall d, chain_data m l = Some d -> concat (split_data l d) = d.
Proof.
  induction l as [|[a b] l IH]; intros d Hd; [by injection Hd as <-|].
  destruct (chain_data_cons _ _ _ _ _ Hd) as (d1 & d2 & -> & _ & E2 & El). cbn [split_data concat].
  rewrite take_app_length', drop_app_length' by done. by rewrite (IH d2 E2).
Qed.

Section Echo.
Context {H T : Type} `{HH : !Heap H} `{HT : !TcpApi H T} (gap : nat -> nat).
Context (pools : memp_t -> memp_desc) `{HP : !PoolsOk pools} `{HL : !HeapLaws pools H} `{HTL : !TcpLaws pools H T}.
Implicit Types w : fw H T echo.

(** Writing the chunks straight to the connection, up to the first error. *)
Fixpoint write_chunks (pcb : Z) (xs : list (list Z)) : M (net H * T) Z :=
  match xs with
  | [] => mret ERR_OK
  | x :: xs' =>
      e ← tcp_write pcb x TCP_WRITE_FLAG_COPY;
      if negb (e =? ERR_OK) then mret e else write_chunks pcb xs'
  end.

(** What the callback does after the loop. *)
Definition finish (pcb p e : Z) : M (fw H T echo) Z :=
  if negb (e =? ERR_OK) then
    b ← lift_net (rd p);
    lift_tcp (tcp_recved pcb (tot_len b));;
    lift_net (pbuf_free p);;
    mret e
  else
    lift_tcp (tcp_output pcb);;
    b ← lift_net (rd p);
    lift_tcp (tcp_recved pcb (tot_len b));;
    lift_net (pbuf_free p);;
    leds_or 8;;
    mret ERR_OK.

Lemma echo_loop_spec pcb p l : forall fuel w fl hl pre q d0 d,
  net_inv pools (a_net w) fl hl -> is_chain (n_pbufs (a_net w)) p (pre ++ l) ->
  is_chain (n_pbufs (a_net w)) q l -> chain_data (n_mem (a_net w)) (pre ++ l) = Some d0 ->
  totals (pre ++ l) -> d = drop (Z.to_nat (sum_len pre)) d0 -> bytes_ok d0 ->
  Forall (fun ab => len ab.2 <= TCP_MSS) l -> echo_idle (a_dev w) -> (length l < fuel)%nat ->
  exists e s t fl' hl' dev n,
    write_chunks pcb (split_data l d) (a_net w, a_tcp w) = Ok (e, (s, t)) /\
    echo_loop gap fuel pcb q w = Ok (e, mk_app s t dev n (a_leds w)) /\ echo_idle dev /\
    net_inv pools s fl' hl' /\ is_chain (n_pbufs s) p (pre ++ l) /\ chain_data (n_mem s) (pre ++ l) = Some d0.
Proof.
  induction l as [|[a b] l IH]; intros [|fuel] w fl hl pre q d0 d Hi Hcp Hcq Hd Ht Ed Hok Hm Hdev Hf;
    simpl in Hf; try lia.
  - simpl in Hcq. subst q. cbn [echo_loop split_data write_chunks]. rewrite Z.eqb_refl.
    eexists ERR_OK, _, _, fl, hl, (a_dev w), (a_bus w). split_and!; try done. by destruct w.
  - destruct Hcq as (-> & Hz & Ea & Hcq). apply Forall_cons in Hm as [Hmb Hm]. simpl in Hmb.
    destruct (chain_data_suffix _ _ _ _ Ht Hd) as [Hsp Hsuf]. rewrite <- Ed in Hsuf.
    pose proof (totals_app _ _ Ht) as (Hlb & _ & _ & Ht').
    destruct (chain_data_cons _ _ _ _ _ Hsuf) as (d1 & d2 & Edd & E1 & E2 & El1).
    assert (take (Z.to_nat (len b)) d = d1) as Etk by (rewrite Edd; by apply take_app_length').
    cbn [echo_loop split_data write_chunks]. rewrite Etk. apply Z.eqb_neq in Hz. rewrite Hz.
    rewrite (bind_ok (lift_net (rd a)) _ _ b w) by (by apply lift_net_pure, rd_ok).
    destruct (Z.ltb_spec TCP_MSS (len b)); [lia|].
    destruct (echo_through_spec gap w (payload b) (len b) d1 Hdev E1) as (dev1 & n1 & Et & Hdev1).
    { rewrite Ed in Edd. assert (bytes_ok (d1 ++ d2)) as Hx by (rewrite <- Edd; by apply Forall_drop).
      by apply Forall_app in Hx as [? _]. }
    { unfold TCP_MSS in *. lia. }
    rewrite (bind_ok _ _ _ _ _ Et).
    destruct (tcp_write_law pcb d1 TCP_WRITE_FLAG_COPY (a_net w) (a_tcp w) fl hl p _ d0 Hi Hcp Hd)
      as (e & s1 & t1 & fl1 & hl1 & Ew & Hi1 & Hc1 & Hd1).
    rewrite (bind_ok _ _ _ _ _ (lift_tcp_ok _ (set_dev dev1 n1 w) _ _ _ Ew)), (bind_ok _ _ _ _ _ Ew).
    destruct (negb (e =? ERR_OK)) eqn:Ee.
    { eexists e, s1, t1, fl1, hl1, dev1, n1. split_and!; done. }
    pose proof (is_chain_suffix _ _ _ _ _ _ Hc1) as (_ & _ & Ea1 & Hcq1).
    set (w1 := mk_app s1 t1 dev1 n1 (a_leds w)).
    rewrite (bind_ok (lift_net (rd a)) _ _ b w1) by (by apply lift_net_pure, rd_ok).
    destruct (IH fuel w1 fl1 hl1 (pre ++ [(a, b)]) (next b) d0 (drop (Z.to_nat (len b)) d))
      as (e' & s' & t' & fl' & hl' & dev' & n' & Ewc & Elp & Hdev' & Hi' & Hc' & Hd');
      rewrite <- ?app_assoc; try done; [|lia|].
    + rewrite Ed, drop_drop, sum_len_app. f_equal. unfold sum_len at 3. simpl. lia.
    + rewrite <- app_assoc in Hc', Hd'.
      eexists e', s', t', fl', hl', dev', n'. split_and!; done.
Qed.


(** C30: when the connection refuses a write, [echo_recv] returns the error with
    the received chain already freed: the pbuf it was called with no longer exists.
    Its caller in tcp_in.c keeps that pbuf as [refused_data] when a receive callback
    returns an error, so the pointer it keeps is dangling. *)
Theorem echo_recv_refused (pcb p e : Z) (l : list (Z * pbuf)) (d : list Z) (w : fw H T echo)
  (fl : memp_t -> list Z) (hl : gset Z) (s : net H) (t : T)
  (Hi : net_inv pools (a_net w) fl hl) (Hc : is_chain (n_pbufs (a_net w)) p l) (Hne : l <> [])
  (Ht : totals l) (Hd : chain_data (n_mem (a_net w)) l = Some d) (Hok : bytes_ok d)
  (Hm : Forall (fun ab => len ab.2 <= TCP_MSS) l) (Hdev : echo_idle (a_dev w)) (Hsp : sole_pool l)
  (Hw : write_chunks pcb (split_data l d) (a_net w, a_tcp w) = Ok (e, (s, t))) (He : e <> ERR_OK) :
  exists w', echo_recv gap pcb p ERR_OK w = Ok (e, w') /\ n_pbufs (a_net w') !! p = None.
Proof.
  pose proof (is_chain_nonnull _ _ _ Hc Hne) as Hz.
  set (w1 := mk_app (a_net w) (a_tcp w) (a_dev w) (a_bus w) (a_leds w |c 4)).
  destruct (echo_loop_spec pcb p l (S (S (base.size (n_pbufs (a_net w))))) w1 fl hl [] p d d Hi Hc Hc Hd Ht)
    as (e' & s' & t' & fl1 & hl1 & dev & n & Ew & El & _ & Hi1 & Hc1 & Hd1); try done.
  { pose proof (is_chain_size _ _ _ Hc). lia. }
  simpl in Ew. rewrite Hw in Ew. injection Ew as <- <- <-. unfold echo_recv.
  apply Z.eqb_neq in Hz as Hz'. rewrite Hz'. change (negb (ERR_OK =? ERR_OK)) with false. cbn [orb].
  rewrite (bind_ok (leds_or 4) _ _ tt w1) by done.
  rewrite (bind_ok (lift_net chain_fuel) _ _ (S (S (base.size (n_pbufs (a_net w))))) w1) by done.
  rewrite (bind_ok _ _ _ _ _ El). apply Z.eqb_neq in He. rewrite He. cbn [negb].
  destruct (chain_head s p l Hc1 Ht Hne) as (_ & b & Eb & _).
  set (w2 := mk_app s t dev n (a_leds w1)).
  rewrite (bind_ok (lift_net (rd p)) _ _ b w2) by (by apply lift_net_pure, rd_ok).
  destruct (tcp_recved_law pcb (tot_len b) s t fl1 hl1 p l d Hi1 Hc1 Hd1)
    as (s2 & t2 & fl2 & hl2 & E2 & Hi2 & Hc2 & _).
  rewrite (bind_ok _ _ _ _ _ (lift_tcp_ok _ w2 _ _ _ E2)).
  destruct (pbuf_free_sole pools l s2 fl2 hl2 p Hi2 Hc2 Hz Hsp) as (k & s3 & E3 & Es3 & _).
  rewrite (bind_ok _ _ _ _ _ (lift_net_ok (pbuf_free p) (mk_app s2 t2 dev n (a_leds w1)) _ _ E3)).
  eexists. split; [reflexivity|]. simpl. rewrite Es3, decide_True; [done|].
  destruct l as [|[a c] l]; [done|]. destruct Hc2 as (-> & _). rewrite fmap_cons. set_solver.
Qed.
End Echo.

(** ** A concrete segment *)

Definition ex_data : list Z := [72; 101; 108; 108; 111; 33; 10].
Definition ex_seg : Z * net Z :=
  get_ok (0, example_net) (pbuf_alloc example_pools 0 7 PBUF_POOL example_net).
Definition ex_seg_chain : list (Z * pbuf) := chain_of ex_seg.2 [ex_seg.1].
Definition ex_seg_mem : memory := list_to_map (zip (seqZ (ex_seg.1 + SIZEOF_STRUCT_PBUF) 7) ex_data).
Definition ex_echo : echo := {| e_mem := repeat 0 DEPTH; rd_data := 0; e_ack := false |}.
Definition ex_fw {T} (t : T) : fw Z T echo := mk_app (set_mem ex_seg_mem ex_seg.2) t ex_echo 0 3.

Lemma ex_seg_inv : exists fl, net_inv example_pools (set_mem ex_seg_mem ex_seg.2) fl ∅.
Proof.
  destruct (pbuf_alloc_pool_cases example_pools example_net _ _ 0 7 example_net_inv) as (s' & _ & Hc); [lia|lia|].
  destruct (pool_chain _ _ _) as [l|] eqn:E; [|vm_compute in E; discriminate].
  destruct Hc as (Ea & _ & _ & _ & Hi).
  assert (ex_seg.2 = s') as <- by (unfold ex_seg; by rewrite Ea).
  eexists. eapply net_inv_mem. exact Hi.
Qed.


(** A TCP core whose send buffer is full. *)
Inductive full := Full.
Global Instance full_api H : TcpApi H full := {
  tcp_close := fun _ => mret ERR_OK;
  tcp_recved := fun _ _ => mret tt;
  tcp_write := fun _ _ _ => mret ERR_MEM;
  tcp_output := fun _ => mret ERR_OK }.
Global Instance full_laws pools H `{!Heap H, !HeapLaws pools H} : TcpLaws pools H full.
Proof. split; intros; simpl; eauto 10. Qed.

Lemma echo_recv_refused_witness :
  exists w', echo_recv (fun _ => 1%nat) 7 ex_seg.1 ERR_OK (ex_fw Full) = Ok (ERR_MEM, w') /\
    n_pbufs (a_net w') !! ex_seg.1 = None.
Proof.
  destruct ex_seg_inv as [fl Hi].
  apply (echo_recv_refused (fun _ => 1%nat) example_pools 7 ex_seg.1 ERR_MEM ex_seg_chain ex_data (ex_fw Full) fl ∅
    (set_mem ex_seg_mem ex_seg.2) Full Hi).
  - vm_compute. split_and!; (reflexivity || discriminate).
  - vm_compute. discriminate.
  - vm_compute. split_and!; (reflexivity || discriminate).
  - vm_compute. reflexivity.
  - apply (bool_decide_unpack (bytes_ok ex_data)). vm_compute. reflexivity.
  - vm_compute. repeat constructor; discriminate.
  - split; reflexivity.
  - vm_compute. repeat constructor.
  - reflexivity.
  - discriminate.
Defined.
