(* ===== verification/Ethernetif.v ===== *)
(** * The network interface driver: firmware-tcp/ethernetif.c

    The driver copies frames between pbuf chains and the slots of the MAC's DMA,
    which are part of the byte memory. The register accessors that the SoC build
    generates are reads and writes of [mac]; the DMA's memory layout is a parameter.
    The memory is coherent, so the data cache flushes have no effect on it. *)

From S2P Require Import Prelude Memp Pbuf PbufSpec PbufData.
From stdpp Require Import base numbers list gmap functions sorting.
Open Scope Z_scope.
Open Scope c_scope.

(** The layout generated/mem.h gives. *)
Record dma := { ETHMAC_BASE : Z; ETHMAC_SLOT_SIZE : Z; ETHMAC_RX_SLOTS : Z; ETHMAC_TX_SLOTS : Z }.

Record mac := mk_mac {
  txslot : Z;
  busy : nat;             (* reads of reader_ready that still return 0 *)
  ev_pending : bool;      (* writer_ev_pending, bit 0 *)
  reader_ev : bool;       (* reader_ev_pending, bit 0 *)
  rx_slot : Z;            (* writer_slot *)
  rx_length : Z;          (* writer_length *)
  reader_slot : Z;
  reader_length : Z;
  started : list (Z * Z); (* the (slot, length) of every frame started *)
  leds : Z }.

(** The functions the driver installs in the interface. *)
Inductive out_fn := etharp_output_fn | low_level_output_fn.
Record netif := { hwaddr_len : Z; hwaddr : list Z; mtu : Z; flags : Z; output : out_fn; linkoutput : out_fn }.
Definition ETH_HWADDR_LEN : nat := 6.
Definition fpga_mac : list Z := [2; 0; 0; 0; 0; 1].
Definition NETIF_FLAG_BROADCAST : Z := 2.
Definition NETIF_FLAG_LINK_UP : Z := 4.
Definition NETIF_FLAG_ETHARP : Z := 8.

Record eth (H : Type) := mk_eth { e_net : net H; e_mac : mac }.
Arguments mk_eth {H}.
Arguments e_net {H}.
Arguments e_mac {H}.

Section Driver.
Context {H : Type} `{HH : !Heap H} (pools : memp_t -> memp_desc) (hw : dma).

Definition on_net {A} (m : M (net H) A) : M (eth H) A := fun s =>
  match m (e_net s) with
  | Ok (a, n) => Ok (a, mk_eth n (e_mac s))
  | AssertFail => AssertFail | Fault => Fault | NoFuel => NoFuel
  end.
Definition on_mac (f : mac -> mac) : M (eth H) unit := modify (fun s => mk_eth (e_net s) (f (e_mac s))).

Definition set_leds (x : Z) : M (eth H) unit := on_mac (fun m =>
  mk_mac (txslot m) (busy m) (ev_pending m) (reader_ev m) (rx_slot m) (rx_length m) (reader_slot m) (reader_length m) (started m) x).
Definition set_txslot (x : Z) : M (eth H) unit := on_mac (fun m =>
  mk_mac x (busy m) (ev_pending m) (reader_ev m) (rx_slot m) (rx_length m) (reader_slot m) (reader_length m) (started m) (leds m)).
Definition reader_ready_read : M (eth H) bool := fun s =>
  let m := e_mac s in
  Ok (Nat.eqb (busy m) 0, mk_eth (e_net s)
    (mk_mac (txslot m) (Nat.pred (busy m)) (ev_pending m) (reader_ev m) (rx_slot m) (rx_length m) (reader_slot m)
       (reader_length m) (started m) (leds m))).
Definition reader_slot_write (x : Z) : M (eth H) unit := on_mac (fun m =>
  mk_mac (txslot m) (busy m) (ev_pending m) (reader_ev m) (rx_slot m) (rx_length m) x (reader_length m) (started m) (leds m)).
Definition reader_length_write (x : Z) : M (eth H) unit := on_mac (fun m =>
  mk_mac (txslot m) (busy m) (ev_pending m) (reader_ev m) (rx_slot m) (rx_length m) (reader_slot m) x (started m) (leds m)).
Definition reader_start_write : M (eth H) unit := on_mac (fun m =>
  mk_mac (txslot m) (busy m) (ev_pending m) (reader_ev m) (rx_slot m) (rx_length m) (reader_slot m) (reader_length m)
    (started m ++ [(reader_slot m, reader_length m)]) (leds m)).
(** Writing 1 to the event bit clears it. *)
Definition writer_ev_clear : M (eth H) unit := on_mac (fun m =>
  mk_mac (txslot m) (busy m) false (reader_ev m) (rx_slot m) (rx_length m) (reader_slot m) (reader_length m) (started m) (leds m)).

Definition reader_ev_clear : M (eth H) unit := on_mac (fun m =>
  mk_mac (txslot m) (busy m) (ev_pending m) false (rx_slot m) (rx_length m) (reader_slot m) (reader_length m) (started m) (leds m)).

Definition tx_buf (slot : Z) : Z := ETHMAC_BASE hw + ETHMAC_SLOT_SIZE hw * (ETHMAC_RX_SLOTS hw + slot).

(** [while (!ethmac_sram_reader_ready_read());] *)
Fixpoint wait_ready (fuel : nat) : M (eth H) unit :=
  match fuel with
  | O => nofuel
  | S fuel' => r ← reader_ready_read; if (r : bool) then mret tt else wait_ready fuel'
  end.

(** The copy loop of [low_level_output]: the frame length, or [None] when the
    frame is too large. *)
Fixpoint tx_copy (fuel : nat) (q dst len0 : Z) : M (net H) (option Z) :=
  match fuel with
  | O => nofuel
  | S fuel' =>
      if q =? NULL then mret (Some len0)
      else
        b ← rd q;
        if ETHMAC_SLOT_SIZE hw <? u32 (len0 + len b) then mret None
        else
          MEMCPY (dst + len0) (payload b) (len b);;
          tx_copy fuel' (next b) dst (u32 (len0 + len b))
  end.

Definition low_level_output (p : Z) : M (eth H) Z :=
  set_leds 14;;
  n ← gets (fun s => busy (e_mac s));
  wait_ready (S n);;
  set_leds 15;;
  slot ← gets (fun s => txslot (e_mac s));
  fuel ← on_net chain_fuel;
  r ← on_net (tx_copy fuel p (tx_buf slot) 0);
  match r with
  | None => mret ERR_BUF
  | Some len0 =>
      reader_slot_write slot;;
      reader_length_write len0;;
      reader_start_write;;
      set_txslot ((slot + 1) mod ETHMAC_TX_SLOTS hw);;
      set_leds 11;;
      mret ERR_OK
  end.

(** The copy loop of [low_level_input]. *)
Fixpoint rx_copy (fuel : nat) (q src copied rxlen : Z) : M (net H) unit :=
  match fuel with
  | O => nofuel
  | S fuel' =>
      if q =? NULL then mret tt
      else
        b ← rd q;
        let chunk := if u32 (copied + len b) <=? rxlen then len b else u32 (rxlen - copied) in
        MEMCPY (payload b) (src + copied) chunk;;
        rx_copy fuel' (next b) src (u32 (copied + chunk)) rxlen
  end.

Definition low_level_input : M (eth H) Z :=
  m ← gets e_mac;
  if negb (ev_pending m) then mret NULL
  else
    let rxslot := rx_slot m in
    let rxlen := rx_length m in
    let src := ETHMAC_BASE hw + ETHMAC_SLOT_SIZE hw * rxslot in
    p ← on_net (pbuf_alloc pools PBUF_RAW (u16 rxlen) PBUF_POOL);
    (if negb (p =? NULL)
     then fuel ← on_net chain_fuel; on_net (rx_copy fuel p src 0 rxlen)
     else mret tt);;
    writer_ev_clear;;
    mret p.

(** [netif->input] is [ethernet_input], called with the received frame; it runs on the
    state [S] of the stack above, of which the driver's state is a part. *)
Definition ethernetif_input {S} (on_eth : forall A, M (eth H) A -> M S A) (input : Z -> M S Z) : M S unit :=
  p ← on_eth Z low_level_input;
  if p =? NULL then mret tt
  else
    e ← input p;
    if negb (e =? ERR_OK) then on_eth Z (on_net (pbuf_free p));; mret tt else mret tt.

Definition ethernetif_init : M (eth H) (netif * Z) :=
  let n := {| hwaddr_len := Z.of_nat ETH_HWADDR_LEN; hwaddr := take ETH_HWADDR_LEN fpga_mac; mtu := 1500;
              flags := NETIF_FLAG_BROADCAST |c NETIF_FLAG_ETHARP |c NETIF_FLAG_LINK_UP;
              output := etharp_output_fn; linkoutput := low_level_output_fn |} in
  writer_ev_clear;;
  reader_ev_clear;;
  set_txslot 0;;
  mret (n, ERR_OK).

(** ** Transmission *)

Implicit Types s : eth H.

Lemma wait_ready_spec n : forall s,
  busy (e_mac s) = n -> exists m, wait_ready (S n) s = Ok (tt, mk_eth (e_net s) m) /\
    txslot m = txslot (e_mac s) /\ started m = started (e_mac s) /\ busy m = 0%nat /\
    rx_slot m = rx_slot (e_mac s) /\ rx_length m = rx_length (e_mac s).
Proof.
  induction n as [|n IH]; intros s Hb; cbn [wait_ready]; unfold mbind, M_bind, reader_ready_read; rewrite Hb; cbn [Nat.eqb].
  - eexists. split; [reflexivity|]. done.
  - destruct (IH (mk_eth (e_net s) (mk_mac (txslot (e_mac s)) n (ev_pending (e_mac s))
      (reader_ev (e_mac s)) (rx_slot (e_mac s)) (rx_length (e_mac s)) (reader_slot (e_mac s)) (reader_length (e_mac s)) (started (e_mac s))
      (leds (e_mac s)))) eq_refl) as (m & E & Hm). exists m. split; [exact E|exact Hm].
Qed.

Lemma tx_copy_spec l : forall fuel (s : net H) q dst len0 d,
  is_chain (n_pbufs s) q l -> totals l -> chain_data (n_mem s) l = Some d -> (length l < fuel)%nat ->
  0 <= len0 -> len0 + sum_len l < 4294967296 ->
  valid_range (n_mem s) (dst + len0) (sum_len l) -> apart (dst + len0) (sum_len l) l ->
  (len0 + sum_len l <= ETHMAC_SLOT_SIZE hw ->
     exists m', store (n_mem s) (dst + len0) d = Some m' /\
       tx_copy fuel q dst len0 s = Ok (Some (len0 + sum_len l), set_mem m' s)) /\
  (len0 <= ETHMAC_SLOT_SIZE hw < len0 + sum_len l -> exists m', tx_copy fuel q dst len0 s = Ok (None, set_mem m' s)).
Proof.
  induction l as [|[a b] l IH]; intros [|fuel] s q dst len0 d Hc Ht Hd Hf H0 Hb Hv Ha; simpl in Hf; try lia.
  - simpl in Hc, Hd. subst q. injection Hd as <-. change (sum_len []) with 0 in *. cbn [tx_copy].
    rewrite Z.eqb_refl. split; [|lia]. intros _. exists (n_mem s). split; [done|].
    rewrite Z.add_0_r. by destruct s.
  - destruct Hc as (-> & Hz & Ea & Hc). pose proof Ht as (Hlb & _ & _ & Ht'). pose proof (sum_len_nonneg _ Ht').
    destruct (chain_data_cons _ _ _ _ _ Hd) as (d1 & d2 & -> & E1 & E2 & El1).
    rewrite sum_len_cons in *. cbn [tx_copy]. apply Z.eqb_neq in Hz. rewrite Hz.
    rewrite (bind_ok _ _ _ _ _ (rd_ok a b s Ea)). rewrite u32_small by (unfold is_u32; lia).
    destruct (Z.ltb_spec (ETHMAC_SLOT_SIZE hw) (len0 + len b)).
    { split; [lia|]. intros _. exists (n_mem s). by destruct s. }
    apply Forall_cons in Ha as [Hab Ha].
    destruct (store_is_Some (n_mem s) (dst + len0) d1) as [m1 Em1]; [intros i Hi; apply Hv; lia|].
    rewrite (bind_ok _ _ _ _ _ (memcpy_ok s _ _ _ _ _ E1 Em1)).
    destruct (IH fuel (set_mem m1 s) (next b) dst (len0 + len b) d2) as [IH1 IH2]; try done; try lia.
    + simpl. rewrite <- E2. eapply chain_data_store; [done|done|].
      eapply apart_mono; [| |exact Ha]; lia.
    + simpl. eapply valid_range_store; [done|]. intros i Hi. apply Hv. lia.
    + eapply apart_mono; [| |exact Ha]; lia.
    + split; intros Hle.
      * destruct IH1 as (m' & Es & E); [lia|]. exists m'. simpl in Es. split.
        -- rewrite store_app, Em1. simpl. rewrite <- Es. f_equal. lia.
        -- rewrite E. change (set_mem m' (set_mem m1 s)) with (set_mem m' s). do 3 f_equal. lia.
      * destruct IH2 as (m' & E); [lia|]. exists m'. exact E.
Qed.


(** ** Reception *)

Lemma rx_copy_spec l : forall fuel (s : net H) q src copied x,
  is_chain (n_pbufs s) q l -> totals l -> payloads_apart l -> (length l < fuel)%nat ->
  Forall (fun ab => valid_range (n_mem s) (payload ab.2) (len ab.2)) l ->
  0 <= copied -> copied + sum_len l < 4294967296 ->
  load (n_mem s) (src + copied) (Z.to_nat (sum_len l)) = Some x -> apart (src + copied) (sum_len l) l ->
  exists m', rx_copy fuel q src copied (copied + sum_len l) s = Ok (tt, set_mem m' s) /\
    chain_data m' l = Some x /\
    (forall i, Forall (fun ab => ~ (payload ab.2 <= i < payload ab.2 + len ab.2)) l -> m' !! i = n_mem s !! i) /\
    (forall i, is_Some (m' !! i) <-> is_Some (n_mem s !! i)).
Proof.
  induction l as [|[a b] l IH];
    intros [|fuel] s q src copied x Hc Ht Hpa Hf Hv H0 Hu Hx Ha; simpl in Hf; try lia.
  - simpl in Hc. subst q. injection Hx as <-. exists (n_mem s). cbn [rx_copy]. rewrite Z.eqb_refl. by destruct s.
  - destruct Hc as (-> & Hz & Ea & Hc). pose proof Ht as (Hlb & _ & _ & Ht'). pose proof (sum_len_nonneg _ Ht').
    destruct Hpa as [Hpa Hpa']. apply Forall_cons in Ha as [Hab Ha]. apply Forall_cons in Hv as [Hvb Hv].
    simpl in Hab, Hvb. rewrite sum_len_cons in *. cbn [rx_copy]. apply Z.eqb_neq in Hz. rewrite Hz.
    rewrite (bind_ok _ _ _ _ _ (rd_ok a b s Ea)). rewrite (u32_small (copied + len b)) by (unfold is_u32; lia).
    rewrite (proj2 (Z.leb_le _ _)) by lia. cbv zeta. rewrite (u32_small (copied + len b)) by (unfold is_u32; lia).
    rewrite Z2Nat.inj_add, load_app in Hx by lia.
    apply bind_Some in Hx as (x1 & Hx1 & (x2 & Hx2 & [= <-])%bind_Some).
    pose proof (load_length _ _ _ _ Hx1) as Ex1. rewrite Z2Nat.id in Hx2 by lia.
    destruct (store_is_Some (n_mem s) (payload b) x1) as [m1 Em1]; [intros i Hi; apply Hvb; lia|].
    rewrite (bind_ok _ _ _ _ _ (memcpy_ok s _ _ _ _ _ Hx1 Em1)). rewrite Z.add_assoc.
    destruct (IH fuel (set_mem m1 s) (next b) src (copied + len b) x2) as (m' & E & Hcd & Hout & Hdom); try done; try lia.
    + eapply Forall_impl; [exact Hv|]. intros ab Hr. simpl. by eapply valid_range_store.
    + simpl. rewrite (load_store_disjoint _ _ _ _ _ _ Em1) by lia. rewrite <- Hx2. f_equal. lia.
    + eapply apart_mono; [| |exact Ha]; lia.
    + exists m'. split_and!; [exact E| | |intros i; rewrite Hdom; simpl; by apply (store_dom _ _ _ _ _ Em1)].
      * simpl. rewrite Hcd. simpl. rewrite <- Ex1.
        rewrite (load_ext _ m1), (load_store _ _ _ _ Em1); [done|]. intros i Hi. apply Hout.
        eapply Forall_impl; [exact Hpa|]. intros ab ?. simpl in *. lia.
      * intros i [Hib Hil]%Forall_cons. rewrite Hout by done. simpl in Hib |- *.
        eapply store_outside; [exact Em1|]. lia.
Qed.
Context `{HP : !PoolsOk pools} `{HL : !HeapLaws pools H}.

Lemma elems_apart t a b :
  a ∈ elems (pools t) -> b ∈ elems (pools t) -> a <> b ->
  a + Memp.size (pools t) <= b \/ b + Memp.size (pools t) <= a.
Proof.
  unfold elems. intros (i & -> & _)%list_elem_of_fmap (j & -> & _)%list_elem_of_fmap Hne.
  pose proof (pool_size t) as [? _]. destruct (Nat.lt_trichotomy i j) as [?|[->|?]]; [nia|done|nia].
Qed.

Lemma elements_apart l :
  Forall (fun ab => ab.1 ∈ elems (pools MEMP_PBUF_POOL)) l -> NoDup l.*1 -> Forall (in_element pools) l ->
  payloads_apart l.
Proof.
  change SIZEOF_STRUCT_PBUF with 16.
  induction l as [|[a b] l IH]; [done|]. intros [Ha He]%Forall_cons [Hn Hnd]%NoDup_cons [Hi Hil]%Forall_cons.
  split; [|by apply IH]. apply Forall_forall. intros [c d] Hin.
  rewrite Forall_forall in He, Hil. specialize (He _ Hin). specialize (Hil _ Hin). simpl in *.
  assert (a <> c) as Hac by (intros ->; apply Hn; by apply (list_elem_of_fmap_2 fst _ (c, d))).
  pose proof (elems_apart _ _ _ Ha He Hac).
  destruct Hi as (Hi1 & _ & Hi2), Hil as (Hl1 & _ & Hl2). simpl in *. change SIZEOF_STRUCT_PBUF with 16 in *. lia.
Qed.

(** The pool's elements are live memory, apart from the receive slot. *)
Definition rx_src (m : mac) : Z := ETHMAC_BASE hw + ETHMAC_SLOT_SIZE hw * rx_slot m.
Definition rx_ready (s : eth H) : Prop :=
  Forall (fun a => valid_range (n_mem (e_net s)) a (Memp.size (pools MEMP_PBUF_POOL)) /\
    (rx_src (e_mac s) + rx_length (e_mac s) <= a \/ a + Memp.size (pools MEMP_PBUF_POOL) <= rx_src (e_mac s)))
    (elems (pools MEMP_PBUF_POOL)).

Lemma elements_ready s l :
  rx_ready s -> Forall (fun ab => ab.1 ∈ elems (pools MEMP_PBUF_POOL)) l -> Forall (in_element pools) l ->
  Forall (fun ab => valid_range (n_mem (e_net s)) (payload ab.2) (len ab.2)) l /\
  apart (rx_src (e_mac s)) (rx_length (e_mac s)) l.
Proof.
  intros Hr He Hi. unfold rx_ready in Hr. unfold apart. rewrite Forall_forall in Hr. rewrite Forall_forall in He, Hi. rewrite !Forall_forall.
  split; intros ab Hin; destruct (Hi ab Hin) as (H1 & _ & H2), (Hr _ (He ab Hin)) as [Hv Ha];
    change SIZEOF_STRUCT_PBUF with 16 in H1.
  - intros i Hx. apply Hv. lia.
  - lia.
Qed.

(** The MAC after the frame was acknowledged. *)
Definition acked (m : mac) : mac :=
  mk_mac (txslot m) (busy m) false (reader_ev m) (rx_slot m) (rx_length m) (reader_slot m) (reader_length m) (started m) (leds m).

Lemma low_level_input_cases s fl hl x :
  net_inv pools (e_net s) fl hl -> ev_pending (e_mac s) = true -> 0 <= rx_length (e_mac s) < 65536 ->
  Memp.size (pools MEMP_PBUF_POOL) = SIZEOF_STRUCT_PBUF + PBUF_POOL_BUFSIZE_ALIGNED -> rx_ready s ->
  load (n_mem (e_net s)) (rx_src (e_mac s)) (Z.to_nat (rx_length (e_mac s))) = Some x ->
  exists s', (e_mac s' = acked (e_mac s) /\ forall i, is_Some (n_mem (e_net s') !! i) <-> is_Some (n_mem (e_net s) !! i)) /\
  match pool_chain (fl MEMP_PBUF_POOL) (rx_length (e_mac s)) PBUF_RAW with
  | Some l =>
      low_level_input s = Ok (hd NULL (fl MEMP_PBUF_POOL), s') /\
      is_chain (n_pbufs (e_net s')) (hd NULL (fl MEMP_PBUF_POOL)) l /\ chain_data (n_mem (e_net s')) l = Some x /\
      (forall c, c ∉ l.*1 -> n_pbufs (e_net s') !! c = n_pbufs (e_net s) !! c) /\
      net_inv pools (e_net s') (<[MEMP_PBUF_POOL := drop (length l) (fl MEMP_PBUF_POOL)]> fl) hl
  | None =>
      low_level_input s = Ok (NULL, s') /\ n_pbufs (e_net s') = n_pbufs (e_net s) /\
      n_mem (e_net s') = n_mem (e_net s) /\
      net_inv pools (e_net s') (<[MEMP_PBUF_POOL := rev (fl MEMP_PBUF_POOL)]> fl) hl
  end.
Proof.
  intros Hi Hev Hr Hsz Hready Hx. unfold low_level_input.
  rewrite (bind_ok (gets e_mac) _ _ (e_mac s) s) by done. rewrite Hev. cbn [negb]. cbv zeta.
  rewrite u16_small by (unfold is_u16; lia). fold (rx_src (e_mac s)).
  set (m := e_mac s) in *.
  destruct (pbuf_alloc_pool_cases pools (e_net s) fl hl PBUF_RAW (rx_length m) Hi) as (n1 & Em & Hcase);
    [unfold PBUF_RAW; lia|done|].
  set (m' := acked m).
  destruct (pool_chain _ _ _) as [l|] eqn:El.
  - destruct Hcase as (E & Hc & Hout & _ & Hi1).
    assert (0 <= PBUF_RAW <= 1000) as Hraw by (unfold PBUF_RAW; lia).
    destruct (pool_chain_spec _ _ _ _ El Hr Hraw) as (Ht & Hs & _ & _ & Hne & _).
    destruct (pool_chain_elems pools (e_net s) fl hl _ _ l Hi El Hraw Hr) as [He Hnd].
    pose proof (pool_chain_in_element pools (e_net s) fl hl _ _ l Hsz Hi El Hraw Hr) as Hin.
    pose proof (is_chain_nonnull _ _ _ Hc Hne) as Hnn. apply Z.eqb_neq in Hnn.
    rewrite (bind_ok (on_net _) _ _ (hd NULL (fl MEMP_PBUF_POOL)) (mk_eth n1 m)) by (unfold on_net; by rewrite E).
    rewrite Hnn. cbn [negb].
    destruct (rx_copy_spec l (S (S (base.size (n_pbufs n1)))) n1 (hd NULL (fl MEMP_PBUF_POOL)) (rx_src m) 0 x)
      as (mem' & Erx & Hcd & _ & Hdom); try done; rewrite ?Z.add_0_r, ?Hs; try lia.
    + by apply elements_apart.
    + pose proof (is_chain_size _ _ _ Hc). lia.
    + rewrite Em. apply (elements_ready s l); done.
    + rewrite Em. exact Hx.
    + apply (elements_ready s l); done.
    + rewrite Z.add_0_l, Hs in Erx. exists (mk_eth (set_mem mem' n1) m').
      rewrite (bind_ok (mbind _ (on_net chain_fuel)) _ _ tt (mk_eth (set_mem mem' n1) m))
        by (rewrite (bind_ok (on_net chain_fuel) _ _ (S (S (base.size (n_pbufs n1)))) (mk_eth n1 m)) by done;
            unfold on_net; cbn [e_net e_mac]; by rewrite Erx).
      split_and!; [done|intros i; cbn [e_net n_mem set_mem]; by rewrite Hdom, Em|reflexivity|exact Hc|exact Hcd|exact Hout|]. by apply net_inv_mem.
  - destruct Hcase as (E & Es & _ & Hi1). exists (mk_eth n1 m').
    rewrite (bind_ok (on_net _) _ _ NULL (mk_eth n1 m)) by (unfold on_net; by rewrite E).
    split_and!; [done|intros i; cbn [e_net]; by rewrite Em|reflexivity|exact Es|exact Em|exact Hi1].
Qed.


(** A frame that the stack refuses is not leaked. When [netif->input] returns an
    error and has left the packet to the driver, [ethernetif_input] frees it: the
    pbufs are those from before the frame, and the pool has the same elements. *)
Theorem ethernetif_input_refused s (fl : memp_t -> list Z) (hl : gset Z) (x : list Z) (input : Z -> M (eth H) Z)
  (e : Z) (Hi : net_inv pools (e_net s) fl hl) (Hev : ev_pending (e_mac s) = true)
  (Hr : 0 <= rx_length (e_mac s) < 65536)
  (Hsz : Memp.size (pools MEMP_PBUF_POOL) = SIZEOF_STRUCT_PBUF + PBUF_POOL_BUFSIZE_ALIGNED)
  (Hready : rx_ready s)
  (Hx : load (n_mem (e_net s)) (rx_src (e_mac s)) (Z.to_nat (rx_length (e_mac s))) = Some x)
  (He : e <> ERR_OK) (Hin : forall p t, input p t = Ok (e, t)) :
  exists s' fl', ethernetif_input (fun _ m => m) input s = Ok (tt, s') /\ n_pbufs (e_net s') = n_pbufs (e_net s) /\
    ev_pending (e_mac s') = false /\ net_inv pools (e_net s') fl' hl /\
    fl' MEMP_PBUF_POOL ≡ₚ fl MEMP_PBUF_POOL /\ (forall t, t <> MEMP_PBUF_POOL -> fl' t = fl t).
Proof.
  destruct (low_level_input_cases s fl hl x Hi Hev Hr Hsz Hready Hx) as (s1 & [Eack _] & Hcase).
  assert (ev_pending (e_mac s1) = false) as Hev1 by (by rewrite Eack).
  unfold ethernetif_input. apply Z.eqb_neq in He. destruct (pool_chain _ _ _) as [l|] eqn:El.
  - destruct Hcase as (E & Hc & Hd & Hout & Hi1). rewrite (bind_ok _ _ _ _ _ E).
    assert (0 <= PBUF_RAW <= 1000) as Hraw by (unfold PBUF_RAW; lia).
    destruct (pool_chain_spec _ _ _ _ El Hr Hraw) as (_ & _ & Hsp & Hf & Hne & _).
    pose proof (is_chain_nonnull _ _ _ Hc Hne) as Hnn. rewrite (proj2 (Z.eqb_neq _ _) Hnn).
    rewrite (bind_ok _ _ _ _ _ (Hin _ s1)), He. cbn [negb].
    destruct (pbuf_free_sole pools l (e_net s1) _ hl _ Hi1 Hc Hnn Hsp) as (n & n2 & E2 & Es & _ & _ & Hi2).
    rewrite fn_lookup_insert in Hi2. exists (mk_eth n2 (e_mac s1)). eexists.
    rewrite (bind_ok (on_net _) _ _ n (mk_eth n2 (e_mac s1))) by (unfold on_net; by rewrite E2).
    split_and!; [reflexivity| |exact Hev1|exact Hi2| |].
    + cbn [e_net]. apply map_eq. intros c. rewrite Es. case_decide as Hcl; [|by apply Hout].
      symmetry. apply (free_elem_fresh pools (e_net s) fl hl c Hi).
      rewrite <- (take_drop (length l) (fl MEMP_PBUF_POOL)), <- Hf. set_solver.
    + rewrite fn_lookup_insert, Hf, <- Permutation_rev. by rewrite take_drop.
    + intros t Ht. by rewrite !fn_lookup_insert_ne by done.
  - destruct Hcase as (E & Es & _ & Hi1). rewrite (bind_ok _ _ _ _ _ E). exists s1. eexists.
    split_and!; [reflexivity|exact Es|exact Hev1|exact Hi1| |].
    + rewrite fn_lookup_insert. symmetry. apply Permutation_rev.
    + intros t Ht. by rewrite fn_lookup_insert_ne by done.
Qed.
End Driver.

(** ** Witnesses *)

Definition ex_dma : dma :=
  {| ETHMAC_BASE := 2147483648; ETHMAC_SLOT_SIZE := 2048; ETHMAC_RX_SLOTS := 2; ETHMAC_TX_SLOTS := 2 |}.
Definition ex_mac : mac := mk_mac 1 3 true false 1 1600 0 0 [] 0.
Definition ex_region : list Z := seqZ 268440456 6163 ++ seqZ 2147483648 8192.
Definition ex_eth : eth Z := mk_eth (set_mem (mem_on ex_region) example_net) ex_mac.
Definition ex_tx : eth Z := mk_eth (set_mem (mem_on ex_region) example_alloc.2) ex_mac.
Definition ex_tx_chain : list (Z * pbuf) := chain_of example_alloc.2 [example_alloc.1; example_second].
Definition ex_frame : list Z := (fun i => i mod 256) <$> seqZ 2147485696 1600.

Lemma ex_region_in i : 268440456 <= i < 268446619 \/ 2147483648 <= i < 2147491840 -> i ∈ ex_region.
Proof. intros Hi. apply elem_of_app. rewrite !elem_of_seqZ. lia. Qed.

Lemma ex_rx_ready : rx_ready example_pools ex_dma ex_eth.
Proof.
  apply Forall_forall. intros a Ha. apply elems_range in Ha; [|simpl; lia..]. simpl in Ha.
  change (Memp.size (example_pools MEMP_PBUF_POOL)) with 1540.
  change (rx_src ex_dma (e_mac ex_eth)) with 2147485696. split; [|lia].
  apply mem_on_valid. intros i Hi. apply ex_region_in. lia.
Qed.

Lemma ex_rx_frame : load (n_mem (e_net ex_eth)) (rx_src ex_dma (e_mac ex_eth)) (Z.to_nat 1600) = Some ex_frame.
Proof.
  change (rx_src ex_dma (e_mac ex_eth)) with 2147485696.
  exact (mem_on_load ex_region 2147485696 (Z.to_nat 1600) (fun i Hi => ex_region_in i ltac:(lia))).
Qed.

Lemma ex_tx_chain_eq : ex_tx_chain = ltac:(let x := eval vm_compute in ex_tx_chain in exact x).
Proof. vm_compute. reflexivity. Qed.



Lemma ethernetif_input_refused_witness :
  exists s', ethernetif_input example_pools ex_dma (fun _ m => m) (fun _ => mret ERR_BUF) ex_eth = Ok (tt, s') /\
    n_pbufs (e_net s') = ∅.
Proof.
  destruct (ethernetif_input_refused example_pools ex_dma ex_eth _ _ ex_frame (fun _ => mret ERR_BUF) ERR_BUF
    (net_inv_mem _ _ _ _ (mem_on ex_region) example_net_inv)) as (s' & fl' & E & Es & _);
    [reflexivity|simpl; lia|reflexivity|exact ex_rx_ready|exact ex_rx_frame|discriminate|reflexivity|].
  exists s'. exact (conj E Es).
Defined.
