(* ===== verification/EchoUdp.v ===== *)
(** * The UDP echo server: firmware/echo.c

    The receive callback and the body of the main loop over the echo slave of
    [EchoTcp]. libliteeth is a parameter: [UdpLib] says which packets a call hands
    to the callback and what a send does to the library's state. *)

From S2P Require Import Prelude SatSolver EchoTcp.
From stdpp Require Import base numbers list gmap.
Open Scope Z_scope.
Open Scope c_scope.

Definition ECHO_PORT : Z := 1234.

(** A packet handed to the callback: [p_buf] holds the bytes of the receive buffer
    from [data] on, of which the first [p_length] are the payload. *)
Record packet := { p_src_ip : Z; p_src_port : Z; p_dst_port : Z; p_buf : list Z; p_length : Z }.

(** What echo.c calls of libliteeth: [udp_service] and [udp_arp_resolve] with the
    packets that they hand to the callback, in order; [udp_send] with the contents
    of the transmit buffer. *)
Class UdpLib (U : Type) := {
  udp_service : U -> list packet * U;
  udp_arp_resolve : Z -> U -> list packet * bool * U;
  udp_send : Z -> Z -> Z -> list Z -> U -> U }.

(** The static variables of echo.c with the devices. *)
Record ufw (U : Type) := mk_ufw {
  u_lib : U; u_dev : echo; u_bus : nat; u_leds : Z; u_tx : list Z;
  pending_src_ip : Z; pending_src_port : Z; pending_dst_port : Z; pending_length : Z; pending_reply : Z }.
Arguments mk_ufw {U}.
Arguments u_lib {U}.
Arguments u_dev {U}.
Arguments u_bus {U}.
Arguments u_leds {U}.
Arguments u_tx {U}.
Arguments pending_src_ip {U}.
Arguments pending_src_port {U}.
Arguments pending_dst_port {U}.
Arguments pending_length {U}.
Arguments pending_reply {U}.

Section Firmware.
Context {U : Type} `{HU : !UdpLib U} (gap : nat -> nat).
Implicit Types s : ufw U.

Definition set_echo (d : echo) (n : nat) s : ufw U :=
  mk_ufw (u_lib s) d n (u_leds s) (u_tx s) (pending_src_ip s) (pending_src_port s)
    (pending_dst_port s) (pending_length s) (pending_reply s).
Definition set_lib (u : U) s : ufw U :=
  mk_ufw u (u_dev s) (u_bus s) (u_leds s) (u_tx s) (pending_src_ip s) (pending_src_port s)
    (pending_dst_port s) (pending_length s) (pending_reply s).
Definition set_uleds (x : Z) s : ufw U :=
  mk_ufw (u_lib s) (u_dev s) (u_bus s) x (u_tx s) (pending_src_ip s) (pending_src_port s)
    (pending_dst_port s) (pending_length s) (pending_reply s).
Definition set_tx (x : list Z) s : ufw U :=
  mk_ufw (u_lib s) (u_dev s) (u_bus s) (u_leds s) x (pending_src_ip s) (pending_src_port s)
    (pending_dst_port s) (pending_length s) (pending_reply s).
Definition set_pending (ip sp dp n r : Z) s : ufw U :=
  mk_ufw (u_lib s) (u_dev s) (u_bus s) (u_leds s) (u_tx s) ip sp dp n r.

Definition slave_write (offset value : Z) : M (ufw U) unit := fun s =>
  Ok (tt, set_echo (e_access (gap (u_bus s)) (wb_req true offset value) (u_dev s)).2 (S (u_bus s)) s).
Definition slave_read (offset : Z) : M (ufw U) Z := fun s =>
  let r := e_access (gap (u_bus s)) (wb_req false offset 0) (u_dev s) in Ok (r.1, set_echo r.2 (S (u_bus s)) s).

(** [memcpy(&w, in + i * 4, 4)] reads four bytes of the receive buffer. *)
Definition word_in (buf : list Z) (i : Z) : M (ufw U) Z := fun s =>
  let x := take 4 (drop (Z.to_nat (i * 4)) buf) in
  if Nat.eqb (length x) 4 then Ok (le_word x, s) else Fault.

(** [memcpy(out + i * 4, &w, 4)] writes four bytes of the transmit buffer. *)
Definition word_out (i w : Z) : M (ufw U) unit := fun s =>
  let o := Z.to_nat (i * 4) in
  if Nat.leb (o + 4) (length (u_tx s))
  then Ok (tt, set_tx (take o (u_tx s) ++ word_bytes w ++ drop (o + 4) (u_tx s)) s) else Fault.

Fixpoint rx_words (k : nat) (i : Z) (buf : list Z) : M (ufw U) unit :=
  match k with
  | O => mret tt
  | S k' => w ← word_in buf i; slave_write i w;; rx_words k' (i + 1) buf
  end.

Fixpoint tx_words (k : nat) (i : Z) : M (ufw U) unit :=
  match k with
  | O => mret tt
  | S k' => w ← slave_read i; word_out i w;; tx_words k' (i + 1)
  end.

Definition echo_rx (p : packet) : M (ufw U) unit :=
  if negb (p_dst_port p =? ECHO_PORT) then mret tt
  else
    modify (fun s => set_uleds (Z.lor (u_leds s) 4) s);;
    let words := u32 (p_length p + 3) / 4 in
    rx_words (Z.to_nat words) 0 (p_buf p);;
    modify (set_pending (p_src_ip p) (p_src_port p) (p_dst_port p) (p_length p) 1).

Fixpoint dispatch (ps : list packet) : M (ufw U) unit :=
  match ps with
  | [] => mret tt
  | p :: ps' => echo_rx p;; dispatch ps'
  end.

(** One iteration of [while (1)]. *)
Definition main_iter : M (ufw U) unit :=
  s ← gets id;
  let '(ps, u) := udp_service (u_lib s) in
  modify (set_lib u);;
  dispatch ps;;
  s ← gets id;
  if negb (pending_reply s =? 0) then
    modify (fun s => set_pending (pending_src_ip s) (pending_src_port s) (pending_dst_port s) (pending_length s) 0 s);;
    s ← gets id;
    let '(ps, ok, u) := udp_arp_resolve (pending_src_ip s) (u_lib s) in
    modify (set_lib u);;
    dispatch ps;;
    if negb ok then mret tt
    else
      s ← gets id;
      let words := u32 (pending_length s + 3) / 4 in
      tx_words (Z.to_nat words) 0;;
      modify (fun s => set_lib
        (udp_send (pending_dst_port s) (pending_src_port s) (pending_length s) (u_tx s) (u_lib s)) s);;
      modify (fun s => set_uleds (Z.lor (u_leds s) 8) s)
  else mret tt.

(** ** The echo *)

Definition sized (p : packet) : Prop :=
  0 <= p_length p <= 2048 /\ p_length p + 3 <= Z.of_nat (length (p_buf p)) /\ bytes_ok (p_buf p).

Lemma word_in_ok buf i s :
  0 <= i -> (i + 1) * 4 <= Z.of_nat (length buf) -> word_in buf i s = Ok (word_at buf (Z.to_nat i), s).
Proof.
  intros Hi Hl. unfold word_in, word_at. rewrite length_take, length_drop.
  replace (Z.to_nat (i * 4)) with (Z.to_nat i * 4)%nat by lia.
  rewrite (proj2 (Nat.eqb_eq _ _)) by lia. done.
Qed.

Lemma rx_words_spec k : forall i s buf,
  echo_idle (u_dev s) -> 0 <= i -> i + Z.of_nat k <= 512 -> (i + Z.of_nat k) * 4 <= Z.of_nat (length buf) ->
  exists d n, rx_words k i buf s = Ok (tt, set_echo d n s) /\ echo_idle d /\
    forall j : nat, nth j (e_mem d) 0 =
      if decide (i <= Z.of_nat j < i + Z.of_nat k) then word_at buf j else nth j (e_mem (u_dev s)) 0.
Proof.
  induction k as [|k IH]; intros i s buf Hd Hi Hk Hb; cbn [rx_words].
  - exists (u_dev s), (u_bus s). split_and!; [by destruct s|exact Hd|]. intros j. by rewrite decide_False by lia.
  - rewrite (bind_ok _ _ _ _ _ (word_in_ok buf i s Hi ltac:(lia))).
    destruct (echo_write (gap (u_bus s)) i (word_at buf (Z.to_nat i)) (u_dev s) Hd ltac:(lia)) as [Hd1 Hm1].
    set (d1 := (e_access _ _ _).2) in *.
    rewrite (bind_ok (slave_write _ _) _ _ tt (set_echo d1 (S (u_bus s)) s)) by done. clearbody d1.
    destruct (IH (i + 1) (set_echo d1 (S (u_bus s)) s) buf Hd1) as (d2 & n2 & E2 & Hd2 & Hm2); try lia.
    exists d2, n2. split_and!; [exact E2|exact Hd2|]. intros j. rewrite Hm2. cbn [u_dev set_echo]. rewrite Hm1.
    rewrite !nth_lookup. destruct (decide (Z.of_nat j = i)) as [<-|Hj].
    + rewrite decide_False, decide_True by lia. rewrite Nat2Z.id.
      by rewrite list_lookup_insert_eq by (destruct Hd as [_ ->]; unfold DEPTH; lia).
    + rewrite list_lookup_insert_ne by lia. repeat case_decide; lia || done.
Qed.

Lemma splice (tx buf : list Z) (o n : nat) : (o + 4 <= length tx)%nat -> (o + 4 <= length buf)%nat -> 
  let tx' := take o tx ++ take 4 (drop o buf) ++ drop (o + 4) tx in
  length tx' = length tx /\
  take (o + 4) tx' ++ take n (drop (o + 4) buf) ++ drop (o + 4 + n) tx' =
  take o tx ++ take (4 + n) (drop o buf) ++ drop (o + 4 + n) tx.
Proof.
  intros Ht Hb tx'. assert (length (take o tx ++ take 4 (drop o buf)) = o + 4)%nat as Hl.
  { rewrite length_app, !length_take, length_drop. lia. }
  split.
  - unfold tx'. rewrite app_assoc, length_app, Hl, length_drop. lia.
  - unfold tx'. rewrite (app_assoc (take o tx)). rewrite take_app_length' by done.
    replace (take (4 + n) (drop o buf)) with (take 4 (drop o buf) ++ take n (drop (o + 4) buf)).
    + rewrite <- !app_assoc. do 3 f_equal. rewrite (app_assoc (take o tx)), drop_app_ge by lia.
      rewrite drop_drop, Hl. f_equal. lia.
    + rewrite <- drop_drop, <- take_take_drop. done.
Qed.

Lemma tx_words_spec k : forall i s buf,
  echo_idle (u_dev s) -> 0 <= i -> i + Z.of_nat k <= 512 -> bytes_ok buf ->
  (i + Z.of_nat k) * 4 <= Z.of_nat (length buf) -> (i + Z.of_nat k) * 4 <= Z.of_nat (length (u_tx s)) ->
  (forall j : nat, i <= Z.of_nat j < i + Z.of_nat k -> nth j (e_mem (u_dev s)) 0 = word_at buf j) ->
  exists d n, echo_idle d /\ tx_words k i s = Ok (tt, set_tx (take (Z.to_nat i * 4) (u_tx s) ++
    take (k * 4) (drop (Z.to_nat i * 4) buf) ++ drop (Z.to_nat i * 4 + k * 4) (u_tx s)) (set_echo d n s)).
Proof.
  induction k as [|k IH]; intros i s buf Hd Hi Hk Hok Hb Ht Hm; cbn [tx_words].
  - exists (u_dev s), (u_bus s). split; [done|]. rewrite Nat.add_0_r. simpl. rewrite take_drop. by destruct s.
  - destruct (echo_read (gap (u_bus s)) i (u_dev s) Hd ltac:(lia)) as (Hr & Hd1 & Hm1).
    unfold slave_read at 1. set (r := e_access _ _ _) in *. cbv zeta.
    rewrite (bind_ok _ _ _ r.1 (set_echo r.2 (S (u_bus s)) s)) by done.
    rewrite Hr, Hm by lia. clearbody r. unfold word_at.
    set (o := (Z.to_nat i * 4)%nat). assert (o + 4 + k * 4 <= length buf)%nat by lia.
    set (tx' := take o (u_tx s) ++ take 4 (drop o buf) ++ drop (o + 4) (u_tx s)).
    destruct (splice (u_tx s) buf o (k * 4)) as [Hl' Hs]; [lia|lia|]. fold tx' in Hl', Hs.
    rewrite (bind_ok (word_out _ _) _ _ tt (set_tx tx' (set_echo r.2 (S (u_bus s)) s))).
    2: { unfold word_out. cbn [u_tx set_echo]. replace (Z.to_nat (i * 4)) with o by lia.
      rewrite (proj2 (Nat.leb_le _ _)) by lia. do 3 f_equal. unfold tx'. do 2 f_equal.
      assert (length (take 4 (drop o buf)) = 4)%nat as H4 by (rewrite length_take, length_drop; lia).
      pose proof (le_word_bytes (take 4 (drop o buf)) (Forall_take _ _ _ (Forall_drop _ _ _ Hok)) ltac:(lia)) as E4.
      rewrite H4 in E4. exact E4. }
    destruct (IH (i + 1) (set_tx tx' (set_echo r.2 (S (u_bus s)) s)) buf) as (d2 & n2 & Hd2 & E2); try done; try lia.
    { cbn [u_tx set_tx]. lia. }
    { intros j Hj. cbn [u_dev set_tx set_echo]. rewrite Hm1. apply Hm. lia. }
    exists d2, n2. split; [done|]. rewrite E2. cbn [u_tx set_tx].
    replace (Z.to_nat (i + 1) * 4)%nat with (o + 4)%nat by lia. rewrite Hs.
    replace (S k * 4)%nat with (4 + k * 4)%nat by lia. rewrite Nat.add_assoc. done.
Qed.
(** The slave holds the payload of [p], and the reply to it is pending. *)
Definition holds (d : echo) (p : packet) : Prop :=
  forall j : nat, Z.of_nat j < (p_length p + 3) / 4 -> nth j (e_mem d) 0 = word_at (p_buf p) j.
Definition reply_to (p : packet) s : Prop :=
  holds (u_dev s) p /\ pending_src_ip s = p_src_ip p /\ pending_src_port s = p_src_port p /\
  pending_dst_port s = p_dst_port p /\ pending_length s = p_length p.

(** The last packet for the echo port among those handed to the callback. *)
Definition last_echo (ps : list packet) : option packet :=
  last (filter (fun p => p_dst_port p = ECHO_PORT) ps).
Definition echo_sized (ps : list packet) : Prop := Forall (fun p => p_dst_port p = ECHO_PORT -> sized p) ps.

Lemma echo_rx_spec p s :
  echo_idle (u_dev s) -> p_dst_port p = ECHO_PORT -> sized p ->
  exists s', echo_rx p s = Ok (tt, s') /\ echo_idle (u_dev s') /\ u_lib s' = u_lib s /\ u_tx s' = u_tx s /\
    reply_to p s' /\ pending_reply s' = 1.
Proof.
  intros Hd Hp (Hl & Hb & Hok). unfold echo_rx. rewrite Hp, Z.eqb_refl. cbn [negb].
  rewrite (bind_ok _ _ _ tt (set_uleds (Z.lor (u_leds s) 4) s)) by done. cbv zeta.
  rewrite u32_small by (unfold is_u32; lia).
  destruct (rx_words_spec (Z.to_nat ((p_length p + 3) / 4)) 0 (set_uleds (Z.lor (u_leds s) 4) s) (p_buf p) Hd)
    as (d & n & E & Hd' & Hm); try lia.
  rewrite (bind_ok _ _ _ _ _ E). eexists. split; [reflexivity|]. unfold reply_to. split_and!; try done.
  intros j Hj. cbn [u_dev set_pending set_echo]. rewrite Hm, decide_True by lia. done.
Qed.

Lemma dispatch_spec ps : forall s,
  echo_idle (u_dev s) -> echo_sized ps ->
  exists s', dispatch ps s = Ok (tt, s') /\ echo_idle (u_dev s') /\ u_lib s' = u_lib s /\ u_tx s' = u_tx s /\
    match last_echo ps with
    | Some p => p_dst_port p = ECHO_PORT /\ sized p /\ reply_to p s' /\ pending_reply s' = 1
    | None => s' = s
    end.
Proof.
  induction ps as [|p ps IH]; intros s Hd Hs; cbn [dispatch].
  - exists s. done.
  - apply Forall_cons in Hs as [Hp Hs]. unfold last_echo. rewrite filter_cons.
    destruct (decide (p_dst_port p = ECHO_PORT)) as [Hport|Hport].
    + destruct (echo_rx_spec p s Hd Hport (Hp Hport)) as (s1 & E1 & Hd1 & El & Et & Hr & Hone).
      rewrite (bind_ok _ _ _ _ _ E1). destruct (IH s1 Hd1 Hs) as (s2 & E2 & Hd2 & El2 & Et2 & Hl).
      exists s2. split_and!; [exact E2|done|congruence|congruence|]. fold (last_echo ps).
      rewrite last_cons. unfold last_echo in Hl. destruct (last (filter _ ps)); [exact Hl|].
      subst s2. split_and!; try apply Hp; done.
    + rewrite (bind_ok (echo_rx p) _ _ tt s) by (unfold echo_rx; by rewrite (proj2 (Z.eqb_neq _ _) Hport)).
      destruct (IH s Hd Hs) as (s2 & E2 & H2). exists s2. split; [exact E2|exact H2].
Qed.

Lemma reply_same_words p s s' :
  reply_to p s -> u_dev s' = u_dev s -> pending_src_ip s' = pending_src_ip s ->
  pending_src_port s' = pending_src_port s -> pending_dst_port s' = pending_dst_port s ->
  pending_length s' = pending_length s -> reply_to p s'.
Proof. unfold reply_to. intros (? & ? & ? & ? & ?) -> -> -> -> ->. done. Qed.

(** One iteration, whatever the library hands to the callback: the reply answers the
    last packet for the port, be it one that arrived during the resolution. *)
Lemma main_iter_spec s ps1 u1 p1 ps2 u2 :
  echo_idle (u_dev s) -> 2051 <= Z.of_nat (length (u_tx s)) ->
  udp_service (u_lib s) = (ps1, u1) -> echo_sized ps1 -> last_echo ps1 = Some p1 ->
  udp_arp_resolve (p_src_ip p1) u1 = (ps2, true, u2) -> echo_sized ps2 ->
  let p := default p1 (last_echo ps2) in
  exists s' tx, main_iter s = Ok (tt, s') /\ echo_idle (u_dev s') /\
    u_lib s' = udp_send ECHO_PORT (p_src_port p) (p_length p) tx u2 /\
    take (Z.to_nat (p_length p)) tx = take (Z.to_nat (p_length p)) (p_buf p) /\
    pending_reply s' = (if last_echo ps2 is Some _ then 1 else 0).
Proof.
  intros Hd Htx Eu1 Hs1 El1 Eu2 Hs2 p. unfold main_iter.
  rewrite (bind_ok (gets id) _ _ s s) by done. rewrite Eu1. cbv beta iota.
  rewrite (bind_ok (modify _) _ _ tt (set_lib u1 s)) by done.
  destruct (dispatch_spec ps1 (set_lib u1 s) Hd Hs1) as (s1 & E1 & Hd1 & Hu1 & Ht1 & Hl1).
  rewrite El1 in Hl1. destruct Hl1 as (Hp1 & Hz1 & Hr1 & Hone).
  rewrite (bind_ok _ _ _ _ _ E1). rewrite (bind_ok (gets id) _ _ s1 s1) by done. rewrite Hone. cbn [Z.eqb negb].
  set (s2 := set_pending (pending_src_ip s1) (pending_src_port s1) (pending_dst_port s1) (pending_length s1) 0 s1).
  rewrite (bind_ok (modify _) _ _ tt s2) by done. rewrite (bind_ok (gets id) _ _ s2 s2) by done.
  assert (reply_to p1 s2) as Hr2 by (by eapply reply_same_words).
  assert (u_lib s2 = u1) as -> by exact Hu1. assert (pending_src_ip s2 = p_src_ip p1) as -> by apply Hr2.
  rewrite Eu2. cbv beta iota. rewrite (bind_ok (modify _) _ _ tt (set_lib u2 s2)) by done.
  destruct (dispatch_spec ps2 (set_lib u2 s2) Hd1 Hs2) as (s3 & E3 & Hd3 & Hu3 & Ht3 & Hl3).
  rewrite (bind_ok _ _ _ _ _ E3). cbn [negb]. rewrite (bind_ok (gets id) _ _ s3 s3) by done.
  assert (reply_to p s3 /\ sized p /\ p_dst_port p = ECHO_PORT /\
    pending_reply s3 = (if last_echo ps2 is Some _ then 1 else 0)) as (Hr3 & Hz & Hport & Hpend).
  { unfold p. destruct (last_echo ps2) as [p2|]; [naive_solver|]. subst s3. split_and!; [|done..].
    by eapply reply_same_words. }
  clearbody p. destruct Hz as (Hlen & Hbuf & Hok). destruct Hr3 as (Hh & _ & Hsp & Hdp & Hpl).
  rewrite Hpl. cbv zeta. rewrite u32_small by (unfold is_u32; lia).
  assert (length (u_tx s3) = length (u_tx s)) as Htl by (rewrite Ht3; exact (f_equal length Ht1)).
  set (k := Z.to_nat ((p_length p + 3) / 4)). assert (Z.of_nat k = (p_length p + 3) / 4) as Hk by lia. clearbody k.
  destruct (tx_words_spec k 0 s3 (p_buf p) Hd3) as (d & n & Hd4 & E4); try lia; [done|intros j Hj; apply Hh; lia|].
  rewrite (bind_ok _ _ _ _ _ E4). eexists _, _. split; [reflexivity|].
  cbn [u_dev u_lib u_tx set_uleds set_lib set_tx set_echo pending_dst_port pending_src_port pending_length pending_reply].
  rewrite Hsp, Hdp, Hport, Hpl, Hu3. split_and!; [exact Hd4|done| |exact Hpend].
  change (Z.to_nat 0 * 4)%nat with 0%nat. rewrite drop_0, take_0, app_nil_l, take_app_le by (rewrite length_take; lia).
  rewrite take_take. f_equal. lia.
Qed.

(** C33: the reply. When a packet for the echo port is the last one that [udp_service]
    hands over and none arrives while the sender's address is resolved, the iteration
    sends exactly its payload back to the port it came from, through the slave. *)
Theorem echo_udp_replies s (ps1 ps2 : list packet) (p : packet) (u1 u2 : U)
  (Hd : echo_idle (u_dev s)) (Htx : 2051 <= Z.of_nat (length (u_tx s)))
  (Hsvc : udp_service (u_lib s) = (ps1, u1)) (Hs1 : echo_sized ps1) (Hl1 : last_echo ps1 = Some p)
  (Harp : udp_arp_resolve (p_src_ip p) u1 = (ps2, true, u2)) (Hl2 : echo_sized ps2) (Hnone : last_echo ps2 = None) :
  exists s' tx, main_iter s = Ok (tt, s') /\ echo_idle (u_dev s') /\
    u_lib s' = udp_send ECHO_PORT (p_src_port p) (p_length p) tx u2 /\
    take (Z.to_nat (p_length p)) tx = take (Z.to_nat (p_length p)) (p_buf p) /\ pending_reply s' = 0.
Proof.
  destruct (main_iter_spec s ps1 u1 p ps2 u2 Hd Htx Hsvc Hs1 Hl1 Harp Hl2) as (s' & tx & H').
  rewrite Hnone in H'. exists s', tx. exact H'.
Qed.

(** C34: a packet that arrives while the address of the first sender is being resolved
    (the resolution services the interface and so calls the callback) replaces the
    stored payload: what is sent to the resolved first sender is the second packet's
    data and port, the first packet is never answered, and the second reply is still
    pending. *)
Theorem echo_udp_overwritten s (ps1 ps2 : list packet) (p1 p2 : packet) (u1 u2 : U)
  (Hd : echo_idle (u_dev s)) (Htx : 2051 <= Z.of_nat (length (u_tx s)))
  (Hsvc : udp_service (u_lib s) = (ps1, u1)) (Hs1 : echo_sized ps1) (Hl1 : last_echo ps1 = Some p1)
  (Harp : udp_arp_resolve (p_src_ip p1) u1 = (ps2, true, u2)) (Hl2 : echo_sized ps2) (Hsnd : last_echo ps2 = Some p2) :
  exists s' tx, main_iter s = Ok (tt, s') /\
    u_lib s' = udp_send ECHO_PORT (p_src_port p2) (p_length p2) tx u2 /\
    take (Z.to_nat (p_length p2)) tx = take (Z.to_nat (p_length p2)) (p_buf p2) /\ pending_reply s' = 1.
Proof.
  destruct (main_iter_spec s ps1 u1 p1 ps2 u2 Hd Htx Hsvc Hs1 Hl1 Harp Hl2) as (s' & tx & E & _ & H').
  rewrite Hsnd in H'. exists s', tx. exact (conj E H').
Qed.
End Firmware.

(** ** Witnesses: a library with one waiting packet, and maybe one more that comes
    in during the resolution. *)
Record lib := { waiting : list packet; during : list packet; sent : list (Z * Z * list Z) }.
Global Instance lib_udp : UdpLib lib := {
  udp_service u := (waiting u, {| waiting := []; during := during u; sent := sent u |});
  udp_arp_resolve _ u := (during u, true, {| waiting := waiting u; during := []; sent := sent u |});
  udp_send sp dp n tx u :=
    {| waiting := waiting u; during := during u; sent := sent u ++ [(sp, dp, take (Z.to_nat n) tx)] |} }.

Definition ex_pkt (x : Z) : packet :=
  {| p_src_ip := 3232235876; p_src_port := 5000 + x; p_dst_port := 1234; p_buf := [x; 2; 3; 4; 5; 0; 0; 0]; p_length := 5 |}.
Definition ex_ufw (l : list packet) : ufw lib :=
  mk_ufw {| waiting := [ex_pkt 1]; during := l; sent := [] |}
    {| e_mem := repeat 0 DEPTH; rd_data := 0; e_ack := false |} 0 3 (repeat 0 2100) 0 0 0 0 0.

Lemma echo_udp_replies_witness :
  exists s', main_iter (fun n => n) (ex_ufw []) = Ok (tt, s') /\ sent (u_lib s') = [(1234, 5001, [1; 2; 3; 4; 5])].
Proof.
  destruct (echo_udp_replies (fun n => n) (ex_ufw []) [ex_pkt 1] [] (ex_pkt 1)
    {| waiting := []; during := []; sent := [] |} {| waiting := []; during := []; sent := [] |} (conj eq_refl eq_refl)
    ltac:(vm_compute; discriminate) eq_refl) as (s' & tx & E & _ & Hu & Ht & _);
    [repeat constructor; simpl; lia|reflexivity|reflexivity|constructor|reflexivity|].
  exists s'. split; [exact E|]. rewrite Hu. simpl in Ht |- *. by rewrite Ht.
Defined.

Lemma echo_udp_overwritten_witness :
  exists s', main_iter (fun n => n) (ex_ufw [ex_pkt 9]) = Ok (tt, s') /\ sent (u_lib s') = [(1234, 5009, [9; 2; 3; 4; 5])].
Proof.
  destruct (echo_udp_overwritten (fun n => n) (ex_ufw [ex_pkt 9]) [ex_pkt 1] [ex_pkt 9] (ex_pkt 1) (ex_pkt 9)
    {| waiting := []; during := [ex_pkt 9]; sent := [] |} {| waiting := []; during := []; sent := [] |}
    (conj eq_refl eq_refl) ltac:(vm_compute; discriminate) eq_refl) as (s' & tx & E & Hu & Ht & _);
    [repeat constructor; simpl; lia|reflexivity|reflexivity|repeat constructor; simpl; lia|reflexivity|].
  exists s'. split; [exact E|]. rewrite Hu. simpl in Ht |- *. by rewrite Ht.
Defined.
