(* ===== verification/Mem.v ===== *)
(** * The heap: core/mem.c

    The heap is a doubly linked list of blocks threaded through one array: a
    [struct mem] in front of every block says where the next and the previous one
    are and whether the block is in use. Headers are kept in a map from their index
    in the array; a header that was merged into its neighbour stays in the map, as
    its bytes stay in the array.

    The configuration is the one of lwipopts.h: MEM_SIZE is 3072, so that
    [mem_size_t] has 16 bits, a header takes 8 bytes, and the sanity checks, the
    overflow checks, the statistics and the locks are compiled out. *)

From S2P Require Import Prelude Memp.
From stdpp Require Import base numbers list gmap.
Open Scope Z_scope.
Open Scope c_scope.

Record mem := mk_mem { next : Z; prev : Z; used : Z }.

Definition MEM_SIZE : Z := 3072.
Definition MIN_SIZE_ALIGNED : Z := LWIP_MEM_ALIGN_SIZE 12.
Definition SIZEOF_STRUCT_MEM : Z := LWIP_MEM_ALIGN_SIZE 6.
Definition MEM_SIZE_ALIGNED : Z := LWIP_MEM_ALIGN_SIZE MEM_SIZE.

(** The static variables; pointers are addresses. *)
Record heap := mk_heap { ram : Z; structs : gmap Z mem; lfree : Z; ram_end : Z }.

Definition set_structs (st : gmap Z mem) (h : heap) : heap := mk_heap (ram h) st (lfree h) (ram_end h).
Definition set_lfree (p : Z) : M heap unit := modify (fun h => mk_heap (ram h) (structs h) p (ram_end h)).

(** [*mem] *)
Definition rdm (p : Z) : M heap mem := fun h => deref (structs h !! (p - ram h)) h.
Definition wrm (p : Z) (f : mem -> mem) : M heap unit := fun h =>
  match structs h !! (p - ram h) with
  | Some b => Ok (tt, set_structs (<[p - ram h := f b]> (structs h)) h)
  | None => Fault
  end.
(** The three assignments that make a header out of raw bytes. *)
Definition new_mem (p : Z) (b : mem) : M heap unit :=
  modify (fun h => set_structs (<[p - ram h := b]> (structs h)) h).

Definition with_next (x : Z) (b : mem) : mem := mk_mem x (prev b) (used b).
Definition with_prev (x : Z) (b : mem) : mem := mk_mem (next b) x (used b).
Definition with_used (x : Z) (b : mem) : mem := mk_mem (next b) (prev b) x.

Definition ptr_to_mem (ptr : Z) : M heap Z := gets (fun h => ram h + ptr).
Definition mem_to_ptr (m : Z) : M heap Z := gets (fun h => u16 (m - ram h)).

Definition when (b : bool) (m : M heap unit) : M heap unit := if b then m else mret tt.

(** "plug hole forward" *)
Definition plug_forward (m : Z) : M heap unit :=
  h ← gets id;
  b ← rdm m;
  nmem ← ptr_to_mem (next b);
  fwd ← (if negb (m =? nmem) then
           nb ← rdm nmem; mret ((used nb =? 0) && negb (nmem =? ram_end h))
         else mret false);
  when fwd (
    when (lfree h =? nmem) (set_lfree m);;
    nb ← rdm nmem;
    wrm m (with_next (next nb));;
    when (negb (next nb =? MEM_SIZE_ALIGNED)) (
      q ← ptr_to_mem (next nb);
      i ← mem_to_ptr m;
      wrm q (with_prev i))).

(** "plug hole backward" *)
Definition plug_backward (m : Z) : M heap unit :=
  h ← gets id;
  b ← rdm m;
  pmem ← ptr_to_mem (prev b);
  bwd ← (if negb (pmem =? m) then pb ← rdm pmem; mret (used pb =? 0) else mret false);
  when bwd (
    when (lfree h =? m) (set_lfree pmem);;
    wrm pmem (with_next (next b));;
    when (negb (next b =? MEM_SIZE_ALIGNED)) (
      q ← ptr_to_mem (next b);
      i ← mem_to_ptr pmem;
      wrm q (with_prev i))).

Definition plug_holes (m : Z) : M heap unit :=
  h ← gets id;
  assert (ram h <=? m);;
  assert (m <? ram_end h);;
  b ← rdm m;
  assert (used b =? 0);;
  assert (next b <=? MEM_SIZE_ALIGNED);;
  plug_forward m;;
  plug_backward m.

(** [ram_heap] is the address of the array. *)
Definition mem_init (ram_heap : Z) : M heap unit :=
  assert ((SIZEOF_STRUCT_MEM &c (MEM_ALIGNMENT - 1)) =? 0);;
  modify (fun h => mk_heap (LWIP_MEM_ALIGN ram_heap) (structs h) (lfree h) (ram_end h));;
  h ← gets id;
  new_mem (ram h) (mk_mem MEM_SIZE_ALIGNED 0 0);;
  e ← ptr_to_mem MEM_SIZE_ALIGNED;
  modify (fun h => mk_heap (ram h) (structs h) (lfree h) e);;
  new_mem e (mk_mem MEM_SIZE_ALIGNED MEM_SIZE_ALIGNED 1);;
  set_lfree (ram h).

(** [||] evaluates its right operand only when the left one is false. *)
Definition or_else (a : bool) (m : M heap bool) : M heap bool := if a then mret true else m.

Definition mem_link_valid (m : Z) : M heap bool :=
  b ← rdm m;
  rmem_idx ← mem_to_ptr m;
  nmem ← ptr_to_mem (next b);
  pmem ← ptr_to_mem (prev b);
  h ← gets id;
  bad ← or_else (MEM_SIZE_ALIGNED <? next b) (
        or_else (MEM_SIZE_ALIGNED <? prev b) (
        c1 ← (if negb (prev b =? rmem_idx) then pb ← rdm pmem; mret (negb (next pb =? rmem_idx)) else mret false);
        or_else c1 (
        if negb (nmem =? ram_end h) then nb ← rdm nmem; mret (negb (prev nb =? rmem_idx)) else mret false)));
  mret (negb bad).

Definition LWIP_MEM_ILLEGAL_FREE : M heap unit := assert false.

Definition mem_free (rmem : Z) : M heap unit :=
  if rmem =? NULL then mret tt
  else if negb ((rmem &c (MEM_ALIGNMENT - 1)) =? 0) then LWIP_MEM_ILLEGAL_FREE
  else
    let m := rmem - SIZEOF_STRUCT_MEM in
    h ← gets id;
    if (m <? ram h) || (ram_end h <? rmem + MIN_SIZE_ALIGNED) then LWIP_MEM_ILLEGAL_FREE
    else
      b ← rdm m;
      if used b =? 0 then LWIP_MEM_ILLEGAL_FREE
      else
        v ← mem_link_valid m;
        if negb v then LWIP_MEM_ILLEGAL_FREE
        else
          wrm m (with_used 0);;
          h ← gets id;
          when (m <? lfree h) (set_lfree m);;
          plug_holes m.

Definition mem_trim (rmem new_size : Z) : M heap Z :=
  let newsize := u16 (LWIP_MEM_ALIGN_SIZE new_size) in
  let newsize := if newsize <? MIN_SIZE_ALIGNED then MIN_SIZE_ALIGNED else newsize in
  if (MEM_SIZE_ALIGNED <? newsize) || (newsize <? new_size) then mret NULL
  else
    h ← gets id;
    assert ((ram h <=? rmem) && (rmem <? ram_end h));;
    let m := rmem - SIZEOF_STRUCT_MEM in
    ptr ← mem_to_ptr m;
    b ← rdm m;
    let size := u16 (u16 (next b - ptr) - SIZEOF_STRUCT_MEM) in
    assert (newsize <=? size);;
    if size <? newsize then mret NULL
    else if newsize =? size then mret rmem
    else
      mem2 ← ptr_to_mem (next b);
      b2 ← rdm mem2;
      (if used b2 =? 0 then
         assert (negb (next b =? MEM_SIZE_ALIGNED));;
         let nx := next b2 in
         let ptr2 := u16 (ptr + SIZEOF_STRUCT_MEM + newsize) in
         p2 ← ptr_to_mem ptr2;
         h ← gets id;
         when (lfree h =? mem2) (set_lfree p2);;
         new_mem p2 (mk_mem nx ptr 0);;
         wrm m (with_next ptr2);;
         when (negb (nx =? MEM_SIZE_ALIGNED)) (q ← ptr_to_mem nx; wrm q (with_prev ptr2))
       else if newsize + SIZEOF_STRUCT_MEM + MIN_SIZE_ALIGNED <=? size then
         let ptr2 := u16 (ptr + SIZEOF_STRUCT_MEM + newsize) in
         assert (negb (next b =? MEM_SIZE_ALIGNED));;
         p2 ← ptr_to_mem ptr2;
         h ← gets id;
         when (p2 <? lfree h) (set_lfree p2);;
         new_mem p2 (mk_mem (next b) ptr 0);;
         wrm m (with_next ptr2);;
         when (negb (next b =? MEM_SIZE_ALIGNED)) (q ← ptr_to_mem (next b); wrm q (with_prev ptr2))
       else mret tt);;
      mret rmem.

(** [while (cur->used && cur != ram_end) cur = ptr_to_mem(cur->next)] *)
Fixpoint lfree_loop (fuel : nat) (cur : Z) : M heap Z :=
  match fuel with
  | O => nofuel
  | S fuel' =>
      b ← rdm cur;
      h ← gets id;
      if negb (used b =? 0) && negb (cur =? ram_end h)
      then q ← ptr_to_mem (next b); lfree_loop fuel' q
      else mret cur
  end.

Definition list_fuel : M heap nat := gets (fun h => S (base.size (structs h))).

(** The body of the search loop for a block that fits. *)
Definition take_block (ptr size : Z) : M heap Z :=
  m ← ptr_to_mem ptr;
  b ← rdm m;
  (if u32 (size + SIZEOF_STRUCT_MEM + MIN_SIZE_ALIGNED) <=? u32 (next b - (ptr + SIZEOF_STRUCT_MEM)) then
     let ptr2 := u16 (ptr + SIZEOF_STRUCT_MEM + size) in
     assert (negb (ptr2 =? MEM_SIZE_ALIGNED));;
     mem2 ← ptr_to_mem ptr2;
     new_mem mem2 (mk_mem (next b) ptr 0);;
     wrm m (with_next ptr2);;
     wrm m (with_used 1);;
     when (negb (next b =? MEM_SIZE_ALIGNED)) (q ← ptr_to_mem (next b); wrm q (with_prev ptr2))
   else wrm m (with_used 1));;
  h ← gets id;
  when (m =? lfree h) (
    fuel ← list_fuel;
    cur ← lfree_loop fuel (lfree h);
    set_lfree cur;;
    h ← gets id;
    cb ← rdm (lfree h);
    assert ((lfree h =? ram_end h) || (used cb =? 0)));;
  assert (m + SIZEOF_STRUCT_MEM + size <=? ram_end h);;
  assert ((m + SIZEOF_STRUCT_MEM) mod MEM_ALIGNMENT =? 0);;
  assert ((m &c (MEM_ALIGNMENT - 1)) =? 0);;
  mret (m + SIZEOF_STRUCT_MEM).

(** [for (ptr = mem_to_ptr(lfree); ptr < MEM_SIZE_ALIGNED - size; ...)] *)
Fixpoint search_loop (fuel : nat) (ptr size : Z) : M heap Z :=
  match fuel with
  | O => nofuel
  | S fuel' =>
      if ptr <? u32 (MEM_SIZE_ALIGNED - size) then
        m ← ptr_to_mem ptr;
        b ← rdm m;
        if (used b =? 0) && (size <=? u32 (next b - (ptr + SIZEOF_STRUCT_MEM)))
        then take_block ptr size
        else search_loop fuel' (next b) size
      else mret NULL
  end.

Definition mem_malloc (size_in : Z) : M heap Z :=
  if size_in =? 0 then mret NULL
  else
    let size := u16 (LWIP_MEM_ALIGN_SIZE size_in) in
    let size := if size <? MIN_SIZE_ALIGNED then MIN_SIZE_ALIGNED else size in
    if (MEM_SIZE_ALIGNED <? size) || (size <? size_in) then mret NULL
    else
      h ← gets id;
      ptr ← mem_to_ptr (lfree h);
      fuel ← list_fuel;
      search_loop fuel ptr size.

(** [mem_calloc] also zeroes the memory it returns. *)
Definition mem_calloc (count size : Z) : M (heap * memory) Z := fun '(h, mm) =>
  let alloc_size := u32 (count * size) in
  if negb (u16 alloc_size =? alloc_size) then Ok (NULL, (h, mm))
  else
    match mem_malloc (u16 alloc_size) h with
    | Ok (p, h') =>
        if p =? NULL then Ok (p, (h', mm))
        else match store mm p (repeat 0 (Z.to_nat alloc_size)) with
             | Some mm' => Ok (p, (h', mm')) | None => Fault end
    | AssertFail => AssertFail | Fault => Fault | NoFuel => NoFuel
    end.
