(* ===== verification/MemSpec.v ===== *)
(** * Correctness of the heap

    The headers of [Mem] as a list of blocks, first-fit allocation, freeing with
    coalescing and shrinking as operations on that list, and what a client sees: the
    reachable states, in which allocation and freeing always return. *)

From S2P Require Import Prelude Memp Mem.
From stdpp Require Import base numbers list gmap.
Open Scope Z_scope.
Open Scope c_scope.

(** ** The list of blocks *)

Record blk := Blk { b_ptr : Z; b_next : Z; b_used : bool }.

(** The headers from index [p] to [e] are those of the blocks [l]; [pv] is the block
    before them. Blocks are aligned and have room for a header and 12 bytes. *)
Fixpoint seg (st : gmap Z mem) (pv p : Z) (l : list blk) (e : Z) : Prop :=
  match l with
  | [] => p = e
  | b :: l' =>
      b_ptr b = p /\ st !! p = Some (mk_mem (b_next b) pv (Z.b2z (b_used b))) /\
      p + 20 <= b_next b /\ b_next b mod 4 = 0 /\ seg st p (b_next b) l' e
  end.

Fixpoint last_ptr (pv : Z) (l : list blk) : Z :=
  match l with [] => pv | b :: l' => last_ptr (b_ptr b) l' end.

(** The lowest free block, [e] if there is none. *)
Fixpoint first_free (l : list blk) (e : Z) : Z :=
  match l with [] => e | b :: l' => if b_used b then first_free l' e else b_ptr b end.

(** No two free blocks in a row. *)
Fixpoint no_adj (l : list blk) : Prop :=
  match l with
  | b :: (b' :: _) as l' => (b_used b || b_used b' = true) /\ no_adj l'
  | _ => True
  end.

Ltac mem_consts :=
  change SIZEOF_STRUCT_MEM with 8 in *; change MIN_SIZE_ALIGNED with 12 in *;
  change MEM_SIZE_ALIGNED with 3072 in *; change MEM_ALIGNMENT with 4 in *.

Lemma seg_app st l1 l2 e : forall pv p,
  seg st pv p (l1 ++ l2) e <-> exists q, seg st pv p l1 q /\ seg st (last_ptr pv l1) q l2 e.
Proof.
  induction l1 as [|b l1 IH]; intros pv p; simpl; [naive_solver|].
  split.
  - intros (<- & ? & ? & ? & (q & ? & ?)%IH). exists q. tauto.
  - intros (q & (<- & ? & ? & ? & ?) & ?). split_and!; [done..|]. apply IH. eauto.
Qed.

Lemma seg_le st l : forall pv p e, seg st pv p l e -> p + 20 * Z.of_nat (length l) <= e.
Proof.
  induction l as [|b l IH]; intros pv p e; simpl; [lia|].
  intros (_ & _ & ? & _ & H%IH). lia.
Qed.

Lemma seg_mod st l : forall pv p e, seg st pv p l e -> p mod 4 = 0 -> e mod 4 = 0.
Proof.
  induction l as [|b l IH]; intros pv p e; simpl; [by intros ->|].
  intros (_ & _ & _ & Hm & Hs) _. by eapply IH.
Qed.

(** A segment depends only on the headers between its ends. *)
Lemma seg_ext st st' l : forall pv p e,
  (forall k, p <= k < e -> st' !! k = st !! k) -> seg st pv p l e -> seg st' pv p l e.
Proof.
  induction l as [|b l IH]; intros pv p e Hk; simpl; [done|].
  intros (Eb & E & ? & ? & Hs). pose proof (seg_le _ _ _ _ _ Hs).
  split_and!; [done|by rewrite Hk by lia|done|done|]. apply IH; [|done]. intros k ?. apply Hk. lia.
Qed.

(** Giving the first block of a segment another predecessor. *)
Lemma seg_prev st st' l : forall pv p e q,
  (forall k, p < k < e -> st' !! k = st !! k) -> (p < e -> st' !! p = with_prev q <$> st !! p) ->
  seg st pv p l e -> seg st' q p l e.
Proof.
  intros pv p e q Hk Hp. destruct l as [|b l]; simpl; [done|]. intros (Eb & E & ? & ? & Hs).
  pose proof (seg_le _ _ _ _ _ Hs). split_and!; [done|by rewrite Hp, E by lia|done|done|].
  eapply seg_ext; [|done]. intros k ?. apply Hk. lia.
Qed.

Lemma seg_head st l : forall pv p e, seg st pv p l e -> p < e -> exists b l', l = b :: l' /\ b_ptr b = p.
Proof. intros pv p e. destruct l as [|b l]; simpl; [lia|]. intros (? & _) _. eauto. Qed.

Lemma seg_empty st l pv p e : seg st pv p l e -> e <= p -> l = [].
Proof. intros Hs ?. apply seg_le in Hs. destruct l; simpl in *; [done|lia]. Qed.

Lemma first_free_app l1 l2 e : first_free (l1 ++ l2) e = first_free l1 (first_free l2 e).
Proof. induction l1 as [|b l1 IH]; simpl; [done|]. by rewrite IH. Qed.

Lemma first_free_range st l : forall pv p e d, seg st pv p l e ->
  p <= first_free l d < e \/ (first_free l d = d /\ Forall (fun b => b_used b = true) l).
Proof.
  induction l as [|b l IH]; intros pv p e d; simpl; [right; done|].
  intros (<- & _ & ? & _ & Hs). pose proof (seg_le _ _ _ _ _ Hs). destruct (b_used b) eqn:Eu; [|left; lia].
  destruct (IH _ _ _ d Hs) as [?|[??]]; [left; lia|right]. split; [done|]. by constructor.
Qed.

Lemma first_free_all l e : Forall (fun b => b_used b = true) l -> first_free l e = e.
Proof. induction 1 as [|b l Hb Hl IH]; simpl; [done|]. by rewrite Hb. Qed.

(** A free block inside hides what comes after it. *)
Lemma first_free_swap st l : forall pv p e d,
  seg st pv p l e -> p <= first_free l e < e -> first_free l d = first_free l e.
Proof.
  induction l as [|b l IH]; intros pv p e d Hs Hr; simpl in *; [lia|].
  destruct Hs as (<- & _ & _ & _ & Hs). destruct (b_used b); [|done].
  eapply IH; [exact Hs|]. destruct (first_free_range _ _ _ _ _ e Hs) as [?|[? _]]; lia.
Qed.

Lemma no_adj_app l1 l2 : no_adj (l1 ++ l2) -> no_adj l1 /\ no_adj l2.
Proof.
  induction l1 as [|b l1 IH]; [done|]. destruct l1 as [|b' l1]; simpl.
  - destruct l2; [done|]. intros [_ ?]. done.
  - intros [? H%IH]. tauto.
Qed.

Lemma no_adj_cons b l : no_adj (b :: l) -> no_adj l.
Proof. destruct l; [done|]. by intros [_ ?]. Qed.

(** Lists that are the same at the seam glue together. *)
Lemma no_adj_glue l1 b l2 : no_adj (l1 ++ [b]) -> no_adj (b :: l2) -> no_adj (l1 ++ b :: l2).
Proof.
  induction l1 as [|b' l1 IH]; [done|]. destruct l1 as [|b'' l1]; simpl.
  - intros [? _] ?. done.
  - intros [? H] ?. split; [done|]. by apply IH.
Qed.

Lemma no_adj_used l1 b l2 : b_used b = true -> no_adj l1 -> no_adj l2 -> no_adj (l1 ++ b :: l2).
Proof.
  intros Hb H1 H2. apply no_adj_glue.
  - clear H2. induction l1 as [|b' l1 IH]; [done|]. destruct l1 as [|b'' l1]; simpl.
    + rewrite Hb. split; [apply orb_true_r|done].
    + destruct H1. split; [done|]. by apply IH.
  - destruct l2; [done|]. simpl. by rewrite Hb.
Qed.

(** The static variables represent the blocks [l]. *)
Definition wf (h : heap) (l : list blk) : Prop :=
  (0 < ram h /\ ram h mod 4 = 0 /\ ram h + 3080 < 4294967292 /\ ram_end h = ram h + 3072) /\
  structs h !! 3072 = Some (mk_mem 3072 3072 1) /\ seg (structs h) 0 0 l 3072 /\
  lfree h = ram h + first_free l 3072.
Definition heap_inv (h : heap) (l : list blk) : Prop := wf h l /\ no_adj l.

(** ** Stepping through the operations *)

Lemma bind_gets {A B} (g : heap -> A) (f : A -> M heap B) h : (gets g ≫= f) h = f (g h) h.
Proof. done. Qed.
Lemma bind_ptr {B} x (f : Z -> M heap B) h : (ptr_to_mem x ≫= f) h = f (ram h + x) h.
Proof. done. Qed.
Lemma bind_ret {A B} (a : A) (f : A -> M heap B) h : (mret a ≫= f) h = f a h.
Proof. done. Qed.
Lemma bind_assert {B} b (f : unit -> M heap B) h : b = true -> (assert b ≫= f) h = f tt h.
Proof. by intros ->. Qed.
Lemma bind_toptr {B} x (f : Z -> M heap B) h :
  0 <= x < 65536 -> (mem_to_ptr (ram h + x) ≫= f) h = f x h.
Proof.
  intros Hx. unfold mem_to_ptr. rewrite bind_gets. f_equal.
  replace (ram h + x - ram h) with x by lia. apply u16_small. unfold is_u16. lia.
Qed.
Lemma bind_rdm {B} p b (f : mem -> M heap B) h :
  structs h !! p = Some b -> (rdm (ram h + p) ≫= f) h = f b h.
Proof. intros E. unfold mbind, M_bind, rdm. replace (ram h + p - ram h) with p by lia. by rewrite E. Qed.
Lemma bind_wrm {B} p b g (f : unit -> M heap B) h :
  structs h !! p = Some b -> (wrm (ram h + p) g ≫= f) h = f tt (set_structs (<[p := g b]> (structs h)) h).
Proof. intros E. unfold mbind, M_bind, wrm. replace (ram h + p - ram h) with p by lia. by rewrite E. Qed.
Lemma run_wrm p b g h :
  structs h !! p = Some b -> wrm (ram h + p) g h = Ok (tt, set_structs (<[p := g b]> (structs h)) h).
Proof. intros E. unfold wrm. replace (ram h + p - ram h) with p by lia. by rewrite E. Qed.
Lemma bind_new {B} p b (f : unit -> M heap B) h :
  (new_mem (ram h + p) b ≫= f) h = f tt (set_structs (<[p := b]> (structs h)) h).
Proof. unfold new_mem, mbind, M_bind, modify. by replace (ram h + p - ram h) with p by lia. Qed.

(** The same when [ram] is read in an earlier state. *)
Lemma bind_wrm' {B} r p b g (f : unit -> M heap B) h :
  r = ram h -> structs h !! p = Some b -> (wrm (r + p) g ≫= f) h = f tt (set_structs (<[p := g b]> (structs h)) h).
Proof. intros ->. apply bind_wrm. Qed.
Lemma bind_rdm' {B} r p b (f : mem -> M heap B) h :
  r = ram h -> structs h !! p = Some b -> (rdm (r + p) ≫= f) h = f b h.
Proof. intros ->. apply bind_rdm. Qed.
Lemma bind_new' {B} r p b (f : unit -> M heap B) h :
  r = ram h -> (new_mem (r + p) b ≫= f) h = f tt (set_structs (<[p := b]> (structs h)) h).
Proof. intros ->. apply bind_new. Qed.
Lemma bind_toptr' {B} r x (f : Z -> M heap B) h :
  r = ram h -> 0 <= x < 65536 -> (mem_to_ptr (r + x) ≫= f) h = f x h.
Proof. intros ->. apply bind_toptr. Qed.

Lemma seg_length st l pv p e : seg st pv p l e -> 0 <= p -> (length l <= base.size st)%nat.
Proof.
  intros Hs Hp. rewrite <- (length_fmap b_ptr), <- (length_map_to_list st), <- (length_fmap fst (map_to_list st)).
  apply submseteq_length, NoDup_submseteq.
  - clear Hp. revert pv p Hs. induction l as [|b l IH]; intros pv p Hs; [constructor|].
    destruct Hs as (Eb & _ & Hl & _ & Hs). constructor; [|by eapply IH].
    intros (b' & E' & Hin)%list_elem_of_fmap. apply list_elem_of_split in Hin as (l1 & l2 & ->).
    apply seg_app in Hs as (q & Hs1 & Hs2). apply seg_le in Hs1. destruct Hs2 as (? & _). lia.
  - intros k (b & -> & Hin)%list_elem_of_fmap. apply list_elem_of_split in Hin as (l1 & l2 & ->).
    apply seg_app in Hs as (q & _ & Hs2). destruct Hs2 as (-> & E & _).
    apply list_elem_of_fmap. eexists (_, _). split; [|by apply elem_of_map_to_list]. done.
Qed.

(** The search for the next free block stops at it, or at the end of the heap. *)
Lemma lfree_loop_spec h l : forall fuel pv p,
  ram_end h = ram h + 3072 -> structs h !! 3072 = Some (mk_mem 3072 3072 1) ->
  seg (structs h) pv p l 3072 -> (length l < fuel)%nat ->
  lfree_loop fuel (ram h + p) h = Ok (ram h + first_free l 3072, h).
Proof.
  induction l as [|b l IH]; intros [|fuel] pv p He Hend Hs Hf; simpl in Hf; try lia; cbn [lfree_loop].
  - simpl in Hs. subst p. rewrite (bind_rdm _ _ _ _ Hend), bind_gets. cbn [used next id].
    rewrite He, Z.eqb_refl. done.
  - destruct Hs as (Eb & E & Hl & _ & Hs). pose proof (seg_le _ _ _ _ _ Hs) as Hle.
    rewrite (bind_rdm _ _ _ _ E), bind_gets. cbn [used next id first_free].
    rewrite He. destruct (b_used b); cbn [Z.b2z Z.eqb negb andb].
    + rewrite (proj2 (Z.eqb_neq _ _)) by lia. cbn [negb]. rewrite bind_ptr. eapply IH; try done. lia.
    + by rewrite Eb.
Qed.

Definition fits (size : Z) (b : blk) : bool := negb (b_used b) && (size <=? b_next b - b_ptr b - 8).

(** The search takes the first block that fits. *)
Lemma search_loop_spec h size l : forall fuel pv p,
  12 <= size <= 3072 -> 0 <= p -> seg (structs h) pv p l 3072 -> (length l < fuel)%nat ->
  (Forall (fun b => fits size b = false) l /\ search_loop fuel p size h = Ok (NULL, h)) \/
  (exists l1 b l2, l = l1 ++ b :: l2 /\ Forall (fun b => fits size b = false) l1 /\ fits size b = true /\
     search_loop fuel p size h = take_block (b_ptr b) size h).
Proof.
  induction l as [|b l IH]; intros [|fuel] pv p Hz Hp Hs Hf; simpl in Hf; try lia; cbn [search_loop]; mem_consts;
    rewrite (u32_small (3072 - size)) by (unfold is_u32; lia).
  - simpl in Hs. subst p. rewrite (proj2 (Z.ltb_ge _ _)) by lia. left. split; [constructor|done].
  - pose proof Hs as (Eb & E & Hl & _ & Hs'). pose proof (seg_le _ _ _ _ _ Hs') as Hle.
    destruct (Z.ltb_spec p (3072 - size)) as [Hlt|Hge].
    + rewrite bind_ptr, (bind_rdm _ _ _ _ E). cbn [used next].
      rewrite (u32_small (b_next b - (p + 8))) by (unfold is_u32; lia).
      assert ((Z.b2z (b_used b) =? 0) && (size <=? b_next b - (p + 8)) = fits size b) as ->.
      { unfold fits. rewrite Eb. replace (b_next b - (p + 8)) with (b_next b - p - 8) by lia. by destruct (b_used b). }
      destruct (fits size b) eqn:Ef.
      * right. exists [], b, l. rewrite Eb. split_and!; done || constructor.
      * destruct (IH fuel p (b_next b)) as [[Hn E1]|(l1 & b1 & l2 & -> & Hn & Hb & E1)]; try lia; [done| |].
        -- left. split; [by constructor|done].
        -- right. exists (b :: l1), b1, l2. split_and!; try done. by constructor.
    + left. split; [|done]. apply Forall_forall. intros b' Hin. apply list_elem_of_split in Hin as (l1 & l2 & El).
      rewrite El in Hs. apply seg_app in Hs as (q & Hs1 & Hs2). apply seg_le in Hs1.
      destruct Hs2 as (Eb' & _ & _ & _ & Hs2). apply seg_le in Hs2. unfold fits.
      destruct (Z.leb_spec size (b_next b' - b_ptr b' - 8)); [lia|apply andb_false_r].
Qed.

(** What becomes of the block that is taken. *)
Definition carve (size : Z) (b : blk) : list blk :=
  if size + 20 <=? b_next b - b_ptr b - 8
  then [Blk (b_ptr b) (b_ptr b + 8 + size) true; Blk (b_ptr b + 8 + size) (b_next b) false]
  else [Blk (b_ptr b) (b_next b) true].

Lemma seg_mid st l1 m l2 pv p e :
  seg st pv p (l1 ++ m ++ l2) e <->
  exists q1 q2, seg st pv p l1 q1 /\ seg st (last_ptr pv l1) q1 m q2 /\ seg st (last_ptr (last_ptr pv l1) m) q2 l2 e.
Proof.
  rewrite seg_app. split.
  - intros (q1 & H1 & (q2 & ? & ?)%seg_app). eauto.
  - intros (q1 & q2 & ? & ? & ?). exists q1. split; [done|]. apply seg_app. eauto.
Qed.

(** Lookups in a map with a few updated keys, the keys told apart by [lia]. *)
Ltac lookups :=
  repeat first [rewrite lookup_insert_eq | rewrite lookup_insert_ne by lia | progress cbn [structs set_structs]].

Lemma first_free_take l1 b b' r (e : Z) st pv p q :
  seg st pv p l1 q -> b_ptr b = q -> q < e -> b_used b = false -> b_used b' = true ->
  first_free (l1 ++ b' :: r) e = if q =? first_free (l1 ++ [b]) e then first_free (b' :: r) e
                                 else first_free (l1 ++ [b]) e.
Proof.
  intros Hs Hb Hq Hf Hu. rewrite !first_free_app. simpl. rewrite Hf, Hu, Hb.
  destruct (first_free_range _ _ _ _ _ q Hs) as [Hr|[Hr Ha]].
  - rewrite (proj2 (Z.eqb_neq _ _)) by lia.
    by eapply first_free_swap.
  - rewrite Hr, Z.eqb_refl. by apply first_free_all.
Qed.

Lemma first_free_header st l : forall pv p,
  seg st pv p l 3072 -> st !! 3072 = Some (mk_mem 3072 3072 1) ->
  exists c, st !! first_free l 3072 = Some c /\ (first_free l 3072 = 3072 \/ used c = 0).
Proof.
  induction l as [|b l IH]; intros pv p Hs He; simpl; [eauto|].
  destruct Hs as (Eb & E & _ & _ & Hs). destruct (b_used b); [by eapply IH|].
  rewrite Eb. eexists. split; [exact E|by right].
Qed.

Lemma carve_spec h l1 b l2 size :
  wf h (l1 ++ b :: l2) -> 12 <= size -> size mod 4 = 0 -> fits size b = true ->
  exists st, seg st 0 0 (l1 ++ carve size b ++ l2) 3072 /\ st !! 3072 = Some (mk_mem 3072 3072 1) /\
  forall (f : unit -> M heap Z),
  ((if u32 (size + SIZEOF_STRUCT_MEM + MIN_SIZE_ALIGNED) <=? u32 (b_next b - (b_ptr b + SIZEOF_STRUCT_MEM)) then
     let ptr2 := u16 (b_ptr b + SIZEOF_STRUCT_MEM + size) in
     assert (negb (ptr2 =? MEM_SIZE_ALIGNED));;
     mem2 ← ptr_to_mem ptr2;
     new_mem mem2 (mk_mem (b_next b) (b_ptr b) 0);;
     wrm (ram h + b_ptr b) (with_next ptr2);;
     wrm (ram h + b_ptr b) (with_used 1);;
     when (negb (b_next b =? MEM_SIZE_ALIGNED)) (q ← ptr_to_mem (b_next b); wrm q (with_prev ptr2))
   else wrm (ram h + b_ptr b) (with_used 1)) ≫= f) h = f tt (set_structs st h).
Proof.
  intros (_ & Hend & Hs & _) Hz Hm Hf. apply andb_true_iff in Hf as [Hu Hsz%Z.leb_le]. apply negb_true_iff in Hu.
  apply seg_app in Hs as (q & Hs1 & Eb & E & Hl & Hn4 & Hs2). rewrite Hu in E. simpl in E.
  pose proof (seg_le _ _ _ _ _ Hs1) as H1. pose proof (seg_le _ _ _ _ _ Hs2) as H2.
  pose proof (seg_mod _ _ _ _ _ Hs1 eq_refl) as Hq4. subst q. mem_consts.
  set (p := b_ptr b) in *. set (n := b_next b) in *.
  rewrite !u32_small by (unfold is_u32; lia). unfold carve. fold p n.
  replace (n - (p + 8)) with (n - p - 8) by lia.
  destruct (Z.leb_spec (size + 8 + 12) (n - p - 8)) as [Hsplit|Hns].
  - rewrite (proj2 (Z.leb_le _ _)) by lia. rewrite u16_small by (unfold is_u16; lia). cbv zeta.
    set (p2 := p + 8 + size).
    set (st2 := <[p := mk_mem p2 (last_ptr 0 l1) 1]> (<[p := mk_mem p2 (last_ptr 0 l1) 0]> (<[p2 := mk_mem n p 0]> (structs h)))).
    exists (if n =? 3072 then st2 else <[n := default (mk_mem 0 0 0) (with_prev p2 <$> structs h !! n)]> st2).
    split_and!.
    + apply seg_mid. exists p, n. split_and!.
      * eapply seg_ext; [|exact Hs1]. intros k Hk. destruct (n =? 3072); unfold st2; lookups; done.
      * cbn [seg b_ptr b_next b_used Z.b2z]. split_and!; try (done || lia).
        -- destruct (n =? 3072); unfold st2; lookups; done.
        -- destruct (n =? 3072); unfold st2; lookups; done.
      * simpl. eapply seg_prev; [| |exact Hs2].
        -- intros k Hk. destruct (n =? 3072) eqn:En; [lia|]. unfold st2. lookups. done.
        -- intros Hlt. rewrite (proj2 (Z.eqb_neq _ _)) by lia. lookups.
           destruct l2 as [|b2 l2]; [simpl in Hs2; lia|]. destruct Hs2 as (_ & Ec & _). fold n in Ec. by rewrite Ec.
    + destruct (Z.eqb_spec n 3072); unfold st2; lookups; done.
    + intros f. rewrite bind_assoc, bind_assert by (apply negb_true_iff, Z.eqb_neq; lia).
      rewrite bind_assoc, bind_ptr, bind_assoc, bind_new.
      rewrite bind_assoc. erewrite (bind_wrm' _ p); [|done|lookups; exact E].
      rewrite bind_assoc. erewrite (bind_wrm' _ p); [|done|lookups; reflexivity].
      change (with_used 1 _) with (mk_mem p2 (last_ptr 0 l1) 1). change (with_next _ _) with (mk_mem p2 (last_ptr 0 l1) 0).
      cbn [structs set_structs]. fold st2.
      destruct (Z.eqb_spec n 3072) as [->|Hne]; [done|]. cbn [negb when].
      destruct l2 as [|b2 l2]; [simpl in Hs2; fold n in Hs2; lia|]. destruct Hs2 as (_ & Ec & _). fold n in Ec.
      rewrite bind_assoc, bind_ptr. erewrite (bind_wrm' _ n); [|done|cbn [structs set_structs]; unfold st2; lookups; exact Ec].
      rewrite Ec. done.
  - rewrite (proj2 (Z.leb_gt _ _)) by lia. exists (<[p := mk_mem n (last_ptr 0 l1) 1]> (structs h)). split_and!.
    + apply seg_mid. exists p, n. split_and!.
      * eapply seg_ext; [|exact Hs1]. intros k Hk. lookups. done.
      * cbn [seg b_ptr b_next b_used Z.b2z]. split_and!; try (done || lia). lookups. done.
      * simpl. eapply seg_ext; [|exact Hs2]. intros k Hk. lookups. done.
    + lookups. done.
    + intros f. by erewrite (bind_wrm p) by exact E.
Qed.

Lemma take_block_spec h l1 b l2 size :
  wf h (l1 ++ b :: l2) -> 12 <= size -> size mod 4 = 0 -> fits size b = true ->
  exists h', take_block (b_ptr b) size h = Ok (ram h + b_ptr b + 8, h') /\ ram h' = ram h /\
    wf h' (l1 ++ carve size b ++ l2).
Proof.
  intros Hwf Hz Hm Hf. destruct (carve_spec h l1 b l2 size Hwf Hz Hm Hf) as (st & Hseg & Hend & Hrun).
  destruct Hwf as ((Hr0 & Hr4 & Hrb & Hre) & _ & Hs & Hlf).
  pose proof Hs as Hs'. apply seg_app in Hs' as (q & Hs1 & Eb & E & Hl & Hn4 & Hs2).
  pose proof (seg_le _ _ _ _ _ Hs1) as H1. pose proof (seg_le _ _ _ _ _ Hs2) as H2.
  pose proof (seg_mod _ _ _ _ _ Hs1 eq_refl) as Hq4. subst q.
  pose proof Hf as Hf'. apply andb_true_iff in Hf' as [Hu Hsz%Z.leb_le]. apply negb_true_iff in Hu.
  unfold take_block. rewrite bind_ptr, (bind_rdm _ _ _ _ E). cbn [next]. rewrite Hrun, bind_gets. cbn [id].
  assert (exists c r, carve size b ++ l2 = c :: r /\ b_ptr c = b_ptr b /\ b_used c = true) as (c & r & Ec & Hcp & Hcu).
  { unfold carve. destruct (size + 20 <=? b_next b - b_ptr b - 8); eexists _, _; (split; [reflexivity|done]). }
  rewrite Ec in Hseg |- *.
  assert (first_free (l1 ++ b :: l2) 3072 = first_free (l1 ++ [b]) 3072) as Hff
    by (rewrite !first_free_app; simpl; by rewrite Hu).
  set (h2 := set_structs st h). change (lfree h2) with (lfree h). change (ram_end h2) with (ram_end h).
  exists (mk_heap (ram h) st (ram h + first_free (l1 ++ c :: r) 3072) (ram_end h)).
  split_and!; [|done|unfold wf; cbn [ram structs lfree ram_end]; split_and!; done].
  assert (forall h3 : heap, (
    assert (ram h + b_ptr b + SIZEOF_STRUCT_MEM + size <=? ram_end h);;
    assert ((ram h + b_ptr b + SIZEOF_STRUCT_MEM) mod MEM_ALIGNMENT =? 0);;
    assert (((ram h + b_ptr b) &c (MEM_ALIGNMENT - 1)) =? 0);; mret (ram h + b_ptr b + SIZEOF_STRUCT_MEM)) h3 =
    Ok (ram h + b_ptr b + 8, h3)) as Htail.
  { intros h3. mem_consts. rewrite Hre. change (4 - 1) with 3. rewrite bind_assert by lia. rewrite bind_assert by (apply Z.eqb_eq; lia). rewrite bind_assert by (apply Z.eqb_eq; rewrite land_3; lia). done. }
  rewrite (first_free_take l1 b c r 3072 _ 0 0 _ Hs1 eq_refl ltac:(lia) Hu Hcu). rewrite <- Hff, Hlf.
  apply seg_app in Hseg as (q & Hg1 & Hg2). pose proof Hg2 as (Eq & _). rewrite Hcp in Eq. subst q.
  destruct (Z.eqb_spec (b_ptr b) (first_free (l1 ++ b :: l2) 3072)) as [Hm1|Hm1].
  - rewrite (proj2 (Z.eqb_eq (ram h + b_ptr b) (ram h + first_free (l1 ++ b :: l2) 3072))) by lia. cbn [when]. rewrite bind_assoc. unfold list_fuel at 1. rewrite bind_gets.
    assert (length (c :: r) < S (base.size (structs h2)))%nat as Hfuel
      by (apply Nat.lt_succ_r; eapply seg_length; [exact Hg2|lia]).
    rewrite bind_assoc, <- Hm1. change (ram h) with (ram h2) at 1.
    rewrite (bind_ok _ _ _ _ _ (lfree_loop_spec h2 (c :: r) (S (base.size (structs h2))) _ _ Hre Hend Hg2 Hfuel)).
    destruct (first_free_header _ _ _ _ Hg2 Hend) as (cb & Ecb & Hcb).
    set (ff := first_free (c :: r) 3072) in *. clearbody ff. rewrite bind_assoc.
    set (h3 := mk_heap (ram h) st (ram h + ff) (ram_end h)).
    rewrite (bind_ok (set_lfree _) _ _ tt h3) by done. rewrite bind_assoc, bind_gets. cbn [id].
    change (lfree h3) with (ram h3 + ff). rewrite bind_assoc, (bind_rdm ff cb _ h3 Ecb).
    change (ram h3) with (ram h). change (ram_end h3) with (ram_end h).
    rewrite bind_assert; [exact (Htail h3)|]. rewrite Hre.
    destruct Hcb as [->|Hcb]; [by rewrite Z.eqb_refl|rewrite Hcb; apply orb_true_r].
  - rewrite (proj2 (Z.eqb_neq (ram h + b_ptr b) (ram h + first_free (l1 ++ b :: l2) 3072))) by lia. cbn [when]. rewrite bind_ret, Htail. unfold h2, set_structs. by rewrite Hlf.
Qed.

(** The user bytes that a request gets. *)
Definition request (n : Z) : Z := Z.max 12 ((n + 3) / 4 * 4).

Lemma no_adj_carve size l1 b l2 :
  b_used b = false -> no_adj (l1 ++ b :: l2) -> no_adj (l1 ++ carve size b ++ l2).
Proof.
  intros Hu Hn. pose proof (no_adj_app _ _ Hn) as [H1 H2]. unfold carve. destruct (_ <=? _); simpl.
  - apply no_adj_used; [done|done|]. destruct l2 as [|b2 l2]; [done|].
    destruct H2 as [H2 H3]. rewrite Hu in H2. split; done.
  - apply no_adj_used; [done|done|]. by apply no_adj_cons in H2.
Qed.

(** The used blocks at the start, and the first free one. *)
Lemma first_free_split st l : forall pv p,
  seg st pv p l 3072 -> exists u r q, l = u ++ r /\ Forall (fun b => b_used b = true) u /\ seg st pv p u q /\
    seg st (last_ptr pv u) q r 3072 /\ first_free l 3072 = q.
Proof.
  induction l as [|b l IH]; intros pv p Hs.
  - exists [], [], p. simpl in *. split_and!; done || constructor.
  - pose proof Hs as (Eb & E & Hl & H4 & Hs'). simpl. destruct (b_used b) eqn:Eu.
    + destruct (IH _ _ Hs') as (u & r & q & -> & Hu & Hs1 & Hs2 & Hq). exists (b :: u), r, q.
      split_and!; [done|by constructor| |simpl; by rewrite Eb|done]. cbn [seg]. rewrite Eu. split_and!; done.
    + exists [], (b :: l), p. split_and!; done.
Qed.

(** Allocation takes the first block that fits, and fails only if none does. *)
Lemma mem_malloc_cases h l n :
  heap_inv h l -> 0 <= n < 65536 ->
  (mem_malloc n h = Ok (NULL, h) /\ (n = 0 \/ 3072 < request n \/ Forall (fun b => fits (request n) b = false) l)) \/
  (exists l1 b l2 h', l = l1 ++ b :: l2 /\ Forall (fun b => fits (request n) b = false) l1 /\
     fits (request n) b = true /\ mem_malloc n h = Ok (ram h + b_ptr b + 8, h') /\ ram h' = ram h /\
     heap_inv h' (l1 ++ carve (request n) b ++ l2)).
Proof.
  intros [Hwf Hn] Hr. unfold mem_malloc. destruct (Z.eqb_spec n 0) as [->|Hn0]; [left; auto|].
  rewrite align_size_spec by lia. mem_consts.
  destruct (Z.le_gt_cases 65533 n) as [Hbig|Hsmall].
  { assert (u16 ((n + 3) / 4 * 4) = 0) as -> by (unfold u16; lia). cbn [Z.ltb Z.compare].
    cbv zeta. rewrite (proj2 (Z.ltb_lt 12 n)) by lia. rewrite orb_true_r. left. split; [done|].
    right; left. unfold request. lia. }
  rewrite u16_small by (unfold is_u16; lia). cbv zeta.
  assert ((if (n + 3) / 4 * 4 <? 12 then 12 else (n + 3) / 4 * 4) = request n) as ->.
  { unfold request. destruct (Z.ltb_spec ((n + 3) / 4 * 4) 12); lia. }
  assert (12 <= request n /\ n <= request n /\ request n mod 4 = 0) as (Hq1 & Hq2 & Hq4) by (unfold request; lia).
  rewrite (proj2 (Z.ltb_ge (request n) n)) by lia. rewrite orb_false_r.
  destruct (Z.ltb_spec 3072 (request n)); [left; auto|].
  rewrite bind_gets. cbn [id]. pose proof Hwf as (_ & _ & Hs & Hlf).
  assert (exists u r q, l = u ++ r /\ Forall (fun b => b_used b = true) u /\ seg (structs h) 0 0 u q /\
    seg (structs h) (last_ptr 0 u) q r 3072 /\ first_free l 3072 = q) as (u & r & q & El & Hu & Hs1 & Hs2 & Hq).
  { by apply first_free_split. }
  rewrite Hlf, Hq. pose proof (seg_le _ _ _ _ _ Hs1). pose proof (seg_le _ _ _ _ _ Hs2).
  rewrite bind_toptr by lia. unfold list_fuel. rewrite bind_gets.
  assert (length r < S (base.size (structs h)))%nat as Hfuel
    by (apply Nat.lt_succ_r; eapply seg_length; [exact Hs2|lia]).
  assert (Forall (fun b => fits (request n) b = false) u) as Hnu
    by (eapply Forall_impl; [exact Hu|]; intros b Hb; unfold fits; by rewrite Hb).
  destruct (search_loop_spec h (request n) r _ _ q ltac:(lia) ltac:(lia) Hs2 Hfuel)
    as [[Hno E]|(l1 & b & l2 & -> & Hno & Hb & E)].
  - left. split; [exact E|]. right; right. subst l. by apply Forall_app.
  - right. subst l. rewrite app_assoc in *.
    destruct (take_block_spec h (u ++ l1) b l2 (request n) Hwf Hq1 Hq4 Hb) as (h' & E' & Er & Hw').
    exists (u ++ l1), b, l2, h'. split_and!; try done; [by apply Forall_app|by rewrite E|].
    split; [done|]. apply no_adj_carve; [|done]. apply andb_true_iff in Hb as [Hb _]. by apply negb_true_iff in Hb.
Qed.

(** ** Freeing *)

(** The block behind a freed one, if it is free, is merged into it. *)
Definition join (n : Z) (l2 : list blk) : Z * list blk :=
  match l2 with
  | b2 :: l2' => if b_used b2 then (n, l2) else (b_next b2, l2')
  | [] => (n, l2)
  end.
(** The blocks after [b] between [l1] and [l2] is freed. *)
Definition release (l1 : list blk) (b : blk) (l2 : list blk) : list blk :=
  let '(n, r) := join (b_next b) l2 in
  match last l1 with
  | Some pb => if b_used pb then l1 ++ Blk (b_ptr b) n false :: r
               else take (length l1 - 1) l1 ++ Blk (b_ptr pb) n false :: r
  | None => Blk (b_ptr b) n false :: r
  end.

Lemma last_ptr_snoc pv l b : last_ptr pv (l ++ [b]) = b_ptr b.
Proof. revert pv. induction l as [|b' l IH]; intros pv; simpl; [done|apply IH]. Qed.

(** Replacing the headers [m0] by [m]. *)
Lemma seg_splice st st' l1 m0 m l2 q1 q2 e :
  seg st 0 0 l1 q1 -> seg st (last_ptr 0 l1) q1 m0 q2 -> seg st (last_ptr (last_ptr 0 l1) m0) q2 l2 e ->
  (forall k, k < q1 -> st' !! k = st !! k) -> seg st' (last_ptr 0 l1) q1 m q2 ->
  (forall k, q2 < k < e -> st' !! k = st !! k) ->
  (q2 < e -> st' !! q2 = with_prev (last_ptr (last_ptr 0 l1) m) <$> st !! q2) ->
  seg st' 0 0 (l1 ++ m ++ l2) e.
Proof.
  intros H1 H0 H2 Hlo Hm Hhi Hq. apply seg_mid. exists q1, q2. split_and!; [|done|].
  - eapply seg_ext; [|exact H1]. intros k Hk. apply Hlo. lia.
  - eapply seg_prev; [exact Hhi|exact Hq|exact H2].
Qed.

(** Writing the new length of block [p] and telling the block behind it. *)
Lemma relink h p b n l pv :
  structs h !! p = Some b -> seg (structs h) pv n l 3072 -> p < n -> 0 <= p < 3072 ->
  structs h !! 3072 = Some (mk_mem 3072 3072 1) ->
  exists st, (wrm (ram h + p) (with_next n);;
      when (negb (n =? MEM_SIZE_ALIGNED)) (q ← ptr_to_mem n; i ← mem_to_ptr (ram h + p); wrm q (with_prev i))) h =
      Ok (tt, set_structs st h) /\ st !! p = Some (with_next n b) /\
    (forall k, k <> p -> k <> n -> st !! k = structs h !! k) /\ (n < 3072 -> st !! n = with_prev p <$> structs h !! n) /\
    st !! 3072 = Some (mk_mem 3072 3072 1).
Proof.
  intros E Hs Hpn Hp Hend. mem_consts. pose proof (seg_le _ _ _ _ _ Hs).
  erewrite bind_wrm by exact E. destruct (Z.eqb_spec n 3072) as [->|Hn]; cbn [negb when].
  - eexists. split; [reflexivity|]. split_and!; [by lookups|intros k ??; by lookups|lia|by lookups].
  - destruct l as [|b2 l]; [simpl in Hs; lia|]. destruct Hs as (_ & E2 & _).
    rewrite bind_ptr, (bind_toptr' _ p) by (done || lia). eexists. split.
    { eapply (run_wrm n _ _ (set_structs (<[p:=with_next n b]> (structs h)) h)). cbn [structs set_structs]. lookups. exact E2. }
    cbn [structs set_structs]. split_and!.
    + by lookups.
    + intros k ??. by lookups.
    + intros _. lookups. by rewrite E2.
    + by lookups.
Qed.

Lemma first_free_below l1 st p n l2 e pv :
  seg st pv 0 l1 p -> 0 <= p -> first_free (l1 ++ Blk p n false :: l2) e <= p /\
  forall n' r, first_free (l1 ++ Blk p n' false :: r) e = first_free (l1 ++ Blk p n false :: l2) e.
Proof.
  intros Hs Hp. rewrite first_free_app. simpl. split.
  - destruct (first_free_range _ _ _ _ _ p Hs) as [?|[? _]]; lia.
  - intros n' r. by rewrite first_free_app.
Qed.

Lemma plug_forward_spec h l1 p n l2 :
  wf h (l1 ++ Blk p n false :: l2) ->
  exists h', plug_forward (ram h + p) h = Ok (tt, h') /\ ram h' = ram h /\
    wf h' (l1 ++ Blk p (join n l2).1 false :: (join n l2).2).
Proof.
  intros (Hram & Hend & Hs & Hlf). pose proof Hram as (_ & _ & _ & Hre).
  pose proof Hs as (q & Hs1 & Hs2)%seg_app. pose proof Hs2 as (Eq & E & Hl & H4 & Hs3). simpl in Eq, Hl, H4, E, Hs3.
  subst q. pose proof (seg_le _ _ _ _ _ Hs1). pose proof (seg_le _ _ _ _ _ Hs3).
  unfold plug_forward. rewrite bind_gets, (bind_rdm _ _ _ _ E), bind_ptr. cbn [next id].
  rewrite (proj2 (Z.eqb_neq (ram h + p) (ram h + n))) by lia. cbn [negb].
  destruct l2 as [|b2 l2].
  - simpl in Hs3. subst n. rewrite bind_assoc, (bind_rdm _ _ _ _ Hend), bind_ret.
    exists h. split_and!; [reflexivity|done|]. exact (conj Hram (conj Hend (conj Hs Hlf))).
  - pose proof Hs3 as (E2p & E2 & Hl2 & H42 & Hs4). pose proof (seg_le _ _ _ _ _ Hs4).
    rewrite bind_assoc, (bind_rdm _ _ _ _ E2), bind_ret. cbn [used join].
    destruct (b_used b2) eqn:Eu.
    { exists h. split_and!; [reflexivity|done|]. exact (conj Hram (conj Hend (conj Hs Hlf))). }
    rewrite (proj2 (Z.eqb_neq (ram h + n) (ram_end h))) by lia. cbn [Z.b2z Z.eqb negb andb when fst snd].
    destruct (first_free_below l1 _ p n (b2 :: l2) 3072 _ Hs1) as [Hb Hb']; [lia|].
    rewrite Hlf, (proj2 (Z.eqb_neq (ram h + _) (ram h + n))) by lia. cbn [when].
    rewrite bind_ret, (bind_rdm _ _ _ _ E2). cbn [next].
    destruct (relink h p _ (b_next b2) l2 _ E Hs4) as (st & Er & Ep & Hk & Hn & He); try lia; [done|].
    exists (set_structs st h). split_and!; [exact Er|done|].
    refine (conj Hram (conj He (conj _ _))); [|cbn [lfree ram set_structs]; by rewrite Hb'].
    cbn [structs set_structs].
    apply (seg_splice (structs h) st l1 [Blk p n false; b2] [Blk p (b_next b2) false] l2 p (b_next b2)).
    + exact Hs1.
    + simpl. rewrite Eu. split_and!; done.
    + simpl. by rewrite E2p.
    + intros k Hk'. apply Hk; lia.
    + cbn [seg b_ptr b_next b_used]. split_and!; done || lia.
    + intros k Hk'. apply Hk; lia.
    + exact Hn.
Qed.

Lemma plug_backward_spec h l1 p n l2 :
  wf h (l1 ++ Blk p n false :: l2) ->
  exists h', plug_backward (ram h + p) h = Ok (tt, h') /\ ram h' = ram h /\
    wf h' (match last l1 with
           | Some pb => if b_used pb then l1 ++ Blk p n false :: l2
                        else take (length l1 - 1) l1 ++ Blk (b_ptr pb) n false :: l2
           | None => Blk p n false :: l2
           end).
Proof.
  intros (Hram & Hend & Hs & Hlf). pose proof Hram as (_ & _ & _ & Hre).
  pose proof Hs as (q & Hs1 & Hs2)%seg_app. pose proof Hs2 as (Eq & E & Hl & H4 & Hs3). simpl in Eq, Hl, H4, E, Hs3.
  subst q. pose proof (seg_le _ _ _ _ _ Hs1). pose proof (seg_le _ _ _ _ _ Hs3).
  unfold plug_backward. rewrite bind_gets, (bind_rdm _ _ _ _ E), bind_ptr. cbn [prev next id].
  destruct (last l1) as [pb|] eqn:El.
  - apply last_Some in El as (l0 & ->). rewrite last_ptr_snoc in *.
    apply seg_app in Hs1 as (q & Hs0 & Ep & E0 & Hl0 & H40 & Eq). simpl in Eq. subst q.
    pose proof (seg_le _ _ _ _ _ Hs0). rewrite Eq in *.
    rewrite (proj2 (Z.eqb_neq (ram h + b_ptr pb) (ram h + p))) by lia. cbn [negb].
    rewrite bind_assoc, (bind_rdm _ _ _ _ E0), bind_ret. cbn [used].
    destruct (b_used pb) eqn:Eu.
    { exists h. split_and!; [reflexivity|done|]. exact (conj Hram (conj Hend (conj Hs Hlf))). }
    cbn [Z.b2z Z.eqb when].
    assert (first_free ((l0 ++ [pb]) ++ Blk p n false :: l2) 3072 <= b_ptr pb) as Hff.
    { rewrite <- app_assoc, first_free_app. simpl. rewrite Eu.
      destruct (first_free_range _ _ _ _ _ (b_ptr pb) Hs0) as [?|[? _]]; lia. }
    rewrite Hlf, (proj2 (Z.eqb_neq (ram h + _) (ram h + p))) by lia. cbn [when]. rewrite bind_ret.
    destruct (relink h (b_ptr pb) _ n l2 _ E0 Hs3) as (st & Er & Epb & Hk & Hn & He); try lia; [done|].
    exists (set_structs st h). split_and!; [exact Er|done|]. rewrite length_app, Nat.add_sub, take_app_length.
    refine (conj Hram (conj He (conj _ _))); cbn [lfree ram set_structs].
    + cbn [structs set_structs].
      apply (seg_splice (structs h) st l0 [pb; Blk p n false] [Blk (b_ptr pb) n false] l2 (b_ptr pb) n).
      * exact Hs0.
      * simpl. rewrite Eu, Eq. split_and!; done || lia.
      * exact Hs3.
      * intros k Hk'. apply Hk; lia.
      * cbn [seg b_ptr b_next b_used]. split_and!; done || lia.
      * intros k Hk'. apply Hk; lia.
      * exact Hn.
    + rewrite Hlf, <- app_assoc, !first_free_app. simpl. by rewrite Eu.
  - apply last_None in El as ->. simpl in Hs1. subst p. simpl. rewrite Z.eqb_refl. cbn [negb]. rewrite bind_ret.
    exists h. split_and!; [reflexivity|done|]. exact (conj Hram (conj Hend (conj Hs Hlf))).
Qed.

Lemma mem_link_valid_spec h l1 b l2 :
  wf h (l1 ++ b :: l2) -> mem_link_valid (ram h + b_ptr b) h = Ok (true, h).
Proof.
  intros ((_ & _ & _ & Hre) & Hend & Hs & _).
  pose proof Hs as (q & Hs1 & Hs2)%seg_app. pose proof Hs2 as (Eq & E & Hl & H4 & Hs3).
  subst q. pose proof (seg_le _ _ _ _ _ Hs1). pose proof (seg_le _ _ _ _ _ Hs3).
  assert (last_ptr 0 l1 <= b_ptr b /\ (last_ptr 0 l1 = b_ptr b \/
    exists pb, structs h !! last_ptr 0 l1 = Some pb /\ next pb = b_ptr b)) as [Hlast Hpb].
  { destruct (last l1) as [pb|] eqn:El.
    - apply last_Some in El as (l0 & ->). rewrite last_ptr_snoc in *.
      apply seg_app in Hs1 as (q & Hs0 & Ep & E0 & Hl0 & _ & Ez). simpl in Ez. rewrite Ep. split; [lia|].
      right. eexists. split; [exact E0|exact Ez].
    - apply last_None in El as ->. simpl in Hs1 |- *. subst. split; [lia|by left]. }
  unfold mem_link_valid. rewrite (bind_rdm _ _ _ _ E), bind_toptr, !bind_ptr, bind_gets by lia.
  cbn [next prev used id]. mem_consts. rewrite (proj2 (Z.ltb_ge _ _)) by lia. cbn [or_else].
  rewrite (proj2 (Z.ltb_ge _ _)) by lia. cbn [or_else].
  rewrite (bind_ok _ _ h false h); [done|].
  rewrite (bind_ok _ _ h false h).
  2: { destruct (Z.eqb_spec (last_ptr 0 l1) (b_ptr b)) as [|Hne]; [done|]. cbn [negb].
       destruct Hpb as [?|(pb & Epb & Enx)]; [done|]. rewrite (bind_rdm _ _ _ _ Epb), Enx, Z.eqb_refl. done. }
  cbn [or_else]. rewrite Hre.
  destruct (Z.eqb_spec (ram h + b_next b) (ram h + 3072)) as [|Hne]; [done|]. cbn [negb].
  destruct l2 as [|b2 l2]; [simpl in Hs3; lia|]. destruct Hs3 as (_ & E2 & _).
  rewrite (bind_rdm _ _ _ _ E2). cbn [prev]. by rewrite Z.eqb_refl.
Qed.

Lemma no_adj_release l1 b l2 : b_used b = true -> no_adj (l1 ++ b :: l2) -> no_adj (release l1 b l2).
Proof.
  intros Hu [H1 H2%no_adj_cons]%no_adj_app. unfold release.
  assert (no_adj ((join (b_next b) l2).2) /\ (forall p n, no_adj (Blk p n false :: (join (b_next b) l2).2))) as [Hr Hf].
  { destruct l2 as [|b2 l2]; [done|]. simpl. destruct (b_used b2) eqn:E2; simpl.
    - split; [exact H2|]. intros p n. split; [by rewrite E2|exact H2].
    - split; [by apply no_adj_cons in H2|]. intros p n. destruct l2 as [|b3 l2]; [done|].
      destruct H2 as [H2 H3]. rewrite E2 in H2. split; done. }
  destruct (join (b_next b) l2) as [n r]. cbn [snd] in Hr, Hf.
  destruct (last l1) as [pb|] eqn:El; [|apply Hf].
  apply last_Some in El as (l0 & ->). destruct (b_used pb) eqn:Ep.
  - rewrite <- app_assoc. apply no_adj_used; [done| |apply Hf]. by apply no_adj_app in H1 as [? _].
  - rewrite length_app, Nat.add_sub, take_app_length. apply no_adj_glue; [|apply Hf].
    clear -H1 Ep. induction l0 as [|x l0 IH]; [done|]. destruct l0 as [|y l0]; simpl in *.
    + rewrite Ep in H1. done.
    + destruct H1. split; [done|]. by apply IH.
Qed.

(** Freeing a block in use merges it with its free neighbours. *)
Lemma mem_free_spec h l1 b l2 :
  heap_inv h (l1 ++ b :: l2) -> b_used b = true ->
  exists h', mem_free (ram h + b_ptr b + 8) h = Ok (tt, h') /\ ram h' = ram h /\ heap_inv h' (release l1 b l2).
Proof.
  intros [Hwf Hn] Hu. pose proof Hwf as ((Hr0 & Hr4 & Hrb & Hre) & Hend & Hs & Hlf).
  pose proof Hs as (q & Hs1 & Hs2)%seg_app. pose proof Hs2 as (Eq & E & Hl & H4 & Hs3). subst q.
  pose proof (seg_le _ _ _ _ _ Hs1). pose proof (seg_le _ _ _ _ _ Hs3). pose proof (seg_mod _ _ _ _ _ Hs1 eq_refl).
  unfold mem_free. mem_consts. rewrite (proj2 (Z.eqb_neq _ NULL)) by (unfold NULL; lia).
  change (4 - 1) with 3. rewrite land_3, (proj2 (Z.eqb_eq _ 0)) by lia. cbn [negb]. cbv zeta. rewrite bind_gets. cbn [id].
  replace (ram h + b_ptr b + 8 - 8) with (ram h + b_ptr b) by lia.
  rewrite (proj2 (Z.ltb_ge _ (ram h))), (proj2 (Z.ltb_ge (ram_end h) _)) by lia. cbn [orb].
  rewrite (bind_rdm _ _ _ _ E). cbn [used]. rewrite Hu. cbn [Z.b2z Z.eqb].
  rewrite (bind_ok _ _ _ _ _ (mem_link_valid_spec h l1 b l2 Hwf)). cbn [negb].
  rewrite (bind_wrm _ _ _ _ _ E), bind_gets. cbn [id lfree set_structs]. unfold with_used. cbn [next prev].
  set (st := <[b_ptr b := _]> (structs h)).
  set (h1 := mk_heap (ram h) st (ram h + first_free (l1 ++ Blk (b_ptr b) (b_next b) false :: l2) 3072) (ram_end h)).
  rewrite (bind_ok _ _ _ tt h1).
  2: { unfold h1. rewrite Hlf, first_free_app, first_free_app. simpl. rewrite Hu.
       destruct (first_free_range _ _ _ _ _ (b_ptr b) Hs1) as [Hf|[Hf Ha]].
       - assert (first_free l1 (first_free l2 3072) = first_free l1 (b_ptr b)) as Hsw
           by (by eapply first_free_swap).
         rewrite Hsw, (proj2 (Z.ltb_ge _ _)) by lia. cbn [when]. unfold set_structs. rewrite Hlf, first_free_app.
         simpl. by rewrite Hu, Hsw.
       - rewrite Hf, first_free_all by done.
         destruct (first_free_range _ _ _ _ _ 3072 Hs3) as [?|[? _]];
           (rewrite (proj2 (Z.ltb_lt _ _)) by lia; reflexivity). }
  assert (wf h1 (l1 ++ Blk (b_ptr b) (b_next b) false :: l2)) as Hwf1.
  { refine (conj _ (conj _ (conj _ eq_refl))); [done|unfold h1, st; by lookups|].
    change (l1 ++ Blk (b_ptr b) (b_next b) false :: l2) with (l1 ++ [Blk (b_ptr b) (b_next b) false] ++ l2).
    apply seg_mid. exists (b_ptr b), (b_next b). cbn [structs h1]. split_and!.
    - eapply seg_ext; [|exact Hs1]. intros k Hk. unfold st. by lookups.
    - simpl. unfold st. lookups. done.
    - eapply seg_ext; [|exact Hs3]. intros k Hk. unfold st. by lookups. }
  unfold plug_holes. rewrite bind_gets. cbn [id].
  change (ram h) with (ram h1). rewrite !bind_assert by (cbn; lia).
  erewrite bind_rdm by (unfold h1, st; cbn [structs]; by lookups).
  cbn [used next]. mem_consts. rewrite !bind_assert by (lia || done).
  destruct (plug_forward_spec h1 l1 _ _ _ Hwf1) as (h2 & E2 & Er2 & Hwf2). rewrite (bind_ok _ _ _ _ _ E2).
  destruct (plug_backward_spec h2 l1 _ _ _ Hwf2) as (h3 & E3 & Er3 & Hwf3). rewrite Er2 in E3.
  exists h3. split_and!; [exact E3|congruence|]. split; [|by apply no_adj_release].
  unfold release. destruct (join (b_next b) l2) as [n r]. exact Hwf3.
Qed.

(** ** Shrinking *)

(** A new header at [p2] between [p] and [nx]. *)
Lemma split_tail h p b p2 nx l pv :
  structs h !! p = Some b -> seg (structs h) pv nx l 3072 -> p < p2 -> p2 < nx -> 0 <= p ->
  structs h !! 3072 = Some (mk_mem 3072 3072 1) ->
  exists st, (new_mem (ram h + p2) (mk_mem nx p 0);; wrm (ram h + p) (with_next p2);;
      when (negb (nx =? MEM_SIZE_ALIGNED)) (q ← ptr_to_mem nx; wrm q (with_prev p2))) h = Ok (tt, set_structs st h) /\
    st !! p = Some (with_next p2 b) /\ st !! p2 = Some (mk_mem nx p 0) /\
    (forall k, k <> p -> k <> p2 -> k <> nx -> st !! k = structs h !! k) /\
    (nx < 3072 -> st !! nx = with_prev p2 <$> structs h !! nx) /\ st !! 3072 = Some (mk_mem 3072 3072 1).
Proof.
  intros E Hs Hp Hp2 H0 Hend. mem_consts. pose proof (seg_le _ _ _ _ _ Hs).
  rewrite bind_new. erewrite (bind_wrm' _ p); [|done|lookups; exact E].
  destruct (Z.eqb_spec nx 3072) as [->|Hn]; cbn [negb when].
  - eexists. split; [reflexivity|]. cbn [structs set_structs]. split_and!; try (intros; lia); intros; by lookups.
  - destruct l as [|b2 l]; [simpl in Hs; lia|]. destruct Hs as (_ & E2 & _). rewrite bind_ptr. eexists. split.
    { eapply (run_wrm nx _ _ (set_structs (<[p:=with_next p2 b]> (<[p2:=mk_mem nx p 0]> (structs h))) h)).
      cbn [structs set_structs]. lookups. exact E2. }
    cbn [structs set_structs]. split_and!; intros; lookups; try done. by rewrite E2.
Qed.

(** What a shrunk block and the blocks behind it become. *)
Definition trimmed (ns : Z) (b : blk) (l2 : list blk) : list blk :=
  let size := b_next b - b_ptr b - 8 in
  let p2 := b_ptr b + 8 + ns in
  if ns =? size then b :: l2
  else match l2 with
       | b2 :: l2' =>
           if b_used b2
           then if ns + 20 <=? size then Blk (b_ptr b) p2 true :: Blk p2 (b_next b) false :: l2 else b :: l2
           else Blk (b_ptr b) p2 true :: Blk p2 (b_next b2) false :: l2'
       | [] => b :: l2
       end.

(** The header moves or appears at [p2], with [m0] replaced. *)
Lemma wf_split h h1 l1 b m0 l2 p2 nx :
  wf h (l1 ++ b :: m0 ++ l2) -> b_used b = true -> structs h1 = structs h -> ram h1 = ram h -> ram_end h1 = ram_end h ->
  lfree h1 = ram h + first_free l1 p2 -> b_ptr b + 20 <= p2 -> p2 mod 4 = 0 -> p2 + 20 <= nx -> nx mod 4 = 0 ->
  seg (structs h) (b_ptr b) (b_next b) m0 nx ->
  exists h', (new_mem (ram h + p2) (mk_mem nx (b_ptr b) 0);; wrm (ram h + b_ptr b) (with_next p2);;
      when (negb (nx =? MEM_SIZE_ALIGNED)) (q ← ptr_to_mem nx; wrm q (with_prev p2))) h1 = Ok (tt, h') /\ ram h' = ram h /\
    wf h' (l1 ++ Blk (b_ptr b) p2 true :: Blk p2 nx false :: l2).
Proof.
  intros (Hram & Hend & Hs & _) Hu Est Er Ere Elf Hp2 Hp4 Hnx Hn4 Hm0.
  change (b :: m0 ++ l2) with ((b :: m0) ++ l2) in Hs. apply seg_mid in Hs as (q1 & q2 & Hs1 & Hs2 & Hs3).
  pose proof Hs2 as (<- & E & Hl & H4 & Hm). simpl in Hs3.
  assert (q2 = nx) as ->.
  { clear -Hm Hm0. revert Hm Hm0. generalize (b_ptr b) (b_next b). induction m0 as [|x m0 IH]; simpl; [congruence|].
    intros p q (_ & _ & _ & _ & H1) (_ & _ & _ & _ & H2). by eapply IH. }
  pose proof (seg_le _ _ _ _ _ Hs1). pose proof (seg_le _ _ _ _ _ Hs3).
  rewrite <- Er, <- Est in *.
  destruct (split_tail h1 (b_ptr b) _ p2 nx l2 _ E Hs3) as (st & Erun & Ep & Ep2 & Hk & Hn & He); try lia; [done|].
  exists (set_structs st h1). split_and!; [exact Erun|done|].
  refine (conj _ (conj He (conj _ _))); cbn [ram ram_end lfree structs set_structs].
  - rewrite Ere. done.
  - change (Blk (b_ptr b) p2 true :: Blk p2 nx false :: l2) with ([Blk (b_ptr b) p2 true; Blk p2 nx false] ++ l2).
    eapply (seg_splice (structs h1) st l1 (b :: m0) _ l2 (b_ptr b) nx); [exact Hs1|exact Hs2|exact Hs3| | | |].
    + intros k Hk'. apply Hk; lia.
    + cbn [seg b_ptr b_next b_used]. rewrite Ep, Ep2, Hu. split_and!; done || lia.
    + intros k Hk'. apply Hk; lia.
    + exact Hn.
  - rewrite Elf, first_free_app. done.
Qed.

Lemma no_adj_trim ns l1 b l2 : b_used b = true -> no_adj (l1 ++ b :: l2) -> no_adj (l1 ++ trimmed ns b l2).
Proof.
  intros Hu Hn. pose proof (no_adj_app _ _ Hn) as [H1 H2%no_adj_cons]. unfold trimmed.
  destruct (_ =? _); [done|]. destruct l2 as [|b2 l2]; [done|]. destruct (b_used b2) eqn:E2.
  - destruct (_ <=? _); [|done]. apply no_adj_used; [done|done|]. split; [by rewrite E2|done].
  - apply no_adj_used; [done|done|]. destruct l2 as [|b3 l2]; [done|]. destruct H2 as [H2 H3].
    rewrite E2 in H2. split; done.
Qed.

Lemma request_align n : 0 <= n < 65533 ->
  (if u16 (LWIP_MEM_ALIGN_SIZE n) <? MIN_SIZE_ALIGNED then MIN_SIZE_ALIGNED else u16 (LWIP_MEM_ALIGN_SIZE n)) = request n.
Proof.
  intros Hn. rewrite align_size_spec by lia. rewrite u16_small by (unfold is_u16; lia). mem_consts.
  unfold request. destruct (Z.ltb_spec ((n + 3) / 4 * 4) 12); lia.
Qed.

Lemma heap_lfree h x : lfree h = x -> h = mk_heap (ram h) (structs h) x (ram_end h).
Proof. intros <-. by destruct h. Qed.

(** The part of [mem_trim] before it looks at the next block. *)
Lemma mem_trim_enter h l1 b l2 n :
  wf h (l1 ++ b :: l2) -> 0 <= n -> request n <= b_next b - b_ptr b - 8 ->
  let m := ram h + b_ptr b in
  let pv := last_ptr 0 l1 in
  structs h !! b_ptr b = Some (mk_mem (b_next b) pv (Z.b2z (b_used b))) /\ 
  seg (structs h) 0 0 l1 (b_ptr b) /\ seg (structs h) (b_ptr b) (b_next b) l2 3072 /\
  0 <= b_ptr b /\ b_next b <= 3072 /\ b_ptr b mod 4 = 0 /\ b_next b mod 4 = 0 /\ n < 65533 /\
  (request n <= 3072 /\ n <= request n /\ 12 <= request n /\ request n mod 4 = 0).
Proof.
  intros (_ & _ & Hs & _) Hn Hr. pose proof Hs as (q & Hs1 & Hs2)%seg_app. pose proof Hs2 as (Eq & E & Hl & H4 & Hs3).
  subst q. pose proof (seg_le _ _ _ _ _ Hs1). pose proof (seg_le _ _ _ _ _ Hs3).
  pose proof (seg_mod _ _ _ _ _ Hs1 eq_refl). unfold request in *. split_and!; done || lia.
Qed.

(** Shrinking a block in use. The one case left out is a block that reaches to the
    end of the heap and would be split. *)
Lemma mem_trim_spec h l1 b l2 n :
  heap_inv h (l1 ++ b :: l2) -> b_used b = true -> 0 <= n -> request n <= b_next b - b_ptr b - 8 ->
  b_next b <> 3072 \/ b_next b - b_ptr b - 8 < request n + 20 ->
  exists h', mem_trim (ram h + b_ptr b + 8) n h = Ok (ram h + b_ptr b + 8, h') /\ ram h' = ram h /\
    heap_inv h' (l1 ++ trimmed (request n) b l2).
Proof.
  intros [Hwf Hno] Hu Hn Hr Hlast.
  destruct (mem_trim_enter h l1 b l2 n Hwf Hn Hr) as (E & Hs1 & Hs3 & H0 & H3 & Hp4 & Hn4 & Hnb & Hq1 & Hq2 & Hq3 & Hq4).
  pose proof (no_adj_trim (request n) l1 b l2 Hu Hno) as Hno'.
  pose proof Hwf as ((Hr0 & Hr4 & Hrb & Hre) & Hend & Hs & Hlf).
  unfold mem_trim. rewrite request_align by lia. cbv zeta. mem_consts.
  rewrite (proj2 (Z.ltb_ge 3072 _)), (proj2 (Z.ltb_ge (request n) n)) by lia. cbn [orb].
  rewrite bind_gets. cbn [id]. rewrite bind_assert by lia.
  replace (ram h + b_ptr b + 8 - 8) with (ram h + b_ptr b) by lia.
  rewrite bind_toptr by lia. rewrite (bind_rdm _ _ _ _ E). cbn [next].
  rewrite (u16_small (b_next b - b_ptr b)), u16_small by (unfold is_u16; lia).
  rewrite bind_assert by lia. rewrite (proj2 (Z.ltb_ge _ (request n))) by lia.
  unfold trimmed in Hno' |- *. set (p2 := b_ptr b + 8 + request n) in *. cbv zeta in Hno' |- *.
  destruct (Z.eqb_spec (request n) (b_next b - b_ptr b - 8)) as [Heq|Hne].
  { exists h. split_and!; [reflexivity|done|by split]. }
  rewrite bind_ptr. rewrite (u16_small p2) by (unfold is_u16; subst p2; lia).
  destruct l2 as [|b2 l2].
  { simpl in Hs3. assert (structs h !! b_next b = Some (mk_mem 3072 3072 1)) as E2 by (rewrite Hs3; done).
    rewrite (bind_rdm _ _ _ _ E2). cbn [used Z.eqb].
    rewrite (proj2 (Z.leb_gt _ _)) by lia. rewrite bind_ret.
    exists h. split_and!; [reflexivity|done|by split]. }
  pose proof Hs3 as (E2p & E2 & Hl2 & H42 & Hs4). pose proof (seg_le _ _ _ _ _ Hs4).
  rewrite (bind_rdm _ _ _ _ E2). cbn [used next].
  destruct (b_used b2) eqn:Eu; cbn [Z.b2z Z.eqb].
  - replace (request n + 8 + 12) with (request n + 20) by lia.
    destruct (Z.leb_spec (request n + 20) (b_next b - b_ptr b - 8)) as [Hsp|Hsp].
    2: { rewrite bind_ret. exists h. split_and!; [reflexivity|done|by split]. }
    rewrite bind_assoc, bind_assert by (apply negb_true_iff, Z.eqb_neq; lia).
    rewrite bind_assoc, bind_ptr, bind_assoc, bind_gets, bind_assoc. cbn [id].
    set (h1 := mk_heap (ram h) (structs h) (ram h + first_free l1 p2) (ram_end h)).
    rewrite (bind_ok _ _ _ tt h1).
    2: { rewrite Hlf, first_free_app. simpl. rewrite Hu, Eu. unfold h1.
         destruct (first_free_range _ _ _ _ _ (b_ptr b) Hs1) as [Hf|[Hf Ha]].
         - pose proof (fun d => first_free_swap _ l1 _ _ _ d Hs1 Hf) as Hsw.
           rewrite (Hsw (first_free l2 3072)), (proj2 (Z.ltb_ge _ _)) by (subst p2; lia).
           rewrite <- (heap_lfree h (ram h + first_free l1 p2)); [reflexivity|]. rewrite Hlf, first_free_app. simpl.
           by rewrite Hu, Eu, (Hsw (first_free l2 3072)), (Hsw p2).
         - rewrite !(first_free_all l1) by done.
           destruct (first_free_range _ _ _ _ _ 3072 Hs4) as [?|[? _]];
             (rewrite (proj2 (Z.ltb_lt _ _)) by (subst p2; lia); reflexivity). }
    destruct (wf_split h h1 l1 b [] (b2 :: l2) p2 (b_next b) Hwf Hu eq_refl eq_refl eq_refl eq_refl)
      as (h' & E' & Er' & Hwf'); try (subst p2; lia); [done|].
    rewrite (bind_ok _ _ _ _ _ E'). exists h'. split_and!; [reflexivity|done|by split].
  - rewrite bind_assoc, bind_assert by (apply negb_true_iff, Z.eqb_neq; lia).
    rewrite bind_assoc, bind_ptr, bind_assoc, bind_gets, bind_assoc. cbn [id].
    set (h1 := mk_heap (ram h) (structs h) (ram h + first_free l1 p2) (ram_end h)).
    rewrite (bind_ok _ _ _ tt h1).
    2: { rewrite Hlf, first_free_app. simpl. rewrite Hu, Eu, E2p. unfold h1.
         destruct (first_free_range _ _ _ _ _ (b_ptr b) Hs1) as [Hf|[Hf Ha]].
         - pose proof (fun d => first_free_swap _ l1 _ _ _ d Hs1 Hf) as Hsw.
           rewrite (Hsw (b_next b)), (proj2 (Z.eqb_neq _ _)) by lia.
           rewrite <- (heap_lfree h (ram h + first_free l1 p2)); [reflexivity|]. rewrite Hlf, first_free_app. simpl.
           by rewrite Hu, Eu, E2p, (Hsw (b_next b)), (Hsw p2).
         - rewrite !(first_free_all l1), Z.eqb_refl by done. reflexivity. }
    destruct (wf_split h h1 l1 b [b2] l2 p2 (b_next b2) Hwf Hu eq_refl eq_refl eq_refl eq_refl)
      as (h' & E' & Er' & Hwf'); try (subst p2; lia).
    { simpl. rewrite Eu. split_and!; done. }
    rewrite (bind_ok _ _ _ _ _ E'). exists h'. split_and!; [reflexivity|done|by split].
Qed.

(** ** What a client sees

    The blocks handed out, with the sizes asked for. *)

Definition useds (l : list blk) : list blk := filter (fun b => b_used b = true) l.

Lemma useds_app l1 l2 : useds (l1 ++ l2) = useds l1 ++ useds l2.
Proof. apply filter_app. Qed.
Lemma useds_cons b l : useds (b :: l) = if b_used b then b :: useds l else useds l.
Proof. unfold useds. rewrite filter_cons. destruct (b_used b) eqn:E; by (case_decide; congruence). Qed.

(** The block that [carve] hands out. *)
Definition taken (size : Z) (b : blk) : blk :=
  Blk (b_ptr b) (if size + 20 <=? b_next b - b_ptr b - 8 then b_ptr b + 8 + size else b_next b) true.

Lemma useds_carve size l1 b l2 : b_used b = false ->
  useds (l1 ++ carve size b ++ l2) = useds l1 ++ taken size b :: useds l2 /\
  useds (l1 ++ b :: l2) = useds l1 ++ useds l2.
Proof.
  intros Hu. unfold carve, taken. split.
  - destruct (_ <=? _); rewrite !useds_app, !useds_cons; done.
  - by rewrite useds_app, useds_cons, Hu.
Qed.

Lemma useds_release l1 b l2 : useds (release l1 b l2) = useds l1 ++ useds l2.
Proof.
  assert (useds (join (b_next b) l2).2 = useds l2) as Hr.
  { destruct l2 as [|b2 l2]; [done|]. simpl. destruct (b_used b2) eqn:E; simpl; [done|]. by rewrite useds_cons, E. }
  unfold release. destruct (join (b_next b) l2) as [n r]. cbn [snd] in Hr.
  destruct (last l1) as [pb|] eqn:El.
  - apply last_Some in El as (l0 & ->). destruct (b_used pb) eqn:Ep.
    + by rewrite useds_app, useds_cons, Hr.
    + rewrite length_app, Nat.add_sub, take_app_length, !useds_app, !useds_cons, Ep, Hr. simpl. by rewrite app_nil_r.
  - apply last_None in El as ->. by rewrite useds_cons, Hr.
Qed.

Lemma useds_trimmed ns l1 b l2 : b_used b = true -> ns <= b_next b - b_ptr b - 8 ->
  exists n, b_ptr b + 8 + ns <= n /\ useds (l1 ++ trimmed ns b l2) = useds l1 ++ Blk (b_ptr b) n true :: useds l2.
Proof.
  intros Hu Hn. assert (b = Blk (b_ptr b) (b_next b) true) as Eb by (destruct b; simpl in *; by rewrite Hu).
  assert (useds (l1 ++ b :: l2) = useds l1 ++ Blk (b_ptr b) (b_next b) true :: useds l2) as Hsame
    by (rewrite useds_app, useds_cons, Hu; by rewrite Eb at 1).
  unfold trimmed. destruct (_ =? _); [exists (b_next b); split; [lia|done]|].
  destruct l2 as [|b2 l2]; [exists (b_next b); split; [lia|done]|]. destruct (b_used b2) eqn:E2.
  - destruct (_ <=? _); [|exists (b_next b); split; [lia|done]].
    eexists. split; [|by rewrite useds_app, !useds_cons, E2]. lia.
  - eexists. split; [|by rewrite useds_app, !useds_cons, E2]. lia.
Qed.

(** Blocks are disjoint and inside the heap. *)
Lemma seg_disjoint st l pv p e b b' :
  seg st pv p l e -> b ∈ l -> b' ∈ l -> b = b' \/ b_next b <= b_ptr b' \/ b_next b' <= b_ptr b.
Proof.
  intros Hs Hb Hb'. apply list_elem_of_split in Hb as (l1 & l2 & ->).
  apply seg_app in Hs as (q & Hs1 & Eq & _ & Hl & _ & Hs2). subst q.
  apply elem_of_app in Hb' as [Hb'|[->|Hb']%elem_of_cons]; [|by left|];
    apply list_elem_of_split in Hb' as (l3 & l4 & ->).
  - apply seg_app in Hs1 as (q & _ & _ & _ & _ & _ & Hs1). apply seg_le in Hs1. lia.
  - apply seg_app in Hs2 as (q & Hs2 & <- & _). apply seg_le in Hs2. lia.
Qed.

Lemma seg_inside st l pv p e b : seg st pv p l e -> b ∈ l -> p <= b_ptr b /\ b_ptr b + 20 <= b_next b /\ b_next b <= e.
Proof.
  intros Hs Hb. apply list_elem_of_split in Hb as (l1 & l2 & ->). apply seg_app in Hs as (q & Hs1 & <- & _ & Hl & _ & Hs2).
  apply seg_le in Hs1, Hs2. lia.
Qed.

(** [live] gives the blocks in use, each at least as large as asked for. *)
Definition live_rep (r : Z) (l : list blk) (live : gmap Z Z) : Prop :=
  (forall p n, live !! p = Some n -> exists b, b ∈ useds l /\ p = r + b_ptr b + 8 /\ 0 <= n <= b_next b - b_ptr b - 8) /\
  (forall b, b ∈ useds l -> is_Some (live !! (r + b_ptr b + 8))).

Definition heap_ok (h : heap) (live : gmap Z Z) : Prop := exists l, heap_inv h l /\ live_rep (ram h) l live.

(** The states that a client of the heap reaches. *)
Inductive heap_reach (ram_heap : Z) : heap -> gmap Z Z -> Prop :=
| reach_init h0 h : mem_init ram_heap h0 = Ok (tt, h) -> heap_reach ram_heap h ∅
| reach_malloc h live n p h' : heap_reach ram_heap h live -> 0 <= n < 65536 -> mem_malloc n h = Ok (p, h') ->
    heap_reach ram_heap h' (if p =? NULL then live else <[p := n]> live)
| reach_free h live p n h' : heap_reach ram_heap h live -> live !! p = Some n -> mem_free p h = Ok (tt, h') ->
    heap_reach ram_heap h' (delete p live)
| reach_trim h live p n n' q h' : heap_reach ram_heap h live -> live !! p = Some n -> 0 <= n' <= n ->
    mem_trim p n' h = Ok (q, h') -> heap_reach ram_heap h' (<[p := n']> live).

Lemma mem_init_ok a h0 : 0 < a < 4294964000 -> exists h, mem_init a h0 = Ok (tt, h) /\ heap_ok h ∅.
Proof.
  intros Ha. unfold mem_init. eexists. split; [reflexivity|]. exists [Blk 0 3072 false].
  cbn [ram structs lfree ram_end set_structs id]. mem_consts. rewrite align_spec by lia.
  set (r := (a + 3) / 4 * 4). assert (0 < r /\ r mod 4 = 0 /\ r + 3080 < 4294967292) as (? & ? & ?) by (subst r; lia).
  replace (r - r) with 0 by lia. replace (r + 3072 - r) with 3072 by lia. split; [split; [|done]|].
  - refine (conj _ (conj _ (conj _ _))); cbn [ram structs lfree ram_end first_free b_used b_ptr].
    + done.
    + by lookups.
    + cbn [seg b_ptr b_next b_used]. lookups. done.
    + lia.
  - split; [intros p n; by rewrite lookup_empty|]. intros b Hb. by apply not_elem_of_nil in Hb.
Qed.

(** A live address is that of one used block. *)
Lemma live_block h l live p n :
  heap_inv h l -> live_rep (ram h) l live -> live !! p = Some n ->
  exists l1 b l2, l = l1 ++ b :: l2 /\ b_used b = true /\ p = ram h + b_ptr b + 8 /\ 0 <= n <= b_next b - b_ptr b - 8 /\
    (forall c, c ∈ useds (l1 ++ l2) -> b_ptr c <> b_ptr b).
Proof.
  intros [(_ & _ & Hs & _) _] [Hl _] Hp. destruct (Hl p n Hp) as (b & Hb & -> & Hn).
  apply list_elem_of_filter in Hb as [Hu Hb]. apply list_elem_of_split in Hb as (l1 & l2 & El). exists l1, b, l2.
  split_and!; [done|done|done|lia|lia|]. intros c [_ Hc]%list_elem_of_filter Hcp. subst l.
  apply seg_app in Hs as (q & Hs1 & <- & _ & Hl1 & _ & Hs2). apply elem_of_app in Hc as [Hc|Hc].
  - apply (seg_inside _ _ _ _ _ _ Hs1) in Hc. lia.
  - apply (seg_inside _ _ _ _ _ _ Hs2) in Hc. lia.
Qed.

Lemma heap_ok_malloc h live n :
  heap_ok h live -> 0 <= n < 65536 ->
  exists p h', mem_malloc n h = Ok (p, h') /\ ram h' = ram h /\
  ((p = NULL /\ h' = h) \/
   (p <> NULL /\ p mod 4 = 0 /\ ram h + 8 <= p /\ p + n <= ram h + 3072 /\
    (forall q k, live !! q = Some k -> p + n <= q \/ q + k <= p) /\ live !! p = None /\ heap_ok h' (<[p := n]> live))).
Proof.
  intros (l & Hinv & Hlive) Hn. pose proof Hinv as [((Hr0 & Hr4 & Hrb & Hre) & _ & Hs & _) _].
  destruct (mem_malloc_cases h l n Hinv Hn) as [[E _]|(l1 & b & l2 & h' & -> & _ & Hf & E & Er & Hinv')].
  { exists NULL, h. split_and!; [exact E|done|by left]. }
  exists (ram h + b_ptr b + 8), h'. split_and!; [exact E|done|right].
  apply andb_true_iff in Hf as [Hu%negb_true_iff Hsz%Z.leb_le].
  assert (n <= request n /\ 12 <= request n) as [Hq1 Hq2] by (unfold request; lia).
  assert (b ∈ l1 ++ b :: l2) as Hin by set_solver. pose proof (seg_inside _ _ _ _ _ _ Hs Hin) as Hbi.
  destruct (useds_carve (request n) l1 b l2 Hu) as [Ec Eb].
  assert (b_ptr b mod 4 = 0) as Hb4.
  { apply seg_app in Hs as (q & Hs1 & <- & _). by apply (seg_mod _ _ _ _ _ Hs1). }
  assert (forall c, c ∈ useds (l1 ++ b :: l2) -> b_next b <= b_ptr c \/ b_next c <= b_ptr b) as Hdis.
  { intros c [Hcu Hc]%list_elem_of_filter. destruct (seg_disjoint _ _ _ _ _ _ _ Hs Hin Hc) as [<-|?]; [congruence|done]. }
  destruct Hlive as [H1 H2]. unfold NULL.
  assert (live !! (ram h + b_ptr b + 8) = None) as Hfresh.
  { destruct (live !! _) as [k|] eqn:Ek; [|done]. destruct (H1 _ _ Ek) as (c & Hc & Hp & _).
    assert (b_ptr c = b_ptr b) by lia. pose proof (Hdis c Hc). apply list_elem_of_filter in Hc as [_ Hc].
    pose proof (seg_inside _ _ _ _ _ _ Hs Hc). lia. }
  split_and!; try lia; [|exact Hfresh|].
  - intros q k Hk. destruct (H1 q k Hk) as (c & Hc & -> & Hkb). specialize (Hdis c Hc).
    apply list_elem_of_filter in Hc as [_ Hc]. pose proof (seg_inside _ _ _ _ _ _ Hs Hc). lia.
  - eexists. split; [exact Hinv'|]. rewrite Er. split.
    + intros p k Hk. rewrite Ec. rewrite lookup_insert in Hk. case_decide as Hd.
      * injection Hk as <-. exists (taken (request n) b). split; [set_solver|]. split; [done|].
        unfold taken. simpl. destruct (_ <=? _); lia.
      * destruct (H1 p k Hk) as (c & Hc & Hcp & Hkc). exists c. split; [|done]. rewrite Eb in Hc. set_solver.
    + rewrite Ec. intros c Hc. rewrite lookup_insert. case_decide as Hd; [done|]. apply H2. rewrite Eb.
      apply elem_of_app in Hc as [?|[->|?]%elem_of_cons]; [set_solver| |set_solver]. done.
Qed.

Lemma heap_ok_free h live p n :
  heap_ok h live -> live !! p = Some n ->
  exists h', mem_free p h = Ok (tt, h') /\ ram h' = ram h /\ heap_ok h' (delete p live).
Proof.
  intros (l & Hinv & Hlive) Hp. destruct (live_block h l live p n Hinv Hlive Hp) as (l1 & b & l2 & -> & Hu & -> & Hn & Hd).
  destruct (mem_free_spec h l1 b l2 Hinv Hu) as (h' & E & Er & Hinv'). exists h'. split_and!; [exact E|done|].
  eexists. split; [exact Hinv'|]. rewrite Er. destruct Hlive as [H1 H2].
  assert (useds (l1 ++ b :: l2) = useds l1 ++ b :: useds l2) as Eb by (by rewrite useds_app, useds_cons, Hu).
  rewrite useds_app in Hd. split.
  - intros q k Hk. apply lookup_delete_Some in Hk as [Hne Hk]. destruct (H1 q k Hk) as (c & Hc & -> & Hkb).
    exists c. split; [|done]. rewrite useds_release. rewrite Eb in Hc.
    apply elem_of_app in Hc as [?|[->|?]%elem_of_cons]; [set_solver|done|set_solver].
  - intros c Hc. rewrite useds_release in Hc. specialize (Hd c Hc).
    rewrite lookup_delete_ne by lia. apply H2. rewrite Eb. set_solver.
Qed.

Lemma mem_trim_end h l1 b n :
  wf h (l1 ++ [b]) -> b_used b = true -> 0 <= n -> request n + 20 <= b_next b - b_ptr b - 8 ->
  mem_trim (ram h + b_ptr b + 8) n h = AssertFail.
Proof.
  intros Hwf Hu Hn Hr.
  destruct (mem_trim_enter h l1 b [] n Hwf Hn ltac:(lia)) as (E & Hs1 & Hs3 & H0 & H3 & Hp4 & Hn4 & Hnb & Hq1 & Hq2 & Hq3 & Hq4).
  pose proof Hwf as ((Hr0 & Hr4 & Hrb & Hre) & Hend & Hs & Hlf). simpl in Hs3.
  unfold mem_trim. rewrite request_align by lia. cbv zeta. mem_consts.
  rewrite (proj2 (Z.ltb_ge 3072 _)), (proj2 (Z.ltb_ge (request n) n)) by lia. cbn [orb].
  rewrite bind_gets. cbn [id]. rewrite bind_assert by lia.
  replace (ram h + b_ptr b + 8 - 8) with (ram h + b_ptr b) by lia.
  rewrite bind_toptr by lia. rewrite (bind_rdm _ _ _ _ E). cbn [next].
  rewrite (u16_small (b_next b - b_ptr b)), u16_small by (unfold is_u16; lia).
  rewrite bind_assert by lia. rewrite (proj2 (Z.ltb_ge _ (request n))), (proj2 (Z.eqb_neq (request n) _)) by lia.
  rewrite bind_ptr. assert (structs h !! b_next b = Some (mk_mem 3072 3072 1)) as E2 by (rewrite Hs3; done).
  rewrite (bind_rdm _ _ _ _ E2). cbn [used Z.eqb]. rewrite (proj2 (Z.leb_le _ _)) by lia.
  rewrite Hs3. done.
Qed.

Lemma heap_ok_trim h live p n n' :
  heap_ok h live -> live !! p = Some n -> 0 <= n' <= n ->
  (exists h', mem_trim p n' h = Ok (p, h') /\ ram h' = ram h /\ heap_ok h' (<[p := n']> live)) \/
  mem_trim p n' h = AssertFail.
Proof.
  intros (l & Hinv & Hlive) Hp Hn'.
  destruct (live_block h l live p n Hinv Hlive Hp) as (l1 & b & l2 & -> & Hu & -> & Hn & Hd).
  pose proof Hinv as [Hwf _]. pose proof Hwf as (_ & _ & Hs & _).
  assert (b_ptr b mod 4 = 0 /\ b_next b mod 4 = 0 /\ b_ptr b + 20 <= b_next b /\
    (b_next b = 3072 -> l2 = [])) as (Hb4 & Hx4 & Hl & Hend).
  { apply seg_app in Hs as (q & Hs1 & <- & _ & ? & ? & Hs2). split_and!; try done; [by apply (seg_mod _ _ _ _ _ Hs1)|].
    intros E. eapply seg_empty; [exact Hs2|lia]. }
  assert (request n' <= b_next b - b_ptr b - 8) as Hreq by (unfold request; lia).
  destruct (decide (b_next b = 3072 /\ request n' + 20 <= b_next b - b_ptr b - 8)) as [[He Hbig]|Hok].
  { right. rewrite (Hend He) in Hwf. apply (mem_trim_end h l1 b n' Hwf Hu); lia. }
  left. destruct (mem_trim_spec h l1 b l2 n' Hinv Hu) as (h' & E & Er & Hinv'); [lia|lia|lia|].
  exists h'. split_and!; [exact E|done|]. eexists. split; [exact Hinv'|]. rewrite Er.
  destruct (useds_trimmed (request n') l1 b l2 Hu Hreq) as (e & He & Eu). destruct Hlive as [H1 H2].
  assert (useds (l1 ++ b :: l2) = useds l1 ++ b :: useds l2) as Eb by (by rewrite useds_app, useds_cons, Hu).
  split; rewrite Eu.
  - intros q k Hk. rewrite lookup_insert in Hk. case_decide as Hq.
    + injection Hk as <-. eexists. split; [apply elem_of_app; right; left|]. simpl. unfold request in He. lia.
    + destruct (H1 q k Hk) as (c & Hc & -> & Hkb). exists c. split; [|done]. rewrite Eb in Hc.
      apply elem_of_app in Hc as [?|[->|?]%elem_of_cons]; [set_solver|done|set_solver].
  - intros c Hc. rewrite lookup_insert. case_decide; [done|]. apply H2. rewrite Eb.
    apply elem_of_app in Hc as [?|[->|?]%elem_of_cons]; [set_solver| |set_solver]. done.
Qed.

Lemma heap_reach_ok a h live : 0 < a < 4294964000 -> heap_reach a h live -> heap_ok h live.
Proof.
  intros Ha. induction 1 as [h0 h E|h live n p h' _ IH Hn E|h live p n h' _ IH Hp E|h live p n n' q h' _ IH Hp Hn E].
  - destruct (mem_init_ok a h0 Ha) as (h1 & E1 & Hok). rewrite E in E1. by injection E1 as <-.
  - destruct (heap_ok_malloc h live n IH Hn) as (p1 & h1 & E1 & _ & Hc). rewrite E in E1. injection E1 as <- <-.
    destruct Hc as [[-> ->]|(Hp & _ & _ & _ & _ & _ & Hok)]; [done|]. by rewrite (proj2 (Z.eqb_neq _ _) Hp).
  - destruct (heap_ok_free h live p n IH Hp) as (h1 & E1 & _ & Hok). rewrite E in E1. by injection E1 as <-.
  - destruct (heap_ok_trim h live p n n' IH Hp Hn) as [(h1 & E1 & _ & Hok)|E1]; rewrite E in E1; [|done].
    by injection E1 as <- <-.
Qed.

(** ** Theorems *)


(** First fit. [mem_malloc] fails, changing nothing, exactly when the request is
    empty or no free block is large enough; otherwise it hands out the lowest free
    block that is, split if the rest is large enough to be a block. *)
Theorem mem_malloc_first_fit (h : heap) (l : list blk) (n : Z) (Hi : heap_inv h l) (Hn : 0 <= n < 65536) :
  (mem_malloc n h = Ok (NULL, h) <->
     n = 0 \/ 3072 < request n \/ Forall (fun b => b_used b = true \/ b_next b - b_ptr b - 8 < request n) l) /\
  (forall p h', mem_malloc n h = Ok (p, h') -> p <> NULL -> exists l1 b l2,
     l = l1 ++ b :: l2 /\ b_used b = false /\ request n <= b_next b - b_ptr b - 8 /\
     Forall (fun b => b_used b = true \/ b_next b - b_ptr b - 8 < request n) l1 /\
     p = ram h + b_ptr b + 8 /\ heap_inv h' (l1 ++ carve (request n) b ++ l2)).
Proof.
  assert (forall l, Forall (fun b => fits (request n) b = false) l <->
    Forall (fun b => b_used b = true \/ b_next b - b_ptr b - 8 < request n) l) as Hfits.
  { intros l'. apply Forall_iff. intros b. unfold fits. destruct (b_used b); simpl; [naive_solver|lia]. }
  destruct (mem_malloc_cases h l n Hi Hn) as [[E Hw]|(l1 & b & l2 & h1 & -> & Hno & Hf & E & Er & Hi1)].
  - split; [split; [intros _; by rewrite <- Hfits|done]|]. intros p h' E'. rewrite E in E'. by injection E' as <- <-.
  - pose proof Hi as [((Hr0 & _) & _ & Hs & _) _]. pose proof Hf as [Hu%negb_true_iff Hz%Z.leb_le]%andb_true_iff.
    pose proof (seg_inside _ _ _ _ _ b Hs ltac:(set_solver)) as Hb. split.
    + split; [rewrite E; intros [= Hp _]; unfold NULL in Hp; lia|]. intros [->|[Hbig|Hall]].
      * exfalso. unfold mem_malloc in E. simpl in E. injection E as E _. unfold NULL in E. lia.
      * lia.
      * apply Forall_app in Hall as [_ [[?|?] _]%Forall_cons]; [congruence|lia].
    + intros p h' E' Hp. rewrite E in E'. injection E' as <- <-. exists l1, b, l2. rewrite <- Hfits. done.
Qed.

(** Round trip. Freeing the block just allocated gives back the list of blocks from
    before the allocation: what was split is joined again. *)
Theorem mem_malloc_free (h : heap) (l : list blk) (n p : Z) (h' : heap)
  (Hi : heap_inv h l) (Hn : 0 <= n < 65536) (Hm : mem_malloc n h = Ok (p, h')) (Hp : p <> NULL) :
  exists h'', mem_free p h' = Ok (tt, h'') /\ heap_inv h'' l.
Proof.
  destruct (mem_malloc_cases h l n Hi Hn) as [[E _]|(l1 & b & l2 & h1 & -> & _ & Hf & E & Er & Hi1)];
    rewrite Hm in E; injection E as -> ->; [done|].
  apply andb_true_iff in Hf as [Hu%negb_true_iff _]. destruct Hi as [_ Hno]. rewrite <- Er.
  assert (b = Blk (b_ptr b) (b_next b) false) as Eb by (destruct b; simpl in *; by rewrite Hu).
  assert (forall pb, last l1 = Some pb -> b_used pb = true) as Hlast.
  { intros pb (l0 & ->)%last_Some. rewrite <- app_assoc in Hno. apply no_adj_app in Hno as [_ [Hpb _]].
    rewrite Hu, orb_false_r in Hpb. done. }
  assert (forall r nx, join nx r = (b_next b, l2) ->
    release l1 (Blk (b_ptr b) nx true) r = l1 ++ b :: l2) as Hrel.
  { intros r nx Ej. unfold release. cbn [b_next b_ptr]. rewrite Ej. destruct (last l1) as [pb|] eqn:El.
    - rewrite (Hlast pb eq_refl), <- Eb. done.
    - apply last_None in El as ->. by rewrite <- Eb. }
  unfold carve in Hi1. destruct (_ <=? _).
  - destruct (mem_free_spec h1 l1 _ _ Hi1 eq_refl) as (h2 & E2 & _ & Hi2). exists h2. split; [exact E2|].
    by rewrite Hrel in Hi2.
  - destruct (mem_free_spec h1 l1 _ _ Hi1 eq_refl) as (h2 & E2 & _ & Hi2). exists h2. split; [exact E2|].
    rewrite Hrel in Hi2; [done|]. apply no_adj_app in Hno as [_ Hno]. destruct l2 as [|b2 l2]; [done|].
    destruct Hno as [Hb2 _]. rewrite Hu in Hb2. simpl in Hb2 |- *. by rewrite Hb2.
Qed.

(** Shrinking. [mem_trim] of a block in use to a size it has room for keeps the
    block where it is and gives the rest back as a free block behind it (merged with a
    free block that follows), if the rest is worth a block; unless the block is the
    last one of the heap. *)
Theorem mem_trim_shrinks (h : heap) (l1 : list blk) (b : blk) (l2 : list blk) (n : Z)
  (Hi : heap_inv h (l1 ++ b :: l2)) (Hu : b_used b = true) (Hn : 0 <= n) (Hs : request n <= b_next b - b_ptr b - 8)
  (Hlast : l2 <> []) :
  exists h', mem_trim (ram h + b_ptr b + 8) n h = Ok (ram h + b_ptr b + 8, h') /\
    heap_inv h' (l1 ++ trimmed (request n) b l2).
Proof.
  destruct (mem_trim_spec h l1 b l2 n Hi Hu Hn Hs) as (h' & E & _ & Hi'); [|eauto]. left.
  destruct Hi as [(_ & _ & (q & _ & _ & _ & _ & _ & Hseg)%seg_app & _) _].
  apply seg_le in Hseg. destruct l2; simpl in *; [done|lia].
Qed.

(** C35: a block in use that reaches to the end of the heap cannot be shrunk: when the
    rest is large enough to be split off, [mem_trim] fails its assertion
    "invalid next ptr" although the split is possible. *)
Theorem mem_trim_end_asserts (h : heap) (l1 : list blk) (b : blk) (n : Z)
  (Hi : heap_inv h (l1 ++ [b])) (Hu : b_used b = true) (Hn : 0 <= n) (Hs : request n + 20 <= b_next b - b_ptr b - 8) :
  mem_trim (ram h + b_ptr b + 8) n h = AssertFail.
Proof. destruct Hi as [Hwf _]. exact (mem_trim_end h l1 b n Hwf Hu Hn Hs). Qed.

(** ** Witnesses *)

Definition ex_h0 : heap := mk_heap 0 ∅ 0 0.
Definition run_heap {A} (m : M heap A) (h : heap) : heap := match m h with Ok (_, h') => h' | _ => h end.
Definition ex_h1 : heap := run_heap (mem_init 536870912) ex_h0.
Definition ex_h2 : heap := run_heap (mem_malloc 100) ex_h1.
Definition ex_h3 : heap := run_heap (mem_malloc 3064) ex_h1.

Lemma ex_h1_reach : heap_reach 536870912 ex_h1 ∅.
Proof. apply (reach_init _ ex_h0). reflexivity. Qed.

Lemma ex_h2_reach : heap_reach 536870912 ex_h2 {[536870920 := 100]}.
Proof.
  change {[536870920 := 100]} with (if 536870920 =? NULL then ∅ else <[536870920 := 100]> (∅ : gmap Z Z)).
  apply (reach_malloc _ ex_h1); [exact ex_h1_reach|lia|vm_compute; reflexivity].
Qed.

Lemma ex_h1_inv : heap_inv ex_h1 [Blk 0 3072 false].
Proof. vm_compute. split_and!; (reflexivity || discriminate || exact I). Qed.
Lemma ex_h2_inv : heap_inv ex_h2 [Blk 0 108 true; Blk 108 3072 false].
Proof. vm_compute. split_and!; (reflexivity || discriminate || exact I). Qed.
Lemma ex_h3_inv : heap_inv ex_h3 [Blk 0 3072 true].
Proof. vm_compute. split_and!; (reflexivity || discriminate || exact I). Qed.


Lemma mem_malloc_first_fit_witness : mem_malloc 3000 ex_h2 = Ok (NULL, ex_h2).
Proof.
  apply (mem_malloc_first_fit ex_h2 _ 3000 ex_h2_inv ltac:(lia)). right. right.
  apply Forall_cons_2; [by left|]. apply Forall_cons_2; [right; vm_compute; reflexivity|apply Forall_nil_2].
Defined.

Lemma mem_malloc_free_witness :
  exists h'', mem_free 536870920 ex_h2 = Ok (tt, h'') /\ heap_inv h'' [Blk 0 3072 false].
Proof. apply (mem_malloc_free ex_h1 _ 100 536870920 ex_h2 ex_h1_inv); [lia|vm_compute; reflexivity|discriminate]. Defined.

Lemma mem_trim_shrinks_witness :
  exists h', mem_trim 536870920 40 ex_h2 = Ok (536870920, h') /\ heap_inv h' [Blk 0 48 true; Blk 48 3072 false].
Proof.
  destruct (mem_trim_shrinks ex_h2 [] (Blk 0 108 true) [Blk 108 3072 false] 40 ex_h2_inv eq_refl) as (h' & E & Hi);
    [lia|vm_compute; discriminate|discriminate|]. exists h'. exact (conj E Hi).
Defined.

Lemma mem_trim_end_asserts_witness : mem_trim 536870920 100 ex_h3 = AssertFail.
Proof.
  apply (mem_trim_end_asserts ex_h3 [] (Blk 0 3072 true) 100 ex_h3_inv eq_refl); [lia|vm_compute; discriminate].
Defined.
