(* ===== verification/MemHeap.v ===== *)
(** * The heap under the packet buffers

    core/mem.c implements the heap interface that pbuf.c is proved against
    ([PbufSpec.HeapLaws]): the instance turns every theorem about packet buffers into
    one about packet buffers on the real heap. *)

From S2P Require Import Prelude Memp Pbuf PbufSpec Mem MemSpec.
From stdpp Require Import base numbers list gmap.
Open Scope Z_scope.

Global Instance lwip_heap : Heap heap := {
  Pbuf.mem_malloc := Mem.mem_malloc; Pbuf.mem_free := Mem.mem_free; Pbuf.mem_trim := Mem.mem_trim }.

(** The linker places the heap apart from the pools. *)
Class HeapPlaced (pools : memp_t -> memp_desc) := {
  heap_base : Z;
  heap_base_ok : 0 < heap_base /\ heap_base + 3080 < 4294967292;
  heap_away : forall t a, a ∈ elems (pools t) -> a < heap_base \/ heap_base + 3080 <= a
}.

Definition lwip_heap_rep (base : Z) (h : heap) (live : gset Z) : Prop :=
  ram h = base /\ exists sizes, dom sizes = live /\ heap_ok h sizes.

Section Laws.
Context (pools : memp_t -> memp_desc) `{HB : !HeapPlaced pools}.

Lemma lwip_apart h live a t : lwip_heap_rep heap_base h live -> a ∈ live -> a ∉ elems (pools t).
Proof.
  intros (Hr & sizes & <- & l & [(_ & _ & Hs & _) _] & Hl & _) [n Hn]%elem_of_dom Ha%heap_away.
  destruct (Hl a n Hn) as (b & [_ Hb]%list_elem_of_filter & -> & _). apply (seg_inside _ _ _ _ _ _ Hs) in Hb. lia.
Qed.

Lemma lwip_malloc h live n : lwip_heap_rep heap_base h live -> 0 <= n < 65536 ->
  exists p h', Mem.mem_malloc n h = Ok (p, h') /\
  (p = NULL /\ lwip_heap_rep heap_base h' live \/
   p <> NULL /\ p ∉ live /\ p mod 4 = 0 /\ heap_base <= p /\ p + n <= heap_base + 3072 /\
     lwip_heap_rep heap_base h' ({[p]} ∪ live)).
Proof.
  intros (Hr & sizes & <- & Hok) Hn. pose proof heap_base_ok as [Hb0 _].
  destruct (heap_ok_malloc h sizes n Hok Hn) as (p & h' & E & Er & Hc). exists p, h'. split; [exact E|].
  destruct Hc as [[-> ->]|(Hp & H4 & Hlo & Hhi & _ & Hf & Hok')]; [left|right].
  - split; [done|]. split; [done|]. by exists sizes.
  - split_and!; try (done || lia); [by apply not_elem_of_dom|]. split; [congruence|].
    exists (<[p := n]> sizes). split; [|done]. by rewrite dom_insert_L.
Qed.

Lemma lwip_free h live p : lwip_heap_rep heap_base h live -> p ∈ live ->
  exists h', Mem.mem_free p h = Ok (tt, h') /\ lwip_heap_rep heap_base h' (live ∖ {[p]}).
Proof.
  intros (Hr & sizes & <- & Hok) [n Hn]%elem_of_dom.
  destruct (heap_ok_free h sizes p n Hok Hn) as (h' & E & Er & Hok'). exists h'. split; [exact E|].
  split; [congruence|]. exists (delete p sizes). split; [|done]. by rewrite dom_delete_L.
Qed.

Global Instance lwip_heap_laws : HeapLaws pools heap := {
  heap_rep := lwip_heap_rep heap_base;
  heap_lo := heap_base;
  heap_hi := heap_base + 3072;
  heap_lo_pos := proj1 heap_base_ok;
  heap_hi_u32 := ltac:(pose proof heap_base_ok; lia);
  heap_apart := lwip_apart;
  mem_malloc_law := lwip_malloc;
  mem_free_law := lwip_free }.

(** C21: core/mem.c implements the heap that pbuf.c needs. After [memp_init] and
    [mem_init] the packet buffers are in a state from which all their theorems hold on
    the real heap: the invariant holds with no live pbuf, all pool elements free, and
    no heap block in use. *)
Theorem lwip_heap_init `{HP : !PoolsOk pools} (m0 : memp_state) (h0 : heap) (ram_heap : Z)
  (Hz : forall t, tab m0 t = NULL) (Hr : 0 < ram_heap < 4294964000) (Hb : LWIP_MEM_ALIGN ram_heap = heap_base) :
  exists m h, memp_init pools m0 = Ok (tt, m) /\ mem_init ram_heap h0 = Ok (tt, h) /\
    net_inv pools (mk_net m h ∅ ∅ 0) (fun t => rev (elems (pools t))) ∅.
Proof.
  destruct (memp_init_spec pools m0) as (m & Em & Hm); [exact Hz|]. destruct (mem_init_ok ram_heap h0 Hr) as (h & Eh & Hok).
  exists m, h. split_and!; [exact Em|exact Eh|]. split_and!; [exact Hm| |intros a b; simpl; by rewrite lookup_empty].
  split; [|exists ∅; split; [apply dom_empty_L|exact Hok]].
  unfold mem_init in Eh. injection Eh as <-. exact Hb.
Qed.
End Laws.

(** ** Witness *)

Global Instance example_placed : HeapPlaced example_pools := {
  heap_base := 536870912;
  heap_base_ok := conj eq_refl eq_refl;
  heap_away := ltac:(intros t a Ha; apply elems_range in Ha; destruct t; simpl in *; lia) }.

Lemma lwip_heap_init_witness :
  exists m h, memp_init example_pools example_memp0 = Ok (tt, m) /\ mem_init 536870910 ex_h0 = Ok (tt, h) /\
    net_inv example_pools (mk_net m h ∅ ∅ 0) (fun t => rev (elems (example_pools t))) ∅.
Proof. apply (lwip_heap_init example_pools example_memp0 ex_h0 536870910); [reflexivity|lia|reflexivity]. Defined.
