(* ===== verification/Ip4Addr.v ===== *)
(** * IPv4 addresses: core/ipv4/ip4_addr.c

    An [ip4_addr_t] is the 32-bit number that holds the address in network byte
    order; on this little-endian machine its lowest byte is the first one. Strings
    are lists of character codes without the terminating 0, which is what reading at
    their end gives. *)

From S2P Require Import Prelude Chksum.
From stdpp Require Import base numbers list.
Open Scope Z_scope.
Open Scope c_scope.

Definition IPADDR_ANY : Z := 0.
Definition IPADDR_NONE : Z := 4294967295.
Definition IPADDR_BROADCAST : Z := 4294967295.

Definition NETIF_FLAG_BROADCAST : Z := 2.

Definition ip4_addr_netcmp (addr1 addr2 mask : Z) : bool := (addr1 &c mask) =? (addr2 &c mask).
Definition ip4_addr_cmp (addr1 addr2 : Z) : bool := addr1 =? addr2.
Definition ip4_addr_isany (addr : Z) : bool := addr =? IPADDR_ANY.
Definition ip4_addr_ismulticast (addr : Z) : bool := (addr &c PP_HTONL 4026531840) =? PP_HTONL 3758096384.
Definition ip4_addr_islinklocal (addr : Z) : bool := (addr &c PP_HTONL 4294901760) =? PP_HTONL 2851995648.
(** [ip4_addr_get_byte], also [ip4_addr1] to [ip4_addr4] *)
Definition ip4_addr_get_byte (addr idx : Z) : Z := Z.shiftr addr (8 * idx) &c 255.

(** The address, netmask and flags of the interface are arguments. *)
Definition ip4_addr_isbroadcast_u32 (addr flags ip_addr netmask : Z) : bool :=
  if (not32 addr =? IPADDR_ANY) || (addr =? IPADDR_ANY) then true
  else if (flags &c NETIF_FLAG_BROADCAST) =? 0 then false
  else if addr =? ip_addr then false
  else if ip4_addr_netcmp addr ip_addr netmask &&
          ((addr &c not32 netmask) =? (IPADDR_BROADCAST &c not32 netmask)) then true
  else false.

(** [for (...; mask != 0; mask >>= 1)]; 33 rounds shift every bit out. *)
Fixpoint first_zero (fuel : nat) (nm mask : Z) : Z :=
  match fuel with
  | O => mask
  | S fuel' =>
      if negb (mask =? 0) then
        if (nm &c mask) =? 0 then mask else first_zero fuel' nm (Z.shiftr mask 1)
      else mask
  end.
Fixpoint no_one (fuel : nat) (nm mask : Z) : bool :=
  match fuel with
  | O => true
  | S fuel' =>
      if negb (mask =? 0) then
        if negb ((nm &c mask) =? 0) then false else no_one fuel' nm (Z.shiftr mask 1)
      else true
  end.
Definition ip4_addr_netmask_valid (netmask : Z) : bool :=
  let nm_hostorder := lwip_htonl netmask in
  no_one 33 nm_hostorder (first_zero 33 nm_hostorder (Z.shiftl 1 31)).

(** ** Characters (include/lwip/arch.h) *)

Definition lwip_in_range (x lo up : Z) : bool := (lo <=? u8 x) && (u8 x <=? up).
Definition lwip_isdigit (x : Z) : bool := lwip_in_range x 48 57.
Definition lwip_islower (x : Z) : bool := lwip_in_range x 97 122.
Definition lwip_isxdigit (x : Z) : bool := lwip_isdigit x || lwip_in_range x 97 102 || lwip_in_range x 65 70.
Definition lwip_isspace (x : Z) : bool :=
  (x =? 32) || (x =? 12) || (x =? 10) || (x =? 13) || (x =? 9) || (x =? 11).

(** [*cp] *)
Definition char_at (s : list Z) : Z := hd 0 s.

(** The loop that collects one number: its value and the rest of the string. *)
Fixpoint number (base val : Z) (s : list Z) : Z * list Z :=
  match s with
  | [] => (val, [])
  | x :: s' =>
      if lwip_isdigit x then
        if (base =? 8) && (8 <=? u32 (x - 48)) then (val, s)
        else number base (u32 (u32 (val * base) + u32 (x - 48))) s'
      else if (base =? 16) && lwip_isxdigit x then
        number base (u32 (Z.shiftl val 4) |c u32 (x + 10 - (if lwip_islower x then 97 else 65))) s'
      else (val, s)
  end.

(** The outer loop: the parts before the last dot, the last number and what follows;
    at most three dots. *)
Fixpoint aton_parts (fuel : nat) (parts : list Z) (s : list Z) : option (list Z * Z * list Z) :=
  match fuel with
  | O => None
  | S fuel' =>
      if negb (lwip_isdigit (char_at s)) then None
      else
        let '(base, s1) :=
          if char_at s =? 48 then
            if (char_at (tail s) =? 120) || (char_at (tail s) =? 88) then (16, tail (tail s)) else (8, tail s)
          else (10, s) in
        let '(val, s2) := number base 0 s1 in
        if char_at s2 =? 46 then
          if Nat.leb 3 (length parts) then None
          else aton_parts fuel' (parts ++ [val]) (tail s2)
        else Some (parts, val, s2)
  end.

(** The address in network byte order, or failure; three dots allow four rounds. *)
Definition ip4addr_aton (cp : list Z) : option Z :=
  match aton_parts 4 [] cp with
  | None => None
  | Some (parts, val, s) =>
      if negb (char_at s =? 0) && negb (lwip_isspace (char_at s)) then None
      else
        match parts with
        | [] => Some (lwip_htonl val)
        | [p0] =>
            if 16777215 <? val then None else if 255 <? p0 then None
            else Some (lwip_htonl (val |c u32 (Z.shiftl p0 24)))
        | [p0; p1] =>
            if 65535 <? val then None else if (255 <? p0) || (255 <? p1) then None
            else Some (lwip_htonl (val |c (u32 (Z.shiftl p0 24) |c u32 (Z.shiftl p1 16))))
        | [p0; p1; p2] =>
            if 255 <? val then None else if (255 <? p0) || (255 <? p1) || (255 <? p2) then None
            else Some (lwip_htonl (val |c ((u32 (Z.shiftl p0 24) |c u32 (Z.shiftl p1 16)) |c u32 (Z.shiftl p2 8))))
        | _ => None
        end
  end.

Definition ipaddr_addr (cp : list Z) : Z :=
  match ip4addr_aton cp with Some a => a | None => IPADDR_NONE end.

(** [do { rem = *ap % 10; *ap /= 10; inv[i++] = '0' + rem; } while ( *ap)]: the digits
    of a byte, last one first; three rounds are enough. *)
Fixpoint inv_digits (fuel : nat) (b : Z) : list Z :=
  match fuel with
  | O => []
  | S fuel' => (48 + b mod 10) :: (if b / 10 =? 0 then [] else inv_digits fuel' (b / 10))
  end.

(** [if (len++ >= buflen) return NULL; *rp++ = x;] *)
Definition put (buflen : Z) (x : Z) (out : list Z) : option (list Z) :=
  if buflen <=? Z.of_nat (length out) then None else Some (out ++ [x]).
Fixpoint put_all (buflen : Z) (xs : list Z) (out : list Z) : option (list Z) :=
  match xs with
  | [] => Some out
  | x :: xs' => match put buflen x out with None => None | Some out' => put_all buflen xs' out' end
  end.

(** The characters written to the buffer before the final dot is overwritten with 0. *)
Fixpoint ntoa_loop (n : nat) (idx : Z) (s_addr buflen : Z) (out : list Z) : option (list Z) :=
  match n with
  | O => Some out
  | S n' =>
      match put_all buflen (rev (inv_digits 3 (ip4_addr_get_byte s_addr idx))) out with
      | None => None
      | Some out1 =>
          match put buflen 46 out1 with
          | None => None
          | Some out2 => ntoa_loop n' (idx + 1) s_addr buflen out2
          end
      end
  end.

(** The string in the buffer, or NULL. *)
Definition ip4addr_ntoa_r (addr buflen : Z) : option (list Z) :=
  match ntoa_loop 4 0 addr buflen [] with
  | None => None
  | Some out => Some (take (length out - 1) out)
  end.

Definition IP4ADDR_STRLEN_MAX : Z := 16.
Definition ip4addr_ntoa (addr : Z) : option (list Z) := ip4addr_ntoa_r addr IP4ADDR_STRLEN_MAX.

(** ** Byte order *)

(** The word whose bytes in memory are [b0], [b1], [b2], [b3]. *)
Definition word4 (b0 b1 b2 b3 : Z) : Z := b0 + 256 * b1 + 65536 * b2 + 16777216 * b3.

Lemma htonl_word b0 b1 b2 b3 :
  is_u8 b0 -> is_u8 b1 -> is_u8 b2 -> is_u8 b3 -> lwip_htonl (word4 b3 b2 b1 b0) = word4 b0 b1 b2 b3.
Proof.
  unfold is_u8. intros H0 H1 H2 H3. unfold lwip_htonl, PP_HTONL. bits_to_arith.
  set (x := word4 b3 b2 b1 b0).
  assert (x mod 256 = b3 /\ (x / 256) mod 256 = b2 /\ (x / 65536) mod 256 = b1 /\ (x / 16777216) mod 256 = b0)
    as (-> & -> & -> & ->) by (subst x; unfold word4; lia).
  replace (b1 * 65536 / 256) with (b1 * 256) by lia. replace (b0 * 16777216 / 16777216) with b0 by lia.
  replace (b2 * 256 * 256) with (b2 * 65536) by lia.
  rewrite (lor_add (b3 * 16777216) (b2 * 65536) 24) by (try lia; change (2 ^ 24) with 16777216; lia).
  rewrite (lor_add _ (b1 * 256) 16) by (try lia; change (2 ^ 16) with 65536; lia).
  rewrite (lor_add _ b0 8) by (try lia; change (2 ^ 8) with 256; lia).
  rewrite u32_small by (unfold is_u32; lia). unfold word4. lia.
Qed.

Lemma byte_of_addr addr i : 0 <= addr < 4294967296 -> 0 <= i <= 3 ->
  is_u8 (ip4_addr_get_byte addr i) /\ ip4_addr_get_byte addr i = (addr / 2 ^ (8 * i)) mod 256.
Proof.
  intros Ha Hi. unfold ip4_addr_get_byte, is_u8. rewrite land_255, shiftr_div by lia. lia.
Qed.

Lemma addr_bytes addr : 0 <= addr < 4294967296 ->
  addr = word4 (ip4_addr_get_byte addr 0) (ip4_addr_get_byte addr 1) (ip4_addr_get_byte addr 2) (ip4_addr_get_byte addr 3).
Proof.
  intros Ha. unfold word4. rewrite (proj2 (byte_of_addr addr 0 Ha ltac:(lia))), (proj2 (byte_of_addr addr 1 Ha ltac:(lia))),
    (proj2 (byte_of_addr addr 2 Ha ltac:(lia))), (proj2 (byte_of_addr addr 3 Ha ltac:(lia))).
  change (2 ^ (8 * 0)) with 1. change (2 ^ (8 * 1)) with 256. change (2 ^ (8 * 2)) with 65536.
  change (2 ^ (8 * 3)) with 16777216. lia.
Qed.

(** ** Netmasks *)

Lemma mod_pow2_S nm (i : nat) :
  nm mod 2 ^ Z.of_nat (S i) = nm mod 2 ^ Z.of_nat i + 2 ^ Z.of_nat i * Z.b2z (Z.testbit nm (Z.of_nat i)).
Proof.
  rewrite Nat2Z.inj_succ, Z.pow_succ_r, Z.mul_comm by lia.
  rewrite Z.testbit_spec' by lia. rewrite Z.rem_mul_r by (try lia; apply Z.pow_nonzero; lia). done.
Qed.

Lemma land_bit nm (i : nat) : ((nm &c 2 ^ Z.of_nat i) =? 0) = negb (Z.testbit nm (Z.of_nat i)).
Proof. rewrite <- testbit_land_pow2 by lia. by rewrite negb_involutive. Qed.

Lemma mask_shift (i : nat) : Z.shiftr (2 ^ Z.of_nat (S i)) 1 = 2 ^ Z.of_nat i.
Proof.
  rewrite shiftr_div by lia. change (2 ^ 1) with 2. rewrite Nat2Z.inj_succ, Z.pow_succ_r by lia.
  rewrite Z.mul_comm. by apply Z.div_mul.
Qed.

Lemma mask_nonzero (i : nat) : (2 ^ Z.of_nat i =? 0) = false.
Proof. apply Z.eqb_neq, Z.pow_nonzero; lia. Qed.

Lemma no_one_spec nm (i : nat) : forall fuel, (i + 1 < fuel)%nat ->
  no_one fuel nm (2 ^ Z.of_nat i) = true <-> nm mod 2 ^ Z.of_nat (S i) = 0.
Proof.
  induction i as [|i IH]; intros [|fuel] Hf; try lia; cbn [no_one]; rewrite mask_nonzero, land_bit, mod_pow2_S;
    cbn [negb]; destruct (Z.testbit nm _) eqn:Eb; cbn [negb Z.b2z].
  - simpl. rewrite Z.mod_1_r. lia.
  - simpl. rewrite Z.mod_1_r. destruct fuel; done.
  - split; [done|]. pose proof (Z.mod_pos_bound nm (2 ^ Z.of_nat (S i)) ltac:(lia)). lia.
  - rewrite mask_shift, IH by lia. rewrite Z.mul_0_r, Z.add_0_r. done.
Qed.

Lemma first_zero_spec nm (i : nat) : forall fuel, (i + 1 < fuel <= 33)%nat ->
  no_one 33 nm (first_zero fuel nm (2 ^ Z.of_nat i)) = true <->
  exists k, 0 <= k <= Z.of_nat (S i) /\ nm mod 2 ^ Z.of_nat (S i) = 2 ^ Z.of_nat (S i) - 2 ^ k.
Proof.
  assert (forall n k, 0 <= n -> 0 <= k -> 0 = 2 ^ n - 2 ^ k -> n = k) as Hinj.
  { intros n k Hn Hk E. apply (Z.pow_inj_r 2); lia. }
  induction i as [|i IH]; intros [|fuel] Hf; try lia; cbn [first_zero]; rewrite mask_nonzero, land_bit;
    cbn [negb]; destruct (Z.testbit nm _) eqn:Eb; cbn [negb].
  - assert (first_zero fuel nm (Z.shiftr (2 ^ Z.of_nat 0) 1) = 0) as -> by (by destruct fuel).
    rewrite mod_pow2_S, Eb. change (2 ^ Z.of_nat 0) with 1. change (2 ^ Z.of_nat 1) with 2. rewrite Z.mod_1_r.
    split; [|done]. intros _. exists 0. cbn [Z.b2z]. lia.
  - rewrite no_one_spec by lia. rewrite mod_pow2_S, Eb. change (2 ^ Z.of_nat 0) with 1. change (2 ^ Z.of_nat 1) with 2.
    rewrite Z.mod_1_r. split; [|done]. intros _. exists 1. cbn [Z.b2z]. lia.
  - rewrite mask_shift, IH by lia. rewrite (mod_pow2_S nm (S i)), Eb. cbn [Z.b2z].
    rewrite !(Nat2Z.inj_succ (S i)), !(Z.pow_succ_r _ (Z.of_nat (S i))) by lia. split; intros (k & Hk & E).
    + exists k. split; [lia|]. lia.
    + exists k. assert (k <= Z.of_nat (S i)) as Hle.
      { destruct (Z.le_gt_cases k (Z.of_nat (S i))); [done|]. assert (k = Z.succ (Z.of_nat (S i))) as -> by lia.
        rewrite Z.pow_succ_r in E by lia. pose proof (Z.mod_pos_bound nm (2 ^ Z.of_nat (S i)) ltac:(lia)). lia. }
      split; [lia|]. lia.
  - rewrite no_one_spec by lia. split.
    + intros ->. exists (Z.of_nat (S (S i))). lia.
    + intros (k & Hk & E). rewrite mod_pow2_S, Eb in E |- *. cbn [Z.b2z] in E |- *.
      rewrite Z.mul_0_r, Z.add_0_r in E |- *. pose proof (Z.mod_pos_bound nm (2 ^ Z.of_nat (S i)) ltac:(lia)) as Hb.
      destruct (Z.le_gt_cases k (Z.of_nat (S i))) as [Hle|Hgt].
      * pose proof (Z.pow_le_mono_r 2 k (Z.of_nat (S i)) ltac:(lia) Hle).
        rewrite (Nat2Z.inj_succ (S i)), Z.pow_succ_r in E by lia. lia.
      * assert (k = Z.of_nat (S (S i))) as -> by lia. lia.
Qed.

(** [ip4_addr_netmask_valid] accepts exactly the 33 masks that are [k] ones followed
    by zeros, read in host byte order. *)
Theorem netmask_valid_iff (netmask : Z) (Hn : 0 <= netmask < 4294967296) :
  ip4_addr_netmask_valid netmask = true <->
  exists k, 0 <= k <= 32 /\ lwip_htonl netmask = 4294967296 - 2 ^ (32 - k).
Proof.
  unfold ip4_addr_netmask_valid. change (Z.shiftl 1 31) with (2 ^ Z.of_nat 31).
  rewrite first_zero_spec by lia. change (2 ^ Z.of_nat 32) with 4294967296.
  rewrite Z.mod_small by (exact (u32_range _)). split; intros (k & Hk & E); exists (32 - k).
  - split; [lia|]. rewrite E. do 2 f_equal. lia.
  - split; [lia|]. exact E.
Qed.

(** ** Text *)

(** The decimal digits of a byte. *)
Definition dec (b : Z) : list Z := rev (inv_digits 3 b).

Lemma dec_digits b : 0 <= b < 256 ->
  dec b = (if b <? 10 then [48 + b] else if b <? 100 then [48 + b / 10; 48 + b mod 10]
           else [48 + b / 100; 48 + b / 10 mod 10; 48 + b mod 10]).
Proof.
  intros Hb. unfold dec. cbn [inv_digits]. destruct (Z.ltb_spec b 10).
  - rewrite (proj2 (Z.eqb_eq (b / 10) 0)) by lia. simpl. f_equal. lia.
  - rewrite (proj2 (Z.eqb_neq (b / 10) 0)) by lia. destruct (Z.ltb_spec b 100).
    + rewrite (proj2 (Z.eqb_eq (b / 10 / 10) 0)) by lia. simpl. f_equal; f_equal; lia.
    + rewrite (proj2 (Z.eqb_neq (b / 10 / 10) 0)) by lia.
      assert (b / 10 / 10 / 10 =? 0 = true) as -> by lia. simpl. f_equal; f_equal; lia.
Qed.

Lemma digit_range d : 0 <= d < 10 -> lwip_isdigit (48 + d) = true.
Proof. intros Hd. unfold lwip_isdigit, lwip_in_range. rewrite u8_small by (unfold is_u8; lia). lia. Qed.

Lemma number_digit v d s : 0 <= d < 10 -> 0 <= v < 400000000 -> number 10 v (48 + d :: s) = number 10 (v * 10 + d) s.
Proof.
  intros Hd Hv. cbn [number]. rewrite digit_range by done. cbn [Z.eqb andb]. f_equal.
  rewrite (u32_small (v * 10)), (u32_small (48 + d - 48)), u32_small by (unfold is_u32; lia). lia.
Qed.

(** What may follow a number: the end of the string or a dot. *)
Definition stops (s : list Z) : Prop := s = [] \/ exists r, s = 46 :: r.

Lemma number_stop base v s : stops s -> number base v s = (v, s).
Proof. intros [->|[r ->]]; [done|]. cbn [number]. change (lwip_isdigit 46) with false. by rewrite andb_false_r. Qed.

(** Reading back a printed byte. *)
Lemma read_dec b s : 0 <= b < 256 -> stops s ->
  lwip_isdigit (char_at (dec b ++ s)) = true /\
  (let '(base, s1) :=
     if char_at (dec b ++ s) =? 48 then
       if (char_at (tail (dec b ++ s)) =? 120) || (char_at (tail (dec b ++ s)) =? 88)
       then (16, tail (tail (dec b ++ s))) else (8, tail (dec b ++ s))
     else (10, dec b ++ s) in number base 0 s1) = (b, s).
Proof.
  intros Hb Hs. rewrite dec_digits by done. destruct (Z.ltb_spec b 10); [|destruct (Z.ltb_spec b 100)];
    cbn [app char_at hd tail].
  - split; [apply digit_range; lia|]. destruct (Z.eqb_spec (48 + b) 48).
    + assert (b = 0) as -> by lia.
      assert ((char_at s =? 120) || (char_at s =? 88) = false) as -> by (by destruct Hs as [->|[r ->]]).
      by apply number_stop.
    + rewrite number_digit, number_stop by (done || lia). done.
  - split; [apply digit_range; lia|]. rewrite (proj2 (Z.eqb_neq _ 48)) by lia.
    rewrite !number_digit, number_stop by (done || lia). f_equal. lia.
  - split; [apply digit_range; lia|]. rewrite (proj2 (Z.eqb_neq _ 48)) by lia.
    rewrite !number_digit, number_stop by (done || lia). f_equal. lia.
Qed.

(** The loop over the parts, one printed byte at a time. *)
Lemma aton_parts_dec fuel parts b s : 0 <= b < 256 -> stops s -> (length parts <= 3)%nat ->
  aton_parts (S fuel) parts (dec b ++ s) =
  match s with
  | [] => Some (parts, b, s)
  | _ :: s' => if Nat.leb 3 (length parts) then None else aton_parts fuel (parts ++ [b]) s'
  end.
Proof.
  intros Hb Hs Hp. destruct (read_dec b s Hb Hs) as [Hd Hn]. cbn [aton_parts]. rewrite Hd. cbn [negb].
  destruct (if char_at (dec b ++ s) =? 48 then _ else _) as [base s1]. rewrite Hn.
  destruct Hs as [->|[r ->]]; done.
Qed.

Lemma put_all_fits buflen xs : forall out, Z.of_nat (length out + length xs) <= buflen ->
  put_all buflen xs out = Some (out ++ xs).
Proof.
  induction xs as [|x xs IH]; intros out Hl; simpl in *; [by rewrite app_nil_r|].
  unfold put. rewrite (proj2 (Z.leb_gt _ _)) by lia. rewrite IH by (rewrite length_app; simpl; lia).
  by rewrite <- app_assoc.
Qed.

Lemma dec_length b : 0 <= b < 256 -> (1 <= length (dec b) <= 3)%nat.
Proof. intros Hb. rewrite dec_digits by done. destruct (b <? 10); [|destruct (b <? 100)]; simpl; lia. Qed.

Lemma ntoa_loop_fits n : forall idx addr buflen out,
  0 <= addr < 4294967296 -> 0 <= idx -> idx + Z.of_nat n <= 4 -> Z.of_nat (length out + 4 * n) <= buflen ->
  exists out', ntoa_loop n idx addr buflen out = Some (out ++ out') /\
    out' = mjoin ((fun i => dec (ip4_addr_get_byte addr (idx + Z.of_nat i)) ++ [46]) <$> seq 0 n).
Proof.
  induction n as [|n IH]; intros idx addr buflen out Ha Hi Hn Hl; cbn [ntoa_loop].
  - exists []. by rewrite app_nil_r.
  - fold (dec (ip4_addr_get_byte addr idx)). destruct (byte_of_addr addr idx Ha ltac:(lia)) as [Hb _].
    pose proof (dec_length _ Hb) as Hd. rewrite put_all_fits by lia. unfold put.
    rewrite (proj2 (Z.leb_gt _ _)) by (rewrite length_app; lia).
    destruct (IH (idx + 1) addr buflen ((out ++ dec (ip4_addr_get_byte addr idx)) ++ [46]))
      as (out' & E & Eo); [done|lia|lia|rewrite !length_app; simpl; lia|].
    eexists. split; [rewrite E, <- !app_assoc; reflexivity|]. subst out'. cbn [seq fmap list_fmap mjoin list_join].
    rewrite Z.add_0_r, <- app_assoc. cbn [app]. f_equal. f_equal.
    rewrite <- (fmap_S_seq 0 n), <- list_fmap_compose. f_equal. apply list_fmap_ext. intros i j _. cbn [compose].
    do 3 f_equal. lia.
Qed.

(** C36: round trip. Printing any address fits into a buffer of 16 characters, and parsing
    the result gives the address back. *)
Theorem ip4addr_ntoa_aton (addr : Z) (Ha : 0 <= addr < 4294967296) :
  exists s, ip4addr_ntoa addr = Some s /\ (length s <= 15)%nat /\ ip4addr_aton s = Some addr.
Proof.
  destruct (ntoa_loop_fits 4 0 addr IP4ADDR_STRLEN_MAX [] Ha) as (out & E & Eo);
    [lia|lia|unfold IP4ADDR_STRLEN_MAX; simpl; lia|].
  pose proof (byte_of_addr addr 0 Ha ltac:(lia)) as [H0 _]. pose proof (byte_of_addr addr 1 Ha ltac:(lia)) as [H1 _].
  pose proof (byte_of_addr addr 2 Ha ltac:(lia)) as [H2 _]. pose proof (byte_of_addr addr 3 Ha ltac:(lia)) as [H3 _].
  pose proof (addr_bytes addr Ha) as Eaddr.
  cbn [seq fmap list_fmap mjoin list_join] in Eo. change (0 + Z.of_nat 0) with 0 in Eo. change (0 + Z.of_nat 1) with 1 in Eo.
  change (0 + Z.of_nat 2) with 2 in Eo. change (0 + Z.of_nat 3) with 3 in Eo.
  set (b0 := ip4_addr_get_byte addr 0) in *. set (b1 := ip4_addr_get_byte addr 1) in *.
  set (b2 := ip4_addr_get_byte addr 2) in *. set (b3 := ip4_addr_get_byte addr 3) in *.
  assert (out = (dec b0 ++ 46 :: dec b1 ++ 46 :: dec b2 ++ 46 :: dec b3 ++ []) ++ [46]) as Eo'
    by (rewrite Eo, app_nil_r; repeat (rewrite <- !app_assoc; cbn [app]); done).
  set (s := dec b0 ++ 46 :: dec b1 ++ 46 :: dec b2 ++ 46 :: dec b3 ++ []) in *.
  exists s. unfold ip4addr_ntoa, ip4addr_ntoa_r. rewrite E, app_nil_l, Eo', length_app, Nat.add_sub, take_app_length.
  split; [done|]. pose proof (dec_length b0 H0). pose proof (dec_length b1 H1). pose proof (dec_length b2 H2).
  pose proof (dec_length b3 H3). split.
  { unfold s. repeat (rewrite ?length_app; cbn [length]). lia. }
  assert (forall r, stops (46 :: r)) as Hdot by (intros r; right; eauto).
  unfold ip4addr_aton, s. rewrite (aton_parts_dec 3 [] b0) by first [done | simpl; lia]. cbn [length Nat.leb app].
  rewrite (aton_parts_dec 2 [b0] b1) by first [done | simpl; lia]. cbn [length Nat.leb app].
  rewrite (aton_parts_dec 1 [b0; b1] b2) by first [done | simpl; lia]. cbn [length Nat.leb app].
  rewrite (aton_parts_dec 0 [b0; b1; b2] b3) by first [by left | done | simpl; lia]. cbn [char_at hd negb andb Z.eqb].
  unfold is_u8 in *. rewrite !(proj2 (Z.ltb_ge _ _)) by lia. cbn [orb]. f_equal.
  rewrite !shiftl_mul by lia. bits_to_arith. rewrite !u32_small by (unfold is_u32; lia).
  rewrite (lor_add (b0 * 16777216) (b1 * 65536) 24) by (try lia; change (2 ^ 24) with 16777216; lia).
  rewrite (lor_add _ (b2 * 256) 16) by (try lia; change (2 ^ 16) with 65536; lia).
  rewrite (lor_add' b3 _ 8) by (try lia; change (2 ^ 8) with 256; lia).
  replace (b3 + (b0 * 16777216 + b1 * 65536 + b2 * 256)) with (word4 b3 b2 b1 b0) by (unfold word4; lia).
  rewrite htonl_word by done. done.
Qed.

(** ** Witnesses *)

Lemma netmask_valid_iff_witness : ip4_addr_netmask_valid 16777215 = true.
Proof. apply (netmask_valid_iff 16777215); [lia|]. exists 24. split; [lia|reflexivity]. Defined.

Lemma ip4addr_ntoa_aton_witness :
  exists s, ip4addr_ntoa 1694607552 = Some s /\ ip4addr_aton s = Some 1694607552.
Proof. destruct (ip4addr_ntoa_aton 1694607552 ltac:(lia)) as (s & E & _ & E'). exists s. exact (conj E E'). Defined.
