(* ===== verification/PbufRefs.v ===== *)
(** * Reference counts of the packet buffers

    [rc ps R] says that the references to pbufs which are held outside the pbuf
    module are exactly the multiset [R]: the count in every live struct is the number
    of its external references plus the number of pbufs chained to it. The operations
    keep the counts exact, so a packet that nobody refers to is always freed and a
    packet somebody refers to never is. *)

From S2P Require Import Prelude Memp Pbuf PbufSpec PbufData.
From stdpp Require Import base numbers list gmap gmultiset functions sorting.
Open Scope Z_scope.
Open Scope c_scope.

(** The pbufs whose [next] is [a]. *)
Definition inlinks (ps : gmap Z pbuf) (a : Z) : nat :=
  base.size (filter (fun cb : Z * pbuf => next cb.2 = a) ps).

(** One reference through the pointer [p], if it is not NULL. *)
Definition ptr (p : Z) : gmultiset Z := if decide (p = NULL) then ∅ else {[+ p +]}.

Definition rc (ps : gmap Z pbuf) (R : gmultiset Z) : Prop :=
  (forall a b, ps !! a = Some b -> ref b = Z.of_nat (multiplicity a R + inlinks ps a)) /\
  (forall a, a ∈ R -> is_Some (ps !! a)) /\
  (forall a b, ps !! a = Some b -> a <> NULL /\ exists l, is_chain ps a l).

(** ** Links *)

Definition points (b : pbuf) (c : Z) : nat := if decide (next b = c) then 1 else 0.

Lemma inlinks_insert ps a b c :
  ps !! a = None -> inlinks (<[a := b]> ps) c = (points b c + inlinks ps c)%nat.
Proof.
  intros E. unfold inlinks, points. destruct (decide (next b = c)) as [Hn|Hn].
  - rewrite map_filter_insert_True by exact Hn. rewrite map_size_insert_None; [done|].
    apply map_lookup_filter_None. by left.
  - rewrite map_filter_insert_not'; [done|exact Hn|]. intros y. by rewrite E.
Qed.

Lemma inlinks_delete ps a b c :
  ps !! a = Some b -> inlinks ps c = (points b c + inlinks (delete a ps) c)%nat.
Proof.
  intros E. rewrite <- (insert_delete_id ps a b E) at 1. apply inlinks_insert. apply lookup_delete_eq.
Qed.

Lemma inlinks_update ps a b b' c :
  ps !! a = Some b -> next b' = next b -> inlinks (<[a := b']> ps) c = inlinks ps c.
Proof.
  intros E Hn. rewrite <- insert_delete_eq. rewrite inlinks_insert by apply lookup_delete_eq.
  rewrite (inlinks_delete ps a b c E). unfold points. by rewrite Hn.
Qed.

Lemma inlinks_pos ps a b c : ps !! a = Some b -> next b = c -> (0 < inlinks ps c)%nat.
Proof. intros E <-. rewrite (inlinks_delete ps a b _ E). unfold points. rewrite decide_True by done. lia. Qed.

Lemma inlinks_pred ps c : (0 < inlinks ps c)%nat -> exists a b, ps !! a = Some b /\ next b = c.
Proof.
  unfold inlinks. intros H. destruct (map_choose (filter (fun cb : Z * pbuf => next cb.2 = c) ps)) as (a & b & E).
  { apply map_size_non_empty_iff. lia. }
  apply map_lookup_filter_Some in E as [E Hn]. eauto.
Qed.

Lemma ptr_null : ptr NULL = ∅.
Proof. done. Qed.
Lemma ptr_some p : p <> NULL -> ptr p = {[+ p +]}.
Proof. intros. unfold ptr. by rewrite decide_False. Qed.

Lemma ptr_mult b c : c <> NULL -> multiplicity c (ptr (next b)) = points b c.
Proof.
  intros Hc. unfold ptr, points. destruct (decide (next b = NULL)) as [->|Hn].
  - rewrite multiplicity_empty, decide_False by done. done.
  - rewrite multiplicity_singleton. repeat case_decide; congruence.
Qed.

(** A struct in the middle of a chain is linked to. *)
Lemma chain_inlink ps p l a : is_chain ps p l -> a ∈ l.*1 -> a <> p -> (0 < inlinks ps a)%nat.
Proof.
  revert p. induction l as [|[x b] l IH]; intros p Hc Hin Hne; [set_solver|].
  destruct Hc as (-> & Hz & E & Hc). apply elem_of_cons in Hin as [->|Hin]; [done|].
  destruct (decide (a = next b)) as [->|Ha]; [by eapply inlinks_pos|]. by eapply IH.
Qed.


(** ** The counts under changes of the store *)

Lemma rc_next ps R a b : rc ps R -> ps !! a = Some b -> next b <> NULL -> is_Some (ps !! next b).
Proof.
  intros (_ & _ & Hl) E Hn. destruct (Hl a b E) as (_ & [|[x c] l] & Hc); [by destruct (Hl a b E) as [? _]|].
  destruct Hc as (<- & _ & E' & Hc). rewrite E in E'. injection E' as <-.
  destruct l as [|[y d] l]; [done|]. destruct Hc as (-> & _ & Ed & _). eauto.
Qed.

(** Nothing links to an address that is not live. *)
Lemma rc_fresh ps R a : rc ps R -> ps !! a = None -> a <> NULL -> inlinks ps a = 0%nat.
Proof.
  intros Hr E Hz. destruct (inlinks ps a) eqn:En; [done|].
  destruct (inlinks_pred ps a) as (x & b & Ex & <-); [lia|].
  destruct (rc_next ps R x b Hr Ex Hz) as [? ?]. congruence.
Qed.

Lemma chain_relink ps a b b' x l :
  ps !! a = Some b -> next b' = next b -> is_chain ps x l -> exists l', is_chain (<[a := b']> ps) x l'.
Proof.
  intros E Hn. revert x. induction l as [|[y c] l IH]; intros x Hx; [by exists []|].
  destruct Hx as (-> & Hz & Ey & Hx). destruct (IH _ Hx) as [l' Hl']. destruct (decide (y = a)) as [->|Hya].
  - exists ((a, b') :: l'). rewrite E in Ey. injection Ey as <-. cbn [is_chain].
    rewrite lookup_insert_eq, Hn. done.
  - exists ((y, c) :: l'). cbn [is_chain]. by rewrite lookup_insert_ne.
Qed.

(** A change of one struct that leaves its link alone. *)
Lemma rc_count ps R R' a b b' :
  rc ps R -> ps !! a = Some b -> next b' = next b ->
  (forall x, x <> a -> multiplicity x R' = multiplicity x R) ->
  ref b' + Z.of_nat (multiplicity a R) = ref b + Z.of_nat (multiplicity a R') -> rc (<[a := b']> ps) R'.
Proof.
  intros (Hc & Hd & Hl) E Hn Hm Hr. split_and!.
  - intros x c Ex. rewrite (inlinks_update _ _ _ _ _ E Hn). apply lookup_insert_Some in Ex as [[<- <-]|[Hne Ex]].
    + specialize (Hc a b E). lia.
    + rewrite Hm by congruence. eauto.
  - intros x Hx. apply lookup_insert_is_Some. destruct (decide (a = x)) as [|Hne]; [by left|right]. split; [done|].
    apply Hd. rewrite elem_of_multiplicity in *. rewrite <- Hm by congruence. done.
  - intros x c Ex. assert (exists d, ps !! x = Some d) as [d Ed].
    { apply lookup_insert_Some in Ex as [[<- _]|[_ Ex]]; eauto. }
    destruct (Hl x d Ed) as (Hz & l & Hx). split; [done|]. by eapply chain_relink.
Qed.

Lemma rc_update ps R a b b' :
  rc ps R -> ps !! a = Some b -> ref b' = ref b -> next b' = next b -> rc (<[a := b']> ps) R.
Proof. intros Hrc E Hr Hn. eapply rc_count; [done|done|done|done|lia]. Qed.

(** A new struct that only its allocator's caller refers to. *)
Lemma rc_alloc ps R a b :
  rc ps R -> ps !! a = None -> a <> NULL -> ref b = 1 -> next b = NULL -> rc (<[a := b]> ps) (ptr a ⊎ R).
Proof.
  intros Hrc E Hz Hr Hn. pose proof Hrc as (Hc & Hd & Hl). rewrite ptr_some by done.
  assert (forall c, c <> NULL -> inlinks (<[a := b]> ps) c = inlinks ps c) as Hin.
  { intros c Hcz. rewrite inlinks_insert by done. unfold points. rewrite Hn. by rewrite decide_False. }
  split_and!.
  - intros x c Ex. rewrite multiplicity_disj_union, multiplicity_singleton.
    apply lookup_insert_Some in Ex as [[<- <-]|[Hne Ex]].
    + rewrite Hin, decide_True, (rc_fresh ps R) by done. rewrite Hr.
      destruct (decide (a ∈ R)) as [Ha|Ha]; [destruct (Hd a Ha); congruence|].
      rewrite elem_of_multiplicity in Ha. lia.
    + destruct (Hl x c Ex) as [Hxz _]. rewrite Hin, decide_False by congruence. rewrite (Hc x c Ex). lia.
  - intros x Hx. apply lookup_insert_is_Some. apply gmultiset_elem_of_disj_union in Hx as [Hx|Hx].
    + apply gmultiset_elem_of_singleton in Hx as ->. by left.
    + destruct (decide (a = x)); eauto.
  - intros x c Ex. apply lookup_insert_Some in Ex as [[<- <-]|[Hne Ex]].
    + split; [done|]. exists [(a, b)]. cbn [is_chain]. by rewrite lookup_insert_eq.
    + destruct (Hl x c Ex) as (Hxz & l & Hx). split; [done|]. exists l. apply is_chain_insert; [|done].
      intros Ha. apply list_elem_of_fmap in Ha as ([a' b'] & Hea & Ha). simpl in Hea. subst a'.
      by rewrite (is_chain_lookup _ _ _ _ _ Hx Ha) in E.
Qed.

(** Taking and dropping one of several references. *)
Lemma rc_ref ps R a b : rc ps R -> ps !! a = Some b -> rc (<[a := with_ref (ref b + 1) b]> ps) (ptr a ⊎ R).
Proof.
  intros Hrc E. pose proof Hrc as (_ & _ & Hl). destruct (Hl a b E) as [Hz _]. rewrite ptr_some by done.
  eapply rc_count; [done|done|done|..].
  - intros x Hx. rewrite multiplicity_disj_union, multiplicity_singleton, decide_False by done. done.
  - rewrite multiplicity_disj_union, multiplicity_singleton, decide_True by done. simpl. lia.
Qed.

Lemma rc_unref ps R a b :
  rc ps (ptr a ⊎ R) -> ps !! a = Some b -> rc (<[a := with_ref (ref b - 1) b]> ps) R.
Proof.
  intros Hrc E. pose proof Hrc as (_ & _ & Hl). destruct (Hl a b E) as [Hz _]. rewrite ptr_some in Hrc by done.
  eapply rc_count; [done|done|done|..].
  - intros x Hx. rewrite multiplicity_disj_union, multiplicity_singleton, decide_False by done. done.
  - rewrite multiplicity_disj_union, multiplicity_singleton, decide_True by done. simpl. lia.
Qed.

(** Dropping the only reference: the struct's link becomes an external reference. *)
Lemma rc_delete ps R a b :
  rc ps (ptr a ⊎ R) -> ps !! a = Some b -> ref b = 1 -> rc (delete a ps) (ptr (next b) ⊎ R).
Proof.
  intros Hrc E Hr. pose proof Hrc as (Hc & Hd & Hl). destruct (Hl a b E) as (Hz & _).
  pose proof (Hc a b E) as Ha. rewrite ptr_some, multiplicity_disj_union, multiplicity_singleton, decide_True in Ha by done.
  assert (multiplicity a R = 0%nat /\ inlinks ps a = 0%nat) as [HR Hin] by lia.
  assert (next b <> a) as Hna by (intros Hn; pose proof (inlinks_pos _ _ _ _ E Hn); lia).
  split_and!.
  - intros x c [Hne Ex]%lookup_delete_Some. destruct (Hl x c Ex) as (Hxz & _). rewrite (Hc x c Ex).
    rewrite !multiplicity_disj_union, (ptr_mult b x), ptr_some, multiplicity_singleton, decide_False by congruence.
    rewrite (inlinks_delete ps a b x E). lia.
  - intros x Hx. rewrite lookup_delete_is_Some. apply gmultiset_elem_of_disj_union in Hx as [Hx|Hx].
    + unfold ptr in Hx. case_decide; [by apply gmultiset_not_elem_of_empty in Hx|].
      apply gmultiset_elem_of_singleton in Hx as ->. split; [congruence|]. by eapply rc_next.
    + split; [intros <-; rewrite elem_of_multiplicity in Hx; lia|]. apply Hd.
      apply gmultiset_elem_of_disj_union. by right.
  - intros x c [Hne Ex]%lookup_delete_Some. destruct (Hl x c Ex) as (Hxz & l & Hx). split; [done|]. exists l.
    apply is_chain_delete; [|done]. intros Hal. pose proof (chain_inlink _ _ _ _ Hx Hal ltac:(congruence)). lia.
Qed.

(** The counts are about references and links only. *)
Lemma inlinks_ext ps ps' a :
  (forall c, (fun b => (ref b, next b)) <$> ps' !! c = (fun b => (ref b, next b)) <$> ps !! c) -> inlinks ps' a = inlinks ps a.
Proof.
  intros He. assert (forall m, inlinks m a = base.size (filter (fun cb : Z * (Z * Z) => cb.2.2 = a) ((fun b => (ref b, next b)) <$> m))) as Hs.
  { intros m. by rewrite map_filter_fmap, map_size_fmap. }
  rewrite !Hs. do 2 f_equal. apply map_eq. intros c. by rewrite !lookup_fmap.
Qed.

Lemma rc_ext ps ps' R :
  (forall c, (fun b => (ref b, next b)) <$> ps' !! c = (fun b => (ref b, next b)) <$> ps !! c) -> rc ps R -> rc ps' R.
Proof.
  intros He (Hc & Hd & Hl).
  assert (forall c b', ps' !! c = Some b' -> exists b, ps !! c = Some b /\ ref b = ref b' /\ next b = next b') as Hb.
  { intros c b' E. specialize (He c). rewrite E in He. destruct (ps !! c) as [b|]; [|done]. injection He as ? ?. eauto. }
  assert (forall c, is_Some (ps !! c) -> is_Some (ps' !! c)) as Hb'.
  { intros c [b E]. specialize (He c). rewrite E in He. destruct (ps' !! c); [eauto|done]. }
  split_and!.
  - intros a b' E. destruct (Hb a b' E) as (b & Eb & <- & _). rewrite (inlinks_ext ps ps' a He). by apply Hc.
  - intros a Ha. apply Hb', Hd, Ha.
  - intros a b' E. destruct (Hb a b' E) as (b & Eb & _). destruct (Hl a b Eb) as (Hz & l & Hx). split; [done|].
    clear -Hx Hb Hb'. revert a Hx. induction l as [|[y c] l IH]; intros x Hx; [by exists []|].
    destruct Hx as (-> & Hz & Ey & Hx). destruct (IH _ Hx) as [l' Hl']. destruct (Hb' y) as [b' E']; [eauto|].
    destruct (Hb y b' E') as (b & Eb & _ & Hn). exists ((y, b') :: l'). cbn [is_chain]. split_and!; [done..|].
    rewrite Ey in Eb. injection Eb as <-. by rewrite <- Hn.
Qed.

(** Cutting a chain: the link becomes an external reference. *)
Lemma rc_unlink ps R q b b' :
  rc ps R -> ps !! q = Some b -> ref b' = ref b -> next b' = NULL -> rc (<[q := b']> ps) (ptr (next b) ⊎ R).
Proof.
  intros Hrc E Hr Hn. pose proof Hrc as (Hc & Hd & Hl).
  assert (forall c, c <> NULL -> inlinks ps c = (points b c + inlinks (<[q := b']> ps) c)%nat) as Hin.
  { intros c Hz. rewrite <- (insert_delete_eq ps q b'), inlinks_insert by apply lookup_delete_eq.
    rewrite (inlinks_delete ps q b c E). assert (points b' c = 0%nat) as -> by (unfold points; rewrite Hn; by rewrite decide_False). done. }
  assert (forall x c, <[q := b']> ps !! x = Some c -> exists d, ps !! x = Some d /\ ref c = ref d) as Hlk.
  { intros x c [[<- <-]|[_ Ex]]%lookup_insert_Some; eauto. }
  split_and!.
  - intros x c Ex. destruct (Hlk x c Ex) as (d & Ed & ->). destruct (Hl x d Ed) as [Hz _].
    rewrite (Hc x d Ed), multiplicity_disj_union, (ptr_mult b x Hz), (Hin x Hz). lia.
  - intros x Hx. apply lookup_insert_is_Some'. apply gmultiset_elem_of_disj_union in Hx as [Hx|Hx]; right; [|by apply Hd].
    unfold ptr in Hx. case_decide; [by apply gmultiset_not_elem_of_empty in Hx|].
    apply gmultiset_elem_of_singleton in Hx as ->. by eapply rc_next.
  - intros x c Ex. destruct (Hlk x c Ex) as (d & Ed & _). destruct (Hl x d Ed) as (Hz & l & Hx). split; [done|].
    clear -Hx E Hn. revert x Hx. induction l as [|[y c] l IH]; intros x Hx; [by exists []|].
    destruct Hx as (-> & Hz & Ey & Hx). destruct (IH _ Hx) as [l' Hl']. destruct (decide (y = q)) as [->|Hyq].
    + exists [(q, b')]. cbn [is_chain]. by rewrite lookup_insert_eq.
    + exists ((y, c) :: l'). cbn [is_chain]. by rewrite lookup_insert_ne.
Qed.

(** A new struct in front of a packet takes over the reference to it. *)
Lemma rc_push ps R a b :
  rc ps (ptr (next b) ⊎ R) -> ps !! a = None -> a <> NULL -> ref b = 1 -> rc (<[a := b]> ps) (ptr a ⊎ R).
Proof.
  intros Hrc E Hz Hr. pose proof Hrc as (Hc & Hd & Hl). rewrite (ptr_some a) by done.
  assert (a ∉ ptr (next b) ⊎ R) as Hni by (intros Ha; destruct (Hd a Ha); congruence).
  assert (next b <> a) as Hna. { intros Hn. apply Hni. rewrite Hn, ptr_some by done. multiset_solver. }
  assert (multiplicity a R = 0%nat) as Hm by (apply not_elem_of_multiplicity; multiset_solver).
  split_and!.
  - intros x c Ex. rewrite inlinks_insert, multiplicity_disj_union, multiplicity_singleton by done.
    apply lookup_insert_Some in Ex as [[<- <-]|[Hne Ex]].
    + unfold points. rewrite decide_True, decide_False, (rc_fresh _ _ _ Hrc E Hz), Hm by done. lia.
    + destruct (Hl x c Ex) as [Hxz _]. rewrite decide_False by congruence. rewrite (Hc x c Ex), multiplicity_disj_union.
      rewrite (ptr_mult b x Hxz). lia.
  - intros x Hx. apply lookup_insert_is_Some'. apply gmultiset_elem_of_disj_union in Hx as [Hx|Hx].
    + apply gmultiset_elem_of_singleton in Hx as ->. by left.
    + right. apply Hd, gmultiset_elem_of_disj_union. by right.
  - assert (forall x l, is_chain ps x l -> is_chain (<[a := b]> ps) x l) as Hk.
    { intros x l Hx. apply is_chain_insert; [|done]. intros ([y d] & Hy & Ha)%list_elem_of_fmap. simpl in Hy. subst y.
      by rewrite (is_chain_lookup _ _ _ _ _ Hx Ha) in E. }
    intros x c Ex. apply lookup_insert_Some in Ex as [[<- <-]|[Hne Ex]].
    + split; [done|]. destruct (decide (next b = NULL)) as [Hn|Hn].
      * exists [(a, b)]. cbn [is_chain]. by rewrite lookup_insert_eq, Hn.
      * destruct (Hd (next b)) as [d Ed]; [rewrite ptr_some by done; multiset_solver|]. destruct (Hl _ _ Ed) as (_ & l & Hx).
        exists ((a, b) :: l). cbn [is_chain]. rewrite lookup_insert_eq. split_and!; try done. by apply Hk.
    + destruct (Hl x c Ex) as (Hxz & l & Hx). split; [done|]. exists l. by apply Hk.
Qed.

(** Adding a whole packet that nobody but the caller refers to. *)
Lemma rc_packet l : forall ps ps' R p,
  rc ps R -> is_chain ps' p l -> Forall (fun ab => ref ab.2 = 1) l -> Forall (fun ab => ps !! ab.1 = None) l ->
  (forall c, c ∉ l.*1 -> ps' !! c = ps !! c) -> rc ps' (ptr p ⊎ R).
Proof.
  induction l as [|[a b] l IH]; intros ps ps' R p Hrc Hc Hr Hf Hout.
  - simpl in Hc. subst p. rewrite ptr_null, (left_id_L ∅ (⊎)). eapply rc_ext; [|exact Hrc].
    intros c. rewrite Hout; [done|]. apply not_elem_of_nil.
  - pose proof (is_chain_NoDup _ _ _ Hc) as Hnd. simpl in Hnd. apply NoDup_cons in Hnd as [Hni _].
    destruct Hc as (-> & Hz & E & Hc). apply Forall_cons in Hr as [Hrb Hr]. apply Forall_cons in Hf as [Hfa Hf]. simpl in *.
    rewrite <- (insert_delete_id ps' a b E). apply rc_push; [|apply lookup_delete_eq|done|done].
    apply (IH ps); [done|by apply is_chain_delete|done|done|]. intros c Hcl. destruct (decide (c = a)) as [->|Hca].
    + by rewrite lookup_delete_eq.
    + rewrite lookup_delete_ne by done. apply Hout. rewrite elem_of_cons. tauto.
Qed.

(** What [pbuf_free] does to the store drops exactly one reference. *)
Lemma rc_free_store l : forall ps R p,
  rc ps (ptr p ⊎ R) -> is_chain ps p l -> rc (free_store ps l) R.
Proof.
  induction l as [|[a b] l IH]; intros ps R p Hrc Hc.
  - simpl in Hc. subst p. rewrite ptr_null in Hrc. by rewrite (left_id_L ∅ (⊎)) in Hrc.
  - pose proof (is_chain_NoDup _ _ _ Hc) as Hnd. simpl in Hnd. apply NoDup_cons in Hnd as [Hni _].
    destruct Hc as (-> & Hz & E & Hc). cbn [free_store]. destruct (Z.eqb_spec (ref b) 1) as [Hr|Hr].
    + eapply IH; [by eapply rc_delete|]. by apply is_chain_delete.
    + by apply rc_unref.
Qed.

(** Without external references there are arbitrarily long chains, or no pbufs. *)
Lemma rc_long ps n a b : rc ps ∅ -> ps !! a = Some b -> (forall c d, ps !! c = Some d -> 0 < ref d) ->
  exists x l, is_chain ps x l /\ x <> NULL /\ (n <= length l)%nat.
Proof.
  intros (Hc & _ & Hl) E Hpos. induction n as [|n IH].
  - destruct (Hl a b E) as (Hz & l & Hx). exists a, l. split_and!; [done|done|lia].
  - destruct IH as (x & [|[y c] l] & Hx & Hz & Hn); [done|]. pose proof Hx as (<- & _ & Ex & _).
    destruct (inlinks_pred ps x) as (p & d & Ep & Hd).
    { pose proof (Hc x c Ex) as Hr. rewrite multiplicity_empty in Hr. pose proof (Hpos x c Ex). lia. }
    exists p, ((p, d) :: (x, c) :: l). destruct (Hl p d Ep) as [Hpz _].
    split_and!; [|done|simpl in *; lia]. refine (conj eq_refl (conj Hpz (conj Ep _))). by rewrite Hd.
Qed.

Lemma rc_no_leak ps : rc ps ∅ -> (forall c d, ps !! c = Some d -> 0 < ref d) -> ps = ∅.
Proof.
  intros Hrc Hpos. apply map_empty. intros a. destruct (ps !! a) as [b|] eqn:E; [|done]. exfalso.
  destruct (rc_long ps (S (base.size ps)) a b Hrc E Hpos) as (x & l & Hx & _ & Hn).
  pose proof (is_chain_size _ _ _ Hx). lia.
Qed.

(** Every live struct survives a change as it is, but for its count. *)
Definition keeps (ps ps' : gmap Z pbuf) : Prop :=
  forall a b', ps' !! a = Some b' -> exists b, ps !! a = Some b /\ b' = with_ref (ref b') b /\ ref b' <= ref b.

Lemma keeps_refl ps : keeps ps ps.
Proof. intros a b E. exists b. split_and!; [done|by destruct b|lia]. Qed.

Lemma keeps_delete ps ps' a : keeps (delete a ps) ps' -> keeps ps ps'.
Proof. intros Hk x b' E. destruct (Hk x b' E) as (b & [_ Eb]%lookup_delete_Some & Hb). eauto. Qed.

Lemma free_store_keeps l : forall ps p, is_chain ps p l -> keeps ps (free_store ps l).
Proof.
  induction l as [|[a b] l IH]; intros ps p Hc; [apply keeps_refl|]. cbn [free_store].
  pose proof (is_chain_NoDup _ _ _ Hc) as Hnd. simpl in Hnd. apply NoDup_cons in Hnd as [Hni _].
  destruct Hc as (-> & Hz & E & Hc). destruct (ref b =? 1).
  - eapply keeps_delete. eapply IH. by apply is_chain_delete.
  - intros x b'. rewrite lookup_insert_Some. intros [[<- <-]|[_ Ex]].
    + exists b. split_and!; [done|done|simpl; lia].
    + by apply keeps_refl.
Qed.

(** The packet at [p] is still there, its structs unchanged but for their counts. *)
Definition same_packet (ps ps' : gmap Z pbuf) (p : Z) : Prop := forall l, is_chain ps p l ->
  exists l', is_chain ps' p l' /\
    Forall2 (fun x y => x.1 = y.1 /\ y.2 = with_ref (ref y.2) x.2 /\ ref y.2 <= ref x.2) l l'.

Lemma keeps_packet ps ps' R p : keeps ps ps' -> rc ps' R -> p = NULL \/ p ∈ R -> same_packet ps ps' p.
Proof.
  intros Hk Hrc Hp l. assert (p = NULL \/ is_Some (ps' !! p)) as Hlive.
  { destruct Hp as [Hp|Hp]; [by left|right]. by apply (proj1 (proj2 Hrc)). }
  clear Hp. revert p Hlive. induction l as [|[a b] l IH]; intros p Hlive Hc.
  - simpl in Hc. subst p. exists []. split; [done|constructor].
  - destruct Hc as (-> & Hz & E & Hc). destruct Hlive as [|[b' E']]; [done|].
    destruct (Hk a b' E') as (b0 & E0 & Hb & Hle). rewrite E in E0. injection E0 as <-.
    assert (next b' = next b) as Hn by (rewrite Hb; done).
    destruct (IH (next b)) as (l' & Hc' & Hl'); [|done|].
    { destruct (decide (next b = NULL)) as [|Hnn]; [by left|right]. rewrite <- Hn in Hnn |- *.
      by eapply rc_next. }
    exists ((a, b') :: l'). split; [|by constructor]. refine (conj eq_refl (conj Hz (conj E' _))). by rewrite Hn.
Qed.

(** ** Placement of the payloads *)

Definition contiguous (b : pbuf) : Prop := (type_internal b &c PBUF_TYPE_FLAG_STRUCT_DATA_CONTIGUOUS) <> 0.

(** The payload is in live memory; where struct and data are one block, so is all
    that lies between them. *)
Definition placed (m : memory) (a : Z) (b : pbuf) : Prop :=
  0 <= len b < 65536 /\ 0 <= tot_len b < 65536 /\ valid_range m (payload b) (len b) /\
  (contiguous b -> a + 16 <= payload b /\ valid_range m (a + 16) (payload b + len b - (a + 16))).

Definition same_dom (m m' : memory) : Prop := forall i, is_Some (m' !! i) <-> is_Some (m !! i).

Lemma same_dom_refl m : same_dom m m.
Proof. done. Qed.
Lemma same_dom_trans m1 m2 m3 : same_dom m1 m2 -> same_dom m2 m3 -> same_dom m1 m3.
Proof. intros H1 H2 i. by rewrite (H2 i), (H1 i). Qed.
Lemma same_dom_store m a l m' : store m a l = Some m' -> same_dom m m'.
Proof. intros E i. by apply (store_dom m a l). Qed.
Lemma same_dom_valid m m' a n : same_dom m m' -> valid_range m a n -> valid_range m' a n.
Proof. intros Hs Hv i Hi. apply Hs. by apply Hv. Qed.
Lemma same_dom_placed m m' a b : same_dom m m' -> placed m a b -> placed m' a b.
Proof.
  intros Hs (H1 & H2 & H3 & H4). split_and!; [lia..|by eapply same_dom_valid|].
  intros Hc. destruct (H4 Hc) as [? ?]. split; [done|]. by eapply same_dom_valid.
Qed.
Global Instance same_dom_preorder : PreOrder same_dom.
Proof. split; [exact same_dom_refl|exact same_dom_trans]. Qed.
#[export] Hint Resolve same_dom_refl same_dom_store same_dom_valid : cint.

Section Refs.
Context (pools : memp_t -> memp_desc) `{HP : !PoolsOk pools} {H : Type} `{HH : !Heap H} `{HL : !HeapLaws pools H}.
Implicit Types s : net H.

(** The packet buffers when [R] are the references held outside them. *)
Definition refs s (R : gmultiset Z) : Prop :=
  (exists fl hl, net_inv pools s fl hl) /\ rc (n_pbufs s) R /\
  (forall a b, n_pbufs s !! a = Some b -> placed (n_mem s) a b) /\
  valid_range (n_mem s) heap_lo (heap_hi - heap_lo).

Lemma refs_chain s R p : refs s R -> p ∈ R -> p <> NULL /\ exists b l, n_pbufs s !! p = Some b /\ is_chain (n_pbufs s) p ((p, b) :: l).
Proof.
  intros (_ & (_ & Hd & Hl) & _) Hp. destruct (Hd p Hp) as [b E]. destruct (Hl p b E) as (Hz & [|[a c] l] & Hc); [done|].
  split; [done|]. pose proof Hc as (<- & _ & E' & _). rewrite E in E'. injection E' as <-. eauto.
Qed.

Lemma refs_mem s R m : refs s R -> same_dom (n_mem s) m -> refs (set_mem m s) R.
Proof.
  intros ((fl & hl & Hi) & Hrc & Hpl & Hh) Hm. split_and!; [by exists fl, hl|done| |by eapply same_dom_valid].
  intros a b E. eapply same_dom_placed; [exact Hm|]. by apply Hpl.
Qed.

Lemma refs_update s R a b b' :
  refs s R -> n_pbufs s !! a = Some b -> ref b' = ref b -> next b' = next b -> type_internal b' = type_internal b ->
  placed (n_mem s) a b' -> refs (set_pbufs (<[a := b']> (n_pbufs s)) s) R.
Proof.
  intros ((fl & hl & Hp & Hh & Ho) & Hrc & Hpl & Hv) E Hr Hn Ht Hb. split_and!; [|by eapply rc_update| |done].
  - exists fl, hl. refine (conj Hp (conj Hh _)). intros x c. cbn [n_pbufs set_pbufs]. rewrite lookup_insert_Some.
    intros [[<- <-]|[_ Ex]]; [|by apply Ho]. specialize (Ho a b E). unfold owned, pbuf_get_allocsrc in *. by rewrite Hr, Ht.
  - intros x c. cbn [n_pbufs set_pbufs]. rewrite lookup_insert_Some. intros [[<- <-]|[_ Ex]]; [done|]. by apply Hpl.
Qed.

Lemma free_refs_store s R p l : refs s (ptr p ⊎ R) -> p <> NULL -> is_chain (n_pbufs s) p l ->
  exists n s', pbuf_free p s = Ok (n, s') /\ refs s' R /\ n_mem s' = n_mem s /\ n_pbufs s' = free_store (n_pbufs s) l.
Proof.
  intros ((fl & hl & Hi) & Hrc & Hpl & Hv) Hz Hc.
  destruct (pbuf_free_spec pools l s fl hl p Hi Hc Hz) as (s' & E & Es & Em & _ & Hi').
  pose proof (free_store_keeps _ _ _ Hc) as Hk.
  eexists _, s'. split_and!; [exact E| |exact Em|exact Es]. split_and!; [eauto|rewrite Es; by eapply rc_free_store| |by rewrite Em].
  rewrite Es. intros a c Ec. destruct (Hk a c Ec) as (c0 & E0 & -> & _). rewrite Em. exact (Hpl a c0 E0).
Qed.

Lemma free_refs s R p : refs s (ptr p ⊎ R) -> p <> NULL ->
  exists n s', pbuf_free p s = Ok (n, s') /\ refs s' R /\ n_mem s' = n_mem s /\ keeps (n_pbufs s) (n_pbufs s').
Proof.
  intros Hr Hz. destruct (refs_chain s _ p Hr) as (_ & b & l & _ & Hc); [rewrite ptr_some by done; multiset_solver|].
  destruct (free_refs_store s R p _ Hr Hz Hc) as (n & s' & E & Hr' & Em & Es). exists n, s'. split_and!; try done.
  rewrite Es. by eapply free_store_keeps.
Qed.

Lemma ref_refs s R p b : refs s R -> n_pbufs s !! p = Some b -> ref b < 255 ->
  exists s', pbuf_ref p s = Ok (tt, s') /\ refs s' (ptr p ⊎ R) /\ n_mem s' = n_mem s.
Proof.
  intros ((fl & hl & Hi) & Hrc & Hpl & Hv) E Hr. pose proof Hrc as (_ & _ & Hl). destruct (Hl p b E) as [Hz _].
  destruct (pbuf_ref_spec pools s fl hl p b Hi Hz E Hr) as (Er & Hi'). eexists. split_and!; [exact Er| |done].
  split_and!; [eauto|by apply rc_ref| |done].
  intros a c. cbn [n_pbufs set_pbufs]. rewrite lookup_insert_Some. intros [[<- <-]|[_ Ex]]; [|by apply Hpl].
  exact (Hpl p b E).
Qed.

Lemma ram_pbuf_placed (m : memory) p layer length :
  0 <= layer <= 1000 -> 0 <= length < 65536 -> heap_lo <= p -> (p + 16 + layer + 3) / 4 * 4 + length <= heap_hi ->
  valid_range m heap_lo (heap_hi - heap_lo) -> placed m p (ram_pbuf p layer length).
Proof.
  intros Hl Hn Hlo Hhi Hv. unfold placed, ram_pbuf. cbn [len tot_len payload]. split_and!; [lia..| |].
  - intros i Hi. apply Hv. lia.
  - intros _. split; [lia|]. intros i Hi. apply Hv. lia.
Qed.

Lemma alloc_ram_refs s R layer length : refs s R -> 0 <= layer <= 1000 -> 0 <= length < 65536 ->
  exists p s', pbuf_alloc pools layer length PBUF_RAM s = Ok (p, s') /\ n_mem s' = n_mem s /\ refs s' (ptr p ⊎ R) /\
  (p = NULL /\ n_pbufs s' = n_pbufs s \/
   p <> NULL /\ n_pbufs s !! p = None /\ n_pbufs s' = <[p := ram_pbuf p layer length]> (n_pbufs s) /\ heap_lo <= p /\
     (p + 16 + layer + 3) / 4 * 4 + length <= heap_hi).
Proof.
  intros ((fl & hl & Hi) & Hrc & Hpl & Hv) Hl Hn.
  destruct (alloc_ram_spec pools s fl hl layer length Hi Hl Hn) as (p & s' & E & Em & [(-> & Es & Hi')|(Hz & Es & Ef & Hlo & Hhi & Hi')]);
    exists p || exists NULL; exists s'; split_and!; try done.
  - split_and!; [eauto| |by rewrite Es, Em|by rewrite Em]. rewrite Es, ptr_null, (left_id_L ∅ (⊎)). done.
  - by left.
  - split_and!; [eauto|rewrite Es; by apply rc_alloc| |by rewrite Em]. rewrite Es, Em. intros a b.
    rewrite lookup_insert_Some. intros [[<- <-]|[_ Ex]]; [|by apply Hpl]. by apply ram_pbuf_placed.
  - right. done.
Qed.

(** ** Headers *)

Definition moved (b : pbuf) (k : Z) : pbuf :=
  with_tot_len (u16 (tot_len b + k)) (with_len (u16 (len b + k)) (with_payload (payload b - k) b)).

(** The room in front of the payload may be added to it. *)
Lemma refs_moved s R p b k : refs s R -> n_pbufs s !! p = Some b -> contiguous b -> 0 < k < 65536 -> p + 16 <= payload b - k ->
  refs (set_pbufs (<[p := moved b k]> (n_pbufs s)) s) R.
Proof.
  intros Hr E Hc Hk Hlo. pose proof Hr as (_ & _ & Hpl & _). destruct (Hpl p b E) as (Hlen & Htot & _ & Hcont).
  destruct (Hcont Hc) as [_ Hva]. eapply refs_update; [done|done|done|done|done|].
  unfold placed. cbn [moved with_tot_len with_len with_payload len tot_len payload].
  pose proof (u16_range (len b + k)) as Hl. pose proof (u16_range (tot_len b + k)) as Ht. unfold is_u16 in *.
  assert (u16 (len b + k) <= len b + k) by (unfold u16; lia).
  split_and!; [lia..| |]; [intros j Hj; apply Hva; lia|]. intros _. split; [lia|]. intros j Hj. apply Hva. lia.
Qed.

Lemma add_header_refs s R p b k :
  refs s R -> n_pbufs s !! p = Some b -> 0 < k < 65536 ->
  pbuf_add_header p k s = Ok (1, s) \/
  (contiguous b /\ p + 16 <= payload b - k /\
   pbuf_add_header p k s = Ok (0, set_pbufs (<[p := moved b k]> (n_pbufs s)) s) /\
   refs (set_pbufs (<[p := moved b k]> (n_pbufs s)) s) R).
Proof.
  intros Hr E Hk. pose proof Hr as (_ & Hrc & Hpl & _). destruct (Hpl p b E) as (Hlen & Htot & Hv & Hcont).
  destruct (proj2 (proj2 Hrc) p b E) as [Hz _].
  unfold pbuf_add_header, pbuf_add_header_impl. rewrite (proj2 (Z.eqb_neq _ _) Hz).
  rewrite (bind_ok (assert _) _ _ tt s) by done. cbn [orb].
  destruct (Z.ltb_spec 65535 k) as [?|_]; [lia|]. destruct (Z.eqb_spec k 0) as [?|_]; [lia|].
  rewrite (bind_ok _ _ _ _ _ (rd_ok p b s E)). rewrite (u16_small k) by (unfold is_u16; lia).
  destruct (u16 (k + tot_len b) <? k); [by left|].
  destruct (Z.eqb_spec (type_internal b &c PBUF_TYPE_FLAG_STRUCT_DATA_CONTIGUOUS) 0) as [|Hc]; [by left|]. cbn [negb].
  change SIZEOF_STRUCT_PBUF with 16. destruct (Z.ltb_spec (payload b - k) (p + 16)) as [|Hle]; [by left|right].
  split_and!; [done|lia|by rewrite (upd3_ok p _ _ _ b s)|]. apply refs_moved; try done; lia.
Qed.

Lemma remove_header_refs s R p b k :
  refs s R -> n_pbufs s !! p = Some b -> 0 < k <= len b -> k <= tot_len b ->
  pbuf_remove_header p k s = Ok (0, set_pbufs (<[p := moved b (- k)]> (n_pbufs s)) s) /\
  refs (set_pbufs (<[p := moved b (- k)]> (n_pbufs s)) s) R.
Proof.
  intros Hr E Hk Hkt. pose proof Hr as (_ & Hrc & Hpl & _). destruct (Hpl p b E) as (Hlen & Htot & Hv & Hcont).
  destruct (proj2 (proj2 Hrc) p b E) as [Hz _]. unfold pbuf_remove_header, moved. rewrite (proj2 (Z.eqb_neq _ _) Hz).
  rewrite (bind_ok (assert _) _ _ tt s) by done. cbn [orb].
  destruct (Z.ltb_spec 65535 k) as [?|_]; [lia|]. destruct (Z.eqb_spec k 0) as [?|_]; [lia|].
  rewrite (bind_ok _ _ _ _ _ (rd_ok p b s E)). rewrite (u16_small k) by (unfold is_u16; lia).
  destruct (Z.ltb_spec (len b) k) as [?|_]; [lia|]. rewrite (upd3_ok p _ _ _ b s) by done.
  rewrite Z.sub_opp_r, !Z.add_opp_r. split; [done|]. rewrite !u16_small by (unfold is_u16; lia).
  eapply refs_update; [done|done|done|done|done|]. unfold placed. cbn [with_tot_len with_len with_payload len tot_len payload].
  split_and!; [lia..| |]; [intros j Hj; apply Hv; lia|]. intros Hc. destruct (Hcont Hc) as [Hlo Hva].
  split; [lia|]. intros j Hj. apply Hva. lia.
Qed.

(** ** Copies *)

(** [q must only be ONE packet, not a packet queue!] *)
Definition one_packet (l : list (Z * pbuf)) : Prop :=
  Forall (fun ab => next ab.2 <> NULL -> len ab.2 <> tot_len ab.2) l.

Lemma memcpy_safe s dst src n : valid_range (n_mem s) src n -> valid_range (n_mem s) dst n -> 0 <= n ->
  exists m, MEMCPY dst src n s = Ok (tt, set_mem m s) /\ same_dom (n_mem s) m.
Proof.
  intros Hs Hd Hn. destruct (load_is_Some (n_mem s) src (Z.to_nat n)) as [x Ex].
  { by rewrite Z2Nat.id. }
  destruct (store_is_Some (n_mem s) dst x) as [m Em].
  { by rewrite (load_length _ _ _ _ Ex), Z2Nat.id. }
  exists m. split; [by apply (memcpy_ok s dst src n x)|]. by eapply same_dom_store.
Qed.

(** No queue starts at the pbuf the copy goes on with. *)
Lemma no_queue s p b : n_pbufs s !! p = Some b -> (next b <> NULL -> len b <> tot_len b) ->
  (b ← rd p; mret ((len b =? tot_len b) && negb (next b =? NULL))) s = Ok (false, s).
Proof.
  intros E Ho. rewrite (bind_ok _ _ _ _ _ (rd_ok p b s E)). unfold mret, M_ret. do 2 f_equal.
  destruct (Z.eqb_spec (len b) (tot_len b)); [|done]. destruct (Z.eqb_spec (next b) NULL); [done|]. by destruct Ho.
Qed.

(** Copying a packet into one large enough pbuf. *)
Lemma copy_loop_safe l : forall fuel s p_to p_from off bt,
  is_chain (n_pbufs s) p_from l -> l <> [] -> totals l -> one_packet l ->
  Forall (fun ab => valid_range (n_mem s) (payload ab.2) (len ab.2)) l ->
  n_pbufs s !! p_to = Some bt -> p_to <> NULL -> next bt = NULL -> len bt = off + sum_len l -> 0 <= off -> len bt < 65536 ->
  valid_range (n_mem s) (payload bt + off) (sum_len l) -> (length l <= fuel)%nat ->
  exists m', same_dom (n_mem s) m' /\
    pbuf_copy_pbuf_loop fuel p_to p_from (sum_len l) off 0 s = Ok (ERR_OK, set_mem m' s).
Proof.
  induction l as [|[a b] l IH]; intros [|fuel] s p_to p_from off bt Hc Hne Ht Ho Hsrc Et Hz Hn Hlen Hoff Hmax Hv Hf; simpl in Hf; try (done || lia).
  destruct Hc as (-> & Haz & E & Hc). destruct Ht as (H0 & H1 & H2 & Ht). pose proof (sum_len_nonneg _ Ht) as Hs.
  apply Forall_cons in Hsrc as [Hsa Hsrc]. simpl in Hsa. pose proof Ho as Ho'. apply Forall_cons in Ho as [Hoa Ho].
  rewrite sum_len_cons in *. cbn [pbuf_copy_pbuf_loop].
  rewrite (bind_ok _ _ _ _ _ (rd_ok p_to bt s Et)), (bind_ok _ _ _ _ _ (rd_ok a b s E)).
  rewrite (u32_small (len bt - off)) by (unfold is_u32; lia). rewrite Z.sub_0_r, (u32_small (len b)) by (unfold is_u32; lia).
  rewrite (proj2 (Z.leb_le (len b) (len bt - off))) by lia.
  rewrite (proj2 (Z.ltb_ge (len b + sum_len l) (len b))) by lia. rewrite (u16_small (len b)) by (unfold is_u16; lia).
  destruct (memcpy_safe s (payload bt + off) (payload b + 0) (len b)) as (m1 & Em1 & Hm1);
    [by rewrite Z.add_0_r|intros i Hi; apply Hv; lia|done|].
  rewrite (bind_ok _ _ _ _ _ Em1). rewrite Z.add_0_l.
  rewrite (u32_small (off + len b)), (u32_small (len b)) by (unfold is_u32; lia).
  replace (len b + sum_len l - len b) with (sum_len l) by lia. rewrite (u16_small (sum_len l)) by (unfold is_u16; lia).
  rewrite (bind_ok (assert _) _ _ tt (set_mem m1 s)) by (unfold assert; by rewrite (proj2 (Z.leb_le _ _)) by lia).
  rewrite (bind_ok (assert _) _ _ tt (set_mem m1 s)) by (unfold assert; by rewrite (proj2 (Z.leb_le _ _)) by lia).
  rewrite (proj2 (Z.leb_le (len b) (len b))) by lia. cbn [andb].
  destruct l as [|[a2 b2] l'].
  - simpl in Hc. rewrite Hc. change (sum_len []) with 0 in *. cbn [negb andb Z.eqb].
    replace (off + len b =? len bt) with true by lia. rewrite Hn. cbn [negb andb Z.eqb]. rewrite andb_false_r.
    exists m1. done.
  - pose proof Hc as (Hnb & Hz2 & E2 & _). rewrite Hnb. rewrite (proj2 (Z.eqb_neq a2 NULL)) by done. cbn [andb].
    pose proof (no_queue (set_mem m1 s) a2 b2 E2 (Forall_inv Ho)) as Hq.
    set (sl := sum_len ((a2, b2) :: l')) in *. rewrite Hnb in Hc.
    destruct (Z.eqb_spec (off + len b) (len bt)) as [Hfull|Hfull]; cbn [andb].
    + assert (sl = 0) as -> by lia. rewrite Hn. cbn [negb andb Z.eqb]. rewrite andb_false_r, (bind_ok _ _ _ _ _ Hq).
      exists m1. done.
    + rewrite (bind_ok _ _ _ _ _ Hq). rewrite (proj2 (Z.eqb_neq p_to NULL)) by done.
      rewrite (bind_ok _ _ _ _ _ (no_queue (set_mem m1 s) p_to bt Et ltac:(done))).
      rewrite (proj2 (Z.eqb_neq sl 0)) by lia. cbn [negb].
      destruct (IH fuel (set_mem m1 s) p_to a2 (off + len b) bt) as (m' & Hm' & Em'); try done; try lia.
      * eapply Forall_impl; [exact Hsrc|]. intros [x c] Hx. by eapply same_dom_valid.
      * eapply same_dom_valid; [exact Hm1|]. intros i Hi. apply Hv. lia.
      * exists m'. split; [by etransitivity|]. exact Em'.
Qed.

Lemma copy_safe s p_to p_from l bt :
  is_chain (n_pbufs s) p_from l -> l <> [] -> totals l -> one_packet l ->
  Forall (fun ab => valid_range (n_mem s) (payload ab.2) (len ab.2)) l ->
  n_pbufs s !! p_to = Some bt -> p_to <> NULL -> next bt = NULL -> len bt = sum_len l -> tot_len bt = sum_len l ->
  valid_range (n_mem s) (payload bt) (len bt) ->
  exists m', same_dom (n_mem s) m' /\ pbuf_copy p_to p_from s = Ok (ERR_OK, set_mem m' s).
Proof.
  intros Hc Hne Ht Ho Hsrc Et Hz Hn Hlen Htot Hv. destruct l as [|[a b] l]; [done|].
  pose proof Hc as (-> & Haz & E & _). pose proof Ht as (H0 & H1 & H2 & Ht'). pose proof (sum_len_nonneg _ Ht') as Hs.
  pose proof (sum_len_cons a b l) as Hsum. unfold pbuf_copy, pbuf_copy_partial_pbuf.
  rewrite (proj2 (Z.eqb_neq a NULL)) by done. rewrite !(bind_ok _ _ _ _ _ (rd_ok a b s E)).
  rewrite (proj2 (Z.ltb_ge (tot_len b) (tot_len b))) by lia. rewrite (proj2 (Z.eqb_neq p_to NULL)) by done.
  rewrite (bind_ok _ _ _ _ _ (rd_ok p_to bt s Et)). rewrite (proj2 (Z.ltb_ge (tot_len bt) (0 + tot_len b))) by lia.
  rewrite (bind_ok (gets _) _ _ (S (S (2 * base.size (n_pbufs s)))) s) by done.
  replace (tot_len b) with (sum_len ((a, b) :: l)) by lia.
  pose proof (is_chain_size _ _ _ Hc) as Hsz.
  apply (copy_loop_safe ((a, b) :: l) _ s p_to a 0 bt); try done; try lia.
  rewrite Z.add_0_r. by rewrite Hlen in Hv.
Qed.

Lemma refs_valid s R p l : refs s R -> is_chain (n_pbufs s) p l ->
  Forall (fun ab => valid_range (n_mem s) (payload ab.2) (len ab.2)) l.
Proof.
  intros (_ & _ & Hpl & _) Hc. apply Forall_forall. intros [a b] Hab. simpl.
  by destruct (Hpl a b (is_chain_lookup _ _ _ _ _ Hc Hab)) as (_ & _ & Hv & _).
Qed.

Lemma clone_refs s R layer p l :
  refs s R -> is_chain (n_pbufs s) p l -> l <> [] -> totals l -> one_packet l -> 0 <= layer <= 1000 ->
  exists c s', pbuf_clone pools layer PBUF_RAM p s = Ok (c, s') /\ refs s' (ptr c ⊎ R) /\ same_dom (n_mem s) (n_mem s').
Proof.
  intros Hr Hc Hne Ht Ho Hl. pose proof (refs_valid _ _ _ _ Hr Hc) as Hsrc. destruct l as [|[a b] l]; [done|].
  pose proof Hc as (-> & Haz & E & _). pose proof Ht as (H0 & H1 & H2 & Ht'). pose proof (sum_len_nonneg _ Ht') as Hs.
  pose proof (sum_len_cons a b l) as Hsum. unfold pbuf_clone. rewrite (bind_ok _ _ _ _ _ (rd_ok a b s E)).
  destruct (alloc_ram_refs s R layer (tot_len b) Hr Hl) as (c & s1 & E1 & Em & Hr1 & Hcase); [lia|].
  rewrite (bind_ok _ _ _ _ _ E1). destruct (Z.eqb_spec c NULL) as [->|Hz].
  - exists NULL, s1. split_and!; [done|done|by rewrite Em].
  - destruct Hcase as [[? _]|(_ & Ef & Es & _)]; [done|].
    assert (is_chain (n_pbufs s1) a ((a, b) :: l)) as Hc1.
    { rewrite Es. apply is_chain_insert; [|done]. intros Hin. apply list_elem_of_fmap in Hin as ([x d] & Hx & Hin).
      simpl in Hx. subst x. by rewrite (is_chain_lookup _ _ _ _ _ Hc Hin) in Ef. }
    assert (n_pbufs s1 !! c = Some (ram_pbuf c layer (tot_len b))) as Ec by (rewrite Es; apply lookup_insert_eq).
    destruct (copy_safe s1 c a ((a, b) :: l) (ram_pbuf c layer (tot_len b))) as (m' & Hm' & Em');
      try done; try (cbn [ram_pbuf len tot_len]; lia); [by eapply refs_valid| |].
    + destruct Hr1 as (_ & _ & Hpl & _). by destruct (Hpl c _ Ec) as (_ & _ & Hv & _).
    + rewrite (bind_ok _ _ _ _ _ Em'). exists c, (set_mem m' s1). split_and!; [done|by apply refs_mem|].
      cbn [n_mem set_mem]. by rewrite <- Em.
Qed.

(** ** Whole packets *)

(** A received packet: a well-formed chain from the pool that only its holder refers to. *)
Definition whole (ps : gmap Z pbuf) (p : Z) (b : pbuf) (l : list (Z * pbuf)) : Prop :=
  is_chain ps p ((p, b) :: l) /\ totals ((p, b) :: l) /\ one_packet ((p, b) :: l) /\ sole_pool ((p, b) :: l).

Lemma placed_shorter m a b b' : placed m a b -> payload b' = payload b -> type_internal b' = type_internal b ->
  0 <= len b' <= len b -> 0 <= tot_len b' <= tot_len b -> placed m a b'.
Proof.
  intros (H1 & H2 & Hv & Hc) Hp Ht Hl Htl. unfold placed, contiguous in *. rewrite Hp, Ht. split_and!; [lia..| |].
  - intros i Hi. apply Hv. lia.
  - intros Hx. destruct (Hc Hx) as [? Hva]. split; [done|]. intros i Hi. apply Hva. lia.
Qed.

Lemma sum_len_last l q b : totals (l ++ [(q, b)]) -> len b <= sum_len (l ++ [(q, b)]).
Proof.
  intros Ht. rewrite sum_len_app. unfold sum_len at 2. cbn [foldr snd]. destruct (sum_len_pre _ _ Ht) as [? _]. lia.
Qed.

Lemma cut_one_packet n pre q b r : totals (shrunk n pre ++ [(q, cut_at r b)]) -> (pre <> [] -> 0 < r) ->
  one_packet (shrunk n pre ++ [(q, cut_at r b)]).
Proof.
  intros Ht Hr. induction pre as [|[a c] pre IH]; [by repeat constructor|]. specialize (Hr ltac:(done)).
  change (shrunk n ((a, c) :: pre)) with ((a, with_tot_len (tot_len c - n) c) :: shrunk n pre) in *.
  destruct Ht as (H0 & H1 & H2 & Ht). constructor; [|apply IH; auto]. intros _.
  pose proof (sum_len_last _ _ _ Ht) as Hs. cbn [snd len tot_len with_tot_len cut_at with_next with_len] in *. lia.
Qed.

Lemma cut_sole n pre q b post r : sole_pool (pre ++ (q, b) :: post) -> sole_pool (shrunk n pre ++ [(q, cut_at r b)]).
Proof.
  unfold sole_pool. intros [Hp [Hb _]%Forall_cons]%Forall_app. apply Forall_app. split; [|by apply Forall_singleton].
  unfold shrunk. apply Forall_fmap. eapply Forall_impl; [exact Hp|]. done.
Qed.

Lemma shrunk_placed m sh pre rest c d : (forall a b, (a, b) ∈ pre -> placed m a b) ->
  totals (shrunk sh pre ++ rest) -> 0 <= sh -> (c, d) ∈ shrunk sh pre -> placed m c d.
Proof.
  intros Hp Ht Hs Hin. unfold shrunk in Hin. apply list_elem_of_fmap in Hin as ([a b] & [= -> ->] & Hin).
  pose proof (Hp a b Hin) as Hab. eapply placed_shorter; [exact Hab|done|done|..]; cbn [len tot_len with_tot_len].
  - destruct Hab as (? & _). lia.
  - split; [|lia]. apply list_elem_of_split in Hin as (l1 & l2 & ->). unfold shrunk in Ht.
    rewrite fmap_app, <- app_assoc in Ht. apply totals_app in Ht as (H0 & Htc & _ & Ht).
    apply sum_len_nonneg in Ht. cbn [len tot_len with_tot_len snd fst] in *. lia.
Qed.

Lemma cut_rc ps ps1 ps' R p sh pre q b post r :
  rc ps R -> (forall c, (fun b => (ref b, next b)) <$> ps1 !! c = (fun b => (ref b, next b)) <$> ps !! c) ->
  is_chain ps1 p (shrunk sh pre ++ (q, b) :: post) -> sole_pool post ->
  (forall c, ps' !! c = if decide (c = q) then Some (cut_at r b) else if decide (c ∈ post.*1) then None else ps1 !! c) ->
  rc ps' R.
Proof.
  intros Hrc Hrn Hc1 Hsp Hs. pose proof (is_chain_lookup _ _ _ q b Hc1 ltac:(set_solver)) as Eq1.
  pose proof (rc_unlink ps1 R q b (cut_at r b) (rc_ext _ _ _ Hrn Hrc) Eq1 eq_refl eq_refl) as Hu.
  pose proof (is_chain_NoDup _ _ _ Hc1) as Hnd. rewrite fmap_app, fmap_cons in Hnd.
  apply NoDup_app in Hnd as (_ & _ & Hnd). apply NoDup_cons in Hnd as [Hqp _]. simpl in Hqp.
  apply is_chain_suffix in Hc1 as (_ & _ & _ & Hsf).
  pose proof (rc_free_store post _ R _ Hu (is_chain_insert _ _ _ _ _ Hqp Hsf)) as Hfin.
  eapply rc_ext; [|exact Hfin]. intros c. rewrite Hs, (free_store_lookup pools post) by done.
  destruct (decide (c = q)) as [->|Hcq]; [by rewrite decide_False, lookup_insert_eq|].
  rewrite lookup_insert_ne by done. done.
Qed.

Lemma realloc_refs s R p b l n : refs s R -> whole (n_pbufs s) p b l -> 0 <= n < tot_len b ->
  exists s' b' l', pbuf_realloc p n s = Ok (tt, s') /\ refs s' R /\ n_mem s' = n_mem s /\ whole (n_pbufs s') p b' l' /\
    tot_len b' = n /\ len b' = Z.min (len b) n /\ payload b' = payload b /\ type_internal b' = type_internal b /\
    (forall d, chain_data (n_mem s) ((p, b) :: l) = Some d ->
       chain_data (n_mem s) ((p, b') :: l') = Some (take (Z.to_nat n) d)).
Proof.
  intros ((fl & hl & Hi) & Hrc & Hpl & Hv) (Hc & Ht & Ho & Hsp) Hn. set (L := (p, b) :: l) in *.
  assert (tot_len b = sum_len L) as Etl by (destruct Ht as (? & ? & _); unfold L; rewrite sum_len_cons; lia).
  destruct (realloc_cut pools s fl hl p n L Hi Hc Ht Hsp) as
    (s' & pre & q & bq & post & r & ps1 & El & Er & Hr & Hr0 & E & Hc1 & Hout & Hrn & Hs & Em & Hi'); [lia|].
  assert (sum_len L - n = sum_len ((q, bq) :: post) - r) as Esh by (rewrite El, sum_len_app; lia).
  pose proof Ht as Ht0. rewrite El in Ht0. destruct (shrunk_totals _ pre q bq post r Ht0 Hr Esh) as [Ht' Hs'].
  assert (is_chain (n_pbufs s') p (shrunk (sum_len L - n) pre ++ [(q, cut_at r bq)])) as Hc' by (by eapply realloc_cut_chain).
  set (L' := shrunk (sum_len L - n) pre ++ [(q, cut_at r bq)]) in *.
  assert (refs s' R) as Hr'.
  { split_and!; [eauto| | |by rewrite Em].
    - rewrite El in Hsp. apply Forall_app in Hsp as [_ [_ Hsp]%Forall_cons]. by eapply cut_rc.
    - rewrite Em. intros c d. rewrite Hs. destruct (decide (c = q)) as [->|Hcq].
      + intros [= <-]. assert (n_pbufs s !! q = Some bq) as Eq by (apply (is_chain_lookup _ _ _ q bq Hc); rewrite El; set_solver).
        eapply placed_shorter; [exact (Hpl q bq Eq)|done|done|..]; cbn [len tot_len cut_at with_next with_tot_len with_len]; [lia|].
        destruct (totals_app _ _ Ht0) as (? & ? & _ & Hp0). pose proof (sum_len_nonneg _ Hp0). lia.
      + destruct (decide (c ∈ post.*1)); [done|]. destruct (decide (c ∈ pre.*1)) as [Hcp|Hcp].
        * rewrite <- (shrunk_fst (sum_len L - n)) in Hcp. apply list_elem_of_fmap in Hcp as ([c' d'] & -> & Hin). cbn [fst].
          rewrite (is_chain_lookup _ _ _ c' d' Hc1) by set_solver. intros [= <-].
          eapply shrunk_placed; [|exact Ht'|lia|exact Hin]. intros a x Hax. apply Hpl, (is_chain_lookup _ _ _ a x Hc). rewrite El. set_solver.
        * rewrite Hout by done. apply Hpl. }
  assert (exists b' l', L' = (p, b') :: l' /\ len b' = Z.min (len b) n /\ payload b' = payload b /\ type_internal b' = type_internal b)
    as (b' & l' & EL & Hlb & Hpb & Htb).
  { unfold L'. destruct pre as [|[a c] pre]; injection El as -> -> ->.
    - eexists _, _. split; [reflexivity|]. change (sum_len []) with 0 in *. cbn. split_and!; [lia|done|done].
    - specialize (Hr0 ltac:(done)). rewrite sum_len_cons in Er. destruct Ht0 as (_ & _ & _ & Ht0). apply sum_len_pre in Ht0 as [? _].
      eexists _, _. split; [reflexivity|]. cbn. split_and!; [lia|done|done]. }
  exists s', b', l'. rewrite <- EL. split_and!; try done.
  - split_and!; rewrite <- EL; [done|done|by apply cut_one_packet|]. eapply cut_sole. by rewrite <- El.
  - rewrite EL in Ht', Hs'. destruct Ht' as (_ & Hx & _). rewrite sum_len_cons in Hs'. lia.
  - intros d Hd. rewrite El in Hd. unfold L'. rewrite (shrunk_data _ _ pre q bq post r d Ht0 Hr Hd). do 2 f_equal. lia.
Qed.

(** A new packet from the pool. *)
Lemma pool_packet_refs s s' R fl fl' hl hl' p l :
  refs s R -> net_inv pools s fl hl -> net_inv pools s' fl' hl' -> same_dom (n_mem s) (n_mem s') ->
  is_chain (n_pbufs s') p l -> sole_pool l -> Forall (fun ab => ab.1 ∈ fl MEMP_PBUF_POOL) l ->
  (forall c, c ∉ l.*1 -> n_pbufs s' !! c = n_pbufs s !! c) -> Forall (fun ab => placed (n_mem s) ab.1 ab.2) l ->
  refs s' (ptr p ⊎ R).
Proof.
  intros (_ & Hrc & Hpl & Hv) Hi Hi' Hd Hc Hsp Hfl Hout Hp. split_and!; [eauto| | |by eapply same_dom_valid].
  - eapply rc_packet; [exact Hrc|exact Hc| | |exact Hout].
    + eapply Forall_impl; [exact Hsp|]. by intros ab [? _].
    + eapply Forall_impl; [exact Hfl|]. intros ab Hab. by eapply free_elem_fresh.
  - intros a b E. eapply same_dom_placed; [exact Hd|]. destruct (decide (a ∈ l.*1)) as [Ha|Ha].
    + apply list_elem_of_fmap in Ha as ([x c] & -> & Hx). rewrite Forall_forall in Hp. specialize (Hp _ Hx).
      simpl in *. rewrite (is_chain_lookup _ _ _ _ _ Hc Hx) in E. by injection E as <-.
    + rewrite Hout in E by done. by apply Hpl.
Qed.

(** ** Moving the header back and forth *)

Lemma add_header_fits s p b k s' : n_pbufs s !! p = Some b -> 0 < k < 65536 -> 0 <= tot_len b < 65536 ->
  pbuf_add_header p k s = Ok (0, s') -> tot_len b + k < 65536.
Proof.
  intros E Hk Htl. unfold pbuf_add_header, pbuf_add_header_impl. destruct (Z.eqb_spec p NULL); [by subst|].
  rewrite (bind_ok (assert _) _ _ tt s) by done. cbn [orb].
  destruct (Z.ltb_spec 65535 k) as [?|_]; [lia|]. destruct (Z.eqb_spec k 0) as [?|_]; [lia|].
  rewrite (bind_ok _ _ _ _ _ (rd_ok p b s E)). rewrite (u16_small k) by (unfold is_u16; lia).
  destruct (Z.ltb_spec (u16 (k + tot_len b)) k) as [|Hle]; [done|]. intros _.
  destruct (Z.lt_ge_cases (tot_len b + k) 65536) as [|Hge]; [done|]. unfold u16 in Hle.
  rewrite <- (Z_mod_plus_full _ (-1)), Z.mod_small in Hle; lia.
Qed.

Lemma add_header_succeeds s p b k : n_pbufs s !! p = Some b -> p <> NULL -> 0 < k < 65536 -> 0 <= tot_len b -> tot_len b + k < 65536 ->
  contiguous b -> p + 16 <= payload b - k ->
  pbuf_add_header p k s = Ok (0, set_pbufs (<[p := moved b k]> (n_pbufs s)) s).
Proof.
  intros E Hz Hk H0 Hfit Hc Hlo. unfold pbuf_add_header, pbuf_add_header_impl. rewrite (proj2 (Z.eqb_neq _ _) Hz).
  rewrite (bind_ok (assert _) _ _ tt s) by done. cbn [orb].
  destruct (Z.ltb_spec 65535 k) as [?|_]; [lia|]. destruct (Z.eqb_spec k 0) as [?|_]; [lia|].
  rewrite (bind_ok _ _ _ _ _ (rd_ok p b s E)). rewrite (u16_small k), (u16_small (k + tot_len b)) by (unfold is_u16; lia).
  destruct (Z.ltb_spec (k + tot_len b) k) as [?|_]; [lia|].
  destruct (Z.eqb_spec (type_internal b &c PBUF_TYPE_FLAG_STRUCT_DATA_CONTIGUOUS) 0) as [|_]; [done|]. cbn [negb].
  change SIZEOF_STRUCT_PBUF with 16. destruct (Z.ltb_spec (payload b - k) (p + 16)) as [|_]; [lia|]. by rewrite (upd3_ok p _ _ _ b s).
Qed.

Lemma moved_small b k : 0 <= len b + k < 65536 -> 0 <= tot_len b + k < 65536 ->
  moved b k = with_tot_len (tot_len b + k) (with_len (len b + k) (with_payload (payload b - k) b)).
Proof. intros Hl Ht. unfold moved. by rewrite !u16_small by (unfold is_u16; lia). Qed.

Lemma moved_back b k : 0 <= len b <= tot_len b -> 0 <= k -> tot_len b + k < 65536 -> moved (moved b k) (- k) = b.
Proof.
  intros Hl Hk Ht. rewrite (moved_small b k) by lia. rewrite moved_small; cbn [len tot_len payload with_tot_len with_len with_payload]; [|lia..].
  destruct b. unfold with_tot_len, with_len, with_payload. cbn. f_equal; lia.
Qed.

(** A well-formed packet, whatever it was allocated from. *)
Definition packet (ps : gmap Z pbuf) (p : Z) (b : pbuf) (l : list (Z * pbuf)) : Prop :=
  is_chain ps p ((p, b) :: l) /\ totals ((p, b) :: l) /\ one_packet ((p, b) :: l).

Lemma whole_packet ps p b l : whole ps p b l -> packet ps p b l /\ ref b = 1.
Proof. intros (Hc & Ht & Ho & [[Hr _] _]%Forall_cons). done. Qed.

Lemma packet_lens ps p b l : packet ps p b l -> 0 <= len b <= tot_len b /\ tot_len b < 65536.
Proof. intros (_ & (? & ? & ? & Ht) & _). pose proof (sum_len_nonneg _ Ht). lia. Qed.

Lemma packet_lookup ps p b l : packet ps p b l -> p <> NULL /\ ps !! p = Some b.
Proof. intros ((_ & ? & ? & _) & _). done. Qed.

(** A packet whose header was moved. *)
Lemma packet_moved ps p b l k : packet ps p b l -> 0 <= len b + k -> tot_len b + k < 65536 ->
  packet (<[p := moved b k]> ps) p (moved b k) l.
Proof.
  intros (Hc & Ht & Ho) H1 H2. pose proof (is_chain_NoDup _ _ _ Hc) as Hnd. apply NoDup_cons in Hnd as [Hni _].
  destruct Hc as (_ & Hz & E & Hc). destruct Ht as (Hl & Htl & Hu & Ht). pose proof (sum_len_nonneg _ Ht).
  apply Forall_cons in Ho as [Ho1 Ho]. rewrite moved_small by lia.
  split_and!; cbn [is_chain totals len tot_len next with_tot_len with_len with_payload snd].
  - rewrite lookup_insert_eq. split_and!; try done. by apply is_chain_insert.
  - split_and!; try done; lia.
  - constructor; [|done]. cbn. intros Hn Heq. apply Ho1; [done|]. simpl. lia.
Qed.

Lemma whole_moved ps p b l k : whole ps p b l -> 0 <= len b + k -> tot_len b + k < 65536 ->
  whole (<[p := moved b k]> ps) p (moved b k) l.
Proof.
  intros Hw H1 H2. pose proof (proj1 (whole_packet _ _ _ _ Hw)) as Hp. destruct (packet_moved _ _ _ _ k Hp H1 H2) as (? & ? & ?).
  destruct Hw as (_ & _ & _ & [Hs1 Hs]%Forall_cons). split_and!; try done. by constructor.
Qed.

(** C22: reference counting is exact. When the references held outside the pbuf module
    are those of [R] and one to [p], [pbuf_free] returns, leaves exactly the references
    of [R], and changes no other packet but for its counts; with no reference left no
    pbuf is left either: nothing leaks and nothing in use is freed. *)
Theorem pbuf_free_exact s (R : gmultiset Z) (p : Z) (Hr : refs s (ptr p ⊎ R)) (Hp : p <> NULL) :
  exists n s', pbuf_free p s = Ok (n, s') /\ refs s' R /\ n_mem s' = n_mem s /\
    (forall q, q ∈ R -> same_packet (n_pbufs s) (n_pbufs s') q) /\ (R = ∅ -> n_pbufs s' = ∅).
Proof.
  destruct (free_refs s R p Hr Hp) as (n & s' & E & Hr' & Em & Hk). pose proof Hr' as ((fl & hl & _ & _ & Ho) & Hrc & _).
  exists n, s'. split_and!; [exact E|done|done| |].
  - intros q Hq. eapply keeps_packet; [done|done|by right].
  - intros ->. apply rc_no_leak; [done|]. intros c d Hcd. by destruct (Ho c d Hcd) as ((? & _) & _).
Qed.
End Refs.

(** ** Witness *)

Definition ex_refs (m : memory) : net Z := set_mem m example_net.
Definition ex_refs_mem : memory := mem_on (seqZ 536870912 65536).

Lemma ex_refs_ok m : (forall i, 536870912 <= i < 536936448 -> is_Some (m !! i)) -> refs example_pools (ex_refs m) ∅.
Proof.
  intros Hm. split_and!.
  - eexists _, _. exact example_net_inv.
  - split_and!; [intros a b; simpl; by rewrite lookup_empty|intros a Ha; by apply gmultiset_not_elem_of_empty in Ha|].
    intros a b. simpl. by rewrite lookup_empty.
  - intros a b. simpl. by rewrite lookup_empty.
  - intros i Hi. simpl in *. apply Hm. lia.
Qed.

Lemma ex_refs_mem_ok i : 536870912 <= i < 536936448 -> is_Some (ex_refs_mem !! i).
Proof.
  intros Hi. assert (valid_range ex_refs_mem 536870912 65536) as Hv; [|exact (Hv i ltac:(lia))].
  unfold ex_refs_mem. apply mem_on_valid. intros j Hj. apply elem_of_seqZ. lia.
Qed.

Lemma pbuf_free_exact_witness :
  exists s1 n s2, pbuf_alloc example_pools PBUF_LINK 28 PBUF_RAM (ex_refs ex_refs_mem) = Ok (536870912, s1) /\
    pbuf_free 536870912 s1 = Ok (n, s2) /\ n_pbufs s2 = ∅.
Proof.
  assert (exists s1, pbuf_alloc example_pools PBUF_LINK 28 PBUF_RAM (ex_refs ex_refs_mem) = Ok (536870912, s1)) as [s1 E].
  { generalize ex_refs_mem. intros m. eexists. vm_compute. reflexivity. }
  destruct (alloc_ram_refs example_pools (ex_refs ex_refs_mem) ∅ PBUF_LINK 28) as (p & s1' & E' & _ & Hr & _);
    [apply ex_refs_ok, ex_refs_mem_ok|unfold PBUF_LINK; lia|lia|].
  rewrite E in E'. injection E' as <- <-.
  destruct (pbuf_free_exact example_pools s1 ∅ 536870912 Hr) as (n & s2 & Ef & _ & _ & _ & He); [done|].
  exists s1, n, s2. exact (conj E (conj Ef (He eq_refl))).
Defined.
