(* ===== verification/Ethernet.v ===== *)
(** * Ethernet output: netif/ethernet.c, the interfaces and multi-byte memory access

    The state of the link layer is the driver's state and the [struct netif]s, keyed
    by address. [netif->linkoutput] is a parameter, since it is called through a
    pointer in the interface; [LinkLaws] says what its callers rely on, and the
    driver's [low_level_output] satisfies it. *)

From S2P Require Import Prelude Chksum Memp Pbuf PbufSpec PbufData PbufRefs Ethernetif Ip4Addr.
From stdpp Require Import base numbers list gmap gmultiset functions sorting.
Open Scope Z_scope.
Open Scope c_scope.

(** ** Headers and interfaces *)

(** The fields of [struct netif] that are used; the functions it points to are
    parameters of the code that calls them. *)
Record nif := {
  ip_addr : Z; netmask : Z; gw : Z;
  nif_hwaddr : list Z; nif_hwaddr_len : Z; nif_mtu : Z; nif_flags : Z; num : Z }.

Definition SIZEOF_ETH_HDR : Z := 14.
Definition ETHTYPE_IP : Z := 2048.
Definition ETHTYPE_ARP : Z := 2054.
Definition ethbroadcast : list Z := [255; 255; 255; 255; 255; 255].
Definition ethzero : list Z := [0; 0; 0; 0; 0; 0].

Record link (H : Type) := mk_link { l_eth : eth H; l_netifs : gmap Z nif }.
Arguments mk_link {H}.
Arguments l_eth {H}.
Arguments l_netifs {H}.

(** The two bytes of a 16-bit and the four of a 32-bit number in memory. *)
Definition bytes16 (x : Z) : list Z := [x mod 256; x / 256 mod 256].
Definition bytes32 (x : Z) : list Z := [x mod 256; x / 256 mod 256; x / 65536 mod 256; x / 16777216 mod 256].

Section Ethernet.
Context {H : Type} `{HH : !Heap H}.
Context (linkoutput : Z -> Z -> M (eth H) Z).

Definition on_eth {A} (m : M (eth H) A) : M (link H) A := fun s =>
  match m (l_eth s) with
  | Ok (a, e) => Ok (a, mk_link e (l_netifs s))
  | AssertFail => AssertFail | Fault => Fault | NoFuel => NoFuel
  end.
Definition in_net {A} (m : M (net H) A) : M (link H) A := on_eth (on_net m).
Definition rd_netif (n : Z) : M (link H) nif := fun s => deref (l_netifs s !! n) s.

(** [SMEMCPY] to and from a local variable, and assignments to a [u16_t] field. *)
Definition read_bytes (a : Z) (n : nat) : M (net H) (list Z) := fun s => deref (load (n_mem s) a n) s.
Definition write_bytes (a : Z) (l : list Z) : M (net H) unit := fun s =>
  match store (n_mem s) a l with Some m => Ok (tt, set_mem m s) | None => Fault end.
Definition read_u16 (a : Z) : M (net H) Z :=
  l ← read_bytes a 2; mret (match l with [b0; b1] => b0 + 256 * b1 | _ => 0 end).
Definition read_u32 (a : Z) : M (net H) Z :=
  l ← read_bytes a 4;
  mret (match l with [b0; b1; b2; b3] => b0 + 256 * b1 + 65536 * b2 + 16777216 * b3 | _ => 0 end).

Definition ethernet_output (netif p : Z) (src dst : list Z) (eth_type : Z) : M (link H) Z :=
  let eth_type_be := lwip_htons eth_type in
  r ← in_net (pbuf_add_header p SIZEOF_ETH_HDR);
  if negb (r =? 0) then mret ERR_BUF
  else
    b ← in_net (rd p);
    let ethhdr := payload b in
    in_net (write_bytes (ethhdr + 12) (bytes16 eth_type_be));;
    in_net (write_bytes ethhdr dst);;
    in_net (write_bytes (ethhdr + 6) src);;
    n ← rd_netif netif;
    assert (nif_hwaddr_len n =? 6);;
    on_eth (linkoutput netif p).
End Ethernet.

(** ** What a link output function promises *)

(** [link_ready] is the device's own condition; sending reads the packet, which is in
    live memory, and changes bytes of memory and the device only. *)
Class LinkLaws {H : Type} (linkoutput : Z -> Z -> M (eth H) Z) := {
  link_ready : eth H -> Prop;
  link_ready_dom : forall e e', link_ready e -> e_mac e' = e_mac e ->
    same_dom (n_mem (e_net e)) (n_mem (e_net e')) -> link_ready e';
  linkoutput_law : forall e nif p l, link_ready e -> is_chain (n_pbufs (e_net e)) p l ->
    Forall (fun ab => 0 <= len ab.2 < 65536 /\ valid_range (n_mem (e_net e)) (payload ab.2) (len ab.2)) l ->
    exists r m k, linkoutput nif p e = Ok (r, mk_eth (set_mem m (e_net e)) k) /\ same_dom (n_mem (e_net e)) m /\
      link_ready (mk_eth (set_mem m (e_net e)) k)
}.

(** ** The driver as a link *)

Section DriverLink.
Context {H : Type} (hw : dma).
Implicit Types e : eth H.

Definition driver_link (nif p : Z) : M (eth H) Z := low_level_output hw p.

(** The MAC names a receive slot and a frame that fits into it; every transmit slot is
    live memory of the slot's size. *)
Definition rx_in_range (m : mac) : Prop := 0 <= rx_slot m < ETHMAC_RX_SLOTS hw /\ 0 <= rx_length m <= ETHMAC_SLOT_SIZE hw.
Definition driver_ready e : Prop :=
  rx_in_range (e_mac e) /\
  0 <= ETHMAC_SLOT_SIZE hw < 65536 /\ 0 < ETHMAC_TX_SLOTS hw /\ 0 <= txslot (e_mac e) < ETHMAC_TX_SLOTS hw /\
  forall slot, 0 <= slot < ETHMAC_TX_SLOTS hw -> valid_range (n_mem (e_net e)) (tx_buf hw slot) (ETHMAC_SLOT_SIZE hw).

Lemma tx_copy_safe l : forall fuel (s : net H) q dst len0,
  is_chain (n_pbufs s) q l -> (length l < fuel)%nat ->
  Forall (fun ab => 0 <= len ab.2 < 65536 /\ valid_range (n_mem s) (payload ab.2) (len ab.2)) l ->
  0 <= len0 <= ETHMAC_SLOT_SIZE hw -> ETHMAC_SLOT_SIZE hw < 65536 -> valid_range (n_mem s) dst (ETHMAC_SLOT_SIZE hw) ->
  exists r m, tx_copy hw fuel q dst len0 s = Ok (r, set_mem m s) /\ same_dom (n_mem s) m.
Proof.
  induction l as [|[a b] l IH]; intros [|fuel] s q dst len0 Hc Hf Hl H0 Hsz Hv; simpl in Hf; try lia.
  - simpl in Hc. subst q. exists (Some len0), (n_mem s). split; [by destruct s|done].
  - destruct Hc as (-> & Hz & E & Hc). apply Forall_cons in Hl as [[Hb Hvb] Hl]. simpl in Hb, Hvb.
    cbn [tx_copy]. rewrite (proj2 (Z.eqb_neq _ _) Hz), (bind_ok _ _ _ _ _ (rd_ok a b s E)).
    rewrite u32_small by (unfold is_u32; lia). destruct (Z.ltb_spec (ETHMAC_SLOT_SIZE hw) (len0 + len b)).
    { exists None, (n_mem s). split; [by destruct s|done]. }
    destruct (memcpy_safe s (dst + len0) (payload b) (len b) Hvb) as (m1 & E1 & Hm1); [intros i Hi; apply Hv; lia|lia|].
    rewrite (bind_ok _ _ _ _ _ E1).
    destruct (IH fuel (set_mem m1 s) (next b) dst (len0 + len b)) as (r & m & E2 & Hm); [done|lia| |lia|done| |].
    + eapply Forall_impl; [exact Hl|]. intros [x c] [? ?]. split; [done|]. by eapply same_dom_valid.
    + by eapply same_dom_valid.
    + exists r, m. split; [exact E2|]. by etransitivity.
Qed.

(** The end of [low_level_output]. *)
Lemma tx_finish (r : option Z) slot (n : net H) k : exists x k',
  (match r with
   | None => mret ERR_BUF
   | Some len0 =>
       reader_slot_write slot;; reader_length_write len0;; reader_start_write;;
       set_txslot ((slot + 1) mod ETHMAC_TX_SLOTS hw);; set_leds 11;; mret ERR_OK
   end) (mk_eth n k) = Ok (x, mk_eth n k') /\
  (txslot k' = (slot + 1) mod ETHMAC_TX_SLOTS hw \/ txslot k' = txslot k) /\ rx_slot k' = rx_slot k /\ rx_length k' = rx_length k.
Proof. destruct r; eexists _, _; (split; [reflexivity|]); split_and!; auto. Qed.

Lemma low_level_output_safe e nif p l :
  driver_ready e -> is_chain (n_pbufs (e_net e)) p l ->
  Forall (fun ab => 0 <= len ab.2 < 65536 /\ valid_range (n_mem (e_net e)) (payload ab.2) (len ab.2)) l ->
  exists r m k, driver_link nif p e = Ok (r, mk_eth (set_mem m (e_net e)) k) /\ same_dom (n_mem (e_net e)) m /\
    driver_ready (mk_eth (set_mem m (e_net e)) k).
Proof.
  intros (Hrx & Hsz & Hns & Hslot & Hv) Hc Hl. unfold driver_link, low_level_output.
  set (m0 := e_mac e).
  rewrite (bind_ok (set_leds 14) _ _ tt (mk_eth (e_net e) (mk_mac (txslot m0) (busy m0) (ev_pending m0) (reader_ev m0)
    (rx_slot m0) (rx_length m0) (reader_slot m0) (reader_length m0) (started m0) 14))) by done.
  set (e1 := mk_eth _ _). rewrite (bind_ok (gets _) _ _ (busy m0) e1) by done.
  destruct (wait_ready_spec (busy m0) e1 eq_refl) as (m2 & E2 & Ht & _ & _ & Hrs & Hrl). rewrite (bind_ok _ _ _ _ _ E2).
  rewrite (bind_ok (set_leds 15) _ _ tt (mk_eth (e_net e) (mk_mac (txslot m2) (busy m2) (ev_pending m2) (reader_ev m2)
    (rx_slot m2) (rx_length m2) (reader_slot m2) (reader_length m2) (started m2) 15))) by done.
  set (e3 := mk_eth _ _). assert (txslot (e_mac e3) = txslot m0) as Hts by exact Ht.
  rewrite (bind_ok (gets _) _ _ (txslot m0) e3) by (unfold gets; by rewrite Hts).
  rewrite (bind_ok (on_net chain_fuel) _ _ (S (S (base.size (n_pbufs (e_net e))))) e3) by done.
  destruct (tx_copy_safe l (S (S (base.size (n_pbufs (e_net e))))) (e_net e) p (tx_buf hw (txslot m0)) 0) as (r & m & Er & Hm);
    try done; try lia.
  { pose proof (is_chain_size _ _ _ Hc). lia. }
  { by apply Hv. }
  rewrite (bind_ok (on_net _) _ _ r (mk_eth (set_mem m (e_net e)) (e_mac e3)))
    by (unfold on_net; change (e_net e3) with (e_net e); by rewrite Er).
  assert (forall slot, 0 <= slot < ETHMAC_TX_SLOTS hw -> valid_range m (tx_buf hw slot) (ETHMAC_SLOT_SIZE hw)) as Hv'.
  { intros slot Hs. eapply same_dom_valid; [exact Hm|]. by apply Hv. }
  assert (forall k, 0 <= txslot k < ETHMAC_TX_SLOTS hw -> rx_in_range k -> driver_ready (mk_eth (set_mem m (e_net e)) k)) as Hfin.
  { intros k Hk Hrk. exact (conj Hrk (conj Hsz (conj Hns (conj Hk Hv')))). }
  destruct (tx_finish r (txslot m0) (set_mem m (e_net e)) (e_mac e3)) as (x & k & Ek & Hk & Ek1 & Ek2).
  exists x, m, k. rewrite Ek. split_and!; [done|done|]. apply Hfin; [|unfold rx_in_range; rewrite Ek1, Ek2; cbn [e_mac e3 rx_slot rx_length]; by rewrite Hrs, Hrl]. destruct Hk as [->| ->]; [|by rewrite Hts].
  apply Z.mod_pos_bound. lia.
Qed.

Lemma driver_ready_dom e e' : driver_ready e -> e_mac e' = e_mac e ->
  same_dom (n_mem (e_net e)) (n_mem (e_net e')) -> driver_ready e'.
Proof.
  intros (H0 & H1 & H2 & H3 & H4) Hm Hd. unfold driver_ready. rewrite Hm. split_and!; try done; try lia.
  intros slot Hs. eapply same_dom_valid; [exact Hd|]. by apply H4.
Qed.

Global Instance driver_link_laws : LinkLaws driver_link := {
  link_ready := driver_ready; link_ready_dom := driver_ready_dom; linkoutput_law := low_level_output_safe }.
End DriverLink.

(** ** Sending a frame *)

Section Output.
Context (pools : memp_t -> memp_desc) `{HP : !PoolsOk pools} {H : Type} `{HH : !Heap H} `{HL : !HeapLaws pools H}.
Context (linkoutput : Z -> Z -> M (eth H) Z) `{LL : !LinkLaws linkoutput}.
Implicit Types s : link H.

Definition lnet s : net H := e_net (l_eth s).
Definition set_lnet (n : net H) s : link H := mk_link (mk_eth n (e_mac (l_eth s))) (l_netifs s).

Lemma in_net_ok {A} (m : M (net H) A) s a n : m (lnet s) = Ok (a, n) -> in_net m s = Ok (a, set_lnet n s).
Proof. intros E. unfold in_net, on_eth, on_net, lnet in *. by rewrite E. Qed.

Lemma set_lnet_id s : set_lnet (lnet s) s = s.
Proof. by destruct s as [[] ?]. Qed.

Lemma write_bytes_ok (n : net H) a l m : store (n_mem n) a l = Some m -> write_bytes a l n = Ok (tt, set_mem m n).
Proof. intros E. unfold write_bytes. by rewrite E. Qed.

(** The packet memory, the device and the interfaces of the link layer. *)
Definition link_ok s (R : gmultiset Z) : Prop := refs pools (lnet s) R /\ link_ready (l_eth s).

Lemma link_ok_mem s R m : link_ok s R -> same_dom (n_mem (lnet s)) m -> link_ok (set_lnet (set_mem m (lnet s)) s) R.
Proof.
  intros [Hr Hl] Hm. split; [by apply refs_mem|]. by eapply link_ready_dom.
Qed.

Lemma link_ok_net s R n : link_ok s R -> refs pools n R -> n_mem n = n_mem (lnet s) -> link_ok (set_lnet n s) R.
Proof. intros [_ Hl] Hr Hm. split; [done|]. eapply link_ready_dom; [exact Hl|done|]. cbn. by rewrite Hm. Qed.

Lemma write_safe s R a l : link_ok s R -> valid_range (n_mem (lnet s)) a (Z.of_nat (length l)) ->
  exists m, in_net (write_bytes a l) s = Ok (tt, set_lnet (set_mem m (lnet s)) s) /\
    store (n_mem (lnet s)) a l = Some m /\ same_dom (n_mem (lnet s)) m /\ link_ok (set_lnet (set_mem m (lnet s)) s) R.
Proof.
  intros Hs Hv. destruct (store_is_Some _ _ _ Hv) as [m Em]. pose proof (same_dom_store _ _ _ _ Em) as Hd.
  exists m. split_and!; [|done|done|by apply link_ok_mem]. by apply in_net_ok, write_bytes_ok.
Qed.

Lemma refs_sendable (n : net H) R p l : refs pools n R -> is_chain (n_pbufs n) p l ->
  Forall (fun ab => 0 <= len ab.2 < 65536 /\ valid_range (n_mem n) (payload ab.2) (len ab.2)) l.
Proof.
  intros (_ & _ & Hpl & _) Hc. apply Forall_forall. intros [a b] Hab. simpl.
  by destruct (Hpl a b (is_chain_lookup _ _ _ _ _ Hc Hab)) as (? & _ & Hv & _).
Qed.

(** The state after sending: memory and device change, and the first struct's view of
    its payload. *)
Definition sent_from s s' (p : Z) : Prop :=
  l_netifs s' = l_netifs s /\ same_dom (n_mem (lnet s)) (n_mem (lnet s')) /\
  exists b b', n_pbufs (lnet s) !! p = Some b /\ n_pbufs (lnet s') = <[p := b']> (n_pbufs (lnet s)) /\
    ref b' = ref b /\ next b' = next b /\ type_internal b' = type_internal b.

Lemma ethernet_output_safe s R netif n p src dst ty :
  link_ok s R -> p ∈ R -> l_netifs s !! netif = Some n -> nif_hwaddr_len n = 6 ->
  length src = 6%nat -> length dst = 6%nat ->
  exists r s', ethernet_output linkoutput netif p src dst ty s = Ok (r, s') /\ link_ok s' R /\ sent_from s s' p.
Proof.
  intros Hs Hp En H6 Hsrc Hdst. pose proof Hs as [Hr Hlr]. destruct (refs_chain pools _ _ _ Hr Hp) as (Hz & b & l & E & Hc).
  unfold ethernet_output. destruct (add_header_refs pools (lnet s) R p b SIZEOF_ETH_HDR Hr E) as [Ea|(Hcont & Hlo & Ea & Hr1)];
    [unfold SIZEOF_ETH_HDR; lia|rewrite (bind_ok _ _ _ _ _ (in_net_ok _ _ _ _ Ea))..].
  { exists ERR_BUF, s. rewrite set_lnet_id. refine (conj eq_refl (conj Hs (conj eq_refl (conj (same_dom_refl _) _)))). exists b, b.
    split_and!; try done. by rewrite insert_id. }
  cbn [negb Z.eqb]. set (n1 := set_pbufs _ _) in *. set (s1 := set_lnet n1 s).
  assert (link_ok s1 R) as Hs1 by (apply link_ok_net; done).
  assert (n_pbufs (lnet s1) !! p = Some (moved b SIZEOF_ETH_HDR)) as E1 by apply lookup_insert_eq.
  rewrite (bind_ok _ _ _ _ _ (in_net_ok _ s1 _ _ (rd_ok _ _ _ E1))). rewrite set_lnet_id.
  cbn [moved with_tot_len with_len with_payload payload].
  assert (valid_range (n_mem (lnet s1)) (payload b - SIZEOF_ETH_HDR) 14) as Hv.
  { destruct Hr as (_ & _ & Hpl & _). destruct (Hpl p b E) as (Hlen & _ & _ & Hcv). destruct (Hcv Hcont) as [_ Hva].
    intros i Hi. apply Hva. unfold SIZEOF_ETH_HDR in *. lia. }
  destruct (write_safe s1 R (payload b - SIZEOF_ETH_HDR + 12) (bytes16 (lwip_htons ty)) Hs1) as (m2 & E2 & _ & Hm2 & Hs2);
    [intros i Hi; apply Hv; simpl in Hi; lia|].
  rewrite (bind_ok _ _ _ _ _ E2). set (s2 := set_lnet (set_mem m2 _) _) in *.
  destruct (write_safe s2 R (payload b - SIZEOF_ETH_HDR) dst Hs2) as (m3 & E3 & _ & Hm3 & Hs3).
  { rewrite Hdst. eapply same_dom_valid; [exact Hm2|]. intros i Hi; apply Hv; lia. }
  rewrite (bind_ok _ _ _ _ _ E3). set (s3 := set_lnet (set_mem m3 _) _) in *.
  destruct (write_safe s3 R (payload b - SIZEOF_ETH_HDR + 6) src Hs3) as (m4 & E4 & _ & Hm4 & Hs4).
  { rewrite Hsrc. eapply same_dom_valid; [exact Hm3|]. eapply same_dom_valid; [exact Hm2|]. intros i Hi; apply Hv; lia. }
  rewrite (bind_ok _ _ _ _ _ E4). set (s4 := set_lnet (set_mem m4 _) _) in *.
  rewrite (bind_ok (rd_netif netif) _ _ n s4) by (unfold rd_netif, deref; change (l_netifs s4) with (l_netifs s); by rewrite En).
  rewrite (bind_ok (assert _) _ _ tt s4) by (unfold assert; by rewrite H6). destruct Hs4 as [Hr4 Hl4].
  destruct (refs_chain pools _ _ _ Hr4 Hp) as (_ & b4 & l4 & E4' & Hc4).
  destruct (linkoutput_law (l_eth s4) netif p _ Hl4 Hc4 (refs_sendable _ _ _ _ Hr4 Hc4)) as (r & m5 & k & E5 & Hm5 & Hl5).
  unfold on_eth. rewrite E5. eexists r, _. split; [reflexivity|]. split; [split; [|exact Hl5]|].
  - by apply refs_mem.
  - split; [done|]. split.
    + etransitivity; [exact Hm2|]. etransitivity; [exact Hm3|]. etransitivity; [exact Hm4|]. exact Hm5.
    + exists b, (moved b SIZEOF_ETH_HDR). done.
Qed.
End Output.
