(* ===== verification/Etharp.v ===== *)
(** * ARP: core/ipv4/etharp.c

    The table, the search for a matching or a new entry, the timer, input and
    output, as the configuration compiles them: one queued packet per entry
    ([ARP_QUEUEING] is 0), no static entries, entries matched by interface. *)

From S2P Require Import Prelude Chksum Memp Pbuf PbufSpec PbufData Ethernetif Ip4Addr Ethernet.
From stdpp Require Import base numbers list gmap functions sorting.
Open Scope Z_scope.
Open Scope c_scope.

Definition ARP_TABLE_SIZE : Z := 10.
Definition ARP_MAXAGE : Z := 300.
Definition ARP_AGE_REREQUEST_USED_UNICAST : Z := ARP_MAXAGE - 30.
Definition ARP_AGE_REREQUEST_USED_BROADCAST : Z := ARP_MAXAGE - 15.
Definition ARP_MAXPENDING : Z := 5.
Definition ETHARP_FLAG_TRY_HARD : Z := 1.
Definition ETHARP_FLAG_FIND_ONLY : Z := 2.
Definition SIZEOF_ETHARP_HDR : Z := 28.
Definition ARP_REQUEST : Z := 1.
Definition ARP_REPLY : Z := 2.
Definition LWIP_IANA_HWTYPE_ETHERNET : Z := 1.
Definition ERR_RTE : Z := -4.
Definition PBUF_TYPE_FLAG_DATA_VOLATILE : Z := 64.
Definition PBUF_NEEDS_COPY (b : pbuf) : bool := negb ((type_internal b &c PBUF_TYPE_FLAG_DATA_VOLATILE) =? 0).

Inductive etharp_state :=
| ETHARP_STATE_EMPTY | ETHARP_STATE_PENDING | ETHARP_STATE_STABLE
| ETHARP_STATE_STABLE_REREQUESTING_1 | ETHARP_STATE_STABLE_REREQUESTING_2.
Global Instance etharp_state_eq_dec : EqDecision etharp_state.
Proof. solve_decision. Defined.

(** [state >= ETHARP_STATE_STABLE] *)
Definition is_stable (st : etharp_state) : bool :=
  match st with ETHARP_STATE_EMPTY | ETHARP_STATE_PENDING => false | _ => true end.

Record etharp_entry := mk_entry {
  q : Z; ipaddr : Z; netif : Z; ethaddr : list Z; ctime : Z; state : etharp_state }.

Definition with_q (x : Z) (e : etharp_entry) : etharp_entry :=
  mk_entry x (ipaddr e) (netif e) (ethaddr e) (ctime e) (state e).
Definition with_ipaddr (x : Z) (e : etharp_entry) : etharp_entry :=
  mk_entry (q e) x (netif e) (ethaddr e) (ctime e) (state e).
Definition with_netif (x : Z) (e : etharp_entry) : etharp_entry :=
  mk_entry (q e) (ipaddr e) x (ethaddr e) (ctime e) (state e).
Definition with_ethaddr (x : list Z) (e : etharp_entry) : etharp_entry :=
  mk_entry (q e) (ipaddr e) (netif e) x (ctime e) (state e).
Definition with_ctime (x : Z) (e : etharp_entry) : etharp_entry :=
  mk_entry (q e) (ipaddr e) (netif e) (ethaddr e) x (state e).
Definition with_state (x : etharp_state) (e : etharp_entry) : etharp_entry :=
  mk_entry (q e) (ipaddr e) (netif e) (ethaddr e) (ctime e) x.

Record arp (H : Type) := mk_arp { a_link : link H; arp_table : list etharp_entry; etharp_cached_entry : Z }.
Arguments mk_arp {H}.
Arguments a_link {H}.
Arguments arp_table {H}.
Arguments etharp_cached_entry {H}.

(** The statically zeroed table. *)
Definition arp_table_init : list etharp_entry :=
  replicate (Z.to_nat ARP_TABLE_SIZE) (mk_entry NULL 0 NULL ethzero 0 ETHARP_STATE_EMPTY).

(** ** The search sweep of [etharp_find_entry] *)

Record candidates := mk_cand {
  empty_idx : Z; old_stable : Z; old_pending : Z; old_queue : Z;
  age_stable : Z; age_pending : Z; age_queue : Z }.
Definition no_candidates : candidates :=
  mk_cand ARP_TABLE_SIZE ARP_TABLE_SIZE ARP_TABLE_SIZE ARP_TABLE_SIZE 0 0 0.

(** Does the entry hold the address? Empty entries never match. *)
Definition entry_matches (addr : option Z) (nif : Z) (e : etharp_entry) : bool :=
  match addr with
  | Some a => ip4_addr_cmp a (ipaddr e) && ((nif =? NULL) || (nif =? netif e))
  | None => false
  end.

(** One round for an entry that is neither empty nor the one searched for. *)
Definition remember (i : Z) (e : etharp_entry) (c : candidates) : candidates :=
  if decide (state e = ETHARP_STATE_PENDING) then
    if negb (q e =? NULL) then
      if age_queue c <=? ctime e
      then mk_cand (empty_idx c) (old_stable c) (old_pending c) i (age_stable c) (age_pending c) (ctime e) else c
    else
      if age_pending c <=? ctime e
      then mk_cand (empty_idx c) (old_stable c) i (old_queue c) (age_stable c) (ctime e) (age_queue c) else c
  else
    if is_stable (state e) then
      if age_stable c <=? ctime e
      then mk_cand (empty_idx c) i (old_pending c) (old_queue c) (ctime e) (age_pending c) (age_queue c) else c
    else c.

(** The loop from entry [i] on: the matching index, or the candidates. *)
Fixpoint find_loop (addr : option Z) (nif : Z) (i : Z) (l : list etharp_entry) (c : candidates) : Z + candidates :=
  match l with
  | [] => inr c
  | e :: l' =>
      if decide (state e = ETHARP_STATE_EMPTY) then
        if empty_idx c =? ARP_TABLE_SIZE
        then find_loop addr nif (i + 1) l'
               (mk_cand i (old_stable c) (old_pending c) (old_queue c) (age_stable c) (age_pending c) (age_queue c))
        else find_loop addr nif (i + 1) l' c
      else if entry_matches addr nif e then inl i
      else find_loop addr nif (i + 1) l' (remember i e c)
  end.

Section Etharp.
Context {H : Type} `{HH : !Heap H} (pools : memp_t -> memp_desc).
Context (linkoutput : Z -> Z -> M (eth H) Z).

Definition on_link {A} (m : M (link H) A) : M (arp H) A := fun s =>
  match m (a_link s) with
  | Ok (a, k) => Ok (a, mk_arp k (arp_table s) (etharp_cached_entry s))
  | AssertFail => AssertFail | Fault => Fault | NoFuel => NoFuel
  end.
Definition pb {A} (m : M (net H) A) : M (arp H) A := on_link (in_net m).
Definition the_netif (n : Z) : M (arp H) nif := on_link (rd_netif n).
Definition output (nif p : Z) (src dst : list Z) (eth_type : Z) : M (arp H) Z :=
  on_link (ethernet_output linkoutput nif p src dst eth_type).

(** [arp_table[i]] *)
Definition entry (i : Z) : M (arp H) etharp_entry := fun s =>
  deref (if 0 <=? i then arp_table s !! Z.to_nat i else None) s.
Definition set_entry (i : Z) (f : etharp_entry -> etharp_entry) : M (arp H) unit :=
  e ← entry i;
  modify (fun s => mk_arp (a_link s) (<[Z.to_nat i := f e]> (arp_table s)) (etharp_cached_entry s)).
Definition ETHARP_SET_ADDRHINT (i : Z) : M (arp H) unit :=
  modify (fun s => mk_arp (a_link s) (arp_table s) i).

(** [ip4_addr_isbroadcast(addr, netif)] *)
Definition isbroadcast (addr : Z) (n : nif) : bool :=
  ip4_addr_isbroadcast_u32 addr (nif_flags n) (ip_addr n) (netmask n).

Definition etharp_free_entry (i : Z) : M (arp H) unit :=
  e ← entry i;
  (if negb (q e =? NULL) then pb (pbuf_free (q e));; set_entry i (with_q NULL) else mret tt);;
  set_entry i (with_state ETHARP_STATE_EMPTY).

(** The entry's index, or [ERR_MEM]. *)
Definition etharp_find_entry (addr : option Z) (flags nif : Z) : M (arp H) Z :=
  tbl ← gets arp_table;
  match find_loop addr nif 0 tbl no_candidates with
  | inl i => mret i
  | inr c =>
      if negb ((flags &c ETHARP_FLAG_FIND_ONLY) =? 0) ||
         ((empty_idx c =? ARP_TABLE_SIZE) && ((flags &c ETHARP_FLAG_TRY_HARD) =? 0))
      then mret ERR_MEM
      else
        i ← (if empty_idx c <? ARP_TABLE_SIZE then mret (empty_idx c)
             else if old_stable c <? ARP_TABLE_SIZE then
               e ← entry (old_stable c);
               assert (q e =? NULL);;
               etharp_free_entry (old_stable c);;
               mret (old_stable c)
             else if old_pending c <? ARP_TABLE_SIZE then
               etharp_free_entry (old_pending c);; mret (old_pending c)
             else if old_queue c <? ARP_TABLE_SIZE then
               etharp_free_entry (old_queue c);; mret (old_queue c)
             else mret ERR_MEM);
        if i =? ERR_MEM then mret ERR_MEM
        else
          assert (i <? ARP_TABLE_SIZE);;
          e ← entry i;
          assert (bool_decide (state e = ETHARP_STATE_EMPTY));;
          (match addr with Some a => set_entry i (with_ipaddr a) | None => mret tt end);;
          set_entry i (with_ctime 0);;
          set_entry i (with_netif nif);;
          mret i
  end.

(** ** Sending ARP packets *)

Definition etharp_raw (nif : Z) (ethsrc_addr ethdst_addr hwsrc_addr : list Z) (ipsrc_addr : Z)
    (hwdst_addr : list Z) (ipdst_addr opcode : Z) : M (arp H) Z :=
  p ← pb (pbuf_alloc pools PBUF_LINK SIZEOF_ETHARP_HDR PBUF_RAM);
  if p =? NULL then mret ERR_MEM
  else
    b ← pb (rd p);
    assert (SIZEOF_ETHARP_HDR <=? len b);;
    let hdr := payload b in
    pb (write_bytes (hdr + 6) (bytes16 (lwip_htons opcode)));;
    n ← the_netif nif;
    assert (nif_hwaddr_len n =? 6);;
    pb (write_bytes (hdr + 8) hwsrc_addr);;
    pb (write_bytes (hdr + 18) hwdst_addr);;
    pb (write_bytes (hdr + 14) (bytes32 ipsrc_addr));;
    pb (write_bytes (hdr + 24) (bytes32 ipdst_addr));;
    pb (write_bytes hdr (bytes16 (PP_HTONS LWIP_IANA_HWTYPE_ETHERNET)));;
    pb (write_bytes (hdr + 2) (bytes16 (PP_HTONS ETHTYPE_IP)));;
    pb (write_bytes (hdr + 4) [6]);;
    pb (write_bytes (hdr + 5) [4]);;
    output nif p ethsrc_addr ethdst_addr ETHTYPE_ARP;;
    pb (pbuf_free p);;
    mret ERR_OK.

Definition etharp_request_dst (nif addr : Z) (hw_dst_addr : list Z) : M (arp H) Z :=
  n ← the_netif nif;
  etharp_raw nif (nif_hwaddr n) hw_dst_addr (nif_hwaddr n) (ip_addr n) ethzero addr ARP_REQUEST.

Definition etharp_request (nif addr : Z) : M (arp H) Z := etharp_request_dst nif addr ethbroadcast.

(** ** The timer *)

(** The loop body for entry [i]. *)
Definition tmr_entry (i : Z) : M (arp H) unit :=
  e ← entry i;
  if decide (state e = ETHARP_STATE_EMPTY) then mret tt
  else
    set_entry i (with_ctime (u16 (ctime e + 1)));;
    e ← entry i;
    if (ARP_MAXAGE <=? ctime e) ||
       (bool_decide (state e = ETHARP_STATE_PENDING) && (ARP_MAXPENDING <=? ctime e))
    then etharp_free_entry i
    else
      match state e with
      | ETHARP_STATE_STABLE_REREQUESTING_1 => set_entry i (with_state ETHARP_STATE_STABLE_REREQUESTING_2)
      | ETHARP_STATE_STABLE_REREQUESTING_2 => set_entry i (with_state ETHARP_STATE_STABLE)
      | ETHARP_STATE_PENDING => etharp_request (netif e) (ipaddr e);; mret tt
      | _ => mret tt
      end.

(** [for (i = 0; i < ARP_TABLE_SIZE; ++i)]: [n] entries from [i] on. *)
Fixpoint for_entries (n : nat) (i : Z) (body : Z -> M (arp H) unit) : M (arp H) unit :=
  match n with
  | O => mret tt
  | S n' => body i;; for_entries n' (i + 1) body
  end.

Definition etharp_tmr : M (arp H) unit := for_entries (Z.to_nat ARP_TABLE_SIZE) 0 tmr_entry.

(** ** Input *)

Definition etharp_update_arp_entry (nif addr : Z) (eaddr : list Z) (flags : Z) : M (arp H) Z :=
  n ← the_netif nif;
  assert (nif_hwaddr_len n =? 6);;
  if ip4_addr_isany addr || isbroadcast addr n || ip4_addr_ismulticast addr then mret ERR_ARG
  else
    i ← etharp_find_entry (Some addr) flags nif;
    if i <? 0 then mret i
    else
      set_entry i (with_state ETHARP_STATE_STABLE);;
      set_entry i (with_netif nif);;
      set_entry i (with_ethaddr eaddr);;
      set_entry i (with_ctime 0);;
      e ← entry i;
      (if negb (q e =? NULL) then
         set_entry i (with_q NULL);;
         output nif (q e) (nif_hwaddr n) eaddr ETHTYPE_IP;;
         pb (pbuf_free (q e));; mret tt
       else mret tt);;
      mret ERR_OK.

Definition etharp_cleanup_netif (nif : Z) : M (arp H) unit :=
  for_entries (Z.to_nat ARP_TABLE_SIZE) 0 (fun i =>
    e ← entry i;
    if bool_decide (state e <> ETHARP_STATE_EMPTY) && (netif e =? nif) then etharp_free_entry i else mret tt).

(** The index with the addresses it points to, or [None] for -1. *)
Definition etharp_find_addr (nif addr : Z) : M (arp H) (option (Z * list Z * Z)) :=
  i ← etharp_find_entry (Some addr) ETHARP_FLAG_FIND_ONLY nif;
  if 0 <=? i then
    e ← entry i;
    if is_stable (state e) then mret (Some (i, ethaddr e, ipaddr e)) else mret None
  else mret None.

Definition etharp_get_entry (i : Z) : M (arp H) (option (Z * Z * list Z)) :=
  if i <? ARP_TABLE_SIZE then
    e ← entry i;
    if is_stable (state e) then mret (Some (ipaddr e, netif e, ethaddr e)) else mret None
  else mret None.

Definition etharp_input (p nif : Z) : M (arp H) unit :=
  if nif =? NULL then mret tt
  else
    b ← pb (rd p);
    let hdr := payload b in
    hwtype ← pb (read_u16 hdr);
    hwlen ← pb (read_byte (hdr + 4));
    protolen ← pb (read_byte (hdr + 5));
    proto ← pb (read_u16 (hdr + 2));
    if negb (hwtype =? PP_HTONS LWIP_IANA_HWTYPE_ETHERNET) || negb (hwlen =? 6) ||
       negb (protolen =? 4) || negb (proto =? PP_HTONS ETHTYPE_IP)
    then pb (pbuf_free p);; mret tt
    else
      sipaddr ← pb (read_u32 (hdr + 14));
      dipaddr ← pb (read_u32 (hdr + 24));
      n ← the_netif nif;
      let for_us := if ip4_addr_isany (ip_addr n) then false else ip4_addr_cmp dipaddr (ip_addr n) in
      shwaddr ← pb (read_bytes (hdr + 8) 6);
      etharp_update_arp_entry nif sipaddr shwaddr (if for_us then ETHARP_FLAG_TRY_HARD else ETHARP_FLAG_FIND_ONLY);;
      opcode ← pb (read_u16 (hdr + 6));
      (if opcode =? PP_HTONS ARP_REQUEST then
         if for_us then
           n ← the_netif nif;
           shwaddr ← pb (read_bytes (hdr + 8) 6);
           etharp_raw nif (nif_hwaddr n) shwaddr (nif_hwaddr n) (ip_addr n) shwaddr sipaddr ARP_REPLY;;
           mret tt
         else mret tt
       else mret tt);;
      pb (pbuf_free p);;
      mret tt.

(** ** Output *)

Definition etharp_output_to_arp_index (nif pkt arp_idx : Z) : M (arp H) Z :=
  e ← entry arp_idx;
  assert (is_stable (state e));;
  (if decide (state e = ETHARP_STATE_STABLE) then
     if ARP_AGE_REREQUEST_USED_BROADCAST <=? ctime e then
       r ← etharp_request nif (ipaddr e);
       if r =? ERR_OK then set_entry arp_idx (with_state ETHARP_STATE_STABLE_REREQUESTING_1) else mret tt
     else if ARP_AGE_REREQUEST_USED_UNICAST <=? ctime e then
       r ← etharp_request_dst nif (ipaddr e) (ethaddr e);
       if r =? ERR_OK then set_entry arp_idx (with_state ETHARP_STATE_STABLE_REREQUESTING_1) else mret tt
     else mret tt
   else mret tt);;
  n ← the_netif nif;
  e ← entry arp_idx;
  output nif pkt (nif_hwaddr n) (ethaddr e) ETHTYPE_IP.

(** The loop over the packet: must it be copied? *)
Fixpoint copy_needed (fuel : nat) (p : Z) : M (net H) bool :=
  match fuel with
  | O => nofuel
  | S fuel' =>
      if p =? NULL then mret false
      else
        b ← rd p;
        assert (negb (len b =? tot_len b) || (next b =? NULL));;
        if PBUF_NEEDS_COPY b then mret true else copy_needed fuel' (next b)
  end.

Definition etharp_query (nif addr pkt : Z) : M (arp H) Z :=
  n ← the_netif nif;
  if isbroadcast addr n || ip4_addr_ismulticast addr || ip4_addr_isany addr then mret ERR_ARG
  else
    i ← etharp_find_entry (Some addr) ETHARP_FLAG_TRY_HARD nif;
    if i <? 0 then mret i
    else
      e ← entry i;
      let is_new_entry := bool_decide (state e = ETHARP_STATE_EMPTY) in
      (if is_new_entry
       then set_entry i (with_state ETHARP_STATE_PENDING);; set_entry i (with_netif nif) else mret tt);;
      e ← entry i;
      assert (bool_decide (state e = ETHARP_STATE_PENDING) || is_stable (state e));;
      result ← (if is_new_entry || (pkt =? NULL) then
          result ← etharp_request nif addr;
          (if result =? ERR_OK then
             e ← entry i;
             if bool_decide (state e = ETHARP_STATE_PENDING) && negb is_new_entry
             then set_entry i (with_ctime 0) else mret tt
           else mret tt);;
          mret result
        else mret ERR_MEM);
      if pkt =? NULL then mret result
      else
        e ← entry i;
        if is_stable (state e) then
          ETHARP_SET_ADDRHINT i;;
          output nif pkt (nif_hwaddr n) (ethaddr e) ETHTYPE_IP
        else if decide (state e = ETHARP_STATE_PENDING) then
          fuel ← pb chain_fuel;
          c ← pb (copy_needed fuel pkt);
          p ← (if (c : bool) then pb (pbuf_clone pools PBUF_LINK PBUF_RAM pkt)
               else pb (pbuf_ref pkt);; mret pkt);
          if negb (p =? NULL) then
            (if negb (q e =? NULL) then pb (pbuf_free (q e));; mret tt else mret tt);;
            set_entry i (with_q p);;
            mret ERR_OK
          else mret ERR_MEM
        else mret result.

(** The loop that looks for a stable entry: its index. *)
Fixpoint stable_loop (nif dst_addr i : Z) (l : list etharp_entry) : option Z :=
  match l with
  | [] => None
  | e :: l' =>
      if is_stable (state e) && (netif e =? nif) && ip4_addr_cmp dst_addr (ipaddr e) then Some i
      else stable_loop nif dst_addr (i + 1) l'
  end.

(** The hardware address of a multicast group. *)
Definition mcastaddr (addr : Z) : list Z :=
  [1; 0; 94; ip4_addr_get_byte addr 1 &c 127; ip4_addr_get_byte addr 2; ip4_addr_get_byte addr 3].

Definition etharp_output (nif pkt addr : Z) : M (arp H) Z :=
  assert (negb (nif =? NULL));;
  assert (negb (pkt =? NULL));;
  n ← the_netif nif;
  if isbroadcast addr n then output nif pkt (nif_hwaddr n) ethbroadcast ETHTYPE_IP
  else if ip4_addr_ismulticast addr then output nif pkt (nif_hwaddr n) (mcastaddr addr) ETHTYPE_IP
  else
    let outside := negb (ip4_addr_netcmp addr (ip_addr n) (netmask n)) && negb (ip4_addr_islinklocal addr) in
    if outside && ip4_addr_isany (gw n) then mret ERR_RTE
    else
      let dst_addr := if outside then gw n else addr in
      cached ← gets etharp_cached_entry;
      e ← entry cached;
      if is_stable (state e) && (netif e =? nif) && ip4_addr_cmp dst_addr (ipaddr e)
      then etharp_output_to_arp_index nif pkt cached
      else
        tbl ← gets arp_table;
        match stable_loop nif dst_addr 0 tbl with
        | Some i => ETHARP_SET_ADDRHINT i;; etharp_output_to_arp_index nif pkt i
        | None => etharp_query nif dst_addr pkt
        end.
End Etharp.
