(* ===== verification/EtharpSpec.v ===== *)
(** * Properties of ARP

    The invariant of the table, which entry the search returns or recycles, and that
    every operation returns, keeps the invariant and keeps the reference counts of
    the queued packets exact. *)

From S2P Require Import Prelude Chksum Memp Pbuf PbufSpec PbufData PbufRefs Ethernetif Ip4Addr Ethernet Etharp.
From stdpp Require Import base numbers list gmap gmultiset functions sorting.
Open Scope Z_scope.
Open Scope c_scope.

(** ** The search *)

Definition nonempty (e : etharp_entry) : Prop := state e <> ETHARP_STATE_EMPTY.
Global Instance nonempty_dec e : Decision (nonempty e).
Proof. unfold nonempty. apply _. Defined.

(** [idx] is the last of the oldest entries of [pre] that satisfy [P], and [age] its
    age; or none does. *)
Definition oldest (P : etharp_entry -> Prop) (pre : list etharp_entry) (idx age : Z) : Prop :=
  (idx = ARP_TABLE_SIZE /\ age = 0 /\ Forall (fun e => ~ P e) pre) \/
  (0 <= idx /\ exists e, pre !! Z.to_nat idx = Some e /\ P e /\ ctime e = age /\ Forall (fun e' => P e' -> ctime e' <= age) pre).

Definition stable_entry (e : etharp_entry) : Prop := is_stable (state e) = true.
Definition pending_entry (e : etharp_entry) : Prop := state e = ETHARP_STATE_PENDING /\ q e = NULL.
Definition queued_entry (e : etharp_entry) : Prop := state e = ETHARP_STATE_PENDING /\ q e <> NULL.

Lemma oldest_skip P pre idx age e : oldest P pre idx age -> ~ P e -> oldest P (pre ++ [e]) idx age.
Proof.
  intros [(-> & -> & Hf)|(Hi & e0 & E & He & Hc & Hf)] Hn; [left|right].
  - split_and!; [done|done|]. apply Forall_app. split; [done|by constructor].
  - split; [done|]. exists e0. split_and!; [by apply lookup_app_l_Some|done|done|].
    apply Forall_app. split; [done|]. by constructor.
Qed.

Lemma oldest_take P pre idx age e : oldest P pre idx age -> P e -> 0 <= ctime e ->
  oldest P (pre ++ [e]) (if age <=? ctime e then Z.of_nat (length pre) else idx) (if age <=? ctime e then ctime e else age).
Proof.
  intros Ho He H0. right. destruct (Z.leb_spec age (ctime e)) as [Hle|Hlt].
  - split; [lia|]. exists e. rewrite Nat2Z.id. split_and!; [by apply list_lookup_middle|done|done|].
    apply Forall_app. split; [|by constructor]. destruct Ho as [(_ & _ & Hf)|(_ & e0 & _ & _ & _ & Hf)].
    + eapply Forall_impl; [exact Hf|]. simpl. done.
    + eapply Forall_impl; [exact Hf|]. simpl. intros x Hx HP. specialize (Hx HP). lia.
  - destruct Ho as [(_ & -> & _)|(Hi & e0 & E & He0 & Hc & Hf)]; [lia|]. split; [done|]. exists e0.
    split_and!; [by apply lookup_app_l_Some|done|done|]. apply Forall_app. split; [done|]. constructor; [|done]. lia.
Qed.

(** What the sweep over the entries [pre] has found. *)
Definition swept (pre : list etharp_entry) (c : candidates) : Prop :=
  (empty_idx c = ARP_TABLE_SIZE /\ Forall nonempty pre \/
   0 <= empty_idx c /\ exists e, pre !! Z.to_nat (empty_idx c) = Some e /\ ~ nonempty e) /\
  oldest stable_entry pre (old_stable c) (age_stable c) /\
  oldest pending_entry pre (old_pending c) (age_pending c) /\
  oldest queued_entry pre (old_queue c) (age_queue c).

Lemma not_stable_kind e : ~ nonempty e -> ~ stable_entry e /\ ~ pending_entry e /\ ~ queued_entry e.
Proof. unfold nonempty, stable_entry, pending_entry, queued_entry. destruct (state e); naive_solver. Qed.

Lemma swept_empty pre c e : swept pre c -> ~ nonempty e -> (length pre < 10)%nat ->
  swept (pre ++ [e]) (if empty_idx c =? ARP_TABLE_SIZE then
    mk_cand (Z.of_nat (length pre)) (old_stable c) (old_pending c) (old_queue c) (age_stable c) (age_pending c) (age_queue c)
    else c).
Proof.
  intros (He & Hs & Hp & Hq) Hn Hl. destruct (not_stable_kind e Hn) as (N1 & N2 & N3).
  assert (oldest stable_entry (pre ++ [e]) (old_stable c) (age_stable c)) by by apply oldest_skip.
  assert (oldest pending_entry (pre ++ [e]) (old_pending c) (age_pending c)) by by apply oldest_skip.
  assert (oldest queued_entry (pre ++ [e]) (old_queue c) (age_queue c)) by by apply oldest_skip.
  destruct (Z.eqb_spec (empty_idx c) ARP_TABLE_SIZE) as [Ee|Ee]; (split; [right|done]).
  - cbn [empty_idx]. split; [lia|]. exists e. rewrite Nat2Z.id. split; [by apply list_lookup_middle|done].
  - destruct He as [[? _]|(Hi & e0 & E & He)]; [done|]. split; [done|]. exists e0. split; [by apply lookup_app_l_Some|done].
Qed.

Lemma swept_remember pre c e : swept pre c -> nonempty e -> 0 <= ctime e -> swept (pre ++ [e]) (remember (Z.of_nat (length pre)) e c).
Proof.
  intros (He & Hs & Hp & Hq) Hn H0.
  assert (empty_idx (remember (Z.of_nat (length pre)) e c) = empty_idx c) as Ee.
  { unfold remember. by repeat case_match. }
  split; [rewrite Ee|].
  - destruct He as [[Ec Hf]|(Hi & e0 & E & He)]; [left|right]; (split; [done|]).
    + apply Forall_app. split; [done|by constructor].
    + exists e0. split; [by apply lookup_app_l_Some|done].
  - clear He Ee. unfold remember, nonempty in *.
    pose proof (oldest_take stable_entry pre _ _ e Hs) as T1. pose proof (oldest_skip stable_entry pre _ _ e Hs) as S1.
    pose proof (oldest_take pending_entry pre _ _ e Hp) as T2. pose proof (oldest_skip pending_entry pre _ _ e Hp) as S2.
    pose proof (oldest_take queued_entry pre _ _ e Hq) as T3. pose proof (oldest_skip queued_entry pre _ _ e Hq) as S3.
    unfold stable_entry, pending_entry, queued_entry in *.
    destruct (decide (state e = ETHARP_STATE_PENDING)) as [Ep|Ep].
    + rewrite Ep in *. cbn [is_stable] in *. specialize (S1 ltac:(done)).
      destruct (Z.eqb_spec (q e) NULL) as [Eq|Eq]; cbn [negb].
      * specialize (T2 ltac:(done) H0). specialize (S3 ltac:(naive_solver)). by destruct (age_pending c <=? ctime e).
      * specialize (S2 ltac:(naive_solver)). specialize (T3 ltac:(done) H0). by destruct (age_queue c <=? ctime e).
    + assert (is_stable (state e) = true) as Es by (by destruct (state e)). rewrite Es in *.
      specialize (T1 eq_refl H0). specialize (S2 ltac:(naive_solver)). specialize (S3 ltac:(naive_solver)).
      by destruct (age_stable c <=? ctime e).
Qed.

Lemma find_loop_spec addr nif l : forall pre c,
  swept pre c -> Forall (fun e => 0 <= ctime e) l -> (length pre + length l <= 10)%nat ->
  match find_loop addr nif (Z.of_nat (length pre)) l c with
  | inl i => 0 <= i /\ exists e, (pre ++ l) !! Z.to_nat i = Some e /\ nonempty e /\ entry_matches addr nif e = true
  | inr c' => swept (pre ++ l) c' /\ Forall (fun e => nonempty e -> entry_matches addr nif e = false) l
  end.
Proof.
  induction l as [|e l IH]; intros pre c Hc Hf Hl; cbn [find_loop].
  - by rewrite app_nil_r.
  - apply Forall_cons in Hf as [H0 Hf]. simpl in Hl.
    assert (Z.of_nat (length pre) + 1 = Z.of_nat (length (pre ++ [e]))) as El by (rewrite length_app; simpl; lia).
    assert (pre ++ e :: l = (pre ++ [e]) ++ l) as Ea by (by rewrite <- app_assoc).
    assert (length (pre ++ [e]) + length l <= 10)%nat as Hl' by (rewrite length_app; simpl; lia).
    destruct (decide (state e = ETHARP_STATE_EMPTY)) as [Ee|Ee].
    + pose proof (swept_empty pre c e Hc ltac:(unfold nonempty; tauto) ltac:(lia)) as Hs. rewrite Ea, El.
      destruct (empty_idx c =? ARP_TABLE_SIZE); specialize (IH _ _ Hs Hf Hl'); (destruct (find_loop _ _ _ _ _) as [i| c']; [done|]);
        (destruct IH as [IH1 IH2]; split; [done|]; constructor; [by intros []|done]).
    + destruct (entry_matches addr nif e) eqn:Em.
      * split; [lia|]. exists e. rewrite Nat2Z.id. split_and!; [by apply list_lookup_middle|done|done].
      * rewrite Ea, El. specialize (IH _ _ (swept_remember pre c e Hc Ee H0) Hf Hl').
        destruct (find_loop _ _ _ _ _) as [i| c']; [done|]. destruct IH as [IH1 IH2]. split; [done|]. by constructor.
Qed.

Lemma swept_nil : swept [] no_candidates.
Proof. split_and!; left; split_and!; try done; constructor. Qed.

(** ** The invariant *)

(** The references the table holds. *)
Definition queued (tbl : list etharp_entry) : gmultiset Z := foldr (fun e R => ptr (q e) ⊎ R) ∅ tbl.

Lemma queued_insert tbl i e e' :
  tbl !! i = Some e -> ptr (q e) ⊎ queued (<[i := e']> tbl) = ptr (q e') ⊎ queued tbl.
Proof.
  revert i. induction tbl as [|x tbl IH]; intros [|i] E; simpl in *; [done|done| |].
  - injection E as ->. by rewrite !(assoc_L (⊎)), (comm_L (⊎) (ptr (q e))).
  - rewrite !(assoc_L (⊎)), (comm_L (⊎) (ptr (q e)) (ptr (q x))), (comm_L (⊎) (ptr (q e')) (ptr (q x))), <- !(assoc_L (⊎)).
    f_equal. exact (IH i E).
Qed.

Lemma queued_same tbl i e e' : tbl !! i = Some e -> q e' = q e -> queued (<[i := e']> tbl) = queued tbl.
Proof. intros E Hq. pose proof (queued_insert tbl i e e' E) as Hi. rewrite Hq in Hi. by apply (inj _) in Hi. Qed.

Definition nif_ok (n : nif) : Prop := nif_hwaddr_len n = 6 /\ length (nif_hwaddr n) = 6%nat.

Definition unicast (n : nif) (addr : Z) : bool :=
  negb (ip4_addr_isany addr || isbroadcast addr n || ip4_addr_ismulticast addr).

Definition entry_ok (nifs : gmap Z nif) (e : etharp_entry) : Prop :=
  length (ethaddr e) = 6%nat /\ (0 <= ctime e /\ (nonempty e -> ctime e < ARP_MAXAGE)) /\
  (state e = ETHARP_STATE_PENDING -> ctime e < ARP_MAXPENDING) /\
  (state e <> ETHARP_STATE_PENDING -> q e = NULL) /\
  (nonempty e -> netif e <> NULL /\ exists n, nifs !! netif e = Some n /\ nif_ok n).

(** No two entries in use are for the same address on the same interface. *)
Definition one_each (tbl : list etharp_entry) : Prop := forall i j e f,
  tbl !! i = Some e -> tbl !! j = Some f -> nonempty e -> nonempty f ->
  ipaddr e = ipaddr f -> netif e = netif f -> i = j.

Definition table_ok (nifs : gmap Z nif) (tbl : list etharp_entry) : Prop :=
  length tbl = 10%nat /\ Forall (entry_ok nifs) tbl /\ one_each tbl.

(** The entry that may be given to a new address: an empty one; if there is none, the
    oldest stable one; else the oldest pending one without a packet; else the oldest
    pending one. *)
Definition recyclable (tbl : list etharp_entry) (i : Z) : Prop :=
  (0 <= i /\ exists e, tbl !! Z.to_nat i = Some e /\ ~ nonempty e) \/
  (Forall nonempty tbl /\ i <> ARP_TABLE_SIZE /\
   ((exists age, oldest stable_entry tbl i age) \/
    (Forall (fun e => ~ stable_entry e) tbl /\ exists age, oldest pending_entry tbl i age) \/
    (Forall (fun e => ~ stable_entry e) tbl /\ Forall (fun e => ~ pending_entry e) tbl /\ exists age, oldest queued_entry tbl i age))).

Lemma kinds e : nonempty e -> stable_entry e \/ pending_entry e \/ queued_entry e.
Proof.
  unfold nonempty, stable_entry, pending_entry, queued_entry. destruct (decide (q e = NULL)), (state e); naive_solver.
Qed.

Lemma oldest_some P tbl i age : oldest P tbl i age -> length tbl = 10%nat ->
  (i <? ARP_TABLE_SIZE = true /\ 0 <= i /\ exists e, tbl !! Z.to_nat i = Some e /\ P e) \/
  (i <? ARP_TABLE_SIZE = false /\ Forall (fun e => ~ P e) tbl).
Proof.
  intros [(-> & _ & Hf)|(Hi & e & E & He & _)] Hl; [by right|left]. pose proof (lookup_lt_Some _ _ _ E) as Hlt.
  split_and!; [apply Z.ltb_lt; unfold ARP_TABLE_SIZE; lia|done|]. eauto.
Qed.

Lemma stable_no_queue nifs e : entry_ok nifs e -> stable_entry e -> (q e =? NULL) = true.
Proof. intros (_ & _ & _ & Hq & _) Hs. apply Z.eqb_eq, Hq. unfold stable_entry in Hs. by destruct (state e). Qed.

(** Nobody in the table answers to the address. *)
Definition no_entry (tbl : list etharp_entry) (a nif : Z) : Prop :=
  Forall (fun e => nonempty e -> ~ (ipaddr e = a /\ netif e = nif)) tbl.

Lemma one_each_set tbl i e e' : one_each tbl -> tbl !! i = Some e ->
  (nonempty e' -> nonempty e /\ ipaddr e' = ipaddr e /\ netif e' = netif e \/ no_entry tbl (ipaddr e') (netif e')) ->
  one_each (<[i := e']> tbl).
Proof.
  intros Ho E Hn. pose proof (lookup_lt_Some _ _ _ E) as Hi.
  assert (forall j f, nonempty e' -> nonempty f -> tbl !! j = Some f -> i <> j -> ~ (ipaddr f = ipaddr e' /\ netif f = netif e')) as Hx.
  { intros j f He Hf Ej Hij [H1 H2]. destruct (Hn He) as [(Hne & H3 & H4)|Hne].
    - apply Hij. by apply (Ho i j e f); try congruence.
    - by apply (Forall_lookup_1 _ _ _ _ Hne Ej). }
  intros j k f g Ej Ek Hf Hg H1 H2. destruct (decide (i = j)) as [<-|Hj], (decide (i = k)) as [<-|Hk]; try done.
  - rewrite list_lookup_insert_eq in Ej by done. injection Ej as <-. rewrite list_lookup_insert_ne in Ek by done.
    destruct (Hx k g Hf Hg Ek Hk). done.
  - rewrite list_lookup_insert_eq in Ek by done. injection Ek as <-. rewrite list_lookup_insert_ne in Ej by done.
    destruct (Hx j f Hg Hf Ej Hj). done.
  - rewrite list_lookup_insert_ne in Ej, Ek by done. by apply (Ho j k f g).
Qed.

Lemma table_ok_set nifs tbl i e e' : table_ok nifs tbl -> tbl !! i = Some e -> entry_ok nifs e' ->
  (nonempty e' -> nonempty e /\ ipaddr e' = ipaddr e /\ netif e' = netif e \/ no_entry tbl (ipaddr e') (netif e')) ->
  table_ok nifs (<[i := e']> tbl).
Proof.
  intros (Hl & Hf & Ho) E He Hn. split_and!; [by rewrite length_insert|by apply Forall_insert|by eapply one_each_set].
Qed.

Section Safety.
Context (pools : memp_t -> memp_desc) `{HP : !PoolsOk pools} {H : Type} `{HH : !Heap H} `{HL : !HeapLaws pools H}.
Context (linkoutput : Z -> Z -> M (eth H) Z) `{LL : !LinkLaws linkoutput}.
Implicit Types s : arp H.

Definition anet s : net H := lnet (a_link s).
Definition nifs s : gmap Z nif := l_netifs (a_link s).

(** Packet memory and device when [R] are the references others than the table hold. *)
Definition arp_mem s (R : gmultiset Z) : Prop := link_ok pools linkoutput (a_link s) (queued (arp_table s) ⊎ R).

(** The invariant of the ARP module. *)
Definition arp_ok s (R : gmultiset Z) : Prop :=
  arp_mem s R /\ table_ok (nifs s) (arp_table s) /\ 0 <= etharp_cached_entry s < ARP_TABLE_SIZE.

(** What no operation changes. *)
Definition same_env s s' : Prop := nifs s' = nifs s /\ same_dom (n_mem (anet s)) (n_mem (anet s')).
Global Instance same_env_preorder : PreOrder same_env.
Proof.
  split; [intros s; split; reflexivity|]. intros s1 s2 s3 [H1 H2] [H3 H4]. split; [congruence|]. by etransitivity.
Qed.

Definition set_tbl (tbl : list etharp_entry) s : arp H := mk_arp (a_link s) tbl (etharp_cached_entry s).
Definition at_idx s (i : Z) (e : etharp_entry) : Prop := 0 <= i /\ arp_table s !! Z.to_nat i = Some e.

Lemma entry_run s i e : at_idx s i e -> entry i s = Ok (e, s).
Proof. intros [Hi E]. unfold entry. rewrite (proj2 (Z.leb_le 0 i) Hi), E. done. Qed.

Lemma set_entry_run s i e f : at_idx s i e -> set_entry i f s = Ok (tt, set_tbl (<[Z.to_nat i := f e]> (arp_table s)) s).
Proof. intros Ha. unfold set_entry. by rewrite (bind_ok _ _ _ _ _ (entry_run s i e Ha)). Qed.

Lemma at_idx_set s i e e' : at_idx s i e -> at_idx (set_tbl (<[Z.to_nat i := e']> (arp_table s)) s) i e'.
Proof. intros [Hi E]. split; [done|]. simpl. apply list_lookup_insert_eq. by eapply lookup_lt_Some. Qed.

Lemma set_tbl_twice s i e e' :
  set_tbl (<[i := e']> (arp_table (set_tbl (<[i := e]> (arp_table s)) s))) (set_tbl (<[i := e]> (arp_table s)) s)
  = set_tbl (<[i := e']> (arp_table s)) s.
Proof. unfold set_tbl. simpl. by rewrite list_insert_insert_eq. Qed.

(** Consecutive assignments to fields of one entry. *)
Lemma set_entry_step {A} s i e f (k : M (arp H) A) : at_idx s i e ->
  (set_entry i f;; k) s = k (set_tbl (<[Z.to_nat i := f e]> (arp_table s)) s).
Proof. intros Ha. by rewrite (bind_ok _ _ _ _ _ (set_entry_run s i e f Ha)). Qed.

Definition set_anet (n : net H) s : arp H := mk_arp (set_lnet n (a_link s)) (arp_table s) (etharp_cached_entry s).

Lemma pb_ok {A} (m : M (net H) A) s a n : m (anet s) = Ok (a, n) -> pb m s = Ok (a, set_anet n s).
Proof. intros E. unfold pb, on_link. by rewrite (in_net_ok m (a_link s) a n E). Qed.

Lemma set_anet_id s : set_anet (anet s) s = s.
Proof. destruct s. unfold set_anet, anet. simpl. by rewrite set_lnet_id. Qed.

Lemma arp_mem_tbl s R i e e' : arp_mem s R -> at_idx s i e -> q e' = q e ->
  arp_mem (set_tbl (<[Z.to_nat i := e']> (arp_table s)) s) R.
Proof. intros Hm [_ E] Hq. unfold arp_mem. simpl. by rewrite (queued_same _ _ _ _ E Hq). Qed.

(** Dropping the packet queued on an entry. *)
Definition freed_entry (e : etharp_entry) : etharp_entry := with_state ETHARP_STATE_EMPTY (with_q NULL e).

Lemma arp_mem_unqueue s R i e e' : arp_mem s R -> at_idx s i e -> q e' = NULL ->
  link_ok pools linkoutput (a_link s) (ptr (q e) ⊎ (queued (<[Z.to_nat i := e']> (arp_table s)) ⊎ R)).
Proof.
  intros Hm [_ E] Hq. pose proof (queued_insert _ _ _ e' E) as Hi. rewrite Hq, ptr_null, (left_id_L ∅ (⊎)) in Hi.
  rewrite (assoc_L (⊎)), Hi. exact Hm.
Qed.

Lemma free_entry_ok s R i e : arp_mem s R -> at_idx s i e ->
  exists s', etharp_free_entry i s = Ok (tt, s') /\ arp_mem s' R /\
    arp_table s' = <[Z.to_nat i := freed_entry e]> (arp_table s) /\ etharp_cached_entry s' = etharp_cached_entry s /\
    same_env s s' /\ keeps (n_pbufs (anet s)) (n_pbufs (anet s')).
Proof.
  intros Hm Ha. unfold etharp_free_entry. rewrite (bind_ok _ _ _ _ _ (entry_run s i e Ha)).
  destruct (Z.eqb_spec (q e) NULL) as [Hq|Hq]; cbn [negb].
  - rewrite (bind_ok (mret tt) _ _ tt s) by done. rewrite (set_entry_run s i e _ Ha).
    eexists. split; [reflexivity|]. assert (with_state ETHARP_STATE_EMPTY e = freed_entry e) as ->.
    { unfold freed_entry. destruct e. simpl in *. by subst. }
    split_and!; [by eapply arp_mem_tbl|done|done|done|apply keeps_refl].
  - pose proof (arp_mem_unqueue s R i e (freed_entry e) Hm Ha eq_refl) as [Hr Hl].
    destruct (free_refs pools _ _ _ Hr Hq) as (n & s1 & E1 & Hr1 & Em & Hk).
    assert (same_dom (n_mem (anet s)) (n_mem s1)) as Hd by (rewrite Em; reflexivity).
    rewrite bind_assoc, (bind_ok _ _ _ _ _ (pb_ok _ s _ _ E1)).
    assert (at_idx (set_anet s1 s) i e) as Ha1 by exact Ha.
    rewrite (bind_ok _ _ _ _ _ (set_entry_run _ i e _ Ha1)).
    rewrite (set_entry_run _ i (with_q NULL e)) by (by eapply at_idx_set). rewrite set_tbl_twice.
    eexists. split; [reflexivity|]. split_and!; [|done|done|exact (conj eq_refl Hd)|exact Hk].
    split; [exact Hr1|]. eapply link_ready_dom; [exact Hl|done|exact Hd].
Qed.

(** ** Finding an entry *)

Definition fresh_entry (a nif : Z) (e : etharp_entry) : etharp_entry :=
  mk_entry NULL a nif (ethaddr e) 0 ETHARP_STATE_EMPTY.

(** The end of [etharp_find_entry]: the empty entry gets the address. *)
Definition finish (a nif i : Z) : M (arp H) Z :=
  if i =? ERR_MEM then mret ERR_MEM
  else
    assert (i <? ARP_TABLE_SIZE);;
    e ← entry i;
    assert (bool_decide (state e = ETHARP_STATE_EMPTY));;
    set_entry i (with_ipaddr a);; set_entry i (with_ctime 0);; set_entry i (with_netif nif);; mret i.

Lemma init_entry_run s a nif i e : at_idx s i e -> i < ARP_TABLE_SIZE -> state e = ETHARP_STATE_EMPTY -> q e = NULL ->
  finish a nif i s = Ok (i, set_tbl (<[Z.to_nat i := fresh_entry a nif e]> (arp_table s)) s).
Proof.
  intros Ha Hi Hs Hq. pose proof Ha as [H0 _]. unfold finish. destruct (Z.eqb_spec i ERR_MEM) as [->|_]; [by destruct H0|].
  rewrite (bind_ok (assert _) _ _ tt s) by (unfold assert; by rewrite (proj2 (Z.ltb_lt _ _) Hi)).
  rewrite (bind_ok _ _ _ _ _ (entry_run s i e Ha)).
  rewrite (bind_ok (assert _) _ _ tt s) by (unfold assert; by rewrite bool_decide_eq_true_2).
  rewrite (set_entry_step s i e _ _ Ha). rewrite (set_entry_step _ i (with_ipaddr a e)) by (by eapply at_idx_set).
  rewrite set_tbl_twice. rewrite (set_entry_step _ i (with_ctime 0 (with_ipaddr a e))) by (by eapply at_idx_set).
  rewrite set_tbl_twice. unfold mret, M_ret. do 5 f_equal. destruct e. simpl in *. by subst.
Qed.

Lemma matches_iff a nif e : nif <> NULL -> entry_matches (Some a) nif e = true <-> ipaddr e = a /\ netif e = nif.
Proof.
  intros Hn. unfold entry_matches, ip4_addr_cmp. rewrite (proj2 (Z.eqb_neq nif NULL) Hn), andb_true_iff. cbn [orb].
  rewrite !Z.eqb_eq. intuition congruence.
Qed.

(** The three ways the search ends. *)
Definition found s s' (a nif i : Z) : Prop := s' = s /\ exists e, at_idx s i e /\ nonempty e /\ ipaddr e = a /\ netif e = nif.
Definition made s s' (a nif i : Z) : Prop :=
  no_entry (arp_table s) a nif /\ recyclable (arp_table s) i /\ i < ARP_TABLE_SIZE /\
  exists e, at_idx s i e /\ arp_table s' = <[Z.to_nat i := fresh_entry a nif e]> (arp_table s).

(** Recycling entry [i]. *)
Lemma recycle_ok s R a nif i e : arp_mem s R -> at_idx s i e -> i < ARP_TABLE_SIZE ->
  exists s1 s', etharp_free_entry i s = Ok (tt, s1) /\
    finish a nif i s1 = Ok (i, s') /\
    arp_mem s' R /\ arp_table s' = <[Z.to_nat i := fresh_entry a nif e]> (arp_table s) /\
    etharp_cached_entry s' = etharp_cached_entry s /\ same_env s s' /\ keeps (n_pbufs (anet s)) (n_pbufs (anet s')).
Proof.
  intros Hm Ha Hi. destruct (free_entry_ok s R i e Hm Ha) as (s1 & E1 & Hm1 & Et & Ec & He & Hk).
  assert (at_idx s1 i (freed_entry e)) as Ha1.
  { destruct Ha as [H0 E]. split; [done|]. rewrite Et. apply list_lookup_insert_eq. by eapply lookup_lt_Some. }
  exists s1. eexists. split; [exact E1|]. split; [by apply init_entry_run|].
  split_and!; [by eapply arp_mem_tbl| |done|exact He|exact Hk]. simpl. by rewrite Et, list_insert_insert_eq.
Qed.

Lemma recycled s R a nif i e (m : M (arp H) Z) :
  arp_mem s R -> at_idx s i e -> i <? ARP_TABLE_SIZE = true -> no_entry (arp_table s) a nif -> recyclable (arp_table s) i ->
  m s = (etharp_free_entry i;; mret i) s ->
  exists j s', (m ≫= finish a nif) s = Ok (j, s') /\ arp_mem s' R /\
    etharp_cached_entry s' = etharp_cached_entry s /\ same_env s s' /\ keeps (n_pbufs (anet s)) (n_pbufs (anet s')) /\
    made s s' a nif j.
Proof.
  intros Hm Ha Hi%Z.ltb_lt Hne Hrec Em.
  destruct (recycle_ok s R a nif i e Hm Ha Hi) as (s1 & s' & E1 & E2 & Hm' & Et & Ec & He & Hk).
  exists i, s'. rewrite (bind_ok m _ s i s1) by (by rewrite Em, (bind_ok _ _ _ _ _ E1)).
  split_and!; try done. refine (conj Hne (conj Hrec (conj Hi _))). exists e. done.
Qed.

(** The choice among the candidates of a finished sweep. *)
Definition choose (c : candidates) : M (arp H) Z :=
  if empty_idx c <? ARP_TABLE_SIZE then mret (empty_idx c)
  else if old_stable c <? ARP_TABLE_SIZE then
    e ← entry (old_stable c);
    assert (q e =? NULL);;
    etharp_free_entry (old_stable c);;
    mret (old_stable c)
  else if old_pending c <? ARP_TABLE_SIZE then
    etharp_free_entry (old_pending c);; mret (old_pending c)
  else if old_queue c <? ARP_TABLE_SIZE then
    etharp_free_entry (old_queue c);; mret (old_queue c)
  else mret ERR_MEM.

Lemma choose_ok s R a nif c :
  arp_mem s R -> length (arp_table s) = 10%nat -> Forall (entry_ok (nifs s)) (arp_table s) -> swept (arp_table s) c ->
  no_entry (arp_table s) a nif ->
  exists j s', (choose c ≫= finish a nif) s = Ok (j, s') /\ arp_mem s' R /\
    etharp_cached_entry s' = etharp_cached_entry s /\ same_env s s' /\ keeps (n_pbufs (anet s)) (n_pbufs (anet s')) /\
    made s s' a nif j.
Proof.
  intros Hm Hl Hok (Hem & Hst & Hpe & Hqu) Hne. unfold choose.
  destruct Hem as [[-> Hall]|(H0 & e & E & He)].
  - change (ARP_TABLE_SIZE <? ARP_TABLE_SIZE) with false. cbn iota.
    destruct (oldest_some _ _ _ _ Hst Hl) as [(Hi1 & Hi & e & E & He)|(Hi1 & Fst)]; rewrite Hi1.
    { apply (recycled s R a nif (old_stable c) e); [done|done|done|done| |].
      - right. split; [done|]. split; [intros Hx; by rewrite Hx in Hi1|]. left. eauto.
      - rewrite (bind_ok _ _ _ _ _ (entry_run s (old_stable c) e (conj Hi E))).
        rewrite (bind_ok (assert _) _ _ tt s); [done|]. unfold assert. rewrite (stable_no_queue (nifs s) e); [done| |done].
        exact (Forall_lookup_1 _ _ _ _ Hok E). }
    destruct (oldest_some _ _ _ _ Hpe Hl) as [(Hi2 & Hi & e & E & He)|(Hi2 & Fpe)]; rewrite Hi2.
    { apply (recycled s R a nif (old_pending c) e); [done|done|done|done| |done].
      right. split; [done|]. split; [intros Hx; by rewrite Hx in Hi2|]. right; left. eauto. }
    destruct (oldest_some _ _ _ _ Hqu Hl) as [(Hi3 & Hi & e & E & He)|(Hi3 & Fqu)]; rewrite Hi3.
    { apply (recycled s R a nif (old_queue c) e); [done|done|done|done| |done].
      right. split; [done|]. split; [intros Hx; by rewrite Hx in Hi3|]. right; right. eauto. }
    exfalso. destruct (lookup_lt_is_Some_2 (arp_table s) 0) as [e E]; [lia|].
    destruct (kinds e (Forall_lookup_1 _ _ _ _ Hall E)) as [?|[?|?]];
      [exact (Forall_lookup_1 _ _ _ _ Fst E ltac:(done))|exact (Forall_lookup_1 _ _ _ _ Fpe E ltac:(done))|
       exact (Forall_lookup_1 _ _ _ _ Fqu E ltac:(done))].
  - pose proof (lookup_lt_Some _ _ _ E) as Hlt.
    rewrite (proj2 (Z.ltb_lt (empty_idx c) ARP_TABLE_SIZE)) by (unfold ARP_TABLE_SIZE; lia).
    rewrite (bind_ok (mret _) _ s (empty_idx c) s) by done.
    assert (state e = ETHARP_STATE_EMPTY) as Hse by (unfold nonempty in He; by destruct (decide (state e = ETHARP_STATE_EMPTY))).
    assert (q e = NULL) as Hq by (apply (Forall_lookup_1 _ _ _ _ Hok E); by rewrite Hse).
    eexists _, _. split; [apply (init_entry_run s a nif _ e); [done|unfold ARP_TABLE_SIZE; lia|done|done]|].
    split; [by apply (arp_mem_tbl s R _ e)|]. split; [done|]. split; [done|]. split; [apply keeps_refl|].
    split; [done|]. split; [left; eauto|]. split; [unfold ARP_TABLE_SIZE; lia|]. exists e. done.
Qed.

Lemma find_entry_ok s R a flags nif :
  arp_ok s R -> nif <> NULL -> flags = ETHARP_FLAG_TRY_HARD \/ flags = ETHARP_FLAG_FIND_ONLY ->
  exists i s', etharp_find_entry (Some a) flags nif s = Ok (i, s') /\ arp_mem s' R /\
    etharp_cached_entry s' = etharp_cached_entry s /\ same_env s s' /\ keeps (n_pbufs (anet s)) (n_pbufs (anet s')) /\
    (found s s' a nif i \/ flags = ETHARP_FLAG_TRY_HARD /\ made s s' a nif i \/
     flags = ETHARP_FLAG_FIND_ONLY /\ i = ERR_MEM /\ s' = s /\ no_entry (arp_table s) a nif).
Proof.
  intros (Hm & (Hl & Hok & _) & _) Hn Hf. unfold etharp_find_entry. rewrite (bind_ok (gets _) _ _ (arp_table s) s) by done.
  assert (Forall (fun e => 0 <= ctime e) (arp_table s)) as Hc by (eapply Forall_impl; [exact Hok|]; intros e (_ & [? _] & _); lia).
  pose proof (find_loop_spec (Some a) nif (arp_table s) [] no_candidates swept_nil Hc ltac:(simpl; lia)) as Hs.
  simpl app in Hs. change (Z.of_nat (length [])) with 0 in Hs.
  destruct (find_loop (Some a) nif 0 (arp_table s) no_candidates) as [i| c].
  { destruct Hs as (Hi & e & E & He & Hma). apply matches_iff in Hma as [Hia Hin]; [|done].
    exists i, s. split_and!; try done; [apply keeps_refl|left]. split; [done|]. by exists e. }
  destruct Hs as [Hsw Hno].
  assert (no_entry (arp_table s) a nif) as Hne.
  { eapply Forall_impl; [exact Hno|]. simpl. intros e Hx He Hme. apply (matches_iff a nif e Hn) in Hme.
    specialize (Hx He). cbn [entry_matches] in *. congruence. }
  destruct Hf as [-> | ->]; [|exists ERR_MEM, s; split_and!; try done; [apply keeps_refl|by right; right]].
  change ((ETHARP_FLAG_TRY_HARD &c ETHARP_FLAG_FIND_ONLY) =? 0) with true.
  change ((ETHARP_FLAG_TRY_HARD &c ETHARP_FLAG_TRY_HARD) =? 0) with false. rewrite andb_false_r. cbn [negb orb].
  destruct (choose_ok s R a nif c Hm Hl Hok Hsw Hne) as (j & s' & E & Hj).
  exists j, s'. split; [exact E|]. destruct Hj as (? & ? & ? & ? & ?). split_and!; try done. right; left. done.
Qed.

(** The entry the callers go on with. *)
Definition usable s (a nif i : Z) : Prop := exists e, at_idx s i e /\ ipaddr e = a /\ netif e = nif /\
  (nonempty e \/ q e = NULL /\ state e = ETHARP_STATE_EMPTY /\ ctime e = 0 /\ no_entry (arp_table s) a nif).

Lemma fresh_ok nfs a nif e : entry_ok nfs e -> entry_ok nfs (fresh_entry a nif e).
Proof. intros (H1 & _). split_and!; try done; by intros Hx. Qed.

Lemma find_entry_usable s R a flags nif :
  arp_ok s R -> nif <> NULL -> flags = ETHARP_FLAG_TRY_HARD \/ flags = ETHARP_FLAG_FIND_ONLY ->
  exists i s', etharp_find_entry (Some a) flags nif s = Ok (i, s') /\ arp_ok s' R /\ same_env s s' /\
    keeps (n_pbufs (anet s)) (n_pbufs (anet s')) /\
    (usable s' a nif i \/ flags = ETHARP_FLAG_FIND_ONLY /\ i = ERR_MEM /\ s' = s).
Proof.
  intros Hok Hn Hf. destruct (find_entry_ok s R a flags nif Hok Hn Hf) as (i & s' & E & Hm & Ec & He & Hk & Hcase).
  exists i, s'. split; [exact E|]. destruct Hok as (Hm0 & Ht & Hca).
  destruct Hcase as [(-> & e & Ha & Hne & H1 & H2)|[(_ & Hne & Hrec & Hi & e & Ha & Et)|(-> & -> & -> & Hne)]].
  - split_and!; try done. left. exists e. auto.
  - pose proof Ha as [H0 E0].
    assert (entry_ok (nifs s) (fresh_entry a nif e)) as Hfr by (apply fresh_ok; exact (Forall_lookup_1 _ _ _ _ (proj1 (proj2 Ht)) E0)).
    split_and!; try done; [|left].
    + split; [done|]. split; [|by rewrite Ec]. rewrite Et, (proj1 He). eapply table_ok_set; [done|done|done|]. by intros [].
    + exists (fresh_entry a nif e). split_and!; [split; [done|]|done|done|right; split_and!; try done].
      * rewrite Et. apply list_lookup_insert_eq. by eapply lookup_lt_Some.
      * rewrite Et. apply Forall_insert; [done|]. by intros [].
  - split_and!; try done. right. done.
Qed.

(** ** Sending ARP packets *)

(** A sequence of writes into the packet being built. *)
Fixpoint stores (m : memory) (ws : list (Z * list Z)) : option memory :=
  match ws with
  | [] => Some m
  | w :: ws' => match store m w.1 w.2 with Some m' => stores m' ws' | None => None end
  end.
Definition writes {A} (ws : list (Z * list Z)) (k : M (arp H) A) : M (arp H) A :=
  foldr (fun w k => pb (write_bytes w.1 w.2);; k) k ws.

Lemma writes_ok {A} ws (k : M (arp H) A) R base n : forall s,
  link_ok pools linkoutput (a_link s) R -> valid_range (n_mem (anet s)) base n ->
  Forall (fun w : Z * list Z => base <= w.1 /\ w.1 + Z.of_nat (length w.2) <= base + n) ws ->
  exists m, stores (n_mem (anet s)) ws = Some m /\ same_dom (n_mem (anet s)) m /\
    link_ok pools linkoutput (a_link (set_anet (set_mem m (anet s)) s)) R /\
    writes ws k s = k (set_anet (set_mem m (anet s)) s).
Proof.
  induction ws as [|[a l] ws IH]; intros s Hk Hv Hw.
  - exists (n_mem (anet s)). assert (set_mem (n_mem (anet s)) (anet s) = anet s) as -> by (by destruct (anet s)).
    rewrite set_anet_id. done.
  - apply Forall_cons in Hw as [[H1 H2] Hw]. cbn [fst snd] in *.
    destruct (write_safe pools linkoutput (a_link s) R a l Hk) as (m1 & E1 & Es1 & Hd1 & Hk1);
      [intros i Hi; apply Hv; lia|]. change (lnet (a_link s)) with (anet s) in *.
    destruct (IH (set_anet (set_mem m1 (anet s)) s) Hk1) as (m & Em & Hd & Hk' & E); [by eapply same_dom_valid|done|].
    exists m. split_and!; [cbn [stores fst snd]; by rewrite Es1|by etransitivity|exact Hk'|].
    unfold writes in *. cbn [foldr fst snd]. unfold pb, on_link.
    rewrite (bind_ok _ _ s tt (set_anet (set_mem m1 (anet s)) s)) by (by rewrite E1). exact E.
Qed.

Lemma the_netif_run s nif n : nifs s !! nif = Some n -> the_netif nif s = Ok (n, s).
Proof. intros E. unfold the_netif, on_link, rd_netif, deref. unfold nifs in E. rewrite E. by destruct s. Qed.

(** The header fields in the order [etharp_raw] writes them after the opcode. *)
Definition raw_writes (hdr : Z) (hwsrc : list Z) (ipsrc : Z) (hwdst : list Z) (ipdst : Z) : list (Z * list Z) :=
  [(hdr + 8, hwsrc); (hdr + 18, hwdst); (hdr + 14, bytes32 ipsrc); (hdr + 24, bytes32 ipdst);
   (hdr, bytes16 (PP_HTONS LWIP_IANA_HWTYPE_ETHERNET)); (hdr + 2, bytes16 (PP_HTONS ETHTYPE_IP)); (hdr + 4, [6]); (hdr + 5, [4])].

Lemma output_ok s R nif n p src dst ty :
  link_ok pools linkoutput (a_link s) R -> p ∈ R -> nifs s !! nif = Some n -> nif_ok n ->
  length src = 6%nat -> length dst = 6%nat ->
  exists r s', output linkoutput nif p src dst ty s = Ok (r, s') /\ link_ok pools linkoutput (a_link s') R /\
    arp_table s' = arp_table s /\ etharp_cached_entry s' = etharp_cached_entry s /\ same_env s s' /\
    exists b b', n_pbufs (anet s) !! p = Some b /\ n_pbufs (anet s') = <[p := b']> (n_pbufs (anet s)) /\
      ref b' = ref b /\ next b' = next b.
Proof.
  intros Hk Hp En [H6 _] Hsrc Hdst.
  destruct (ethernet_output_safe pools linkoutput (a_link s) R nif n p src dst ty Hk Hp En H6 Hsrc Hdst)
    as (r & k & E & Hk' & Hn & Hd & b & b' & Eb & Es & Hr & Hnx & _).
  unfold output, on_link. rewrite E. eexists r, _. split; [reflexivity|]. split_and!; [done|done|done|done|].
  exists b, b'. done.
Qed.

Lemma raw_ok s R nif n es ed hs ips hd ipd op :
  arp_mem s R -> nifs s !! nif = Some n -> nif_ok n ->
  length es = 6%nat -> length ed = 6%nat -> length hs = 6%nat -> length hd = 6%nat ->
  exists r s', etharp_raw pools linkoutput nif es ed hs ips hd ipd op s = Ok (r, s') /\ arp_mem s' R /\
    arp_table s' = arp_table s /\ etharp_cached_entry s' = etharp_cached_entry s /\ same_env s s' /\
    n_pbufs (anet s') = n_pbufs (anet s).
Proof.
  intros [Hr Hl] En Hn Hes Hed Hhs Hhd. unfold etharp_raw.
  destruct (alloc_ram_refs pools (anet s) _ PBUF_LINK SIZEOF_ETHARP_HDR Hr) as (p & n1 & E1 & Em1 & Hr1 & Hcase);
    [unfold PBUF_LINK; lia|unfold SIZEOF_ETHARP_HDR; lia|].
  rewrite (bind_ok _ _ _ _ _ (pb_ok _ s _ _ E1)). set (s1 := set_anet n1 s).
  set (R1 := ptr p ⊎ (queued (arp_table s) ⊎ R)) in *.
  assert (same_dom (n_mem (anet s)) (n_mem n1)) as Hd1 by (rewrite Em1; reflexivity).
  assert (link_ready (l_eth (a_link s1))) as Hl1 by (eapply link_ready_dom; [exact Hl|done|exact Hd1]).
  destruct Hcase as [[-> Es1]|(Hz & Ef & Es1 & Hlo & Hhi)].
  { exists ERR_MEM, s1. unfold R1 in Hr1. rewrite ptr_null, (left_id_L ∅ (⊎)) in Hr1.
    split; [done|]. split; [by split|]. split_and!; [done|done|by split|exact Es1]. }
  rewrite (proj2 (Z.eqb_neq _ _) Hz). set (b := ram_pbuf p PBUF_LINK SIZEOF_ETHARP_HDR) in *.
  assert (n_pbufs (anet s1) !! p = Some b) as Eb by (change (n_pbufs n1 !! p = Some b); rewrite Es1; apply lookup_insert_eq).
  rewrite (bind_ok _ _ _ _ _ (pb_ok _ s1 _ _ (rd_ok _ _ _ Eb))), set_anet_id.
  rewrite (bind_ok (assert _) _ _ tt s1) by done.
  assert (valid_range (n_mem (anet s1)) (payload b) 28) as Hv.
  { destruct Hr1 as (_ & _ & Hpl & _). by destruct (Hpl p b Eb) as (_ & _ & Hv & _). }
  assert (link_ok pools linkoutput (a_link s1) R1) as Hk1 by by split.
  set (K := (output linkoutput nif p es ed ETHTYPE_ARP;; pb (pbuf_free p);; mret ERR_OK)).
  set (K1 := (n ← the_netif nif; assert (nif_hwaddr_len n =? 6);; writes (raw_writes (payload b) hs ips hd ipd) K)).
  change (exists r s', writes [(payload b + 6, bytes16 (lwip_htons op))] K1 s1 = Ok (r, s') /\ arp_mem s' R /\
    arp_table s' = arp_table s /\ etharp_cached_entry s' = etharp_cached_entry s /\ same_env s s' /\
    n_pbufs (anet s') = n_pbufs (anet s)).
  destruct (writes_ok [(payload b + 6, bytes16 (lwip_htons op))] K1 R1 (payload b) 28 s1 Hk1 Hv) as (m2 & _ & Hd2 & Hk2 & E2).
  { repeat constructor; simpl; lia. }
  rewrite E2. clear E2. set (s2 := set_anet (set_mem m2 _) s1) in *. unfold K1.
  rewrite (bind_ok _ _ _ _ _ (the_netif_run s2 nif n En)), (bind_ok (assert _) _ _ tt s2) by (unfold assert; by rewrite (proj1 Hn)).
  destruct (writes_ok (raw_writes (payload b) hs ips hd ipd) K R1 (payload b) 28 s2 Hk2) as (m3 & _ & Hd3 & Hk3 & E3).
  { by eapply same_dom_valid. }
  { repeat constructor; cbn [fst snd]; rewrite ?Hhs, ?Hhd; simpl; lia. }
  rewrite E3. clear E3. set (s3 := set_anet (set_mem m3 _) s2) in *. unfold K.
  destruct (output_ok s3 R1 nif n p es ed ETHTYPE_ARP Hk3) as (r4 & s4 & E4 & Hk4 & Et4 & Ec4 & [En4 Hd4] & b3 & b4 & Eb3 & Es4 & Hr4 & Hn4);
    [subst R1; rewrite ptr_some by done; multiset_solver|done|done|done|done|].
  rewrite (bind_ok _ _ _ _ _ E4). change (n_pbufs (anet s3)) with (n_pbufs (anet s1)) in *. rewrite Eb in Eb3. injection Eb3 as <-.
  assert (is_chain (n_pbufs (anet s4)) p [(p, b4)]) as Hc4.
  { rewrite Es4. cbn [is_chain]. by rewrite lookup_insert_eq. }
  destruct (free_refs_store pools (anet s4) (queued (arp_table s) ⊎ R) p _ (proj1 Hk4) Hz Hc4) as (k & n5 & E5 & Hr5 & Em5 & Es5).
  rewrite (bind_ok _ _ _ _ _ (pb_ok _ s4 _ _ E5)). eexists ERR_OK, _. split; [reflexivity|].
  assert (same_dom (n_mem (anet s4)) (n_mem n5)) as Hd5 by (rewrite Em5; reflexivity).
  split_and!; [|done|done| |].
  - change (arp_table s3) with (arp_table s) in Et4. rewrite <- Et4 in Hr5. split; [exact Hr5|]. eapply link_ready_dom; [exact (proj2 Hk4)|done|exact Hd5].
  - split; [exact En4|]. etransitivity; [exact Hd1|]. etransitivity; [exact Hd2|]. etransitivity; [exact Hd3|].
    etransitivity; [exact Hd4|exact Hd5].
  - change (n_pbufs n5 = n_pbufs (anet s)). rewrite Es5. cbn [free_store]. rewrite Hr4. cbn [ref b ram_pbuf Z.eqb Pos.eqb].
    rewrite Es4. change (n_pbufs (anet s1)) with (n_pbufs n1). rewrite Es1, insert_insert_eq. by apply delete_insert_id.
Qed.

(** ** Resolving an address *)

Definition stable_for (a nif : Z) (eaddr : list Z) : etharp_entry := mk_entry NULL a nif eaddr 0 ETHARP_STATE_STABLE.

(** Sending the packet that waited on the entry. *)
Lemma flush_ok s R i e nif n eaddr :
  arp_mem s R -> at_idx s i e -> nifs s !! nif = Some n -> nif_ok n -> length eaddr = 6%nat ->
  exists s', (if negb (q e =? NULL) then
         set_entry i (with_q NULL);;
         output linkoutput nif (q e) (nif_hwaddr n) eaddr ETHTYPE_IP;;
         pb (pbuf_free (q e));; mret tt
       else mret tt) s = Ok (tt, s') /\ arp_mem s' R /\ same_env s s' /\
    arp_table s' = <[Z.to_nat i := with_q NULL e]> (arp_table s) /\ etharp_cached_entry s' = etharp_cached_entry s.
Proof.
  intros Hm Ha En Hn Hea. destruct (Z.eqb_spec (q e) NULL) as [Hq|Hq]; cbn [negb].
  - exists s. split_and!; try done. assert (with_q NULL e = e) as -> by (destruct e; simpl in *; by subst).
    symmetry. by apply list_insert_id, Ha.
  - pose proof (arp_mem_unqueue s R i e (with_q NULL e) Hm Ha eq_refl) as Hk.
    rewrite (set_entry_step s i e _ _ Ha). set (s1 := set_tbl _ s).
    destruct (output_ok s1 _ nif n (q e) (nif_hwaddr n) eaddr ETHTYPE_IP Hk)
      as (r & s2 & E2 & [Hr2 Hl2] & Et & Ec & [En2 Hd2] & _); [rewrite ptr_some by done; multiset_solver|done|done|apply Hn|done|].
    rewrite (bind_ok _ _ _ _ _ E2). destruct (free_refs pools _ _ _ Hr2 Hq) as (k & n3 & E3 & Hr3 & Em3 & _).
    rewrite (bind_ok _ _ _ _ _ (pb_ok _ s2 _ _ E3)). eexists. split; [reflexivity|].
    assert (same_dom (n_mem (anet s2)) (n_mem n3)) as Hd3 by (rewrite Em3; reflexivity).
    split_and!; [split| |exact Et|exact Ec].
    + cbn [arp_table set_anet]. rewrite Et. exact Hr3.
    + eapply link_ready_dom; [exact Hl2|done|exact Hd3].
    + split; [exact En2|]. etransitivity; [exact Hd2|exact Hd3].
Qed.

Lemma unicast_cases n a :
  (ip4_addr_isany a || isbroadcast a n || ip4_addr_ismulticast a) = negb (unicast n a).
Proof. unfold unicast. by rewrite negb_involutive. Qed.

Lemma stable_ok (nfs : gmap Z nif) n a nif eaddr : nfs !! nif = Some n -> nif_ok n -> nif <> NULL ->
  length eaddr = 6%nat -> entry_ok nfs (stable_for a nif eaddr).
Proof.
  intros En Hn Hz Hl. unfold entry_ok, stable_for. cbn. unfold ARP_MAXAGE. split_and!; try done; try lia.
  intros _. split; [done|]. eauto.
Qed.

Lemma update_ok s R nif n addr eaddr flags :
  arp_ok s R -> nif <> NULL -> nifs s !! nif = Some n -> nif_ok n -> length eaddr = 6%nat ->
  flags = ETHARP_FLAG_TRY_HARD \/ flags = ETHARP_FLAG_FIND_ONLY ->
  exists r s', etharp_update_arp_entry linkoutput nif addr eaddr flags s = Ok (r, s') /\ arp_ok s' R /\ same_env s s' /\
    (r = ERR_OK /\ (exists i, at_idx s' i (stable_for addr nif eaddr)) \/
     (unicast n addr = false \/ flags = ETHARP_FLAG_FIND_ONLY) /\ s' = s).
Proof.
  intros Hok Hz En Hn Hea Hf. unfold etharp_update_arp_entry. rewrite (bind_ok _ _ _ _ _ (the_netif_run s nif n En)).
  rewrite (bind_ok (assert _) _ _ tt s) by (unfold assert; by rewrite (proj1 Hn)). rewrite unicast_cases.
  destruct (unicast n addr) eqn:Hu; cbn [negb]; [|exists ERR_ARG, s; split_and!; try done; right; auto].
  destruct (find_entry_usable s R addr flags nif Hok Hz Hf) as (i & s1 & E1 & Hok1 & He1 & _ & Hcase).
  rewrite (bind_ok _ _ _ _ _ E1). destruct Hcase as [(e & Ha & Hia & Hin & Hst)|(-> & -> & ->)];
    [|exists ERR_MEM, s; split_and!; try done; right; auto].
  pose proof Ha as [H0 E0]. rewrite (proj2 (Z.ltb_ge i 0) H0).
  rewrite (set_entry_step s1 i e _ _ Ha). erewrite set_entry_step by (by eapply at_idx_set). rewrite set_tbl_twice.
  erewrite set_entry_step by (by eapply at_idx_set). rewrite set_tbl_twice.
  erewrite set_entry_step by (by eapply at_idx_set). rewrite set_tbl_twice.
  set (e2 := with_ctime _ _). set (s2 := set_tbl _ s1). assert (at_idx s2 i e2) as Ha2 by (by eapply at_idx_set).
  rewrite (bind_ok _ _ _ _ _ (entry_run s2 i e2 Ha2)). destruct Hok1 as (Hm1 & Ht1 & Hc1).
  destruct (flush_ok s2 R i e2 nif n eaddr) as (s3 & E3 & Hm3 & He3 & Et3 & Ec3);
    [by eapply arp_mem_tbl|done|by rewrite <- En, <- (proj1 He1)|done|done|].
  rewrite (bind_ok _ _ _ _ _ E3). exists ERR_OK, s3. split; [done|].
  assert (with_q NULL e2 = stable_for addr nif eaddr) as Ee by (unfold e2; destruct e; simpl in *; by subst).
  rewrite Ee in Et3. cbn [s2 set_tbl arp_table] in Et3. rewrite list_insert_insert_eq in Et3.
  assert (nifs s3 = nifs s1) as En3 by apply He3.
  split_and!; [|etransitivity; [exact He1|exact He3]|].
  - split; [done|]. split; [|by rewrite Ec3]. rewrite Et3, En3. eapply table_ok_set; [done|exact E0| |].
    + eapply stable_ok; try done. by rewrite (proj1 He1).
    + intros _. destruct Hst as [Hne|(_ & _ & _ & Hne)]; [left|right]; by simpl.
  - left. split; [done|]. exists i. split; [done|]. rewrite Et3. apply list_lookup_insert_eq. by eapply lookup_lt_Some.
Qed.

(** ** Input *)

Lemma swap_ptr (Q R : gmultiset Z) p : Q ⊎ (ptr p ⊎ R) = ptr p ⊎ (Q ⊎ R).
Proof. by rewrite !(assoc_L (⊎)), (comm_L (⊎) Q). Qed.

Lemma drop_ok s R p : arp_ok s (ptr p ⊎ R) -> p <> NULL ->
  exists k s', pb (pbuf_free p) s = Ok (k, s') /\ arp_ok s' R /\ same_env s s'.
Proof.
  intros ([Hr Hl] & Ht & Hc) Hz. rewrite swap_ptr in Hr. destruct (free_refs pools _ _ _ Hr Hz) as (k & n & E & Hr' & Em & _).
  exists k, (set_anet n s). assert (same_dom (n_mem (anet s)) (n_mem n)) as Hd by (rewrite Em; reflexivity).
  split; [by apply pb_ok|]. split; [|exact (conj eq_refl Hd)].
  split; [split; [exact Hr'|]|done]. eapply link_ready_dom; [exact Hl|done|exact Hd].
Qed.

Lemma request_dst_ok s R nif n addr hw :
  arp_mem s R -> nifs s !! nif = Some n -> nif_ok n -> length hw = 6%nat ->
  exists r s', etharp_request_dst pools linkoutput nif addr hw s = Ok (r, s') /\ arp_mem s' R /\
    arp_table s' = arp_table s /\ etharp_cached_entry s' = etharp_cached_entry s /\ same_env s s' /\
    n_pbufs (anet s') = n_pbufs (anet s).
Proof.
  intros Hm En Hn Hw. unfold etharp_request_dst. rewrite (bind_ok _ _ _ _ _ (the_netif_run s nif n En)).
  by apply (raw_ok s R nif n); try apply Hn.
Qed.

Lemma request_ok s R nif n addr :
  arp_mem s R -> nifs s !! nif = Some n -> nif_ok n ->
  exists r s', etharp_request pools linkoutput nif addr s = Ok (r, s') /\ arp_mem s' R /\
    arp_table s' = arp_table s /\ etharp_cached_entry s' = etharp_cached_entry s /\ same_env s s' /\
    n_pbufs (anet s') = n_pbufs (anet s).
Proof. intros Hm En Hn. by eapply request_dst_ok. Qed.

Lemma arp_ok_frame s s' R R' : arp_ok s R -> arp_mem s' R' -> arp_table s' = arp_table s ->
  etharp_cached_entry s' = etharp_cached_entry s -> same_env s s' -> arp_ok s' R'.
Proof. intros (_ & Ht & Hc) Hm Et Ec [En _]. split; [done|]. by rewrite Et, Ec, En. Qed.

Lemma pb_read {A} (m : M (net H) A) s a : m (anet s) = Ok (a, anet s) -> pb m s = Ok (a, s).
Proof. intros E. rewrite (pb_ok _ s _ _ E). by rewrite set_anet_id. Qed.

Lemma read_bytes_run s a k : valid_range (n_mem (anet s)) a (Z.of_nat k) ->
  exists l, length l = k /\ load (n_mem (anet s)) a k = Some l /\ pb (read_bytes a k) s = Ok (l, s).
Proof.
  intros Hv. destruct (load_is_Some _ _ _ Hv) as [l E]. exists l. split_and!; [by eapply load_length|done|].
  apply pb_read. unfold read_bytes. by rewrite E.
Qed.

Lemma read_u16_run s a : valid_range (n_mem (anet s)) a 2 ->
  exists b0 b1, load (n_mem (anet s)) a 2 = Some [b0; b1] /\ pb (read_u16 a) s = Ok (b0 + 256 * b1, s).
Proof.
  intros Hv. destruct (load_is_Some (n_mem (anet s)) a 2 Hv) as [l E]. pose proof (load_length _ _ _ _ E).
  destruct l as [|b0 [|b1 [|]]]; try done. exists b0, b1. split; [done|]. apply pb_read.
  unfold read_u16. rewrite (bind_ok _ _ _ [b0; b1] (anet s)); [done|]. unfold read_bytes. by rewrite E.
Qed.

Lemma read_u32_run s a : valid_range (n_mem (anet s)) a 4 ->
  exists b0 b1 b2 b3, load (n_mem (anet s)) a 4 = Some [b0; b1; b2; b3] /\
    pb (read_u32 a) s = Ok (b0 + 256 * b1 + 65536 * b2 + 16777216 * b3, s).
Proof.
  intros Hv. destruct (load_is_Some (n_mem (anet s)) a 4 Hv) as [l E]. pose proof (load_length _ _ _ _ E).
  destruct l as [|b0 [|b1 [|b2 [|b3 [|]]]]]; try done. exists b0, b1, b2, b3. split; [done|]. apply pb_read.
  unfold read_u32. rewrite (bind_ok _ _ _ [b0; b1; b2; b3] (anet s)); [done|]. unfold read_bytes. by rewrite E.
Qed.

Lemma read_byte_run s a : valid_range (n_mem (anet s)) a 1 -> exists x, n_mem (anet s) !! a = Some x /\ pb (read_byte a) s = Ok (x, s).
Proof.
  intros Hv. destruct (Hv a) as [x E]; [lia|]. exists x. split; [done|]. apply pb_read.
  unfold read_byte. by rewrite E.
Qed.

Ltac in_range Hv := intros j Hj; apply Hv; lia.

(** The end of [etharp_input]: answering a request for our address. *)
Lemma answer_ok s R nif n p hdr sip (for_us : bool) :
  arp_ok s (ptr p ⊎ R) -> nifs s !! nif = Some n -> nif_ok n -> p <> NULL -> valid_range (n_mem (anet s)) hdr 28 ->
  exists s', (opcode ← pb (read_u16 (hdr + 6));
      (if opcode =? PP_HTONS ARP_REQUEST then
         if for_us then
           n ← the_netif nif;
           shwaddr ← pb (read_bytes (hdr + 8) 6);
           etharp_raw pools linkoutput nif (nif_hwaddr n) shwaddr (nif_hwaddr n) (ip_addr n) shwaddr sip ARP_REPLY;;
           mret tt
         else mret tt
       else mret tt);;
      pb (pbuf_free p);;
      mret tt) s = Ok (tt, s') /\ arp_ok s' R /\ same_env s s'.
Proof.
  intros Hok En Hn Hp Hv. destruct (read_u16_run s (hdr + 6)) as (c0 & c1 & _ & Eo); [in_range Hv|].
  rewrite (bind_ok _ _ _ _ _ Eo). clear Eo.
  assert (exists s1, (if c0 + 256 * c1 =? PP_HTONS ARP_REQUEST then
         if for_us then
           n ← the_netif nif;
           shwaddr ← pb (read_bytes (hdr + 8) 6);
           etharp_raw pools linkoutput nif (nif_hwaddr n) shwaddr (nif_hwaddr n) (ip_addr n) shwaddr sip ARP_REPLY;;
           mret tt
         else mret tt
       else mret tt) s = Ok (tt, s1) /\ arp_ok s1 (ptr p ⊎ R) /\ same_env s s1) as (s1 & E1 & Hok1 & He1).
  { destruct (c0 + 256 * c1 =? PP_HTONS ARP_REQUEST); [|by exists s]. destruct for_us; [|by exists s].
    rewrite (bind_ok _ _ _ _ _ (the_netif_run s nif n En)).
    destruct (read_bytes_run s (hdr + 8) 6) as (l & Hl & _ & El); [in_range Hv|]. rewrite (bind_ok _ _ _ _ _ El).
    destruct (raw_ok s (ptr p ⊎ R) nif n (nif_hwaddr n) l (nif_hwaddr n) (ip_addr n) l sip ARP_REPLY) as (r & s1 & E & Hm & Et & Ec & He & _);
      try done; try apply Hn; [apply Hok|]. rewrite (bind_ok _ _ _ _ _ E). exists s1. split_and!; [done| |done].
    by eapply arp_ok_frame. }
  rewrite (bind_ok _ _ _ _ _ E1). destruct (drop_ok s1 R p Hok1 Hp) as (k & s2 & E2 & Hok2 & He2).
  rewrite (bind_ok _ _ _ _ _ E2). exists s2. split_and!; [done|done|]. by etransitivity.
Qed.

Lemma input_ok s R nif n p b :
  arp_ok s (ptr p ⊎ R) -> nif <> NULL -> nifs s !! nif = Some n -> nif_ok n -> p <> NULL ->
  n_pbufs (anet s) !! p = Some b -> valid_range (n_mem (anet s)) (payload b) SIZEOF_ETHARP_HDR ->
  exists s', etharp_input pools linkoutput p nif s = Ok (tt, s') /\ arp_ok s' R /\ same_env s s'.
Proof.
  intros Hok Hz En Hn Hp Eb Hv. unfold SIZEOF_ETHARP_HDR in Hv. unfold etharp_input. rewrite (proj2 (Z.eqb_neq _ _) Hz).
  rewrite (bind_ok _ _ _ _ _ (pb_ok _ s _ _ (rd_ok _ _ _ Eb))), set_anet_id.
  destruct (read_u16_run s (payload b)) as (? & ? & _ & E1); [in_range Hv|]. rewrite (bind_ok _ _ _ _ _ E1). clear E1.
  destruct (read_byte_run s (payload b + 4)) as (? & _ & E2); [in_range Hv|]. rewrite (bind_ok _ _ _ _ _ E2). clear E2.
  destruct (read_byte_run s (payload b + 5)) as (? & _ & E3); [in_range Hv|]. rewrite (bind_ok _ _ _ _ _ E3). clear E3.
  destruct (read_u16_run s (payload b + 2)) as (? & ? & _ & E4); [in_range Hv|]. rewrite (bind_ok _ _ _ _ _ E4). clear E4.
  destruct (negb _ || _ || _ || _).
  { destruct (drop_ok s R p Hok Hp) as (k & s' & E & Hok' & He). rewrite (bind_ok _ _ _ _ _ E). by exists s'. }
  destruct (read_u32_run s (payload b + 14)) as (a0 & a1 & a2 & a3 & _ & E5); [in_range Hv|]. rewrite (bind_ok _ _ _ _ _ E5). clear E5.
  destruct (read_u32_run s (payload b + 24)) as (? & ? & ? & ? & _ & E6); [in_range Hv|]. rewrite (bind_ok _ _ _ _ _ E6). clear E6.
  rewrite (bind_ok _ _ _ _ _ (the_netif_run s nif n En)). set (sip := a0 + 256 * a1 + 65536 * a2 + 16777216 * a3). set (for_us := if ip4_addr_isany (ip_addr n) then false else ip4_addr_cmp _ (ip_addr n)).
  destruct (read_bytes_run s (payload b + 8) 6) as (l7 & Hl7 & _ & E7); [in_range Hv|]. rewrite (bind_ok _ _ _ _ _ E7). clear E7.
  destruct (update_ok s (ptr p ⊎ R) nif n sip l7 (if for_us then ETHARP_FLAG_TRY_HARD else ETHARP_FLAG_FIND_ONLY))
    as (r & s1 & E8 & Hok1 & He1 & _); try done; [destruct for_us; auto|].
  rewrite (bind_ok _ _ _ _ _ E8). destruct (answer_ok s1 R nif n p (payload b) sip for_us) as (s2 & E9 & Hok2 & He2); try done.
  - by rewrite (proj1 He1).
  - eapply same_dom_valid; [apply He1|done].
  - exists s2. split_and!; [exact E9|done|]. by etransitivity.
Qed.

(** ** The timer *)

(** What one tick does to an entry. *)
Definition aged (e : etharp_entry) : etharp_entry :=
  if decide (state e = ETHARP_STATE_EMPTY) then e
  else
    let e1 := with_ctime (ctime e + 1) e in
    if (ARP_MAXAGE <=? ctime e1) || (bool_decide (state e = ETHARP_STATE_PENDING) && (ARP_MAXPENDING <=? ctime e1))
    then freed_entry e1
    else match state e with
         | ETHARP_STATE_STABLE_REREQUESTING_1 => with_state ETHARP_STATE_STABLE_REREQUESTING_2 e1
         | ETHARP_STATE_STABLE_REREQUESTING_2 => with_state ETHARP_STATE_STABLE e1
         | _ => e1
         end.

Lemma freed_ok nfs e : length (ethaddr e) = 6%nat -> 0 <= ctime e -> entry_ok nfs (freed_entry e).
Proof. intros H1 H2. split_and!; try done; by intros []. Qed.

Lemma aged_ok nfs e : entry_ok nfs e -> entry_ok nfs (aged e) /\
  (nonempty (aged e) -> nonempty e /\ ipaddr (aged e) = ipaddr e /\ netif (aged e) = netif e).
Proof.
  intros Hok. pose proof Hok as (H1 & [H2 H3] & H4 & H5 & H6). unfold aged.
  destruct (decide (state e = ETHARP_STATE_EMPTY)) as [Ee|Ee]; [split; [done|]; by intros []|].
  specialize (H3 Ee). specialize (H6 Ee). cbn [ctime with_ctime]. assert (nonempty e) as Hne by exact Ee.
  destruct (Z.leb_spec ARP_MAXAGE (ctime e + 1)); cbn [orb].
  { split; [apply freed_ok; [done|simpl; lia]|]. by intros []. }
  destruct (bool_decide_reflect (state e = ETHARP_STATE_PENDING)) as [Ep|Ep]; cbn [andb].
  - destruct (Z.leb_spec ARP_MAXPENDING (ctime e + 1)).
    + split; [apply freed_ok; [done|simpl; lia]|]. by intros [].
    + rewrite Ep. split; [|done]. unfold entry_ok. simpl. split_and!; intros; try done; lia.
  - specialize (H5 Ep). destruct (state e) eqn:Es; try done; (split; [|done]);
      unfold entry_ok; simpl; (split_and!; intros; try done; first [congruence|lia]).
Qed.

Lemma tmr_entry_ok s R i e : arp_ok s R -> at_idx s i e ->
  exists s', tmr_entry pools linkoutput i s = Ok (tt, s') /\ arp_ok s' R /\ same_env s s' /\
    arp_table s' = <[Z.to_nat i := aged e]> (arp_table s).
Proof.
  intros Hok Ha. pose proof Hok as (Hm & Ht & Hc). pose proof Ha as [H0 E0].
  assert (entry_ok (nifs s) e) as He by exact (Forall_lookup_1 _ _ _ _ (proj1 (proj2 Ht)) E0).
  assert (table_ok (nifs s) (<[Z.to_nat i := aged e]> (arp_table s))) as Ht'.
  { destruct (aged_ok _ _ He) as [Ha1 Ha2]. eapply table_ok_set; [done|done|done|]. intros Hne. left. by apply Ha2. }
  enough (exists s', tmr_entry pools linkoutput i s = Ok (tt, s') /\ arp_mem s' R /\ same_env s s' /\
    arp_table s' = <[Z.to_nat i := aged e]> (arp_table s) /\ etharp_cached_entry s' = etharp_cached_entry s)
    as (s' & E & Hm' & Hs' & Et & Ec).
  { exists s'. split_and!; try done. split; [done|]. by rewrite Et, Ec, (proj1 Hs'). }
  unfold tmr_entry. rewrite (bind_ok _ _ _ _ _ (entry_run s i e Ha)). unfold aged.
  destruct (decide (state e = ETHARP_STATE_EMPTY)) as [Ee|Ee].
  { exists s. split_and!; try done. symmetry. by apply list_insert_id. }
  destruct He as (_ & [Hc0 Hc1] & _ & _ & Hn). specialize (Hc1 Ee). destruct (Hn Ee) as (Hz & n & En & Hno).
  rewrite u16_small by (unfold is_u16, ARP_MAXAGE in *; lia). set (e1 := with_ctime (ctime e + 1) e).
  rewrite (set_entry_step s i e _ _ Ha). set (s1 := set_tbl _ s).
  assert (at_idx s1 i e1) as Ha1 by (by eapply at_idx_set). assert (arp_mem s1 R) as Hm1 by (by eapply arp_mem_tbl).
  rewrite (bind_ok _ _ _ _ _ (entry_run s1 i e1 Ha1)). change (state e1) with (state e).
  destruct ((ARP_MAXAGE <=? ctime e1) || _).
  { destruct (free_entry_ok s1 R i e1 Hm1 Ha1) as (s2 & E2 & Hm2 & Et2 & Ec2 & He2 & _). exists s2.
    split_and!; try done. rewrite Et2. unfold s1. simpl. by rewrite list_insert_insert_eq. }
  assert (forall st, exists s', set_entry i (with_state st) s1 = Ok (tt, s') /\ arp_mem s' R /\ same_env s s' /\
    arp_table s' = <[Z.to_nat i := with_state st e1]> (arp_table s) /\ etharp_cached_entry s' = etharp_cached_entry s) as Hst.
  { intros st. rewrite (set_entry_run s1 i e1 _ Ha1). unfold s1. rewrite set_tbl_twice. eexists. split; [reflexivity|].
    split_and!; try done. by eapply arp_mem_tbl. }
  destruct (state e) eqn:Es; try done; try apply Hst; [|by exists s1].
  destruct (request_ok s1 R (netif e1) n (ipaddr e1) Hm1 En Hno) as (r & s2 & E2 & Hm2 & Et2 & Ec2 & He2 & _).
  rewrite (bind_ok _ _ _ _ _ E2). exists s2. split_and!; done.
Qed.

Lemma for_entries_ok R (body : Z -> M (arp H) unit) g :
  (forall s i e, arp_ok s R -> at_idx s i e -> exists s', body i s = Ok (tt, s') /\ arp_ok s' R /\ same_env s s' /\
     arp_table s' = <[Z.to_nat i := g e]> (arp_table s)) ->
  forall k i s, arp_ok s R -> (i + k = 10)%nat ->
  exists s', for_entries k (Z.of_nat i) body s = Ok (tt, s') /\ arp_ok s' R /\ same_env s s' /\
    arp_table s' = take i (arp_table s) ++ (g <$> drop i (arp_table s)).
Proof.
  intros Hb. induction k as [|k IH]; intros i s Hok Hi.
  - exists s. pose proof Hok as (_ & (Hl & _) & _). split_and!; try done. rewrite take_ge, drop_ge by lia. by rewrite app_nil_r.
  - pose proof Hok as (_ & (Hl & _) & _). destruct (lookup_lt_is_Some_2 (arp_table s) i) as [e E]; [lia|].
    destruct (Hb s (Z.of_nat i) e Hok) as (s1 & E1 & Hok1 & He1 & Et1); [split; [lia|by rewrite Nat2Z.id]|].
    cbn [for_entries]. rewrite (bind_ok _ _ _ _ _ E1). replace (Z.of_nat i + 1) with (Z.of_nat (S i)) by lia.
    destruct (IH (S i) s1 Hok1) as (s2 & E2 & Hok2 & He2 & Et2); [lia|]. exists s2.
    split_and!; [done|done|by etransitivity|]. rewrite Et2, Et1, Nat2Z.id.
    rewrite drop_insert_lt by lia. rewrite (drop_S _ _ _ E). rewrite (take_S_r _ i (g e)) by (apply list_lookup_insert_eq; lia).
    rewrite take_insert_ge by lia. by rewrite <- app_assoc.
Qed.

Definition cleaned (nif : Z) (e : etharp_entry) : etharp_entry :=
  if bool_decide (state e <> ETHARP_STATE_EMPTY) && (netif e =? nif) then freed_entry e else e.

Lemma cleanup_entry_ok s R nif i e : arp_ok s R -> at_idx s i e ->
  exists s', (e ← entry i;
    if bool_decide (state e <> ETHARP_STATE_EMPTY) && (netif e =? nif) then etharp_free_entry i else mret tt) s = Ok (tt, s') /\
    arp_ok s' R /\ same_env s s' /\ arp_table s' = <[Z.to_nat i := cleaned nif e]> (arp_table s).
Proof.
  intros Hok Ha. pose proof Hok as (Hm & Ht & Hc). pose proof Ha as [H0 E0]. rewrite (bind_ok _ _ _ _ _ (entry_run s i e Ha)).
  unfold cleaned. destruct (bool_decide _ && _).
  - destruct (free_entry_ok s R i e Hm Ha) as (s' & E & Hm' & Et & Ec & He & _). exists s'. split_and!; try done.
    split; [done|]. split; [|by rewrite Ec]. rewrite Et, (proj1 He). eapply table_ok_set; [done|done| |by intros []].
    destruct (Forall_lookup_1 _ _ _ _ (proj1 (proj2 Ht)) E0) as (? & [? _] & _). by apply freed_ok.
  - exists s. split_and!; try done. symmetry. by apply list_insert_id.
Qed.

(** ** Output *)

(** A packet that may be given to ARP: one well-formed packet whose count does not
    overflow when it is queued. *)
Definition sendable (ps : gmap Z pbuf) (pkt : Z) : Prop :=
  exists b l, is_chain ps pkt ((pkt, b) :: l) /\ totals ((pkt, b) :: l) /\ one_packet ((pkt, b) :: l) /\ ref b < 255.

Definition same_but_ref (x y : Z * pbuf) : Prop := x.1 = y.1 /\ y.2 = with_ref (ref y.2) x.2 /\ ref y.2 <= ref x.2.

Lemma same_but_ref_len (x y : Z * pbuf) : same_but_ref x y ->
  len y.2 = len x.2 /\ tot_len y.2 = tot_len x.2 /\ next y.2 = next x.2.
Proof. intros (_ & -> & _). done. Qed.

Lemma same_totals l l' : Forall2 same_but_ref l l' -> totals l -> totals l' /\ sum_len l' = sum_len l.
Proof.
  induction 1 as [|[a b] [a' b'] l l' Hx Hl IH]; [done|]. apply same_but_ref_len in Hx as (H1 & H2 & H3). simpl in *.
  intros (T1 & T2 & T3 & T4). destruct (IH T4) as [I1 I2]. unfold sum_len in *. simpl. rewrite H1, H2, I2. done.
Qed.

Lemma same_one_packet l l' : Forall2 same_but_ref l l' -> one_packet l -> one_packet l'.
Proof.
  unfold one_packet. induction 1 as [|x y l l' Hx Hl IH]; [done|]. intros [H1 H2]%Forall_cons. constructor; [|by apply IH].
  apply same_but_ref_len in Hx as (-> & -> & ->). done.
Qed.

Lemma sendable_same ps ps' pkt : sendable ps pkt -> same_packet ps ps' pkt -> sendable ps' pkt.
Proof.
  intros (b & l & Hc & Ht & Ho & Hr) Hs. destruct (Hs _ Hc) as (l' & Hc' & Hf).
  destruct l' as [|[a b'] l']; [by apply Forall2_cons_nil_inv in Hf|].
  destruct (same_totals _ _ Hf Ht) as [Ht' _]. pose proof (same_one_packet _ _ Hf Ho) as Ho'.
  apply Forall2_cons in Hf as [(Ha & Hb & Hle) _]. simpl in *. subst a. exists b', l'. split_and!; [done|done|done|lia].
Qed.

Lemma copy_needed_run (n : net H) l : forall fuel p, is_chain (n_pbufs n) p l -> one_packet l -> (length l < fuel)%nat ->
  exists c, copy_needed fuel p n = Ok (c, n).
Proof.
  induction l as [|[a b] l IH]; intros [|fuel] p Hc Ho Hf; simpl in Hf; try lia; cbn [copy_needed].
  - simpl in Hc. subst p. by exists false.
  - destruct Hc as (-> & Hz & E & Hc). apply Forall_cons in Ho as [Hb Ho]. simpl in Hb.
    rewrite (proj2 (Z.eqb_neq _ _) Hz), (bind_ok _ _ _ _ _ (rd_ok a b n E)).
    rewrite (bind_ok (assert _) _ _ tt n).
    2:{ unfold assert. destruct (Z.eqb_spec (next b) NULL); [by rewrite orb_true_r|]. rewrite (proj2 (Z.eqb_neq _ _)) by auto. done. }
    destruct (PBUF_NEEDS_COPY b); [by exists true|]. apply IH; [done|done|lia].
Qed.

Lemma queue_swap s R i e p : at_idx s i e ->
  ptr p ⊎ (queued (arp_table s) ⊎ R) = ptr (q e) ⊎ (queued (<[Z.to_nat i := with_q p e]> (arp_table s)) ⊎ R).
Proof. intros [_ E]. pose proof (queued_insert _ _ _ (with_q p e) E) as Hi. by rewrite !(assoc_L (⊎)), Hi. Qed.

(** The copy of the packet, or the packet with one more reference. *)
Lemma take_over_ok s T (c : bool) pkt b l :
  refs pools (anet s) T -> is_chain (n_pbufs (anet s)) pkt ((pkt, b) :: l) -> totals ((pkt, b) :: l) ->
  one_packet ((pkt, b) :: l) -> ref b < 255 ->
  exists p n1, (if c then pb (pbuf_clone pools PBUF_LINK PBUF_RAM pkt) else pb (pbuf_ref pkt);; mret pkt) s
    = Ok (p, set_anet n1 s) /\ refs pools n1 (ptr p ⊎ T) /\ same_dom (n_mem (anet s)) (n_mem n1).
Proof.
  intros Hr Hc Htl Ho Hrb. destruct c.
  - destruct (clone_refs pools (anet s) _ PBUF_LINK pkt _ Hr Hc ltac:(done) Htl Ho) as (p & n1 & E1 & Hr1 & Hd1);
      [unfold PBUF_LINK; lia|]. exists p, n1. split_and!; [by apply pb_ok|done|done].
  - pose proof Hc as (_ & _ & Eb & _). destruct (ref_refs pools (anet s) _ pkt b Hr Eb Hrb) as (n1 & E1 & Hr1 & Em).
    exists pkt, n1. rewrite (bind_ok _ _ _ _ _ (pb_ok _ s _ _ E1)). split_and!; [done|done|by rewrite Em].
Qed.

(** Taking over the packet for a pending entry. *)
Lemma enqueue_ok s R i e pkt :
  arp_ok s R -> at_idx s i e -> state e = ETHARP_STATE_PENDING -> pkt <> NULL -> sendable (n_pbufs (anet s)) pkt ->
  exists r s', (fuel ← pb chain_fuel;
          c ← pb (copy_needed fuel pkt);
          p ← (if (c : bool) then pb (pbuf_clone pools PBUF_LINK PBUF_RAM pkt)
               else pb (pbuf_ref pkt);; mret pkt);
          if negb (p =? NULL) then
            (if negb (q e =? NULL) then pb (pbuf_free (q e));; mret tt else mret tt);;
            set_entry i (with_q p);;
            mret ERR_OK
          else mret ERR_MEM) s = Ok (r, s') /\ arp_ok s' R /\ same_env s s'.
Proof.
  intros Hok Ha Hst Hz (b & l & Hc & Htl & Ho & Hrb). pose proof Hok as ([Hr Hl] & Ht & Hca). pose proof Ha as [H0 E0].
  rewrite (bind_ok _ _ _ _ _ (pb_read chain_fuel s (S (S (base.size (n_pbufs (anet s))))) eq_refl)).
  destruct (copy_needed_run (anet s) _ (S (S (base.size (n_pbufs (anet s))))) pkt Hc Ho) as [c Ecn];
    [pose proof (is_chain_size _ _ _ Hc); lia|].
  rewrite (bind_ok _ _ _ _ _ (pb_read _ s _ Ecn)).
  destruct (take_over_ok s _ c pkt b l Hr Hc Htl Ho Hrb) as (p & n1 & E1 & Hr1 & Hd1).
  rewrite (bind_ok _ _ _ _ _ E1). set (s1 := set_anet n1 s). assert (at_idx s1 i e) as Ha1 by exact Ha.
  assert (link_ready (l_eth (a_link s1))) as Hl1 by (eapply link_ready_dom; [exact Hl|done|exact Hd1]).
  destruct (Z.eqb_spec p NULL) as [->|Hp]; cbn [negb].
  { exists ERR_MEM, s1. split; [done|]. split; [|exact (conj eq_refl Hd1)]. rewrite ptr_null, (left_id_L ∅ (⊎)) in Hr1.
    split; [by split|done]. }
  rewrite (queue_swap s R i e p Ha) in Hr1.
  assert (table_ok (nifs s) (<[Z.to_nat i := with_q p e]> (arp_table s))) as Ht'.
  { assert (nonempty e) as Hne by (unfold nonempty; congruence). eapply table_ok_set; [done|done| |by left].
    destruct (Forall_lookup_1 _ _ _ _ (proj1 (proj2 Ht)) E0) as (X1 & X2 & X3 & _ & X5).
    refine (conj X1 (conj X2 (conj X3 (conj _ X5)))). by intros []. }
  destruct (Z.eqb_spec (q e) NULL) as [Hq|Hq]; cbn [negb].
  - rewrite (bind_ok (mret tt) _ _ tt s1) by done. rewrite (set_entry_step s1 i e _ _ Ha1).
    eexists ERR_OK, _. split; [reflexivity|]. split; [|exact (conj eq_refl Hd1)].
    rewrite Hq, ptr_null, (left_id_L ∅ (⊎)) in Hr1. split; [by split|done].
  - destruct (free_refs pools n1 _ (q e) Hr1 Hq) as (k & n2 & E2 & Hr2 & Em2 & _).
    assert (same_dom (n_mem n1) (n_mem n2)) as Hd2 by (rewrite Em2; reflexivity).
    rewrite bind_assoc, (bind_ok _ _ _ _ _ (pb_ok _ s1 _ _ E2)), (bind_ok (mret tt) _ _ tt (set_anet n2 s1)) by done.
    assert (at_idx (set_anet n2 s1) i e) as Ha2 by exact Ha. rewrite (set_entry_step _ i e _ _ Ha2).
    eexists ERR_OK, _. split; [reflexivity|]. split; [|split; [done|by etransitivity]].
    split; [split; [exact Hr2|]|done]. eapply link_ready_dom; [exact Hl1|done|exact Hd2].
Qed.

(** A new entry is marked pending. *)
Lemma mark_pending_ok s R nif n a i e :
  arp_ok s R -> nif <> NULL -> nifs s !! nif = Some n -> nif_ok n ->
  at_idx s i e -> ipaddr e = a -> netif e = nif ->
  (nonempty e \/ q e = NULL /\ state e = ETHARP_STATE_EMPTY /\ ctime e = 0 /\ no_entry (arp_table s) a nif) ->
  exists s2 e2, (if bool_decide (state e = ETHARP_STATE_EMPTY)
     then set_entry i (with_state ETHARP_STATE_PENDING);; set_entry i (with_netif nif) else mret tt) s = Ok (tt, s2) /\
    arp_ok s2 R /\ same_env s s2 /\ n_pbufs (anet s2) = n_pbufs (anet s) /\ at_idx s2 i e2 /\
    (bool_decide (state e2 = ETHARP_STATE_PENDING) || is_stable (state e2)) = true.
Proof.
  intros Hok Hz En Hn Ha Hia Hin Hcase. destruct (bool_decide_reflect (state e = ETHARP_STATE_EMPTY)) as [Ee|Ee].
  - destruct Hcase as [[]|(Hq & _ & Hct & Hno)]; [done|]. destruct Hok as (Hm & Ht & Hc). pose proof Ha as [H0 E0].
    rewrite (set_entry_step s i e _ _ Ha). erewrite set_entry_run by (by eapply at_idx_set). rewrite set_tbl_twice.
    set (e2 := with_netif _ _). exists (set_tbl (<[Z.to_nat i := e2]> (arp_table s)) s), e2.
    split_and!; try done; [|by eapply at_idx_set]. split; [by eapply arp_mem_tbl|]. split; [|done].
    eapply table_ok_set; [done|done| |].
    + destruct (Forall_lookup_1 _ _ _ _ (proj1 (proj2 Ht)) E0) as (X1 & _). unfold entry_ok, e2. simpl. rewrite Hct.
      split_and!; try done. intros _. split; [done|]. eauto.
    + intros _. right. simpl. by rewrite Hia.
  - exists s, e. split_and!; try done. by destruct (state e).
Qed.

(** The ARP request of a query. *)
Lemma ask_ok s R nif n a i e (b is_new : bool) :
  arp_ok s R -> nifs s !! nif = Some n -> nif_ok n -> at_idx s i e ->
  exists r s3 e3, (if b then
          result ← etharp_request pools linkoutput nif a;
          (if result =? ERR_OK then
             e ← entry i;
             if bool_decide (state e = ETHARP_STATE_PENDING) && negb is_new
             then set_entry i (with_ctime 0) else mret tt
           else mret tt);;
          mret result
        else mret ERR_MEM) s = Ok (r, s3) /\
    arp_ok s3 R /\ same_env s s3 /\ n_pbufs (anet s3) = n_pbufs (anet s) /\ at_idx s3 i e3 /\ state e3 = state e.
Proof.
  intros Hok En Hn Ha. destruct b; [|by exists ERR_MEM, s, e].
  destruct (request_ok s R nif n a (proj1 Hok) En Hn) as (r & s1 & E1 & Hm1 & Et1 & Ec1 & He1 & Hp1).
  assert (arp_ok s1 R) as Hok1 by (by eapply arp_ok_frame).
  assert (at_idx s1 i e) as Ha1 by (unfold at_idx; by rewrite Et1).
  rewrite (bind_ok _ _ _ _ _ E1). destruct (r =? ERR_OK); [|by exists r, s1, e].
  rewrite bind_assoc, (bind_ok _ _ _ _ _ (entry_run s1 i e Ha1)). destruct (bool_decide_reflect (state e = ETHARP_STATE_PENDING)) as [Ep|Ep];
    cbn [andb]; [|by exists r, s1, e]. destruct is_new; cbn [negb]; [by exists r, s1, e|].
  rewrite (set_entry_step s1 i e _ _ Ha1). exists r. eexists _, (with_ctime 0 e). split; [reflexivity|].
  destruct Hok1 as (_ & Ht1 & Hc1). pose proof Ha1 as [H0 E0]. split_and!; try done; [|by eapply at_idx_set].
  split; [by eapply arp_mem_tbl|]. split; [|done]. assert (nonempty e) as Hne by (unfold nonempty; congruence).
  eapply table_ok_set; [done|done| |by left].
  destruct (Forall_lookup_1 _ _ _ _ (proj1 (proj2 Ht1)) E0) as (X1 & _ & _ & X4 & X5).
  unfold entry_ok. simpl. split_and!; done.
Qed.

Lemma output_arp_ok s R nif n pkt src dst ty :
  arp_ok s R -> pkt ∈ R -> nifs s !! nif = Some n -> nif_ok n -> length src = 6%nat -> length dst = 6%nat ->
  exists r s', output linkoutput nif pkt src dst ty s = Ok (r, s') /\ arp_ok s' R /\ same_env s s'.
Proof.
  intros Hok Hp En Hn Hs Hd.
  destruct (output_ok s _ nif n pkt src dst ty (proj1 Hok)) as (r & s' & E & Hk & Et & Ec & He & _); try done; [multiset_solver|].
  exists r, s'. split_and!; [done| |done]. eapply arp_ok_frame; try done. unfold arp_mem. by rewrite Et.
Qed.

Lemma hint_ok s R i e : arp_ok s R -> at_idx s i e ->
  exists s', ETHARP_SET_ADDRHINT i s = Ok (tt, s') /\ arp_ok s' R /\ same_env s s' /\ arp_table s' = arp_table s.
Proof.
  intros (Hm & Ht & Hc) [H0 E]. eexists. split; [reflexivity|]. split_and!; try done. split; [done|]. split; [done|].
  simpl. apply lookup_lt_Some in E. rewrite (proj1 Ht) in E. unfold ARP_TABLE_SIZE. lia.
Qed.

Lemma query_unicast n a :
  (isbroadcast a n || ip4_addr_ismulticast a || ip4_addr_isany a) = negb (unicast n a).
Proof. rewrite <- unicast_cases. by destruct (isbroadcast a n), (ip4_addr_ismulticast a), (ip4_addr_isany a). Qed.

Lemma query_ok s R nif n a pkt :
  arp_ok s R -> nif <> NULL -> nifs s !! nif = Some n -> nif_ok n ->
  pkt = NULL \/ pkt ∈ R /\ sendable (n_pbufs (anet s)) pkt ->
  exists r s', etharp_query pools linkoutput nif a pkt s = Ok (r, s') /\ arp_ok s' R /\ same_env s s'.
Proof.
  intros Hok Hz En Hn Hp. unfold etharp_query. rewrite (bind_ok _ _ _ _ _ (the_netif_run s nif n En)), query_unicast.
  destruct (unicast n a) eqn:Hu; cbn [negb]; [|by exists ERR_ARG, s].
  destruct (find_entry_usable s R a ETHARP_FLAG_TRY_HARD nif Hok Hz ltac:(by left)) as (i & s1 & E1 & Hok1 & He1 & Hk1 & Hcase).
  rewrite (bind_ok _ _ _ _ _ E1). destruct Hcase as [(e & Ha & Hia & Hin & Hst)|(? & _)]; [|done].
  rewrite (proj2 (Z.ltb_ge i 0)) by apply Ha. rewrite (bind_ok _ _ _ _ _ (entry_run s1 i e Ha)).
  assert (nifs s1 !! nif = Some n) as En1 by (by rewrite (proj1 He1)).
  destruct (mark_pending_ok s1 R nif n a i e) as (s2 & e2 & E2 & Hok2 & He2 & Hps2 & Ha2 & Hb); try done.
  rewrite (bind_ok _ _ _ _ _ E2), (bind_ok _ _ _ _ _ (entry_run s2 i e2 Ha2)).
  rewrite (bind_ok (assert _) _ _ tt s2) by (unfold assert; by rewrite Hb).
  destruct (ask_ok s2 R nif n a i e2 (bool_decide (state e = ETHARP_STATE_EMPTY) || (pkt =? NULL))
    (bool_decide (state e = ETHARP_STATE_EMPTY))) as (r & s3 & e3 & E3 & Hok3 & He3 & Hps3 & Ha3 & Hs3); try done.
  { by rewrite (proj1 He2). }
  rewrite (bind_ok _ _ _ _ _ E3). assert (same_env s s3) as He by (etransitivity; [exact He1|]; by etransitivity).
  destruct (Z.eqb_spec pkt NULL) as [|Hpz]; [by exists r, s3|]. destruct Hp as [|[Hp Hsend]]; [done|].
  rewrite (bind_ok _ _ _ _ _ (entry_run s3 i e3 Ha3)). assert (nifs s3 !! nif = Some n) as En3 by (by rewrite (proj1 He)).
  destruct (is_stable (state e3)) eqn:Es.
  - destruct (hint_ok s3 R i e3 Hok3 Ha3) as (s4 & E4 & Hok4 & He4 & Et4). rewrite (bind_ok _ _ _ _ _ E4).
    destruct (output_arp_ok s4 R nif n pkt (nif_hwaddr n) (ethaddr e3) ETHTYPE_IP Hok4 Hp) as (r5 & s5 & E5 & Hok5 & He5);
      [by rewrite (proj1 He4)|done|apply Hn| |].
    + apply (Forall_lookup_1 _ _ _ _ (proj1 (proj2 (proj1 (proj2 Hok3)))) (proj2 Ha3)).
    + exists r5, s5. split_and!; [done|done|]. etransitivity; [exact He|]. by etransitivity.
  - rewrite Hs3 in Es |- *. rewrite Es, orb_false_r in Hb. apply bool_decide_eq_true_1 in Hb. rewrite decide_True by done.
    destruct (enqueue_ok s3 R i e3 pkt Hok3 Ha3) as (r4 & s4 & E4 & Hok4 & He4); [by rewrite Hs3|done| |].
    + rewrite Hps3, Hps2. eapply sendable_same; [exact Hsend|]. eapply keeps_packet; [done|apply Hok1|right]. multiset_solver.
    + exists r4, s4. split_and!; [done|done|]. by etransitivity.
Qed.

(** Refreshing an entry that is about to expire. *)
Lemma refresh_ok s R nif n i e :
  arp_ok s R -> nifs s !! nif = Some n -> nif_ok n -> at_idx s i e ->
  exists s' e', (if decide (state e = ETHARP_STATE_STABLE) then
     if ARP_AGE_REREQUEST_USED_BROADCAST <=? ctime e then
       r ← etharp_request pools linkoutput nif (ipaddr e);
       if r =? ERR_OK then set_entry i (with_state ETHARP_STATE_STABLE_REREQUESTING_1) else mret tt
     else if ARP_AGE_REREQUEST_USED_UNICAST <=? ctime e then
       r ← etharp_request_dst pools linkoutput nif (ipaddr e) (ethaddr e);
       if r =? ERR_OK then set_entry i (with_state ETHARP_STATE_STABLE_REREQUESTING_1) else mret tt
     else mret tt
   else mret tt) s = Ok (tt, s') /\ arp_ok s' R /\ same_env s s' /\ at_idx s' i e' /\ ethaddr e' = ethaddr e.
Proof.
  intros Hok En Hn Ha. destruct (decide (state e = ETHARP_STATE_STABLE)) as [Es|]; [|by exists s, e].
  pose proof (Forall_lookup_1 _ _ _ _ (proj1 (proj2 (proj1 (proj2 Hok)))) (proj2 Ha)) as He.
  assert (forall m : M (arp H) Z, (exists r s1, m s = Ok (r, s1) /\ arp_mem s1 R /\ arp_table s1 = arp_table s /\
      etharp_cached_entry s1 = etharp_cached_entry s /\ same_env s s1 /\ n_pbufs (anet s1) = n_pbufs (anet s)) ->
    exists s' e', (r ← m; if r =? ERR_OK then set_entry i (with_state ETHARP_STATE_STABLE_REREQUESTING_1) else mret tt) s = Ok (tt, s') /\
      arp_ok s' R /\ same_env s s' /\ at_idx s' i e' /\ ethaddr e' = ethaddr e) as Hreq.
  { intros m (r & s1 & E1 & Hm1 & Et1 & Ec1 & He1 & _). rewrite (bind_ok _ _ _ _ _ E1).
    assert (arp_ok s1 R) as Hok1 by (by eapply arp_ok_frame). assert (at_idx s1 i e) as Ha1 by (unfold at_idx; by rewrite Et1).
    destruct (r =? ERR_OK); [|by exists s1, e]. rewrite (set_entry_run s1 i e _ Ha1). eexists _, _. split; [reflexivity|].
    split_and!; [|done|by eapply at_idx_set|done]. destruct Hok1 as (_ & Ht1 & Hc1). split; [by eapply arp_mem_tbl|]. split; [|done].
    assert (nonempty e) as Hne by (unfold nonempty; congruence). eapply table_ok_set; [done|apply Ha1| |by left].
    destruct He as (X1 & [X2 X2'] & X3 & X4 & X5). 
    change (nifs (set_tbl _ s1)) with (nifs s1). rewrite (proj1 He1). unfold entry_ok. simpl.
    split_and!; try done; intros _; [by apply X2'|apply X4; congruence|by apply X5..]. }
  destruct (_ <=? _); [apply Hreq; eapply request_ok; try done; apply Hok|].
  destruct (_ <=? _); [apply Hreq; eapply request_dst_ok; try done; [apply Hok|apply He]|by exists s, e].
Qed.

Lemma to_index_ok s R nif n pkt i e :
  arp_ok s R -> nifs s !! nif = Some n -> nif_ok n -> pkt ∈ R -> at_idx s i e -> is_stable (state e) = true ->
  exists r s', etharp_output_to_arp_index pools linkoutput nif pkt i s = Ok (r, s') /\ arp_ok s' R /\ same_env s s'.
Proof.
  intros Hok En Hn Hp Ha Hst. unfold etharp_output_to_arp_index. rewrite (bind_ok _ _ _ _ _ (entry_run s i e Ha)).
  rewrite (bind_ok (assert _) _ _ tt s) by (unfold assert; by rewrite Hst).
  destruct (refresh_ok s R nif n i e Hok En Hn Ha) as (s1 & e1 & E1 & Hok1 & He1 & Ha1 & Hea). rewrite (bind_ok _ _ _ _ _ E1).
  assert (nifs s1 !! nif = Some n) as En1 by (by rewrite (proj1 He1)).
  rewrite (bind_ok _ _ _ _ _ (the_netif_run s1 nif n En1)), (bind_ok _ _ _ _ _ (entry_run s1 i e1 Ha1)).
  destruct (output_arp_ok s1 R nif n pkt (nif_hwaddr n) (ethaddr e1) ETHTYPE_IP Hok1 Hp En1 Hn) as (r & s2 & E2 & Hok2 & He2);
    [apply Hn|apply (Forall_lookup_1 _ _ _ _ (proj1 (proj2 (proj1 (proj2 Hok1)))) (proj2 Ha1))|].
  exists r, s2. split_and!; [done|done|]. by etransitivity.
Qed.

Lemma stable_loop_spec nif a l : forall k i, stable_loop nif a (Z.of_nat k) l = Some i ->
  exists j e, i = Z.of_nat (k + j) /\ l !! j = Some e /\ is_stable (state e) = true /\ netif e = nif /\ ipaddr e = a.
Proof.
  induction l as [|e l IH]; intros k i; cbn [stable_loop]; [done|].
  destruct (is_stable (state e) && (netif e =? nif) && ip4_addr_cmp a (ipaddr e)) eqn:Em.
  - intros [= <-]. apply andb_true_iff in Em as [[Hs Hn%Z.eqb_eq]%andb_true_iff Ha%Z.eqb_eq].
    exists 0%nat, e. split_and!; try done. lia.
  - replace (Z.of_nat k + 1) with (Z.of_nat (S k)) by lia. intros (j & e' & -> & Hl & Hx)%IH.
    exists (S j), e'. split; [lia|]. done.
Qed.

Lemma etharp_output_safe s R nif n pkt addr :
  arp_ok s R -> nif <> NULL -> nifs s !! nif = Some n -> nif_ok n ->
  pkt <> NULL -> pkt ∈ R -> sendable (n_pbufs (anet s)) pkt ->
  exists r s', etharp_output pools linkoutput nif pkt addr s = Ok (r, s') /\ arp_ok s' R /\ same_env s s'.
Proof.
  intros Hok Hz En Hn Hpz Hp Hs. unfold etharp_output.
  rewrite (bind_ok (assert _) _ _ tt s) by (unfold assert; by rewrite (proj2 (Z.eqb_neq _ _) Hz)).
  rewrite (bind_ok (assert _) _ _ tt s) by (unfold assert; by rewrite (proj2 (Z.eqb_neq _ _) Hpz)).
  rewrite (bind_ok _ _ _ _ _ (the_netif_run s nif n En)).
  destruct (isbroadcast addr n); [apply (output_arp_ok s R nif n); try done; apply Hn|].
  destruct (ip4_addr_ismulticast addr); [apply (output_arp_ok s R nif n); try done; apply Hn|].
  destruct (_ && ip4_addr_isany (gw n)); [by exists ERR_RTE, s|]. match goal with |- context [if ?b then gw n else addr] => set (dst := if b then gw n else addr) end.
  rewrite (bind_ok (gets _) _ _ (etharp_cached_entry s) s) by done. pose proof Hok as (_ & (Hl & _) & Hc).
  destruct (lookup_lt_is_Some_2 (arp_table s) (Z.to_nat (etharp_cached_entry s))) as [e E];
    [unfold ARP_TABLE_SIZE in Hc; lia|].
  assert (at_idx s (etharp_cached_entry s) e) as Ha by (split; [lia|done]). rewrite (bind_ok _ _ _ _ _ (entry_run s _ e Ha)).
  destruct (is_stable (state e) && (netif e =? nif) && ip4_addr_cmp dst (ipaddr e)) eqn:Em.
  { apply andb_true_iff in Em as [[Hst _]%andb_true_iff _]. by eapply to_index_ok. }
  rewrite (bind_ok (gets _) _ _ (arp_table s) s) by done.
  destruct (stable_loop nif dst 0 (arp_table s)) as [i|] eqn:El; [|apply (query_ok s R nif n); auto].
  apply (stable_loop_spec nif dst (arp_table s) 0) in El as (j & ei & -> & Ej & Hst & _).
  assert (at_idx s (Z.of_nat (0 + j)) ei) as Haj by (split; [lia|by rewrite Nat2Z.id]).
  destruct (hint_ok s R _ ei Hok Haj) as (s1 & E1 & Hok1 & He1 & Et1). rewrite (bind_ok _ _ _ _ _ E1).
  destruct (to_index_ok s1 R nif n pkt (Z.of_nat (0 + j)) ei Hok1) as (r & s2 & E2 & Hok2 & He2); try done.
  - by rewrite (proj1 He1).
  - unfold at_idx. by rewrite Et1.
  - exists r, s2. split_and!; [done|done|]. by etransitivity.
Qed.

(** ** The module as a state machine *)

Inductive arp_op :=
| op_tmr
| op_input (p nif : Z)
| op_output (nif pkt addr : Z)
| op_query (nif addr pkt : Z)
| op_cleanup (nif : Z).

Definition run_op (op : arp_op) : M (arp H) unit :=
  match op with
  | op_tmr => etharp_tmr pools linkoutput
  | op_input p nif => etharp_input pools linkoutput p nif
  | op_output nif pkt addr => etharp_output pools linkoutput nif pkt addr;; mret tt
  | op_query nif addr pkt => etharp_query pools linkoutput nif addr pkt;; mret tt
  | op_cleanup nif => etharp_cleanup_netif nif
  end.

Definition nif_live s (nif : Z) : Prop := nif <> NULL /\ exists n, nifs s !! nif = Some n /\ nif_ok n.

(** What the caller must provide, and the references it holds afterwards: [R'] instead
    of [R]. [etharp_input] takes over its packet, whose header must be readable. *)
Definition arp_pre s (R R' : gmultiset Z) (op : arp_op) : Prop :=
  match op with
  | op_tmr | op_cleanup _ => R' = R
  | op_input p nif => R = ptr p ⊎ R' /\ p <> NULL /\ nif_live s nif /\
      exists b, n_pbufs (anet s) !! p = Some b /\ valid_range (n_mem (anet s)) (payload b) SIZEOF_ETHARP_HDR
  | op_output nif pkt _ => R' = R /\ nif_live s nif /\ pkt <> NULL /\ pkt ∈ R /\ sendable (n_pbufs (anet s)) pkt
  | op_query nif _ pkt => R' = R /\ nif_live s nif /\ (pkt = NULL \/ pkt ∈ R /\ sendable (n_pbufs (anet s)) pkt)
  end.

(** The states the module is in: the zeroed table, whatever the operations make of it,
    and whatever the rest of the program does to packets and memory in between. *)
Inductive arp_reach : arp H -> gmultiset Z -> Prop :=
| reach_init s R : arp_mem s R -> arp_table s = arp_table_init -> etharp_cached_entry s = 0 -> arp_reach s R
| reach_op s R op R' s' : arp_reach s R -> arp_pre s R R' op -> run_op op s = Ok (tt, s') -> arp_reach s' R'
| reach_env s R s' R' : arp_reach s R -> arp_table s' = arp_table s -> etharp_cached_entry s' = etharp_cached_entry s ->
    nifs s' = nifs s -> arp_mem s' R' -> arp_reach s' R'.

Lemma run_op_ok s R R' op : arp_ok s R -> arp_pre s R R' op -> exists s', run_op op s = Ok (tt, s') /\ arp_ok s' R'.
Proof.
  intros Hok Hpre. destruct op as [|p nif|nif pkt addr|nif addr pkt|nif]; simpl in Hpre |- *.
  - subst R'. destruct (for_entries_ok R _ aged (fun s i e => tmr_entry_ok s R i e) 10 0 s Hok eq_refl) as (s' & E & Hok' & _). eauto.
  - destruct Hpre as (-> & Hp & (Hz & n & En & Hn) & b & Eb & Hv).
    destruct (input_ok s R' nif n p b) as (s' & E & Hok' & _); eauto.
  - destruct Hpre as (-> & (Hz & n & En & Hn) & Hpz & Hp & Hs).
    destruct (etharp_output_safe s R nif n pkt addr) as (r & s' & E & Hok' & _); try done.
    rewrite (bind_ok _ _ _ _ _ E). eauto.
  - destruct Hpre as (-> & (Hz & n & En & Hn) & Hp). destruct (query_ok s R nif n addr pkt) as (r & s' & E & Hok' & _); try done.
    rewrite (bind_ok _ _ _ _ _ E). eauto.
  - subst R'. destruct (for_entries_ok R _ (cleaned nif) (fun s i e => cleanup_entry_ok s R nif i e) 10 0 s Hok eq_refl) as (s' & E & Hok' & _).
    eauto.
Qed.

Lemma init_table_ok nfs : table_ok nfs arp_table_init.
Proof.
  split_and!; [done| |].
  - apply Forall_replicate. split_and!; try done; by intros [].
  - intros i j e f [-> _]%lookup_replicate_1 _ []. done.
Qed.

Lemma arp_reach_ok s R : arp_reach s R -> arp_ok s R.
Proof.
  induction 1 as [s R Hm Et Ec|s R op R' s' _ IH Hpre E|s R s' R' _ IH Et Ec En Hm].
  - split; [done|]. rewrite Et, Ec. split; [apply init_table_ok|done].
  - destruct (run_op_ok s R R' op IH Hpre) as (s1 & E1 & Hok). congruence.
  - destruct IH as (_ & Ht & Hc). split; [done|]. by rewrite Et, Ec, En.
Qed.

(** C19: the ARP module is safe and keeps its invariant. In every reachable state no two
    entries in use hold the same address and interface, only pending entries hold a
    packet, pending entries are younger than 5 ticks and others younger than 300, and
    every operation called with its preconditions returns, without a failed assertion
    or an access outside live memory, and keeps the reference counts of all packets
    exact: a queued packet is neither leaked nor freed too early. *)
Theorem arp_reach_safe s (R R' : gmultiset Z) (op : arp_op) (Hr : arp_reach s R) (Hpre : arp_pre s R R' op) :
  table_ok (nifs s) (arp_table s) /\ exists s', run_op op s = Ok (tt, s') /\ arp_reach s' R' /\
    refs pools (anet s') (queued (arp_table s') ⊎ R').
Proof.
  pose proof (arp_reach_ok s R Hr) as Hok. split; [apply Hok|].
  destruct (run_op_ok s R R' op Hok Hpre) as (s' & E & Hok'). exists s'. split_and!; [done|by eapply reach_op|apply Hok'].
Qed.

(** Which entry the search returns. For an address in the table [etharp_find_entry]
    returns its entry and changes nothing. Otherwise, when it may create an entry, it
    always finds one: an empty one, else the oldest stable one, else the oldest pending
    one without a packet, else the oldest pending one, whose packet it frees; that entry
    alone is reset for the new address. When it may only look, it returns ERR_MEM. *)
Theorem etharp_find_entry_policy s (R : gmultiset Z) (a flags nif : Z) (Hok : arp_ok s R) (Hn : nif <> NULL)
  (Hf : flags = ETHARP_FLAG_TRY_HARD \/ flags = ETHARP_FLAG_FIND_ONLY) :
  exists i s', etharp_find_entry (Some a) flags nif s = Ok (i, s') /\ arp_mem s' R /\
    (found s s' a nif i \/ flags = ETHARP_FLAG_TRY_HARD /\ made s s' a nif i \/
     flags = ETHARP_FLAG_FIND_ONLY /\ i = ERR_MEM /\ s' = s /\ no_entry (arp_table s) a nif).
Proof.
  destruct (find_entry_ok s R a flags nif Hok Hn Hf) as (i & s' & E & Hm & _ & _ & _ & Hc). exists i, s'. done.
Qed.

(** The timer. A tick ages every entry in use by one, frees the entries that reach
    300 ticks, or 5 while pending, with the packets queued on them, moves re-requesting
    entries one state on, and leaves empty ones alone. *)
Theorem etharp_tmr_ages s (R : gmultiset Z) (Hok : arp_ok s R) :
  exists s', etharp_tmr pools linkoutput s = Ok (tt, s') /\ arp_ok s' R /\ arp_table s' = aged <$> arp_table s.
Proof.
  destruct (for_entries_ok R _ aged (fun s i e => tmr_entry_ok s R i e) 10 0 s Hok eq_refl) as (s' & E & Hok' & _ & Et).
  exists s'. split_and!; [exact E|done|]. exact Et.
Qed.

Lemma lookup_after s R nif i e :
  arp_ok s R -> nif <> NULL -> at_idx s i e -> is_stable (state e) = true -> netif e = nif ->
  etharp_find_addr nif (ipaddr e) s = Ok (Some (i, ethaddr e, ipaddr e), s).
Proof.
  intros Hok Hz Ha Hst Hn. unfold etharp_find_addr. assert (nonempty e) as Hne by (unfold nonempty; intros Hx; by rewrite Hx in Hst).
  destruct (find_entry_ok s R (ipaddr e) ETHARP_FLAG_FIND_ONLY nif Hok Hz ltac:(by right)) as (j & s' & E & _ & _ & _ & _ & Hc).
  rewrite (bind_ok _ _ _ _ _ E). destruct Hc as [(-> & e' & Ha' & Hne' & H1 & H2)|[[? _]|(_ & _ & _ & Hno)]]; [|done|].
  - pose proof Ha as [H0 E0]. pose proof Ha' as [H0' E0'].
    assert (Z.to_nat j = Z.to_nat i) as Hj by (apply (proj2 (proj2 (proj1 (proj2 Hok))) _ _ e' e); congruence).
    assert (j = i) as -> by lia. rewrite E0 in E0'. injection E0' as <-.
    rewrite (proj2 (Z.leb_le 0 i) H0), (bind_ok _ _ _ _ _ (entry_run s i e Ha)), Hst. done.
  - by destruct (Forall_lookup_1 _ _ _ _ Hno (proj2 Ha) Hne).
Qed.

(** Resolving an address. After [etharp_update_arp_entry] with a unicast address
    and the right to create an entry, looking the address up returns the hardware
    address that was given, no packet is queued on the entry any more, and a
    non-unicast address changes nothing. *)
Theorem etharp_update_lookup s (R : gmultiset Z) (nif addr : Z) (n : Ethernet.nif) (eaddr : list Z) (Hok : arp_ok s R)
  (Hz : nif <> NULL) (En : nifs s !! nif = Some n) (Hn : nif_ok n) (Hl : length eaddr = 6%nat) :
  exists r s', etharp_update_arp_entry linkoutput nif addr eaddr ETHARP_FLAG_TRY_HARD s = Ok (r, s') /\ arp_ok s' R /\
    (unicast n addr = true -> r = ERR_OK /\ exists i, at_idx s' i (stable_for addr nif eaddr) /\
       etharp_find_addr nif addr s' = Ok (Some (i, eaddr, addr), s')) /\
    (unicast n addr = false -> s' = s).
Proof.
  destruct (update_ok s R nif n addr eaddr ETHARP_FLAG_TRY_HARD Hok Hz En Hn Hl ltac:(by left))
    as (r & s' & E & Hok' & _ & [(-> & i & Ha)|([Hu|] & ->)]); [| |done].
  - exists ERR_OK, s'. split_and!; [done|done| |].
    + intros _. split; [done|]. exists i. split; [done|]. exact (lookup_after s' R nif i _ Hok' Hz Ha eq_refl eq_refl).
    + intros Hu. unfold etharp_update_arp_entry in E. rewrite (bind_ok _ _ _ _ _ (the_netif_run s nif n En)) in E.
      rewrite (bind_ok (assert _) _ _ tt s) in E by (unfold assert; by rewrite (proj1 Hn)).
      rewrite unicast_cases, Hu in E. by injection E.
  - exists r, s. split_and!; [done|done|by rewrite Hu|done].
Qed.
End Safety.

(** ** Witnesses *)

Definition ex_arp_mem : memory := mem_on (seqZ 536870912 65536 ++ seqZ 2147483648 8192).
Definition ex_nif : nif := {| ip_addr := 838969536; netmask := 16777215; gw := 16820416; nif_hwaddr := fpga_mac;
  nif_hwaddr_len := 6; nif_mtu := 1500; nif_flags := 14; num := 0 |}.
Definition ex_arp : arp Z :=
  mk_arp (mk_link (mk_eth (ex_refs ex_arp_mem) (mk_mac 0 2 false false 0 0 0 0 [] 0)) {[ 4096 := ex_nif ]}) arp_table_init 0.
Definition ex_out : Z -> Z -> M (eth Z) Z := driver_link ex_dma.

Lemma ex_arp_valid a k : 536870912 <= a -> a + k <= 536936448 \/ 2147483648 <= a /\ a + k <= 2147491840 -> valid_range ex_arp_mem a k.
Proof.
  intros H1 H2. unfold ex_arp_mem. apply mem_on_valid. intros i Hi. apply elem_of_app.
  destruct H2; [left|right]; apply elem_of_seqZ; lia.
Qed.

Lemma ex_arp_reach : arp_reach example_pools ex_out ex_arp ∅.
Proof.
  apply reach_init; [|done|done]. split.
  - apply ex_refs_ok. intros i Hi. apply (ex_arp_valid 536870912 65536); lia.
  - unfold link_ready. cbn. split_and!; try done. intros slot Hs. unfold ex_arp. cbn [e_net l_eth a_link ex_refs set_mem n_mem].
    apply ex_arp_valid; unfold tx_buf; cbn in *; lia.
Qed.

Lemma arp_reach_safe_witness :
  exists s', run_op example_pools ex_out (op_query 4096 855746752 NULL) ex_arp = Ok (tt, s') /\ arp_reach example_pools ex_out s' ∅.
Proof.
  destruct (arp_reach_safe example_pools ex_out ex_arp ∅ ∅ (op_query 4096 855746752 NULL) ex_arp_reach) as (_ & s' & E & Hr & _).
  - refine (conj eq_refl (conj (conj _ _) (or_introl eq_refl))); [done|]. exists ex_nif. done.
  - exists s'. exact (conj E Hr).
Defined.

Lemma etharp_find_entry_policy_witness :
  exists i s', etharp_find_entry (Some 855746752) ETHARP_FLAG_TRY_HARD 4096 ex_arp = Ok (i, s') /\
    (found ex_arp s' 855746752 4096 i \/ made ex_arp s' 855746752 4096 i).
Proof.
  destruct (etharp_find_entry_policy example_pools ex_out ex_arp ∅ 855746752 ETHARP_FLAG_TRY_HARD 4096
    (arp_reach_ok _ _ _ _ ex_arp_reach)) as (i & s' & E & _ & [Hf|[[_ Hm]|[? _]]]); [done|by left|..|done].
  - exists i, s'. exact (conj E (or_introl Hf)).
  - exists i, s'. exact (conj E (or_intror Hm)).
Defined.

Lemma etharp_tmr_ages_witness :
  exists s', etharp_tmr example_pools ex_out ex_arp = Ok (tt, s') /\ arp_table s' = aged <$> arp_table_init.
Proof.
  destruct (etharp_tmr_ages example_pools ex_out ex_arp ∅ (arp_reach_ok _ _ _ _ ex_arp_reach)) as (s' & E & _ & Et).
  exists s'. exact (conj E Et).
Defined.

Lemma etharp_update_lookup_witness :
  exists s' i, etharp_update_arp_entry ex_out 4096 855746752 [2; 0; 0; 0; 0; 9] ETHARP_FLAG_TRY_HARD ex_arp = Ok (ERR_OK, s') /\
    etharp_find_addr 4096 855746752 s' = Ok (Some (i, [2; 0; 0; 0; 0; 9], 855746752), s').
Proof.
  destruct (etharp_update_lookup example_pools ex_out ex_arp ∅ 4096 855746752 ex_nif [2; 0; 0; 0; 0; 9]
    (arp_reach_ok _ _ _ _ ex_arp_reach)) as (r & s' & E & _ & Hu & _); try done.
  destruct Hu as (-> & i & _ & Hl); [vm_compute; reflexivity|]. exists s', i. exact (conj E Hl).
Defined.
