(* ===== verification/Ip4.v ===== *)
(** * IPv4: state, routing and output of core/ipv4/ip4.c

    The state of the IP layer is ARP's state, the list of interfaces, the identifier
    of the next datagram, [ip_data] and the state of the transport protocols above,
    which the layers above bring. [netif->output] is a parameter, since it is called
    through a pointer in the interface; the driver installs [etharp_output]. *)

From S2P Require Import Prelude Chksum Memp Pbuf PbufSpec PbufData PbufRefs Ethernetif Ip4Addr Ethernet Etharp.
From stdpp Require Import base numbers list gmap.
Open Scope Z_scope.
Open Scope c_scope.


Definition IP_HLEN : Z := 20.
Definition IP_DEFAULT_TTL : Z := 255.
Definition IP_PROTO_ICMP : Z := 1.
Definition IP_PROTO_TCP : Z := 6.
Definition IP_OFFMASK : Z := 8191.
Definition IP_MF : Z := 8192.
Definition IP_CLASSA_NET : Z := 4278190080.
Definition IP_LOOPBACKNET : Z := 127.

(** [IPH_V] and [IPH_HL_BYTES] of the first header byte. *)
Definition IPH_V (v_hl : Z) : Z := v_hl >>c 4.
Definition IPH_HL_BYTES (v_hl : Z) : Z := u8 ((v_hl &c 15) * 4).

Definition ip4_addr_isloopback (addr : Z) : bool :=
  (addr &c PP_HTONL IP_CLASSA_NET) =? PP_HTONL (u32 (IP_LOOPBACKNET <<c 24)).

Definition NETIF_FLAG_UP : Z := 1.
Definition netif_is_up (n : nif) : bool := negb ((nif_flags n &c NETIF_FLAG_UP) =? 0).
Definition netif_is_link_up (n : nif) : bool := negb ((nif_flags n &c NETIF_FLAG_LINK_UP) =? 0).

(** [struct ip_globals]: what the protocols above are told of the current packet. *)
Record ip_globals := mk_globals {
  current_netif : Z; current_input_netif : Z; current_ip4_header : Z;
  current_ip_header_tot_len : Z; current_iphdr_src : Z; current_iphdr_dest : Z }.

Record ip (H T : Type) := mk_ip {
  i_arp : arp H; netif_list : list Z; netif_default : Z; ip_id : Z; ip_data : ip_globals; i_upper : T }.
Arguments mk_ip {H T}.
Arguments i_arp {H T}.
Arguments netif_list {H T}.
Arguments netif_default {H T}.
Arguments ip_id {H T}.
Arguments ip_data {H T}.
Arguments i_upper {H T}.

Section Ip4.
Context {H : Type} `{HH : !Heap H} {T : Type}.
Context (netif_output : Z -> Z -> Z -> M (arp H) Z).

Definition on_arp {A} (m : M (arp H) A) : M (ip H T) A := fun s =>
  match m (i_arp s) with
  | Ok (a, k) => Ok (a, mk_ip k (netif_list s) (netif_default s) (ip_id s) (ip_data s) (i_upper s))
  | AssertFail => AssertFail | Fault => Fault | NoFuel => NoFuel
  end.
(** Packets and memory; a [struct netif]. *)
Definition nb {A} (m : M (net H) A) : M (ip H T) A := on_arp (pb m).
Definition ip_netif (n : Z) : M (ip H T) nif := on_arp (the_netif n).

Definition set_ip_id (x : Z) : M (ip H T) unit := modify (fun s =>
  mk_ip (i_arp s) (netif_list s) (netif_default s) x (ip_data s) (i_upper s)).
Definition set_ip_data (d : ip_globals) : M (ip H T) unit := modify (fun s =>
  mk_ip (i_arp s) (netif_list s) (netif_default s) (ip_id s) d (i_upper s)).

(** [inet_chksum(a, n)] of memory, and [inet_chksum_pbuf(p)], which walks the chain. *)
Definition chksum_mem (a n : Z) : M (net H) Z :=
  l ← read_bytes a (Z.to_nat n); mret (inet_chksum a l).
Fixpoint read_chain (fuel : nat) (q : Z) : M (net H) chain :=
  match fuel with
  | O => nofuel
  | S fuel' =>
      if q =? NULL then mret []
      else
        b ← rd q;
        l ← read_bytes (payload b) (Z.to_nat (len b));
        rest ← read_chain fuel' (next b);
        mret ((payload b, l) :: rest)
  end.
Definition chksum_pbuf (p : Z) : M (net H) Z :=
  fuel ← chain_fuel; l ← read_chain fuel p; mret (inet_chksum_pbuf l).

(** ** Routing *)

(** Does the route to [dest] lead through the interface? *)
Definition route_match (dest : Z) (n : nif) : bool :=
  if netif_is_up n && netif_is_link_up n && negb (ip4_addr_isany (ip_addr n)) then
    if ip4_addr_netcmp dest (ip_addr n) (netmask n) then true
    else ((nif_flags n &c NETIF_FLAG_BROADCAST) =? 0) && ip4_addr_cmp dest (gw n)
  else false.

(** [NETIF_FOREACH(netif)] *)
Fixpoint route_loop (dest : Z) (l : list Z) : M (ip H T) Z :=
  match l with
  | [] => mret NULL
  | a :: l' => n ← ip_netif a; if route_match dest n then mret a else route_loop dest l'
  end.

(** The interface, or NULL. *)
Definition ip4_route (dest : Z) : M (ip H T) Z :=
  l ← gets netif_list;
  a ← route_loop dest l;
  if negb (a =? NULL) then mret a
  else
    d ← gets netif_default;
    if d =? NULL then mret NULL
    else
      n ← ip_netif d;
      if negb (netif_is_up n) || negb (netif_is_link_up n) || ip4_addr_isany (ip_addr n) || ip4_addr_isloopback dest
      then mret NULL else mret d.

(** ** Output *)

(** [src] may be NULL; [dest] is NULL for [LWIP_IP_HDRINCL]. *)
Definition ip4_output_if_src (p : Z) (src dest : option Z) (ttl tos proto nif : Z) : M (ip H T) Z :=
  b ← nb (rd p);
  assert (ref b =? 1);;
  match dest with
  | Some d =>
      r ← nb (pbuf_add_header p IP_HLEN);
      if negb (r =? 0) then mret ERR_BUF
      else
        b ← nb (rd p);
        let iphdr := payload b in
        assert (IP_HLEN <=? len b);;
        nb (write_byte (iphdr + 8) (u8 ttl));;
        nb (write_byte (iphdr + 9) (u8 proto));;
        let chk_sum := PP_HTONS (proto |c (ttl <<c 8)) in
        nb (write_bytes (iphdr + 16) (bytes32 d));;
        let chk_sum := u32 (chk_sum + (d &c 65535)) in
        let chk_sum := u32 (chk_sum + (d >>c 16)) in
        let v_hl := u8 ((4 <<c 4) |c (IP_HLEN / 4)) in
        nb (write_byte iphdr v_hl);;
        nb (write_byte (iphdr + 1) tos);;
        let chk_sum := u32 (chk_sum + PP_HTONS (tos |c (v_hl <<c 8))) in
        let len_be := lwip_htons (tot_len b) in
        nb (write_bytes (iphdr + 2) (bytes16 len_be));;
        let chk_sum := u32 (chk_sum + len_be) in
        nb (write_bytes (iphdr + 6) (bytes16 0));;
        id ← gets ip_id;
        let id_be := lwip_htons id in
        nb (write_bytes (iphdr + 4) (bytes16 id_be));;
        let chk_sum := u32 (chk_sum + id_be) in
        set_ip_id (u16 (id + 1));;
        let src_addr := match src with None => IPADDR_ANY | Some a => a end in
        nb (write_bytes (iphdr + 12) (bytes32 src_addr));;
        let chk_sum := u32 (chk_sum + (src_addr &c 65535)) in
        let chk_sum := u32 (chk_sum + (src_addr >>c 16)) in
        let chk_sum := u32 ((chk_sum >>c 16) + (chk_sum &c 65535)) in
        let chk_sum := u32 ((chk_sum >>c 16) + chk_sum) in
        let chk_sum := not32 chk_sum in
        nb (write_bytes (iphdr + 10) (bytes16 (u16 chk_sum)));;
        on_arp (netif_output nif p d)
  | None =>
      b ← nb (rd p);
      if len b <? IP_HLEN then mret ERR_BUF
      else
        d ← nb (read_u32 (payload b + 16));
        on_arp (netif_output nif p d)
  end.

Definition src_isany (src : option Z) : bool := match src with None => true | Some a => ip4_addr_isany a end.

Definition ip4_output_if (p : Z) (src dest : option Z) (ttl tos proto nif : Z) : M (ip H T) Z :=
  match dest with
  | Some _ =>
      if src_isany src
      then n ← ip_netif nif; ip4_output_if_src p (Some (ip_addr n)) dest ttl tos proto nif
      else ip4_output_if_src p src dest ttl tos proto nif
  | None => ip4_output_if_src p src dest ttl tos proto nif
  end.

(** Routing reads [dest], so it is not NULL here. *)
Definition ip4_output (p : Z) (src : option Z) (dest ttl tos proto : Z) : M (ip H T) Z :=
  b ← nb (rd p);
  assert (ref b =? 1);;
  nif ← ip4_route dest;
  if nif =? NULL then mret ERR_RTE else ip4_output_if p src (Some dest) ttl tos proto nif.
End Ip4.
