(* ===== verification/Ip4Spec.v ===== *)
(** * Properties of IPv4 output and routing

    The header that [ip4_output_if_src] builds is that of RFC 791 and its checksum,
    computed while the fields are written, verifies; output is safe and keeps the
    reference counts exact; [ip4_route] returns the first interface that fits. *)

From S2P Require Import Prelude Chksum Memp Pbuf PbufSpec PbufData PbufRefs Ethernetif Ip4Addr Ethernet Etharp EtharpSpec Ip4.
From stdpp Require Import base numbers list gmap gmultiset functions sorting.
Open Scope Z_scope.
Open Scope c_scope.

(** ** Writes seen as changes of a byte string *)

Definition patch (o : nat) (x d : list Z) : list Z := take o d ++ x ++ drop (o + length x) d.

Lemma load_patch m a o x m1 n d :
  store m (a + Z.of_nat o) x = Some m1 -> load m a n = Some d -> (o + length x <= n)%nat ->
  load m1 a n = Some (patch o x d).
Proof.
  intros Em Ed Hx. pose proof (load_length _ _ _ _ Ed) as El. unfold patch.
  replace n with (length (take o d ++ x ++ drop (o + length x) d)) by (rewrite !length_app, length_take, length_drop; lia).
  apply load_eq_list. intros i Hi. rewrite !length_app, length_take, length_drop in Hi.
  destruct (decide (i < o)%nat); [|destruct (decide (i < o + length x)%nat)].
  - rewrite lookup_app_l, lookup_take_lt, (store_outside _ _ _ _ _ Em) by (rewrite ?length_take; lia).
    by rewrite (load_lookup _ _ _ _ _ Ed) by lia.
  - rewrite lookup_app_r, lookup_app_l by (rewrite length_take; lia). rewrite length_take, Nat.min_l by lia.
    rewrite <- (store_inside _ _ _ _ (i - o) Em) by lia. f_equal. lia.
  - rewrite !lookup_app_r, lookup_drop, (store_outside _ _ _ _ _ Em) by (rewrite ?length_take; lia).
    rewrite (load_lookup _ _ _ _ _ Ed) by lia. f_equal. rewrite length_take. lia.
Qed.

(** The writes [ws] into the range of [n] bytes at [base]. *)
Definition within (base n : Z) (ws : list (Z * list Z)) : Prop :=
  Forall (fun w : Z * list Z => base <= w.1 /\ w.1 + Z.of_nat (length w.2) <= base + n) ws.
Definition patches (base : Z) (ws : list (Z * list Z)) (d : list Z) : list Z :=
  foldl (fun d w => patch (Z.to_nat (w.1 - base)) w.2 d) d ws.

Lemma load_stores base n ws : forall m m' d, within base (Z.of_nat n) ws -> stores m ws = Some m' ->
  load m base n = Some d -> load m' base n = Some (patches base ws d).
Proof.
  induction ws as [|[a x] ws IH]; intros m m' d Hw Hs Hd; cbn [stores fst snd] in *; [by injection Hs as <-|].
  apply Forall_cons_1 in Hw as [[H1 H2] Hw]. cbn [fst snd] in *. destruct (store m a x) as [m1|] eqn:E1; [|done].
  change (patches base ((a, x) :: ws) d) with (patches base ws (patch (Z.to_nat (a - base)) x d)).
  apply (IH m1); [done|done|]. apply (load_patch m base _ x m1 n); [|done|lia]. rewrite <- E1. f_equal. lia.
Qed.

Lemma stores_outside base n ws : forall m m' i, within base n ws -> stores m ws = Some m' ->
  ~ (base <= i < base + n) -> m' !! i = m !! i.
Proof.
  induction ws as [|[a x] ws IH]; intros m m' i Hw Hs Hi; cbn [stores fst snd] in *; [by injection Hs as <-|].
  apply Forall_cons_1 in Hw as [[H1 H2] Hw]. cbn [fst snd] in *. destruct (store m a x) as [m1|] eqn:E1; [|done].
  rewrite (IH m1 m' i Hw Hs Hi). eapply store_outside; [exact E1|]. lia.
Qed.

Lemma stores_dom ws : forall m m', stores m ws = Some m' -> same_dom m m'.
Proof.
  induction ws as [|[a x] ws IH]; intros m m' Hs; cbn [stores fst snd] in *; [by injection Hs as <-|].
  destruct (store m a x) as [m1|] eqn:E1; [|done]. etransitivity; [by eapply same_dom_store|by apply IH].
Qed.

Lemma stores_is_Some base n ws : forall m, valid_range m base n -> within base n ws -> exists m', stores m ws = Some m'.
Proof.
  induction ws as [|[a x] ws IH]; intros m Hv Hw; cbn [stores fst snd]; [eauto|].
  apply Forall_cons_1 in Hw as [[H1 H2] Hw]. cbn [fst snd] in *.
  destruct (store_is_Some m a x) as [m1 E1]; [intros i Hi; apply Hv; lia|]. rewrite E1. apply IH; [|done].
  by eapply valid_range_store.
Qed.

(** ** The header *)

(** The header of RFC 791 without options, and its checksum as the code computes it. *)
Definition ip_header (tos tot id ttl proto chksum src dst : Z) : list Z :=
  [69; tos; tot / 256; tot mod 256; id / 256; id mod 256; 0; 0; ttl; proto] ++ bytes16 chksum ++ bytes32 src ++ bytes32 dst.

Definition inline_chksum (tos tot id ttl proto src dst : Z) : Z :=
  let c := PP_HTONS (proto |c (ttl <<c 8)) in
  let c := u32 (c + (dst &c 65535)) in
  let c := u32 (c + (dst >>c 16)) in
  let c := u32 (c + PP_HTONS (tos |c (69 <<c 8))) in
  let c := u32 (c + lwip_htons tot) in
  let c := u32 (c + lwip_htons id) in
  let c := u32 (c + (src &c 65535)) in
  let c := u32 (c + (src >>c 16)) in
  let c := u32 ((c >>c 16) + (c &c 65535)) in
  let c := u32 ((c >>c 16) + c) in
  u16 (not32 c).

Lemma htons_pair a b : is_u8 a -> is_u8 b -> PP_HTONS (a |c (b <<c 8)) = b + 256 * a.
Proof.
  intros Ha Hb. unfold is_u8 in *. rewrite Z.lor_comm. bits_to_arith. rewrite (lor_add _ _ 8) by (change (2 ^ 8) with 256; lia).
  fold (lwip_htons (b * 256 + a)). rewrite htons_swap, swap_spec by (unfold is_u16; lia). lia.
Qed.

(** The one's complement folding of a sum of at most ten words. *)
Lemma fold_inline c : 0 < c < 655350 ->
  exists k, u16 (not32 ((c / 65536 + c mod 65536) / 65536 + (c / 65536 + c mod 65536))) + c = 65535 * k /\
    0 <= u16 (not32 ((c / 65536 + c mod 65536) / 65536 + (c / 65536 + c mod 65536))) < 65536.
Proof.
  intros Hc. set (c1 := c / 65536 + c mod 65536). assert (c - c1 = 65535 * (c / 65536)) as E1 by (subst c1; lia).
  assert (0 < c1 <= 65545) as H1 by (subst c1; lia).
  rewrite not32_arith. unfold u32, u16. rewrite (Z.mod_small _ 4294967296) by lia.
  destruct (Z.lt_ge_cases c1 65536) as [Hlt|Hge].
  - rewrite (Z.div_small c1) by lia. replace (4294967295 - (0 + c1)) with (65535 - c1 + 65535 * 65536) by lia.
    rewrite Z_mod_plus_full, Z.mod_small by lia. exists (1 + c / 65536). lia.
  - assert (c1 / 65536 = 1) as -> by (symmetry; apply Z.div_unique with (c1 - 65536); lia).
    replace (4294967295 - (1 + c1)) with (131070 - c1 + 65534 * 65536) by lia.
    rewrite Z_mod_plus_full, Z.mod_small by lia. exists (2 + c / 65536). lia.
Qed.

Lemma inline_chksum_ok a tos tot id ttl proto src dst :
  is_u8 tos -> is_u16 tot -> is_u16 id -> is_u8 ttl -> is_u8 proto -> is_u32 src -> is_u32 dst ->
  bytes_ok (ip_header tos tot id ttl proto (inline_chksum tos tot id ttl proto src dst) src dst) /\
  inet_chksum a (ip_header tos tot id ttl proto (inline_chksum tos tot id ttl proto src dst) src dst) = 0.
Proof.
  intros Htos Htot Hid Httl Hpro Hs Hd.
  set (c := inline_chksum tos tot id ttl proto src dst).
  assert (exists k, c + (69 + 256 * tos + (tot / 256 + 256 * (tot mod 256)) + (id / 256 + 256 * (id mod 256)) +
    (ttl + 256 * proto) + (src mod 65536 + src / 65536) + (dst mod 65536 + dst / 65536)) = 65535 * k /\ 0 <= c < 65536) as (k & Ek & Hc).
  { subst c. unfold inline_chksum. rewrite !htons_pair by (done || (unfold is_u8; lia)).
    rewrite !htons_swap, !swap_spec by done. bits_to_arith. unfold is_u8, is_u16, is_u32 in *.
    repeat match goal with |- context [u32 (?x + ?y)] => rewrite (u32_small (x + y)) by (unfold is_u32; lia) end.
    match goal with |- context [(?x / 65536 + ?x mod 65536) / 65536] => destruct (fold_inline x) as (k & Ek & Hk); [lia|] end.
    exists k. split; [|exact Hk]. rewrite <- Ek. lia. }
  assert (bytes_ok (ip_header tos tot id ttl proto c src dst)) as Hok.
  { unfold bytes_ok, ip_header, bytes16, bytes32. unfold_widths. cbn [app]. repeat constructor; unfold is_u8; lia. }
  split; [done|]. rewrite inet_chksum_ocsum; [|done|simpl; lia]. unfold ocsum.
  assert (sum16 (ip_header tos tot id ttl proto c src dst) = 65535 * k) as ->.
  { rewrite <- Ek. unfold ip_header, bytes16, bytes32. unfold_widths. cbn [app sum16]. lia. }
  unfold ocnorm. unfold_widths. destruct (Z.eqb_spec (65535 * k) 0); lia.
Qed.

(** ** Interfaces to the layers around *)

(** The packets the protocols above hold references to. *)
Class Upper (T : Type) := held : T -> gmultiset Z.

Section Laws.
Context (pools : memp_t -> memp_desc) `{HP : !PoolsOk pools} {H : Type} `{HH : !Heap H} `{HL : !HeapLaws pools H}.
Context (linkoutput : Z -> Z -> M (eth H) Z) `{LL : !LinkLaws linkoutput}.

(** What IP relies on of [netif->output]: a packet the caller keeps is sent, queued or
    refused, and afterwards the references are as before. *)
Class OutputLaws (netif_output : Z -> Z -> Z -> M (arp H) Z) :=
  netif_output_law : forall s R nif pkt addr, arp_ok pools linkoutput s R -> nif_live s nif -> pkt <> NULL -> pkt ∈ R ->
    sendable (n_pbufs (anet s)) pkt ->
    exists r s', netif_output nif pkt addr s = Ok (r, s') /\ arp_ok pools linkoutput s' R /\ same_env s s'.

Global Instance etharp_output_laws : OutputLaws (etharp_output pools linkoutput).
Proof. intros s R nif pkt addr Hok (Hz & n & En & Hn) Hpz Hp Hs. by apply (etharp_output_safe pools linkoutput s R nif n pkt addr). Qed.
End Laws.

Section Steps.
Context (pools : memp_t -> memp_desc) `{HP : !PoolsOk pools} {H : Type} `{HH : !Heap H} `{HL : !HeapLaws pools H}.
Context (linkoutput : Z -> Z -> M (eth H) Z) `{LL : !LinkLaws linkoutput}.
Context {T : Type} `{UT : !Upper T}.
Implicit Types s : ip H T.

Definition snet s : net H := anet (i_arp s).
Definition with_arp (k : arp H) s : ip H T := mk_ip k (netif_list s) (netif_default s) (ip_id s) (ip_data s) (i_upper s).
Definition set_snet (n : net H) s : ip H T := with_arp (set_anet n (i_arp s)) s.
Definition set_smem (m : memory) s : ip H T := set_snet (set_mem m (snet s)) s.

(** All references to packets when [R] are those outside ARP and the upper protocols. *)
Definition outer s (R : gmultiset Z) : gmultiset Z := queued (arp_table (i_arp s)) ⊎ (held (i_upper s) ⊎ R).

(** The invariant of the IP layer. *)
Definition ip_ok s (R : gmultiset Z) : Prop :=
  arp_ok pools linkoutput (i_arp s) (held (i_upper s) ⊎ R) /\ Forall (nif_live (i_arp s)) (netif_list s) /\
  (netif_default s = NULL \/ nif_live (i_arp s) (netif_default s)).

(** What input and output do not change. *)
Definition ip_env s s' : Prop :=
  same_env (i_arp s) (i_arp s') /\ netif_list s' = netif_list s /\ netif_default s' = netif_default s.
Global Instance ip_env_preorder : PreOrder ip_env.
Proof.
  split; [intros s; split; [reflexivity|done]|]. intros s1 s2 s3 (H1 & H2 & H3) (H4 & H5 & H6).
  split; [by etransitivity|]. split; congruence.
Qed.

Lemma nif_live_env k k' a : same_env k k' -> nif_live k a -> nif_live (H := H) k' a.
Proof. intros [E _] (Hz & n & En & Hn). split; [done|]. exists n. by rewrite E. Qed.

(** A change of the parts below IP. *)
Lemma ip_ok_arp s k R R' : ip_ok s R -> arp_ok pools linkoutput k (held (i_upper s) ⊎ R') -> same_env (i_arp s) k ->
  ip_ok (with_arp k s) R'.
Proof.
  intros (_ & Hl & Hd) Hk He. split; [done|]. split.
  - eapply Forall_impl; [exact Hl|]. intros a. by apply nif_live_env.
  - destruct Hd as [Hd|Hd]; [by left|right]. by eapply nif_live_env.
Qed.

Lemma outer_ptr s R p : outer s (ptr p ⊎ R) = ptr p ⊎ outer s R.
Proof. unfold outer. by rewrite !swap_ptr. Qed.

Lemma ip_refs s R : ip_ok s R -> refs pools (snet s) (outer s R).
Proof. intros ([[Hr _] _] & _). done. Qed.

(** Running an operation of the packet buffers that turns the references [R] into [R']. *)
Lemma ip_ok_net s R R' n : ip_ok s R -> refs pools n (outer s R') -> same_dom (n_mem (snet s)) (n_mem n) ->
  ip_ok (set_snet n s) R' /\ ip_env s (set_snet n s).
Proof.
  intros (((Hr0 & Hl) & Ht & Hc) & Hnl & Hd) Hr Hm. assert (same_env (i_arp s) (set_anet n (i_arp s))) as He by exact (conj eq_refl Hm).
  split; [|exact (conj He (conj eq_refl eq_refl))]. split; [|split].
  - split; [split; [exact Hr|]|done]. eapply link_ready_dom; [exact Hl|done|exact Hm].
  - eapply Forall_impl; [exact Hnl|]. intros a. by apply nif_live_env.
  - destruct Hd as [Hd|Hd]; [by left|right]. by eapply nif_live_env.
Qed.

Lemma ip_ok_mem s R m : ip_ok s R -> same_dom (n_mem (snet s)) m -> ip_ok (set_smem m s) R /\ ip_env s (set_smem m s).
Proof. intros Hok Hm. apply (ip_ok_net s R R); [done|apply refs_mem; [by apply ip_refs|done]|done]. Qed.

(** ** Steps *)

Lemma on_arp_ok {A} (m : M (arp H) A) s a k : m (i_arp s) = Ok (a, k) -> on_arp m s = Ok (a, with_arp k s).
Proof. intros E. unfold on_arp. by rewrite E. Qed.

Lemma with_arp_id s : with_arp (i_arp s) s = s.
Proof. by destruct s. Qed.

Lemma nb_ok {A} (m : M (net H) A) s a n : m (snet s) = Ok (a, n) -> nb m s = Ok (a, set_snet n s).
Proof. intros E. apply on_arp_ok. by apply pb_ok. Qed.

Lemma set_snet_id s : set_snet (snet s) s = s.
Proof. unfold set_snet, snet. by rewrite set_anet_id, with_arp_id. Qed.

Lemma nb_read {A} (m : M (net H) A) s a : m (snet s) = Ok (a, snet s) -> nb m s = Ok (a, s).
Proof. intros E. rewrite (nb_ok _ s _ _ E). by rewrite set_snet_id. Qed.

Lemma nb_rd s p b : n_pbufs (snet s) !! p = Some b -> nb (rd p) s = Ok (b, s).
Proof. intros E. by apply nb_read, rd_ok. Qed.

Lemma nb_read_bytes s a k l : load (n_mem (snet s)) a k = Some l -> nb (read_bytes a k) s = Ok (l, s).
Proof. intros E. apply nb_read. unfold read_bytes. by rewrite E. Qed.

Lemma nb_read_byte s a x : n_mem (snet s) !! a = Some x -> nb (read_byte a) s = Ok (x, s).
Proof. intros E. apply nb_read. unfold read_byte. by rewrite E. Qed.

Definition le16 (l : list Z) : Z := match l with [b0; b1] => b0 + 256 * b1 | _ => 0 end.
Definition word32 (l : list Z) : Z :=
  match l with [b0; b1; b2; b3] => b0 + 256 * b1 + 65536 * b2 + 16777216 * b3 | _ => 0 end.

Lemma nb_read_u16 s a l : load (n_mem (snet s)) a 2 = Some l -> nb (read_u16 a) s = Ok (le16 l, s).
Proof. intros E. apply nb_read. unfold read_u16, read_bytes, mbind, M_bind, deref. by rewrite E. Qed.

Lemma nb_read_u32 s a l : load (n_mem (snet s)) a 4 = Some l -> nb (read_u32 a) s = Ok (word32 l, s).
Proof. intros E. apply nb_read. unfold read_u32, read_bytes, mbind, M_bind, deref. by rewrite E. Qed.

Lemma nb_chksum s a n l : load (n_mem (snet s)) a (Z.to_nat n) = Some l -> nb (chksum_mem a n) s = Ok (inet_chksum a l, s).
Proof. intros E. apply nb_read. unfold chksum_mem, read_bytes, mbind, M_bind, deref. by rewrite E. Qed.

Lemma nb_write s a l m : store (n_mem (snet s)) a l = Some m -> nb (write_bytes a l) s = Ok (tt, set_smem m s).
Proof. intros E. by apply nb_ok, write_bytes_ok. Qed.

Lemma nb_write1 s a x m : store (n_mem (snet s)) a [x] = Some m -> nb (write_byte a x) s = Ok (tt, set_smem m s).
Proof. apply nb_write. Qed.

Lemma set_smem_twice s m m' : set_smem m' (set_smem m s) = set_smem m' s.
Proof. done. Qed.

Lemma ip_netif_ok s a n : nifs (i_arp s) !! a = Some n -> ip_netif a s = Ok (n, s).
Proof. intros E. unfold ip_netif, on_arp. rewrite (the_netif_run (i_arp s) a n E). by destruct s. Qed.

End Steps.

(** Run the next step of the goal: one that writes what the equation [E] says, the next
    of the row of writes in [Em], or one that reads [x]. *)
Ltac next_store E :=
  match type of E with store _ ?a ?x = Some ?m1 =>
    match goal with |- (nb ?w ≫= _) ?cur = _ => rewrite (bind_ok (nb w) _ cur tt (set_smem m1 cur) (nb_write cur a x m1 E)) end
  end.
Ltac next_write Em :=
  match type of Em with context [store ?m0 ?a ?x] =>
    let m1 := fresh "m" in let E := fresh "E" in destruct (store m0 a x) as [m1|] eqn:E; [|done]; next_store E
  end.
Ltac next_read x tac := match goal with |- (?m ≫= _) ?cur = _ => rewrite (bind_ok m _ cur x cur) by tac end.

Section Spec.
Context (pools : memp_t -> memp_desc) `{HP : !PoolsOk pools} {H : Type} `{HH : !Heap H} `{HL : !HeapLaws pools H}.
Context (linkoutput : Z -> Z -> M (eth H) Z) `{LL : !LinkLaws linkoutput}.
Context (netif_output : Z -> Z -> Z -> M (arp H) Z) `{OL : !OutputLaws pools linkoutput netif_output}.
Context {T : Type} `{UT : !Upper T}.
Implicit Types s : ip H T.
Local Abbreviation ip_ok := (ip_ok pools linkoutput).

(** ** Routing *)

(** The code's choice, as a specification: the first interface that is up, has a link
    and an address, and whose network holds the destination (or whose peer it is); else
    the default interface if it is usable and the destination is not a loopback address. *)
Definition fits (nfs : gmap Z nif) (dest a : Z) : Prop := exists n, nfs !! a = Some n /\ route_match dest n = true.
Definition default_usable (nfs : gmap Z nif) (dest d : Z) : Prop :=
  d <> NULL /\ exists n, nfs !! d = Some n /\ netif_is_up n = true /\ netif_is_link_up n = true /\
    ip4_addr_isany (ip_addr n) = false /\ ip4_addr_isloopback dest = false.
Definition route_spec (nfs : gmap Z nif) (l : list Z) (d dest a : Z) : Prop :=
  (exists l1 l2, l = l1 ++ a :: l2 /\ Forall (fun x => ~ fits nfs dest x) l1 /\ fits nfs dest a) \/
  (Forall (fun x => ~ fits nfs dest x) l /\ (a = d /\ default_usable nfs dest d \/ a = NULL /\ ~ default_usable nfs dest d)).

Lemma route_loop_ok dest l : forall s, Forall (nif_live (i_arp s)) l ->
  exists a, route_loop dest l s = Ok (a, s) /\
    (a <> NULL /\ (exists l1 l2, l = l1 ++ a :: l2 /\ Forall (fun x => ~ fits (nifs (i_arp s)) dest x) l1 /\ fits (nifs (i_arp s)) dest a) \/
     a = NULL /\ Forall (fun x => ~ fits (nifs (i_arp s)) dest x) l).
Proof.
  induction l as [|x l IH]; intros s Hl; cbn [route_loop].
  - exists NULL. split; [done|]. by right.
  - apply Forall_cons in Hl as [(Hz & n & En & _) Hl]. rewrite (bind_ok _ _ _ _ _ (ip_netif_ok s x n En)).
    destruct (route_match dest n) eqn:Em.
    + exists x. split; [done|]. left. split; [done|]. exists [], l. split_and!; [done|constructor|]. exists n. done.
    + assert (~ fits (nifs (i_arp s)) dest x) as Hx by (intros (n' & En' & Em'); congruence).
      destruct (IH s Hl) as (a & E & [(Hz' & l1 & l2 & -> & Hf & Ha)|(-> & Hf)]); (eexists; split; [exact E|]).
      * left. split; [done|]. exists (x :: l1), l2. split_and!; [done|by constructor|done].
      * right. split; [done|]. by constructor.
Qed.

Lemma route_ok s R dest : ip_ok s R -> exists a, ip4_route dest s = Ok (a, s) /\
  route_spec (nifs (i_arp s)) (netif_list s) (netif_default s) dest a /\ (a = NULL \/ nif_live (i_arp s) a).
Proof.
  intros (_ & Hl & Hd). unfold ip4_route. rewrite (bind_ok (gets _) _ _ (netif_list s) s) by done.
  destruct (route_loop_ok dest (netif_list s) s Hl) as (a & E & Hc). rewrite (bind_ok _ _ _ _ _ E).
  destruct Hc as [(Hz & l1 & l2 & El & Hf & Ha)|(-> & Hf)].
  - rewrite (proj2 (Z.eqb_neq _ _) Hz). exists a. split_and!; [done|left; eauto|right]. rewrite El in Hl.
    by apply Forall_app in Hl as [_ [? _]%Forall_cons].
  - cbn [Z.eqb negb NULL]. rewrite (bind_ok (gets _) _ _ (netif_default s) s) by done.
    destruct (Z.eqb_spec (netif_default s) NULL) as [Ed|Ed].
    { exists NULL. split_and!; [done| |by left]. right. split; [done|]. right. split; [done|]. by intros [? _]. }
    destruct Hd as [?|Hd]; [done|]. pose proof Hd as (_ & n & En & _).
    rewrite (bind_ok _ _ _ _ _ (ip_netif_ok s _ n En)).
    destruct (_ || ip4_addr_isloopback dest) eqn:Eu.
    + exists NULL. split_and!; [done| |by left]. right. split; [done|]. right. split; [done|].
      intros (_ & n' & En' & H1 & H2 & H3 & H4). rewrite En in En'. injection En' as <-. by rewrite H1, H2, H3, H4 in Eu.
    + exists (netif_default s). split_and!; [done| |by right]. right. split; [done|]. left. split; [done|]. split; [done|].
      apply orb_false_iff in Eu as [[[E1 E2]%orb_false_iff E3]%orb_false_iff E4]. exists n.
      split_and!; [done|by destruct (netif_is_up n)|by destruct (netif_is_link_up n)|done|done].
Qed.

(** ** Output *)

Definition header_writes (h tos tot id ttl proto chk src dst : Z) : list (Z * list Z) :=
  [(h + 8, [ttl]); (h + 9, [proto]); (h + 16, bytes32 dst); (h, [69]); (h + 1, [tos]);
   (h + 2, bytes16 (lwip_htons tot)); (h + 6, bytes16 0); (h + 4, bytes16 (lwip_htons id));
   (h + 12, bytes32 src); (h + 10, bytes16 chk)].

Lemma header_writes_within h tos tot id ttl proto chk src dst :
  within h 20 (header_writes h tos tot id ttl proto chk src dst).
Proof. unfold within, header_writes. repeat constructor; simpl; lia. Qed.

Lemma header_patches h tos tot id ttl proto chk src dst d : is_u16 tot -> is_u16 id -> length d = 20%nat ->
  patches h (header_writes h tos tot id ttl proto chk src dst) d = ip_header tos tot id ttl proto chk src dst.
Proof.
  intros Ht Hi Hd. do 20 (destruct d as [|? d]; [done|]). destruct d; [|done].
  unfold patches, header_writes. cbn [foldl fst snd].
  repeat match goal with |- context [Z.to_nat (h + ?k - h)] => replace (h + k - h) with k by lia end.
  rewrite Z.sub_diag.
  repeat match goal with |- context [Z.to_nat ?k] => let v := eval vm_compute in (Z.to_nat k) in change (Z.to_nat k) with v end.
  unfold ip_header, patch, bytes32, bytes16. cbn [take drop app length Nat.add]. rewrite !htons_swap, !swap_spec by done. unfold_widths.
  cbn [app]. repeat match goal with |- _ :: _ = _ :: _ => apply (f_equal2 cons) end; lia || reflexivity.
Qed.

(** The state in which the packet, with its header, is given to [netif->output]. *)
Definition with_header s (p : Z) (b : pbuf) (m : memory) : ip H T :=
  let n := snet s in
  let k := set_anet (set_mem m (set_pbufs (<[p := moved b IP_HLEN]> (n_pbufs n)) n)) (i_arp s) in
  mk_ip k (netif_list s) (netif_default s) (u16 (ip_id s + 1)) (ip_data s) (i_upper s).

Definition src_addr (src : option Z) : Z := match src with None => IPADDR_ANY | Some a => a end.

(** Room for [k] bytes in front of the payload. *)
Definition room (p : Z) (b : pbuf) (k : Z) : Prop := contiguous b /\ p + 16 <= payload b - k /\ tot_len b + k < 65536.

Lemma build_header s R p b l src d ttl tos proto nif :
  ip_ok s R -> packet (n_pbufs (snet s)) p b l -> ref b = 1 -> is_u8 ttl -> is_u8 proto ->
  (~ room p b IP_HLEN /\ ip4_output_if_src netif_output p src (Some d) ttl tos proto nif s = Ok (ERR_BUF, s)) \/
  (let h := payload b - IP_HLEN in let sa := src_addr src in
   exists m, stores (n_mem (snet s)) (header_writes h tos (tot_len b + IP_HLEN) (ip_id s) ttl proto
       (inline_chksum tos (tot_len b + IP_HLEN) (ip_id s) ttl proto sa d) sa d) = Some m /\
     room p b IP_HLEN /\
     ip4_output_if_src netif_output p src (Some d) ttl tos proto nif s = on_arp (netif_output nif p d) (with_header s p b m)).
Proof.
  intros Hok Hp Hr Httl Hpro. destruct (packet_lookup _ _ _ _ Hp) as [Hz Eb]. destruct (packet_lens _ _ _ _ Hp) as [Hlen Htot].
  unfold ip4_output_if_src. rewrite (bind_ok _ _ _ _ _ (nb_rd s p b Eb)).
  rewrite (bind_ok (assert _) _ _ tt s) by (unfold assert; by rewrite Hr).
  destruct (add_header_refs pools (snet s) _ p b IP_HLEN (ip_refs pools linkoutput s R Hok) Eb) as [Ea|(Hcont & Hlo & Ea & Hr1)];
    [unfold IP_HLEN; lia|left|right].
  { split; [|rewrite (bind_ok _ _ _ _ _ (nb_ok _ s _ _ Ea)), set_snet_id; done]. intros (H1 & H2 & H3).
    rewrite (add_header_succeeds (snet s) p b IP_HLEN Eb Hz) in Ea; [done|unfold IP_HLEN; lia|lia|done|done|done]. }
  assert (tot_len b + IP_HLEN < 65536) as Hfit by (eapply (add_header_fits (snet s) p b IP_HLEN); [done|unfold IP_HLEN; lia|lia|done]). cbv zeta.
  set (h := payload b - IP_HLEN) in *. set (sa := src_addr src).
  rewrite (bind_ok _ _ _ _ _ (nb_ok _ s _ _ Ea)). cbn [negb Z.eqb]. set (n1 := set_pbufs _ _) in *. set (s1 := set_snet n1 s).
  assert (moved b IP_HLEN = with_tot_len (tot_len b + IP_HLEN) (with_len (len b + IP_HLEN) (with_payload h b))) as Emv
    by (apply moved_small; unfold IP_HLEN in *; lia).
  rewrite (bind_ok _ _ _ _ _ (nb_rd s1 p (moved b IP_HLEN) (lookup_insert_eq _ _ _))).
  assert (payload (moved b IP_HLEN) = h /\ tot_len (moved b IP_HLEN) = tot_len b + IP_HLEN /\ len (moved b IP_HLEN) = len b + IP_HLEN)
    as (-> & -> & ->) by (rewrite Emv; done).
  rewrite (bind_ok (assert _) _ _ tt s1) by (unfold assert; by rewrite (proj2 (Z.leb_le _ _)) by lia).
  assert (valid_range (n_mem (snet s)) h 20) as Hv.
  { destruct Hr1 as (_ & _ & Hpl & _). destruct (Hpl p _ (lookup_insert_eq _ _ _)) as (_ & _ & Hv & _).
    rewrite Emv in Hv. intros i Hi. apply Hv. cbn [payload len with_tot_len with_len with_payload]. unfold IP_HLEN. lia. }
  set (chk := inline_chksum tos (tot_len b + IP_HLEN) (ip_id s) ttl proto sa d).
  destruct (stores_is_Some h 20 (header_writes h tos (tot_len b + IP_HLEN) (ip_id s) ttl proto chk sa d) (n_mem (snet s)) Hv) as [m Em];
    [apply header_writes_within|]. exists m. split_and!; try done.
  rewrite (u8_small ttl), (u8_small proto) by done.
  change (u8 (4 <<c 4 |c IP_HLEN / 4)) with 69.
  unfold header_writes in Em. cbn [stores fst snd] in Em. do 7 next_write Em.
  match goal with |- (gets ip_id ≫= _) ?cur = _ => rewrite (bind_ok (gets ip_id) _ cur (ip_id s) cur eq_refl) end. next_write Em.
  match goal with |- (set_ip_id ?i ≫= _) ?cur = _ =>
    rewrite (bind_ok (set_ip_id i) _ cur tt (mk_ip (i_arp cur) (netif_list s) (netif_default s) i (ip_data s) (i_upper s)) eq_refl) end.
  match goal with |- context [bytes16 (u16 (not32 ?e))] => assert (u16 (not32 e) = chk) as -> by (unfold chk, inline_chksum; cbv zeta; reflexivity) end.
  next_write Em. next_write Em. injection Em as <-. done.
Qed.

(** A packet the caller holds the only reference to, given to [netif->output]. *)
Lemma give_output s R nif p b l d :
  ip_ok s R -> nif_live (i_arp s) nif -> p ∈ R -> packet (n_pbufs (snet s)) p b l -> ref b = 1 ->
  runs (on_arp (netif_output nif p d)) s (fun _ s' => ip_ok s' R /\ ip_env s s').
Proof.
  intros Hok Hn Hp Hpk Hr. destruct (packet_lookup _ _ _ _ Hpk) as [Hz Eb]. pose proof Hok as (Ha & _).
  destruct (netif_output_law pools linkoutput (i_arp s) _ nif p d Ha Hn Hz) as (r & k & E & Hk & He); [multiset_solver| |].
  - destruct Hpk as (Hc & Ht & Ho). exists b, l. split_and!; [done..|lia].
  - eapply runs_ok; [by apply on_arp_ok|]. split; [by eapply (ip_ok_arp pools linkoutput)|]. done.
Qed.

Lemma with_header_ok s R p b l m : ip_ok s R -> packet (n_pbufs (snet s)) p b l -> contiguous b -> p + 16 <= payload b - IP_HLEN ->
  tot_len b + IP_HLEN < 65536 -> same_dom (n_mem (snet s)) m ->
  ip_ok (with_header s p b m) R /\ ip_env s (with_header s p b m) /\
  packet (n_pbufs (snet (with_header s p b m))) p (moved b IP_HLEN) l.
Proof.
  intros Hok Hp Hc Hlo Hfit Hm. destruct (packet_lookup _ _ _ _ Hp) as [Hz Eb]. destruct (packet_lens _ _ _ _ Hp) as [Hlen Htot].
  assert (refs pools (set_mem m (set_pbufs (<[p := moved b IP_HLEN]> (n_pbufs (snet s))) (snet s))) (outer s R)) as Hr.
  { apply refs_mem; [|done]. apply refs_moved; [by apply (ip_refs pools linkoutput)|done|done|unfold IP_HLEN; lia|done]. }
  destruct (ip_ok_net pools linkoutput s R R _ Hok Hr Hm) as [Hok' He']. split; [exact Hok'|]. split; [exact He'|].
  apply packet_moved; [done|unfold IP_HLEN; lia|lia].
Qed.

Lemma output_if_src_safe s R p b l src dest ttl tos proto nif :
  ip_ok s R -> nif_live (i_arp s) nif -> p ∈ R -> packet (n_pbufs (snet s)) p b l -> ref b = 1 -> is_u8 ttl -> is_u8 proto ->
  runs (ip4_output_if_src netif_output p src dest ttl tos proto nif) s (fun _ s' => ip_ok s' R /\ ip_env s s').
Proof.
  intros Hok Hn Hp Hpk Hr Httl Hpro. destruct (packet_lookup _ _ _ _ Hpk) as [Hz Eb]. destruct dest as [d|].
  - destruct (build_header s R p b l src d ttl tos proto nif Hok Hpk Hr Httl Hpro) as [[_ E]|(m & Em & (Hc & Hlo & Hfit) & E)].
    + eapply runs_ok; [exact E|]. done.
    + destruct (with_header_ok s R p b l m Hok Hpk Hc Hlo Hfit (stores_dom _ _ _ Em)) as (Hok1 & He1 & Hpk1).
      destruct (give_output _ R nif p _ l d Hok1 (nif_live_env _ _ _ (proj1 He1) Hn) Hp Hpk1 Hr) as (r & s' & E' & Hok' & He').
      exists r, s'. rewrite E. split_and!; [done|done|]. by etransitivity.
  - unfold ip4_output_if_src. eapply runs_step; [by apply nb_rd|]. apply runs_assert; [by rewrite Hr|].
    eapply runs_step; [by apply nb_rd|]. destruct (Z.ltb_spec (len b) IP_HLEN) as [|Hl]; [by apply runs_ret|].
    assert (valid_range (n_mem (snet s)) (payload b + 16) 4) as Hv.
    { destruct (ip_refs pools linkoutput s R Hok) as (_ & _ & Hpl & _). destruct (Hpl p b Eb) as (_ & _ & Hv & _). intros i Hi. apply Hv.
      unfold IP_HLEN in Hl. lia. }
    destruct (load_is_Some _ _ 4 Hv) as [w Ew]. eapply runs_step; [by apply (nb_read_u32 s _ w)|]. by eapply give_output.
Qed.

Lemma output_if_safe s R p b l src dest ttl tos proto nif :
  ip_ok s R -> nif_live (i_arp s) nif -> p ∈ R -> packet (n_pbufs (snet s)) p b l -> ref b = 1 -> is_u8 ttl -> is_u8 proto ->
  runs (ip4_output_if netif_output p src dest ttl tos proto nif) s (fun _ s' => ip_ok s' R /\ ip_env s s').
Proof.
  intros Hok Hn Hp Hpk Hr Httl Hpro. unfold ip4_output_if. destruct dest as [d|]; [|by eapply output_if_src_safe].
  destruct (src_isany src); [|by eapply output_if_src_safe]. pose proof Hn as (_ & n & En & _).
  eapply runs_step; [by apply ip_netif_ok|]. by eapply output_if_src_safe.
Qed.

(** The bytes of the header that [build_header] writes. *)
Lemma header_built s R p b l src d ttl tos proto m :
  let tot := tot_len b + IP_HLEN in let h := payload b - IP_HLEN in let c := inline_chksum tos tot (ip_id s) ttl proto src d in
  ip_ok s R -> packet (n_pbufs (snet s)) p b l -> room p b IP_HLEN -> is_u16 (ip_id s) ->
  is_u8 ttl -> is_u8 tos -> is_u8 proto -> is_u32 src -> is_u32 d ->
  stores (n_mem (snet s)) (header_writes h tos tot (ip_id s) ttl proto c src d) = Some m ->
  load m h 20 = Some (ip_header tos tot (ip_id s) ttl proto c src d) /\ inet_chksum h (ip_header tos tot (ip_id s) ttl proto c src d) = 0 /\
  (forall i, ~ (h <= i < h + 20) -> m !! i = n_mem (snet s) !! i).
Proof.
  intros tot h c Hok Hp (Hc & Hlo & Hfit) Hid Httl Htos Hpro Hs Hd Em. destruct (packet_lens _ _ _ _ Hp) as [Hlen Htot].
  assert (is_u16 tot) as Ht by (unfold tot, is_u16, IP_HLEN in *; lia).
  pose proof (header_writes_within h tos tot (ip_id s) ttl proto c src d) as Hw. split_and!.
  - assert (valid_range (n_mem (snet s)) h 20) as Hv.
    { destruct (ip_refs pools linkoutput s R Hok) as (_ & _ & Hpl & _). destruct (packet_lookup _ _ _ _ Hp) as [_ Eb].
      destruct (Hpl p b Eb) as (? & _ & _ & Hcv). destruct (Hcv Hc) as [_ Hva]. intros i Hi. apply Hva. unfold h, IP_HLEN in *. lia. }
    destruct (load_is_Some _ _ 20 Hv) as [w Ew]. rewrite (load_stores _ 20 _ _ _ _ Hw Em Ew), header_patches; [done|done|done|by eapply load_length].
  - by apply inline_chksum_ok.
  - intros i Hi. eapply stores_outside; [exact Hw|exact Em|done].
Qed.

(** C17: a datagram's header. If there is room in front of the packet,
    [ip4_output_if_src] puts there the 20 bytes of RFC 791's header with the given
    fields, the next identification and a checksum that the receiver's test accepts; it
    changes no other byte and hands the packet to the interface. If there is no room it
    returns ERR_BUF and changes nothing. *)
Theorem ip4_output_header s (R : gmultiset Z) (p : Z) (b : pbuf) (l : list (Z * pbuf)) (src d ttl tos proto nif : Z)
  (Hok : ip_ok s R) (Hp : packet (n_pbufs (snet s)) p b l) (Hr : ref b = 1) (Hid : is_u16 (ip_id s))
  (Httl : is_u8 ttl) (Htos : is_u8 tos) (Hpro : is_u8 proto) (Hs : is_u32 src) (Hd : is_u32 d) :
  (~ room p b IP_HLEN -> ip4_output_if_src netif_output p (Some src) (Some d) ttl tos proto nif s = Ok (ERR_BUF, s)) /\
  (room p b IP_HLEN -> exists s1 c, let h := payload b - IP_HLEN in
    let hdr := ip_header tos (tot_len b + IP_HLEN) (ip_id s) ttl proto c src d in
    ip4_output_if_src netif_output p (Some src) (Some d) ttl tos proto nif s = on_arp (netif_output nif p d) s1 /\
    load (n_mem (snet s1)) h 20 = Some hdr /\ inet_chksum h hdr = 0 /\
    n_pbufs (snet s1) = <[p := moved b IP_HLEN]> (n_pbufs (snet s)) /\ ip_id s1 = u16 (ip_id s + 1) /\
    (forall i, ~ (h <= i < h + 20) -> n_mem (snet s1) !! i = n_mem (snet s) !! i)).
Proof.
  destruct (packet_lens _ _ _ _ Hp) as [Hlen Htot].
  destruct (build_header s R p b l (Some src) d ttl tos proto nif Hok Hp Hr Httl Hpro) as [[Hno E]|(m & Em & Hroom & E)]; [done|].
  split; [done|]. intros _. destruct (header_built s R p b l src d ttl tos proto m Hok Hp Hroom Hid Httl Htos Hpro Hs Hd Em) as (Hl & Hck & Hout).
  exists (with_header s p b m), (inline_chksum tos (tot_len b + IP_HLEN) (ip_id s) ttl proto src d). by split_and!.
Qed.

(** Routing. [ip4_route] returns the first interface of the list that is up, has a
    link and an address, and whose network holds the destination or whose point-to-point
    peer it is; else the default interface when that is usable and the destination is no
    loopback address; else NULL. It changes nothing. *)
Theorem ip4_route_first s (R : gmultiset Z) (dest : Z) (Hok : ip_ok s R) :
  exists a, ip4_route dest s = Ok (a, s) /\ route_spec (nifs (i_arp s)) (netif_list s) (netif_default s) dest a.
Proof. destruct (route_ok s R dest Hok) as (a & E & Hs & _). exists a. done. Qed.
End Spec.
