(* ===== verification/Icmp.v ===== *)
(** * ICMP: core/ipv4/icmp.c

    Echo requests are answered in place, or in a copy when the packet has no room for
    the link header; other messages are dropped. Datagrams for an unknown protocol
    are answered with "destination unreachable". *)

From S2P Require Import Prelude Chksum Memp Pbuf PbufSpec PbufData PbufRefs Ethernetif Ip4Addr Ethernet Etharp Ip4.
From stdpp Require Import base numbers list gmap.
Open Scope Z_scope.
Open Scope c_scope.

Definition ICMP_ER : Z := 0.
Definition ICMP_DUR : Z := 3.
Definition ICMP_ECHO : Z := 8.
Definition ICMP_TTL : Z := IP_DEFAULT_TTL.
Definition ICMP_DUR_PROTO : Z := 2.
Definition ICMP_DEST_UNREACH_DATASIZE : Z := 8.
Definition SIZEOF_ICMP_ECHO_HDR : Z := 8.
Definition PBUF_LINK_HLEN : Z := 14.
Definition PBUF_LINK_ENCAPSULATION_HLEN : Z := 0.

(** The checksum of the reply: the type went from 8 to 0. *)
Definition adjust_chksum (chksum : Z) : Z :=
  if PP_HTONS (65535 - (ICMP_ECHO <<c 8)) <? chksum
  then u16 (chksum + PP_HTONS (u16 (ICMP_ECHO <<c 8)) + 1)
  else u16 (chksum + PP_HTONS (ICMP_ECHO <<c 8)).

Section Icmp.
Context (pools : memp_t -> memp_desc) {H : Type} `{HH : !Heap H} {T : Type}.
Context (netif_output : Z -> Z -> Z -> M (arp H) Z).

Definition free_pbuf (p : Z) : M (ip H T) unit := nb (pbuf_free p);; mret tt.

(** The packet itself when it has room for [hlen] bytes and the link header in front of
    its payload, else a copy of it that has; [None] where the code goes to [icmperr]. *)
Definition echo_buffer (p hlen iphdr_in : Z) : M (ip H T) (option Z) :=
  let room := hlen + PBUF_LINK_HLEN + PBUF_LINK_ENCAPSULATION_HLEN in
  x ← nb (pbuf_add_header p room);
  if negb (x =? 0) then
    b ← nb (rd p);
    let alloc_len := u16 (tot_len b + hlen) in
    if alloc_len <? tot_len b then mret None
    else
      r ← nb (pbuf_alloc pools PBUF_LINK alloc_len PBUF_RAM);
      if r =? NULL then mret None
      else
        br ← nb (rd r);
        if len br <? hlen + SIZEOF_ICMP_ECHO_HDR then free_pbuf r;; mret None
        else
          nb (MEMCPY (payload br) iphdr_in hlen);;
          x ← nb (pbuf_remove_header r hlen);
          if negb (x =? 0) then assert false;; free_pbuf r;; mret None
          else
            e ← nb (pbuf_copy r p);
            if negb (e =? ERR_OK) then free_pbuf r;; mret None
            else free_pbuf p;; mret (Some r)
  else
    x ← nb (pbuf_remove_header p room);
    if negb (x =? 0) then assert false;; mret None else mret (Some p).

(** From "At this point, all checks are OK" to the end of the case. *)
Definition echo_reply (p hlen src inp : Z) : M (ip H T) unit :=
  b ← nb (rd p);
  let iecho := payload b in
  x ← nb (pbuf_add_header p hlen);
  (if negb (x =? 0) then mret tt
   else
     b ← nb (rd p);
     let iphdr := payload b in
     nb (write_bytes (iphdr + 12) (bytes32 src));;
     cur ← gets ip_data;
     nb (write_bytes (iphdr + 16) (bytes32 (current_iphdr_src cur)));;
     nb (write_byte iecho ICMP_ER);;
     chksum ← nb (read_u16 (iecho + 2));
     nb (write_bytes (iecho + 2) (bytes16 (adjust_chksum chksum)));;
     nb (write_byte (iphdr + 8) (u8 ICMP_TTL));;
     nb (write_bytes (iphdr + 10) (bytes16 0));;
     sum ← nb (chksum_mem iphdr hlen);
     nb (write_bytes (iphdr + 10) (bytes16 sum));;
     ip4_output_if netif_output p (Some src) None ICMP_TTL 0 IP_PROTO_ICMP inp;;
     mret tt);;
  free_pbuf p.

Definition icmp_input (p inp : Z) : M (ip H T) unit :=
  cur ← gets ip_data;
  let iphdr_in := current_ip4_header cur in
  v_hl ← nb (read_byte iphdr_in);
  let hlen := IPH_HL_BYTES v_hl in
  if hlen <? IP_HLEN then free_pbuf p
  else
    b ← nb (rd p);
    if len b <? 4 then free_pbuf p
    else
      type ← nb (read_byte (payload b));
      if type =? ICMP_ER then free_pbuf p
      else if type =? ICMP_ECHO then
        let src := current_iphdr_dest cur in
        if ip4_addr_ismulticast src then free_pbuf p
        else
          n ← ip_netif (current_netif cur);
          if isbroadcast src n then free_pbuf p
          else if tot_len b <? SIZEOF_ICMP_ECHO_HDR then free_pbuf p
          else
            sum ← nb (chksum_pbuf p);
            if negb (sum =? 0) then free_pbuf p
            else
              r ← echo_buffer p hlen iphdr_in;
              match r with
              | None => free_pbuf p
              | Some p' => echo_reply p' hlen src inp
              end
      else free_pbuf p.

Definition icmp_send_response (p type code : Z) : M (ip H T) unit :=
  b ← nb (rd p);
  let response_pkt_len :=
    if tot_len b <? IP_HLEN + ICMP_DEST_UNREACH_DATASIZE then tot_len b else IP_HLEN + ICMP_DEST_UNREACH_DATASIZE in
  q ← nb (pbuf_alloc pools PBUF_IP (SIZEOF_ICMP_ECHO_HDR + response_pkt_len) PBUF_RAM);
  if q =? NULL then mret tt
  else
    bq ← nb (rd q);
    assert (SIZEOF_ICMP_ECHO_HDR + response_pkt_len <=? len bq);;
    let iphdr := payload b in
    let icmphdr := payload bq in
    nb (write_byte icmphdr type);;
    nb (write_byte (icmphdr + 1) code);;
    nb (write_bytes (icmphdr + 4) (bytes16 0));;
    nb (write_bytes (icmphdr + 6) (bytes16 0));;
    nb (MEMCPY (icmphdr + SIZEOF_ICMP_ECHO_HDR) iphdr response_pkt_len);;
    iphdr_src ← nb (read_u32 (iphdr + 12));
    nif ← ip4_route iphdr_src;
    (if negb (nif =? NULL) then
       nb (write_bytes (icmphdr + 2) (bytes16 0));;
       sum ← nb (chksum_mem icmphdr (len bq));
       nb (write_bytes (icmphdr + 2) (bytes16 sum));;
       ip4_output_if netif_output q None (Some iphdr_src) ICMP_TTL 0 IP_PROTO_ICMP nif;;
       mret tt
     else mret tt);;
    free_pbuf q.

Definition icmp_dest_unreach (p t : Z) : M (ip H T) unit := icmp_send_response p ICMP_DUR t.
End Icmp.
