(* ===== verification/IcmpSpec.v ===== *)
(** * Properties of ICMP

    Every message is consumed, safely and with exact reference counts; an echo request
    is answered with the RFC 792 reply: the same data, the addresses exchanged, and
    checksums that the other side's tests accept. *)

From S2P Require Import Prelude Chksum Memp Pbuf PbufSpec PbufData PbufRefs Ethernetif Ip4Addr Ethernet Etharp EtharpSpec Ip4 Ip4Spec Icmp.
From stdpp Require Import base numbers list gmap gmultiset functions sorting.
Open Scope Z_scope.
Open Scope c_scope.

(** ** The adjusted checksum *)

Lemma adjust_spec c : is_u16 c -> adjust_chksum c = (if c <=? 65527 then c + 8 else c + 8 - 65535).
Proof.
  intros Hc. unfold adjust_chksum, is_u16 in *. change (PP_HTONS (65535 - (ICMP_ECHO <<c 8))) with 65527.
  change (PP_HTONS (u16 (ICMP_ECHO <<c 8))) with 8. change (PP_HTONS (ICMP_ECHO <<c 8)) with 8.
  destruct (Z.ltb_spec 65527 c), (Z.leb_spec c 65527); try lia; unfold u16; [|by rewrite Z.mod_small by lia].
  rewrite <- (Z_mod_plus_full _ (-1)), Z.mod_small by lia. lia.
Qed.

(** The reply to an echo request: type 0, the checksum adjusted, the rest as it was. *)
Definition reply_msg (d : list Z) : list Z :=
  match d with
  | _ :: code :: c0 :: c1 :: rest => 0 :: code :: bytes16 (adjust_chksum (c0 + 256 * c1)) ++ rest
  | _ => d
  end.

Lemma reply_msg_ok a d : bytes_ok d -> Z.of_nat (length d) < 65536 -> hd 0 d = ICMP_ECHO -> (4 <= length d)%nat ->
  inet_chksum a d = 0 -> bytes_ok (reply_msg d) /\ length (reply_msg d) = length d /\ inet_chksum a (reply_msg d) = 0.
Proof.
  intros Hok Hl Hh H4 Hs. destruct d as [|t [| code [| c0 [| c1 rest]]]]; simpl in H4; try lia. simpl in Hh. subst t.
  cbn [reply_msg]. pose proof Hok as Hb. unfold bytes_ok in Hb. rewrite !Forall_cons in Hb. destruct Hb as (_ & Hcode & H0 & H1 & Hrest).
  set (c := c0 + 256 * c1). assert (is_u16 c) as Hc by (unfold is_u8, is_u16 in *; lia). pose proof (adjust_spec c Hc) as Ha.
  set (c' := adjust_chksum c) in *. assert (0 < c' < 65536) as Hc' by (unfold is_u16 in Hc; destruct (Z.leb_spec c 65527); lia).
  assert (bytes_ok (0 :: code :: bytes16 c' ++ rest)) as Hok'.
  { unfold bytes_ok, bytes16. cbn [app]. rewrite !Forall_cons. unfold is_u8 in *. split_and!; try done; lia. }
  split_and!; [done|done|]. rewrite inet_chksum_ocsum in Hs |- *; try done; try (cbn [length app bytes16] in *; lia).
  pose proof (sum16_bound rest Hrest) as Hr. unfold ocsum in *. unfold bytes16. cbn [app sum16] in *. unfold is_u8, ICMP_ECHO in *.
  assert (c0 + 256 * c1 = c) as Ec by done.
  assert (c' mod 256 + 256 * ((c' / 256) mod 256) = c') as Ec' by lia. rewrite Ec in Hs.
  assert (0 + 256 * code + (c' mod 256 + 256 * ((c' / 256) mod 256) + sum16 rest) = 256 * code + c' + sum16 rest) as -> by lia.
  unfold ocnorm in *. destruct (Z.eqb_spec (8 + 256 * code + (c + sum16 rest)) 0); [lia|].
  destruct (Z.eqb_spec (256 * code + c' + sum16 rest) 0); [lia|]. clear -Hs Ha. destruct (Z.leb_spec c 65527); lia.
Qed.

(** The IP header of the reply: addresses exchanged, time to live 255, checksum [c]. *)
Definition reply_header (hdr : list Z) (src dst c : Z) : list Z :=
  take 8 hdr ++ [ICMP_TTL] ++ take 1 (drop 9 hdr) ++ bytes16 c ++ bytes32 src ++ bytes32 dst ++ drop 20 hdr.

Lemma reply_header_ok a hdr src dst : bytes_ok hdr -> (20 <= length hdr <= 60)%nat -> is_u32 src -> is_u32 dst ->
  let c := inet_chksum a (reply_header hdr src dst 0) in
  inet_chksum a (reply_header hdr src dst c) = 0 /\ bytes_ok (reply_header hdr src dst c) /\ length (reply_header hdr src dst c) = length hdr.
Proof.
  intros Hok Hl Hs Hd c. do 20 (destruct hdr as [|? hdr]; [simpl in Hl; lia|]).
  unfold bytes_ok in Hok. rewrite !Forall_cons in Hok. destruct_and!.
  assert (forall x, is_u16 x -> bytes16 x = [x mod 256; x / 256]) as Hb by (intros x Hx; unfold bytes16, is_u16 in *; do 2 f_equal; lia).
  assert (is_u16 c) as Hc by apply u16_range.
  unfold reply_header. cbn [take drop app]. rewrite (Hb c Hc). unfold bytes32. cbn [app].
  split_and!; [| |done].
  - apply (inet_chksum_fill a a [z; z0; z1; z2; z3; z4; z5; z6; 255; z8]
      ([src mod 256; (src / 256) mod 256; (src / 65536) mod 256; (src / 16777216) mod 256;
        dst mod 256; (dst / 256) mod 256; (dst / 65536) mod 256; (dst / 16777216) mod 256] ++ hdr)); try done.
    + unfold bytes_ok. rewrite !Forall_cons. split_and!; done.
    + unfold bytes_ok. apply Forall_app. split; [|done]. rewrite !Forall_cons. unfold is_u8. split_and!; try done; lia.
    + cbn [length app] in *. lia.
  - unfold bytes_ok. rewrite !Forall_cons. unfold is_u8, is_u16 in *. split_and!; try done; lia.
Qed.

(** ** Writes into two adjacent strings *)

Lemma patch_app_l o x a b : (o + length x <= length a)%nat -> patch o x (a ++ b) = patch o x a ++ b.
Proof. intros Hl. unfold patch. rewrite take_app_le, drop_app_le by lia. by rewrite <- !app_assoc. Qed.

Lemma patch_app_r o x a b : (length a <= o)%nat -> patch o x (a ++ b) = a ++ patch (o - length a) x b.
Proof.
  intros Hl. unfold patch. rewrite take_app_ge, drop_app_ge, <- app_assoc by lia.
  do 4 f_equal. lia.
Qed.

Lemma patch_length o x d : (o + length x <= length d)%nat -> length (patch o x d) = length d.
Proof. intros Hl. unfold patch. rewrite !length_app, length_take, length_drop. lia. Qed.

Lemma load_split m a n1 n2 l : load m a (n1 + n2) = Some l ->
  load m a n1 = Some (take n1 l) /\ load m (a + Z.of_nat n1) n2 = Some (drop n1 l).
Proof.
  rewrite load_app. intros (l1 & E1 & (l2 & E2 & [= <-])%bind_Some)%bind_Some. pose proof (load_length _ _ _ _ E1) as Hl.
  rewrite take_app_length', drop_app_length' by done. done.
Qed.

(** The header with both addresses, and the message with its type, as first written. *)
Definition header1 (hdr : list Z) (src dst : Z) : list Z := patch 16 (bytes32 dst) (patch 12 (bytes32 src) hdr).
Definition header2 (hdr : list Z) (src dst : Z) : list Z := patch 10 (bytes16 0) (patch 8 [ICMP_TTL] (header1 hdr src dst)).

Lemma header2_eq hdr src dst : (20 <= length hdr)%nat -> header2 hdr src dst = reply_header hdr src dst 0 /\
  forall c, patch 10 (bytes16 c) (header2 hdr src dst) = reply_header hdr src dst c.
Proof.
  intros Hl. do 20 (destruct hdr as [|? hdr]; [simpl in Hl; lia|]). clear Hl.
  unfold header2, header1, reply_header, patch, bytes32, bytes16. cbn [take drop app length Nat.add]. split; done.
Qed.

Section Spec.
Context (pools : memp_t -> memp_desc) `{HP : !PoolsOk pools} {H : Type} `{HH : !Heap H} `{HL : !HeapLaws pools H}.
Context (linkoutput : Z -> Z -> M (eth H) Z) `{LL : !LinkLaws linkoutput}.
Context (netif_output : Z -> Z -> Z -> M (arp H) Z) `{OL : !OutputLaws pools linkoutput netif_output}.
Context {T : Type} `{UT : !Upper T}.
Implicit Types s : ip H T.

(** What every function of this layer guarantees of the state it leaves. *)
Definition kept s (R : gmultiset Z) {A} : A -> ip H T -> Prop := fun _ s' => ip_ok pools linkoutput s' R /\ ip_env s s'.

Lemma kept_env s s1 R {A} (a : A) s' : ip_env s s1 -> kept s1 R a s' -> kept s R a s'.
Proof. intros He [Hok He']. split; [done|]. by etransitivity. Qed.

Lemma free_runs s R p : ip_ok pools linkoutput s (ptr p ⊎ R) -> p <> NULL -> runs (free_pbuf p) s (kept s R).
Proof.
  intros Hok Hz. pose proof (ip_refs pools linkoutput s _ Hok) as Hr. rewrite outer_ptr in Hr.
  destruct (free_refs pools _ _ _ Hr Hz) as (n & s1 & E & Hr1 & Em & _).
  destruct (ip_ok_net pools linkoutput s _ R s1 Hok Hr1) as [Hok1 He1]; [by rewrite Em|].
  eapply runs_step; [by apply nb_ok|]. apply runs_ret. done.
Qed.

(** ** The checksum of a chain in memory *)

Lemma read_chain_run (n : net H) l : forall fuel p d, is_chain (n_pbufs n) p l -> totals l -> chain_data (n_mem n) l = Some d ->
  (length l < fuel)%nat ->
  exists q, read_chain fuel p n = Ok (q, n) /\ chain_bytes q = d /\ (bytes_ok d -> chain_ok q).
Proof.
  induction l as [|[a b] l IH]; intros [|fuel] p d Hc Ht Hd Hf; simpl in Hf; try lia; cbn [read_chain].
  - simpl in Hc. subst p. injection Hd as <-. exists []. split_and!; [done|done|constructor].
  - destruct Hc as (-> & Hz & E & Hc). rewrite (proj2 (Z.eqb_neq _ _) Hz), (bind_ok _ _ _ _ _ (rd_ok a b n E)).
    destruct (chain_data_cons _ _ _ _ _ Hd) as (d1 & d2 & -> & E1 & E2 & El1). destruct Ht as (? & ? & ? & Ht).
    pose proof (sum_len_nonneg _ Ht).
    rewrite (bind_ok (read_bytes _ _) _ _ d1 n) by (unfold read_bytes; by rewrite E1).
    destruct (IH fuel (next b) d2 Hc Ht E2) as (q & Eq & Hq & Hok); [lia|]. rewrite (bind_ok _ _ _ _ _ Eq).
    exists ((payload b, d1) :: q). split_and!; [done|unfold chain_bytes in *; simpl; by rewrite Hq|].
    intros [Hb1 Hb2]%bytes_ok_app. constructor; [|by apply Hok]. split; [done|]. simpl. lia.
Qed.

Lemma chksum_pbuf_run s p l d : is_chain (n_pbufs (snet s)) p l -> totals l -> chain_data (n_mem (snet s)) l = Some d ->
  exists x, nb (chksum_pbuf p) s = Ok (x, s) /\ (bytes_ok d -> Z.of_nat (length d) < 65536 -> forall a, x = inet_chksum a d).
Proof.
  intros Hc Ht Hd. destruct (read_chain_run (snet s) l (S (S (base.size (n_pbufs (snet s))))) p d Hc Ht Hd) as (q & Eq & Hq & Hok);
    [pose proof (is_chain_size _ _ _ Hc); lia|].
  exists (inet_chksum_pbuf q). split.
  - apply nb_read. unfold chksum_pbuf. rewrite (bind_ok chain_fuel _ _ (S (S (base.size (n_pbufs (snet s))))) (snet s)) by done.
    by rewrite (bind_ok _ _ _ _ _ Eq).
  - intros Hb Hl a. rewrite inet_chksum_pbuf_ocsum, Hq, inet_chksum_ocsum by (auto || lia). done.
Qed.

Lemma refs_chain_data (n : net H) R p l : refs pools n R -> is_chain (n_pbufs n) p l -> exists d, chain_data (n_mem n) l = Some d.
Proof.
  intros Hr Hc. pose proof (refs_sendable pools n R p l Hr Hc) as Hv. clear Hr Hc.
  induction Hv as [|[a b] l [Hl Hv] _ [d IH]]; [by exists []|]. simpl in *.
  destruct (load_is_Some (n_mem n) (payload b) (Z.to_nat (len b))) as [d1 E1]; [by rewrite Z2Nat.id by lia|].
  exists (d1 ++ d). by rewrite E1, IH.
Qed.

(** ** The reply in place *)

Definition reply_writes1 (h e src dst : Z) : list (Z * list Z) := [(h + 12, bytes32 src); (h + 16, bytes32 dst); (e, [ICMP_ER])].
Definition reply_writes2 (h e c : Z) : list (Z * list Z) := [(e + 2, bytes16 (adjust_chksum c)); (h + 8, [ICMP_TTL]); (h + 10, bytes16 0)].

(** The three rounds of writes of the reply into the [hlen] bytes at [h] and the four
    bytes behind them. *)
Definition reply_mem (m : memory) (h hlen src dst : Z) (m3 : memory) : Prop :=
  exists m1 m2 w hdr, let e := h + hlen in
    stores m (reply_writes1 h e src dst) = Some m1 /\ load m1 (e + 2) 2 = Some w /\
    stores m1 (reply_writes2 h e (le16 w)) = Some m2 /\ load m2 h (Z.to_nat hlen) = Some hdr /\
    store m2 (h + 10) (bytes16 (inet_chksum h hdr)) = Some m3.

Lemma reply_mem_ex m h hlen src dst : valid_range m h (hlen + 4) -> 20 <= hlen ->
  exists m3, reply_mem m h hlen src dst m3 /\ same_dom m m3.
Proof.
  intros Hv Hh. unfold reply_mem. set (e := h + hlen).
  destruct (stores_is_Some h (hlen + 4) (reply_writes1 h e src dst) m Hv) as [m1 E1]; [unfold within, reply_writes1; repeat constructor; simpl; lia|].
  pose proof (stores_dom _ _ _ E1) as Hd1. pose proof (same_dom_valid _ _ _ _ Hd1 Hv) as Hv1.
  destruct (load_is_Some m1 (e + 2) 2) as [w Ew]; [intros i Hi; apply Hv1; lia|].
  destruct (stores_is_Some h (hlen + 4) (reply_writes2 h e (le16 w)) m1 Hv1) as [m2 E2]; [unfold within, reply_writes2; repeat constructor; simpl; lia|].
  pose proof (stores_dom _ _ _ E2) as Hd2. pose proof (same_dom_valid _ _ _ _ Hd2 Hv1) as Hv2.
  destruct (load_is_Some m2 h (Z.to_nat hlen)) as [hdr Eh]; [intros i Hi; apply Hv2; lia|].
  destruct (store_is_Some m2 (h + 10) (bytes16 (inet_chksum h hdr))) as [m3 E3]; [intros i Hi; apply Hv2; simpl in Hi; lia|].
  exists m3. split; [exists m1, m2, w, hdr; done|]. etransitivity; [exact Hd1|]. etransitivity; [exact Hd2|]. by eapply same_dom_store.
Qed.

(** The state in which the reply is given to IP. *)
Definition with_reply s (p hlen : Z) (b : pbuf) (m : memory) : ip H T :=
  set_snet (set_mem m (set_pbufs (<[p := moved b hlen]> (n_pbufs (snet s))) (snet s))) s.

Lemma echo_reply_run s R p b l hlen src inp :
  ip_ok pools linkoutput s R -> packet (n_pbufs (snet s)) p b l -> 4 <= len b -> 20 <= hlen <= 60 ->
  (pbuf_add_header p hlen (snet s) = Ok (1, snet s) /\ echo_reply netif_output p hlen src inp s = free_pbuf p s) \/
  exists m, reply_mem (n_mem (snet s)) (payload b - hlen) hlen src (current_iphdr_src (ip_data s)) m /\
    same_dom (n_mem (snet s)) m /\ contiguous b /\ p + 16 <= payload b - hlen /\ tot_len b + hlen < 65536 /\
    echo_reply netif_output p hlen src inp s =
      ((ip4_output_if netif_output p (Some src) None ICMP_TTL 0 IP_PROTO_ICMP inp;; mret tt);; free_pbuf p) (with_reply s p hlen b m).
Proof.
  intros Hok Hp H4 Hh. destruct (packet_lookup _ _ _ _ Hp) as [Hz Eb]. destruct (packet_lens _ _ _ _ Hp) as [Hlen Htot].
  unfold echo_reply. rewrite (bind_ok _ _ _ _ _ (nb_rd s p b Eb)).
  destruct (add_header_refs pools (snet s) _ p b hlen (ip_refs pools linkoutput s R Hok) Eb) as [Ea|(Hcont & Hlo & Ea & Hr1)]; [lia|left|right].
  { split; [done|]. rewrite (bind_ok _ _ _ _ _ (nb_ok _ s _ _ Ea)), set_snet_id. done. }
  assert (tot_len b + hlen < 65536) as Hfit by (eapply (add_header_fits (snet s) p b hlen); [done|lia|lia|done]).
  rewrite (bind_ok _ _ _ _ _ (nb_ok _ s _ _ Ea)). cbn [negb Z.eqb]. set (n1 := set_pbufs _ _) in *. set (s1 := set_snet n1 s).
  set (h := payload b - hlen) in *.
  assert (payload (moved b hlen) = h) as Epay by done.
  assert (valid_range (n_mem (snet s)) h (hlen + 4)) as Hv.
  { destruct Hr1 as (_ & _ & Hpl & _). destruct (Hpl p _ (lookup_insert_eq _ _ _)) as (_ & _ & Hv & _).
    rewrite moved_small in Hv by lia. intros i Hi. apply Hv. cbn [payload len with_tot_len with_len with_payload]. lia. }
  destruct (reply_mem_ex (n_mem (snet s)) h hlen src (current_iphdr_src (ip_data s)) Hv) as (m & Hm & Hd); [lia|].
  exists m. split_and!; try done. destruct Hm as (m1 & m2 & w & hdr & E1 & Ew & E2 & Eh & E3).
  replace (h + hlen) with (payload b) in * by (unfold h; lia). apply bind_eq.
  rewrite (bind_ok _ _ _ _ _ (nb_rd s1 p (moved b hlen) (lookup_insert_eq _ _ _))). rewrite !Epay.
  unfold reply_writes1, reply_writes2 in E1, E2. cbn [stores fst snd] in E1, E2. next_write E1.
  match goal with |- (gets ip_data ≫= _) ?cur = _ => rewrite (bind_ok (gets ip_data) _ cur (ip_data s) cur eq_refl) end.
  do 2 next_write E1. injection E1 as <-. next_read (le16 w) ltac:(by apply nb_read_u16). do 3 next_write E2. injection E2 as <-.
  next_read (inet_chksum h hdr) ltac:(by apply nb_chksum).
  next_store E3. done.
Qed.

Lemma with_reply_ok s R p b l hlen m : ip_ok pools linkoutput s R -> packet (n_pbufs (snet s)) p b l -> contiguous b -> 20 <= hlen <= 60 ->
  p + 16 <= payload b - hlen -> tot_len b + hlen < 65536 -> same_dom (n_mem (snet s)) m ->
  ip_ok pools linkoutput (with_reply s p hlen b m) R /\ ip_env s (with_reply s p hlen b m) /\
  packet (n_pbufs (snet (with_reply s p hlen b m))) p (moved b hlen) l.
Proof.
  intros Hok Hp Hc Hh Hlo Hfit Hm. destruct (packet_lookup _ _ _ _ Hp) as [Hz Eb]. destruct (packet_lens _ _ _ _ Hp) as [Hlen Htot].
  assert (refs pools (set_mem m (set_pbufs (<[p := moved b hlen]> (n_pbufs (snet s))) (snet s))) (outer s R)) as Hr.
  { apply refs_mem; [|done]. apply refs_moved; [by apply (ip_refs pools linkoutput)|done|done|lia|done]. }
  destruct (ip_ok_net pools linkoutput s R R _ Hok Hr Hm) as [Hok' He']. split; [exact Hok'|]. split; [exact He'|].
  apply packet_moved; [done|lia|lia].
Qed.

Lemma echo_reply_safe s R p b l hlen src inp :
  ip_ok pools linkoutput s (ptr p ⊎ R) -> nif_live (i_arp s) inp -> packet (n_pbufs (snet s)) p b l -> ref b = 1 -> 4 <= len b ->
  20 <= hlen <= 60 -> runs (echo_reply netif_output p hlen src inp) s (kept s R).
Proof.
  intros Hok Hn Hp Hr H4 Hh. destruct (packet_lookup _ _ _ _ Hp) as [Hz Eb].
  destruct (echo_reply_run s _ p b l hlen src inp Hok Hp H4 Hh) as [[_ E]|(m & _ & Hd & Hc & Hlo & Hfit & E)];
    unfold runs; setoid_rewrite E; [by apply free_runs|].
  destruct (with_reply_ok s _ p b l hlen m Hok Hp Hc Hh Hlo Hfit Hd) as (Hok1 & He1 & Hp1).
  set (s1 := with_reply s p hlen b m) in *. change (runs ((ip4_output_if netif_output p (Some src) None ICMP_TTL 0 IP_PROTO_ICMP inp;; mret tt);; free_pbuf p) s1 (kept s R)).
  apply (runs_bind _ _ _ _ (kept s1 (ptr p ⊎ R))).
  - apply (runs_bind _ _ _ _ (kept s1 (ptr p ⊎ R))); [|intros a s' Hq; by apply runs_ret].
    apply (output_if_safe pools linkoutput netif_output s1 (ptr p ⊎ R) p (moved b hlen) l); try done; try (unfold is_u8, ICMP_TTL, IP_DEFAULT_TTL, IP_PROTO_ICMP; lia).
    rewrite ptr_some by done. multiset_solver.
  - intros a s' [Hok' He']. eapply runs_weaken; [by apply free_runs|]. intros a' s''. intros Hk.
    eapply kept_env; [exact He1|]. by eapply kept_env.
Qed.

(** The header moved back and forth. *)
Lemma room_restored s R p b l k : ip_ok pools linkoutput s R -> packet (n_pbufs (snet s)) p b l -> 0 < k < 65536 ->
  nb (pbuf_add_header p k) s = Ok (1, s) \/
  exists s1, nb (pbuf_add_header p k) s = Ok (0, s1) /\ nb (pbuf_remove_header p k) s1 = Ok (0, s).
Proof.
  intros Hok Hp Hk. destruct (packet_lookup _ _ _ _ Hp) as [Hz Eb]. destruct (packet_lens _ _ _ _ Hp) as [Hlen Htot].
  destruct (add_header_refs pools (snet s) _ p b k (ip_refs pools linkoutput s R Hok) Eb Hk) as [Ea|(_ & _ & Ea & Hr1)]; [left|right].
  - rewrite (nb_ok _ s _ _ Ea), set_snet_id. done.
  - assert (tot_len b + k < 65536) as Hfit by (eapply (add_header_fits (snet s) p b k); [done|lia|lia|done]).
    eexists. split; [by apply nb_ok|]. set (n1 := set_pbufs _ _) in *.
    destruct (remove_header_refs pools n1 _ p (moved b k) k Hr1 (lookup_insert_eq _ _ _)) as [Er _];
      [rewrite moved_small by lia; cbn [len tot_len with_tot_len with_len with_payload]; lia..|].
    rewrite (nb_ok _ (set_snet n1 s) _ _ Er). rewrite moved_back by lia. do 2 f_equal.
    unfold n1. cbn [n_pbufs set_pbufs]. rewrite insert_insert_eq, insert_id by done.
    change (set_snet (set_pbufs (n_pbufs (snet s)) (snet s)) s = s). by rewrite set_pbufs_id, set_snet_id.
Qed.

(** ** The copy *)

(** A new packet in front of the others: the store, and a packet that was there before. *)
Lemma packet_insert (ps : gmap Z pbuf) p b l r br : ps !! r = None -> packet ps p b l -> packet (<[r := br]> ps) p b l.
Proof.
  intros Ef (Hc & Ht & Ho). split_and!; [|done|done]. apply is_chain_insert; [|done].
  intros ([x d] & Hx & Hin)%list_elem_of_fmap. simpl in Hx. subst x. by rewrite (is_chain_lookup _ _ _ _ _ Hc Hin) in Ef.
Qed.

(** A packet of one struct that its holder alone refers to survives what others free. *)
Lemma keeps_single (n n' : net H) R r br : keeps (n_pbufs n) (n_pbufs n') -> refs pools n' R -> r ∈ R ->
  n_pbufs n !! r = Some br -> ref br = 1 -> n_pbufs n' !! r = Some br.
Proof.
  intros Hk ((fl & hl & _ & _ & Ho) & Hrc & _) Hr Er Hb. destruct (proj1 (proj2 Hrc) r Hr) as [b' E'].
  destruct (Hk r b' E') as (b0 & E0 & Eb & Hle). rewrite Er in E0. injection E0 as <-.
  destruct (Ho r b' E') as [? _]. rewrite E', Eb. f_equal. replace (ref b') with (ref br) by lia. by destruct br.
Qed.

Lemma ram_packet ps r n k : r <> NULL -> 0 <= n -> n + k < 65536 -> 0 <= k ->
  ps !! r = Some (moved (ram_pbuf r PBUF_LINK (n + k)) (- k)) -> packet ps r (moved (ram_pbuf r PBUF_LINK (n + k)) (- k)) [].
Proof.
  intros Hz Hn Hu Hk E. rewrite moved_small in E |- *; cbn [ram_pbuf len tot_len] in *; [|lia..].
  split_and!; [by split_and!| |].
  - cbn. change (sum_len []) with 0. split_and!; [lia..|done].
  - by repeat constructor.
Qed.

Lemma runs_free_eq s p k n : pbuf_free p (snet s) = Ok (k, n) -> free_pbuf p s = Ok (tt, set_snet n s).
Proof. intros E. unfold free_pbuf. by rewrite (bind_ok _ _ _ _ _ (nb_ok _ s _ _ E)). Qed.

(** Filling the copy [r]: the IP header, then the message. *)
Lemma fill_copy s R p b l r iphdr hlen :
  ip_ok pools linkoutput s (ptr r ⊎ (ptr p ⊎ R)) -> packet (n_pbufs (snet s)) p b l -> 20 <= hlen <= 60 -> r <> NULL -> r ∉ ((p, b) :: l).*1 ->
  n_pbufs (snet s) !! r = Some (ram_pbuf r PBUF_LINK (tot_len b + hlen)) -> tot_len b + hlen < 65536 ->
  valid_range (n_mem (snet s)) iphdr hlen ->
  let br := moved (ram_pbuf r PBUF_LINK (tot_len b + hlen)) (- hlen) in
  runs (nb (MEMCPY (payload (ram_pbuf r PBUF_LINK (tot_len b + hlen))) iphdr hlen);;
        x ← nb (pbuf_remove_header r hlen);
        if negb (x =? 0) then assert false;; free_pbuf r;; mret None
        else e ← nb (pbuf_copy r p);
             if negb (e =? ERR_OK) then free_pbuf r;; mret None else free_pbuf p;; mret (Some r)) s
    (fun o s' => o = Some r /\ ip_ok pools linkoutput s' (ptr r ⊎ R) /\ ip_env s s' /\ n_pbufs (snet s') !! r = Some br).
Proof.
  intros Hok Hp Hh Hrz Hrp Er Hfit Hv br. destruct (packet_lookup _ _ _ _ Hp) as [Hz Eb]. destruct (packet_lens _ _ _ _ Hp) as [Hlen Htot].
  set (b0 := ram_pbuf r PBUF_LINK (tot_len b + hlen)) in *. pose proof (ip_refs pools linkoutput s _ Hok) as Hr0.
  assert (valid_range (n_mem (snet s)) (payload b0) (tot_len b + hlen)) as Hv0.
  { destruct Hr0 as (_ & _ & Hpl & _). by destruct (Hpl r b0 Er) as (_ & _ & Hv0 & _). }
  destruct (memcpy_safe (snet s) (payload b0) iphdr hlen Hv) as (m1 & E1 & Hd1); [intros i Hi; apply Hv0; lia|lia|].
  eapply runs_step; [by apply nb_ok|]. destruct (ip_ok_mem pools linkoutput s _ m1 Hok Hd1) as [Hok1 He1].
  set (s1 := set_snet _ s) in *. change (set_smem m1 s) with s1 in Hok1, He1.
  destruct (remove_header_refs pools (snet s1) _ r b0 hlen (ip_refs pools linkoutput s1 _ Hok1) Er) as [E2 Hr2];
    [cbn [b0 ram_pbuf len tot_len]; lia..|]. fold br in E2, Hr2.
  eapply runs_step; [by apply nb_ok|]. cbn [negb Z.eqb]. set (n2 := set_pbufs _ _) in *.
  destruct (ip_ok_net pools linkoutput s1 _ _ n2 Hok1 Hr2 (same_dom_refl _)) as [Hok2 He2]. set (s2 := set_snet n2 s1) in *.
  assert (br = with_tot_len (tot_len b) (with_len (tot_len b) (with_payload (payload b0 + hlen) b0))) as Ebr.
  { unfold br. rewrite moved_small; cbn [b0 ram_pbuf len tot_len]; [|lia..]. rewrite Z.sub_opp_r. f_equal; [lia|f_equal; lia]. }
  assert (is_chain (n_pbufs (snet s2)) p ((p, b) :: l)) as Hc2 by (apply is_chain_insert; [done|exact (proj1 Hp)]).
  assert (n_pbufs (snet s2) !! r = Some br) as Er2 by apply lookup_insert_eq.
  assert (sum_len ((p, b) :: l) = tot_len b) as Es by (destruct Hp as (_ & (_ & ? & _) & _); rewrite sum_len_cons; lia).
  destruct (copy_safe (snet s2) r p ((p, b) :: l) br) as (m3 & Hd3 & E3); try done; try apply Hp; try (rewrite Ebr, Es; done).
  { by eapply refs_valid; [apply (ip_refs pools linkoutput s2 _ Hok2)|]. }
  { destruct (ip_refs pools linkoutput s2 _ Hok2) as (_ & _ & Hpl & _). by destruct (Hpl r br Er2) as (_ & _ & Hvr & _). }
  eapply runs_step; [by apply nb_ok|]. cbn [negb Z.eqb]. destruct (ip_ok_mem pools linkoutput s2 _ m3 Hok2 Hd3) as [Hok3 He3].
  set (s3 := set_snet _ s2) in *. change (set_smem m3 s2) with s3 in Hok3, He3. rewrite swap_ptr in Hok3.
  pose proof (ip_refs pools linkoutput s3 _ Hok3) as Hr3. rewrite outer_ptr in Hr3.
  destruct (free_refs pools _ _ _ Hr3 Hz) as (k & n4 & E4 & Hr4 & Em4 & Hk4).
  destruct (ip_ok_net pools linkoutput s3 _ _ n4 Hok3 Hr4) as [Hok4 He4]; [by rewrite Em4|].
  eapply runs_step; [eapply (runs_free_eq s3); exact E4|]. apply runs_ret. split_and!; [done|done| |].
  - etransitivity; [exact He1|]. etransitivity; [exact He2|]. etransitivity; [exact He3|exact He4].
  - change (n_pbufs n4 !! r = Some br). eapply keeps_single; [exact Hk4|exact Hr4| |exact Er2|by rewrite Ebr].
    rewrite outer_ptr, ptr_some by done. multiset_solver.
Qed.

Lemma echo_buffer_safe s R p b l hlen iphdr :
  ip_ok pools linkoutput s (ptr p ⊎ R) -> packet (n_pbufs (snet s)) p b l -> ref b = 1 -> 4 <= len b -> 8 <= tot_len b ->
  20 <= hlen <= 60 -> valid_range (n_mem (snet s)) iphdr hlen ->
  runs (echo_buffer pools p hlen iphdr) s (fun o s' => ip_env s s' /\
    match o with
    | None => ip_ok pools linkoutput s' (ptr p ⊎ R)
    | Some p' => ip_ok pools linkoutput s' (ptr p' ⊎ R) /\
        exists b' l', packet (n_pbufs (snet s')) p' b' l' /\ ref b' = 1 /\ 4 <= len b'
    end).
Proof.
  intros Hok Hp Hr H4 H8 Hh Hv. destruct (packet_lookup _ _ _ _ Hp) as [Hz Eb]. destruct (packet_lens _ _ _ _ Hp) as [Hlen Htot].
  unfold echo_buffer. set (k := hlen + PBUF_LINK_HLEN + PBUF_LINK_ENCAPSULATION_HLEN).
  destruct (room_restored s _ p b l k Hok Hp) as [Ea|(s1 & Ea & Er)]; [unfold k, PBUF_LINK_HLEN, PBUF_LINK_ENCAPSULATION_HLEN; lia|..];
    (eapply runs_step; [exact Ea|]); cbn [negb Z.eqb].
  2:{ eapply runs_step; [exact Er|]. cbn [negb Z.eqb]. apply runs_ret. split; [done|]. split; [done|]. exists b, l. done. }
  eapply runs_step; [by apply nb_rd|]. set (al := u16 (tot_len b + hlen)).
  destruct (Z.ltb_spec al (tot_len b)) as [|Hal]; [by apply runs_ret|].
  assert (al = tot_len b + hlen /\ tot_len b + hlen < 65536) as [-> Hfit].
  { subst al. unfold u16 in *. destruct (Z.lt_ge_cases (tot_len b + hlen) 65536) as [|Hge]; [by rewrite Z.mod_small by lia|].
    rewrite <- (Z_mod_plus_full _ (-1)), Z.mod_small in Hal by lia. lia. }
  pose proof (ip_refs pools linkoutput s _ Hok) as Hr0.
  destruct (alloc_ram_refs pools (snet s) _ PBUF_LINK (tot_len b + hlen) Hr0) as (r & n1 & E1 & Em & Hr1 & Hcase);
    [unfold PBUF_LINK; lia|lia|]. rewrite <- outer_ptr in Hr1.
  destruct (ip_ok_net pools linkoutput s _ _ n1 Hok Hr1) as [Hok1 He1]; [by rewrite Em|].
  eapply runs_step; [by apply nb_ok|]. destruct (Z.eqb_spec r NULL) as [->|Hrz].
  { apply runs_ret. rewrite ptr_null, (left_id_L ∅ (⊎)) in Hok1. done. }
  destruct Hcase as [[? _]|(_ & Ef & Es & _)]; [done|]. set (s1 := set_snet n1 s) in *.
  assert (n_pbufs (snet s1) !! r = Some (ram_pbuf r PBUF_LINK (tot_len b + hlen))) as Er
    by (change (n_pbufs n1 !! r = Some (ram_pbuf r PBUF_LINK (tot_len b + hlen))); rewrite Es; apply lookup_insert_eq).
  eapply runs_step; [by apply nb_rd|]. destruct (Z.ltb_spec (len (ram_pbuf r PBUF_LINK (tot_len b + hlen))) (hlen + SIZEOF_ICMP_ECHO_HDR)) as [Hlt|_];
    [cbn [ram_pbuf len] in Hlt; unfold SIZEOF_ICMP_ECHO_HDR in Hlt; lia|].
  assert (packet (n_pbufs (snet s1)) p b l) as Hp1 by (change (packet (n_pbufs n1) p b l); rewrite Es; by apply packet_insert).
  eapply runs_weaken; [apply (fill_copy s1 R p b l r iphdr hlen); try done|].
  - intros ([x d] & Hx & Hin)%list_elem_of_fmap. simpl in Hx. subst x. by rewrite (is_chain_lookup _ _ _ _ _ (proj1 Hp) Hin) in Ef.
  - change (valid_range (n_mem n1) iphdr hlen). by rewrite Em.
  - intros o s' (-> & Hok' & He' & Er'). split; [by etransitivity|]. split; [done|]. exists (moved (ram_pbuf r PBUF_LINK (tot_len b + hlen)) (- hlen)), []. split; [|split; [reflexivity|]].
    + apply ram_packet; [done|lia|lia|lia|exact Er'].
    + rewrite moved_small; cbn [ram_pbuf len tot_len with_tot_len with_len with_payload]; lia.
Qed.

(** ** Every message is consumed *)

Lemma hl_bytes_range v : 0 <= IPH_HL_BYTES v <= 60.
Proof.
  unfold IPH_HL_BYTES. assert (v &c 15 = v mod 16) as -> by exact (land_ones_mod v 4 ltac:(lia)). unfold u8.
  pose proof (Z.mod_pos_bound v 16). rewrite Z.mod_small; lia.
Qed.

(** The IP header of the packet being processed is readable. *)
Definition header_readable s (h : Z) : Prop :=
  exists v, n_mem (snet s) !! h = Some v /\ valid_range (n_mem (snet s)) h (IPH_HL_BYTES v).

Lemma icmp_input_safe s R p b l inp :
  ip_ok pools linkoutput s (ptr p ⊎ R) -> nif_live (i_arp s) inp -> nif_live (i_arp s) (current_netif (ip_data s)) ->
  packet (n_pbufs (snet s)) p b l -> ref b = 1 -> header_readable s (current_ip4_header (ip_data s)) ->
  runs (icmp_input pools netif_output p inp) s (kept s R).
Proof.
  intros Hok Hn (_ & nc & Enc & _) Hp Hr (v & Ev & Hv). destruct (packet_lookup _ _ _ _ Hp) as [Hz Eb].
  pose proof (hl_bytes_range v) as Hh. assert (runs (free_pbuf p) s (kept s R)) as Hfree by by apply free_runs.
  unfold icmp_input. apply runs_gets. eapply runs_step; [by apply nb_read_byte|].
  destruct (Z.ltb_spec (IPH_HL_BYTES v) IP_HLEN) as [|Hh20]; [done|]. unfold IP_HLEN in Hh20.
  eapply runs_step; [by apply nb_rd|]. destruct (Z.ltb_spec (len b) 4) as [|H4]; [done|].
  destruct (ip_refs pools linkoutput s _ Hok) as (_ & _ & Hpl & _). destruct (Hpl p b Eb) as (_ & _ & Hvb & _).
  destruct (Hvb (payload b)) as [ty Ety]; [lia|]. eapply runs_step; [by apply nb_read_byte|].
  destruct (ty =? ICMP_ER); [done|]. destruct (ty =? ICMP_ECHO); [|done].
  destruct (ip4_addr_ismulticast _); [done|]. eapply runs_step; [by apply ip_netif_ok|].
  destruct (isbroadcast _ _); [done|]. destruct (Z.ltb_spec (tot_len b) SIZEOF_ICMP_ECHO_HDR) as [|H8]; [done|].
  pose proof Hp as (Hc & Ht & _). destruct (refs_chain_data _ _ _ _ (ip_refs pools linkoutput s _ Hok) Hc) as [d Hd].
  destruct (chksum_pbuf_run s p _ d Hc Ht Hd) as (x & Ex & _). eapply runs_step; [exact Ex|].
  destruct (negb (x =? 0)); [done|]. eapply runs_bind; [apply (echo_buffer_safe s R p b l (IPH_HL_BYTES v)); try done; lia|].
  intros [p'|] s' [He Hs'].
  - destruct Hs' as (Hok' & b' & l' & Hp' & Hr' & H4'). eapply runs_weaken.
    + apply (echo_reply_safe s' R p' b' l'); try done; [|lia]. eapply nif_live_env; [exact (proj1 He)|done].
    + intros a s2. by apply kept_env.
  - eapply runs_weaken; [by apply free_runs|]. intros a s2. by apply kept_env.
Qed.

(** A write that changes nothing but bytes. *)
Lemma write_runs {A} s R a x (k : M (ip H T) A) Q :
  ip_ok pools linkoutput s R -> valid_range (n_mem (snet s)) a (Z.of_nat (length x)) ->
  (forall s', ip_ok pools linkoutput s' R -> ip_env s s' -> n_pbufs (snet s') = n_pbufs (snet s) -> runs k s' Q) ->
  runs (nb (write_bytes a x);; k) s Q.
Proof.
  intros Hok Hv Hk. destruct (store_is_Some _ _ _ Hv) as [m Em].
  destruct (ip_ok_mem pools linkoutput s R m Hok (same_dom_store _ _ _ _ Em)) as [Hok' He'].
  eapply runs_step; [by apply nb_write|]. by apply Hk.
Qed.

Lemma env_valid s s' a n : ip_env s s' -> valid_range (n_mem (snet s)) a n -> valid_range (n_mem (snet s')) a n.
Proof. intros ((_ & Hd) & _) Hv. by eapply same_dom_valid. Qed.

Lemma ram_packet_ip ps q n : q <> NULL -> 0 <= n < 65536 -> ps !! q = Some (ram_pbuf q PBUF_IP n) ->
  packet ps q (ram_pbuf q PBUF_IP n) [].
Proof.
  intros Hz Hn E. split_and!; [by split_and!| |by repeat constructor].
  cbn. change (sum_len []) with 0. split_and!; [lia..|done].
Qed.

(** The end of [icmp_send_response], from the lookup of the route on. *)
Lemma respond_ok s R q n to :
  ip_ok pools linkoutput s (ptr q ⊎ R) -> q <> NULL -> 8 <= n < 65536 ->
  n_pbufs (snet s) !! q = Some (ram_pbuf q PBUF_IP n) ->
  runs (nif ← ip4_route to;
    (if negb (nif =? NULL) then
       nb (write_bytes (payload (ram_pbuf q PBUF_IP n) + 2) (bytes16 0));;
       sum ← nb (chksum_mem (payload (ram_pbuf q PBUF_IP n)) (len (ram_pbuf q PBUF_IP n)));
       nb (write_bytes (payload (ram_pbuf q PBUF_IP n) + 2) (bytes16 sum));;
       ip4_output_if netif_output q None (Some to) ICMP_TTL 0 IP_PROTO_ICMP nif;;
       mret tt
     else mret tt);; free_pbuf q) s (kept s R).
Proof.
  intros Hok Hz Hn Eq. set (bq := ram_pbuf q PBUF_IP n) in *.
  assert (valid_range (n_mem (snet s)) (payload bq) n) as Hv.
  { destruct (ip_refs pools linkoutput s _ Hok) as (_ & _ & Hpl & _). by destruct (Hpl q bq Eq) as (_ & _ & Hv & _). }
  destruct (route_ok pools linkoutput s _ to Hok) as (nif & Er & _ & Hl). eapply runs_step; [exact Er|].
  assert (forall s' {A} (a : A), kept s (ptr q ⊎ R) a s' -> runs (free_pbuf q) s' (kept s R)) as Hend.
  { intros s' A a [Hok' He']. eapply runs_weaken; [by apply free_runs|]. intros u s''. by apply kept_env. }
  destruct (Z.eqb_spec nif NULL) as [->|Hnz]; cbn [negb]; [by apply (runs_bind _ _ _ _ (kept s (ptr q ⊎ R))); [apply runs_ret; done|intros [] s'; apply Hend]|].
  destruct Hl as [?|Hl]; [done|]. apply (runs_bind _ _ _ _ (kept s (ptr q ⊎ R))); [|intros [] s'; apply Hend].
  eapply write_runs; [done|intros i Hi; apply Hv; cbn [length bytes16] in Hi; lia|]. intros s1 Hok1 He1 Es1.
  pose proof (env_valid _ _ _ _ He1 Hv) as Hv1.
  destruct (load_is_Some (n_mem (snet s1)) (payload bq) (Z.to_nat (len bq))) as [x Ex]; [intros i Hi; apply Hv1; change (len bq) with n in Hi; lia|].
  eapply runs_step; [by apply nb_chksum|].
  eapply write_runs; [done|intros i Hi; apply Hv1; cbn [length bytes16] in Hi; lia|]. intros s2 Hok2 He2 Es2.
  assert (ip_env s s2) as He by (by etransitivity). apply (runs_bind _ _ _ _ (kept s (ptr q ⊎ R))); [|intros r s' Hq; by apply runs_ret].
  assert (n_pbufs (snet s2) !! q = Some bq) as Eq2 by (by rewrite Es2, Es1).
  eapply runs_weaken; [apply (output_if_safe pools linkoutput netif_output s2 (ptr q ⊎ R) q bq [])|].
  - done.
  - eapply nif_live_env; [exact (proj1 He)|done].
  - rewrite ptr_some by done. multiset_solver.
  - by apply ram_packet_ip; [|lia|].
  - done.
  - unfold is_u8, ICMP_TTL, IP_DEFAULT_TTL; lia.
  - unfold is_u8, IP_PROTO_ICMP; lia.
  - intros r s' [? ?]. split; [done|]. by etransitivity.
Qed.

Lemma send_response_safe s R p b type code :
  ip_ok pools linkoutput s R -> n_pbufs (snet s) !! p = Some b -> valid_range (n_mem (snet s)) (payload b) 28 ->
  runs (icmp_send_response pools netif_output p type code) s (kept s R).
Proof.
  intros Hok Eb Hv. unfold icmp_send_response. eapply runs_step; [by apply nb_rd|].
  pose proof (ip_refs pools linkoutput s R Hok) as Hr0. pose proof Hr0 as (_ & _ & Hpl & _). destruct (Hpl p b Eb) as (_ & Htl & _).
  set (rl := if tot_len b <? IP_HLEN + ICMP_DEST_UNREACH_DATASIZE then _ else _).
  assert (0 <= rl <= 28) as Hrl by (subst rl; unfold IP_HLEN, ICMP_DEST_UNREACH_DATASIZE; destruct (Z.ltb_spec (tot_len b) (20 + 8)); lia).
  unfold SIZEOF_ICMP_ECHO_HDR.
  destruct (alloc_ram_refs pools (snet s) _ PBUF_IP (8 + rl) Hr0) as (q & n1 & E1 & Em & Hr1 & Hcase); [unfold PBUF_IP; lia|lia|].
  rewrite <- outer_ptr in Hr1. destruct (ip_ok_net pools linkoutput s _ _ n1 Hok Hr1) as [Hok1 He1]; [by rewrite Em|].
  eapply runs_step; [by apply nb_ok|]. set (s1 := set_snet n1 s) in *. destruct (Z.eqb_spec q NULL) as [->|Hz].
  { apply runs_ret. rewrite ptr_null, (left_id_L ∅ (⊎)) in Hok1. done. }
  destruct Hcase as [[? _]|(_ & Ef & Es & _)]; [done|].
  assert (n_pbufs (snet s1) !! q = Some (ram_pbuf q PBUF_IP (8 + rl))) as Eq
    by (change (n_pbufs n1 !! q = Some (ram_pbuf q PBUF_IP (8 + rl))); rewrite Es; apply lookup_insert_eq).
  eapply runs_step; [by apply nb_rd|]. set (bq := ram_pbuf q PBUF_IP (8 + rl)) in *.
  apply runs_assert; [apply Z.leb_le; cbn [bq ram_pbuf len]; lia|].
  assert (valid_range (n_mem (snet s1)) (payload bq) (8 + rl)) as Hvq.
  { destruct (ip_refs pools linkoutput s1 _ Hok1) as (_ & _ & Hpq & _). by destruct (Hpq q bq Eq) as (_ & _ & Hx & _). }
  pose proof (env_valid _ _ _ _ He1 Hv) as Hv1.
  eapply (write_runs s1 _ _ [type]); [done|intros i Hi; apply Hvq; cbn [length bytes16] in Hi; lia|]. intros s2 Hok2 He2 Es2.
  pose proof (env_valid _ _ _ _ He2 Hvq) as Hvq2.
  eapply (write_runs s2 _ _ [code]); [done|intros i Hi; apply Hvq2; cbn [length bytes16] in Hi; lia|]. intros s3 Hok3 He3 Es3.
  pose proof (env_valid _ _ _ _ He3 Hvq2) as Hvq3.
  eapply write_runs; [done|intros i Hi; apply Hvq3; cbn [length bytes16] in Hi; lia|]. intros s4 Hok4 He4 Es4.
  pose proof (env_valid _ _ _ _ He4 Hvq3) as Hvq4.
  eapply write_runs; [done|intros i Hi; apply Hvq4; cbn [length bytes16] in Hi; lia|]. intros s5 Hok5 He5 Es5.
  pose proof (env_valid _ _ _ _ He5 Hvq4) as Hvq5.
  assert (ip_env s1 s5) as He15 by (etransitivity; [exact He2|]; etransitivity; [exact He3|]; by etransitivity).
  pose proof (env_valid _ _ _ _ He15 Hv1) as Hv5.
  destruct (memcpy_safe (snet s5) (payload bq + 8) (payload b) rl) as (m6 & E6 & Hd6); [intros i Hi; apply Hv5; lia|intros i Hi; apply Hvq5; lia|lia|].
  eapply runs_step; [by apply nb_ok|]. destruct (ip_ok_mem pools linkoutput s5 _ m6 Hok5 Hd6) as [Hok6 He6].
  set (s6 := set_snet _ s5) in *. change (set_smem m6 s5) with s6 in Hok6, He6.
  pose proof (env_valid _ _ _ _ He6 Hv5) as Hv6.
  destruct (load_is_Some (n_mem (snet s6)) (payload b + 12) 4) as [w Ew]; [intros i Hi; apply Hv6; lia|].
  eapply runs_step; [by apply nb_read_u32|]. eapply runs_weaken.
  - apply (respond_ok s6 R q (8 + rl) (word32 w)); [done|done|lia|].
    change (n_pbufs (snet s5) !! q = Some bq). by rewrite Es5, Es4, Es3, Es2.
  - intros a s'. apply kept_env. etransitivity; [exact He1|]. by etransitivity.
Qed.

(** ** What the reply is *)

Lemma reply_mem_data m h hlen src dst m3 hdr d : reply_mem m h hlen src dst m3 -> 20 <= hlen -> (4 <= length d)%nat ->
  load m h (Z.to_nat hlen + length d) = Some (hdr ++ d) -> length hdr = Z.to_nat hlen ->
  load m3 h (Z.to_nat hlen + length d) = Some (reply_header hdr src dst (inet_chksum h (reply_header hdr src dst 0)) ++ reply_msg d) /\
  (forall i, ~ (h <= i < h + hlen + 4) -> m3 !! i = m !! i).
Proof.
  intros (m1 & m2 & w & hd & E1 & Ew & E2 & Eh & E3) Hh H4 Hl Hlen.
  destruct d as [|t [| code [| c0 [| c1 rest]]]]; simpl in H4; try lia. set (d := t :: code :: c0 :: c1 :: rest) in *.
  set (N := (Z.to_nat hlen + length d)%nat) in *. assert (Z.of_nat N = hlen + Z.of_nat (length d)) as EN by lia.
  assert (4 <= Z.of_nat (length d)) as Hd4 by (subst d; simpl; lia).
  assert (within h (Z.of_nat N) (reply_writes1 h (h + hlen) src dst)) as W1 by (unfold within, reply_writes1; repeat constructor; simpl; lia).
  assert (forall c, within h (Z.of_nat N) (reply_writes2 h (h + hlen) c)) as W2 by (intros; unfold within, reply_writes2; repeat constructor; simpl; lia).
  pose proof (load_stores h N _ _ _ _ W1 E1 Hl) as L1.
  assert (patches h (reply_writes1 h (h + hlen) src dst) (hdr ++ d) = header1 hdr src dst ++ (0 :: code :: c0 :: c1 :: rest)) as P1.
  { unfold patches, reply_writes1. cbn [foldl fst snd]. replace (Z.to_nat (h + 12 - h)) with 12%nat by lia.
    replace (Z.to_nat (h + 16 - h)) with 16%nat by lia. replace (Z.to_nat (h + hlen - h)) with (length hdr) by lia.
    rewrite (patch_app_l 12), (patch_app_l 16) by (rewrite ?patch_length; simpl; lia).
    rewrite patch_app_r by (rewrite !patch_length; simpl; rewrite ?patch_length; simpl; lia).
    rewrite !patch_length by (rewrite ?patch_length; simpl; lia). rewrite Nat.sub_diag. done. }
  rewrite P1 in L1. assert (length (header1 hdr src dst) = Z.to_nat hlen) as Hh1.
  { unfold header1. rewrite !patch_length; simpl; rewrite ?patch_length; simpl; lia. }
  assert (w = [c0; c1]) as ->.
  { destruct (load_split _ _ _ _ _ L1) as [_ L]. rewrite drop_app_length' in L by done.
    pose proof (load_sub _ _ _ _ 2 2 L ltac:(simpl; lia)) as Lw. rewrite Z2Nat.id in Lw by lia.
    change (Z.of_nat 2) with 2 in Lw. rewrite Ew in Lw. by injection Lw as ->. }
  pose proof (load_stores h N _ _ _ _ (W2 (le16 [c0; c1])) E2 L1) as L2.
  assert (patches h (reply_writes2 h (h + hlen) (le16 [c0; c1])) (header1 hdr src dst ++ (0 :: code :: c0 :: c1 :: rest)) =
    header2 hdr src dst ++ reply_msg d) as P2.
  { unfold patches, reply_writes2. cbn [foldl fst snd]. replace (Z.to_nat (h + 8 - h)) with 8%nat by lia.
    replace (Z.to_nat (h + 10 - h)) with 10%nat by lia. replace (Z.to_nat (h + hlen + 2 - h)) with (length (header1 hdr src dst) + 2)%nat by lia.
    rewrite patch_app_r by lia. replace (length (header1 hdr src dst) + 2 - length (header1 hdr src dst))%nat with 2%nat by lia.
    rewrite (patch_app_l 8), (patch_app_l 10) by (rewrite ?patch_length; simpl; lia). done. }
  rewrite P2 in L2. assert (length (header2 hdr src dst) = Z.to_nat hlen) as Hh2.
  { unfold header2. rewrite !patch_length; simpl; rewrite ?patch_length; simpl; lia. }
  assert (hd = header2 hdr src dst) as ->.
  { destruct (load_split _ _ _ _ _ L2) as [L _]. rewrite take_app_length' in L by done. rewrite Eh in L. by injection L. }
  destruct (header2_eq hdr src dst) as [H2a H2b]; [lia|]. rewrite H2a in E3.
  assert (within h (Z.of_nat N) [(h + 10, bytes16 (inet_chksum h (reply_header hdr src dst 0)))]) as W3 by (unfold within; repeat constructor; simpl; lia).
  assert (stores m2 [(h + 10, bytes16 (inet_chksum h (reply_header hdr src dst 0)))] = Some m3) as E3' by (cbn [stores fst snd]; by rewrite E3).
  split.
  - rewrite (load_stores h N _ _ _ _ W3 E3' L2). f_equal. unfold patches. cbn [foldl fst snd].
    replace (Z.to_nat (h + 10 - h)) with 10%nat by lia. rewrite patch_app_l by (simpl; lia). by rewrite H2b.
  - intros i Hi. assert (~ (h <= i < h + (hlen + 4))) as Hi' by lia.
    assert (m3 !! i = m2 !! i) as -> by (eapply stores_outside; [|exact E3'|exact Hi']; unfold within; repeat constructor; simpl; lia).
    assert (m2 !! i = m1 !! i) as -> by (eapply stores_outside; [|exact E2|exact Hi']; unfold within, reply_writes2; repeat constructor; simpl; lia).
    eapply stores_outside; [|exact E1|exact Hi']. unfold within, reply_writes1. repeat constructor; simpl; lia.
Qed.

Lemma word32_bytes x : is_u32 x -> word32 (bytes32 x) = x.
Proof. intros Hx. unfold word32, bytes32, is_u32 in *. lia. Qed.

Lemma reply_header_dst hdr src dst c rest : (20 <= length hdr)%nat -> take 4 (drop 16 (reply_header hdr src dst c ++ rest)) = bytes32 dst.
Proof. intros Hl. do 20 (destruct hdr as [|? hdr]; [simpl in Hl; lia|]). done. Qed.

Lemma reply_msg_app d1 d2 : (4 <= length d1)%nat -> reply_msg (d1 ++ d2) = reply_msg d1 ++ d2.
Proof. intros Hl. do 4 (destruct d1 as [|? d1]; [simpl in Hl; lia|]). done. Qed.

Lemma chain_data_ext m m' l : Forall (fun ab => forall i, payload ab.2 <= i < payload ab.2 + Z.of_nat (Z.to_nat (len ab.2)) -> m' !! i = m !! i) l ->
  chain_data m' l = chain_data m l.
Proof.
  induction 1 as [|[a b] l Hb _ IH]; [done|]. simpl in *. rewrite IH. by rewrite (load_ext m' m (payload b)).
Qed.

(** Sending a packet that has its header: the destination is read from it. *)
Lemma output_hdrincl s p b src ttl tos proto nif w : n_pbufs (snet s) !! p = Some b -> ref b = 1 -> IP_HLEN <= len b ->
  load (n_mem (snet s)) (payload b + 16) 4 = Some w ->
  ip4_output_if netif_output p src None ttl tos proto nif s = on_arp (netif_output nif p (word32 w)) s.
Proof.
  intros Eb Hr Hl Ew. unfold ip4_output_if, ip4_output_if_src. rewrite (bind_ok _ _ _ _ _ (nb_rd s p b Eb)).
  rewrite (bind_ok (assert _) _ _ tt s) by (unfold assert; by rewrite Hr). rewrite (bind_ok _ _ _ _ _ (nb_rd s p b Eb)).
  destruct (Z.ltb_spec (len b) IP_HLEN) as [|_]; [lia|]. by rewrite (bind_ok _ _ _ _ _ (nb_read_u32 s _ w Ew)).
Qed.

(** An echo request as it arrives: its header of [hlen] bytes [hdr] directly in front of
    the message [d], room for the link header in front of that, and a checksum that
    verifies. *)
Record echo_request s (p : Z) (b : pbuf) (l : list (Z * pbuf)) (hlen : Z) (hdr d : list Z) : Prop := {
  er_packet : packet (n_pbufs (snet s)) p b l /\ ref b = 1;
  er_current : current_ip4_header (ip_data s) = payload b - hlen;
  er_header : load (n_mem (snet s)) (payload b - hlen) (Z.to_nat hlen) = Some hdr /\ bytes_ok hdr;
  er_hlen : hlen = IPH_HL_BYTES (hd 0 hdr) /\ IP_HLEN <= hlen;
  er_room : contiguous b /\ p + 16 <= payload b - hlen - PBUF_LINK_HLEN /\ tot_len b + hlen + PBUF_LINK_HLEN < 65536;
  er_data : chain_data (n_mem (snet s)) ((p, b) :: l) = Some d /\ bytes_ok d;
  er_lens : 4 <= len b /\ SIZEOF_ICMP_ECHO_HDR <= tot_len b;
  er_apart : apart (payload b - hlen) (hlen + len b) l;
  er_type : hd 0 d = ICMP_ECHO /\ inet_chksum 0 d = 0;
  er_addr : is_u32 (current_iphdr_src (ip_data s)) /\ is_u32 (current_iphdr_dest (ip_data s)) }.

Lemma echo_buffer_inplace s R p b l hlen hdr d : ip_ok pools linkoutput s R -> echo_request s p b l hlen hdr d ->
  echo_buffer pools p hlen (payload b - hlen) s = Ok (Some p, s).
Proof.
  intros Hok []. destruct er_packet0 as [Hp Hr]. destruct (packet_lookup _ _ _ _ Hp) as [Hz Eb].
  destruct (packet_lens _ _ _ _ Hp) as [Hlen Htot]. destruct er_room0 as (Hc & Hlo & Hfit). destruct er_hlen0 as [Eh Hh].
  pose proof (hl_bytes_range (hd 0 hdr)) as Hh60. rewrite <- Eh in Hh60. unfold PBUF_LINK_HLEN, IP_HLEN in *. unfold echo_buffer.
  set (k := hlen + PBUF_LINK_HLEN + PBUF_LINK_ENCAPSULATION_HLEN).
  assert (k = hlen + 14) as Ek by (unfold k, PBUF_LINK_HLEN, PBUF_LINK_ENCAPSULATION_HLEN; lia).
  destruct (room_restored s R p b l k Hok Hp) as [Ea|(s1 & Ea & Er)]; [lia|exfalso|].
  - rewrite (nb_ok _ s _ _ (add_header_succeeds (snet s) p b k Eb Hz ltac:(lia) ltac:(lia) ltac:(lia) Hc ltac:(lia))) in Ea. done.
  - rewrite (bind_ok _ _ _ _ _ Ea). cbn [negb Z.eqb]. by rewrite (bind_ok _ _ _ _ _ Er).
Qed.

(** The request passes all tests of [icmp_input]. *)
Lemma echo_accepted s R p b l inp hlen hdr d n : ip_ok pools linkoutput s R -> echo_request s p b l hlen hdr d ->
  nifs (i_arp s) !! current_netif (ip_data s) = Some n -> ip4_addr_ismulticast (current_iphdr_dest (ip_data s)) = false ->
  isbroadcast (current_iphdr_dest (ip_data s)) n = false ->
  icmp_input pools netif_output p inp s = echo_reply netif_output p hlen (current_iphdr_dest (ip_data s)) inp s.
Proof.
  intros Hok Hreq En Hmc Hbc. pose proof Hreq as []. destruct er_packet0 as [Hp Hr]. destruct (packet_lookup _ _ _ _ Hp) as [Hz Eb].
  destruct er_hlen0 as [Eh Hh], er_header0 as [Ehdr _], er_data0 as [Hd Hdok], er_lens0 as [H4 H8], er_type0 as [Hty Hsum].
  pose proof Hp as (Hc & Ht & _). unfold icmp_input. rewrite (bind_ok (gets _) _ _ (ip_data s) s) by done. rewrite er_current0.
  assert (n_mem (snet s) !! (payload b - hlen) = Some (hd 0 hdr)) as Ev.
  { pose proof (load_lookup _ _ _ _ 0 Ehdr) as Hx. rewrite Z.add_0_r in Hx. rewrite Hx by (unfold IP_HLEN in Hh; lia).
    pose proof (load_length _ _ _ _ Ehdr). destruct hdr; [simpl in *; unfold IP_HLEN in Hh; lia|done]. }
  rewrite (bind_ok _ _ _ _ _ (nb_read_byte s _ _ Ev)). rewrite <- Eh. destruct (Z.ltb_spec hlen IP_HLEN) as [|_]; [lia|].
  rewrite (bind_ok _ _ _ _ _ (nb_rd s p b Eb)). destruct (Z.ltb_spec (len b) 4) as [|_]; [lia|].
  assert (n_mem (snet s) !! payload b = Some ICMP_ECHO) as Ety.
  { destruct (chain_data_cons _ _ _ _ _ Hd) as (d1 & d2 & -> & E1 & _ & El1). pose proof (load_lookup _ _ _ _ 0 E1) as Hx.
    rewrite Z.add_0_r in Hx. rewrite Hx by lia. destruct d1; [simpl in El1; lia|]. simpl in *. by rewrite Hty. }
  rewrite (bind_ok _ _ _ _ _ (nb_read_byte s _ _ Ety)). cbn [Z.eqb ICMP_ECHO ICMP_ER Pos.eqb]. rewrite Hmc.
  rewrite (bind_ok _ _ _ _ _ (ip_netif_ok s _ n En)), Hbc. destruct (Z.ltb_spec (tot_len b) SIZEOF_ICMP_ECHO_HDR) as [|_]; [lia|].
  destruct (chksum_pbuf_run s p _ d Hc Ht Hd) as (x & Ex & Hx). rewrite (bind_ok _ _ _ _ _ Ex).
  assert (x = 0) as ->.
  { rewrite <- Hsum. apply Hx; [done|]. rewrite (chain_data_length _ _ _ Ht Hd). destruct Ht as (_ & ? & ? & _). rewrite sum_len_cons. lia. }
  cbn [negb Z.eqb]. by rewrite (bind_ok _ _ _ _ _ (echo_buffer_inplace s R p b l hlen hdr d Hok Hreq)).
Qed.

(** The packet with the reply in it. *)
Lemma reply_data s p b l hlen hdr d m :
  echo_request s p b l hlen hdr d -> tot_len b + hlen < 65536 ->
  reply_mem (n_mem (snet s)) (payload b - hlen) hlen (current_iphdr_dest (ip_data s)) (current_iphdr_src (ip_data s)) m ->
  let c := inet_chksum (payload b - hlen) (reply_header hdr (current_iphdr_dest (ip_data s)) (current_iphdr_src (ip_data s)) 0) in
  chain_data m ((p, moved b hlen) :: l) =
    Some (reply_header hdr (current_iphdr_dest (ip_data s)) (current_iphdr_src (ip_data s)) c ++ reply_msg d) /\
  load m (payload b - hlen + 16) 4 = Some (bytes32 (current_iphdr_src (ip_data s))).
Proof.
  intros [] Hfit Hm c. destruct er_packet0 as [Hp _]. destruct (packet_lens _ _ _ _ Hp) as [Hlen Htot].
  destruct er_header0 as [Ehdr Hhok], er_hlen0 as [Eh Hh], er_data0 as [Hd Hdok], er_lens0 as [H4 _]. unfold IP_HLEN in Hh.
  destruct (chain_data_cons _ _ _ _ _ Hd) as (d1 & d2 & -> & E1 & E2 & El1). pose proof (load_length _ _ _ _ Ehdr) as Elh.
  assert (load (n_mem (snet s)) (payload b - hlen) (Z.to_nat hlen + length d1) = Some (hdr ++ d1)) as Hl.
  { rewrite load_app, Ehdr. cbn [mbind option_bind]. replace (payload b - hlen + Z.of_nat (Z.to_nat hlen)) with (payload b) by lia.
    rewrite El1, E1. done. }
  assert (4 <= length d1)%nat as H4' by lia.
  destruct (reply_mem_data _ _ _ _ _ _ _ _ Hm Hh H4' Hl Elh) as [Hload Hout]. fold c in Hload. split.
  - cbn [chain_data]. rewrite moved_small by lia. cbn [payload len with_tot_len with_len with_payload].
    replace (Z.to_nat (len b + hlen)) with (Z.to_nat hlen + length d1)%nat by lia. rewrite Hload. cbn [mbind option_bind].
    rewrite (chain_data_ext (n_mem (snet s)) m l), E2.
    + cbn [mbind option_bind]. rewrite (reply_msg_app d1 d2) by lia. by rewrite <- app_assoc.
    + eapply Forall_impl; [exact er_apart0|]. intros ab Hab i Hi. apply Hout. cbv beta in Hab. lia.
  - pose proof (load_sub m (payload b - hlen) (Z.to_nat hlen + length d1) _ 16 4 Hload ltac:(lia)) as Hs. change (Z.of_nat 16) with 16 in Hs. rewrite Hs.
    f_equal. apply reply_header_dst. lia.
Qed.

(** C16: ping. An echo request that arrives with room for the link header in front of it is
    answered in place: what is handed to the interface, for the sender's address, is the
    request's data behind a header with the addresses exchanged and time to live 255;
    both the IP and the ICMP checksum of the reply verify, and the packet is released
    afterwards. *)
Theorem icmp_echo_answer s (R : gmultiset Z) (p : Z) (b : pbuf) (l : list (Z * pbuf)) (inp hlen : Z) (hdr d : list Z) (n : nif)
  (Hok : ip_ok pools linkoutput s R) (Hreq : echo_request s p b l hlen hdr d)
  (En : nifs (i_arp s) !! current_netif (ip_data s) = Some n)
  (Hmc : ip4_addr_ismulticast (current_iphdr_dest (ip_data s)) = false)
  (Hbc : isbroadcast (current_iphdr_dest (ip_data s)) n = false) :
  exists s1 c, let src := current_iphdr_src (ip_data s) in let dst := current_iphdr_dest (ip_data s) in
    icmp_input pools netif_output p inp s = (on_arp (netif_output inp p src);; free_pbuf p) s1 /\
    n_pbufs (snet s1) = <[p := moved b hlen]> (n_pbufs (snet s)) /\
    chain_data (n_mem (snet s1)) ((p, moved b hlen) :: l) = Some (reply_header hdr dst src c ++ reply_msg d) /\
    inet_chksum (payload b - hlen) (reply_header hdr dst src c) = 0 /\ inet_chksum 0 (reply_msg d) = 0.
Proof.
  rewrite (echo_accepted s R p b l inp hlen hdr d n Hok Hreq En Hmc Hbc).
  pose proof Hreq as []. destruct er_packet0 as [Hp Hr]. destruct (packet_lookup _ _ _ _ Hp) as [Hz Eb].
  destruct (packet_lens _ _ _ _ Hp) as [Hlen Htot]. destruct er_room0 as (Hc & Hlo & Hfit). destruct er_hlen0 as [Eh Hh].
  pose proof (hl_bytes_range (hd 0 hdr)) as Hh60. rewrite <- Eh in Hh60. unfold PBUF_LINK_HLEN, IP_HLEN in *.
  destruct er_lens0 as [H4 H8], er_header0 as [Ehdr Hhok], er_data0 as [Hd Hdok], er_type0 as [Hty Hsum], er_addr0 as [Hs32 Hd32].
  destruct (echo_reply_run s R p b l hlen (current_iphdr_dest (ip_data s)) inp Hok Hp H4 ltac:(lia)) as [[Ea _]|(m & Hm & _ & _ & _ & Hfit' & E)].
  { rewrite (add_header_succeeds (snet s) p b hlen Eb Hz) in Ea; try done; lia. }
  destruct (reply_data s p b l hlen hdr d m Hreq Hfit' Hm) as [Hdata Hdst].
  exists (with_reply s p hlen b m), (inet_chksum (payload b - hlen) (reply_header hdr (current_iphdr_dest (ip_data s)) (current_iphdr_src (ip_data s)) 0)).
  cbv zeta. rewrite E. split_and!; [|done|exact Hdata| |].
  - rewrite bind_assoc. rewrite <- (word32_bytes (current_iphdr_src (ip_data s)) Hs32).
    assert (len (moved b hlen) = len b + hlen) as Elm by (by rewrite moved_small by lia).
    apply (bind_eq _ _ (fun _ => free_pbuf p)).
    apply (output_hdrincl (with_reply s p hlen b m) p (moved b hlen)); [apply lookup_insert_eq|done|rewrite Elm; unfold IP_HLEN; lia|exact Hdst].
  - refine (proj1 (reply_header_ok (payload b - hlen) hdr _ _ Hhok _ Hd32 Hs32)). rewrite (load_length _ _ _ _ Ehdr). lia.
  - assert (Z.of_nat (length d) = tot_len b) as Eld.
    { rewrite (chain_data_length _ _ _ (proj1 (proj2 Hp)) Hd), sum_len_cons. by destruct Hp as (_ & (_ & -> & _) & _). }
    refine (proj2 (proj2 (reply_msg_ok 0 d Hdok _ Hty _ Hsum))); unfold SIZEOF_ICMP_ECHO_HDR in H8; lia.
Qed.
End Spec.
