(* ===== verification/IpInput.v ===== *)
(** * Packet input: [ip4_input] of core/ipv4/ip4.c and [ethernet_input] of netif/ethernet.c

    The path of a received frame up to the transport protocol. [tcp_input] is a
    parameter here: TCP is a layer above, with a state of its own. *)

From S2P Require Import Prelude Chksum Memp Pbuf PbufSpec PbufData PbufRefs Ethernetif Ip4Addr Ethernet Etharp Ip4 Icmp.
From stdpp Require Import base numbers list gmap.
Open Scope Z_scope.
Open Scope c_scope.

Definition PBUF_FLAG_LLBCAST : Z := 8.
Definition PBUF_FLAG_LLMCAST : Z := 16.
Definition NETIF_NO_INDEX : Z := 0.

Definition with_flags (x : Z) (b : pbuf) : pbuf :=
  {| next := next b; payload := payload b; tot_len := tot_len b; len := len b;
     type_internal := type_internal b; Pbuf.flags := x; ref := ref b; if_idx := if_idx b |}.
Definition with_if_idx (x : Z) (b : pbuf) : pbuf :=
  {| next := next b; payload := payload b; tot_len := tot_len b; len := len b;
     type_internal := type_internal b; Pbuf.flags := Pbuf.flags b; ref := ref b; if_idx := x |}.

(** [ip4_input_accept]: the destination is the interface's address or a broadcast. *)
Definition ip4_input_accept (dest : Z) (n : nif) : bool :=
  if netif_is_up n && negb (ip4_addr_isany (ip_addr n))
  then ip4_addr_cmp dest (ip_addr n) || isbroadcast dest n else false.

Section Input.
Context (pools : memp_t -> memp_desc) {H : Type} `{HH : !Heap H} {T : Type}.
Context (netif_output : Z -> Z -> Z -> M (arp H) Z) (linkoutput : Z -> Z -> M (eth H) Z).
Context (tcp_input : Z -> Z -> M (ip H T) unit).

(** The loop over the other interfaces. *)
Fixpoint accept_loop (dest inp : Z) (l : list Z) : M (ip H T) Z :=
  match l with
  | [] => mret NULL
  | a :: l' =>
      if a =? inp then accept_loop dest inp l'
      else n ← ip_netif a; if ip4_input_accept dest n then mret a else accept_loop dest inp l'
  end.

(** The interface the packet is for, or NULL. *)
Definition match_netif (dest inp : Z) : M (ip H T) Z :=
  n ← ip_netif inp;
  if ip4_addr_ismulticast dest then
    if netif_is_up n && negb (ip4_addr_isany (ip_addr n)) then mret inp else mret NULL
  else if ip4_input_accept dest n then mret inp
  else if negb (ip4_addr_isloopback dest) then l ← gets netif_list; accept_loop dest inp l
  else mret NULL.

Definition drop_packet (p : Z) : M (ip H T) Z := nb (pbuf_free p);; mret ERR_OK.

(** "send to upper layers" *)
Definition deliver (p inp netif iphdr iphdr_hlen src dest : Z) : M (ip H T) Z :=
  v_hl ← nb (read_byte iphdr);
  set_ip_data (mk_globals netif inp iphdr (IPH_HL_BYTES v_hl) src dest);;
  nb (pbuf_remove_header p iphdr_hlen);;
  proto ← nb (read_byte (iphdr + 9));
  (if proto =? IP_PROTO_TCP then tcp_input p inp
   else if proto =? IP_PROTO_ICMP then icmp_input pools netif_output p inp
   else
     n ← ip_netif netif;
     (if negb (isbroadcast dest n) && negb (ip4_addr_ismulticast dest) then
        nb (pbuf_header_force p iphdr_hlen);;
        icmp_dest_unreach pools netif_output p ICMP_DUR_PROTO
      else mret tt);;
     free_pbuf p);;
  set_ip_data (mk_globals NULL NULL NULL 0 IPADDR_ANY IPADDR_ANY);;
  mret ERR_OK.

Definition ip4_input (p inp : Z) : M (ip H T) Z :=
  b ← nb (rd p);
  let iphdr := payload b in
  v_hl ← nb (read_byte iphdr);
  if negb (IPH_V v_hl =? 4) then drop_packet p
  else
    let iphdr_hlen := IPH_HL_BYTES v_hl in
    len_be ← nb (read_u16 (iphdr + 2));
    let iphdr_len := lwip_htons len_be in
    (if iphdr_len <? tot_len b then nb (pbuf_realloc p iphdr_len) else mret tt);;
    b ← nb (rd p);
    if (len b <? iphdr_hlen) || (tot_len b <? iphdr_len) || (iphdr_hlen <? IP_HLEN) then drop_packet p
    else
      sum ← nb (chksum_mem iphdr iphdr_hlen);
      if negb (sum =? 0) then drop_packet p
      else
        dest ← nb (read_u32 (iphdr + 16));
        src ← nb (read_u32 (iphdr + 12));
        cur ← gets ip_data;
        set_ip_data (mk_globals (current_netif cur) (current_input_netif cur) (current_ip4_header cur)
          (current_ip_header_tot_len cur) src dest);;
        netif ← match_netif dest inp;
        n ← ip_netif inp;
        if isbroadcast src n || ip4_addr_ismulticast src then drop_packet p
        else if netif =? NULL then drop_packet p
        else
          offset ← nb (read_u16 (iphdr + 6));
          if negb ((offset &c PP_HTONS (IP_OFFMASK |c IP_MF)) =? 0) then drop_packet p
          else deliver p inp netif iphdr iphdr_hlen src dest.

(** ** Ethernet *)

Definition ethernet_input (p netif : Z) : M (ip H T) Z :=
  b ← nb (rd p);
  if len b <=? SIZEOF_ETH_HDR then drop_packet p
  else
    n ← ip_netif netif;
    (if if_idx b =? NETIF_NO_INDEX then nb (upd p (with_if_idx (u8 (num n + 1)))) else mret tt);;
    let ethhdr := payload b in
    type ← nb (read_u16 (ethhdr + 12));
    dest ← nb (read_bytes ethhdr 6);
    (match dest with
     | d0 :: d1 :: d2 :: _ =>
         if negb ((d0 &c 1) =? 0) then
           if d0 =? 1 then
             if (d1 =? 0) && (d2 =? 94)
             then nb (upd p (fun b => with_flags (u8 (Pbuf.flags b |c PBUF_FLAG_LLMCAST)) b)) else mret tt
           else if bool_decide (dest = ethbroadcast)
           then nb (upd p (fun b => with_flags (u8 (Pbuf.flags b |c PBUF_FLAG_LLBCAST)) b)) else mret tt
         else mret tt
     | _ => mret tt
     end);;
    let arp := negb ((nif_flags n &c NETIF_FLAG_ETHARP) =? 0) in
    if type =? PP_HTONS ETHTYPE_IP then
      if negb arp then drop_packet p
      else
        x ← nb (pbuf_remove_header p SIZEOF_ETH_HDR);
        if negb (x =? 0) then drop_packet p else ip4_input p netif;; mret ERR_OK
    else if type =? PP_HTONS ETHTYPE_ARP then
      if negb arp then drop_packet p
      else
        x ← nb (pbuf_remove_header p SIZEOF_ETH_HDR);
        if negb (x =? 0) then drop_packet p else on_arp (etharp_input pools linkoutput p netif);; mret ERR_OK
    else drop_packet p.
End Input.
