(* ===== verification/IpInputSpec.v ===== *)
(** * Properties of packet input

    Every received frame is consumed: no assertion fails, no memory outside live objects
    is touched, all reference counts stay exact, whatever the frame contains. A datagram
    is delivered exactly if it passes the tests of RFC 1122, and it is trimmed to the
    length its header gives. *)

From S2P Require Import Prelude Chksum Memp Pbuf PbufSpec PbufData PbufRefs Ethernetif Ip4Addr Ethernet Etharp EtharpSpec Ip4 Ip4Spec Icmp IcmpSpec IpInput.
From stdpp Require Import base numbers list gmap gmultiset functions sorting.
Open Scope Z_scope.
Open Scope c_scope.

(** ** What IP promises to the transport protocol and relies on *)

Section Laws.
Context (pools : memp_t -> memp_desc) `{HP : !PoolsOk pools} {H : Type} `{HH : !Heap H} `{HL : !HeapLaws pools H}.
Context (linkoutput : Z -> Z -> M (eth H) Z) `{LL : !LinkLaws linkoutput} {T : Type} `{UT : !Upper T}.

(** [tcp_input] takes over the packet, whose header is readable at the address in
    [ip_data]; what it keeps of it is among the references the protocol holds. *)
Class TransportLaws (tcp_input : Z -> Z -> M (ip H T) unit) :=
  tcp_input_law : forall s R p b l inp, ip_ok pools linkoutput s (ptr p ⊎ R) -> nif_live (i_arp s) inp ->
    nif_live (i_arp s) (current_netif (ip_data s)) -> packet (n_pbufs (snet s)) p b l -> ref b = 1 ->
    header_readable s (current_ip4_header (ip_data s)) -> runs (tcp_input p inp) s (kept pools linkoutput s R).
End Laws.

Section Spec.
Context (pools : memp_t -> memp_desc) `{HP : !PoolsOk pools} {H : Type} `{HH : !Heap H} `{HL : !HeapLaws pools H}.
Context (linkoutput : Z -> Z -> M (eth H) Z) `{LL : !LinkLaws linkoutput}.
Context (netif_output : Z -> Z -> Z -> M (arp H) Z) `{OL : !OutputLaws pools linkoutput netif_output}.
Context {T : Type} `{UT : !Upper T}.
Context (tcp_input : Z -> Z -> M (ip H T) unit) `{TL : !TransportLaws pools linkoutput tcp_input}.
Implicit Types s : ip H T.
Local Abbreviation ip_ok := (ip_ok pools linkoutput).
Local Abbreviation kept := (kept pools linkoutput).

(** ** Which interface a datagram is for *)

Definition accepts (nfs : gmap Z nif) (dest a : Z) : Prop := exists n, nfs !! a = Some n /\ ip4_input_accept dest n = true.

(** The receiving interface for a multicast address if it is up and configured; else the
    receiving interface if the address is its own or a broadcast address of it; else the
    first other one of which that is true, but never for a loopback address. *)
Definition for_us (nfs : gmap Z nif) (l : list Z) (inp dest a : Z) : Prop :=
  if ip4_addr_ismulticast dest
  then a = inp /\ exists n, nfs !! inp = Some n /\ netif_is_up n = true /\ ip4_addr_isany (ip_addr n) = false
  else (a = inp /\ accepts nfs dest inp) \/
       (~ accepts nfs dest inp /\ ip4_addr_isloopback dest = false /\ a <> inp /\
        exists l1 l2, l = l1 ++ a :: l2 /\ accepts nfs dest a /\ Forall (fun x => x = inp \/ ~ accepts nfs dest x) l1).

Lemma accept_loop_ok dest inp l : forall s, Forall (nif_live (i_arp s)) l ->
  exists a, accept_loop dest inp l s = Ok (a, s) /\
   (nif_live (i_arp s) a /\ a <> inp /\ (exists l1 l2, l = l1 ++ a :: l2 /\ accepts (nifs (i_arp s)) dest a /\
       Forall (fun x => x = inp \/ ~ accepts (nifs (i_arp s)) dest x) l1) \/
    a = NULL /\ Forall (fun x => x = inp \/ ~ accepts (nifs (i_arp s)) dest x) l).
Proof.
  induction l as [|x l IH]; intros s Hl; cbn [accept_loop]; [exists NULL; split; [done|by right]|].
  apply Forall_cons in Hl as [Hx Hl]. pose proof Hx as (Hz & n & En & _).
  destruct (IH s Hl) as (a & E & Hc).
  assert (x = inp \/ ~ accepts (nifs (i_arp s)) dest x ->
    (nif_live (i_arp s) a /\ a <> inp /\ (exists l1 l2, x :: l = l1 ++ a :: l2 /\ accepts (nifs (i_arp s)) dest a /\
       Forall (fun x => x = inp \/ ~ accepts (nifs (i_arp s)) dest x) l1) \/
    a = NULL /\ Forall (fun x => x = inp \/ ~ accepts (nifs (i_arp s)) dest x) (x :: l))) as Hskip.
  { intros Hx'. destruct Hc as [(Ha & Hai & l1 & l2 & -> & Hacc & Hf)|[-> Hf]]; [left|right].
    - split_and!; [done|done|]. exists (x :: l1), l2. split_and!; [done|done|by constructor].
    - split; [done|by constructor]. }
  destruct (Z.eqb_spec x inp) as [Hxi|Hxi]; [exists a; auto|]. rewrite (bind_ok _ _ _ _ _ (ip_netif_ok s x n En)).
  destruct (ip4_input_accept dest n) eqn:Ea.
  - exists x. split; [done|]. left. split_and!; [done|done|]. exists [], l. split_and!; [done|by exists n|constructor].
  - exists a. split; [done|]. apply Hskip. right. intros (n' & En' & Ea'). congruence.
Qed.

Lemma match_netif_ok s R dest inp : ip_ok s R -> nif_live (i_arp s) inp ->
  exists a, match_netif dest inp s = Ok (a, s) /\
    (nif_live (i_arp s) a /\ for_us (nifs (i_arp s)) (netif_list s) inp dest a \/
     a = NULL /\ forall x, ~ for_us (nifs (i_arp s)) (netif_list s) inp dest x).
Proof.
  intros (_ & Hl & _) Hi. pose proof Hi as (Hz & n & En & _). unfold match_netif, for_us. rewrite (bind_ok _ _ _ _ _ (ip_netif_ok s inp n En)).
  destruct (ip4_addr_ismulticast dest).
  - destruct (netif_is_up n && negb (ip4_addr_isany (ip_addr n))) eqn:Eu.
    + apply andb_true_iff in Eu as [E1 E2%negb_true_iff]. exists inp. split; [done|]. left. split; [done|]. split; [done|]. exists n. done.
    + exists NULL. split; [done|]. right. split; [done|]. intros x (_ & n' & En' & E1 & E2). rewrite En in En'. injection En' as <-.
      by rewrite E1, E2 in Eu.
  - destruct (ip4_input_accept dest n) eqn:Ea.
    { exists inp. split; [done|]. left. split; [done|]. left. split; [done|]. by exists n. }
    assert (~ accepts (nifs (i_arp s)) dest inp) as Hna by (intros (n' & En' & Ea'); congruence).
    destruct (ip4_addr_isloopback dest); cbn [negb].
    { exists NULL. split; [done|]. right. split; [done|]. intros x [[_ ?]|(_ & ? & _)]; done. }
    destruct (accept_loop_ok dest inp (netif_list s) s Hl) as (a & E & Hc). exists a. split; [done|].
    destruct Hc as [(Ha & Hai & Hx)|[-> Hf]]; [left; split; [done|right; done]|right; split; [done|]].
    intros x [[_ ?]|(_ & _ & Hxi & l1 & l2 & El & Hacc & _)]; [done|]. rewrite El in Hf. apply Forall_app in Hf as [_ [[?|?] _]%Forall_cons]; done.
Qed.

(** ** The tests on a datagram *)

Lemma trim_ok s R p b l n : ip_ok s R -> whole (n_pbufs (snet s)) p b l -> 0 <= n ->
  exists n1 b1 l1, (if n <? tot_len b then nb (pbuf_realloc p n) else mret tt) s = Ok (tt, set_snet n1 s) /\
    ip_ok (set_snet n1 s) R /\ n_mem n1 = n_mem (snet s) /\ whole (n_pbufs n1) p b1 l1 /\
    tot_len b1 = Z.min n (tot_len b) /\ len b1 = Z.min (len b) n /\ payload b1 = payload b /\
    (forall d, chain_data (n_mem (snet s)) ((p, b) :: l) = Some d ->
       chain_data (n_mem n1) ((p, b1) :: l1) = Some (take (Z.to_nat n) d)).
Proof.
  intros Hok Hw Hn. pose proof (proj1 (whole_packet _ _ _ _ Hw)) as Hp. destruct (packet_lens _ _ _ _ Hp) as [Hlen Htot].
  destruct (Z.ltb_spec n (tot_len b)) as [Hlt|Hge].
  - destruct (realloc_refs pools (snet s) _ p b l n (ip_refs pools linkoutput s R Hok) Hw) as
      (n1 & b1 & l1 & E & Hr & Em & Hw1 & Et & El & Ep & _ & Hd); [lia|].
    destruct (ip_ok_net pools linkoutput s R R n1 Hok Hr) as [Hok1 _]; [by rewrite Em|].
    exists n1, b1, l1. rewrite (nb_ok _ s _ _ E), Em. split_and!; try done; lia.
  - exists (snet s), b, l. rewrite set_snet_id. split_and!; try done; try lia. intros d Hd.
    rewrite take_ge; [done|]. pose proof (chain_data_length _ _ _ (proj1 (proj2 Hp)) Hd) as E. rewrite sum_len_cons in E.
    destruct Hp as (_ & (_ & ? & _) & _). lia.
Qed.

(** A datagram that RFC 1122 lets the host accept: version 4, a header of at least 20
    bytes that is contiguous and whose checksum verifies, as many bytes as its length
    says, a source that is a single host, a destination that is ours, and no fragment. *)
Record datagram (m : memory) (nfs : gmap Z nif) (nl : list Z) (inp : Z) (b : pbuf) (hlen iplen src dest nif : Z) : Prop := {
  dg_version : exists v, m !! payload b = Some v /\ IPH_V v = 4 /\ hlen = IPH_HL_BYTES v;
  dg_length : exists w, load m (payload b + 2) 2 = Some w /\ iplen = lwip_htons (le16 w);
  dg_bounds : IP_HLEN <= hlen <= len b /\ hlen <= iplen <= tot_len b;
  dg_chksum : exists hdr, load m (payload b) (Z.to_nat hlen) = Some hdr /\ inet_chksum (payload b) hdr = 0;
  dg_src : exists w, load m (payload b + 12) 4 = Some w /\ src = word32 w;
  dg_dest : exists w, load m (payload b + 16) 4 = Some w /\ dest = word32 w;
  dg_source : exists n, nfs !! inp = Some n /\ isbroadcast src n = false /\ ip4_addr_ismulticast src = false;
  dg_for_us : for_us nfs nl inp dest nif;
  dg_unfragmented : exists w, load m (payload b + 6) 2 = Some w /\ (le16 w &c PP_HTONS (IP_OFFMASK |c IP_MF)) = 0 }.

(** The state with which the protocols above are called. *)
Definition with_addrs (n : net H) (src dest : Z) s : ip H T :=
  mk_ip (set_anet n (i_arp s)) (netif_list s) (netif_default s) (ip_id s)
    (mk_globals (current_netif (ip_data s)) (current_input_netif (ip_data s)) (current_ip4_header (ip_data s))
       (current_ip_header_tot_len (ip_data s)) src dest) (i_upper s).

Lemma with_data_ok s R n d : ip_ok (set_snet n s) R ->
  ip_ok (mk_ip (set_anet n (i_arp s)) (netif_list s) (netif_default s) (ip_id s) d (i_upper s)) R.
Proof. done. Qed.

Lemma htons_nonneg x : 0 <= lwip_htons x.
Proof. unfold lwip_htons. apply u16_range. Qed.
(** ** Delivery *)

(** The packet is consumed: the references are those of before without the one to it. *)
Definition consumed s (R : gmultiset Z) : Z -> ip H T -> Prop := fun r s' => r = ERR_OK /\ kept s R r s'.

Lemma drop_runs s R p : ip_ok s (ptr p ⊎ R) -> p <> NULL -> runs (drop_packet p) s (consumed s R).
Proof.
  intros Hok Hz. destruct (free_runs pools linkoutput s R p Hok Hz) as ([] & s' & E & Hk). unfold drop_packet. unfold free_pbuf in E.
  apply bind_inv in E as (k & s1 & E1 & E2). injection E2 as <-. eapply runs_step; [exact E1|]. by apply runs_ret.
Qed.

Lemma consumed_env s s1 R r s' : ip_env s s1 -> consumed s1 R r s' -> consumed s R r s'.
Proof. intros He [-> Hk]. split; [done|]. by eapply kept_env. Qed.

Lemma moved_forth b k : 0 <= k <= len b -> len b <= tot_len b -> tot_len b < 65536 -> moved (moved b (- k)) k = b.
Proof.
  intros Hk Hl Ht. rewrite (moved_small b (- k)) by lia. rewrite moved_small; cbn [len tot_len payload with_tot_len with_len with_payload]; [|lia..].
  destruct b. unfold with_tot_len, with_len, with_payload. cbn. f_equal; lia.
Qed.

(** A header that was removed can always be put back. *)
Lemma header_force_back (n : net H) p b k : n_pbufs n !! p = Some (moved b (- k)) -> p <> NULL -> placed (n_mem n) p b ->
  0 < k <= len b -> len b <= tot_len b -> tot_len b < 65536 ->
  pbuf_header_force p k n = Ok (0, set_pbufs (<[p := b]> (n_pbufs n)) n).
Proof.
  intros E Hz (_ & _ & _ & Hc) Hk Hl Ht. pose proof (moved_small b (- k) ltac:(lia) ltac:(lia)) as Em.
  unfold pbuf_header_force, pbuf_header_impl, pbuf_add_header_impl.
  destruct (Z.ltb_spec k 0) as [|_]; [lia|]. rewrite (proj2 (Z.eqb_neq _ _) Hz), (bind_ok (assert _) _ _ tt n) by done. cbn [orb].
  destruct (Z.ltb_spec 65535 k) as [?|_]; [lia|]. destruct (Z.eqb_spec k 0) as [?|_]; [lia|].
  rewrite (bind_ok _ _ _ _ _ (rd_ok p _ n E)). rewrite (u16_small k) by (unfold is_u16; lia).
  assert (tot_len (moved b (- k)) = tot_len b + - k) as Et by (by rewrite Em). rewrite Et.
  rewrite (u16_small (k + _)) by (unfold is_u16; lia). destruct (Z.ltb_spec (k + (tot_len b + - k)) k) as [|_]; [lia|].
  change (payload (moved b (- k))) with (payload b - - k). change (type_internal (moved b (- k))) with (type_internal b).
  assert (forall r, r = moved b (- k) -> with_tot_len (u16 (tot_len b + - k + k)) (with_len (u16 (len r + k)) (with_payload (payload b - - k - k) r)) = b) as Hback.
  { intros r ->. transitivity (moved (moved b (- k)) k); [|apply moved_forth; lia]. by rewrite <- Et. }
  destruct (Z.eqb_spec (type_internal b &c PBUF_TYPE_FLAG_STRUCT_DATA_CONTIGUOUS) 0) as [|Hn]; cbn [negb].
  - by rewrite (upd3_ok p _ _ _ (moved b (- k)) n), Hback.
  - destruct (Hc Hn) as [Hlo _]. change SIZEOF_STRUCT_PBUF with 16. destruct (Z.ltb_spec (payload b - - k - k) (p + 16)) as [|_]; [lia|].
    by rewrite (upd3_ok p _ _ _ (moved b (- k)) n), Hback.
Qed.
Lemma deliver_safe s R p b l inp netif v src dest :
  ip_ok s (ptr p ⊎ R) -> nif_live (i_arp s) inp -> nif_live (i_arp s) netif -> packet (n_pbufs (snet s)) p b l -> ref b = 1 ->
  n_mem (snet s) !! payload b = Some v -> IP_HLEN <= IPH_HL_BYTES v <= len b -> valid_range (n_mem (snet s)) (payload b) 28 ->
  runs (deliver pools netif_output tcp_input p inp netif (payload b) (IPH_HL_BYTES v) src dest) s (consumed s R).
Proof.
  intros Hok Hi Hn Hp Hr Ev Hh Hv28. destruct (packet_lookup _ _ _ _ Hp) as [Hz Eb]. destruct (packet_lens _ _ _ _ Hp) as [Hlen Htot].
  set (hlen := IPH_HL_BYTES v) in *. unfold IP_HLEN in Hh. unfold deliver. eapply runs_step; [by apply nb_read_byte|]. fold hlen.
  eapply runs_step; [reflexivity|]. set (s0 := mk_ip _ _ _ _ _ _).
  assert (ip_ok s0 (ptr p ⊎ R)) as Hok0 by done. assert (ip_env s s0) as He0 by (split; [reflexivity|done]).
  pose proof (ip_refs pools linkoutput s0 _ Hok0) as Hr0. pose proof Hr0 as (_ & _ & Hpl & _). pose proof (Hpl p b Eb) as Hpb.
  destruct (remove_header_refs pools (snet s0) _ p b hlen Hr0 Eb) as [E1 Hr1]; [lia..|].
  eapply runs_step; [by apply nb_ok|]. set (n1 := set_pbufs _ _) in *.
  destruct (ip_ok_net pools linkoutput s0 _ _ n1 Hok0 Hr1 (same_dom_refl _)) as [Hok1 He1]. set (s1 := set_snet n1 s0) in *.
  assert (packet (n_pbufs (snet s1)) p (moved b (- hlen)) l) as Hp1 by (apply packet_moved; [done|lia|lia]).
  destruct (Hv28 (payload b + 9)) as [proto Epr]; [lia|]. eapply runs_step; [by apply nb_read_byte|].
  assert (header_readable s1 (payload b)) as Hread.
  { exists v. split; [done|]. destruct Hpb as (_ & _ & Hvb & _). intros i Hx. apply Hvb. fold hlen in Hx. lia. }
  apply (runs_bind _ _ _ _ (kept s R)); [|intros [] s2 Hk; eapply runs_step; [reflexivity|]; apply runs_ret; split; [done|exact Hk]].
  assert (forall (m : M (ip H T) unit), runs m s1 (kept s1 R) -> runs m s1 (kept s R)) as Hw.
  { intros m Hm. eapply runs_weaken; [exact Hm|]. intros [] s2 Hk. eapply kept_env; [|exact Hk]. by etransitivity. }
  destruct (proto =? IP_PROTO_TCP); [apply Hw; by eapply (tcp_input_law pools linkoutput s1)|].
  destruct (proto =? IP_PROTO_ICMP); [apply Hw; by eapply (icmp_input_safe pools linkoutput netif_output s1)|].
  pose proof Hn as (_ & n & En & _). eapply runs_step; [by apply ip_netif_ok|].
  apply Hw. destruct (negb (isbroadcast dest n) && negb (ip4_addr_ismulticast dest)).
  2:{ eapply runs_step; [reflexivity|]. by apply free_runs. }
  apply (runs_bind _ _ _ _ (kept s1 (ptr p ⊎ R))).
  - eapply runs_step; [apply nb_ok, (header_force_back _ p b hlen); try done; [apply lookup_insert_eq|lia..]|].
    assert (set_snet (set_pbufs (<[p := b]> (n_pbufs (snet s1))) (snet s1)) s1 = s0) as ->.
    { change (set_snet (set_pbufs (<[p := b]> (n_pbufs n1)) (snet s0)) s0 = s0). unfold n1. cbn [n_pbufs set_pbufs]. rewrite insert_insert_eq, insert_id by done.
      change (set_snet (set_pbufs (n_pbufs (snet s0)) (snet s0)) s0 = s0). by rewrite set_pbufs_id, set_snet_id. }
    eapply runs_weaken; [by eapply (send_response_safe pools linkoutput netif_output s0 _ p b)|]. intros [] s2 [? ?]. split; done.
  - intros [] s2 [Hok2 He2]. eapply runs_weaken; [by apply free_runs|]. intros [] s3. by apply kept_env.
Qed.
(** ** Input *)

Lemma ip4_input_cases s R p b l inp :
  ip_ok s R -> nif_live (i_arp s) inp -> whole (n_pbufs (snet s)) p b l -> valid_range (n_mem (snet s)) (payload b) 4 ->
  (exists n1 b1 l1 hlen iplen src dest nif, datagram (n_mem (snet s)) (nifs (i_arp s)) (netif_list s) inp b hlen iplen src dest nif /\
    nif_live (i_arp s) nif /\ ip_ok (with_addrs n1 src dest s) R /\ whole (n_pbufs n1) p b1 l1 /\ n_mem n1 = n_mem (snet s) /\
    payload b1 = payload b /\ tot_len b1 = iplen /\ len b1 = Z.min (len b) iplen /\
    (forall d, chain_data (n_mem (snet s)) ((p, b) :: l) = Some d -> chain_data (n_mem n1) ((p, b1) :: l1) = Some (take (Z.to_nat iplen) d)) /\
    ip4_input pools netif_output tcp_input p inp s =
      deliver pools netif_output tcp_input p inp nif (payload b) hlen src dest (with_addrs n1 src dest s)) \/
  (forall hlen iplen src dest nif, ~ datagram (n_mem (snet s)) (nifs (i_arp s)) (netif_list s) inp b hlen iplen src dest nif) /\
  exists s1, ip4_input pools netif_output tcp_input p inp s = drop_packet p s1 /\ ip_ok s1 R /\ ip_env s s1.
Proof.
  intros Hok Hi Hw Hv4. pose proof (proj1 (whole_packet _ _ _ _ Hw)) as Hp. destruct (packet_lookup _ _ _ _ Hp) as [Hz Eb].
  destruct (packet_lens _ _ _ _ Hp) as [Hlen Htot]. pose proof Hi as (_ & ni & Eni & _).
  unfold ip4_input. rewrite (bind_ok _ _ _ _ _ (nb_rd s p b Eb)).
  destruct (Hv4 (payload b)) as [v Ev]; [lia|]. rewrite (bind_ok _ _ _ _ _ (nb_read_byte s _ _ Ev)).
  destruct (Z.eqb_spec (IPH_V v) 4) as [E4|E4]; cbn [negb].
  2:{ right. split; [intros ????? []|exists s; done]. destruct dg_version0 as (v' & Ev' & ? & _). congruence. }
  pose proof (hl_bytes_range v) as Hh60. set (hlen := IPH_HL_BYTES v) in *.
  destruct (load_is_Some (n_mem (snet s)) (payload b + 2) 2) as [wl Ewl]; [intros i Hx; apply Hv4; lia|].
  rewrite (bind_ok _ _ _ _ _ (nb_read_u16 s _ _ Ewl)). set (iplen := lwip_htons (le16 wl)). pose proof (htons_nonneg (le16 wl)) as Hip0. fold iplen in Hip0.
  destruct (trim_ok s R p b l iplen Hok Hw Hip0) as (n1 & b1 & l1 & Et & Hok1 & Em1 & Hw1 & Etl & El & Epay & Hdata).
  rewrite (bind_ok _ _ _ _ _ Et). set (s1 := set_snet n1 s) in *.
  assert (ip_env s s1) as He1 by (split; [split; [done|change (same_dom (n_mem (snet s)) (n_mem n1)); by rewrite Em1]|done]).
  pose proof (proj1 (whole_packet _ _ _ _ Hw1)) as Hp1. destruct (packet_lookup _ _ _ _ Hp1) as [_ Eb1].
  rewrite (bind_ok _ _ _ _ _ (nb_rd s1 p b1 Eb1)).
  assert (n_mem (snet s1) = n_mem (snet s)) as Ems by done.
  assert (forall hl il src dest nif, datagram (n_mem (snet s)) (nifs (i_arp s)) (netif_list s) inp b hl il src dest nif -> hl = hlen /\ il = iplen) as Hlens.
  { intros hl il src dest nif []. destruct dg_version0 as (v' & Ev' & _ & ->), dg_length0 as (w' & Ew' & ->).
    rewrite Ev in Ev'. injection Ev' as <-. rewrite Ewl in Ew'. by injection Ew' as <-. }
  destruct ((len b1 <? hlen) || (tot_len b1 <? iplen) || (hlen <? IP_HLEN)) eqn:Eb3.
  { right. split; [intros ????? Hd|exists s1; done]. destruct (Hlens _ _ _ _ _ Hd) as [-> ->]. destruct (dg_bounds _ _ _ _ _ _ _ _ _ _ Hd).
    apply orb_true_iff in Eb3 as [[?%Z.ltb_lt|?%Z.ltb_lt]%orb_true_iff|?%Z.ltb_lt]; lia. }
  apply orb_false_iff in Eb3 as [[H1%Z.ltb_ge H2%Z.ltb_ge]%orb_false_iff H3%Z.ltb_ge]. unfold IP_HLEN in H3.
  assert (valid_range (n_mem (snet s)) (payload b) hlen) as Hvh.
  { destruct (ip_refs pools linkoutput s R Hok) as (_ & _ & Hpl & _). destruct (Hpl p b Eb) as (_ & _ & Hvb & _). intros i Hx. apply Hvb. lia. }
  destruct (load_is_Some (n_mem (snet s)) (payload b) (Z.to_nat hlen)) as [hdr Eh]; [intros i Hx; apply Hvh; lia|].
  pose proof Eh as Eh1. rewrite <- Ems in Eh1. rewrite (bind_ok _ _ _ _ _ (nb_chksum s1 _ _ hdr Eh1)).
  destruct (Z.eqb_spec (inet_chksum (payload b) hdr) 0) as [Esum|Esum]; cbn [negb].
  2:{ right. split; [intros ????? Hd|exists s1; done]. destruct (Hlens _ _ _ _ _ Hd) as [-> ->]. destruct (dg_chksum _ _ _ _ _ _ _ _ _ _ Hd) as (h' & Eh' & ?).
      rewrite Eh in Eh'. injection Eh' as <-. done. }
  destruct (load_is_Some (n_mem (snet s)) (payload b + 16) 4) as [wd Ewd]; [intros i Hx; apply Hvh; lia|].
  pose proof Ewd as Ewd1. rewrite <- Ems in Ewd1. rewrite (bind_ok _ _ _ _ _ (nb_read_u32 s1 _ wd Ewd1)).
  destruct (load_is_Some (n_mem (snet s)) (payload b + 12) 4) as [ws Ews]; [intros i Hx; apply Hvh; lia|].
  pose proof Ews as Ews1. rewrite <- Ems in Ews1. rewrite (bind_ok _ _ _ _ _ (nb_read_u32 s1 _ ws Ews1)). set (dest := word32 wd). set (src := word32 ws).
  rewrite (bind_ok (gets ip_data) _ s1 (ip_data s) s1) by done.
  rewrite (bind_ok (set_ip_data _) _ s1 tt (with_addrs n1 src dest s)) by done. set (s2 := with_addrs n1 src dest s).
  assert (ip_ok s2 R) as Hok2 by done. assert (ip_env s s2) as He2 by done.
  destruct (match_netif_ok s2 R dest inp Hok2 Hi) as (a & Ea & Ha). rewrite (bind_ok _ _ _ _ _ Ea).
  rewrite (bind_ok _ _ _ _ _ (ip_netif_ok s2 inp ni Eni)).
  assert (forall hl il sr de nif, datagram (n_mem (snet s)) (nifs (i_arp s)) (netif_list s) inp b hl il sr de nif -> sr = src /\ de = dest) as Haddr.
  { intros hl il sr de nif []. destruct dg_src0 as (w1 & E1 & ->), dg_dest0 as (w2 & E2 & ->). rewrite Ews in E1. rewrite Ewd in E2.
    injection E1 as <-. by injection E2 as <-. }
  destruct (isbroadcast src ni || ip4_addr_ismulticast src) eqn:Ebc.
  { right. split; [intros ????? Hd|exists s2; done]. destruct (Haddr _ _ _ _ _ Hd) as [-> ->]. destruct (dg_source _ _ _ _ _ _ _ _ _ _ Hd) as (n' & En' & Hb & Hm).
    rewrite Eni in En'. injection En' as <-. by rewrite Hb, Hm in Ebc. }
  apply orb_false_iff in Ebc as [Ebc Emc]. destruct Ha as [[Hal Hfor]|[-> Hno]].
  2:{ right. split; [intros ????? Hd|exists s2; done]. destruct (Haddr _ _ _ _ _ Hd) as [-> ->]. exact (Hno _ (dg_for_us _ _ _ _ _ _ _ _ _ _ Hd)). }
  rewrite (proj2 (Z.eqb_neq a NULL) (proj1 Hal)).
  destruct (load_is_Some (n_mem (snet s)) (payload b + 6) 2) as [wo Ewo]; [intros i Hx; apply Hvh; lia|].
  pose proof Ewo as Ewo1. rewrite <- Ems in Ewo1. rewrite (bind_ok _ _ _ _ _ (nb_read_u16 s2 _ wo Ewo1)).
  destruct (Z.eqb_spec (le16 wo &c PP_HTONS (IP_OFFMASK |c IP_MF)) 0) as [Eof|Eof]; cbn [negb].
  2:{ right. split; [intros ????? Hd|exists s2; done]. destruct (dg_unfragmented _ _ _ _ _ _ _ _ _ _ Hd) as (w' & Ew' & ?).
      rewrite Ewo in Ew'. injection Ew' as <-. done. }
  left. exists n1, b1, l1, hlen, iplen, src, dest, a. split_and!; try done; try lia.
  constructor; [by exists v|by exists wl|unfold IP_HLEN; lia|by exists hdr|by exists ws|by exists wd|by exists ni|done|by exists wo].
Qed.
Lemma ip4_input_safe s R p b l inp :
  ip_ok s (ptr p ⊎ R) -> nif_live (i_arp s) inp -> whole (n_pbufs (snet s)) p b l -> valid_range (n_mem (snet s)) (payload b) 28 ->
  runs (ip4_input pools netif_output tcp_input p inp) s (consumed s R).
Proof.
  intros Hok Hi Hw Hv. destruct (packet_lookup _ _ _ _ (proj1 (whole_packet _ _ _ _ Hw))) as [Hz _].
  destruct (ip4_input_cases s _ p b l inp Hok Hi Hw) as [(n1 & b1 & l1 & hlen & iplen & src & dest & nif & Hd & Hn & Hok1 & Hw1 & Em & Ep & Et & El & _ & E)|(_ & s1 & E & Hok1 & He1)];
    [intros i Hx; apply Hv; lia|..]; unfold runs; setoid_rewrite E.
  - destruct (whole_packet _ _ _ _ Hw1) as [Hp1 Hr1]. destruct (dg_version _ _ _ _ _ _ _ _ _ _ Hd) as (v & Ev & _ & ->).
    pose proof (dg_bounds _ _ _ _ _ _ _ _ _ _ Hd) as Hb. set (s1 := with_addrs n1 src dest s) in *.
    assert (n_mem (snet s1) = n_mem (snet s)) as Ems by done. rewrite <- Ep.
    destruct (deliver_safe s1 R p b1 l1 inp nif v src dest) as (r & s' & E' & Hc); try done.
    + by rewrite Ems, Ep.
    + lia.
    + by rewrite Ems, Ep.
    + exists r, s'. split; [done|]. eapply consumed_env; [|exact Hc]. split; [split; [done|]|done].
      change (same_dom (n_mem (snet s)) (n_mem (snet s1))). by rewrite Ems.
  - destruct (drop_runs s1 R p Hok1 Hz) as (r & s' & E' & Hc). exists r, s'. split; [done|]. by eapply consumed_env.
Qed.
(** C15: which datagrams are delivered, and that every one is consumed. [ip4_input]
    returns ERR_OK with the packet handed over or freed. It goes to the protocol of its
    header exactly if it is a valid, unfragmented datagram from a single host to an
    address of ours, cut to the length its header gives; otherwise it is only freed. *)
Theorem ip4_input_filter s (R : gmultiset Z) (p : Z) (b : pbuf) (l : list (Z * pbuf)) (inp : Z)
  (Hok : ip_ok s (ptr p ⊎ R)) (Hi : nif_live (i_arp s) inp) (Hw : whole (n_pbufs (snet s)) p b l)
  (Hv : valid_range (n_mem (snet s)) (payload b) 28) :
  let accepted := datagram (n_mem (snet s)) (nifs (i_arp s)) (netif_list s) inp b in
  (exists s', ip4_input pools netif_output tcp_input p inp s = Ok (ERR_OK, s') /\ ip_ok s' R) /\
  ((exists n1 b1 l1 hlen iplen src dest nif, accepted hlen iplen src dest nif /\
      ip4_input pools netif_output tcp_input p inp s =
        deliver pools netif_output tcp_input p inp nif (payload b) hlen src dest (with_addrs n1 src dest s) /\
      whole (n_pbufs n1) p b1 l1 /\ tot_len b1 = iplen /\ n_mem n1 = n_mem (snet s) /\
      forall d, chain_data (n_mem (snet s)) ((p, b) :: l) = Some d ->
        chain_data (n_mem n1) ((p, b1) :: l1) = Some (take (Z.to_nat iplen) d)) \/
   (forall hlen iplen src dest nif, ~ accepted hlen iplen src dest nif) /\
   exists s1, ip4_input pools netif_output tcp_input p inp s = drop_packet p s1).
Proof.
  intros accepted. destruct (ip4_input_safe s R p b l inp Hok Hi Hw Hv) as (r & s' & E & -> & Hok' & _). split; [by exists s'|].
  destruct (ip4_input_cases s _ p b l inp Hok Hi Hw) as [(n1 & b1 & l1 & hlen & iplen & src & dest & nif & Hd & _ & _ & Hw1 & Em & _ & Et & _ & Hdat & E1)|(Hno & s1 & E1 & _)];
    [intros i Hx; apply Hv; lia|left|right].
  - exists n1, b1, l1, hlen, iplen, src, dest, nif. done.
  - split; [done|]. by exists s1.
Qed.

(** ** Frames *)

(** Setting the flags and the interface index of a packet. *)
Definition relabelled (b b' : pbuf) : Prop := exists f i, b' = with_flags f (with_if_idx i b).

Lemma relabel_runs s R p b l f (c : bool) : ip_ok s R -> whole (n_pbufs (snet s)) p b l -> (forall b, relabelled b (f b)) ->
  runs (if c then nb (upd p f) else mret tt) s (fun _ s' => ip_ok s' R /\ ip_env s s' /\ n_mem (snet s') = n_mem (snet s) /\
    exists b', whole (n_pbufs (snet s')) p b' l /\ relabelled b b').
Proof.
  intros Hok Hw Hf. destruct (packet_lookup _ _ _ _ (proj1 (whole_packet _ _ _ _ Hw))) as [Hz Eb].
  destruct c; [|apply runs_ret; split_and!; [done|done|done|]; exists b; split; [done|]; exists (Pbuf.flags b), (if_idx b); by destruct b].
  destruct (Hf b) as (x & i & Ef). pose proof (ip_refs pools linkoutput s R Hok) as Hr. pose proof Hr as (_ & _ & Hpl & _).
  assert (refs pools (set_pbufs (<[p := f b]> (n_pbufs (snet s))) (snet s)) (outer s R)) as Hr'.
  { rewrite Ef. eapply refs_update; [done|done|done|done|done|exact (Hpl p b Eb)]. }
  destruct (ip_ok_net pools linkoutput s R R _ Hok Hr' (same_dom_refl _)) as [Hok' He'].
  eapply runs_ok; [by apply nb_ok, upd_ok|]. split_and!; [exact Hok'|exact He'|done|]. exists (f b). split; [|by exists x, i].
  rewrite Ef. destruct Hw as (Hc & Ht & [Ho1 Ho]%Forall_cons & [Hs1 Hs]%Forall_cons).
  pose proof (is_chain_NoDup _ _ _ Hc) as Hnd. apply NoDup_cons in Hnd as [Hni _]. destruct Hc as (_ & _ & _ & Hc).
  split_and!; [|exact Ht|by constructor|by constructor].
  split_and!; [done|done|apply lookup_insert_eq|]. by apply is_chain_insert.
Qed.
(** The frame header removed, the rest handed to a protocol that consumes it. *)
Lemma strip_ok s R p b l : ip_ok s R -> whole (n_pbufs (snet s)) p b l -> SIZEOF_ETH_HDR < len b ->
  exists s1 b1, nb (pbuf_remove_header p SIZEOF_ETH_HDR) s = Ok (0, s1) /\ ip_ok s1 R /\ ip_env s s1 /\
    n_mem (snet s1) = n_mem (snet s) /\ whole (n_pbufs (snet s1)) p b1 l /\ payload b1 = payload b + SIZEOF_ETH_HDR.
Proof.
  intros Hok Hw Hl. pose proof (proj1 (whole_packet _ _ _ _ Hw)) as Hp. destruct (packet_lookup _ _ _ _ Hp) as [Hz Eb].
  destruct (packet_lens _ _ _ _ Hp) as [Hlen Htot]. unfold SIZEOF_ETH_HDR in *.
  destruct (remove_header_refs pools (snet s) _ p b 14 (ip_refs pools linkoutput s R Hok) Eb) as [E Hr]; [lia..|].
  destruct (ip_ok_net pools linkoutput s R R _ Hok Hr (same_dom_refl _)) as [Hok' He'].
  eexists _, (moved b (- 14)). split; [by apply nb_ok|]. split_and!; [exact Hok'|exact He'|done| |cbn; lia].
  apply whole_moved; [done|lia|lia].
Qed.

Lemma ethernet_input_safe s R p b l inp :
  ip_ok s (ptr p ⊎ R) -> nif_live (i_arp s) inp -> whole (n_pbufs (snet s)) p b l -> valid_range (n_mem (snet s)) (payload b) 42 ->
  runs (ethernet_input pools netif_output linkoutput tcp_input p inp) s (consumed s R).
Proof.
  intros Hok Hi Hw Hv. pose proof Hi as (Hiz & ni & Eni & Hni). destruct (packet_lookup _ _ _ _ (proj1 (whole_packet _ _ _ _ Hw))) as [Hz Eb].
  unfold ethernet_input. eapply runs_step; [by apply nb_rd|]. destruct (Z.leb_spec (len b) SIZEOF_ETH_HDR) as [|Hl]; [by apply drop_runs|].
  eapply runs_step; [by apply ip_netif_ok|].
  eapply runs_bind; [apply (relabel_runs s _ p b l _ _ Hok Hw); intros c; exists (Pbuf.flags c), (u8 (num ni + 1)); by destruct c|].
  intros [] s1 (Hok1 & He1 & Em1 & b1 & Hw1 & x1 & i1 & Eb1).
  destruct (load_is_Some (n_mem (snet s)) (payload b + 12) 2) as [wt Ewt]; [intros i Hx; apply Hv; lia|]. rewrite <- Em1 in Ewt.
  eapply runs_step; [by apply nb_read_u16|].
  destruct (load_is_Some (n_mem (snet s)) (payload b) 6) as [dest Ed]; [intros i Hx; apply Hv; lia|]. rewrite <- Em1 in Ed.
  eapply runs_step; [by apply nb_read_bytes|].
  apply (runs_bind _ _ _ _ (fun _ s' => ip_ok s' (ptr p ⊎ R) /\ ip_env s s' /\ n_mem (snet s') = n_mem (snet s) /\
    exists b', whole (n_pbufs (snet s')) p b' l /\ payload b' = payload b /\ len b' = len b)).
  { assert (forall f (c : bool), (forall b, relabelled b (f b)) -> runs (if c then nb (upd p f) else mret tt) s1
      (fun _ s' => ip_ok s' (ptr p ⊎ R) /\ ip_env s s' /\ n_mem (snet s') = n_mem (snet s) /\
        exists b', whole (n_pbufs (snet s')) p b' l /\ payload b' = payload b /\ len b' = len b)) as Hm.
    { intros f c Hf. eapply runs_weaken; [by apply (relabel_runs s1 _ p b1 l f c Hok1 Hw1)|]. intros [] s2 (Hok2 & He2 & Em2 & b2 & Hw2 & x2 & i2 & Eb2).
      split_and!; [done|by etransitivity|congruence|]. exists b2. split; [done|]. by rewrite Eb2, Eb1. }
    assert (forall y (b0 : pbuf), relabelled b0 (with_flags (u8 (Pbuf.flags b0 |c y)) b0)) as Hf by (intros y [] ; by eexists _, _).
    destruct dest as [|d0 [|d1 [|d2 dr]]]; try exact (Hm id false (fun b0 => ltac:(exists (Pbuf.flags b0), (if_idx b0); by destruct b0))).
    destruct (negb ((d0 &c 1) =? 0)); [|exact (Hm id false (fun b0 => ltac:(exists (Pbuf.flags b0), (if_idx b0); by destruct b0)))].
    destruct (d0 =? 1); apply Hm, Hf. }
  intros [] s2 (Hok2 & He2 & Em2 & b2 & Hw2 & Ep2 & El2).
  assert (runs (drop_packet p) s2 (consumed s R)) as Hdrop.
  { eapply runs_weaken; [by apply drop_runs|]. intros r s'. by apply consumed_env. }
  destruct (strip_ok s2 _ p b2 l Hok2 Hw2) as (s3 & b3 & E3 & Hok3 & He3 & Em3 & Hw3 & Ep3); [by rewrite El2|].
  assert (ip_env s s3) as He03 by (by etransitivity). unfold SIZEOF_ETH_HDR in Ep3.
  assert (valid_range (n_mem (snet s3)) (payload b3) 28) as Hv3 by (rewrite Em3, Em2, Ep3, Ep2; intros i Hx; apply Hv; lia).
  destruct (le16 wt =? PP_HTONS ETHTYPE_IP); [|destruct (le16 wt =? PP_HTONS ETHTYPE_ARP); [|done]]; destruct (negb (_ =? 0)); try done; cbn [negb];
    (eapply runs_step; [exact E3|]); cbn [negb Z.eqb].
  - apply (runs_bind _ _ _ _ (consumed s R)); [|intros r s' [_ Hk]; by apply runs_ret].
    eapply runs_weaken; [apply (ip4_input_safe s3 R p b3 l inp); try done; by eapply nif_live_env; [exact (proj1 He03)|]|].
    intros r s'. by apply consumed_env.
  - destruct (packet_lookup _ _ _ _ (proj1 (whole_packet _ _ _ _ Hw3))) as [_ Eb3]. pose proof Hok3 as (Harp & _).
    rewrite swap_ptr in Harp.
    destruct (input_ok pools linkoutput (i_arp s3) _ inp ni p b3 Harp Hiz) as (k & Ek & Hk & Hek); try done; [by rewrite (proj1 (proj1 He03))|].
    eapply runs_step; [by apply on_arp_ok|]. apply runs_ret. split; [done|]. split; [by apply (ip_ok_arp pools linkoutput s3 k (ptr p ⊎ R) R)|].
    etransitivity; [exact He03|]. split; done.
Qed.
End Spec.
