(* ===== verification/Stack.v ===== *)
(** * The stack on its device: reception from the MAC to the transport protocol

    The driver of firmware-tcp/ethernetif.c, ARP, IPv4 and ICMP together, as the main
    loop runs them: frames arrive at any time and with any content, [ethernetif_input]
    polls for them, the ARP timer ticks. Only [tcp_input] is a parameter. *)

From S2P Require Import Prelude Chksum Memp Pbuf PbufSpec PbufData PbufRefs Ethernetif Ip4Addr Ethernet Etharp EtharpSpec Ip4 Ip4Spec Icmp IcmpSpec IpInput IpInputSpec.
From stdpp Require Import base numbers list gmap gmultiset functions sorting relations.
Open Scope Z_scope.
Open Scope c_scope.

(** ** What the driver makes of a frame *)

Lemma pool_chain_one_packet stack : forall n o l, pool_chain stack n o = Some l -> 0 <= o <= 1000 -> one_packet l.
Proof.
  unfold one_packet. induction stack as [|q stack IH]; intros n o l E Ho; [done|]. cbn [pool_chain] in E.
  destruct (Z.leb_spec n (pool_room o)); [injection E as <-; by repeat constructor|].
  apply bind_Some in E as (l' & E & [= <-]). constructor; [simpl; lia|]. apply (IH _ _ _ E). lia.
Qed.

Lemma pool_chain_head stack n o l : pool_chain stack n o = Some l ->
  exists b l', l = (hd NULL stack, b) :: l' /\ payload b = LWIP_MEM_ALIGN (hd NULL stack + SIZEOF_STRUCT_PBUF + o).
Proof.
  destruct stack as [|q stack]; [done|]. cbn [pool_chain]. destruct (n <=? pool_room o).
  - intros [= <-]. by eexists _, _.
  - intros (l' & _ & [= <-])%bind_Some. by eexists _, _.
Qed.

Lemma pool_chain_stack stack n o l : pool_chain stack n o = Some l -> 0 <= n < 65536 -> 0 <= o <= 1000 ->
  Forall (fun ab => ab.1 ∈ stack) l.
Proof.
  intros E Hn Ho. destruct (pool_chain_spec _ _ _ _ E Hn Ho) as (_ & _ & _ & Hf & _). apply Forall_forall. intros ab Hab.
  rewrite <- (take_drop (length l) stack), <- Hf. apply elem_of_app. left. by apply list_elem_of_fmap_2.
Qed.

Section Stack.
Context (pools : memp_t -> memp_desc) `{HP : !PoolsOk pools} {H : Type} `{HH : !Heap H} `{HL : !HeapLaws pools H}.
Context (hw : dma) {T : Type} `{UT : !Upper T}.
Context (tcp_input : Z -> Z -> M (ip H T) unit) `{TL : !TransportLaws pools (driver_link hw) tcp_input}.
Implicit Types s : ip H T.
Local Abbreviation ip_ok := (ip_ok pools (driver_link hw)).

Definition on_dev {A} (m : M (eth H) A) : M (ip H T) A := on_arp (on_link (on_eth m)).
Definition sdev s : eth H := l_eth (a_link (i_arp s)).
Definition set_sdev (e : eth H) s : ip H T :=
  with_arp (mk_arp (mk_link e (l_netifs (a_link (i_arp s)))) (arp_table (i_arp s)) (etharp_cached_entry (i_arp s))) s.

(** One round of the main loop: [ethernetif_input(&netif)], where the interface sends
    with the driver and resolves with ARP, and its input is [ethernet_input]. *)
Definition main_poll (inp : Z) : M (ip H T) unit :=
  ethernetif_input pools hw (fun A => on_dev)
    (fun p => ethernet_input pools (etharp_output pools (driver_link hw)) (driver_link hw) tcp_input p inp).

(** The pool's elements and the receive slots are live memory apart from each other. *)
Definition rx_slots : Z := ETHMAC_SLOT_SIZE hw * ETHMAC_RX_SLOTS hw.
Definition dev_mem (m : memory) : Prop :=
  Memp.size (pools MEMP_PBUF_POOL) = SIZEOF_STRUCT_PBUF + PBUF_POOL_BUFSIZE_ALIGNED /\
  valid_range m (ETHMAC_BASE hw) rx_slots /\
  Forall (fun a => valid_range m a (Memp.size (pools MEMP_PBUF_POOL)) /\
    (ETHMAC_BASE hw + rx_slots <= a \/ a + Memp.size (pools MEMP_PBUF_POOL) <= ETHMAC_BASE hw)) (elems (pools MEMP_PBUF_POOL)).

Lemma dev_mem_dom m m' : same_dom m m' -> dev_mem m -> dev_mem m'.
Proof.
  intros Hd (Hsz & Hv & He). split_and!; [done|by eapply same_dom_valid|]. eapply Forall_impl; [exact He|].
  intros a [Hva Ha]. split; [by eapply same_dom_valid|done].
Qed.

(** The invariant between two rounds; [R] are the references held outside. *)
Definition stack_ok s (R : gmultiset Z) : Prop := ip_ok s R /\ dev_mem (n_mem (snet s)).

Lemma stack_env s s' R R' : stack_ok s R -> ip_ok s' R' -> ip_env s s' -> stack_ok s' R'.
Proof. intros [_ Hd] Hok ((_ & Hm) & _). split; [done|]. by eapply dev_mem_dom. Qed.

Lemma on_dev_ok {A} (m : M (eth H) A) s a e : m (sdev s) = Ok (a, e) -> on_dev m s = Ok (a, set_sdev e s).
Proof. intros E. unfold on_dev. apply on_arp_ok. unfold on_link, on_eth, sdev in *. by rewrite E. Qed.

(** The slot of the pending frame. *)
Lemma slot_in_range s R : stack_ok s R -> let m := e_mac (sdev s) in
  0 <= rx_length m < 65536 /\ ETHMAC_BASE hw <= rx_src hw m /\ rx_src hw m + rx_length m <= ETHMAC_BASE hw + rx_slots.
Proof.
  intros [((Hm & _) & _) _]. destruct Hm as [_ Hl]. destruct Hl as ((Hs & Hr) & Hsz & _). unfold sdev, rx_src, rx_slots in *.
  split; [lia|]. split; nia.
Qed.

Lemma slot_ready s R : stack_ok s R -> rx_ready pools hw (sdev s) /\
  exists x, load (n_mem (snet s)) (rx_src hw (e_mac (sdev s))) (Z.to_nat (rx_length (e_mac (sdev s)))) = Some x.
Proof.
  intros Hs. destruct (slot_in_range s R Hs) as (Hr & Hlo & Hhi). destruct Hs as [_ (Hsz & Hv & He)]. split.
  - unfold rx_ready. eapply Forall_impl; [exact He|]. intros a [Hva Ha]. split; [exact Hva|lia].
  - apply load_is_Some. intros i Hi. apply Hv. lia.
Qed.
(** A new state of the device and the packets. *)
Lemma ip_dev s R R' e : ip_ok s R -> refs pools (e_net e) (outer s R') -> driver_ready hw e ->
  same_dom (n_mem (snet s)) (n_mem (e_net e)) -> ip_ok (set_sdev e s) R' /\ ip_env s (set_sdev e s).
Proof.
  intros (((_ & _) & Ht & Hc) & Hnl & Hd) Hr He Hdom.
  assert (ip_env s (set_sdev e s)) as Henv by exact (conj (conj eq_refl Hdom) (conj eq_refl eq_refl)).
  split; [|done]. split; [split; [exact (conj Hr He)|done]|]. split.
  - eapply Forall_impl; [exact Hnl|]. intros a. by apply nif_live_env, Henv.
  - destruct Hd as [Hd|Hd]; [by left|right]. by eapply nif_live_env; [apply Henv|].
Qed.

Lemma stack_dev s R R' e : stack_ok s R -> refs pools (e_net e) (outer s R') -> driver_ready hw e ->
  same_dom (n_mem (snet s)) (n_mem (e_net e)) -> stack_ok (set_sdev e s) R' /\ ip_env s (set_sdev e s).
Proof.
  intros [Hok Hm] Hr He Hdom. destruct (ip_dev s R R' e Hok Hr He Hdom) as [Hok' Henv]. split; [|done].
  split; [done|exact (dev_mem_dom _ _ Hdom Hm)].
Qed.

(** The pbufs cut from the pool for the frame are in live memory, and the first one has
    room for the headers that are read before any length is known. *)
Lemma chain_placed (n : net H) fl hl m k l : dev_mem m -> net_inv pools n fl hl -> n_mem n = m ->
  pool_chain (fl MEMP_PBUF_POOL) k PBUF_RAW = Some l -> 0 <= k < 65536 ->
  Forall (fun ab => placed m ab.1 ab.2) l /\ (forall p b l', l = (p, b) :: l' -> valid_range m (payload b) 42).
Proof.
  intros (Hsz & _ & He) Hi Em El Hk. assert (0 <= PBUF_RAW <= 1000) as Hraw by (unfold PBUF_RAW; lia).
  destruct (pool_chain_elems pools n fl hl _ _ l Hi El Hraw Hk) as [Hel _].
  pose proof (pool_chain_in_element pools n fl hl _ _ l Hsz Hi El Hraw Hk) as Hin.
  destruct (pool_chain_spec _ _ _ _ El Hk Hraw) as (Ht & _). rewrite Forall_forall in He. rewrite Forall_forall in Hel. rewrite Forall_forall in Hin. split.
  - assert (Forall (fun ab => 0 <= len ab.2 < 65536 /\ 0 <= tot_len ab.2 < 65536) l) as Hlen.
    { clear -Ht. induction l as [|[a b] l IH]; [constructor|]. destruct Ht as (? & ? & ? & Ht). pose proof (sum_len_nonneg _ Ht).
      constructor; [simpl; lia|by apply IH]. }
    rewrite Forall_forall in Hlen. apply Forall_forall. intros [a b] Hab. destruct (Hin _ Hab) as (H1 & _ & H2), (Hlen _ Hab) as [??].
    destruct (He a (Hel _ Hab)) as [Hv _]. change SIZEOF_STRUCT_PBUF with 16 in H1. simpl in *.
    split_and!; [lia..|intros i Hx; apply Hv; lia|]. intros _. split; [done|]. intros i Hx. apply Hv. lia.
  - intros p b l' ->. destruct (pool_chain_head _ _ _ _ El) as (b0 & l0 & [= -> -> ->] & Hp).
    assert (hd NULL (fl MEMP_PBUF_POOL) ∈ elems (pools MEMP_PBUF_POOL)) as Ha by (apply (Hel (_, b0)); left).
    destruct (He _ Ha) as [Hv _]. destruct (payload_in_element pools _ PBUF_RAW 42 Hsz Ha Hraw) as (H1 & _ & H2).
    { pose proof (pool_room_range PBUF_RAW Hraw). lia. }
    rewrite <- Hp in H1, H2. change SIZEOF_STRUCT_PBUF with 16 in H1. intros i Hx. apply Hv. lia.
Qed.

Lemma receive_ok s R : stack_ok s R -> exists p s', on_dev (low_level_input pools hw) s = Ok (p, s') /\ ip_env s s' /\
  stack_ok s' (ptr p ⊎ R) /\ (p <> NULL -> exists b l, whole (n_pbufs (snet s')) p b l /\ valid_range (n_mem (snet s')) (payload b) 42).
Proof.
  intros Hs. pose proof Hs as [Hok Hdm]. pose proof Hok as (((Hr & Hl) & _) & _).
  destruct (ev_pending (e_mac (sdev s))) eqn:Eev.
  2:{ exists NULL, s. split_and!; [|done| |done].
      - assert (low_level_input pools hw (sdev s) = Ok (NULL, sdev s)) as E.
        { unfold low_level_input. rewrite (bind_ok (gets e_mac) _ _ (e_mac (sdev s)) (sdev s)) by done. by rewrite Eev. }
        rewrite (on_dev_ok _ s _ _ E). unfold set_sdev, sdev. f_equal. f_equal. destruct s as [[[]] ? ? ? ? ?]. done.
      - by rewrite ptr_null, (left_id_L ∅ (⊎)). }
  destruct (slot_in_range s R Hs) as [Hrl _]. destruct (slot_ready s R Hs) as [Hrdy [x Hx]]. pose proof Hr as [(fl & hl & Hi) Hr'].
  destruct (low_level_input_cases pools hw (sdev s) fl hl x Hi Eev Hrl (proj1 Hdm) Hrdy Hx) as (e & [Emac Hdom] & Hcase).
  assert (driver_ready hw e) as Hre.
  { destruct Hl as (H0 & H1 & H2 & H3 & H4). unfold driver_ready. rewrite Emac. split_and!; try exact H0; try done; try apply H3; try lia.
    intros slot Hslot. eapply same_dom_valid; [exact Hdom|]. by apply H4. }
  destruct (pool_chain _ _ _) as [l|] eqn:El.
  - destruct Hcase as (E & Hc & _ & Hout & Hi'). set (p := hd NULL (fl MEMP_PBUF_POOL)) in *.
    assert (0 <= PBUF_RAW <= 1000) as Hraw by (unfold PBUF_RAW; lia).
    destruct (pool_chain_spec _ _ _ _ El Hrl Hraw) as (Ht & _ & Hsp & _).
    destruct (chain_placed (snet s) fl hl (n_mem (snet s)) _ l Hdm Hi eq_refl El Hrl) as [Hpl H42].
    assert (refs pools (e_net e) (outer s (ptr p ⊎ R))) as Hre'.
    { rewrite outer_ptr. eapply (pool_packet_refs pools (snet s)); [exact Hr|exact Hi|exact Hi'|exact Hdom|exact Hc|exact Hsp| |exact Hout|exact Hpl].
      exact (pool_chain_stack _ _ _ _ El Hrl Hraw). }
    destruct (stack_dev s R (ptr p ⊎ R) e Hs Hre' Hre Hdom) as [Hs' He'].
    exists p, (set_sdev e s). split_and!; [by apply on_dev_ok|done|done|]. intros _.
    destruct (pool_chain_head _ _ _ _ El) as (b & l' & -> & _). exists b, l'. split.
    + split_and!; [exact Hc|exact Ht|by eapply pool_chain_one_packet|exact Hsp].
    + eapply same_dom_valid; [exact Hdom|]. by eapply H42.
  - destruct Hcase as (E & Ep & Em & Hi'). exists NULL, (set_sdev e s). rewrite ptr_null, (left_id_L ∅ (⊎)).
    assert (refs pools (e_net e) (outer s R)) as Hre'.
    { destruct Hr' as (Hrc & Hpl & Hv). unfold refs. rewrite Ep, Em. split_and!; [by eexists _, _|exact Hrc|exact Hpl|exact Hv]. }
    destruct (stack_dev s R R e Hs Hre' Hre Hdom) as [Hs' He']. split_and!; [by apply on_dev_ok|done|done|done].
Qed.

Lemma poll_ok s R inp : stack_ok s R -> nif_live (i_arp s) inp ->
  runs (main_poll inp) s (fun _ s' => stack_ok s' R /\ ip_env s s').
Proof.
  intros Hs Hi. destruct (receive_ok s R Hs) as (p & s1 & E & He & Hs1 & Hp). unfold main_poll, ethernetif_input.
  eapply runs_step; [exact E|]. destruct (Z.eqb_spec p NULL) as [->|Hz].
  { apply runs_ret. split; [|done]. by rewrite ptr_null, (left_id_L ∅ (⊎)) in Hs1. }
  destruct (Hp Hz) as (b & l & Hw & Hv). eapply runs_bind.
  - apply (ethernet_input_safe pools (driver_link hw) (etharp_output pools (driver_link hw)) tcp_input s1 R p b l inp); try done.
    + apply Hs1.
    + eapply nif_live_env; [exact (proj1 He)|done].
  - intros r s2 (-> & Hok2 & He2). cbn [negb Z.eqb ERR_OK]. apply runs_ret. split; [by eapply stack_env|]. by etransitivity.
Qed.
(** ** The system as a state machine *)

(** The MAC has written the frame into a receive slot and raises its event. *)
Definition with_frame (slot n : Z) (m : memory) s : ip H T :=
  let k := e_mac (sdev s) in
  set_sdev (mk_eth (set_mem m (snet s))
    (mk_mac (txslot k) (busy k) true (reader_ev k) slot n (reader_slot k) (reader_length k) (started k) (leds k))) s.

(** What happens, in any order: frames with any content, rounds of the main loop, ticks
    of the ARP timer, and whatever the protocols above do within their contract. *)
Inductive stack_step (inp : Z) : ip H T -> ip H T -> Prop :=
| step_frame s slot x m : 0 <= slot < ETHMAC_RX_SLOTS hw -> Z.of_nat (length x) <= ETHMAC_SLOT_SIZE hw ->
    store (n_mem (snet s)) (ETHMAC_BASE hw + ETHMAC_SLOT_SIZE hw * slot) x = Some m ->
    stack_step inp s (with_frame slot (Z.of_nat (length x)) m s)
| step_poll s s' : main_poll inp s = Ok (tt, s') -> stack_step inp s s'
| step_arp_tmr s s' : on_arp (etharp_tmr pools (driver_link hw)) s = Ok (tt, s') -> stack_step inp s s'
| step_upper s s' : stack_ok s' ∅ -> ip_env s s' -> stack_step inp s s'.

Lemma frame_ok s slot x m R : stack_ok s R -> 0 <= slot < ETHMAC_RX_SLOTS hw -> Z.of_nat (length x) <= ETHMAC_SLOT_SIZE hw ->
  store (n_mem (snet s)) (ETHMAC_BASE hw + ETHMAC_SLOT_SIZE hw * slot) x = Some m ->
  stack_ok (with_frame slot (Z.of_nat (length x)) m s) R /\ ip_env s (with_frame slot (Z.of_nat (length x)) m s).
Proof.
  intros Hs Hslot Hx Em. pose proof (same_dom_store _ _ _ _ Em) as Hd. pose proof Hs as [Hok _].
  apply (stack_dev s R R); [done|apply refs_mem; [by apply (ip_refs pools (driver_link hw))|done]| |done].
  destruct Hok as (((_ & Hl) & _) & _). destruct Hl as (_ & H1 & H2 & H3 & H4).
  unfold driver_ready, rx_in_range. cbn [e_mac e_net txslot rx_slot rx_length n_mem set_mem]. split_and!; try done; try apply H3; try lia.
  intros k Hk. eapply same_dom_valid; [exact Hd|]. by apply H4.
Qed.

Lemma tmr_ok s R : stack_ok s R -> exists s', on_arp (etharp_tmr pools (driver_link hw)) s = Ok (tt, s') /\ stack_ok s' R /\ ip_env s s'.
Proof.
  intros Hs. pose proof Hs as [Hok _]. pose proof Hok as (Ha & _).
  destruct (for_entries_ok pools (driver_link hw) _ _ aged (fun k i e => tmr_entry_ok pools (driver_link hw) k _ i e) 10 0 (i_arp s) Ha eq_refl)
    as (k & E & Hk & He & _).
  assert (ip_env s (with_arp k s)) as Henv by exact (conj He (conj eq_refl eq_refl)).
  exists (with_arp k s). split_and!; [by apply on_arp_ok| |done]. eapply stack_env; [exact Hs| |exact Henv].
  by eapply (ip_ok_arp pools (driver_link hw)).
Qed.

Lemma step_ok inp s s' : stack_step inp s s' -> stack_ok s ∅ -> nif_live (i_arp s) inp -> stack_ok s' ∅ /\ nif_live (i_arp s') inp.
Proof.
  intros Hst Hs Hi. enough (stack_ok s' ∅ /\ ip_env s s') as [Hs' He] by (split; [done|]; by eapply nif_live_env; [exact (proj1 He)|]).
  destruct Hst as [s slot x m H1 H2 H3|s s' E|s s' E|s s' H1 H2]; [by eapply frame_ok| | |done].
  - destruct (poll_ok s ∅ inp Hs Hi) as ([] & s1 & E1 & Hk). rewrite E in E1. injection E1 as <-. exact Hk.
  - destruct (tmr_ok s ∅ Hs) as (s1 & E1 & Hk). rewrite E in E1. injection E1 as <-. exact Hk.
Qed.

Lemma reach_ok inp s s' : rtc (stack_step inp) s s' -> stack_ok s ∅ -> nif_live (i_arp s) inp -> stack_ok s' ∅ /\ nif_live (i_arp s') inp.
Proof. induction 1 as [|s s1 s' H1 _ IH]; [done|]. intros Hs Hi. destruct (step_ok inp s s1 H1 Hs Hi). by apply IH. Qed.

End Stack.
