(* ===== verification/StackEx.v ===== *)
(** * Concrete states of the stack

    A configuration in which the assumptions of the theorems on IPv4, ICMP and the stack
    hold: one interface with the address 192.168.1.50, the example pools and heap, the
    driver's four slots, and a transport protocol that drops what it is given. *)

From S2P Require Import Prelude Chksum Memp Pbuf PbufSpec PbufData PbufRefs Ethernetif Ip4Addr Ethernet Etharp EtharpSpec Ip4 Ip4Spec Icmp IcmpSpec IpInput IpInputSpec Stack.
From stdpp Require Import base numbers list gmap gmultiset functions sorting relations.
Open Scope Z_scope.
Open Scope c_scope.

Global Instance unit_upper : Upper unit := fun _ => ∅.

Definition ex_tcp (p inp : Z) : M (ip Z unit) unit := free_pbuf p.

Global Instance ex_tcp_laws : TransportLaws example_pools (driver_link ex_dma) ex_tcp.
Proof. intros s R p b l inp Hok _ _ Hp _ _. destruct (packet_lookup _ _ _ _ Hp) as [Hz _]. exact (free_runs example_pools (driver_link ex_dma) s R p Hok Hz). Qed.

Definition ex_stack_mem : memory := mem_on (seqZ 268440456 6163 ++ seqZ 536870912 65536 ++ seqZ 2147483648 8192).
Definition ex_up : nif := {| ip_addr := 838969536; netmask := 16777215; gw := 16820416; nif_hwaddr := fpga_mac;
  nif_hwaddr_len := 6; nif_mtu := 1500; nif_flags := 15; num := 0 |}.
Definition ex_stack : ip Z unit :=
  mk_ip (mk_arp (mk_link (mk_eth (ex_refs ex_stack_mem) (mk_mac 0 2 false false 0 0 0 0 [] 0)) {[ 4096 := ex_up ]}) arp_table_init 0)
    [4096] 4096 0 (mk_globals NULL NULL NULL 0 0 0) tt.

Lemma ex_stack_valid a k :
  268440456 <= a /\ a + k <= 268446619 \/ 536870912 <= a /\ a + k <= 536936448 \/ 2147483648 <= a /\ a + k <= 2147491840 ->
  valid_range ex_stack_mem a k.
Proof. intros Ha. unfold ex_stack_mem. apply mem_on_valid. intros i Hi. rewrite !elem_of_app, !elem_of_seqZ. lia. Qed.

(** From here on only what is valid in it matters. *)
Local Opaque ex_stack_mem.

Lemma ex_nif_live : nif_live (i_arp ex_stack) 4096.
Proof. split; [done|]. by exists ex_up. Qed.

Lemma ex_ip_ok : ip_ok example_pools (driver_link ex_dma) ex_stack ∅.
Proof.
  split; [split; [split|]|split].
  - apply ex_refs_ok. intros i Hi. apply (ex_stack_valid 536870912 65536); lia.
  - split_and!; try done. intros slot Hs. apply ex_stack_valid. unfold tx_buf. cbn in *. lia.
  - split; [apply init_table_ok|done].
  - constructor; [exact ex_nif_live|constructor].
  - right. exact ex_nif_live.
Qed.

Lemma ex_stack_ok : stack_ok example_pools ex_dma ex_stack ∅.
Proof.
  split; [exact ex_ip_ok|]. unfold dev_mem. change (ETHMAC_BASE ex_dma) with 2147483648. change (rx_slots ex_dma) with 4096.
  split_and!; [done|apply ex_stack_valid; lia|].
  apply Forall_forall. intros a Ha. apply elems_range in Ha; [|simpl; lia..]. simpl in Ha.
  change (Memp.size (example_pools MEMP_PBUF_POOL)) with 1540. split; [apply ex_stack_valid; lia|lia].
Qed.


(** The route to a host of the interface's network. *)
Lemma ip4_route_first_witness : exists a, ip4_route 855746752 ex_stack = Ok (a, ex_stack) /\
  route_spec (nifs (i_arp ex_stack)) [4096] 4096 855746752 a.
Proof. exact (ip4_route_first example_pools (driver_link ex_dma) ex_stack ∅ 855746752 ex_ip_ok). Defined.

(** A packet of eight bytes from the heap, with room for the headers in front of it. *)
Definition ex_p : Z := 536870912.
Definition ex_b : pbuf := ram_pbuf ex_p PBUF_IP 8.

Lemma ex_packet_ok : exists n1, n_mem n1 = ex_stack_mem /\ packet (n_pbufs n1) ex_p ex_b [] /\
  ip_ok example_pools (driver_link ex_dma) (set_snet n1 ex_stack) (ptr ex_p).
Proof.
  destruct (alloc_ram_refs example_pools (snet ex_stack) _ PBUF_IP 8 (ip_refs example_pools (driver_link ex_dma) ex_stack ∅ ex_ip_ok))
    as (p & n1 & E & Em & Hr & Hcase); [unfold PBUF_IP; lia|lia|].
  assert (exists n2, pbuf_alloc example_pools PBUF_IP 8 PBUF_RAM (snet ex_stack) = Ok (ex_p, n2)) as [n2 E2].
  { change (snet ex_stack) with (ex_refs ex_stack_mem). generalize ex_stack_mem. intros m. eexists. vm_compute. reflexivity. }
  rewrite E in E2. injection E2 as -> ->. destruct Hcase as [[Hx _]|(_ & _ & Es & _)]; [discriminate Hx|].
  exists n2. split_and!; [exact Em| |].
  - apply ram_packet_ip; [discriminate|lia|]. rewrite Es. apply lookup_insert_eq.
  - rewrite <- outer_ptr, (right_id_L ∅ (⊎)) in Hr. apply (ip_ok_net example_pools (driver_link ex_dma) ex_stack ∅ _ n2 ex_ip_ok Hr). by rewrite Em.
Qed.

Lemma ex_room : room ex_p ex_b 34 /\ room ex_p ex_b 20.
Proof. split; (split; [discriminate|]); vm_compute; split; (discriminate || reflexivity). Qed.

Lemma ip4_output_header_witness : exists (s s1 : ip Z unit) c,
  let hdr := ip_header 0 28 0 255 17 c 838969536 855746752 in
  ip4_output_if_src (etharp_output example_pools (driver_link ex_dma)) ex_p (Some 838969536) (Some 855746752) 255 0 17 4096 s =
    on_arp (etharp_output example_pools (driver_link ex_dma) 4096 ex_p 855746752) s1 /\
  load (n_mem (snet s1)) (payload ex_b - 20) 20 = Some hdr /\ inet_chksum (payload ex_b - 20) hdr = 0.
Proof.
  destruct ex_packet_ok as (n1 & _ & Hp & Hok).
  destruct (ip4_output_header example_pools (driver_link ex_dma) (etharp_output example_pools (driver_link ex_dma)) (set_snet n1 ex_stack)
    (ptr ex_p) ex_p ex_b [] 838969536 855746752 255 0 17 4096 Hok Hp) as [_ Hroom];
    [reflexivity|unfold is_u16, is_u8, is_u32; cbn; lia..|].
  destruct (Hroom (proj2 ex_room)) as (s1 & c & E & El & Ec & _). exists (set_snet n1 ex_stack), s1, c. exact (conj E (conj El Ec)).
Defined.

(** An echo request in that packet: the header in front of it, the message in it. *)
Definition ex_hdr : list Z := [69; 0; 0; 28; 0; 0; 0; 0; 64; 1; 0; 0; 192; 168; 1; 51; 192; 168; 1; 50].
Definition ex_echo : list Z := [8; 0; 247; 255; 0; 0; 0; 0].
Definition ex_globals : ip_globals := mk_globals 4096 4096 (payload ex_b - 20) 20 855746752 838969536.

Lemma ex_request : exists (s : ip Z unit), ip_ok example_pools (driver_link ex_dma) s (ptr ex_p) /\ ip_data s = ex_globals /\
  nifs (i_arp s) = {[ 4096 := ex_up ]} /\ echo_request s ex_p ex_b [] 20 ex_hdr ex_echo.
Proof.
  destruct ex_packet_ok as (n1 & Em1 & Hp & Hok).
  destruct (store_is_Some (n_mem n1) (payload ex_b - 20) (ex_hdr ++ ex_echo)) as [m Em].
  { rewrite Em1. apply ex_stack_valid. right. left. vm_compute. split; discriminate. }
  destruct (ip_ok_mem example_pools (driver_link ex_dma) _ _ m Hok (same_dom_store _ _ _ _ Em)) as [Hok2 _].
  pose proof (load_store _ _ _ _ Em) as El. change (length (ex_hdr ++ ex_echo)) with (20 + 8)%nat in El.
  apply load_split in El as [Eh Ed]. replace (payload ex_b - 20 + Z.of_nat 20) with (payload ex_b) in Ed by lia.
  exists (mk_ip (i_arp (set_smem m (set_snet n1 ex_stack))) [4096] 4096 0 ex_globals tt). split_and!; [exact Hok2|reflexivity|reflexivity|].
  assert (bytes_ok ex_hdr /\ bytes_ok ex_echo) as [Hb1 Hb2] by (split; repeat constructor; unfold is_u8; lia).
  pose proof ex_room as [(Hc & Hlo & Hfit) _]. constructor; cbn [i_arp ip_data].
  - exact (conj Hp eq_refl).
  - reflexivity.
  - exact (conj Eh Hb1).
  - split; [vm_compute; reflexivity|discriminate].
  - split; [exact Hc|]. unfold PBUF_LINK_HLEN. split; lia.
  - split; [|exact Hb2]. cbn [chain_data]. change (Z.to_nat (len ex_b)) with 8%nat. change (n_mem (snet _)) with m. by rewrite Ed.
  - split; vm_compute; discriminate.
  - constructor.
  - split; [reflexivity|vm_compute; reflexivity].
  - split; unfold is_u32; cbn; lia.
Qed.

Lemma icmp_echo_answer_witness : exists (s s1 : ip Z unit) c,
  icmp_input example_pools (etharp_output example_pools (driver_link ex_dma)) ex_p 4096 s =
    (on_arp (etharp_output example_pools (driver_link ex_dma) 4096 ex_p 855746752);; free_pbuf ex_p) s1 /\
  chain_data (n_mem (snet s1)) [(ex_p, moved ex_b 20)] =
    Some (reply_header ex_hdr 838969536 855746752 c ++ [0; 0; 255; 255; 0; 0; 0; 0]).
Proof.
  destruct ex_request as (s & Hok & Ed & En & Hreq).
  destruct (icmp_echo_answer example_pools (driver_link ex_dma) (etharp_output example_pools (driver_link ex_dma)) s (ptr ex_p) ex_p ex_b [] 4096
    20 ex_hdr ex_echo ex_up Hok Hreq) as (s1 & c & E & _ & Hd & _).
  - rewrite En, Ed. reflexivity.
  - rewrite Ed. vm_compute. reflexivity.
  - rewrite Ed. vm_compute. reflexivity.
  - exists s, s1, c. rewrite Ed in E, Hd. exact (conj E Hd).
Defined.

(** A received packet of sixty bytes. *)
Lemma ex_received : exists (s : ip Z unit) p b l, ip_ok example_pools (driver_link ex_dma) s (ptr p ⊎ ∅) /\
  nif_live (i_arp s) 4096 /\ whole (n_pbufs (snet s)) p b l /\ valid_range (n_mem (snet s)) (payload b) 28.
Proof.
  pose proof ex_stack_ok as [Hok Hdm]. pose proof (ip_refs example_pools (driver_link ex_dma) ex_stack ∅ Hok) as Hr.
  pose proof (net_inv_mem example_pools _ _ _ ex_stack_mem example_net_inv) as Hi0. change (set_mem ex_stack_mem example_net) with (snet ex_stack) in Hi0.
  destruct (pbuf_alloc_pool_cases example_pools (snet ex_stack) _ _ PBUF_RAW 60 Hi0) as (n1 & Em & Hcase);
    [unfold PBUF_RAW; lia|lia|].
  destruct (pool_chain _ _ _) as [l|] eqn:El; [|vm_compute in El; discriminate].
  destruct Hcase as (_ & Hc & Hout & _ & Hi). set (fl := fun t => rev (elems (example_pools t))) in *.
  assert (0 <= PBUF_RAW <= 1000) as Hraw by (unfold PBUF_RAW; lia). assert (0 <= 60 < 65536) as H60 by lia.
  destruct (pool_chain_spec _ _ _ _ El H60 Hraw) as (Ht & _ & Hsp & _).
  destruct (chain_placed example_pools ex_dma (snet ex_stack) fl ∅ _ _ l Hdm Hi0 eq_refl El H60) as [Hpl H42].
  assert (same_dom (n_mem (snet ex_stack)) (n_mem n1)) as Hd by (rewrite Em; apply same_dom_refl).
  assert (refs example_pools n1 (outer ex_stack (ptr (hd NULL (fl MEMP_PBUF_POOL)) ⊎ ∅))) as Hr1.
  { rewrite outer_ptr. eapply (pool_packet_refs example_pools (snet ex_stack)); [exact Hr|exact Hi0|exact Hi|exact Hd|exact Hc|exact Hsp| |exact Hout|exact Hpl].
    exact (pool_chain_stack _ _ _ _ El H60 Hraw). }
  destruct (ip_ok_net example_pools (driver_link ex_dma) ex_stack ∅ _ n1 Hok Hr1 Hd) as [Hok1 _].
  destruct (pool_chain_head _ _ _ _ El) as (b & l' & -> & _).
  exists (set_snet n1 ex_stack), (hd NULL (fl MEMP_PBUF_POOL)), b, l'. split_and!; [exact Hok1|exact ex_nif_live| |].
  - split_and!; [exact Hc|exact Ht|exact (pool_chain_one_packet _ _ _ _ El Hraw)|exact Hsp].
  - change (valid_range (n_mem n1) (payload b) 28). rewrite Em. intros i Hx. apply (H42 _ _ _ eq_refl). lia.
Qed.

Lemma ip4_input_filter_witness : exists (s s' : ip Z unit) p,
  ip4_input example_pools (etharp_output example_pools (driver_link ex_dma)) ex_tcp p 4096 s = Ok (ERR_OK, s') /\
  ip_ok example_pools (driver_link ex_dma) s' ∅.
Proof.
  destruct ex_received as (s & p & b & l & Hok & Hn & Hw & Hv).
  destruct (ip4_input_filter example_pools (driver_link ex_dma) (etharp_output example_pools (driver_link ex_dma)) ex_tcp s ∅ p b l 4096 Hok Hn Hw Hv)
    as [(s' & E & Hok') _].
  exists s, s', p. exact (conj E Hok').
Defined.
