(* ===== verification/Netif.v ===== *)
(** * Network interfaces: core/netif.c

    The list of interfaces, their addresses and their state. The state is that of IP and
    the number for the next interface. A change of address is reported to TCP, which is
    a parameter. The names of interfaces, which the firmware never sets, are left out. *)

From S2P Require Import Prelude Chksum Memp Pbuf PbufSpec PbufData PbufRefs Ethernetif Ip4Addr Ethernet Etharp Ip4 Icmp IpInput.
From stdpp Require Import base numbers list gmap.
Open Scope Z_scope.
Open Scope c_scope.

Definition NETIF_FLAG_ETHERNET : Z := 16.
Definition NETIF_REPORT_TYPE_IPV4 : Z := 1.
Definition NETIF_REPORT_TYPE_IPV6 : Z := 2.

Definition with_ip_addr (x : Z) (n : nif) : nif :=
  {| ip_addr := x; netmask := netmask n; gw := gw n; nif_hwaddr := nif_hwaddr n; nif_hwaddr_len := nif_hwaddr_len n;
     nif_mtu := nif_mtu n; nif_flags := nif_flags n; num := num n |}.
Definition with_netmask (x : Z) (n : nif) : nif :=
  {| ip_addr := ip_addr n; netmask := x; gw := gw n; nif_hwaddr := nif_hwaddr n; nif_hwaddr_len := nif_hwaddr_len n;
     nif_mtu := nif_mtu n; nif_flags := nif_flags n; num := num n |}.
Definition with_gw (x : Z) (n : nif) : nif :=
  {| ip_addr := ip_addr n; netmask := netmask n; gw := x; nif_hwaddr := nif_hwaddr n; nif_hwaddr_len := nif_hwaddr_len n;
     nif_mtu := nif_mtu n; nif_flags := nif_flags n; num := num n |}.
Definition with_mtu (x : Z) (n : nif) : nif :=
  {| ip_addr := ip_addr n; netmask := netmask n; gw := gw n; nif_hwaddr := nif_hwaddr n; nif_hwaddr_len := nif_hwaddr_len n;
     nif_mtu := x; nif_flags := nif_flags n; num := num n |}.
Definition with_nif_flags (x : Z) (n : nif) : nif :=
  {| ip_addr := ip_addr n; netmask := netmask n; gw := gw n; nif_hwaddr := nif_hwaddr n; nif_hwaddr_len := nif_hwaddr_len n;
     nif_mtu := nif_mtu n; nif_flags := x; num := num n |}.
Definition with_num (x : Z) (n : nif) : nif :=
  {| ip_addr := ip_addr n; netmask := netmask n; gw := gw n; nif_hwaddr := nif_hwaddr n; nif_hwaddr_len := nif_hwaddr_len n;
     nif_mtu := nif_mtu n; nif_flags := nif_flags n; num := x |}.
Definition with_hwaddr (l : list Z) (k : Z) (n : nif) : nif :=
  {| ip_addr := ip_addr n; netmask := netmask n; gw := gw n; nif_hwaddr := l; nif_hwaddr_len := k;
     nif_mtu := nif_mtu n; nif_flags := nif_flags n; num := num n |}.

(** [netif_set_flags] and [netif_clear_flags] on the eight bits of the field. *)
Definition netif_set_flags (x : Z) (n : nif) : nif := with_nif_flags (u8 (nif_flags n |c x)) n.
Definition netif_clear_flags (x : Z) (n : nif) : nif := with_nif_flags (u8 (nif_flags n &c Z.lnot x)) n.
Definition netif_get_index (n : nif) : Z := u8 (num n + 1).

Record nets (H T : Type) := mk_nets { s_ip : ip H T; netif_num : Z }.
Arguments mk_nets {H T}.
Arguments s_ip {H T}.
Arguments netif_num {H T}.

Section Netif.
Context (pools : memp_t -> memp_desc) {H : Type} `{HH : !Heap H} {T : Type}.
Context (linkoutput : Z -> Z -> M (eth H) Z).
Context (tcp_netif_ip_addr_changed : Z -> option Z -> M (ip H T) unit).

Definition on_ip {A} (m : M (ip H T) A) : M (nets H T) A := fun s =>
  match m (s_ip s) with
  | Ok (a, i) => Ok (a, mk_nets i (netif_num s))
  | AssertFail => AssertFail | Fault => Fault | NoFuel => NoFuel
  end.

(** A field of the struct at [a]. *)
Definition put_nif (a : Z) (f : nif -> nif) : M (link H) unit := fun k =>
  match l_netifs k !! a with
  | Some n => Ok (tt, mk_link (l_eth k) (<[a := f n]> (l_netifs k)))
  | None => Fault
  end.
Definition get_netif (a : Z) : M (nets H T) nif := on_ip (ip_netif a).
Definition upd_netif (a : Z) (f : nif -> nif) : M (nets H T) unit := on_ip (on_arp (on_link (put_nif a f))).
Definition the_list : M (nets H T) (list Z) := gets (fun s => netif_list (s_ip s)).
Definition set_list (l : list Z) : M (nets H T) unit := modify (fun s =>
  let i := s_ip s in mk_nets (mk_ip (i_arp i) l (netif_default i) (ip_id i) (ip_data i) (i_upper i)) (netif_num s)).
Definition set_default_ptr (a : Z) : M (nets H T) unit := modify (fun s =>
  let i := s_ip s in mk_nets (mk_ip (i_arp i) (netif_list i) a (ip_id i) (ip_data i) (i_upper i)) (netif_num s)).
Definition set_netif_num (x : Z) : M (nets H T) unit := modify (fun s => mk_nets (s_ip s) x).

(** ** Addresses *)

(** [etharp_gratuitous(netif)] is a request for the interface's own address. *)
Definition netif_issue_reports (netif report_type : Z) : M (nets H T) unit :=
  assert (negb (netif =? NULL));;
  n ← get_netif netif;
  if negb (netif_is_link_up n) || negb (netif_is_up n) then mret tt
  else if negb ((report_type &c NETIF_REPORT_TYPE_IPV4) =? 0) && negb (ip4_addr_isany (ip_addr n)) then
    if negb ((nif_flags n &c NETIF_FLAG_ETHARP) =? 0)
    then on_ip (on_arp (etharp_request pools linkoutput netif (ip_addr n)));; mret tt else mret tt
  else mret tt.

Definition netif_do_set_ipaddr (netif ipaddr : Z) : M (nets H T) Z :=
  n ← get_netif netif;
  if negb (ip4_addr_cmp ipaddr (ip_addr n)) then
    on_ip (tcp_netif_ip_addr_changed (ip_addr n) (Some ipaddr));;
    upd_netif netif (with_ip_addr ipaddr);;
    netif_issue_reports netif NETIF_REPORT_TYPE_IPV4;;
    mret 1
  else mret 0.

Definition netif_do_set_netmask (netif mask : Z) : M (nets H T) Z :=
  n ← get_netif netif;
  if negb (ip4_addr_cmp mask (netmask n)) then upd_netif netif (with_netmask mask);; mret 1 else mret 0.

Definition netif_do_set_gw (netif gateway : Z) : M (nets H T) Z :=
  n ← get_netif netif;
  if negb (ip4_addr_cmp gateway (gw n)) then upd_netif netif (with_gw gateway);; mret 1 else mret 0.

(** NULL stands for the address 0.0.0.0. *)
Definition addr_or_any (a : option Z) : Z := match a with Some x => x | None => IPADDR_ANY end.

Definition netif_set_ipaddr (netif : Z) (ipaddr : option Z) : M (nets H T) unit :=
  if netif =? NULL then mret tt else netif_do_set_ipaddr netif (addr_or_any ipaddr);; mret tt.
Definition netif_set_netmask (netif : Z) (mask : option Z) : M (nets H T) unit :=
  if netif =? NULL then mret tt else netif_do_set_netmask netif (addr_or_any mask);; mret tt.
Definition netif_set_gw (netif : Z) (gateway : option Z) : M (nets H T) unit :=
  if netif =? NULL then mret tt else netif_do_set_gw netif (addr_or_any gateway);; mret tt.

Definition netif_set_addr (netif : Z) (ipaddr mask gateway : option Z) : M (nets H T) unit :=
  let remove := ip4_addr_isany (addr_or_any ipaddr) in
  (if remove then netif_do_set_ipaddr netif (addr_or_any ipaddr);; mret tt else mret tt);;
  netif_do_set_netmask netif (addr_or_any mask);;
  netif_do_set_gw netif (addr_or_any gateway);;
  (if negb remove then netif_do_set_ipaddr netif (addr_or_any ipaddr);; mret tt else mret tt).

(** ** Up and down *)

Definition netif_set_default (netif : Z) : M (nets H T) unit := set_default_ptr netif.

Definition netif_set_up (netif : Z) : M (nets H T) unit :=
  if netif =? NULL then mret tt
  else
    n ← get_netif netif;
    if negb (netif_is_up n) then
      upd_netif netif (netif_set_flags NETIF_FLAG_UP);;
      netif_issue_reports netif (NETIF_REPORT_TYPE_IPV4 |c NETIF_REPORT_TYPE_IPV6)
    else mret tt.

Definition netif_set_down (netif : Z) : M (nets H T) unit :=
  if netif =? NULL then mret tt
  else
    n ← get_netif netif;
    if netif_is_up n then
      upd_netif netif (netif_clear_flags NETIF_FLAG_UP);;
      n ← get_netif netif;
      if negb ((nif_flags n &c NETIF_FLAG_ETHARP) =? 0)
      then on_ip (on_arp (etharp_cleanup_netif netif)) else mret tt
    else mret tt.

Definition netif_set_link_up (netif : Z) : M (nets H T) unit :=
  if netif =? NULL then mret tt
  else
    n ← get_netif netif;
    if negb (netif_is_link_up n) then
      upd_netif netif (netif_set_flags NETIF_FLAG_LINK_UP);;
      netif_issue_reports netif (NETIF_REPORT_TYPE_IPV4 |c NETIF_REPORT_TYPE_IPV6)
    else mret tt.

Definition netif_set_link_down (netif : Z) : M (nets H T) unit :=
  if netif =? NULL then mret tt
  else
    n ← get_netif netif;
    if netif_is_link_up n then upd_netif netif (netif_clear_flags NETIF_FLAG_LINK_UP) else mret tt.

(** ** The list of interfaces *)

(** The inner loop of the search for a number: does an interface of the list have the
    number of [netif]? Then that number is increased. *)
Fixpoint num_scan (netif : Z) (l : list Z) (num_netifs : Z) : M (nets H T) bool :=
  match l with
  | [] => mret false
  | netif2 :: l' =>
      assert (negb (netif2 =? netif));;
      let num_netifs := num_netifs + 1 in
      assert (num_netifs <=? 255);;
      n2 ← get_netif netif2;
      n ← get_netif netif;
      if num n2 =? num n then upd_netif netif (fun n => with_num (u8 (num n + 1)) n);; mret true
      else num_scan netif l' num_netifs
  end.

(** [do ... while (netif2 != NULL)] *)
Fixpoint num_loop (fuel : nat) (netif : Z) : M (nets H T) unit :=
  match fuel with
  | O => nofuel
  | S fuel' =>
      n ← get_netif netif;
      (if num n =? 255 then upd_netif netif (with_num 0) else mret tt);;
      l ← the_list;
      taken ← num_scan netif l 0;
      if (taken : bool) then num_loop fuel' netif else mret tt
  end.

(** [init] is the driver's callback. The loop above needs at most one round more than
    there are interfaces. *)
Definition netif_add (netif : Z) (ipaddr mask gateway : option Z) (init : Z -> M (nets H T) Z) : M (nets H T) Z :=
  if netif =? NULL then mret NULL
  else
    upd_netif netif (fun n => with_gw 0 (with_netmask 0 (with_ip_addr 0 n)));;
    upd_netif netif (with_mtu 0);;
    upd_netif netif (with_nif_flags 0);;
    k ← gets netif_num;
    upd_netif netif (with_num k);;
    netif_set_addr netif ipaddr mask gateway;;
    e ← init netif;
    if negb (e =? ERR_OK) then mret NULL
    else
      l ← the_list;
      num_loop (S (length l)) netif;;
      n ← get_netif netif;
      (if num n =? 254 then set_netif_num 0 else set_netif_num (u8 (num n + 1)));;
      set_list (netif :: l);;
      mret netif.

Definition netif_add_noaddr (netif : Z) (init : Z -> M (nets H T) Z) : M (nets H T) Z := netif_add netif None None None init.

(** The input function for drivers of both kinds; this firmware's driver is given
    [ethernet_input] itself. *)
Definition netif_input (netif_output : Z -> Z -> Z -> M (arp H) Z) (tcp_input : Z -> Z -> M (ip H T) unit) (p inp : Z) : M (nets H T) Z :=
  assert (negb (p =? NULL));;
  assert (negb (inp =? NULL));;
  n ← get_netif inp;
  if negb ((nif_flags n &c (NETIF_FLAG_ETHARP |c NETIF_FLAG_ETHERNET)) =? 0)
  then on_ip (ethernet_input pools netif_output linkoutput tcp_input p inp)
  else on_ip (ip4_input pools netif_output tcp_input p inp).

(** Unlinking; [None] if the interface is not in the list. *)
Fixpoint unlink (netif : Z) (l : list Z) : option (list Z) :=
  match l with
  | [] => None
  | a :: l' => if a =? netif then Some l' else (cons a) <$> unlink netif l'
  end.

Definition netif_remove (netif : Z) : M (nets H T) unit :=
  if netif =? NULL then mret tt
  else
    n ← get_netif netif;
    (if negb (ip4_addr_isany (ip_addr n)) then on_ip (tcp_netif_ip_addr_changed (ip_addr n) None) else mret tt);;
    n ← get_netif netif;
    (if netif_is_up n then netif_set_down netif else mret tt);;
    d ← gets (fun s => netif_default (s_ip s));
    (if d =? netif then netif_set_default NULL else mret tt);;
    l ← the_list;
    match unlink netif l with Some l' => set_list l' | None => mret tt end.

Fixpoint index_loop (idx : Z) (l : list Z) : M (ip H T) Z :=
  match l with
  | [] => mret NULL
  | a :: l' => n ← ip_netif a; if idx =? netif_get_index n then mret a else index_loop idx l'
  end.
Definition netif_get_by_index (idx : Z) : M (ip H T) Z :=
  if negb (idx =? NETIF_NO_INDEX) then l ← gets netif_list; index_loop idx l else mret NULL.

(** The driver's callback fills in what [ethernetif_init] computes. *)
Definition ethernetif_init_cb (netif : Z) : M (nets H T) Z :=
  '(f, e) ← on_ip (on_arp (on_link (on_eth ethernetif_init)));
  upd_netif netif (fun n => with_nif_flags (flags f) (with_mtu (mtu f) (with_hwaddr (hwaddr f) (hwaddr_len f) n)));;
  mret e.
End Netif.
