(* ===== verification/NetifSpec.v ===== *)
(** * Properties of the network interfaces

    Every interface gets a number of its own, as long as there is one; if there is none
    the search does not end. Start-up from the initialised memory reaches a state from
    which the stack is safe. *)

From S2P Require Import Prelude Chksum Memp Pbuf PbufSpec PbufData PbufRefs Ethernetif Ip4Addr Ethernet Etharp EtharpSpec Ip4 Ip4Spec Icmp IcmpSpec IpInput IpInputSpec Stack Netif.
From stdpp Require Import base numbers list gmap gmultiset functions sorting.
Open Scope Z_scope.
Open Scope c_scope.

Section Spec.
Context (pools : memp_t -> memp_desc) `{HP : !PoolsOk pools} {H : Type} `{HH : !Heap H} `{HL : !HeapLaws pools H}.
Context (linkoutput : Z -> Z -> M (eth H) Z) `{LL : !LinkLaws linkoutput} {T : Type} `{UT : !Upper T}.
Implicit Types s : nets H T.

(** ** Steps *)

Definition snifs s : gmap Z nif := nifs (i_arp (s_ip s)).
Definition set_snifs (g : gmap Z nif) s : nets H T :=
  let k := i_arp (s_ip s) in
  mk_nets (with_arp (mk_arp (mk_link (l_eth (a_link k)) g) (arp_table k) (etharp_cached_entry k)) (s_ip s)) (netif_num s).

Lemma get_netif_ok s a n : snifs s !! a = Some n -> get_netif a s = Ok (n, s).
Proof. intros E. unfold get_netif, on_ip. rewrite (ip_netif_ok (s_ip s) a n E). by destruct s. Qed.

Lemma upd_netif_ok s a n f : snifs s !! a = Some n -> upd_netif a f s = Ok (tt, set_snifs (<[a := f n]> (snifs s)) s).
Proof. intros E. unfold upd_netif, on_ip, on_arp, on_link, put_nif. unfold snifs, nifs in *. by rewrite E. Qed.

Lemma set_snifs_twice s g g' : set_snifs g' (set_snifs g s) = set_snifs g' s.
Proof. done. Qed.
Lemma set_snifs_id s : set_snifs (snifs s) s = s.
Proof. by destruct s as [[[[]] ? ? ? ? ?] ?]. Qed.

(** ** The numbers of interfaces *)

(** The interfaces of the list have the numbers [ns]. *)
Definition numbers (g : gmap Z nif) (l ns : list Z) : Prop := Forall2 (fun a k => exists n, g !! a = Some n /\ num n = k) l ns.

Lemma numbers_other g l ns a n : numbers g l ns -> a ∉ l -> numbers (<[a := n]> g) l ns.
Proof.
  intros Hns Hni. apply Forall2_same_length_lookup_2; [by eapply Forall2_length|]. intros i x k Hx Hk.
  destruct (Forall2_lookup_lr _ _ _ _ _ _ Hns Hx Hk) as (n2 & E2 & Hn2). exists n2. split; [|done].
  rewrite lookup_insert_ne; [done|]. intros ->. apply Hni. by eapply list_elem_of_lookup_2.
Qed.

Lemma num_scan_ok netif l : forall ns s n c, numbers (snifs s) l ns -> netif ∉ l -> snifs s !! netif = Some n ->
  0 <= c -> c + Z.of_nat (length l) <= 255 ->
  num_scan netif l c s = if bool_decide (num n ∈ ns) then Ok (true, set_snifs (<[netif := with_num (u8 (num n + 1)) n]> (snifs s)) s) else Ok (false, s).
Proof.
  induction l as [|a l IH]; intros ns s n c Hns Hni En Hc Hl; inversion Hns as [|? k ? ns' (n2 & E2 & Ek) Hns']; subst; [done|].
  cbn [num_scan length] in *. apply not_elem_of_cons in Hni as [Hne Hni].
  rewrite (bind_ok (assert _) _ _ tt s) by (unfold assert; by destruct (Z.eqb_spec a netif)).
  rewrite (bind_ok (assert _) _ _ tt s) by (unfold assert; by rewrite (proj2 (Z.leb_le _ _)) by lia).
  rewrite (bind_ok _ _ _ _ _ (get_netif_ok s a n2 E2)), (bind_ok _ _ _ _ _ (get_netif_ok s netif n En)).
  destruct (Z.eqb_spec (num n2) (num n)) as [He|He].
  - rewrite bool_decide_true by (rewrite He; left). by rewrite (bind_ok _ _ _ _ _ (upd_netif_ok s netif n _ En)).
  - rewrite (IH ns' s n (c + 1) Hns' Hni En) by lia. erewrite bool_decide_ext; [done|]. rewrite elem_of_cons. naive_solver.
Qed.

(** The number that the next round tries. *)
Definition effective (c : Z) : Z := if c =? 255 then 0 else c.

Lemma round_ok netif fuel s n ns : numbers (snifs s) (netif_list (s_ip s)) ns -> netif ∉ netif_list (s_ip s) ->
  snifs s !! netif = Some n -> Z.of_nat (length ns) <= 255 ->
  num_loop (S fuel) netif s =
    if bool_decide (effective (num n) ∈ ns)
    then num_loop fuel netif (set_snifs (<[netif := with_num (u8 (effective (num n) + 1)) n]> (snifs s)) s)
    else Ok (tt, set_snifs (<[netif := with_num (effective (num n)) n]> (snifs s)) s).
Proof.
  intros Hns Hni En Hl. pose proof (Forall2_length _ _ _ Hns) as Hll. cbn [num_loop]. rewrite (bind_ok _ _ _ _ _ (get_netif_ok s netif n En)).
  set (n1 := with_num (effective (num n)) n). set (s1 := set_snifs (<[netif := n1]> (snifs s)) s).
  assert ((if num n =? 255 then upd_netif netif (with_num 0) else mret tt) s = Ok (tt, s1)) as E0.
  { unfold s1, n1, effective. destruct (num n =? 255); [by rewrite (upd_netif_ok s netif n _ En)|].
    assert (with_num (num n) n = n) as -> by (by destruct n). by rewrite insert_id, set_snifs_id. }
  rewrite (bind_ok _ _ _ _ _ E0), (bind_ok the_list _ _ (netif_list (s_ip s)) s1) by done.
  assert (numbers (snifs s1) (netif_list (s_ip s)) ns) as Hns1 by (by apply numbers_other).
  pose proof (num_scan_ok netif _ ns s1 n1 0 Hns1 Hni (lookup_insert_eq _ _ _) ltac:(lia) ltac:(lia)) as Es.
  change (num n1) with (effective (num n)) in Es. destruct (bool_decide (effective (num n) ∈ ns)); rewrite (bind_ok _ _ _ _ _ Es); [|done].
  unfold s1. rewrite set_snifs_twice. cbn [snifs set_snifs]. f_equal. unfold snifs. cbn. by rewrite insert_insert_eq.
Qed.
Lemma num_loop_ok netif i : forall fuel s n ns, numbers (snifs s) (netif_list (s_ip s)) ns -> netif ∉ netif_list (s_ip s) ->
  snifs s !! netif = Some n -> Z.of_nat (length ns) <= 255 -> 0 <= num n <= 255 ->
  (forall j, (j < i)%nat -> (effective (num n) + Z.of_nat j) mod 255 ∈ ns) -> (effective (num n) + Z.of_nat i) mod 255 ∉ ns -> (i < fuel)%nat ->
  num_loop fuel netif s = Ok (tt, set_snifs (<[netif := with_num ((effective (num n) + Z.of_nat i) mod 255) n]> (snifs s)) s).
Proof.
  induction i as [|i IH]; intros [|fuel] s n ns Hns Hni En Hl Hn Htk Hfr Hf; try lia; rewrite (round_ok netif fuel s n ns Hns Hni En Hl).
  - assert (0 <= effective (num n) < 255) as He by (unfold effective; destruct (Z.eqb_spec (num n) 255); lia).
    rewrite Z.add_0_r, Z.mod_small in Hfr |- * by lia. by rewrite bool_decide_false.
  - set (c := effective (num n)) in *. assert (0 <= c < 255) as He by (unfold c, effective; destruct (Z.eqb_spec (num n) 255); lia).
    pose proof (Htk 0%nat ltac:(lia)) as H0. rewrite Z.add_0_r, Z.mod_small in H0 by lia. rewrite bool_decide_true by done.
    rewrite u8_small by (unfold is_u8; lia). set (n1 := with_num (c + 1) n). set (s1 := set_snifs _ s).
    assert (effective (num n1) = (c + 1) mod 255) as Ee.
    { unfold effective, n1. cbn [num with_num]. destruct (Z.eqb_spec (c + 1) 255) as [->|]; [done|]. symmetry. apply Z.mod_small. lia. }
    assert (forall j : nat, (effective (num n1) + Z.of_nat j) mod 255 = (c + Z.of_nat (S j)) mod 255) as Hj.
    { intros j. rewrite Ee, Zplus_mod_idemp_l. f_equal. lia. }
    assert (numbers (snifs s1) (netif_list (s_ip s1)) ns) as Hns1 by (by apply numbers_other).
    rewrite (IH fuel s1 n1 ns Hns1 Hni (lookup_insert_eq _ _ _) Hl); [| | | |lia].
    + rewrite Hj. unfold s1. rewrite set_snifs_twice. do 3 f_equal. unfold snifs. cbn. by rewrite insert_insert_eq.
    + cbn. lia.
    + intros j Hlt. rewrite Hj. apply Htk. lia.
    + by rewrite Hj.
Qed.

(** When every number is taken, the search never ends. *)
Lemma num_loop_full netif fuel : forall s n ns, numbers (snifs s) (netif_list (s_ip s)) ns -> netif ∉ netif_list (s_ip s) ->
  snifs s !! netif = Some n -> Z.of_nat (length ns) <= 255 -> 0 <= num n <= 255 -> (forall k, 0 <= k < 255 -> k ∈ ns) ->
  num_loop fuel netif s = NoFuel.
Proof.
  induction fuel as [|fuel IH]; intros s n ns Hns Hni En Hl Hn Hall; [done|]. rewrite (round_ok netif fuel s n ns Hns Hni En Hl).
  assert (0 <= effective (num n) < 255) as He by (unfold effective; destruct (Z.eqb_spec (num n) 255); lia).
  rewrite bool_decide_true by (by apply Hall). rewrite u8_small by (unfold is_u8; lia).
  eapply IH; [apply numbers_other; [exact Hns|done]|done|apply lookup_insert_eq|done|cbn; lia|done].
Qed.
End Spec.

(** ** Safety of the operations *)

Section Ops.
Context (pools : memp_t -> memp_desc) `{HP : !PoolsOk pools} {H : Type} `{HH : !Heap H} `{HL : !HeapLaws pools H}.
Context (linkoutput : Z -> Z -> M (eth H) Z) `{LL : !LinkLaws linkoutput} {T : Type} `{UT : !Upper T}.
Implicit Types s : nets H T.
Local Abbreviation ip_ok := (ip_ok pools linkoutput).

(** What TCP promises when an address changes: it may abort connections. *)
Class AddrChange (tcp_netif_ip_addr_changed : Z -> option Z -> M (ip H T) unit) :=
  addr_changed_law : forall i R old new, ip_ok i R -> runs (tcp_netif_ip_addr_changed old new) i (kept pools linkoutput i R).
Context (addr_changed : Z -> option Z -> M (ip H T) unit) `{AC : !AddrChange addr_changed}.

(** What an operation on one interface leaves alone. *)
Definition rest s s' : Prop :=
  same_dom (n_mem (snet (s_ip s))) (n_mem (snet (s_ip s'))) /\ netif_list (s_ip s') = netif_list (s_ip s) /\
  netif_default (s_ip s') = netif_default (s_ip s) /\ netif_num s' = netif_num s.
Global Instance rest_preorder : PreOrder rest.
Proof.
  split; [intros s; by split_and!|]. intros s1 s2 s3 (A1 & A2 & A3 & A4) (B1 & B2 & B3 & B4). split_and!; try congruence. by etransitivity.
Qed.

(** The operation made [g] of the interfaces. *)
Definition makes s (R : gmultiset Z) (g : gmap Z nif) s' : Prop := ip_ok (s_ip s') R /\ snifs s' = g /\ rest s s'.

Lemma makes_trans s s1 R g s2 : rest s s1 -> makes s1 R g s2 -> makes s R g s2.
Proof. intros Hr (H1 & H2 & H3). split_and!; [done|done|]. by etransitivity. Qed.

(** An update that leaves a valid hardware address valid. *)
Lemma upd_makes s R a n f : ip_ok (s_ip s) R -> snifs s !! a = Some n -> (nif_ok n -> nif_ok (f n)) ->
  exists s', upd_netif a f s = Ok (tt, s') /\ makes s R (<[a := f n]> (snifs s)) s'.
Proof.
  intros ((Hm & Ht & Hc) & Hl & Hd) En Hf. exists (set_snifs (<[a := f n]> (snifs s)) s). split; [by apply upd_netif_ok|].
  assert (forall x, nif_live (i_arp (s_ip s)) x -> nif_live (i_arp (s_ip (set_snifs (<[a := f n]> (snifs s)) s))) x) as Hlive.
  { intros x (Hz & nx & Ex & Hx). split; [done|]. cbn. destruct (decide (x = a)) as [->|Hxa].
    - exists (f n). change (nifs _) with (<[a := f n]> (snifs s)). rewrite lookup_insert_eq. split; [done|]. apply Hf.
      unfold snifs in En. rewrite Ex in En. by injection En as <-.
    - exists nx. change (nifs _) with (<[a := f n]> (snifs s)). by rewrite lookup_insert_ne. }
  split_and!; [|done|done]. split; [split; [exact Hm|split; [|exact Hc]]|split].
  - destruct Ht as (Ht1 & Ht2 & Ht3). split_and!; [done| |done]. eapply Forall_impl; [exact Ht2|].
    intros e (E1 & E2 & E3 & E4 & E5). split_and!; try done; try apply E2. intros Hne. destruct (E5 Hne) as [Hz [nx [Ex Hx]]].
    split; [done|]. destruct (Hlive (netif e)) as (_ & n' & E' & Hn'); [by split; [|exists nx]|]. by exists n'.
  - eapply Forall_impl; [exact Hl|]. exact Hlive.
  - destruct Hd as [Hd|Hd]; [by left|right]. by apply Hlive.
Qed.

Lemma on_ip_env s R {A} (m : M (ip H T) A) : runs m (s_ip s) (kept pools linkoutput (s_ip s) R) ->
  exists a s', on_ip m s = Ok (a, s') /\ makes s R (snifs s) s'.
Proof.
  intros (a & i & E & Hok & (En & Hm) & El & Ed). exists a, (mk_nets i (netif_num s)). unfold on_ip. rewrite E. done.
Qed.
(** The interface is either down or has a hardware address. *)
Definition usable (n : nif) : Prop := netif_is_up n = true -> nif_ok n.

Lemma reports_ok s R a n t : ip_ok (s_ip s) R -> a <> NULL -> snifs s !! a = Some n -> usable n ->
  exists s', netif_issue_reports pools linkoutput a t s = Ok (tt, s') /\ makes s R (snifs s) s'.
Proof.
  intros Hok Hz En Hu. unfold netif_issue_reports.
  rewrite (bind_ok (assert _) _ _ tt s) by (unfold assert; by rewrite (proj2 (Z.eqb_neq _ _) Hz)).
  rewrite (bind_ok _ _ _ _ _ (get_netif_ok s a n En)).
  destruct (negb (netif_is_link_up n) || negb (netif_is_up n)) eqn:Ef; [by exists s|].
  apply orb_false_iff in Ef as [_ Eu%negb_false_iff].
  destruct (_ && _); [|by exists s]. destruct (negb _); [|by exists s].
  destruct (on_ip_env s R (on_arp (etharp_request pools linkoutput a (ip_addr n)))) as (r & s' & E & Hs').
  - pose proof Hok as (Ha & _).
    destruct (request_ok pools linkoutput (i_arp (s_ip s)) _ a n (ip_addr n) (proj1 Ha) En (Hu Eu)) as (r & k & Ek & Hm & Et & Ec & He & _).
    eapply runs_ok; [by apply on_arp_ok|]. split; [|by split]. eapply (ip_ok_arp pools linkoutput); [exact Hok| |exact He].
    by eapply arp_ok_frame.
  - exists s'. by rewrite (bind_ok _ _ _ _ _ E).
Qed.

Lemma do_set_ipaddr_ok s R a n x : ip_ok (s_ip s) R -> a <> NULL -> snifs s !! a = Some n -> usable n ->
  exists r s', netif_do_set_ipaddr pools linkoutput addr_changed a x s = Ok (r, s') /\ makes s R (<[a := with_ip_addr x n]> (snifs s)) s'.
Proof.
  intros Hok Hz En Hu. unfold netif_do_set_ipaddr. rewrite (bind_ok _ _ _ _ _ (get_netif_ok s a n En)).
  unfold ip4_addr_cmp. destruct (Z.eqb_spec x (ip_addr n)) as [->|Hx]; cbn [negb].
  - exists 0, s. split; [done|]. assert (with_ip_addr (ip_addr n) n = n) as -> by (by destruct n). rewrite insert_id by done. done.
  - destruct (on_ip_env s R _ (addr_changed_law (s_ip s) R (ip_addr n) (Some x) Hok)) as ([] & s1 & E1 & Hok1 & Es1 & Hr1).
    rewrite (bind_ok _ _ _ _ _ E1). rewrite <- Es1 in En.
    destruct (upd_makes s1 R a n (with_ip_addr x) Hok1 En) as (s2 & E2 & Hok2 & Es2 & Hr2); [by intros []|].
    rewrite (bind_ok _ _ _ _ _ E2).
    destruct (reports_ok s2 R a (with_ip_addr x n) NETIF_REPORT_TYPE_IPV4 Hok2 Hz) as (s3 & E3 & Hok3 & Es3 & Hr3).
    + rewrite Es2. apply lookup_insert_eq.
    + intros Hup. apply Hu in Hup as []. done.
    + rewrite (bind_ok _ _ _ _ _ E3). exists 1, s3. split; [done|]. split_and!; [done|by rewrite Es3, Es2, Es1|].
      etransitivity; [exact Hr1|]. by etransitivity.
Qed.

Lemma do_set_netmask_ok s R a n x : ip_ok (s_ip s) R -> snifs s !! a = Some n ->
  exists r s', netif_do_set_netmask a x s = Ok (r, s') /\ makes s R (<[a := with_netmask x n]> (snifs s)) s'.
Proof.
  intros Hok En. unfold netif_do_set_netmask. rewrite (bind_ok _ _ _ _ _ (get_netif_ok s a n En)).
  unfold ip4_addr_cmp. destruct (Z.eqb_spec x (netmask n)) as [->|Hx]; cbn [negb].
  - exists 0, s. split; [done|]. assert (with_netmask (netmask n) n = n) as -> by (by destruct n). rewrite insert_id by done. done.
  - destruct (upd_makes s R a n (with_netmask x) Hok En) as (s2 & E2 & Hm); [by intros []|].
    exists 1, s2. by rewrite (bind_ok _ _ _ _ _ E2).
Qed.

Lemma do_set_gw_ok s R a n x : ip_ok (s_ip s) R -> snifs s !! a = Some n ->
  exists r s', netif_do_set_gw a x s = Ok (r, s') /\ makes s R (<[a := with_gw x n]> (snifs s)) s'.
Proof.
  intros Hok En. unfold netif_do_set_gw. rewrite (bind_ok _ _ _ _ _ (get_netif_ok s a n En)).
  unfold ip4_addr_cmp. destruct (Z.eqb_spec x (gw n)) as [->|Hx]; cbn [negb].
  - exists 0, s. split; [done|]. assert (with_gw (gw n) n = n) as -> by (by destruct n). rewrite insert_id by done. done.
  - destruct (upd_makes s R a n (with_gw x) Hok En) as (s2 & E2 & Hm); [by intros []|].
    exists 1, s2. by rewrite (bind_ok _ _ _ _ _ E2).
Qed.

(** The interface with its addresses set. *)
Definition with_addr (ipaddr mask gateway : option Z) (n : nif) : nif :=
  with_ip_addr (addr_or_any ipaddr) (with_gw (addr_or_any gateway) (with_netmask (addr_or_any mask) n)).

Lemma set_addr_ok s R a n ipaddr mask gateway : ip_ok (s_ip s) R -> a <> NULL -> snifs s !! a = Some n -> usable n ->
  exists s', netif_set_addr pools linkoutput addr_changed a ipaddr mask gateway s = Ok (tt, s') /\
    makes s R (<[a := with_addr ipaddr mask gateway n]> (snifs s)) s'.
Proof.
  intros Hok Hz En Hu. unfold netif_set_addr. set (x := addr_or_any ipaddr).
  assert (forall s0 n0 (c : bool), ip_ok (s_ip s0) R -> snifs s0 !! a = Some n0 -> usable n0 -> exists s',
    (if c then netif_do_set_ipaddr pools linkoutput addr_changed a x;; mret tt else mret tt) s0 = Ok (tt, s') /\
    makes s0 R (<[a := if c then with_ip_addr x n0 else n0]> (snifs s0)) s') as Hif.
  { intros s0 n0 [] Hok0 En0 Hu0.
    - destruct (do_set_ipaddr_ok s0 R a n0 x Hok0 Hz En0 Hu0) as (r & s' & E & Hm). exists s'. by rewrite (bind_ok _ _ _ _ _ E).
    - exists s0. rewrite insert_id by done. done. }
  set (c := ip4_addr_isany x). destruct (Hif s n c Hok En Hu) as (s1 & E1 & Hok1 & Es1 & Hr1). rewrite (bind_ok _ _ _ _ _ E1).
  set (n1 := if c then with_ip_addr x n else n) in *. assert (snifs s1 !! a = Some n1) as En1 by (rewrite Es1; apply lookup_insert_eq).
  destruct (do_set_netmask_ok s1 R a n1 (addr_or_any mask) Hok1 En1) as (r2 & s2 & E2 & Hok2 & Es2 & Hr2). rewrite (bind_ok _ _ _ _ _ E2).
  set (n2 := with_netmask _ n1) in *. assert (snifs s2 !! a = Some n2) as En2 by (rewrite Es2; apply lookup_insert_eq).
  destruct (do_set_gw_ok s2 R a n2 (addr_or_any gateway) Hok2 En2) as (r3 & s3 & E3 & Hok3 & Es3 & Hr3). rewrite (bind_ok _ _ _ _ _ E3).
  set (n3 := with_gw _ n2) in *. assert (snifs s3 !! a = Some n3) as En3 by (rewrite Es3; apply lookup_insert_eq).
  assert (usable n3) as Hu3 by (unfold usable, n3, n2, n1 in *; destruct c; exact Hu).
  destruct (Hif s3 n3 (negb c) Hok3 En3 Hu3) as (s4 & E4 & Hok4 & Es4 & Hr4). exists s4. split; [exact E4|]. split_and!; [done| |].
  - rewrite Es4, Es3, Es2, Es1, !insert_insert_eq. f_equal. unfold with_addr, n3, n2, n1. by destruct c.
  - etransitivity; [exact Hr1|]. etransitivity; [exact Hr2|]. by etransitivity.
Qed.
(** ** Adding an interface *)

(** What a driver's callback does: it gives the interface a hardware address and the
    rest of its configuration, and leaves its addresses and its number alone. *)
Class InitLaws (init : Z -> M (nets H T) Z) := {
  configured : nif -> Prop;
  configured_num : forall n k, configured n -> configured (with_num k n);
  init_law : forall s R a n, ip_ok (s_ip s) R -> snifs s !! a = Some n ->
    exists n' s', init a s = Ok (ERR_OK, s') /\ makes s R (<[a := n']> (snifs s)) s' /\ nif_ok n' /\ configured n' /\
      ip_addr n' = ip_addr n /\ netmask n' = netmask n /\ gw n' = gw n /\ num n' = num n }.

(** The invariant of the list of interfaces: distinct numbers below 255. *)
Definition nets_ok s (R : gmultiset Z) : Prop :=
  ip_ok (s_ip s) R /\ NoDup (netif_list (s_ip s)) /\ 0 <= netif_num s < 255 /\
  exists ns, numbers (snifs s) (netif_list (s_ip s)) ns /\ NoDup ns /\ Forall (fun k => 0 <= k < 255) ns.

(** The assignments to the fields of the new interface. *)
Lemma reset_ok s R a n0 k : ip_ok (s_ip s) R -> snifs s !! a = Some n0 -> exists s1 n1,
  (forall A (m : M (nets H T) A), (upd_netif a (fun n => with_gw 0 (with_netmask 0 (with_ip_addr 0 n)));; upd_netif a (with_mtu 0);;
    upd_netif a (with_nif_flags 0);; k ← gets netif_num; upd_netif a (with_num k);; m) s = m s1) /\
  makes s R (<[a := n1]> (snifs s)) s1 /\ usable n1 /\ (netif_num s = k -> num n1 = k).
Proof.
  intros Hok E0.
  destruct (upd_makes s R a n0 (fun n => with_gw 0 (with_netmask 0 (with_ip_addr 0 n))) Hok E0) as (s1 & E1 & Hok1 & Es1 & Hr1); [by intros []|].
  set (n1 := with_gw _ _) in *. assert (snifs s1 !! a = Some n1) as En1 by (rewrite Es1; apply lookup_insert_eq).
  destruct (upd_makes s1 R a n1 (with_mtu 0) Hok1 En1) as (s2 & E2 & Hok2 & Es2 & Hr2); [by intros []|].
  set (n2 := with_mtu 0 n1) in *. assert (snifs s2 !! a = Some n2) as En2 by (rewrite Es2; apply lookup_insert_eq).
  destruct (upd_makes s2 R a n2 (with_nif_flags 0) Hok2 En2) as (s3 & E3 & Hok3 & Es3 & Hr3); [by intros []|].
  set (n3 := with_nif_flags 0 n2) in *. assert (snifs s3 !! a = Some n3) as En3 by (rewrite Es3; apply lookup_insert_eq).
  destruct (upd_makes s3 R a n3 (with_num (netif_num s3)) Hok3 En3) as (s4 & E4 & Hok4 & Es4 & Hr4); [by intros []|].
  assert (rest s s3) as Hr by (etransitivity; [exact Hr1|]; by etransitivity).
  exists s4, (with_num (netif_num s3) n3). split_and!.
  - intros A m. rewrite (bind_ok _ _ _ _ _ E1), (bind_ok _ _ _ _ _ E2), (bind_ok _ _ _ _ _ E3).
    rewrite (bind_ok (gets netif_num) _ _ (netif_num s3) s3) by done. by rewrite (bind_ok _ _ _ _ _ E4).
  - split_and!; [done|rewrite Es4, Es3, Es2, Es1; by rewrite !insert_insert_eq|by etransitivity].
  - done.
  - intros <-. cbn. by destruct Hr as (_ & _ & _ & ->).
Qed.

(** The interface in front of the list. *)
Definition listed s (a k : Z) : nets H T :=
  let i := s_ip s in
  mk_nets (mk_ip (i_arp i) (a :: netif_list i) (netif_default i) (ip_id i) (ip_data i) (i_upper i)) k.

Lemma listed_ok s R a n k ns : ip_ok (s_ip s) R -> a <> NULL -> snifs s !! a = Some n -> nif_ok n -> a ∉ netif_list (s_ip s) ->
  NoDup (netif_list (s_ip s)) -> numbers (snifs s) (netif_list (s_ip s)) ns -> NoDup ns -> Forall (fun k => 0 <= k < 255) ns ->
  0 <= num n < 255 -> num n ∉ ns -> 0 <= k < 255 -> nets_ok (listed s a k) R.
Proof.
  intros (Ha & Hl & Hd) Hz En Hn Hni Hnd Hns Hns2 Hns3 Hnum Hfr Hk. split; [|split; [|split; [exact Hk|]]].
  - split; [exact Ha|]. split; [|exact Hd]. constructor; [|exact Hl]. split; [done|]. by exists n.
  - by apply NoDup_cons.
  - exists (num n :: ns). split; [apply Forall2_cons; split; [by exists n|exact Hns]|]. split; [by apply NoDup_cons|by apply Forall_cons].
Qed.

Lemma netif_add_ok s R a n0 ipaddr mask gateway init `{IL : !InitLaws init} :
  nets_ok s R -> a <> NULL -> a ∉ netif_list (s_ip s) -> snifs s !! a = Some n0 -> (length (netif_list (s_ip s)) < 255)%nat ->
  exists s' n, netif_add pools linkoutput addr_changed a ipaddr mask gateway init s = Ok (a, s') /\ nets_ok s' R /\
    netif_list (s_ip s') = a :: netif_list (s_ip s) /\ netif_default (s_ip s') = netif_default (s_ip s) /\
    snifs s' = <[a := n]> (snifs s) /\ nif_ok n /\ configured n /\
    ip_addr n = addr_or_any ipaddr /\ netmask n = addr_or_any mask /\ gw n = addr_or_any gateway /\
    same_dom (n_mem (snet (s_ip s))) (n_mem (snet (s_ip s'))).
Proof.
  intros (Hok & Hnd & Hnn & ns & Hns & Hns2 & Hns3) Hz Hni E0 Hlen. unfold netif_add. rewrite (proj2 (Z.eqb_neq _ _) Hz).
  pose proof (Forall2_length _ _ _ Hns) as Hll.
  destruct (reset_ok s R a n0 (netif_num s) Hok E0) as (s1 & n1 & E1 & (Hok1 & Es1 & Hr1) & Hu1 & Hn1). specialize (Hn1 eq_refl). rewrite E1.
  assert (snifs s1 !! a = Some n1) as En1 by (rewrite Es1; apply lookup_insert_eq).
  destruct (set_addr_ok s1 R a n1 ipaddr mask gateway Hok1 Hz En1 Hu1) as (s2 & E2 & Hok2 & Es2 & Hr2). rewrite (bind_ok _ _ _ _ _ E2).
  set (n2 := with_addr ipaddr mask gateway n1) in *. assert (snifs s2 !! a = Some n2) as En2 by (rewrite Es2; apply lookup_insert_eq).
  destruct (init_law s2 R a n2 Hok2 En2) as (n3 & s3 & E3 & (Hok3 & Es3 & Hr3) & Hn3 & Hcf & Ei & Em & Eg & Eu). rewrite (bind_ok _ _ _ _ _ E3).
  cbn [negb Z.eqb ERR_OK]. assert (rest s s3) as Hr by (etransitivity; [exact Hr1|]; by etransitivity).
  destruct Hr as (Hdom & El & Ed & Enum).
  rewrite (bind_ok the_list _ _ (netif_list (s_ip s3)) s3) by done. rewrite El.
  assert (snifs s3 = <[a := n3]> (snifs s)) as Es by (rewrite Es3, Es2, Es1; by rewrite !insert_insert_eq).
  assert (snifs s3 !! a = Some n3) as En3 by (rewrite Es; apply lookup_insert_eq).
  assert (numbers (snifs s3) (netif_list (s_ip s3)) ns) as Hns' by (rewrite El, Es; by apply numbers_other).
  assert (num n3 = netif_num s) as Hnum by (rewrite Eu; exact Hn1).
  assert (effective (num n3) = netif_num s) as Eeff by (rewrite Hnum; unfold effective; destruct (Z.eqb_spec (netif_num s) 255); lia).
  destruct (free_slot 255 (effective (num n3)) ns) as (i & Hi & Hfr & Htk); [lia|].
  set (x := (effective (num n3) + Z.of_nat i) mod 255) in *. assert (0 <= x < 255) as Hx by (unfold x; lia).
  rewrite (bind_ok _ _ _ _ _ (num_loop_ok a i (S (length (netif_list (s_ip s)))) s3 n3 ns Hns' ltac:(by rewrite El) En3 ltac:(lia) ltac:(lia) Htk Hfr ltac:(lia))).
  fold x. set (n4 := with_num x n3). set (s4 := set_snifs _ s3). assert (snifs s4 !! a = Some n4) as En4 by apply lookup_insert_eq.
  rewrite (bind_ok _ _ _ _ _ (get_netif_ok s4 a n4 En4)). change (num n4) with x.
  set (k := if x =? 254 then 0 else u8 (x + 1)).
  assert (0 <= k < 255) as Hk by (unfold k; destruct (Z.eqb_spec x 254); [lia|rewrite u8_small by (unfold is_u8; lia); lia]).
  rewrite (bind_ok (if x =? 254 then set_netif_num 0 else set_netif_num (u8 (x + 1))) _ s4 tt (mk_nets (s_ip s4) k)) by (unfold k; by destruct (x =? 254)).
  assert (netif_list (s_ip s4) = netif_list (s_ip s)) as El4 by exact El.
  rewrite <- El4. exists (listed s4 a k), n4.
  assert (snifs s4 = <[a := n4]> (snifs s)) as Es4 by (change (snifs s4) with (<[a := n4]> (snifs s3)); by rewrite Es, insert_insert_eq).
  destruct (upd_makes s3 R a n3 (with_num x) Hok3 En3) as (s4' & E4 & Hok4 & _); [by intros []|].
  rewrite (upd_netif_ok s3 a n3 _ En3) in E4. injection E4 as <-.
  split_and!; [done| |done|exact Ed|exact Es4|done|by apply configured_num|exact Ei|exact Em|exact Eg|exact Hdom].
  apply (listed_ok s4 R a n4 k ns); try done; [by rewrite El4|by rewrite El4|]. rewrite El4, Es4. by apply numbers_other.
Qed.
(** ** Up, down and removal *)

Lemma makes_nets s R a n n' s' : nets_ok s R -> makes s R (<[a := n']> (snifs s)) s' -> snifs s !! a = Some n -> num n' = num n -> nets_ok s' R.
Proof.
  intros (_ & Hnd & Hnn & ns & Hns & Hns2 & Hns3) (Hok & Es & _ & El & _ & En) E Hnum. unfold nets_ok. rewrite El, En.
  split_and!; try done; try lia. exists ns. split; [|done]. rewrite Es. apply Forall2_same_length_lookup_2; [by eapply Forall2_length|].
  intros i x k Hx Hk. destruct (Forall2_lookup_lr _ _ _ _ _ _ Hns Hx Hk) as (n2 & E2 & Hn2). destruct (decide (x = a)) as [->|Hxa].
  - exists n'. rewrite lookup_insert_eq. split; [done|]. congruence.
  - exists n2. by rewrite lookup_insert_ne.
Qed.

Lemma set_flag_ok s R a n f t (c : bool) : ip_ok (s_ip s) R -> a <> NULL -> snifs s !! a = Some n -> nif_ok n ->
  exists s', (if c then upd_netif a (netif_set_flags f);; netif_issue_reports pools linkoutput a t else mret tt) s = Ok (tt, s') /\
    makes s R (<[a := if c then netif_set_flags f n else n]> (snifs s)) s'.
Proof.
  intros Hok Hz En Hn. destruct c; [|exists s; rewrite insert_id by done; done].
  destruct (upd_makes s R a n (netif_set_flags f) Hok En) as (s1 & E1 & Hok1 & Es1 & Hr1); [by intros []|]. rewrite (bind_ok _ _ _ _ _ E1).
  destruct (reports_ok s1 R a (netif_set_flags f n) t Hok1 Hz) as (s2 & E2 & Hok2 & Es2 & Hr2).
  - rewrite Es1. apply lookup_insert_eq.
  - intros _. exact Hn.
  - exists s2. split; [done|]. split_and!; [done|by rewrite Es2, Es1|by etransitivity].
Qed.

Lemma set_up_ok s R a n : ip_ok (s_ip s) R -> a <> NULL -> snifs s !! a = Some n -> nif_ok n ->
  exists s', netif_set_up pools linkoutput a s = Ok (tt, s') /\
    makes s R (<[a := if negb (netif_is_up n) then netif_set_flags NETIF_FLAG_UP n else n]> (snifs s)) s'.
Proof.
  intros Hok Hz En Hn. unfold netif_set_up. rewrite (proj2 (Z.eqb_neq _ _) Hz), (bind_ok _ _ _ _ _ (get_netif_ok s a n En)).
  by apply set_flag_ok.
Qed.

Lemma set_link_up_ok s R a n : ip_ok (s_ip s) R -> a <> NULL -> snifs s !! a = Some n -> nif_ok n ->
  exists s', netif_set_link_up pools linkoutput a s = Ok (tt, s') /\
    makes s R (<[a := if negb (netif_is_link_up n) then netif_set_flags NETIF_FLAG_LINK_UP n else n]> (snifs s)) s'.
Proof.
  intros Hok Hz En Hn. unfold netif_set_link_up. rewrite (proj2 (Z.eqb_neq _ _) Hz), (bind_ok _ _ _ _ _ (get_netif_ok s a n En)).
  by apply set_flag_ok.
Qed.

Lemma set_link_down_ok s R a n : ip_ok (s_ip s) R -> a <> NULL -> snifs s !! a = Some n ->
  exists s', netif_set_link_down a s = Ok (tt, s') /\
    makes s R (<[a := if netif_is_link_up n then netif_clear_flags NETIF_FLAG_LINK_UP n else n]> (snifs s)) s'.
Proof.
  intros Hok Hz En. unfold netif_set_link_down. rewrite (proj2 (Z.eqb_neq _ _) Hz), (bind_ok _ _ _ _ _ (get_netif_ok s a n En)).
  destruct (netif_is_link_up n); [|exists s; rewrite insert_id by done; done].
  apply (upd_makes s R a n (netif_clear_flags NETIF_FLAG_LINK_UP) Hok En). by intros [].
Qed.

Lemma set_down_ok s R a n : ip_ok (s_ip s) R -> a <> NULL -> snifs s !! a = Some n ->
  exists s', netif_set_down a s = Ok (tt, s') /\
    makes s R (<[a := if netif_is_up n then netif_clear_flags NETIF_FLAG_UP n else n]> (snifs s)) s'.
Proof.
  intros Hok Hz En. unfold netif_set_down. rewrite (proj2 (Z.eqb_neq _ _) Hz), (bind_ok _ _ _ _ _ (get_netif_ok s a n En)).
  destruct (netif_is_up n); [|exists s; rewrite insert_id by done; done].
  destruct (upd_makes s R a n (netif_clear_flags NETIF_FLAG_UP) Hok En) as (s1 & E1 & Hok1 & Es1 & Hr1); [by intros []|].
  set (n1 := netif_clear_flags _ _) in *. assert (snifs s1 !! a = Some n1) as En1 by (rewrite Es1; apply lookup_insert_eq).
  rewrite (bind_ok _ _ _ _ _ E1), (bind_ok _ _ _ _ _ (get_netif_ok s1 a n1 En1)). destruct (negb _); [|by exists s1].
  pose proof Hok1 as (Ha & _).
  destruct (for_entries_ok pools linkoutput _ _ (cleaned a) (fun k i e => cleanup_entry_ok pools linkoutput k _ a i e) 10 0 (i_arp (s_ip s1)) Ha eq_refl)
    as (k & E & Hk & He & _).
  destruct (on_ip_env s1 R (on_arp (etharp_cleanup_netif a))) as ([] & s2 & E2 & Hok2 & Es2 & Hr2).
  - eapply runs_ok; [by apply on_arp_ok|]. split; [by eapply (ip_ok_arp pools linkoutput)|by split].
  - exists s2. split; [exact E2|]. split_and!; [done|by rewrite Es2, Es1|by etransitivity].
Qed.

Lemma unlink_spec a l : match unlink a l with
  | Some l' => exists l1 l2, l = l1 ++ a :: l2 /\ l' = l1 ++ l2
  | None => a ∉ l
  end.
Proof.
  induction l as [|x l IH]; cbn [unlink]; [apply not_elem_of_nil|]. destruct (Z.eqb_spec x a) as [->|Hne]; [by exists [], l|].
  destruct (unlink a l); simpl; [|set_solver]. destruct IH as (l1 & l2 & -> & ->). by exists (x :: l1), l2.
Qed.
(** Another default interface, and a shorter list. *)
Definition with_default s (d : Z) : nets H T :=
  let i := s_ip s in mk_nets (mk_ip (i_arp i) (netif_list i) d (ip_id i) (ip_data i) (i_upper i)) (netif_num s).
Definition with_list s (l : list Z) : nets H T :=
  let i := s_ip s in mk_nets (mk_ip (i_arp i) l (netif_default i) (ip_id i) (ip_data i) (i_upper i)) (netif_num s).

Lemma with_default_ok s R d : nets_ok s R -> d = NULL \/ nif_live (i_arp (s_ip s)) d -> nets_ok (with_default s d) R.
Proof. intros ((Ha & Hl & _) & Hrest) Hd. split; [|exact Hrest]. exact (conj Ha (conj Hl Hd)). Qed.

Lemma with_list_ok s R l1 a l2 : nets_ok s R -> netif_list (s_ip s) = l1 ++ a :: l2 -> nets_ok (with_list s (l1 ++ l2)) R.
Proof.
  intros ((Ha & Hl & Hd) & Hnd & Hnn & ns & Hns & Hns2 & Hns3) El. rewrite El in Hl, Hnd, Hns.
  apply Forall2_app_inv_l in Hns as (n1 & n2 & Hn1 & Hn2 & ->). apply Forall2_cons_inv_l in Hn2 as (k & n2' & _ & Hn2 & ->).
  apply Forall_app in Hl as [Hl1 [_ Hl2]%Forall_cons]. apply Forall_app in Hns3 as [H31 [_ H32]%Forall_cons].
  split; [exact (conj Ha (conj (proj2 (Forall_app _ _ _) (conj Hl1 Hl2)) Hd))|]. split; [|split; [exact Hnn|]].
  - eapply sublist_NoDup; [exact Hnd|]. apply sublist_app; [done|by apply sublist_cons].
  - exists (n1 ++ n2'). split; [by apply Forall2_app|]. split; [|by apply Forall_app]. eapply sublist_NoDup; [exact Hns2|]. apply sublist_app; [done|by apply sublist_cons].
Qed.

Lemma remove_ok s R a n : nets_ok s R -> a <> NULL -> snifs s !! a = Some n ->
  exists s', netif_remove addr_changed a s = Ok (tt, s') /\ nets_ok s' R.
Proof.
  intros Hs Hz En. unfold netif_remove. rewrite (proj2 (Z.eqb_neq _ _) Hz), (bind_ok _ _ _ _ _ (get_netif_ok s a n En)).
  assert (exists s1, (if negb (ip4_addr_isany (ip_addr n)) then on_ip (addr_changed (ip_addr n) None) else mret tt) s = Ok (tt, s1) /\
    makes s R (<[a := n]> (snifs s)) s1) as (s1 & E1 & Hm1).
  { rewrite insert_id by done. destruct (negb _); [|exists s; split; [done|]; split; [apply Hs|done]].
    destruct (on_ip_env s R _ (addr_changed_law (s_ip s) R (ip_addr n) None (proj1 Hs))) as ([] & s1 & E1 & Hm). by exists s1. }
  rewrite (bind_ok _ _ _ _ _ E1). pose proof (makes_nets s R a n n s1 Hs Hm1 En eq_refl) as Hs1.
  assert (snifs s1 !! a = Some n) as En1 by (rewrite (proj1 (proj2 Hm1)); apply lookup_insert_eq).
  rewrite (bind_ok _ _ _ _ _ (get_netif_ok s1 a n En1)).
  destruct (set_down_ok s1 R a n (proj1 Hs1) Hz En1) as (s2 & E2 & Hm2).
  assert (exists s2, (if netif_is_up n then netif_set_down a else mret tt) s1 = Ok (tt, s2) /\ nets_ok s2 R) as (s2' & E2' & Hs2).
  { destruct (netif_is_up n); [|by exists s1]. exists s2. split; [done|]. by eapply makes_nets. }
  rewrite (bind_ok _ _ _ _ _ E2'), (bind_ok (gets _) _ _ (netif_default (s_ip s2')) s2') by done.
  assert (exists s3, (if netif_default (s_ip s2') =? a then netif_set_default NULL else mret tt) s2' = Ok (tt, s3) /\ nets_ok s3 R) as (s3 & E3 & Hs3).
  { destruct (_ =? a); [|by exists s2']. exists (with_default s2' NULL). split; [done|]. apply with_default_ok; [done|by left]. }
  rewrite (bind_ok _ _ _ _ _ E3), (bind_ok the_list _ _ (netif_list (s_ip s3)) s3) by done.
  pose proof (unlink_spec a (netif_list (s_ip s3))) as Hu. destruct (unlink a (netif_list (s_ip s3))) as [l'|]; [|by exists s3].
  destruct Hu as (l1 & l2 & El & ->). exists (with_list s3 (l1 ++ l2)). split; [done|]. by eapply with_list_ok.
Qed.

(** ** The module as a whole *)

Inductive netif_op :=
| nop_add (a : Z) (ipaddr mask gateway : option Z)
| nop_remove (a : Z)
| nop_set_addr (a : Z) (ipaddr mask gateway : option Z)
| nop_up (a : Z)
| nop_down (a : Z)
| nop_link_up (a : Z)
| nop_link_down (a : Z)
| nop_default (a : Z).

Context (init : Z -> M (nets H T) Z) `{IL : !InitLaws init}.

Definition run_netif_op (op : netif_op) : M (nets H T) unit :=
  match op with
  | nop_add a x m g => netif_add pools linkoutput addr_changed a x m g init;; mret tt
  | nop_remove a => netif_remove addr_changed a
  | nop_set_addr a x m g => netif_set_addr pools linkoutput addr_changed a x m g
  | nop_up a => netif_set_up pools linkoutput a
  | nop_down a => netif_set_down a
  | nop_link_up a => netif_set_link_up pools linkoutput a
  | nop_link_down a => netif_set_link_down a
  | nop_default a => netif_set_default a
  end.

(** What the caller must provide: a struct, an interface that was added, or one that
    was not and for which there is a number. *)
Definition netif_pre s (op : netif_op) : Prop :=
  match op with
  | nop_add a _ _ _ => a <> NULL /\ is_Some (snifs s !! a) /\ a ∉ netif_list (s_ip s) /\ (length (netif_list (s_ip s)) < 255)%nat
  | nop_remove a | nop_down a | nop_link_down a => a <> NULL /\ is_Some (snifs s !! a)
  | nop_set_addr a _ _ _ | nop_up a | nop_link_up a => nif_live (i_arp (s_ip s)) a
  | nop_default a => a = NULL \/ nif_live (i_arp (s_ip s)) a
  end.


(** The numbers run out. The comments promise up to 255 interfaces with the numbers
    0 to 254 and an assertion for more; but the assertion allows a list of 255. When
    255 interfaces have all the numbers, the search for a number for the next one never
    ends: no amount of fuel is enough. *)
Theorem netif_add_full s (a : Z) (n : nif) (ns : list Z) (fuel : nat) (Hns : numbers (snifs s) (netif_list (s_ip s)) ns)
  (Hl : length ns = 255%nat) (Hall : forall k, 0 <= k < 255 -> k ∈ ns) (Hni : a ∉ netif_list (s_ip s))
  (En : snifs s !! a = Some n) (Hn : 0 <= num n <= 255) :
  num_loop fuel a s = NoFuel.
Proof. eapply num_loop_full; try done. lia. Qed.
End Ops.
