(* ===== verification/Boot.v ===== *)
(** * Start-up: the part of [main] before the servers, on the real heap

    [lwip_init] initialises the heap and the pools, [netif_add] adds the interface with
    the driver's [ethernetif_init], [netif_set_default] and [netif_set_up] make it
    usable. The result is a state from which [Stack.stack_reach_safe] speaks. *)

From S2P Require Import Prelude Chksum Memp Pbuf PbufSpec PbufData Mem MemSpec MemHeap PbufRefs Ethernetif Ip4Addr Ethernet Etharp EtharpSpec Ip4 Ip4Spec Icmp IcmpSpec IpInput IpInputSpec Stack Netif NetifSpec.
From stdpp Require Import base numbers list gmap gmultiset functions sorting relations.
Open Scope Z_scope.
Open Scope c_scope.

Section Init.
Context (pools : memp_t -> memp_desc) `{HP : !PoolsOk pools} {H : Type} `{HH : !Heap H} `{HL : !HeapLaws pools H}.
Context (hw : dma) {T : Type} `{UT : !Upper T}.

(** What [ethernetif_init] makes of the interface. *)
Definition driver_configured (n : nif) : Prop := nif_hwaddr n = fpga_mac /\ nif_flags n = 14 /\ nif_mtu n = 1500.

Lemma driver_init_law (s : nets H T) R a n : ip_ok pools (driver_link hw) (s_ip s) R -> snifs s !! a = Some n ->
  exists n' s', ethernetif_init_cb a s = Ok (ERR_OK, s') /\ makes pools (driver_link hw) s R (<[a := n']> (snifs s)) s' /\ nif_ok n' /\
    driver_configured n' /\ ip_addr n' = ip_addr n /\ netmask n' = netmask n /\ gw n' = gw n /\ num n' = num n.
Proof.
  intros Hok En. set (m := e_mac (sdev (s_ip s))).
  set (e := mk_eth (snet (s_ip s)) (mk_mac 0 (busy m) false false (rx_slot m) (rx_length m) (reader_slot m) (reader_length m) (started m) (leds m))).
  pose proof Hok as (((_ & Hl) & _) & _). destruct Hl as (H0 & H1 & H2 & H3 & H4).
  destruct (ip_dev pools hw (s_ip s) R R e Hok) as [Hok1 He1]; [by apply (ip_refs pools (driver_link hw))| |done|].
  { unfold driver_ready, e, rx_in_range in *. cbn [e_mac e_net txslot rx_slot rx_length]. split_and!; try done; try apply H0; lia. }
  set (f := {| Ethernetif.hwaddr_len := 6; Ethernetif.hwaddr := fpga_mac; Ethernetif.mtu := 1500; Ethernetif.flags := 14;
    Ethernetif.output := etharp_output_fn; Ethernetif.linkoutput := low_level_output_fn |}).
  assert (on_ip (on_arp (on_link (on_eth ethernetif_init))) s = Ok ((f, ERR_OK), mk_nets (set_sdev e (s_ip s)) (netif_num s))) as E1 by reflexivity.
  set (s1 := mk_nets (set_sdev e (s_ip s)) (netif_num s)) in *. assert (snifs s1 !! a = Some n) as En1 by exact En.
  destruct (upd_makes pools (driver_link hw) s1 R a n (fun n => with_nif_flags (Ethernetif.flags f) (with_mtu (mtu f) (with_hwaddr (hwaddr f) (hwaddr_len f) n))) Hok1 En1)
    as (s2 & E2 & Hok2 & Es2 & Hr2); [done|].
  exists (with_nif_flags 14 (with_mtu 1500 (with_hwaddr fpga_mac 6 n))), s2. unfold ethernetif_init_cb.
  rewrite (bind_ok _ _ _ _ _ E1). cbv beta iota. rewrite (bind_ok _ _ _ _ _ E2). split_and!; try done.
Qed.

Global Instance driver_init_laws : InitLaws pools (driver_link hw) (T := T) ethernetif_init_cb := {
  configured := driver_configured;
  configured_num := fun n k Hn => Hn;
  init_law := driver_init_law }.
End Init.

(** ** [lwip_init] and the interface *)

Definition LWIP_MAKEU32 (a b c d : Z) : Z :=
  u32 ((a &c 255) <<c 24) |c u32 ((b &c 255) <<c 16) |c u32 ((c &c 255) <<c 8) |c (d &c 255).
Definition IP4_ADDR (a b c d : Z) : Z := PP_HTONL (LWIP_MAKEU32 a b c d).

Section Start.
Context (pools : memp_t -> memp_desc) `{HP : !PoolsOk pools} `{HB : !HeapPlaced pools}.
Context (hw : dma) {T : Type} `{UT : !Upper T}.
Context (tcp_init : M (ip heap T) unit) (addr_changed : Z -> option Z -> M (ip heap T) unit).
Implicit Types s : nets heap T.
Local Abbreviation ip_ok := (ip_ok pools (driver_link hw)).

(** The modules whose initialisation changes this state; [sys_timeouts_init] is in
    [Timeouts], and the other calls of the function are empty in this configuration. *)
Definition lwip_init (ram_heap : Z) : M (nets heap T) unit :=
  on_ip (nb (lift_heap (mem_init ram_heap)));;
  on_ip (nb (lift_memp (memp_init pools)));;
  on_ip tcp_init.

Definition debug_leds_out_write (x : Z) : M (nets heap T) unit := on_ip (on_dev (set_leds x)).

(** [main] from [lwip_init] until the interface is up; [netif] is the struct on its stack. *)
Definition start (ram_heap netif : Z) : M (nets heap T) unit :=
  lwip_init ram_heap;;
  debug_leds_out_write 3;;
  let ipaddr := IP4_ADDR 192 168 1 101 in
  let netmask := IP4_ADDR 255 255 255 0 in
  let gateway := IP4_ADDR 192 168 1 1 in
  debug_leds_out_write 4;;
  netif_add pools (driver_link hw) addr_changed netif (Some ipaddr) (Some netmask) (Some gateway) ethernetif_init_cb;;
  debug_leds_out_write 5;;
  netif_set_default netif;;
  netif_set_up pools (driver_link hw) netif;;
  debug_leds_out_write 6.

(** What the module TCP promises of its initialisation. *)
Class TcpInit := tcp_init_law : forall i R, ip_ok i R -> runs tcp_init i (kept pools (driver_link hw) i R).
Context `{TI : !TcpInit} `{AC : !AddrChange pools (driver_link hw) addr_changed}.

(** The state at reset: static variables are zero, the struct is not initialised. *)
Record cold s (netif : Z) : Prop := mk_cold {
  cold_pools : forall t, tab (n_memp (snet (s_ip s))) t = NULL;
  cold_pbufs : n_pbufs (snet (s_ip s)) = ∅;
  cold_table : arp_table (i_arp (s_ip s)) = arp_table_init /\ etharp_cached_entry (i_arp (s_ip s)) = 0;
  cold_netifs : netif_list (s_ip s) = [] /\ netif_default (s_ip s) = NULL /\ netif_num s = 0;
  cold_upper : held (i_upper (s_ip s)) = ∅;
  cold_driver : driver_ready hw (sdev (s_ip s));
  cold_mem : dev_mem pools hw (n_mem (snet (s_ip s))) /\ valid_range (n_mem (snet (s_ip s))) heap_base 3072;
  cold_struct : netif <> NULL /\ is_Some (snifs s !! netif)
}.

Lemma leds_ok s R x : ip_ok (s_ip s) R -> exists s', debug_leds_out_write x s = Ok (tt, s') /\ makes pools (driver_link hw) s R (snifs s) s'.
Proof.
  intros Hok. set (m := e_mac (sdev (s_ip s))).
  set (e := mk_eth (snet (s_ip s)) (mk_mac (txslot m) (busy m) (ev_pending m) (reader_ev m) (rx_slot m) (rx_length m) (reader_slot m) (reader_length m) (started m) x)).
  pose proof Hok as (((_ & Hl) & _) & _).
  destruct (ip_dev pools hw (s_ip s) R R e Hok) as [Hok1 He1]; [by apply (ip_refs pools (driver_link hw))|exact Hl|done|].
  exists (mk_nets (set_sdev e (s_ip s)) (netif_num s)). split; [reflexivity|]. split; [exact Hok1|done].
Qed.

Lemma makes_same s R s' : nets_ok pools (driver_link hw) s R -> makes pools (driver_link hw) s R (snifs s) s' -> nets_ok pools (driver_link hw) s' R.
Proof. intros (_ & Hn) (Hok & Es & _ & El & _ & En). unfold nets_ok. rewrite Es, El, En. exact (conj Hok Hn). Qed.

Lemma leds_nets s R x : nets_ok pools (driver_link hw) s R ->
  exists s', debug_leds_out_write x s = Ok (tt, s') /\ nets_ok pools (driver_link hw) s' R /\ snifs s' = snifs s /\ rest s s'.
Proof.
  intros Hn. destruct (leds_ok s R x (proj1 Hn)) as (s' & E & Hm). exists s'. split; [exact E|]. split; [by eapply makes_same|]. apply Hm.
Qed.

Lemma on_net_ok s {A} (m : M (net heap) A) a n : m (snet (s_ip s)) = Ok (a, n) ->
  on_ip (nb m) s = Ok (a, mk_nets (set_snet n (s_ip s)) (netif_num s)).
Proof. intros E. unfold on_ip. by rewrite (nb_ok m (s_ip s) a n E). Qed.

Lemma lwip_init_ok s netif ram_heap : cold s netif -> 0 < ram_heap < 4294964000 -> LWIP_MEM_ALIGN ram_heap = heap_base ->
  exists s', lwip_init ram_heap s = Ok (tt, s') /\ nets_ok pools (driver_link hw) s' ∅ /\ snifs s' = snifs s /\ rest s s'.
Proof.
  intros Hc Hr Hb. destruct Hc as [Hz Ep [Et Ec] (El & Ed & En) Hu Hd [_ Hv] _].
  destruct (mem_init_ok ram_heap (n_heap (snet (s_ip s))) Hr) as (h & Eh & Hh).
  destruct (memp_init_spec pools (n_memp (snet (s_ip s))) Hz) as (m & Em & Hm).
  set (n1 := mk_net m h (n_pbufs (snet (s_ip s))) (n_mem (snet (s_ip s))) (n_ooseq (snet (s_ip s)))).
  set (i1 := set_sdev (mk_eth n1 (e_mac (sdev (s_ip s)))) (s_ip s)).
  assert (lwip_init ram_heap s = on_ip tcp_init (mk_nets i1 (netif_num s))) as Ei.
  { assert (lift_heap (mem_init ram_heap) (snet (s_ip s)) = Ok (tt, mk_net (n_memp (snet (s_ip s))) h (n_pbufs (snet (s_ip s)))
      (n_mem (snet (s_ip s))) (n_ooseq (snet (s_ip s))))) as E1 by (unfold lift_heap; by rewrite Eh).
    unfold lwip_init. rewrite (bind_ok _ _ _ _ _ (on_net_ok s _ _ _ E1)). set (s1 := mk_nets _ _).
    assert (lift_memp (memp_init pools) (snet (s_ip s1)) = Ok (tt, n1)) as E2 by (unfold lift_memp; change (n_memp (snet (s_ip s1))) with (n_memp (snet (s_ip s))); by rewrite Em).
    by rewrite (bind_ok _ _ _ _ _ (on_net_ok s1 _ _ _ E2)). }
  assert (ram h = heap_base) as Erh by (unfold mem_init in Eh; injection Eh as <-; exact Hb).
  assert (refs pools n1 ∅) as Hrefs.
  { split_and!; [|..].
    - exists (fun t => rev (elems (pools t))), ∅. split_and!; [exact Hm| |cbn; rewrite Ep; intros a b; by rewrite lookup_empty].
      split; [exact Erh|]. exists ∅. split; [apply dom_empty_L|exact Hh].
    - cbn. rewrite Ep. split_and!; [intros a b; by rewrite lookup_empty|intros a; by rewrite gmultiset_elem_of_empty|intros a b; by rewrite lookup_empty].
    - cbn. rewrite Ep. intros a b. by rewrite lookup_empty.
    - intros i Hi. apply Hv. cbn in Hi. lia. }
  assert (ip_ok i1 ∅) as Hok1.
  { split; [|split].
    - split; [split; [|exact Hd]|split].
      + change (arp_table (i_arp i1)) with (arp_table (i_arp (s_ip s))). change (i_upper i1) with (i_upper (s_ip s)).
        rewrite Et, Hu. assert (queued arp_table_init ⊎ (∅ ⊎ ∅) = ∅) as -> by (apply (bool_decide_unpack _); vm_compute; exact I). exact Hrefs.
      + change (arp_table (i_arp i1)) with (arp_table (i_arp (s_ip s))). rewrite Et. apply init_table_ok.
      + change (etharp_cached_entry (i_arp i1)) with (etharp_cached_entry (i_arp (s_ip s))). by rewrite Ec.
    - unfold i1. cbn. rewrite El. constructor.
    - left. exact Ed. }
  rewrite Ei. destruct (on_ip_env pools (driver_link hw) (mk_nets i1 (netif_num s)) ∅ tcp_init (tcp_init_law i1 ∅ Hok1)) as ([] & s' & E & Hm').
  exists s'. split; [exact E|]. split; [|exact (proj2 Hm')]. eapply makes_same; [|exact Hm']. split; [exact Hok1|]. cbn. rewrite El, En.
  split; [constructor|]. split; [done|]. exists []. split; [constructor|]. split; constructor.
Qed.

End Start.
