(* ===== verification/BootEx.v ===== *)
(** * Concrete states of the interfaces and of start-up

    Configurations in which the assumptions of the theorems on netif.c and start-up
    hold: the reset state of the board, a stack with one interface, and a list that
    uses up all the numbers of interfaces. *)

From S2P Require Import Prelude Chksum Memp Pbuf PbufSpec PbufData Mem MemSpec MemHeap PbufRefs Ethernetif Ip4Addr Ethernet Etharp EtharpSpec Ip4 Ip4Spec Icmp IcmpSpec IpInput IpInputSpec Stack StackEx Netif NetifSpec Boot.
From stdpp Require Import base numbers list gmap gmultiset functions sorting relations.
Open Scope Z_scope.
Open Scope c_scope.

Local Opaque ex_stack_mem.

(** TCP without connections: nothing happens when an address changes. *)
Definition ex_changed {H} (old : Z) (new : option Z) : M (ip H unit) unit := mret tt.

Global Instance ex_changed_laws pools {H} `{!Heap H} `{!HeapLaws pools H} (linkoutput : Z -> Z -> M (eth H) Z) `{!LinkLaws linkoutput} :
  AddrChange pools linkoutput (ex_changed (H := H)).
Proof. intros i R old new Hok. apply runs_ret. split; [done|reflexivity]. Qed.

(** ** Start-up *)

Definition ex_junk : nif := {| ip_addr := 1; netmask := 2; gw := 3; nif_hwaddr := replicate 6 255; nif_hwaddr_len := 77;
  nif_mtu := 9; nif_flags := 255; num := 200 |}.
Definition ex_reset : nets heap unit :=
  mk_nets (mk_ip (mk_arp (mk_link (mk_eth (mk_net example_memp0 ex_h0 ∅ ex_stack_mem 0) (mk_mac 0 2 false false 0 0 0 0 [] 0))
    {[ 4096 := ex_junk ]}) arp_table_init 0) [] NULL 0 (mk_globals NULL NULL NULL 0 0 0) tt) 0.

Global Instance ex_tcp_init_laws : TcpInit example_pools ex_dma (T := unit) (mret tt).
Proof. intros i R Hok. apply runs_ret. split; [done|reflexivity]. Qed.

Lemma ex_reset_cold : cold example_pools ex_dma ex_reset 4096.
Proof.
  pose proof ex_stack_ok as [_ Hd]. constructor; try done.
  - split_and!; try done. intros slot Hs. apply ex_stack_valid. unfold tx_buf. cbn in *. lia.
  - split; [exact Hd|]. apply ex_stack_valid. cbn. lia.
Qed.


(** ** The interfaces *)

Lemma ex_nets_ok : nets_ok example_pools (driver_link ex_dma) (mk_nets ex_stack 1) ∅.
Proof.
  split; [exact ex_ip_ok|]. split; [apply NoDup_singleton|]. split; [cbn; lia|]. exists [0].
  split; [repeat constructor; by exists ex_up|]. split; [apply NoDup_singleton|apply Forall_singleton; lia].
Qed.


(** 255 interfaces with the numbers 0 to 254, and a struct for another one. *)
Definition ex_many : gmap Z nif := <[4096 := ex_junk]> (list_to_map ((fun k => (8192 + k, with_num k ex_up)) <$> seqZ 0 255)).
Definition ex_full : nets Z unit :=
  mk_nets (mk_ip (mk_arp (mk_link (l_eth (a_link (i_arp ex_stack))) ex_many) arp_table_init 0)
    ((fun k => 8192 + k) <$> seqZ 0 255) NULL 0 (mk_globals NULL NULL NULL 0 0 0) tt) 0.

Lemma ex_many_lookup k : 0 <= k < 255 -> ex_many !! (8192 + k) = Some (with_num k ex_up).
Proof.
  intros Hk. unfold ex_many. rewrite lookup_insert_ne by lia. apply elem_of_list_to_map_1.
  - rewrite <- list_fmap_compose. apply NoDup_fmap_2; [|apply NoDup_seqZ]. intros x y Hxy. cbn in Hxy. lia.
  - apply list_elem_of_fmap. exists k. split; [done|]. apply elem_of_seqZ. lia.
Qed.

Lemma ex_many_new : ex_many !! 4096 = Some ex_junk.
Proof. apply lookup_insert_eq. Qed.

Local Opaque ex_many.

Lemma netif_add_full_witness : num_loop 1000 4096 ex_full = NoFuel.
Proof.
  apply (netif_add_full ex_full 4096 ex_junk (seqZ 0 255) 1000).
  - unfold numbers. apply Forall2_fmap_l, Forall_Forall2_diag, Forall_forall. intros k Hk%elem_of_seqZ. exists (with_num k ex_up).
    split; [apply ex_many_lookup; lia|reflexivity].
  - reflexivity.
  - intros k Hk. apply elem_of_seqZ. lia.
  - intros (k & Hx & Hk%elem_of_seqZ)%list_elem_of_fmap. lia.
  - exact ex_many_new.
  - cbn. lia.
Defined.
