(* ===== verification/Tcp.v ===== *)
(** * TCP control blocks: the data of core/tcp.c and its operations on connections

    The control blocks live in a store keyed by address, linked through [next] into the
    four lists of tcp.c, so that a block registered twice is visible as what it is in C:
    a damaged list. The fields are grouped as the comments of [struct tcp_pcb] group
    them. Transmission ([tcp_output]) and the timer of timeouts.c are parameters. *)

From S2P Require Import Prelude Chksum Memp Pbuf PbufSpec PbufData PbufRefs Ethernetif Ip4Addr Ethernet Etharp Ip4 TcpApi.
From stdpp Require Import base numbers list gmap functions.
Open Scope Z_scope.
Open Scope c_scope.

Definition ERR_USE : Z := -8.
Definition ERR_CLSD : Z := -15.
Definition TCP_WND : Z := 4 * TCP_MSS.
Definition TCP_WND_UPDATE_THRESHOLD : Z := Z.min (TCP_WND / 4) (TCP_MSS * 4).
Definition TCP_HLEN : Z := 20.
Definition TF_ACK_DELAY : Z := 1.
Definition TF_ACK_NOW : Z := 2.
Definition TCP_LOCAL_PORT_RANGE_START : Z := 49152.
Definition TCP_LOCAL_PORT_RANGE_END : Z := 65535.

(** ** Sequence numbers *)

Definition TCP_SEQ_LT (a b : Z) : bool := s32 (u32 a - u32 b) <? 0.
Definition TCP_SEQ_LEQ (a b : Z) : bool := s32 (u32 a - u32 b) <=? 0.
Definition TCP_SEQ_GT (a b : Z) : bool := 0 <? s32 (u32 a - u32 b).
Definition TCP_SEQ_GEQ (a b : Z) : bool := 0 <=? s32 (u32 a - u32 b).
Definition TCP_SEQ_BETWEEN (a b c : Z) : bool := TCP_SEQ_GEQ a b && TCP_SEQ_LEQ a c.

(** ** Control blocks *)

Inductive tcp_state :=
| CLOSED | LISTEN | SYN_SENT | SYN_RCVD | ESTABLISHED | FIN_WAIT_1 | FIN_WAIT_2 | CLOSE_WAIT | CLOSING | LAST_ACK | TIME_WAIT.
Global Instance tcp_state_eq_dec : EqDecision tcp_state.
Proof. solve_decision. Defined.

(** [IP_PCB] and [TCP_PCB_COMMON] *)
Record pcb_common := mk_common {
  local_ip : Z; remote_ip : Z; netif_idx : Z; so_options : Z; tos : Z; ttl : Z;
  pcb_next : Z; callback_arg : Z; pcb_state : tcp_state; prio : Z; local_port : Z }.

Record pcb_timers := mk_timers { polltmr : Z; pollinterval : Z; last_timer : Z; tmr : Z }.
Record pcb_rcv := mk_rcv { rcv_nxt : Z; rcv_wnd : Z; rcv_ann_wnd : Z; rcv_ann_right_edge : Z }.
Record pcb_rtt := mk_rtt { rtime : Z; rttest : Z; rtseq : Z; sa : Z; sv : Z; rto : Z; nrtx : Z }.
Record pcb_congestion := mk_congestion { dupacks : Z; lastack : Z; cwnd : Z; ssthresh : Z; rto_end : Z }.
Record pcb_snd := mk_snd {
  snd_nxt : Z; snd_wl1 : Z; snd_wl2 : Z; snd_lbb : Z; snd_wnd : Z; snd_wnd_max : Z;
  snd_buf : Z; snd_queuelen : Z; unsent_oversize : Z; bytes_acked : Z }.
Record pcb_queues := mk_queues { unsent : Z; unacked : Z; ooseq : Z; refused_data : Z }.
Record pcb_callbacks := mk_callbacks { listener : Z; sent_fn : Z; recv_fn : Z; connected_fn : Z; poll_fn : Z; errf_fn : Z }.
Record pcb_keepalive := mk_keepalive { keep_idle : Z; persist_cnt : Z; persist_backoff : Z; persist_probe : Z; keep_cnt_sent : Z }.

(** What [struct tcp_pcb] has beyond the common part. *)
Record conn := mk_conn {
  remote_port : Z; pcb_flags : Z; mss : Z; c_timers : pcb_timers; c_rcv : pcb_rcv; c_rtt : pcb_rtt;
  c_cong : pcb_congestion; c_snd : pcb_snd; c_queues : pcb_queues; c_fns : pcb_callbacks; c_keep : pcb_keepalive }.

(** [struct tcp_pcb] or [struct tcp_pcb_listen], whose own member is [accept]. *)
Inductive pcb_body := Conn (c : conn) | Listener (accept : Z).
Record tcp_pcb := mk_pcb { com : pcb_common; body : pcb_body }.

(** The lists, in the order of [tcp_pcb_lists]. *)
Inductive pcb_list := tcp_listen_pcbs | tcp_bound_pcbs | tcp_active_pcbs | tcp_tw_pcbs.
Global Instance pcb_list_eq_dec : EqDecision pcb_list.
Proof. solve_decision. Defined.
Definition tcp_pcb_lists : list pcb_list := [tcp_listen_pcbs; tcp_bound_pcbs; tcp_active_pcbs; tcp_tw_pcbs].

(** A segment of a queue: [tcphdr] points to its header in the packet [p]. *)
Record tcp_seg := mk_seg { sg_next : Z; sg_p : Z; sg_len : Z; sg_flags : Z; sg_tcphdr : Z }.

(** The static variables of tcp_in.c that describe the options and the header of the
    segment that is being processed, and those of tcp.c with the segments. *)
Record tcp_opts := mk_opts { tcphdr : Z; tcphdr_optlen : Z; tcphdr_opt1len : Z; tcphdr_opt2 : Z; tcp_optidx : Z }.
Record tcp_in := mk_in { in_seqno : Z; in_ackno : Z; recv_acked : Z; in_tcplen : Z; in_flags : Z }.
Record tcps := mk_tcps {
  pcbs : gmap Z tcp_pcb; heads : pcb_list -> Z; tcp_port : Z; tcp_ticks : Z; iss : Z; t_opts : tcp_opts;
  segs : gmap Z tcp_seg; t_in : tcp_in }.

(** Field updates. *)
Definition with_com (f : pcb_common -> pcb_common) (p : tcp_pcb) : tcp_pcb := mk_pcb (f (com p)) (body p).
Definition with_next (x : Z) (c : pcb_common) : pcb_common :=
  mk_common (local_ip c) (remote_ip c) (netif_idx c) (so_options c) (tos c) (ttl c) x (callback_arg c) (pcb_state c) (prio c) (local_port c).
Definition with_local (addr port : Z) (c : pcb_common) : pcb_common :=
  mk_common addr (remote_ip c) (netif_idx c) (so_options c) (tos c) (ttl c) (pcb_next c) (callback_arg c) (pcb_state c) (prio c) port.
Definition with_netif_idx (x : Z) (c : pcb_common) : pcb_common :=
  mk_common (local_ip c) (remote_ip c) x (so_options c) (tos c) (ttl c) (pcb_next c) (callback_arg c) (pcb_state c) (prio c) (local_port c).
Definition with_arg (x : Z) (c : pcb_common) : pcb_common :=
  mk_common (local_ip c) (remote_ip c) (netif_idx c) (so_options c) (tos c) (ttl c) (pcb_next c) x (pcb_state c) (prio c) (local_port c).
Definition with_prio (x : Z) (c : pcb_common) : pcb_common :=
  mk_common (local_ip c) (remote_ip c) (netif_idx c) (so_options c) (tos c) (ttl c) (pcb_next c) (callback_arg c) (pcb_state c) x (local_port c).
Definition with_pcb_flags (x : Z) (c : conn) : conn :=
  mk_conn (remote_port c) x (mss c) (c_timers c) (c_rcv c) (c_rtt c) (c_cong c) (c_snd c) (c_queues c) (c_fns c) (c_keep c).
Definition with_mss (x : Z) (c : conn) : conn :=
  mk_conn (remote_port c) (pcb_flags c) x (c_timers c) (c_rcv c) (c_rtt c) (c_cong c) (c_snd c) (c_queues c) (c_fns c) (c_keep c).
Definition with_timers (x : pcb_timers) (c : conn) : conn :=
  mk_conn (remote_port c) (pcb_flags c) (mss c) x (c_rcv c) (c_rtt c) (c_cong c) (c_snd c) (c_queues c) (c_fns c) (c_keep c).
Definition with_rcv (x : pcb_rcv) (c : conn) : conn :=
  mk_conn (remote_port c) (pcb_flags c) (mss c) (c_timers c) x (c_rtt c) (c_cong c) (c_snd c) (c_queues c) (c_fns c) (c_keep c).
Definition with_fns (x : pcb_callbacks) (c : conn) : conn :=
  mk_conn (remote_port c) (pcb_flags c) (mss c) (c_timers c) (c_rcv c) (c_rtt c) (c_cong c) (c_snd c) (c_queues c) x (c_keep c).
Definition with_listener (x : Z) (f : pcb_callbacks) : pcb_callbacks :=
  mk_callbacks x (sent_fn f) (recv_fn f) (connected_fn f) (poll_fn f) (errf_fn f).
Definition tcp_set_flags (x : Z) (c : conn) : conn := with_pcb_flags (u16 (pcb_flags c |c x)) c.
Definition tcp_clear_flags (x : Z) (c : conn) : conn := with_pcb_flags (u16 (pcb_flags c &c Z.lnot x)) c.

Definition set_pcbs (g : gmap Z tcp_pcb) (s : tcps) : tcps := mk_tcps g (heads s) (tcp_port s) (tcp_ticks s) (iss s) (t_opts s) (segs s) (t_in s).
Definition set_head (l : pcb_list) (x : Z) (s : tcps) : tcps :=
  mk_tcps (pcbs s) (<[l := x]> (heads s)) (tcp_port s) (tcp_ticks s) (iss s) (t_opts s) (segs s) (t_in s).
Definition set_port (x : Z) (s : tcps) : tcps := mk_tcps (pcbs s) (heads s) x (tcp_ticks s) (iss s) (t_opts s) (segs s) (t_in s).
Definition set_iss (x : Z) (s : tcps) : tcps := mk_tcps (pcbs s) (heads s) (tcp_port s) (tcp_ticks s) x (t_opts s) (segs s) (t_in s).

(** [*pcb] and assignments through [pcb]; the members of a connection are not there in
    the smaller struct of a listener. *)
Definition get_pcb (a : Z) : M tcps tcp_pcb := fun s => match pcbs s !! a with Some p => Ok (p, s) | None => Fault end.
Definition get_conn (a : Z) : M tcps conn := fun s =>
  match pcbs s !! a with Some (mk_pcb _ (Conn c)) => Ok (c, s) | _ => Fault end.
Definition upd_pcb (a : Z) (f : tcp_pcb -> tcp_pcb) : M tcps unit := fun s =>
  match pcbs s !! a with Some p => Ok (tt, set_pcbs (<[a := f p]> (pcbs s)) s) | None => Fault end.
Definition upd_com (a : Z) (f : pcb_common -> pcb_common) : M tcps unit := upd_pcb a (with_com f).
Definition upd_conn (a : Z) (f : conn -> conn) : M tcps unit := fun s =>
  match pcbs s !! a with
  | Some (mk_pcb k (Conn c)) => Ok (tt, set_pcbs (<[a := mk_pcb k (Conn (f c))]> (pcbs s)) s)
  | _ => Fault
  end.

(** Fuel for the loops over a list: a list visits each control block once. *)
Definition pcb_fuel (s : tcps) : nat := S (size (pcbs s)).

(** ** Lists *)

(** [TCP_REG] without the call of [tcp_timer_needed] at its end *)
Definition tcp_reg (l : pcb_list) (npcb : Z) : M tcps unit :=
  h ← gets (fun s => heads s l);
  upd_com npcb (with_next h);;
  modify (set_head l npcb).

Fixpoint rmv_loop (fuel : nat) (tmp npcb : Z) : M tcps unit :=
  match fuel with
  | O => nofuel
  | S fuel' =>
      if tmp =? NULL then mret tt
      else
        t ← get_pcb tmp;
        if pcb_next (com t) =? npcb then n ← get_pcb npcb; upd_com tmp (with_next (pcb_next (com n)))
        else rmv_loop fuel' (pcb_next (com t)) npcb
  end.

Definition TCP_RMV (l : pcb_list) (npcb : Z) : M tcps unit :=
  h ← gets (fun s => heads s l);
  (if h =? npcb then n ← get_pcb h; modify (set_head l (pcb_next (com n)))
   else fuel ← gets pcb_fuel; rmv_loop fuel h npcb);;
  upd_com npcb (with_next NULL).

Fixpoint listener_loop (fuel : nat) (pcb lpcb : Z) : M tcps unit :=
  match fuel with
  | O => nofuel
  | S fuel' =>
      if pcb =? NULL then mret tt
      else
        c ← get_conn pcb;
        (if listener (c_fns c) =? lpcb then upd_conn pcb (fun c => with_fns (with_listener NULL (c_fns c)) c) else mret tt);;
        p ← get_pcb pcb;
        listener_loop fuel' (pcb_next (com p)) lpcb
  end.
Definition tcp_remove_listener (list lpcb : Z) : M tcps unit :=
  assert (negb (lpcb =? NULL));;
  fuel ← gets pcb_fuel;
  listener_loop fuel list lpcb.

(** The lists but the first, that of the listeners. *)
Fixpoint closed_loop (ls : list pcb_list) (pcb : Z) : M tcps unit :=
  match ls with
  | [] => mret tt
  | l :: ls' => h ← gets (fun s => heads s l); tcp_remove_listener h pcb;; closed_loop ls' pcb
  end.
Definition tcp_listen_closed (pcb : Z) : M tcps unit :=
  assert (negb (pcb =? NULL));;
  p ← get_pcb pcb;
  assert (bool_decide (pcb_state (com p) = LISTEN));;
  closed_loop (tail tcp_pcb_lists) pcb.

(** ** Ports *)

(** Does a control block of the list satisfy the test? *)
Fixpoint search_loop (fuel : nat) (test : pcb_common -> bool) (cpcb : Z) : M tcps bool :=
  match fuel with
  | O => nofuel
  | S fuel' =>
      if cpcb =? NULL then mret false
      else
        p ← get_pcb cpcb;
        if test (com p) then mret true else search_loop fuel' test (pcb_next (com p))
  end.
Fixpoint search_lists (ls : list pcb_list) (test : pcb_common -> bool) : M tcps bool :=
  match ls with
  | [] => mret false
  | l :: ls' =>
      h ← gets (fun s => heads s l);
      fuel ← gets pcb_fuel;
      found ← search_loop fuel test h;
      if (found : bool) then mret true else search_lists ls' test
  end.

Definition TCP_ENSURE_LOCAL_PORT_RANGE (port : Z) : Z :=
  u16 ((port &c u16 (Z.lnot TCP_LOCAL_PORT_RANGE_START)) + TCP_LOCAL_PORT_RANGE_START).

(** [rand_value] is what [LWIP_RAND] returns. *)
Definition tcp_init (rand_value : Z) : M tcps unit := modify (set_port (TCP_ENSURE_LOCAL_PORT_RANGE rand_value)).

(** The label [again]; [n] counts the rounds that found a port in use. *)
Fixpoint new_port_loop (fuel : nat) (n : Z) : M tcps Z :=
  match fuel with
  | O => nofuel
  | S fuel' =>
      p ← gets tcp_port;
      modify (set_port (u16 (p + 1)));;
      p ← gets tcp_port;
      (if p =? TCP_LOCAL_PORT_RANGE_END then modify (set_port TCP_LOCAL_PORT_RANGE_START) else mret tt);;
      p ← gets tcp_port;
      used ← search_lists tcp_pcb_lists (fun c => local_port c =? p);
      if (used : bool) then
        let n := u16 (n + 1) in
        if TCP_LOCAL_PORT_RANGE_END - TCP_LOCAL_PORT_RANGE_START <? n then mret 0 else new_port_loop fuel' n
      else mret p
  end.
Definition new_port_fuel : nat := Z.to_nat 16384.
Definition tcp_new_port : M tcps Z := new_port_loop new_port_fuel 0.

(** ** The receive window *)

(** It returns by how much the announced window would grow. *)
Definition tcp_update_rcv_ann_wnd (pcb : Z) : M tcps Z :=
  assert (negb (pcb =? NULL));;
  c ← get_conn pcb;
  let w := c_rcv c in
  let set x := upd_conn pcb (fun c => let w := c_rcv c in with_rcv (mk_rcv (rcv_nxt w) (rcv_wnd w) x (rcv_ann_right_edge w)) c) in
  let new_right_edge := u32 (rcv_nxt w + rcv_wnd w) in
  if TCP_SEQ_GEQ new_right_edge (rcv_ann_right_edge w + Z.min (TCP_WND / 2) (mss c)) then
    set (rcv_wnd w);; mret (u32 (new_right_edge - rcv_ann_right_edge w))
  else if TCP_SEQ_GT (rcv_nxt w) (rcv_ann_right_edge w) then set 0;; mret 0
  else
    let new_rcv_ann_wnd := u32 (rcv_ann_right_edge w - rcv_nxt w) in
    assert (new_rcv_ann_wnd <=? 65535);;
    set (u16 new_rcv_ann_wnd);; mret 0.

(** The three lines of [tcp_receive] that take in a segment of [tcplen] at [seqno]. *)
Definition advance_rcv (pcb seqno tcplen : Z) : M tcps unit :=
  c ← get_conn pcb;
  assert (tcplen <=? rcv_wnd (c_rcv c));;
  upd_conn pcb (fun c => let w := c_rcv c in
    with_rcv (mk_rcv (u32 (seqno + tcplen)) (u16 (rcv_wnd w - tcplen)) (rcv_ann_wnd w) (rcv_ann_right_edge w)) c);;
  tcp_update_rcv_ann_wnd pcb;;
  mret tt.

(** The window that goes into a segment is the announced one; its right edge is kept. *)
Definition announce (pcb : Z) : M tcps Z :=
  c ← get_conn pcb;
  upd_conn pcb (fun c => let w := c_rcv c in
    with_rcv (mk_rcv (rcv_nxt w) (rcv_wnd w) (rcv_ann_wnd w) (u32 (rcv_nxt w + rcv_ann_wnd w))) c);;
  mret (rcv_ann_wnd (c_rcv c)).

(** [tcp_recved] until it decides whether to send an update at once. *)
Definition open_window (pcb len : Z) : M tcps bool :=
  p ← get_pcb pcb;
  assert (bool_decide (pcb_state (com p) <> LISTEN));;
  c ← get_conn pcb;
  let wnd := u16 (rcv_wnd (c_rcv c) + len) in
  let set x := upd_conn pcb (fun c => let w := c_rcv c in with_rcv (mk_rcv (rcv_nxt w) x (rcv_ann_wnd w) (rcv_ann_right_edge w)) c) in
  (if (TCP_WND <? wnd) || (wnd <? rcv_wnd (c_rcv c)) then set TCP_WND else set wnd);;
  wnd_inflation ← tcp_update_rcv_ann_wnd pcb;
  if TCP_WND_UPDATE_THRESHOLD <=? wnd_inflation then upd_conn pcb (tcp_set_flags TF_ACK_NOW);; mret true else mret false.

(** ** Sequence numbers and segment sizes of new connections *)

Definition tcp_next_iss (pcb : Z) : M tcps Z :=
  assert (negb (pcb =? NULL));;
  x ← gets iss;
  t ← gets tcp_ticks;
  modify (set_iss (u32 (x + t)));;
  gets iss.

(** [outif] is the interface's [mtu] if there is an interface. *)
Definition tcp_eff_send_mss_netif (sendmss : Z) (outif : option Z) : Z :=
  match outif with
  | None => sendmss
  | Some mtu =>
      if negb (mtu =? 0) then
        let offset := IP_HLEN + TCP_HLEN in
        let mss_s := if offset <? mtu then u16 (mtu - offset) else 0 in
        Z.min sendmss mss_s
      else sendmss
  end.

(** ** Setters of the application *)

Definition tcp_bind_netif (pcb : Z) (netif : option Z) : M tcps unit :=
  upd_com pcb (with_netif_idx (match netif with Some idx => idx | None => 0 (* NETIF_NO_INDEX *) end)).
Definition tcp_setprio (pcb prio : Z) : M tcps unit :=
  if pcb =? NULL then mret tt else upd_com pcb (with_prio prio).
Definition tcp_arg (pcb arg : Z) : M tcps unit :=
  if negb (pcb =? NULL) then upd_com pcb (with_arg arg) else mret tt.
Definition set_fn (pcb : Z) (f : pcb_callbacks -> pcb_callbacks) : M tcps unit :=
  if negb (pcb =? NULL) then
    p ← get_pcb pcb;
    assert (bool_decide (pcb_state (com p) <> LISTEN));;
    upd_conn pcb (fun c => with_fns (f (c_fns c)) c)
  else mret tt.
Definition tcp_recv (pcb recv : Z) : M tcps unit :=
  set_fn pcb (fun f => mk_callbacks (listener f) (sent_fn f) recv (connected_fn f) (poll_fn f) (errf_fn f)).
Definition tcp_sent (pcb sent : Z) : M tcps unit :=
  set_fn pcb (fun f => mk_callbacks (listener f) sent (recv_fn f) (connected_fn f) (poll_fn f) (errf_fn f)).
Definition tcp_err (pcb err : Z) : M tcps unit :=
  set_fn pcb (fun f => mk_callbacks (listener f) (sent_fn f) (recv_fn f) (connected_fn f) (poll_fn f) err).
Definition tcp_accept (pcb accept : Z) : M tcps unit :=
  if negb (pcb =? NULL) then
    p ← get_pcb pcb;
    if bool_decide (pcb_state (com p) = LISTEN) then upd_pcb pcb (fun p => mk_pcb (com p) (Listener accept)) else mret tt
  else mret tt.
Definition tcp_poll (pcb poll interval : Z) : M tcps unit :=
  if pcb =? NULL then mret tt
  else
    p ← get_pcb pcb;
    assert (bool_decide (pcb_state (com p) <> LISTEN));;
    upd_conn pcb (fun c => with_fns (mk_callbacks (listener (c_fns c)) (sent_fn (c_fns c)) (recv_fn (c_fns c)) (connected_fn (c_fns c)) poll (errf_fn (c_fns c))) c);;
    upd_conn pcb (fun c => let t := c_timers c in with_timers (mk_timers (polltmr t) interval (last_timer t) (tmr t)) c).

(** ** Operations on the whole stack *)

Section Stack.
Context (pools : memp_t -> memp_desc) {H : Type} `{HH : !Heap H}.
Context (tcp_timer_needed : M (ip H tcps) unit) (tcp_output : Z -> M (ip H tcps) Z).

Definition on_tcp {A} (m : M tcps A) : M (ip H tcps) A := fun s =>
  match m (i_upper s) with
  | Ok (a, t) => Ok (a, mk_ip (i_arp s) (netif_list s) (netif_default s) (ip_id s) (ip_data s) t)
  | AssertFail => AssertFail | Fault => Fault | NoFuel => NoFuel
  end.

Definition TCP_REG (l : pcb_list) (npcb : Z) : M (ip H tcps) unit := on_tcp (tcp_reg l npcb);; tcp_timer_needed.

(** The struct is gone once its pool has it back. *)
Definition tcp_free (pcb : Z) : M (ip H tcps) unit :=
  p ← on_tcp (get_pcb pcb);
  assert (bool_decide (pcb_state (com p) <> LISTEN));;
  nb (lift_memp (memp_free MEMP_TCP_PCB pcb));;
  on_tcp (modify (fun s => set_pcbs (delete pcb (pcbs s)) s)).

(** NULL stands for any address. *)
Definition bind_conflict (ipaddr port : Z) (c : pcb_common) : bool :=
  (local_port c =? port) && (ip4_addr_isany (local_ip c) || ip4_addr_isany ipaddr || (local_ip c =? ipaddr)).

Definition tcp_bind (pcb : Z) (ipaddr : option Z) (port : Z) : M (ip H tcps) Z :=
  let ipaddr := match ipaddr with Some a => a | None => IPADDR_ANY end in
  if pcb =? NULL then mret ERR_ARG
  else
    p ← on_tcp (get_pcb pcb);
    if bool_decide (pcb_state (com p) <> CLOSED) then mret ERR_VAL
    else
      '(e, port) ← (if port =? 0 then
          port ← on_tcp tcp_new_port; if port =? 0 then mret (ERR_BUF, 0) else mret (ERR_OK, port)
        else
          used ← on_tcp (search_lists tcp_pcb_lists (bind_conflict ipaddr port));
          if (used : bool) then mret (ERR_USE, 0) else mret (ERR_OK, port));
      if negb (e =? ERR_OK) then mret e
      else
        (if negb (ip4_addr_isany ipaddr) then on_tcp (upd_com pcb (fun c => with_local ipaddr (local_port c) c)) else mret tt);;
        on_tcp (upd_com pcb (fun c => with_local (local_ip c) port c));;
        TCP_REG tcp_bound_pcbs pcb;;
        mret ERR_OK.

(** The listening control block and the error; [accept] is [tcp_accept_null] at first.
    The branch for a block that listens already cannot be reached. The members that
    the C code leaves unset in the new block are given the value 0. *)
Definition tcp_accept_null : Z := 1.
Definition tcp_listen_with_backlog_and_err (pcb : Z) : M (ip H tcps) (Z * Z) :=
  if pcb =? NULL then mret (NULL, ERR_ARG)
  else
    p ← on_tcp (get_pcb pcb);
    if bool_decide (pcb_state (com p) <> CLOSED) then mret (NULL, ERR_CLSD)
    else
      lpcb ← nb (lift_memp (memp_malloc MEMP_TCP_PCB_LISTEN));
      if lpcb =? NULL then mret (NULL, ERR_MEM)
      else
        let c := com p in
        let lc := mk_common (local_ip c) 0 (netif_idx c) (so_options c) (tos c) (ttl c) NULL (callback_arg c) LISTEN (prio c) (local_port c) in
        on_tcp (modify (fun s => set_pcbs (<[lpcb := mk_pcb lc (Listener NULL)]> (pcbs s)) s));;
        (if negb (local_port c =? 0) then on_tcp (TCP_RMV tcp_bound_pcbs pcb) else mret tt);;
        tcp_free pcb;;
        on_tcp (upd_pcb lpcb (fun p => mk_pcb (com p) (Listener tcp_accept_null)));;
        TCP_REG tcp_listen_pcbs lpcb;;
        mret (lpcb, ERR_OK).
Definition tcp_listen_with_backlog (pcb : Z) : M (ip H tcps) Z := r ← tcp_listen_with_backlog_and_err pcb; mret r.1.

Definition tcp_recved (pcb len : Z) : M (ip H tcps) unit :=
  if pcb =? NULL then mret tt
  else
    update ← on_tcp (open_window pcb len);
    if (update : bool) then tcp_output pcb;; mret tt else mret tt.

(** ** Options of a received segment *)

Definition with_optidx (x : Z) (s : tcps) : tcps :=
  let o := t_opts s in
  mk_tcps (pcbs s) (heads s) (tcp_port s) (tcp_ticks s) (iss s) (mk_opts (tcphdr o) (tcphdr_optlen o) (tcphdr_opt1len o) (tcphdr_opt2 o) x) (segs s) (t_in s).

Definition tcp_get_next_optbyte : M (ip H tcps) Z :=
  o ← on_tcp (gets t_opts);
  let optidx := tcp_optidx o in
  on_tcp (modify (with_optidx (u16 (optidx + 1))));;
  if (tcphdr_opt2 o =? NULL) || (optidx <? tcphdr_opt1len o)
  then nb (read_byte (tcphdr o + TCP_HLEN + optidx))
  else
    let idx := u8 (optidx - tcphdr_opt1len o) in
    nb (read_byte (tcphdr_opt2 o + idx)).

Definition LWIP_TCP_OPT_EOL : Z := 0.
Definition LWIP_TCP_OPT_NOP : Z := 1.
Definition LWIP_TCP_OPT_MSS : Z := 2.
Definition LWIP_TCP_OPT_LEN_MSS : Z := 4.

Fixpoint parse_loop (fuel : nat) (pcb : Z) : M (ip H tcps) unit :=
  match fuel with
  | O => nofuel
  | S fuel' =>
      o ← on_tcp (gets t_opts);
      if negb (tcp_optidx o <? tcphdr_optlen o) then mret tt
      else
        opt ← tcp_get_next_optbyte;
        if opt =? LWIP_TCP_OPT_EOL then mret tt
        else if opt =? LWIP_TCP_OPT_NOP then parse_loop fuel' pcb
        else if opt =? LWIP_TCP_OPT_MSS then
          n ← tcp_get_next_optbyte;
          i ← on_tcp (gets (fun s => tcp_optidx (t_opts s)));
          if negb (n =? LWIP_TCP_OPT_LEN_MSS) || (tcphdr_optlen o <? i - 2 + LWIP_TCP_OPT_LEN_MSS) then mret tt
          else
            hi ← tcp_get_next_optbyte;
            lo ← tcp_get_next_optbyte;
            let x := u16 (u16 (hi <<c 8) |c lo) in
            on_tcp (upd_conn pcb (with_mss (if (TCP_MSS <? x) || (x =? 0) then TCP_MSS else x)));;
            parse_loop fuel' pcb
        else
          data ← tcp_get_next_optbyte;
          if data <? 2 then mret tt
          else
            i ← on_tcp (gets (fun s => tcp_optidx (t_opts s)));
            on_tcp (modify (with_optidx (u16 (i + (data - 2)))));;
            parse_loop fuel' pcb
  end.

(** Every round reads at least one byte of the options. *)
Definition tcp_parseopt (pcb : Z) : M (ip H tcps) unit :=
  assert (negb (pcb =? NULL));;
  o ← on_tcp (gets t_opts);
  if negb (tcphdr_optlen o =? 0) then
    on_tcp (modify (with_optidx 0));;
    parse_loop (S (Z.to_nat (tcphdr_optlen o))) pcb
  else mret tt.
End Stack.
