(* ===== verification/TcpOptSpec.v ===== *)
(** * Parsing of TCP options

    [tcp_parseopt] computes the same segment size as a parser on the list of option
    bytes, wherever the options are split between two packet buffers, and reads at most
    one byte beyond them. *)

From S2P Require Import Prelude Chksum Memp Pbuf PbufSpec PbufData PbufRefs Ethernetif Ip4Addr Ethernet Etharp EtharpSpec Ip4 Ip4Spec TcpApi Tcp.
From stdpp Require Import base numbers list gmap gmultiset functions sorting.
Open Scope Z_scope.
Open Scope c_scope.

(** ** The options as a list of bytes *)

Definition clamp_mss (x : Z) : Z := if (TCP_MSS <? x) || (x =? 0) then TCP_MSS else x.

(** The segment size after the options [l], of which the first [skip] bytes belong to an
    option that has been looked at; [m] is the size so far. *)
Fixpoint options_mss (skip : nat) (l : list Z) (m : Z) : Z :=
  match l, skip with
  | [], _ => m
  | _ :: l', S skip' => options_mss skip' l' m
  | kind :: l', O =>
      if kind =? 0 then m
      else if kind =? 1 then options_mss O l' m
      else if kind =? 2 then
        match l' with
        | n :: hi :: lo :: _ => if n =? 4 then options_mss 3 l' (clamp_mss (256 * hi + lo)) else m
        | _ => m
        end
      else
        match l' with
        | n :: _ => if n <? 2 then m else options_mss (Z.to_nat (n - 1)) l' m
        | [] => m
        end
  end.

Lemma options_skip l : forall k m, options_mss k l m = options_mss 0 (drop k l) m.
Proof. induction l as [|x l IH]; intros [|k] m; [done..|apply IH]. Qed.

Section Parse.
Context {H : Type} `{HH : !Heap H}.
Implicit Types s : ip H tcps.

(** Where byte [i] of the options is. *)
Definition opt_addr (o : tcp_opts) (i : Z) : Z :=
  if (tcphdr_opt2 o =? NULL) || (i <? tcphdr_opt1len o) then tcphdr o + TCP_HLEN + i else tcphdr_opt2 o + (i - tcphdr_opt1len o).

Section State.
Context (s0 : ip H tcps) (pcb : Z) (k : pcb_common) (c : conn).

(** The states of the parser: the index and the segment size change. *)
Definition at_opt (i m : Z) : ip H tcps :=
  let t := i_upper s0 in
  mk_ip (i_arp s0) (netif_list s0) (netif_default s0) (ip_id s0) (ip_data s0)
    (with_optidx i (set_pcbs (<[pcb := mk_pcb k (Conn (with_mss m c))]> (pcbs t)) t)).

Let o := t_opts (i_upper s0).

(** The next byte is that at the index, if it can be read. *)
Lemma next_optbyte_at i m : 0 <= i <= 60 -> 0 <= tcphdr_opt1len o ->
  tcp_get_next_optbyte (at_opt i m) =
    match n_mem (snet s0) !! opt_addr o i with Some x => Ok (x, at_opt (i + 1) m) | None => Fault end.
Proof.
  intros Hi H1. unfold tcp_get_next_optbyte. rewrite (bind_ok (on_tcp (gets t_opts)) _ _ (t_opts (i_upper (at_opt i m))) (at_opt i m)) by done.
  cbv zeta. cbn [t_opts i_upper at_opt with_optidx tcp_optidx tcphdr_opt2 tcphdr_opt1len tcphdr tcphdr_optlen]. fold o.
  rewrite (bind_ok (on_tcp (modify _)) _ _ tt (at_opt (i + 1) m)).
  2:{ unfold on_tcp, modify, at_opt, with_optidx. cbn. by rewrite u16_small by (unfold is_u16; lia). }
  assert (forall a, nb (read_byte a) (at_opt (i + 1) m) =
    match n_mem (snet s0) !! a with Some x => Ok (x, at_opt (i + 1) m) | None => Fault end) as Hr.
  { intros a. destruct (n_mem (snet s0) !! a) as [x|] eqn:E.
    - rewrite (nb_ok (read_byte a) _ x (snet (at_opt (i + 1) m))); [by rewrite set_snet_id|].
      unfold read_byte, deref. change (n_mem (snet (at_opt _ _))) with (n_mem (snet s0)). by rewrite E.
    - unfold nb, on_arp, pb, on_link, in_net, on_eth, on_net, read_byte, deref. change (n_mem (snet s0)) with (n_mem (e_net (l_eth (a_link (i_arp s0))))) in E.
      cbn. by rewrite E. }
  unfold opt_addr. cbn [set_pcbs t_opts]. fold o. destruct (_ || _) eqn:Ec; [apply Hr|].
  apply orb_false_iff in Ec as [_ Ec%Z.ltb_ge]. rewrite u8_small by (unfold is_u8; lia). apply Hr.
Qed.

Context (l : list Z) (nxt : Z).
Hypothesis (Hlen : tcphdr_optlen o = Z.of_nat (length l)) (Hl : (length l <= 40)%nat) (H1 : 0 <= tcphdr_opt1len o).
Hypothesis (Hb : forall i x, l !! i = Some x -> is_u8 x /\ n_mem (snet s0) !! opt_addr o (Z.of_nat i) = Some x).
Hypothesis (Hn : is_u8 nxt /\ n_mem (snet s0) !! opt_addr o (Z.of_nat (length l)) = Some nxt).

Lemma next_optbyte_ok i m : (i <= length l)%nat ->
  tcp_get_next_optbyte (at_opt (Z.of_nat i) m) = Ok (default nxt (l !! i), at_opt (Z.of_nat (S i)) m).
Proof.
  intros Hi. rewrite next_optbyte_at by lia.
  assert (n_mem (snet s0) !! opt_addr o (Z.of_nat i) = Some (default nxt (l !! i))) as ->.
  { destruct (l !! i) as [x|] eqn:Ex; [by apply Hb|]. apply lookup_ge_None in Ex. assert (i = length l) as -> by lia. apply Hn. }
  do 3 f_equal. lia.
Qed.

Lemma set_mss_ok i m x : on_tcp (upd_conn pcb (with_mss x)) (at_opt i m) = Ok (tt, at_opt i x).
Proof.
  unfold on_tcp, upd_conn, at_opt. cbn. rewrite lookup_insert_eq. unfold set_pcbs, with_optidx. cbn. by rewrite insert_insert_eq.
Qed.

Lemma optidx_ok i m : on_tcp (gets (fun t => tcp_optidx (t_opts t))) (at_opt i m) = Ok (i, at_opt i m).
Proof. done. Qed.

Lemma mss_bytes hi lo : is_u8 hi -> is_u8 lo -> u16 (u16 (hi <<c 8) |c lo) = 256 * hi + lo.
Proof.
  unfold is_u8. intros Hh Ho. rewrite Z.shiftl_mul_pow2 by lia. rewrite (u16_small (hi * 2 ^ 8)) by (unfold is_u16; lia).
  change (2 ^ 8) with 256. rewrite (lor_add _ _ 8) by (change (2 ^ 8) with 256; lia). rewrite u16_small by (unfold is_u16; lia). lia.
Qed.

Lemma byte_u8 i : is_u8 (default nxt (l !! i)).
Proof. destruct (l !! i) as [x|] eqn:Ex; [by apply (Hb i x)|apply Hn]. Qed.

Lemma parse_loop_ok fuel : forall i m, (length l < fuel + i)%nat -> (0 < fuel)%nat ->
  exists i', parse_loop fuel pcb (at_opt (Z.of_nat i) m) = Ok (tt, at_opt i' (options_mss 0 (drop i l) m)).
Proof.
  induction fuel as [|fuel IH]; intros i m Hf H0; [lia|]. cbn [parse_loop].
  rewrite (bind_ok (on_tcp (gets t_opts)) _ _ (t_opts (i_upper (at_opt (Z.of_nat i) m))) (at_opt (Z.of_nat i) m)) by done.
  change (tcp_optidx (t_opts (i_upper (at_opt (Z.of_nat i) m)))) with (Z.of_nat i).
  change (tcphdr_optlen (t_opts (i_upper (at_opt (Z.of_nat i) m)))) with (tcphdr_optlen o). rewrite Hlen.
  destruct (Z.ltb_spec (Z.of_nat i) (Z.of_nat (length l))) as [Hi|Hi]; cbn [negb].
  2:{ exists (Z.of_nat i). rewrite drop_ge by lia. done. }
  destruct (lookup_lt_is_Some_2 l i ltac:(lia)) as [x Ex]. rewrite (drop_S l x i Ex). cbn [options_mss].
  rewrite (bind_ok _ _ _ _ _ (next_optbyte_ok i m ltac:(lia))), Ex. cbn [default from_option id]. unfold LWIP_TCP_OPT_EOL, LWIP_TCP_OPT_NOP, LWIP_TCP_OPT_MSS.
  destruct (x =? 0); [eexists; reflexivity|]. destruct (x =? 1); [apply IH; lia|].
  destruct (x =? 2).
  - rewrite (bind_ok _ _ _ _ _ (next_optbyte_ok (S i) m ltac:(lia))), (bind_ok _ _ _ _ _ (optidx_ok _ _)). unfold LWIP_TCP_OPT_LEN_MSS.
    destruct (Z.ltb_spec (Z.of_nat (length l)) (Z.of_nat (S (S i)) - 2 + 4)) as [Hs|Hs].
    { rewrite orb_true_r. eexists. apply (f_equal Ok), (f_equal (pair tt)), (f_equal (at_opt _)). pose proof (length_drop l (S i)) as Hd.
      destruct (drop (S i) l) as [|n [|hi [|lo l']]]; [done..|]. simpl in Hd. lia. }
    destruct (lookup_lt_is_Some_2 l (S i) ltac:(lia)) as [n En]. destruct (lookup_lt_is_Some_2 l (S (S i)) ltac:(lia)) as [hi Ehi].
    destruct (lookup_lt_is_Some_2 l (S (S (S i))) ltac:(lia)) as [lo Elo].
    rewrite En, (drop_S l n (S i) En), (drop_S l hi _ Ehi), (drop_S l lo _ Elo). cbn [default from_option id]. rewrite orb_false_r.
    destruct (n =? 4); cbn [negb]; [|eexists; reflexivity].
    rewrite (bind_ok _ _ _ _ _ (next_optbyte_ok (S (S i)) m ltac:(lia))), (bind_ok _ _ _ _ _ (next_optbyte_ok (S (S (S i))) m ltac:(lia))).
    rewrite Ehi, Elo. cbn [default from_option id options_mss]. rewrite mss_bytes by (by eapply Hb). cbv zeta. fold (clamp_mss (256 * hi + lo)).
    rewrite (bind_ok _ _ _ _ _ (set_mss_ok _ _ _)). apply IH; lia.
  - rewrite (bind_ok _ _ _ _ _ (next_optbyte_ok (S i) m ltac:(lia))). set (n := default nxt (l !! S i)).
    assert (is_u8 n) as Hu by apply byte_u8. unfold is_u8 in Hu.
    destruct (Z.ltb_spec n 2) as [H2|H2].
    { eexists. apply (f_equal Ok), (f_equal (pair tt)), (f_equal (at_opt _)). destruct (l !! S i) as [n'|] eqn:En; [|by rewrite drop_ge by (by apply lookup_ge_None in En)].
      rewrite (drop_S l n' (S i) En). unfold n in H2. rewrite ?En in H2. cbn in H2. by rewrite (proj2 (Z.ltb_lt n' 2) H2). }
    rewrite (bind_ok _ _ _ _ _ (optidx_ok _ _)).
    rewrite (bind_ok (on_tcp (modify _)) _ _ tt (at_opt (Z.of_nat (i + Z.to_nat n)) m)).
    2:{ unfold on_tcp, modify, at_opt, with_optidx. cbn. rewrite u16_small by (unfold is_u16; lia). do 5 f_equal. lia. }
    destruct (IH (i + Z.to_nat n)%nat m) as [i' ->]; [lia|lia|]. exists i'. do 3 f_equal.
    destruct (l !! S i) as [n'|] eqn:En.
    2:{ apply lookup_ge_None in En. rewrite !drop_ge by lia. done. }
    rewrite (drop_S l n' (S i) En). subst n. rewrite ?En in *. cbn [default from_option id] in *. cbn in H2. rewrite (proj2 (Z.ltb_ge n' 2) H2).
    rewrite (options_skip _ (Z.to_nat (n' - 1))), <- (drop_S l n' (S i) En), drop_drop. apply (f_equal (fun k => options_mss 0 (drop k l) m)). lia.
Qed.
End State.

(** The options of the segment are the bytes [l]. *)
Definition opts_are s (l : list Z) : Prop :=
  let o := t_opts (i_upper s) in
  tcphdr_optlen o = Z.of_nat (length l) /\ (length l <= 40)%nat /\ 0 <= tcphdr_opt1len o /\
  forall i x, l !! i = Some x -> is_u8 x /\ n_mem (snet s) !! opt_addr o (Z.of_nat i) = Some x.

Lemma options_range l : forall k m, Forall is_u8 l -> 0 < m <= TCP_MSS -> 0 < options_mss k l m <= TCP_MSS.
Proof.
  assert (forall x, 0 <= x -> 0 < clamp_mss x <= TCP_MSS) as Hc.
  { intros x Hx. unfold clamp_mss, TCP_MSS. destruct (Z.ltb_spec 1460 x), (Z.eqb_spec x 0); cbn; lia. }
  induction l as [|x l IH]; intros [|k] m Hl Hm; [done..| |apply IH; [by inversion Hl|done]]. cbn [options_mss].
  apply Forall_cons_iff in Hl as [_ Hl]. destruct (x =? 0); [done|]. destruct (x =? 1); [by apply IH|]. destruct (x =? 2).
  - destruct l as [|n [|hi [|lo l']]]; [done..|]. destruct (n =? 4); [|done]. apply IH; [done|].
    rewrite !Forall_cons_iff in Hl. destruct Hl as (_ & Hh & Ho & _). unfold is_u8 in *. apply Hc. lia.
  - destruct l as [|n l']; [done|]. destruct (n <? 2); [done|]. by apply IH.
Qed.

Lemma at_opt_id s pcb k c : pcbs (i_upper s) !! pcb = Some (mk_pcb k (Conn c)) -> at_opt s pcb k c (tcp_optidx (t_opts (i_upper s))) (mss c) = s.
Proof.
  intros E. unfold at_opt. assert (with_mss (mss c) c = c) as -> by (by destruct c). rewrite insert_id by done.
  by destruct s as [? ? ? ? ? [? ? ? ? ? []]].
Qed.

Lemma parse_start s pcb k c l : pcb <> NULL -> pcbs (i_upper s) !! pcb = Some (mk_pcb k (Conn c)) -> opts_are s l -> l <> [] ->
  tcp_parseopt pcb s = parse_loop (S (length l)) pcb (at_opt s pcb k c 0 (mss c)).
Proof.
  intros Hz E (Hlen & _) Hne. unfold tcp_parseopt. rewrite (bind_ok (assert _) _ _ tt s) by (unfold assert; by rewrite (proj2 (Z.eqb_neq _ _) Hz)).
  rewrite (bind_ok (on_tcp (gets t_opts)) _ _ (t_opts (i_upper s)) s) by (by destruct s).
  assert (tcphdr_optlen (t_opts (i_upper s)) <> 0) as Hn by (rewrite Hlen; destruct l; [done|simpl; lia]).
  rewrite (proj2 (Z.eqb_neq _ _) Hn), Hlen, Nat2Z.id. cbn [negb].
  rewrite (bind_ok (on_tcp (modify _)) _ _ tt (at_opt s pcb k c 0 (mss c))); [done|].
  rewrite <- (at_opt_id s pcb k c E) at 1. done.
Qed.

(** C9: TCP options. [tcp_parseopt] terminates on any options, however they are split
    between two packet buffers, reads at most the byte after them, and leaves as segment
    size what a parser on the list of the bytes computes; nothing else changes, and a
    size between 1 and [TCP_MSS] stays in that range. *)
Theorem tcp_parseopt_mss s (pcb : Z) (k : pcb_common) (c : conn) (l : list Z) (nxt : Z) (Hz : pcb <> NULL)
  (E : pcbs (i_upper s) !! pcb = Some (mk_pcb k (Conn c))) (Ho : opts_are s l)
  (Hn : is_u8 nxt /\ n_mem (snet s) !! opt_addr (t_opts (i_upper s)) (Z.of_nat (length l)) = Some nxt) (Hm : 0 < mss c <= TCP_MSS) :
  exists i, tcp_parseopt pcb s = Ok (tt, at_opt s pcb k c i (options_mss 0 l (mss c))) /\ 0 < options_mss 0 l (mss c) <= TCP_MSS.
Proof.
  pose proof Ho as (Hlen & Hl & H1 & Hb).
  assert (Forall is_u8 l) as Hu by (apply Forall_lookup; intros i x Hx; by apply (Hb i)).
  destruct (decide (l = [])) as [->|Hne].
  - exists (tcp_optidx (t_opts (i_upper s))). split; [|done]. cbn. rewrite at_opt_id by done.
    unfold tcp_parseopt. rewrite (bind_ok (assert _) _ _ tt s) by (unfold assert; by rewrite (proj2 (Z.eqb_neq _ _) Hz)).
    rewrite (bind_ok (on_tcp (gets t_opts)) _ _ (t_opts (i_upper s)) s) by (by destruct s). by rewrite Hlen.
  - rewrite (parse_start s pcb k c l Hz E Ho Hne).
    destruct (parse_loop_ok s pcb k c l nxt Hlen Hl H1 Hb Hn (S (length l)) 0 (mss c)) as [i Ei]; [lia|lia|].
    exists i. split; [exact Ei|]. by apply options_range.
Qed.

(** The byte after the options is read if the last one starts an option that has a
    length: if there is no such byte in memory, the access is invalid. *)
Lemma tcp_parseopt_overread s pcb k c j kind : pcb <> NULL -> pcbs (i_upper s) !! pcb = Some (mk_pcb k (Conn c)) ->
  opts_are s (replicate j 1 ++ [kind]) -> 2 <= kind ->
  n_mem (snet s) !! opt_addr (t_opts (i_upper s)) (Z.of_nat (S j)) = None -> tcp_parseopt pcb s = Fault.
Proof.
  intros Hz E Ho Hk Hx. rewrite (parse_start s pcb k c _ Hz E Ho) by (by destruct j). destruct Ho as (Hlen & Hl & H1 & Hb).
  rewrite length_app, length_replicate in *. cbn [length] in *.
  set (l := replicate j 1 ++ [kind]) in *. set (o := t_opts (i_upper s)) in *.
  assert (forall i fuel, (i <= j)%nat -> (j - i < fuel)%nat -> parse_loop fuel pcb (at_opt s pcb k c (Z.of_nat i) (mss c)) = Fault) as Hgo.
  2:{ apply (Hgo 0%nat); lia. }
  intros i fuel. revert i. induction fuel as [|fuel IH]; intros i Hi Hf; [lia|]. cbn [parse_loop].
  rewrite (bind_ok (on_tcp (gets t_opts)) _ _ (t_opts (i_upper (at_opt s pcb k c (Z.of_nat i) (mss c)))) (at_opt s pcb k c (Z.of_nat i) (mss c))) by done.
  change (tcp_optidx (t_opts (i_upper (at_opt s pcb k c (Z.of_nat i) (mss c))))) with (Z.of_nat i).
  change (tcphdr_optlen (t_opts (i_upper (at_opt s pcb k c (Z.of_nat i) (mss c))))) with (tcphdr_optlen o). rewrite Hlen.
  rewrite (proj2 (Z.ltb_lt _ _)) by lia. cbn [negb].
  pose proof (next_optbyte_at s pcb k c (Z.of_nat i) (mss c) ltac:(lia) H1) as Eb. fold o in Eb.
  destruct (decide (i = j)) as [->|Hij].
  - destruct (Hb j kind) as [_ Em]; [unfold l; by rewrite lookup_app_r, length_replicate, Nat.sub_diag by (rewrite length_replicate; lia)|].
    rewrite Em in Eb. rewrite (bind_ok _ _ _ _ _ Eb). unfold LWIP_TCP_OPT_EOL, LWIP_TCP_OPT_NOP, LWIP_TCP_OPT_MSS.
    pose proof (next_optbyte_at s pcb k c (Z.of_nat j + 1) (mss c) ltac:(lia) H1) as Ef. fold o in Ef.
    replace (Z.of_nat j + 1) with (Z.of_nat (S j)) in * by lia. rewrite Hx in Ef.
    destruct (Z.eqb_spec kind 0); [lia|]. destruct (Z.eqb_spec kind 1); [lia|]. destruct (kind =? 2); unfold mbind, M_bind; by rewrite Ef.
  - destruct (Hb i 1) as [_ Em]; [unfold l; rewrite lookup_app_l by (rewrite length_replicate; lia); by apply lookup_replicate_2; lia|].
    rewrite Em in Eb. rewrite (bind_ok _ _ _ _ _ Eb). cbn [Z.eqb]. replace (Z.of_nat i + 1) with (Z.of_nat (S i)) by lia. apply IH; lia.
Qed.
End Parse.
