(* ===== verification/TcpWndSpec.v ===== *)
(** * The receive window of a connection

    The window on sequence numbers modulo 2^32 implements a window on unbounded stream
    positions: what was announced stays announced, and never more than the buffer that
    is free is announced. *)

From S2P Require Import Prelude Chksum Memp Pbuf PbufSpec PbufData PbufRefs Ethernetif Ip4Addr Ethernet Etharp Ip4 TcpApi Tcp.
From stdpp Require Import base numbers list gmap gmultiset functions sorting.
Open Scope Z_scope.
Open Scope c_scope.

(** ** The window on stream positions *)

(** The next position expected, the free buffer, the window to announce, and the right
    edge that was announced last. *)
Record window := mk_window { w_nxt : Z; w_wnd : Z; w_ann : Z; w_edge : Z }.

Inductive wnd_op := wop_accept (n : Z) | wop_read (n : Z) | wop_announce.

(** Announce all that is free if it is worth it, else keep the right edge. *)
Definition w_update (m : Z) (w : window) : window :=
  mk_window (w_nxt w) (w_wnd w)
    (if w_edge w + Z.min (TCP_WND / 2) m <=? w_nxt w + w_wnd w then w_wnd w else Z.max 0 (w_edge w - w_nxt w)) (w_edge w).

Definition w_step (m : Z) (op : wnd_op) (w : window) : window :=
  match op with
  | wop_accept n => w_update m (mk_window (w_nxt w + n) (w_wnd w - n) (w_ann w) (w_edge w))
  | wop_read n => w_update m (mk_window (w_nxt w) (Z.min TCP_WND (w_wnd w + n)) (w_ann w) (w_edge w))
  | wop_announce => mk_window (w_nxt w) (w_wnd w) (w_ann w) (w_nxt w + w_ann w)
  end.

Definition w_ok (w : window) : Prop :=
  0 <= w_wnd w <= TCP_WND /\ 0 <= w_ann w <= w_wnd w /\ w_edge w <= w_nxt w + w_ann w /\ w_nxt w + w_wnd w - w_edge w < 2147483648.

(** A segment that is taken in lies within the window; the application reads less than
    2^31 bytes between two announcements. *)
Definition w_pre (op : wnd_op) (w : window) : Prop :=
  match op with
  | wop_accept n => 0 <= n <= w_wnd w
  | wop_read n => is_u16 n /\ w_nxt w + w_wnd w + n - w_edge w < 2147483648
  | wop_announce => True
  end.

Lemma w_step_ok m op w : w_ok w -> w_pre op w -> 0 < m <= TCP_MSS -> w_ok (w_step m op w).
Proof.
  unfold w_ok, w_step, w_update, w_pre, is_u16. change (TCP_WND / 2) with 2920. change TCP_WND with 5840. change TCP_MSS with 1460.
  intros Hw Hp Hm. destruct op as [n|n|]; cbn [w_nxt w_wnd w_ann w_edge]; [| |lia].
  - destruct (Z.leb_spec (w_edge w + Z.min 2920 m) (w_nxt w + n + (w_wnd w - n))); lia.
  - destruct (Z.leb_spec (w_edge w + Z.min 2920 m) (w_nxt w + Z.min 5840 (w_wnd w + n))); lia.
Qed.

(** ** The connection *)

Definition wnd_rel (w : window) (c : conn) : Prop :=
  rcv_nxt (c_rcv c) = u32 (w_nxt w) /\ rcv_wnd (c_rcv c) = w_wnd w /\ rcv_ann_wnd (c_rcv c) = w_ann w /\
  rcv_ann_right_edge (c_rcv c) = u32 (w_edge w).

(** Comparisons of close positions are those of the integers. *)
Lemma s32_diff a b : -2147483648 <= a - b < 2147483648 -> s32 (u32 (u32 a) - u32 (u32 b)) = a - b.
Proof. intros Hd. unfold s32, u32. destruct (Z.ltb_spec (((a mod 4294967296) mod 4294967296 - (b mod 4294967296) mod 4294967296) mod 4294967296) 2147483648); lia. Qed.

Section Conn.
Context (pcb : Z) (k : pcb_common) (Hz : pcb <> NULL).
Implicit Types t : tcps.

Definition set_conn (c : conn) t : tcps := set_pcbs (<[pcb := mk_pcb k (Conn c)]> (pcbs t)) t.
Definition has_conn t (c : conn) : Prop := pcbs t !! pcb = Some (mk_pcb k (Conn c)).

Lemma set_conn_has c t : has_conn (set_conn c t) c.
Proof. apply lookup_insert_eq. Qed.
Lemma set_conn_twice c c' t : set_conn c' (set_conn c t) = set_conn c' t.
Proof. unfold set_conn, set_pcbs. cbn. by rewrite insert_insert_eq. Qed.
Lemma get_conn_ok t c : has_conn t c -> get_conn pcb t = Ok (c, t).
Proof. unfold has_conn, get_conn. by intros ->. Qed.
Lemma upd_conn_ok t c f : has_conn t c -> upd_conn pcb f t = Ok (tt, set_conn (f c) t).
Proof. unfold has_conn, upd_conn. by intros ->. Qed.

(** The announced window after a change of the others. *)
Lemma ann_wnd_ok t c w : has_conn t c -> wnd_rel w c -> 0 <= w_wnd w <= TCP_WND -> w_edge w <= w_nxt w + w_wnd w ->
  w_nxt w + w_wnd w - w_edge w < 2147483648 -> 0 < mss c <= TCP_MSS ->
  exists r c', tcp_update_rcv_ann_wnd pcb t = Ok (r, set_conn c' t) /\ wnd_rel (w_update (mss c) w) c' /\ mss c' = mss c /\ 0 <= r.
Proof.
  intros E (En & Ew & Ea & Ee) Hw He Hg Hm. unfold tcp_update_rcv_ann_wnd.
  rewrite (bind_ok (assert _) _ _ tt t) by (unfold assert; by rewrite (proj2 (Z.eqb_neq _ _) Hz)).
  rewrite (bind_ok _ _ _ _ _ (get_conn_ok t c E)). cbv zeta. rewrite En, Ew, Ee. unfold w_update. change (TCP_WND / 2) with 2920 in *. change TCP_WND with 5840 in *. change TCP_MSS with 1460 in *.
  set (x := Z.min 2920 (mss c)). assert (0 < x <= 1460) as Hx by lia.
  assert (TCP_SEQ_GEQ (u32 (u32 (w_nxt w) + w_wnd w)) (u32 (w_edge w) + x) = (w_edge w + x <=? w_nxt w + w_wnd w)) as ->.
  { unfold TCP_SEQ_GEQ. assert (s32 (u32 (u32 (u32 (w_nxt w) + w_wnd w)) - u32 (u32 (w_edge w) + x)) = w_nxt w + w_wnd w - (w_edge w + x)) as ->.
    - rewrite <- (s32_diff (w_nxt w + w_wnd w) (w_edge w + x)) by lia. f_equal. unfold u32. lia.
    - destruct (Z.leb_spec 0 (w_nxt w + w_wnd w - (w_edge w + x))), (Z.leb_spec (w_edge w + x) (w_nxt w + w_wnd w)); lia. }
  assert (TCP_SEQ_GT (u32 (w_nxt w)) (u32 (w_edge w)) = (w_edge w <? w_nxt w)) as ->.
  { unfold TCP_SEQ_GT. rewrite s32_diff by lia. destruct (Z.ltb_spec 0 (w_nxt w - w_edge w)), (Z.ltb_spec (w_edge w) (w_nxt w)); lia. }
  destruct (w_edge w + x <=? w_nxt w + w_wnd w) eqn:E1.
  - rewrite (bind_ok _ _ _ _ _ (upd_conn_ok t c _ E)). eexists _, _. split; [reflexivity|]. cbn. split_and!; try done. unfold u32. lia.
  - destruct (Z.ltb_spec (w_edge w) (w_nxt w)) as [E2|E2].
    + rewrite (bind_ok _ _ _ _ _ (upd_conn_ok t c _ E)). eexists _, _. split; [reflexivity|]. cbn. split_and!; try done. split_and!; try done. cbn. lia.
    + assert (u32 (u32 (w_edge w) - u32 (w_nxt w)) = w_edge w - w_nxt w) as -> by (unfold u32; lia).
      rewrite (bind_ok (assert _) _ _ tt t) by (unfold assert; by rewrite (proj2 (Z.leb_le _ _)) by lia).
      rewrite (bind_ok _ _ _ _ _ (upd_conn_ok t c _ E)). eexists _, _. split; [reflexivity|]. cbn. split_and!; try done. split_and!; try done.
      cbn. rewrite u16_small by (unfold is_u16; lia). lia.
Qed.

(** ** Refinement *)

(** What [tcp_receive], the application through [tcp_recved], and transmission do. *)
Definition run_wnd (op : wnd_op) : M tcps unit :=
  match op with
  | wop_accept n => c ← get_conn pcb; advance_rcv pcb (rcv_nxt (c_rcv c)) n
  | wop_read n => open_window pcb n;; mret tt
  | wop_announce => announce pcb;; mret tt
  end.
Fixpoint run_wnds (ops : list wnd_op) : M tcps unit :=
  match ops with [] => mret tt | op :: ops' => run_wnd op;; run_wnds ops' end.

Fixpoint w_steps (m : Z) (ops : list wnd_op) (w : window) : window :=
  match ops with [] => w | op :: ops' => w_steps m ops' (w_step m op w) end.
Fixpoint w_pres (m : Z) (ops : list wnd_op) (w : window) : Prop :=
  match ops with [] => True | op :: ops' => w_pre op w /\ w_pres m ops' (w_step m op w) end.

Context (Hk : pcb_state k <> LISTEN).

Lemma advance_ok t c w n : has_conn t c -> wnd_rel w c -> w_ok w -> 0 <= n <= w_wnd w -> 0 < mss c <= TCP_MSS ->
  exists c', advance_rcv pcb (rcv_nxt (c_rcv c)) n t = Ok (tt, set_conn c' t) /\ wnd_rel (w_step (mss c) (wop_accept n) w) c' /\ mss c' = mss c.
Proof.
  intros E (En & Ew & Ea & Ee) (Hw & Ha & He & Hg) Hp Hm. unfold advance_rcv. rewrite (bind_ok _ _ _ _ _ (get_conn_ok t c E)).
  rewrite (bind_ok (assert _) _ _ tt t) by (unfold assert; by rewrite (proj2 (Z.leb_le _ _)) by lia).
  rewrite (bind_ok _ _ _ _ _ (upd_conn_ok t c _ E)). set (c1 := with_rcv _ c).
  assert (wnd_rel (mk_window (w_nxt w + n) (w_wnd w - n) (w_ann w) (w_edge w)) c1) as Hr1.
  { unfold wnd_rel, c1. cbn. rewrite En, Ew, Ea, Ee. change TCP_WND with 5840 in Hw.
    split_and!; try done; [unfold u32; lia|apply u16_small; unfold is_u16; lia]. }
  destruct (ann_wnd_ok _ c1 _ (set_conn_has c1 t) Hr1) as (r & c2 & E2 & Hr2 & Hm2 & _); [cbn; lia..|exact Hm|].
  rewrite (bind_ok _ _ _ _ _ E2). exists c2. rewrite set_conn_twice. done.
Qed.

Lemma open_window_ok t c w n : has_conn t c -> wnd_rel w c -> w_ok w -> w_pre (wop_read n) w -> 0 < mss c <= TCP_MSS ->
  exists b c', open_window pcb n t = Ok (b, set_conn c' t) /\ wnd_rel (w_step (mss c) (wop_read n) w) c' /\ mss c' = mss c.
Proof.
  intros E (En & Ew & Ea & Ee) (Hw & Ha & He & Hg) Hp Hm. unfold w_pre, is_u16 in Hp. unfold open_window.
  assert (get_pcb pcb t = Ok (mk_pcb k (Conn c), t)) as Eg by (unfold get_pcb; by rewrite E).
  rewrite (bind_ok _ _ _ _ _ Eg). rewrite (bind_ok (assert _) _ _ tt t) by (unfold assert; by rewrite bool_decide_true).
  rewrite (bind_ok _ _ _ _ _ (get_conn_ok t c E)). cbv zeta. rewrite Ew.
  set (y := Z.min TCP_WND (w_wnd w + n)).
  assert ((if (TCP_WND <? u16 (w_wnd w + n)) || (u16 (w_wnd w + n) <? w_wnd w) then TCP_WND else u16 (w_wnd w + n)) = y) as Ey.
  { unfold y, u16. change TCP_WND with 5840 in *. destruct (Z.ltb_spec 5840 ((w_wnd w + n) mod 65536)), (Z.ltb_spec ((w_wnd w + n) mod 65536) (w_wnd w)); cbn; lia. }
  set (f := fun c0 : conn => with_rcv (mk_rcv (rcv_nxt (c_rcv c0)) y (rcv_ann_wnd (c_rcv c0)) (rcv_ann_right_edge (c_rcv c0))) c0).
  rewrite (bind_ok _ _ t tt (set_conn (f c) t)).
  2:{ rewrite <- (upd_conn_ok t c f E). unfold f. rewrite <- Ey. by destruct (_ || _). }
  assert (wnd_rel (mk_window (w_nxt w) y (w_ann w) (w_edge w)) (f c)) as Hr1 by (unfold wnd_rel, f; cbn; by rewrite En, Ea, Ee).
  destruct (ann_wnd_ok _ (f c) _ (set_conn_has (f c) t) Hr1) as (r & c2 & E2 & Hr2 & Hm2 & _); [cbn; lia..|exact Hm|].
  rewrite set_conn_twice in E2. rewrite (bind_ok _ _ _ _ _ E2). destruct (_ <=? _).
  - rewrite (bind_ok _ _ _ _ _ (upd_conn_ok _ c2 _ (set_conn_has c2 t))), set_conn_twice. by eexists _, _.
  - by eexists _, _.
Qed.

Lemma run_wnd_ok op t c w : has_conn t c -> wnd_rel w c -> w_ok w -> w_pre op w -> 0 < mss c <= TCP_MSS ->
  exists c', run_wnd op t = Ok (tt, set_conn c' t) /\ wnd_rel (w_step (mss c) op w) c' /\ mss c' = mss c.
Proof.
  intros E Hr Hw Hp Hm. destruct op as [n|n|]; cbn [run_wnd].
  - rewrite (bind_ok _ _ _ _ _ (get_conn_ok t c E)). by eapply advance_ok.
  - destruct (open_window_ok t c w n E Hr Hw Hp Hm) as (b & c' & E' & Hc). exists c'. by rewrite (bind_ok _ _ _ _ _ E').
  - set (c' := with_rcv (mk_rcv (rcv_nxt (c_rcv c)) (rcv_wnd (c_rcv c)) (rcv_ann_wnd (c_rcv c)) (u32 (rcv_nxt (c_rcv c) + rcv_ann_wnd (c_rcv c)))) c).
    assert (announce pcb t = Ok (rcv_ann_wnd (c_rcv c), set_conn c' t)) as E'.
    { unfold announce. rewrite (bind_ok _ _ _ _ _ (get_conn_ok t c E)). by rewrite (bind_ok _ _ _ _ _ (upd_conn_ok t c _ E)). }
    exists c'. rewrite (bind_ok _ _ _ _ _ E'). split; [done|]. split; [|done]. destruct Hr as (En & Ew & Ea & Ee).
    unfold wnd_rel, c'. cbn. rewrite En, Ew, Ea. split_and!; try done. unfold u32. lia.
Qed.

(** C8: the receive window keeps its promises. Any sequence of accepted segments, reads
    of the application and announcements runs without a failed assertion, the window on
    32-bit sequence numbers is that on stream positions, never more than the free buffer
    and never more than [TCP_WND] is announced, and the right edge that the peer was
    told never moves back. *)
Theorem window_refines (ops : list wnd_op) t (c : conn) (w : window) (E : has_conn t c) (Hr : wnd_rel w c) (Hw : w_ok w)
  (Hm : 0 < mss c <= TCP_MSS) (Hp : w_pres (mss c) ops w) :
  exists c', run_wnds ops t = Ok (tt, set_conn c' t) /\ wnd_rel (w_steps (mss c) ops w) c' /\
    rcv_ann_wnd (c_rcv c') <= rcv_wnd (c_rcv c') <= TCP_WND /\ w_edge w <= w_edge (w_steps (mss c) ops w).
Proof.
  revert t c w E Hr Hw Hm Hp. induction ops as [|op ops IH]; intros t c w E Hr Hw Hm Hp; cbn [run_wnds w_steps] in *.
  - exists c. split; [unfold set_conn; by rewrite insert_id; [destruct t|]|]. split; [exact Hr|]. destruct Hr as (_ & -> & -> & _). unfold w_ok in Hw. lia.
  - destruct Hp as [Hp Hps]. destruct (run_wnd_ok op t c w E Hr Hw Hp Hm) as (c1 & E1 & Hr1 & Hm1). rewrite (bind_ok _ _ _ _ _ E1).
    pose proof (w_step_ok (mss c) op w Hw Hp Hm) as Hw1. rewrite <- Hm1 in Hps, Hr1, Hw1 |- *.
    destruct (IH (set_conn c1 t) c1 (w_step (mss c1) op w) (set_conn_has c1 t) Hr1 Hw1) as (c' & E' & Hr' & Hb & He); [by rewrite Hm1|done|].
    rewrite set_conn_twice in E'. exists c'. split_and!; try done; try apply Hb. etransitivity; [|exact He].
    destruct op; cbn; try lia. unfold w_ok in Hw. lia.
Qed.
End Conn.
