(* ===== verification/TcpSpec.v ===== *)
(** * Properties of the control blocks: lists and ports

    The four lists of tcp.c stay well formed, a port that [tcp_bind] gives out is free,
    and what happens when a control block is bound twice. *)

From S2P Require Import Prelude Chksum Memp Pbuf PbufSpec PbufData PbufRefs Ethernetif Ip4Addr Ethernet Etharp EtharpSpec Ip4 Ip4Spec TcpApi Tcp.
From stdpp Require Import base numbers list gmap gmultiset functions sorting.
Open Scope Z_scope.
Open Scope c_scope.

(** ** Linked lists of control blocks *)

Fixpoint pcb_chain (g : gmap Z tcp_pcb) (h : Z) (l : list Z) : Prop :=
  match l with
  | [] => h = NULL
  | a :: l' => h = a /\ a <> NULL /\ exists p, g !! a = Some p /\ pcb_chain g (pcb_next (com p)) l'
  end.

Lemma chain_live g h l a : pcb_chain g h l -> a ∈ l -> a <> NULL /\ is_Some (g !! a).
Proof.
  revert h. induction l as [|b l IH]; intros h; [by intros _ ?%elem_of_nil|]. intros (-> & Hz & p & E & Hc) [->|Ha]%elem_of_cons; [by eauto|by eapply IH].
Qed.

(** Blocks outside of the list, and members that the list does not use. *)
Lemma chain_other g h l a p : a ∉ l -> pcb_chain g h l -> pcb_chain (<[a := p]> g) h l.
Proof.
  revert h. induction l as [|b l IH]; intros h; [done|]. intros [Hab Hni]%not_elem_of_cons (-> & Hz & q & E & Hc).
  split_and!; [done..|]. exists q. rewrite lookup_insert_ne by done. split; [done|]. by apply IH.
Qed.
Lemma chain_field g h l a p p' : g !! a = Some p -> pcb_next (com p') = pcb_next (com p) -> pcb_chain g h l -> pcb_chain (<[a := p']> g) h l.
Proof.
  intros Ea En. revert h. induction l as [|b l IH]; intros h; [done|]. intros (-> & Hz & q & E & Hc). split_and!; [done..|].
  destruct (decide (a = b)) as [->|Hab].
  - exists p'. rewrite lookup_insert_eq. split; [done|]. rewrite En. rewrite Ea in E. injection E as <-. by apply IH.
  - exists q. rewrite lookup_insert_ne by done. split; [done|]. by apply IH.
Qed.
Lemma chain_same g g' h l : (forall a, a ∈ l -> g' !! a = g !! a) -> pcb_chain g h l -> pcb_chain g' h l.
Proof.
  revert h. induction l as [|b l IH]; intros h Hg; [done|]. intros (-> & Hz & q & E & Hc). split_and!; [done..|].
  exists q. rewrite Hg by left. split; [done|]. apply IH; [|done]. intros a Ha. apply Hg. by right.
Qed.
Lemma chain_delete g h l a : a ∉ l -> pcb_chain g h l -> pcb_chain (delete a g) h l.
Proof.
  revert h. induction l as [|b l IH]; intros h; [done|]. intros [Hab Hni]%not_elem_of_cons (-> & Hz & q & E & Hc).
  split_and!; [done..|]. exists q. rewrite lookup_delete_ne by done. split; [done|]. by apply IH.
Qed.

Lemma chain_size g h l : NoDup l -> pcb_chain g h l -> (length l <= base.size g)%nat.
Proof.
  intros Hnd Hc. rewrite <- size_dom. rewrite <- (size_list_to_set (C := gset Z) l Hnd). apply subseteq_size.
  intros a Ha%elem_of_list_to_set. apply elem_of_dom. by apply (chain_live g h l a).
Qed.

(** ** Searching *)

Definition hit (g : gmap Z tcp_pcb) (test : pcb_common -> bool) (a : Z) : bool := match g !! a with Some p => test (com p) | None => false end.

Lemma search_loop_ok test l : forall fuel t h, pcb_chain (pcbs t) h l -> (length l < fuel)%nat ->
  search_loop fuel test h t = Ok (existsb (hit (pcbs t) test) l, t).
Proof.
  induction l as [|a l IH]; intros [|fuel] t h Hc Hf; try (simpl in Hf; lia); cbn [search_loop].
  - by rewrite Hc.
  - destruct Hc as (-> & Hz & p & E & Hc). rewrite (proj2 (Z.eqb_neq _ _) Hz). cbn [existsb].
    assert (get_pcb a t = Ok (p, t)) as Eg by (unfold get_pcb; by rewrite E). rewrite (bind_ok _ _ _ _ _ Eg).
    unfold hit at 1. rewrite E. destruct (test (com p)); [done|]. cbn [orb]. apply IH; [done|simpl in Hf; lia].
Qed.

Lemma search_lists_ok test t (f : pcb_list -> list Z) ls : (forall i, i ∈ ls -> pcb_chain (pcbs t) (heads t i) (f i) /\ NoDup (f i)) ->
  search_lists ls test t = Ok (existsb (hit (pcbs t) test) (mjoin (f <$> ls)), t).
Proof.
  induction ls as [|i ls IH]; intros Hl; [done|]. cbn [search_lists fmap list_fmap mjoin list_join].
  destruct (Hl i) as [Hc Hnd]; [left|]. rewrite (bind_ok (gets _) _ _ (heads t i) t) by done. rewrite (bind_ok (gets _) _ _ (pcb_fuel t) t) by done.
  pose proof (chain_size _ _ _ Hnd Hc) as Hs.
  rewrite (bind_ok _ _ _ _ _ (search_loop_ok test (f i) (pcb_fuel t) t (heads t i) Hc ltac:(unfold pcb_fuel; lia))), existsb_app.
  destruct (existsb (hit (pcbs t) test) (f i)); [done|]. apply IH. intros j Hj. apply Hl. by right.
Qed.

(** ** The invariant of the lists *)

(** The states of the blocks of each list. *)
Definition list_state (i : pcb_list) (p : tcp_pcb) : Prop :=
  match i with
  | tcp_listen_pcbs => pcb_state (com p) = LISTEN
  | tcp_bound_pcbs => pcb_state (com p) = CLOSED /\ local_port (com p) <> 0
  | tcp_active_pcbs => pcb_state (com p) <> CLOSED /\ pcb_state (com p) <> LISTEN /\ pcb_state (com p) <> TIME_WAIT
  | tcp_tw_pcbs => pcb_state (com p) = TIME_WAIT
  end.

(** What the comments in tcp_priv.h call the axioms of the lists: each is a list, no
    block is in two places, the blocks of a list are in its states, every block that is
    not closed is in a list, and a closed one is exactly if it has a port. Listeners are
    in the smaller struct. The blocks [X] are on the way into or out of a list. *)
Record listed_but (X : gset Z) (t : tcps) (f : pcb_list -> list Z) : Prop := mk_listed_but {
  pk_chain : forall i, pcb_chain (pcbs t) (heads t i) (f i);
  pk_nodup : NoDup (mjoin (f <$> tcp_pcb_lists));
  pk_state : forall i a p, a ∈ f i -> pcbs t !! a = Some p -> list_state i p;
  pk_out : forall i a, a ∈ X -> a ∉ f i;
  pk_listed : forall a p, pcbs t !! a = Some p -> a ∉ X -> pcb_state (com p) <> CLOSED \/ local_port (com p) <> 0 -> exists i, a ∈ f i;
  pk_kind : forall a p, pcbs t !! a = Some p -> a <> NULL /\ match body p with Listener _ => pcb_state (com p) = LISTEN | Conn _ => pcb_state (com p) <> LISTEN end
}.
Definition pcbs_ok : tcps -> (pcb_list -> list Z) -> Prop := listed_but ∅.

Lemma lists_nodup X t f i : listed_but X t f -> NoDup (f i).
Proof. intros [_ Hn _ _ _ _]. cbn in Hn. rewrite !NoDup_app in Hn. destruct i; tauto. Qed.

Lemma lists_disjoint X t f i j a : listed_but X t f -> a ∈ f i -> a ∈ f j -> i = j.
Proof.
  intros [_ Hn _ _ _ _] Hi Hj. cbn in Hn. rewrite !NoDup_app in Hn. destruct Hn as (_ & H1 & _ & H2 & _ & H3 & _).
  specialize (H1 a). specialize (H2 a). specialize (H3 a). rewrite !not_elem_of_app in H1. rewrite !not_elem_of_app in H2. rewrite !not_elem_of_app in H3.
  destruct i, j; tauto.
Qed.

Lemma search_ok X t f test : listed_but X t f ->
  search_lists tcp_pcb_lists test t = Ok (existsb (hit (pcbs t) test) (mjoin (f <$> tcp_pcb_lists)), t).
Proof. intros Hk. apply search_lists_ok. intros i _. split; [apply Hk|by eapply lists_nodup]. Qed.

(** ** Free ports *)

(** The ports of the blocks in the lists. *)
Definition ports (t : tcps) (f : pcb_list -> list Z) : list Z :=
  omap (fun a => (fun p => local_port (com p)) <$> pcbs t !! a) (mjoin (f <$> tcp_pcb_lists)).

Lemma hit_port t l x : existsb (hit (pcbs t) (fun c => local_port c =? x)) l = bool_decide (x ∈ omap (fun a => (fun p => local_port (com p)) <$> pcbs t !! a) l).
Proof.
  induction l as [|a l IH]; [done|]. cbn [existsb omap list_omap]. rewrite IH. unfold hit at 1. destruct (pcbs t !! a) as [p|]; cbn [fmap option_fmap option_map]; [|done].
  destruct (Z.eqb_spec (local_port (com p)) x) as [->|Hn]; cbn [orb].
  - symmetry. apply bool_decide_true. left.
  - apply bool_decide_ext. rewrite elem_of_cons. naive_solver.
Qed.

Lemma port_used t f x p : pcbs_ok t f -> search_lists tcp_pcb_lists (fun c => local_port c =? x) (set_port p t) = Ok (bool_decide (x ∈ ports t f), set_port p t).
Proof.
  intros [H1 H2 H3 H4 H5 H6]. assert (pcbs_ok (set_port p t) f) as Hk by (by constructor).
  rewrite (search_ok _ _ f _ Hk). by rewrite hit_port.
Qed.

Definition range_port (x : Z) : Prop := 49152 <= x < 65535.
Definition port_after (p : Z) : Z := 49152 + (p - 49152 + 1) mod 16383.

Lemma new_port_round t f fuel n p : pcbs_ok t f -> range_port p -> new_port_loop (S fuel) n (set_port p t) =
  if bool_decide (port_after p ∈ ports t f)
  then (if 16383 <? u16 (n + 1) then mret 0 else new_port_loop fuel (u16 (n + 1))) (set_port (port_after p) t)
  else Ok (port_after p, set_port (port_after p) t).
Proof.
  intros Hk Hp. unfold range_port in Hp. cbn [new_port_loop].
  rewrite (bind_ok (gets tcp_port) _ _ p (set_port p t)) by done.
  rewrite (bind_ok (modify _) _ _ tt (set_port (p + 1) t)) by (unfold modify; cbn; by rewrite u16_small by (unfold is_u16; lia)).
  rewrite (bind_ok (gets tcp_port) _ _ (p + 1) (set_port (p + 1) t)) by done.
  rewrite (bind_ok (if _ =? _ then _ else _) _ _ tt (set_port (port_after p) t)).
  2:{ unfold port_after, TCP_LOCAL_PORT_RANGE_END, TCP_LOCAL_PORT_RANGE_START. destruct (Z.eqb_spec (p + 1) 65535) as [Ep|Ep].
      - replace (p - 49152 + 1) with 16383 by lia. done.
      - rewrite Z.mod_small by lia. replace (49152 + (p - 49152 + 1)) with (p + 1) by lia. done. }
  rewrite (bind_ok (gets tcp_port) _ _ (port_after p) (set_port (port_after p) t)) by done.
  rewrite (bind_ok _ _ _ _ _ (port_used t f (port_after p) (port_after p) Hk)). by destruct (bool_decide _).
Qed.

Lemma port_after_range p : range_port (port_after p).
Proof. unfold range_port, port_after. lia. Qed.

Lemma new_port_run t f (Hk : pcbs_ok t f) i : forall fuel n p, range_port p -> 0 <= n -> n + Z.of_nat i <= 16383 -> (i < fuel)%nat ->
  (forall j, (j < i)%nat -> 49152 + (p - 49152 + 1 + Z.of_nat j) mod 16383 ∈ ports t f) ->
  49152 + (p - 49152 + 1 + Z.of_nat i) mod 16383 ∉ ports t f ->
  let x := 49152 + (p - 49152 + 1 + Z.of_nat i) mod 16383 in new_port_loop fuel n (set_port p t) = Ok (x, set_port x t).
Proof.
  induction i as [|i IH]; intros [|fuel] n p Hp Hn Hni Hf Htk Hfr; try lia; cbv zeta; rewrite (new_port_round t f fuel n p Hk Hp).
  - rewrite Z.add_0_r in *. fold (port_after p) in *. by rewrite bool_decide_false.
  - pose proof (Htk 0%nat ltac:(lia)) as H0. rewrite Z.add_0_r in H0. fold (port_after p) in H0. rewrite bool_decide_true by done.
    rewrite u16_small by (unfold is_u16; lia). rewrite (proj2 (Z.ltb_ge _ _)) by lia.
    assert (forall j : nat, 49152 + (port_after p - 49152 + 1 + Z.of_nat j) mod 16383 = 49152 + (p - 49152 + 1 + Z.of_nat (S j)) mod 16383) as Hj.
    { intros j. unfold port_after. f_equal.
      replace (49152 + (p - 49152 + 1) mod 16383 - 49152 + 1 + Z.of_nat j) with ((p - 49152 + 1) mod 16383 + (1 + Z.of_nat j)) by lia.
      rewrite Zplus_mod_idemp_l. f_equal. lia. }
    rewrite <- Hj. apply (IH fuel (n + 1) (port_after p)); [apply port_after_range|lia|lia|lia|..].
    + intros j Hlt. rewrite Hj. apply Htk. lia.
    + by rewrite Hj.
Qed.

Lemma omap_shorter {A B} (g : A -> option B) (l : list A) : (length (omap g l) <= length l)%nat.
Proof. induction l as [|x l IH]; [done|]. cbn. destruct (g x); cbn; lia. Qed.

Lemma ports_length t f : pcbs_ok t f -> (length (ports t f) <= base.size (pcbs t))%nat.
Proof.
  intros Hk. etransitivity; [unfold ports; apply omap_shorter|]. pose proof (pk_nodup ∅ t f Hk) as Hn.
  rewrite <- size_dom, <- (size_list_to_set (C := gset Z) _ Hn). apply subseteq_size.
  intros a Ha%elem_of_list_to_set. apply elem_of_dom. apply list_elem_of_join in Ha as (l & Hal & (i & -> & _)%list_elem_of_fmap).
  by apply (chain_live _ _ _ a (pk_chain ∅ t f Hk i)).
Qed.

Lemma new_port_ok t f : pcbs_ok t f -> range_port (tcp_port t) -> Z.of_nat (base.size (pcbs t)) < 16383 ->
  exists p, tcp_new_port t = Ok (p, set_port p t) /\ range_port p /\ p ∉ ports t f.
Proof.
  intros Hk Hp Hs. pose proof (ports_length t f Hk) as Hl.
  destruct (free_slot 16383 (tcp_port t - 49152 + 1) ((fun x => x - 49152) <$> ports t f)) as (i & Hi & Hfr & Htk); [rewrite length_fmap; lia|].
  rewrite length_fmap in Hi.
  assert (forall x, x mod 16383 ∈ (fun x => x - 49152) <$> ports t f <-> 49152 + x mod 16383 ∈ ports t f) as Hx.
  { intros x. rewrite list_elem_of_fmap. split.
    - intros (y & Ey & Hy). replace (49152 + x mod 16383) with y by lia. done.
    - intros Hy. exists (49152 + x mod 16383). split; [lia|done]. }
  exists (49152 + (tcp_port t - 49152 + 1 + Z.of_nat i) mod 16383). split_and!.
  - assert (t = set_port (tcp_port t) t) as Et by (by destruct t). unfold tcp_new_port. rewrite Et at 1.
    apply (new_port_run t f Hk i); [done|lia|lia|unfold new_port_fuel; lia| |].
    + intros j Hj. by apply Hx, Htk.
    + by rewrite <- Hx.
  - unfold range_port. lia.
  - by rewrite <- Hx.
Qed.

(** A port outside of the range counts up. *)
Lemma new_port_any t p : (forall i, heads t i = NULL) -> u16 (p + 1) <> 65535 -> tcp_new_port (set_port p t) = Ok (u16 (p + 1), set_port (u16 (p + 1)) t).
Proof.
  intros Hh Hp. unfold tcp_new_port. assert (new_port_fuel = S (Z.to_nat 16383)) as -> by (unfold new_port_fuel; lia). cbn [new_port_loop].
  rewrite (bind_ok (gets tcp_port) _ _ p (set_port p t)), (bind_ok (modify _) _ _ tt (set_port (u16 (p + 1)) t)) by done.
  rewrite (bind_ok (gets tcp_port) _ _ (u16 (p + 1)) (set_port (u16 (p + 1)) t)) by done.
  rewrite (bind_ok (if _ =? _ then _ else _) _ _ tt (set_port (u16 (p + 1)) t)).
  2:{ unfold TCP_LOCAL_PORT_RANGE_END. by rewrite (proj2 (Z.eqb_neq _ _) Hp). }
  rewrite (bind_ok (gets tcp_port) _ _ (u16 (p + 1)) (set_port (u16 (p + 1)) t)) by done.
  rewrite (bind_ok _ _ _ _ _ (search_lists_ok _ (set_port (u16 (p + 1)) t) (fun _ => []) tcp_pcb_lists
    (fun i _ => conj (Hh i : pcb_chain _ (heads (set_port _ t) i) []) (NoDup_nil_2 : NoDup [])))). done.
Qed.

(** C39: the first dynamic port. [tcp_init] seeds the port counter with a random value of
    the whole range including its end, from which the counter wraps to 0: then, with no
    port in use, [tcp_new_port] reports that there is none, and hands out the ports 1,
    2, ... of the system range afterwards. *)
Theorem tcp_new_port_wraps (t : tcps) (rand_value : Z) (Hr : is_u32 rand_value) (Hend : rand_value mod 16384 = 16383) (Hh : forall i, heads t i = NULL) :
  (tcp_init rand_value;; tcp_new_port) t = Ok (0, set_port 0 t) /\ tcp_new_port (set_port 0 t) = Ok (1, set_port 1 t).
Proof.
  assert (TCP_ENSURE_LOCAL_PORT_RANGE rand_value = 65535) as Ep.
  { unfold TCP_ENSURE_LOCAL_PORT_RANGE. change (u16 (Z.lnot TCP_LOCAL_PORT_RANGE_START)) with (Z.ones 14). rewrite Z.land_ones by lia.
    change (2 ^ 14) with 16384. rewrite Hend. done. }
  split; [|by rewrite (new_port_any t 0 Hh)]. unfold tcp_init. rewrite Ep, (bind_ok (modify _) _ _ tt (set_port 65535 t)) by done.
  by rewrite (new_port_any t 65535 Hh).
Qed.

(** ** Steps that keep the lists *)


(** A block that is not linked yet or any more. *)
Lemma new_pcb_ok X t f a p : listed_but X t f -> pcbs t !! a = None -> a <> NULL ->
  (match body p with Listener _ => pcb_state (com p) = LISTEN | Conn _ => pcb_state (com p) <> LISTEN end) ->
  listed_but ({[a]} ∪ X) (set_pcbs (<[a := p]> (pcbs t)) t) f.
Proof.
  intros [H1 H2 H3 H4 H5 H6] En Hz Hb. assert (forall i, a ∉ f i) as Hni.
  { intros i Ha. destruct (chain_live _ _ _ a (H1 i) Ha) as [_ [? E]]. congruence. }
  constructor; cbn [set_pcbs pcbs heads].
  - intros i. by apply chain_other.
  - done.
  - intros i x q Hx E. rewrite lookup_insert_ne in E by (intros ->; by apply (Hni i)). by eapply H3.
  - intros i x [->%elem_of_singleton|Hx]%elem_of_union; [apply Hni|by apply H4].
  - intros x q E [Hxa Hx]%not_elem_of_union Hs. rewrite lookup_insert_ne in E by set_solver. by eapply H5.
  - intros x q. rewrite lookup_insert_Some. intros [[<- <-]|[_ E]]; [done|by eapply H6].
Qed.

Lemma delete_pcb_ok X t f a : listed_but X t f -> a ∈ X -> listed_but (X ∖ {[a]}) (set_pcbs (delete a (pcbs t)) t) f.
Proof.
  intros [H1 H2 H3 H4 H5 H6] Ha. constructor; cbn [set_pcbs pcbs heads].
  - intros i. apply chain_delete; [by apply H4|done].
  - done.
  - intros i x q Hx [_ E]%lookup_delete_Some. by eapply H3.
  - intros i x [Hx _]%elem_of_difference. by apply H4.
  - intros x q [Hxa E]%lookup_delete_Some Hx. apply H5; [done|]. set_solver.
  - intros x q [_ E]%lookup_delete_Some. by eapply H6.
Qed.

(** Changing members of a block: those that the lists look at only outside of them. *)
Lemma field_ok X t f a p p' : listed_but X t f -> pcbs t !! a = Some p -> pcb_next (com p') = pcb_next (com p) ->
  pcb_state (com p') = pcb_state (com p) -> local_port (com p') = local_port (com p) \/ a ∈ X ->
  match body p, body p' with Listener _, Listener _ | Conn _, Conn _ => True | _, _ => False end ->
  listed_but X (set_pcbs (<[a := p']> (pcbs t)) t) f.
Proof.
  intros [H1 H2 H3 H4 H5 H6] E En Es Ep Hb. constructor; cbn [set_pcbs pcbs heads].
  - intros i. by eapply chain_field.
  - done.
  - intros i x q Hx. rewrite lookup_insert_Some. intros [[<- <-]|[_ Eq]]; [|by eapply H3].
    pose proof (H3 i a p Hx E) as Hl. assert (local_port (com p') = local_port (com p)) as Ep'.
    { destruct Ep as [?|Ha]; [done|]. by apply (H4 i) in Ha. }
    destruct i; cbn in *; by rewrite ?Es, ?Ep'.
  - done.
  - intros x q. rewrite lookup_insert_Some. intros [[<- <-]|[_ Eq]] Hx Hs; [|by eapply H5].
    apply (H5 a p E Hx). destruct Ep as [Ep|?]; [|done]. by rewrite <- Es, <- Ep.
  - intros x q. rewrite lookup_insert_Some. intros [[<- <-]|[_ Eq]]; [|by eapply H6].
    destruct (H6 a p E) as [Hz Hk]. split; [done|]. rewrite Es. by destruct (body p), (body p').
Qed.

(** [TCP_REG] puts a block in front of a list. *)
Lemma reg_ok X t f l a p : listed_but X t f -> pcbs t !! a = Some p -> a ∈ X -> list_state l p ->
  exists t', tcp_reg l a t = Ok (tt, t') /\ listed_but (X ∖ {[a]}) t' (<[l := a :: f l]> f) /\
    t' = set_head l a (set_pcbs (<[a := with_com (with_next (heads t l)) p]> (pcbs t)) t).
Proof.
  intros Hk E Ha Hs. pose proof Hk as [H1 H2 H3 H4 H5 H6]. eexists. split_and!.
  - unfold tcp_reg. rewrite (bind_ok (gets _) _ _ (heads t l) t) by done. unfold upd_com, upd_pcb, modify.
    unfold mbind, M_bind. rewrite E. reflexivity.
  - assert (forall i x, x ∈ (<[l := a :: f l]> f) i <-> x ∈ f i \/ (i = l /\ x = a)) as Hin.
    { intros i x. destruct (decide (i = l)) as [->|Hil]; [rewrite fn_lookup_insert, elem_of_cons; naive_solver|].
      rewrite fn_lookup_insert_ne by done. naive_solver. }
    constructor; cbn [set_pcbs set_head pcbs heads].
    + intros i. destruct (decide (i = l)) as [->|Hil].
      * rewrite !fn_lookup_insert. split_and!; [done|apply (H6 a p E)|]. eexists. split; [apply lookup_insert_eq|]. cbn. apply chain_other; [by apply H4|done].
      * rewrite !fn_lookup_insert_ne by done. apply chain_other; [by apply H4|done].
    + cbn in H2 |- *. assert (forall i, a ∉ f i) as Hni by (intros i; by apply H4).
      rewrite !NoDup_app in H2. rewrite !NoDup_app. 
      destruct l; rewrite ?fn_lookup_insert, ?fn_lookup_insert_ne by done; rewrite ?NoDup_cons; set_solver.
    + intros i x q Hx. apply Hin in Hx. rewrite lookup_insert_Some. intros [[<- <-]|[Hxa Eq]].
      * destruct Hx as [Hx|[-> _]]; [by apply (H4 i) in Hx|]. destruct l; cbn in *; done.
      * destruct Hx as [Hx|[_ ->]]; [by eapply H3|done].
    + intros i x [Hx Hxa]%elem_of_difference. rewrite Hin. intros [Hf|[_ ->]]; [by apply (H4 i) in Hf|set_solver].
    + intros x q. rewrite lookup_insert_Some. intros [[<- <-]|[Hxa Eq]] Hx Hst.
      * exists l. apply Hin. by right.
      * destruct (H5 x q Eq) as [i Hi]; [set_solver|done|]. exists i. apply Hin. by left.
    + intros x q. rewrite lookup_insert_Some. intros [[<- <-]|[Hxa Eq]]; [apply (H6 a p E)|by eapply H6].
  - done.
Qed.

(** [TCP_RMV] takes a block out of its list. *)
Definition out_of (a : Z) (l : list Z) : list Z := filter (fun x => x <> a) l.

Lemma out_of_none a l : a ∉ l -> out_of a l = l.
Proof. intros Ha. unfold out_of. induction l as [|x l IH]; [done|]. rewrite filter_cons_True by set_solver. f_equal. apply IH. set_solver. Qed.

Lemma out_of_mid a l1 l2 : a ∉ l1 -> a ∉ l2 -> out_of a (l1 ++ a :: l2) = l1 ++ l2.
Proof.
  intros H1 H2. unfold out_of. rewrite filter_app, filter_cons_False by naive_solver. fold (out_of a l1) (out_of a l2). by rewrite !out_of_none.
Qed.

(** Only links change. *)
Definition same_but_next (g g' : gmap Z tcp_pcb) : Prop :=
  forall x, (with_com (with_next NULL) <$> g' !! x) = (with_com (with_next NULL) <$> g !! x).

Lemma same_but_next_upd g a p n : g !! a = Some p -> same_but_next g (<[a := with_com (with_next n) p]> g).
Proof. intros E x. destruct (decide (x = a)) as [->|Hx]; [by rewrite lookup_insert_eq, E|by rewrite lookup_insert_ne]. Qed.
Lemma same_but_next_trans g1 g2 g3 : same_but_next g1 g2 -> same_but_next g2 g3 -> same_but_next g1 g3.
Proof. intros H1 H2 x. by rewrite H2. Qed.
Lemma same_but_next_inv g g' a p' : same_but_next g g' -> g' !! a = Some p' ->
  exists p, g !! a = Some p /\ body p' = body p /\ pcb_state (com p') = pcb_state (com p) /\ local_port (com p') = local_port (com p) /\
    local_ip (com p') = local_ip (com p).
Proof.
  intros Hs E. specialize (Hs a). rewrite E in Hs. destruct (g !! a) as [p|]; [|done]. injection Hs as. exists p. done.
Qed.

Lemma get_pcb_ok t a p : pcbs t !! a = Some p -> get_pcb a t = Ok (p, t).
Proof. intros E. unfold get_pcb. by rewrite E. Qed.
Lemma upd_com_ok t a p g : pcbs t !! a = Some p -> upd_com a g t = Ok (tt, set_pcbs (<[a := with_com g p]> (pcbs t)) t).
Proof. intros E. unfold upd_com, upd_pcb. by rewrite E. Qed.

Lemma rmv_loop_ok l1 : forall fuel t h b pa l2 a, pcb_chain (pcbs t) h (l1 ++ b :: a :: l2) -> a ∉ l1 -> b <> a -> NoDup (l1 ++ b :: a :: l2) ->
  pcbs t !! a = Some pa -> (length l1 < fuel)%nat ->
  exists pb, pcbs t !! b = Some pb /\ rmv_loop fuel h a t = Ok (tt, set_pcbs (<[b := with_com (with_next (pcb_next (com pa))) pb]> (pcbs t)) t) /\
    pcb_chain (<[b := with_com (with_next (pcb_next (com pa))) pb]> (pcbs t)) h (l1 ++ b :: l2).
Proof.
  induction l1 as [|x l1 IH]; intros [|fuel] t h b pa l2 a Hc Hni Hba Hnd Ea Hf; try (simpl in Hf; lia); cbn [rmv_loop app] in *.
  - destruct Hc as (-> & Hz & pb & Eb & En & Hza & pa' & Ea' & Hc'). rewrite Ea in Ea'. injection Ea' as <-. exists pb. split; [done|].
    rewrite (proj2 (Z.eqb_neq _ _) Hz), (bind_ok _ _ _ _ _ (get_pcb_ok t b pb Eb)). rewrite En, Z.eqb_refl, (bind_ok _ _ _ _ _ (get_pcb_ok t _ pa Ea)).
    split; [by apply upd_com_ok|]. split_and!; [done..|]. eexists. split; [apply lookup_insert_eq|]. cbn. apply chain_other; [|done].
    apply NoDup_cons in Hnd as [Hb _]. set_solver.
  - destruct Hc as (-> & Hz & px & Ex & Hc). apply not_elem_of_cons in Hni as [Hxa Hni]. apply NoDup_cons in Hnd as [Hx Hnd].
    rewrite (proj2 (Z.eqb_neq _ _) Hz), (bind_ok _ _ _ _ _ (get_pcb_ok t x px Ex)).
    assert (pcb_next (com px) <> a) as Hna. { destruct l1 as [|y l1]; cbn in Hc; destruct Hc as (-> & _); [done|set_solver]. }
    rewrite (proj2 (Z.eqb_neq _ _) Hna). destruct (IH fuel t (pcb_next (com px)) b pa l2 a Hc Hni Hba Hnd Ea) as (pb & Eb & Er & Hc'); [simpl in Hf; lia|].
    exists pb. split; [done|]. split; [done|]. split; [done|]. split; [done|]. exists px. rewrite lookup_insert_ne by set_solver. done.
Qed.

Lemma rmv_ok X t f l a : listed_but X t f -> a ∈ f l ->
  exists t', TCP_RMV l a t = Ok (tt, t') /\ listed_but ({[a]} ∪ X) t' (<[l := out_of a (f l)]> f) /\
    same_but_next (pcbs t) (pcbs t') /\ tcp_port t' = tcp_port t.
Proof.
  intros Hk Ha. pose proof Hk as [H1 H2 H3 H4 H5 H6]. pose proof (lists_nodup X t f l Hk) as Hnd.
  destruct (chain_live _ _ _ a (H1 l) Ha) as [Hz [pa Ea]].
  apply list_elem_of_split in Ha as (l1 & l2 & El).
  assert (exists t1, (h ← gets (fun s => heads s l); if h =? a then n ← get_pcb h; modify (set_head l (pcb_next (com n))) else fuel ← gets pcb_fuel; rmv_loop fuel h a) t = Ok (tt, t1) /\
    pcb_chain (pcbs t1) (heads t1 l) (l1 ++ l2) /\ same_but_next (pcbs t) (pcbs t1) /\ pcbs t1 !! a = Some pa /\ tcp_port t1 = tcp_port t /\
    (forall i, i <> l -> heads t1 i = heads t i) /\ (forall x, x ∉ f l -> pcbs t1 !! x = pcbs t !! x)) as (t1 & E1 & Hc1 & Hs1 & Ea1 & Ep1 & Hh1 & Ho1).
  { rewrite (bind_ok (gets _) _ _ (heads t l) t) by done. pose proof (H1 l) as Hc. rewrite El in Hc, Hnd.
    destruct l1 as [|x l1] using rev_ind.
    - cbn in Hc. destruct Hc as (-> & _ & p & Ep & Hc). rewrite Ea in Ep. injection Ep as <-.
      rewrite Z.eqb_refl, (bind_ok _ _ _ _ _ (get_pcb_ok t a pa Ea)). eexists. split; [reflexivity|]. cbn. rewrite fn_lookup_insert.
      split_and!; try done. intros i Hi. by rewrite fn_lookup_insert_ne.
    - clear IHl1. rewrite <- app_assoc in Hc, Hnd. cbn in Hc, Hnd.
      assert (a ∉ l1 /\ x <> a) as [Hni Hxa].
      { apply NoDup_app in Hnd as (_ & Hd & [Hx _]%NoDup_cons). split; [|set_solver]. intros Hin. apply (Hd a Hin). set_solver. }
      assert (heads t l <> a) as Hha. { destruct l1 as [|y l1]; cbn in Hc; destruct Hc as (-> & _); [done|set_solver]. }
      rewrite (proj2 (Z.eqb_neq _ _) Hha), (bind_ok (gets _) _ _ (pcb_fuel t) t) by done.
      pose proof (chain_size _ _ _ Hnd Hc) as Hsz. rewrite length_app in Hsz. cbn in Hsz.
      destruct (rmv_loop_ok l1 (pcb_fuel t) t (heads t l) x pa l2 a Hc Hni Hxa Hnd Ea) as (px & Ex & Er & Hc'); [unfold pcb_fuel; lia|].
      eexists. split; [exact Er|]. cbn [set_pcbs pcbs heads tcp_port]. rewrite <- app_assoc. split_and!; try done.
      + by apply same_but_next_upd.
      + by rewrite lookup_insert_ne.
      + intros y Hy. rewrite lookup_insert_ne; [done|]. rewrite El in Hy. set_solver. }
  assert (a ∉ l1 /\ a ∉ l2) as [Hn1 Hn2].
  { rewrite El in Hnd. apply NoDup_app in Hnd as (_ & Hd & [Hx _]%NoDup_cons). split; [intros Hin; apply (Hd a Hin); left|done]. }
  exists (set_pcbs (<[a := with_com (with_next NULL) pa]> (pcbs t1)) t1). split_and!; [| | |done].
  - unfold TCP_RMV. revert E1. unfold mbind, M_bind, gets. cbn. intros E1. rewrite E1. by apply upd_com_ok.
  - assert (out_of a (f l) = l1 ++ l2) as Eo by (rewrite El; by apply out_of_mid).
    assert (forall i x, x ∈ (<[l := out_of a (f l)]> f) i <-> x ∈ f i /\ x <> a) as Hin.
    { intros i x. destruct (decide (i = l)) as [->|Hil].
      - rewrite fn_lookup_insert. unfold out_of. rewrite list_elem_of_filter. naive_solver.
      - rewrite fn_lookup_insert_ne by done. split; [|naive_solver]. intros Hx. split; [done|]. intros ->.
        apply Hil, (lists_disjoint X t f i l a Hk Hx). rewrite El. set_solver. }
    pose proof (same_but_next_trans _ _ _ Hs1 (same_but_next_upd _ a pa NULL Ea1)) as Hs.
    constructor; cbn [set_pcbs pcbs heads].
    + intros i. apply chain_other; [rewrite Hin; naive_solver|]. destruct (decide (i = l)) as [->|Hil].
      * by rewrite fn_lookup_insert, Eo.
      * rewrite fn_lookup_insert_ne, Hh1 by done. eapply chain_same; [|apply H1]. intros x Hx. apply Ho1. intros Hx2.
        by apply Hil, (lists_disjoint X t f i l x Hk).
    + assert (forall i, (<[l := out_of a (f l)]> f) i = out_of a (f i)) as Hf.
      { intros i. destruct (decide (i = l)) as [->|Hil]; [by rewrite fn_lookup_insert|]. rewrite fn_lookup_insert_ne by done.
        symmetry. apply out_of_none. intros Hx. apply Hil, (lists_disjoint X t f i l a Hk Hx). rewrite El. set_solver. }
      cbn in H2 |- *. rewrite !Hf, !app_nil_r in *. unfold out_of. rewrite <- !filter_app. by apply NoDup_filter.
    + intros i x q [Hx Hxa]%Hin E. rewrite lookup_insert_ne in E by done.
      destruct (same_but_next_inv _ _ x q Hs1 E) as (p & Ep & _ & Es & Epo & _). pose proof (H3 i x p Hx Ep) as Hl.
      destruct i; cbn in *; by rewrite ?Es, ?Epo.
    + intros i x [->%elem_of_singleton|Hx]%elem_of_union; rewrite Hin; [naive_solver|]. intros [Hf _]. by apply (H4 i) in Hf.
    + intros x q E [Hxa Hx]%not_elem_of_union Hst. rewrite lookup_insert_ne in E by set_solver.
      destruct (same_but_next_inv _ _ x q Hs1 E) as (p & Ep & _ & Es & Epo & _). rewrite Es, Epo in Hst.
      destruct (H5 x p Ep Hx Hst) as [i Hi]. exists i. apply Hin. set_solver.
    + intros x q E. destruct (same_but_next_inv _ _ x q Hs E) as (p & Ep & Eb & Es & _). rewrite Eb, Es. by apply H6.
  - by eapply same_but_next_trans; [|apply same_but_next_upd].
Qed.

(** ** Binding and listening *)

Definition pool_of (p : tcp_pcb) : memp_t := match body p with Conn _ => MEMP_TCP_PCB | Listener _ => MEMP_TCP_PCB_LISTEN end.

Section Api.
Context (pools : memp_t -> memp_desc) `{HP : !PoolsOk pools} {H : Type} `{HH : !Heap H}.
Implicit Types s : ip H tcps.

(** The live control blocks are elements of their pools that are not free. *)
Definition in_pools (fl : memp_t -> list Z) (g : gmap Z tcp_pcb) : Prop :=
  forall a p, g !! a = Some p -> a ∈ elems (pools (pool_of p)) /\ a ∉ fl (pool_of p).

(** The invariant of the control blocks. *)
Definition tcp_ok (X : gset Z) s (f : pcb_list -> list Z) (fl : memp_t -> list Z) : Prop :=
  listed_but X (i_upper s) f /\ range_port (tcp_port (i_upper s)) /\ pool_rep pools (n_memp (snet s)) fl /\ in_pools fl (pcbs (i_upper s)).

(** What timeouts.c promises: starting the timer may take an element of another pool. *)
Class TimerLaws (tcp_timer_needed : M (ip H tcps) unit) :=
  timer_law : forall s fl, pool_rep pools (n_memp (snet s)) fl -> exists s' fl', tcp_timer_needed s = Ok (tt, s') /\ i_upper s' = i_upper s /\
    pool_rep pools (n_memp (snet s')) fl' /\ fl' MEMP_TCP_PCB = fl MEMP_TCP_PCB /\ fl' MEMP_TCP_PCB_LISTEN = fl MEMP_TCP_PCB_LISTEN.
Context (tcp_timer_needed : M (ip H tcps) unit) `{TL : !TimerLaws tcp_timer_needed}.

Definition with_upper (t : tcps) s : ip H tcps := mk_ip (i_arp s) (netif_list s) (netif_default s) (ip_id s) (ip_data s) t.

Lemma on_tcp_ok s {A} (m : M tcps A) a t : m (i_upper s) = Ok (a, t) -> on_tcp m s = Ok (a, with_upper t s).
Proof. intros E. unfold on_tcp. by rewrite E. Qed.
Lemma with_upper_id s : with_upper (i_upper s) s = s.
Proof. by destruct s. Qed.

Lemma in_pools_upd fl g a p p' : in_pools fl g -> g !! a = Some p -> pool_of p' = pool_of p -> in_pools fl (<[a := p']> g).
Proof. intros Hi E Ep x q. rewrite lookup_insert_Some. intros [[<- <-]|[_ Ex]]; [rewrite Ep; by apply Hi|by apply Hi]. Qed.

(** A block on the way is registered, and the timer started if needed. *)
Lemma TCP_REG_ok X s f fl l a p : tcp_ok X s f fl -> pcbs (i_upper s) !! a = Some p -> a ∈ X -> list_state l p ->
  exists s' fl', TCP_REG tcp_timer_needed l a s = Ok (tt, s') /\ tcp_ok (X ∖ {[a]}) s' (<[l := a :: f l]> f) fl' /\
    pcbs (i_upper s') = <[a := with_com (with_next (heads (i_upper s) l)) p]> (pcbs (i_upper s)) /\
    fl' MEMP_TCP_PCB = fl MEMP_TCP_PCB /\ fl' MEMP_TCP_PCB_LISTEN = fl MEMP_TCP_PCB_LISTEN.
Proof.
  intros (Hk & Hp & Hr & Hi) E Ha Hs. destruct (reg_ok X (i_upper s) f l a p Hk E Ha Hs) as (t & Et & Hk' & ->).
  unfold TCP_REG. rewrite (bind_ok _ _ _ _ _ (on_tcp_ok s _ _ _ Et)). set (t := set_head _ _ _) in *.
  destruct (timer_law (with_upper t s) fl Hr) as (s' & fl' & Es & Eu & Hr' & Ef1 & Ef2). exists s', fl'. rewrite Eu. split_and!; [done| |done..].
  unfold tcp_ok. rewrite Eu. split_and!; [done..|]. intros x q Hx.
  assert (fl' (pool_of q) = fl (pool_of q)) as -> by (unfold pool_of; by destruct (body q)).
  revert x q Hx. by eapply in_pools_upd.
Qed.

(** A closed block without a port is in no list. *)
Lemma closed_unlisted X t f a p : listed_but X t f -> pcbs t !! a = Some p -> pcb_state (com p) = CLOSED -> local_port (com p) = 0 -> forall i, a ∉ f i.
Proof. intros Hk E Hc Hp i Ha. pose proof (pk_state X t f Hk i a p Ha E) as Hs. destruct i; cbn in Hs; [congruence|naive_solver|naive_solver|congruence]. Qed.

Lemma take_out X t f a : listed_but X t f -> (forall i, a ∉ f i) -> listed_but ({[a]} ∪ X) t f.
Proof.
  intros [H1 H2 H3 H4 H5 H6] Ha. constructor; try done.
  - intros i x [->%elem_of_singleton|Hx]%elem_of_union; [apply Ha|by apply H4].
  - intros x q E [_ Hx]%not_elem_of_union. by apply H5.
Qed.

Lemma hit_spec t (f : pcb_list -> list Z) test : existsb (hit (pcbs t) test) (mjoin (f <$> tcp_pcb_lists)) = true <->
  exists i x q, x ∈ f i /\ pcbs t !! x = Some q /\ test (com q) = true.
Proof.
  rewrite existsb_exists. split.
  - intros (x & Hx & Hh). apply list_elem_of_In, list_elem_of_join in Hx as (l & Hx & (i & -> & _)%list_elem_of_fmap).
    unfold hit in Hh. destruct (pcbs t !! x) as [q|] eqn:E; [|done]. by exists i, x, q.
  - intros (i & x & q & Hx & E & Ht). exists x. split; [|unfold hit; by rewrite E].
    apply list_elem_of_In, list_elem_of_join. exists (f i). split; [done|]. apply list_elem_of_fmap. exists i. split; [done|]. destruct i; set_solver.
Qed.

(** A block has the port, with an address that overlaps: address 0 stands for all. *)
Definition conflicts (a x : Z) (c : pcb_common) : Prop := local_port c = x /\ (local_ip c = 0 \/ a = 0 \/ local_ip c = a).

Lemma conflicts_iff a x c : bind_conflict a x c = true <-> conflicts a x c.
Proof. unfold bind_conflict, conflicts, ip4_addr_isany, IPADDR_ANY. rewrite andb_true_iff, !orb_true_iff, !Z.eqb_eq. tauto. Qed.

Lemma conflict_port t f a x : x ∉ ports t f -> forall i y q, y ∈ f i -> pcbs t !! y = Some q -> ~ conflicts a x (com q).
Proof.
  intros Hx i y q Hy E [Hp _]. apply Hx.
  unfold ports. apply list_elem_of_omap. exists y. split; [|by rewrite E; cbn; f_equal].
  apply list_elem_of_join. exists (f i). split; [done|]. apply list_elem_of_fmap. exists i. split; [done|]. destruct i; set_solver.
Qed.

(** The block with its address and port. *)
Definition bound_pcb (a x : Z) (p : tcp_pcb) : tcp_pcb := with_com (fun c => with_local (if ip4_addr_isany a then local_ip c else a) x c) p.

Lemma bind_fields s pcb p a x {A} (m : M (ip H tcps) A) : pcbs (i_upper s) !! pcb = Some p ->
  ((if negb (ip4_addr_isany a) then on_tcp (upd_com pcb (fun c => with_local a (local_port c) c)) else mret tt);;
    on_tcp (upd_com pcb (fun c => with_local (local_ip c) x c));; m) s =
  m (with_upper (set_pcbs (<[pcb := bound_pcb a x p]> (pcbs (i_upper s))) (i_upper s)) s).
Proof.
  intros E. destruct (ip4_addr_isany a) eqn:Ea; cbn [negb].
  - rewrite (bind_ok (mret tt) _ s tt s) by done. rewrite (bind_ok _ _ _ _ _ (on_tcp_ok s _ _ _ (upd_com_ok _ pcb p _ E))).
    unfold bound_pcb. by rewrite Ea.
  - rewrite (bind_ok _ _ _ _ _ (on_tcp_ok s _ _ _ (upd_com_ok _ pcb p _ E))). set (t1 := set_pcbs _ _).
    rewrite (bind_ok _ _ _ _ _ (on_tcp_ok (with_upper t1 s) _ _ _ (upd_com_ok t1 pcb _ _ (lookup_insert_eq _ _ _)))).
    unfold bound_pcb, set_pcbs, t1, with_upper. cbn. by rewrite insert_insert_eq, Ea.
Qed.

(** The search for a conflict. *)
Lemma bind_search s f a port : listed_but ∅ (i_upper s) f ->
  exists b : bool, (used ← on_tcp (search_lists tcp_pcb_lists (bind_conflict a port)); if (used : bool) then mret (ERR_USE, 0) else mret (ERR_OK, port)) s =
    Ok (if b then (ERR_USE, 0) else (ERR_OK, port), s) /\
  (b = true <-> exists i y q, y ∈ f i /\ pcbs (i_upper s) !! y = Some q /\ conflicts a port (com q)).
Proof.
  intros Hk. pose proof (search_ok ∅ (i_upper s) f (bind_conflict a port) Hk) as Es. eexists. split; [|rewrite hit_spec; by split; intros (i & y & q & Hy & E & Hc%conflicts_iff); exists i, y, q].
  rewrite (bind_ok _ _ _ _ _ (on_tcp_ok s _ _ _ Es)), with_upper_id. by destruct (existsb _ _).
Qed.

(** The address and the port are set and the block registered. *)
Lemma bind_reg_ok s f fl pcb p a x : tcp_ok ∅ s f fl -> pcbs (i_upper s) !! pcb = Some p -> pcb_state (com p) = CLOSED -> (forall i, pcb ∉ f i) -> x <> 0 ->
  exists s' fl' q, ((if negb (ip4_addr_isany a) then on_tcp (upd_com pcb (fun c => with_local a (local_port c) c)) else mret tt);;
      on_tcp (upd_com pcb (fun c => with_local (local_ip c) x c));; TCP_REG tcp_timer_needed tcp_bound_pcbs pcb;; mret ERR_OK) s = Ok (ERR_OK, s') /\
    tcp_ok ∅ s' (<[tcp_bound_pcbs := pcb :: f tcp_bound_pcbs]> f) fl' /\ pcbs (i_upper s') !! pcb = Some q /\
    local_port (com q) = x /\ local_ip (com q) = (if ip4_addr_isany a then local_ip (com p) else a).
Proof.
  intros (Hk & Hp & Hr & Hi) E Hc Hni Hx. apply (take_out ∅ _ _ pcb) in Hk; [|done]. rewrite union_empty_r_L in Hk.
  rewrite (bind_fields s pcb p a x _ E). set (p2 := bound_pcb a x p). set (s2 := with_upper _ s).
  assert (tcp_ok {[pcb]} s2 f fl) as Hs2.
  { split_and!; [|done|done|by eapply in_pools_upd]. eapply field_ok; [done|done|done|done|right; set_solver|]. cbn. by destruct (body p). }
  assert (pcbs (i_upper s2) !! pcb = Some p2) as Ep2 by apply lookup_insert_eq.
  destruct (TCP_REG_ok {[pcb]} s2 f fl tcp_bound_pcbs pcb p2 Hs2 Ep2) as (s3 & fl3 & E3 & Hs3 & Eg3 & _); [set_solver|done|].
  rewrite (bind_ok _ _ _ _ _ E3). exists s3, fl3, (with_com (with_next (heads (i_upper s2) tcp_bound_pcbs)) p2). split; [done|].
  rewrite difference_diag_L in Hs3. split; [done|]. split; [rewrite Eg3; apply lookup_insert_eq|]. done.
Qed.

Definition addr_of (ipaddr : option Z) : Z := match ipaddr with Some a => a | None => IPADDR_ANY end.

(** C10: binding. [tcp_bind] of a closed control block that has no port returns: with
    [ERR_USE] exactly if another block has the port with an overlapping address, and
    nothing has changed then; else the block has the address and the port, is in the
    list of bound blocks, and no other one conflicts with it. For port 0 a port of the
    dynamic range that no block uses is found. The lists stay well formed. *)
Theorem tcp_bind_spec s f fl (pcb : Z) (p : tcp_pcb) (ipaddr : option Z) (port : Z) (Hs : tcp_ok ∅ s f fl)
  (E : pcbs (i_upper s) !! pcb = Some p) (Hc : pcb_state (com p) = CLOSED) (Hp : local_port (com p) = 0)
  (Hfew : Z.of_nat (base.size (pcbs (i_upper s))) < 16383) :
  exists e s', tcp_bind tcp_timer_needed pcb ipaddr port s = Ok (e, s') /\
  let conflict x := exists i y q, y ∈ f i /\ pcbs (i_upper s) !! y = Some q /\ conflicts (addr_of ipaddr) x (com q) in
  (e = ERR_USE /\ s' = s /\ port <> 0 /\ conflict port \/
   e = ERR_OK /\ exists x fl' q, (if port =? 0 then range_port x else x = port) /\ ~ conflict x /\
     tcp_ok ∅ s' (<[tcp_bound_pcbs := pcb :: f tcp_bound_pcbs]> f) fl' /\ pcbs (i_upper s') !! pcb = Some q /\ local_port (com q) = x /\
     local_ip (com q) = (if ip4_addr_isany (addr_of ipaddr) then local_ip (com p) else addr_of ipaddr)).
Proof.
  pose proof Hs as (Hk & Hr & Hpr & Hi). destruct (pk_kind ∅ _ f Hk pcb p E) as [Hz _]. pose proof (closed_unlisted ∅ _ f pcb p Hk E Hc Hp) as Hni.
  unfold tcp_bind. fold (addr_of ipaddr). set (a := addr_of ipaddr). rewrite (proj2 (Z.eqb_neq _ _) Hz).
  rewrite (bind_ok _ _ _ _ _ (on_tcp_ok s _ _ _ (get_pcb_ok _ pcb p E))), with_upper_id, bool_decide_false by naive_solver.
  destruct (Z.eqb_spec port 0) as [->|Hport].
  - destruct (new_port_ok (i_upper s) f Hk Hr Hfew) as (x & Ex & Hrx & Hux). set (s1 := with_upper (set_port x (i_upper s)) s).
    assert (x <> 0) as Hx0 by (unfold range_port in Hrx; lia).
    assert ((port ← on_tcp tcp_new_port; if port =? 0 then mret (ERR_BUF, 0) else mret (ERR_OK, port)) s = Ok ((ERR_OK, x), s1)) as E1.
    { rewrite (bind_ok _ _ _ _ _ (on_tcp_ok s _ _ _ Ex)). by rewrite (proj2 (Z.eqb_neq _ _) Hx0). }
    rewrite (bind_ok _ _ _ _ _ E1). cbn [Z.eqb ERR_OK negb].
    assert (tcp_ok ∅ s1 f fl) as Hs1. { split_and!; [|done..]. destruct Hk. by constructor. }
    destruct (bind_reg_ok s1 f fl pcb p a x Hs1 E Hc Hni Hx0) as (s' & fl' & q & E' & Hs' & Eq & Eqp & Eqi).
    eexists _, s'. split; [exact E'|]. right. split; [done|]. exists x, fl', q. split_and!; try done.
    intros (i & y & r & Hy & Ey & Hb). by apply (conflict_port _ f a x Hux i y r Hy Ey).
  - destruct (bind_search s f a port Hk) as (b & E1 & Hh). rewrite (bind_ok _ _ _ _ _ E1). destruct b.
    + exists ERR_USE, s. split; [done|]. left. split_and!; try done. by apply Hh.
    + cbn [Z.eqb ERR_OK negb]. destruct (bind_reg_ok s f fl pcb p a port Hs E Hc Hni Hport) as (s' & fl' & q & E' & Hs' & Eq & Eqp & Eqi).
      eexists _, s'. split; [exact E'|]. right. split; [done|]. exists port, fl', q. split_and!; try done. intros Hcf. by apply Hh in Hcf.
Qed.

(** ** Listening *)

Lemma in_pools_same fl g g' : in_pools fl g -> same_but_next g g' -> in_pools fl g'.
Proof.
  intros Hi Hs a p' E. destruct (same_but_next_inv _ _ a p' Hs E) as (p & Ep & Eb & _). unfold pool_of. rewrite Eb. by apply (Hi a p).
Qed.

(** A new element of a pool is not a live control block. *)
Lemma fresh_pcb fl g a l k : pool_rep pools k fl -> in_pools fl g -> fl MEMP_TCP_PCB_LISTEN = a :: l ->
  a <> NULL /\ a ∈ elems (pools MEMP_TCP_PCB_LISTEN) /\ a ∉ l /\ g !! a = None.
Proof.
  intros Hr Hi Ef. destruct (Hr MEMP_TCP_PCB_LISTEN) as (_ & Hn & He); [done|]. rewrite Ef in Hn, He. apply NoDup_cons in Hn as [Hn _].
  apply Forall_cons in He as [He _]. destruct (elem_props pools MEMP_TCP_PCB_LISTEN a He) as [Hz _]. split_and!; [done..|].
  destruct (g !! a) as [p|] eqn:E; [|done]. destruct (Hi a p E) as [H1 H2]. unfold pool_of in *. destruct (body p).
  - by pose proof (pool_disjoint _ _ a H1 He).
  - rewrite Ef in H2. set_solver.
Qed.

Lemma lift_memp_ip s {A} (m : M memp_state A) a k : m (n_memp (snet s)) = Ok (a, k) ->
  nb (lift_memp m) s = Ok (a, set_snet (mk_net k (n_heap (snet s)) (n_pbufs (snet s)) (n_mem (snet s)) (n_ooseq (snet s))) s).
Proof. intros E. apply nb_ok. unfold lift_memp. by rewrite E. Qed.

(** Taking a closed block out of the list of bound ones, if it is in there. *)
Lemma unbind_ok X s f fl pcb p : tcp_ok X s f fl -> pcbs (i_upper s) !! pcb = Some p -> pcb ∉ X -> pcb_state (com p) = CLOSED ->
  exists s' f' p', (if negb (local_port (com p) =? 0) then on_tcp (TCP_RMV tcp_bound_pcbs pcb) else mret tt) s = Ok (tt, s') /\
    tcp_ok ({[pcb]} ∪ X) s' f' fl /\ snet s' = snet s /\ same_but_next (pcbs (i_upper s)) (pcbs (i_upper s')) /\
    pcbs (i_upper s') !! pcb = Some p' /\ pcb_state (com p') = CLOSED /\ body p' = body p /\
    f' tcp_bound_pcbs = out_of pcb (f tcp_bound_pcbs) /\ (forall i, i <> tcp_bound_pcbs -> f' i = f i).
Proof.
  intros (Hk & Hp & Hr & Hi) E HX Hc. destruct (Z.eqb_spec (local_port (com p)) 0) as [H0|H0]; cbn [negb].
  - pose proof (closed_unlisted X _ f pcb p Hk E Hc H0) as Hni. exists s, f, p. split_and!; try done.
    + split_and!; [by apply take_out|done..].
    + by rewrite out_of_none.
  - destruct (pk_listed X _ f Hk pcb p E HX) as [i Hin]; [by right|].
    assert (i = tcp_bound_pcbs) as ->. { pose proof (pk_state X _ f Hk i pcb p Hin E) as Hs. destruct i; cbn in Hs; [congruence|done|naive_solver|congruence]. }
    destruct (rmv_ok X _ f tcp_bound_pcbs pcb Hk Hin) as (t' & Et & Hk' & Hs & Ep).
    pose proof (Hs pcb) as Hsp. rewrite E in Hsp. destruct (pcbs t' !! pcb) as [p'|] eqn:E'; [|done].
    destruct (same_but_next_inv _ _ pcb p' Hs E') as (p0 & E0 & Eb & Est & _). rewrite E in E0. injection E0 as <-.
    exists (with_upper t' s), (<[tcp_bound_pcbs := out_of pcb (f tcp_bound_pcbs)]> f), p'. split; [by apply on_tcp_ok|]. split; [|split_and!; try done; [congruence|intros i Hne; by rewrite fn_lookup_insert_ne]].
    split_and!; [exact Hk'|by cbn; rewrite Ep|done|]. by eapply in_pools_same.
Qed.

(** A block out of its list goes back to its pool. *)
Lemma free_ok X s f fl pcb p : tcp_ok X s f fl -> pcbs (i_upper s) !! pcb = Some p -> pcb_state (com p) <> LISTEN -> pool_of p = MEMP_TCP_PCB -> pcb ∈ X ->
  exists s', tcp_free pcb s = Ok (tt, s') /\ tcp_ok (X ∖ {[pcb]}) s' f (<[MEMP_TCP_PCB := pcb :: fl MEMP_TCP_PCB]> fl) /\
    i_upper s' = set_pcbs (delete pcb (pcbs (i_upper s))) (i_upper s).
Proof.
  intros (Hk & Hp & Hr & Hi) E Hst Ho HX. destruct (Hi pcb p E) as [H1 H2]. rewrite Ho in H1, H2.
  destruct (memp_free_spec pools _ fl MEMP_TCP_PCB pcb Hr) as (k & Ek & Hrk); [done..|].
  unfold tcp_free. rewrite (bind_ok _ _ _ _ _ (on_tcp_ok s _ _ _ (get_pcb_ok _ pcb p E))), with_upper_id.
  rewrite (bind_ok (assert _) _ s tt s) by (unfold assert; by rewrite bool_decide_true). rewrite (bind_ok _ _ _ _ _ (lift_memp_ip s _ _ _ Ek)).
  eexists. split; [reflexivity|]. split; [|done]. split_and!; [by apply delete_pcb_ok|done|exact Hrk|].
  change (in_pools (<[MEMP_TCP_PCB := pcb :: fl MEMP_TCP_PCB]> fl) (delete pcb (pcbs (i_upper s)))).
  intros a q [Ha Ea]%lookup_delete_Some. destruct (Hi a q Ea) as [G1 G2]. split; [done|].
  destruct (decide (pool_of q = MEMP_TCP_PCB)) as [Eq|Eq]; [|by rewrite fn_lookup_insert_ne]. rewrite Eq, fn_lookup_insert. rewrite Eq in G2. set_solver.
Qed.


(** ** A block that is bound twice *)

(** A block that is its own successor. *)
Lemma search_cycle fuel : forall t test a q, a <> NULL -> pcbs t !! a = Some q -> pcb_next (com q) = a -> test (com q) = false ->
  search_loop fuel test a t = NoFuel.
Proof.
  induction fuel as [|fuel IH]; intros t test a q Hz E En Ht; [done|]. cbn [search_loop].
  rewrite (proj2 (Z.eqb_neq _ _) Hz), (bind_ok _ _ _ _ _ (get_pcb_ok t a q E)), Ht, En. by eapply IH.
Qed.

(** C38: binding twice. A control block that has been bound is still in the state CLOSED,
    so a second [tcp_bind] to another free port passes the check that is to refuse blocks
    in a wrong state. It registers the block a second time, the block becomes its own
    successor, and a search for a port that this block does not have walks the list of
    bound blocks forever, whatever the fuel; so does a search of all lists. *)
Theorem tcp_bind_twice s f fl (pcb : Z) (p : tcp_pcb) (l : list Z) (ipaddr : option Z) (port : Z) (Hs : tcp_ok ∅ s f fl)
  (El : f tcp_bound_pcbs = pcb :: l) (E : pcbs (i_upper s) !! pcb = Some p) (Hport : port <> 0)
  (Hfree : forall i y q, y ∈ f i -> pcbs (i_upper s) !! y = Some q -> ~ conflicts (addr_of ipaddr) port (com q)) :
  exists s', tcp_bind tcp_timer_needed pcb ipaddr port s = Ok (ERR_OK, s') /\
    forall test : pcb_common -> bool, (forall y q, y ∈ f tcp_listen_pcbs \/ y = pcb -> pcbs (i_upper s') !! y = Some q -> test (com q) = false) ->
    (forall fuel, search_loop fuel test (heads (i_upper s') tcp_bound_pcbs) (i_upper s') = NoFuel) /\
    search_lists tcp_pcb_lists test (i_upper s') = NoFuel.
Proof.
  pose proof Hs as (Hk & Hr & Hpr & Hi). destruct (pk_kind ∅ _ f Hk pcb p E) as [Hz _]. pose proof (pk_chain ∅ _ f Hk tcp_bound_pcbs) as Hch.
  rewrite El in Hch. destruct Hch as (Eh & _). destruct (pk_state ∅ _ f Hk tcp_bound_pcbs pcb p) as [Hc _]; [rewrite El; left|done|].
  assert (pcb ∉ f tcp_listen_pcbs) as Hnl.
  { intros Hx. pose proof (lists_disjoint ∅ _ f tcp_listen_pcbs tcp_bound_pcbs pcb Hk Hx) as Hd. rewrite El in Hd. discriminate Hd. left. }
  unfold tcp_bind. fold (addr_of ipaddr). set (a := addr_of ipaddr) in *. rewrite (proj2 (Z.eqb_neq _ _) Hz).
  rewrite (bind_ok _ _ _ _ _ (on_tcp_ok s _ _ _ (get_pcb_ok _ pcb p E))), with_upper_id, bool_decide_false by naive_solver.
  rewrite (proj2 (Z.eqb_neq _ _) Hport). destruct (bind_search s f a port Hk) as (b & E1 & Hh).
  destruct b; [destruct (proj1 Hh eq_refl) as (i & y & q & Hy & Ey & Hb); by destruct (Hfree i y q Hy Ey)|].
  rewrite (bind_ok _ _ _ _ _ E1). cbn [Z.eqb ERR_OK negb]. rewrite (bind_fields s pcb p a port _ E).
  set (p2 := bound_pcb a port p). set (t2 := set_pcbs _ _). set (s2 := with_upper t2 s).
  assert (pcbs t2 !! pcb = Some p2) as Ep2 by apply lookup_insert_eq.
  set (p3 := with_com (with_next pcb) p2). set (t3 := set_head tcp_bound_pcbs pcb (set_pcbs (<[pcb := p3]> (pcbs t2)) t2)).
  assert (tcp_reg tcp_bound_pcbs pcb t2 = Ok (tt, t3)) as Et3.
  { unfold tcp_reg. rewrite (bind_ok (gets _) _ _ pcb t2) by (unfold gets; do 2 f_equal; exact Eh). by rewrite (bind_ok _ _ _ _ _ (upd_com_ok t2 pcb p2 _ Ep2)). }
  assert (exists s', TCP_REG tcp_timer_needed tcp_bound_pcbs pcb s2 = Ok (tt, s') /\ i_upper s' = t3) as (s' & E3 & Eu).
  { unfold TCP_REG. rewrite (bind_ok _ _ _ _ _ (on_tcp_ok s2 _ _ _ Et3)).
    destruct (timer_law (with_upper t3 s2) fl Hpr) as (s' & fl' & Es' & Eu & _). exists s'. by rewrite Es', Eu. }
  exists s'. split; [by rewrite (bind_ok _ _ _ _ _ E3)|]. rewrite Eu. intros test Ht.
  assert (pcbs t3 !! pcb = Some p3) as Ep3 by apply lookup_insert_eq.
  split; [intros fuel; exact (search_cycle fuel t3 test pcb p3 Hz Ep3 eq_refl (Ht pcb p3 (or_intror eq_refl) Ep3))|]. cbn [tcp_pcb_lists search_lists].
  rewrite (bind_ok (gets _) _ _ (heads t3 tcp_listen_pcbs) t3) by done. rewrite (bind_ok (gets _) _ _ (pcb_fuel t3) t3) by done.
  assert (pcb_chain (pcbs t3) (heads t3 tcp_listen_pcbs) (f tcp_listen_pcbs)) as Hcl.
  { change (pcbs t3) with (<[pcb := p3]> (<[pcb := p2]> (pcbs (i_upper s)))). rewrite !insert_insert_eq. apply chain_other; [done|apply Hk]. }
  pose proof (chain_size _ _ _ (lists_nodup ∅ _ f tcp_listen_pcbs Hk) Hcl) as Hsz.
  rewrite (bind_ok _ _ _ _ _ (search_loop_ok test _ (pcb_fuel t3) t3 _ Hcl ltac:(unfold pcb_fuel; lia))).
  assert (existsb (hit (pcbs t3) test) (f tcp_listen_pcbs) = false) as ->.
  { apply not_true_iff_false. intros (y & Hy & Hv)%existsb_exists. apply list_elem_of_In in Hy. unfold hit in Hv.
    destruct (pcbs t3 !! y) as [q|] eqn:Ey; [|done]. by rewrite (Ht y q (or_introl Hy) Ey) in Hv. }
  rewrite (bind_ok (gets _) _ _ pcb t3) by done. rewrite (bind_ok (gets _) _ _ (pcb_fuel t3) t3) by done.
  unfold mbind, M_bind. rewrite (search_cycle _ t3 test pcb p3 Hz Ep3 eq_refl (Ht pcb p3 (or_intror eq_refl) Ep3)). done.
Qed.
End Api.
