(* ===== verification/TcpSeg.v ===== *)
(** * TCP segments and queues: core/tcp.c, core/tcp_out.c and the acknowledgements of
    core/tcp_in.c

    The segments of the queues [unsent], [unacked] and [ooseq] live in a store keyed by
    address and refer to packet buffers; their headers are bytes of the packets. The
    functions that free, purge and requeue segments, and what [tcp_receive] does with the
    acknowledgement of a segment: the window of the sender, duplicate acknowledgements
    and fast retransmission, congestion control, the release of acknowledged segments
    and the estimation of the round-trip time. *)

From S2P Require Import Prelude Chksum Memp Pbuf PbufSpec PbufData PbufRefs Ethernetif Ip4Addr Ethernet Etharp Ip4 TcpApi Tcp.
From stdpp Require Import base numbers list gmap functions.
Open Scope Z_scope.
Open Scope c_scope.

Definition TCP_FIN : Z := 1.
Definition TCP_SYN : Z := 2.
Definition TCP_ACK : Z := 16.
Definition TCP_FLAGS : Z := 63.
Definition TF_INFR : Z := 4.
Definition TF_RTO : Z := 2048.

(** The value of a 16-bit word read as a two's-complement [s16_t]. *)
Definition s16 (x : Z) : Z := if u16 x <? 32768 then u16 x else u16 x - 65536.

(** Members of a connection. *)
Definition with_rtt (x : pcb_rtt) (c : conn) : conn :=
  mk_conn (remote_port c) (pcb_flags c) (mss c) (c_timers c) (c_rcv c) x (c_cong c) (c_snd c) (c_queues c) (c_fns c) (c_keep c).
Definition with_cong (x : pcb_congestion) (c : conn) : conn :=
  mk_conn (remote_port c) (pcb_flags c) (mss c) (c_timers c) (c_rcv c) (c_rtt c) x (c_snd c) (c_queues c) (c_fns c) (c_keep c).
Definition with_snd (x : pcb_snd) (c : conn) : conn :=
  mk_conn (remote_port c) (pcb_flags c) (mss c) (c_timers c) (c_rcv c) (c_rtt c) (c_cong c) x (c_queues c) (c_fns c) (c_keep c).
Definition with_queues (x : pcb_queues) (c : conn) : conn :=
  mk_conn (remote_port c) (pcb_flags c) (mss c) (c_timers c) (c_rcv c) (c_rtt c) (c_cong c) (c_snd c) x (c_fns c) (c_keep c).
Definition with_rtime (x : Z) (c : conn) : conn :=
  let r := c_rtt c in with_rtt (mk_rtt x (rttest r) (rtseq r) (sa r) (sv r) (rto r) (nrtx r)) c.
Definition with_rttest (x : Z) (c : conn) : conn :=
  let r := c_rtt c in with_rtt (mk_rtt (rtime r) x (rtseq r) (sa r) (sv r) (rto r) (nrtx r)) c.
Definition with_nrtx (x : Z) (c : conn) : conn :=
  let r := c_rtt c in with_rtt (mk_rtt (rtime r) (rttest r) (rtseq r) (sa r) (sv r) (rto r) x) c.
Definition with_unsent (x : Z) (c : conn) : conn := let q := c_queues c in with_queues (mk_queues x (unacked q) (ooseq q) (refused_data q)) c.
Definition with_unacked (x : Z) (c : conn) : conn := let q := c_queues c in with_queues (mk_queues (unsent q) x (ooseq q) (refused_data q)) c.
Definition with_ooseq (x : Z) (c : conn) : conn := let q := c_queues c in with_queues (mk_queues (unsent q) (unacked q) x (refused_data q)) c.
Definition with_refused (x : Z) (c : conn) : conn := let q := c_queues c in with_queues (mk_queues (unsent q) (unacked q) (ooseq q) x) c.
Definition with_oversize (x : Z) (c : conn) : conn :=
  let n := c_snd c in
  with_snd (mk_snd (snd_nxt n) (snd_wl1 n) (snd_wl2 n) (snd_lbb n) (snd_wnd n) (snd_wnd_max n) (snd_buf n) (snd_queuelen n) x (bytes_acked n)) c.
Definition with_queuelen (x : Z) (c : conn) : conn :=
  let n := c_snd c in
  with_snd (mk_snd (snd_nxt n) (snd_wl1 n) (snd_wl2 n) (snd_lbb n) (snd_wnd n) (snd_wnd_max n) (snd_buf n) x (unsent_oversize n) (bytes_acked n)) c.
Definition with_sndbuf (x : Z) (c : conn) : conn :=
  let n := c_snd c in
  with_snd (mk_snd (snd_nxt n) (snd_wl1 n) (snd_wl2 n) (snd_lbb n) (snd_wnd n) (snd_wnd_max n) x (snd_queuelen n) (unsent_oversize n) (bytes_acked n)) c.
Definition with_bytes_acked (x : Z) (c : conn) : conn :=
  let n := c_snd c in
  with_snd (mk_snd (snd_nxt n) (snd_wl1 n) (snd_wl2 n) (snd_lbb n) (snd_wnd n) (snd_wnd_max n) (snd_buf n) (snd_queuelen n) (unsent_oversize n) x) c.
Definition with_cwnd (x : Z) (c : conn) : conn := let g := c_cong c in with_cong (mk_congestion (dupacks g) (lastack g) x (ssthresh g) (rto_end g)) c.
Definition with_ssthresh (x : Z) (c : conn) : conn := let g := c_cong c in with_cong (mk_congestion (dupacks g) (lastack g) (cwnd g) x (rto_end g)) c.
Definition with_dupacks (x : Z) (c : conn) : conn := let g := c_cong c in with_cong (mk_congestion x (lastack g) (cwnd g) (ssthresh g) (rto_end g)) c.
Definition with_lastack (x : Z) (c : conn) : conn := let g := c_cong c in with_cong (mk_congestion (dupacks g) x (cwnd g) (ssthresh g) (rto_end g)) c.
Definition with_rto_end (x : Z) (c : conn) : conn := let g := c_cong c in with_cong (mk_congestion (dupacks g) (lastack g) (cwnd g) (ssthresh g) x) c.

Definition set_segs (g : gmap Z tcp_seg) (s : tcps) : tcps := mk_tcps (pcbs s) (heads s) (tcp_port s) (tcp_ticks s) (iss s) (t_opts s) g (t_in s).
Definition set_recv_acked (x : Z) (s : tcps) : tcps :=
  let i := t_in s in
  mk_tcps (pcbs s) (heads s) (tcp_port s) (tcp_ticks s) (iss s) (t_opts s) (segs s) (mk_in (in_seqno i) (in_ackno i) x (in_tcplen i) (in_flags i)).

Definition get_seg (a : Z) : M tcps tcp_seg := fun s => match segs s !! a with Some g => Ok (g, s) | None => Fault end.
Definition set_seg_next (a x : Z) : M tcps unit := fun s =>
  match segs s !! a with
  | Some g => Ok (tt, set_segs (<[a := mk_seg x (sg_p g) (sg_len g) (sg_flags g) (sg_tcphdr g)]> (segs s)) s)
  | None => Fault
  end.
Definition seg_fuel (s : tcps) : nat := S (size (segs s)).

(** ** Arithmetic of the sender *)

(** Saturates instead of wrapping. *)
Definition TCP_WND_INC (wnd inc : Z) : Z := if wnd <=? u16 (wnd + inc) then u16 (wnd + inc) else 65535.

(** The window that the other side announces. *)
Definition update_snd_wnd (seqno ackno wnd : Z) (c : conn) : conn :=
  let n := c_snd c in
  if TCP_SEQ_LT (snd_wl1 n) seqno || ((snd_wl1 n =? seqno) && TCP_SEQ_LT (snd_wl2 n) ackno) || ((snd_wl2 n =? ackno) && (snd_wnd n <? wnd))
  then with_snd (mk_snd (snd_nxt n) seqno ackno (snd_lbb n) wnd (if snd_wnd_max n <? wnd then wnd else snd_wnd_max n)
                        (snd_buf n) (snd_queuelen n) (unsent_oversize n) (bytes_acked n)) c
  else c.

(** Slow start and congestion avoidance (RFC 3465). *)
Definition grow_cwnd (acked : Z) (c : conn) : conn :=
  let g := c_cong c in
  if cwnd g <? ssthresh g then
    let num_seg := if (pcb_flags c &c TF_RTO) =? 0 then 2 else 1 in
    let increase := Z.min acked (u16 (num_seg * mss c)) in
    with_cwnd (TCP_WND_INC (cwnd g) increase) c
  else
    let bytes := TCP_WND_INC (bytes_acked (c_snd c)) acked in
    if cwnd g <=? bytes then with_cwnd (TCP_WND_INC (cwnd g) (mss c)) (with_bytes_acked (u16 (bytes - cwnd g)) c)
    else with_bytes_acked bytes c.

(** Fast recovery ends; the counters of retransmission start anew. *)
Definition leave_recovery (c : conn) : conn :=
  if negb ((pcb_flags c &c TF_INFR) =? 0) then with_bytes_acked 0 (with_cwnd (ssthresh (c_cong c)) (tcp_clear_flags TF_INFR c)) else c.
Definition reset_rto (c : conn) : conn :=
  let r := c_rtt c in with_rtt (mk_rtt (rtime r) (rttest r) (rtseq r) (sa r) (sv r) (s16 ((sa r >>c 3) + sv r)) 0) c.

(** The estimator of Van Jacobson: [sa] is eight times the mean, [sv] four times the
    mean deviation. *)
Definition estimate_rtt (ticks : Z) (c : conn) : conn :=
  let r := c_rtt c in
  let m := s16 (ticks - rttest r) in
  let m := s16 (m - (sa r >>c 3)) in
  let sa' := s16 (sa r + m) in
  let m := if m <? 0 then s16 (- m) else m in
  let m := s16 (m - (sv r >>c 2)) in
  let sv' := s16 (sv r + m) in
  with_rtt (mk_rtt (rtime r) 0 (rtseq r) sa' sv' (s16 ((sa' >>c 3) + sv')) (nrtx r)) c.

(** The counters of an acknowledgement of new data, from [if (pcb->flags & TF_INFR)] to
    the congestion window; the state of the connection is at least ESTABLISHED. *)
Definition ack_new_data (ackno : Z) (c : conn) : conn :=
  let c := reset_rto (leave_recovery c) in
  let acked := u16 (ackno - lastack (c_cong c)) in
  grow_cwnd acked (with_lastack ackno (with_dupacks 0 c)).

Section Stack.
Context {H : Type} `{HH : !Heap H}.
Context (tcp_output tcp_send_empty_ack : Z -> M (ip H tcps) Z).

(** ** Headers *)

(** [lwip_ntohl(seg->tcphdr->seqno)], [TCPH_FLAGS] and [TCP_TCPLEN] *)
Definition seg_seqno (seg : Z) : M (ip H tcps) Z :=
  g ← on_tcp (get_seg seg);
  x ← nb (read_u32 (sg_tcphdr g + 4));
  mret (lwip_htonl x).
Definition TCPH_FLAGS (phdr : Z) : M (ip H tcps) Z :=
  x ← nb (read_u16 (phdr + 12));
  mret (u8 (lwip_htons x &c TCP_FLAGS)).
Definition TCP_TCPLEN (seg : Z) : M (ip H tcps) Z :=
  g ← on_tcp (get_seg seg);
  f ← TCPH_FLAGS (sg_tcphdr g);
  mret (sg_len g + (if (f &c (TCP_FIN |c TCP_SYN)) =? 0 then 0 else 1)).

(** ** Release *)

Definition tcp_seg_free (seg : Z) : M (ip H tcps) unit :=
  if negb (seg =? NULL) then
    g ← on_tcp (get_seg seg);
    (if negb (sg_p g =? NULL) then nb (pbuf_free (sg_p g));; mret tt else mret tt);;
    nb (lift_memp (memp_free MEMP_TCP_SEG seg));;
    on_tcp (modify (fun t => set_segs (delete seg (segs t)) t))
  else mret tt.

Fixpoint segs_loop (fuel : nat) (seg : Z) : M (ip H tcps) unit :=
  match fuel with
  | O => nofuel
  | S fuel' =>
      if seg =? NULL then mret tt
      else
        g ← on_tcp (get_seg seg);
        tcp_seg_free seg;;
        segs_loop fuel' (sg_next g)
  end.
Definition tcp_segs_free (seg : Z) : M (ip H tcps) unit :=
  fuel ← on_tcp (gets seg_fuel);
  segs_loop fuel seg.

(** [NULL] if there is no segment left. *)
Definition tcp_seg_copy (seg : Z) : M (ip H tcps) Z :=
  assert (negb (seg =? NULL));;
  cseg ← nb (lift_memp (memp_malloc MEMP_TCP_SEG));
  if cseg =? NULL then mret NULL
  else
    g ← on_tcp (get_seg seg);
    on_tcp (modify (fun t => set_segs (<[cseg := g]> (segs t)) t));;
    nb (pbuf_ref (sg_p g));;
    mret cseg.

Definition tcp_free_ooseq (pcb : Z) : M (ip H tcps) unit :=
  c ← on_tcp (get_conn pcb);
  if negb (ooseq (c_queues c) =? NULL) then
    tcp_segs_free (ooseq (c_queues c));;
    on_tcp (upd_conn pcb (with_ooseq NULL))
  else mret tt.

Definition tcp_pcb_purge (pcb : Z) : M (ip H tcps) unit :=
  if pcb =? NULL then mret tt
  else
    p ← on_tcp (get_pcb pcb);
    if bool_decide (pcb_state (com p) <> CLOSED) && bool_decide (pcb_state (com p) <> TIME_WAIT) && bool_decide (pcb_state (com p) <> LISTEN) then
      c ← on_tcp (get_conn pcb);
      (if negb (refused_data (c_queues c) =? NULL) then
         nb (pbuf_free (refused_data (c_queues c)));;
         on_tcp (upd_conn pcb (with_refused NULL))
       else mret tt);;
      (if negb (ooseq (c_queues c) =? NULL) then tcp_free_ooseq pcb else mret tt);;
      on_tcp (upd_conn pcb (with_rtime (-1)));;
      tcp_segs_free (unsent (c_queues c));;
      tcp_segs_free (unacked (c_queues c));;
      on_tcp (upd_conn pcb (fun c => with_oversize 0 (with_unsent NULL (with_unacked NULL c))))
    else mret tt.

Definition with_closed (c : pcb_common) : pcb_common :=
  mk_common (local_ip c) (remote_ip c) (netif_idx c) (so_options c) (tos c) (ttl c) (pcb_next c) (callback_arg c) CLOSED (prio c) 0.

Definition tcp_pcb_remove (pcblist : pcb_list) (pcb : Z) : M (ip H tcps) unit :=
  assert (negb (pcb =? NULL));;
  on_tcp (TCP_RMV pcblist pcb);;
  tcp_pcb_purge pcb;;
  p ← on_tcp (get_pcb pcb);
  (if bool_decide (pcb_state (com p) <> TIME_WAIT) && bool_decide (pcb_state (com p) <> LISTEN) then
     c ← on_tcp (get_conn pcb);
     if negb ((pcb_flags c &c TF_ACK_DELAY) =? 0) then
       on_tcp (upd_conn pcb (tcp_set_flags TF_ACK_NOW));;
       tcp_output pcb;;
       mret tt
     else mret tt
   else mret tt);;
  p ← on_tcp (get_pcb pcb);
  (if bool_decide (pcb_state (com p) <> LISTEN) then
     c ← on_tcp (get_conn pcb);
     assert (unsent (c_queues c) =? NULL);;
     assert (unacked (c_queues c) =? NULL);;
     assert (ooseq (c_queues c) =? NULL)
   else mret tt);;
  on_tcp (upd_com pcb with_closed).

(** ** Retransmission *)

Definition tcp_output_segment_busy (seg : Z) : M (ip H tcps) bool :=
  assert (negb (seg =? NULL));;
  g ← on_tcp (get_seg seg);
  b ← nb (rd (sg_p g));
  mret (negb (ref b =? 1)).

(** The last segment of the queue, or nothing if one before it is busy. *)
Fixpoint busy_loop (fuel : nat) (seg : Z) : M (ip H tcps) (option Z) :=
  match fuel with
  | O => nofuel
  | S fuel' =>
      g ← on_tcp (get_seg seg);
      if sg_next g =? NULL then mret (Some seg)
      else
        busy ← tcp_output_segment_busy seg;
        if (busy : bool) then mret None else busy_loop fuel' (sg_next g)
  end.

Definition tcp_rexmit_rto_prepare (pcb : Z) : M (ip H tcps) Z :=
  assert (negb (pcb =? NULL));;
  c ← on_tcp (get_conn pcb);
  if unacked (c_queues c) =? NULL then mret ERR_VAL
  else
    fuel ← on_tcp (gets seg_fuel);
    last ← busy_loop fuel (unacked (c_queues c));
    match last with
    | None => mret ERR_VAL
    | Some seg =>
        busy ← tcp_output_segment_busy seg;
        if (busy : bool) then mret ERR_VAL
        else
          on_tcp (set_seg_next seg (unsent (c_queues c)));;
          on_tcp (upd_conn pcb (fun c => with_unacked NULL (with_unsent (unacked (c_queues c)) c)));;
          on_tcp (upd_conn pcb (tcp_set_flags TF_RTO));;
          x ← seg_seqno seg;
          n ← TCP_TCPLEN seg;
          on_tcp (upd_conn pcb (with_rto_end (u32 (x + n))));;
          on_tcp (upd_conn pcb (with_rttest 0));;
          mret ERR_OK
    end.

Definition count_rexmit (c : conn) : conn := if nrtx (c_rtt c) <? 255 then with_nrtx (nrtx (c_rtt c) + 1) c else c.

Definition tcp_rexmit_rto_commit (pcb : Z) : M (ip H tcps) unit :=
  assert (negb (pcb =? NULL));;
  on_tcp (upd_conn pcb count_rexmit);;
  tcp_output pcb;;
  mret tt.
Definition tcp_rexmit_rto (pcb : Z) : M (ip H tcps) unit :=
  assert (negb (pcb =? NULL));;
  e ← tcp_rexmit_rto_prepare pcb;
  if e =? ERR_OK then tcp_rexmit_rto_commit pcb else mret tt.

(** [cur_seg]: the pointer in [prev], or the head of the queue if [prev] is NULL; and
    what it points to. *)
Fixpoint rexmit_loop (fuel : nat) (seg prev cur : Z) : M (ip H tcps) (Z * Z) :=
  match fuel with
  | O => nofuel
  | S fuel' =>
      if cur =? NULL then mret (prev, cur)
      else
        x ← seg_seqno cur;
        y ← seg_seqno seg;
        if TCP_SEQ_LT x y then g ← on_tcp (get_seg cur); rexmit_loop fuel' seg cur (sg_next g)
        else mret (prev, cur)
  end.

Definition tcp_rexmit (pcb : Z) : M (ip H tcps) Z :=
  assert (negb (pcb =? NULL));;
  c ← on_tcp (get_conn pcb);
  if unacked (c_queues c) =? NULL then mret ERR_VAL
  else
    let seg := unacked (c_queues c) in
    busy ← tcp_output_segment_busy seg;
    if (busy : bool) then mret ERR_VAL
    else
      g ← on_tcp (get_seg seg);
      on_tcp (upd_conn pcb (with_unacked (sg_next g)));;
      fuel ← on_tcp (gets seg_fuel);
      '(prev, cur) ← rexmit_loop fuel seg NULL (unsent (c_queues c));
      on_tcp (set_seg_next seg cur);;
      (if prev =? NULL then on_tcp (upd_conn pcb (with_unsent seg)) else on_tcp (set_seg_next prev seg));;
      (if cur =? NULL then on_tcp (upd_conn pcb (with_oversize 0)) else mret tt);;
      on_tcp (upd_conn pcb count_rexmit);;
      on_tcp (upd_conn pcb (with_rttest 0));;
      mret ERR_OK.

(** The threshold is half of the data that may be in flight, and at least two segments. *)
Definition enter_recovery (c : conn) : conn :=
  let t := Z.min (cwnd (c_cong c)) (snd_wnd (c_snd c)) / 2 in
  let t := if t <? 2 * mss c then u16 (2 * mss c) else t in
  with_rtime 0 (tcp_set_flags TF_INFR (with_cwnd (u16 (t + 3 * mss c)) (with_ssthresh t c))).

Definition tcp_rexmit_fast (pcb : Z) : M (ip H tcps) unit :=
  assert (negb (pcb =? NULL));;
  c ← on_tcp (get_conn pcb);
  if negb (unacked (c_queues c) =? NULL) && ((pcb_flags c &c TF_INFR) =? 0) then
    e ← tcp_rexmit pcb;
    if e =? ERR_OK then on_tcp (upd_conn pcb enter_recovery) else mret tt
  else mret tt.

(** ** Acknowledgements *)

Fixpoint acked_loop (fuel : nat) (pcb seg_list other : Z) : M (ip H tcps) Z :=
  match fuel with
  | O => nofuel
  | S fuel' =>
      if seg_list =? NULL then mret NULL
      else
        x ← seg_seqno seg_list;
        n ← TCP_TCPLEN seg_list;
        ackno ← on_tcp (gets (fun t => in_ackno (t_in t)));
        if TCP_SEQ_LEQ (x + n) ackno then
          g ← on_tcp (get_seg seg_list);
          clen ← nb (pbuf_clen (sg_p g));
          c ← on_tcp (get_conn pcb);
          assert (clen <=? snd_queuelen (c_snd c));;
          on_tcp (upd_conn pcb (fun c => with_queuelen (u16 (snd_queuelen (c_snd c) - clen)) c));;
          on_tcp (modify (fun t => set_recv_acked (u16 (recv_acked (t_in t) + sg_len g)) t));;
          tcp_seg_free seg_list;;
          c ← on_tcp (get_conn pcb);
          (if negb (snd_queuelen (c_snd c) =? 0) then assert (negb (sg_next g =? NULL) || negb (other =? NULL)) else mret tt);;
          acked_loop fuel' pcb (sg_next g) other
        else mret seg_list
  end.
Definition tcp_free_acked_segments (pcb seg_list dbg_other_seg_list : Z) : M (ip H tcps) Z :=
  fuel ← on_tcp (gets seg_fuel);
  acked_loop fuel pcb seg_list dbg_other_seg_list.

(** Is the data of a retransmission timeout all acknowledged? *)
Definition rto_done (pcb : Z) : M (ip H tcps) unit :=
  c ← on_tcp (get_conn pcb);
  if negb ((pcb_flags c &c TF_RTO) =? 0) then
    if unacked (c_queues c) =? NULL then
      if unsent (c_queues c) =? NULL then on_tcp (upd_conn pcb (tcp_clear_flags TF_RTO))
      else
        x ← seg_seqno (unsent (c_queues c));
        if TCP_SEQ_LEQ (rto_end (c_cong c)) x then on_tcp (upd_conn pcb (tcp_clear_flags TF_RTO)) else mret tt
    else
      x ← seg_seqno (unacked (c_queues c));
      if TCP_SEQ_LEQ (rto_end (c_cong c)) x then on_tcp (upd_conn pcb (tcp_clear_flags TF_RTO)) else mret tt
  else mret tt.

(** An acknowledgement that does not acknowledge new data, by the five clauses of the
    comment. *)
Definition old_ack (pcb right_wnd_edge : Z) : M (ip H tcps) unit :=
  c ← on_tcp (get_conn pcb);
  i ← on_tcp (gets t_in);
  if (in_tcplen i =? 0) && (u32 (snd_wl2 (c_snd c) + snd_wnd (c_snd c)) =? right_wnd_edge) && (0 <=? rtime (c_rtt c)) &&
     (lastack (c_cong c) =? in_ackno i) then
    on_tcp (upd_conn pcb (fun c => if dupacks (c_cong c) <? u8 (dupacks (c_cong c) + 1) then with_dupacks (u8 (dupacks (c_cong c) + 1)) c else c));;
    c ← on_tcp (get_conn pcb);
    (if 3 <? dupacks (c_cong c) then on_tcp (upd_conn pcb (fun c => with_cwnd (TCP_WND_INC (cwnd (c_cong c)) (mss c)) c)) else mret tt);;
    if 3 <=? dupacks (c_cong c) then tcp_rexmit_fast pcb else mret tt
  else on_tcp (upd_conn pcb (with_dupacks 0)).

Definition with_polltmr (x : Z) (c : conn) : conn :=
  let t := c_timers c in with_timers (mk_timers x (pollinterval t) (last_timer t) (tmr t)) c.

Definition new_ack (pcb : Z) : M (ip H tcps) unit :=
  i ← on_tcp (gets t_in);
  on_tcp (upd_conn pcb (ack_new_data (in_ackno i)));;
  c ← on_tcp (get_conn pcb);
  a ← tcp_free_acked_segments pcb (unacked (c_queues c)) (unsent (c_queues c));
  on_tcp (upd_conn pcb (with_unacked a));;
  c ← on_tcp (get_conn pcb);
  u ← tcp_free_acked_segments pcb (unsent (c_queues c)) (unacked (c_queues c));
  on_tcp (upd_conn pcb (with_unsent u));;
  on_tcp (upd_conn pcb (fun c => with_rtime (if unacked (c_queues c) =? NULL then -1 else 0) c));;
  on_tcp (upd_conn pcb (with_polltmr 0));;
  on_tcp (upd_conn pcb (fun c => if unsent (c_queues c) =? NULL then with_oversize 0 c else c));;
  r ← on_tcp (gets (fun t => recv_acked (t_in t)));
  on_tcp (upd_conn pcb (fun c => with_sndbuf (u16 (snd_buf (c_snd c) + r)) c));;
  rto_done pcb.

(** The first part of [tcp_receive], which is for segments with an acknowledgement. *)
Definition receive_ack (pcb : Z) : M (ip H tcps) unit :=
  c ← on_tcp (get_conn pcb);
  let right_wnd_edge := u32 (snd_wnd (c_snd c) + snd_wl2 (c_snd c)) in
  i ← on_tcp (gets t_in);
  o ← on_tcp (gets t_opts);
  wnd ← nb (read_u16 (tcphdr o + 14));
  on_tcp (upd_conn pcb (update_snd_wnd (in_seqno i) (in_ackno i) wnd));;
  c ← on_tcp (get_conn pcb);
  (if TCP_SEQ_LEQ (in_ackno i) (lastack (c_cong c)) then old_ack pcb right_wnd_edge
   else if TCP_SEQ_BETWEEN (in_ackno i) (lastack (c_cong c) + 1) (snd_nxt (c_snd c)) then new_ack pcb
   else tcp_send_empty_ack pcb;; mret tt);;
  c ← on_tcp (get_conn pcb);
  ticks ← on_tcp (gets tcp_ticks);
  if negb (rttest (c_rtt c) =? 0) && TCP_SEQ_LT (rtseq (c_rtt c)) (in_ackno i) then on_tcp (upd_conn pcb (estimate_rtt ticks)) else mret tt.
End Stack.
