(* ===== verification/TcpSegSpec.v ===== *)
(** * Properties of the TCP queues

    The segments refer to packets; every element of the segment pool is either free or a
    live segment. Purging a connection gives all of it back, acknowledged segments leave
    the queues in order, and retransmission keeps what it moves. *)

From S2P Require Import Prelude Chksum Memp Pbuf PbufSpec PbufData PbufRefs Ethernetif Ip4Addr Ethernet Etharp EtharpSpec Ip4 Ip4Spec TcpApi Tcp TcpSpec TcpSeg.
From stdpp Require Import base numbers list gmap gmultiset functions sorting.
Open Scope Z_scope.
Open Scope c_scope.

(** ** Queues *)

Fixpoint seg_chain (g : gmap Z tcp_seg) (h : Z) (l : list Z) : Prop :=
  match l with
  | [] => h = NULL
  | a :: l' => h = a /\ a <> NULL /\ exists x, g !! a = Some x /\ seg_chain g (sg_next x) l'
  end.

Lemma seg_chain_same g g' h l : (forall a, a ∈ l -> g' !! a = g !! a) -> seg_chain g h l -> seg_chain g' h l.
Proof.
  revert h. induction l as [|b l IH]; intros h Hg; [done|]. intros (-> & Hz & q & E & Hc). split_and!; [done..|].
  exists q. rewrite Hg by left. split; [done|]. apply IH; [|done]. intros a Ha. apply Hg. by right.
Qed.

Lemma seg_chain_live g h l a : seg_chain g h l -> a ∈ l -> a <> NULL /\ is_Some (g !! a).
Proof.
  revert h. induction l as [|b l IH]; intros h; [by intros _ ?%elem_of_nil|]. intros (-> & Hz & p & E & Hc) [->|Ha]%elem_of_cons; [by eauto|by eapply IH].
Qed.

Lemma seg_chain_size g h l : NoDup l -> seg_chain g h l -> (length l <= base.size g)%nat.
Proof.
  intros Hnd Hc. rewrite <- size_dom. rewrite <- (size_list_to_set (C := gset Z) l Hnd). apply subseteq_size.
  intros a Ha%elem_of_list_to_set. apply elem_of_dom. by apply (seg_chain_live g h l a).
Qed.

Lemma seg_chain_delete g h l k : (forall a, a ∈ l -> a ∉ k) -> seg_chain g h l -> seg_chain (foldr delete g k) h l.
Proof. intros Hd. apply seg_chain_same. intros a Ha. apply lookup_foldr_delete_not_elem_of. by apply Hd. Qed.

Lemma foldr_delete_commute (g : gmap Z tcp_seg) a l : foldr delete (delete a g) l = delete a (foldr delete g l).
Proof. induction l as [|b l IH]; [done|]. cbn [foldr]. by rewrite IH, delete_delete. Qed.

(** The references that the segments hold. *)
Definition seg_ptrs (g : gmap Z tcp_seg) : gmultiset Z := map_fold (fun _ x R => ptr (sg_p x) ⊎ R) ∅ g.

Lemma seg_ptrs_insert g a x : g !! a = None -> seg_ptrs (<[a := x]> g) = ptr (sg_p x) ⊎ seg_ptrs g.
Proof. intros E. unfold seg_ptrs. by rewrite map_fold_insert_L; [|intros; multiset_solver|]. Qed.
Lemma seg_ptrs_delete g a x : g !! a = Some x -> seg_ptrs g = ptr (sg_p x) ⊎ seg_ptrs (delete a g).
Proof. intros E. rewrite <- (seg_ptrs_insert (delete a g) a x) by apply lookup_delete_eq. by rewrite insert_delete_id. Qed.
Lemma seg_ptrs_update g a x x' : g !! a = Some x -> sg_p x' = sg_p x -> seg_ptrs (<[a := x']> g) = seg_ptrs g.
Proof. intros E Ep. rewrite (seg_ptrs_delete g a x E), <- insert_delete_eq, seg_ptrs_insert, Ep; [done|apply lookup_delete_eq]. Qed.

(** Packet buffers do not come from the pool of segments. *)
Lemma give_other l fl hl t : t <> MEMP_PBUF -> t <> MEMP_PBUF_POOL -> (foldl give (fl, hl) l).1 t = fl t.
Proof.
  intros H1 H2. revert fl hl. induction l as [|[a b] l IH]; intros fl hl; [done|]. cbn [foldl give].
  destruct (_ =? 2); [|destruct (_ =? 1)]; rewrite IH; try done; by rewrite fn_lookup_insert_ne.
Qed.

(** ** Headers and packets of segments *)

(** The header at [h] has the sequence number [q] and the flags [f]. *)
Definition hdr_at (m : memory) (h q f : Z) : Prop :=
  exists b0 b1 b2 b3 x, bytes_ok [b0; b1; b2; b3; x; f] /\ load m (h + 4) 4 = Some [b0; b1; b2; b3] /\ q = word4 b3 b2 b1 b0 /\
  load m (h + 12) 2 = Some [x; f].

(** What a segment is to the other side: where it starts and how much of the sequence
    space it takes; what it is to this side: its data and the number of its pbufs. *)
Record seg_view := mk_view { v_seq : Z; v_space : Z; v_data : Z; v_pbufs : Z }.

Definition views (m : memory) (ps : gmap Z pbuf) (g : gmap Z tcp_seg) (a : Z) (v : seg_view) : Prop :=
  exists x f l, g !! a = Some x /\ hdr_at m (sg_tcphdr x) (v_seq v) f /\ sg_p x <> NULL /\ is_chain ps (sg_p x) l /\
  v_data v = sg_len x /\ v_space v = sg_len x + (if f &c 3 =? 0 then 0 else 1) /\ v_pbufs v = Z.of_nat (length l).

Definition acked (ackno : Z) (v : seg_view) : bool := TCP_SEQ_LEQ (v_seq v + v_space v) ackno.
Fixpoint n_acked (ackno : Z) (vs : list seg_view) : nat :=
  match vs with
  | v :: vs' => if acked ackno v then S (n_acked ackno vs') else 0
  | [] => 0
  end.
Definition total (f : seg_view -> Z) (vs : list seg_view) : Z := foldr (fun v n => f v + n) 0 vs.

Lemma total_app f vs ws : total f (vs ++ ws) = total f vs + total f ws.
Proof. induction vs as [|v vs IH]; [done|]. cbn [app total foldr]. fold (total f (vs ++ ws)) (total f vs). lia. Qed.

Lemma pbufs_pos m ps g l vs : Forall2 (views m ps g) l vs -> 0 <= total v_pbufs vs.
Proof.
  induction 1 as [|a v l vs (x & f & q & _ & _ & _ & _ & _ & _ & Ev) _ IH]; [done|]. cbn [total foldr]. fold (total v_pbufs vs). lia.
Qed.

(** Other segments and packets that stay. *)
Lemma views_keep m ps ps' g g' R a v x : views m ps g a v -> g' !! a = g !! a -> g !! a = Some x -> keeps ps ps' -> rc ps' R -> sg_p x ∈ R ->
  views m ps' g' a v.
Proof.
  intros (y & f & l & Ey & Hh & Hz & Hc & Ed & Es & Ep) Eg Ex Hk Hrc HR. rewrite Ex in Ey. injection Ey as <-.
  destruct (keeps_packet ps ps' R (sg_p x) Hk Hrc (or_intror HR) l Hc) as (l' & Hc' & Hf). exists x, f, l'. rewrite Eg.
  split_and!; [done..|]. by rewrite <- (Forall2_length _ _ _ Hf).
Qed.

Lemma seg_ptrs_elem g a x : g !! a = Some x -> sg_p x <> NULL -> sg_p x ∈ seg_ptrs g.
Proof. intros E Hz. rewrite (seg_ptrs_delete g a x E), ptr_some by done. multiset_solver. Qed.

Section Clen.
Context {H : Type} `{HH : !Heap H}.

Lemma clen_loop_ok l : forall fuel (n : net H) p j, is_chain (n_pbufs n) p l -> 0 <= j -> j + Z.of_nat (length l) < 65536 -> (length l < fuel)%nat ->
  pbuf_clen_loop fuel p j n = Ok (j + Z.of_nat (length l), n).
Proof.
  induction l as [|[a b] l IH]; intros [|fuel] n p j Hc Hj Hl Hf; cbn [length] in *; try lia; cbn [pbuf_clen_loop].
  - simpl in Hc. subst p. cbn. unfold mret, M_ret. do 2 f_equal. lia.
  - destruct Hc as (-> & Hz & E & Hc). rewrite (proj2 (Z.eqb_neq _ _) Hz), (bind_ok _ _ _ _ _ (rd_ok a b n E)).
    rewrite u16_small by (unfold is_u16; lia). rewrite (IH fuel n (next b) (j + 1) Hc) by lia. do 2 f_equal. lia.
Qed.

Lemma clen_ok (n : net H) p l : is_chain (n_pbufs n) p l -> Z.of_nat (length l) < 65536 -> pbuf_clen p n = Ok (Z.of_nat (length l), n).
Proof.
  intros Hc Hl. unfold pbuf_clen. rewrite (bind_ok chain_fuel _ _ (S (S (base.size (n_pbufs n)))) n) by done.
  pose proof (is_chain_size _ _ _ Hc). by rewrite (clen_loop_ok l) by (done || lia).
Qed.
End Clen.

Section Seg.
Context (pools : memp_t -> memp_desc) `{HP : !PoolsOk pools} {H : Type} `{HH : !Heap H} `{HL : !HeapLaws pools H}.
Implicit Types s : ip H tcps.
Local Abbreviation segs_of s := (segs (i_upper s)).
Local Abbreviation chains s := (n_pbufs (snet s)).

(** [refs] with the free lists of the pools named. *)
Definition net_ok (n : net H) (fl : memp_t -> list Z) (hl : gset Z) (R : gmultiset Z) : Prop :=
  net_inv pools n fl hl /\ rc (n_pbufs n) R /\
  (forall a b, n_pbufs n !! a = Some b -> placed (n_mem n) a b) /\ valid_range (n_mem n) heap_lo (heap_hi - heap_lo).

Lemma net_ok_refs n fl hl R : net_ok n fl hl R -> refs pools n R.
Proof. intros (Hn & Hrc & Hp & Hv). split_and!; eauto. Qed.

(** What is left when packets are released: no new ones, and the bytes as they were. *)
Definition released (n n' : net H) : Prop := n_mem n' = n_mem n /\ keeps (n_pbufs n) (n_pbufs n').

Lemma keeps_trans ps1 ps2 ps3 : keeps ps1 ps2 -> keeps ps2 ps3 -> keeps ps1 ps3.
Proof.
  intros H1 H2 a b3 E3. destruct (H2 a b3 E3) as (b2 & E2 & Hb3 & Hr2). destruct (H1 a b2 E2) as (b1 & E1 & Hb2 & Hr1).
  exists b1. split_and!; [done| |lia]. rewrite Hb3, Hb2. done.
Qed.
Global Instance released_preorder : PreOrder released.
Proof.
  split; [intros n; split; [done|apply keeps_refl]|]. intros n1 n2 n3 [E1 K1] [E2 K2]. split; [congruence|]. by eapply keeps_trans.
Qed.

(** A reference is given up. *)
Lemma free_ptr_ok n fl hl R p : net_ok n fl hl (ptr p ⊎ R) -> p <> NULL ->
  exists k n' fl' hl', pbuf_free p n = Ok (k, n') /\ net_ok n' fl' hl' R /\ fl' MEMP_TCP_SEG = fl MEMP_TCP_SEG /\ released n n'.
Proof.
  intros Hi Hz. pose proof Hi as (Hn & Hrc & Hp & Hv). pose proof (net_ok_refs _ _ _ _ Hi) as Hr.
  destruct (refs_chain pools n _ p Hr) as (_ & b & l & _ & Hc); [rewrite ptr_some by done; multiset_solver|].
  destruct (pbuf_free_spec pools _ n fl hl p Hn Hc Hz) as (n' & E & Es & Em & _ & Hn').
  pose proof (free_store_keeps _ _ _ Hc) as Hk. rewrite <- Es in Hk.
  eexists _, n', _, _. split; [exact E|]. split; [|split; [by apply give_other|done]]. split_and!; [exact Hn'| | |by rewrite Em].
  - rewrite Es. by eapply rc_free_store.
  - intros a c Ec. destruct (Hk a c Ec) as (c0 & E0 & -> & _). rewrite Em. exact (Hp a c0 E0).
Qed.

(** Every element of the pool is free or a live segment. *)
Definition seg_pool (fl : memp_t -> list Z) (g : gmap Z tcp_seg) : Prop :=
  (forall a, is_Some (g !! a) -> a ∈ elems (pools MEMP_TCP_SEG)) /\
  (forall a, a ∈ elems (pools MEMP_TCP_SEG) -> a ∈ fl MEMP_TCP_SEG <-> g !! a = None).

(** The packet buffers and the segments when [R] are the references held outside both. *)
Definition seg_inv s (R : gmultiset Z) : Prop :=
  exists fl hl, net_ok (snet s) fl hl (seg_ptrs (segs_of s) ⊎ R) /\ seg_pool fl (segs_of s).

Lemma seg_inv_upper s R t : seg_inv s R -> segs t = segs_of s -> seg_inv (with_upper t s) R.
Proof. intros Hi E. unfold seg_inv. cbn [i_upper with_upper]. rewrite E. exact Hi. Qed.

(** New packet buffers and a new state of TCP. *)
Definition moved_on (n : net H) (t : tcps) s : ip H tcps := with_upper t (set_snet n s).

Lemma moved_on_id t s : moved_on (snet s) t s = with_upper t s.
Proof. unfold moved_on. by rewrite set_snet_id. Qed.
Lemma moved_on_same n s : moved_on n (i_upper s) s = set_snet n s.
Proof. exact (with_upper_id (set_snet n s)). Qed.
Lemma snet_moved n t s : snet (moved_on n t s) = n.
Proof. by destruct n. Qed.

Lemma free_data_ok s R p : seg_inv s (ptr p ⊎ R) -> p <> NULL ->
  exists k n, nb (pbuf_free p) s = Ok (k, moved_on n (i_upper s) s) /\ seg_inv (moved_on n (i_upper s) s) R /\ released (snet s) n.
Proof.
  intros (fl & hl & Hn & Hp) Hz. destruct (free_ptr_ok (snet s) fl hl (seg_ptrs (segs_of s) ⊎ R) p) as (k & n & fl' & hl' & E & Hn' & Ef & Hr); [|done|].
  { by replace (ptr p ⊎ (seg_ptrs (segs_of s) ⊎ R)) with (seg_ptrs (segs_of s) ⊎ (ptr p ⊎ R)) by multiset_solver. }
  exists k, n. split_and!; [rewrite moved_on_same; by apply nb_ok| |done]. exists fl', hl'. rewrite snet_moved. split; [exact Hn'|]. unfold seg_pool. rewrite Ef. exact Hp.
Qed.

Lemma seg_free_ok s R a x : seg_inv s R -> segs_of s !! a = Some x ->
  exists n, let s' := moved_on n (set_segs (delete a (segs_of s)) (i_upper s)) s in
    tcp_seg_free a s = Ok (tt, s') /\ seg_inv s' R /\ released (snet s) n.
Proof.
  intros (fl & hl & Hn & He & Hf) E. assert (a ∈ elems (pools MEMP_TCP_SEG)) as Ha by (apply He; eauto).
  destruct (elem_props pools MEMP_TCP_SEG a Ha) as (Hz & _). unfold tcp_seg_free. rewrite (proj2 (Z.eqb_neq _ _) Hz). cbn [negb].
  assert (get_seg a (i_upper s) = Ok (x, i_upper s)) as Eg by (unfold get_seg; by rewrite E).
  rewrite (bind_ok _ _ _ _ _ (on_tcp_ok s _ _ _ Eg)), with_upper_id.
  rewrite (seg_ptrs_delete _ a x E), <- (assoc_L (⊎)) in Hn. set (Q := seg_ptrs (delete a (segs_of s)) ⊎ R) in *.
  assert (exists n fl1 hl1, (if negb (sg_p x =? NULL) then nb (pbuf_free (sg_p x));; mret tt else mret tt) s = Ok (tt, set_snet n s) /\
    net_ok n fl1 hl1 Q /\ fl1 MEMP_TCP_SEG = fl MEMP_TCP_SEG /\ released (snet s) n) as (n & fl1 & hl1 & E1 & Hn1 & Ef1 & Hr1).
  { destruct (Z.eqb_spec (sg_p x) NULL) as [Hp|Hp]; cbn [negb].
    - exists (snet s), fl, hl. rewrite set_snet_id. split_and!; [done| |done|done]. by rewrite Hp, ptr_null, (left_id_L ∅ (⊎)) in Hn.
    - destruct (free_ptr_ok (snet s) fl hl Q (sg_p x) Hn Hp) as (k & n & fl' & hl' & En & Hn' & Ef & Hr). exists n, fl', hl'.
      split_and!; [|done..]. by rewrite (bind_ok _ _ _ _ _ (nb_ok _ s _ n En)). }
  rewrite (bind_ok _ _ _ _ _ E1). destruct Hn1 as ((Hpr & Hh & Ho) & Hrc & Hpl & Hv).
  destruct (memp_free_spec pools (n_memp n) fl1 MEMP_TCP_SEG a Hpr) as (k & Ek & Hpr'); [done|done|rewrite Ef1, (Hf a Ha), E; done|].
  set (n2 := mk_net k (n_heap n) (n_pbufs n) (n_mem n) (n_ooseq n)).
  rewrite (bind_ok _ _ (set_snet n s) tt (set_snet n2 s)); [|by apply (lift_memp_ip (set_snet n s))].
  exists n2. split; [done|]. split; [|done]. exists (<[MEMP_TCP_SEG := a :: fl1 MEMP_TCP_SEG]> fl1), hl1. rewrite snet_moved. split.
  - split_and!; [|done..]. split_and!; [done|done|]. intros y b Eb. specialize (Ho y b Eb). unfold owned in *.
    by rewrite !fn_lookup_insert_ne.
  - split.
    + intros y [z Hy]. cbn in Hy. apply lookup_delete_Some in Hy as [_ Hy]. apply He. eauto.
    + intros y Hy. cbn. rewrite fn_lookup_insert, elem_of_cons, Ef1, (Hf y Hy), lookup_delete_None. naive_solver.
Qed.

Lemma segs_loop_ok l : forall fuel s R h, seg_inv s R -> seg_chain (segs_of s) h l -> NoDup l -> (length l < fuel)%nat ->
  exists n, let s' := moved_on n (set_segs (foldr delete (segs_of s) l) (i_upper s)) s in
    segs_loop fuel h s = Ok (tt, s') /\ seg_inv s' R /\ released (snet s) n.
Proof.
  induction l as [|a l IH]; intros [|fuel] s R h Hi Hc Hnd Hf; cbn [length] in Hf; try lia; cbn [segs_loop].
  - simpl in Hc. rewrite Hc. exists (snet s). rewrite moved_on_id. cbn [foldr Z.eqb]. destruct s as [? ? ? ? ? []]. split_and!; done.
  - destruct Hc as (-> & Hz & x & E & Hc). apply NoDup_cons in Hnd as [Hni Hnd]. rewrite (proj2 (Z.eqb_neq _ _) Hz).
    assert (get_seg a (i_upper s) = Ok (x, i_upper s)) as Eg by (unfold get_seg; by rewrite E).
    rewrite (bind_ok _ _ _ _ _ (on_tcp_ok s _ _ _ Eg)), with_upper_id.
    destruct (seg_free_ok s R a x Hi E) as (n & En & Hn & Hr). rewrite (bind_ok _ _ _ _ _ En). set (s1 := moved_on n _ s) in *.
    destruct (IH fuel s1 R (sg_next x) Hn) as (n' & En' & Hn' & Hr'); [|done|lia|].
    { cbn. eapply seg_chain_same; [|exact Hc]. intros y Hy. rewrite lookup_delete_ne; [done|]. by intros ->. }
    exists n'. cbn in En', Hn'. cbn [foldr]. rewrite <- foldr_delete_commute. split_and!; [exact En'|exact Hn'|].
    unfold s1 in Hr'. rewrite snet_moved in Hr'. by etransitivity.
Qed.

(** ** One connection *)

Section Conn.
Context (s : ip H tcps) (pcb : Z) (k : pcb_common).

(** The state [s] with other packet buffers [n], state of TCP [t], segments [g] and
    members [c] of the connection [pcb]. *)
Definition set_conn (c : conn) (t : tcps) : tcps := set_pcbs (<[pcb := mk_pcb k (Conn c)]> (pcbs t)) t.
Definition qst (n : net H) (t : tcps) (g : gmap Z tcp_seg) (c : conn) : ip H tcps := moved_on n (set_conn c (set_segs g t)) s.

Lemma qst_id c : pcbs (i_upper s) !! pcb = Some (mk_pcb k (Conn c)) -> qst (snet s) (i_upper s) (segs_of s) c = s.
Proof.
  intros E. unfold qst. rewrite moved_on_id. unfold set_conn. cbn [pcbs set_segs]. rewrite insert_id by exact E.
  destruct s as [? ? ? ? ? []]. done.
Qed.

Lemma q_conn n t g c : on_tcp (get_conn pcb) (qst n t g c) = Ok (c, qst n t g c).
Proof.
  rewrite (on_tcp_ok (qst n t g c) (get_conn pcb) c (i_upper (qst n t g c))), with_upper_id; [done|].
  unfold get_conn, qst, moved_on, set_conn. cbn. by rewrite lookup_insert_eq.
Qed.

Lemma q_upd n t g c f : on_tcp (upd_conn pcb f) (qst n t g c) = Ok (tt, qst n t g (f c)).
Proof.
  rewrite (on_tcp_ok (qst n t g c) (upd_conn pcb f) tt (set_conn (f c) (set_segs g t))); [done|].
  unfold upd_conn, qst, moved_on, set_conn. cbn. rewrite lookup_insert_eq. do 2 f_equal. unfold set_pcbs. cbn. by rewrite insert_insert_eq.
Qed.

Lemma q_get n t g c {A} (f : tcps -> A) : (forall x t', f (set_conn x t') = f t') -> (forall x t', f (set_segs x t') = f t') ->
  on_tcp (gets f) (qst n t g c) = Ok (f t, qst n t g c).
Proof.
  intros Hc Hg. rewrite (on_tcp_ok (qst n t g c) (gets f) (f t) (i_upper (qst n t g c))), with_upper_id; [done|].
  unfold gets, qst, moved_on. cbn. by rewrite Hc, Hg.
Qed.

Lemma q_seg n t g c a x : g !! a = Some x -> on_tcp (get_seg a) (qst n t g c) = Ok (x, qst n t g c).
Proof.
  intros E. rewrite (on_tcp_ok (qst n t g c) (get_seg a) x (i_upper (qst n t g c))), with_upper_id; [done|].
  unfold get_seg, qst, moved_on. cbn. by rewrite E.
Qed.

Lemma q_seg_free n t g c R a x : seg_inv (qst n t g c) R -> g !! a = Some x ->
  exists n', tcp_seg_free a (qst n t g c) = Ok (tt, qst n' t (delete a g) c) /\ seg_inv (qst n' t (delete a g) c) R /\ released n n'.
Proof.
  intros Hi E. destruct (seg_free_ok (qst n t g c) R a x Hi E) as (n' & En & Hn & Hr). exists n'.
  unfold qst in Hr. rewrite snet_moved in Hr. split_and!; [exact En|exact Hn|exact Hr].
Qed.

Lemma q_segs_free n t g c R h l : seg_inv (qst n t g c) R -> seg_chain g h l -> NoDup l ->
  exists n', tcp_segs_free h (qst n t g c) = Ok (tt, qst n' t (foldr delete g l) c) /\
    seg_inv (qst n' t (foldr delete g l) c) R /\ released n n'.
Proof.
  intros Hi Hc Hnd. unfold tcp_segs_free. rewrite (bind_ok _ _ _ (seg_fuel (i_upper (qst n t g c))) (qst n t g c)) by done.
  destruct (segs_loop_ok l (seg_fuel (i_upper (qst n t g c))) (qst n t g c) R h Hi Hc Hnd) as (n' & En & Hn & Hr).
  { unfold seg_fuel. cbn. pose proof (seg_chain_size g h l Hnd Hc). lia. }
  exists n'. unfold qst in Hr. rewrite snet_moved in Hr. split_and!; [exact En|exact Hn|exact Hr].
Qed.

Lemma q_inv n t g c R t' c' : seg_inv (qst n t g c) R -> seg_inv (qst n t' g c') R.
Proof. intros Hi. exact (seg_inv_upper (qst n t g c) R (set_conn c' (set_segs g t')) Hi eq_refl). Qed.

Lemma q_free_data n t g c R p : seg_inv (qst n t g c) (ptr p ⊎ R) -> p <> NULL ->
  exists j n', nb (pbuf_free p) (qst n t g c) = Ok (j, qst n' t g c) /\ seg_inv (qst n' t g c) R /\ released n n'.
Proof.
  intros Hi Hz. destruct (free_data_ok (qst n t g c) R p Hi Hz) as (j & n' & En & Hn & Hr). exists j, n'.
  unfold qst in Hr. rewrite snet_moved in Hr. split_and!; [exact En|exact Hn|exact Hr].
Qed.

(** ** Purging *)

Definition purged (c : conn) : conn :=
  with_oversize 0 (with_unsent NULL (with_unacked NULL (with_rtime (-1) (with_ooseq NULL (with_refused NULL c))))).

Lemma with_refused_id c : refused_data (c_queues c) = NULL -> with_refused NULL c = c.
Proof. intros E. destruct c as [? ? ? ? ? ? ? ? [] ? ?]. cbn in *. by rewrite E. Qed.
Lemma with_ooseq_id c : ooseq (c_queues c) = NULL -> with_ooseq NULL c = c.
Proof. intros E. destruct c as [? ? ? ? ? ? ? ? [] ? ?]. cbn in *. by rewrite E. Qed.

Lemma purge_refused n t g c R : seg_inv (qst n t g c) (ptr (refused_data (c_queues c)) ⊎ R) ->
  exists n', (if negb (refused_data (c_queues c) =? NULL) then nb (pbuf_free (refused_data (c_queues c)));; on_tcp (upd_conn pcb (with_refused NULL))
    else mret tt) (qst n t g c) = Ok (tt, qst n' t g (with_refused NULL c)) /\ seg_inv (qst n' t g (with_refused NULL c)) R /\ released n n'.
Proof.
  intros Hi. destruct (Z.eqb_spec (refused_data (c_queues c)) NULL) as [E|E]; cbn [negb].
  - rewrite with_refused_id by done. rewrite E, ptr_null, (left_id_L ∅ (⊎)) in Hi. by exists n.
  - destruct (q_free_data n t g c R _ Hi E) as (j & n' & En & Hn & Hr). exists n'. rewrite (bind_ok _ _ _ _ _ En), q_upd.
    split_and!; [done|by eapply q_inv|done].
Qed.

Lemma purge_ooseq n t g c R l : seg_inv (qst n t g c) R -> seg_chain g (ooseq (c_queues c)) l -> NoDup l ->
  exists n', (if negb (ooseq (c_queues c) =? NULL) then tcp_free_ooseq pcb else mret tt) (qst n t g c) =
      Ok (tt, qst n' t (foldr delete g l) (with_ooseq NULL c)) /\
    seg_inv (qst n' t (foldr delete g l) (with_ooseq NULL c)) R /\ released n n'.
Proof.
  intros Hi Hc Hnd. destruct (Z.eqb_spec (ooseq (c_queues c)) NULL) as [E|E]; cbn [negb].
  - rewrite E in Hc. destruct l as [|a l]; [|by destruct Hc as (<- & Hz & _)]. rewrite with_ooseq_id by done. by exists n.
  - unfold tcp_free_ooseq. rewrite (bind_ok _ _ _ _ _ (q_conn n t g c)), (proj2 (Z.eqb_neq _ _) E). cbn [negb].
    destruct (q_segs_free n t g c R _ l Hi Hc Hnd) as (n' & En & Hn & Hr). exists n'. rewrite (bind_ok _ _ _ _ _ En), q_upd.
    split_and!; [done|by eapply q_inv|done].
Qed.

Definition in_use (x : tcp_state) : Prop := x <> CLOSED /\ x <> TIME_WAIT /\ x <> LISTEN.

(** C6: purging a connection. [tcp_pcb_purge] of a connection in use returns without a
    failed assertion or invalid access. All segments of its three queues are back in their
    pool and the packets they and [refused_data] referred to have lost exactly these
    references: the counts are exact for what remains, other packets are as before, the
    bytes in memory are untouched, and of the control block only the queues, the
    retransmission timer and [unsent_oversize] have changed. *)
Theorem tcp_pcb_purge_releases (R : gmultiset Z) (c : conn) (lo ls lu : list Z)
  (Hi : seg_inv s (ptr (refused_data (c_queues c)) ⊎ R)) (E : pcbs (i_upper s) !! pcb = Some (mk_pcb k (Conn c))) (Hz : pcb <> NULL)
  (Hst : in_use (pcb_state k)) (Ho : seg_chain (segs_of s) (ooseq (c_queues c)) lo) (Hs : seg_chain (segs_of s) (unsent (c_queues c)) ls)
  (Hu : seg_chain (segs_of s) (unacked (c_queues c)) lu) (Hnd : NoDup (lu ++ ls ++ lo)) :
  exists n, let s' := qst n (i_upper s) (foldr delete (segs_of s) (lu ++ ls ++ lo)) (purged c) in
    tcp_pcb_purge pcb s = Ok (tt, s') /\ seg_inv s' R /\ n_mem n = n_mem (snet s) /\
    forall p, p ∈ seg_ptrs (segs_of s') ⊎ R -> same_packet (chains s) (n_pbufs n) p.
Proof.
  apply NoDup_app in Hnd as (Hndu & Hdu & Hnd). apply NoDup_app in Hnd as (Hnds & Hds & Hndo). destruct Hst as (H1 & H2 & H3).
  pose proof (qst_id c E) as Eq. set (t := i_upper s) in *. set (g := segs t) in *. rewrite <- Eq in Hi.
  assert (tcp_pcb_purge pcb s = tcp_pcb_purge pcb (qst (snet s) t g c)) as -> by (by rewrite Eq).
  unfold tcp_pcb_purge. rewrite (proj2 (Z.eqb_neq _ _) Hz).
  assert (on_tcp (get_pcb pcb) (qst (snet s) t g c) = Ok (mk_pcb k (Conn c), qst (snet s) t g c)) as Ep.
  { rewrite Eq. rewrite (on_tcp_ok s _ _ _ (get_pcb_ok _ pcb _ E)). do 2 f_equal. exact (with_upper_id s). }
  rewrite (bind_ok _ _ _ _ _ Ep). cbn [com]. rewrite !bool_decide_true by done. cbn [andb]. rewrite (bind_ok _ _ _ _ _ (q_conn _ t g c)).
  destruct (purge_refused _ t g c R Hi) as (n1 & E1 & Hi1 & Hr1). rewrite (bind_ok _ _ _ _ _ E1).
  destruct (purge_ooseq n1 t g (with_refused NULL c) R lo Hi1 Ho Hndo) as (n2 & E2 & Hi2 & Hr2). change (ooseq (c_queues (with_refused NULL c))) with (ooseq (c_queues c)) in E2.
  rewrite (bind_ok _ _ _ _ _ E2), (bind_ok _ _ _ _ _ (q_upd _ _ _ _ _)). set (g1 := foldr delete g lo) in *. set (c1 := with_rtime (-1) _).
  destruct (q_segs_free n2 t g1 c1 R (unsent (c_queues c)) ls) as (n3 & E3 & Hi3 & Hr3); [by eapply q_inv| |done|].
  { apply seg_chain_delete; [|done]. intros a Ha. set_solver. }
  rewrite (bind_ok _ _ _ _ _ E3). set (g2 := foldr delete g1 ls) in *.
  destruct (q_segs_free n3 t g2 c1 R (unacked (c_queues c)) lu Hi3) as (n4 & E4 & Hi4 & Hr4); [|done|].
  { unfold g2, g1. rewrite <- foldr_app. apply seg_chain_delete; [|done]. intros a Ha. set_solver. }
  rewrite (bind_ok _ _ _ _ _ E4), q_upd. exists n4. rewrite !foldr_app. fold g1 g2.
  assert (released (snet s) n4) as [Em Hk] by (do 3 (etransitivity; [eassumption|]); done).
  assert (seg_inv (qst n4 t (foldr delete g2 lu) (purged c)) R) as Hi5 by (by eapply q_inv).
  split_and!; [done|done|done|]. intros p Hp. destruct Hi5 as (fl & hl & (_ & Hrc & _) & _). unfold qst in Hrc. rewrite snet_moved in Hrc.
  by apply (keeps_packet _ _ _ p Hk Hrc); right.
Qed.

(** ** Acknowledged segments *)

Lemma q_seqno n t g c a x q f : g !! a = Some x -> hdr_at (n_mem n) (sg_tcphdr x) q f -> seg_seqno a (qst n t g c) = Ok (q, qst n t g c).
Proof.
  intros E (b0 & b1 & b2 & b3 & y & Hb & El & -> & _). unfold seg_seqno. rewrite (bind_ok _ _ _ _ _ (q_seg n t g c a x E)).
  rewrite (bind_ok _ _ _ _ _ (nb_read_u32 (qst n t g c) (sg_tcphdr x + 4) [b0; b1; b2; b3] ltac:(unfold qst; by rewrite snet_moved))).
  unfold bytes_ok in Hb. rewrite !Forall_cons in Hb. destruct Hb as (H0 & H1 & H2 & H3 & _). unfold mret, M_ret. do 2 f_equal. exact (htonl_word b3 b2 b1 b0 H3 H2 H1 H0).
Qed.

Lemma flags_word y f : is_u8 y -> is_u8 f -> u8 (lwip_htons (y + 256 * f) &c TCP_FLAGS) = f &c 63.
Proof.
  unfold is_u8. intros Hy Hf. rewrite htons_swap, swap_spec by (unfold is_u16; lia). change TCP_FLAGS with (Z.ones 6). change 63 with (Z.ones 6).
  rewrite !Z.land_ones by lia. unfold u8. lia.
Qed.

Lemma q_tcplen n t g c a x q f : g !! a = Some x -> hdr_at (n_mem n) (sg_tcphdr x) q f ->
  TCP_TCPLEN a (qst n t g c) = Ok (sg_len x + (if f &c 3 =? 0 then 0 else 1), qst n t g c).
Proof.
  intros E (b0 & b1 & b2 & b3 & y & Hb & _ & _ & El). unfold TCP_TCPLEN. rewrite (bind_ok _ _ _ _ _ (q_seg n t g c a x E)).
  unfold bytes_ok in Hb. rewrite !Forall_cons in Hb. destruct Hb as (_ & _ & _ & _ & Hy & Hf & _).
  assert (TCPH_FLAGS (sg_tcphdr x) (qst n t g c) = Ok (f &c 63, qst n t g c)) as Ef.
  { unfold TCPH_FLAGS. rewrite (bind_ok _ _ _ _ _ (nb_read_u16 (qst n t g c) (sg_tcphdr x + 12) [y; f] ltac:(unfold qst; by rewrite snet_moved))).
    unfold mret, M_ret. by rewrite <- (flags_word y f Hy Hf). }
  rewrite (bind_ok _ _ _ _ _ Ef). unfold mret, M_ret. do 3 f_equal. change (TCP_FIN |c TCP_SYN) with 3. by rewrite <- Z.land_assoc.
Qed.

(** Segments that are not freed keep what they are. *)
Lemma views_after n n' t' g d c' R l vs : seg_inv (qst n' t' (foldr delete g d) c') R -> released n n' -> (forall a, a ∈ l -> a ∉ d) ->
  Forall2 (views (n_mem n) (n_pbufs n) g) l vs -> Forall2 (views (n_mem n') (n_pbufs n') (foldr delete g d)) l vs.
Proof.
  intros (fl & hl & (_ & Hrc & _) & _) [Em Hk] Hd Hv. unfold qst in Hrc. rewrite snet_moved in Hrc. rewrite Em.
  induction Hv as [|a v l vs Hv _ IH]; constructor; [|apply IH; set_solver].
  pose proof Hv as (x & f & q & Ex & _ & Hz & _). assert (a ∉ d) as Ha by (apply Hd; left).
  eapply views_keep; [exact Hv|by apply lookup_foldr_delete_not_elem_of|exact Ex|exact Hk|exact Hrc|].
  apply gmultiset_elem_of_disj_union. left. apply (seg_ptrs_elem _ a); [|done]. cbn. by rewrite lookup_foldr_delete_not_elem_of.
Qed.

Lemma q_recv_acked n t g c x : on_tcp (modify (fun t => set_recv_acked (u16 (recv_acked (t_in t) + x)) t)) (qst n t g c) =
  Ok (tt, qst n (set_recv_acked (u16 (recv_acked (t_in t) + x)) t) g c).
Proof. done. Qed.

Lemma set_recv_acked_id t : is_u16 (recv_acked (t_in t)) -> set_recv_acked (u16 (recv_acked (t_in t) + 0)) t = t.
Proof. intros Hr. rewrite Z.add_0_r, u16_small by done. by destruct t as [? ? ? ? ? ? ? []]. Qed.
Lemma set_recv_acked_twice x y t : set_recv_acked x (set_recv_acked y t) = set_recv_acked x t.
Proof. done. Qed.
Lemma with_queuelen_id c : with_queuelen (snd_queuelen (c_snd c)) c = c.
Proof. by destruct c as [? ? ? ? ? ? ? [] ? ? ?]. Qed.

Lemma acked_loop_ok l : forall vs fuel n t g c h other Q R, seg_inv (qst n t g c) R -> seg_chain g h l -> NoDup l ->
  Forall2 (views (n_mem n) (n_pbufs n) g) l vs -> (length l < fuel)%nat -> snd_queuelen (c_snd c) = total v_pbufs vs + Q -> 0 <= Q ->
  (Q <> 0 -> other <> NULL) -> snd_queuelen (c_snd c) < 65536 -> is_u16 (recv_acked (t_in t)) ->
  let j := n_acked (in_ackno (t_in t)) vs in
  let g' := foldr delete g (take j l) in
  exists n', acked_loop fuel pcb h other (qst n t g c) =
      Ok (hd NULL (drop j l), qst n' (set_recv_acked (u16 (recv_acked (t_in t) + total v_data (take j vs))) t) g' (with_queuelen (total v_pbufs (drop j vs) + Q) c)) /\
    seg_inv (qst n' t g' c) R /\ released n n' /\ seg_chain g' (hd NULL (drop j l)) (drop j l).
Proof.
  induction l as [|a l IH]; intros vs [|fuel] n t g c h other Q R Hi Hc Hnd Hv Hf Hq HQ Ho H16 Hr; cbn [length] in Hf; try lia; cbn [acked_loop].
  - apply Forall2_nil_inv_l in Hv as ->. simpl in Hc. subst h. cbn [n_acked take drop hd foldr total Z.eqb] in *. exists n.
    rewrite set_recv_acked_id by done. replace (0 + Q) with (snd_queuelen (c_snd c)) by (cbn in Hq; lia). rewrite with_queuelen_id. by split_and!.
  - destruct Hc as (-> & Hz & x & E & Hc). apply NoDup_cons in Hnd as [Hni Hnd]. apply Forall2_cons_inv_l in Hv as (v & vs' & Hv & Hvs & ->).
    pose proof Hv as (x' & f & q & Ex & Hh & Hpz & Hpc & Ed & Es & Ep). rewrite E in Ex. injection Ex as <-.
    rewrite (proj2 (Z.eqb_neq _ _) Hz), (bind_ok _ _ _ _ _ (q_seqno n t g c a x _ _ E Hh)), (bind_ok _ _ _ _ _ (q_tcplen n t g c a x _ _ E Hh)).
    rewrite <- Es. rewrite (bind_ok _ _ _ _ _ (q_get n t g c (fun t => in_ackno (t_in t)) (fun _ _ => eq_refl) (fun _ _ => eq_refl))).
    cbn [n_acked]. change (TCP_SEQ_LEQ (v_seq v + v_space v) (in_ackno (t_in t))) with (acked (in_ackno (t_in t)) v). destruct (acked (in_ackno (t_in t)) v) eqn:Ea.
    2:{ cbn [take drop hd foldr]. exists n. change (total v_data []) with 0. rewrite set_recv_acked_id by done. rewrite <- Hq, with_queuelen_id.
        split; [done|split; [done|split; [done|]]]. split_and!; [done..|by exists x]. }
    pose proof (pbufs_pos _ _ _ _ _ Hvs) as Hpos. cbn [total foldr] in Hq. fold (total v_pbufs vs') in Hq.
    rewrite (bind_ok _ _ _ _ _ (q_seg n t g c a x E)).
    rewrite (bind_ok (nb _) _ _ (v_pbufs v) (qst n t g c)).
    2:{ apply nb_read. unfold qst. rewrite snet_moved, Ep. apply clen_ok; [done|lia]. }
    rewrite (bind_ok _ _ _ _ _ (q_conn n t g c)). rewrite (bind_ok (assert _) _ _ tt (qst n t g c)) by (unfold assert; by rewrite (proj2 (Z.leb_le _ _)) by lia).
    rewrite (bind_ok _ _ _ _ _ (q_upd n t g c _)), (bind_ok _ _ _ _ _ (q_recv_acked n t g _ (sg_len x))).
    replace (u16 (snd_queuelen (c_snd c) - v_pbufs v)) with (total v_pbufs vs' + Q) by (rewrite u16_small; unfold is_u16; lia).
    set (t1 := set_recv_acked _ t). set (c1 := with_queuelen (total v_pbufs vs' + Q) c).
    destruct (q_seg_free n t1 g c1 R a x (q_inv _ _ _ _ _ _ _ Hi) E) as (n1 & E1 & Hi1 & Hr1). rewrite (bind_ok _ _ _ _ _ E1).
    rewrite (bind_ok _ _ _ _ _ (q_conn n1 t1 (delete a g) c1)).
    assert (seg_chain (delete a g) (sg_next x) l) as Hc1 by (apply (seg_chain_delete g (sg_next x) l [a]); [set_solver|done]).
    rewrite (bind_ok (if negb (snd_queuelen (c_snd c1) =? 0) then assert (negb (sg_next x =? NULL) || negb (other =? NULL)) else mret tt) _ _ tt (qst n1 t1 (delete a g) c1)).
    2:{ change (snd_queuelen (c_snd c1)) with (total v_pbufs vs' + Q). destruct (Z.eqb_spec (total v_pbufs vs' + Q) 0) as [|Hne]; [done|]. cbn [negb].
        unfold assert. replace (negb (sg_next x =? NULL) || negb (other =? NULL)) with true; [done|]. symmetry. apply orb_true_iff.
        rewrite !negb_true_iff, !Z.eqb_neq. destruct l as [|b l]; [|left; by destruct Hc1 as (-> & ? & _)].
        apply Forall2_nil_inv_l in Hvs as ->. right. apply Ho. cbn in Hne. lia. }
    destruct (IH vs' fuel n1 t1 (delete a g) c1 (sg_next x) other Q R) as (n' & E2 & Hi2 & Hr2 & Hc2); try done; try lia.
    + exact (views_after n n1 t1 g [a] c1 R l vs' Hi1 Hr1 ltac:(set_solver) Hvs).
    + cbn. lia.
    + apply u16_range.
    + exists n'. cbn [take drop foldr total]. fold (total v_data (take (n_acked (in_ackno (t_in t)) vs') vs')).
      cbn [in_ackno t_in set_recv_acked t1] in E2, Hi2, Hc2. rewrite <- foldr_delete_commute. split_and!; [|by eapply q_inv|by etransitivity|done].
      rewrite E2. unfold t1. rewrite set_recv_acked_twice. cbn [recv_acked t_in set_recv_acked]. rewrite Ed.
      replace (u16 (u16 (recv_acked (t_in t) + sg_len x) + total v_data (take (n_acked (in_ackno (t_in t)) vs') vs'))) with
        (u16 (recv_acked (t_in t) + (sg_len x + total v_data (take (n_acked (in_ackno (t_in t)) vs') vs')))) by (unfold u16; lia).
      done.
Qed.

Lemma free_acked_ok n t g c h other Q R l vs : seg_inv (qst n t g c) R -> seg_chain g h l -> NoDup l ->
  Forall2 (views (n_mem n) (n_pbufs n) g) l vs -> snd_queuelen (c_snd c) = total v_pbufs vs + Q -> 0 <= Q ->
  (Q <> 0 -> other <> NULL) -> snd_queuelen (c_snd c) < 65536 -> is_u16 (recv_acked (t_in t)) ->
  let j := n_acked (in_ackno (t_in t)) vs in
  let g' := foldr delete g (take j l) in
  exists n', tcp_free_acked_segments pcb h other (qst n t g c) =
      Ok (hd NULL (drop j l), qst n' (set_recv_acked (u16 (recv_acked (t_in t) + total v_data (take j vs))) t) g' (with_queuelen (total v_pbufs (drop j vs) + Q) c)) /\
    seg_inv (qst n' t g' c) R /\ released n n' /\ seg_chain g' (hd NULL (drop j l)) (drop j l).
Proof.
  intros Hi Hc Hnd Hv Hq HQ Ho H16 Hr. unfold tcp_free_acked_segments. rewrite (bind_ok _ _ _ (seg_fuel (i_upper (qst n t g c))) (qst n t g c)) by done.
  apply (acked_loop_ok l vs (seg_fuel (i_upper (qst n t g c)))); try done. unfold seg_fuel. cbn. pose proof (seg_chain_size g h l Hnd Hc). lia.
Qed.

(** The timeout is over or not: only its flag may change. *)
Lemma rto_done_ok n t g c lu vu ls vs : seg_chain g (unacked (c_queues c)) lu -> seg_chain g (unsent (c_queues c)) ls ->
  Forall2 (views (n_mem n) (n_pbufs n) g) lu vu -> Forall2 (views (n_mem n) (n_pbufs n) g) ls vs ->
  exists c', rto_done pcb (qst n t g c) = Ok (tt, qst n t g c') /\ (c' = c \/ c' = tcp_clear_flags TF_RTO c).
Proof.
  intros Hu Hs Hvu Hvs. unfold rto_done. rewrite (bind_ok _ _ _ _ _ (q_conn n t g c)).
  destruct (pcb_flags c &c TF_RTO =? 0); cbn [negb]; [by eexists; split; [done|left]|].
  assert (forall h l ws, seg_chain g h l -> Forall2 (views (n_mem n) (n_pbufs n) g) l ws -> h <> NULL ->
    exists q, seg_seqno h (qst n t g c) = Ok (q, qst n t g c)) as Hrd.
  { intros h [|a l] ws Hc Hv Hz; [done|]. destruct Hc as (-> & _). apply Forall2_cons_inv_l in Hv as (v & ws' & (x & f & q & Ex & Hh & _) & _).
    eexists. by apply (q_seqno n t g c a x _ f). }
  destruct (Z.eqb_spec (unacked (c_queues c)) NULL) as [Eu|Eu].
  - destruct (Z.eqb_spec (unsent (c_queues c)) NULL) as [Es|Es]; [rewrite q_upd; by eexists; split; [done|right]|].
    destruct (Hrd _ ls vs Hs Hvs Es) as [q Eq]. rewrite (bind_ok _ _ _ _ _ Eq).
    destruct (TCP_SEQ_LEQ _ q); [rewrite q_upd; by eexists; split; [done|right]|by eexists; split; [done|left]].
  - destruct (Hrd _ lu vu Hu Hvu Eu) as [q Eq]. rewrite (bind_ok _ _ _ _ _ Eq).
    destruct (TCP_SEQ_LEQ _ q); [rewrite q_upd; by eexists; split; [done|right]|by eexists; split; [done|left]].
Qed.

Lemma ack_new_data_keeps a c : let c' := ack_new_data a c in
  c_queues c' = c_queues c /\ snd_queuelen (c_snd c') = snd_queuelen (c_snd c) /\ snd_buf (c_snd c') = snd_buf (c_snd c).
Proof. unfold ack_new_data, grow_cwnd, leave_recovery, reset_rto. repeat case_match; by split_and!. Qed.

(** The assignments after both queues have been looked through. *)
Lemma ack_tail_ok n t g c u lu vu ls vs : seg_chain g (unacked (c_queues c)) lu -> seg_chain g u ls ->
  Forall2 (views (n_mem n) (n_pbufs n) g) lu vu -> Forall2 (views (n_mem n) (n_pbufs n) g) ls vs ->
  exists c', (on_tcp (upd_conn pcb (with_unsent u));;
    on_tcp (upd_conn pcb (fun c => with_rtime (if unacked (c_queues c) =? NULL then -1 else 0) c));;
    on_tcp (upd_conn pcb (with_polltmr 0));;
    on_tcp (upd_conn pcb (fun c => if unsent (c_queues c) =? NULL then with_oversize 0 c else c));;
    r ← on_tcp (gets (fun t => recv_acked (t_in t)));
    on_tcp (upd_conn pcb (fun c => with_sndbuf (u16 (snd_buf (c_snd c) + r)) c));;
    rto_done pcb) (qst n t g c) = Ok (tt, qst n t g c') /\
  c_queues c' = mk_queues u (unacked (c_queues c)) (ooseq (c_queues c)) (refused_data (c_queues c)) /\
  snd_queuelen (c_snd c') = snd_queuelen (c_snd c) /\ snd_buf (c_snd c') = u16 (snd_buf (c_snd c) + recv_acked (t_in t)) /\ c_cong c' = c_cong c /\
  c_rtt c' = c_rtt (with_rtime (if unacked (c_queues c) =? NULL then -1 else 0) c) /\ bytes_acked (c_snd c') = bytes_acked (c_snd c) /\
  snd_wnd (c_snd c') = snd_wnd (c_snd c) /\ mss c' = mss c.
Proof.
  intros Hu Hs Hvu Hvs. do 4 rewrite (bind_ok _ _ _ _ _ (q_upd n t g _ _)).
  rewrite (bind_ok _ _ _ _ _ (q_get n t g _ (fun t => recv_acked (t_in t)) (fun _ _ => eq_refl) (fun _ _ => eq_refl))).
  rewrite (bind_ok _ _ _ _ _ (q_upd n t g _ _)). set (c3 := with_sndbuf _ _).
  assert (c_queues c3 = mk_queues u (unacked (c_queues c)) (ooseq (c_queues c)) (refused_data (c_queues c)) /\
    snd_queuelen (c_snd c3) = snd_queuelen (c_snd c) /\ snd_buf (c_snd c3) = u16 (snd_buf (c_snd c) + recv_acked (t_in t)) /\ c_cong c3 = c_cong c /\
    c_rtt c3 = c_rtt (with_rtime (if unacked (c_queues c) =? NULL then -1 else 0) c) /\ bytes_acked (c_snd c3) = bytes_acked (c_snd c) /\
    snd_wnd (c_snd c3) = snd_wnd (c_snd c) /\ mss c3 = mss c) as (Lq & Ll & Lb & Lc & Lr & Lx & Lw & Lm).
  { unfold c3. cbn. destruct (u =? NULL); cbn; by split_and!. }
  destruct (rto_done_ok n t g c3 lu vu ls vs) as (c4 & E4 & Hc4); try (by rewrite Lq); try done. exists c4. split; [done|]. rewrite <- Lq, <- Ll, <- Lb, <- Lc, <- Lr, <- Lx, <- Lw, <- Lm.
  by destruct Hc4 as [->| ->].
Qed.

(** The longest acknowledged prefix of both queues is freed, and no assertion on the
    queue length fails. *)
Lemma new_ack_ok n0 t g c R (lu ls : list Z) (vu vs : list seg_view) : seg_inv (qst n0 t g c) R ->
  seg_chain g (unacked (c_queues c)) lu -> seg_chain g (unsent (c_queues c)) ls -> NoDup (lu ++ ls) ->
  Forall2 (views (n_mem n0) (n_pbufs n0) g) lu vu -> Forall2 (views (n_mem n0) (n_pbufs n0) g) ls vs ->
  snd_queuelen (c_snd c) = total v_pbufs vu + total v_pbufs vs -> snd_queuelen (c_snd c) < 65536 -> recv_acked (t_in t) = 0 ->
  let a := in_ackno (t_in t) in
  let ju := n_acked a vu in let js := n_acked a vs in
  let g' := foldr delete g (take js ls ++ take ju lu) in
  let c1 := ack_new_data a c in
  exists n t' c', new_ack pcb (qst n0 t g c) = Ok (tt, qst n t' g' c') /\ seg_inv (qst n t' g' c') R /\ t_in t' = t_in (set_recv_acked (recv_acked (t_in t')) t) /\
    tcp_ticks t' = tcp_ticks t /\ released n0 n /\
    seg_chain g' (unacked (c_queues c')) (drop ju lu) /\ seg_chain g' (unsent (c_queues c')) (drop js ls) /\
    Forall2 (views (n_mem n) (n_pbufs n) g') (drop ju lu) (drop ju vu) /\ Forall2 (views (n_mem n) (n_pbufs n) g') (drop js ls) (drop js vs) /\
    snd_queuelen (c_snd c') = total v_pbufs (drop ju vu) + total v_pbufs (drop js vs) /\
    snd_buf (c_snd c') = u16 (snd_buf (c_snd c) + (total v_data (take ju vu) + total v_data (take js vs))) /\
    c_cong c' = c_cong c1 /\ c_rtt c' = c_rtt (with_rtime (if unacked (c_queues c') =? NULL then -1 else 0) c1) /\
    bytes_acked (c_snd c') = bytes_acked (c_snd c1) /\ snd_wnd (c_snd c') = snd_wnd (c_snd c1) /\ mss c' = mss c1.
Proof.
  intros Hi Hu Hs Hnd Hvu Hvs Hq H16 Hr. apply NoDup_app in Hnd as (Hndu & Hdis & Hnds).
  cbv zeta. set (a := in_ackno (t_in t)). set (ju := n_acked a vu). set (js := n_acked a vs). unfold new_ack.
  rewrite (bind_ok _ _ _ _ _ (q_get _ t g c t_in (fun _ _ => eq_refl) (fun _ _ => eq_refl))), (bind_ok _ _ _ _ _ (q_upd _ t g c _)).
  fold a. destruct (ack_new_data_keeps a c) as (Kq & Kl & Kb). set (c1 := ack_new_data a c) in *.
  rewrite (bind_ok _ _ _ _ _ (q_conn _ t g c1)). rewrite Kq.
  pose proof (pbufs_pos _ _ _ _ _ Hvu) as Hpu. pose proof (pbufs_pos _ _ _ _ _ Hvs) as Hps.
  destruct (free_acked_ok n0 t g c1 (unacked (c_queues c)) (unsent (c_queues c)) (total v_pbufs vs) R lu vu) as (n1 & E1 & Hi1 & Hr1 & Hc1); try done;
    [by rewrite Kl| |by rewrite Kl|by rewrite Hr|].
  { intros Hne Hnull. rewrite Hnull in Hs. destruct ls as [|b l]; [apply Forall2_nil_inv_l in Hvs as ->; done|by destruct Hs as (<- & ? & _)]. }
  fold a ju in E1, Hi1, Hc1. rewrite (bind_ok _ _ _ _ _ E1). rewrite Hr, Z.add_0_l in *. set (g1 := foldr delete g (take ju lu)) in *.
  set (t1 := set_recv_acked _ t). set (hu := hd NULL (drop ju lu)) in *.
  rewrite (bind_ok _ _ _ _ _ (q_upd n1 t1 g1 _ _)). set (c2 := with_unacked hu _). rewrite (bind_ok _ _ _ _ _ (q_conn n1 t1 g1 c2)).
  assert (forall x, x ∈ ls -> x ∉ take ju lu) as Hd1. { intros x Hx Hx'. apply (Hdis x); [|done]. rewrite <- (take_drop ju lu). set_solver. }
  assert (forall x, x ∈ drop ju lu -> x ∉ take js ls) as Hd2.
  { intros x Hx Hx'. apply (Hdis x); [rewrite <- (take_drop ju lu)|rewrite <- (take_drop js ls)]; set_solver. }
  assert (Forall2 (views (n_mem n1) (n_pbufs n1) g1) ls vs) as Hvs1 by (by eapply views_after).
  assert (Forall2 (views (n_mem n1) (n_pbufs n1) g1) (drop ju lu) (drop ju vu)) as Hvu1.
  { eapply views_after; [done|done| |by apply Forall2_drop]. intros x Hx Hx'. rewrite <- (take_drop ju lu) in Hndu. apply NoDup_app in Hndu as (_ & Hn & _). by apply (Hn x). }
  pose proof (total_app v_pbufs (take ju vu) (drop ju vu)) as Htu. rewrite take_drop in Htu. pose proof (pbufs_pos _ _ _ _ _ Hvu1) as Hpu1.
  assert (0 <= total v_pbufs (take ju vu)) as Hpt by (eapply pbufs_pos, Forall2_take, Hvu).
  destruct (free_acked_ok n1 t1 g1 c2 (unsent (c_queues c2)) (unacked (c_queues c2)) (total v_pbufs (drop ju vu)) R ls vs) as (n2 & E2 & Hi2 & Hr2 & Hc2); try done.
  - cbn. rewrite Kq. by apply seg_chain_delete.
  - change (snd_queuelen (c_snd c2)) with (total v_pbufs (drop ju vu) + total v_pbufs vs). lia.
  - intros Hne Hnull. cbn in Hnull. unfold hu in Hc1, Hnull. destruct (drop ju lu) as [|b l] eqn:Ed; [|by destruct Hc1 as (_ & ? & _)].
    apply Forall2_nil_inv_l in Hvu1 as Hd. by rewrite Hd in Hne.
  - change (snd_queuelen (c_snd c2)) with (total v_pbufs (drop ju vu) + total v_pbufs vs). lia.
  - apply u16_range.
  - cbn [in_ackno t_in set_recv_acked t1] in E2, Hi2, Hc2. fold a js in E2, Hi2, Hc2. rewrite (bind_ok _ _ _ _ _ E2).
    set (g2 := foldr delete g1 (take js ls)) in *. set (t2 := set_recv_acked _ t1). set (hs := hd NULL (drop js ls)) in *.
    assert (Forall2 (views (n_mem n2) (n_pbufs n2) g2) (drop ju lu) (drop ju vu)) as Hvu2 by (by eapply views_after).
    assert (Forall2 (views (n_mem n2) (n_pbufs n2) g2) (drop js ls) (drop js vs)) as Hvs2.
    { eapply views_after; [done|done| |by apply Forall2_drop]. intros x Hx Hx'. rewrite <- (take_drop js ls) in Hnds. apply NoDup_app in Hnds as (_ & Hn & _). by apply (Hn x). }
    assert (seg_chain g2 hu (drop ju lu)) as Hcu2 by (by apply seg_chain_delete).
    destruct (ack_tail_ok n2 t2 g2 (with_queuelen (total v_pbufs (drop js vs) + total v_pbufs (drop ju vu)) c2) hs (drop ju lu) (drop ju vu) (drop js ls) (drop js vs))
      as (c4 & E4 & Lq & Ll & Lb & Lc & Lr & Lx & Lw & Lm); [done..|]. rewrite E4.
    exists n2, t2, c4. rewrite foldr_app. fold g1 g2. rewrite Lq, Ll, Lb, Lc, Lr, Lx, Lw, Lm. cbn [unacked unsent].
    split_and!; try done; try lia; [by etransitivity|by cbn; lia|].
    unfold t2. cbn [recv_acked t_in set_recv_acked t1 c_snd snd_buf with_queuelen c2 with_unacked with_queues with_snd]. rewrite Kb. unfold u16. lia.
Qed.
End Conn.
End Seg.
