(* ===== verification/TcpAckSpec.v ===== *)
(** * Properties of TCP's acknowledgements and retransmissions

    Requeuing segments keeps them and their order; the estimate of the round-trip time
    and the congestion window stay in range; and every acceptable acknowledgement keeps
    the invariant of the sender. *)

From stdpp Require Import base numbers list gmap gmultiset functions sorting.
From S2P Require Import Prelude Chksum Memp Pbuf PbufSpec PbufData PbufRefs Ethernetif Ip4Addr Ethernet Etharp EtharpSpec Ip4 Ip4Spec TcpApi Tcp TcpSpec TcpSeg TcpSegSpec.
Open Scope Z_scope.
Open Scope c_scope.

(** ** Relinking *)

Definition linked_to (y : Z) (x : tcp_seg) : tcp_seg := mk_seg y (sg_p x) (sg_len x) (sg_flags x) (sg_tcphdr x).

Lemma views_relink m ps g a v b x y : g !! b = Some x -> views m ps g a v -> views m ps (<[b := linked_to y x]> g) a v.
Proof.
  intros E (z & f & l & Ez & Hv). destruct (decide (a = b)) as [->|Hne].
  - rewrite E in Ez. injection Ez as <-. exists (linked_to y x), f, l. by rewrite lookup_insert_eq.
  - exists z, f, l. by rewrite lookup_insert_ne.
Qed.
Lemma views_relink_all m ps g l vs b x y : g !! b = Some x -> Forall2 (views m ps g) l vs -> Forall2 (views m ps (<[b := linked_to y x]> g)) l vs.
Proof. intros E Hv. eapply Forall2_impl; [exact Hv|]. intros. by apply views_relink. Qed.

Lemma seg_chain_insert g h l b x : b ∉ l -> seg_chain g h l -> seg_chain (<[b := x]> g) h l.
Proof. intros Hb. apply seg_chain_same. intros a Ha. rewrite lookup_insert_ne; [done|]. by intros ->. Qed.

(** The queue [l1 ++ b :: l2] with [b] pointing to a queue [l3] instead. *)
Lemma seg_chain_splice l1 : forall g h b l2 l3 x y, seg_chain g h (l1 ++ b :: l2) -> b ∉ l1 -> b ∉ l3 -> g !! b = Some x -> seg_chain g y l3 ->
  seg_chain (<[b := linked_to y x]> g) h (l1 ++ b :: l3).
Proof.
  induction l1 as [|a l1 IH]; intros g h b l2 l3 x y Hc Hb1 Hb3 E H3.
  - destruct Hc as (-> & Hz & _). split_and!; [done..|]. exists (linked_to y x). rewrite lookup_insert_eq. split; [done|]. by apply seg_chain_insert.
  - apply not_elem_of_cons in Hb1 as [Hba Hb1]. destruct Hc as (-> & Hz & z & Ez & Hc). split_and!; [done..|].
    exists z. rewrite lookup_insert_ne by done. split; [done|]. by eapply IH.
Qed.

Lemma seg_chain_head g h l : seg_chain g h l -> h = hd NULL l.
Proof. destruct l; [done|]. by intros (-> & _). Qed.

(** The queue from its last segment on. *)
Lemma seg_chain_last g h l b : seg_chain g h (l ++ [b]) -> b <> NULL /\ exists x, g !! b = Some x /\ sg_next x = NULL.
Proof.
  revert h. induction l as [|a l IH]; intros h; [intros (_ & Hz & x & E & Hn); eauto|]. intros (_ & _ & x & _ & Hc). by eapply IH.
Qed.

(** ** Round-trip time and congestion window *)

Lemma s16_small x : -32768 <= x < 32768 -> s16 x = x.
Proof. intros Hx. unfold s16, u16. destruct (Z.ltb_spec (x mod 65536) 32768); lia. Qed.

(** The longest measurement, in ticks of half a second, for which 16 bits are enough. *)
Definition max_rtt : Z := 4095.

Definition rtt_ok (r : pcb_rtt) : Prop :=
  0 <= sa r <= 8 * max_rtt + 7 /\ 3 <= sv r <= 4 * max_rtt + 3 /\ 3 <= rto r <= 5 * max_rtt + 3 /\ 0 <= nrtx r <= 255.

Definition cong_ok (c : conn) : Prop :=
  1 <= mss c <= TCP_MSS /\ 1 <= cwnd (c_cong c) <= 65535 /\ 2 * mss c <= ssthresh (c_cong c) <= 65535 /\
  is_u16 (bytes_acked (c_snd c)) /\ is_u16 (snd_wnd (c_snd c)) /\ is_u16 (snd_buf (c_snd c)) /\ is_u8 (dupacks (c_cong c)).

Lemma TCP_WND_INC_sat w i : is_u16 w -> is_u16 i -> TCP_WND_INC w i = Z.min (w + i) 65535.
Proof. unfold is_u16, TCP_WND_INC, u16. intros Hw Hi. destruct (Z.leb_spec w ((w + i) mod 65536)); lia. Qed.

(** Without any wrap-around the estimator is Jacobson's. *)
Lemma estimate_rtt_exact ticks c : let r := c_rtt c in let m := u32 (ticks - rttest r) in
  rtt_ok r -> m <= max_rtt ->
  let sa' := sa r + (m - sa r / 8) in let sv' := sv r + (Z.abs (m - sa r / 8) - sv r / 4) in
  c_rtt (estimate_rtt ticks c) = mk_rtt (rtime r) 0 (rtseq r) sa' sv' (sa' / 8 + sv') (nrtx r) /\ rtt_ok (c_rtt (estimate_rtt ticks c)).
Proof.
  intros r m (Hsa & Hsv & Hrto & Hn) Hm sa' sv'. unfold max_rtt in *. assert (0 <= m) by (unfold m, u32; lia).
  assert (s16 (ticks - rttest r) = m) as Em.
  { assert (u16 (ticks - rttest r) = u16 m) as Eu by (unfold m, u16, u32; lia). transitivity (s16 m); [unfold s16; by rewrite Eu|]. apply s16_small. lia. }
  assert (c_rtt (estimate_rtt ticks c) = mk_rtt (rtime r) 0 (rtseq r) sa' sv' (sa' / 8 + sv') (nrtx r)) as E.
  { unfold estimate_rtt. fold r. cbv zeta. rewrite Em. rewrite !Z.shiftr_div_pow2 by lia. change (2 ^ 3) with 8. change (2 ^ 2) with 4.
    rewrite (s16_small (m - sa r / 8)) by lia. rewrite (s16_small (sa r + (m - sa r / 8))) by lia. fold sa'.
    assert ((if m - sa r / 8 <? 0 then s16 (- (m - sa r / 8)) else m - sa r / 8) = Z.abs (m - sa r / 8)) as ->.
    { destruct (Z.ltb_spec (m - sa r / 8) 0); [rewrite s16_small by lia|]; lia. }
    rewrite (s16_small (Z.abs _ - _)) by lia. rewrite (s16_small (sv r + _)) by lia. fold sv'. rewrite s16_small by (unfold sa', sv'; lia). done. }
  split; [exact E|]. rewrite E. unfold rtt_ok, max_rtt, sa', sv'. cbn. lia.
Qed.

(** The invariant of the numbers of a sender. *)
Definition numbers_ok (c : conn) : Prop := cong_ok c /\ rtt_ok (c_rtt c).

Lemma reset_rto_ok c : numbers_ok c -> numbers_ok (reset_rto c).
Proof.
  intros (Hc & Hsa & Hsv & Hrto & Hn). split; [exact Hc|]. unfold reset_rto, rtt_ok, max_rtt in *. cbn. rewrite Z.shiftr_div_pow2 by lia. change (2 ^ 3) with 8.
  rewrite s16_small by lia. lia.
Qed.

Lemma leave_recovery_ok c : numbers_ok c -> numbers_ok (leave_recovery c).
Proof.
  intros Hc. unfold leave_recovery. case_match; [|done]. destruct Hc as ((H1 & H2 & H3 & H4 & H5 & H6) & Hr). split; [|exact Hr].
  unfold cong_ok. cbn. split_and!; try apply H6; try done; unfold is_u16; lia.
Qed.

(** Ranges of the members that an update leaves or sets. *)
Ltac nums := unfold cong_ok, is_u16, is_u8, u16, TCP_MSS in *; cbn in *; split_and!; lia.

Lemma grow_cwnd_ok a c : is_u16 a -> numbers_ok c -> numbers_ok (grow_cwnd a c).
Proof.
  intros Ha ((H1 & H2 & H3 & H4 & H5 & H6 & H7) & Hr). unfold grow_cwnd, is_u16, TCP_MSS in *. cbv zeta.
  destruct (Z.ltb_spec (cwnd (c_cong c)) (ssthresh (c_cong c))).
  - split; [|exact Hr]. unfold cong_ok. cbn. set (i := Z.min a _).
    assert (is_u16 i) by (unfold is_u16, i, u16; destruct (_ =? 0); lia). rewrite TCP_WND_INC_sat by (unfold is_u16 in *; lia). nums.
  - rewrite (TCP_WND_INC_sat (bytes_acked _) a) by (unfold is_u16; lia). destruct (Z.leb_spec (cwnd (c_cong c)) (Z.min (bytes_acked (c_snd c) + a) 65535)).
    + split; [|exact Hr]. unfold cong_ok. cbn. rewrite TCP_WND_INC_sat by (unfold is_u16; lia). nums.
    + split; [|exact Hr]. nums.
Qed.

Lemma ack_new_data_ok a c : numbers_ok c -> numbers_ok (ack_new_data a c).
Proof.
  intros Hc. unfold ack_new_data. apply grow_cwnd_ok; [apply u16_range|]. apply leave_recovery_ok, reset_rto_ok in Hc.
  destruct Hc as ((H1 & H2 & H3 & H4 & H5 & H6 & H7) & Hr). split; [|exact Hr]. refine (conj H1 (conj H2 (conj H3 (conj H4 (conj H5 (conj H6 _)))))). cbn. unfold is_u8. lia.
Qed.

Lemma ack_new_data_facts a c : lastack (c_cong (ack_new_data a c)) = a /\ rttest (c_rtt (ack_new_data a c)) = rttest (c_rtt c).
Proof. unfold ack_new_data, grow_cwnd, leave_recovery, reset_rto. repeat case_match; done. Qed.

Lemma enter_recovery_ok c : numbers_ok c -> numbers_ok (enter_recovery c).
Proof.
  intros ((H1 & H2 & H3 & H4 & H5 & H6 & H7) & Hr). split; [|exact Hr]. unfold enter_recovery.
  destruct (Z.ltb_spec (Z.min (cwnd (c_cong c)) (snd_wnd (c_snd c)) / 2) (2 * mss c)); nums.
Qed.

Lemma update_snd_wnd_ok x y w c : is_u16 w -> numbers_ok c -> numbers_ok (update_snd_wnd x y w c).
Proof.
  intros Hw Hc. unfold update_snd_wnd. case_match; [|done]. destruct Hc as ((H1 & H2 & H3 & H4 & H5 & H6) & Hr). split; [|exact Hr].
  exact (conj H1 (conj H2 (conj H3 (conj H4 (conj Hw H6))))).
Qed.

Lemma numbers_field c c' : numbers_ok c -> mss c' = mss c -> c_cong c' = c_cong c -> bytes_acked (c_snd c') = bytes_acked (c_snd c) ->
  snd_wnd (c_snd c') = snd_wnd (c_snd c) -> is_u16 (snd_buf (c_snd c')) -> rtt_ok (c_rtt c') -> numbers_ok c'.
Proof. intros ((H1 & H2 & H3 & H4 & H5 & H6 & H7) & Hr) E1 E2 E3 E4 E5 E6. split; [|done]. unfold cong_ok. rewrite E1, E2, E3, E4. exact (conj H1 (conj H2 (conj H3 (conj H4 (conj H5 (conj E5 H7)))))). Qed.

Section Ack.
Context (pools : memp_t -> memp_desc) `{HP : !PoolsOk pools} {H : Type} `{HH : !Heap H} `{HL : !HeapLaws pools H}.
Context (s : ip H tcps) (pcb : Z) (k : pcb_common).
Local Abbreviation qst := (qst s pcb k).
Local Abbreviation seg_inv := (seg_inv pools).
Implicit Types (n : net H) (t : tcps) (g : gmap Z tcp_seg) (c : conn).

Lemma q_relink n t g c a x y : g !! a = Some x -> on_tcp (set_seg_next a y) (qst n t g c) = Ok (tt, qst n t (<[a := linked_to y x]> g) c).
Proof.
  intros E. rewrite (on_tcp_ok (qst n t g c) (set_seg_next a y) tt (set_conn pcb k c (set_segs (<[a := linked_to y x]> g) t))); [done|].
  unfold set_seg_next, TcpSegSpec.qst, moved_on. cbn. by rewrite E.
Qed.

Lemma q_relink_inv n t g c a x y R : g !! a = Some x -> seg_inv (qst n t g c) R -> seg_inv (qst n t (<[a := linked_to y x]> g) c) R.
Proof.
  intros E (fl & hl & Hn & He & Hf). exists fl, hl. cbn in *. rewrite (seg_ptrs_update g a x) by done. split; [exact Hn|]. split.
  - intros b. rewrite lookup_insert_is_Some. intros [<-|[_ Hb]]; apply He; eauto.
  - intros b Hb. rewrite (Hf b Hb). destruct (decide (a = b)) as [<-|]; [by rewrite lookup_insert_eq, E|by rewrite lookup_insert_ne].
Qed.

(** A segment is busy if its packet has another reference. *)
Definition busy (ps : gmap Z pbuf) g (a : Z) : Prop := exists x b, g !! a = Some x /\ ps !! sg_p x = Some b /\ ref b <> 1.

Lemma q_busy n t g c a v : a <> NULL -> views (n_mem n) (n_pbufs n) g a v ->
  exists b : bool, tcp_output_segment_busy a (qst n t g c) = Ok (b, qst n t g c) /\ (b = true <-> busy (n_pbufs n) g a).
Proof.
  intros Hz (x & f & l & E & _ & Hpz & Hc & _). destruct l as [|[p b] l]; [done|]. destruct Hc as (Ep & _ & Eb & _). rewrite <- Ep in Eb.
  unfold tcp_output_segment_busy. rewrite (bind_ok (assert _) _ _ tt (qst n t g c)) by (unfold assert; by rewrite (proj2 (Z.eqb_neq _ _) Hz)).
  rewrite (bind_ok _ _ _ _ _ (q_seg s pcb k n t g c a x E)), (bind_ok _ _ _ _ _ (nb_rd (qst n t g c) (sg_p x) b ltac:(unfold TcpSegSpec.qst; by rewrite snet_moved))).
  exists (negb (ref b =? 1)). split; [done|]. rewrite negb_true_iff, Z.eqb_neq. split; [intros Hr; by exists x, b|]. intros (x' & b' & E' & Eb' & Hr). naive_solver.
Qed.

(** ** Retransmission after a timeout *)

Lemma busy_loop_ok l : forall fuel n t g c h b vs, seg_chain g h (l ++ [b]) -> Forall2 (views (n_mem n) (n_pbufs n) g) (l ++ [b]) vs -> (length l < fuel)%nat ->
  exists r, busy_loop fuel h (qst n t g c) = Ok (r, qst n t g c) /\
    (r = None /\ Exists (busy (n_pbufs n) g) l \/ r = Some b /\ Forall (fun a => ~ busy (n_pbufs n) g a) l).
Proof.
  induction l as [|a l IH]; intros [|fuel] n t g c h b vs Hc Hv Hf; cbn [length] in Hf; try lia; cbn [busy_loop].
  - destruct Hc as (-> & Hz & x & E & Hn). simpl in Hn. rewrite (bind_ok _ _ _ _ _ (q_seg s pcb k n t g c b x E)), Hn. exists (Some b). split; [done|]. by right.
  - destruct Hc as (-> & Hz & x & E & Hc). apply Forall2_cons_inv_l in Hv as (v & vs' & Hv & Hvs & ->).
    rewrite (bind_ok _ _ _ _ _ (q_seg s pcb k n t g c a x E)).
    assert (sg_next x <> NULL) as Hne by (destruct l; by destruct Hc as (-> & ? & _)). rewrite (proj2 (Z.eqb_neq _ _) Hne).
    destruct (q_busy n t g c a v Hz Hv) as (u & Eu & Hu). rewrite (bind_ok _ _ _ _ _ Eu). destruct u.
    + exists None. split; [done|]. left. split; [done|]. constructor. by apply Hu.
    + destruct (IH fuel n t g c (sg_next x) b vs' Hc Hvs ltac:(lia)) as (r & Er & Hr). exists r. split; [done|].
      assert (~ busy (n_pbufs n) g a) by (intros Hb; by apply Hu in Hb).
      destruct Hr as [[-> Hr]|[-> Hr]]; [left; split; [done|by right]|right; split; [done|by constructor]].
Qed.

(** What a timeout does to the connection; [v] is the last outstanding segment. *)
Definition timed_out (h : Z) (v : seg_view) c : conn :=
  with_rttest 0 (with_rto_end (u32 (v_seq v + v_space v)) (tcp_set_flags TF_RTO (with_unacked NULL (with_unsent h c)))).

Lemma rto_prepare_ok n t g c R lu ls vu vs : seg_inv (qst n t g c) R -> pcb <> NULL ->
  seg_chain g (unacked (c_queues c)) lu -> seg_chain g (unsent (c_queues c)) ls -> NoDup (lu ++ ls) ->
  Forall2 (views (n_mem n) (n_pbufs n) g) lu vu -> Forall2 (views (n_mem n) (n_pbufs n) g) ls vs ->
  exists e g' c', tcp_rexmit_rto_prepare pcb (qst n t g c) = Ok (e, qst n t g' c') /\
  (e = ERR_VAL /\ g' = g /\ c' = c /\ (lu = [] \/ Exists (busy (n_pbufs n) g) lu) \/
   e = ERR_OK /\ Forall (fun a => ~ busy (n_pbufs n) g a) lu /\ (exists v, last vu = Some v /\ c' = timed_out (unacked (c_queues c)) v c) /\
     seg_inv (qst n t g' c') R /\ seg_chain g' (unsent (c_queues c')) (lu ++ ls) /\ Forall2 (views (n_mem n) (n_pbufs n) g') (lu ++ ls) (vu ++ vs)).
Proof.
  intros Hi Hz Hu Hs Hnd Hvu Hvs. apply NoDup_app in Hnd as (Hndu & Hdis & Hnds). unfold tcp_rexmit_rto_prepare.
  rewrite (bind_ok (assert _) _ _ tt (qst n t g c)) by (unfold assert; by rewrite (proj2 (Z.eqb_neq _ _) Hz)).
  rewrite (bind_ok _ _ _ _ _ (q_conn s pcb k n t g c)). destruct lu as [|b l0 _] using rev_ind.
  { simpl in Hu. rewrite Hu. eexists _, g, c. split; [done|]. left. split_and!; try done. by left. }
  assert (unacked (c_queues c) <> NULL) as Hne by (destruct l0; by destruct Hu as (-> & ? & _)). rewrite (proj2 (Z.eqb_neq _ _) Hne).
  rewrite (bind_ok _ _ _ (seg_fuel (i_upper (qst n t g c))) (qst n t g c)) by done.
  destruct (busy_loop_ok l0 (seg_fuel (i_upper (qst n t g c))) n t g c _ b vu Hu Hvu) as (r & Er & Hr).
  { unfold seg_fuel. cbn. pose proof (seg_chain_size _ _ _ Hndu Hu) as Hsz. rewrite length_app in Hsz. cbn in Hsz. lia. }
  rewrite (bind_ok _ _ _ _ _ Er). destruct Hr as [[-> Hb]|[-> Hb]].
  { eexists _, g, c. split; [done|]. left. split_and!; try done. right. apply Exists_app. by left. }
  pose proof Hvu as Hvu0. apply Forall2_app_inv_l in Hvu0 as (vu1 & vu2 & Hv1 & Hv2 & Evu). apply Forall2_cons_inv_l in Hv2 as (v & vu3 & Hv & Hv3 & ->).
  apply Forall2_nil_inv_l in Hv3 as ->. destruct (seg_chain_last _ _ _ _ Hu) as (Hbz & x & E & Hxn).
  destruct (q_busy n t g c b v Hbz Hv) as (u & Eu & Hub). rewrite (bind_ok _ _ _ _ _ Eu). destruct u.
  { eexists _, g, c. split; [done|]. left. split_and!; try done. right. apply Exists_app. right. constructor. by apply Hub. }
  rewrite (bind_ok _ _ _ _ _ (q_relink n t g c b x _ E)). set (g' := <[b := _]> g).
  rewrite !(bind_ok _ _ _ _ _ (q_upd s pcb k n t g' _ _)).
  pose proof Hv as (x' & f & q & Ex & Hh & _ & _ & _ & Es & _). rewrite E in Ex. injection Ex as <-.
  assert (g' !! b = Some (linked_to (unsent (c_queues c)) x)) as E' by apply lookup_insert_eq.
  rewrite (bind_ok _ _ _ _ _ (q_seqno s pcb k n t g' _ b _ _ f E' Hh)), (bind_ok _ _ _ _ _ (q_tcplen s pcb k n t g' _ b _ _ f E' Hh)).
  change (sg_len (linked_to _ x)) with (sg_len x). rewrite <- Es. rewrite !(bind_ok _ _ _ _ _ (q_upd s pcb k n t g' _ _)).
  eexists _, g', _. split; [reflexivity|]. right. split; [done|]. split.
  { apply Forall_app. split; [done|]. constructor; [|done]. intros Hbb. by apply Hub in Hbb. }
  split; [exists v; split; [by rewrite Evu, last_snoc|done]|]. split; [by apply q_relink_inv|]. split.
  - cbn. rewrite <- (app_assoc l0 [b] ls). cbn [app]. apply NoDup_app in Hndu as (_ & Hn0 & _).
    eapply seg_chain_splice; [exact Hu|intros Hx; apply (Hn0 b Hx); left|intros Hx; apply (Hdis b); [set_solver|done]|done|done].
  - apply Forall2_app; by apply views_relink_all.
Qed.

(** ** Fast retransmission *)

(** Before the first segment that does not come before the sequence number [q]. *)
Fixpoint n_before (q : Z) (vs : list seg_view) : nat :=
  match vs with
  | v :: vs' => if TCP_SEQ_LT (v_seq v) q then S (n_before q vs') else 0
  | [] => 0
  end.

Lemma rexmit_loop_ok l : forall fuel n t g c a x q f prev cur vs, g !! a = Some x -> hdr_at (n_mem n) (sg_tcphdr x) q f ->
  seg_chain g cur l -> Forall2 (views (n_mem n) (n_pbufs n) g) l vs -> (length l < fuel)%nat ->
  let j := n_before q vs in
  rexmit_loop fuel a prev cur (qst n t g c) = Ok ((default prev (last (take j l)), hd NULL (drop j l)), qst n t g c).
Proof.
  induction l as [|b l IH]; intros [|fuel] n t g c a x q f prev cur vs E Hh Hc Hv Hf; cbn [length] in Hf; try lia; cbn [rexmit_loop].
  - apply Forall2_nil_inv_l in Hv as ->. simpl in Hc. by subst cur.
  - destruct Hc as (-> & Hz & y & Ey & Hc). apply Forall2_cons_inv_l in Hv as (v & vs' & Hv & Hvs & ->). rewrite (proj2 (Z.eqb_neq _ _) Hz).
    pose proof Hv as (y' & f' & r & Ey' & Hh' & _). rewrite Ey in Ey'. injection Ey' as <-.
    rewrite (bind_ok _ _ _ _ _ (q_seqno s pcb k n t g c b y _ _ Ey Hh')), (bind_ok _ _ _ _ _ (q_seqno s pcb k n t g c a x _ _ E Hh)).
    cbn [n_before]. destruct (TCP_SEQ_LT (v_seq v) q); [|done]. rewrite (bind_ok _ _ _ _ _ (q_seg s pcb k n t g c b y Ey)).
    rewrite (IH fuel n t g c a x q f b (sg_next y) vs' E Hh Hc Hvs) by lia. cbn [take drop].
    do 3 f_equal. destruct (take (n_before q vs') l) as [|d l'] eqn:Ed; [done|]. cbn [last]. by destruct (last_is_Some (d :: l')) as [_ [z ->]].
Qed.

(** A queue with [a] inserted. *)
Lemma seg_chain_into l1 l2 : forall g h a x, seg_chain g h (l1 ++ l2) -> NoDup (l1 ++ l2) -> a ∉ l1 ++ l2 -> a <> NULL -> g !! a = Some x ->
  let g1 := <[a := linked_to (hd NULL l2) x]> g in
  match last l1 with
  | None => seg_chain g1 a (a :: l2)
  | Some b => exists y, g1 !! b = Some y /\ seg_chain (<[b := linked_to a y]> g1) h (l1 ++ a :: l2)
  end.
Proof.
  intros g h a x Hc Hnd Ha Hz E g1. assert (forall y l, seg_chain g y l -> a ∉ l -> seg_chain g1 y l) as Hg1 by (intros; by apply seg_chain_insert).
  destruct l1 as [|b l0 _] using rev_ind.
  - split_and!; [done..|]. exists (linked_to (hd NULL l2) x). unfold g1 at 1. rewrite lookup_insert_eq. split; [done|]. cbn [sg_next linked_to].
    apply Hg1; [|done]. simpl in Hc. by rewrite <- (seg_chain_head _ _ _ Hc).
  - rewrite last_snoc. rewrite <- !(app_assoc l0) in *. cbn [app] in *.
    assert (exists y, g !! b = Some y /\ seg_chain g (sg_next y) l2) as (y & Ey & Hy).
    { clear -Hc. revert h Hc. induction l0 as [|d l0 IH]; intros h; [intros (_ & _ & y & Ey & Hy); eauto|]. intros (_ & _ & z & _ & Hc). by eapply IH. }
    assert (a <> b) as Hab by set_solver. apply NoDup_app in Hnd as (_ & Hn0 & Hn2). apply NoDup_cons in Hn2 as [Hb2 _].
    exists y. unfold g1 at 1. rewrite lookup_insert_ne by done. split; [done|].
    eapply seg_chain_splice; [apply Hg1; [exact Hc|set_solver]|intros Hx; apply (Hn0 b Hx); left|set_solver|unfold g1; by rewrite lookup_insert_ne|].
    split_and!; [done..|]. exists (linked_to (hd NULL l2) x). unfold g1 at 1. rewrite lookup_insert_eq. split; [done|]. cbn [sg_next linked_to].
    apply Hg1; [|set_solver]. by rewrite <- (seg_chain_head _ _ _ Hy).
Qed.

(** The invariant of the send queues: two disjoint queues of segments whose headers can
    be read, and the number of their pbufs. *)
Definition send_queues n g c (lu ls : list Z) (vu vs : list seg_view) : Prop :=
  seg_chain g (unacked (c_queues c)) lu /\ seg_chain g (unsent (c_queues c)) ls /\ NoDup (lu ++ ls) /\
  Forall2 (views (n_mem n) (n_pbufs n) g) lu vu /\ Forall2 (views (n_mem n) (n_pbufs n) g) ls vs /\
  snd_queuelen (c_snd c) = total v_pbufs vu + total v_pbufs vs.

(** What [tcp_rexmit] may change of a connection, apart from its queues. *)
Definition requeued c c' : Prop :=
  c_cong c' = c_cong c /\ pcb_flags c' = pcb_flags c /\ mss c' = mss c /\ c_timers c' = c_timers c /\
  snd_queuelen (c_snd c') = snd_queuelen (c_snd c) /\ snd_buf (c_snd c') = snd_buf (c_snd c) /\ snd_wnd (c_snd c') = snd_wnd (c_snd c) /\
  bytes_acked (c_snd c') = bytes_acked (c_snd c) /\
  c_rtt c' = mk_rtt (rtime (c_rtt c)) 0 (rtseq (c_rtt c)) (sa (c_rtt c)) (sv (c_rtt c)) (rto (c_rtt c)) (Z.min 255 (nrtx (c_rtt c) + 1)).

Lemma count_rexmit_nrtx c : 0 <= nrtx (c_rtt c) <= 255 -> c_rtt (count_rexmit c) =
  mk_rtt (rtime (c_rtt c)) (rttest (c_rtt c)) (rtseq (c_rtt c)) (sa (c_rtt c)) (sv (c_rtt c)) (rto (c_rtt c)) (Z.min 255 (nrtx (c_rtt c) + 1)).
Proof. intros Hn. unfold count_rexmit. destruct (Z.ltb_spec (nrtx (c_rtt c)) 255); [cbn; f_equal; lia|]. destruct (c_rtt c). cbn in *. f_equal. lia. Qed.
Lemma count_rexmit_keeps c : let c' := count_rexmit c in
  c_cong c' = c_cong c /\ pcb_flags c' = pcb_flags c /\ mss c' = mss c /\ c_timers c' = c_timers c /\ c_snd c' = c_snd c /\ c_queues c' = c_queues c.
Proof. unfold count_rexmit. case_match; by split_and!. Qed.

(** The assignments [seg->next = *cur_seg; *cur_seg = seg]. *)
Lemma rexmit_insert n t g c R a x ls j : seg_inv (qst n t g c) R -> seg_chain g (unsent (c_queues c)) ls -> NoDup ls -> a ∉ ls -> a <> NULL -> g !! a = Some x ->
  let g1 := <[a := linked_to (hd NULL (drop j ls)) x]> g in
  exists g2 h2, (if default NULL (last (take j ls)) =? NULL then on_tcp (upd_conn pcb (with_unsent a))
      else on_tcp (set_seg_next (default NULL (last (take j ls))) a)) (qst n t g1 c) = Ok (tt, qst n t g2 (with_unsent h2 c)) /\
    seg_chain g2 h2 (take j ls ++ a :: drop j ls) /\ seg_inv (qst n t g2 (with_unsent h2 c)) R /\
    (forall y l, a ∉ l -> (forall z, z ∈ l -> z ∉ ls) -> seg_chain g y l -> seg_chain g2 y l) /\
    (forall l ws, Forall2 (views (n_mem n) (n_pbufs n) g) l ws -> Forall2 (views (n_mem n) (n_pbufs n) g2) l ws).
Proof.
  intros Hi Hs Hnds Ha Haz E g1. pose proof (seg_chain_into (take j ls) (drop j ls) g _ a x ltac:(rewrite take_drop; exact Hs)) as Hin.
  rewrite take_drop in Hin. specialize (Hin Hnds Ha Haz E). fold g1 in Hin. cbv zeta in Hin.
  assert (seg_inv (qst n t g1 c) R) as Hi1 by (by apply q_relink_inv).
  destruct (last (take j ls)) as [b|] eqn:Eb2.
  - change (default NULL (Some b)) with b. destruct Hin as (y & Ey & Hin). apply last_Some in Eb2 as (l1 & Eb2).
    assert (b ∈ ls) as Hbl by (rewrite <- (take_drop j ls), Eb2; set_solver).
    assert (b <> NULL) as Hbz by (by eapply (seg_chain_live g _ ls b)).
    rewrite (proj2 (Z.eqb_neq _ _) Hbz), (q_relink n t g1 c b y a Ey). exists (<[b := linked_to a y]> g1), (unsent (c_queues c)).
    assert (with_unsent (unsent (c_queues c)) c = c) as -> by (by destruct c as [? ? ? ? ? ? ? ? [] ? ?]).
    split_and!; [done|exact Hin|by apply q_relink_inv| |].
    + intros z l Hal Hd Hcl. apply seg_chain_insert; [intros Hb'; by apply (Hd b)|]. by apply seg_chain_insert.
    + intros l ws Hl. by apply views_relink_all, views_relink_all.
  - change (default NULL None =? NULL) with true. apply last_None in Eb2. rewrite Eb2. rewrite q_upd. exists g1, a. split_and!; [done|exact Hin|exact Hi1| |].
    + intros z l Hal _ Hcl. by apply seg_chain_insert.
    + intros l ws Hl. by apply views_relink_all.
Qed.

Lemma rexmit_ok n t g c R lu ls vu vs : seg_inv (qst n t g c) R -> pcb <> NULL -> send_queues n g c lu ls vu vs -> 0 <= nrtx (c_rtt c) <= 255 ->
  exists e g' c', tcp_rexmit pcb (qst n t g c) = Ok (e, qst n t g' c') /\
  (e = ERR_VAL /\ g' = g /\ c' = c \/
   e = ERR_OK /\ exists a lu' v vu', lu = a :: lu' /\ vu = v :: vu' /\ ~ busy (n_pbufs n) g a /\ seg_inv (qst n t g' c') R /\ requeued c c' /\
     let j := n_before (v_seq v) vs in send_queues n g' c' lu' (take j ls ++ a :: drop j ls) vu' (take j vs ++ v :: drop j vs)).
Proof.
  intros Hi Hz (Hu & Hs & Hnd & Hvu & Hvs & Hq) Hn. unfold tcp_rexmit.
  rewrite (bind_ok (assert _) _ _ tt (qst n t g c)) by (unfold assert; by rewrite (proj2 (Z.eqb_neq _ _) Hz)).
  rewrite (bind_ok _ _ _ _ _ (q_conn s pcb k n t g c)). destruct lu as [|a lu].
  { simpl in Hu. rewrite Hu. eexists _, g, c. split; [done|]. by left. }
  destruct Hu as (Eu & Haz & x & E & Hu). rewrite Eu, (proj2 (Z.eqb_neq _ _) Haz). apply Forall2_cons_inv_l in Hvu as (v & vu' & Hv & Hvu & ->).
  destruct (q_busy n t g c a v Haz Hv) as (u & Eb & Hb). rewrite (bind_ok _ _ _ _ _ Eb). destruct u; [eexists _, g, c; split; [done|by left]|].
  rewrite (bind_ok _ _ _ _ _ (q_seg s pcb k n t g c a x E)), (bind_ok _ _ _ _ _ (q_upd s pcb k n t g c _)). set (c1 := with_unacked _ c).
  rewrite (bind_ok _ _ _ (seg_fuel (i_upper (qst n t g c1))) (qst n t g c1)) by done.
  cbn [app] in Hnd. apply NoDup_cons in Hnd as [Ha Hnd]. pose proof Hnd as Hnd0. apply NoDup_app in Hnd0 as (Hndu & Hdis & Hnds).
  pose proof Hv as (x' & f & r & Ex & Hh & _). rewrite E in Ex. injection Ex as <-.
  rewrite (bind_ok _ _ _ _ _ (rexmit_loop_ok ls (seg_fuel (i_upper (qst n t g c1))) n t g c1 a x _ f NULL _ vs E Hh Hs Hvs
    ltac:(unfold seg_fuel; cbn; pose proof (seg_chain_size _ _ _ Hnds Hs); lia))).
  set (j := n_before (v_seq v) vs). rewrite (bind_ok _ _ _ _ _ (q_relink n t g c1 a x _ E)). set (g1 := <[a := _]> g).
  destruct (rexmit_insert n t g c1 R a x ls j Hi Hs Hnds ltac:(set_solver) Haz E) as (g2 & h2 & E2 & Hs2 & Hi2 & Hc2 & Hv2). fold g1 in E2.
  rewrite (bind_ok _ _ _ _ _ E2). set (c2 := with_unsent h2 c1) in *.
  assert (exists c3, (if hd NULL (drop j ls) =? NULL then on_tcp (upd_conn pcb (with_oversize 0)) else mret tt) (qst n t g2 c2) = Ok (tt, qst n t g2 c3) /\
    (c3 = c2 \/ c3 = with_oversize 0 c2)) as (c3 & E3 & Hc3).
  { destruct (hd NULL (drop j ls) =? NULL); [rewrite q_upd|]; eauto. }
  rewrite (bind_ok _ _ _ _ _ E3), (bind_ok _ _ _ _ _ (q_upd s pcb k n t g2 c3 _)), (bind_ok _ _ _ _ _ (q_upd s pcb k n t g2 _ _)).
  eexists _, g2, _. split; [reflexivity|]. right. split; [done|]. exists a, lu, v, vu'. split; [done|]. split; [done|].
  split; [intros Hbb; by apply Hb in Hbb|]. split; [by eapply q_inv|]. cbv zeta. fold j.
  destruct (count_rexmit_keeps c3) as (K1 & K2 & K3 & K4 & K5 & K6). cbv zeta in *.
  split.
  - assert (nrtx (c_rtt c3) = nrtx (c_rtt c)) as Hn3 by (by destruct Hc3 as [->| ->]). unfold requeued. cbn [with_rttest with_rtt c_cong pcb_flags mss c_timers c_snd c_rtt].
    rewrite K1, K2, K3, K4, K5, count_rexmit_nrtx by (by rewrite Hn3). destruct Hc3 as [->| ->]; cbn; by split_and!.
  - unfold send_queues. cbn [with_rttest with_rtt c_queues c_snd]. rewrite K5, K6.
    assert (c_queues c3 = mk_queues h2 (sg_next x) (ooseq (c_queues c)) (refused_data (c_queues c))) as -> by (by destruct Hc3 as [->| ->]).
    assert (snd_queuelen (c_snd c3) = snd_queuelen (c_snd c)) as -> by (by destruct Hc3 as [->| ->]). cbn [unacked unsent]. split_and!.
    + apply Hc2; [set_solver| |done]. intros z Hz1 Hz2. by apply (Hdis z).
    + exact Hs2.
    + rewrite <- (Permutation_middle (take j ls) (drop j ls) a), take_drop. apply NoDup_app. split; [done|]. split; [set_solver|].
      constructor; [set_solver|done].
    + by apply Hv2.
    + apply Hv2. apply Forall2_app; [by apply Forall2_take|]. constructor; [done|by apply Forall2_drop].
    + pose proof (total_app v_pbufs (take j vs) (drop j vs)) as Ht. rewrite take_drop in Ht. rewrite total_app. cbn [total foldr] in *. fold (total v_pbufs vu') (total v_pbufs (drop j vs)) in *. lia.
Qed.

Lemma requeued_numbers c c' : numbers_ok c -> requeued c c' -> numbers_ok c'.
Proof.
  intros Hc (E1 & _ & E2 & _ & _ & E3 & E4 & E5 & E6). pose proof Hc as ((_ & _ & _ & _ & _ & H6 & _) & (R1 & R2 & R3 & R4)).
  apply (numbers_field c c' Hc); try done; [by rewrite E3|]. rewrite E6. unfold rtt_ok. cbn. split_and!; try done; lia.
Qed.

Lemma send_queues_field n g c c' lu ls vu vs : c_queues c' = c_queues c -> snd_queuelen (c_snd c') = snd_queuelen (c_snd c) ->
  send_queues n g c lu ls vu vs -> send_queues n g c' lu ls vu vs.
Proof. intros E1 E2. unfold send_queues. by rewrite E1, E2. Qed.

(** The segments stay, in other queues perhaps. *)
Definition requeues n t g c R (lu ls : list Z) (vu vs : list seg_view) (m : M (ip H tcps) unit) : Prop :=
  exists g' c' lu' ls' vu' vs', m (qst n t g c) = Ok (tt, qst n t g' c') /\ seg_inv (qst n t g' c') R /\
  send_queues n g' c' lu' ls' vu' vs' /\ numbers_ok c' /\ lu' ++ ls' ≡ₚ lu ++ ls /\ vu' ++ vs' ≡ₚ vu ++ vs /\
  (rttest (c_rtt c') = 0 \/ rttest (c_rtt c') = rttest (c_rtt c)).

Lemma rexmit_fast_ok n t g c R lu ls vu vs : seg_inv (qst n t g c) R -> pcb <> NULL -> send_queues n g c lu ls vu vs -> numbers_ok c ->
  requeues n t g c R lu ls vu vs (tcp_rexmit_fast pcb).
Proof.
  intros Hi Hz Hq Hn. unfold requeues, tcp_rexmit_fast. rewrite (bind_ok (assert _) _ _ tt (qst n t g c)) by (unfold assert; by rewrite (proj2 (Z.eqb_neq _ _) Hz)).
  rewrite (bind_ok _ _ _ _ _ (q_conn s pcb k n t g c)). destruct (negb _ && _); [|exists g, c, lu, ls, vu, vs; split_and!; auto].
  destruct (rexmit_ok n t g c R lu ls vu vs Hi Hz Hq ltac:(by apply Hn)) as (e & g' & c' & E & [(-> & -> & ->)|(-> & a & lu' & v & vu' & -> & -> & _ & Hi' & Hr & Hq')]).
  - rewrite (bind_ok _ _ _ _ _ E). exists g, c, lu, ls, vu, vs. split_and!; auto; apply Hn.
  - rewrite (bind_ok _ _ _ _ _ E). change (ERR_OK =? ERR_OK) with true. cbv iota. rewrite q_upd.
    eexists g', _, lu', _, vu', _. split; [done|]. split; [by eapply q_inv|]. split; [eapply send_queues_field, Hq'; done|].
    split; [apply enter_recovery_ok; by apply (requeued_numbers c)|]. cbv zeta. rewrite <- !Permutation_middle, !take_drop. split_and!; try done. left. change (rttest (c_rtt c') = 0). by destruct Hr as (_ & _ & _ & _ & _ & _ & _ & _ & ->).
Qed.

Lemma old_ack_ok n t g c R lu ls vu vs edge : seg_inv (qst n t g c) R -> pcb <> NULL -> send_queues n g c lu ls vu vs -> numbers_ok c ->
  requeues n t g c R lu ls vu vs (old_ack pcb edge).
Proof.
  intros Hi Hz Hq Hn. unfold old_ack. unfold requeues at 1.
  rewrite (bind_ok _ _ _ _ _ (q_conn s pcb k n t g c)), (bind_ok _ _ _ _ _ (q_get s pcb k n t g c t_in (fun _ _ => eq_refl) (fun _ _ => eq_refl))).
  pose proof Hn as ((H1 & H2 & H3 & H4 & H5 & H6 & H7) & Hr).
  destruct (_ && _ && _ && _).
  2:{ rewrite q_upd. eexists g, _, lu, ls, vu, vs. split; [done|]. split; [by eapply q_inv|]. split; [by eapply send_queues_field, Hq|]. split; [|split_and!; auto].
      split; [|done]. refine (conj H1 (conj H2 (conj H3 (conj H4 (conj H5 (conj H6 _)))))). cbn. unfold is_u8. lia. }
  rewrite (bind_ok _ _ _ _ _ (q_upd s pcb k n t g c _)). set (c1 := if _ <? _ then _ else c).
  assert (c_queues c1 = c_queues c /\ c_snd c1 = c_snd c /\ rttest (c_rtt c1) = rttest (c_rtt c) /\ numbers_ok c1) as (Q1 & S1 & T1 & N1).
  { unfold c1. case_match; [|done]. do 3 (split; [done|]). split; [|done]. refine (conj H1 (conj H2 (conj H3 (conj H4 (conj H5 (conj H6 _)))))). apply u8_range. }
  rewrite (bind_ok _ _ _ _ _ (q_conn s pcb k n t g c1)).
  assert (exists c2, (if 3 <? dupacks (c_cong c1) then on_tcp (upd_conn pcb (fun c => with_cwnd (TCP_WND_INC (cwnd (c_cong c)) (mss c)) c)) else mret tt) (qst n t g c1) =
    Ok (tt, qst n t g c2) /\ c_queues c2 = c_queues c /\ c_snd c2 = c_snd c /\ rttest (c_rtt c2) = rttest (c_rtt c) /\ numbers_ok c2)
    as (c2 & E2 & Q2 & S2 & T2 & N2).
  { case_match; [|by exists c1]. rewrite q_upd. eexists. do 4 (split; [done|]). destruct N1 as ((G1 & G2 & G3 & G4 & G5) & Gr).
    split; [|done]. unfold cong_ok. cbn. unfold TCP_MSS in *. rewrite TCP_WND_INC_sat by (unfold is_u16; lia). split_and!; try done; try lia; apply G5. }
  rewrite (bind_ok _ _ _ _ _ E2). assert (send_queues n g c2 lu ls vu vs) as Hq2 by (eapply send_queues_field, Hq; by rewrite ?Q2, ?S2).
  assert (seg_inv (qst n t g c2) R) as Hi2 by (by eapply q_inv).
  destruct (3 <=? _); [|exists g, c2, lu, ls, vu, vs; split_and!; auto; apply N2].
  destruct (rexmit_fast_ok n t g c2 R lu ls vu vs Hi2 Hz Hq2 N2) as (g3 & c3 & lu3 & ls3 & vu3 & vs3 & E3 & Hf). exists g3, c3, lu3, ls3, vu3, vs3. by rewrite <- T2.
Qed.

(** The end of the function: the measurement of the round-trip time. *)
Lemma measure_ok n t g c R lu ls vu vs a : seg_inv (qst n t g c) R -> send_queues n g c lu ls vu vs -> numbers_ok c ->
  (rttest (c_rtt c) = 0 \/ u32 (tcp_ticks t - rttest (c_rtt c)) <= max_rtt) ->
  exists c', (c ← on_tcp (get_conn pcb); ticks ← on_tcp (gets tcp_ticks);
      if negb (rttest (c_rtt c) =? 0) && TCP_SEQ_LT (rtseq (c_rtt c)) a then on_tcp (upd_conn pcb (estimate_rtt ticks)) else mret tt) (qst n t g c) =
    Ok (tt, qst n t g c') /\ seg_inv (qst n t g c') R /\ send_queues n g c' lu ls vu vs /\ numbers_ok c' /\ c_cong c' = c_cong c /\ c_snd c' = c_snd c /\
    rtime (c_rtt c') = rtime (c_rtt c) /\ c_queues c' = c_queues c.
Proof.
  intros Hi Hq Hn Hr. rewrite (bind_ok _ _ _ _ _ (q_conn s pcb k n t g c)).
  rewrite (bind_ok _ _ _ _ _ (q_get s pcb k n t g c tcp_ticks (fun _ _ => eq_refl) (fun _ _ => eq_refl))).
  destruct (Z.eqb_spec (rttest (c_rtt c)) 0) as [E0|E0]; cbn [negb andb]; [by exists c|]. destruct (TCP_SEQ_LT _ a); [|by exists c].
  rewrite q_upd. destruct Hr as [Hr|Hr]; [done|]. destruct (estimate_rtt_exact (tcp_ticks t) c (proj2 Hn) Hr) as [_ Hok].
  eexists. split; [done|]. split; [by eapply q_inv|]. split; [by eapply send_queues_field, Hq|]. split; [|done]. split; [exact (proj1 Hn)|exact Hok].
Qed.

(** New data is acknowledged. *)
Lemma receive_new_ok n t g c R lu ls vu vs : seg_inv (qst n t g c) R -> send_queues n g c lu ls vu vs -> numbers_ok c ->
  snd_queuelen (c_snd c) < 65536 -> recv_acked (t_in t) = 0 -> u32 (tcp_ticks t - rttest (c_rtt c)) <= max_rtt ->
  let a := in_ackno (t_in t) in let ju := n_acked a vu in let js := n_acked a vs in
  exists n2 t2 c2, let g2 := foldr delete g (take js ls ++ take ju lu) in
    new_ack pcb (qst n t g c) = Ok (tt, qst n2 t2 g2 c2) /\ seg_inv (qst n2 t2 g2 c2) R /\
    send_queues n2 g2 c2 (drop ju lu) (drop js ls) (drop ju vu) (drop js vs) /\ numbers_ok c2 /\ u32 (tcp_ticks t2 - rttest (c_rtt c2)) <= max_rtt /\
    n_mem n2 = n_mem n /\ lastack (c_cong c2) = a /\
    snd_buf (c_snd c2) = u16 (snd_buf (c_snd c) + (total v_data (take ju vu) + total v_data (take js vs))) /\
    rtime (c_rtt c2) = (if unacked (c_queues c2) =? NULL then -1 else 0).
Proof.
  intros Hi Hq Hn H16 Hr Ht. pose proof Hq as (Hu & Hs & Hnd & Hvu & Hvs & Hl).
  destruct (new_ack_ok pools s pcb k n t g c R lu ls vu vs Hi Hu Hs Hnd Hvu Hvs Hl H16 Hr) as
    (n2 & t2 & c2 & E2 & Hi2 & _ & Htk & [Em _] & Hu2 & Hs2 & Hvu2 & Hvs2 & Hl2 & Hb2 & Hc2 & Hr2 & Hx2 & Hw2 & Hm2).
  intros a ju js. fold a in E2, Hi2, Hu2, Hs2, Hvu2, Hvs2, Hl2, Hb2, Hc2, Hr2, Hx2, Hw2, Hm2.
  pose proof (ack_new_data_ok a c Hn) as Hna. destruct (ack_new_data_facts a c) as [La Lt]. set (d := ack_new_data a c) in *. clearbody d.
  exists n2, t2, c2. cbv zeta. split; [exact E2|]. split; [exact Hi2|]. split.
  { split_and!; try done. rewrite <- (take_drop ju lu), <- (take_drop js ls) in Hnd. apply NoDup_app in Hnd as (N1 & N2 & N3).
    apply NoDup_app in N1 as (_ & _ & N1). apply NoDup_app in N3 as (_ & _ & N3). apply NoDup_app. split_and!; [done| |done].
    intros x Hx Hx'. apply (N2 x); apply elem_of_app; by right. }
  split; [|rewrite Htk, Hr2, Hc2, Hb2; cbn [c_rtt with_rtime with_rtt rttest rtime]; rewrite Lt; by split_and!].
  apply (numbers_field d); try done; [rewrite Hb2; apply u16_range|]. rewrite Hr2. exact (proj2 Hna).
Qed.


(** C7: retransmission after a timeout. [tcp_rexmit_rto_prepare] refuses, with nothing
    changed, exactly if nothing is outstanding or the driver still holds a packet of an
    outstanding segment. Otherwise the outstanding segments stand before the unsent
    ones in the queue of unsent segments, in their order and unchanged, nothing is
    outstanding, the end of the retransmission is that of the last of them, and the
    running measurement of the round-trip time is given up. *)
Theorem tcp_rexmit_rto_prepare_spec (R : gmultiset Z) (c : conn) (lu ls : list Z) (vu vs : list seg_view)
  (Hi : seg_inv s R) (E : pcbs (i_upper s) !! pcb = Some (mk_pcb k (Conn c))) (Hz : pcb <> NULL)
  (Hq : send_queues (snet s) (segs (i_upper s)) c lu ls vu vs) :
  exists e g' c', tcp_rexmit_rto_prepare pcb s = Ok (e, qst (snet s) (i_upper s) g' c') /\
  (e = ERR_VAL /\ g' = segs (i_upper s) /\ c' = c /\ (lu = [] \/ Exists (busy (n_pbufs (snet s)) (segs (i_upper s))) lu) \/
   e = ERR_OK /\ Forall (fun a => ~ busy (n_pbufs (snet s)) (segs (i_upper s)) a) lu /\ seg_inv (qst (snet s) (i_upper s) g' c') R /\
     send_queues (snet s) g' c' [] (lu ++ ls) [] (vu ++ vs) /\
     exists v, last vu = Some v /\ rto_end (c_cong c') = u32 (v_seq v + v_space v) /\ pcb_flags c' = u16 (pcb_flags c |c TF_RTO) /\ rttest (c_rtt c') = 0).
Proof.
  pose proof (qst_id s pcb k c E) as Eq. pose proof Hq as (Hu & Hs & Hnd & Hvu & Hvs & Hl). rewrite <- Eq in Hi.
  destruct (rto_prepare_ok (snet s) (i_upper s) (segs (i_upper s)) c R lu ls vu vs Hi Hz Hu Hs Hnd Hvu Hvs) as (e & g' & c' & E' & Hc).
  rewrite Eq in E'. exists e, g', c'. split; [exact E'|]. destruct Hc as [(-> & -> & -> & Hb)|(-> & Hb & (v & Ev & ->) & Hi' & Hs' & Hv')]; [by left|right].
  split; [done|]. split; [done|]. split; [done|]. split; [|by exists v]. split_and!; try done.
  cbn. rewrite Hl, total_app. done.
Qed.
End Ack.
