(* ===== verification/TcpTypes.v ===== *)
(** * The members of TCP's data keep their C types

    Every member of a control block, of a segment and of the static variables is kept in
    the range of the type that tcp.h, tcp_priv.h and tcp_in.c give it, by every operation
    of [Tcp] and [TcpSeg], on every path that returns: no assignment needs more bits than
    its member has. *)

From stdpp Require Import base numbers list gmap gmultiset functions.
From S2P Require Import Prelude Chksum Memp Pbuf PbufSpec PbufData PbufRefs Ethernetif Ip4Addr Ethernet Etharp EtharpSpec Ip4 Ip4Spec TcpApi Tcp TcpSpec TcpSeg.
Open Scope Z_scope.
Open Scope c_scope.

(** ** Triples

    From states in [I] the operation, if it returns, goes to states in [I] with results
    in [Q]. *)

Definition triple {S A} (I : S -> Prop) (m : M S A) (Q : A -> Prop) : Prop := forall s a s', I s -> m s = Ok (a, s') -> I s' /\ Q a.
Definition any {A} : A -> Prop := fun _ => True.

Create HintDb typing.

Section Triple.
Context {S : Type} (I : S -> Prop).

Lemma triple_ret {A} (a : A) (Q : A -> Prop) : Q a -> triple I (mret a) Q.
Proof. intros Ha s b s' Hs E. injection E as <- <-. done. Qed.
Lemma triple_bind {A B} (m : M S A) (k : A -> M S B) Q R : triple I m Q -> (forall a, Q a -> triple I (k a) R) -> triple I (m ≫= k) R.
Proof. intros Hm Hk s b s' Hs E. apply bind_inv in E as (a & s1 & E1 & E2). destruct (Hm s a s1 Hs E1) as [H1 Ha]. by apply (Hk a Ha s1 b s' H1 E2). Qed.
Lemma triple_weaken {A} (m : M S A) (Q R : A -> Prop) : triple I m Q -> (forall a, Q a -> R a) -> triple I m R.
Proof. intros Hm HQ s a s' Hs E. destruct (Hm s a s' Hs E). split; [done|]. by apply HQ. Qed.
Lemma triple_any {A} (m : M S A) Q : triple I m Q -> triple I m any.
Proof. intros Hm. by eapply triple_weaken. Qed.
Lemma triple_assert b : triple I (assert b) any.
Proof. intros s a s' Hs E. unfold assert in E. destruct b; [|done]. by injection E as <- <-. Qed.
Lemma triple_nofuel {A} (Q : A -> Prop) : triple I nofuel Q.
Proof. intros s a s' Hs E. done. Qed.
Lemma triple_gets {A} (f : S -> A) (Q : A -> Prop) : (forall s, I s -> Q (f s)) -> triple I (gets f) Q.
Proof. intros Hf s a s' Hs E. injection E as <- <-. auto. Qed.
Lemma triple_modify (f : S -> S) : (forall s, I s -> I (f s)) -> triple I (modify f) any.
Proof. intros Hf s a s' Hs E. injection E as <- <-. split; [auto|done]. Qed.
Lemma triple_if {A} (b : bool) (m m' : M S A) Q : (b = true -> triple I m Q) -> (b = false -> triple I m' Q) -> triple I (if b then m else m') Q.
Proof. destruct b; auto. Qed.
End Triple.

(** Walking through a program: what is known of a result is in the context afterwards. *)
Ltac triple_step :=
  match goal with
  | |- triple _ (mret _) _ => apply triple_ret
  | |- triple _ nofuel _ => apply triple_nofuel
  | |- triple _ (assert _) _ => apply triple_assert
  | |- triple _ (?m ≫= _) _ => lazymatch type of m with M _ unit => eapply (triple_bind _ _ _ any); [|intros _ _] end
  | |- triple _ (_ ≫= _) _ => eapply triple_bind; [|let x := fresh "x" in let Hx := fresh "Hx" in intros x Hx; cbv beta in Hx]
  | |- triple _ (if _ then _ else _) _ => apply triple_if; intros ?
  | |- triple _ (let _ := _ in _) _ => cbv zeta
  | |- triple _ (match ?x with _ => _ end) _ => destruct x
  | |- any _ => exact Logic.I
  end.
Ltac triples := cbv zeta; repeat (triple_step || (eauto with typing)).

(** ** The types *)

Definition is_s16 (x : Z) : Prop := -32768 <= x < 32768.
Lemma s16_range x : is_s16 (s16 x).
Proof. unfold is_s16, s16, u16. destruct (Z.ltb_spec (x mod 65536) 32768); lia. Qed.

Definition common_typed (c : pcb_common) : Prop :=
  is_u32 (local_ip c) /\ is_u32 (remote_ip c) /\ is_u8 (netif_idx c) /\ is_u8 (so_options c) /\ is_u8 (tos c) /\ is_u8 (ttl c) /\
  is_u8 (prio c) /\ is_u16 (local_port c).
Definition timers_typed (t : pcb_timers) : Prop := is_u8 (polltmr t) /\ is_u8 (pollinterval t) /\ is_u8 (last_timer t) /\ is_u32 (tmr t).
Definition rcv_typed (w : pcb_rcv) : Prop := is_u32 (rcv_nxt w) /\ is_u16 (rcv_wnd w) /\ is_u16 (rcv_ann_wnd w) /\ is_u32 (rcv_ann_right_edge w).
Definition rtt_typed (r : pcb_rtt) : Prop :=
  is_s16 (rtime r) /\ is_u32 (rttest r) /\ is_u32 (rtseq r) /\ is_s16 (sa r) /\ is_s16 (sv r) /\ is_s16 (rto r) /\ is_u8 (nrtx r).
Definition cong_typed (g : pcb_congestion) : Prop :=
  is_u8 (dupacks g) /\ is_u32 (lastack g) /\ is_u16 (cwnd g) /\ is_u16 (ssthresh g) /\ is_u32 (rto_end g).
Definition snd_typed (n : pcb_snd) : Prop :=
  is_u32 (snd_nxt n) /\ is_u32 (snd_wl1 n) /\ is_u32 (snd_wl2 n) /\ is_u32 (snd_lbb n) /\ is_u16 (snd_wnd n) /\ is_u16 (snd_wnd_max n) /\
  is_u16 (snd_buf n) /\ is_u16 (snd_queuelen n) /\ is_u16 (unsent_oversize n) /\ is_u16 (bytes_acked n).
Definition keep_typed (a : pcb_keepalive) : Prop :=
  is_u32 (keep_idle a) /\ is_u8 (persist_cnt a) /\ is_u8 (persist_backoff a) /\ is_u8 (persist_probe a) /\ is_u8 (keep_cnt_sent a).
Definition conn_typed (c : conn) : Prop :=
  is_u16 (remote_port c) /\ is_u16 (pcb_flags c) /\ is_u16 (mss c) /\ timers_typed (c_timers c) /\ rcv_typed (c_rcv c) /\ rtt_typed (c_rtt c) /\
  cong_typed (c_cong c) /\ snd_typed (c_snd c) /\ keep_typed (c_keep c).
Definition pcb_typed (p : tcp_pcb) : Prop := common_typed (com p) /\ match body p with Conn c => conn_typed c | Listener _ => True end.
Definition seg_typed (g : tcp_seg) : Prop := is_u16 (sg_len g) /\ is_u8 (sg_flags g).
Definition opts_typed (o : tcp_opts) : Prop := is_u16 (tcphdr_optlen o) /\ is_u16 (tcphdr_opt1len o) /\ is_u16 (tcp_optidx o).
Definition in_typed (i : tcp_in) : Prop :=
  is_u32 (in_seqno i) /\ is_u32 (in_ackno i) /\ is_u16 (recv_acked i) /\ is_u16 (in_tcplen i) /\ is_u8 (in_flags i).
Definition tcps_typed (t : tcps) : Prop :=
  map_Forall (fun _ => pcb_typed) (pcbs t) /\ map_Forall (fun _ => seg_typed) (segs t) /\
  is_u16 (tcp_port t) /\ is_u32 (tcp_ticks t) /\ is_u32 (iss t) /\ opts_typed (t_opts t) /\ in_typed (t_in t).

(** Goals on members: those that are left alone, wrapped values and constants. *)
Ltac members :=
  unfold conn_typed, common_typed, timers_typed, rcv_typed, rtt_typed, cong_typed, snd_typed, keep_typed, seg_typed, opts_typed, in_typed in *;
  cbn in *; destruct_and?; split_and?;
  repeat match goal with |- context [if ?b then _ else _] => destruct b end;
  try done; try apply u8_range; try apply u16_range; try apply u32_range; try apply s16_range;
  try (unfold is_u8, is_u16, is_u32, is_s16 in *; lia).

(** ** Control blocks and segments *)

Local Abbreviation TT := tcps_typed.

Lemma get_pcb_typed a : triple TT (get_pcb a) pcb_typed.
Proof. intros t p t' Ht E. unfold get_pcb in E. destruct (pcbs t !! a) as [q|] eqn:Eq; [|done]. injection E as <- <-. split; [done|]. by eapply Ht. Qed.
Lemma get_conn_typed a : triple TT (get_conn a) conn_typed.
Proof.
  intros t c t' Ht E. unfold get_conn in E. destruct (pcbs t !! a) as [[k [x|]]|] eqn:Eq; [|done..]. injection E as <- <-. split; [done|].
  by destruct (proj1 Ht a _ Eq).
Qed.
Lemma get_seg_typed a : triple TT (get_seg a) seg_typed.
Proof. intros t p t' Ht E. unfold get_seg in E. destruct (segs t !! a) as [q|] eqn:Eq; [|done]. injection E as <- <-. split; [done|]. by eapply (proj1 (proj2 Ht)). Qed.

Lemma upd_pcb_typed a f : (forall p, pcb_typed p -> pcb_typed (f p)) -> triple TT (upd_pcb a f) any.
Proof.
  intros Hf t p t' Ht E. unfold upd_pcb in E. destruct (pcbs t !! a) as [q|] eqn:Eq; [|done]. injection E as <- <-. split; [|done].
  destruct Ht as [Hp Ht]. split; [|done]. cbn. apply map_Forall_insert_2; [|done]. apply Hf. by apply (Hp a).
Qed.
Lemma upd_com_typed a f : (forall c, common_typed c -> common_typed (f c)) -> triple TT (upd_com a f) any.
Proof. intros Hf. apply upd_pcb_typed. intros p [H1 H2]. split; [by apply Hf|done]. Qed.
Lemma upd_conn_typed a f : (forall c, conn_typed c -> conn_typed (f c)) -> triple TT (upd_conn a f) any.
Proof.
  intros Hf t p t' Ht E. unfold upd_conn in E. destruct (pcbs t !! a) as [[k [x|]]|] eqn:Eq; [|done..]. injection E as <- <-. split; [|done].
  destruct Ht as [Hp Ht]. split; [|done]. cbn. apply map_Forall_insert_2; [|done]. destruct (Hp a _ Eq) as [H1 H2]. split; [done|]. by apply Hf.
Qed.
Lemma set_seg_next_typed a x : triple TT (set_seg_next a x) any.
Proof.
  intros t p t' Ht E. unfold set_seg_next in E. destruct (segs t !! a) as [q|] eqn:Eq; [|done]. injection E as <- <-. split; [|done].
  destruct Ht as (Hp & Hs & Ht). refine (conj Hp (conj _ Ht)). cbn. apply map_Forall_insert_2; [|done]. exact (Hs a q Eq).
Qed.
Lemma set_head_typed l x : triple TT (modify (set_head l x)) any.
Proof. by apply triple_modify. Qed.
Lemma set_port_typed x : is_u16 x -> triple TT (modify (set_port x)) any.
Proof. intros Hx. apply triple_modify. intros t (H1 & H2 & _ & H4). exact (conj H1 (conj H2 (conj Hx H4))). Qed.
#[export] Hint Resolve get_pcb_typed get_conn_typed get_seg_typed upd_pcb_typed upd_com_typed upd_conn_typed set_seg_next_typed set_head_typed set_port_typed : typing.
#[export] Hint Resolve u8_range u16_range u32_range s16_range : typing.

Section Tcps.
Local Abbreviation TT := tcps_typed.

Lemma with_next_typed x c : common_typed c -> common_typed (with_next x c).
Proof. done. Qed.
Lemma gets_port_typed : triple TT (gets tcp_port) is_u16.
Proof. apply triple_gets. intros t (_ & _ & H & _). done. Qed.
Lemma gets_opts_typed : triple TT (gets t_opts) opts_typed.
Proof. apply triple_gets. intros t (_ & _ & _ & _ & _ & H & _). done. Qed.
Lemma gets_in_typed : triple TT (gets t_in) in_typed.
Proof. apply triple_gets. intros t (_ & _ & _ & _ & _ & _ & H). done. Qed.
Lemma gets_any {A} (f : tcps -> A) : triple TT (gets f) any.
Proof. by apply triple_gets. Qed.
#[local] Hint Resolve with_next_typed gets_port_typed gets_opts_typed gets_in_typed : typing.
#[local] Hint Resolve gets_any | 10 : typing.

(** Lists and ports *)
Lemma tcp_reg_typed l p : triple TT (tcp_reg l p) any.
Proof. unfold tcp_reg. triples. Qed.
Lemma rmv_loop_typed fuel : forall t p, triple TT (rmv_loop fuel t p) any.
Proof. induction fuel as [|fuel IH]; intros t p; cbn [rmv_loop]; triples. Qed.
#[local] Hint Resolve tcp_reg_typed rmv_loop_typed : typing.
Lemma TCP_RMV_typed l p : triple TT (TCP_RMV l p) any.
Proof. unfold TCP_RMV. triples. Qed.

Lemma listener_null_typed c : conn_typed c -> conn_typed (with_fns (with_listener NULL (c_fns c)) c).
Proof. done. Qed.
#[local] Hint Resolve listener_null_typed : typing.
Lemma listener_loop_typed fuel : forall p l, triple TT (listener_loop fuel p l) any.
Proof. induction fuel as [|fuel IH]; intros p l; cbn [listener_loop]; triples. Qed.
#[local] Hint Resolve listener_loop_typed : typing.
Lemma tcp_remove_listener_typed l p : triple TT (tcp_remove_listener l p) any.
Proof. unfold tcp_remove_listener. triples. Qed.
#[local] Hint Resolve tcp_remove_listener_typed : typing.
Lemma closed_loop_typed ls : forall p, triple TT (closed_loop ls p) any.
Proof. induction ls as [|l ls IH]; intros p; cbn [closed_loop]; triples. Qed.
#[local] Hint Resolve closed_loop_typed : typing.
Lemma tcp_listen_closed_typed p : triple TT (tcp_listen_closed p) any.
Proof. unfold tcp_listen_closed. triples. Qed.

Lemma search_loop_typed fuel : forall test p, triple TT (search_loop fuel test p) any.
Proof. induction fuel as [|fuel IH]; intros test p; cbn [search_loop]; triples. Qed.
#[local] Hint Resolve search_loop_typed : typing.
Lemma search_lists_typed ls : forall test, triple TT (search_lists ls test) any.
Proof. induction ls as [|l ls IH]; intros test; cbn [search_lists]; triples. Qed.
#[local] Hint Resolve search_lists_typed : typing.
Lemma is_u16_0 : is_u16 0.
Proof. unfold is_u16. lia. Qed.
Lemma is_u16_start : is_u16 TCP_LOCAL_PORT_RANGE_START.
Proof. unfold is_u16, TCP_LOCAL_PORT_RANGE_START. lia. Qed.
#[local] Hint Resolve is_u16_0 is_u16_start : typing.
Lemma new_port_loop_typed fuel : forall n, triple TT (new_port_loop fuel n) is_u16.
Proof. induction fuel as [|fuel IH]; intros n; cbn [new_port_loop]; triples. Qed.
Lemma tcp_init_typed x : triple TT (tcp_init x) any.
Proof. unfold tcp_init. apply set_port_typed, u16_range. Qed.

(** The receive window and the setters *)
Lemma tcp_update_rcv_ann_wnd_typed p : triple TT (tcp_update_rcv_ann_wnd p) any.
Proof.
  unfold tcp_update_rcv_ann_wnd. triples; apply upd_conn_typed; intros c Hc; members.
Qed.
#[local] Hint Resolve tcp_update_rcv_ann_wnd_typed : typing.
Lemma advance_rcv_typed p q n : triple TT (advance_rcv p q n) any.
Proof. unfold advance_rcv. triples. apply upd_conn_typed; intros c Hc; members. Qed.
Lemma announce_typed p : triple TT (announce p) any.
Proof. unfold announce. triples. apply upd_conn_typed; intros c Hc; members. Qed.
Lemma tcp_set_flags_typed x c : conn_typed c -> conn_typed (tcp_set_flags x c).
Proof. intros Hc. members. Qed.
Lemma tcp_clear_flags_typed x c : conn_typed c -> conn_typed (tcp_clear_flags x c).
Proof. intros Hc. members. Qed.
#[local] Hint Resolve tcp_set_flags_typed tcp_clear_flags_typed : typing.
Lemma open_window_typed p n : triple TT (open_window p n) any.
Proof. unfold open_window. triples; apply upd_conn_typed; intros c Hc; members. Qed.

Lemma tcp_next_iss_typed p : triple TT (tcp_next_iss p) any.
Proof.
  unfold tcp_next_iss. triples. apply triple_modify. intros t (H1 & H2 & H3 & H4 & _ & H5 & H6). exact (conj H1 (conj H2 (conj H3 (conj H4 (conj (u32_range _) (conj H5 H6)))))).
Qed.
Lemma tcp_bind_netif_typed p n : (forall x, n = Some x -> is_u8 x) -> triple TT (tcp_bind_netif p n) any.
Proof. intros Hn. apply upd_com_typed. intros c Hc. destruct n as [x|]; [specialize (Hn x eq_refl)|]; members. Qed.
Lemma tcp_setprio_typed p x : is_u8 x -> triple TT (tcp_setprio p x) any.
Proof. intros Hx. unfold tcp_setprio. triples. apply upd_com_typed. intros c Hc. members. Qed.
Lemma tcp_arg_typed p x : triple TT (tcp_arg p x) any.
Proof. unfold tcp_arg. triples. Qed.
Lemma set_fn_typed p f : triple TT (set_fn p f) any.
Proof. unfold set_fn. triples. Qed.
Lemma tcp_accept_typed p f : triple TT (tcp_accept p f) any.
Proof. unfold tcp_accept. triples. apply upd_pcb_typed. intros q [Hq _]. done. Qed.
Lemma tcp_poll_typed p f x : is_u8 x -> triple TT (tcp_poll p f x) any.
Proof. intros Hx. unfold tcp_poll. triples; apply upd_conn_typed; intros c Hc; members. Qed.
End Tcps.
#[export] Hint Resolve with_next_typed gets_port_typed gets_opts_typed gets_in_typed tcp_reg_typed TCP_RMV_typed tcp_listen_closed_typed search_lists_typed
  new_port_loop_typed tcp_update_rcv_ann_wnd_typed open_window_typed tcp_set_flags_typed tcp_clear_flags_typed is_u16_0 : typing.
#[export] Hint Resolve gets_any | 10 : typing.

(** ** Packet buffers: what TCP calls leaves the bytes alone *)

Section Mem.
Context {H : Type} `{HH : !Heap H} (m0 : memory).
Local Abbreviation MT := (fun n : net H => n_mem n = m0).

Lemma lift_memp_mem {A} (m : M memp_state A) : triple MT (lift_memp m) any.
Proof. intros n a n' Hn E. unfold lift_memp in E. destruct (m (n_memp n)) as [[x k]| | |]; [|done..]. by injection E as <- <-. Qed.
Lemma lift_heap_mem {A} (m : M H A) : triple MT (lift_heap m) any.
Proof. intros n a n' Hn E. unfold lift_heap in E. destruct (m (n_heap n)) as [[x k]| | |]; [|done..]. by injection E as <- <-. Qed.
Lemma rd_mem p : triple MT (rd p) any.
Proof. intros n a n' Hn E. unfold rd, deref in E. destruct (n_pbufs n !! p); [|done]. by injection E as <- <-. Qed.
Lemma upd_mem p f : triple MT (upd p f) any.
Proof. intros n a n' Hn E. unfold upd in E. destruct (n_pbufs n !! p); [|done]. by injection E as <- <-. Qed.
Lemma drop_struct_mem p : triple MT (drop_struct p) any.
Proof. intros n a n' Hn E. by injection E as <- <-. Qed.
Lemma chain_fuel_mem : triple MT chain_fuel any.
Proof. by apply triple_gets. Qed.
#[local] Hint Resolve lift_memp_mem lift_heap_mem rd_mem upd_mem drop_struct_mem chain_fuel_mem : typing.
Lemma pbuf_free_loop_mem fuel : forall p k, triple MT (pbuf_free_loop fuel p k) any.
Proof. induction fuel as [|fuel IH]; intros p k; cbn [pbuf_free_loop]; triples. Qed.
#[local] Hint Resolve pbuf_free_loop_mem : typing.
Lemma pbuf_free_mem p : triple MT (pbuf_free p) any.
Proof. unfold pbuf_free. triples. Qed.
Lemma pbuf_ref_mem p : triple MT (pbuf_ref p) any.
Proof. unfold pbuf_ref. triples. Qed.
Lemma clen_loop_mem fuel : forall p k, triple MT (pbuf_clen_loop fuel p k) any.
Proof. induction fuel as [|fuel IH]; intros p k; cbn [pbuf_clen_loop]; triples. Qed.
#[local] Hint Resolve clen_loop_mem : typing.
Lemma pbuf_clen_mem p : triple MT (pbuf_clen p) any.
Proof. unfold pbuf_clen. triples. Qed.
End Mem.
#[export] Hint Resolve lift_memp_mem rd_mem pbuf_free_mem pbuf_ref_mem pbuf_clen_mem : typing.

(** ** The stack *)

Section Stack.
Context {H : Type} `{HH : !Heap H}.

Definition ip_typed (s : ip H tcps) : Prop := tcps_typed (i_upper s) /\ map_Forall (fun _ => is_u8) (n_mem (snet s)).
Local Abbreviation IT := ip_typed.

Lemma on_tcp_typed {A} (m : M tcps A) Q : triple tcps_typed m Q -> triple IT (on_tcp m) Q.
Proof.
  intros Hm s a s' [Ht Hb] E. unfold on_tcp in E. destruct (m (i_upper s)) as [[x t]| | |] eqn:Em; [|done..]. injection E as <- <-.
  destruct (Hm _ _ _ Ht Em) as [H1 H2]. split; [|done]. split; [done|exact Hb].
Qed.

Lemma nb_inv {A} (m : M (net H) A) (s s' : ip H tcps) a : nb m s = Ok (a, s') -> exists n, m (snet s) = Ok (a, n) /\ s' = set_snet n s.
Proof.
  intros E. destruct (m (snet s)) as [[x n]| | |] eqn:Em.
  { rewrite (nb_ok m s x n Em) in E. injection E as <- <-. by exists n. }
  all: exfalso; unfold nb, on_arp, pb, on_link, in_net, on_eth, on_net in E; unfold snet, anet, lnet in Em; by rewrite Em in E.
Qed.

Lemma nb_typed {A} (m : M (net H) A) : (forall m0, triple (fun n => n_mem n = m0) m any) -> triple IT (nb m) any.
Proof.
  intros Hm s a s' [Ht Hb] E. apply nb_inv in E as (n & E & ->). split; [|done]. split; [exact Ht|].
  change (snet (set_snet n s)) with n. by rewrite (proj1 (Hm _ _ _ _ eq_refl E)).
Qed.

Lemma read_byte_typed a : triple IT (nb (read_byte a)) is_u8.
Proof.
  intros s x s' [Ht Hb] E. apply nb_inv in E as (n & E & ->). unfold read_byte, deref in E. destruct (n_mem (snet s) !! a) as [y|] eqn:Ey; [|done].
  injection E as <- <-. rewrite set_snet_id. split; [done|]. by apply (Hb a).
Qed.

Lemma load_typed (m : memory) k : forall a l, map_Forall (fun _ => is_u8) m -> load m a k = Some l -> bytes_ok l /\ length l = k.
Proof.
  induction k as [|k IH]; intros a l Hm E; cbn [load] in E; [injection E as <-; split; [constructor|done]|].
  destruct (m !! a) as [y|] eqn:Ey; [|done]. cbn in E. destruct (load m (a + 1) k) as [l'|] eqn:El; [|done]. injection E as <-.
  destruct (IH _ _ Hm El) as [H1 H2]. split; [constructor; [by apply (Hm a)|done]|]. cbn. by rewrite H2.
Qed.

Lemma read_u16_typed a : triple IT (nb (read_u16 a)) is_u16.
Proof.
  intros s x s' [Ht Hb] E. apply nb_inv in E as (n & E & ->). unfold read_u16, read_bytes, mbind, M_bind, deref in E.
  destruct (load (n_mem (snet s)) a 2) as [l|] eqn:El; [|done]. destruct (load_typed _ _ _ _ Hb El) as [Hl Hn].
  destruct l as [|b0 [|b1 [|]]]; try done. injection E as <- <-. rewrite set_snet_id. split; [done|].
  inversion_clear Hl as [|? ? H0 Hl1]. inversion_clear Hl1 as [|? ? H1 _]. unfold is_u8, is_u16 in *. lia.
Qed.
Lemma read_u32_typed a : triple IT (nb (read_u32 a)) any.
Proof.
  apply nb_typed. intros m0 n x n' Hn E. unfold read_u32, read_bytes, mbind, M_bind, deref in E. destruct (load _ _ _); [|done]. by injection E as <- <-.
Qed.
#[local] Hint Resolve on_tcp_typed nb_typed read_byte_typed read_u16_typed read_u32_typed : typing.

(** Parameters: the timer and transmission keep the types too. *)
Context (tcp_timer_needed : M (ip H tcps) unit) (tcp_output tcp_send_empty_ack : Z -> M (ip H tcps) Z).
Hypothesis timer_typed : triple IT tcp_timer_needed any.
Hypothesis output_typed : forall p, triple IT (tcp_output p) any.
Hypothesis empty_ack_typed : forall p, triple IT (tcp_send_empty_ack p) any.
#[local] Hint Resolve timer_typed output_typed empty_ack_typed : typing.

Lemma TCP_REG_typed l p : triple IT (TCP_REG tcp_timer_needed l p) any.
Proof. unfold TCP_REG. triples. Qed.
Lemma delete_pcb_typed p : triple tcps_typed (modify (fun t => set_pcbs (delete p (pcbs t)) t)) any.
Proof. apply triple_modify. intros t [H1 H2]. split; [|exact H2]. by apply map_Forall_delete. Qed.
Lemma insert_pcb_typed p q : pcb_typed q -> triple tcps_typed (modify (fun t => set_pcbs (<[p := q]> (pcbs t)) t)) any.
Proof. intros Hq. apply triple_modify. intros t [H1 H2]. split; [|exact H2]. by apply map_Forall_insert_2. Qed.
#[local] Hint Resolve TCP_REG_typed delete_pcb_typed insert_pcb_typed : typing.
Lemma tcp_free_typed p : triple IT (tcp_free p) any.
Proof. unfold tcp_free. triples. Qed.
#[local] Hint Resolve tcp_free_typed : typing.

Lemma tcp_bind_typed p a x : (forall y, a = Some y -> is_u32 y) -> is_u16 x -> triple IT (tcp_bind tcp_timer_needed p a x) any.
Proof.
  intros Ha Hx. unfold tcp_bind. set (y := match a with Some z => z | None => IPADDR_ANY end).
  assert (is_u32 y) as Hy. { unfold y. destruct a as [z|]; [by apply Ha|]. unfold is_u32, IPADDR_ANY. lia. }
  triple_step; [triples|]. triple_step; [eauto with typing|]. triple_step; [triples|].
  eapply (triple_bind _ _ _ (fun r => is_u16 r.2)).
  - triples.
  - intros [e z] Hz. cbn in Hz. triples; apply on_tcp_typed, upd_com_typed; intros c Hc; members.
Qed.

Lemma tcp_listen_typed p : triple IT (tcp_listen_with_backlog_and_err tcp_timer_needed p) any.
Proof.
  unfold tcp_listen_with_backlog_and_err. triples; try (apply on_tcp_typed).
  - apply insert_pcb_typed. destruct Hx as [Hc _]. split; [|done]. members.
  - apply upd_pcb_typed. intros q [Hq _]. done.
Qed.
Lemma tcp_recved_typed p n : triple IT (Tcp.tcp_recved tcp_output p n) any.
Proof. unfold Tcp.tcp_recved. triples. Qed.

(** Options *)
Lemma with_optidx_typed x : is_u16 x -> triple tcps_typed (modify (with_optidx x)) any.
Proof.
  intros Hx. apply triple_modify. intros t (H1 & H2 & H3 & H4 & H5 & (H6 & H7 & _) & H8).
  exact (conj H1 (conj H2 (conj H3 (conj H4 (conj H5 (conj (conj H6 (conj H7 Hx)) H8)))))).
Qed.
#[local] Hint Resolve with_optidx_typed : typing.
Lemma next_optbyte_typed : triple IT tcp_get_next_optbyte is_u8.
Proof. unfold tcp_get_next_optbyte. triples. Qed.
#[local] Hint Resolve next_optbyte_typed : typing.
Lemma with_mss_typed x c : is_u16 x -> conn_typed c -> conn_typed (with_mss (if (TCP_MSS <? x) || (x =? 0) then TCP_MSS else x) c).
Proof. intros Hx Hc. unfold TCP_MSS. members. Qed.
#[local] Hint Resolve with_mss_typed : typing.
Lemma parse_loop_typed fuel : forall p, triple IT (parse_loop fuel p) any.
Proof. induction fuel as [|fuel IH]; intros p; cbn [parse_loop]; triples. Qed.
#[local] Hint Resolve parse_loop_typed : typing.
Lemma tcp_parseopt_typed p : triple IT (tcp_parseopt p) any.
Proof. unfold tcp_parseopt. triples. Qed.

(** Segments *)
Lemma delete_seg_typed a : triple tcps_typed (modify (fun t => set_segs (delete a (segs t)) t)) any.
Proof. apply triple_modify. intros t (H1 & H2 & H3). refine (conj H1 (conj _ H3)). by apply map_Forall_delete. Qed.
Lemma insert_seg_typed a x : seg_typed x -> triple tcps_typed (modify (fun t => set_segs (<[a := x]> (segs t)) t)) any.
Proof. intros Hx. apply triple_modify. intros t (H1 & H2 & H3). refine (conj H1 (conj _ H3)). by apply map_Forall_insert_2. Qed.
#[local] Hint Resolve delete_seg_typed insert_seg_typed : typing.
Lemma tcp_seg_free_typed a : triple IT (tcp_seg_free a) any.
Proof. unfold tcp_seg_free. triples. Qed.
#[local] Hint Resolve tcp_seg_free_typed : typing.
Lemma segs_loop_typed fuel : forall a, triple IT (segs_loop fuel a) any.
Proof. induction fuel as [|fuel IH]; intros a; cbn [segs_loop]; triples. Qed.
#[local] Hint Resolve segs_loop_typed : typing.
Lemma tcp_segs_free_typed a : triple IT (tcp_segs_free a) any.
Proof. unfold tcp_segs_free. triples. Qed.
#[local] Hint Resolve tcp_segs_free_typed : typing.
Lemma tcp_seg_copy_typed a : triple IT (tcp_seg_copy a) any.
Proof. unfold tcp_seg_copy. triples. Qed.
Lemma tcp_free_ooseq_typed p : triple IT (tcp_free_ooseq p) any.
Proof. unfold tcp_free_ooseq. triples. Qed.
#[local] Hint Resolve tcp_free_ooseq_typed : typing.
Lemma tcp_pcb_purge_typed p : triple IT (tcp_pcb_purge p) any.
Proof. unfold tcp_pcb_purge. triples; apply on_tcp_typed, upd_conn_typed; intros c Hc; members. Qed.
#[local] Hint Resolve tcp_pcb_purge_typed : typing.
Lemma tcp_pcb_remove_typed l p : triple IT (tcp_pcb_remove tcp_output l p) any.
Proof. unfold tcp_pcb_remove. triples. apply on_tcp_typed, upd_com_typed. intros c Hc. members. Qed.

(** Retransmission and acknowledgements *)
Lemma seg_seqno_typed a : triple IT (seg_seqno a) any.
Proof. unfold seg_seqno. triples. Qed.
Lemma TCPH_FLAGS_typed a : triple IT (TCPH_FLAGS a) is_u8.
Proof. unfold TCPH_FLAGS. triples. Qed.
#[local] Hint Resolve TCPH_FLAGS_typed : typing.
Lemma TCP_TCPLEN_typed a : triple IT (TCP_TCPLEN a) any.
Proof. unfold TCP_TCPLEN. triples. Qed.
Lemma busy_typed a : triple IT (tcp_output_segment_busy a) any.
Proof. unfold tcp_output_segment_busy. triples. Qed.
#[local] Hint Resolve seg_seqno_typed TCP_TCPLEN_typed busy_typed : typing.
Lemma busy_loop_typed fuel : forall a, triple IT (busy_loop fuel a) any.
Proof. induction fuel as [|fuel IH]; intros a; cbn [busy_loop]; triples. Qed.
#[local] Hint Resolve busy_loop_typed : typing.
Lemma rto_prepare_typed p : triple IT (tcp_rexmit_rto_prepare p) any.
Proof. unfold tcp_rexmit_rto_prepare. triples; apply on_tcp_typed, upd_conn_typed; intros c0 Hc; members. Qed.
Lemma count_rexmit_typed c : conn_typed c -> conn_typed (count_rexmit c).
Proof. intros Hc. unfold count_rexmit. destruct (Z.ltb_spec (nrtx (c_rtt c)) 255); [|done]. members. Qed.
#[local] Hint Resolve rto_prepare_typed count_rexmit_typed : typing.
Lemma tcp_rexmit_rto_typed p : triple IT (tcp_rexmit_rto tcp_output p) any.
Proof. unfold tcp_rexmit_rto, tcp_rexmit_rto_commit. triples. Qed.
Lemma rexmit_loop_typed fuel : forall a b c, triple IT (rexmit_loop fuel a b c) any.
Proof. induction fuel as [|fuel IH]; intros a b c; cbn [rexmit_loop]; triples. Qed.
#[local] Hint Resolve rexmit_loop_typed : typing.
Lemma tcp_rexmit_typed p : triple IT (tcp_rexmit p) any.
Proof. unfold tcp_rexmit. triples; apply on_tcp_typed, upd_conn_typed; intros c0 Hc; members. Qed.

Lemma TCP_WND_INC_range w i : is_u16 (TCP_WND_INC w i).
Proof. unfold TCP_WND_INC. destruct (w <=? _); [apply u16_range|]. unfold is_u16. lia. Qed.
Lemma enter_recovery_typed c : conn_typed c -> conn_typed (enter_recovery c).
Proof. intros Hc. unfold enter_recovery. members. Qed.
Lemma update_snd_wnd_typed x y w c : is_u32 x -> is_u32 y -> is_u16 w -> conn_typed c -> conn_typed (update_snd_wnd x y w c).
Proof. intros Hx Hy Hw Hc. unfold update_snd_wnd. case_match; [|done]. members. Qed.
Lemma leave_recovery_typed c : conn_typed c -> conn_typed (leave_recovery c).
Proof. intros Hc. unfold leave_recovery. case_match; [|done]. members. Qed.
Lemma reset_rto_typed c : conn_typed c -> conn_typed (reset_rto c).
Proof. intros Hc. unfold reset_rto. members. Qed.
Lemma grow_cwnd_typed a c : conn_typed c -> conn_typed (grow_cwnd a c).
Proof. intros Hc. unfold grow_cwnd. repeat case_match; members; apply TCP_WND_INC_range. Qed.
Lemma ack_new_data_typed a c : is_u32 a -> conn_typed c -> conn_typed (ack_new_data a c).
Proof.
  intros Ha Hc. unfold ack_new_data. apply leave_recovery_typed, reset_rto_typed in Hc. set (d := reset_rto _) in *. clearbody d. apply grow_cwnd_typed. members.
Qed.
Lemma estimate_rtt_typed x c : conn_typed c -> conn_typed (estimate_rtt x c).
Proof. intros Hc. unfold estimate_rtt. cbv zeta. members. Qed.
#[local] Hint Resolve enter_recovery_typed update_snd_wnd_typed ack_new_data_typed estimate_rtt_typed tcp_rexmit_typed : typing.

Lemma tcp_rexmit_fast_typed p : triple IT (tcp_rexmit_fast p) any.
Proof. unfold tcp_rexmit_fast. triples. Qed.
Lemma set_recv_acked_typed x : triple tcps_typed (modify (fun t => set_recv_acked (u16 (recv_acked (t_in t) + x)) t)) any.
Proof.
  apply triple_modify. intros t (H1 & H2 & H3 & H4 & H5 & H6 & (H7 & H8 & _ & H9)).
  exact (conj H1 (conj H2 (conj H3 (conj H4 (conj H5 (conj H6 (conj H7 (conj H8 (conj (u16_range _) H9))))))))).
Qed.
#[local] Hint Resolve tcp_rexmit_fast_typed set_recv_acked_typed : typing.
Lemma acked_loop_typed fuel : forall p l o, triple IT (acked_loop fuel p l o) any.
Proof.
  induction fuel as [|fuel IH]; intros p l o; cbn [acked_loop]; triples. apply on_tcp_typed, upd_conn_typed. intros c Hc. members.
Qed.
#[local] Hint Resolve acked_loop_typed : typing.
Lemma free_acked_typed p l o : triple IT (tcp_free_acked_segments p l o) any.
Proof. unfold tcp_free_acked_segments. triples. Qed.
Lemma rto_done_typed p : triple IT (rto_done p) any.
Proof. unfold rto_done. triples. Qed.
#[local] Hint Resolve free_acked_typed rto_done_typed : typing.
Lemma old_ack_typed p e : triple IT (old_ack p e) any.
Proof.
  unfold old_ack. triples; apply on_tcp_typed, upd_conn_typed; intros c Hc; [case_match; [|done]|..]; members. apply TCP_WND_INC_range.
Qed.
Lemma in_ackno_typed i : in_typed i -> is_u32 (in_ackno i).
Proof. by intros (_ & H1 & _). Qed.
Lemma in_seqno_typed i : in_typed i -> is_u32 (in_seqno i).
Proof. by intros (H1 & _). Qed.
#[local] Hint Resolve old_ack_typed in_ackno_typed in_seqno_typed : typing.
Lemma new_ack_typed p : triple IT (new_ack p) any.
Proof. unfold new_ack. triples; apply on_tcp_typed, upd_conn_typed; intros c Hc; repeat case_match; try done; members. Qed.
#[local] Hint Resolve new_ack_typed : typing.
Lemma receive_ack_typed p : triple IT (receive_ack tcp_send_empty_ack p) any.
Proof. unfold receive_ack. triples. apply on_tcp_typed, upd_conn_typed. auto with typing. Qed.

(** ** Sequences of calls *)

(** The operations with their arguments: those of the application, and those that input,
    the timers and transmission call. *)
Inductive tcp_call :=
| Init (rand : Z) | Bind (pcb : Z) (ipaddr : option Z) (port : Z) | Listen (pcb : Z) | ListenClosed (pcb : Z) | Recved (pcb len : Z)
| BindNetif (pcb : Z) (netif : option Z) | Setprio (pcb prio : Z) | Arg (pcb arg : Z) | Recv (pcb f : Z) | Sent (pcb f : Z) | Err (pcb f : Z)
| Accept (pcb f : Z) | Poll (pcb f interval : Z) | Free (pcb : Z) | NextIss (pcb : Z)
| Parseopt (pcb : Z) | AdvanceRcv (pcb seqno tcplen : Z) | Announce (pcb : Z) | ReceiveAck (pcb : Z)
| SegsFree (seg : Z) | SegCopy (seg : Z) | Purge (pcb : Z) | Remove (l : pcb_list) (pcb : Z) | RexmitRto (pcb : Z).

(** What the types of the arguments give. *)
Definition args_typed (c : tcp_call) : Prop :=
  match c with
  | Bind _ a x => (forall y, a = Some y -> is_u32 y) /\ is_u16 x
  | BindNetif _ n => forall x, n = Some x -> is_u8 x
  | Setprio _ x => is_u8 x
  | Poll _ _ x => is_u8 x
  | _ => True
  end.

Definition run_call (c : tcp_call) : M (ip H tcps) unit :=
  match c with
  | Init r => on_tcp (tcp_init r)
  | Bind p a x => tcp_bind tcp_timer_needed p a x;; mret tt
  | Listen p => tcp_listen_with_backlog tcp_timer_needed p;; mret tt
  | ListenClosed p => on_tcp (tcp_listen_closed p)
  | Recved p n => Tcp.tcp_recved tcp_output p n
  | BindNetif p n => on_tcp (tcp_bind_netif p n)
  | Setprio p x => on_tcp (tcp_setprio p x)
  | Arg p x => on_tcp (tcp_arg p x)
  | Recv p f => on_tcp (tcp_recv p f)
  | Sent p f => on_tcp (tcp_sent p f)
  | Err p f => on_tcp (tcp_err p f)
  | Accept p f => on_tcp (tcp_accept p f)
  | Poll p f x => on_tcp (tcp_poll p f x)
  | Free p => tcp_free p
  | NextIss p => on_tcp (tcp_next_iss p);; mret tt
  | Parseopt p => tcp_parseopt p
  | AdvanceRcv p q n => on_tcp (advance_rcv p q n)
  | Announce p => on_tcp (announce p);; mret tt
  | ReceiveAck p => receive_ack tcp_send_empty_ack p
  | SegsFree a => tcp_segs_free a
  | SegCopy a => tcp_seg_copy a;; mret tt
  | Purge p => tcp_pcb_purge p
  | Remove l p => tcp_pcb_remove tcp_output l p
  | RexmitRto p => tcp_rexmit_rto tcp_output p
  end.

Inductive tcp_reach : ip H tcps -> ip H tcps -> Prop :=
| reach_start s : tcp_reach s s
| reach_call s s1 s2 c : tcp_reach s s1 -> args_typed c -> run_call c s1 = Ok (tt, s2) -> tcp_reach s s2.

Lemma run_call_typed c : args_typed c -> triple IT (run_call c) any.
Proof.
  intros Hc. destruct c; cbn [run_call args_typed] in *;
    eauto using tcp_parseopt_typed, receive_ack_typed, tcp_recved_typed, tcp_pcb_remove_typed, tcp_rexmit_rto_typed with typing.
  all: try (apply on_tcp_typed; eauto using tcp_init_typed, tcp_listen_closed_typed, tcp_bind_netif_typed, tcp_setprio_typed, tcp_arg_typed, set_fn_typed,
    tcp_accept_typed, tcp_poll_typed, advance_rcv_typed; fail).
  - destruct Hc as [Ha Hx]. eapply triple_bind; [by apply tcp_bind_typed|]. intros ? _. triples.
  - unfold tcp_listen_with_backlog. eapply (triple_bind _ _ _ any); [eapply triple_bind; [apply tcp_listen_typed|]|]; intros ? _; triples.
  - eapply triple_bind; [apply on_tcp_typed, tcp_next_iss_typed|]. intros ? _. triples.
  - eapply triple_bind; [apply on_tcp_typed, announce_typed|]. intros ? _. triples.
  - eapply triple_bind; [apply tcp_seg_copy_typed|]. intros ? _. triples.
Qed.

End Stack.
