(* ===== verification/TcpOut.v ===== *)
(** * TCP output: core/tcp_out.c

    Control segments, which are built, sent and forgotten; segments with SYN or FIN, which
    are queued; and [tcp_output], which sends what the queue holds and the window admits.
    Options that the configuration switches off are left out. *)

From S2P Require Import Prelude Chksum Memp Pbuf PbufSpec PbufData PbufRefs Ethernetif Ip4Addr Ethernet Etharp Ip4 Icmp IpInput Netif TcpApi Tcp TcpSeg.
From stdpp Require Import base numbers list gmap functions.
Open Scope Z_scope.
Open Scope c_scope.

Definition TCP_RST : Z := 4.
Definition TCP_TTL : Z := IP_DEFAULT_TTL.
Definition TCP_SND_BUF : Z := 2 * TCP_MSS.
Definition TCP_SND_QUEUELEN : Z := 4 * TCP_SND_BUF / TCP_MSS.
Definition TF_FIN : Z := 32.
Definition TF_NODELAY : Z := 64.
Definition TF_NAGLEMEMERR : Z := 128.
Definition TF_SEG_OPTS_MSS : Z := 1.
Definition LWIP_TCP_OPT_LENGTH (flags : Z) : Z := if (flags &c TF_SEG_OPTS_MSS) =? 0 then 0 else LWIP_TCP_OPT_LEN_MSS.
Definition TCP_BUILD_MSS_OPTION (mss : Z) : Z := lwip_htonl (33816576 |c (mss &c 65535)).

Definition with_snd_nxt (x : Z) (c : conn) : conn :=
  let n := c_snd c in
  with_snd (mk_snd x (snd_wl1 n) (snd_wl2 n) (snd_lbb n) (snd_wnd n) (snd_wnd_max n) (snd_buf n) (snd_queuelen n) (unsent_oversize n) (bytes_acked n)) c.
Definition with_snd_lbb (x : Z) (c : conn) : conn :=
  let n := c_snd c in
  with_snd (mk_snd (snd_nxt n) (snd_wl1 n) (snd_wl2 n) x (snd_wnd n) (snd_wnd_max n) (snd_buf n) (snd_queuelen n) (unsent_oversize n) (bytes_acked n)) c.
Definition with_persist (cnt backoff probe : Z) (c : conn) : conn :=
  let k := c_keep c in
  mk_conn (remote_port c) (pcb_flags c) (mss c) (c_timers c) (c_rcv c) (c_rtt c) (c_cong c) (c_snd c) (c_queues c) (c_fns c)
    (mk_keepalive (keep_idle k) cnt backoff probe (keep_cnt_sent k)).

Section Out.
Context (pools : memp_t -> memp_desc) {H : Type} `{HH : !Heap H}.
Context (netif_output : Z -> Z -> Z -> M (arp H) Z).
Local Abbreviation MT := (M (ip H tcps)).

(** [ip_chksum_pseudo] walks the chain. *)
Definition chksum_pseudo_pbuf (p proto proto_len src dest : Z) : M (net H) Z :=
  fuel ← chain_fuel; l ← read_chain fuel p; mret (ip_chksum_pseudo l proto proto_len src dest).

(** Macros on the field of the header that holds its length and the flags. *)
Definition TCPH_HDRLEN_FLAGS_SET (phdr len flags : Z) : MT unit :=
  nb (write_bytes (phdr + 12) (bytes16 (u16 (lwip_htons (u16 (len <<c 12) |c flags))))).
Definition TCPH_FLAGS_SET (phdr flags : Z) : MT unit :=
  x ← nb (read_u16 (phdr + 12));
  nb (write_bytes (phdr + 12) (bytes16 (u16 ((x &c PP_HTONS (not32 TCP_FLAGS)) |c lwip_htons flags)))).
Definition TCPH_SET_FLAG (phdr flags : Z) : MT unit :=
  x ← nb (read_u16 (phdr + 12));
  nb (write_bytes (phdr + 12) (bytes16 (u16 (x |c lwip_htons flags)))).

Definition tcp_route (pcb src dst : Z) : MT Z :=
  if negb (pcb =? NULL) then
    k ← on_tcp (get_pcb pcb);
    if negb (netif_idx (com k) =? NETIF_NO_INDEX) then netif_get_by_index (netif_idx (com k)) else ip4_route dst
  else ip4_route dst.

(** ** Control segments *)

Definition tcp_output_alloc_header_common (ackno optlen datalen seqno_be src_port dst_port flags wnd : Z) : MT Z :=
  p ← nb (pbuf_alloc pools PBUF_IP (u16 (TCP_HLEN + optlen + datalen)) PBUF_RAM);
  if p =? NULL then mret NULL
  else
    b ← nb (rd p);
    assert (TCP_HLEN + optlen <=? len b);;
    let hdr := payload b in
    nb (write_bytes hdr (bytes16 (lwip_htons src_port)));;
    nb (write_bytes (hdr + 2) (bytes16 (lwip_htons dst_port)));;
    nb (write_bytes (hdr + 4) (bytes32 seqno_be));;
    nb (write_bytes (hdr + 8) (bytes32 (lwip_htonl ackno)));;
    TCPH_HDRLEN_FLAGS_SET hdr (5 + optlen / 4) flags;;
    nb (write_bytes (hdr + 14) (bytes16 (lwip_htons wnd)));;
    nb (write_bytes (hdr + 16) (bytes16 0));;
    nb (write_bytes (hdr + 18) (bytes16 0));;
    mret p.

(** The edge of the announced window is kept by [announce]. *)
Definition tcp_output_alloc_header (pcb optlen datalen seqno_be : Z) : MT Z :=
  assert (negb (pcb =? NULL));;
  k ← on_tcp (get_pcb pcb);
  c ← on_tcp (get_conn pcb);
  p ← tcp_output_alloc_header_common (rcv_nxt (c_rcv c)) optlen datalen seqno_be (local_port (com k)) (remote_port c) TCP_ACK (rcv_ann_wnd (c_rcv c));
  (if negb (p =? NULL) then on_tcp (announce pcb);; mret tt else mret tt);;
  mret p.

(** Control segments have no options: only the assertion is left. *)
Definition tcp_output_fill_options (pcb p optflags num_sacks : Z) : MT unit :=
  assert (negb (p =? NULL));;
  b ← nb (rd p);
  let opts := payload b + TCP_HLEN in
  assert (opts =? payload b + TCP_HLEN + LWIP_TCP_OPT_LENGTH optflags).

Definition tcp_output_control_segment (pcb p src dst : Z) : MT Z :=
  assert (negb (p =? NULL));;
  netif ← tcp_route pcb src dst;
  err ← (if netif =? NULL then mret ERR_RTE
    else
      b ← nb (rd p);
      sum ← nb (chksum_pseudo_pbuf p IP_PROTO_TCP (tot_len b) src dst);
      nb (write_bytes (payload b + 16) (bytes16 sum));;
      '(x, y) ← (if negb (pcb =? NULL) then k ← on_tcp (get_pcb pcb); mret (ttl (com k), tos (com k)) else mret (TCP_TTL, 0));
      ip4_output_if netif_output p (Some src) (Some dst) x y IP_PROTO_TCP netif);
  free_pbuf p;;
  mret err.

(** The addresses are pointers; [pcb] may be NULL. *)
Definition tcp_rst (pcb seqno ackno : Z) (local_ip remote_ip : option Z) (local_port remote_port : Z) : MT unit :=
  match local_ip, remote_ip with
  | Some l, Some r =>
      let optlen := u8 (LWIP_TCP_OPT_LENGTH 0) in
      let wnd := PP_HTONS TCP_WND in
      p ← tcp_output_alloc_header_common ackno optlen 0 (lwip_htonl seqno) local_port remote_port (TCP_RST |c TCP_ACK) wnd;
      if p =? NULL then mret tt
      else
        tcp_output_fill_options pcb p 0 0;;
        tcp_output_control_segment pcb p l r;;
        mret tt
  | _, _ => assert false
  end.

Definition tcp_send_empty_ack (pcb : Z) : MT Z :=
  assert (negb (pcb =? NULL));;
  let optflags := 0 in
  let num_sacks := 0 in
  let optlen := u8 (LWIP_TCP_OPT_LENGTH optflags) in
  c ← on_tcp (get_conn pcb);
  p ← tcp_output_alloc_header pcb optlen 0 (lwip_htonl (snd_nxt (c_snd c)));
  if p =? NULL then
    on_tcp (upd_conn pcb (tcp_set_flags (TF_ACK_DELAY |c TF_ACK_NOW)));;
    mret ERR_BUF
  else
    tcp_output_fill_options pcb p optflags num_sacks;;
    k ← on_tcp (get_pcb pcb);
    err ← tcp_output_control_segment pcb p (local_ip (com k)) (remote_ip (com k));
    (if negb (err =? ERR_OK)
     then on_tcp (upd_conn pcb (tcp_set_flags (TF_ACK_DELAY |c TF_ACK_NOW)))
     else on_tcp (upd_conn pcb (tcp_clear_flags (TF_ACK_DELAY |c TF_ACK_NOW))));;
    mret err.

Definition tcp_keepalive (pcb : Z) : MT Z :=
  let optlen := u8 (LWIP_TCP_OPT_LENGTH 0) in
  assert (negb (pcb =? NULL));;
  c ← on_tcp (get_conn pcb);
  p ← tcp_output_alloc_header pcb optlen 0 (lwip_htonl (u32 (snd_nxt (c_snd c) - 1)));
  if p =? NULL then mret ERR_MEM
  else
    tcp_output_fill_options pcb p 0 0;;
    k ← on_tcp (get_pcb pcb);
    tcp_output_control_segment pcb p (local_ip (com k)) (remote_ip (com k)).

Definition tcp_zero_window_probe (pcb : Z) : MT Z :=
  let optlen := u8 (LWIP_TCP_OPT_LENGTH 0) in
  assert (negb (pcb =? NULL));;
  c ← on_tcp (get_conn pcb);
  let seg := unsent (c_queues c) in
  if seg =? NULL then mret ERR_OK
  else
    (let k := c_keep c in
     if persist_probe k <? 255 then on_tcp (upd_conn pcb (with_persist (persist_cnt k) (persist_backoff k) (persist_probe k + 1))) else mret tt);;
    g ← on_tcp (get_seg seg);
    f ← TCPH_FLAGS (sg_tcphdr g);
    let is_fin := negb ((f &c TCP_FIN) =? 0) && (sg_len g =? 0) in
    let len0 := if is_fin then 0 else 1 in
    seqno_be ← nb (read_u32 (sg_tcphdr g + 4));
    p ← tcp_output_alloc_header pcb optlen len0 seqno_be;
    if p =? NULL then mret ERR_MEM
    else
      b ← nb (rd p);
      (if (is_fin : bool) then TCPH_FLAGS_SET (payload b) (TCP_ACK |c TCP_FIN)
       else
         let d := payload b + TCP_HLEN in
         bs ← nb (rd (sg_p g));
         nb (pbuf_copy_partial (sg_p g) d 1 (u16 (tot_len bs - sg_len g)));; mret tt);;
      q ← seg_seqno seg;
      let nxt := u32 (q + 1) in
      c ← on_tcp (get_conn pcb);
      (if TCP_SEQ_LT (snd_nxt (c_snd c)) nxt then on_tcp (upd_conn pcb (with_snd_nxt nxt)) else mret tt);;
      tcp_output_fill_options pcb p 0 0;;
      k ← on_tcp (get_pcb pcb);
      tcp_output_control_segment pcb p (local_ip (com k)) (remote_ip (com k)).

(** ** Segments with SYN or FIN *)

Definition tcp_create_segment (pcb p hdrflags seqno optflags : Z) : MT Z :=
  assert (negb (pcb =? NULL));;
  assert (negb (p =? NULL));;
  let optlen := u8 (LWIP_TCP_OPT_LENGTH optflags) in
  seg ← nb (lift_memp (memp_malloc MEMP_TCP_SEG));
  if seg =? NULL then free_pbuf p;; mret NULL
  else
    b ← nb (rd p);
    assert (optlen <=? tot_len b);;
    on_tcp (modify (fun t => set_segs (<[seg := mk_seg NULL p (u16 (tot_len b - optlen)) optflags NULL]> (segs t)) t));;
    r ← nb (pbuf_add_header p TCP_HLEN);
    if negb (r =? 0) then tcp_seg_free seg;; mret NULL
    else
      b1 ← nb (rd p);
      let hdr := payload b1 in
      on_tcp (modify (fun t => set_segs (<[seg := mk_seg NULL p (u16 (tot_len b - optlen)) optflags hdr]> (segs t)) t));;
      k ← on_tcp (get_pcb pcb);
      c ← on_tcp (get_conn pcb);
      nb (write_bytes hdr (bytes16 (lwip_htons (local_port (com k)))));;
      nb (write_bytes (hdr + 2) (bytes16 (lwip_htons (remote_port c))));;
      nb (write_bytes (hdr + 4) (bytes32 (lwip_htonl seqno)));;
      TCPH_HDRLEN_FLAGS_SET hdr (5 + optlen / 4) hdrflags;;
      nb (write_bytes (hdr + 18) (bytes16 0));;
      mret seg.

(** The last segment of a queue that is not empty. *)
Fixpoint last_loop (fuel : nat) (seg : Z) : MT Z :=
  match fuel with
  | O => nofuel
  | S fuel' => g ← on_tcp (get_seg seg); if sg_next g =? NULL then mret seg else last_loop fuel' (sg_next g)
  end.

Definition tcp_enqueue_flags (pcb flags : Z) : MT Z :=
  assert (negb ((flags &c (TCP_SYN |c TCP_FIN)) =? 0));;
  assert (negb (pcb =? NULL));;
  let optflags := if negb ((flags &c TCP_SYN) =? 0) then TF_SEG_OPTS_MSS else 0 in
  let optlen := u8 (LWIP_TCP_OPT_LENGTH optflags) in
  p ← nb (pbuf_alloc pools PBUF_TRANSPORT optlen PBUF_RAM);
  if p =? NULL then on_tcp (upd_conn pcb (tcp_set_flags TF_NAGLEMEMERR));; mret ERR_MEM
  else
    b ← nb (rd p);
    assert (optlen <=? len b);;
    c ← on_tcp (get_conn pcb);
    seg ← tcp_create_segment pcb p flags (snd_lbb (c_snd c)) optflags;
    if seg =? NULL then on_tcp (upd_conn pcb (tcp_set_flags TF_NAGLEMEMERR));; mret ERR_MEM
    else
      g ← on_tcp (get_seg seg);
      assert (sg_tcphdr g mod 4 =? 0);;
      assert (sg_len g =? 0);;
      (if unsent (c_queues c) =? NULL then on_tcp (upd_conn pcb (with_unsent seg))
       else
         fuel ← on_tcp (gets seg_fuel);
         useg ← last_loop fuel (unsent (c_queues c));
         on_tcp (set_seg_next useg seg));;
      on_tcp (upd_conn pcb (with_oversize 0));;
      (if negb ((flags &c TCP_SYN) =? 0) || negb ((flags &c TCP_FIN) =? 0)
       then on_tcp (upd_conn pcb (fun c => with_snd_lbb (u32 (snd_lbb (c_snd c) + 1)) c)) else mret tt);;
      (if negb ((flags &c TCP_FIN) =? 0) then on_tcp (upd_conn pcb (tcp_set_flags TF_FIN)) else mret tt);;
      n ← nb (pbuf_clen (sg_p g));
      on_tcp (upd_conn pcb (fun c => with_queuelen (u16 (snd_queuelen (c_snd c) + n)) c));;
      c ← on_tcp (get_conn pcb);
      (if negb (snd_queuelen (c_snd c) =? 0)
       then assert (negb (unacked (c_queues c) =? NULL) || negb (unsent (c_queues c) =? NULL)) else mret tt);;
      mret ERR_OK.

Definition tcp_send_fin (pcb : Z) : MT Z :=
  assert (negb (pcb =? NULL));;
  c ← on_tcp (get_conn pcb);
  added ← (if negb (unsent (c_queues c) =? NULL) then
      fuel ← on_tcp (gets seg_fuel);
      last_unsent ← last_loop fuel (unsent (c_queues c));
      g ← on_tcp (get_seg last_unsent);
      f ← TCPH_FLAGS (sg_tcphdr g);
      if (f &c (TCP_SYN |c TCP_FIN |c TCP_RST)) =? 0 then
        TCPH_SET_FLAG (sg_tcphdr g) TCP_FIN;;
        on_tcp (upd_conn pcb (tcp_set_flags TF_FIN));;
        mret true
      else mret false
    else mret false);
  if (added : bool) then mret ERR_OK else tcp_enqueue_flags pcb TCP_FIN.

(** ** Transmission *)

Definition tcp_do_output_nagle (tpcb : Z) : MT bool :=
  c ← on_tcp (get_conn tpcb);
  if (unacked (c_queues c) =? NULL) || negb ((pcb_flags c &c (TF_NODELAY |c TF_INFR)) =? 0) then mret true
  else
    big ← (if negb (unsent (c_queues c) =? NULL)
           then g ← on_tcp (get_seg (unsent (c_queues c))); mret (negb (sg_next g =? NULL) || (mss c <=? sg_len g))
           else mret false);
    mret ((big : bool) || (snd_buf (c_snd c) =? 0) || (TCP_SND_QUEUELEN <=? snd_queuelen (c_snd c))).

Definition tcp_output_segment (seg pcb netif : Z) : MT Z :=
  assert (negb (seg =? NULL));;
  assert (negb (pcb =? NULL));;
  assert (negb (netif =? NULL));;
  busy ← tcp_output_segment_busy seg;
  if (busy : bool) then mret ERR_OK
  else
    g ← on_tcp (get_seg seg);
    let hdr := sg_tcphdr g in
    c ← on_tcp (get_conn pcb);
    nb (write_bytes (hdr + 8) (bytes32 (lwip_htonl (rcv_nxt (c_rcv c)))));;
    nb (write_bytes (hdr + 14) (bytes16 (lwip_htons (rcv_ann_wnd (c_rcv c)))));;
    on_tcp (announce pcb);;
    opts ← (if negb ((sg_flags g &c TF_SEG_OPTS_MSS) =? 0) then
        n ← ip_netif netif;
        nb (write_bytes (hdr + TCP_HLEN) (bytes32 (TCP_BUILD_MSS_OPTION (tcp_eff_send_mss_netif TCP_MSS (Some (nif_mtu n))))));;
        mret (hdr + TCP_HLEN + 4)
      else mret (hdr + TCP_HLEN));
    on_tcp (upd_conn pcb (fun c => if rtime (c_rtt c) <? 0 then with_rtime 0 c else c));;
    (if rttest (c_rtt c) =? 0 then
       ticks ← on_tcp (gets tcp_ticks);
       q ← seg_seqno seg;
       on_tcp (upd_conn pcb (fun c => let r := c_rtt c in with_rtt (mk_rtt (rtime r) ticks q (sa r) (sv r) (rto r) (nrtx r)) c))
     else mret tt);;
    b ← nb (rd (sg_p g));
    let len0 := u16 (hdr - payload b) in
    nb (upd (sg_p g) (fun b => with_payload hdr (with_tot_len (u16 (tot_len b - len0)) (with_len (u16 (len b - len0)) b))));;
    nb (write_bytes (hdr + 16) (bytes16 0));;
    assert (opts =? hdr + TCP_HLEN + LWIP_TCP_OPT_LENGTH (sg_flags g));;
    k ← on_tcp (get_pcb pcb);
    b ← nb (rd (sg_p g));
    sum ← nb (chksum_pseudo_pbuf (sg_p g) IP_PROTO_TCP (tot_len b) (local_ip (com k)) (remote_ip (com k)));
    nb (write_bytes (hdr + 16) (bytes16 sum));;
    ip4_output_if netif_output (sg_p g) (Some (local_ip (com k))) (Some (remote_ip (com k))) (ttl (com k)) (tos (com k)) IP_PROTO_TCP netif.

(** Does the segment end within the window? *)
Definition seg_fits (pcb seg wnd : Z) : MT bool :=
  q ← seg_seqno seg;
  c ← on_tcp (get_conn pcb);
  g ← on_tcp (get_seg seg);
  mret (u32 (q - lastack (c_cong c) + sg_len g) <=? wnd).

(** A segment that was sent joins the queue of those to be acknowledged, whose last one
    is [useg]; the last one afterwards. *)
Definition queue_unacked (pcb seg useg : Z) : MT Z :=
  on_tcp (set_seg_next seg NULL);;
  c ← on_tcp (get_conn pcb);
  if unacked (c_queues c) =? NULL then on_tcp (upd_conn pcb (with_unacked seg));; mret seg
  else
    x ← seg_seqno seg;
    y ← seg_seqno useg;
    if TCP_SEQ_LT x y then
      fuel ← on_tcp (gets seg_fuel);
      '(prev, cur) ← rexmit_loop fuel seg NULL (unacked (c_queues c));
      on_tcp (set_seg_next seg cur);;
      (if prev =? NULL then on_tcp (upd_conn pcb (with_unacked seg)) else on_tcp (set_seg_next prev seg));;
      mret useg
    else on_tcp (set_seg_next useg seg);; mret seg.

(** The loop over the segments that can be sent; an error ends it. *)
Fixpoint output_loop (fuel : nat) (pcb netif wnd seg useg : Z) : MT (option Z) :=
  match fuel with
  | O => nofuel
  | S fuel' =>
      if seg =? NULL then mret None
      else
        fits ← seg_fits pcb seg wnd;
        if negb fits then mret None
        else
          g ← on_tcp (get_seg seg);
          f ← TCPH_FLAGS (sg_tcphdr g);
          assert ((f &c TCP_RST) =? 0);;
          nagle ← tcp_do_output_nagle pcb;
          c ← on_tcp (get_conn pcb);
          if negb nagle && ((pcb_flags c &c (TF_NAGLEMEMERR |c TF_FIN)) =? 0) then mret None
          else
            k ← on_tcp (get_pcb pcb);
            let syn_sent := bool_decide (pcb_state (com k) = SYN_SENT) in
            (if negb syn_sent then TCPH_SET_FLAG (sg_tcphdr g) TCP_ACK else mret tt);;
            err ← tcp_output_segment seg pcb netif;
            if negb (err =? ERR_OK) then on_tcp (upd_conn pcb (tcp_set_flags TF_NAGLEMEMERR));; mret (Some err)
            else
              g ← on_tcp (get_seg seg);
              on_tcp (upd_conn pcb (with_unsent (sg_next g)));;
              (if negb syn_sent then on_tcp (upd_conn pcb (tcp_clear_flags (TF_ACK_DELAY |c TF_ACK_NOW))) else mret tt);;
              q ← seg_seqno seg;
              l ← TCP_TCPLEN seg;
              let nxt := u32 (q + l) in
              on_tcp (upd_conn pcb (fun c => if TCP_SEQ_LT (snd_nxt (c_snd c)) nxt then with_snd_nxt nxt c else c));;
              useg' ← (if 0 <? l then queue_unacked pcb seg useg else tcp_seg_free seg;; mret useg);
              c ← on_tcp (get_conn pcb);
              output_loop fuel' pcb netif wnd (unsent (c_queues c)) useg'
  end.

Definition output_done (pcb : Z) : MT Z :=
  on_tcp (upd_conn pcb (tcp_clear_flags TF_NAGLEMEMERR));;
  mret ERR_OK.

(** [tcp_input_pcb] is the connection whose input is being processed. *)
Definition tcp_output (tcp_input_pcb pcb : Z) : MT Z :=
  assert (negb (pcb =? NULL));;
  k ← on_tcp (get_pcb pcb);
  assert (negb (bool_decide (pcb_state (com k) = LISTEN)));;
  if tcp_input_pcb =? pcb then mret ERR_OK
  else
    c ← on_tcp (get_conn pcb);
    let wnd := Z.min (snd_wnd (c_snd c)) (cwnd (c_cong c)) in
    let seg := unsent (c_queues c) in
    let ack_now := negb ((pcb_flags c &c TF_ACK_NOW) =? 0) in
    if seg =? NULL then if ack_now then tcp_send_empty_ack pcb else output_done pcb
    else
      netif ← tcp_route pcb (local_ip (com k)) (remote_ip (com k));
      if netif =? NULL then mret ERR_RTE
      else
        (if ip4_addr_isany (local_ip (com k))
         then n ← ip_netif netif; on_tcp (upd_com pcb (fun k => with_local (ip_addr n) (local_port k) k))
         else mret tt);;
        fits ← seg_fits pcb seg wnd;
        if negb fits then
          (if (wnd =? snd_wnd (c_snd c)) && (unacked (c_queues c) =? NULL) && (persist_backoff (c_keep c) =? 0)
           then on_tcp (upd_conn pcb (with_persist 0 1 0)) else mret tt);;
          if ack_now then tcp_send_empty_ack pcb else output_done pcb
        else
          on_tcp (upd_conn pcb (fun c => let a := c_keep c in with_persist (persist_cnt a) 0 (persist_probe a) c));;
          useg ← (if negb (unacked (c_queues c) =? NULL)
                  then fuel ← on_tcp (gets seg_fuel); last_loop fuel (unacked (c_queues c)) else mret NULL);
          fuel ← on_tcp (gets seg_fuel);
          r ← output_loop fuel pcb netif wnd seg useg;
          match r with
          | Some err => mret err
          | None =>
              c ← on_tcp (get_conn pcb);
              (if unsent (c_queues c) =? NULL then on_tcp (upd_conn pcb (with_oversize 0)) else mret tt);;
              output_done pcb
          end.
End Out.
