(* ===== verification/TcpOutSpec.v ===== *)
(** * Properties of TCP output

    Control segments carry the header of RFC 793 with a checksum that the receiver's test
    accepts, behind the header of RFC 791; every path releases the packet. *)

From S2P Require Import Prelude Chksum Memp Pbuf PbufSpec PbufData PbufRefs Ethernetif Ip4Addr Ethernet Etharp EtharpSpec Ip4 Ip4Spec Icmp IcmpSpec IpInput Netif TcpApi Tcp TcpSpec TcpSeg TcpSegSpec TcpTypes TcpOut.
From stdpp Require Import base numbers list gmap gmultiset functions.
Open Scope Z_scope.
Open Scope c_scope.

(** ** The header of RFC 793 *)

Definition be16 (x : Z) : list Z := [x / 256; x mod 256].
Definition be32 (x : Z) : list Z := [x / 16777216; (x / 65536) mod 256; (x / 256) mod 256; x mod 256].
(** Without options: the fields in front of the checksum, and all of it. *)
Definition tcp_fields (sport dport seq ack flags wnd : Z) : list Z :=
  be16 sport ++ be16 dport ++ be32 seq ++ be32 ack ++ [80; flags] ++ be16 wnd.
Definition tcp_header (sport dport seq ack flags wnd chksum : Z) : list Z := tcp_fields sport dport seq ack flags wnd ++ bytes16 chksum ++ [0; 0].

Ltac list_lia := repeat match goal with |- _ :: _ = _ :: _ => apply (f_equal2 cons) end; lia || reflexivity.

Lemma bytes16_htons x : is_u16 x -> bytes16 (lwip_htons x) = be16 x.
Proof. intros Hx. rewrite htons_swap, swap_spec by done. unfold bytes16, be16, is_u16 in *. list_lia. Qed.

Lemma bytes32_htonl x : is_u32 x -> bytes32 (lwip_htonl x) = be32 x.
Proof.
  intros Hx. assert (exists b0 b1 b2 b3, (is_u8 b0 /\ is_u8 b1 /\ is_u8 b2 /\ is_u8 b3) /\ x = word4 b3 b2 b1 b0) as (b0 & b1 & b2 & b3 & (H0 & H1 & H2 & H3) & ->).
  { exists (x / 16777216), ((x / 65536) mod 256), ((x / 256) mod 256), (x mod 256). unfold is_u8, is_u32, word4 in *. lia. }
  rewrite htonl_word by done. unfold bytes32, be32, word4, is_u8 in *. list_lia.
Qed.

Lemma hdrlen_flags f : 0 <= f < 64 -> bytes16 (u16 (lwip_htons (u16 (5 <<c 12) |c f))) = [80; f].
Proof.
  intros Hf. change (u16 (5 <<c 12)) with 20480. rewrite (lor_add 20480 f 8) by (try lia; change (2 ^ 8) with 256; lia).
  rewrite htons_swap, swap_spec by (unfold is_u16; lia). unfold bytes16, u16. list_lia.
Qed.

Definition tcp_header_writes (h sport dport seqbe ack flags wnd : Z) : list (Z * list Z) :=
  [(h, bytes16 (lwip_htons sport)); (h + 2, bytes16 (lwip_htons dport)); (h + 4, bytes32 seqbe); (h + 8, bytes32 (lwip_htonl ack));
   (h + 12, bytes16 (u16 (lwip_htons (u16 (5 <<c 12) |c flags)))); (h + 14, bytes16 (lwip_htons wnd)); (h + 16, bytes16 0); (h + 18, bytes16 0)].

Lemma tcp_header_within h sport dport seqbe ack flags wnd : within h 20 (tcp_header_writes h sport dport seqbe ack flags wnd).
Proof. unfold within, tcp_header_writes. repeat constructor; simpl; lia. Qed.

Lemma tcp_header_patches h sport dport seq ack flags wnd d : is_u16 sport -> is_u16 dport -> is_u32 seq -> is_u32 ack -> 0 <= flags < 64 -> is_u16 wnd ->
  length d = 20%nat -> patches h (tcp_header_writes h sport dport (lwip_htonl seq) ack flags wnd) d = tcp_header sport dport seq ack flags wnd 0.
Proof.
  intros Hs Hd Hq Ha Hf Hw Hl. do 20 (destruct d as [|? d]; [done|]). destruct d; [|done].
  unfold patches, tcp_header_writes. rewrite !bytes16_htons, !bytes32_htonl, hdrlen_flags by done. cbn [foldl fst snd].
  repeat match goal with |- context [Z.to_nat (h + ?k - h)] => replace (h + k - h) with k by lia end. rewrite Z.sub_diag.
  repeat match goal with |- context [Z.to_nat ?k] => let v := eval vm_compute in (Z.to_nat k) in change (Z.to_nat k) with v end.
  reflexivity.
Qed.

Lemma tcp_fields_ok sport dport seq ack flags wnd : is_u16 sport -> is_u16 dport -> is_u32 seq -> is_u32 ack -> 0 <= flags < 64 -> is_u16 wnd ->
  bytes_ok (tcp_fields sport dport seq ack flags wnd).
Proof.
  intros. unfold bytes_ok, tcp_fields, be16, be32. cbn [app]. unfold is_u16, is_u32 in *. repeat constructor; unfold is_u8; lia.
Qed.

(** ** The checksum with the pseudo header *)

(** The checksum field, behind 16 bytes, is filled with what [ip_chksum_pseudo] returns. *)
Lemma pseudo_fill q n src dst pre post : chain_ok q -> chain_bytes q = pre ++ [0; 0] ++ post -> bytes_ok (chain_bytes q) -> length pre = 16%nat ->
  is_u16 n -> is_u32 src -> is_u32 dst -> Z.of_nat (length (chain_bytes q)) <= 65535 ->
  let c := ip_chksum_pseudo q IP_PROTO_TCP n src dst in
  inet_chksum 0 (pseudo_header IP_PROTO_TCP n src dst ++ pre ++ bytes16 c ++ post) = 0.
Proof.
  intros Hq Eq Hok Hpre Hn Hs Hd Hlen c. assert (is_u8 IP_PROTO_TCP) as H6 by (unfold is_u8, IP_PROTO_TCP; lia).
  pose proof (pseudo_header_ok IP_PROTO_TCP n src dst H6 Hn) as Hph. set (ph := pseudo_header IP_PROTO_TCP n src dst) in *.
  assert (length ph = 12%nat) as Hpl by done. rewrite Eq in Hok, Hlen. pose proof Hok as [Hp [H0 Hpo]%bytes_ok_app]%bytes_ok_app.
  rewrite !length_app in Hlen. cbn [length] in Hlen.
  assert (c = inet_chksum 0 ((ph ++ pre) ++ [0; 0] ++ post)) as Ec.
  { rewrite inet_chksum_ocsum, <- app_assoc, <- Eq; [by apply pseudo_base_ocsum| |].
    - rewrite <- app_assoc. by apply bytes_ok_app.
    - rewrite !length_app. cbn [length]. lia. }
  assert (is_u16 c) as Hc by (rewrite Ec; apply u16_range).
  assert (bytes16 c = [c mod 256; c / 256]) as -> by (unfold bytes16, is_u16 in *; list_lia).
  rewrite app_assoc, Ec. apply (inet_chksum_fill 0 0 (ph ++ pre) post).
  - by apply bytes_ok_app.
  - done.
  - rewrite length_app. lia.
  - rewrite !length_app. cbn [length]. lia.
Qed.

(** ** References that TCP holds *)

Definition refused_ptr (p : tcp_pcb) : gmultiset Z := match body p with Conn c => ptr (refused_data (c_queues c)) | Listener _ => ∅ end.
Definition refused_ptrs (g : gmap Z tcp_pcb) : gmultiset Z := map_fold (fun _ x R => refused_ptr x ⊎ R) ∅ g.
Global Instance tcps_upper : Upper tcps := fun t => seg_ptrs (segs t) ⊎ refused_ptrs (pcbs t).

Lemma refused_ptrs_insert g a x : g !! a = None -> refused_ptrs (<[a := x]> g) = refused_ptr x ⊎ refused_ptrs g.
Proof. intros E. unfold refused_ptrs. by rewrite map_fold_insert_L; [|intros; multiset_solver|]. Qed.
Lemma refused_ptrs_update g a x x' : g !! a = Some x -> refused_ptr x' = refused_ptr x -> refused_ptrs (<[a := x']> g) = refused_ptrs g.
Proof.
  intros E Ep. rewrite <- (insert_delete_id g a x E) at 2. rewrite <- insert_delete_eq, !refused_ptrs_insert, Ep by apply lookup_delete_eq. done.
Qed.

Section Spec.
Context (pools : memp_t -> memp_desc) `{HP : !PoolsOk pools} {H : Type} `{HH : !Heap H} `{HL : !HeapLaws pools H}.
Context (linkoutput : Z -> Z -> M (eth H) Z) `{LL : !LinkLaws linkoutput}.
Context (netif_output : Z -> Z -> Z -> M (arp H) Z) `{OL : !OutputLaws pools linkoutput netif_output}.
Implicit Types s : ip H tcps.
Local Abbreviation ip_ok := (ip_ok pools linkoutput).

(** Changes of TCP's own state that leave its references alone. *)
Lemma ip_ok_upper s R t : ip_ok s R -> held t = held (i_upper s) -> ip_ok (with_upper t s) R /\ ip_env s (with_upper t s).
Proof.
  intros (Ha & Hl & Hd) Et. split; [|split; [reflexivity|done]]. split_and!; [|exact Hl|exact Hd]. cbn. by rewrite Et.
Qed.

Definition set_conn_of s (pcb : Z) (k : pcb_common) (c : conn) : ip H tcps := with_upper (set_pcbs (<[pcb := mk_pcb k (Conn c)]> (pcbs (i_upper s))) (i_upper s)) s.

Lemma upd_conn_run s pcb k c f : pcbs (i_upper s) !! pcb = Some (mk_pcb k (Conn c)) -> on_tcp (upd_conn pcb f) s = Ok (tt, set_conn_of s pcb k (f c)).
Proof. intros E. apply on_tcp_ok. unfold upd_conn. by rewrite E. Qed.
Lemma get_conn_run s pcb k c : pcbs (i_upper s) !! pcb = Some (mk_pcb k (Conn c)) -> on_tcp (get_conn pcb) s = Ok (c, s).
Proof. intros E. unfold on_tcp, get_conn. rewrite E. by destruct s. Qed.
Lemma get_pcb_run s pcb p : pcbs (i_upper s) !! pcb = Some p -> on_tcp (get_pcb pcb) s = Ok (p, s).
Proof. intros E. unfold on_tcp, get_pcb. rewrite E. by destruct s. Qed.

Lemma ip_ok_conn s R pcb k c c' : ip_ok s R -> pcbs (i_upper s) !! pcb = Some (mk_pcb k (Conn c)) -> refused_data (c_queues c') = refused_data (c_queues c) ->
  ip_ok (set_conn_of s pcb k c') R /\ ip_env s (set_conn_of s pcb k c').
Proof.
  intros Hok E Er. apply ip_ok_upper; [done|]. unfold held, tcps_upper. cbn. f_equal. eapply refused_ptrs_update; [done|]. unfold refused_ptr. cbn. by rewrite Er.
Qed.

(** ** Building a control segment *)

(** What a new packet for [n] bytes behind the IP header looks like. *)
Abbreviation seg_pbuf p n := (ram_pbuf p PBUF_IP n).
Definition seg_addr (p : Z) : Z := payload (ram_pbuf p PBUF_IP 0).

(** The heap has no room for a segment of [n] bytes. *)
Definition no_memory s (n : Z) : Prop := exists n', pbuf_alloc pools PBUF_IP n PBUF_RAM (snet s) = Ok (NULL, n').

Lemma alloc_header_run s R ack datalen seqbe sport dport flags wnd : ip_ok s R -> 0 <= datalen <= 1000 ->
  exists p n, tcp_output_alloc_header_common pools ack 0 datalen seqbe sport dport flags wnd s = Ok (p, set_snet n s) /\
  ip_ok (set_snet n s) (ptr p ⊎ R) /\ ip_env s (set_snet n s) /\
  (p = NULL /\ no_memory s (20 + datalen) \/
   p <> NULL /\ n_pbufs (snet s) !! p = None /\ n_pbufs n = <[p := seg_pbuf p (20 + datalen)]> (n_pbufs (snet s)) /\
   stores (n_mem (snet s)) (tcp_header_writes (seg_addr p) sport dport seqbe ack flags wnd) = Some (n_mem n)).
Proof.
  intros Hok Hd. unfold tcp_output_alloc_header_common. change (TCP_HLEN + 0) with 20. rewrite u16_small by (unfold is_u16; lia).
  destruct (alloc_ram_refs pools (snet s) _ PBUF_IP (20 + datalen) (ip_refs pools linkoutput s R Hok)) as (p & n1 & E1 & Em & Hr1 & Hcase);
    [unfold PBUF_IP; lia|lia|]. rewrite <- outer_ptr in Hr1.
  destruct (ip_ok_net pools linkoutput s _ _ n1 Hok Hr1) as [Hok1 He1]; [by rewrite Em|]. exists p.
  rewrite (bind_ok _ _ _ _ _ (nb_ok _ s _ _ E1)). destruct (Z.eqb_spec p NULL) as [->|Hz]; [exists n1; split_and!; [done..|left]; split; [done|by exists n1]|].
  destruct Hcase as [[? _]|(_ & Ef & Es & _)]; [done|]. set (s1 := set_snet n1 s) in *. set (b := seg_pbuf p (20 + datalen)) in *.
  assert (n_pbufs (snet s1) !! p = Some b) as Eb by (change (n_pbufs n1 !! p = Some b); rewrite Es; apply lookup_insert_eq).
  rewrite (bind_ok _ _ _ _ _ (nb_rd s1 p b Eb)). rewrite (bind_ok (assert _) _ _ tt s1) by (unfold assert; by rewrite (proj2 (Z.leb_le _ _)) by (cbn; lia)).
  change (payload b) with (seg_addr p). cbv zeta.
  destruct (stores_is_Some (seg_addr p) 20 (tcp_header_writes (seg_addr p) sport dport seqbe ack flags wnd) (n_mem (snet s1))) as [m Em1].
  { destruct (ip_refs pools linkoutput s1 _ Hok1) as (_ & _ & Hpl & _). destruct (Hpl p b Eb) as (_ & _ & Hv & _). intros i Hi. apply Hv.
    cbn [b ram_pbuf len]. change (payload b) with (seg_addr p). lia. }
  { apply tcp_header_within. }
  destruct (ip_ok_mem pools linkoutput s1 _ m Hok1 (stores_dom _ _ _ Em1)) as [Hok2 He2].
  exists (set_mem m n1). split_and!; [|exact Hok2|by etransitivity|right].
  - change (n_mem (snet s1)) with (n_mem n1) in Em1. unfold tcp_header_writes in Em1. cbn [stores fst snd] in Em1. change (5 + 0 / 4) with 5.
    unfold TCPH_HDRLEN_FLAGS_SET. change (seg_addr p + 0) with (seg_addr p) in Em1. do 8 next_write Em1. injection Em1 as <-. done.
  - split_and!; [done|done|done|]. cbn. rewrite <- Em. exact Em1.
Qed.

(** ** Routes *)

(** The first interface with the number, or NULL. *)
Definition index_spec (nfs : gmap Z nif) (l : list Z) (idx a : Z) : Prop :=
  let m x := exists n, nfs !! x = Some n /\ netif_get_index n = idx in
  (exists l1 l2, l = l1 ++ a :: l2 /\ Forall (fun x => ~ m x) l1 /\ m a) \/ a = NULL /\ Forall (fun x => ~ m x) l.
(** A block bound to an interface uses it, the others the route to [dst]. *)
Definition tcp_route_spec s (idx dst a : Z) : Prop :=
  if idx =? NETIF_NO_INDEX then route_spec (nifs (i_arp s)) (netif_list s) (netif_default s) dst a
  else index_spec (nifs (i_arp s)) (netif_list s) idx a.

Lemma tcp_route_spec_env s s' idx dst a : ip_env s s' -> tcp_route_spec s' idx dst a -> tcp_route_spec s idx dst a.
Proof. intros ([En _] & El & Ed). unfold tcp_route_spec. by rewrite En, El, Ed. Qed.

Lemma index_loop_run idx l : forall s, Forall (nif_live (i_arp s)) l ->
  exists a, index_loop idx l s = Ok (a, s) /\ index_spec (nifs (i_arp s)) l idx a /\ (a = NULL \/ nif_live (i_arp s) a).
Proof.
  induction l as [|x l IH]; intros s Hl; cbn [index_loop]; [exists NULL; split_and!; [done|by right|by left]|].
  apply Forall_cons_1 in Hl as [Hx Hl]. pose proof Hx as (Hz & n & En & _). rewrite (bind_ok _ _ _ _ _ (ip_netif_ok s x n En)).
  destruct (Z.eqb_spec idx (netif_get_index n)) as [Ei|Hi].
  - exists x. split_and!; [done| |by right]. left. exists [], l. split_and!; [done|constructor|]. by exists n.
  - assert (~ exists n', nifs (i_arp s) !! x = Some n' /\ netif_get_index n' = idx) as Hx' by (intros (n' & En' & Ei'); congruence).
    destruct (IH s Hl) as (a & E & Hs & Ha). exists a. split_and!; [done| |done].
    destruct Hs as [(l1 & l2 & -> & Hf & Hm)|(-> & Hf)]; [left; exists (x :: l1), l2; split_and!; [done|by constructor|done]|right; split; [done|by constructor]].
Qed.

(** A control block that is given, or none. *)
Definition maybe_pcb s (pcb : Z) : Prop := pcb = NULL \/ exists p, pcbs (i_upper s) !! pcb = Some p /\ common_typed (com p).
Definition pcb_ttl s (pcb : Z) : Z := if pcb =? NULL then TCP_TTL else match pcbs (i_upper s) !! pcb with Some p => ttl (com p) | None => 0 end.
Definition pcb_tos s (pcb : Z) : Z := if pcb =? NULL then 0 else match pcbs (i_upper s) !! pcb with Some p => tos (com p) | None => 0 end.

Definition pcb_idx s (pcb : Z) : Z := if pcb =? NULL then NETIF_NO_INDEX else match pcbs (i_upper s) !! pcb with Some p => netif_idx (com p) | None => 0 end.

Lemma pcb_hop_typed s pcb : maybe_pcb s pcb -> is_u8 (pcb_ttl s pcb) /\ is_u8 (pcb_tos s pcb).
Proof.
  unfold pcb_ttl, pcb_tos. intros Hp. destruct (Z.eqb_spec pcb NULL) as [_|Hz]; [unfold is_u8, TCP_TTL, IP_DEFAULT_TTL; lia|].
  destruct Hp as [?|(p & -> & Hp)]; [done|]. by destruct Hp as (_ & _ & _ & _ & ? & ? & _).
Qed.

Lemma tcp_route_run s R pcb src dst : ip_ok s R -> maybe_pcb s pcb ->
  exists nif, tcp_route pcb src dst s = Ok (nif, s) /\ tcp_route_spec s (pcb_idx s pcb) dst nif /\ (nif = NULL \/ nif_live (i_arp s) nif).
Proof.
  intros Hok Hp. unfold tcp_route, tcp_route_spec, pcb_idx. destruct (route_ok pools linkoutput s R dst Hok) as (a & Ea & Ha & Hl).
  destruct (Z.eqb_spec pcb NULL) as [->|Hz]; cbn [negb]; [by exists a|].
  destruct Hp as [?|(p & Ep & _)]; [done|]. rewrite (bind_ok _ _ _ _ _ (get_pcb_run s pcb p Ep)), Ep.
  destruct (Z.eqb_spec (netif_idx (com p)) NETIF_NO_INDEX) as [|Hi]; cbn [negb]; [by exists a|].
  unfold netif_get_by_index. rewrite (proj2 (Z.eqb_neq _ _) Hi). cbn [negb]. rewrite (bind_ok (gets _) _ _ (netif_list s) s) by done.
  destruct Hok as (_ & Hln & _). by apply index_loop_run.
Qed.

(** ** Sending it *)

(** The segment in the packet [p] is [d]; its checksum field is still zero. *)
Record unsent_segment s (p n : Z) (pre post : list Z) : Prop := {
  us_packet : n_pbufs (snet s) !! p = Some (seg_pbuf p n);
  us_bytes : load (n_mem (snet s)) (seg_addr p) (Z.to_nat n) = Some (pre ++ [0; 0] ++ post);
  us_ok : bytes_ok pre /\ bytes_ok post /\ length pre = 16%nat /\ 20 <= n <= 1020 }.

(** The datagram that is handed to the interface: both headers with checksums that
    verify. *)
Record datagram s (p n src dst x y id : Z) (pre post : list Z) : Prop := {
  dg_packet : n_pbufs (snet s) !! p = Some (moved (seg_pbuf p n) IP_HLEN);
  dg_bytes : exists ci c, let hdr := ip_header y (n + IP_HLEN) id x IP_PROTO_TCP ci src dst in let seg := pre ++ bytes16 c ++ post in
    load (n_mem (snet s)) (seg_addr p - IP_HLEN) (Z.to_nat (IP_HLEN + n)) = Some (hdr ++ seg) /\
    inet_chksum (seg_addr p - IP_HLEN) hdr = 0 /\ inet_chksum 0 (pseudo_header IP_PROTO_TCP n src dst ++ seg) = 0 }.

Lemma seg_packet ps p n : p <> NULL -> 0 <= n < 65536 -> ps !! p = Some (seg_pbuf p n) -> packet ps p (seg_pbuf p n) [].
Proof. apply ram_packet_ip. Qed.

Lemma chksum_run s p n pre post src dst : p <> NULL -> unsent_segment s p n pre post -> is_u32 src -> is_u32 dst ->
  exists c, nb (chksum_pseudo_pbuf p IP_PROTO_TCP n src dst) s = Ok (c, s) /\ is_u16 c /\
  inet_chksum 0 (pseudo_header IP_PROTO_TCP n src dst ++ pre ++ bytes16 c ++ post) = 0.
Proof.
  intros Hz [Eb El (Hp & Hpo & Hl & Hn)] Hs Hd. set (d := pre ++ [0; 0] ++ post) in *.
  destruct (seg_packet _ p n Hz ltac:(lia) Eb) as (Hc & Ht & _). assert (bytes_ok d) as Hdo by (apply bytes_ok_app; split; [done|]; apply bytes_ok_app; split; [by repeat constructor|done]).
  assert (chain_data (n_mem (snet s)) [(p, seg_pbuf p n)] = Some d) as Ed.
  { cbn [chain_data]. change (payload (seg_pbuf p n)) with (seg_addr p). change (len (seg_pbuf p n)) with n. rewrite El. cbn. by rewrite (right_id_L [] (++)). }
  destruct (read_chain_run (snet s) _ (S (S (base.size (n_pbufs (snet s))))) p d Hc Ht Ed) as (q & Eq & Hq & Hqok);
    [pose proof (is_chain_size _ _ _ Hc); lia|].
  exists (ip_chksum_pseudo q IP_PROTO_TCP n src dst). split_and!.
  - apply nb_read. unfold chksum_pseudo_pbuf. rewrite (bind_ok chain_fuel _ _ (S (S (base.size (n_pbufs (snet s))))) (snet s)) by done.
    by rewrite (bind_ok _ _ _ _ _ Eq).
  - unfold ip_chksum_pseudo, inet_chksum_pseudo, inet_cksum_pseudo_base. destruct (chain_acc _ _ _). apply u16_range.
  - pose proof (load_length _ _ _ _ El) as Eld. apply pseudo_fill; [by apply Hqok|by rewrite Hq|by rewrite Hq|done|unfold is_u16; lia|done|done|rewrite Hq, Eld; lia].
Qed.

Lemma control_segment_run s R pcb p n pre post src dst :
  ip_ok s (ptr p ⊎ R) -> p <> NULL -> unsent_segment s p n pre post -> maybe_pcb s pcb -> is_u32 src -> is_u32 dst -> ip4_addr_isany src = false -> is_u16 (ip_id s) ->
  exists nif, tcp_route_spec s (pcb_idx s pcb) dst nif /\
  (nif = NULL /\ tcp_output_control_segment netif_output pcb p src dst s = (free_pbuf p;; mret ERR_RTE) s \/
   nif_live (i_arp s) nif /\ exists s1, i_upper s1 = i_upper s /\ ip_env s s1 /\ ip_ok s1 (ptr p ⊎ R) /\
     datagram s1 p n src dst (pcb_ttl s pcb) (pcb_tos s pcb) (ip_id s) pre post /\
     tcp_output_control_segment netif_output pcb p src dst s = (e ← on_arp (netif_output nif p dst); free_pbuf p;; mret e) s1).
Proof.
  intros Hok Hz Hseg Hpcb Hs Hd Hany Hid. destruct (tcp_route_run s _ pcb src dst Hok Hpcb) as (nif & Er & Hrs & Hnif). exists nif. split; [done|].
  unfold tcp_output_control_segment. rewrite (bind_ok (assert _) _ _ tt s) by (unfold assert; by rewrite (proj2 (Z.eqb_neq _ _) Hz)).
  rewrite (bind_ok _ _ _ _ _ Er). destruct (Z.eqb_spec nif NULL) as [->|Hnz]; [by left|]. destruct Hnif as [?|Hnif]; [done|]. right. split; [done|].
  pose proof Hseg as [Eb El (Hp & Hpo & Hl & Hn)]. set (b := seg_pbuf p n) in *.
  destruct (chksum_run s p n pre post src dst Hz Hseg Hs Hd) as (c & Ec & Hc & Hsum).
  destruct (store_is_Some (n_mem (snet s)) (seg_addr p + 16) (bytes16 c)) as [m Em].
  { destruct (ip_refs pools linkoutput s _ Hok) as (_ & _ & Hpl & _). destruct (Hpl p b Eb) as (_ & _ & Hv & _). intros i Hi. apply Hv.
    cbn [b ram_pbuf len]. change (payload b) with (seg_addr p). cbn [length bytes16] in Hi. lia. }
  assert (same_dom (n_mem (snet s)) m) as Hdm by by eapply same_dom_store.
  destruct (ip_ok_mem pools linkoutput s _ m Hok Hdm) as [Hok1 He1]. set (s1 := set_smem m s) in *.
  assert (is_u8 (pcb_ttl s pcb) /\ is_u8 (pcb_tos s pcb)) as [Httl Htos] by by apply pcb_hop_typed.
  assert (is_u8 IP_PROTO_TCP) as H6 by (unfold is_u8, IP_PROTO_TCP; lia).
  assert (packet (n_pbufs (snet s1)) p b []) as Hpk by (apply seg_packet; [done|lia|exact Eb]).
  assert (room p b IP_HLEN) as Hroom.
  { split_and!; [discriminate|cbn; unfold IP_HLEN, PBUF_IP; lia|cbn; unfold IP_HLEN; lia]. }
  destruct (build_header pools linkoutput netif_output s1 _ p b [] (Some src) dst (pcb_ttl s pcb) (pcb_tos s pcb) IP_PROTO_TCP nif Hok1 Hpk eq_refl Httl H6)
    as [[? _]|(m2 & Em2 & _ & Eo)]; [done|].
  destruct (header_built pools linkoutput s1 _ p b [] src dst _ _ _ m2 Hok1 Hpk Hroom Hid Httl Htos H6 Hs Hd Em2) as (Hl2 & Hck & Hout).
  destruct (with_header_ok pools linkoutput s1 _ p b [] m2 Hok1 Hpk (proj1 Hroom) (proj1 (proj2 Hroom)) (proj2 (proj2 Hroom)) (stores_dom _ _ _ Em2)) as (Hok2 & He2 & _).
  exists (with_header s1 p b m2). split_and!; [done|by etransitivity|done| |].
  - split; [apply lookup_insert_eq|].
    exists (inline_chksum (pcb_tos s pcb) (tot_len b + IP_HLEN) (ip_id s1) (pcb_ttl s pcb) IP_PROTO_TCP src dst), c. cbv zeta. split_and!; [|exact Hck|exact Hsum].
    change (n_mem (snet (with_header s1 p b m2))) with m2. unfold IP_HLEN in *. rewrite Z2Nat.inj_add, load_app by lia.
    change (payload b) with (seg_addr p) in *. change (Z.to_nat 20) with 20%nat. rewrite Hl2. cbn [mbind option_bind].
    replace (seg_addr p - 20 + Z.of_nat 20) with (seg_addr p) by lia.
    rewrite (load_ext m2 m), (load_patch (n_mem (snet s)) (seg_addr p) 16 (bytes16 c) m (Z.to_nat n) (pre ++ [0; 0] ++ post)).
    + cbn [mbind option_bind]. do 2 f_equal. unfold patch. rewrite <- Hl at 1 2. rewrite take_app_length, drop_app_add. done.
    + exact Em.
    + exact El.
    + cbn. lia.
    + intros i Hi. apply Hout. lia.
  - apply bind_eq. rewrite (bind_ok _ _ _ _ _ (nb_rd s p b Eb)). change (tot_len b) with n at 1. rewrite (bind_ok _ _ _ _ _ Ec).
    change (payload b) with (seg_addr p) at 1. next_store Em. fold s1.
    rewrite (bind_ok _ _ s1 (pcb_ttl s pcb, pcb_tos s pcb) s1).
    + unfold ip4_output_if. cbn [src_isany]. rewrite Hany. exact Eo.
    + unfold pcb_ttl, pcb_tos. destruct (Z.eqb_spec pcb NULL) as [_|Hpz]; [done|]. destruct Hpcb as [?|(q & Eq & _)]; [done|].
      cbn [negb]. rewrite (bind_ok _ _ _ _ _ (get_pcb_run s1 pcb q Eq)), Eq. done.
Qed.

Lemma moved_packet ps p n : p <> NULL -> 20 <= n <= 1020 -> ps !! p = Some (moved (seg_pbuf p n) IP_HLEN) -> packet ps p (moved (seg_pbuf p n) IP_HLEN) [].
Proof.
  intros Hz Hn E. rewrite moved_small in E |- *; cbn [ram_pbuf len tot_len] in *; [|unfold IP_HLEN; lia..].
  split_and!; [by split_and!| |by repeat constructor]. cbn. change (sum_len []) with 0. unfold IP_HLEN. split_and!; [lia..|done].
Qed.
Lemma on_arp_upper {A} (m : M (arp H) A) s a s' : on_arp m s = Ok (a, s') -> i_upper s' = i_upper s.
Proof. unfold on_arp. destruct (m (i_arp s)) as [[? ?]| | |]; [|done..]. by intros [= _ <-]. Qed.
Lemma free_pbuf_upper p s a s' : free_pbuf p s = Ok (a, s') -> i_upper s' = i_upper s.
Proof. unfold free_pbuf. intros (x & s1 & E1 & E2)%bind_inv. injection E2 as _ <-. by eapply on_arp_upper. Qed.

(** Handing it over and releasing it. *)
Lemma output_free_run s R nif p n src dst x y id pre post : ip_ok s (ptr p ⊎ R) -> p <> NULL -> 20 <= n <= 1020 -> nif_live (i_arp s) nif ->
  datagram s p n src dst x y id pre post ->
  runs (e ← on_arp (netif_output nif p dst); free_pbuf p;; mret e) s (fun e s' => kept pools linkoutput s R tt s' /\ i_upper s' = i_upper s /\
    exists a, netif_output nif p dst (i_arp s) = Ok (e, a)).
Proof.
  intros Hok Hz Hn Hnif [Eb _].
  destruct (give_output pools linkoutput netif_output s _ nif p (moved (seg_pbuf p n) IP_HLEN) [] dst Hok Hnif) as (e & s1 & E1 & Hok1 & He1);
    [rewrite ptr_some by done; multiset_solver|by apply moved_packet|done|].
  destruct (free_runs pools linkoutput s1 R p Hok1 Hz) as ([] & s2 & E2 & Hok2 & He2).
  eapply runs_step; [exact E1|]. eapply runs_step; [exact E2|]. apply runs_ret. split_and!; [split; [done|by etransitivity]| |].
  - rewrite (free_pbuf_upper _ _ _ _ E2). by eapply on_arp_upper.
  - unfold on_arp in E1. destruct (netif_output nif p dst (i_arp s)) as [[e' a]| | |]; [|done..]. injection E1 as -> _. by exists a.
Qed.

(** What became of the segment: there is no route, or the interface was given the datagram
    and returned [e]. *)
Definition handed s (pcb p n src dst : Z) (pre post : list Z) (e : Z) : Prop :=
  exists nif, tcp_route_spec s (pcb_idx s pcb) dst nif /\
  (nif = NULL /\ e = ERR_RTE \/
   exists s1 a, datagram s1 p n src dst (pcb_ttl s pcb) (pcb_tos s pcb) (ip_id s) pre post /\ netif_output nif p dst (i_arp s1) = Ok (e, a)).

Lemma control_segment_sent s R pcb p n pre post src dst :
  ip_ok s (ptr p ⊎ R) -> p <> NULL -> unsent_segment s p n pre post -> maybe_pcb s pcb -> is_u32 src -> is_u32 dst -> ip4_addr_isany src = false -> is_u16 (ip_id s) ->
  runs (tcp_output_control_segment netif_output pcb p src dst) s (fun e s' =>
    kept pools linkoutput s R tt s' /\ i_upper s' = i_upper s /\ handed s pcb p n src dst pre post e).
Proof.
  intros Hok Hz Hseg Hpcb Hs Hd Hany Hid. pose proof (us_ok _ _ _ _ _ Hseg) as (_ & _ & _ & Hn).
  destruct (control_segment_run s R pcb p n pre post src dst Hok Hz Hseg Hpcb Hs Hd Hany Hid) as (nif & Hr & [(-> & E)|(Hl & s1 & Eu & He & Hok1 & Hdg & E)]).
  - destruct (free_runs pools linkoutput s R p Hok Hz) as ([] & s2 & E2 & Hk).
    exists ERR_RTE, s2. rewrite E, (bind_ok _ _ _ _ _ E2). split_and!; [done|exact Hk|by eapply free_pbuf_upper|]. exists NULL. split; [done|by left].
  - destruct (output_free_run s1 R nif p n src dst _ _ _ pre post Hok1 Hz Hn (nif_live_env _ _ _ (proj1 He) Hl) Hdg) as (e & s2 & E2 & Hk & Eu2 & a & Ea).
    exists e, s2. rewrite E. split_and!; [done|by eapply kept_env|congruence|]. exists nif. split; [done|right]. by exists s1, a.
Qed.

(** A new header is such a segment. *)
Lemma new_header s R p n sport dport seq ack flags wnd :
  is_u16 sport -> is_u16 dport -> is_u32 seq -> is_u32 ack -> 0 <= flags < 64 -> is_u16 wnd ->
  ip_ok (set_snet n s) R -> n_pbufs n !! p = Some (seg_pbuf p 20) ->
  stores (n_mem (snet s)) (tcp_header_writes (seg_addr p) sport dport (lwip_htonl seq) ack flags wnd) = Some (n_mem n) ->
  unsent_segment (set_snet n s) p 20 (tcp_fields sport dport seq ack flags wnd) [0; 0].
Proof.
  intros Hsp Hdp Hsq Hak Hf Hw Hok Eb Em. split; [exact Eb| |].
  - destruct (ip_refs pools linkoutput _ _ Hok) as (_ & _ & Hpl & _). destruct (Hpl p _ Eb) as (_ & _ & Hv & _).
    destruct (load_is_Some (n_mem (snet s)) (seg_addr p) 20) as [d Ed].
    { intros i Hi. apply (stores_dom _ _ _ Em). apply Hv. cbn [ram_pbuf len]. change (payload (seg_pbuf p 20)) with (seg_addr p). lia. }
    change (Z.to_nat 20) with 20%nat. change (n_mem (snet (set_snet n s))) with (n_mem n).
    rewrite (load_stores (seg_addr p) 20 _ _ _ _ (tcp_header_within _ _ _ _ _ _ _) Em Ed), tcp_header_patches; [done..|by eapply load_length].
  - split_and!; [by apply tcp_fields_ok|by repeat constructor|done|lia..].
Qed.

Lemma fill_options_run s pcb p b : n_pbufs (snet s) !! p = Some b -> p <> NULL -> tcp_output_fill_options pcb p 0 0 s = Ok (tt, s).
Proof.
  intros Eb Hz. unfold tcp_output_fill_options. rewrite (bind_ok (assert _) _ _ tt s) by (unfold assert; by rewrite (proj2 (Z.eqb_neq _ _) Hz)).
  rewrite (bind_ok _ _ _ _ _ (nb_rd s p b Eb)). unfold assert. change (LWIP_TCP_OPT_LENGTH 0) with 0. by rewrite Z.add_0_r, Z.eqb_refl.
Qed.

(** ** Segments of a connection *)

Definition announced (c : conn) : conn :=
  let w := c_rcv c in with_rcv (mk_rcv (rcv_nxt w) (rcv_wnd w) (rcv_ann_wnd w) (u32 (rcv_nxt w + rcv_ann_wnd w))) c.

Lemma announce_run s pcb k c : pcbs (i_upper s) !! pcb = Some (mk_pcb k (Conn c)) ->
  on_tcp (announce pcb) s = Ok (rcv_ann_wnd (c_rcv c), set_conn_of s pcb k (announced c)).
Proof.
  intros E. apply on_tcp_ok. unfold announce. rewrite (bind_ok (get_conn pcb) _ _ c (i_upper s)) by (unfold get_conn; by rewrite E).
  unfold upd_conn, mbind, M_bind. by rewrite E.
Qed.

Lemma set_conn_of_lookup s pcb k c : pcbs (i_upper (set_conn_of s pcb k c)) !! pcb = Some (mk_pcb k (Conn c)).
Proof. apply lookup_insert_eq. Qed.

(** An acknowledgement from [seq]: what it holds is the state of the connection. *)
Definition ack_fields (k : pcb_common) (c : conn) (seq : Z) : list Z :=
  tcp_fields (local_port k) (remote_port c) seq (rcv_nxt (c_rcv c)) TCP_ACK (rcv_ann_wnd (c_rcv c)).

Section Conn.
Context s (R : gmultiset Z) (pcb : Z) (k : pcb_common) (c : conn).
Hypothesis Hok : ip_ok s R.
Hypothesis Hz : pcb <> NULL.
Hypothesis E : pcbs (i_upper s) !! pcb = Some (mk_pcb k (Conn c)).
Hypothesis Ht : pcb_typed (mk_pcb k (Conn c)).

Lemma alloc_header_conn seq : is_u32 seq ->
  runs (tcp_output_alloc_header pools pcb 0 0 (lwip_htonl seq)) s (fun p s' => ip_ok s' (ptr p ⊎ R) /\ ip_env s s' /\ ip_id s' = ip_id s /\
    (p = NULL /\ no_memory s 20 /\ i_upper s' = i_upper s \/
     p <> NULL /\ i_upper s' = i_upper (set_conn_of s pcb k (announced c)) /\ unsent_segment s' p 20 (ack_fields k c seq) [0; 0])).
Proof.
  intros Hseq. unfold tcp_output_alloc_header. apply runs_assert; [by rewrite (proj2 (Z.eqb_neq _ _) Hz)|].
  eapply runs_step; [by apply get_pcb_run|]. eapply runs_step; [by eapply get_conn_run|].
  destruct (alloc_header_run s R (rcv_nxt (c_rcv c)) 0 (lwip_htonl seq) (local_port k) (remote_port c) TCP_ACK (rcv_ann_wnd (c_rcv c)) Hok ltac:(lia))
    as (p & n & Ea & Hok1 & He1 & Hcase). eapply runs_step; [exact Ea|]. set (s1 := set_snet n s) in *.
  destruct Hcase as [(-> & Hnm)|(Hpz & _ & Eb & Em)]; [eapply runs_step; [reflexivity|]; apply runs_ret; split; [exact Hok1|]; split; [exact He1|]; split; [done|]; by left|].
  rewrite (proj2 (Z.eqb_neq _ _) Hpz). cbn [negb].
  assert (pcbs (i_upper s1) !! pcb = Some (mk_pcb k (Conn c))) as E1 by exact E. destruct Ht as (Hk & Hc).
  destruct (ip_ok_conn s1 _ pcb k c (announced c) Hok1 E1 eq_refl) as [Hok2 He2].
  eapply runs_step; [rewrite (bind_ok _ _ _ _ _ (announce_run s1 pcb k c E1)); reflexivity|]. apply runs_ret.
  split_and!; [done|by etransitivity|done|right]. split_and!; [done|done|].
  destruct Hk as (_ & _ & _ & _ & _ & _ & _ & Hlp), Hc as (Hrp & _ & _ & _ & (Hnx & _ & Hann & _) & _).
  destruct (new_header s (ptr p ⊎ R) p n (local_port k) (remote_port c) seq (rcv_nxt (c_rcv c)) TCP_ACK (rcv_ann_wnd (c_rcv c)) Hlp Hrp Hseq Hnx) as [U1 U2 U3];
    [unfold TCP_ACK; lia|done|exact Hok1|rewrite Eb; apply lookup_insert_eq|done|]. done.
Qed.

(** The rest of the segment's way, and what it means for the connection. *)
Lemma ack_segment_sent s1 p seq : ip_ok s1 (ptr p ⊎ R) -> p <> NULL -> ip_env s s1 -> ip_id s1 = ip_id s ->
  i_upper s1 = i_upper (set_conn_of s pcb k (announced c)) -> unsent_segment s1 p 20 (ack_fields k c seq) [0; 0] ->
  ip4_addr_isany (local_ip k) = false -> is_u16 (ip_id s) ->
  runs (tcp_output_control_segment netif_output pcb p (local_ip k) (remote_ip k)) s1
    (fun e s' => kept pools linkoutput s R tt s' /\ i_upper s' = i_upper s1 /\ handed s pcb p 20 (local_ip k) (remote_ip k) (ack_fields k c seq) [0; 0] e).
Proof.
  intros Hok1 Hpz He1 Eid Eu Hseg Hany Hid. 
  assert (pcbs (i_upper s1) !! pcb = Some (mk_pcb k (Conn (announced c)))) as E1 by (rewrite Eu; apply set_conn_of_lookup). pose proof Ht as [Hk _]. pose proof Hk as (Hl & Hr & _).
  assert (maybe_pcb s1 pcb) as Hm by (right; by eexists).
  eapply runs_weaken; [apply (control_segment_sent s1 R pcb p 20 _ _ _ _ Hok1 Hpz Hseg Hm Hl Hr Hany); by rewrite Eid|].
  intros e s' (Hk' & Eu' & nif & Hrt & Hcase). split_and!; [by eapply kept_env|done|]. exists nif.
  assert (pcb_ttl s1 pcb = pcb_ttl s pcb /\ pcb_tos s1 pcb = pcb_tos s pcb /\ pcb_idx s1 pcb = pcb_idx s pcb) as (Et & Eo & Ei)
    by (unfold pcb_ttl, pcb_tos, pcb_idx; by rewrite E1, E).
  rewrite Et, Eo, Eid in Hcase. rewrite Ei in Hrt. split; [by eapply tcp_route_spec_env|done].
Qed.
End Conn.

Definition ACK_FLAGS : Z := TF_ACK_DELAY |c TF_ACK_NOW.

(** C12: an acknowledgement. For a connection with a local address [tcp_send_empty_ack]
    returns on every path and keeps the stack's invariant. It either finds no memory and
    returns ERR_BUF; or there is no route and it returns ERR_RTE; or it hands the
    interface of the route a datagram with RFC 793's header (the connection's ports, the
    next sequence number, the acknowledged one, the window announced) and both checksums
    valid, and returns the interface's result. When all went well the flags that ask for
    an acknowledgement are cleared, else they are set so that the timer tries again; the
    edge of the announced window moves exactly if a segment was built. *)
Theorem tcp_send_empty_ack_spec s (R : gmultiset Z) (pcb : Z) (k : pcb_common) (c : conn)
  (Hok : ip_ok s R) (Hz : pcb <> NULL) (E : pcbs (i_upper s) !! pcb = Some (mk_pcb k (Conn c))) (Ht : pcb_typed (mk_pcb k (Conn c)))
  (Hany : ip4_addr_isany (local_ip k) = false) (Hid : is_u16 (ip_id s)) :
  exists e s' c', tcp_send_empty_ack pools netif_output pcb s = Ok (e, s') /\ ip_ok s' R /\ ip_env s s' /\
    i_upper s' = i_upper (set_conn_of s pcb k c') /\
    (no_memory s 20 /\ e = ERR_BUF /\ c' = tcp_set_flags ACK_FLAGS c \/
     c' = (if e =? ERR_OK then tcp_clear_flags ACK_FLAGS (announced c) else tcp_set_flags ACK_FLAGS (announced c)) /\
     exists p, handed s pcb p 20 (local_ip k) (remote_ip k) (ack_fields k c (snd_nxt (c_snd c))) [0; 0] e).
Proof.
  cut (runs (tcp_send_empty_ack pools netif_output pcb) s (fun e s' => exists c', ip_ok s' R /\ ip_env s s' /\ i_upper s' = i_upper (set_conn_of s pcb k c') /\
    (no_memory s 20 /\ e = ERR_BUF /\ c' = tcp_set_flags ACK_FLAGS c \/
     c' = (if e =? ERR_OK then tcp_clear_flags ACK_FLAGS (announced c) else tcp_set_flags ACK_FLAGS (announced c)) /\
     exists p, handed s pcb p 20 (local_ip k) (remote_ip k) (ack_fields k c (snd_nxt (c_snd c))) [0; 0] e))).
  { intros (e & s' & E' & c' & Hr). by exists e, s', c'. }
  unfold tcp_send_empty_ack. apply runs_assert; [by rewrite (proj2 (Z.eqb_neq _ _) Hz)|]. eapply runs_step; [by eapply get_conn_run|].
  change (u8 (LWIP_TCP_OPT_LENGTH 0)) with 0. assert (is_u32 (snd_nxt (c_snd c))) as Hq by by destruct Ht as (_ & _ & _ & _ & _ & _ & _ & _ & (? & _) & _).
  eapply runs_bind; [by apply (alloc_header_conn s R pcb k c)|]. intros p s1 (Hok1 & He1 & Eid & [(-> & Hnm & Eu)|(Hpz & Eu & Hseg)]).
  - rewrite ptr_null, (left_id_L ∅ (⊎)) in Hok1. assert (pcbs (i_upper s1) !! pcb = Some (mk_pcb k (Conn c))) as E1 by (by rewrite Eu).
    eapply runs_step; [by apply (upd_conn_run s1 pcb k c)|]. apply runs_ret.
    destruct (ip_ok_conn s1 R pcb k c (tcp_set_flags ACK_FLAGS c) Hok1 E1 eq_refl) as [Hok2 He2]. exists (tcp_set_flags ACK_FLAGS c).
    split_and!; [done|by etransitivity|unfold set_conn_of; cbn; by rewrite Eu|by left].
  - rewrite (proj2 (Z.eqb_neq _ _) Hpz). eapply runs_step; [eapply fill_options_run; [apply Hseg|done]|].
    assert (pcbs (i_upper s1) !! pcb = Some (mk_pcb k (Conn (announced c)))) as E1 by (rewrite Eu; apply set_conn_of_lookup).
    eapply runs_step; [by apply get_pcb_run|]. eapply runs_bind; [by eapply (ack_segment_sent s R pcb k c)|].
    intros e s2 ([Hok2 He2] & Eu2 & Hh). assert (pcbs (i_upper s2) !! pcb = Some (mk_pcb k (Conn (announced c)))) as E2 by (by rewrite Eu2).
    set (c' := if e =? ERR_OK then tcp_clear_flags ACK_FLAGS (announced c) else tcp_set_flags ACK_FLAGS (announced c)).
    eapply runs_step; [instantiate (1 := set_conn_of s2 pcb k c'); instantiate (1 := tt); unfold c'; by destruct (e =? ERR_OK); apply upd_conn_run|].
    apply runs_ret. destruct (ip_ok_conn s2 R pcb k _ c' Hok2 E2) as [Hok3 He3]; [unfold c'; by destruct (e =? ERR_OK)|]. exists c'.
    split_and!; [done|by etransitivity| |right; split; [done|by exists p]]. unfold set_conn_of. cbn. rewrite Eu2, Eu. unfold set_conn_of. cbn.
    unfold set_pcbs. cbn. by rewrite insert_insert_eq.
Qed.

(** A probe of a connection: an acknowledgement of the sequence number before the next.
    Nothing of the connection changes but the edge of the announced window. *)
Theorem tcp_keepalive_spec s (R : gmultiset Z) (pcb : Z) (k : pcb_common) (c : conn)
  (Hok : ip_ok s R) (Hz : pcb <> NULL) (E : pcbs (i_upper s) !! pcb = Some (mk_pcb k (Conn c))) (Ht : pcb_typed (mk_pcb k (Conn c)))
  (Hany : ip4_addr_isany (local_ip k) = false) (Hid : is_u16 (ip_id s)) :
  exists e s', tcp_keepalive pools netif_output pcb s = Ok (e, s') /\ ip_ok s' R /\ ip_env s s' /\
    (no_memory s 20 /\ e = ERR_MEM /\ i_upper s' = i_upper s \/
     i_upper s' = i_upper (set_conn_of s pcb k (announced c)) /\
     exists p, handed s pcb p 20 (local_ip k) (remote_ip k) (ack_fields k c (u32 (snd_nxt (c_snd c) - 1))) [0; 0] e).
Proof.
  cut (runs (tcp_keepalive pools netif_output pcb) s (fun e s' => ip_ok s' R /\ ip_env s s' /\
    (no_memory s 20 /\ e = ERR_MEM /\ i_upper s' = i_upper s \/
     i_upper s' = i_upper (set_conn_of s pcb k (announced c)) /\
     exists p, handed s pcb p 20 (local_ip k) (remote_ip k) (ack_fields k c (u32 (snd_nxt (c_snd c) - 1))) [0; 0] e))); [done|].
  unfold tcp_keepalive. apply runs_assert; [by rewrite (proj2 (Z.eqb_neq _ _) Hz)|]. eapply runs_step; [by eapply get_conn_run|].
  change (u8 (LWIP_TCP_OPT_LENGTH 0)) with 0.
  eapply runs_bind; [apply (alloc_header_conn s R pcb k c); try done; apply u32_range|]. intros p s1 (Hok1 & He1 & Eid & [(-> & Hnm & Eu)|(Hpz & Eu & Hseg)]).
  - rewrite ptr_null, (left_id_L ∅ (⊎)) in Hok1. apply runs_ret. split_and!; [done..|by left].
  - rewrite (proj2 (Z.eqb_neq _ _) Hpz). eapply runs_step; [eapply fill_options_run; [apply Hseg|done]|].
    assert (pcbs (i_upper s1) !! pcb = Some (mk_pcb k (Conn (announced c)))) as E1 by (rewrite Eu; apply set_conn_of_lookup).
    eapply runs_step; [by apply get_pcb_run|]. eapply runs_weaken; [by eapply (ack_segment_sent s R pcb k c)|].
    intros e s2 ([Hok2 He2] & Eu2 & Hh). split_and!; [done|done|right]. split; [congruence|by exists p].
Qed.

End Spec.
