(* ===== verification/TcpEnqSpec.v ===== *)
(** * Queueing segments with SYN or FIN

    [tcp_enqueue_flags] either finds no memory and changes nothing but a flag, or appends
    one segment to the queue of unsent ones. *)

From S2P Require Import Prelude Chksum Memp Pbuf PbufSpec PbufData PbufRefs Ethernetif Ip4Addr Ethernet Etharp EtharpSpec Ip4 Ip4Spec Icmp TcpApi Tcp TcpSpec TcpSeg TcpSegSpec TcpAckSpec TcpTypes TcpOut TcpOutSpec.
From stdpp Require Import base numbers list gmap gmultiset functions sorting.
Open Scope Z_scope.
Open Scope c_scope.

Section Net.
Context (pools : memp_t -> memp_desc) `{HP : !PoolsOk pools} {H : Type} `{HH : !Heap H} `{HL : !HeapLaws pools H}.
Implicit Types n : net H.
Local Abbreviation net_ok := (net_ok pools).

Lemma net_ok_mem n fl hl R m : net_ok n fl hl R -> same_dom (n_mem n) m -> net_ok (set_mem m n) fl hl R.
Proof.
  intros (Hi & Hrc & Hpl & Hv) Hm. split_and!; [done|done| |by eapply same_dom_valid]. intros a b E. eapply same_dom_placed; [exact Hm|]. by apply Hpl.
Qed.

Lemma net_ok_update n fl hl R a b b' : net_ok n fl hl R -> n_pbufs n !! a = Some b -> ref b' = ref b -> next b' = next b ->
  type_internal b' = type_internal b -> placed (n_mem n) a b' -> net_ok (set_pbufs (<[a := b']> (n_pbufs n)) n) fl hl R.
Proof.
  intros ((Hp & Hh & Ho) & Hrc & Hpl & Hv) E Hr Hn Ht Hb. split_and!; [|by eapply rc_update| |done].
  - refine (conj Hp (conj Hh _)). intros x c. cbn [n_pbufs set_pbufs]. rewrite lookup_insert_Some.
    intros [[<- <-]|[_ Ex]]; [|by apply Ho]. specialize (Ho a b E). unfold owned, pbuf_get_allocsrc in *. by rewrite Hr, Ht.
  - intros x c. cbn [n_pbufs set_pbufs]. rewrite lookup_insert_Some. intros [[<- <-]|[_ Ex]]; [done|]. by apply Hpl.
Qed.

Lemma net_ok_memp n fl fl' hl R k : net_ok n fl hl R -> pool_rep pools k fl' -> fl' MEMP_PBUF = fl MEMP_PBUF -> fl' MEMP_PBUF_POOL = fl MEMP_PBUF_POOL ->
  net_ok (mk_net k (n_heap n) (n_pbufs n) (n_mem n) (n_ooseq n)) fl' hl R.
Proof.
  intros ((Hp & Hh & Ho) & Hrc & Hpl & Hv) Hk E1 E2. split_and!; [|done..]. split_and!; [done|done|]. intros a b Eb. specialize (Ho a b Eb).
  unfold owned in *. by rewrite E1, E2.
Qed.

Lemma net_ok_alloc n fl hl R layer length : net_ok n fl hl R -> 0 <= layer <= 1000 -> 0 <= length < 65536 ->
  exists p n' hl', pbuf_alloc pools layer length PBUF_RAM n = Ok (p, n') /\ n_mem n' = n_mem n /\ net_ok n' fl hl' (ptr p ⊎ R) /\
  (p = NULL /\ n_pbufs n' = n_pbufs n \/ p <> NULL /\ n_pbufs n !! p = None /\ n_pbufs n' = <[p := ram_pbuf p layer length]> (n_pbufs n)).
Proof.
  intros (Hi & Hrc & Hpl & Hv) Hl Hn.
  destruct (alloc_ram_spec pools n fl hl layer length Hi Hl Hn) as (p & n' & E & Em & [(-> & Es & Hi')|(Hz & Es & Ef & Hlo & Hhi & Hi')]).
  - exists NULL, n', hl. split_and!; [done|done| |by left]. split_and!; [done| |by rewrite Es, Em|by rewrite Em].
    by rewrite Es, ptr_null, (left_id_L ∅ (⊎)).
  - exists p, n', ({[p]} ∪ hl). split_and!; [done|done| |by right]. split_and!; [done|rewrite Es; by apply rc_alloc| |by rewrite Em].
    rewrite Es, Em. intros a b. rewrite lookup_insert_Some. intros [[<- <-]|[_ Ex]]; [|by apply Hpl]. by apply (ram_pbuf_placed pools).
Qed.

(** The room in front of the payload becomes a header. *)
Lemma net_ok_moved n fl hl R p b h : net_ok n fl hl R -> n_pbufs n !! p = Some b -> contiguous b -> 0 < h -> p + 16 <= payload b - h ->
  len b + h < 65536 -> tot_len b + h < 65536 ->
  net_ok (set_pbufs (<[p := moved b h]> (n_pbufs n)) n) fl hl R /\ valid_range (n_mem n) (payload b - h) (len b + h).
Proof.
  intros Hn Eb Hc Hh Hlo Hl Ht. pose proof Hn as (_ & _ & Hpl & _). destruct (Hpl p b Eb) as (Hlen & Htot & Hva & Hcv). destruct (Hcv Hc) as [Hlo' Hvc].
  split; [|intros i Hi; apply Hvc; lia]. eapply net_ok_update; [exact Hn|exact Eb|done..|]. rewrite moved_small by lia.
  unfold placed. cbn [payload len tot_len with_tot_len with_len with_payload].
  split_and!; [lia..|intros i Hi; apply Hvc; lia|intros _; split; [lia|intros i Hi; apply Hvc; lia]].
Qed.

(** The first free element becomes a live segment. *)
Lemma seg_pool_insert n fl hl R g a l x : net_ok n fl hl R -> seg_pool pools fl g -> fl MEMP_TCP_SEG = a :: l ->
  a <> NULL /\ g !! a = None /\ seg_pool pools (<[MEMP_TCP_SEG := l]> fl) (<[a := x]> g).
Proof.
  intros ((Hpr & _) & _) (He & Hf) Efl. destruct (Hpr MEMP_TCP_SEG ltac:(done)) as (_ & Hnd & Hin). rewrite Efl in *.
  apply Forall_cons_1 in Hin as [Hae _]. apply NoDup_cons in Hnd as [Hni _]. destruct (elem_props pools MEMP_TCP_SEG a Hae) as (Haz & _).
  split_and!; [done|by apply (Hf a Hae); left|]. split.
  - intros y. rewrite lookup_insert_is_Some. intros [<-|[_ Hy]]; [done|by apply He].
  - intros y Hy. rewrite fn_lookup_insert, lookup_insert_None, <- (Hf y Hy), elem_of_cons. clear -Hni. naive_solver.
Qed.
End Net.

(** The words of the header of a queued segment: the acknowledgement, the window and the
    checksum are left to [tcp_output_segment]. *)
Definition queued_writes (h sport dport seq hlen flags : Z) : list (Z * list Z) :=
  [(h, bytes16 (lwip_htons sport)); (h + 2, bytes16 (lwip_htons dport)); (h + 4, bytes32 (lwip_htonl seq));
   (h + 12, bytes16 (u16 (lwip_htons (u16 (hlen <<c 12) |c flags)))); (h + 18, bytes16 0)].

Lemma queued_within h sport dport seq hlen flags : within h 20 (queued_writes h sport dport seq hlen flags).
Proof. unfold within, queued_writes. repeat constructor; simpl; lia. Qed.

Lemma queued_hdr_at m m' h sport dport seq hlen flags : valid_range m h 20 -> is_u32 seq -> hlen = 5 \/ hlen = 6 -> 0 <= flags < 64 ->
  stores m (queued_writes h sport dport seq hlen flags) = Some m' -> hdr_at m' h seq flags.
Proof.
  intros Hv Hq Hh Hf Em. destruct (load_is_Some m h 20 Hv) as [d Ed]. pose proof (load_length _ _ _ _ Ed) as Hl.
  pose proof (load_stores h 20 _ _ _ _ (queued_within _ _ _ _ _ _) Em Ed) as El.
  assert (bytes16 (u16 (lwip_htons (u16 (hlen <<c 12) |c flags))) = [16 * hlen; flags]) as Ef.
  { destruct Hh as [-> | ->]; [by apply hdrlen_flags|]. change (u16 (6 <<c 12)) with 24576. rewrite (lor_add 24576 flags 8) by (try lia; change (2 ^ 8) with 256; lia).
    rewrite htons_swap, swap_spec by (unfold is_u16; lia). unfold bytes16, u16. list_lia. }
  assert (take 4 (drop 4 (patches h (queued_writes h sport dport seq hlen flags) d)) = be32 seq /\
    take 2 (drop 12 (patches h (queued_writes h sport dport seq hlen flags) d)) = [16 * hlen; flags]) as [E1 E2].
  { unfold patches, queued_writes. rewrite bytes32_htonl, Ef by done. cbn [foldl fst snd].
    repeat match goal with |- context [Z.to_nat (h + ?k - h)] => replace (h + k - h) with k by lia end. rewrite Z.sub_diag.
    do 20 (destruct d as [|? d]; [done|]). destruct d; [|done]. split; reflexivity. }
  pose proof (load_sub _ _ _ _ 4 4 El ltac:(lia)) as L1. pose proof (load_sub _ _ _ _ 12 2 El ltac:(lia)) as L2. rewrite E1 in L1. rewrite E2 in L2.
  exists (seq / 16777216), ((seq / 65536) mod 256), ((seq / 256) mod 256), (seq mod 256), (16 * hlen).
  split_and!; [|exact L1|unfold is_u32, word4 in *; lia|exact L2]. unfold is_u32 in Hq. repeat constructor; unfold is_u8; lia.
Qed.

Section Enq.
Context (pools : memp_t -> memp_desc) `{HP : !PoolsOk pools} {H : Type} `{HH : !Heap H} `{HL : !HeapLaws pools H}.
Context (s : ip H tcps) (pcb : Z) (k : pcb_common).
Local Abbreviation qst := (qst s pcb k).
Local Abbreviation seg_inv := (seg_inv pools).
Implicit Types (n : net H) (t : tcps) (g : gmap Z tcp_seg) (c : conn).

Lemma q_net n n' t g c : set_snet n' (qst n t g c) = qst n' t g c.
Proof. done. Qed.
Lemma q_nb {A} (m : M (net H) A) n t g c a n' : m n = Ok (a, n') -> nb m (qst n t g c) = Ok (a, qst n' t g c).
Proof. intros E. rewrite (nb_ok m (qst n t g c) a n'), q_net; [done|]. unfold TcpSegSpec.qst. by rewrite snet_moved. Qed.
Lemma q_pcb n t g c : on_tcp (get_pcb pcb) (qst n t g c) = Ok (mk_pcb k (Conn c), qst n t g c).
Proof. apply get_pcb_run. apply lookup_insert_eq. Qed.
Lemma q_segs n t g c a x : on_tcp (modify (fun t => set_segs (<[a := x]> (segs t)) t)) (qst n t g c) = Ok (tt, qst n t (<[a := x]> g) c).
Proof. done. Qed.

Definition enq_pbuf (p optlen : Z) : pbuf := ram_pbuf p PBUF_TRANSPORT optlen.
Definition enq_hdr (p : Z) : Z := payload (enq_pbuf p 0) - TCP_HLEN.

(** The new segment [a], and what became of the packet [p] under it. *)
Record created n g p optflags flags seq n' (a : Z) c : Prop := {
  cr_new : a <> NULL /\ g !! a = None;
  cr_pbufs : n_pbufs n' = <[p := moved (enq_pbuf p (LWIP_TCP_OPT_LENGTH optflags)) TCP_HLEN]> (n_pbufs n);
  cr_mem : stores (n_mem n) (queued_writes (enq_hdr p) (local_port k) (remote_port c) seq (5 + LWIP_TCP_OPT_LENGTH optflags / 4) flags) = Some (n_mem n') }.

Lemma opt_length f : LWIP_TCP_OPT_LENGTH f = 0 \/ LWIP_TCP_OPT_LENGTH f = 4.
Proof. unfold LWIP_TCP_OPT_LENGTH, LWIP_TCP_OPT_LEN_MSS. case_match; [by left|by right]. Qed.

Lemma create_segment_ok n t g c R p flags seq optflags :
  let x := mk_seg NULL p 0 optflags (enq_hdr p) in
  seg_inv (qst n t g c) (ptr p ⊎ R) -> pcb <> NULL -> p <> NULL -> n_pbufs n !! p = Some (enq_pbuf p (LWIP_TCP_OPT_LENGTH optflags)) ->
  exists a n' g', tcp_create_segment pcb p flags seq optflags (qst n t g c) = Ok (a, qst n' t g' c) /\ seg_inv (qst n' t g' c) R /\
  (a = NULL /\ g' = g /\ released n n' \/ g' = <[a := x]> g /\ created n g p optflags flags seq n' a c).
Proof.
  intros x Hi Hz Hpz Eb. unfold tcp_create_segment. pose proof (opt_length optflags) as Ho. set (ol := LWIP_TCP_OPT_LENGTH optflags) in *.
  rewrite (proj2 (Z.eqb_neq _ _) Hz), (proj2 (Z.eqb_neq _ _) Hpz). rewrite !(bind_ok (assert (negb false)) _ _ tt (qst n t g c)) by done.
  pose proof Hi as (fl & hl & Hn & Hsp0). change (segs (i_upper (qst n t g c))) with g in *. change (snet (qst n t g c)) with n in Hn.
  destruct (memp_malloc_spec pools (n_memp n) fl MEMP_TCP_SEG (proj1 (proj1 Hn)) ltac:(done)) as (km & Em & Hkm).
  set (n1 := mk_net km (n_heap n) (n_pbufs n) (n_mem n) (n_ooseq n)).
  assert (net_ok pools n1 (<[MEMP_TCP_SEG := tail (fl MEMP_TCP_SEG)]> fl) hl (seg_ptrs g ⊎ (ptr p ⊎ R))) as Hn1
    by (eapply net_ok_memp; [done|done|by rewrite fn_lookup_insert_ne|by rewrite fn_lookup_insert_ne]).
  assert (nb (lift_memp (memp_malloc MEMP_TCP_SEG)) (qst n t g c) = Ok (hd NULL (fl MEMP_TCP_SEG), qst n1 t g c)) as Ea.
  { apply q_nb. unfold lift_memp. rewrite Em. by destruct (fl MEMP_TCP_SEG). }
  rewrite (bind_ok _ _ _ _ _ Ea). destruct (fl MEMP_TCP_SEG) as [|a l] eqn:Efl; cbn [hd tail] in *.
  - assert (seg_inv (qst n1 t g c) (ptr p ⊎ R)) as Hi1.
    { exists (<[MEMP_TCP_SEG := []]> fl), hl. split; [exact Hn1|]. destruct Hsp0 as (He & Hf).
      split; [exact He|]. intros y Hy. rewrite fn_lookup_insert, <- Efl. by apply Hf. }
    destruct (q_free_data pools s pcb k n1 t g c R p Hi1 Hpz) as (j & n2 & E2 & Hi2 & Hr2). cbn [Z.eqb NULL].
    exists NULL, n2, g. unfold free_pbuf. rewrite bind_assoc, (bind_ok _ _ _ _ _ E2). split_and!; [done|done|left]. split_and!; [done|done|]. done.
  - destruct (seg_pool_insert pools n fl hl _ g a l x Hn Hsp0 Efl) as (Haz & Ega & Hsp).
    rewrite (proj2 (Z.eqb_neq _ _) Haz). set (b := enq_pbuf p ol) in *.
    rewrite (bind_ok _ _ _ _ _ (q_nb _ n1 t g c _ _ (rd_ok p b n1 Eb))). change (tot_len b) with ol.
    assert (u8 ol = ol) as Eol by (by destruct Ho as [-> | ->]). rewrite Eol, Z.leb_refl, Z.sub_diag.
    rewrite (bind_ok (assert true) _ _ tt (qst n1 t g c)) by done. rewrite (bind_ok _ _ _ _ _ (q_segs n1 t g c a _)). set (g1 := <[a := _]> g).
    assert (contiguous b /\ p + 16 <= payload b - TCP_HLEN /\ 0 <= ol /\ ol + TCP_HLEN < 65536) as (Hc & Hlo & Hol & Hfit)
      by (split_and!; [discriminate|cbn; unfold TCP_HLEN, PBUF_TRANSPORT; lia|lia|unfold TCP_HLEN; lia]).
    set (n2 := set_pbufs (<[p := moved b TCP_HLEN]> (n_pbufs n1)) n1).
    rewrite (bind_ok _ _ _ _ _ (q_nb _ n1 t g1 c 0 n2 (add_header_succeeds n1 p b TCP_HLEN Eb Hpz ltac:(unfold TCP_HLEN; lia) Hol Hfit Hc Hlo))). cbn [negb Z.eqb].
    rewrite (bind_ok _ _ _ _ _ (q_nb _ n2 t g1 c _ _ (rd_ok p (moved b TCP_HLEN) n2 (lookup_insert_eq _ _ _)))).
    change (payload (moved b TCP_HLEN)) with (enq_hdr p). rewrite (bind_ok _ _ _ _ _ (q_segs n2 t g1 c a _)). unfold g1. rewrite insert_insert_eq.
    change (u16 0) with 0. fold x. set (g2 := <[a := x]> g). rewrite (bind_ok _ _ _ _ _ (q_pcb n2 t g2 c)), (bind_ok _ _ _ _ _ (q_conn s pcb k n2 t g2 c)).
    destruct (net_ok_moved pools n1 _ hl _ p b TCP_HLEN Hn1 Eb Hc ltac:(done) Hlo Hfit Hfit) as [Hn2 Hv2]. fold n2 in Hn2.
    replace (seg_ptrs g ⊎ (ptr p ⊎ R)) with (seg_ptrs g2 ⊎ R) in Hn2 by (unfold g2; rewrite seg_ptrs_insert by done; cbn; multiset_solver).
    set (hl4 := 5 + ol / 4).
    destruct (stores_is_Some (enq_hdr p) 20 (queued_writes (enq_hdr p) (local_port k) (remote_port c) seq hl4 flags) (n_mem n)) as [m Em2].
    { intros i Hi'. apply Hv2. change (payload b - TCP_HLEN) with (enq_hdr p). change (len b) with ol. unfold TCP_HLEN. lia. }
    { apply queued_within. }
    exists a, (set_mem m n2), g2. split_and!.
    + change (n_mem n) with (n_mem (snet (qst n2 t g2 c))) in Em2. unfold queued_writes in Em2. cbn [stores fst snd] in Em2. unfold TCPH_HDRLEN_FLAGS_SET. do 5 next_write Em2.
      injection Em2 as <-. done.
    + exists (<[MEMP_TCP_SEG := l]> fl), hl. split; [apply (net_ok_mem pools n2 _ _ _ m Hn2); exact (stores_dom _ _ _ Em2)|exact Hsp].
    + right. split; [done|]. split; [done|done|exact Em2].
Qed.

Lemma last_loop_ok l : forall fuel n t g c h b, seg_chain g h (l ++ [b]) -> (length l < fuel)%nat -> last_loop fuel h (qst n t g c) = Ok (b, qst n t g c).
Proof.
  induction l as [|a l IH]; intros [|fuel] n t g c h b Hc Hf; cbn [length] in Hf; try lia; cbn [last_loop]; destruct Hc as (-> & Hz & x & E & Hc);
    rewrite (bind_ok _ _ _ _ _ (q_seg s pcb k n t g c _ x E)).
  - simpl in Hc. by rewrite Hc.
  - assert (sg_next x <> NULL) as Hne by (destruct l; by destruct Hc as (-> & ? & _)). rewrite (proj2 (Z.eqb_neq _ _) Hne). apply IH; [done|lia].
Qed.

Lemma with_unsent_id c : with_unsent (unsent (c_queues c)) c = c.
Proof. by destruct c as [? ? ? ? ? ? ? ? [] ? ?]. Qed.

(** The segment [a] goes to the end of the unsent queue. *)
Lemma append_ok n t g c R a x ls : let g1 := <[a := x]> g in
  seg_inv (qst n t g1 c) R -> sg_next x = NULL -> seg_chain g (unsent (c_queues c)) ls -> NoDup ls -> a ∉ ls -> a <> NULL -> g !! a = None ->
  exists g2 h, (if unsent (c_queues c) =? NULL then on_tcp (upd_conn pcb (with_unsent a))
      else fuel ← on_tcp (gets seg_fuel); useg ← last_loop fuel (unsent (c_queues c)); on_tcp (set_seg_next useg a)) (qst n t g1 c)
      = Ok (tt, qst n t g2 (with_unsent h c)) /\
    seg_chain g2 h (ls ++ [a]) /\ seg_inv (qst n t g2 (with_unsent h c)) R /\ g2 !! a = Some x /\
    (forall y l, a ∉ l -> (forall z, z ∈ l -> z ∉ ls) -> seg_chain g y l -> seg_chain g2 y l) /\
    (forall m ps l vs, Forall2 (views m ps g1) l vs -> Forall2 (views m ps g2) l vs).
Proof.
  intros g1 Hi Hxn Hc Hnd Ha Hz Eg. assert (g1 !! a = Some x) as E1 by apply lookup_insert_eq.
  assert (linked_to NULL x = x) as Elx by (rewrite <- Hxn; by destruct x).
  destruct ls as [|b l0 _] using rev_ind.
  - simpl in Hc. rewrite Hc. cbn [Z.eqb NULL]. exists g1, a. rewrite q_upd. split_and!; [done| |by eapply q_inv|done| |done].
    + split_and!; [done|done|]. exists x. by rewrite E1.
    + intros y l Hal _. by apply seg_chain_insert.
  - assert (unsent (c_queues c) <> NULL) as Hne by (destruct l0; by destruct Hc as (-> & ? & _)). rewrite (proj2 (Z.eqb_neq _ _) Hne).
    pose proof (seg_chain_insert g _ _ a x Ha Hc) as Hc1. fold g1 in Hc1.
    rewrite (bind_ok _ _ _ (S (base.size g1)) (qst n t g1 c)) by done.
    pose proof (seg_chain_size _ _ _ Hnd Hc1) as Hsz. rewrite length_app in Hsz. cbn [length] in Hsz.
    rewrite (bind_ok _ _ _ _ _ (last_loop_ok l0 (S (base.size g1)) n t g1 c _ b Hc1 ltac:(lia))).
    destruct (seg_chain_last _ _ _ _ Hc1) as (Hbz & y & Ey & _). assert (a <> b) as Hab by (intros ->; apply Ha; set_solver).
    rewrite (q_relink s pcb k n t g1 c b y a Ey). exists (<[b := linked_to a y]> g1), (unsent (c_queues c)). rewrite with_unsent_id.
    pose proof (seg_chain_into pools (l0 ++ [b]) [] g1 (unsent (c_queues c)) a x) as Hinto. cbn [hd] in Hinto. rewrite Elx, !(right_id_L [] (++)), last_snoc in Hinto.
    assert (<[a := x]> g1 = g1) as Egi by (unfold g1; by rewrite insert_insert_eq). rewrite Egi in Hinto.
    destruct (Hinto Hc1 Hnd Ha Hz E1) as (y' & Ey' & Hc2). rewrite Ey in Ey'. injection Ey' as <-. split_and!.
    + done.
    + exact Hc2.
    + by eapply q_relink_inv.
    + by rewrite lookup_insert_ne.
    + intros z l Hal Hd Hcz. apply seg_chain_insert; [intros Hbl; apply (Hd b Hbl); set_solver|]. by apply seg_chain_insert.
    + intros m ps l vs Hv. by apply views_relink_all.
Qed.

(** Other segments: when a new packet [p] appears, when bytes away from their headers
    change, and when another segment is stored. *)
Definition hdr_apart g (h a : Z) : Prop := exists x, g !! a = Some x /\ (sg_tcphdr x + 20 <= h \/ h + 20 <= sg_tcphdr x).

Lemma views_fresh m ps g p b l vs : Forall2 (views m ps g) l vs -> ps !! p = None -> Forall2 (views m (<[p := b]> ps) g) l vs.
Proof.
  intros Hv Ep. eapply Forall2_impl; [exact Hv|]. intros a v (x & f & q & Ex & Hh & Hz & Hc & Hr). exists x, f, q. split_and!; try done; try apply Hr.
  apply is_chain_insert; [|done]. intros ([z d] & Hz' & Hin)%list_elem_of_fmap. simpl in Hz'. subst z. by rewrite (is_chain_lookup _ _ _ _ _ Hc Hin) in Ep.
Qed.

Lemma views_bytes m m' ps g h l vs : Forall2 (views m ps g) l vs -> Forall (hdr_apart g h) l -> (forall i, ~ (h <= i < h + 20) -> m' !! i = m !! i) ->
  Forall2 (views m' ps g) l vs.
Proof.
  intros Hv Ha Hm. induction Hv as [|a v l vs Hv _ IH]; constructor; apply Forall_cons_1 in Ha as [(x0 & Ex0 & Hx) Ha]; [|by apply IH].
  destruct Hv as (x & f & q & Ex & (b0 & b1 & b2 & b3 & y & Hb & L1 & Eq & L2) & Hr). assert (x0 = x) as -> by congruence. exists x, f, q. split_and!; try apply Hr; [done|].
  exists b0, b1, b2, b3, y. split_and!; [done| |done|]; rewrite <- ?L1, <- ?L2; apply load_ext; intros i Hi; apply Hm; lia.
Qed.

Lemma views_store m ps g a x l vs : Forall2 (views m ps g) l vs -> a ∉ l -> Forall2 (views m ps (<[a := x]> g)) l vs.
Proof.
  induction 1 as [|b v l vs (z & f & q & Ez & Hr) _ IH]; intros Ha; constructor; [|apply IH; set_solver].
  exists z, f, q. rewrite lookup_insert_ne by set_solver. done.
Qed.

(** What the connection is when the segment with SYN or FIN is queued; [h] is the head of
    the unsent queue. *)
Definition enqueued (flags h : Z) c : conn :=
  let c := with_snd_lbb (u32 (snd_lbb (c_snd c) + 1)) (with_oversize 0 (with_unsent h c)) in
  let c := if (flags &c TCP_FIN) =? 0 then c else tcp_set_flags TF_FIN c in
  with_queuelen (u16 (snd_queuelen (c_snd c) + 1)) c.

Lemma enqueued_flags flags h c : unacked (c_queues (enqueued flags h c)) = unacked (c_queues c) /\ unsent (c_queues (enqueued flags h c)) = h /\
  snd_queuelen (c_snd (enqueued flags h c)) = u16 (snd_queuelen (c_snd c) + 1).
Proof. unfold enqueued. by case_match. Qed.

Lemma syn_or_fin flags : (flags &c 3) <> 0 -> negb ((flags &c TCP_SYN) =? 0) || negb ((flags &c TCP_FIN) =? 0) = true.
Proof.
  intros Hf. unfold TCP_SYN, TCP_FIN. destruct (Z.eqb_spec (flags &c 2) 0) as [E2|]; [|done]. destruct (Z.eqb_spec (flags &c 1) 0) as [E1|]; [|done].
  exfalso. apply Hf. change 3 with (Z.lor 2 1). by rewrite Z.land_lor_distr_r, E1, E2.
Qed.

(** From the appended segment to the end. *)
Lemma enqueue_end n t g c x h flags : let c1 := with_unsent h c in let c2 := enqueued flags h c in
  (flags &c 3) <> 0 -> h <> NULL -> pbuf_clen (sg_p x) n = Ok (1, n) ->
  (on_tcp (upd_conn pcb (with_oversize 0));;
   (if negb ((flags &c TCP_SYN) =? 0) || negb ((flags &c TCP_FIN) =? 0)
    then on_tcp (upd_conn pcb (fun c => with_snd_lbb (u32 (snd_lbb (c_snd c) + 1)) c)) else mret tt);;
   (if negb ((flags &c TCP_FIN) =? 0) then on_tcp (upd_conn pcb (tcp_set_flags TF_FIN)) else mret tt);;
   n ← nb (pbuf_clen (sg_p x));
   on_tcp (upd_conn pcb (fun c => with_queuelen (u16 (snd_queuelen (c_snd c) + n)) c));;
   c ← on_tcp (get_conn pcb);
   (if negb (snd_queuelen (c_snd c) =? 0)
    then assert (negb (unacked (c_queues c) =? NULL) || negb (unsent (c_queues c) =? NULL)) else mret tt);;
   mret ERR_OK) (qst n t g c1) = Ok (ERR_OK, qst n t g c2).
Proof.
  intros c1 c2 Hf Hh Hcl. rewrite (bind_ok _ _ _ _ _ (q_upd s pcb k n t g c1 _)), syn_or_fin by done. rewrite (bind_ok _ _ _ _ _ (q_upd s pcb k n t g _ _)).
  set (c3 := with_snd_lbb _ _).
  rewrite (bind_ok _ _ _ tt (qst n t g (if (flags &c TCP_FIN) =? 0 then c3 else tcp_set_flags TF_FIN c3)))
    by (destruct ((flags &c TCP_FIN) =? 0); [done|apply q_upd]).
  rewrite (bind_ok _ _ _ _ _ (q_nb _ n t g _ _ _ Hcl)), (bind_ok _ _ _ _ _ (q_upd s pcb k n t g _ _)).
  change (with_queuelen _ _) with c2. rewrite (bind_ok _ _ _ _ _ (q_conn s pcb k n t g c2)).
  rewrite (bind_ok _ _ _ tt (qst n t g c2)); [done|]. destruct (negb _); [|done]. destruct (enqueued_flags flags h c) as (_ & Eh & _). fold c2 in Eh.
  unfold assert. by rewrite Eh, (proj2 (Z.eqb_neq _ _) Hh), orb_true_r.
Qed.

(** Queues where only the allocators or the flags have changed. *)
Lemma queues_same n n' g c c' lu ls vu vs : send_queues n g c lu ls vu vs -> n_mem n' = n_mem n -> n_pbufs n' = n_pbufs n -> c_queues c' = c_queues c ->
  snd_queuelen (c_snd c') = snd_queuelen (c_snd c) -> send_queues n' g c' lu ls vu vs.
Proof. intros (H1 & H2 & H3 & H4 & H5 & H6) Em Ep Ec El. unfold send_queues. rewrite Em, Ep, Ec, El. by split_and!. Qed.

Lemma queues_freed n n' t g c c' R lu ls vu vs : seg_inv (qst n' t g c) R -> released n n' -> send_queues n g c lu ls vu vs -> c_queues c' = c_queues c ->
  snd_queuelen (c_snd c') = snd_queuelen (c_snd c) -> send_queues n' g c' lu ls vu vs.
Proof.
  intros Hi Hr (Q1 & Q2 & Q3 & Q4 & Q5 & Q6) Ec El. unfold send_queues. rewrite Ec, El.
  split_and!; try done; by apply (views_after pools s pcb k n n' t g [] c R); try done; intros a _ ?%elem_of_nil.
Qed.

(** The header of the new segment, and the bytes around it. *)
Lemma created_header n t c R p opf flags seq n' g' h : seg_inv (qst n' t g' (with_unsent h c)) R -> is_u32 seq -> 0 <= flags < 64 ->
  n_pbufs n' = <[p := moved (enq_pbuf p (LWIP_TCP_OPT_LENGTH opf)) TCP_HLEN]> (n_pbufs n) ->
  stores (n_mem n) (queued_writes (enq_hdr p) (local_port k) (remote_port c) seq (5 + LWIP_TCP_OPT_LENGTH opf / 4) flags) = Some (n_mem n') ->
  hdr_at (n_mem n') (enq_hdr p) seq flags /\ (forall i, ~ (enq_hdr p <= i < enq_hdr p + 20) -> n_mem n' !! i = n_mem n !! i).
Proof.
  intros (fl & hl & (_ & _ & Hpl & _) & _) Hs Hf Ep Em. split.
  - destruct (opt_length opf) as [Eo|Eo]; rewrite Eo in *; (eapply queued_hdr_at; [|exact Hs| |exact Hf|exact Em]; [|by (left + right)]).
    all: intros i Hi; apply (stores_dom _ _ _ Em); destruct (Hpl p _ ltac:(change (snet (qst n' t g' (with_unsent h c))) with n'; rewrite Ep; apply lookup_insert_eq)) as (_ & _ & Hv & _);
      rewrite moved_small in Hv by (cbn; unfold TCP_HLEN; lia); apply Hv; cbn [payload len with_tot_len with_len with_payload];
      change (payload (enq_pbuf p _) - TCP_HLEN) with (enq_hdr p); cbn [enq_pbuf ram_pbuf len]; unfold TCP_HLEN; lia.
  - intros i Hi. by eapply stores_outside; [apply queued_within|exact Em|].
Qed.

(** The queues with the new segment [a]. *)
Lemma queues_appended n n' g g' c a x p b h flags lu ls vu vs :
  send_queues n g c lu ls vu vs -> n_pbufs n !! p = None -> n_pbufs n' = <[p := b]> (n_pbufs n) ->
  (forall i, ~ (sg_tcphdr x <= i < sg_tcphdr x + 20) -> n_mem n' !! i = n_mem n !! i) ->
  hdr_at (n_mem n') (sg_tcphdr x) (snd_lbb (c_snd c)) flags -> (flags &c 3) <> 0 -> sg_p x = p -> p <> NULL -> sg_len x = 0 -> next b = NULL ->
  g' !! a = Some x -> seg_chain g' h (ls ++ [a]) -> a ∉ lu -> a ∉ ls ->
  (forall y l, a ∉ l -> (forall z, z ∈ l -> z ∉ ls) -> seg_chain g y l -> seg_chain g' y l) ->
  (forall m ps l vs, Forall2 (views m ps (<[a := x]> g)) l vs -> Forall2 (views m ps g') l vs) ->
  Forall (hdr_apart g (sg_tcphdr x)) (lu ++ ls) -> snd_queuelen (c_snd c) < 65535 ->
  send_queues n' g' (enqueued flags h c) lu (ls ++ [a]) vu (vs ++ [mk_view (snd_lbb (c_snd c)) 1 0 1]).
Proof.
  intros (Q1 & Q2 & Q3 & Q4 & Q5 & Q6) Ef Epb Hout Hhd Hsf Exp Hpz Exl Hbn Ex Hch Hau Has Hoth Hvr Hap Hlen. apply Forall_app in Hap as [Hapu Haps].
  destruct (enqueued_flags flags h c) as (Eu & Eh & El). unfold send_queues. rewrite Eu, Eh, El.
  assert (forall l v, Forall2 (views (n_mem n) (n_pbufs n) g) l v -> Forall (hdr_apart g (sg_tcphdr x)) l -> a ∉ l -> Forall2 (views (n_mem n') (n_pbufs n') g') l v) as Hold.
  { intros l v Hv Ha Hni. apply Hvr, views_store; [|done]. apply (views_bytes (n_mem n) _ _ _ (sg_tcphdr x)); [|done|exact Hout]. rewrite Epb. by apply views_fresh. }
  split_and!; [apply Hoth; [done| |done]|done| |by apply Hold| |].
  - intros z Hz1 Hz2. apply NoDup_app in Q3 as (_ & Hd & _). by apply (Hd z).
  - rewrite app_assoc. apply NoDup_app. split_and!; [done|intros z Hz1 ->%list_elem_of_singleton; set_solver|apply NoDup_singleton].
  - apply Forall2_app; [by apply Hold|]. constructor; [|constructor]. exists x, flags, [(p, b)]. rewrite Exp, Exl, (proj2 (Z.eqb_neq _ _) Hsf).
    split_and!; [done..| |done|done|done]. rewrite Epb. split_and!; [done|done|apply lookup_insert_eq|done].
  - rewrite total_app. cbn. rewrite u16_small; [lia|]. pose proof (pbufs_pos _ _ _ _ _ Q4). pose proof (pbufs_pos _ _ _ _ _ Q5). unfold is_u16. lia.
Qed.

End Enq.
