(* ===== verification/TcpEx.v ===== *)
(** * Concrete states of TCP

    Configurations in which the assumptions of the theorems on TCP hold: one control
    block from its pool, a segment with options, and a connection with one outstanding
    segment. *)

From stdpp Require Import base numbers list gmap gmultiset functions sorting.
From S2P Require Import Prelude Chksum Memp Pbuf PbufSpec PbufData PbufRefs Ethernetif Ip4Addr Ethernet Etharp EtharpSpec Ip4 Ip4Spec TcpApi Tcp TcpOptSpec TcpWndSpec TcpSpec TcpSeg TcpSegSpec TcpAckSpec TcpTypes TcpOut TcpOutSpec TcpEnqSpec StackEx.
Open Scope Z_scope.
Open Scope c_scope.

Lemma ex_bytes : map_Forall (fun _ => is_u8) ex_stack_mem.
Proof.
  unfold ex_stack_mem, mem_on. intros a x E. apply elem_of_list_to_map_2 in E. apply list_elem_of_fmap in E as (b & [= -> ->] & _). unfold is_u8. lia.
Qed.

Lemma ex_byte a : 536870912 <= a < 536936448 -> ex_stack_mem !! a = Some (a mod 256).
Proof. intros Ha. unfold ex_stack_mem. apply mem_on_lookup. rewrite !elem_of_app, !elem_of_seqZ. lia. Qed.

Local Opaque ex_stack_mem.

Definition ex_com (port next : Z) (st : tcp_state) : pcb_common := mk_common 0 0 0 0 0 255 next 0 st 64 port.
Definition ex_conn : conn :=
  mk_conn 0 0 536 (mk_timers 0 0 0 0) (mk_rcv 4294967290 5840 5840 4294967290) (mk_rtt (-1) 0 0 0 6 6 0) (mk_congestion 0 6510 1 5840 0)
    (mk_snd 6510 0 6509 6510 0 0 2920 0 0 0) (mk_queues 0 0 0 0) (mk_callbacks 0 0 0 0 0 0) (mk_keepalive 7200000 0 0 0 0).
Definition ex_block (port : Z) : tcp_pcb := mk_pcb (ex_com port NULL CLOSED) (Conn ex_conn).
Definition ex_in : tcp_in := mk_in 0 0 0 0 0.
Definition ex_tcps (a port : Z) (l : list Z) : tcps :=
  mk_tcps {[ a := ex_block port ]} (fun i => match i with tcp_bound_pcbs => hd NULL l | _ => NULL end) 49152 0 6510 (mk_opts 0 0 0 0 0) ∅ ex_in.
Definition ex_ip (k : memp_state) (t : tcps) : ip Z tcps :=
  mk_ip (mk_arp (mk_link (mk_eth (mk_net k 536870912 ∅ ex_stack_mem 0) (mk_mac 0 2 false false 0 0 0 0 [] 0)) {[ 4096 := ex_up ]}) arp_table_init 0)
    [4096] 4096 0 (mk_globals NULL NULL NULL 0 0 0) t.

(** The element of the pool that [memp_malloc] hands out first. *)
Definition ex_pcb : Z := 268435620.
Definition ex_fl : memp_t -> list Z := <[MEMP_TCP_PCB := tail (rev (elems (example_pools MEMP_TCP_PCB)))]> (fun t => rev (elems (example_pools t))).

(** Starting the timer does nothing without connections. *)
Definition ex_timer : M (ip Z tcps) unit := mret tt.
Global Instance ex_timer_laws : TimerLaws example_pools ex_timer.
Proof. intros s fl Hr. by exists s, fl. Qed.

Lemma ex_memp : exists k, pool_rep example_pools k ex_fl.
Proof.
  pose proof (proj1 example_net_inv) as Hr. destruct (memp_malloc_spec example_pools _ _ MEMP_TCP_PCB Hr) as (k & _ & Hk); [discriminate|]. exists k. exact Hk.
Qed.

(** The block is in the list [l] of bound ones exactly if it has a port. *)
Lemma ex_tcp_ok k port : pool_rep example_pools k ex_fl ->
  let l := if port =? 0 then [] else [ex_pcb] in
  tcp_ok example_pools ∅ (ex_ip k (ex_tcps ex_pcb port l)) (fun i => match i with tcp_bound_pcbs => l | _ => [] end) ex_fl.
Proof.
  intros Hk l. assert (forall a p, ({[ ex_pcb := ex_block port ]} : gmap Z tcp_pcb) !! a = Some p -> a = ex_pcb /\ p = ex_block port) as Hone.
  { intros a p. rewrite lookup_singleton_Some. naive_solver. }
  split_and!; [|done|done|].
  - unfold l. constructor; cbn [pcbs heads ex_tcps i_upper ex_ip].
    + intros []; try done. destruct (port =? 0); [done|]. cbn. split_and!; [done|done|]. exists (ex_block port). split; reflexivity.
    + cbn. destruct (port =? 0); [constructor|apply NoDup_singleton].
    + intros [] a p; try (by intros ?%elem_of_nil). destruct (Z.eqb_spec port 0); [by intros ?%elem_of_nil|]. intros _ [-> ->]%Hone. done.
    + intros i a ?%elem_of_empty. done.
    + intros a p [-> ->]%Hone _ [Hs|Hp]; [done|]. exists tcp_bound_pcbs. cbn in Hp. rewrite (proj2 (Z.eqb_neq _ _) Hp). left.
    + intros a p [-> ->]%Hone. done.
  - intros a p [-> ->]%Hone. split; [vm_compute; by repeat constructor|]. change (ex_fl (pool_of (ex_block port))) with [268435456].
    intros Hx%list_elem_of_singleton. discriminate Hx.
Qed.

(** The first bind of the echo server. *)
Lemma tcp_bind_spec_witness : exists k e s', tcp_bind ex_timer ex_pcb None 1234 (ex_ip k (ex_tcps ex_pcb 0 [])) = Ok (e, s') /\ (e = ERR_USE \/ e = ERR_OK).
Proof.
  destruct ex_memp as [k Hk].
  destruct (tcp_bind_spec example_pools ex_timer (ex_ip k (ex_tcps ex_pcb 0 [])) _ ex_fl ex_pcb (ex_block 0) None 1234 (ex_tcp_ok k 0 Hk))
    as (e & s' & E & Hc); [apply lookup_singleton_eq|reflexivity|reflexivity| |].
  { change (pcbs (i_upper (ex_ip k (ex_tcps ex_pcb 0 [])))) with ({[ ex_pcb := ex_block 0 ]} : gmap Z tcp_pcb). rewrite map_size_singleton. lia. }
  exists k, e, s'. split; [exact E|]. destruct Hc as [[He _]|[He _]]; [left|right]; exact He.
Defined.

Lemma tcp_bind_twice_witness : exists k s', tcp_bind ex_timer ex_pcb None 4321 (ex_ip k (ex_tcps ex_pcb 1234 [ex_pcb])) = Ok (ERR_OK, s').
Proof.
  destruct ex_memp as [k Hk].
  destruct (tcp_bind_twice example_pools ex_timer (ex_ip k (ex_tcps ex_pcb 1234 [ex_pcb])) _ ex_fl ex_pcb (ex_block 1234) [] None 4321 (ex_tcp_ok k 1234 Hk))
    as (s' & E & _); [reflexivity|apply lookup_singleton_eq|discriminate| |exists k, s'; exact E].
  intros i y q _ Eq. change (({[ ex_pcb := ex_block 1234 ]} : gmap Z tcp_pcb) !! y = Some q) in Eq. apply lookup_singleton_Some in Eq as [_ <-]. intros [Hx _]. discriminate Hx.
Defined.


Definition ex_no_pcbs : tcps := mk_tcps ∅ (fun _ => NULL) 0 0 6510 (mk_opts 0 0 0 0 0) ∅ ex_in.
Lemma tcp_new_port_wraps_witness : (tcp_init 32767;; tcp_new_port) ex_no_pcbs = Ok (0, set_port 0 ex_no_pcbs).
Proof.
  destruct (tcp_new_port_wraps ex_no_pcbs 32767) as [E _]; [unfold is_u32; lia|reflexivity|intros i; reflexivity|exact E].
Defined.

(** The stream positions around the wrap of the sequence numbers. *)
Lemma window_refines_witness : exists t c', run_wnds ex_pcb [wop_accept 1000; wop_read 400; wop_announce; wop_accept 2000] t =
  Ok (tt, set_conn ex_pcb (ex_com 1234 NULL ESTABLISHED) c' t) /\ rcv_nxt (c_rcv c') = 2994.
Proof.
  set (t := mk_tcps {[ ex_pcb := mk_pcb (ex_com 1234 NULL ESTABLISHED) (Conn ex_conn) ]} (fun _ => NULL) 49152 0 6510 (mk_opts 0 0 0 0 0) ∅ ex_in).
  destruct (window_refines ex_pcb (ex_com 1234 NULL ESTABLISHED) ltac:(discriminate) ltac:(discriminate)
    [wop_accept 1000; wop_read 400; wop_announce; wop_accept 2000] t ex_conn (mk_window 4294967290 5840 5840 4294967290)) as (c' & E & (Hn & _) & _).
  - apply lookup_singleton_eq.
  - split_and!; reflexivity.
  - split_and!; vm_compute; congruence.
  - vm_compute. split; congruence.
  - cbn [w_pres w_pre]. repeat split; vm_compute; congruence.
  - exists t, c'. split; [exact E|exact Hn].
Defined.

(** Two no-operations, a segment size of 1200 and an unknown option of three bytes, with
    the first five bytes in one packet buffer and the rest in the next. *)
Definition ex_options : list Z := [1; 1; 2; 4; 4; 176; 99; 3; 0; 0; 0; 0].
Definition ex_segment (m : memory) : ip Z tcps :=
  mk_ip (mk_arp (mk_link (mk_eth (mk_net example_memp1 536870912 ∅ m 0) (mk_mac 0 2 false false 0 0 0 0 [] 0)) {[ 4096 := ex_up ]}) arp_table_init 0)
    [4096] 4096 0 (mk_globals NULL NULL NULL 0 0 0)
    (mk_tcps {[ ex_pcb := ex_block 1234 ]} (fun _ => NULL) 49152 0 6510 (mk_opts 980 12 5 2000 0) ∅ ex_in).
Definition ex_segment_mem : memory :=
  list_to_map (zip (seqZ 1000 5) (take 5 ex_options) ++ zip (seqZ 2000 8) (drop 5 ex_options ++ [7])).

Lemma tcp_parseopt_mss_witness : exists i, tcp_parseopt ex_pcb (ex_segment ex_segment_mem) =
  Ok (tt, at_opt (ex_segment ex_segment_mem) ex_pcb (ex_com 1234 NULL CLOSED) ex_conn i 1200).
Proof.
  destruct (tcp_parseopt_mss (ex_segment ex_segment_mem) ex_pcb (ex_com 1234 NULL CLOSED) ex_conn ex_options 7) as (i & E & _).
  - discriminate.
  - apply lookup_singleton_eq.
  - split_and!; [reflexivity|simpl; lia|discriminate|]. intros i x Hx.
    do 12 (destruct i as [|i]; [injection Hx as <-; split; [unfold is_u8; lia|reflexivity]|]). discriminate Hx.
  - split; [unfold is_u8; lia|reflexivity].
  - vm_compute. split; congruence.
  - exists i. exact E.
Defined.

(** ** A connection with an outstanding segment *)

Definition ex_seg : Z := hd NULL (rev (elems (example_pools MEMP_TCP_SEG))).
Definition ex_seg_p : Z := 536870912.
Definition ex_seg_b : pbuf := ram_pbuf ex_seg_p 54 40.
Definition ex_hdr : Z := 536870984.
Definition ex_s : tcp_seg := mk_seg NULL ex_seg_p 20 0 ex_hdr.
(** The bytes of the header are those of the memory of the example. *)
Definition ex_seq : Z := word4 79 78 77 76.
Definition ex_view : seg_view := mk_view ex_seq 21 20 1.
Definition ex_sender : conn :=
  mk_conn 80 0 536 (mk_timers 0 0 0 0) (mk_rcv 100 5840 5840 5940) (mk_rtt 0 1 ex_seq 0 6 6 0) (mk_congestion 0 ex_seq 1072 2920 0)
    (mk_snd (ex_seq + 21) 99 ex_seq (ex_seq + 21) 5840 5840 2900 1 0 0) (mk_queues 0 ex_seg 0 0) (mk_callbacks 0 0 0 0 0 0) (mk_keepalive 7200000 0 0 0 0).
Definition ex_k : pcb_common := ex_com 1234 NULL ESTABLISHED.
Definition ex_t : tcps :=
  mk_tcps {[ ex_pcb := mk_pcb ex_k (Conn ex_sender) ]} (fun i => match i with tcp_active_pcbs => ex_pcb | _ => NULL end) 49152 3 6510
    (mk_opts 536875008 0 0 0 0) {[ ex_seg := ex_s ]} (mk_in 100 (ex_seq + 21) 0 0 16).
Definition ex_net (m : memory) (k : memp_state) : net Z := mk_net k 536871040 {[ ex_seg_p := ex_seg_b ]} m 0.
Definition ex_sending (k : memp_state) : ip Z tcps :=
  mk_ip (mk_arp (mk_link (mk_eth (ex_net ex_stack_mem k) (mk_mac 0 2 false false 0 0 0 0 [] 0)) {[ 4096 := ex_up ]}) arp_table_init 0)
    [4096] 4096 0 (mk_globals NULL NULL NULL 0 0 0) ex_t.
Definition ex_seg_fl : memp_t -> list Z := <[MEMP_TCP_SEG := tail (rev (elems (example_pools MEMP_TCP_SEG)))]> (fun t => rev (elems (example_pools t))).

Lemma ex_seg_memp : exists k, pool_rep example_pools k ex_seg_fl.
Proof.
  pose proof (proj1 example_net_inv) as Hr. destruct (memp_malloc_spec example_pools _ _ MEMP_TCP_SEG Hr) as (k & _ & Hk); [discriminate|]. exists k. exact Hk.
Qed.

Lemma ex_net_ok m k : pool_rep example_pools k ex_seg_fl -> valid_range m 536870912 65536 ->
  net_ok example_pools (ex_net m k) ex_seg_fl {[ ex_seg_p ]} (ptr ex_seg_p ⊎ ∅).
Proof.
  intros Hk Hm. assert (forall a b, n_pbufs (ex_net m k) !! a = Some b -> a = ex_seg_p /\ b = ex_seg_b) as Hone.
  { intros a b Eb. cbn [n_pbufs ex_net] in Eb. by apply lookup_singleton_Some in Eb as [<- <-]. }
  split_and!.
  - split_and!; [exact Hk| |].
    + cbn. split_and!; [lia|lia|reflexivity|]. intros a ->%elem_of_singleton. unfold ex_seg_p. lia.
    + intros a b [-> ->]%Hone. split; [cbn; lia|]. right. right. split; [reflexivity|]. by apply elem_of_singleton.
  - cbn [n_pbufs ex_net]. rewrite <- insert_empty. apply rc_alloc; [|apply lookup_empty|done|done|done].
    split_and!; [intros a b; by rewrite lookup_empty|intros a Ha; by apply gmultiset_not_elem_of_empty in Ha|intros a b; by rewrite lookup_empty].
  - intros a b [-> ->]%Hone. apply (ram_pbuf_placed example_pools); [unfold ex_seg_p in *; cbn; lia..|exact Hm].
  - exact Hm.
Qed.

Lemma ex_sending_inv k : pool_rep example_pools k ex_seg_fl -> seg_inv example_pools (ex_sending k) ∅.
Proof.
  intros Hk. exists ex_seg_fl, {[ ex_seg_p ]}. change (snet (ex_sending k)) with (ex_net ex_stack_mem k). change (segs (i_upper (ex_sending k))) with ({[ ex_seg := ex_s ]} : gmap Z tcp_seg).
  assert (rev (elems (example_pools MEMP_TCP_SEG)) = ex_seg :: ex_seg_fl MEMP_TCP_SEG) as El by (vm_compute; reflexivity).
  assert (NoDup (ex_seg :: ex_seg_fl MEMP_TCP_SEG)) as Hnd by (rewrite <- El; apply (proj1 example_net_inv MEMP_TCP_SEG ltac:(done))).
  assert (forall y, y ∈ elems (example_pools MEMP_TCP_SEG) <-> y ∈ ex_seg :: ex_seg_fl MEMP_TCP_SEG) as Hel.
  { intros y. rewrite <- El, !list_elem_of_In, <- in_rev. done. }
  assert (seg_ptrs ({[ ex_seg := ex_s ]} : gmap Z tcp_seg) = ptr ex_seg_p) as Ep.
  { rewrite <- insert_empty, seg_ptrs_insert by apply lookup_empty. change (seg_ptrs ∅) with (∅ : gmultiset Z). by rewrite (right_id_L ∅ (⊎)). }
  rewrite Ep. split; [apply ex_net_ok; [exact Hk|apply ex_stack_valid; lia]|]. split.
  - intros a [x [<- _]%lookup_singleton_Some]. apply Hel. left.
  - intros a Ha%Hel. rewrite lookup_singleton_None. apply NoDup_cons in Hnd as [Hni _]. split; [intros Hin <-; exact (Hni Hin)|].
    intros Hne. apply elem_of_cons in Ha as [Ha|Ha]; [destruct (Hne (eq_sym Ha))|exact Ha].
Qed.

Lemma ex_queues k : send_queues (snet (ex_sending k)) {[ ex_seg := ex_s ]} ex_sender [ex_seg] [] [ex_view] [].
Proof.
  change (snet (ex_sending k)) with (ex_net ex_stack_mem k). split_and!; try done.
  - split_and!; [done|vm_compute; discriminate|]. exists ex_s. split; [apply lookup_singleton_eq|done].
  - apply NoDup_singleton.
  - constructor; [|constructor]. exists ex_s, 85, [(ex_seg_p, ex_seg_b)]. split_and!; try done.
    + exists 76, 77, 78, 79, 84. split_and!; [by repeat constructor| |done|].
      * cbn [load n_mem ex_net sg_tcphdr ex_s]. rewrite !ex_byte by (unfold ex_hdr; lia). reflexivity.
      * cbn [load n_mem ex_net sg_tcphdr ex_s]. rewrite !ex_byte by (unfold ex_hdr; lia). reflexivity.
Qed.

Lemma ex_numbers : numbers_ok ex_sender.
Proof. split; [|unfold rtt_ok, max_rtt; cbn; lia]. unfold cong_ok, is_u16, is_u8, TCP_MSS. cbn. lia. Qed.

Lemma ex_seg_nonnull : ex_seg <> NULL.
Proof. vm_compute. discriminate. Qed.


Lemma tcp_rexmit_rto_prepare_spec_witness : exists k e g c,
  tcp_rexmit_rto_prepare ex_pcb (ex_sending k) = Ok (e, qst (ex_sending k) ex_pcb ex_k (snet (ex_sending k)) ex_t g c) /\ (e = ERR_VAL \/ rttest (c_rtt c) = 0).
Proof.
  destruct ex_seg_memp as [k Hk].
  destruct (tcp_rexmit_rto_prepare_spec example_pools (ex_sending k) ex_pcb ex_k ∅ ex_sender [ex_seg] [] [ex_view] [])
    as (e & g & c & E & Hc); [exact (ex_sending_inv k Hk)|apply lookup_singleton_eq|discriminate|exact (ex_queues k)|].
  exists k, e, g, c. split; [exact E|]. destruct Hc as [(He & _)|(_ & _ & _ & _ & v & _ & _ & _ & Hr)]; [left; exact He|right; exact Hr].
Defined.

Lemma tcp_pcb_purge_releases_witness : exists k n, tcp_pcb_purge ex_pcb (ex_sending k) =
  Ok (tt, qst (ex_sending k) ex_pcb ex_k n ex_t (foldr delete (segs ex_t) [ex_seg]) (purged ex_sender)) /\ n_mem n = ex_stack_mem.
Proof.
  destruct ex_seg_memp as [k Hk].
  destruct (tcp_pcb_purge_releases example_pools (ex_sending k) ex_pcb ex_k ∅ ex_sender [] [] [ex_seg]) as (n & E & _ & Em & _).
  - change (ptr (refused_data (c_queues ex_sender))) with (∅ : gmultiset Z). rewrite (left_id_L ∅ (⊎)). exact (ex_sending_inv k Hk).
  - apply lookup_singleton_eq.
  - discriminate.
  - repeat split; discriminate.
  - reflexivity.
  - reflexivity.
  - exact (proj1 (ex_queues k)).
  - apply NoDup_singleton.
  - exists k, n. split; [exact E|exact Em].
Defined.

Lemma ex_sending_typed k : ip_typed (ex_sending k).
Proof.
  split; [|exact ex_bytes]. change (i_upper (ex_sending k)) with ex_t. split_and!.
  - intros a p E. cbn [pcbs ex_t] in E. apply lookup_singleton_Some in E as [_ <-]. split; [unfold common_typed, is_u8, is_u16, is_u32; cbn; lia|].
    unfold conn_typed, timers_typed, rcv_typed, rtt_typed, cong_typed, snd_typed, keep_typed, is_u8, is_u16, is_u32, is_s16; split_and!; vm_compute; congruence.
  - intros a p E. cbn [segs ex_t] in E. apply lookup_singleton_Some in E as [_ <-]. unfold seg_typed, is_u16, is_u8. cbn. lia.
  - unfold is_u16. cbn. lia.
  - unfold is_u32. cbn. lia.
  - unfold is_u32. cbn. lia.
  - unfold opts_typed, is_u16. cbn. lia.
  - unfold in_typed, is_u8, is_u16, is_u32. split_and!; vm_compute; congruence.
Qed.


(** ** An idle connection between two hosts of the network *)

Definition ex_open : pcb_common := mk_common 838969536 855746752 0 0 0 255 NULL 0 ESTABLISHED 64 1234.
Definition ex_open_tcps : tcps :=
  mk_tcps {[ ex_pcb := mk_pcb ex_open (Conn ex_conn) ]} (fun i => match i with tcp_active_pcbs => ex_pcb | _ => NULL end) 49152 3 6510 (mk_opts 0 0 0 0 0) ∅ ex_in.
Definition ex_idle : ip Z tcps := mk_ip (i_arp ex_stack) [4096] 4096 0 (mk_globals NULL NULL NULL 0 0 0) ex_open_tcps.
Definition ex_output : Z -> Z -> Z -> M (arp Z) Z := etharp_output example_pools (driver_link ex_dma).

Lemma ex_open_held : held ex_open_tcps = ∅.
Proof. vm_compute. reflexivity. Qed.

Lemma ex_idle_ok : ip_ok example_pools (driver_link ex_dma) ex_idle ∅.
Proof.
  destruct ex_ip_ok as (Ha & Hl & Hd). split; [|split; [exact Hl|exact Hd]]. change (i_upper ex_idle) with ex_open_tcps. rewrite ex_open_held. exact Ha.
Qed.

Lemma ex_open_typed : pcb_typed (mk_pcb ex_open (Conn ex_conn)).
Proof.
  split; [unfold common_typed, is_u8, is_u16, is_u32; cbn; lia|].
  unfold conn_typed, timers_typed, rcv_typed, rtt_typed, cong_typed, snd_typed, keep_typed, is_u8, is_u16, is_u32, is_s16; cbn; lia.
Qed.

Lemma tcp_send_empty_ack_spec_witness : exists e s' c', tcp_send_empty_ack example_pools ex_output ex_pcb ex_idle = Ok (e, s') /\
  i_upper s' = i_upper (set_conn_of ex_idle ex_pcb ex_open c').
Proof.
  destruct (tcp_send_empty_ack_spec example_pools (driver_link ex_dma) ex_output ex_idle ∅ ex_pcb ex_open ex_conn ex_idle_ok)
    as (e & s' & c' & E & _ & _ & Eu & _); [discriminate|apply lookup_singleton_eq|exact ex_open_typed|reflexivity|unfold is_u16; cbn; lia|].
  exists e, s', c'. split; [exact E|exact Eu].
Defined.


Lemma tcp_keepalive_spec_witness : exists e s', tcp_keepalive example_pools ex_output ex_pcb ex_idle = Ok (e, s').
Proof.
  destruct (tcp_keepalive_spec example_pools (driver_link ex_dma) ex_output ex_idle ∅ ex_pcb ex_open ex_conn ex_idle_ok)
    as (e & s' & E & _); [discriminate|apply lookup_singleton_eq|exact ex_open_typed|reflexivity|unfold is_u16; cbn; lia|].
  exists e, s'. exact E.
Defined.

